(* ===== verification/_CoqProject ===== *)
-Q . S2P
Prelude.v
Order.v
Text.v
Domain.v
Action.v
HotState.v
Routing.v
Catalog.v
Grants.v
RoutePlan.v
Json.v
Usage.v
Pricing.v
PolicyStore.v
RuntimePolicy.v
PolicyFacts.v
BudgetConcurrency.v
Redis.v
RedisFacts.v
Reconciler.v
Outbox.v
Delivery.v
Terminal.v
Auth.v
CedarPolicy.v
Publication.v
PublicationFacts.v
GwRoute.v
AdminRecords.v
DraftCatalog.v
DraftFacts.v
AdminState.v
AdminValidation.v
AdminHandlers.v
AdminEmergency.v
AdminFacts.v
AdminGuards.v
AdminOutcomes.v
AdminScenarios.v
Provider.v
GwRequest.v
Ingress.v
IngressFacts.v
IngressScenarios.v
WebSocket.v
WebSocketFacts.v
SessionScenarios.v
PolicyAdmin.v
PolicyHandlers.v
PolicyAdminFacts.v
Directory.v
DirectoryHandlers.v
DirectoryFacts.v
GwLogin.v
GwLoginFacts.v
PlatAction.v
PlatUser.v
PlatRole.v
PlatMembership.v
PlatInvitation.v
PlatAudit.v
PlatSession.v
PlatResource.v
PlatRoute.v
PlatIdentity.v
PlatSecret.v
PlatConfig.v
PlatService.v
PlatRequests.v
PlatHandlers.v
PlatLogin.v
PlatLaws.v
PlatAccess.v
PlatInvariant.v
PlatReach.v
PlatHistory.v
PlatJoin.v
PlatAnswers.v
PlatOidc.v
PlatScenarios.v
