(* ===== verification/Prelude.v ===== *)
(** * The Starweaver gateway and platform

    A development of the two services of the repository: the gateway crate,
    [src/crates/starweaver-gateway/src], and the platform crate,
    [src/crates/starweaver-platform/src].

    The gateway takes a model request from a client, authenticates it,
    authorizes the action, plans a route to a provider endpoint from an active
    catalog snapshot, reserves budget and quota, forwards the request, accounts
    for the usage and tells subscribers about budgets that were crossed.  The
    files below follow that order.  A Rust struct or enum [T] is a record or an
    inductive type, usually [T.t] of a module [T]; a function keeps its name;
    a fallible function returns an error value; code that calls repositories
    and can stop in between is in the state and error monad of
    [RuntimePolicy.v]; an [Arc<Mutex<..>>] store is a record whose methods are
    functions on it, one atomic call each.

    The platform is the control plane: users log in (OIDC or a single
    configured user), belong to organizations and projects, hold roles there,
    invite others, and administer identity providers, secrets and sessions;
    the foundation routes answer requests for business resources.  Its files
    are those named [Plat...].  A handler is a function of the request, the
    random bytes and the time it draws, in a state and error monad over the
    whole service state.

    ** Files of the gateway

    - [Prelude.v]: notations, tactics, hint databases, fixed-width arithmetic
      (saturating and wrapping [i64], saturating [i32]), errors as [result],
      [for_each] over a fallible body, and list and string functions of the
      Rust library ([sort_by], [join], [contains], [ends_with]).
    - [Order.v]: comparators as total preorders and the stability of sorting.
    - [Text.v]: the functions on strings both services use, comparison of bytes in
      constant time, [base64_url_no_pad], SHA-256 as a parameter.
    - [Domain.v]: [lib.rs], [error.rs], the shared part of [domain.rs].
    - [Action.v]: [action.rs], the engine of [policy.rs] and the lookup of
      [route.rs] it needs: actions, roles, grants, the two engines.
    - [HotState.v]: [hot_state.rs] and the in-memory hot state of
      [storage.rs].  [RouteHotState.t] is the interface to routing.
    - [Routing.v]: [routing.rs], decision and attempt evidence, and [replay.rs],
      the classes of requests that may be sent again.
    - [Catalog.v], [Grants.v], [RoutePlan.v]: [catalog.rs].  The snapshot and
      its validators; provider grants; alias resolution and
      [plan_runtime_route_with_hot_state].
    - [Json.v]: what the gateway uses of [serde_json::Value], as a class.
    - [Usage.v]: [record_usage_event] of [storage.rs] and the ledger.
    - [Pricing.v]: pricing SKUs, normalized usage and costs of [service.rs].
    - [PolicyStore.v]: [RuntimePolicyRepository] of [storage.rs], its laws
      [PolicyRepositoryLaws] and the in-memory instance that satisfies them.
    - [RuntimePolicy.v]: budget and quota preflight and release
      ([enforce_runtime_policy_preflight] and what it calls, [service.rs]).
    - [PolicyFacts.v]: its properties, for every lawful repository.
    - [BudgetConcurrency.v]: many requests at once, as a step relation whose
      steps are the repository calls, interleaved in any order.
    - [Redis.v]: [redis_hot_state.rs], the second instance of the repository, over
      a model of the commands it sends; each may be answered, lose its answer or
      never be sent.  [RedisFacts.v]: both instances answer alike; failures.
    - [Reconciler.v]: [run_runtime_policy_reconciler_once].
    - [Outbox.v], [Delivery.v]: the notification outbox of [storage.rs] and
      [deliver_due_notifications_with_transport] of [service.rs].
    - [Terminal.v]: accounting after the provider answered.
    - [Auth.v]: [auth.rs] and the key and session tables of [storage.rs].
    - [CedarPolicy.v]: the rest of [policy.rs], the canonical schema, bundle
      validation and loading.
    - [Publication.v], [PublicationFacts.v]: publication of configuration
      snapshots, [config.rs] and [ConfigPublicationRepository] of [storage.rs]:
      publish, roll back, invalidate, reload a worker.
    - [GwRoute.v]: [route.rs], the table of foundation routes, and
      [authorize_route_with_evidence].
    - [AdminRecords.v], [DraftCatalog.v], [DraftFacts.v]: the eight kinds of
      draft catalog resources, their tables in [storage.rs] and what these keep.
    - [AdminState.v], [AdminValidation.v], [AdminHandlers.v],
      [AdminEmergency.v]: the admin handlers of [service.rs] on the in-memory
      store: authorization with the published policy, freezes, idempotency
      keys, audit, dry runs; list, validate, create, get and update; publish and
      roll back; the six emergency operations.
    - [AdminFacts.v]: the mutating admin requests as data, [serve_admin], and
      what every one of them guarantees.  [AdminGuards.v]: freezes,
      idempotency keys and other tenants.  [AdminOutcomes.v]: dry runs against the
      checks of the store, and emergency operations as the planner and the
      preflight see them.  [AdminScenarios.v]: concrete runs.
    - [Provider.v]: [runtime.rs], the request a provider is sent and the fake
      provider.  [GwRequest.v]: headers, ids and [authenticate_request] of
      [service.rs], in memory and with PostgreSQL.
    - [Ingress.v]: [model_ingress] of [service.rs] and every step it composes,
      over the whole state of a request ([GatewayState.t]): route, authorize,
      preflight, call the provider, record, account, release; split at the
      provider call into [prepare_ingress] and [complete_ingress], so that the
      timeout around it can drop it there.  [IngressFacts.v]: what each outcome
      leaves behind.  [IngressScenarios.v]: concrete runs.
    - [WebSocket.v]: [responses_websocket.rs] and the session of [service.rs]
      ([ResponsesWebSocketSession], its turns and the relay); what the client, the
      provider and the clock do in a turn is a [TurnScript], the rounds of the
      session are a list.  [WebSocketFacts.v]: the relay against a transcript, and
      the evidence of whole sessions.  [SessionScenarios.v]: a concrete session, and
      runs of the Redis backend: outages and two gateways on one server.
    - [PolicyAdmin.v]: pricing SKUs, budget and quota policies, their tables and
      checks in [storage.rs] and the dry-run checks of [service.rs].
      [PolicyHandlers.v]: their admin handlers, on the whole gateway state.
      [PolicyAdminFacts.v]: the two sets of checks agree; a created
      quota in the preflight of later requests; policies that are accepted and not
      enforced.
    - [Directory.v]: users, organizations, projects, memberships, service accounts,
      API keys, sessions, external identities and invitations, their tables and
      checks in [storage.rs].  [DirectoryHandlers.v]: their handlers in [service.rs],
      the admin routes and those of a signed-in user.  [DirectoryFacts.v]: the
      requests as data, [serve], runs of them, and what holds over all runs.
    - [GwLogin.v]: signing in to the gateway: login providers, attempts and
      identities, the OpenID Connect callback and the single configured user, in
      [service.rs] and [storage.rs].  [GwLoginFacts.v]: runs of these requests and
      those of the directory ([serve_login]), and what holds over them.

    ** Files of the platform

    - [PlatAction.v]: [action.rs], actions, roles, grants and the engine.
    - [PlatUser.v], [PlatRole.v], [PlatMembership.v], [PlatInvitation.v],
      [PlatAudit.v], [PlatSecret.v]: the modules [user.rs], [role.rs],
      [membership.rs], [invitation.rs], [audit.rs], [secret.rs]: records,
      validation, errors and the in-memory store of each.
    - [PlatSession.v]: [auth.rs], sessions, bearer credentials, mTLS
      identities.  [PlatResource.v]: [storage.rs] and [resource.rs], resource
      owners and business records.
    - [PlatRoute.v]: [route.rs] and the path matching of [service.rs].
    - [PlatIdentity.v]: [identity.rs], OIDC providers, login attempts, claims
      and ID tokens, external identities.
    - [PlatConfig.v]: [config.rs].
    - [PlatService.v]: the state of [service.rs], its access functions, the
      mapping of errors and [authorize_service_action].
    - [PlatRequests.v]: request types, authentication from headers, query
      validation and response bodies of [service.rs].
    - [PlatHandlers.v], [PlatLogin.v]: the handlers of [admin_routes] and of
      [auth_routes], the foundation routes and startup.
    - [PlatLaws.v]: the declarative specification of authorization.
      [PlatAccess.v]: what removing, suspending and disabling take away.
      [PlatInvariant.v]: the invariant of the stores.  [PlatReach.v]: the
      router as a step on the state.  [PlatHistory.v]: what requests never
      change, and paging through the audit trail.  [PlatJoin.v]: invitations and optimistic concurrency.
      [PlatAnswers.v]: foundation routes, CSRF, repository errors, startup.  [PlatOidc.v]: logins.
    - [PlatScenarios.v]: concrete runs, on sample instances of the parameters.

    ** What is shown

    - Routing.  A plan selects a target exactly when some candidate passes
      every check, each check being stated separately from the code; it takes
      the first such candidate in the policy's order; a sticky route is used
      exactly when it may be; the alias is the most specific one; a catalog
      that validates never leads to a missing reference.
    - Catalog and grants.  Validation decides a declarative contract.
      [provider_grant_allows] equals a reading of grants as a closure over the
      path from alias to endpoint; deny grants only restrict; grants of other
      providers do not matter.
    - Authorization.  The foundation engine decides a declarative predicate;
      an API key only narrows its owner's rights and never reaches an action
      that needs strong authentication; grants of other tenants do not matter;
      each role grants its table and nothing else.
    - Budgets and quotas.  No interleaving of reservations, releases and lease
      expiries admits more than the limit.  After every outcome of the
      preflight the counters hold exactly the reservations still owed,
      including the outcome where the code leaves some behind.  The reconciler
      computes the counters stated, once, and audits each repair.  The Redis backend
      answers as the in-memory one while its server does, and its increments never
      over-admit even when commands are lost.  The service and the store accept the
      same prices, budgets and quotas, and a created quota binds every request it
      covers while the hot state is up, but for one kind that is accepted and never
      looked at.
    - Model requests.  An answered request passed every gate and, where a catalog is
      published, went to an eligible target and left one decision, one completed
      attempt and one usage event, unless its request id was booked before.  While
      the durable store accepts the evidence a refused one is never billed, and with
      the hot state up either gives back what it reserved; a provider sees the
      admitted request only.
    - WebSocket sessions.  The client receives exactly the transcript of its turn as
      far as its connection lasts; a session answers on one route; and it books one
      usage event at most, whatever it answers.
    - Usage and money.  Every ledger bucket is the aggregate of the recorded
      events that fall in it, an event is recorded once, the per-million cost
      is the rounded exact product capped at the largest [i64], the total is the sum of its
      components.
    - Notifications.  An append is idempotent on its key; a threshold is
      notified exactly when the request crosses it; a tick processes exactly the
      due events; a webhook that keeps failing is dead-lettered after a
      bounded number of ticks when the outbox fits a batch.
    - Authentication.  A key is accepted only if it verifies and its record is
      usable; failures from one prefix are bounded per window; a rotated-out
      secret and a revoked session are refused; a created key authenticates.
    - Configuration.  The snapshots of a tenant are numbered without gaps and
      the pointer is at the newest one, however publications and rollbacks mix; a
      rollback restores an old payload; a worker that polls is up to date.  In
      every draft catalog references resolve within the tenant, and live names
      are unique unless a deleted resource is brought back.
    - Admin requests.  A route is authorized exactly when its constraints and the
      engine agree.  A request is all or nothing, audited once, and stays in its
      tenant; a keyed request is performed once a day; a dry run predicts the
      creation; a freeze holds until it expires; a disabled endpoint is out of the
      routing of the published version until the operation expires or is repeated,
      and a blocked budget refuses requests at once.
    - Directory.  Over any run of requests a disabled API key, the sessions of a
      disabled user and the projects of a suspended member stay out until something
      puts them back; a created key is shown once and works; an invitation admits
      whom it is for, once; a session acts only where its user is a member.
    - Signing in.  A callback that succeeds was verified against an attempt that it
      spends, by the provider unless claims are taken from the caller in a local or
      test environment; a login that was started can be completed while its provider
      is active; a user that was switched
      off gets no session by any request; a provider is created exactly when its
      validation finds nothing.
    - Platform authorization.  An action is allowed exactly when the
      specification [permitted] holds; other tenants do not matter; removing
      or suspending a member and disabling a user take away what they should
      and give nobody anything.
    - Platform state.  Every state reached from startup by any requests is
      well-formed, and no request forgets a record.  Two updates never succeed
      on the same version; an invitation is accepted once, by whom it is for;
      an OIDC login was verified in full, with what the endpoints of the provider
      answered, and cannot be replayed.
    - Platform answers.  A foundation route answers exactly what is permitted,
      with the right status otherwise; a path is matched to the route it was
      made from; the CSRF gate is exact; no database message reaches a caller;
      paging through an unchanged audit trail ends and visits each event once; startup
      accepts exactly the safe configurations.

    Theorems named as findings ([bucket_mixes_currencies],
    [repeated_request_id_not_billed], [misconfigured_sink_never_settles],
    [reconciler_lowers_counter], [pattern_prefix_suffix_overlap],
    [stale_invalidation_downgrades_worker], [undelete_shares_name],
    [credential_and_group_operations_keep_routing], [publication_lifts_drain],
    [unpublished_disable_writes_no_drain], [retried_credential_refused],
    [timed_out_request_keeps_slot], [undurable_answer_keeps_reservations],
    [disabled_credential_still_sent], [session_books_one_usage_event],
    [websocket_turn_escapes_stream_quota], [failed_reservation_admits],
    [lease_ends_twice], [estimate_quotas_ignored], [unenforced_budgets_admit],
    [budgets_accepted_and_not_enforced], [second_disable_is_replayed],
    [status_change_spares_api_keys], [disabled_owner_key_works],
    [project_update_ignores_suspension], [single_user_login_ignores_status],
    [changed_default_locks_single_user_out], [provider_sends_foreign_secret], and of the platform [self_invitation_crosses_organizations],
    [project_admin_undoes_suspension],
    [chosen_member_id_overwrites_other_tenant], [oidc_login_ends_suspension],
    [short_secret_in_mask], [session_and_event_routes_never_answer]) state
    behaviour of the code that its documentation or purpose does not have.

    ** Parameters

    Code outside the repository is an argument with its documented behaviour
    as laws of a class, and each class has an instance used by the witnesses:
    the Cedar evaluator ([Action.v]), parser and validator ([CedarPolicy.v]), JSON values ([Json.v]) and JSON decoding
    of a catalog ([Catalog.v]), JSON printing ([Publication.v]), calendar functions of
    chrono ([Usage.v]) and its display of times ([AdminState.v]), URI parsing ([Catalog.v]), HMAC and SHA-256 for webhooks and the HTTP client
    ([Delivery.v]),
    Argon2 and token hashing ([Auth.v]), SHA-256 ([Text.v]), JSON Web
    Tokens ([PlatIdentity.v]), the HTTP requests and URLs of an OIDC login and
    base64url ([PlatLogin.v]), URLs of a provider request ([Provider.v]), JSON
    parsing and the client of the ingress ([Ingress.v]), the HTTP requests, keys and
    tokens of a gateway login and the entries of a JSON object ([GwLogin.v]), JSON of stored records and
    the numbers of Redis scripts ([Redis.v]), environment variables.
    The commands and the script of a Redis server
    ([RedisServer] of [Redis.v]) are an instance of what the backend is written
    against, not a translation.  The answers of PostgreSQL to one model request are a record of functions
    ([PostgresGatewayStore.t] of [GwRequest.v]).  Generated UUIDs, random bytes and the time of each
    call are arguments.

    ** Bounds and fuel

    Recursion is structural on the data throughout, except [strip_words]
    of [Text.v] (trimming white space), whose fuel is the length of the
    string, which is enough since every round consumes a byte, and
    [contains_sensitive] of [GwLogin.v], which walks an opaque JSON value to depth
    128, the deepest that is parsed ([sensitive_fuel_enough]).  Counters and
    costs keep their Rust width: saturating and wrapping operations are written out,
    and a theorem that needs a counter not to saturate says so.  Loops over
    events and policies are over the lists the store returned.  The client of the audit
    listing ([follow_listing] of [PlatHistory.v]) gets one request more than there are
    events, which is shown to be enough.

    ** Not modelled

    The PostgreSQL backends of both services (SQL runs elsewhere),
    of the gateway the admin handlers of
    notification sinks, secret references, Codex OAuth connections, catalog imports,
    maintenance windows, exports, OpenTelemetry and dashboards,
    the router and health endpoints, the environment parsing of the gateway, fixtures and migrations, and the task runner.  Both services are
    modelled on their in-memory backend; apart from the two ingresses the arms of
    [service.rs] that call PostgreSQL are left out.  What is left is
    either I/O or more admin resources of the pattern of [AdminHandlers.v]. *)

From Stdlib Require Export ZArith Lia.
From stdpp Require Export base tactics option list gmap strings fin_maps numbers.
Export list_basics.list list_monad.list list_relations.list list_misc.list.

#[export] Set Default Goal Selector "!".

(** ** Notations *)

Declare Scope gw_scope.
Delimit Scope gw_scope with gw.

(** Rust's [==] on a type with decidable equality, as a boolean. *)
Notation "x ==? y" := (bool_decide (x = y))
  (at level 70, no associativity) : gw_scope.
Notation "x !=? y" := (negb (bool_decide (x = y)))
  (at level 70, no associativity) : gw_scope.

Global Open Scope gw_scope.

(** A point in time ([chrono::DateTime<Utc>]): nanoseconds since the Unix
    epoch.  Comparison of timestamps is comparison of these integers. *)
Abbreviation DateTime := Z.

(** [DateTime::timestamp]: whole seconds, rounded towards minus infinity. *)
Definition timestamp (t : DateTime) : Z := (t / 1000000000)%Z.

(** [chrono::Duration::seconds]. *)
Definition duration_seconds (s : Z) : Z := (s * 1000000000)%Z.

(** [TimeDelta::num_seconds] and [num_milliseconds] truncate towards zero. *)
Definition num_seconds (d : Z) : Z := Z.quot d 1000000000.
Definition num_milliseconds (d : Z) : Z := Z.quot d 1000000.

(** ** Machine integers *)

Definition i64_max : Z := 9223372036854775807%Z.
Definition i64_min : Z := (-9223372036854775808)%Z.
Definition in_i64 (z : Z) : Prop := (i64_min ≤ z ≤ i64_max)%Z.

(** Clamp to the [i64] range; the saturating operations clamp the exact
    result. *)
Definition clamp_i64 (z : Z) : Z := Z.max i64_min (Z.min i64_max z).
Definition saturating_add (a b : Z) : Z := clamp_i64 (a + b).
Definition saturating_sub (a b : Z) : Z := clamp_i64 (a - b).

(** [+=] and [Iterator::sum] on [i64] in a build without overflow checks:
    two's complement wrap-around. *)
Definition wrap_i64 (z : Z) : Z :=
  ((z - i64_min) mod 18446744073709551616 + i64_min)%Z.
Definition sum_i64 (l : list Z) : Z := fold_left (λ a b, wrap_i64 (a + b)) l 0%Z.

#[global] Arguments clamp_i64 : simpl never.
#[global] Arguments saturating_add : simpl never.
#[global] Arguments saturating_sub : simpl never.
#[global] Arguments wrap_i64 : simpl never.

Definition i32_max : Z := 2147483647%Z.
Definition i32_min : Z := (-2147483648)%Z.
Definition saturating_add_i32 (a b : Z) : Z :=
  Z.max i32_min (Z.min i32_max (a + b)).

(** ** Results *)

Inductive result (E A : Type) : Type :=
| Ok (a : A)
| Err (e : E).
Arguments Ok {E A} a.
Arguments Err {E A} e.

#[global] Instance result_ret {E} : MRet (result E) := λ A a, Ok a.
#[global] Instance result_bind {E} : MBind (result E) := λ A B f m,
  match m with Ok a => f a | Err e => Err e end.
#[global] Instance result_fmap {E} : FMap (result E) := λ A B f m,
  match m with Ok a => Ok (f a) | Err e => Err e end.

Definition is_ok {E A} (r : result E A) : bool :=
  match r with Ok _ => true | Err _ => false end.

(** [Option::ok_or_else]. *)
Definition ok_or {E A} (o : option A) (e : E) : result E A :=
  match o with Some a => Ok a | None => Err e end.

(** [for x in l { f(x)?; }]. *)
Fixpoint for_each {E A} (f : A → result E unit) (l : list A) : result E unit :=
  match l with
  | [] => Ok tt
  | x :: l => match f x with Ok _ => for_each f l | Err e => Err e end
  end.

(** ** Stateful code that can fail

    A computation on a shared store that returns a [result]: Rust's [?] stops
    the computation and keeps every change made to the store so far. *)
Definition M (S E A : Type) : Type := S → result E A * S.

#[global] Instance M_ret {S E} : MRet (M S E) := λ A a s, (Ok a, s).
#[global] Instance M_bind {S E} : MBind (M S E) := λ A B f m s,
  match m s with
  | (Ok a, s') => f a s'
  | (Err e, s') => (Err e, s')
  end.
#[global] Instance M_fmap {S E} : FMap (M S E) := λ A B f m s,
  match m s with
  | (Ok a, s') => (Ok (f a), s')
  | (Err e, s') => (Err e, s')
  end.

(** Read a value off the store; run an operation that cannot fail; fail. *)
Definition gets {S E A} (f : S → A) : M S E A := λ s, (Ok (f s), s).
Definition act {S E A} (f : S → A * S) : M S E A := λ s,
  let '(a, s') := f s in (Ok a, s').
Definition throw {S E A} (e : E) : M S E A := λ s, (Err e, s).
Definition lift {S E A} (r : result E A) : M S E A := λ s, (r, s).
Definition reading {S E A} (f : S → result E A) : M S E A := λ s, (f s, s).

(** ** Comparators and stable sorting *)

(** [Ordering::then_with] and a comparator on a key. *)
Definition cmp_then {A} (c d : A → A → comparison) (x y : A) : comparison :=
  match c x y with Eq => d x y | o => o end.
Definition cmp_on {A B} (f : A → B) (c : B → B → comparison) (x y : A) : comparison :=
  c (f x) (f y).
Definition cmp_rev {A} (c : A → A → comparison) (x y : A) : comparison := c y x.

(** What [slice::sort_by] requires of its comparator: a total preorder. *)
Class TotalCmp {A} (c : A → A → comparison) : Prop := {
  cmp_antisym : ∀ x y, c y x = CompOpp (c x y);
  cmp_le_trans : ∀ x y z, c x y ≠ Gt → c y z ≠ Gt → c x z ≠ Gt;
}.
Arguments cmp_antisym {A} c {_} x y.
Arguments cmp_le_trans {A} c {_} x y z.

(** [slice::sort_by] is a stable sort; insertion sort is one, and a stable
    sort is determined by its comparator. *)
Fixpoint insert_by {A} (c : A → A → comparison) (x : A) (l : list A) : list A :=
  match l with
  | [] => [x]
  | y :: l' => match c x y with Gt => y :: insert_by c x l' | _ => x :: l end
  end.
Definition sort_by {A} (c : A → A → comparison) (l : list A) : list A :=
  foldr (insert_by c) [] l.

(** [slice::join]. *)
Fixpoint join (sep : string) (l : list string) : string :=
  match l with
  | [] => EmptyString
  | [s] => s
  | s :: l' => s +:+ sep +:+ join sep l'
  end.

(** [str::contains], [starts_with] and [ends_with] on UTF-8 bytes. *)
Definition starts_with (pre s : string) : bool := String.prefix pre s.
Fixpoint contains (pat s : string) : bool :=
  String.prefix pat s ||
  match s with EmptyString => false | String _ s' => contains pat s' end.
Fixpoint ends_with (suf s : string) : bool :=
  (s ==? suf) ||
  match s with EmptyString => false | String _ s' => ends_with suf s' end.

(** ** Tactics *)

Create HintDb gw.

(** Turn boolean tests in the context into propositions. *)
Ltac btrue :=
  repeat match goal with
  | H : _ && _ = true |- _ => apply andb_prop in H; destruct H
  | H : negb _ = true |- _ => apply negb_true_iff in H
  | H : negb _ = false |- _ => apply negb_false_iff in H
  | H : _ || _ = false |- _ => apply orb_false_iff in H; destruct H
  | H : bool_decide _ = true |- _ => apply bool_decide_eq_true in H
  | H : bool_decide _ = false |- _ => apply bool_decide_eq_false in H
  | H : (_ <? _)%Z = true |- _ => apply Z.ltb_lt in H
  | H : (_ <? _)%Z = false |- _ => apply Z.ltb_ge in H
  | H : (_ <=? _)%Z = true |- _ => apply Z.leb_le in H
  | H : (_ <=? _)%Z = false |- _ => apply Z.leb_gt in H
  | H : (_ =? _)%Z = true |- _ => apply Z.eqb_eq in H
  | H : (_ =? _)%Z = false |- _ => apply Z.eqb_neq in H
  | H : Is_true _ |- _ => apply Is_true_true in H
  end.

(** Case analysis on the next test a hypothesis or the goal is stuck on. *)
Ltac step_match :=
  match goal with
  | H : context [match ?x with _ => _ end] |- _ =>
      lazymatch x with context [match _ with _ => _ end] => fail | _ => idtac end;
      destruct x eqn:?; simplify_eq/=
  | |- context [match ?x with _ => _ end] =>
      lazymatch x with context [match _ with _ => _ end] => fail | _ => idtac end;
      destruct x eqn:?; simplify_eq/=
  end.
Ltac step_matches := repeat step_match.

(** ** Lemmas on machine integers *)

Lemma clamp_i64_in z : in_i64 (clamp_i64 z).
Proof. unfold in_i64, clamp_i64, i64_min, i64_max. lia. Qed.

Lemma clamp_i64_id z : in_i64 z → clamp_i64 z = z.
Proof. unfold in_i64, clamp_i64, i64_min, i64_max. lia. Qed.

Lemma wrap_i64_in z : in_i64 (wrap_i64 z).
Proof.
  unfold in_i64, wrap_i64, i64_min, i64_max.
  pose proof (Z.mod_pos_bound (z - -9223372036854775808) 18446744073709551616). lia.
Qed.

Lemma wrap_i64_id z : in_i64 z → wrap_i64 z = z.
Proof.
  unfold in_i64, wrap_i64, i64_min, i64_max. intros.
  rewrite Z.mod_small; lia.
Qed.

Lemma wrap_i64_add_l a b : wrap_i64 (wrap_i64 a + b) = wrap_i64 (a + b).
Proof.
  unfold wrap_i64. f_equal. set (m := 18446744073709551616%Z).
  replace ((a - i64_min) mod m + i64_min + b - i64_min)%Z with ((a - i64_min) mod m + b)%Z by lia.
  rewrite Zplus_mod_idemp_l. f_equal. lia.
Qed.

#[export] Hint Resolve clamp_i64_in wrap_i64_in : gw.

(** ** Lemmas on results *)

Lemma bind_ok {E A B} (m : result E A) (f : A → result E B) b :
  m ≫= f = Ok b ↔ ∃ a, m = Ok a ∧ f a = Ok b.
Proof.
  split; [destruct m; naive_solver | by intros (a & -> & ?)].
Qed.

Lemma for_each_ok {E A} (f : A → result E unit) l :
  for_each f l = Ok tt ↔ ∀ x, x ∈ l → f x = Ok tt.
Proof.
  induction l as [|x l IH]; simpl.
  - split; [intros _ y Hy; set_solver | done].
  - destruct (f x) as [[]|e] eqn:E1.
    + rewrite IH. split; [intros H y [->|Hy]%elem_of_cons; auto | set_solver].
    + split; [done|]. intros H. specialize (H x). rewrite E1 in H.
      discriminate H. set_solver.
Qed.

Lemma for_each_cases {E A} (f : A → result E unit) l :
  for_each f l = Ok tt ∨ ∃ x e, x ∈ l ∧ f x = Err e ∧ for_each f l = Err e.
Proof.
  induction l as [|x l IH]; simpl; [by left|].
  destruct (f x) as [[]|e] eqn:E1; [|right; exists x, e; set_solver].
  destruct IH as [?|(y & e & ? & ? & ?)]; [by left|].
  right. exists y, e. set_solver.
Qed.

(** ** Lemmas on stateful code *)

(** A sequence that succeeds: its first step does, then the rest. *)
Lemma bind_run {S E A B} (m : M S E A) (k : A → M S E B) (s : S) b s' :
  (m ≫= k) s = (Ok b, s') → ∃ a s1, m s = (Ok a, s1) ∧ k a s1 = (Ok b, s').
Proof. unfold mbind, M_bind. destruct (m s) as [[a|] s1]; [|done]. eauto. Qed.
Lemma lift_run {S E A} (r : result E A) (s : S) a s' : lift r s = (Ok a, s') → r = Ok a ∧ s' = s.
Proof. by intros [= -> ->]. Qed.
Lemma reading_run {S E A} (f : S → result E A) (s : S) a s' :
  reading f s = (Ok a, s') → f s = Ok a ∧ s' = s.
Proof. by intros [= -> ->]. Qed.

(** Code that keeps a property of the state, whether it succeeds or not. *)
Definition keeps {S E A} (P : S → Prop) (op : M S E A) : Prop := ∀ s, P s → P (op s).2.

Section keeps.
Context {S E : Type} (P : S → Prop).

Lemma kept_ret {A} (a : A) : keeps P (mret a : M S E A).
Proof. by intros s. Qed.
Lemma kept_reading {A} (f : S → result E A) : keeps P (reading f).
Proof. by intros s. Qed.
Lemma kept_gets {A} (f : S → A) : keeps P (gets f : M S E A).
Proof. by intros s. Qed.
Lemma kept_lift {A} (r : result E A) : keeps P (lift r : M S E A).
Proof. by intros s. Qed.
Lemma kept_throw {A} e : keeps P (throw e : M S E A).
Proof. by intros s. Qed.
Lemma kept_bind {A B} (m : M S E A) (f : A → M S E B) :
  keeps P m → (∀ a, keeps P (f a)) → keeps P (m ≫= f).
Proof.
  intros Hm Hf s Hs. unfold mbind, M_bind. specialize (Hm s Hs).
  destruct (m s) as [[a|e] s']; [by apply Hf|done].
Qed.

(** What holds of a value that was read may be used after it. *)
Lemma kept_bind_reading {A B} (f : S → result E A) (k : A → M S E B) :
  (∀ a s, P s → f s = Ok a → keeps P (k a)) → keeps P (reading f ≫= k).
Proof.
  intros Hk s Hs. unfold mbind, M_bind, reading. destruct (f s) as [a|e] eqn:Ef; [|done].
  by eapply Hk.
Qed.
Lemma kept_bind_lift {A B} (r : result E A) (k : A → M S E B) :
  (∀ a, r = Ok a → keeps P (k a)) → keeps P (lift r ≫= k : M S E B).
Proof. intros Hk s Hs. unfold mbind, M_bind, lift. destruct r; [by apply Hk|done]. Qed.

(** What the first step ensures of its answer may be used by the rest. *)
Lemma kept_bind_post {A B} (Q : A → Prop) (m : M S E A) (k : A → M S E B) :
  keeps P m → (∀ s a s', P s → m s = (Ok a, s') → Q a) → (∀ a, Q a → keeps P (k a)) →
  keeps P (m ≫= k).
Proof.
  intros Hm HQ Hk s Hs. unfold mbind, M_bind. specialize (Hm s Hs).
  destruct (m s) as [[a|e] s'] eqn:Ea; [|done]. apply Hk; [by eapply HQ|done].
Qed.
End keeps.

(** ** Lemmas on [find], [existsb] and [forallb] *)

Lemma find_first {A} (f : A → bool) l x :
  List.find f l = Some x ↔
  ∃ l1 l2, l = l1 ++ x :: l2 ∧ f x = true ∧ ∀ y, y ∈ l1 → f y = false.
Proof.
  induction l as [|a l IH]; simpl.
  - split; [done|]. intros ([|] & ? & ? & _); done.
  - destruct (f a) eqn:E1.
    + split.
      * intros [= ->]. exists [], l. set_solver.
      * intros ([|b l1] & l2 & ? & ? & Hb); simplify_eq/=; [done|].
        rewrite (Hb b) in E1; [done|set_solver].
    + rewrite IH. split.
      * intros (l1 & l2 & -> & ? & Hl). exists (a :: l1), l2.
        split_and!; [done..|]. intros y [->|?]%elem_of_cons; auto.
      * intros ([|b l1] & l2 & ? & ? & Hb); simplify_eq/=; [congruence|].
        exists l1, l2. set_solver.
Qed.

Lemma find_Some_in {A} (f : A → bool) l x :
  List.find f l = Some x → x ∈ l ∧ f x = true.
Proof. intros (l1 & l2 & -> & ? & _)%find_first. set_solver. Qed.

Lemma find_None_iff {A} (f : A → bool) l :
  List.find f l = None ↔ ∀ x, x ∈ l → f x = false.
Proof.
  induction l as [|a l IH]; simpl; [set_solver|].
  destruct (f a) eqn:E1; [|set_solver].
  split; [done|]. intros H. rewrite (H a) in E1; [done|set_solver].
Qed.

Lemma existsb_iff {A} (f : A → bool) l :
  existsb f l = true ↔ ∃ x, x ∈ l ∧ f x = true.
Proof. rewrite existsb_exists. by setoid_rewrite list_elem_of_In. Qed.

Lemma existsb_false_iff {A} (f : A → bool) l :
  existsb f l = false ↔ ∀ x, x ∈ l → f x = false.
Proof.
  rewrite <- not_true_iff_false, existsb_iff. split.
  - intros H x Hx. destruct (f x) eqn:?; [destruct H; eauto|done].
  - intros H (x & Hx & ?). rewrite H in *; done.
Qed.

Lemma forallb_iff {A} (f : A → bool) l :
  forallb f l = true ↔ ∀ x, x ∈ l → f x = true.
Proof. rewrite forallb_forall. by setoid_rewrite list_elem_of_In. Qed.

Lemma filter_iff {A} (f : A → bool) l x :
  x ∈ List.filter f l ↔ x ∈ l ∧ f x = true.
Proof. rewrite !list_elem_of_In. apply filter_In. Qed.
