(* ===== verification/Order.v ===== *)
(** * Comparators and stable sorting

    [sort_by] of the prelude sorts a list by a comparator the way Rust's
    [slice::sort_by] does.  The comparators of the gateway are built from
    comparisons of integers and of byte strings with [cmp_on], [cmp_rev] and
    [cmp_then]; the [TotalCmp] instances here show that each of them is a total
    preorder, and the lemmas that the sorted list is a permutation of the
    input, is sorted, and keeps the order of equal elements. *)

From Stdlib Require Import Sorting.Sorted.
From S2P Require Import Prelude.

(** ** Comparators *)

#[global] Instance Z_compare_total : TotalCmp Z.compare.
Proof.
  split; [intros; apply Z.compare_antisym|].
  intros x y z. rewrite !Z.compare_le_iff. lia.
Qed.

Section total_cmp.
Context {A} (c : A → A → comparison) `{!TotalCmp c}.

Lemma cmp_refl x : c x x = Eq.
Proof. pose proof (cmp_antisym c x x) as H. destruct (c x x); done. Qed.

(** Elements that compare equal compare alike with every other element. *)
Lemma cmp_eq_l x y z : c x y = Eq → c x z = c y z.
Proof.
  intros Exy.
  assert (Eyx : c y x = Eq) by (rewrite (cmp_antisym c x y), Exy; done).
  pose proof (cmp_le_trans c x y z) as H1. pose proof (cmp_le_trans c y x z) as H2.
  pose proof (cmp_le_trans c z x y) as H3. pose proof (cmp_le_trans c z y x) as H4.
  rewrite (cmp_antisym c x z), (cmp_antisym c y z) in H3, H4.
  rewrite Exy, Eyx in *. destruct (c x z), (c y z); simpl in *; try done; exfalso;
    first [by apply H1 | by apply H2 | by apply H3 | by apply H4].
Qed.

Lemma cmp_not_gt_or x y : c x y ≠ Gt ∨ c y x ≠ Gt.
Proof. rewrite (cmp_antisym c x y). destruct (c x y); simpl; auto. Qed.

#[global] Instance cmp_rev_total : TotalCmp (cmp_rev c).
Proof.
  unfold cmp_rev. split; [intros; apply (cmp_antisym c)|].
  intros x y z ??. by apply (cmp_le_trans c z y x).
Qed.

#[global] Instance cmp_on_total {B} (f : B → A) : TotalCmp (cmp_on f c).
Proof.
  unfold cmp_on. split; [intros; apply (cmp_antisym c)|].
  intros x y z. apply (cmp_le_trans c).
Qed.
End total_cmp.

#[global] Instance cmp_then_total {A} (c d : A → A → comparison)
  `{!TotalCmp c, !TotalCmp d} : TotalCmp (cmp_then c d).
Proof.
  unfold cmp_then. split.
  - intros x y. rewrite (cmp_antisym c x y).
    destruct (c x y); simpl; [apply (cmp_antisym d)|done..].
  - intros x y z H1 H2. destruct (c x y) eqn:E1; [|clear H1|done].
    + rewrite (cmp_eq_l c x y z) by done.
      destruct (c y z); [|done..]. by apply (cmp_le_trans d x y z).
    + destruct (c y z) eqn:E2; [| |done].
      * assert (c z y = Eq) as E3 by (rewrite (cmp_antisym c y z), E2; done).
        rewrite (cmp_antisym c z x), (cmp_eq_l c z y x), (cmp_antisym c x y), E1 by done.
        done.
      * destruct (c x z) eqn:E3; [exfalso|done|exfalso].
        -- rewrite (cmp_eq_l c x z y), (cmp_antisym c y z), E2 in E1; done.
        -- apply (cmp_le_trans c x y z); [by rewrite E1|by rewrite E2|done].
Qed.

Lemma ascii_compare_N a b :
  Ascii.compare a b = N.compare (Ascii.N_of_ascii a) (Ascii.N_of_ascii b).
Proof. done. Qed.

(** Byte-wise lexicographic comparison, [str::cmp]. *)
#[global] Instance string_compare_total : TotalCmp String.compare.
Proof.
  split; [intros; apply String.compare_antisym|].
  intros x. induction x as [|a x IH]; intros [|b y] [|d z]; simpl; try done.
  rewrite !ascii_compare_N. intros H1 H2.
  destruct (N.compare_spec (Ascii.N_of_ascii a) (Ascii.N_of_ascii b)) as [E1|E1|E1];
    [|..|done];
  destruct (N.compare_spec (Ascii.N_of_ascii b) (Ascii.N_of_ascii d)) as [E2|E2|E2];
    try done;
  destruct (N.compare_spec (Ascii.N_of_ascii a) (Ascii.N_of_ascii d)) as [E3|E3|E3];
    try done; try lia; eauto.
Qed.

Lemma string_compare_eq s t : String.compare s t = Eq ↔ s = t.
Proof.
  split; [apply String.compare_eq_iff|]. intros ->. apply (cmp_refl String.compare).
Qed.

(** ** The sort *)

Definition cmp_le {A} (c : A → A → comparison) (x y : A) : Prop := c x y ≠ Gt.

Section sort_by.
Context {A} (c : A → A → comparison).

Lemma insert_by_perm x l : insert_by c x l ≡ₚ x :: l.
Proof.
  induction l as [|y l IH]; simpl; [done|].
  destruct (c x y); [done..|]. rewrite IH. by apply Permutation_swap.
Qed.

Lemma sort_by_perm l : sort_by c l ≡ₚ l.
Proof.
  induction l as [|x l IH]; simpl; [done|]. by rewrite insert_by_perm, IH.
Qed.

Lemma sort_by_elem x l : x ∈ sort_by c l ↔ x ∈ l.
Proof. by rewrite (sort_by_perm l). Qed.

Lemma sort_by_nil l : sort_by c l = [] ↔ l = [].
Proof.
  split; [|by intros ->]. intros H. pose proof (sort_by_perm l) as P.
  rewrite H in P. by apply Permutation_nil in P.
Qed.

Lemma sort_by_length l : length (sort_by c l) = length l.
Proof. by rewrite (sort_by_perm l). Qed.

Context `{!TotalCmp c}.

Lemma insert_by_sorted x l :
  StronglySorted (cmp_le c) l → StronglySorted (cmp_le c) (insert_by c x l).
Proof.
  induction 1 as [|y l Hl IH Hy]; simpl; [repeat constructor|].
  assert (cmp_le c x y → StronglySorted (cmp_le c) (x :: y :: l)) as Hle.
  { intros Hxy. constructor; [by constructor|]. constructor; [done|].
    eapply Forall_impl; [exact Hy|]. intros z Hz. by apply (cmp_le_trans c x y z). }
  destruct (c x y) eqn:E1; [apply Hle; unfold cmp_le; by rewrite E1..|].
  constructor; [done|]. rewrite insert_by_perm. constructor; [|done].
  unfold cmp_le. rewrite (cmp_antisym c x y), E1. done.
Qed.

Lemma sort_by_sorted l : StronglySorted (cmp_le c) (sort_by c l).
Proof. induction l; simpl; [constructor|by apply insert_by_sorted]. Qed.

Lemma insert_by_filter x y l :
  List.filter (λ z, match c y z with Eq => true | _ => false end) (insert_by c x l) =
  List.filter (λ z, match c y z with Eq => true | _ => false end) (x :: l).
Proof.
  induction l as [|a l IH]; [done|]. cbn [insert_by].
  destruct (c x a) eqn:E1; [done..|]. cbn [List.filter] in *. rewrite IH.
  destruct (c y a) eqn:E2, (c y x) eqn:E3; try done.
  rewrite (cmp_eq_l c y x a) in E2 by done. congruence.
Qed.

(** Elements that compare equal to [y] keep their relative order. *)
Lemma sort_by_stable y l :
  List.filter (λ z, match c y z with Eq => true | _ => false end) (sort_by c l) =
  List.filter (λ z, match c y z with Eq => true | _ => false end) l.
Proof.
  induction l as [|x l IH]; [done|]. cbn [sort_by foldr].
  rewrite insert_by_filter. cbn [List.filter]. unfold sort_by in IH. by rewrite IH.
Qed.
End sort_by.

(** In a sorted list, what precedes an element is not greater than it. *)
Lemma strongly_sorted_app_le {A} (R : A → A → Prop) l1 x l2 y :
  StronglySorted R (l1 ++ x :: l2) → y ∈ l2 → R x y.
Proof.
  induction l1 as [|a l1 IH]; simpl; inversion 1 as [|? ? Hs Hf]; subst; [|auto].
  intros Hy. rewrite Forall_forall in Hf. auto.
Qed.

#[export] Hint Resolve sort_by_sorted : gw.
