(* ===== verification/Text.v ===== *)
(** * Strings and ordered maps

    What the two services use of Rust's [str] (UTF-8 bytes) and [BTreeMap]:
    trimming, ASCII case, splitting, hexadecimal and decimal text, maps
    iterated in key order; and [base64_url_no_pad] of [service.rs], which writes
    webhook signatures: the URL alphabet without padding, three bytes at a
    time. *)

From Stdlib Require Import Ascii.
From stdpp Require Import pretty.
From S2P Require Import Prelude Order.
(** ** Trimming *)

(** Unicode white space in UTF-8, as [str::trim] removes it. *)
Definition byte_string (l : list nat) : string :=
  foldr (λ n s, String (Ascii.ascii_of_nat n) s) EmptyString l.
Definition whitespace : list string :=
  byte_string <$>
  [[9]; [10]; [11]; [12]; [13]; [32]; [194; 133]; [194; 160]; [225; 154; 128];
   [226; 128; 128]; [226; 128; 129]; [226; 128; 130]; [226; 128; 131]; [226; 128; 132];
   [226; 128; 133]; [226; 128; 134]; [226; 128; 135]; [226; 128; 136]; [226; 128; 137];
   [226; 128; 138]; [226; 128; 168]; [226; 128; 169]; [226; 128; 175]; [226; 129; 159];
   [227; 128; 128]].

Fixpoint drop_string (n : nat) (s : string) : string :=
  match n, s with S n', String _ s' => drop_string n' s' | _, _ => s end.

(** Strip leading occurrences of any of the words; every round consumes at
    least one byte, so the length is enough fuel. *)
Fixpoint strip_words (fuel : nat) (words : list string) (s : string) : string :=
  match fuel with
  | O => s
  | S fuel' =>
      match List.find (λ w, String.prefix w s) words with
      | Some w => strip_words fuel' words (drop_string (String.length w) s)
      | None => s
      end
  end.

Fixpoint rev_string_app (s acc : string) : string :=
  match s with EmptyString => acc | String c s' => rev_string_app s' (String c acc) end.
Definition rev_string (s : string) : string := rev_string_app s EmptyString.

Definition trim (s : string) : string :=
  let s1 := strip_words (String.length s) whitespace s in
  rev_string (strip_words (String.length s1) (rev_string <$> whitespace) (rev_string s1)).

(** [str::to_ascii_lowercase]. *)
Definition lower_char (c : ascii) : ascii :=
  let n := Ascii.nat_of_ascii c in
  if (65 <=? n) && (n <=? 90) then Ascii.ascii_of_nat (n + 32) else c.
Fixpoint to_ascii_lowercase (s : string) : string :=
  match s with EmptyString => EmptyString | String c s' => String (lower_char c) (to_ascii_lowercase s') end.

(** The bytes of a string. *)
Fixpoint bytes_of (s : string) : list Z :=
  match s with EmptyString => [] | String c s' => Z.of_N (Ascii.N_of_ascii c) :: bytes_of s' end.

(** [str::strip_prefix]. *)
Fixpoint strip_prefix (pre s : string) : option string :=
  match pre, s with
  | EmptyString, _ => Some s
  | String a pre', String b s' => if a ==? b then strip_prefix pre' s' else None
  | String _ _, EmptyString => None
  end.

(** [value.map(trim).filter(|v| !v.is_empty())]. *)
Definition trimmed (value : option string) : option string :=
  match value with
  | Some v => if trim v ==? "" then None else Some (trim v)
  | None => None
  end.

(** [chars().all(p)] on ASCII tests; a byte of a longer character fails them. *)
Fixpoint all_chars (p : ascii → bool) (s : string) : bool :=
  match s with EmptyString => true | String c s' => p c && all_chars p s' end.

Definition in_range (lo hi : nat) (c : ascii) : bool :=
  (lo <=? Ascii.nat_of_ascii c)%nat && (Ascii.nat_of_ascii c <=? hi)%nat.
Definition is_ascii_digit : ascii → bool := in_range 48 57.
Definition is_ascii_uppercase : ascii → bool := in_range 65 90.
Definition is_ascii_alphanumeric (c : ascii) : bool :=
  is_ascii_digit c || is_ascii_uppercase c || in_range 97 122 c.
Definition is_lower_hex (c : ascii) : bool := is_ascii_digit c || in_range 97 102 c.

(** ** Splitting *)

(** [str::split(sep)]: always at least one piece. *)
Fixpoint split_char (sep : ascii) (s : string) : list string :=
  match s with
  | EmptyString => [EmptyString]
  | String c s' =>
      if c ==? sep then EmptyString :: split_char sep s'
      else match split_char sep s' with
           | p :: ps => String c p :: ps
           | [] => [String c EmptyString]
           end
  end.

(** [str::split_once] on a character: before and after its first occurrence. *)
Fixpoint split_once (sep : ascii) (s : string) : option (string * string) :=
  match s with
  | EmptyString => None
  | String c s' =>
      if c ==? sep then Some (EmptyString, s')
      else match split_once sep s' with
           | Some (pre, post) => Some (String c pre, post)
           | None => None
           end
  end.

(** ** Hexadecimal and decimal text *)

Definition hex_digit (n : Z) : ascii :=
  default "0"%char (String.get (Z.to_nat n) "0123456789abcdef").
Fixpoint lower_hex (bytes : list Z) : string :=
  match bytes with
  | [] => EmptyString
  | b :: bs => String (hex_digit (Z.shiftr b 4)) (String (hex_digit (Z.land b 15)) (lower_hex bs))
  end.

Definition usize_max : N := 18446744073709551615%N.

(** [str::parse::<usize>]: an optional plus sign, then digits; anything else
    and an overflow are errors. *)
Fixpoint parse_digits (acc : N) (s : string) : option N :=
  match s with
  | EmptyString => Some acc
  | String c s' =>
      if is_ascii_digit c
      then parse_digits (acc * 10 + (Ascii.N_of_ascii c - 48))%N s'
      else None
  end.
Definition parse_usize (s : string) : option N :=
  let digits := match strip_prefix "+" s with Some d => d | None => s end in
  if digits ==? "" then None
  else match parse_digits 0 digits with
       | Some n => if (n <=? usize_max)%N then Some n else None
       | None => None
       end.

(** ** Maps in key order *)

(** [BTreeMap::iter] and [values]. *)
Definition entries {A} (m : gmap string A) : list (string * A) :=
  sort_by (cmp_on fst String.compare) (map_to_list m).
Definition values {A} (m : gmap string A) : list A := (entries m).*2.

(** A loop over [values_mut] that changes the entries with [p]; and how many. *)
Definition update_where {A} (p : A → bool) (f : A → A) (m : gmap string A) : gmap string A :=
  (λ x, if p x then f x else x) <$> m.
Definition count_where {A} (p : A → bool) (m : gmap string A) : nat :=
  length (List.filter p (values m)).

(** ** Hashing *)

(** SHA-256 of a byte string: 32 bytes. *)
Class Sha256Library : Type := sha256 : string → list Z.
Class Sha256Laws `{Sha256Library} : Prop := {
  sha256_length s : length (sha256 s) = 32;
  sha256_bytes s : Forall (λ b, 0 ≤ b < 256)%Z (sha256 s);
}.

(** A domain separation label ends in a NUL byte. *)
Definition nul : string := String (Ascii.ascii_of_nat 0) EmptyString.

(** ** Lemmas *)

Lemma elem_of_entries {A} (m : gmap string A) k x : (k, x) ∈ entries m ↔ m !! k = Some x.
Proof. unfold entries. by rewrite sort_by_elem, elem_of_map_to_list. Qed.

Lemma elem_of_values {A} (m : gmap string A) x : x ∈ values m ↔ ∃ k, m !! k = Some x.
Proof.
  unfold values. rewrite list_elem_of_fmap. split.
  - intros ([k y] & -> & H%elem_of_entries). eauto.
  - intros (k & H%elem_of_entries). by exists (k, x).
Qed.

Lemma find_values {A} (p : A → bool) (m : gmap string A) x :
  List.find p (values m) = Some x → p x = true ∧ ∃ k, m !! k = Some x.
Proof. intros [H%elem_of_values Hp]%find_Some_in. done. Qed.

Lemma find_values_none {A} (p : A → bool) (m : gmap string A) k x :
  List.find p (values m) = None → m !! k = Some x → p x = false.
Proof.
  rewrite find_None_iff. intros H Hk. apply H, elem_of_values. eauto.
Qed.

Lemma filter_values {A} (p : A → bool) (m : gmap string A) x :
  x ∈ List.filter p (values m) ↔ p x = true ∧ ∃ k, m !! k = Some x.
Proof. rewrite filter_iff, elem_of_values. tauto. Qed.

Lemma update_where_lookup {A} (p : A → bool) f (m : gmap string A) k x :
  update_where p f m !! k = Some x ↔ ∃ y, m !! k = Some y ∧ x = if p y then f y else y.
Proof.
  unfold update_where. rewrite lookup_fmap_Some. naive_solver.
Qed.

Lemma starts_with_app pre s : starts_with pre s = true ↔ ∃ r, s = pre +:+ r.
Proof.
  unfold starts_with. revert s. induction pre as [|a pre IH]; intros s.
  { split; [intros _; by exists s|]. intros _. by destruct s. }
  destruct s as [|b s].
  { split; [done|]. by intros [r Hr]. }
  cbn [String.prefix]. destruct (ascii_dec a b) as [->|Hne].
  - rewrite IH. split; intros [r Hr]; exists r; [by rewrite Hr|by injection Hr].
  - split; [done|]. intros [r Hr]. by injection Hr.
Qed.

(** Two prefixes of one string agree as far as the shorter goes. *)
Lemma starts_with_conflict p q s :
  starts_with p s = true → starts_with q s = true → String.length p = String.length q → p = q.
Proof.
  intros [r ->]%starts_with_app [r' H]%starts_with_app. revert q H.
  induction p as [|a p IH]; intros [|b q] H Hl; try done. injection H as -> H. f_equal. by eapply IH, eq_add_S.
Qed.

(** ** Comparing bytes *)

Lemma lxor_nonneg a b : (0 ≤ a → 0 ≤ b → 0 ≤ Z.lxor a b)%Z.
Proof. intros. apply Z.lxor_nonneg. lia. Qed.

Lemma fold_lor_zero {A} (f : A → Z) l d : (0 ≤ d)%Z → (∀ x, x ∈ l → 0 ≤ f x)%Z →
  fold_left (λ d x, Z.lor d (f x)) l d = 0%Z ↔ d = 0%Z ∧ ∀ x, x ∈ l → f x = 0%Z.
Proof.
  revert d. induction l as [|a l IH]; intros d Hd Hf; simpl; [set_solver|].
  rewrite IH; [|apply Z.lor_nonneg; split; [done|apply Hf; set_solver]|set_solver].
  rewrite Z.lor_eq_0_iff. set_solver.
Qed.

(** The bytes of two strings compared one by one, the shorter padded with
    zeros, and the lengths with them: what a comparison in constant time folds. *)
Definition folded_difference (left right : list Z) : Z :=
  fold_left (λ diff index, Z.lor diff (Z.lxor (default 0%Z (left !! index)) (default 0%Z (right !! index))))
    (seq 0 (Nat.max (length left) (length right)))
    (Z.lxor (Z.of_nat (length left)) (Z.of_nat (length right))).

(** The padding cannot hide a difference in length. *)
Lemma folded_difference_zero left right :
  (∀ b, b ∈ left ++ right → 0 ≤ b)%Z → folded_difference left right = 0%Z ↔ left = right.
Proof.
  intros Hb. unfold folded_difference. rewrite fold_lor_zero.
  - rewrite Z.lxor_eq_0_iff. split; [|by intros ->; split; [done|]; intros; apply Z.lxor_nilpotent].
    intros [Hl%Nat2Z.inj Hx]. apply list_eq_same_length with (length left); [done..|].
    intros i x y Hi Hx1 Hy1. specialize (Hx i). rewrite elem_of_seq, Hx1, Hy1 in Hx.
    apply Z.lxor_eq. apply Hx. lia.
  - apply lxor_nonneg; lia.
  - intros i _. assert (∀ l : list Z, (∀ b, b ∈ l → 0 ≤ b)%Z → (0 ≤ default 0 (l !! i))%Z) as Hd.
    { intros l Hl. destruct (l !! i) eqn:E; simpl; [|lia]. apply Hl. by eapply list_elem_of_lookup_2. }
    apply lxor_nonneg; apply Hd; set_solver.
Qed.

Lemma bytes_of_nonneg s b : b ∈ bytes_of s → (0 ≤ b)%Z.
Proof. induction s as [|c s IH]; simpl; [set_solver|]. intros [->|?]%elem_of_cons; [lia|auto]. Qed.

Lemma bytes_of_inj s r : bytes_of s = bytes_of r → s = r.
Proof.
  revert r. induction s as [|c s IH]; intros [|d r] H; try done. simpl in H.
  injection H as H1%N2Z.inj H2. f_equal; [|auto].
  by rewrite <- (Ascii.ascii_N_embedding c), H1, Ascii.ascii_N_embedding.
Qed.

Lemma folded_strings_eq s r : folded_difference (bytes_of s) (bytes_of r) = 0%Z ↔ s = r.
Proof.
  rewrite folded_difference_zero.
  - split; [apply bytes_of_inj|by intros ->].
  - intros b [?|?]%elem_of_app; by eapply bytes_of_nonneg.
Qed.

(** ** Numbers *)

Lemma digit_char d : (d < 10)%N →
  is_ascii_digit (pretty_N_char d) = true ∧ (Ascii.N_of_ascii (pretty_N_char d) - 48)%N = d.
Proof.
  intros Hd. assert (In d [0; 1; 2; 3; 4; 5; 6; 7; 8; 9]%N) as Hin by (simpl; lia).
  simpl in Hin. repeat destruct Hin as [<-|Hin]; done.
Qed.

Lemma parse_digits_pretty_go x s : parse_digits 0 (pretty_N_go x s) = parse_digits x s.
Proof.
  revert s. induction (N.lt_wf_0 x) as [x _ IH]; intros s.
  destruct (decide (x = 0)%N) as [->|Hx]; [by rewrite pretty_N_go_0|].
  rewrite pretty_N_go_step by lia. rewrite IH by (apply N.div_lt; lia). cbn [parse_digits].
  destruct (digit_char (x `mod` 10)%N) as [-> ->]; [apply N.mod_lt; lia|].
  f_equal. pose proof (N.div_mod x 10). lia.
Qed.

Lemma pretty_go_head x s c r : pretty_N_go x s = String c r →
  (0 < x)%N → is_ascii_digit c = true.
Proof.
  revert s. induction (N.lt_wf_0 x) as [x _ IH]; intros s E Hx.
  rewrite pretty_N_go_step in E by lia.
  destruct (decide (x `div` 10 = 0)%N) as [Hz|Hz].
  - rewrite Hz, pretty_N_go_0 in E. simplify_eq/=. apply digit_char, N.mod_lt. lia.
  - apply (IH (x `div` 10)%N (N.div_lt x 10 Hx eq_refl) _ E). by apply N.neq_0_lt_0.
Qed.

(** Printing and parsing back. *)
Lemma parse_usize_pretty n : (n ≤ usize_max)%N → parse_usize (pretty n) = Some n.
Proof.
  intros Hn. destruct (decide (n = 0)%N) as [->|Hz]; [done|].
  assert (pretty n = pretty_N_go n "") as E.
  { unfold pretty, pretty_N. by rewrite decide_False. }
  pose proof (parse_digits_pretty_go n "") as Hp. rewrite <- E in Hp. cbn [parse_digits] in Hp.
  unfold parse_usize. destruct (pretty n) as [|c r] eqn:Es.
  { simplify_eq/=. }
  assert (is_ascii_digit c = true) as Hc by (eapply pretty_go_head; [by symmetry|lia]).
  replace (strip_prefix "+" (String c r)) with (@None string); last first.
  { cbn [strip_prefix]. case_bool_decide as Hp'; [|done]. by subst c. }
  rewrite bool_decide_eq_false_2 by done. rewrite Hp, (proj2 (N.leb_le _ _) Hn). done.
Qed.

(** ** Base64 *)

(** A byte as an integer. *)
Definition is_byte (b : Z) : Prop := (0 ≤ b < 256)%Z.

Definition TABLE : string := "ABCDEFGHIJKLMNOPQRSTUVWXYZabcdefghijklmnopqrstuvwxyz0123456789-_".

(** [char::from(TABLE[usize::from(i)])]. *)
Definition table_char (i : Z) : string := String.substring (Z.to_nat i) 1 TABLE.

(** One chunk of one to three bytes. *)
Definition encode_chunk (chunk : list Z) : string :=
  match chunk with
  | [] => ""
  | first :: rest =>
      let second := nth 0 rest 0%Z in
      let third := nth 1 rest 0%Z in
      table_char (Z.shiftr first 2)
      +:+ table_char (Z.lor (Z.shiftl (Z.land first 3) 4) (Z.shiftr second 4))
      +:+ (if (1 <? length chunk)%nat
           then table_char (Z.lor (Z.shiftl (Z.land second 15) 2) (Z.shiftr third 6)) else "")
      +:+ (if (2 <? length chunk)%nat then table_char (Z.land third 63) else "")
  end.

(** [bytes.chunks(3)]. *)
Fixpoint chunks3 (bytes : list Z) : list (list Z) :=
  match bytes with
  | [] => []
  | a :: b :: c :: rest => [a; b; c] :: chunks3 rest
  | rest => [rest]
  end.

Definition base64_url_no_pad (bytes : list Z) : string :=
  foldr (λ chunk s, encode_chunk chunk +:+ s) "" (chunks3 bytes).

(** ** Decoding *)

Fixpoint char_index (c : Ascii.ascii) (table : string) (i : Z) : option Z :=
  match table with
  | EmptyString => None
  | String c' table' => if c' ==? c then Some i else char_index c table' (i + 1)
  end.
Definition sextet (c : Ascii.ascii) : option Z := char_index c TABLE 0.

(** The inverse, by arithmetic: four characters carry three bytes. *)
Fixpoint decode (s : string) : option (list Z) :=
  match s with
  | EmptyString => Some []
  | String c1 (String c2 s2) =>
      x1 ← sextet c1; x2 ← sextet c2;
      let a := (x1 * 4 + x2 / 16)%Z in
      match s2 with
      | EmptyString => Some [a]
      | String c3 s3 =>
          x3 ← sextet c3;
          let b := (x2 mod 16 * 16 + x3 / 4)%Z in
          match s3 with
          | EmptyString => Some [a; b]
          | String c4 s4 =>
              x4 ← sextet c4;
              rest ← decode s4;
              Some (a :: b :: (x3 mod 4 * 64 + x4)%Z :: rest)
          end
      end
  | _ => None
  end.

(** ** Round trip *)

Definition below (n : nat) : list Z := Z.of_nat <$> seq 0 n.

Lemma below_spec n z : (0 ≤ z < Z.of_nat n)%Z → z ∈ below n.
Proof.
  intros Hz. apply list_elem_of_fmap. exists (Z.to_nat z). split; [lia|].
  apply elem_of_seq. lia.
Qed.

(** Every sextet is written as one character, which reads back. *)
Lemma table_char_spec i : (0 ≤ i < 64)%Z → ∃ c, table_char i = String c "" ∧ sextet c = Some i.
Proof.
  intros Hi%(below_spec 64). revert i Hi. apply Forall_forall.
  assert (forallb (λ i, match table_char i with
    | String c EmptyString => sextet c ==? Some i | _ => false end) (below 64) = true) as H
    by (vm_compute; reflexivity).
  rewrite forallb_iff in H. apply Forall_forall. intros i Hi%H.
  destruct (table_char i) as [|c [|]]; [done| |done]. btrue. eauto.
Qed.

(** The bit operations as arithmetic. *)
Lemma high_bits b n : (0 ≤ n)%Z → Z.shiftr b n = (b / 2 ^ n)%Z.
Proof. intros. by apply Z.shiftr_div_pow2. Qed.

Lemma low_bits b n : (0 ≤ n)%Z → Z.land b (Z.ones n) = (b mod 2 ^ n)%Z.
Proof. intros. by apply Z.land_ones. Qed.

Lemma join_bits x y n : (0 ≤ n)%Z → (0 ≤ y < 2 ^ n)%Z →
  Z.lor (Z.shiftl x n) y = (x * 2 ^ n + y)%Z.
Proof.
  intros Hn Hy. rewrite <- Z.shiftl_mul_pow2 by done. symmetry. apply Z.add_nocarry_lor.
  apply Z.bits_inj'. intros i Hi. rewrite Z.land_spec, Z.bits_0.
  destruct (Z.lt_ge_cases i n).
  - by rewrite Z.shiftl_spec_low.
  - apply andb_false_intro2. destruct (decide (y = 0%Z)) as [->|]; [apply Z.bits_0|].
    apply Z.bits_above_log2; [lia|]. apply Z.lt_le_trans with n; [|done].
    apply Z.log2_lt_pow2; lia.
Qed.

(** The four sextets of a chunk. *)
Lemma sextets a b c : is_byte a → is_byte b → is_byte c →
  Z.shiftr a 2 = (a / 4)%Z ∧
  Z.lor (Z.shiftl (Z.land a 3) 4) (Z.shiftr b 4) = (a mod 4 * 16 + b / 16)%Z ∧
  Z.lor (Z.shiftl (Z.land b 15) 2) (Z.shiftr c 6) = (b mod 16 * 4 + c / 64)%Z ∧
  Z.land c 63 = (c mod 64)%Z.
Proof.
  unfold is_byte. intros Ha Hb Hc.
  change 3%Z with (Z.ones 2). change 15%Z with (Z.ones 4). change 63%Z with (Z.ones 6).
  rewrite !low_bits, !high_bits by lia. cbn [Z.pow Z.pow_pos Pos.iter].
  split_and!; [done| | |done]; (rewrite join_bits; [done|done|]);
    split; [apply Z.div_pos; lia|apply Z.div_lt_upper_bound; lia
           |apply Z.div_pos; lia|apply Z.div_lt_upper_bound; lia].
Qed.

(** Linear arithmetic with division and remainder by constants. *)
Ltac divmod := Z.to_euclidean_division_equations; lia.

(** Write sextets as characters and read them back. *)
Ltac read_sextet x :=
  let c := fresh "c" in let S := fresh "S" in
  destruct (table_char_spec x) as (c & -> & S); [divmod|].

(** Reading a chunk back. *)
Lemma decode_one a : is_byte a → decode (encode_chunk [a]) = Some [a].
Proof.
  intros Ha. unfold encode_chunk. cbn [nth length Nat.ltb Nat.leb].
  destruct (sextets a 0 0) as (E1 & E2 & _ & _); [done|unfold is_byte; lia..|].
  rewrite E1, E2. unfold is_byte in *. read_sextet (a / 4)%Z. read_sextet (a mod 4 * 16 + 0 / 16)%Z.
  simpl. rewrite S, S0. simpl. do 2 f_equal. divmod.
Qed.

Lemma decode_two a b : is_byte a → is_byte b → decode (encode_chunk [a; b]) = Some [a; b].
Proof.
  intros Ha Hb. unfold encode_chunk. cbn [nth length Nat.ltb Nat.leb].
  destruct (sextets a b 0) as (E1 & E2 & E3 & _); [done|done|unfold is_byte; lia|].
  rewrite E1, E2, E3. unfold is_byte in *. read_sextet (a / 4)%Z.
  read_sextet (a mod 4 * 16 + b / 16)%Z. read_sextet (b mod 16 * 4 + 0 / 64)%Z.
  simpl. rewrite S, S0. simpl. rewrite S1. simpl. do 2 f_equal; [divmod|f_equal; divmod].
Qed.

Lemma decode_three a b c rest s :
  is_byte a → is_byte b → is_byte c → decode s = Some rest →
  decode (encode_chunk [a; b; c] +:+ s) = Some (a :: b :: c :: rest).
Proof.
  intros Ha Hb Hc Hs. unfold encode_chunk. cbn [nth length Nat.ltb Nat.leb].
  destruct (sextets a b c) as (E1 & E2 & E3 & E4); [done..|].
  rewrite E1, E2, E3, E4. unfold is_byte in *. read_sextet (a / 4)%Z.
  read_sextet (a mod 4 * 16 + b / 16)%Z. read_sextet (b mod 16 * 4 + c / 64)%Z.
  read_sextet (c mod 64)%Z.
  simpl. rewrite S, S0. simpl. rewrite S1. simpl. rewrite S2. simpl. change ("" +:+ s) with s. rewrite Hs. simpl.
  do 2 f_equal; [divmod|]. f_equal; [divmod|]. f_equal. divmod.
Qed.

Lemma string_app_nil s : s +:+ "" = s.
Proof. induction s as [|c s IH]; [done|]. change (String c (s +:+ "") = String c s). by rewrite IH. Qed.

(** Signatures survive their encoding: decoding the URL-safe, unpadded
    base64 of any bytes gives the bytes back, so two different signatures are
    never written alike. *)
Theorem base64_roundtrip (bytes : list Z) :
  Forall is_byte bytes → decode (base64_url_no_pad bytes) = Some bytes.
Proof.
  unfold base64_url_no_pad. revert bytes. fix IH 1. intros [|a [|b [|c rest]]] Hb.
  - done.
  - apply Forall_cons in Hb as [Ha _]. cbn [chunks3 foldr].
    rewrite string_app_nil. by apply decode_one.
  - apply Forall_cons in Hb as [Ha [Hb _]%Forall_cons]. cbn [chunks3 foldr].
    rewrite string_app_nil. by apply decode_two.
  - apply Forall_cons in Hb as [Ha [Hb [Hc Hr]%Forall_cons]%Forall_cons].
    cbn [chunks3 foldr]. apply decode_three; [done..|]. by apply IH.
Qed.

Lemma base64_roundtrip_witness :
  decode (base64_url_no_pad [77; 97; 110; 255]%Z) = Some [77; 97; 110; 255]%Z.
Proof. apply base64_roundtrip. repeat constructor; unfold is_byte; lia. Defined.
