(* ===== verification/Domain.v ===== *)
(** * Domain types and errors

    The data shared by every component of the gateway: protocol families
    ([lib.rs]), the error envelope ([error.rs]) and the lifecycle statuses,
    actors, credentials, memberships and endpoints of [domain.rs].  A Rust
    enum or struct [T] is the inductive type or record [T.t] of the module [T],
    with the source's constructors, fields and methods. *)

From S2P Require Import Prelude.

(** ** Protocol families ([lib.rs]) *)

Module ProtocolFamily.
Inductive t : Set :=
| OpenAiResponses | OpenAiChat | AnthropicMessages
| GeminiGenerateContent | BedrockConverse | ProviderNative.

Definition as_str (f : t) : string :=
  match f with
  | OpenAiResponses => "openai_responses"
  | OpenAiChat => "openai_chat"
  | AnthropicMessages => "anthropic_messages"
  | GeminiGenerateContent => "gemini_generate_content"
  | BedrockConverse => "bedrock_converse"
  | ProviderNative => "provider_native"
  end.

Definition all : list t :=
  [OpenAiResponses; OpenAiChat; AnthropicMessages;
   GeminiGenerateContent; BedrockConverse; ProviderNative].

#[global] Instance eq_dec : EqDecision t.
Proof. solve_decision. Defined.
End ProtocolFamily.

(** ** Errors ([error.rs]) *)

Module GatewayError.
Inductive t : Set :=
| Authentication
| Authorization (reason : string)
| BadRequest (message : string)
| NotFound (resource : string)
| NoRoute (reason : string)
| BudgetExceeded (reason : string)
| QuotaExceeded (reason : string)
| RequestTimeout
| NotReady
| Upstream (reason : string)
| Internal (message : string).

Definition code (e : t) : string :=
  match e with
  | Authentication => "gateway.auth.authentication_failed"
  | Authorization _ => "gateway.auth.authorization_denied"
  | BadRequest _ => "gateway.request.invalid"
  | NotFound _ => "gateway.resource.not_found"
  | NoRoute _ => "gateway.route.no_route"
  | BudgetExceeded _ => "gateway.budget.exceeded"
  | QuotaExceeded _ => "gateway.quota.exceeded"
  | RequestTimeout => "gateway.request.timeout"
  | NotReady => "gateway.runtime.not_ready"
  | Upstream _ => "gateway.upstream.failed"
  | Internal _ => "gateway.internal"
  end.

(** HTTP status codes by number. *)
Definition status (e : t) : Z :=
  match e with
  | Authentication => 401
  | Authorization _ => 403
  | BadRequest _ => 400
  | NotFound _ => 404
  | RequestTimeout => 408
  | NoRoute _ | NotReady => 503
  | Upstream _ => 502
  | BudgetExceeded _ | QuotaExceeded _ => 429
  | Internal _ => 500
  end%Z.

Definition to_string (e : t) : string :=
  match e with
  | Authentication => "authentication failed"
  | Authorization reason => "authorization denied: " +:+ reason
  | BadRequest message => "bad request: " +:+ message
  | NotFound resource => "not found: " +:+ resource
  | NoRoute reason => "no route available: " +:+ reason
  | BudgetExceeded reason => "budget exceeded: " +:+ reason
  | QuotaExceeded reason => "quota exceeded: " +:+ reason
  | RequestTimeout => "request timed out"
  | NotReady => "service not ready"
  | Upstream reason => "upstream provider failed: " +:+ reason
  | Internal message => "internal error: " +:+ message
  end.

#[global] Instance eq_dec : EqDecision t.
Proof. solve_decision. Defined.
End GatewayError.

Abbreviation Result := (result GatewayError.t).

(** The body and envelope sent to a client ([ErrorBody], [ErrorEnvelope]). *)
Module ErrorEnvelope.
Record t : Set := mk {
  schema : string;
  code : string;
  message : string;
  retryable : bool;
  request_id : option string;
}.

Definition from_error (error : GatewayError.t) (request_id : option string) : t :=
  {| schema := "gateway.error.v1";
     code := GatewayError.code error;
     message := GatewayError.to_string error;
     retryable :=
       match error with
       | GatewayError.NoRoute _ | GatewayError.RequestTimeout
       | GatewayError.NotReady | GatewayError.Upstream _
       | GatewayError.QuotaExceeded _ | GatewayError.Internal _ => true
       | _ => false
       end;
     request_id := request_id |}.
End ErrorEnvelope.

(** ** Lifecycle statuses ([domain.rs]) *)

Module DirectoryStatus.
Inductive t : Set := Active | Suspended | Disabled | Deleted.
Definition as_str (s : t) : string :=
  match s with
  | Active => "active" | Suspended => "suspended"
  | Disabled => "disabled" | Deleted => "deleted"
  end.
Definition accepts_access (s : t) : bool :=
  match s with Active => true | _ => false end.
End DirectoryStatus.

Module ActorKind.
Inductive t : Set := User | ServiceAccount | ApiKey | InternalService | System.
Definition as_str (k : t) : string :=
  match k with
  | User => "user" | ServiceAccount => "service_account" | ApiKey => "api_key"
  | InternalService => "internal_service" | System => "system"
  end.
#[global] Instance eq_dec : EqDecision t.
Proof. solve_decision. Defined.
End ActorKind.

Module CredentialKind.
Inductive t : Set := ApiKey | Session | ServiceToken | MtlsSubject | InternalService | System.
#[global] Instance eq_dec : EqDecision t.
Proof. solve_decision. Defined.
End CredentialKind.

Module ApiKeyStatus.
Inductive t : Set := Active | Disabled | Expired | Rotating | Deleted.
Definition accepts_authentication (s : t) : bool :=
  match s with Active | Rotating => true | _ => false end.
#[global] Instance eq_dec : EqDecision t.
Proof. solve_decision. Defined.
End ApiKeyStatus.

Module AuthSessionStatus.
Inductive t : Set := Active | Revoked | Expired.
Definition accepts_authentication (s : t) : bool :=
  match s with Active => true | _ => false end.
#[global] Instance eq_dec : EqDecision t.
Proof. solve_decision. Defined.
End AuthSessionStatus.

Module MembershipStatus.
Inductive t : Set := Active | Suspended | Removed.
Definition as_str (s : t) : string :=
  match s with
  | Active => "active" | Suspended => "suspended" | Removed => "removed"
  end.
Definition accepts_access (s : t) : bool :=
  match s with Active => true | _ => false end.
#[global] Instance eq_dec : EqDecision t.
Proof. solve_decision. Defined.
End MembershipStatus.

Module InvitationStatus.
Inductive t : Set := Pending | Accepted | Revoked | Expired.
Definition as_str (s : t) : string :=
  match s with
  | Pending => "pending" | Accepted => "accepted"
  | Revoked => "revoked" | Expired => "expired"
  end.
Definition accepts_at (s : t) (expires_at now : DateTime) : bool :=
  match s with Pending => (now <? expires_at)%Z | _ => false end.
#[global] Instance eq_dec : EqDecision t.
Proof. solve_decision. Defined.
End InvitationStatus.

Module ResourceStatus.
Inductive t : Set := Active | Disabled | Draining | Degraded | Deleted.
Definition as_str (s : t) : string :=
  match s with
  | Active => "active" | Disabled => "disabled" | Draining => "draining"
  | Degraded => "degraded" | Deleted => "deleted"
  end.
Definition is_active (s : t) : bool :=
  match s with Active => true | _ => false end.
#[global] Instance eq_dec : EqDecision t.
Proof. solve_decision. Defined.
End ResourceStatus.

(** ** Records ([domain.rs]) *)

Module ApiKeyRecord.
Record t : Set := mk {
  api_key_id : string;
  tenant_id : string;
  organization_id : option string;
  project_id : option string;
  owner_principal_id : string;
  name : string;
  key_prefix : string;
  secret_hash : string;
  hash_version : Z;
  status : ApiKeyStatus.t;
  allowed_actions : list string;
  allowed_resources : list string;
  expires_at : option DateTime;
  last_used_at : option DateTime;
  last_used_request_id : option string;
  created_by : string;
  created_at : DateTime;
  updated_at : DateTime;
}.

Definition can_authenticate_at (r : t) (now : DateTime) : bool :=
  ApiKeyStatus.accepts_authentication (status r)
  && match expires_at r with None => true | Some e => (now <? e)%Z end.
End ApiKeyRecord.

Module AuthSessionRecord.
Record t : Set := mk {
  auth_session_id : string;
  tenant_id : string;
  principal_id : string;
  active_organization_id : option string;
  active_project_id : option string;
  session_hash : string;
  status : AuthSessionStatus.t;
  expires_at : DateTime;
  created_at : DateTime;
  updated_at : DateTime;
}.

Definition can_authenticate_at (r : t) (now : DateTime) : bool :=
  AuthSessionStatus.accepts_authentication (status r) && (now <? expires_at r)%Z.
End AuthSessionRecord.

Module ProjectMembershipRecord.
Record t : Set := mk {
  project_member_id : string;
  tenant_id : string;
  organization_id : string;
  project_id : string;
  principal_id : string;
  organization_member_id : option string;
  status : MembershipStatus.t;
  resource_version : Z;
}.

Definition accepts_access (r : t) : bool := MembershipStatus.accepts_access (status r).
End ProjectMembershipRecord.

Module ProviderEndpoint.
Record t : Set := mk {
  provider_endpoint_id : string;
  tenant_id : string;
  name : string;
  provider_kind : string;
  protocol_families : list ProtocolFamily.t;
  upstream_base_url : string;
  status : ResourceStatus.t;
}.
End ProviderEndpoint.

(** ** Actors ([domain.rs]) *)

Module ActorScope.
Record t : Set := mk {
  tenant_id : string;
  organization_id : option string;
  project_id : option string;
}.

Definition from_project_membership (m : ProjectMembershipRecord.t) : t :=
  {| tenant_id := ProjectMembershipRecord.tenant_id m;
     organization_id := Some (ProjectMembershipRecord.organization_id m);
     project_id := Some (ProjectMembershipRecord.project_id m) |}.
End ActorScope.

Module AuthenticatedActor.
Record t : Set := mk {
  actor_id : string;
  actor_kind : ActorKind.t;
  tenant_id : string;
  organization_id : option string;
  project_id : option string;
  principal_id : option string;
  api_key_id : option string;
  credential_kind : CredentialKind.t;
  auth_strength : Z;
  expires_at : option DateTime;
  api_key_allowed_actions : list string;
  api_key_allowed_resources : list string;
  request_id : string;
  trace_id : string;
}.

Definition for_api_key (record : ApiKeyRecord.t) (request_id trace_id : string) : t :=
  {| actor_id := ApiKeyRecord.api_key_id record;
     actor_kind := ActorKind.ApiKey;
     tenant_id := ApiKeyRecord.tenant_id record;
     organization_id := ApiKeyRecord.organization_id record;
     project_id := ApiKeyRecord.project_id record;
     principal_id := Some (ApiKeyRecord.owner_principal_id record);
     api_key_id := Some (ApiKeyRecord.api_key_id record);
     credential_kind := CredentialKind.ApiKey;
     auth_strength := 50;
     expires_at := ApiKeyRecord.expires_at record;
     api_key_allowed_actions := ApiKeyRecord.allowed_actions record;
     api_key_allowed_resources := ApiKeyRecord.allowed_resources record;
     request_id := request_id;
     trace_id := trace_id |}.

Definition for_user_session (scope : ActorScope.t)
    (principal_id session_id request_id trace_id : string)
    (expires_at : option DateTime) : t :=
  {| actor_id := session_id;
     actor_kind := ActorKind.User;
     tenant_id := ActorScope.tenant_id scope;
     organization_id := ActorScope.organization_id scope;
     project_id := ActorScope.project_id scope;
     principal_id := Some principal_id;
     api_key_id := None;
     credential_kind := CredentialKind.Session;
     auth_strength := 80;
     expires_at := expires_at;
     api_key_allowed_actions := [];
     api_key_allowed_resources := [];
     request_id := request_id;
     trace_id := trace_id |}.

Definition for_service_account (scope : ActorScope.t)
    (service_account_id request_id trace_id : string) : t :=
  {| actor_id := service_account_id;
     actor_kind := ActorKind.ServiceAccount;
     tenant_id := ActorScope.tenant_id scope;
     organization_id := ActorScope.organization_id scope;
     project_id := ActorScope.project_id scope;
     principal_id := Some service_account_id;
     api_key_id := None;
     credential_kind := CredentialKind.ServiceToken;
     auth_strength := 70;
     expires_at := None;
     api_key_allowed_actions := [];
     api_key_allowed_resources := [];
     request_id := request_id;
     trace_id := trace_id |}.

Definition for_internal_service (tenant_id service_name request_id trace_id : string) : t :=
  {| actor_id := service_name;
     actor_kind := ActorKind.InternalService;
     tenant_id := tenant_id;
     organization_id := None;
     project_id := None;
     principal_id := None;
     api_key_id := None;
     credential_kind := CredentialKind.InternalService;
     auth_strength := 90;
     expires_at := None;
     api_key_allowed_actions := [];
     api_key_allowed_resources := [];
     request_id := request_id;
     trace_id := trace_id |}.

Definition for_system_task (tenant_id task_id request_id trace_id : string) : t :=
  {| actor_id := task_id;
     actor_kind := ActorKind.System;
     tenant_id := tenant_id;
     organization_id := None;
     project_id := None;
     principal_id := None;
     api_key_id := None;
     credential_kind := CredentialKind.System;
     auth_strength := 100;
     expires_at := None;
     api_key_allowed_actions := [];
     api_key_allowed_resources := [];
     request_id := request_id;
     trace_id := trace_id |}.
End AuthenticatedActor.

(** [new_prefixed_id]: the text of the freshly drawn UUID is an argument. *)
Definition new_prefixed_id (prefix uuid : string) : string := prefix +:+ "_" +:+ uuid.
