(* ===== verification/Action.v ===== *)
(** * Actions, roles and authorization

    [action.rs], the engine of [policy.rs] and the route check of [route.rs]:
    the canonical action registry, the built-in roles and the actions each
    grants, the authorization request, the preflight gates on API keys, the
    foundation engine over explicit grants, the Cedar-backed engine (the Cedar
    library is a parameter), the filtering of item lists and the recording of
    decision evidence. *)

From S2P Require Import Prelude Domain.

(** ** The action registry (the [gateway_actions!] table) *)

Module GatewayAction.

Inductive t : Set :=
  | TenantRead | TenantWrite | IdentityProviderRead | IdentityProviderWrite | UserRead
  | UserWrite | UserDisable | ExternalIdentityRead | ExternalIdentityUnlink | SessionRead
  | SessionRevoke | SessionUpdate | ServiceAccountRead | ServiceAccountWrite
  | ServiceAccountDisable | OrganizationRead | OrganizationWrite | OrganizationMemberRead
  | OrganizationMemberWrite | OrganizationInviteRead | OrganizationInviteCreate
  | OrganizationInviteManage | OrganizationInviteAccept | ProjectRead | ProjectWrite
  | ProjectMemberRead | ProjectMemberWrite | CallerCredentialRead | CallerCredentialDisable
  | ActionGrantRead | ActionGrantWrite | ProviderEndpointRead | ProviderEndpointWrite
  | UpstreamCredentialRead | UpstreamCredentialWrite | UpstreamCredentialRotate
  | SecretRefRead | SecretRefWrite | SecretRefLocatorRead | CodexOAuthConnectionRead
  | CodexOAuthConnectionWrite | CodexOAuthSessionRead | CodexOAuthSessionStart
  | CodexOAuthSessionRevoke | CodexOAuthRefreshRead | ModelTargetRead | ModelTargetWrite
  | ModelAliasRead | ModelAliasWrite | PricingSkuRead | PricingSkuWrite | RoutingGroupRead
  | RoutingGroupWrite | RoutePolicyRead | RoutePolicyWrite | ProviderGrantRead
  | ProviderGrantWrite | QuotaPolicyRead | QuotaPolicyWrite | AdmissionPolicyRead
  | AdmissionPolicyWrite | RedactionPolicyRead | RedactionPolicyWrite | ApiKeyCreate
  | ApiKeyRead | ApiKeyRotate | ApiKeyDisable | RoleRead | RoleWrite | RoleBindingRead
  | RoleBindingWrite | PolicyRead | PolicyWrite | BudgetPolicyRead | BudgetPolicyWrite
  | ConfigRead | ConfigApply | ConfigPublish | ConfigRollback | RouteSimulationRun
  | CatalogImportCreate | CatalogImportRead | MaintenanceWindowRead
  | MaintenanceWindowWrite | ModelInvoke | ModelStream | ModelNative | RouteDebugRead
  | UsageRead | UsageSummaryRead | UsageEventRead | RealtimeDashboardRead
  | DashboardTenantRead | DashboardOrganizationRead | DashboardProjectRead
  | DashboardProjectMemberRead | DashboardApiKeyRead | DashboardServiceAccountRead
  | ModelObservabilityRead | ProviderObservabilityRead | BudgetDashboardRead
  | QuotaDashboardRead | AuditRead | ExportRead | ExportCreate | NotificationRead
  | NotificationWrite | NotificationOutboxWrite | ObservabilityExportRead
  | ObservabilityExportWrite | HealthRead | ProviderHealthOverride | EmergencyDisable
  | DebugCaptureEnable.

Definition as_str (a : t) : string :=
  match a with
  | TenantRead => "gateway.tenant.read"
  | TenantWrite => "gateway.tenant.write"
  | IdentityProviderRead => "gateway.identity_provider.read"
  | IdentityProviderWrite => "gateway.identity_provider.write"
  | UserRead => "gateway.user.read"
  | UserWrite => "gateway.user.write"
  | UserDisable => "gateway.user.disable"
  | ExternalIdentityRead => "gateway.external_identity.read"
  | ExternalIdentityUnlink => "gateway.external_identity.unlink"
  | SessionRead => "gateway.session.read"
  | SessionRevoke => "gateway.session.revoke"
  | SessionUpdate => "gateway.session.update"
  | ServiceAccountRead => "gateway.service_account.read"
  | ServiceAccountWrite => "gateway.service_account.write"
  | ServiceAccountDisable => "gateway.service_account.disable"
  | OrganizationRead => "gateway.organization.read"
  | OrganizationWrite => "gateway.organization.write"
  | OrganizationMemberRead => "gateway.organization_member.read"
  | OrganizationMemberWrite => "gateway.organization_member.write"
  | OrganizationInviteRead => "gateway.organization_invite.read"
  | OrganizationInviteCreate => "gateway.organization_invite.create"
  | OrganizationInviteManage => "gateway.organization_invite.manage"
  | OrganizationInviteAccept => "gateway.organization_invite.accept"
  | ProjectRead => "gateway.project.read"
  | ProjectWrite => "gateway.project.write"
  | ProjectMemberRead => "gateway.project_member.read"
  | ProjectMemberWrite => "gateway.project_member.write"
  | CallerCredentialRead => "gateway.caller_credential.read"
  | CallerCredentialDisable => "gateway.caller_credential.disable"
  | ActionGrantRead => "gateway.action_grant.read"
  | ActionGrantWrite => "gateway.action_grant.write"
  | ProviderEndpointRead => "gateway.provider_endpoint.read"
  | ProviderEndpointWrite => "gateway.provider_endpoint.write"
  | UpstreamCredentialRead => "gateway.upstream_credential.read"
  | UpstreamCredentialWrite => "gateway.upstream_credential.write"
  | UpstreamCredentialRotate => "gateway.upstream_credential.rotate"
  | SecretRefRead => "gateway.secret_ref.read"
  | SecretRefWrite => "gateway.secret_ref.write"
  | SecretRefLocatorRead => "gateway.secret_ref.locator.read"
  | CodexOAuthConnectionRead => "gateway.codex_oauth_connection.read"
  | CodexOAuthConnectionWrite => "gateway.codex_oauth_connection.write"
  | CodexOAuthSessionRead => "gateway.codex_oauth_session.read"
  | CodexOAuthSessionStart => "gateway.codex_oauth_session.start"
  | CodexOAuthSessionRevoke => "gateway.codex_oauth_session.revoke"
  | CodexOAuthRefreshRead => "gateway.codex_oauth_refresh.read"
  | ModelTargetRead => "gateway.model_target.read"
  | ModelTargetWrite => "gateway.model_target.write"
  | ModelAliasRead => "gateway.model_alias.read"
  | ModelAliasWrite => "gateway.model_alias.write"
  | PricingSkuRead => "gateway.pricing_sku.read"
  | PricingSkuWrite => "gateway.pricing_sku.write"
  | RoutingGroupRead => "gateway.routing_group.read"
  | RoutingGroupWrite => "gateway.routing_group.write"
  | RoutePolicyRead => "gateway.route_policy.read"
  | RoutePolicyWrite => "gateway.route_policy.write"
  | ProviderGrantRead => "gateway.provider_grant.read"
  | ProviderGrantWrite => "gateway.provider_grant.write"
  | QuotaPolicyRead => "gateway.quota_policy.read"
  | QuotaPolicyWrite => "gateway.quota_policy.write"
  | AdmissionPolicyRead => "gateway.admission_policy.read"
  | AdmissionPolicyWrite => "gateway.admission_policy.write"
  | RedactionPolicyRead => "gateway.redaction_policy.read"
  | RedactionPolicyWrite => "gateway.redaction_policy.write"
  | ApiKeyCreate => "gateway.api_key.create"
  | ApiKeyRead => "gateway.api_key.read"
  | ApiKeyRotate => "gateway.api_key.rotate"
  | ApiKeyDisable => "gateway.api_key.disable"
  | RoleRead => "gateway.role.read"
  | RoleWrite => "gateway.role.write"
  | RoleBindingRead => "gateway.role_binding.read"
  | RoleBindingWrite => "gateway.role_binding.write"
  | PolicyRead => "gateway.policy.read"
  | PolicyWrite => "gateway.policy.write"
  | BudgetPolicyRead => "gateway.budget_policy.read"
  | BudgetPolicyWrite => "gateway.budget_policy.write"
  | ConfigRead => "gateway.config.read"
  | ConfigApply => "gateway.config.apply"
  | ConfigPublish => "gateway.config.publish"
  | ConfigRollback => "gateway.config.rollback"
  | RouteSimulationRun => "gateway.route_simulation.run"
  | CatalogImportCreate => "gateway.catalog_import.create"
  | CatalogImportRead => "gateway.catalog_import.read"
  | MaintenanceWindowRead => "gateway.maintenance_window.read"
  | MaintenanceWindowWrite => "gateway.maintenance_window.write"
  | ModelInvoke => "gateway.model.invoke"
  | ModelStream => "gateway.model.stream"
  | ModelNative => "gateway.model.native"
  | RouteDebugRead => "gateway.route.debug.read"
  | UsageRead => "gateway.usage.read"
  | UsageSummaryRead => "gateway.usage.summary.read"
  | UsageEventRead => "gateway.usage.event.read"
  | RealtimeDashboardRead => "gateway.realtime_dashboard.read"
  | DashboardTenantRead => "gateway.dashboard.tenant.read"
  | DashboardOrganizationRead => "gateway.dashboard.organization.read"
  | DashboardProjectRead => "gateway.dashboard.project.read"
  | DashboardProjectMemberRead => "gateway.dashboard.project_member.read"
  | DashboardApiKeyRead => "gateway.dashboard.api_key.read"
  | DashboardServiceAccountRead => "gateway.dashboard.service_account.read"
  | ModelObservabilityRead => "gateway.model_observability.read"
  | ProviderObservabilityRead => "gateway.provider_observability.read"
  | BudgetDashboardRead => "gateway.budget_dashboard.read"
  | QuotaDashboardRead => "gateway.quota_dashboard.read"
  | AuditRead => "gateway.audit.read"
  | ExportRead => "gateway.export.read"
  | ExportCreate => "gateway.export.create"
  | NotificationRead => "gateway.notification.read"
  | NotificationWrite => "gateway.notification.write"
  | NotificationOutboxWrite => "gateway.notification_outbox.write"
  | ObservabilityExportRead => "gateway.observability_export.read"
  | ObservabilityExportWrite => "gateway.observability_export.write"
  | HealthRead => "gateway.health.read"
  | ProviderHealthOverride => "gateway.provider_health.override"
  | EmergencyDisable => "gateway.emergency.disable"
  | DebugCaptureEnable => "gateway.debug_capture.enable"
  end.

Definition resource_kind (a : t) : string :=
  match a with
  | TenantRead => "Tenant"
  | TenantWrite => "Tenant"
  | IdentityProviderRead => "IdentityProvider"
  | IdentityProviderWrite => "IdentityProvider"
  | UserRead => "UserPrincipal"
  | UserWrite => "UserPrincipal"
  | UserDisable => "UserPrincipal"
  | ExternalIdentityRead => "ExternalIdentity"
  | ExternalIdentityUnlink => "ExternalIdentity"
  | SessionRead => "AuthSession"
  | SessionRevoke => "AuthSession"
  | SessionUpdate => "AuthSession"
  | ServiceAccountRead => "ServiceAccount"
  | ServiceAccountWrite => "ServiceAccount"
  | ServiceAccountDisable => "ServiceAccount"
  | OrganizationRead => "Organization"
  | OrganizationWrite => "Organization"
  | OrganizationMemberRead => "OrganizationMember"
  | OrganizationMemberWrite => "OrganizationMember"
  | OrganizationInviteRead => "OrganizationInvite"
  | OrganizationInviteCreate => "OrganizationInvite"
  | OrganizationInviteManage => "OrganizationInvite"
  | OrganizationInviteAccept => "OrganizationInvite"
  | ProjectRead => "Project"
  | ProjectWrite => "Project"
  | ProjectMemberRead => "ProjectMember"
  | ProjectMemberWrite => "ProjectMember"
  | CallerCredentialRead => "CallerCredential"
  | CallerCredentialDisable => "CallerCredential"
  | ActionGrantRead => "ActionGrant"
  | ActionGrantWrite => "ActionGrant"
  | ProviderEndpointRead => "ProviderEndpoint"
  | ProviderEndpointWrite => "ProviderEndpoint"
  | UpstreamCredentialRead => "UpstreamCredential"
  | UpstreamCredentialWrite => "UpstreamCredential"
  | UpstreamCredentialRotate => "UpstreamCredential"
  | SecretRefRead => "SecretRef"
  | SecretRefWrite => "SecretRef"
  | SecretRefLocatorRead => "SecretRef"
  | CodexOAuthConnectionRead => "CodexOAuthConnection"
  | CodexOAuthConnectionWrite => "CodexOAuthConnection"
  | CodexOAuthSessionRead => "CodexOAuthSession"
  | CodexOAuthSessionStart => "CodexOAuthSession"
  | CodexOAuthSessionRevoke => "CodexOAuthSession"
  | CodexOAuthRefreshRead => "CodexOAuthRefreshStatus"
  | ModelTargetRead => "ModelTarget"
  | ModelTargetWrite => "ModelTarget"
  | ModelAliasRead => "ModelAlias"
  | ModelAliasWrite => "ModelAlias"
  | PricingSkuRead => "PricingSku"
  | PricingSkuWrite => "PricingSku"
  | RoutingGroupRead => "RoutingGroup"
  | RoutingGroupWrite => "RoutingGroup"
  | RoutePolicyRead => "RoutePolicy"
  | RoutePolicyWrite => "RoutePolicy"
  | ProviderGrantRead => "ProviderGrant"
  | ProviderGrantWrite => "ProviderGrant"
  | QuotaPolicyRead => "QuotaPolicy"
  | QuotaPolicyWrite => "QuotaPolicy"
  | AdmissionPolicyRead => "AdmissionPolicy"
  | AdmissionPolicyWrite => "AdmissionPolicy"
  | RedactionPolicyRead => "RedactionPolicy"
  | RedactionPolicyWrite => "RedactionPolicy"
  | ApiKeyCreate => "ApiKey"
  | ApiKeyRead => "ApiKey"
  | ApiKeyRotate => "ApiKey"
  | ApiKeyDisable => "ApiKey"
  | RoleRead => "RoleDefinition"
  | RoleWrite => "RoleDefinition"
  | RoleBindingRead => "RoleBinding"
  | RoleBindingWrite => "RoleBinding"
  | PolicyRead => "PolicyAttachment"
  | PolicyWrite => "PolicyAttachment"
  | BudgetPolicyRead => "BudgetPolicy"
  | BudgetPolicyWrite => "BudgetPolicy"
  | ConfigRead => "ConfigSnapshot"
  | ConfigApply => "ConfigBundle"
  | ConfigPublish => "ConfigSnapshot"
  | ConfigRollback => "ConfigSnapshot"
  | RouteSimulationRun => "RouteSimulation"
  | CatalogImportCreate => "CatalogImport"
  | CatalogImportRead => "CatalogImport"
  | MaintenanceWindowRead => "MaintenanceWindow"
  | MaintenanceWindowWrite => "MaintenanceWindow"
  | ModelInvoke => "ModelAlias"
  | ModelStream => "ModelAlias"
  | ModelNative => "ProviderNativeEndpoint"
  | RouteDebugRead => "RouteDecision"
  | UsageRead => "UsageScope"
  | UsageSummaryRead => "UsageScope"
  | UsageEventRead => "UsageEvent"
  | RealtimeDashboardRead => "RealtimeDashboard"
  | DashboardTenantRead => "TenantDashboard"
  | DashboardOrganizationRead => "OrganizationDashboard"
  | DashboardProjectRead => "ProjectDashboard"
  | DashboardProjectMemberRead => "ProjectMemberDashboard"
  | DashboardApiKeyRead => "ApiKeyDashboard"
  | DashboardServiceAccountRead => "ServiceAccountDashboard"
  | ModelObservabilityRead => "ModelObservability"
  | ProviderObservabilityRead => "ProviderEndpoint"
  | BudgetDashboardRead => "BudgetDashboard"
  | QuotaDashboardRead => "QuotaDashboard"
  | AuditRead => "AuditEvent"
  | ExportRead => "ExportManifest"
  | ExportCreate => "ExportJob"
  | NotificationRead => "NotificationSink"
  | NotificationWrite => "NotificationSink"
  | NotificationOutboxWrite => "NotificationOutboxEvent"
  | ObservabilityExportRead => "OpenTelemetryExportConfig"
  | ObservabilityExportWrite => "OpenTelemetryExportConfig"
  | HealthRead => "RuntimeHealth"
  | ProviderHealthOverride => "ProviderEndpoint"
  | EmergencyDisable => "EmergencyOperation"
  | DebugCaptureEnable => "DebugCapturePolicy"
  end.

Definition canonical_actions : list t :=
  [
   TenantRead; TenantWrite; IdentityProviderRead; IdentityProviderWrite; UserRead;
   UserWrite; UserDisable; ExternalIdentityRead; ExternalIdentityUnlink; SessionRead;
   SessionRevoke; SessionUpdate; ServiceAccountRead; ServiceAccountWrite;
   ServiceAccountDisable; OrganizationRead; OrganizationWrite; OrganizationMemberRead;
   OrganizationMemberWrite; OrganizationInviteRead; OrganizationInviteCreate;
   OrganizationInviteManage; OrganizationInviteAccept; ProjectRead; ProjectWrite;
   ProjectMemberRead; ProjectMemberWrite; CallerCredentialRead; CallerCredentialDisable;
   ActionGrantRead; ActionGrantWrite; ProviderEndpointRead; ProviderEndpointWrite;
   UpstreamCredentialRead; UpstreamCredentialWrite; UpstreamCredentialRotate;
   SecretRefRead; SecretRefWrite; SecretRefLocatorRead; CodexOAuthConnectionRead;
   CodexOAuthConnectionWrite; CodexOAuthSessionRead; CodexOAuthSessionStart;
   CodexOAuthSessionRevoke; CodexOAuthRefreshRead; ModelTargetRead; ModelTargetWrite;
   ModelAliasRead; ModelAliasWrite; PricingSkuRead; PricingSkuWrite; RoutingGroupRead;
   RoutingGroupWrite; RoutePolicyRead; RoutePolicyWrite; ProviderGrantRead;
   ProviderGrantWrite; QuotaPolicyRead; QuotaPolicyWrite; AdmissionPolicyRead;
   AdmissionPolicyWrite; RedactionPolicyRead; RedactionPolicyWrite; ApiKeyCreate;
   ApiKeyRead; ApiKeyRotate; ApiKeyDisable; RoleRead; RoleWrite; RoleBindingRead;
   RoleBindingWrite; PolicyRead; PolicyWrite; BudgetPolicyRead; BudgetPolicyWrite;
   ConfigRead; ConfigApply; ConfigPublish; ConfigRollback; RouteSimulationRun;
   CatalogImportCreate; CatalogImportRead; MaintenanceWindowRead; MaintenanceWindowWrite;
   ModelInvoke; ModelStream; ModelNative; RouteDebugRead; UsageRead; UsageSummaryRead;
   UsageEventRead; RealtimeDashboardRead; DashboardTenantRead; DashboardOrganizationRead;
   DashboardProjectRead; DashboardProjectMemberRead; DashboardApiKeyRead;
   DashboardServiceAccountRead; ModelObservabilityRead; ProviderObservabilityRead;
   BudgetDashboardRead; QuotaDashboardRead; AuditRead; ExportRead; ExportCreate;
   NotificationRead; NotificationWrite; NotificationOutboxWrite; ObservabilityExportRead;
   ObservabilityExportWrite; HealthRead; ProviderHealthOverride; EmergencyDisable;
   DebugCaptureEnable].

(** [ActionDefinition] and [canonical_definitions]. *)
Record ActionDefinition : Set := mkActionDefinition {
  action : t;
  action_id : string;
  definition_resource_kind : string;
}.

Definition canonical_definitions : list ActionDefinition :=
  (λ a, mkActionDefinition a (as_str a) (resource_kind a)) <$> canonical_actions.

(** The [match] on the action id tries the arms in the order of the table. *)
Definition from_action_id (value : string) : option t :=
  action <$> List.find (λ d, action_id d ==? value) canonical_definitions.

(** [Deserialize]: an unknown id is rejected. *)
Definition deserialize (value : string) : option t := from_action_id value.
Definition serialize (a : t) : string := as_str a.

Lemma from_action_id_as_str a : from_action_id (as_str a) = Some a.
Proof. by destruct a; vm_compute. Qed.

#[global] Instance as_str_inj : Inj (=) (=) as_str.
Proof.
  intros a b H. apply (inj Some).
  by rewrite <- (from_action_id_as_str a), H, from_action_id_as_str.
Qed.

#[global] Instance eq_dec : EqDecision t.
Proof. apply (inj_eq_dec as_str). Defined.

Lemma canonical_actions_complete a : a ∈ canonical_actions.
Proof.
  pose proof (from_action_id_as_str a) as H. unfold from_action_id in H.
  destruct (List.find _ _) as [d|] eqn:E; [|done].
  apply find_Some_in in E as [Hd _]. injection H as <-. unfold canonical_definitions in Hd.
  by apply list_elem_of_fmap in Hd as (b & -> & Hb).
Qed.

End GatewayAction.

(** ** Built-in roles *)

Module RoleScopeKind.
Inductive t : Set := Tenant | Organization | Project | Any.
Definition as_str (k : t) : string :=
  match k with
  | Tenant => "tenant" | Organization => "organization"
  | Project => "project" | Any => "any"
  end.
#[global] Instance eq_dec : EqDecision t.
Proof. solve_decision. Defined.
End RoleScopeKind.

Section role_actions.
Import GatewayAction.

Definition TENANT_ADMIN_ACTIONS : list t :=
  [
   TenantRead; TenantWrite; IdentityProviderRead; IdentityProviderWrite; UserRead;
   UserWrite; ServiceAccountRead; ServiceAccountWrite; OrganizationRead; OrganizationWrite;
   OrganizationMemberRead; OrganizationMemberWrite; OrganizationInviteRead;
   OrganizationInviteCreate; OrganizationInviteManage; ProjectRead; ProjectWrite;
   ProjectMemberRead; ProjectMemberWrite; ActionGrantRead; ActionGrantWrite;
   ProviderEndpointRead; ProviderEndpointWrite; ProviderGrantRead; ProviderGrantWrite;
   ModelTargetRead; ModelTargetWrite; ModelAliasRead; ModelAliasWrite; RoutingGroupRead;
   RoutingGroupWrite; RoutePolicyRead; RoutePolicyWrite; BudgetPolicyRead;
   BudgetPolicyWrite; QuotaPolicyRead; QuotaPolicyWrite; AdmissionPolicyRead;
   AdmissionPolicyWrite; RoleRead; RoleWrite; RoleBindingRead; RoleBindingWrite;
   PolicyRead; PolicyWrite; ConfigRead; ConfigApply; ConfigPublish; ConfigRollback;
   RouteSimulationRun; CatalogImportCreate; CatalogImportRead; MaintenanceWindowRead;
   MaintenanceWindowWrite].

Definition SECURITY_ADMIN_ACTIONS : list t :=
  [
   CallerCredentialRead; CallerCredentialDisable; UpstreamCredentialRead;
   UpstreamCredentialWrite; UpstreamCredentialRotate; SecretRefRead; SecretRefWrite;
   SecretRefLocatorRead; CodexOAuthConnectionRead; CodexOAuthConnectionWrite;
   CodexOAuthSessionRead; CodexOAuthSessionStart; CodexOAuthSessionRevoke;
   CodexOAuthRefreshRead; RedactionPolicyRead; RedactionPolicyWrite; ApiKeyRead;
   ApiKeyDisable; AuditRead; EmergencyDisable].

Definition GATEWAY_OPERATOR_ACTIONS : list t :=
  [
   ConfigRead; RealtimeDashboardRead; ModelObservabilityRead; ProviderObservabilityRead;
   ObservabilityExportRead; HealthRead; ProviderHealthOverride; RouteDebugRead;
   RouteSimulationRun; NotificationRead; NotificationOutboxWrite; MaintenanceWindowRead;
   MaintenanceWindowWrite; EmergencyDisable].

Definition ORGANIZATION_ADMIN_ACTIONS : list t :=
  [
   OrganizationRead; OrganizationWrite; OrganizationMemberRead; OrganizationMemberWrite;
   OrganizationInviteRead; OrganizationInviteCreate; OrganizationInviteManage; ProjectRead;
   ProjectWrite; ProjectMemberRead; ProjectMemberWrite; ProviderGrantRead;
   ProviderGrantWrite; ActionGrantRead; ActionGrantWrite; RoleBindingRead;
   RoleBindingWrite; DashboardOrganizationRead; DashboardProjectRead; UsageSummaryRead].

Definition ORGANIZATION_MEMBER_ACTIONS : list t :=
  [
   OrganizationRead; OrganizationMemberRead; ProjectRead; DashboardOrganizationRead;
   DashboardProjectRead].

Definition PROJECT_ADMIN_ACTIONS : list t :=
  [
   ProjectRead; ProjectWrite; ProjectMemberRead; ProjectMemberWrite; ApiKeyCreate;
   ApiKeyRead; ApiKeyRotate; ApiKeyDisable; ModelAliasRead; ModelAliasWrite;
   BudgetPolicyRead; BudgetPolicyWrite; QuotaPolicyRead; QuotaPolicyWrite;
   AdmissionPolicyRead; AdmissionPolicyWrite; ModelInvoke; ModelStream; UsageRead;
   UsageSummaryRead; UsageEventRead; DashboardProjectRead; DashboardApiKeyRead;
   BudgetDashboardRead; QuotaDashboardRead].

Definition PROJECT_DEVELOPER_ACTIONS : list t :=
  [
   ProjectRead; ModelAliasRead; ModelInvoke; ModelStream; UsageSummaryRead;
   DashboardProjectRead; ModelObservabilityRead].

Definition PROJECT_VIEWER_ACTIONS : list t :=
  [
   ProjectRead; ModelAliasRead; UsageSummaryRead; DashboardProjectRead;
   BudgetDashboardRead; QuotaDashboardRead; ModelObservabilityRead].

Definition USAGE_VIEWER_ACTIONS : list t :=
  [
   UsageRead; UsageSummaryRead; UsageEventRead; DashboardTenantRead;
   DashboardOrganizationRead; DashboardProjectRead; DashboardProjectMemberRead;
   DashboardApiKeyRead; DashboardServiceAccountRead; BudgetDashboardRead;
   QuotaDashboardRead; ExportRead; ExportCreate].

Definition AUDITOR_ACTIONS : list t :=
  [
   AuditRead; RouteDebugRead; ConfigRead; UsageEventRead; ExportRead].

End role_actions.

Module BuiltInRole.
Inductive t : Set :=
  | TenantOwner | TenantAdmin | SecurityAdmin | GatewayOperator | OrganizationAdmin
  | OrganizationMember | ProjectAdmin | ProjectDeveloper | ProjectViewer | UsageViewer
  | Auditor.

Definition built_ins : list t :=
  [
   TenantOwner; TenantAdmin; SecurityAdmin; GatewayOperator; OrganizationAdmin;
   OrganizationMember; ProjectAdmin; ProjectDeveloper; ProjectViewer; UsageViewer; Auditor].

Definition as_str (r : t) : string :=
  match r with
  | TenantOwner => "tenant_owner"
  | TenantAdmin => "tenant_admin"
  | SecurityAdmin => "security_admin"
  | GatewayOperator => "gateway_operator"
  | OrganizationAdmin => "organization_admin"
  | OrganizationMember => "organization_member"
  | ProjectAdmin => "project_admin"
  | ProjectDeveloper => "project_developer"
  | ProjectViewer => "project_viewer"
  | UsageViewer => "usage_viewer"
  | Auditor => "auditor"
  end.

Definition scope_kind (r : t) : RoleScopeKind.t :=
  match r with
  | TenantOwner | TenantAdmin | SecurityAdmin | GatewayOperator => RoleScopeKind.Tenant
  | OrganizationAdmin | OrganizationMember => RoleScopeKind.Organization
  | ProjectAdmin | ProjectDeveloper | ProjectViewer => RoleScopeKind.Project
  | UsageViewer | Auditor => RoleScopeKind.Any
  end.

Definition actions (r : t) : list GatewayAction.t :=
  match r with
  | TenantOwner => GatewayAction.canonical_actions
  | TenantAdmin => TENANT_ADMIN_ACTIONS
  | SecurityAdmin => SECURITY_ADMIN_ACTIONS
  | GatewayOperator => GATEWAY_OPERATOR_ACTIONS
  | OrganizationAdmin => ORGANIZATION_ADMIN_ACTIONS
  | OrganizationMember => ORGANIZATION_MEMBER_ACTIONS
  | ProjectAdmin => PROJECT_ADMIN_ACTIONS
  | ProjectDeveloper => PROJECT_DEVELOPER_ACTIONS
  | ProjectViewer => PROJECT_VIEWER_ACTIONS
  | UsageViewer => USAGE_VIEWER_ACTIONS
  | Auditor => AUDITOR_ACTIONS
  end.

End BuiltInRole.

(** ** Requests, grants and decisions *)

Module ResourceRef.
Record t : Set := mk { kind : string; id : string }.
Definition model_alias (id : string) : t := {| kind := "ModelAlias"; id := id |}.
#[global] Instance eq_dec : EqDecision t.
Proof. solve_decision. Defined.
End ResourceRef.

Module AuthorizationRequest.
Record t : Set := mk {
  actor : AuthenticatedActor.t;
  action : GatewayAction.t;
  resource : ResourceRef.t;
}.
End AuthorizationRequest.

Module ActionGrant.
Record t : Set := mk {
  tenant_id : string;
  organization_id : option string;
  project_id : option string;
  principal_id : string;
  action : GatewayAction.t;
  resource_kind : string;
  resource_id : string;
}.

Definition project (tenant_id organization_id project_id principal_id : string)
    (action : GatewayAction.t) (resource : ResourceRef.t) : t :=
  {| tenant_id := tenant_id;
     organization_id := Some organization_id;
     project_id := Some project_id;
     principal_id := principal_id;
     action := action;
     resource_kind := ResourceRef.kind resource;
     resource_id := ResourceRef.id resource |}.

Definition for_builtin_role (tenant_id : string) (organization_id project_id : option string)
    (principal_id : string) (role : BuiltInRole.t) : list t :=
  (λ action,
    {| tenant_id := tenant_id;
       organization_id := organization_id;
       project_id := project_id;
       principal_id := principal_id;
       action := action;
       resource_kind := GatewayAction.resource_kind action;
       resource_id := "*" |}) <$> BuiltInRole.actions role.
End ActionGrant.

Module AuthorizationDecision.
Record t : Set := mk { allowed : bool; reason : string }.
Definition allow : t := {| allowed := true; reason := "allowed" |}.
Definition deny (reason : string) : t := {| allowed := false; reason := reason |}.
End AuthorizationDecision.

Module AuthorizationDecisionRecord.
Record t : Set := mk {
  authz_decision_id : string;
  tenant_id : string;
  organization_id : option string;
  project_id : option string;
  actor_id : string;
  actor_kind : ActorKind.t;
  action : GatewayAction.t;
  resource_kind : string;
  resource_id : string;
  allowed : bool;
  reason : string;
  policy_snapshot_id : option string;
  request_id : string;
  occurred_at : DateTime;
}.

Definition from_decision (uuid : string) (request : AuthorizationRequest.t)
    (decision : AuthorizationDecision.t) (policy_snapshot_id : option string)
    (occurred_at : DateTime) : t :=
  let actor := AuthorizationRequest.actor request in
  {| authz_decision_id := new_prefixed_id "azd" uuid;
     tenant_id := AuthenticatedActor.tenant_id actor;
     organization_id := AuthenticatedActor.organization_id actor;
     project_id := AuthenticatedActor.project_id actor;
     actor_id := AuthenticatedActor.actor_id actor;
     actor_kind := AuthenticatedActor.actor_kind actor;
     action := AuthorizationRequest.action request;
     resource_kind := ResourceRef.kind (AuthorizationRequest.resource request);
     resource_id := ResourceRef.id (AuthorizationRequest.resource request);
     allowed := AuthorizationDecision.allowed decision;
     reason := AuthorizationDecision.reason decision;
     policy_snapshot_id := policy_snapshot_id;
     request_id := AuthenticatedActor.request_id actor;
     occurred_at := occurred_at |}.

Definition decision_label (r : t) : string := if allowed r then "allowed" else "denied".
End AuthorizationDecisionRecord.

(** ** Gates and engines *)

Definition optional_scope_match (grant_scope actor_scope : option string) : bool :=
  match grant_scope with None => true | Some g => Some g ==? actor_scope end.

Definition resource_matches (grant : ActionGrant.t) (resource : ResourceRef.t) : bool :=
  (ActionGrant.resource_kind grant ==? ResourceRef.kind resource)
  && ((ActionGrant.resource_id grant ==? "*")
      || (ActionGrant.resource_id grant ==? ResourceRef.id resource)).

Definition api_key_allows_action (allowed_actions : list string) (action : GatewayAction.t) : bool :=
  (allowed_actions ==? [])
  || existsb (λ allowed, (allowed ==? GatewayAction.as_str action) || (allowed ==? "*"))
       allowed_actions.

Definition api_key_allows_resource (allowed_resources : list string) (resource : ResourceRef.t) : bool :=
  (allowed_resources ==? [])
  || existsb (λ allowed,
       (allowed ==? "*")
       || (allowed ==? ResourceRef.id resource)
       || (allowed ==? ResourceRef.kind resource +:+ ":" +:+ ResourceRef.id resource)
       || (allowed ==? ResourceRef.kind resource +:+ ":*"))
       allowed_resources.

(** The actions an API key never performs, whatever it is granted. *)
Definition requires_strong_auth (a : GatewayAction.t) : bool :=
  match a with
  | GatewayAction.ConfigPublish | GatewayAction.ConfigRollback
  | GatewayAction.ObservabilityExportWrite => true
  | _ => false
  end.

Definition gateway_preflight_decision (request : AuthorizationRequest.t)
    : option AuthorizationDecision.t :=
  let actor := AuthorizationRequest.actor request in
  let action := AuthorizationRequest.action request in
  let is_key := bool_decide (is_Some (AuthenticatedActor.api_key_id actor)) in
  if is_key && requires_strong_auth action
  then Some (AuthorizationDecision.deny "api_key_strong_auth_required")
  else if is_key
       && negb (api_key_allows_action (AuthenticatedActor.api_key_allowed_actions actor) action)
  then Some (AuthorizationDecision.deny "api_key_action_not_granted")
  else if is_key
       && negb (api_key_allows_resource (AuthenticatedActor.api_key_allowed_resources actor)
                  (AuthorizationRequest.resource request))
  then Some (AuthorizationDecision.deny "api_key_resource_not_granted")
  else None.

Definition grant_allows (grant : ActionGrant.t) (request : AuthorizationRequest.t) : bool :=
  let actor := AuthorizationRequest.actor request in
  match AuthenticatedActor.principal_id actor with
  | None => false
  | Some principal_id =>
      (ActionGrant.tenant_id grant ==? AuthenticatedActor.tenant_id actor)
      && optional_scope_match (ActionGrant.organization_id grant)
           (AuthenticatedActor.organization_id actor)
      && optional_scope_match (ActionGrant.project_id grant)
           (AuthenticatedActor.project_id actor)
      && (ActionGrant.principal_id grant ==? principal_id)
      && (ActionGrant.action grant ==? AuthorizationRequest.action request)
      && resource_matches grant (AuthorizationRequest.resource request)
  end.

(** The [AuthorizationEngine] trait. *)
Class AuthorizationEngine (E : Type) : Type :=
  authorize : E → AuthorizationRequest.t → AuthorizationDecision.t.

(** What every gateway engine promises: the shared gates come first. *)
Class PreflightGated (E : Type) `{!AuthorizationEngine E} : Prop :=
  preflight_first : ∀ (e : E) request d,
    gateway_preflight_decision request = Some d → authorize e request = d.

Module FoundationAuthorizationEngine.
Record t : Set := mk { grants : list ActionGrant.t }.
#[global] Instance engine : AuthorizationEngine t := λ e request,
  match gateway_preflight_decision request with
  | Some decision => decision
  | None =>
      if AuthorizationRequest.action request ==? GatewayAction.ModelNative
      then AuthorizationDecision.deny "native_route_grant_required"
      else if negb (existsb (λ grant, grant_allows grant request) (grants e))
      then AuthorizationDecision.deny "principal_action_not_granted"
      else AuthorizationDecision.allow
  end.
End FoundationAuthorizationEngine.

(** The part of the Cedar library that [policy.rs] calls, with the engine's
    parsed policy set and schema fixed: parsing an entity type name, building a
    request from the principal, action and resource uids, building the entity
    store, and evaluation, which reports whether there were errors and whether
    the decision is [Allow]. *)
Module CedarLibrary.
Record t : Type := mk {
  EntityTypeName : Type;
  CedarRequest : Type;
  Entities : Type;
  entity_type_name_from_str : string → option EntityTypeName;
  entity_uid_eqb : EntityTypeName * string → EntityTypeName * string → bool;
  request_new : EntityTypeName * string → EntityTypeName * string →
                EntityTypeName * string → option CedarRequest;
  from_entities : list (EntityTypeName * string) → option Entities;
  is_authorized : CedarRequest → Entities → bool * bool;
}.
End CedarLibrary.

Definition CEDAR_NAMESPACE : string := "Gateway".

Definition cedar_actor_type (k : ActorKind.t) : string :=
  match k with
  | ActorKind.User => "User"
  | ActorKind.ServiceAccount => "ServiceAccount"
  | ActorKind.ApiKey => "ApiKey"
  | ActorKind.InternalService => "InternalService"
  | ActorKind.System => "System"
  end.

Section cedar.
Context (lib : CedarLibrary.t).
Import CedarLibrary.

(** The error message of the library is not kept by the engine. *)
Definition cedar_entity_uid (entity_type entity_id : string)
    : option (EntityTypeName lib * string) :=
  type_name ← entity_type_name_from_str lib (CEDAR_NAMESPACE +:+ "::" +:+ entity_type);
  Some (type_name, entity_id).

Definition cedar_request (request : AuthorizationRequest.t) : option (CedarRequest lib) :=
  let actor := AuthorizationRequest.actor request in
  let resource := AuthorizationRequest.resource request in
  principal ← cedar_entity_uid (cedar_actor_type (AuthenticatedActor.actor_kind actor))
                (AuthenticatedActor.actor_id actor);
  action ← cedar_entity_uid "Action" (GatewayAction.as_str (AuthorizationRequest.action request));
  res ← cedar_entity_uid (ResourceRef.kind resource) (ResourceRef.id resource);
  request_new lib principal action res.

(** The [seen] set keeps the resource out when it equals the principal. *)
Definition cedar_entities (request : AuthorizationRequest.t) : option (Entities lib) :=
  let actor := AuthorizationRequest.actor request in
  let resource := AuthorizationRequest.resource request in
  principal_uid ← cedar_entity_uid (cedar_actor_type (AuthenticatedActor.actor_kind actor))
                    (AuthenticatedActor.actor_id actor);
  resource_uid ← cedar_entity_uid (ResourceRef.kind resource) (ResourceRef.id resource);
  from_entities lib
    (if entity_uid_eqb lib principal_uid resource_uid
     then [principal_uid] else [principal_uid; resource_uid]).
End cedar.

Module CedarAuthorizationEngine.
Record t : Type := mk { library : CedarLibrary.t }.
#[global] Instance engine : AuthorizationEngine t := λ e request,
  match gateway_preflight_decision request with
  | Some decision => decision
  | None =>
      match cedar_request (library e) request with
      | None => AuthorizationDecision.deny "cedar_request_invalid"
      | Some cedar_request =>
          match cedar_entities (library e) request with
          | None => AuthorizationDecision.deny "cedar_entities_invalid"
          | Some entities =>
              let '(has_errors, allow) :=
                CedarLibrary.is_authorized (library e) cedar_request entities in
              if (has_errors : bool)
              then AuthorizationDecision.deny "cedar_policy_error"
              else if (allow : bool) then AuthorizationDecision.allow
              else AuthorizationDecision.deny "cedar_policy_denied"
          end
      end
  end.
End CedarAuthorizationEngine.

(** ** Evidence and item lists *)

(** [authorize_with_evidence]: the sink is the list of recorded decisions. *)
Definition authorize_with_evidence {E} `{!AuthorizationEngine E} (engine : E)
    (uuid : string) (request : AuthorizationRequest.t) (policy_snapshot_id : option string)
    (occurred_at : DateTime) (sink : list AuthorizationDecisionRecord.t)
    : AuthorizationDecision.t * list AuthorizationDecisionRecord.t :=
  let decision := authorize engine request in
  (decision,
   sink ++ [AuthorizationDecisionRecord.from_decision uuid request decision
              policy_snapshot_id occurred_at]).

Module AuthorizableItem.
Record t (T : Type) : Type := mk { resource : ResourceRef.t; item : T }.
Arguments mk {T}.
Arguments resource {T}.
Arguments item {T}.
End AuthorizableItem.

Module AuthorizedItemList.
Record t (T : Type) : Type := mk { items : list T; filtered_count : nat }.
Arguments mk {T}.
Arguments items {T}.
Arguments filtered_count {T}.
End AuthorizedItemList.

(** The loop of [authorize_item_list] with its two accumulators. *)
Fixpoint authorize_item_loop {E T} `{!AuthorizationEngine E} (engine : E)
    (actor : AuthenticatedActor.t) (action : GatewayAction.t)
    (items : list (AuthorizableItem.t T)) (allowed_items : list T) (filtered_count : nat)
    : AuthorizedItemList.t T :=
  match items with
  | [] => AuthorizedItemList.mk allowed_items filtered_count
  | item :: items =>
      let decision := authorize engine
        {| AuthorizationRequest.actor := actor;
           AuthorizationRequest.action := action;
           AuthorizationRequest.resource := AuthorizableItem.resource item |} in
      if AuthorizationDecision.allowed decision
      then authorize_item_loop engine actor action items
             (allowed_items ++ [AuthorizableItem.item item]) filtered_count
      else authorize_item_loop engine actor action items allowed_items (S filtered_count)
  end.

Definition authorize_item_list {E T} `{!AuthorizationEngine E} (engine : E)
    (actor : AuthenticatedActor.t) (action : GatewayAction.t)
    (items : list (AuthorizableItem.t T)) : AuthorizedItemList.t T :=
  authorize_item_loop engine actor action items [] 0.

(** ** Lemmas *)

#[global] Instance foundation_gated : PreflightGated FoundationAuthorizationEngine.t.
Proof. intros e request d Hd. unfold authorize, FoundationAuthorizationEngine.engine. by rewrite Hd. Qed.

#[global] Instance cedar_gated : PreflightGated CedarAuthorizationEngine.t.
Proof. intros e request d Hd. unfold authorize, CedarAuthorizationEngine.engine. by rewrite Hd. Qed.

Lemma preflight_denies request d :
  gateway_preflight_decision request = Some d → AuthorizationDecision.allowed d = false.
Proof. unfold gateway_preflight_decision. intros. by step_matches. Qed.

(** An allowed request has passed the gates of any gated engine. *)
Lemma gated_allowed_preflight {E} `{!AuthorizationEngine E, !PreflightGated E} (e : E) request :
  AuthorizationDecision.allowed (authorize e request) = true →
  gateway_preflight_decision request = None.
Proof.
  intros H. destruct (gateway_preflight_decision request) as [d|] eqn:Ed; [|done].
  rewrite (preflight_first e request d Ed), (preflight_denies request d Ed) in H. done.
Qed.

(** The gates, as one proposition. *)
Definition passes_gates (request : AuthorizationRequest.t) : Prop :=
  let actor := AuthorizationRequest.actor request in
  is_Some (AuthenticatedActor.api_key_id actor) →
  requires_strong_auth (AuthorizationRequest.action request) = false ∧
  api_key_allows_action (AuthenticatedActor.api_key_allowed_actions actor)
    (AuthorizationRequest.action request) = true ∧
  api_key_allows_resource (AuthenticatedActor.api_key_allowed_resources actor)
    (AuthorizationRequest.resource request) = true.

Lemma preflight_none_iff request :
  gateway_preflight_decision request = None ↔ passes_gates request.
Proof.
  unfold gateway_preflight_decision, passes_gates.
  destruct (AuthenticatedActor.api_key_id _) as [k|]; simpl.
  - destruct (requires_strong_auth _), (api_key_allows_action _ _),
      (api_key_allows_resource _ _); simpl; naive_solver.
  - split; [intros _ [? ?]; done | done].
Qed.

Lemma optional_scope_match_iff g a :
  optional_scope_match g a = true ↔ ∀ x, g = Some x → a = Some x.
Proof.
  unfold optional_scope_match. destruct g as [x|]; [|naive_solver].
  rewrite bool_decide_eq_true. naive_solver.
Qed.

(** What a grant must say for it to allow a request. *)
Definition grants_request (g : ActionGrant.t) (request : AuthorizationRequest.t) : Prop :=
  let actor := AuthorizationRequest.actor request in
  let resource := AuthorizationRequest.resource request in
  AuthenticatedActor.principal_id actor = Some (ActionGrant.principal_id g) ∧
  ActionGrant.tenant_id g = AuthenticatedActor.tenant_id actor ∧
  (∀ o, ActionGrant.organization_id g = Some o → AuthenticatedActor.organization_id actor = Some o) ∧
  (∀ p, ActionGrant.project_id g = Some p → AuthenticatedActor.project_id actor = Some p) ∧
  ActionGrant.action g = AuthorizationRequest.action request ∧
  ActionGrant.resource_kind g = ResourceRef.kind resource ∧
  (ActionGrant.resource_id g = "*" ∨ ActionGrant.resource_id g = ResourceRef.id resource).

Lemma grant_allows_iff g request : grant_allows g request = true ↔ grants_request g request.
Proof.
  unfold grant_allows, grants_request, resource_matches.
  destruct (AuthenticatedActor.principal_id _) as [p|]; [|naive_solver].
  rewrite !andb_true_iff, orb_true_iff, !bool_decide_eq_true, !optional_scope_match_iff.
  naive_solver.
Qed.

Lemma foundation_allowed_iff (e : FoundationAuthorizationEngine.t) request :
  AuthorizationDecision.allowed (authorize e request) = true ↔
  passes_gates request ∧ AuthorizationRequest.action request ≠ GatewayAction.ModelNative ∧
  ∃ g, g ∈ FoundationAuthorizationEngine.grants e ∧ grants_request g request.
Proof.
  rewrite <- preflight_none_iff. setoid_rewrite <- grant_allows_iff.
  rewrite <- existsb_iff.
  unfold authorize, FoundationAuthorizationEngine.engine.
  destruct (gateway_preflight_decision request) as [d|] eqn:Ed.
  { pose proof (preflight_denies request d Ed). naive_solver congruence. }
  case_bool_decide; simpl; [naive_solver|].
  destruct (existsb _ _); simpl; naive_solver.
Qed.

Lemma authorize_item_loop_spec {E T} `{!AuthorizationEngine E} (e : E) actor action
    (items : list (AuthorizableItem.t T)) acc n :
  let ok i := AuthorizationDecision.allowed (authorize e
    (AuthorizationRequest.mk actor action (AuthorizableItem.resource i))) in
  authorize_item_loop e actor action items acc n =
  AuthorizedItemList.mk (acc ++ (AuthorizableItem.item <$> List.filter ok items))
    (n + length (List.filter (λ i, negb (ok i)) items)).
Proof.
  simpl. revert acc n. induction items as [|i items IH]; intros acc n; simpl.
  - by rewrite (right_id_L [] (++)), Nat.add_0_r.
  - destruct (AuthorizationDecision.allowed _) eqn:Eok; simpl; rewrite IH; f_equal.
    + by rewrite <- (assoc_L (++)).
    + lia.
Qed.

(** ** Properties *)

(** Action ids round-trip: parsing an id yields an action exactly when the
    id is that action's id, so no two actions share an id and every action can
    be named. *)
Theorem action_id_roundtrip value a :
  GatewayAction.from_action_id value = Some a ↔ value = GatewayAction.as_str a.
Proof.
  split; [|intros ->; apply GatewayAction.from_action_id_as_str].
  unfold GatewayAction.from_action_id.
  destruct (List.find _ _) as [d|] eqn:E; [|done].
  apply find_Some_in in E as [Hd Hid]. btrue. unfold GatewayAction.canonical_definitions in Hd.
  apply list_elem_of_fmap in Hd as (b & -> & _). intros [= <-]. done.
Qed.

(** The foundation engine allows a request exactly when the API-key gates
    pass, the action is not the provider-native one, and some grant names the
    actor's tenant and principal, covers its organization and project, names
    the action and the resource kind, and names the resource or is a
    wildcard. *)
Theorem foundation_authorize_spec (e : FoundationAuthorizationEngine.t) request :
  AuthorizationDecision.allowed (authorize e request) = true ↔
  passes_gates request ∧ AuthorizationRequest.action request ≠ GatewayAction.ModelNative ∧
  ∃ g, g ∈ FoundationAuthorizationEngine.grants e ∧ grants_request g request.
Proof. apply foundation_allowed_iff. Qed.

(** Whatever the policy, an engine that applies the shared gates never lets
    an API key publish or roll back configuration or write an observability
    export, and answers with the same denial. *)
Theorem api_key_never_strong {E} `{!AuthorizationEngine E, !PreflightGated E}
    (e : E) (request : AuthorizationRequest.t)
    (Hkey : is_Some (AuthenticatedActor.api_key_id (AuthorizationRequest.actor request)))
    (Hstrong : requires_strong_auth (AuthorizationRequest.action request) = true) :
  authorize e request = AuthorizationDecision.deny "api_key_strong_auth_required".
Proof.
  apply preflight_first. unfold gateway_preflight_decision.
  by rewrite (bool_decide_true _ Hkey), Hstrong.
Qed.

(** The same request made by the owner directly, without the API key. *)
Definition without_api_key (request : AuthorizationRequest.t) : AuthorizationRequest.t :=
  let a := AuthorizationRequest.actor request in
  {| AuthorizationRequest.actor :=
       {| AuthenticatedActor.actor_id := AuthenticatedActor.actor_id a;
          AuthenticatedActor.actor_kind := AuthenticatedActor.actor_kind a;
          AuthenticatedActor.tenant_id := AuthenticatedActor.tenant_id a;
          AuthenticatedActor.organization_id := AuthenticatedActor.organization_id a;
          AuthenticatedActor.project_id := AuthenticatedActor.project_id a;
          AuthenticatedActor.principal_id := AuthenticatedActor.principal_id a;
          AuthenticatedActor.api_key_id := None;
          AuthenticatedActor.credential_kind := AuthenticatedActor.credential_kind a;
          AuthenticatedActor.auth_strength := AuthenticatedActor.auth_strength a;
          AuthenticatedActor.expires_at := AuthenticatedActor.expires_at a;
          AuthenticatedActor.api_key_allowed_actions := [];
          AuthenticatedActor.api_key_allowed_resources := [];
          AuthenticatedActor.request_id := AuthenticatedActor.request_id a;
          AuthenticatedActor.trace_id := AuthenticatedActor.trace_id a |};
     AuthorizationRequest.action := AuthorizationRequest.action request;
     AuthorizationRequest.resource := AuthorizationRequest.resource request |}.

(** An API key only narrows what its owner may do: a request the engine
    allows through a key, with the key's action and resource prefilters, is
    also allowed to the owner without the key; and the key's prefilters let
    through nothing beyond that. *)
Theorem api_key_narrows_owner (e : FoundationAuthorizationEngine.t) request :
  AuthorizationDecision.allowed (authorize e request) = true ↔
  AuthorizationDecision.allowed (authorize e (without_api_key request)) = true ∧
  passes_gates request.
Proof.
  rewrite !foundation_allowed_iff.
  assert (passes_gates (without_api_key request)) by (intros [? ?]; done).
  unfold grants_request. simpl. naive_solver.
Qed.

(** Binding a built-in role grants exactly the role's actions: with the
    grants of one role binding, a request is allowed if and only if it passes
    the gates, its action is one of the role's and not the provider-native
    one, its resource has the action's canonical kind, and the actor is the
    bound principal inside the bound tenant, organization and project. *)
Theorem builtin_role_grants_exactly tenant org project principal role request :
  let actor := AuthorizationRequest.actor request in
  let action := AuthorizationRequest.action request in
  AuthorizationDecision.allowed (authorize
    (FoundationAuthorizationEngine.mk
      (ActionGrant.for_builtin_role tenant org project principal role)) request) = true ↔
  passes_gates request ∧ action ≠ GatewayAction.ModelNative ∧
  action ∈ BuiltInRole.actions role ∧
  ResourceRef.kind (AuthorizationRequest.resource request) = GatewayAction.resource_kind action ∧
  AuthenticatedActor.tenant_id actor = tenant ∧
  AuthenticatedActor.principal_id actor = Some principal ∧
  optional_scope_match org (AuthenticatedActor.organization_id actor) = true ∧
  optional_scope_match project (AuthenticatedActor.project_id actor) = true.
Proof.
  simpl. rewrite foundation_allowed_iff, !optional_scope_match_iff. simpl.
  unfold ActionGrant.for_builtin_role, grants_request.
  setoid_rewrite list_elem_of_fmap. split; [naive_solver|].
  intros (? & ? & Hin & Hkind & ? & ? & ? & ?). split_and!; [done..|].
  eexists. split; [by exists (AuthorizationRequest.action request)|]. simpl. naive_solver.
Qed.

(** The grant is one to the actor, in the actor's tenant. *)
Definition grant_concerns (actor : AuthenticatedActor.t) (g : ActionGrant.t) : bool :=
  (ActionGrant.tenant_id g ==? AuthenticatedActor.tenant_id actor)
  && (Some (ActionGrant.principal_id g) ==? AuthenticatedActor.principal_id actor).

(** Tenants are isolated: grants of other tenants or to other principals
    never change a decision. *)
Theorem foreign_grants_irrelevant gs request :
  authorize (FoundationAuthorizationEngine.mk gs) request =
  authorize (FoundationAuthorizationEngine.mk
    (List.filter (grant_concerns (AuthorizationRequest.actor request)) gs)) request.
Proof.
  unfold grant_concerns, authorize, FoundationAuthorizationEngine.engine.
  destruct (gateway_preflight_decision request); [done|].
  case_bool_decide; [done|]. simpl.
  set (P := λ g, _ && _). enough (existsb (λ g, grant_allows g request) gs =
    existsb (λ g, grant_allows g request) (List.filter P gs)) as -> by done.
  apply eq_true_iff_eq. rewrite !existsb_iff. setoid_rewrite filter_iff.
  split; [|naive_solver]. intros (g & Hg & Ha). exists g. split_and!; [done| |done].
  apply grant_allows_iff in Ha as (Hp & Ht & _). unfold P.
  by rewrite andb_true_iff, !bool_decide_eq_true.
Qed.

(** Filtering a list returns, in order, exactly the items the engine allows
    one by one, and the reported count is the number of items left out. *)
Theorem authorize_item_list_spec {E T} `{!AuthorizationEngine E} (e : E) actor action
    (items : list (AuthorizableItem.t T)) :
  let ok i := AuthorizationDecision.allowed (authorize e
    (AuthorizationRequest.mk actor action (AuthorizableItem.resource i))) in
  let res := authorize_item_list e actor action items in
  AuthorizedItemList.items res = AuthorizableItem.item <$> List.filter ok items ∧
  (length (AuthorizedItemList.items res) + AuthorizedItemList.filtered_count res = length items)%nat.
Proof.
  simpl. unfold authorize_item_list. rewrite authorize_item_loop_spec. simpl. split; [done|].
  rewrite length_fmap. induction items as [|i items IH]; simpl; [done|].
  destruct (AuthorizationDecision.allowed _); simpl; lia.
Qed.

(** ** Witnesses *)

Module ActionWitness.
Definition key_actor : AuthenticatedActor.t :=
  {| AuthenticatedActor.actor_id := "ak_test";
     AuthenticatedActor.actor_kind := ActorKind.ApiKey;
     AuthenticatedActor.tenant_id := "ten_test";
     AuthenticatedActor.organization_id := Some "org_test";
     AuthenticatedActor.project_id := Some "prj_test";
     AuthenticatedActor.principal_id := Some "usr_test";
     AuthenticatedActor.api_key_id := Some "ak_test";
     AuthenticatedActor.credential_kind := CredentialKind.ApiKey;
     AuthenticatedActor.auth_strength := 50;
     AuthenticatedActor.expires_at := None;
     AuthenticatedActor.api_key_allowed_actions := [];
     AuthenticatedActor.api_key_allowed_resources := [];
     AuthenticatedActor.request_id := "req_test";
     AuthenticatedActor.trace_id := "tr_test" |}.
End ActionWitness.

Lemma api_key_never_strong_witness :
  authorize (FoundationAuthorizationEngine.mk
      (ActionGrant.for_builtin_role "ten_test" None None "usr_test" BuiltInRole.TenantOwner))
    (AuthorizationRequest.mk ActionWitness.key_actor GatewayAction.ConfigPublish
       (ResourceRef.mk "ConfigSnapshot" "cfg_1"))
  = AuthorizationDecision.deny "api_key_strong_auth_required".
Proof. apply api_key_never_strong; [eexists|]; reflexivity. Defined.
