(* ===== verification/HotState.v ===== *)
(** * Route hot state

    [hot_state.rs] and the in-memory implementation of its [RouteHotState]
    trait in [storage.rs]: endpoint health, drain locks and sticky routes, each
    bound to a config version and an expiry.  The trait's three reads are the
    record [RouteHotState.t]; route selection is verified against it, and the
    null and in-memory backends are two values of it. *)

From S2P Require Import Prelude Domain.

Module EndpointHealthState.
Inductive t : Set := Unknown | Healthy | Warmup | Degraded | Unhealthy | Blocked.
Definition as_str (s : t) : string :=
  match s with
  | Unknown => "unknown" | Healthy => "healthy" | Warmup => "warmup"
  | Degraded => "degraded" | Unhealthy => "unhealthy" | Blocked => "blocked"
  end.
#[global] Instance eq_dec : EqDecision t.
Proof. solve_decision. Defined.
End EndpointHealthState.

(** The freshness test shared by the three records. *)
Definition fresh_for (record_version : Z) (expires_at : DateTime)
    (config_version : option Z) (now : DateTime) : bool :=
  (config_version ==? Some record_version) && (now <? expires_at)%Z.

Module EndpointHealthRecord.
Record t : Set := mk {
  tenant_id : string;
  provider_endpoint_id : string;
  config_version : Z;
  state : EndpointHealthState.t;
  observed_at : DateTime;
  expires_at : DateTime;
}.
Definition is_fresh_for (r : t) (cv : option Z) (now : DateTime) : bool :=
  fresh_for (config_version r) (expires_at r) cv now.
End EndpointHealthRecord.

Module EndpointDrainRecord.
Record t : Set := mk {
  tenant_id : string;
  provider_endpoint_id : string;
  config_version : Z;
  reason : string;
  created_at : DateTime;
  expires_at : DateTime;
}.
Definition is_fresh_for (r : t) (cv : option Z) (now : DateTime) : bool :=
  fresh_for (config_version r) (expires_at r) cv now.
End EndpointDrainRecord.

Module StickyRouteRecord.
Record t : Set := mk {
  tenant_id : string;
  project_id : option string;
  model_alias_id : string;
  affinity_hash : string;
  routing_group_id : string;
  model_target_id : string;
  provider_endpoint_id : string;
  config_version : Z;
  created_at : DateTime;
  expires_at : DateTime;
}.
Definition is_fresh_for (r : t) (cv : option Z) (now : DateTime) : bool :=
  fresh_for (config_version r) (expires_at r) cv now.
End StickyRouteRecord.

(** The reads of the [RouteHotState] trait, used by route selection. *)
Module RouteHotState.
Record t : Type := mk {
  endpoint_health_state :
    string → string → option Z → DateTime → EndpointHealthState.t;
  endpoint_is_drained : string → string → option Z → DateTime → bool;
  sticky_route :
    string → option string → string → string → option Z → DateTime →
    option StickyRouteRecord.t;
}.
End RouteHotState.

(** [NullRouteHotState], used when the backend is unavailable. *)
Definition NullRouteHotState : RouteHotState.t :=
  {| RouteHotState.endpoint_health_state _ _ _ _ := EndpointHealthState.Unknown;
     RouteHotState.endpoint_is_drained _ _ _ _ := false;
     RouteHotState.sticky_route _ _ _ _ _ _ := None |}.

(** The three hot-state maps of [InMemoryGatewayStore]. *)
Module HotStore.
Record t : Type := mk {
  endpoint_health : gmap (string * string) EndpointHealthRecord.t;
  endpoint_drains : gmap (string * string) EndpointDrainRecord.t;
  sticky_routes : gmap (string * option string * string * string) StickyRouteRecord.t;
}.

Definition empty : t := mk ∅ ∅ ∅.

(** [impl RouteHotState for InMemoryGatewayStore], the reads. *)
Definition endpoint_health_state (st : t) (tenant_id provider_endpoint_id : string)
    (cv : option Z) (now : DateTime) : EndpointHealthState.t :=
  match endpoint_health st !! (tenant_id, provider_endpoint_id) with
  | Some record =>
      if EndpointHealthRecord.is_fresh_for record cv now
      then EndpointHealthRecord.state record else EndpointHealthState.Unknown
  | None => EndpointHealthState.Unknown
  end.

Definition endpoint_is_drained (st : t) (tenant_id provider_endpoint_id : string)
    (cv : option Z) (now : DateTime) : bool :=
  match endpoint_drains st !! (tenant_id, provider_endpoint_id) with
  | Some record => EndpointDrainRecord.is_fresh_for record cv now
  | None => false
  end.

Definition sticky_route (st : t) (tenant_id : string) (project_id : option string)
    (model_alias_id affinity_hash : string) (cv : option Z) (now : DateTime)
    : option StickyRouteRecord.t :=
  match sticky_routes st !! (tenant_id, project_id, model_alias_id, affinity_hash) with
  | Some record =>
      if StickyRouteRecord.is_fresh_for record cv now then Some record else None
  | None => None
  end.

Definition reader (st : t) : RouteHotState.t :=
  {| RouteHotState.endpoint_health_state := endpoint_health_state st;
     RouteHotState.endpoint_is_drained := endpoint_is_drained st;
     RouteHotState.sticky_route := sticky_route st |}.

(** The writes replace the record under its key. *)
Definition set_endpoint_health (record : EndpointHealthRecord.t) (st : t) : t :=
  mk (<[(EndpointHealthRecord.tenant_id record,
         EndpointHealthRecord.provider_endpoint_id record) := record]> (endpoint_health st))
     (endpoint_drains st) (sticky_routes st).

Definition set_endpoint_drain (record : EndpointDrainRecord.t) (st : t) : t :=
  mk (endpoint_health st)
     (<[(EndpointDrainRecord.tenant_id record,
         EndpointDrainRecord.provider_endpoint_id record) := record]> (endpoint_drains st))
     (sticky_routes st).

Definition set_sticky_route (record : StickyRouteRecord.t) (st : t) : t :=
  mk (endpoint_health st) (endpoint_drains st)
     (<[(StickyRouteRecord.tenant_id record, StickyRouteRecord.project_id record,
         StickyRouteRecord.model_alias_id record, StickyRouteRecord.affinity_hash record)
        := record]> (sticky_routes st)).
End HotStore.

(** ** Redis-compatible key shapes *)

Definition endpoint_health_key (tenant_id provider_endpoint_id : string) : string :=
  "gateway:endpoint_health:" +:+ tenant_id +:+ ":" +:+ provider_endpoint_id.

Definition endpoint_drain_key (tenant_id provider_endpoint_id : string) : string :=
  "gateway:drain:" +:+ tenant_id +:+ ":" +:+ provider_endpoint_id.

Definition sticky_route_key (tenant_id : string) (project_id : option string)
    (model_alias_id affinity_hash : string) : string :=
  "gateway:sticky:" +:+ tenant_id +:+ ":" +:+ default "_" project_id +:+ ":"
  +:+ model_alias_id +:+ ":" +:+ affinity_hash.

(** ** Lemmas *)

Lemma fresh_for_iff v e cv now :
  fresh_for v e cv now = true ↔ cv = Some v ∧ (now < e)%Z.
Proof. unfold fresh_for. by rewrite andb_true_iff, bool_decide_eq_true, Z.ltb_lt. Qed.

(** A record written for a config version is invisible once expired or once
    another version (or none) is active. *)
Lemma fresh_for_stale v e cv now :
  cv ≠ Some v ∨ (e ≤ now)%Z → fresh_for v e cv now = false.
Proof. intros H. apply not_true_iff_false. rewrite fresh_for_iff. naive_solver lia. Qed.

#[export] Hint Resolve fresh_for_stale : gw.

(** ** Properties *)

(** The in-memory backend returns what was last written for an endpoint
    while it is fresh, never a stale or foreign value: after writing a health
    record, a read for any tenant, endpoint, config version and time yields
    the record's state if the key is the record's and it is fresh, [Unknown]
    if the key is the record's and it is stale, and otherwise what it yielded
    before. *)
Theorem endpoint_health_read_after_write st record tenant endpoint cv now :
  RouteHotState.endpoint_health_state
    (HotStore.reader (HotStore.set_endpoint_health record st)) tenant endpoint cv now =
  if (tenant ==? EndpointHealthRecord.tenant_id record)
     && (endpoint ==? EndpointHealthRecord.provider_endpoint_id record)
  then if (cv ==? Some (EndpointHealthRecord.config_version record))
          && (now <? EndpointHealthRecord.expires_at record)%Z
       then EndpointHealthRecord.state record else EndpointHealthState.Unknown
  else RouteHotState.endpoint_health_state (HotStore.reader st) tenant endpoint cv now.
Proof.
  simpl. unfold HotStore.endpoint_health_state, HotStore.set_endpoint_health. simpl.
  rewrite lookup_insert. repeat case_bool_decide; case_decide; simplify_eq/=; try done.
  - unfold EndpointHealthRecord.is_fresh_for, fresh_for. by rewrite bool_decide_true.
  - unfold EndpointHealthRecord.is_fresh_for, fresh_for. by rewrite bool_decide_false.
Qed.
