(* ===== verification/Routing.v ===== *)
(** * Route decision and attempt evidence

    [routing.rs]: the reasons a candidate is filtered, the summary that counts
    them, and the decision and attempt records written for every routed
    request.  [replay.rs]: the model-ingress routes the gateway serves, with the
    protocol family, action and streaming flag each implies, and the
    classification of a request path into a protocol family. *)

From S2P Require Import Prelude Domain Action.

Module RouteFilterReason.
Inductive t : Set :=
| GroupTargetInactive | TargetMissing | TargetInactive | ProtocolMismatch
| StreamingUnsupported | EndpointMissing | EndpointInactive
| EndpointProtocolMismatch | EndpointDrained | EndpointUnhealthy
| EndpointHealthBlocked | CredentialMissing | CredentialUnusable
| ProviderGrantDenied.

Definition as_str (r : t) : string :=
  match r with
  | GroupTargetInactive => "group_target_inactive"
  | TargetMissing => "target_missing"
  | TargetInactive => "target_inactive"
  | ProtocolMismatch => "protocol_mismatch"
  | StreamingUnsupported => "streaming_unsupported"
  | EndpointMissing => "endpoint_missing"
  | EndpointInactive => "endpoint_inactive"
  | EndpointProtocolMismatch => "endpoint_protocol_mismatch"
  | EndpointDrained => "endpoint_drained"
  | EndpointUnhealthy => "endpoint_unhealthy"
  | EndpointHealthBlocked => "endpoint_health_blocked"
  | CredentialMissing => "credential_missing"
  | CredentialUnusable => "credential_unusable"
  | ProviderGrantDenied => "provider_grant_denied"
  end.

#[global] Instance eq_dec : EqDecision t.
Proof. solve_decision. Defined.
End RouteFilterReason.

Module RouteFilterSummary.
Record t : Set := mk { reason : RouteFilterReason.t; count : Z }.
End RouteFilterSummary.

(** [add_filter_reason]: bump the first entry for the reason, or append one.
    The count is a [u32]; it is bounded by the number of candidates. *)
Fixpoint add_filter_reason (summary : list RouteFilterSummary.t)
    (reason : RouteFilterReason.t) : list RouteFilterSummary.t :=
  match summary with
  | [] => [RouteFilterSummary.mk reason 1]
  | e :: summary' =>
      if RouteFilterSummary.reason e ==? reason
      then RouteFilterSummary.mk (RouteFilterSummary.reason e)
             (RouteFilterSummary.count e + 1) :: summary'
      else e :: add_filter_reason summary' reason
  end.

Module RouteDecisionStatus.
Inductive t : Set := Started | Selected | Blocked | NoRoute | Completed | Failed.
Definition as_str (s : t) : string :=
  match s with
  | Started => "started" | Selected => "selected" | Blocked => "blocked"
  | NoRoute => "no_route" | Completed => "completed" | Failed => "failed"
  end.
#[global] Instance eq_dec : EqDecision t.
Proof. solve_decision. Defined.
End RouteDecisionStatus.

Module RouteAttemptStatus.
Inductive t : Set := Started | Completed | Failed | ClientDisconnected.
Definition as_str (s : t) : string :=
  match s with
  | Started => "started" | Completed => "completed" | Failed => "failed"
  | ClientDisconnected => "client_disconnected"
  end.
#[global] Instance eq_dec : EqDecision t.
Proof. solve_decision. Defined.
End RouteAttemptStatus.

Module RouteDecisionRequest.
Record t : Set := mk {
  protocol_family : ProtocolFamily.t;
  alias_name : string;
  config_snapshot_id : option string;
  config_version : option Z;
}.
End RouteDecisionRequest.

Module SelectedRouteEvidence.
Record t : Set := mk {
  model_alias_id : string;
  route_policy_id : string;
  routing_group_id : string;
  model_target_id : string;
  provider_endpoint_id : string;
  upstream_credential_id : option string;
  filtered_summary : list RouteFilterSummary.t;
  sticky_hit : bool;
  sticky_miss_reason : option string;
}.
End SelectedRouteEvidence.

Module RouteDecisionRecord.
Record t : Set := mk {
  route_decision_id : string;
  tenant_id : string;
  organization_id : option string;
  project_id : option string;
  principal_id : option string;
  api_key_id : option string;
  actor_id : string;
  actor_kind : ActorKind.t;
  request_id : string;
  trace_id : string;
  protocol_family : ProtocolFamily.t;
  config_snapshot_id : option string;
  config_version : option Z;
  model_alias_id : option string;
  alias_name : string;
  route_policy_id : option string;
  routing_group_id : option string;
  model_target_id : option string;
  provider_endpoint_id : option string;
  upstream_credential_id : option string;
  filtered_summary : list RouteFilterSummary.t;
  sticky_hit : bool;
  sticky_miss_reason : option string;
  status : RouteDecisionStatus.t;
  reason : string;
  occurred_at : DateTime;
}.

Definition selected (uuid : string) (actor : AuthenticatedActor.t)
    (request : RouteDecisionRequest.t) (selected : SelectedRouteEvidence.t)
    (occurred_at : DateTime) : t :=
  {| route_decision_id := new_prefixed_id "rd" uuid;
     tenant_id := AuthenticatedActor.tenant_id actor;
     organization_id := AuthenticatedActor.organization_id actor;
     project_id := AuthenticatedActor.project_id actor;
     principal_id := AuthenticatedActor.principal_id actor;
     api_key_id := AuthenticatedActor.api_key_id actor;
     actor_id := AuthenticatedActor.actor_id actor;
     actor_kind := AuthenticatedActor.actor_kind actor;
     request_id := AuthenticatedActor.request_id actor;
     trace_id := AuthenticatedActor.trace_id actor;
     protocol_family := RouteDecisionRequest.protocol_family request;
     config_snapshot_id := RouteDecisionRequest.config_snapshot_id request;
     config_version := RouteDecisionRequest.config_version request;
     model_alias_id := Some (SelectedRouteEvidence.model_alias_id selected);
     alias_name := RouteDecisionRequest.alias_name request;
     route_policy_id := Some (SelectedRouteEvidence.route_policy_id selected);
     routing_group_id := Some (SelectedRouteEvidence.routing_group_id selected);
     model_target_id := Some (SelectedRouteEvidence.model_target_id selected);
     provider_endpoint_id := Some (SelectedRouteEvidence.provider_endpoint_id selected);
     upstream_credential_id := SelectedRouteEvidence.upstream_credential_id selected;
     filtered_summary := SelectedRouteEvidence.filtered_summary selected;
     sticky_hit := SelectedRouteEvidence.sticky_hit selected;
     sticky_miss_reason := SelectedRouteEvidence.sticky_miss_reason selected;
     status := RouteDecisionStatus.Selected;
     reason := "selected";
     occurred_at := occurred_at |}.

Definition terminal (uuid : string) (actor : AuthenticatedActor.t)
    (request : RouteDecisionRequest.t) (status : RouteDecisionStatus.t) (reason : string)
    (filtered_summary : list RouteFilterSummary.t) (occurred_at : DateTime) : t :=
  {| route_decision_id := new_prefixed_id "rd" uuid;
     tenant_id := AuthenticatedActor.tenant_id actor;
     organization_id := AuthenticatedActor.organization_id actor;
     project_id := AuthenticatedActor.project_id actor;
     principal_id := AuthenticatedActor.principal_id actor;
     api_key_id := AuthenticatedActor.api_key_id actor;
     actor_id := AuthenticatedActor.actor_id actor;
     actor_kind := AuthenticatedActor.actor_kind actor;
     request_id := AuthenticatedActor.request_id actor;
     trace_id := AuthenticatedActor.trace_id actor;
     protocol_family := RouteDecisionRequest.protocol_family request;
     config_snapshot_id := RouteDecisionRequest.config_snapshot_id request;
     config_version := RouteDecisionRequest.config_version request;
     model_alias_id := None;
     alias_name := RouteDecisionRequest.alias_name request;
     route_policy_id := None;
     routing_group_id := None;
     model_target_id := None;
     provider_endpoint_id := None;
     upstream_credential_id := None;
     filtered_summary := filtered_summary;
     sticky_hit := false;
     sticky_miss_reason := None;
     status := status;
     reason := reason;
     occurred_at := occurred_at |}.
End RouteDecisionRecord.

Module RouteAttemptRecord.
Record t : Set := mk {
  route_attempt_event_id : string;
  route_decision_id : string;
  attempt_index : Z;
  routing_group_id : string;
  model_target_id : string;
  provider_endpoint_id : string;
  status : RouteAttemptStatus.t;
  started_at : DateTime;
  ended_at : option DateTime;
}.

Definition terminal (uuid route_decision_id : string) (attempt_index : Z)
    (selected : SelectedRouteEvidence.t) (status : RouteAttemptStatus.t)
    (started_at ended_at : DateTime) : t :=
  {| route_attempt_event_id := new_prefixed_id "rae" uuid;
     route_decision_id := route_decision_id;
     attempt_index := attempt_index;
     routing_group_id := SelectedRouteEvidence.routing_group_id selected;
     model_target_id := SelectedRouteEvidence.model_target_id selected;
     provider_endpoint_id := SelectedRouteEvidence.provider_endpoint_id selected;
     status := status;
     started_at := started_at;
     ended_at := Some ended_at |}.

Definition completed (uuid route_decision_id : string) (selected : SelectedRouteEvidence.t)
    (started_at ended_at : DateTime) : t :=
  {| route_attempt_event_id := new_prefixed_id "rae" uuid;
     route_decision_id := route_decision_id;
     attempt_index := 0;
     routing_group_id := SelectedRouteEvidence.routing_group_id selected;
     model_target_id := SelectedRouteEvidence.model_target_id selected;
     provider_endpoint_id := SelectedRouteEvidence.provider_endpoint_id selected;
     status := RouteAttemptStatus.Completed;
     started_at := started_at;
     ended_at := Some ended_at |}.

Definition failed (uuid route_decision_id : string) (attempt_index : Z)
    (selected : SelectedRouteEvidence.t) (started_at ended_at : DateTime) : t :=
  terminal uuid route_decision_id attempt_index selected RouteAttemptStatus.Failed
    started_at ended_at.

Definition client_disconnected (uuid route_decision_id : string) (attempt_index : Z)
    (selected : SelectedRouteEvidence.t) (started_at ended_at : DateTime) : t :=
  terminal uuid route_decision_id attempt_index selected
    RouteAttemptStatus.ClientDisconnected started_at ended_at.
End RouteAttemptRecord.

(** ** Filter summaries as multisets of reasons *)

(** How often a reason is counted in a summary. *)
Fixpoint count_of (r : RouteFilterReason.t) (summary : list RouteFilterSummary.t) : Z :=
  match summary with
  | [] => 0
  | e :: summary' =>
      (if RouteFilterSummary.reason e ==? r then RouteFilterSummary.count e else 0)
      + count_of r summary'
  end%Z.

(** The number of occurrences of a reason in the list of reasons reported. *)
Definition occurrences (r : RouteFilterReason.t) (rs : list RouteFilterReason.t) : Z :=
  Z.of_nat (length (List.filter (λ x, x ==? r) rs)).

(** Summaries as produced by the gateway: one entry per reason, positive. *)
Definition summary_wf (summary : list RouteFilterSummary.t) : Prop :=
  NoDup (RouteFilterSummary.reason <$> summary) ∧
  Forall (λ e, (0 < RouteFilterSummary.count e)%Z) summary.

Lemma add_filter_reason_count summary reason r :
  count_of r (add_filter_reason summary reason) =
  (count_of r summary + if reason ==? r then 1 else 0)%Z.
Proof.
  induction summary as [|e summary IH]; simpl; [repeat case_bool_decide; lia|].
  destruct (bool_decide_reflect (RouteFilterSummary.reason e = reason)) as [->|Hne]; simpl.
  - repeat case_bool_decide; lia.
  - rewrite IH. lia.
Qed.

Lemma add_filter_reason_reasons summary reason :
  RouteFilterSummary.reason <$> add_filter_reason summary reason =
  (RouteFilterSummary.reason <$> summary) ++
  (if decide (reason ∈ RouteFilterSummary.reason <$> summary) then [] else [reason]).
Proof.
  induction summary as [|e summary IH]; [done|].
  cbn [add_filter_reason]. case_bool_decide as E.
  - rewrite !fmap_cons, decide_True by set_solver. by rewrite (right_id_L [] (++)).
  - rewrite !fmap_cons, IH. cbn. f_equal. f_equal. repeat case_decide; set_solver.
Qed.

Lemma add_filter_reason_wf summary reason :
  summary_wf summary → summary_wf (add_filter_reason summary reason).
Proof.
  intros [Hnd Hpos]. split.
  - rewrite add_filter_reason_reasons. apply list.NoDup_app.
    case_decide; split_and!; try done; first [set_solver | apply NoDup_singleton | constructor].
  - clear Hnd. induction Hpos as [|e summary He Hs IH]; simpl; [repeat constructor|].
    case_bool_decide; constructor; simpl; auto; lia.
Qed.

#[export] Hint Resolve add_filter_reason_wf : gw.

(** Adding the reasons of a list one by one. *)
Definition add_filter_reasons (summary : list RouteFilterSummary.t)
    (rs : list RouteFilterReason.t) : list RouteFilterSummary.t :=
  fold_left add_filter_reason rs summary.

Lemma add_filter_reasons_count rs summary r :
  count_of r (add_filter_reasons summary rs) = (count_of r summary + occurrences r rs)%Z.
Proof.
  revert summary. induction rs as [|x rs IH]; intros summary; simpl; [unfold occurrences; simpl; lia|].
  unfold add_filter_reasons in *. simpl. rewrite IH, add_filter_reason_count.
  unfold occurrences. simpl. case_bool_decide; simpl; lia.
Qed.

Lemma add_filter_reasons_wf rs summary :
  summary_wf summary → summary_wf (add_filter_reasons summary rs).
Proof.
  revert summary. unfold add_filter_reasons.
  induction rs; simpl; auto with gw.
Qed.

(** ** Replay cases *)

(** HTTP methods, as the routes use them. *)
Module Method.
Inductive t : Set := GET | POST | PUT | PATCH | DELETE.
Definition as_str (m : t) : string :=
  match m with
  | GET => "GET" | POST => "POST" | PUT => "PUT" | PATCH => "PATCH" | DELETE => "DELETE"
  end.
#[global] Instance eq_dec : EqDecision t.
Proof. solve_decision. Defined.
End Method.

Module GatewayReplayCase.
Record t : Set := mk {
  name : string;
  protocol_family : ProtocolFamily.t;
  method : Method.t;
  ingress_path : string;
  action : GatewayAction.t;
  streaming : bool;
  requires_native_grant : bool;
}.
End GatewayReplayCase.

Definition foundation_route_replay_cases : list GatewayReplayCase.t :=
  [GatewayReplayCase.mk "openai_responses_non_stream" ProtocolFamily.OpenAiResponses Method.POST
     "/v1/responses" GatewayAction.ModelInvoke false false;
   GatewayReplayCase.mk "openai_chat_stream" ProtocolFamily.OpenAiChat Method.POST
     "/v1/chat/completions" GatewayAction.ModelStream true false;
   GatewayReplayCase.mk "anthropic_messages_non_stream" ProtocolFamily.AnthropicMessages
     Method.POST "/v1/messages" GatewayAction.ModelInvoke false false;
   GatewayReplayCase.mk "gemini_generate_content_non_stream" ProtocolFamily.GeminiGenerateContent
     Method.POST "/v1beta/models/gemini-pro:generateContent" GatewayAction.ModelInvoke false false;
   GatewayReplayCase.mk "bedrock_converse_non_stream" ProtocolFamily.BedrockConverse Method.POST
     "/model/anthropic.claude-3-sonnet/converse" GatewayAction.ModelInvoke false false;
   GatewayReplayCase.mk "provider_native_denied_by_default" ProtocolFamily.ProviderNative
     Method.POST "/native/custom_native/invoke" GatewayAction.ModelNative false true].

Definition classify_ingress (method : Method.t) (path : string) : option ProtocolFamily.t :=
  if method !=? Method.POST then None
  else if path ==? "/v1/responses" then Some ProtocolFamily.OpenAiResponses
  else if path ==? "/v1/chat/completions" then Some ProtocolFamily.OpenAiChat
  else if path ==? "/v1/messages" then Some ProtocolFamily.AnthropicMessages
  else if contains ":generateContent" path || contains ":streamGenerateContent" path
  then Some ProtocolFamily.GeminiGenerateContent
  else if contains "/converse" path || contains "/converse-stream" path
  then Some ProtocolFamily.BedrockConverse
  else if starts_with "/native/" path then Some ProtocolFamily.ProviderNative
  else None.

(** [replay_case_for_request] of [service.rs]. *)
Definition replay_case_for_request (method : Method.t) (path : string)
    : Result GatewayReplayCase.t :=
  ok_or (List.find (λ case, (GatewayReplayCase.method case ==? method)
                            && (GatewayReplayCase.ingress_path case ==? path))
           foundation_route_replay_cases)
    (GatewayError.NotFound ("gateway route " +:+ Method.as_str method +:+ " " +:+ path)).

(** A request that reaches a model ingress is classified consistently: the
    replay case found for a method and path has that method and path, its
    declared protocol family is the one path classification gives, its action
    is the streaming action exactly when it streams and the native action
    exactly when it needs a native grant; everything else is not found. *)
Theorem replay_case_consistent method path :
  match replay_case_for_request method path with
  | Ok case =>
      GatewayReplayCase.method case = method ∧ GatewayReplayCase.ingress_path case = path ∧
      classify_ingress method path = Some (GatewayReplayCase.protocol_family case) ∧
      (GatewayReplayCase.streaming case = true ↔
       GatewayReplayCase.action case = GatewayAction.ModelStream) ∧
      (GatewayReplayCase.requires_native_grant case = true ↔
       GatewayReplayCase.action case = GatewayAction.ModelNative)
  | Err e =>
      e = GatewayError.NotFound ("gateway route " +:+ Method.as_str method +:+ " " +:+ path) ∧
      ∀ case, case ∈ foundation_route_replay_cases →
        GatewayReplayCase.method case ≠ method ∨ GatewayReplayCase.ingress_path case ≠ path
  end.
Proof.
  unfold replay_case_for_request. destruct (List.find _ _) as [case|] eqn:E; simpl.
  - apply find_Some_in in E as [Hin ?]. btrue.
    rewrite list_elem_of_In in Hin. cbn in Hin.
    destruct_or? Hin; try done; subst; simpl in *; subst; split_and!; done.
  - split; [done|]. rewrite find_None_iff in E. intros case Hin. specialize (E case Hin).
    apply andb_false_iff in E as [?|?]; btrue; auto.
Qed.
