(* ===== verification/Catalog.v ===== *)
(** * The provider catalog snapshot

    [catalog.rs], first part: the configuration records a snapshot carries,
    their indexes, and the validation every snapshot passes before it can be
    active.  The properties show that a validated snapshot is closed under its
    references. *)

From S2P Require Import Prelude Domain.

(** ** Configuration records *)

Module CredentialStatus.
Inductive t : Set := Active | Rotating | Disabled | Expired | Error | Deleted.
Definition is_usable (s : t) : bool :=
  match s with Active | Rotating => true | _ => false end.
#[global] Instance eq_dec : EqDecision t.
Proof. solve_decision. Defined.
End CredentialStatus.

Module UpstreamCredentialConfig.
Record t : Set := mk {
  upstream_credential_id : string;
  tenant_id : string;
  provider_endpoint_id : string;
  credential_kind : string;
  secret_ref_id : string;
  status : CredentialStatus.t;
}.
End UpstreamCredentialConfig.

Module ModelTargetConfig.
Record t : Set := mk {
  model_target_id : string;
  tenant_id : string;
  provider_endpoint_id : string;
  upstream_credential_id : option string;
  protocol_family : ProtocolFamily.t;
  upstream_model_id : string;
  pricing_sku_id : option string;
  status : ResourceStatus.t;
  supports_streaming : bool;
}.
End ModelTargetConfig.

Module ModelAliasConfig.
Record t : Set := mk {
  model_alias_id : string;
  tenant_id : string;
  organization_id : option string;
  project_id : option string;
  alias_name : string;
  protocol_family : ProtocolFamily.t;
  route_policy_id : string;
  status : ResourceStatus.t;
}.
End ModelAliasConfig.

Module RoutingGroupConfig.
Record t : Set := mk {
  routing_group_id : string;
  tenant_id : string;
  status : ResourceStatus.t;
}.
End RoutingGroupConfig.

(** [weight] and [priority] are [u32]; they are only compared. *)
Module RoutingGroupTargetConfig.
Record t : Set := mk {
  routing_group_target_id : string;
  routing_group_id : string;
  model_target_id : string;
  weight : Z;
  priority : Z;
  status : ResourceStatus.t;
}.
End RoutingGroupTargetConfig.

Module RoutePolicyConfig.
Record t : Set := mk {
  route_policy_id : string;
  tenant_id : string;
  model_alias_id : string;
  routing_group_id : string;
  status : ResourceStatus.t;
  sticky_ttl_seconds : option Z;
}.
End RoutePolicyConfig.

Module ProviderGrantScopeKind.
Inductive t : Set := Organization | Project.
#[global] Instance eq_dec : EqDecision t.
Proof. solve_decision. Defined.
End ProviderGrantScopeKind.

Module ProviderGrantResourceKind.
Inductive t : Set :=
| ModelAlias | RoutePolicy | RoutingGroup | ModelTarget | ProviderEndpoint | PricingSku.
#[global] Instance eq_dec : EqDecision t.
Proof. solve_decision. Defined.
End ProviderGrantResourceKind.

Module ProviderGrantEffect.
Inductive t : Set := Allow | Deny.
#[global] Instance eq_dec : EqDecision t.
Proof. solve_decision. Defined.
End ProviderGrantEffect.

Module ProviderGrantClosureMode.
Inductive t : Set := SelfOnly | IncludeDescendants | DenyDescendants.
#[global] Instance eq_dec : EqDecision t.
Proof. solve_decision. Defined.
End ProviderGrantClosureMode.

Module ProviderGrantConfig.
Record t : Set := mk {
  provider_grant_id : string;
  tenant_id : string;
  scope_kind : option ProviderGrantScopeKind.t;
  scope_id : option string;
  organization_id : option string;
  project_id : option string;
  principal_id : option string;
  resource_kind : option ProviderGrantResourceKind.t;
  resource_id : option string;
  effect : ProviderGrantEffect.t;
  closure_mode : ProviderGrantClosureMode.t;
  provider_endpoint_id : option string;
  model_target_id : option string;
  status : ResourceStatus.t;
}.

Definition is_some {A} (o : option A) : bool :=
  match o with Some _ => true | None => false end.

Definition is_spec_shape (g : t) : bool :=
  is_some (scope_kind g) || is_some (scope_id g)
  || is_some (resource_kind g) || is_some (resource_id g)
  || (effect g !=? ProviderGrantEffect.Allow)
  || (closure_mode g !=? ProviderGrantClosureMode.SelfOnly).
End ProviderGrantConfig.

Module GatewayCatalogSnapshot.
Record t : Set := mk {
  provider_endpoints : list ProviderEndpoint.t;
  upstream_credentials : list UpstreamCredentialConfig.t;
  model_targets : list ModelTargetConfig.t;
  model_aliases : list ModelAliasConfig.t;
  routing_groups : list RoutingGroupConfig.t;
  routing_group_targets : list RoutingGroupTargetConfig.t;
  route_policies : list RoutePolicyConfig.t;
  provider_grants : list ProviderGrantConfig.t;
}.
End GatewayCatalogSnapshot.

(** ** Grant scopes *)

Definition grant_scope_kind (g : ProviderGrantConfig.t) : option ProviderGrantScopeKind.t :=
  match ProviderGrantConfig.scope_kind g with
  | Some k => Some k
  | None =>
      if ProviderGrantConfig.is_some (ProviderGrantConfig.project_id g)
      then Some ProviderGrantScopeKind.Project
      else if ProviderGrantConfig.is_some (ProviderGrantConfig.organization_id g)
      then Some ProviderGrantScopeKind.Organization
      else None
  end.

Definition grant_scope_id (g : ProviderGrantConfig.t) : option string :=
  match ProviderGrantConfig.scope_id g with
  | Some id => Some id
  | None =>
      match ProviderGrantConfig.project_id g with
      | Some id => Some id
      | None => ProviderGrantConfig.organization_id g
      end
  end.

(** ** Indexes *)

Definition invalid_catalog {A} (message : string) : Result A :=
  Err (GatewayError.BadRequest message).

(** The loop shared by the [index_*] functions: insert every element under its
    key and stop at the first key that is already there. *)
Fixpoint index_loop {A} (key : A → string) (what : string) (index : gmap string A)
    (l : list A) : Result (gmap string A) :=
  match l with
  | [] => Ok index
  | x :: l' =>
      match index !! key x with
      | Some _ => invalid_catalog ("duplicate " +:+ what +:+ " " +:+ key x)
      | None => index_loop key what (<[key x := x]> index) l'
      end
  end.

Definition index_endpoints (l : list ProviderEndpoint.t) : Result (gmap string ProviderEndpoint.t) :=
  index_loop ProviderEndpoint.provider_endpoint_id "provider endpoint" ∅ l.

Definition index_credentials (l : list UpstreamCredentialConfig.t)
    : Result (gmap string UpstreamCredentialConfig.t) :=
  index_loop UpstreamCredentialConfig.upstream_credential_id "upstream credential" ∅ l.

Definition index_targets (l : list ModelTargetConfig.t)
    : Result (gmap string ModelTargetConfig.t) :=
  index_loop ModelTargetConfig.model_target_id "model target" ∅ l.

Definition index_aliases (l : list ModelAliasConfig.t)
    : Result (gmap string ModelAliasConfig.t) :=
  index_loop ModelAliasConfig.model_alias_id "model alias" ∅ l.

Definition index_groups (l : list RoutingGroupConfig.t)
    : Result (gmap string RoutingGroupConfig.t) :=
  index_loop RoutingGroupConfig.routing_group_id "routing group" ∅ l.

Definition index_policies (l : list RoutePolicyConfig.t)
    : Result (gmap string RoutePolicyConfig.t) :=
  index_loop RoutePolicyConfig.route_policy_id "route policy" ∅ l.

Definition group_targets_by_group (l : list RoutingGroupTargetConfig.t)
    : gmap string (list RoutingGroupTargetConfig.t) :=
  fold_left (λ index gt,
    <[RoutingGroupTargetConfig.routing_group_id gt :=
        default [] (index !! RoutingGroupTargetConfig.routing_group_id gt) ++ [gt]]> index)
    l ∅.

(** ** Validation *)

(** What the gateway reads of a parsed [http::Uri]. *)
Module Uri.
Record t : Set := mk {
  scheme_str : option string;
  authority : option string;
  host : string; (* of the authority *)
  query : option string;
  path : string;
}.
End Uri.

(** The URI parser of the [http] crate: a parsed URI or an error message. *)
Class UriLibrary : Type := parse_uri : string → result string Uri.t.

Definition validate_endpoint `{UriLibrary} (endpoint : ProviderEndpoint.t) : Result unit :=
  match ProviderEndpoint.protocol_families endpoint with
  | [] =>
      invalid_catalog ("provider endpoint "
        +:+ ProviderEndpoint.provider_endpoint_id endpoint +:+ " has no protocol families")
  | _ =>
      match parse_uri (ProviderEndpoint.upstream_base_url endpoint) with
      | Err error =>
          Err (GatewayError.BadRequest ("provider endpoint "
            +:+ ProviderEndpoint.provider_endpoint_id endpoint
            +:+ " has invalid upstream_base_url: " +:+ error))
      | Ok uri =>
          if negb ((Uri.scheme_str uri ==? Some "http")
                   || (Uri.scheme_str uri ==? Some "https"))
             || (Uri.authority uri ==? None)
          then invalid_catalog ("provider endpoint "
                 +:+ ProviderEndpoint.provider_endpoint_id endpoint
                 +:+ " upstream_base_url must be absolute http or https")
          else Ok tt
      end
  end.

Definition validate_credential_kind (endpoint : ProviderEndpoint.t)
    (credential : UpstreamCredentialConfig.t) : Result unit :=
  let id := UpstreamCredentialConfig.upstream_credential_id credential in
  let kind := UpstreamCredentialConfig.credential_kind credential in
  if UpstreamCredentialConfig.secret_ref_id credential ==? "" then
    invalid_catalog ("upstream credential " +:+ id +:+ " has empty secret_ref_id")
  else if (kind ==? "codex_oauth") && (ProviderEndpoint.provider_kind endpoint !=? "codex") then
    invalid_catalog ("upstream credential " +:+ id
      +:+ " uses codex_oauth outside codex provider")
  else if ends_with "oauth" kind && (kind !=? "codex_oauth") then
    invalid_catalog ("upstream credential " +:+ id
      +:+ " uses unsupported generic upstream OAuth")
  else Ok tt.

Definition validate_endpoints `{UriLibrary} (endpoints : list ProviderEndpoint.t) : Result unit :=
  for_each validate_endpoint endpoints.

Definition validate_credentials (credentials : list UpstreamCredentialConfig.t)
    (endpoints : gmap string ProviderEndpoint.t) : Result unit :=
  for_each (λ credential,
    match endpoints !! UpstreamCredentialConfig.provider_endpoint_id credential with
    | None =>
        invalid_catalog ("upstream credential "
          +:+ UpstreamCredentialConfig.upstream_credential_id credential
          +:+ " references missing provider endpoint "
          +:+ UpstreamCredentialConfig.provider_endpoint_id credential)
    | Some endpoint => validate_credential_kind endpoint credential
    end) credentials.

Definition validate_target_endpoint (target : ModelTargetConfig.t)
    (endpoint : ProviderEndpoint.t) : Result unit :=
  if bool_decide (ModelTargetConfig.protocol_family target
                  ∈ ProviderEndpoint.protocol_families endpoint)
  then Ok tt
  else invalid_catalog ("model target " +:+ ModelTargetConfig.model_target_id target
         +:+ " protocol " +:+ ProtocolFamily.as_str (ModelTargetConfig.protocol_family target)
         +:+ " is not supported by provider endpoint "
         +:+ ProviderEndpoint.provider_endpoint_id endpoint).

Definition validate_target_credential (target : ModelTargetConfig.t)
    (credentials : gmap string UpstreamCredentialConfig.t) : Result unit :=
  match ModelTargetConfig.upstream_credential_id target with
  | None => Ok tt
  | Some credential_id =>
      match credentials !! credential_id with
      | None =>
          invalid_catalog ("model target " +:+ ModelTargetConfig.model_target_id target
            +:+ " references missing upstream credential " +:+ credential_id)
      | Some credential =>
          if UpstreamCredentialConfig.provider_endpoint_id credential
             !=? ModelTargetConfig.provider_endpoint_id target then
            invalid_catalog ("model target " +:+ ModelTargetConfig.model_target_id target
              +:+ " credential " +:+ credential_id +:+ " belongs to another endpoint")
          else if negb (CredentialStatus.is_usable (UpstreamCredentialConfig.status credential))
          then
            invalid_catalog ("model target " +:+ ModelTargetConfig.model_target_id target
              +:+ " references unusable upstream credential " +:+ credential_id)
          else Ok tt
      end
  end.

Definition validate_targets (targets : list ModelTargetConfig.t)
    (endpoints : gmap string ProviderEndpoint.t)
    (credentials : gmap string UpstreamCredentialConfig.t) : Result unit :=
  for_each (λ target,
    match endpoints !! ModelTargetConfig.provider_endpoint_id target with
    | None =>
        invalid_catalog ("model target " +:+ ModelTargetConfig.model_target_id target
          +:+ " references missing provider endpoint "
          +:+ ModelTargetConfig.provider_endpoint_id target)
    | Some endpoint =>
        validate_target_endpoint target endpoint;;
        validate_target_credential target credentials
    end) targets.

Definition validate_policies (policies : list RoutePolicyConfig.t)
    (groups : gmap string RoutingGroupConfig.t)
    (group_targets : gmap string (list RoutingGroupTargetConfig.t)) : Result unit :=
  for_each (λ policy,
    let id := RoutePolicyConfig.route_policy_id policy in
    let group_id := RoutePolicyConfig.routing_group_id policy in
    if match RoutePolicyConfig.sticky_ttl_seconds policy with
       | Some ttl => negb ((60 <=? ttl) && (ttl <=? 86400))%Z
       | None => false
       end
    then invalid_catalog ("route policy " +:+ id
           +:+ " sticky_ttl_seconds must be between 60 and 86400")
    else if negb (bool_decide (is_Some (groups !! group_id)))
    then invalid_catalog ("route policy " +:+ id
           +:+ " references missing routing group " +:+ group_id)
    else if negb (bool_decide (is_Some (group_targets !! group_id)))
    then invalid_catalog ("route policy " +:+ id
           +:+ " references empty routing group " +:+ group_id)
    else Ok tt) policies.

Definition validate_alias_policy (alias : ModelAliasConfig.t) (policy : RoutePolicyConfig.t)
    : Result unit :=
  if RoutePolicyConfig.model_alias_id policy !=? ModelAliasConfig.model_alias_id alias
  then invalid_catalog ("model alias " +:+ ModelAliasConfig.model_alias_id alias
         +:+ " route policy " +:+ RoutePolicyConfig.route_policy_id policy
         +:+ " points at another alias")
  else Ok tt.

Definition validate_alias_targets (alias : ModelAliasConfig.t) (policy : RoutePolicyConfig.t)
    (targets : gmap string ModelTargetConfig.t)
    (group_targets : gmap string (list RoutingGroupTargetConfig.t)) : Result unit :=
  for_each (λ group_target,
    match targets !! RoutingGroupTargetConfig.model_target_id group_target with
    | None =>
        invalid_catalog ("routing group target "
          +:+ RoutingGroupTargetConfig.routing_group_target_id group_target
          +:+ " references missing model target "
          +:+ RoutingGroupTargetConfig.model_target_id group_target)
    | Some target =>
        if ModelTargetConfig.protocol_family target
           !=? ModelAliasConfig.protocol_family alias
        then invalid_catalog ("model alias " +:+ ModelAliasConfig.model_alias_id alias
               +:+ " protocol "
               +:+ ProtocolFamily.as_str (ModelAliasConfig.protocol_family alias)
               +:+ " does not match target " +:+ ModelTargetConfig.model_target_id target
               +:+ " protocol "
               +:+ ProtocolFamily.as_str (ModelTargetConfig.protocol_family target))
        else Ok tt
    end)
    (default [] (group_targets !! RoutePolicyConfig.routing_group_id policy)).

Definition validate_aliases (aliases : list ModelAliasConfig.t)
    (policies : gmap string RoutePolicyConfig.t)
    (targets : gmap string ModelTargetConfig.t)
    (group_targets : gmap string (list RoutingGroupTargetConfig.t)) : Result unit :=
  for_each (λ alias,
    match policies !! ModelAliasConfig.route_policy_id alias with
    | None =>
        invalid_catalog ("model alias " +:+ ModelAliasConfig.model_alias_id alias
          +:+ " references missing route policy "
          +:+ ModelAliasConfig.route_policy_id alias)
    | Some policy =>
        validate_alias_policy alias policy;;
        validate_alias_targets alias policy targets group_targets
    end) aliases.

Definition validate_provider_grant_closure_mode (g : ProviderGrantConfig.t) : Result unit :=
  if (ProviderGrantConfig.effect g ==? ProviderGrantEffect.Allow)
     && (ProviderGrantConfig.closure_mode g ==? ProviderGrantClosureMode.DenyDescendants)
  then invalid_catalog ("provider grant " +:+ ProviderGrantConfig.provider_grant_id g
         +:+ " cannot allow with deny_descendants")
  else if (ProviderGrantConfig.effect g ==? ProviderGrantEffect.Deny)
     && (ProviderGrantConfig.closure_mode g ==? ProviderGrantClosureMode.IncludeDescendants)
  then invalid_catalog ("provider grant " +:+ ProviderGrantConfig.provider_grant_id g
         +:+ " cannot deny with include_descendants")
  else Ok tt.

Definition validate_legacy_provider_grant (g : ProviderGrantConfig.t)
    (targets : gmap string ModelTargetConfig.t)
    (endpoints : gmap string ProviderEndpoint.t) : Result unit :=
  let id := ProviderGrantConfig.provider_grant_id g in
  match ProviderGrantConfig.provider_endpoint_id g with
  | None => invalid_catalog ("provider grant " +:+ id +:+ " missing provider_endpoint_id")
  | Some endpoint_id =>
      if negb (bool_decide (is_Some (endpoints !! endpoint_id)))
      then invalid_catalog ("provider grant " +:+ id
             +:+ " references missing provider endpoint " +:+ endpoint_id)
      else
        match ProviderGrantConfig.model_target_id g with
        | None => Ok tt
        | Some target_id =>
            match targets !! target_id with
            | None => invalid_catalog ("provider grant " +:+ id
                        +:+ " references missing model target " +:+ target_id)
            | Some target =>
                if ModelTargetConfig.provider_endpoint_id target !=? endpoint_id
                then invalid_catalog ("provider grant " +:+ id +:+ " target " +:+ target_id
                       +:+ " belongs to another endpoint")
                else Ok tt
            end
        end
  end.

Definition validate_spec_provider_grant (g : ProviderGrantConfig.t)
    (aliases : gmap string ModelAliasConfig.t)
    (policies : gmap string RoutePolicyConfig.t)
    (groups : gmap string RoutingGroupConfig.t)
    (targets : gmap string ModelTargetConfig.t)
    (endpoints : gmap string ProviderEndpoint.t) : Result unit :=
  let id := ProviderGrantConfig.provider_grant_id g in
  let missing what resource_id :=
    invalid_catalog ("provider grant " +:+ id +:+ " references missing " +:+ what
                     +:+ " " +:+ resource_id) in
  if (grant_scope_kind g ==? None) || (grant_scope_id g ==? None)
  then invalid_catalog ("provider grant " +:+ id +:+ " missing scope_kind or scope_id")
  else
  match ProviderGrantConfig.resource_kind g with
  | None => invalid_catalog ("provider grant " +:+ id +:+ " missing resource_kind")
  | Some resource_kind =>
  match ProviderGrantConfig.resource_id g with
  | None => invalid_catalog ("provider grant " +:+ id +:+ " missing resource_id")
  | Some resource_id =>
      validate_provider_grant_closure_mode g;;
      match resource_kind with
      | ProviderGrantResourceKind.ModelAlias =>
          if bool_decide (is_Some (aliases !! resource_id)) then Ok tt
          else missing "model alias" resource_id
      | ProviderGrantResourceKind.RoutePolicy =>
          if bool_decide (is_Some (policies !! resource_id)) then Ok tt
          else missing "route policy" resource_id
      | ProviderGrantResourceKind.RoutingGroup =>
          if bool_decide (is_Some (groups !! resource_id)) then Ok tt
          else missing "routing group" resource_id
      | ProviderGrantResourceKind.ModelTarget =>
          if bool_decide (is_Some (targets !! resource_id)) then Ok tt
          else missing "model target" resource_id
      | ProviderGrantResourceKind.ProviderEndpoint =>
          if bool_decide (is_Some (endpoints !! resource_id)) then Ok tt
          else missing "provider endpoint" resource_id
      | ProviderGrantResourceKind.PricingSku => Ok tt
      end
  end
  end.

Definition validate_provider_grants (grants : list ProviderGrantConfig.t)
    (aliases : gmap string ModelAliasConfig.t)
    (policies : gmap string RoutePolicyConfig.t)
    (groups : gmap string RoutingGroupConfig.t)
    (targets : gmap string ModelTargetConfig.t)
    (endpoints : gmap string ProviderEndpoint.t) : Result unit :=
  for_each (λ g,
    if ProviderGrantConfig.is_spec_shape g
    then validate_spec_provider_grant g aliases policies groups targets endpoints
    else validate_legacy_provider_grant g targets endpoints) grants.

Definition validate `{UriLibrary} (self : GatewayCatalogSnapshot.t) : Result unit :=
  endpoints ← index_endpoints (GatewayCatalogSnapshot.provider_endpoints self);
  credentials ← index_credentials (GatewayCatalogSnapshot.upstream_credentials self);
  targets ← index_targets (GatewayCatalogSnapshot.model_targets self);
  aliases ← index_aliases (GatewayCatalogSnapshot.model_aliases self);
  groups ← index_groups (GatewayCatalogSnapshot.routing_groups self);
  let group_targets :=
    group_targets_by_group (GatewayCatalogSnapshot.routing_group_targets self) in
  policies ← index_policies (GatewayCatalogSnapshot.route_policies self);
  validate_endpoints (GatewayCatalogSnapshot.provider_endpoints self);;
  validate_credentials (GatewayCatalogSnapshot.upstream_credentials self) endpoints;;
  validate_targets (GatewayCatalogSnapshot.model_targets self) endpoints credentials;;
  validate_policies (GatewayCatalogSnapshot.route_policies self) groups group_targets;;
  validate_provider_grants (GatewayCatalogSnapshot.provider_grants self)
    aliases policies groups targets endpoints;;
  validate_aliases (GatewayCatalogSnapshot.model_aliases self) policies targets group_targets.

(** ** Parsing a payload *)

(** The part of [serde_json] used here: object lookup, and the derived
    deserializer of the snapshot with its error text. *)
Class CatalogJson (Value : Type) : Type := {
  json_get : Value → string → option Value;
  snapshot_from_value : Value → result string GatewayCatalogSnapshot.t;
}.

Definition catalog_keys : list string :=
  ["provider_endpoints"; "upstream_credentials"; "model_targets"; "model_aliases";
   "routing_groups"; "routing_group_targets"; "route_policies"; "provider_grants"].

Definition payload_has_catalog {Value} `{CatalogJson Value} (payload : Value) : bool :=
  existsb (λ key, ProviderGrantConfig.is_some (json_get payload key)) catalog_keys.

Definition from_payload {Value} `{CatalogJson Value} `{UriLibrary} (payload : Value)
    : Result (option GatewayCatalogSnapshot.t) :=
  if negb (payload_has_catalog payload) then Ok None
  else
    match snapshot_from_value payload with
    | Err error =>
        Err (GatewayError.BadRequest ("invalid catalog snapshot payload: " +:+ error))
    | Ok catalog => validate catalog;; Ok (Some catalog)
    end.

(** ** Lemmas on indexes *)

Lemma index_loop_ok {A} (key : A → string) what l index m :
  index_loop key what index l = Ok m →
  NoDup (key <$> l) ∧ (∀ x, x ∈ l → index !! key x = None) ∧
  (∀ k x, m !! k = Some x ↔ index !! k = Some x ∨ x ∈ l ∧ key x = k).
Proof.
  revert index. induction l as [|x l IH]; intros index; cbn [index_loop].
  - intros [= <-]. split_and!; [constructor|set_solver|set_solver].
  - destruct (index !! key x) eqn:Hx; [done|]. intros Hl.
    destruct (IH _ Hl) as (Hnd & Hfresh & Hm). rewrite fmap_cons.
    assert (∀ y, y ∈ l → key y ≠ key x ∧ index !! key y = None) as Hy.
    { intros y Hy. specialize (Hfresh y Hy).
      rewrite lookup_insert_None in Hfresh. naive_solver. }
    split_and!.
    + constructor; [|done]. rewrite list_elem_of_fmap. intros (y & E & Hin). by apply Hy in Hin as [[]].
    + intros y [->|Hin]%elem_of_cons; [done|by apply Hy].
    + intros k y. rewrite Hm, lookup_insert_Some. set_solver.
Qed.

Lemma index_loop_complete {A} (key : A → string) what l index :
  NoDup (key <$> l) → (∀ x, x ∈ l → index !! key x = None) →
  is_ok (index_loop key what index l) = true.
Proof.
  revert index. induction l as [|x l IH]; intros index; cbn [index_loop]; [done|].
  rewrite fmap_cons, NoDup_cons. intros [Hx Hnd] Hfresh.
  rewrite (Hfresh x) by set_solver. apply IH; [done|]. intros y Hy.
  apply lookup_insert_None. split; [set_solver|].
  intros E. apply Hx. rewrite E. by apply list_elem_of_fmap_2.
Qed.

(** What the clients of an index use: it holds exactly the listed elements. *)
Definition indexes {A} (key : A → string) (l : list A) (m : gmap string A) : Prop :=
  ∀ k x, m !! k = Some x ↔ x ∈ l ∧ key x = k.

Lemma index_spec {A} (key : A → string) what l :
  (∃ m, index_loop key what ∅ l = Ok m ∧ NoDup (key <$> l) ∧ indexes key l m) ∨
  (¬ NoDup (key <$> l) ∧
   ∃ x, x ∈ l ∧ index_loop key what ∅ l
                = Err (GatewayError.BadRequest ("duplicate " +:+ what +:+ " " +:+ key x))).
Proof.
  destruct (index_loop key what ∅ l) as [m|e] eqn:E.
  - left. exists m. destruct (index_loop_ok _ _ _ _ _ E) as (? & _ & Hm).
    split_and!; [done..|]. intros k x. rewrite Hm, lookup_empty. naive_solver.
  - right. split.
    + intros Hnd. pose proof (index_loop_complete key what l ∅ Hnd (λ _ _, lookup_empty _)) as H.
      by rewrite E in H.
    + clear -E. revert E. generalize (∅ : gmap string A). induction l as [|x l IH]; simpl; [done|].
      intros m. destruct (m !! key x); [intros [= <-]; set_solver|].
      intros (y & Hy & ?)%IH. exists y. set_solver.
Qed.

Lemma indexes_get {A} (key : A → string) l m k :
  indexes key l m → (∃ x, x ∈ l ∧ key x = k) ↔ is_Some (m !! k).
Proof.
  intros H. split.
  - intros (x & Hx). exists x. by apply H.
  - intros (x & Hx). exists x. by apply H.
Qed.

Lemma group_targets_by_group_lookup l g :
  group_targets_by_group l !! g =
  match List.filter (λ gt, RoutingGroupTargetConfig.routing_group_id gt ==? g) l with
  | [] => None
  | gts => Some gts
  end.
Proof.
  unfold group_targets_by_group. induction l as [|gt l IH] using rev_ind; [done|].
  rewrite fold_left_app, List.filter_app. simpl.
  case_bool_decide as E; [subst g|].
  - rewrite lookup_insert_eq, IH. by destruct (List.filter _ l).
  - rewrite lookup_insert_ne, IH by done. by rewrite (right_id_L [] (++)).
Qed.

(** ** The contract of validation

    [closed_catalog c] states, over the lists of the snapshot and without
    indexes or error messages, what a snapshot that may become active
    satisfies. *)

Section closed.
Context `{UriLibrary}.

Definition endpoint_ok (e : ProviderEndpoint.t) : Prop :=
  ProviderEndpoint.protocol_families e ≠ [] ∧
  ∃ uri, parse_uri (ProviderEndpoint.upstream_base_url e) = Ok uri ∧
    (Uri.scheme_str uri = Some "http" ∨ Uri.scheme_str uri = Some "https") ∧
    Uri.authority uri ≠ None.

Definition credential_kind_ok (e : ProviderEndpoint.t) (cr : UpstreamCredentialConfig.t) : Prop :=
  UpstreamCredentialConfig.secret_ref_id cr ≠ "" ∧
  (UpstreamCredentialConfig.credential_kind cr = "codex_oauth" →
   ProviderEndpoint.provider_kind e = "codex") ∧
  (ends_with "oauth" (UpstreamCredentialConfig.credential_kind cr) = true →
   UpstreamCredentialConfig.credential_kind cr = "codex_oauth").

Definition credential_ok (c : GatewayCatalogSnapshot.t) (cr : UpstreamCredentialConfig.t) : Prop :=
  ∃ e, e ∈ GatewayCatalogSnapshot.provider_endpoints c ∧
    ProviderEndpoint.provider_endpoint_id e = UpstreamCredentialConfig.provider_endpoint_id cr ∧
    credential_kind_ok e cr.

Definition target_credential_ok (c : GatewayCatalogSnapshot.t) (t : ModelTargetConfig.t) : Prop :=
  ∀ id, ModelTargetConfig.upstream_credential_id t = Some id →
  ∃ cr, cr ∈ GatewayCatalogSnapshot.upstream_credentials c ∧
    UpstreamCredentialConfig.upstream_credential_id cr = id ∧
    UpstreamCredentialConfig.provider_endpoint_id cr = ModelTargetConfig.provider_endpoint_id t ∧
    CredentialStatus.is_usable (UpstreamCredentialConfig.status cr) = true.

Definition target_ok (c : GatewayCatalogSnapshot.t) (t : ModelTargetConfig.t) : Prop :=
  (∃ e, e ∈ GatewayCatalogSnapshot.provider_endpoints c ∧
    ProviderEndpoint.provider_endpoint_id e = ModelTargetConfig.provider_endpoint_id t ∧
    ModelTargetConfig.protocol_family t ∈ ProviderEndpoint.protocol_families e) ∧
  target_credential_ok c t.

Definition policy_ok (c : GatewayCatalogSnapshot.t) (p : RoutePolicyConfig.t) : Prop :=
  (∀ ttl, RoutePolicyConfig.sticky_ttl_seconds p = Some ttl → (60 ≤ ttl ≤ 86400)%Z) ∧
  (∃ g, g ∈ GatewayCatalogSnapshot.routing_groups c ∧
    RoutingGroupConfig.routing_group_id g = RoutePolicyConfig.routing_group_id p) ∧
  (∃ gt, gt ∈ GatewayCatalogSnapshot.routing_group_targets c ∧
    RoutingGroupTargetConfig.routing_group_id gt = RoutePolicyConfig.routing_group_id p).

Definition alias_ok (c : GatewayCatalogSnapshot.t) (a : ModelAliasConfig.t) : Prop :=
  ∃ p, p ∈ GatewayCatalogSnapshot.route_policies c ∧
    RoutePolicyConfig.route_policy_id p = ModelAliasConfig.route_policy_id a ∧
    RoutePolicyConfig.model_alias_id p = ModelAliasConfig.model_alias_id a ∧
    ∀ gt, gt ∈ GatewayCatalogSnapshot.routing_group_targets c →
      RoutingGroupTargetConfig.routing_group_id gt = RoutePolicyConfig.routing_group_id p →
      ∃ t, t ∈ GatewayCatalogSnapshot.model_targets c ∧
        ModelTargetConfig.model_target_id t = RoutingGroupTargetConfig.model_target_id gt ∧
        ModelTargetConfig.protocol_family t = ModelAliasConfig.protocol_family a.

Definition legacy_grant_ok (c : GatewayCatalogSnapshot.t) (g : ProviderGrantConfig.t) : Prop :=
  ∃ e, e ∈ GatewayCatalogSnapshot.provider_endpoints c ∧
    ProviderGrantConfig.provider_endpoint_id g = Some (ProviderEndpoint.provider_endpoint_id e) ∧
    ∀ id, ProviderGrantConfig.model_target_id g = Some id →
    ∃ t, t ∈ GatewayCatalogSnapshot.model_targets c ∧ ModelTargetConfig.model_target_id t = id ∧
      ModelTargetConfig.provider_endpoint_id t = ProviderEndpoint.provider_endpoint_id e.

(** The resource a spec-shaped grant names exists; pricing SKUs live outside
    the catalog and are not checked. *)
Definition grant_resource_ok (c : GatewayCatalogSnapshot.t)
    (kind : ProviderGrantResourceKind.t) (id : string) : Prop :=
  match kind with
  | ProviderGrantResourceKind.ModelAlias =>
      ∃ x, x ∈ GatewayCatalogSnapshot.model_aliases c ∧ ModelAliasConfig.model_alias_id x = id
  | ProviderGrantResourceKind.RoutePolicy =>
      ∃ x, x ∈ GatewayCatalogSnapshot.route_policies c ∧ RoutePolicyConfig.route_policy_id x = id
  | ProviderGrantResourceKind.RoutingGroup =>
      ∃ x, x ∈ GatewayCatalogSnapshot.routing_groups c ∧ RoutingGroupConfig.routing_group_id x = id
  | ProviderGrantResourceKind.ModelTarget =>
      ∃ x, x ∈ GatewayCatalogSnapshot.model_targets c ∧ ModelTargetConfig.model_target_id x = id
  | ProviderGrantResourceKind.ProviderEndpoint =>
      ∃ x, x ∈ GatewayCatalogSnapshot.provider_endpoints c ∧
           ProviderEndpoint.provider_endpoint_id x = id
  | ProviderGrantResourceKind.PricingSku => True
  end.

Definition spec_grant_ok (c : GatewayCatalogSnapshot.t) (g : ProviderGrantConfig.t) : Prop :=
  grant_scope_kind g ≠ None ∧ grant_scope_id g ≠ None ∧
  (∃ kind id, ProviderGrantConfig.resource_kind g = Some kind ∧
    ProviderGrantConfig.resource_id g = Some id ∧ grant_resource_ok c kind id) ∧
  match ProviderGrantConfig.closure_mode g with
  | ProviderGrantClosureMode.SelfOnly => True
  | ProviderGrantClosureMode.IncludeDescendants =>
      ProviderGrantConfig.effect g = ProviderGrantEffect.Allow
  | ProviderGrantClosureMode.DenyDescendants =>
      ProviderGrantConfig.effect g = ProviderGrantEffect.Deny
  end.

Definition grant_ok (c : GatewayCatalogSnapshot.t) (g : ProviderGrantConfig.t) : Prop :=
  if ProviderGrantConfig.is_spec_shape g then spec_grant_ok c g else legacy_grant_ok c g.

Record unique_ids (c : GatewayCatalogSnapshot.t) : Prop := {
  endpoint_ids :
    NoDup (ProviderEndpoint.provider_endpoint_id <$> GatewayCatalogSnapshot.provider_endpoints c);
  credential_ids :
    NoDup (UpstreamCredentialConfig.upstream_credential_id
             <$> GatewayCatalogSnapshot.upstream_credentials c);
  target_ids :
    NoDup (ModelTargetConfig.model_target_id <$> GatewayCatalogSnapshot.model_targets c);
  alias_ids :
    NoDup (ModelAliasConfig.model_alias_id <$> GatewayCatalogSnapshot.model_aliases c);
  group_ids :
    NoDup (RoutingGroupConfig.routing_group_id <$> GatewayCatalogSnapshot.routing_groups c);
  policy_ids :
    NoDup (RoutePolicyConfig.route_policy_id <$> GatewayCatalogSnapshot.route_policies c);
}.

Record closed_catalog (c : GatewayCatalogSnapshot.t) : Prop := {
  closed_ids : unique_ids c;
  closed_endpoints : ∀ e, e ∈ GatewayCatalogSnapshot.provider_endpoints c → endpoint_ok e;
  closed_credentials :
    ∀ cr, cr ∈ GatewayCatalogSnapshot.upstream_credentials c → credential_ok c cr;
  closed_targets : ∀ t, t ∈ GatewayCatalogSnapshot.model_targets c → target_ok c t;
  closed_policies : ∀ p, p ∈ GatewayCatalogSnapshot.route_policies c → policy_ok c p;
  closed_grants : ∀ g, g ∈ GatewayCatalogSnapshot.provider_grants c → grant_ok c g;
  closed_aliases : ∀ a, a ∈ GatewayCatalogSnapshot.model_aliases c → alias_ok c a;
}.
End closed.

(** ** Each validator checks its part of the contract *)

Section validators.
Context `{UriLibrary}.
Context (c : GatewayCatalogSnapshot.t).

Let endpoints_of := indexes ProviderEndpoint.provider_endpoint_id
  (GatewayCatalogSnapshot.provider_endpoints c).
Let credentials_of := indexes UpstreamCredentialConfig.upstream_credential_id
  (GatewayCatalogSnapshot.upstream_credentials c).
Let targets_of := indexes ModelTargetConfig.model_target_id
  (GatewayCatalogSnapshot.model_targets c).
Let aliases_of := indexes ModelAliasConfig.model_alias_id
  (GatewayCatalogSnapshot.model_aliases c).
Let groups_of := indexes RoutingGroupConfig.routing_group_id
  (GatewayCatalogSnapshot.routing_groups c).
Let policies_of := indexes RoutePolicyConfig.route_policy_id
  (GatewayCatalogSnapshot.route_policies c).

(** A lookup in an index, as membership in the list. *)
Lemma index_match {A} (key : A → string) l m k (P : A → Result unit) err (Q : A → Prop) :
  indexes key l m → (∀ x, x ∈ l → P x = Ok tt ↔ Q x) →
  (match m !! k with None => Err err | Some x => P x end) = Ok tt ↔
  ∃ x, x ∈ l ∧ key x = k ∧ Q x.
Proof.
  intros Hm HP. destruct (m !! k) as [x|] eqn:E.
  - apply Hm in E as Hx. destruct Hx as [Hx Hk]. rewrite HP by done. split; [by eauto|].
    intros (y & Hy & Hky & HQ). assert (m !! k = Some y) by (by apply Hm). naive_solver.
  - split; [done|]. intros (y & Hy & Hky & _). assert (m !! k = Some y) by (by apply Hm). congruence.
Qed.

Lemma validate_endpoint_iff e : validate_endpoint e = Ok tt ↔ endpoint_ok e.
Proof.
  unfold validate_endpoint, endpoint_ok, invalid_catalog.
  destruct (ProviderEndpoint.protocol_families e); [naive_solver|].
  destruct (parse_uri _) as [uri|err]; [|naive_solver].
  repeat case_bool_decide; naive_solver.
Qed.

Lemma validate_credential_kind_iff e cr :
  validate_credential_kind e cr = Ok tt ↔ credential_kind_ok e cr.
Proof.
  unfold validate_credential_kind, credential_kind_ok, invalid_catalog.
  destruct (ends_with _ _); repeat case_bool_decide; simpl; naive_solver.
Qed.

Lemma validate_credentials_iff m : endpoints_of m →
  validate_credentials (GatewayCatalogSnapshot.upstream_credentials c) m = Ok tt ↔
  ∀ cr, cr ∈ GatewayCatalogSnapshot.upstream_credentials c → credential_ok c cr.
Proof.
  intros Hm. unfold validate_credentials. rewrite for_each_ok. apply forall_proper; intros cr.
  apply imp_iff_compat_l, index_match; [done|]. intros. apply validate_credential_kind_iff.
Qed.

Lemma validate_target_endpoint_iff t e :
  validate_target_endpoint t e = Ok tt ↔
  ModelTargetConfig.protocol_family t ∈ ProviderEndpoint.protocol_families e.
Proof. unfold validate_target_endpoint, invalid_catalog. case_bool_decide; naive_solver. Qed.

Lemma validate_target_credential_iff t m : credentials_of m →
  validate_target_credential t m = Ok tt ↔ target_credential_ok c t.
Proof.
  intros Hm. unfold validate_target_credential, target_credential_ok, invalid_catalog.
  destruct (ModelTargetConfig.upstream_credential_id t) as [id|]; [|naive_solver].
  rewrite (index_match UpstreamCredentialConfig.upstream_credential_id _ m id _ _
    (λ cr, UpstreamCredentialConfig.provider_endpoint_id cr
             = ModelTargetConfig.provider_endpoint_id t ∧
           CredentialStatus.is_usable (UpstreamCredentialConfig.status cr) = true) Hm);
    [naive_solver|].
  intros cr _. destruct (CredentialStatus.is_usable _); case_bool_decide; naive_solver.
Qed.

Lemma seq_ok {E A} (m : result E unit) (k : result E A) (a : A) :
  (m;; k) = Ok a ↔ m = Ok tt ∧ k = Ok a.
Proof. rewrite bind_ok. split; [intros ([] & ? & ?); eauto|naive_solver]. Qed.

Lemma validate_targets_iff me mc : endpoints_of me → credentials_of mc →
  validate_targets (GatewayCatalogSnapshot.model_targets c) me mc = Ok tt ↔
  ∀ t, t ∈ GatewayCatalogSnapshot.model_targets c → target_ok c t.
Proof.
  intros Hme Hmc. unfold validate_targets, invalid_catalog. rewrite for_each_ok.
  apply forall_proper; intros t. apply imp_iff_compat_l. unfold target_ok.
  rewrite (index_match _ _ _ _
    (λ e, validate_target_endpoint t e;; validate_target_credential t mc) _
    (λ e, ModelTargetConfig.protocol_family t ∈ ProviderEndpoint.protocol_families e ∧
          target_credential_ok c t) Hme).
  - naive_solver.
  - intros e _. by rewrite seq_ok, validate_target_endpoint_iff, validate_target_credential_iff.
Qed.

Lemma group_targets_is_some id :
  is_Some (group_targets_by_group (GatewayCatalogSnapshot.routing_group_targets c) !! id) ↔
  ∃ gt, gt ∈ GatewayCatalogSnapshot.routing_group_targets c ∧
    RoutingGroupTargetConfig.routing_group_id gt = id.
Proof.
  rewrite group_targets_by_group_lookup.
  transitivity (∃ gt, gt ∈ List.filter (λ gt, RoutingGroupTargetConfig.routing_group_id gt ==? id)
    (GatewayCatalogSnapshot.routing_group_targets c)).
  - destruct (List.filter _ _) as [|gt l]; [|split; [exists gt; set_solver|eauto]].
    split; [by intros []|intros [gt Hgt]; set_solver].
  - setoid_rewrite filter_iff. by setoid_rewrite bool_decide_eq_true.
Qed.

Lemma group_targets_elem id gt :
  gt ∈ default []
    (group_targets_by_group (GatewayCatalogSnapshot.routing_group_targets c) !! id) ↔
  gt ∈ GatewayCatalogSnapshot.routing_group_targets c ∧
  RoutingGroupTargetConfig.routing_group_id gt = id.
Proof.
  rewrite group_targets_by_group_lookup, <- (bool_decide_eq_true (_ = id)).
  rewrite <- (filter_iff (λ gt, RoutingGroupTargetConfig.routing_group_id gt ==? id)).
  by destruct (List.filter _ _).
Qed.

Lemma validate_policies_iff mg : groups_of mg →
  validate_policies (GatewayCatalogSnapshot.route_policies c) mg
    (group_targets_by_group (GatewayCatalogSnapshot.routing_group_targets c)) = Ok tt ↔
  ∀ p, p ∈ GatewayCatalogSnapshot.route_policies c → policy_ok c p.
Proof.
  intros Hmg. unfold validate_policies, invalid_catalog. rewrite for_each_ok.
  apply forall_proper; intros p. apply imp_iff_compat_l. unfold policy_ok.
  rewrite (indexes_get _ _ _ (RoutePolicyConfig.routing_group_id p) Hmg), <- group_targets_is_some.
  destruct (RoutePolicyConfig.sticky_ttl_seconds p) as [ttl|].
  - destruct (60 <=? ttl)%Z eqn:E1, (ttl <=? 86400)%Z eqn:E2; btrue; simpl;
      repeat case_bool_decide; simpl; naive_solver lia.
  - repeat case_bool_decide; simpl; naive_solver.
Qed.

Lemma validate_alias_targets_iff a p mt : targets_of mt →
  validate_alias_targets a p mt
    (group_targets_by_group (GatewayCatalogSnapshot.routing_group_targets c)) = Ok tt ↔
  ∀ gt, gt ∈ GatewayCatalogSnapshot.routing_group_targets c →
    RoutingGroupTargetConfig.routing_group_id gt = RoutePolicyConfig.routing_group_id p →
    ∃ t, t ∈ GatewayCatalogSnapshot.model_targets c ∧
      ModelTargetConfig.model_target_id t = RoutingGroupTargetConfig.model_target_id gt ∧
      ModelTargetConfig.protocol_family t = ModelAliasConfig.protocol_family a.
Proof.
  intros Hmt. unfold validate_alias_targets, invalid_catalog. rewrite for_each_ok. apply forall_proper; intros gt.
  rewrite group_targets_elem.
  rewrite (index_match ModelTargetConfig.model_target_id _ mt _ _ _ (λ t,
    ModelTargetConfig.protocol_family t = ModelAliasConfig.protocol_family a) Hmt).
  - naive_solver.
  - intros t _. case_bool_decide; naive_solver.
Qed.

Lemma validate_aliases_iff mp mt : policies_of mp → targets_of mt →
  validate_aliases (GatewayCatalogSnapshot.model_aliases c) mp mt
    (group_targets_by_group (GatewayCatalogSnapshot.routing_group_targets c)) = Ok tt ↔
  ∀ a, a ∈ GatewayCatalogSnapshot.model_aliases c → alias_ok c a.
Proof.
  intros Hmp Hmt. unfold validate_aliases. rewrite for_each_ok. apply forall_proper; intros a.
  apply imp_iff_compat_l. apply index_match; [done|]. intros p _.
  rewrite seq_ok, (validate_alias_targets_iff a p mt Hmt).
  unfold validate_alias_policy. case_bool_decide; naive_solver.
Qed.

Lemma validate_legacy_grant_iff g mt me : targets_of mt → endpoints_of me →
  validate_legacy_provider_grant g mt me = Ok tt ↔ legacy_grant_ok c g.
Proof.
  intros Hmt Hme. unfold validate_legacy_provider_grant, legacy_grant_ok, invalid_catalog.
  destruct (ProviderGrantConfig.provider_endpoint_id g) as [eid|]; [|naive_solver].
  case_bool_decide as Hs; rewrite <- (indexes_get _ _ _ eid Hme) in Hs; simpl;
    [|split; [done|naive_solver]].
  destruct Hs as (e & He & <-).
  destruct (ProviderGrantConfig.model_target_id g) as [tid|]; [|naive_solver].
  rewrite (index_match _ _ _ tid _ _ (λ t, ModelTargetConfig.provider_endpoint_id t
    = ProviderEndpoint.provider_endpoint_id e) Hmt).
  - split.
    + intros Ht. exists e. split_and!; [done..|]. by intros id [= <-].
    + intros (e' & _ & [= ->] & Ht). by apply Ht.
  - intros t _. case_bool_decide; naive_solver.
Qed.

Lemma validate_closure_mode_iff g :
  validate_provider_grant_closure_mode g = Ok tt ↔
  match ProviderGrantConfig.closure_mode g with
  | ProviderGrantClosureMode.SelfOnly => True
  | ProviderGrantClosureMode.IncludeDescendants =>
      ProviderGrantConfig.effect g = ProviderGrantEffect.Allow
  | ProviderGrantClosureMode.DenyDescendants =>
      ProviderGrantConfig.effect g = ProviderGrantEffect.Deny
  end.
Proof.
  unfold validate_provider_grant_closure_mode.
  by destruct (ProviderGrantConfig.effect g), (ProviderGrantConfig.closure_mode g).
Qed.

Lemma present_iff {A} (key : A → string) l m k err : indexes key l m →
  (if bool_decide (is_Some (m !! k)) then Ok tt else Err err : Result unit) = Ok tt ↔
  ∃ x, x ∈ l ∧ key x = k.
Proof. intros Hm. rewrite (indexes_get _ _ _ k Hm). case_bool_decide; naive_solver. Qed.

Lemma validate_spec_grant_iff g ma mp mg mt me :
  aliases_of ma → policies_of mp → groups_of mg → targets_of mt → endpoints_of me →
  validate_spec_provider_grant g ma mp mg mt me = Ok tt ↔ spec_grant_ok c g.
Proof.
  intros Hma Hmp Hmg Hmt Hme.
  unfold validate_spec_provider_grant, spec_grant_ok, invalid_catalog.
  destruct (grant_scope_kind g), (grant_scope_id g); simpl; [|naive_solver..].
  destruct (ProviderGrantConfig.resource_kind g) as [kind|]; [|naive_solver].
  destruct (ProviderGrantConfig.resource_id g) as [id|]; [|naive_solver].
  rewrite seq_ok, validate_closure_mode_iff.
  transitivity (grant_resource_ok c kind id ∧
    match ProviderGrantConfig.closure_mode g with
    | ProviderGrantClosureMode.SelfOnly => True
    | ProviderGrantClosureMode.IncludeDescendants =>
        ProviderGrantConfig.effect g = ProviderGrantEffect.Allow
    | ProviderGrantClosureMode.DenyDescendants =>
        ProviderGrantConfig.effect g = ProviderGrantEffect.Deny
    end); [|naive_solver].
  rewrite (Logic.and_comm (grant_resource_ok _ _ _)). apply and_iff_compat_l.
  destruct kind; simpl; [by apply present_iff..|naive_solver].
Qed.

Lemma validate_provider_grants_iff ma mp mg mt me :
  aliases_of ma → policies_of mp → groups_of mg → targets_of mt → endpoints_of me →
  validate_provider_grants (GatewayCatalogSnapshot.provider_grants c) ma mp mg mt me = Ok tt ↔
  ∀ g, g ∈ GatewayCatalogSnapshot.provider_grants c → grant_ok c g.
Proof.
  intros. unfold validate_provider_grants, grant_ok. rewrite for_each_ok.
  apply forall_proper; intros g. apply imp_iff_compat_l.
  destruct (ProviderGrantConfig.is_spec_shape g);
    [by apply validate_spec_grant_iff|by apply validate_legacy_grant_iff].
Qed.

(** Validation of a snapshot whose ids are unique is the conjunction of the
    validators on its indexes. *)
Lemma validate_unique : unique_ids c →
  validate c = Ok tt ↔ closed_catalog c.
Proof.
  intros U. unfold validate.
  destruct (index_spec ProviderEndpoint.provider_endpoint_id "provider endpoint"
    (GatewayCatalogSnapshot.provider_endpoints c)) as [(me & Ee & _ & Ie)|[[] _]]; [|apply U].
  destruct (index_spec UpstreamCredentialConfig.upstream_credential_id "upstream credential"
    (GatewayCatalogSnapshot.upstream_credentials c)) as [(mc & Ec & _ & Ic)|[[] _]]; [|apply U].
  destruct (index_spec ModelTargetConfig.model_target_id "model target"
    (GatewayCatalogSnapshot.model_targets c)) as [(mt & Et & _ & It)|[[] _]]; [|apply U].
  destruct (index_spec ModelAliasConfig.model_alias_id "model alias"
    (GatewayCatalogSnapshot.model_aliases c)) as [(ma & Ea & _ & Ia)|[[] _]]; [|apply U].
  destruct (index_spec RoutingGroupConfig.routing_group_id "routing group"
    (GatewayCatalogSnapshot.routing_groups c)) as [(mg & Eg & _ & Ig)|[[] _]]; [|apply U].
  destruct (index_spec RoutePolicyConfig.route_policy_id "route policy"
    (GatewayCatalogSnapshot.route_policies c)) as [(mp & Ep & _ & Ip)|[[] _]]; [|apply U].
  unfold index_endpoints, index_credentials, index_targets, index_aliases, index_groups,
    index_policies. rewrite Ee, Ec, Et, Ea, Eg, Ep. cbn [mbind result_bind].
  fold (@mbind (result GatewayError.t) _). unfold validate_endpoints.
  rewrite !seq_ok, for_each_ok, validate_credentials_iff, validate_targets_iff,
    validate_policies_iff, validate_provider_grants_iff, validate_aliases_iff by done.
  setoid_rewrite validate_endpoint_iff.
  split; [intros (?&?&?&?&?&?); by constructor|intros []; by split_and!].
Qed.
End validators.

#[export] Hint Resolve endpoint_ids credential_ids target_ids alias_ids group_ids policy_ids
  closed_ids : gw.

Lemma index_ok_nodup {A} (key : A → string) what l m :
  index_loop key what ∅ l = Ok m → NoDup (key <$> l).
Proof. by intros (? & _)%index_loop_ok. Qed.

Lemma validate_ok_unique `{UriLibrary} c : validate c = Ok tt → unique_ids c.
Proof.
  unfold validate.
  intros (? & E1 & (? & E2 & (? & E3 & (? & E4 & (? & E5 & (? & E6 & _)%bind_ok)%bind_ok)%bind_ok
    )%bind_ok)%bind_ok)%bind_ok.
  constructor; by eapply index_ok_nodup.
Qed.

(** Every validator fails with a bad request. *)
Definition only_bad_request {A} (r : Result A) : Prop :=
  match r with Err (GatewayError.BadRequest _) | Ok _ => True | _ => False end.

Lemma only_bad_request_bind {A B} (m : Result A) (k : A → Result B) :
  only_bad_request m → (∀ a, only_bad_request (k a)) → only_bad_request (m ≫= k).
Proof. destruct m; simpl; auto. Qed.

Lemma only_bad_request_for_each {A} (f : A → Result unit) l :
  (∀ x, only_bad_request (f x)) → only_bad_request (for_each f l).
Proof. intros H. induction l as [|x l IH]; simpl; [done|]. specialize (H x). by destruct (f x). Qed.

Lemma only_bad_request_index {A} (key : A → string) what l :
  only_bad_request (index_loop key what ∅ l).
Proof.
  destruct (index_spec key what l) as [(m & -> & _)|(_ & x & _ & ->)]; done.
Qed.

Create HintDb gw_bad_request.
#[export] Hint Resolve only_bad_request_bind only_bad_request_for_each only_bad_request_index
  : gw_bad_request.

(** A validator is a tree of tests whose leaves are [Ok] or [invalid_catalog]. *)
Ltac bad_request_leaves :=
  repeat match goal with
  | |- only_bad_request (_ ≫= _) => apply only_bad_request_bind; [|intros ?]
  | |- only_bad_request (for_each _ _) => apply only_bad_request_for_each; intros ?
  | |- only_bad_request (index_loop _ _ _ _) => apply only_bad_request_index
  | |- only_bad_request (match ?x with _ => _ end) => destruct x
  | |- only_bad_request (Ok _) => exact I
  | |- only_bad_request (Err (GatewayError.BadRequest _)) => exact I
  | |- only_bad_request (invalid_catalog _) => exact I
  | |- only_bad_request ?t => let h := eval hnf in t in progress change (only_bad_request h)
  end.

Lemma validate_only_bad_request `{UriLibrary} c : only_bad_request (validate c).
Proof.
  unfold validate, index_endpoints, index_credentials, index_targets, index_aliases,
    index_groups, index_policies, validate_endpoints, validate_credentials, validate_targets,
    validate_policies, validate_provider_grants, validate_aliases.
  cbv zeta. bad_request_leaves.
Qed.

(** ** Properties *)

(** C32. Validation decides its contract: a snapshot is accepted if and only if
    its ids are unique, every endpoint has a protocol family and an absolute
    http(s) URL, every reference between credentials, targets, policies,
    groups, grants and aliases resolves inside the snapshot, protocol families
    agree along every alias, sticky TTLs are between 60 and 86400 seconds, and
    every grant has a scope, a resource and a closure mode that fits its
    effect; and whatever is rejected is rejected as a bad request. *)
Theorem validate_decides_contract `{UriLibrary} (c : GatewayCatalogSnapshot.t) :
  (validate c = Ok tt ↔ closed_catalog c) ∧
  (¬ closed_catalog c → ∃ message, validate c = Err (GatewayError.BadRequest message)).
Proof.
  assert (validate c = Ok tt ↔ closed_catalog c) as Hiff.
  { split.
    - intros Hv. apply validate_unique; eauto using validate_ok_unique.
    - intros Hc. apply validate_unique; [by apply closed_ids|done]. }
  split; [done|]. intros Hn. pose proof (validate_only_bad_request c) as Hb.
  destruct (validate c) as [[]|[]]; try done; [by destruct Hn; apply Hiff|eauto].
Qed.

(** ** A sample snapshot *)

Module Sample.
#[local] Open Scope Z_scope.

(** A URI parser that knows the URLs of the sample. *)
Definition uri_library : UriLibrary := λ url,
  if url ==? "https://api.example.com/v1"
  then Ok (Uri.mk (Some "https") (Some "api.example.com") "api.example.com" None "/v1")
  else if url ==? "/relative" then Ok (Uri.mk None None "" None "/relative")
  else Err "invalid uri character".

Definition endpoint (id url : string) : ProviderEndpoint.t :=
  ProviderEndpoint.mk id "ten" id "openai" [ProtocolFamily.OpenAiChat] url ResourceStatus.Active.

Definition target (id endpoint_id : string) : ModelTargetConfig.t :=
  ModelTargetConfig.mk id "ten" endpoint_id None ProtocolFamily.OpenAiChat "gpt" None
    ResourceStatus.Active true.

Definition alias : ModelAliasConfig.t :=
  ModelAliasConfig.mk "alias1" "ten" None None "fast" ProtocolFamily.OpenAiChat "policy1"
    ResourceStatus.Active.

Definition policy : RoutePolicyConfig.t :=
  RoutePolicyConfig.mk "policy1" "ten" "alias1" "group1" ResourceStatus.Active (Some 600).

Definition group : RoutingGroupConfig.t := RoutingGroupConfig.mk "group1" "ten" ResourceStatus.Active.

Definition group_target (id target_id : string) (priority : Z) : RoutingGroupTargetConfig.t :=
  RoutingGroupTargetConfig.mk id "group1" target_id 1 priority ResourceStatus.Active.

Definition org_grant : ProviderGrantConfig.t :=
  ProviderGrantConfig.mk "grant1" "ten" (Some ProviderGrantScopeKind.Organization) (Some "org")
    None None None (Some ProviderGrantResourceKind.ModelAlias) (Some "alias1")
    ProviderGrantEffect.Allow ProviderGrantClosureMode.IncludeDescendants None None
    ResourceStatus.Active.

Definition catalog (url : string) : GatewayCatalogSnapshot.t :=
  GatewayCatalogSnapshot.mk [endpoint "ep1" url; endpoint "ep2" url] []
    [target "t1" "ep1"; target "t2" "ep2"] [alias] [group]
    [group_target "gt2" "t2" 1; group_target "gt1" "t1" 0] [policy] [org_grant].
End Sample.

Lemma validate_decides_contract_witness :
  @closed_catalog Sample.uri_library (Sample.catalog "https://api.example.com/v1") ∧
  @validate Sample.uri_library (Sample.catalog "/relative")
    = Err (GatewayError.BadRequest
        "provider endpoint ep1 upstream_base_url must be absolute http or https").
Proof.
  split; [|vm_compute; reflexivity].
  apply (@validate_decides_contract Sample.uri_library
           (Sample.catalog "https://api.example.com/v1")).
  vm_compute. reflexivity.
Defined.
