(* ===== verification/Grants.v ===== *)
(** * Provider grants

    [catalog.rs], second part: whether the grants of a snapshot allow an actor
    to use a target through the path alias - policy - group - target -
    endpoint.  Legacy grants name an endpoint directly; grants of the closure
    shape name one node of the path and reach its descendants.  The properties
    relate the boolean code to a declarative reading of grants, and show that
    denials and project grants can only narrow access. *)

From S2P Require Import Prelude Domain HotState Catalog.

(** The context route selection threads through (the struct of the source). *)
Module RouteCandidateContext.
Record t : Type := mk {
  actor : AuthenticatedActor.t;
  protocol_family : ProtocolFamily.t;
  streaming : bool;
  alias : ModelAliasConfig.t;
  policy : RoutePolicyConfig.t;
  group : RoutingGroupConfig.t;
  endpoints : gmap string ProviderEndpoint.t;
  credentials : gmap string UpstreamCredentialConfig.t;
  targets : gmap string ModelTargetConfig.t;
  hot_state : RouteHotState.t;
  config_version : option Z;
  now : DateTime;
}.
End RouteCandidateContext.

Definition optional_match (expected actual : option string) : bool :=
  match expected with None => true | Some e => Some e ==? actual end.

(** ** The path of a candidate *)

Module ProviderGrantPathNode.
Record t : Set := mk { kind : ProviderGrantResourceKind.t; id : string }.
End ProviderGrantPathNode.

Module ProviderGrantPath.
Record t : Set := mk {
  alias : ModelAliasConfig.t;
  policy : RoutePolicyConfig.t;
  group : RoutingGroupConfig.t;
  target : ModelTargetConfig.t;
  endpoint : ProviderEndpoint.t;
}.

Definition nodes (p : t) : list ProviderGrantPathNode.t :=
  [ProviderGrantPathNode.mk ProviderGrantResourceKind.ModelAlias
     (ModelAliasConfig.model_alias_id (alias p));
   ProviderGrantPathNode.mk ProviderGrantResourceKind.RoutePolicy
     (RoutePolicyConfig.route_policy_id (policy p));
   ProviderGrantPathNode.mk ProviderGrantResourceKind.RoutingGroup
     (RoutingGroupConfig.routing_group_id (group p));
   ProviderGrantPathNode.mk ProviderGrantResourceKind.ModelTarget
     (ModelTargetConfig.model_target_id (target p));
   ProviderGrantPathNode.mk ProviderGrantResourceKind.ProviderEndpoint
     (ProviderEndpoint.provider_endpoint_id (endpoint p))].

(** [Iterator::position]: the index of the first match. *)
Fixpoint position_from (i : nat) (kind : ProviderGrantResourceKind.t) (id : string)
    (l : list ProviderGrantPathNode.t) : option nat :=
  match l with
  | [] => None
  | n :: l' =>
      if (ProviderGrantPathNode.kind n ==? kind) && (ProviderGrantPathNode.id n ==? id)
      then Some i else position_from (S i) kind id l'
  end.

Definition position (p : t) (kind : ProviderGrantResourceKind.t) (id : string) : option nat :=
  position_from 0 kind id (nodes p).
End ProviderGrantPath.

(** ** Matching grants *)

Definition grant_matches_scope (g : ProviderGrantConfig.t) (actor : AuthenticatedActor.t)
    (scope_kind : ProviderGrantScopeKind.t) (scope_id : string) : bool :=
  let same_tenant := ProviderGrantConfig.tenant_id g ==? AuthenticatedActor.tenant_id actor in
  let same_scope_kind :=
    match grant_scope_kind g with Some kind => kind ==? scope_kind | None => false end in
  let same_scope_id :=
    match grant_scope_id g with Some id => id ==? scope_id | None => false end in
  let same_principal :=
    optional_match (ProviderGrantConfig.principal_id g) (AuthenticatedActor.principal_id actor) in
  same_tenant && same_scope_kind && same_scope_id && same_principal.

Definition grant_is_ancestor_or_self (path : ProviderGrantPath.t)
    (grant_kind : ProviderGrantResourceKind.t) (grant_resource_id : string)
    (node : ProviderGrantPathNode.t) : bool :=
  match ProviderGrantPath.position path grant_kind grant_resource_id with
  | None => false
  | Some grant_position =>
      match ProviderGrantPath.position path
              (ProviderGrantPathNode.kind node) (ProviderGrantPathNode.id node) with
      | None => false
      | Some node_position => (grant_position <=? node_position)%nat
      end
  end.

Definition grant_applies_to_node (g : ProviderGrantConfig.t) (path : ProviderGrantPath.t)
    (node : ProviderGrantPathNode.t) : bool :=
  match ProviderGrantConfig.resource_kind g with
  | None => false
  | Some grant_kind =>
  match ProviderGrantConfig.resource_id g with
  | None => false
  | Some grant_resource_id =>
      let exact_match := (ProviderGrantPathNode.kind node ==? grant_kind)
                         && (ProviderGrantPathNode.id node ==? grant_resource_id) in
      match ProviderGrantConfig.closure_mode g with
      | ProviderGrantClosureMode.SelfOnly => exact_match
      | ProviderGrantClosureMode.IncludeDescendants =>
          (ProviderGrantConfig.effect g ==? ProviderGrantEffect.Allow)
          && grant_is_ancestor_or_self path grant_kind grant_resource_id node
      | ProviderGrantClosureMode.DenyDescendants =>
          (ProviderGrantConfig.effect g ==? ProviderGrantEffect.Deny)
          && grant_is_ancestor_or_self path grant_kind grant_resource_id node
      end
  end
  end.

(** ** The decision, over the grants of the snapshot

    The methods of the source read only [self.provider_grants]. *)

Definition has_spec_provider_grants (grants : list ProviderGrantConfig.t)
    (actor : AuthenticatedActor.t) : bool :=
  existsb (λ g,
    ResourceStatus.is_active (ProviderGrantConfig.status g)
    && (ProviderGrantConfig.tenant_id g ==? AuthenticatedActor.tenant_id actor)
    && ProviderGrantConfig.is_spec_shape g) grants.

Definition legacy_provider_grant_allows (grants : list ProviderGrantConfig.t)
    (actor : AuthenticatedActor.t) (endpoint : ProviderEndpoint.t)
    (target : ModelTargetConfig.t) : bool :=
  existsb (λ g,
    ResourceStatus.is_active (ProviderGrantConfig.status g)
    && (ProviderGrantConfig.tenant_id g ==? AuthenticatedActor.tenant_id actor)
    && optional_match (ProviderGrantConfig.organization_id g)
         (AuthenticatedActor.organization_id actor)
    && optional_match (ProviderGrantConfig.project_id g) (AuthenticatedActor.project_id actor)
    && optional_match (ProviderGrantConfig.principal_id g)
         (AuthenticatedActor.principal_id actor)
    && (ProviderGrantConfig.provider_endpoint_id g
        ==? Some (ProviderEndpoint.provider_endpoint_id endpoint))
    && match ProviderGrantConfig.model_target_id g with
       | None => true
       | Some id => id ==? ModelTargetConfig.model_target_id target
       end) grants.

Definition spec_scope_allows_node (grants : list ProviderGrantConfig.t)
    (actor : AuthenticatedActor.t) (scope_kind : ProviderGrantScopeKind.t) (scope_id : string)
    (path : ProviderGrantPath.t) (node : ProviderGrantPathNode.t) : bool :=
  existsb (λ g,
    ResourceStatus.is_active (ProviderGrantConfig.status g)
    && (ProviderGrantConfig.effect g ==? ProviderGrantEffect.Allow)
    && grant_matches_scope g actor scope_kind scope_id
    && grant_applies_to_node g path node) grants.

Definition spec_scope_denies_node (grants : list ProviderGrantConfig.t)
    (actor : AuthenticatedActor.t) (scope_kind : ProviderGrantScopeKind.t) (scope_id : string)
    (path : ProviderGrantPath.t) (node : ProviderGrantPathNode.t) : bool :=
  existsb (λ g,
    ResourceStatus.is_active (ProviderGrantConfig.status g)
    && (ProviderGrantConfig.effect g ==? ProviderGrantEffect.Deny)
    && grant_matches_scope g actor scope_kind scope_id
    && grant_applies_to_node g path node) grants.

Definition project_has_allow_for_kind (grants : list ProviderGrantConfig.t)
    (actor : AuthenticatedActor.t) (project_id : string)
    (resource_kind : ProviderGrantResourceKind.t) : bool :=
  existsb (λ g,
    ResourceStatus.is_active (ProviderGrantConfig.status g)
    && (ProviderGrantConfig.effect g ==? ProviderGrantEffect.Allow)
    && grant_matches_scope g actor ProviderGrantScopeKind.Project project_id
    && (ProviderGrantConfig.resource_kind g ==? Some resource_kind)) grants.

Definition scope_allows_all_path_nodes (grants : list ProviderGrantConfig.t)
    (actor : AuthenticatedActor.t) (scope_kind : ProviderGrantScopeKind.t) (scope_id : string)
    (path : ProviderGrantPath.t) : bool :=
  forallb (λ node,
    spec_scope_allows_node grants actor scope_kind scope_id path node
    && negb (spec_scope_denies_node grants actor scope_kind scope_id path node))
    (ProviderGrantPath.nodes path).

(** The loop over the nodes with its early returns. *)
Fixpoint narrows_loop (grants : list ProviderGrantConfig.t) (actor : AuthenticatedActor.t)
    (project_id : string) (path : ProviderGrantPath.t)
    (nodes : list ProviderGrantPathNode.t) : bool :=
  match nodes with
  | [] => true
  | node :: nodes' =>
      if spec_scope_denies_node grants actor ProviderGrantScopeKind.Project project_id path node
      then false
      else if project_has_allow_for_kind grants actor project_id (ProviderGrantPathNode.kind node)
              && negb (spec_scope_allows_node grants actor ProviderGrantScopeKind.Project
                         project_id path node)
      then false
      else narrows_loop grants actor project_id path nodes'
  end.

Definition project_scope_inherits_or_narrows (grants : list ProviderGrantConfig.t)
    (actor : AuthenticatedActor.t) (project_id : string) (path : ProviderGrantPath.t) : bool :=
  narrows_loop grants actor project_id path (ProviderGrantPath.nodes path).

Definition spec_provider_grant_allows (grants : list ProviderGrantConfig.t)
    (context : RouteCandidateContext.t) (endpoint : ProviderEndpoint.t)
    (target : ModelTargetConfig.t) : bool :=
  let actor := RouteCandidateContext.actor context in
  let path := ProviderGrantPath.mk (RouteCandidateContext.alias context)
    (RouteCandidateContext.policy context) (RouteCandidateContext.group context)
    target endpoint in
  match AuthenticatedActor.organization_id actor with
  | None => false
  | Some organization_id =>
      if negb (scope_allows_all_path_nodes grants actor ProviderGrantScopeKind.Organization
                 organization_id path)
      then false
      else
        match AuthenticatedActor.project_id actor with
        | None => true
        | Some project_id => project_scope_inherits_or_narrows grants actor project_id path
        end
  end.

Definition provider_grant_allows (grants : list ProviderGrantConfig.t)
    (context : RouteCandidateContext.t) (endpoint : ProviderEndpoint.t)
    (target : ModelTargetConfig.t) : bool :=
  if negb (has_spec_provider_grants grants (RouteCandidateContext.actor context))
  then legacy_provider_grant_allows grants (RouteCandidateContext.actor context) endpoint target
  else spec_provider_grant_allows grants context endpoint target.

(** ** Declarative reading of grants *)

(** The grant is live for the actor in the scope. *)
Definition in_force (g : ProviderGrantConfig.t) (actor : AuthenticatedActor.t)
    (scope_kind : ProviderGrantScopeKind.t) (scope_id : string) : Prop :=
  ProviderGrantConfig.status g = ResourceStatus.Active ∧
  ProviderGrantConfig.tenant_id g = AuthenticatedActor.tenant_id actor ∧
  grant_scope_kind g = Some scope_kind ∧
  grant_scope_id g = Some scope_id ∧
  (ProviderGrantConfig.principal_id g = None ∨
   ProviderGrantConfig.principal_id g = AuthenticatedActor.principal_id actor).

(** The grant names node [i] of the path and reaches node [n]: itself, or a
    descendant where its closure mode and effect agree. *)
Definition covers (g : ProviderGrantConfig.t) (path : ProviderGrantPath.t) (n : nat) : Prop :=
  ∃ kind id i,
    ProviderGrantConfig.resource_kind g = Some kind ∧
    ProviderGrantConfig.resource_id g = Some id ∧
    ProviderGrantPath.nodes path !! i = Some (ProviderGrantPathNode.mk kind id) ∧
    match ProviderGrantConfig.closure_mode g with
    | ProviderGrantClosureMode.SelfOnly => i = n
    | ProviderGrantClosureMode.IncludeDescendants =>
        ProviderGrantConfig.effect g = ProviderGrantEffect.Allow ∧ i ≤ n
    | ProviderGrantClosureMode.DenyDescendants =>
        ProviderGrantConfig.effect g = ProviderGrantEffect.Deny ∧ i ≤ n
    end.

(** Some grant of the given effect, in force in the scope, covers node [n]. *)
Definition reaches (grants : list ProviderGrantConfig.t) (effect : ProviderGrantEffect.t)
    (actor : AuthenticatedActor.t) (scope_kind : ProviderGrantScopeKind.t) (scope_id : string)
    (path : ProviderGrantPath.t) (n : nat) : Prop :=
  ∃ g, g ∈ grants ∧ ProviderGrantConfig.effect g = effect ∧
    in_force g actor scope_kind scope_id ∧ covers g path n.

(** ** Lemmas *)

Lemma is_active_iff s : ResourceStatus.is_active s = true ↔ s = ResourceStatus.Active.
Proof. by destruct s. Qed.

Lemma optional_match_iff e a : optional_match e a = true ↔ e = None ∨ e = a.
Proof. unfold optional_match. destruct e; [rewrite bool_decide_eq_true|]; naive_solver. Qed.

Lemma grant_matches_scope_iff g actor sk sid :
  ResourceStatus.is_active (ProviderGrantConfig.status g) = true ∧
  grant_matches_scope g actor sk sid = true ↔ in_force g actor sk sid.
Proof.
  unfold grant_matches_scope, in_force. cbv zeta.
  rewrite is_active_iff, !andb_true_iff, optional_match_iff, bool_decide_eq_true.
  destruct (grant_scope_kind g), (grant_scope_id g); rewrite ?bool_decide_eq_true; naive_solver.
Qed.

(** The five kinds of a path are distinct, so a position is a lookup. *)
Lemma position_iff p kind id i :
  ProviderGrantPath.position p kind id = Some i ↔
  ProviderGrantPath.nodes p !! i = Some (ProviderGrantPathNode.mk kind id).
Proof.
  unfold ProviderGrantPath.position, ProviderGrantPath.nodes. simpl.
  split.
  - intros H. destruct kind; simpl in H; try case_bool_decide; by simplify_eq/=.
  - intros H. do 5 (destruct i as [|i]; [simplify_eq/=; by rewrite bool_decide_true|]). done.
Qed.

Lemma grant_applies_to_node_iff g path n node :
  ProviderGrantPath.nodes path !! n = Some node →
  grant_applies_to_node g path node = true ↔ covers g path n.
Proof.
  destruct node as [nk nid]. intros Hn. unfold grant_applies_to_node, covers. simpl.
  destruct (ProviderGrantConfig.resource_kind g) as [k|]; [|naive_solver].
  destruct (ProviderGrantConfig.resource_id g) as [id|]; [|naive_solver].
  assert (∀ i, ProviderGrantPath.nodes path !! i = Some (ProviderGrantPathNode.mk nk nid) ↔ i = n)
    as Huniq.
  { intros i. split; [|by intros ->]. intros Hi. apply position_iff in Hi, Hn. congruence. }
  assert (grant_is_ancestor_or_self path k id (ProviderGrantPathNode.mk nk nid) = true ↔
    ∃ i, ProviderGrantPath.nodes path !! i = Some (ProviderGrantPathNode.mk k id) ∧ i ≤ n) as Hanc.
  { unfold grant_is_ancestor_or_self. simpl. apply position_iff in Hn as ->.
    setoid_rewrite <- position_iff.
    destruct (ProviderGrantPath.position path k id) as [i|]; [|naive_solver].
    rewrite Nat.leb_le. naive_solver. }
  destruct (ProviderGrantConfig.closure_mode g);
    rewrite andb_true_iff, ?Hanc, !bool_decide_eq_true; [|naive_solver..].
  split; [intros [-> ->]; naive_solver|].
  intros (k' & id' & i & [= <-] & [= <-] & Hi & ->). rewrite Hn in Hi. naive_solver.
Qed.

Lemma reaches_iff grants e actor sk sid path n node :
  ProviderGrantPath.nodes path !! n = Some node →
  existsb (λ g,
    ResourceStatus.is_active (ProviderGrantConfig.status g)
    && (ProviderGrantConfig.effect g ==? e)
    && grant_matches_scope g actor sk sid
    && grant_applies_to_node g path node) grants = true ↔
  reaches grants e actor sk sid path n.
Proof.
  intros Hn. rewrite existsb_iff. unfold reaches. apply exist_proper; intros g.
  rewrite !andb_true_iff, bool_decide_eq_true, (grant_applies_to_node_iff _ _ _ _ Hn),
    <- grant_matches_scope_iff. naive_solver.
Qed.

Lemma allows_node_iff grants actor sk sid path n node :
  ProviderGrantPath.nodes path !! n = Some node →
  spec_scope_allows_node grants actor sk sid path node = true ↔
  reaches grants ProviderGrantEffect.Allow actor sk sid path n.
Proof. apply reaches_iff. Qed.

Lemma denies_node_iff grants actor sk sid path n node :
  ProviderGrantPath.nodes path !! n = Some node →
  spec_scope_denies_node grants actor sk sid path node = true ↔
  reaches grants ProviderGrantEffect.Deny actor sk sid path n.
Proof. apply reaches_iff. Qed.

Lemma denies_node_false grants actor sk sid path n node :
  ProviderGrantPath.nodes path !! n = Some node →
  spec_scope_denies_node grants actor sk sid path node = false ↔
  ¬ reaches grants ProviderGrantEffect.Deny actor sk sid path n.
Proof. intros Hn. by rewrite <- not_true_iff_false, denies_node_iff. Qed.

Lemma scope_allows_iff grants actor sk sid path :
  scope_allows_all_path_nodes grants actor sk sid path = true ↔
  ∀ n, n < 5 →
    reaches grants ProviderGrantEffect.Allow actor sk sid path n ∧
    ¬ reaches grants ProviderGrantEffect.Deny actor sk sid path n.
Proof.
  unfold scope_allows_all_path_nodes. rewrite forallb_iff. split.
  - intros H n Hn. destruct (lookup_lt_is_Some_2 (ProviderGrantPath.nodes path) n) as [node Hnode];
      [done|]. specialize (H node (list_elem_of_lookup_2 _ _ _ Hnode)). btrue.
    by rewrite <- (allows_node_iff _ _ _ _ _ _ _ Hnode), <- (denies_node_false _ _ _ _ _ _ _ Hnode).
  - intros H node [n Hnode]%list_elem_of_lookup. pose proof (lookup_lt_Some _ _ _ Hnode) as Hlt.
    destruct (H n Hlt). rewrite andb_true_iff, negb_true_iff.
    by rewrite (allows_node_iff _ _ _ _ _ _ _ Hnode), (denies_node_false _ _ _ _ _ _ _ Hnode).
Qed.

(** A project grant of the node's kind switches that kind from inheriting to
    an explicit allow list. *)
Definition project_lists_kind (grants : list ProviderGrantConfig.t)
    (actor : AuthenticatedActor.t) (project_id : string)
    (kind : ProviderGrantResourceKind.t) : Prop :=
  ∃ g, g ∈ grants ∧ ProviderGrantConfig.effect g = ProviderGrantEffect.Allow ∧
    in_force g actor ProviderGrantScopeKind.Project project_id ∧
    ProviderGrantConfig.resource_kind g = Some kind.

Lemma project_has_allow_iff grants actor pid kind :
  project_has_allow_for_kind grants actor pid kind = true ↔
  project_lists_kind grants actor pid kind.
Proof.
  unfold project_has_allow_for_kind, project_lists_kind. rewrite existsb_iff.
  apply exist_proper; intros g.
  rewrite !andb_true_iff, !bool_decide_eq_true, <- grant_matches_scope_iff. naive_solver.
Qed.

Lemma narrows_loop_forallb grants actor pid path nodes :
  narrows_loop grants actor pid path nodes =
  forallb (λ node,
    negb (spec_scope_denies_node grants actor ProviderGrantScopeKind.Project pid path node)
    && implb (project_has_allow_for_kind grants actor pid (ProviderGrantPathNode.kind node))
         (spec_scope_allows_node grants actor ProviderGrantScopeKind.Project pid path node)) nodes.
Proof.
  induction nodes as [|node nodes IH]; cbn [narrows_loop forallb]; [done|]. rewrite IH.
  by destruct (spec_scope_denies_node _ _ _ _ _ _), (project_has_allow_for_kind _ _ _ _),
    (spec_scope_allows_node _ _ _ _ _ _).
Qed.

Lemma narrows_iff grants actor pid path :
  project_scope_inherits_or_narrows grants actor pid path = true ↔
  ∀ n node, ProviderGrantPath.nodes path !! n = Some node →
    ¬ reaches grants ProviderGrantEffect.Deny actor ProviderGrantScopeKind.Project pid path n ∧
    (project_lists_kind grants actor pid (ProviderGrantPathNode.kind node) →
     reaches grants ProviderGrantEffect.Allow actor ProviderGrantScopeKind.Project pid path n).
Proof.
  unfold project_scope_inherits_or_narrows. rewrite narrows_loop_forallb, forallb_iff. split.
  - intros H n node Hnode. specialize (H node (list_elem_of_lookup_2 _ _ _ Hnode)). btrue.
    rewrite <- project_has_allow_iff, <- (allows_node_iff _ _ _ _ _ _ _ Hnode).
    rewrite <- (denies_node_false _ _ _ _ _ _ _ Hnode). by rewrite <- implb_true_iff.
  - intros H node [n Hnode]%list_elem_of_lookup. destruct (H n node Hnode).
    rewrite andb_true_iff, negb_true_iff, implb_true_iff, project_has_allow_iff.
    by rewrite (allows_node_iff _ _ _ _ _ _ _ Hnode), (denies_node_false _ _ _ _ _ _ _ Hnode).
Qed.

Lemma spec_allows_iff grants context endpoint target :
  let actor := RouteCandidateContext.actor context in
  let path := ProviderGrantPath.mk (RouteCandidateContext.alias context)
    (RouteCandidateContext.policy context) (RouteCandidateContext.group context)
    target endpoint in
  spec_provider_grant_allows grants context endpoint target = true ↔
  ∃ org, AuthenticatedActor.organization_id actor = Some org ∧
    scope_allows_all_path_nodes grants actor ProviderGrantScopeKind.Organization org path = true ∧
    ∀ pid, AuthenticatedActor.project_id actor = Some pid →
      project_scope_inherits_or_narrows grants actor pid path = true.
Proof.
  intros actor path. unfold spec_provider_grant_allows. fold actor path.
  destruct (AuthenticatedActor.organization_id actor) as [org|]; [|naive_solver].
  destruct (scope_allows_all_path_nodes _ _ _ org path) eqn:E1; simpl; [|naive_solver].
  destruct (AuthenticatedActor.project_id actor); naive_solver.
Qed.

(** Grants that are inactive or of another tenant are never in force. *)
Definition relevant (actor : AuthenticatedActor.t) (g : ProviderGrantConfig.t) : bool :=
  ResourceStatus.is_active (ProviderGrantConfig.status g)
  && (ProviderGrantConfig.tenant_id g ==? AuthenticatedActor.tenant_id actor).

Lemma existsb_relevant actor (f : ProviderGrantConfig.t → bool) grants :
  (∀ g, f g = true → relevant actor g = true) →
  existsb f (List.filter (relevant actor) grants) = existsb f grants.
Proof.
  intros Hf. apply eq_bool_prop_intro. rewrite !Is_true_true, !existsb_iff.
  setoid_rewrite filter_iff. split; intros (g & Hg & ?); exists g; [tauto|].
  split; [split; [done|by apply Hf]|done].
Qed.

Lemma reaches_relevant grants e actor sk sid path node :
  existsb (λ g,
    ResourceStatus.is_active (ProviderGrantConfig.status g)
    && (ProviderGrantConfig.effect g ==? e)
    && grant_matches_scope g actor sk sid
    && grant_applies_to_node g path node) (List.filter (relevant actor) grants) =
  existsb (λ g,
    ResourceStatus.is_active (ProviderGrantConfig.status g)
    && (ProviderGrantConfig.effect g ==? e)
    && grant_matches_scope g actor sk sid
    && grant_applies_to_node g path node) grants.
Proof.
  apply existsb_relevant. intros g Hg. unfold relevant, grant_matches_scope in *.
  rewrite !andb_true_iff in *. naive_solver.
Qed.

Lemma has_allow_relevant grants actor pid kind :
  project_has_allow_for_kind (List.filter (relevant actor) grants) actor pid kind =
  project_has_allow_for_kind grants actor pid kind.
Proof.
  apply existsb_relevant. intros g Hg. unfold relevant, grant_matches_scope in *.
  rewrite !andb_true_iff in *. naive_solver.
Qed.

Lemma forallb_ext {A} (f g : A → bool) l : (∀ x, f x = g x) → forallb f l = forallb g l.
Proof. intros H. induction l; simpl; congruence. Qed.

(** Inserting a grant in a list of grants. *)
Lemma reaches_insert l1 g l2 e actor sk sid path n :
  reaches (l1 ++ g :: l2) e actor sk sid path n ↔
  reaches (l1 ++ l2) e actor sk sid path n ∨
  ProviderGrantConfig.effect g = e ∧ in_force g actor sk sid ∧ covers g path n.
Proof.
  unfold reaches. setoid_rewrite elem_of_app. setoid_rewrite elem_of_cons. split.
  - intros (g' & [?|[->|?]] & ?); [left; exists g'; tauto|right; tauto|left; exists g'; tauto].
  - intros [(g' & ? & ?)|?]; [exists g'; tauto|exists g; tauto].
Qed.

Lemma reaches_spec grants e actor sk sid path n :
  reaches grants e actor sk sid path n → has_spec_provider_grants grants actor = true.
Proof.
  intros (g & Hg & _ & (Ha & Ht & _) & (k & id & i & Hk & _)).
  apply existsb_iff. exists g. split; [done|].
  rewrite !andb_true_iff, is_active_iff, bool_decide_eq_true. split_and!; [done..|].
  unfold ProviderGrantConfig.is_spec_shape. rewrite Hk. simpl. by rewrite !orb_true_r.
Qed.

Lemma deny_keeps_allow l1 g l2 actor sk sid path n :
  ProviderGrantConfig.effect g = ProviderGrantEffect.Deny →
  reaches (l1 ++ g :: l2) ProviderGrantEffect.Allow actor sk sid path n →
  reaches (l1 ++ l2) ProviderGrantEffect.Allow actor sk sid path n.
Proof. intros Hg. rewrite reaches_insert. naive_solver congruence. Qed.

Lemma spec_allows_insert_deny l1 g l2 context endpoint target :
  ProviderGrantConfig.effect g = ProviderGrantEffect.Deny →
  spec_provider_grant_allows (l1 ++ g :: l2) context endpoint target = true →
  spec_provider_grant_allows (l1 ++ l2) context endpoint target = true ∧
  has_spec_provider_grants (l1 ++ l2) (RouteCandidateContext.actor context) = true.
Proof.
  intros Hg (org & Horg & Hall & Hproj)%spec_allows_iff. rewrite scope_allows_iff in Hall.
  split.
  - apply spec_allows_iff. exists org. split; [done|]. split.
    + apply scope_allows_iff. intros n Hn. destruct (Hall n Hn) as [Ha Hd].
      split; [by eapply deny_keeps_allow|]. rewrite reaches_insert in Hd. naive_solver.
    + intros pid Hpid. specialize (Hproj pid Hpid). rewrite narrows_iff in *.
      intros n node Hnode. destruct (Hproj n node Hnode) as [Hd Hk].
      rewrite reaches_insert in Hd. split; [naive_solver|]. intros (g' & Hg' & Hrest).
      eapply deny_keeps_allow; [done|]. apply Hk. exists g'. set_solver.
  - destruct (Hall 0) as [Ha _]; [lia|]. eapply reaches_spec, deny_keeps_allow; done.
Qed.

Lemma scope_allows_relevant grants actor sk sid path :
  scope_allows_all_path_nodes (List.filter (relevant actor) grants) actor sk sid path =
  scope_allows_all_path_nodes grants actor sk sid path.
Proof.
  apply forallb_ext. intros node. unfold spec_scope_allows_node, spec_scope_denies_node.
  by rewrite !reaches_relevant.
Qed.

Lemma narrows_relevant grants actor pid path :
  project_scope_inherits_or_narrows (List.filter (relevant actor) grants) actor pid path =
  project_scope_inherits_or_narrows grants actor pid path.
Proof.
  unfold project_scope_inherits_or_narrows. rewrite !narrows_loop_forallb.
  apply forallb_ext. intros node. rewrite has_allow_relevant.
  unfold spec_scope_allows_node, spec_scope_denies_node. by rewrite !reaches_relevant.
Qed.

Lemma provider_grant_allows_relevant grants context endpoint target :
  provider_grant_allows
    (List.filter (relevant (RouteCandidateContext.actor context)) grants)
    context endpoint target =
  provider_grant_allows grants context endpoint target.
Proof.
  unfold provider_grant_allows, has_spec_provider_grants, legacy_provider_grant_allows,
    spec_provider_grant_allows.
  rewrite !existsb_relevant
    by (intros g Hg; unfold relevant; rewrite !andb_true_iff in *; naive_solver).
  destruct (AuthenticatedActor.organization_id _); [|done]. rewrite scope_allows_relevant.
  destruct (AuthenticatedActor.project_id _); [|done]. by rewrite narrows_relevant.
Qed.

(** ** Properties *)


(** Only active grants of the actor's own tenant matter: two lists of grants
    with the same active grants of that tenant, in the same order, decide every
    path alike. *)
Theorem foreign_provider_grants_irrelevant grants1 grants2 context endpoint target :
  List.filter (relevant (RouteCandidateContext.actor context)) grants1 =
  List.filter (relevant (RouteCandidateContext.actor context)) grants2 →
  provider_grant_allows grants1 context endpoint target =
  provider_grant_allows grants2 context endpoint target.
Proof. intros H. by rewrite <- provider_grant_allows_relevant, H, provider_grant_allows_relevant. Qed.

(** A denial can only restrict: wherever a deny grant is inserted, and
    whatever its scope, resource, status or tenant, a path allowed with it is
    allowed without it; this includes the switch from legacy to closure grants
    that the first deny grant causes. *)
Theorem deny_grant_only_restricts l1 g l2 context endpoint target :
  ProviderGrantConfig.effect g = ProviderGrantEffect.Deny →
  provider_grant_allows (l1 ++ g :: l2) context endpoint target = true →
  provider_grant_allows (l1 ++ l2) context endpoint target = true.
Proof.
  intros Hg. destruct (relevant (RouteCandidateContext.actor context) g) eqn:Hr.
  - unfold provider_grant_allows at 1.
    assert (has_spec_provider_grants (l1 ++ g :: l2)
      (RouteCandidateContext.actor context) = true) as ->.
    { apply existsb_iff. exists g. split; [set_solver|]. rewrite andb_true_iff. split; [done|].
      unfold ProviderGrantConfig.is_spec_shape. rewrite Hg. simpl. by rewrite !orb_true_r. }
    simpl. intros [Hs Hh]%spec_allows_insert_deny; [|done].
    unfold provider_grant_allows. by rewrite Hh.
  - rewrite <- provider_grant_allows_relevant, List.filter_app. simpl. rewrite Hr.
    by rewrite <- List.filter_app, provider_grant_allows_relevant.
Qed.

(** ** Witnesses on the sample snapshot *)

Module GrantSample.
Definition actor : AuthenticatedActor.t :=
  AuthenticatedActor.for_user_session (ActorScope.mk "ten" (Some "org") (Some "proj"))
    "user1" "sess1" "req1" "trace1" None.

Definition context : RouteCandidateContext.t :=
  RouteCandidateContext.mk actor ProtocolFamily.OpenAiChat false Sample.alias Sample.policy
    Sample.group ∅ ∅ ∅ NullRouteHotState None 0%Z.

(** A project deny of the endpoint itself, and a grant of another tenant. *)
Definition deny_ep (endpoint_id : string) : ProviderGrantConfig.t :=
  ProviderGrantConfig.mk "grant2" "ten" (Some ProviderGrantScopeKind.Project) (Some "proj")
    None None None (Some ProviderGrantResourceKind.ProviderEndpoint) (Some endpoint_id)
    ProviderGrantEffect.Deny ProviderGrantClosureMode.SelfOnly None None ResourceStatus.Active.

Definition foreign : ProviderGrantConfig.t :=
  ProviderGrantConfig.mk "grant3" "other" None None None None None None None
    ProviderGrantEffect.Allow ProviderGrantClosureMode.SelfOnly (Some "ep1") None
    ResourceStatus.Active.

Definition ep (id : string) : ProviderEndpoint.t := Sample.endpoint id "https://api.example.com/v1".
End GrantSample.


Lemma foreign_provider_grants_irrelevant_witness :
  provider_grant_allows [GrantSample.foreign; Sample.org_grant] GrantSample.context
    (GrantSample.ep "ep1") (Sample.target "t1" "ep1") = true.
Proof.
  rewrite (foreign_provider_grants_irrelevant _ [Sample.org_grant]); vm_compute; reflexivity.
Defined.

Lemma deny_grant_only_restricts_witness :
  provider_grant_allows [Sample.org_grant] GrantSample.context
    (GrantSample.ep "ep1") (Sample.target "t1" "ep1") = true ∧
  provider_grant_allows [Sample.org_grant; GrantSample.deny_ep "ep1"] GrantSample.context
    (GrantSample.ep "ep1") (Sample.target "t1" "ep1") = false.
Proof.
  split; [|vm_compute; reflexivity].
  apply (deny_grant_only_restricts [Sample.org_grant] (GrantSample.deny_ep "ep2") []);
    vm_compute; reflexivity.
Defined.
