(* ===== verification/RoutePlan.v ===== *)
(** * Route planning

    [catalog.rs], third part: resolving the alias a client names, evaluating
    the targets of its routing group in preference order, reusing a sticky
    route, and the evidence returned with the outcome.  The reads of the hot
    state are those of one [RouteHotState.t] for the whole plan. *)

From Stdlib Require Import Sorting.Sorted.
From S2P Require Import Prelude Order Domain HotState Routing Catalog Grants.

(** ** Requests and outcomes *)

Module RoutePlanRequest.
Record t : Type := mk {
  actor : AuthenticatedActor.t;
  protocol_family : ProtocolFamily.t;
  alias_name : string;
  streaming : bool;
  hot_state : RouteHotState.t;
  config_version : option Z;
  now : DateTime;
  route_affinity_hash : option string;
}.
End RoutePlanRequest.

Module RouteSelection.
Record t : Set := mk {
  model_alias_id : string;
  alias_name : string;
  route_policy_id : string;
  routing_group_id : string;
  model_target_id : string;
  upstream_model_id : string;
  pricing_sku_id : option string;
  provider_endpoint : ProviderEndpoint.t;
  upstream_credential_id : option string;
  filtered_summary : list RouteFilterSummary.t;
  sticky_hit : bool;
  sticky_miss_reason : option string;
  sticky_ttl_seconds : option Z;
}.
End RouteSelection.

Module RoutePlanOutcome.
Inductive t : Set :=
| Selected (selection : RouteSelection.t)
| ProviderGrantDenied
| NoRoute.
End RoutePlanOutcome.

Module RoutePlan.
Record t : Set := mk {
  outcome : RoutePlanOutcome.t;
  filtered_summary : list RouteFilterSummary.t;
}.
End RoutePlan.

Module CandidateEvaluation.
Inductive t : Set :=
| Selected (target : ModelTargetConfig.t) (endpoint : ProviderEndpoint.t)
| Filtered (reason : RouteFilterReason.t).
End CandidateEvaluation.

Module StickyRouteSelection.
Inductive t : Set :=
| Selected (selection : RouteSelection.t)
| Miss (reason : option string)
| Unavailable.
End StickyRouteSelection.

(** ** Resolving the alias *)

Definition alias_scope_score (alias : ModelAliasConfig.t) (actor : AuthenticatedActor.t)
    : option Z :=
  let project := ModelAliasConfig.project_id alias in
  let organization := ModelAliasConfig.organization_id alias in
  if (project ==? AuthenticatedActor.project_id actor)
     && (organization ==? AuthenticatedActor.organization_id actor)
     && (project !=? None) then Some 3%Z
  else if (project ==? None)
     && (organization ==? AuthenticatedActor.organization_id actor)
     && (organization !=? None) then Some 2%Z
  else if (project ==? None) && (organization ==? None) then Some 1%Z
  else None.

(** [sort_by_key(|(score, _)| Reverse( *score))]. *)
Definition score_order : Z * ModelAliasConfig.t → Z * ModelAliasConfig.t → comparison :=
  cmp_rev (cmp_on fst Z.compare).

Definition scoped_aliases (self : GatewayCatalogSnapshot.t) (actor : AuthenticatedActor.t)
    (alias_name : string) : list (Z * ModelAliasConfig.t) :=
  omap (λ alias, (λ score, (score, alias)) <$> alias_scope_score alias actor)
    (List.filter (λ alias,
       (ModelAliasConfig.tenant_id alias ==? AuthenticatedActor.tenant_id actor)
       && (ModelAliasConfig.alias_name alias ==? alias_name))
       (GatewayCatalogSnapshot.model_aliases self)).

Definition resolve_alias (self : GatewayCatalogSnapshot.t) (actor : AuthenticatedActor.t)
    (alias_name : string) : Result ModelAliasConfig.t :=
  match sort_by score_order (scoped_aliases self actor alias_name) with
  | [] => Err (GatewayError.NotFound ("model alias " +:+ alias_name))
  | (best_score, best_alias) :: rest =>
      if existsb (λ p, (p.1 =? best_score)%Z) rest
      then Err (GatewayError.BadRequest ("ambiguous model alias " +:+ alias_name))
      else Ok best_alias
  end.

Definition resolve_route_binding (self : GatewayCatalogSnapshot.t) (request : RoutePlanRequest.t)
    : Result (ModelAliasConfig.t * RoutePolicyConfig.t * RoutingGroupConfig.t) :=
  alias ← resolve_alias self (RoutePlanRequest.actor request)
            (RoutePlanRequest.alias_name request);
  if ModelAliasConfig.protocol_family alias !=? RoutePlanRequest.protocol_family request then
    Err (GatewayError.BadRequest
      ("protocol_mismatch: alias " +:+ ModelAliasConfig.alias_name alias +:+ " is "
       +:+ ProtocolFamily.as_str (ModelAliasConfig.protocol_family alias)
       +:+ ", ingress is "
       +:+ ProtocolFamily.as_str (RoutePlanRequest.protocol_family request)))
  else if negb (ResourceStatus.is_active (ModelAliasConfig.status alias)) then
    Err (GatewayError.NotFound ("model alias " +:+ RoutePlanRequest.alias_name request))
  else
    policy ← ok_or
      (List.find (λ p, RoutePolicyConfig.route_policy_id p
                       ==? ModelAliasConfig.route_policy_id alias)
         (GatewayCatalogSnapshot.route_policies self)) GatewayError.NotReady;
    if negb (ResourceStatus.is_active (RoutePolicyConfig.status policy))
    then Err GatewayError.NotReady
    else
      group ← ok_or
        (List.find (λ g, RoutingGroupConfig.routing_group_id g
                         ==? RoutePolicyConfig.routing_group_id policy)
           (GatewayCatalogSnapshot.routing_groups self)) GatewayError.NotReady;
      if negb (ResourceStatus.is_active (RoutingGroupConfig.status group))
      then Err GatewayError.NotReady
      else Ok (alias, policy, group).

(** ** Evaluating a candidate *)

Definition evaluate_candidate (grants : list ProviderGrantConfig.t)
    (candidate : RoutingGroupTargetConfig.t) (context : RouteCandidateContext.t)
    : CandidateEvaluation.t :=
  let hot_state := RouteCandidateContext.hot_state context in
  let cv := RouteCandidateContext.config_version context in
  let now := RouteCandidateContext.now context in
  if negb (ResourceStatus.is_active (RoutingGroupTargetConfig.status candidate)) then
    CandidateEvaluation.Filtered RouteFilterReason.GroupTargetInactive
  else match RouteCandidateContext.targets context
               !! RoutingGroupTargetConfig.model_target_id candidate with
  | None => CandidateEvaluation.Filtered RouteFilterReason.TargetMissing
  | Some target =>
  if negb (ResourceStatus.is_active (ModelTargetConfig.status target)) then
    CandidateEvaluation.Filtered RouteFilterReason.TargetInactive
  else if ModelTargetConfig.protocol_family target
          !=? RouteCandidateContext.protocol_family context then
    CandidateEvaluation.Filtered RouteFilterReason.ProtocolMismatch
  else if RouteCandidateContext.streaming context
          && negb (ModelTargetConfig.supports_streaming target) then
    CandidateEvaluation.Filtered RouteFilterReason.StreamingUnsupported
  else match RouteCandidateContext.endpoints context
               !! ModelTargetConfig.provider_endpoint_id target with
  | None => CandidateEvaluation.Filtered RouteFilterReason.EndpointMissing
  | Some endpoint =>
  if negb (ResourceStatus.is_active (ProviderEndpoint.status endpoint)) then
    CandidateEvaluation.Filtered RouteFilterReason.EndpointInactive
  else if negb (bool_decide (RouteCandidateContext.protocol_family context
                             ∈ ProviderEndpoint.protocol_families endpoint)) then
    CandidateEvaluation.Filtered RouteFilterReason.EndpointProtocolMismatch
  else if RouteHotState.endpoint_is_drained hot_state (ProviderEndpoint.tenant_id endpoint)
            (ProviderEndpoint.provider_endpoint_id endpoint) cv now then
    CandidateEvaluation.Filtered RouteFilterReason.EndpointDrained
  else match RouteHotState.endpoint_health_state hot_state (ProviderEndpoint.tenant_id endpoint)
               (ProviderEndpoint.provider_endpoint_id endpoint) cv now with
  | EndpointHealthState.Blocked =>
      CandidateEvaluation.Filtered RouteFilterReason.EndpointHealthBlocked
  | EndpointHealthState.Unhealthy =>
      CandidateEvaluation.Filtered RouteFilterReason.EndpointUnhealthy
  | EndpointHealthState.Unknown | EndpointHealthState.Healthy
  | EndpointHealthState.Warmup | EndpointHealthState.Degraded =>
  match match ModelTargetConfig.upstream_credential_id target with
        | None => None
        | Some credential_id =>
            match RouteCandidateContext.credentials context !! credential_id with
            | None => Some RouteFilterReason.CredentialMissing
            | Some credential =>
                if negb (CredentialStatus.is_usable (UpstreamCredentialConfig.status credential))
                then Some RouteFilterReason.CredentialUnusable else None
            end
        end with
  | Some reason => CandidateEvaluation.Filtered reason
  | None =>
      if negb (provider_grant_allows grants context endpoint target)
      then CandidateEvaluation.Filtered RouteFilterReason.ProviderGrantDenied
      else CandidateEvaluation.Selected target endpoint
  end
  end
  end
  end.

(** ** Selecting a target *)

Definition sticky_route_for_policy (policy : RoutePolicyConfig.t) (request : RoutePlanRequest.t)
    (alias : ModelAliasConfig.t) (affinity_hash : string) : option StickyRouteRecord.t :=
  match RoutePolicyConfig.sticky_ttl_seconds policy with
  | None => None
  | Some _ =>
      RouteHotState.sticky_route (RoutePlanRequest.hot_state request)
        (AuthenticatedActor.tenant_id (RoutePlanRequest.actor request))
        (AuthenticatedActor.project_id (RoutePlanRequest.actor request))
        (ModelAliasConfig.model_alias_id alias) affinity_hash
        (RoutePlanRequest.config_version request) (RoutePlanRequest.now request)
  end.

Definition route_selection (context : RouteCandidateContext.t) (target : ModelTargetConfig.t)
    (endpoint : ProviderEndpoint.t) (filtered_summary : list RouteFilterSummary.t)
    (sticky_hit : bool) (sticky_miss_reason : option string) : RouteSelection.t :=
  {| RouteSelection.model_alias_id :=
       ModelAliasConfig.model_alias_id (RouteCandidateContext.alias context);
     RouteSelection.alias_name :=
       ModelAliasConfig.alias_name (RouteCandidateContext.alias context);
     RouteSelection.route_policy_id :=
       RoutePolicyConfig.route_policy_id (RouteCandidateContext.policy context);
     RouteSelection.routing_group_id :=
       RoutingGroupConfig.routing_group_id (RouteCandidateContext.group context);
     RouteSelection.model_target_id := ModelTargetConfig.model_target_id target;
     RouteSelection.upstream_model_id := ModelTargetConfig.upstream_model_id target;
     RouteSelection.pricing_sku_id := ModelTargetConfig.pricing_sku_id target;
     RouteSelection.provider_endpoint := endpoint;
     RouteSelection.upstream_credential_id := ModelTargetConfig.upstream_credential_id target;
     RouteSelection.filtered_summary := filtered_summary;
     RouteSelection.sticky_hit := sticky_hit;
     RouteSelection.sticky_miss_reason := sticky_miss_reason;
     RouteSelection.sticky_ttl_seconds :=
       RoutePolicyConfig.sticky_ttl_seconds (RouteCandidateContext.policy context) |}.

(** The two [&mut] arguments of the selection loops: the summary and the
    flag that some candidate was denied by a grant. *)
Module Evidence.
Record t : Set := mk {
  filtered_summary : list RouteFilterSummary.t;
  provider_grant_denied : bool;
}.
Definition filter (reason : RouteFilterReason.t) (ev : t) : t :=
  mk (add_filter_reason (filtered_summary ev) reason)
     (if reason ==? RouteFilterReason.ProviderGrantDenied then true
      else provider_grant_denied ev).
End Evidence.

Definition try_sticky_route_selection (grants : list ProviderGrantConfig.t)
    (request : RoutePlanRequest.t) (context : RouteCandidateContext.t)
    (candidates : list RoutingGroupTargetConfig.t) (ev : Evidence.t)
    : StickyRouteSelection.t * Evidence.t :=
  match RoutePlanRequest.route_affinity_hash request with
  | None => (StickyRouteSelection.Unavailable, ev)
  | Some affinity_hash =>
  match sticky_route_for_policy (RouteCandidateContext.policy context) request
          (RouteCandidateContext.alias context) affinity_hash with
  | None => (StickyRouteSelection.Unavailable, ev)
  | Some sticky =>
  if StickyRouteRecord.routing_group_id sticky
     !=? RoutingGroupConfig.routing_group_id (RouteCandidateContext.group context)
  then (StickyRouteSelection.Miss (Some "routing_group_changed"), ev)
  else
  match List.find (λ candidate, RoutingGroupTargetConfig.model_target_id candidate
                                ==? StickyRouteRecord.model_target_id sticky) candidates with
  | None => (StickyRouteSelection.Miss (Some "model_target_missing"), ev)
  | Some candidate =>
  match evaluate_candidate grants candidate context with
  | CandidateEvaluation.Selected target endpoint =>
      if ProviderEndpoint.provider_endpoint_id endpoint
         ==? StickyRouteRecord.provider_endpoint_id sticky
      then (StickyRouteSelection.Selected
              (route_selection context target endpoint (Evidence.filtered_summary ev) true None),
            ev)
      else (StickyRouteSelection.Miss (Some "provider_endpoint_changed"), ev)
  | CandidateEvaluation.Filtered reason =>
      (StickyRouteSelection.Miss (Some (RouteFilterReason.as_str reason)),
       Evidence.filter reason ev)
  end
  end
  end
  end.

Fixpoint first_eligible_route_selection (grants : list ProviderGrantConfig.t)
    (context : RouteCandidateContext.t) (candidates : list RoutingGroupTargetConfig.t)
    (ev : Evidence.t) (sticky_miss_reason : option string)
    : option RouteSelection.t * Evidence.t :=
  match candidates with
  | [] => (None, ev)
  | candidate :: candidates' =>
      match evaluate_candidate grants candidate context with
      | CandidateEvaluation.Selected target endpoint =>
          (Some (route_selection context target endpoint (Evidence.filtered_summary ev)
                   false sticky_miss_reason), ev)
      | CandidateEvaluation.Filtered reason =>
          first_eligible_route_selection grants context candidates'
            (Evidence.filter reason ev) sticky_miss_reason
      end
  end.

(** Priority ascending, weight descending, then target id. *)
Definition candidate_order : RoutingGroupTargetConfig.t → RoutingGroupTargetConfig.t → comparison :=
  cmp_then (cmp_on RoutingGroupTargetConfig.priority Z.compare)
    (cmp_then (cmp_rev (cmp_on RoutingGroupTargetConfig.weight Z.compare))
       (cmp_on RoutingGroupTargetConfig.model_target_id String.compare)).

Definition sorted_candidates (self : GatewayCatalogSnapshot.t) (group : RoutingGroupConfig.t)
    : list RoutingGroupTargetConfig.t :=
  sort_by candidate_order
    (List.filter (λ candidate, RoutingGroupTargetConfig.routing_group_id candidate
                               ==? RoutingGroupConfig.routing_group_id group)
       (GatewayCatalogSnapshot.routing_group_targets self)).

Definition plan_runtime_route_with_hot_state (self : GatewayCatalogSnapshot.t)
    (request : RoutePlanRequest.t) : Result RoutePlan.t :=
  binding ← resolve_route_binding self request;
  let '(alias, policy, group) := binding in
  endpoints ← index_endpoints (GatewayCatalogSnapshot.provider_endpoints self);
  credentials ← index_credentials (GatewayCatalogSnapshot.upstream_credentials self);
  targets ← index_targets (GatewayCatalogSnapshot.model_targets self);
  let candidates := sorted_candidates self group in
  let context := RouteCandidateContext.mk (RoutePlanRequest.actor request)
    (RoutePlanRequest.protocol_family request) (RoutePlanRequest.streaming request)
    alias policy group endpoints credentials targets (RoutePlanRequest.hot_state request)
    (RoutePlanRequest.config_version request) (RoutePlanRequest.now request) in
  let grants := GatewayCatalogSnapshot.provider_grants self in
  let '(sticky, ev) :=
    try_sticky_route_selection grants request context candidates (Evidence.mk [] false) in
  match sticky with
  | StickyRouteSelection.Selected selection =>
      Ok (RoutePlan.mk (RoutePlanOutcome.Selected selection) (Evidence.filtered_summary ev))
  | StickyRouteSelection.Miss _ | StickyRouteSelection.Unavailable =>
      let sticky_miss_reason :=
        match sticky with StickyRouteSelection.Miss reason => reason | _ => None end in
      let '(selection, ev) :=
        first_eligible_route_selection grants context candidates ev sticky_miss_reason in
      match selection with
      | Some selection =>
          Ok (RoutePlan.mk (RoutePlanOutcome.Selected selection) (Evidence.filtered_summary ev))
      | None =>
          if Evidence.provider_grant_denied ev
          then Ok (RoutePlan.mk RoutePlanOutcome.ProviderGrantDenied (Evidence.filtered_summary ev))
          else Ok (RoutePlan.mk RoutePlanOutcome.NoRoute (Evidence.filtered_summary ev))
      end
  end.

Definition plan_runtime_route (self : GatewayCatalogSnapshot.t) (actor : AuthenticatedActor.t)
    (protocol_family : ProtocolFamily.t) (alias_name : string) (streaming : bool)
    (now : DateTime) : Result RoutePlan.t :=
  plan_runtime_route_with_hot_state self
    {| RoutePlanRequest.actor := actor;
       RoutePlanRequest.protocol_family := protocol_family;
       RoutePlanRequest.alias_name := alias_name;
       RoutePlanRequest.streaming := streaming;
       RoutePlanRequest.hot_state := NullRouteHotState;
       RoutePlanRequest.config_version := None;
       RoutePlanRequest.now := now;
       RoutePlanRequest.route_affinity_hash := None |}.

Definition select_runtime_route (self : GatewayCatalogSnapshot.t) (actor : AuthenticatedActor.t)
    (protocol_family : ProtocolFamily.t) (alias_name : string) (streaming : bool)
    (now : DateTime) : Result RouteSelection.t :=
  plan ← plan_runtime_route self actor protocol_family alias_name streaming now;
  match RoutePlan.outcome plan with
  | RoutePlanOutcome.Selected selection => Ok selection
  | RoutePlanOutcome.ProviderGrantDenied =>
      Err (GatewayError.Authorization "provider_grant_denied")
  | RoutePlanOutcome.NoRoute => Err (GatewayError.NoRoute "no_eligible_model_target")
  end.

(** ** Specification of planning *)

(** Why the loop skips a candidate, if it does. *)
Definition filter_reason (grants : list ProviderGrantConfig.t) (context : RouteCandidateContext.t)
    (candidate : RoutingGroupTargetConfig.t) : option RouteFilterReason.t :=
  match evaluate_candidate grants candidate context with
  | CandidateEvaluation.Selected _ _ => None
  | CandidateEvaluation.Filtered reason => Some reason
  end.

(** A candidate may carry the request: every gate, as one conjunction. *)
Record eligible (grants : list ProviderGrantConfig.t) (context : RouteCandidateContext.t)
    (candidate : RoutingGroupTargetConfig.t) (target : ModelTargetConfig.t)
    (endpoint : ProviderEndpoint.t) : Prop := {
  el_candidate_active : RoutingGroupTargetConfig.status candidate = ResourceStatus.Active;
  el_target : RouteCandidateContext.targets context
                !! RoutingGroupTargetConfig.model_target_id candidate = Some target;
  el_target_active : ModelTargetConfig.status target = ResourceStatus.Active;
  el_target_protocol :
    ModelTargetConfig.protocol_family target = RouteCandidateContext.protocol_family context;
  el_streaming : RouteCandidateContext.streaming context = true →
                 ModelTargetConfig.supports_streaming target = true;
  el_endpoint : RouteCandidateContext.endpoints context
                  !! ModelTargetConfig.provider_endpoint_id target = Some endpoint;
  el_endpoint_active : ProviderEndpoint.status endpoint = ResourceStatus.Active;
  el_endpoint_protocol :
    RouteCandidateContext.protocol_family context ∈ ProviderEndpoint.protocol_families endpoint;
  el_not_drained :
    RouteHotState.endpoint_is_drained (RouteCandidateContext.hot_state context)
      (ProviderEndpoint.tenant_id endpoint) (ProviderEndpoint.provider_endpoint_id endpoint)
      (RouteCandidateContext.config_version context) (RouteCandidateContext.now context) = false;
  el_health :
    RouteHotState.endpoint_health_state (RouteCandidateContext.hot_state context)
      (ProviderEndpoint.tenant_id endpoint) (ProviderEndpoint.provider_endpoint_id endpoint)
      (RouteCandidateContext.config_version context) (RouteCandidateContext.now context)
    ∉ [EndpointHealthState.Blocked; EndpointHealthState.Unhealthy];
  el_credential : ∀ id, ModelTargetConfig.upstream_credential_id target = Some id →
    ∃ credential, RouteCandidateContext.credentials context !! id = Some credential ∧
      CredentialStatus.is_usable (UpstreamCredentialConfig.status credential) = true;
  el_grant : provider_grant_allows grants context endpoint target = true;
}.

(** The context a request is planned in, or the error that ends planning. *)
Definition request_context (self : GatewayCatalogSnapshot.t) (request : RoutePlanRequest.t)
    : Result RouteCandidateContext.t :=
  binding ← resolve_route_binding self request;
  let '(alias, policy, group) := binding in
  endpoints ← index_endpoints (GatewayCatalogSnapshot.provider_endpoints self);
  credentials ← index_credentials (GatewayCatalogSnapshot.upstream_credentials self);
  targets ← index_targets (GatewayCatalogSnapshot.model_targets self);
  Ok (RouteCandidateContext.mk (RoutePlanRequest.actor request)
    (RoutePlanRequest.protocol_family request) (RoutePlanRequest.streaming request)
    alias policy group endpoints credentials targets (RoutePlanRequest.hot_state request)
    (RoutePlanRequest.config_version request) (RoutePlanRequest.now request)).

(** A sticky route the request may reuse: the record that the hot state holds
    for the affinity key, still naming a target of the group that is eligible
    on the same endpoint. *)
Definition sticky_reusable (grants : list ProviderGrantConfig.t) (request : RoutePlanRequest.t)
    (context : RouteCandidateContext.t) (candidates : list RoutingGroupTargetConfig.t)
    (target : ModelTargetConfig.t) (endpoint : ProviderEndpoint.t) : Prop :=
  ∃ hash sticky candidate,
    RoutePlanRequest.route_affinity_hash request = Some hash ∧
    sticky_route_for_policy (RouteCandidateContext.policy context) request
      (RouteCandidateContext.alias context) hash = Some sticky ∧
    StickyRouteRecord.routing_group_id sticky =
      RoutingGroupConfig.routing_group_id (RouteCandidateContext.group context) ∧
    List.find (λ c, RoutingGroupTargetConfig.model_target_id c
                    ==? StickyRouteRecord.model_target_id sticky) candidates = Some candidate ∧
    eligible grants context candidate target endpoint ∧
    ProviderEndpoint.provider_endpoint_id endpoint = StickyRouteRecord.provider_endpoint_id sticky.

(** ** Lemmas *)

(** The credential gate, on its own. *)
Definition credential_reason (context : RouteCandidateContext.t) (target : ModelTargetConfig.t)
    : option RouteFilterReason.t :=
  match ModelTargetConfig.upstream_credential_id target with
  | None => None
  | Some credential_id =>
      match RouteCandidateContext.credentials context !! credential_id with
      | None => Some RouteFilterReason.CredentialMissing
      | Some credential =>
          if negb (CredentialStatus.is_usable (UpstreamCredentialConfig.status credential))
          then Some RouteFilterReason.CredentialUnusable else None
      end
  end.

Lemma credential_reason_none context target :
  credential_reason context target = None ↔
  ∀ id, ModelTargetConfig.upstream_credential_id target = Some id →
    ∃ credential, RouteCandidateContext.credentials context !! id = Some credential ∧
      CredentialStatus.is_usable (UpstreamCredentialConfig.status credential) = true.
Proof.
  unfold credential_reason.
  destruct (ModelTargetConfig.upstream_credential_id target) as [id|]; [|naive_solver].
  destruct (RouteCandidateContext.credentials context !! id) as [cr|] eqn:E1.
  - destruct (CredentialStatus.is_usable _) eqn:E; split; try done.
    + intros _ id' [= <-]. eauto.
    + intros H. destruct (H id eq_refl) as (? & ? & ?). congruence.
  - split; [done|]. intros H. destruct (H id eq_refl) as (? & ? & ?). congruence.
Qed.

Lemma health_ok_iff (h : EndpointHealthState.t) :
  h ∉ [EndpointHealthState.Blocked; EndpointHealthState.Unhealthy] ↔
  match h with
  | EndpointHealthState.Blocked | EndpointHealthState.Unhealthy => False
  | _ => True
  end.
Proof. destruct h; set_solver. Qed.

Lemma evaluate_selected_iff grants candidate context target endpoint :
  evaluate_candidate grants candidate context = CandidateEvaluation.Selected target endpoint ↔
  eligible grants context candidate target endpoint.
Proof.
  unfold evaluate_candidate. split.
  - destruct (ResourceStatus.is_active (RoutingGroupTargetConfig.status _)) eqn:A1; [|done].
    destruct (RouteCandidateContext.targets _ !! _) as [t|] eqn:A2; [|done].
    destruct (ResourceStatus.is_active (ModelTargetConfig.status _)) eqn:A3; [|done].
    case_bool_decide as A4; [|done].
    destruct (RouteCandidateContext.streaming _ && _) eqn:A5; [done|].
    destruct (RouteCandidateContext.endpoints _ !! _) as [e|] eqn:A6; [|done].
    destruct (ResourceStatus.is_active (ProviderEndpoint.status _)) eqn:A7; [|done].
    case_bool_decide as A8; [|done].
    destruct (RouteHotState.endpoint_is_drained _ _ _ _ _) eqn:A9; [done|]. simpl.
    fold (credential_reason context t).
    destruct (credential_reason context t) eqn:A10; [by repeat case_match|].
    destruct (provider_grant_allows _ _ _ _) eqn:A11; [|by repeat case_match]. simpl. intros H.
    assert (t = target ∧ e = endpoint) as [-> ->] by (by repeat case_match; simplify_eq).
    rewrite credential_reason_none in A10. rewrite !is_active_iff in *.
    constructor; try done.
    + intros Hs. rewrite Hs in A5. by destruct (ModelTargetConfig.supports_streaming _).
    + apply health_ok_iff. by case_match.
  - intros [A1 A2 A3 A4 A5 A6 A7 A8 A9 A10 A11%credential_reason_none A12].
    rewrite A1, A2. simpl. rewrite A3, bool_decide_true by done. simpl.
    destruct (RouteCandidateContext.streaming context && _) eqn:E1.
    { btrue. rewrite A5 in *; done. }
    rewrite A6, A7, bool_decide_true, A9 by done. simpl.
    fold (credential_reason context target). rewrite A11, A12. simpl.
    apply health_ok_iff in A10. by case_match.
Qed.

Lemma filter_reason_none grants context candidate :
  filter_reason grants context candidate = None ↔
  ∃ target endpoint, eligible grants context candidate target endpoint.
Proof.
  unfold filter_reason. setoid_rewrite <- evaluate_selected_iff.
  destruct (evaluate_candidate _ _ _); naive_solver.
Qed.

(** Evidence accumulated over a list of reasons. *)
Definition filter_all (reasons : list RouteFilterReason.t) (ev : Evidence.t) : Evidence.t :=
  fold_left (λ ev r, Evidence.filter r ev) reasons ev.

Lemma filter_all_summary reasons ev :
  Evidence.filtered_summary (filter_all reasons ev) =
  add_filter_reasons (Evidence.filtered_summary ev) reasons.
Proof. revert ev. induction reasons as [|r rs IH]; intros ev; [done|]. apply IH. Qed.

Lemma filter_all_denied reasons ev :
  Evidence.provider_grant_denied (filter_all reasons ev) =
  Evidence.provider_grant_denied ev
  || existsb (λ r, r ==? RouteFilterReason.ProviderGrantDenied) reasons.
Proof.
  revert ev. induction reasons as [|r rs IH]; intros ev; [by rewrite orb_false_r|].
  change (filter_all (r :: rs) ev) with (filter_all rs (Evidence.filter r ev)).
  rewrite IH. simpl. case_bool_decide; simpl; [by rewrite orb_true_r|done].
Qed.

(** The loop stops at the first eligible candidate and records the reasons of
    those before it. *)
Lemma first_eligible_spec grants context candidates ev miss :
  (∃ pre candidate post target endpoint,
    candidates = pre ++ candidate :: post ∧
    (∀ c, c ∈ pre → filter_reason grants context c ≠ None) ∧
    eligible grants context candidate target endpoint ∧
    let ev' := filter_all (omap (filter_reason grants context) pre) ev in
    first_eligible_route_selection grants context candidates ev miss =
      (Some (route_selection context target endpoint (Evidence.filtered_summary ev') false miss),
       ev')) ∨
  ((∀ c, c ∈ candidates → filter_reason grants context c ≠ None) ∧
   first_eligible_route_selection grants context candidates ev miss =
     (None, filter_all (omap (filter_reason grants context) candidates) ev)).
Proof.
  revert ev. induction candidates as [|c cs IH]; intros ev; [right; set_solver|].
  cbn [first_eligible_route_selection].
  destruct (evaluate_candidate grants c context) as [t e|r] eqn:E.
  - left. exists [], c, cs, t, e. apply evaluate_selected_iff in E. set_solver.
  - assert (filter_reason grants context c = Some r) as Hr by (unfold filter_reason; by rewrite E).
    destruct (IH (Evidence.filter r ev)) as [(pre & d & post & t & e & -> & Hpre & Hel & Hev)|[Hall Hev]].
    + left. exists (c :: pre), d, post, t, e. split_and!; [done| |done|].
      * intros x [->|Hx]%elem_of_cons; [congruence|auto].
      * cbn zeta. rewrite Hev. cbn [omap list_omap]. by rewrite Hr.
    + right. split.
      * intros x [->|Hx]%elem_of_cons; [congruence|auto].
      * rewrite Hev. cbn [omap list_omap]. by rewrite Hr.
Qed.

(** The reason recorded while trying the sticky route, if it names a target of
    the group that is filtered. *)
Definition sticky_filter_reason (grants : list ProviderGrantConfig.t)
    (request : RoutePlanRequest.t) (context : RouteCandidateContext.t)
    (candidates : list RoutingGroupTargetConfig.t) : option RouteFilterReason.t :=
  hash ← RoutePlanRequest.route_affinity_hash request;
  sticky ← sticky_route_for_policy (RouteCandidateContext.policy context) request
             (RouteCandidateContext.alias context) hash;
  if StickyRouteRecord.routing_group_id sticky
     !=? RoutingGroupConfig.routing_group_id (RouteCandidateContext.group context)
  then None
  else
    candidate ← List.find (λ c, RoutingGroupTargetConfig.model_target_id c
                                ==? StickyRouteRecord.model_target_id sticky) candidates;
    filter_reason grants context candidate.

Definition miss_reason (s : StickyRouteSelection.t) : option string :=
  match s with StickyRouteSelection.Miss reason => reason | _ => None end.

(** A path of [try_sticky_route_selection] that returns no selection. *)
Ltac no_sticky :=
  right; split;
  [intros ? ? (?h & ?s & ?c & ?H1 & ?H2 & ?H3 & ?H4 & ?H5 & ?H6); simplify_eq; congruence
  |eexists; split; [|reflexivity]; done].

Lemma try_sticky_spec grants request context candidates ev :
  (∃ target endpoint,
    sticky_reusable grants request context candidates target endpoint ∧
    try_sticky_route_selection grants request context candidates ev =
      (StickyRouteSelection.Selected
         (route_selection context target endpoint (Evidence.filtered_summary ev) true None), ev)) ∨
  ((∀ target endpoint, ¬ sticky_reusable grants request context candidates target endpoint) ∧
   ∃ s, (∀ selection, s ≠ StickyRouteSelection.Selected selection) ∧
     try_sticky_route_selection grants request context candidates ev =
       (s, filter_all (option_list (sticky_filter_reason grants request context candidates)) ev)).
Proof.
  unfold try_sticky_route_selection, sticky_reusable, sticky_filter_reason.
  destruct (RoutePlanRequest.route_affinity_hash request) as [hash|]; simpl;
    [|no_sticky].
  destruct (sticky_route_for_policy _ _ _ hash) as [st|] eqn:Hs; simpl;
    [|no_sticky].
  case_bool_decide as Hg; simpl;
    [|no_sticky].
  destruct (List.find _ candidates) as [cand|] eqn:Hf; simpl;
    [|no_sticky].
  unfold filter_reason. destruct (evaluate_candidate grants cand context) as [t e|r] eqn:He.
  - apply evaluate_selected_iff in He as Hel. case_bool_decide as Hep.
    + left. exists t, e. split; [|done]. exists hash, st, cand. by split_and!.
    + right. split; [|eexists; split; [|reflexivity]; done].
      intros t' e' (h & s' & c' & [= <-] & ? & _ & ? & Hel' & ?). simplify_eq.
      apply evaluate_selected_iff in Hel'. congruence.
  - right. split; [|eexists; split; [|reflexivity]; done].
    intros t' e' (h & s' & c' & [= <-] & ? & _ & ? & Hel'%evaluate_selected_iff & ?).
    simplify_eq; congruence.
Qed.

Section plan.
Context (self : GatewayCatalogSnapshot.t) (request : RoutePlanRequest.t).
Context (context : RouteCandidateContext.t).
Let grants := GatewayCatalogSnapshot.provider_grants self.
Let candidates := sorted_candidates self (RouteCandidateContext.group context).

(** Once the context is known, planning is the two selection steps. *)
Lemma plan_unfold : request_context self request = Ok context →
  plan_runtime_route_with_hot_state self request =
  let '(sticky, ev) :=
    try_sticky_route_selection grants request context candidates (Evidence.mk [] false) in
  match sticky with
  | StickyRouteSelection.Selected selection =>
      Ok (RoutePlan.mk (RoutePlanOutcome.Selected selection) (Evidence.filtered_summary ev))
  | _ =>
      let '(selection, ev) := first_eligible_route_selection grants context candidates ev
                                (miss_reason sticky) in
      match selection with
      | Some selection =>
          Ok (RoutePlan.mk (RoutePlanOutcome.Selected selection) (Evidence.filtered_summary ev))
      | None =>
          Ok (RoutePlan.mk (if Evidence.provider_grant_denied ev
                            then RoutePlanOutcome.ProviderGrantDenied else RoutePlanOutcome.NoRoute)
                (Evidence.filtered_summary ev))
      end
  end.
Proof.
  unfold request_context, plan_runtime_route_with_hot_state.
  destruct (resolve_route_binding self request) as [[[alias policy] group]|]; [|done]. simpl.
  destruct (index_endpoints _) as [es|]; [|done]. simpl.
  destruct (index_credentials _) as [cs|]; [|done]. simpl.
  destruct (index_targets _) as [ts|]; [|done]. simpl. intros [= <-]. fold grants.
  unfold candidates; simpl.
  destruct (try_sticky_route_selection _ _ _ _ _) as [[] ev]; [done| |];
    simpl; destruct (first_eligible_route_selection _ _ _ _ _) as [[] ev']; try done;
    by destruct (Evidence.provider_grant_denied ev').
Qed.

(** The plan, case by case. *)
Lemma plan_cases : request_context self request = Ok context →
  (∃ target endpoint,
    sticky_reusable grants request context candidates target endpoint ∧
    plan_runtime_route_with_hot_state self request =
      Ok (RoutePlan.mk (RoutePlanOutcome.Selected
            (route_selection context target endpoint [] true None)) [])) ∨
  (∀ target endpoint, ¬ sticky_reusable grants request context candidates target endpoint) ∧
  ((∃ pre candidate post target endpoint miss,
     candidates = pre ++ candidate :: post ∧
     (∀ c, c ∈ pre → filter_reason grants context c ≠ None) ∧
     eligible grants context candidate target endpoint ∧
     let summary := add_filter_reasons []
       (option_list (sticky_filter_reason grants request context candidates)
        ++ omap (filter_reason grants context) pre) in
     plan_runtime_route_with_hot_state self request =
       Ok (RoutePlan.mk (RoutePlanOutcome.Selected
             (route_selection context target endpoint summary false miss)) summary)) ∨
   (∀ c, c ∈ candidates → filter_reason grants context c ≠ None) ∧
   plan_runtime_route_with_hot_state self request =
     Ok (RoutePlan.mk
       (if existsb (λ r, r ==? RouteFilterReason.ProviderGrantDenied)
             (option_list (sticky_filter_reason grants request context candidates)
              ++ omap (filter_reason grants context) candidates)
        then RoutePlanOutcome.ProviderGrantDenied else RoutePlanOutcome.NoRoute)
       (add_filter_reasons []
         (option_list (sticky_filter_reason grants request context candidates)
          ++ omap (filter_reason grants context) candidates)))).
Proof.
  intros Hctx. rewrite (plan_unfold Hctx).
  destruct (try_sticky_spec grants request context candidates (Evidence.mk [] false))
    as [(t & e & Hst & ->)|(Hno & s & Hs & ->)]; [left; by exists t, e|].
  right. split; [done|].
  set (ev := filter_all _ _).
  assert (∀ rs, filter_all rs ev = filter_all
    (option_list (sticky_filter_reason grants request context candidates) ++ rs)
    (Evidence.mk [] false)) as Hev.
  { intros rs. unfold ev, filter_all. by rewrite fold_left_app. }
  destruct (first_eligible_spec grants context candidates ev (miss_reason s))
    as [(pre & c & post & t & e & Hc & Hpre & Hel & Hfe)|[Hall Hfe]].
  - left. exists pre, c, post, t, e, (miss_reason s). cbn zeta in *. split_and!; [done..|].
    rewrite Hev, filter_all_summary in Hfe. rewrite Hfe.
    destruct s; [by destruct (Hs selection)|by rewrite filter_all_summary..].
  - right. split; [done|]. rewrite Hfe, Hev, filter_all_denied, filter_all_summary. simpl.
    destruct s; [by destruct (Hs selection)|done..].
Qed.
End plan.

#[global] Instance score_order_total : TotalCmp score_order.
Proof. apply cmp_rev_total, cmp_on_total, _. Qed.
#[global] Instance candidate_order_total : TotalCmp candidate_order.
Proof.
  apply cmp_then_total; [apply cmp_on_total, _|].
  apply cmp_then_total; [apply cmp_rev_total, cmp_on_total, _|apply cmp_on_total, _].
Qed.

Lemma sorted_candidates_elem self group candidate :
  candidate ∈ sorted_candidates self group ↔
  candidate ∈ GatewayCatalogSnapshot.routing_group_targets self ∧
  RoutingGroupTargetConfig.routing_group_id candidate = RoutingGroupConfig.routing_group_id group.
Proof. unfold sorted_candidates. by rewrite sort_by_elem, filter_iff, bool_decide_eq_true. Qed.

Lemma sticky_filter_reason_some grants request context candidates r :
  sticky_filter_reason grants request context candidates = Some r →
  ∃ c, c ∈ candidates ∧ filter_reason grants context c = Some r.
Proof.
  unfold sticky_filter_reason. intros (h & _ & (s & _ & H)%bind_Some)%bind_Some.
  case_bool_decide; simplify_eq/=. apply bind_Some in H as (c & Hc & Hr).
  exists c. split; [by eapply find_Some_in|done].
Qed.

Lemma sticky_reusable_eligible grants request context candidates target endpoint :
  sticky_reusable grants request context candidates target endpoint →
  ∃ c, c ∈ candidates ∧ eligible grants context c target endpoint.
Proof.
  intros (h & s & c & _ & _ & _ & Hf & Hel & _). exists c.
  split; [by eapply find_Some_in|done].
Qed.

Lemma sticky_reusable_unique grants request context candidates t e t' e' :
  sticky_reusable grants request context candidates t e →
  sticky_reusable grants request context candidates t' e' → t = t' ∧ e = e'.
Proof.
  intros (h & s & c & Hh & Hs & _ & Hc & Hel & _) (h' & s' & c' & Hh' & Hs' & _ & Hc' & Hel' & _).
  apply evaluate_selected_iff in Hel, Hel'. simplify_eq. naive_solver congruence.
Qed.

Lemma filter_omap_length {A} (f : A → option RouteFilterReason.t) r l :
  length (List.filter (λ x, x ==? r) (omap f l)) = length (List.filter (λ c, f c ==? Some r) l).
Proof.
  induction l as [|c l IH]; [done|]. cbn [omap list_omap List.filter].
  destruct (f c) as [r'|]; cbn [List.filter]; [|done].
  repeat case_bool_decide; simplify_eq/=; auto.
Qed.

Lemma denied_reason_iff grants request context candidates :
  existsb (λ r, r ==? RouteFilterReason.ProviderGrantDenied)
    (option_list (sticky_filter_reason grants request context candidates)
     ++ omap (filter_reason grants context) candidates) = true ↔
  ∃ c, c ∈ candidates ∧ filter_reason grants context c = Some RouteFilterReason.ProviderGrantDenied.
Proof.
  rewrite existsb_iff. setoid_rewrite bool_decide_eq_true. split.
  - intros (r & Hr & ->). rewrite elem_of_app, list_elem_of_omap in Hr.
    destruct Hr as [Hr|Hr]; [|done].
    destruct (sticky_filter_reason _ _ _ _) eqn:E; [|by apply not_elem_of_nil in Hr].
    apply list_elem_of_singleton in Hr as <-. by eapply sticky_filter_reason_some.
  - intros Hc. exists RouteFilterReason.ProviderGrantDenied. split; [|done].
    rewrite elem_of_app, list_elem_of_omap. by right.
Qed.

(** Everything before an element of the sorted candidates is preferred to it,
    so the first eligible candidate is a minimum of the eligible ones. *)
Lemma first_in_order self group grants context pre candidate post other target endpoint :
  sorted_candidates self group = pre ++ candidate :: post →
  (∀ c, c ∈ pre → filter_reason grants context c ≠ None) →
  other ∈ sorted_candidates self group → eligible grants context other target endpoint →
  candidate_order candidate other ≠ Gt.
Proof.
  intros Hsort Hpre Hin Hel. rewrite Hsort, elem_of_app, elem_of_cons in Hin.
  destruct Hin as [Hin|[->|Hin]].
  - destruct (Hpre other Hin). apply filter_reason_none. eauto.
  - rewrite (cmp_refl candidate_order). done.
  - apply (strongly_sorted_app_le (cmp_le candidate_order) pre candidate post other); [|done].
    rewrite <- Hsort. apply sort_by_sorted, _.
Qed.

(** ** Properties of planning *)

(** C1. Planning decides eligibility: for a request with a context it always
    returns a plan; a selected plan names the target and endpoint of a target
    of the routing group that passes every gate (lifecycle, protocol,
    streaming, drain, health, credential, grant); a plan without a selection
    means no target of the group is eligible, and it is reported as a grant
    denial exactly when some target was filtered for that reason. *)
Theorem plan_decides_eligibility self request context :
  request_context self request = Ok context →
  let grants := GatewayCatalogSnapshot.provider_grants self in
  let in_group c := c ∈ GatewayCatalogSnapshot.routing_group_targets self ∧
    RoutingGroupTargetConfig.routing_group_id c =
    RoutingGroupConfig.routing_group_id (RouteCandidateContext.group context) in
  ∃ plan, plan_runtime_route_with_hot_state self request = Ok plan ∧
  match RoutePlan.outcome plan with
  | RoutePlanOutcome.Selected selection =>
      ∃ c target endpoint, in_group c ∧ eligible grants context c target endpoint ∧
        ∃ summary hit miss,
          selection = route_selection context target endpoint summary hit miss
  | RoutePlanOutcome.ProviderGrantDenied =>
      (∀ c target endpoint, in_group c → ¬ eligible grants context c target endpoint) ∧
      ∃ c, in_group c ∧ filter_reason grants context c = Some RouteFilterReason.ProviderGrantDenied
  | RoutePlanOutcome.NoRoute =>
      (∀ c target endpoint, in_group c → ¬ eligible grants context c target endpoint) ∧
      ∀ c, in_group c → filter_reason grants context c ≠ Some RouteFilterReason.ProviderGrantDenied
  end.
Proof.
  intros Hctx grants in_group.
  assert (∀ c, in_group c ↔ c ∈ sorted_candidates self (RouteCandidateContext.group context))
    as Hin by (intros c; by rewrite sorted_candidates_elem).
  destruct (plan_cases self request context Hctx)
    as [(t & e & Hst & ->)|[_ [(pre & c & post & t & e & miss & Hc & _ & Hel & ->)|[Hall ->]]]].
  - eexists. split; [reflexivity|]. apply sticky_reusable_eligible in Hst as (c & Hc%Hin & Hel).
    simpl. eauto 10.
  - eexists. split; [reflexivity|]. exists c, t, e.
    split; [apply Hin; rewrite Hc; set_solver|]. eauto 10.
  - eexists. split; [reflexivity|]. fold grants.
    assert (∀ c target endpoint, in_group c → ¬ eligible grants context c target endpoint).
    { intros c t e Hc%Hin Hel. apply (Hall c Hc), filter_reason_none. eauto. }
    simpl. destruct (existsb _ _) eqn:E; split; try done.
    + apply denied_reason_iff in E as (c & Hc & Hr). exists c. by rewrite Hin.
    + intros c Hc%Hin Hr. apply not_true_iff_false in E. apply E, denied_reason_iff. eauto.
Qed.

(** [best] goes before [other] or is indistinguishable from it: lower priority
    number first, then higher weight, then the target id. *)
Definition preferred (best other : RoutingGroupTargetConfig.t) : Prop :=
  let p := RoutingGroupTargetConfig.priority in
  let w := RoutingGroupTargetConfig.weight in
  let id := RoutingGroupTargetConfig.model_target_id in
  (p best < p other ∨
   p best = p other ∧
   (w other < w best ∨ w best = w other ∧ String.compare (id best) (id other) ≠ Gt))%Z.

Lemma candidate_order_preferred best other :
  candidate_order best other ≠ Gt → preferred best other.
Proof.
  unfold candidate_order, preferred, cmp_then, cmp_rev, cmp_on. cbv zeta.
  destruct (Z.compare_spec (RoutingGroupTargetConfig.priority best)
    (RoutingGroupTargetConfig.priority other)); [|by left|done].
  destruct (Z.compare_spec (RoutingGroupTargetConfig.weight other)
    (RoutingGroupTargetConfig.weight best)); simpl; intros Hid; try done; right; split; auto.
Qed.

(** Without a sticky hit the best target wins: a selection that is not a
    sticky hit comes from a candidate that no eligible candidate of the group
    precedes in the order priority, then weight (larger first), then target
    id. *)
Theorem selection_is_best self request context plan selection :
  request_context self request = Ok context →
  plan_runtime_route_with_hot_state self request = Ok plan →
  RoutePlan.outcome plan = RoutePlanOutcome.Selected selection →
  RouteSelection.sticky_hit selection = false →
  let grants := GatewayCatalogSnapshot.provider_grants self in
  let candidates := sorted_candidates self (RouteCandidateContext.group context) in
  ∃ best target endpoint, best ∈ candidates ∧ eligible grants context best target endpoint ∧
    RouteSelection.model_target_id selection = ModelTargetConfig.model_target_id target ∧
    RouteSelection.provider_endpoint selection = endpoint ∧
    ∀ other t e, other ∈ candidates → eligible grants context other t e →
      preferred best other.
Proof.
  intros Hctx Hplan Hsel Hhit grants candidates.
  destruct (plan_cases self request context Hctx)
    as [(t & e & _ & E)|[_ [(pre & c & post & t & e & miss & Hc & Hpre & Hel & E)|[_ E]]]];
    rewrite E in Hplan; simplify_eq/=.
  - exists c, t, e. split_and!; try done; [unfold candidates; rewrite Hc; set_solver|].
    intros other t' e' Hin Hel'. apply candidate_order_preferred. by eapply first_in_order.
  - by case_match.
Qed.

(** Sticky routes are hints, never a bypass: a plan is a sticky hit exactly
    when the hot state holds a fresh record for the request's affinity key
    under a policy that permits stickiness, the record names the policy's
    current group, and the target it names is still eligible on the endpoint
    it names; the plan then selects that target. *)
Theorem sticky_hit_iff_reusable self request context :
  request_context self request = Ok context →
  let reusable := sticky_reusable (GatewayCatalogSnapshot.provider_grants self) request context
    (sorted_candidates self (RouteCandidateContext.group context)) in
  (∀ target endpoint, reusable target endpoint →
    plan_runtime_route_with_hot_state self request =
      Ok (RoutePlan.mk (RoutePlanOutcome.Selected
            (route_selection context target endpoint [] true None)) [])) ∧
  (∀ plan selection,
    plan_runtime_route_with_hot_state self request = Ok plan →
    RoutePlan.outcome plan = RoutePlanOutcome.Selected selection →
    RouteSelection.sticky_hit selection = true →
    ∃ target endpoint, reusable target endpoint ∧
      selection = route_selection context target endpoint [] true None).
Proof.
  intros Hctx reusable.
  destruct (plan_cases self request context Hctx)
    as [(t & e & Hst & E)|[Hno [(pre & c & post & t & e & miss & _ & _ & _ & E)|[_ E]]]];
    rewrite E; split; intros ?? H; try (by destruct (Hno _ _ H)).
  - by destruct (sticky_reusable_unique _ _ _ _ _ _ _ _ Hst H) as [-> ->].
  - intros. simplify_eq/=. eauto.
  - intros. by simplify_eq/=.
  - intros. simplify_eq/=. by case_match.
Qed.

(** The filter summary accounts for every rejection: when nothing is
    selected it lists each reason once, with the number of candidates of the
    group filtered for it, plus one if the sticky route was tried and filtered
    for that reason: that candidate is evaluated, and counted, twice. *)
Theorem filter_summary_accounts self request context plan :
  request_context self request = Ok context →
  plan_runtime_route_with_hot_state self request = Ok plan →
  (∀ selection, RoutePlan.outcome plan ≠ RoutePlanOutcome.Selected selection) →
  let grants := GatewayCatalogSnapshot.provider_grants self in
  let candidates := sorted_candidates self (RouteCandidateContext.group context) in
  summary_wf (RoutePlan.filtered_summary plan) ∧
  ∀ r, count_of r (RoutePlan.filtered_summary plan) =
    (Z.of_nat (length (List.filter (λ c, filter_reason grants context c ==? Some r) candidates))
     + if sticky_filter_reason grants request context candidates ==? Some r then 1 else 0)%Z.
Proof.
  intros Hctx Hplan Hno grants candidates.
  destruct (plan_cases self request context Hctx)
    as [(t & e & _ & E)|[_ [(pre & c & post & t & e & miss & _ & _ & _ & E)|[_ E]]]];
    rewrite E in Hplan; simplify_eq/=; [by destruct (Hno _ eq_refl)..|].
  split; [apply add_filter_reasons_wf; split; constructor|]. intros r.
  rewrite add_filter_reasons_count. fold grants candidates. unfold occurrences.
  rewrite List.filter_app, length_app, filter_omap_length. simpl.
  destruct (sticky_filter_reason _ _ _ _) as [r'|]; simpl; [|lia].
  repeat case_bool_decide; simplify_eq/=; lia.
Qed.

(** ** Resolving aliases *)

(** The alias has the name in the actor's tenant, in a scope of the actor that
    scores [s]: 3 for its project, 2 for its organization, 1 for the tenant. *)
Definition alias_in_scope (self : GatewayCatalogSnapshot.t) (actor : AuthenticatedActor.t)
    (name : string) (s : Z) (a : ModelAliasConfig.t) : Prop :=
  a ∈ GatewayCatalogSnapshot.model_aliases self ∧
  ModelAliasConfig.tenant_id a = AuthenticatedActor.tenant_id actor ∧
  ModelAliasConfig.alias_name a = name ∧
  alias_scope_score a actor = Some s.

Lemma scoped_aliases_elem self actor name s a :
  (s, a) ∈ scoped_aliases self actor name ↔ alias_in_scope self actor name s a.
Proof.
  unfold scoped_aliases, alias_in_scope. rewrite list_elem_of_omap.
  setoid_rewrite filter_iff. setoid_rewrite andb_true_iff. setoid_rewrite bool_decide_eq_true.
  setoid_rewrite fmap_Some. naive_solver.
Qed.

Lemma score_order_le p q : score_order p q ≠ Gt ↔ (q.1 ≤ p.1)%Z.
Proof. unfold score_order, cmp_rev, cmp_on. by rewrite Z.compare_ngt_iff, Z.nlt_ge. Qed.

(** The head of the sorted scopes has the best score. *)
Lemma sorted_scores_head l p rest :
  sort_by score_order l = p :: rest →
  p ∈ l ∧ (∀ q, q ∈ l → q = p ∨ q ∈ rest) ∧ (∀ q, q ∈ rest → q ∈ l ∧ (q.1 ≤ p.1)%Z).
Proof.
  intros H. pose proof (λ x, sort_by_elem score_order x l) as Helem.
  pose proof (sort_by_sorted score_order l) as Hs. rewrite H in Helem, Hs.
  split_and!.
  - apply Helem. set_solver.
  - intros q Hq%Helem. set_solver.
  - intros q Hq. split; [apply Helem; set_solver|]. apply score_order_le.
    by apply (strongly_sorted_app_le (cmp_le score_order) [] p rest q).
Qed.

(** Alias resolution is tenant-isolated and most-specific-first: it returns
    an alias of the actor's tenant with the requested name whose scope is
    strictly more specific than that of every other alias in scope; it answers
    not-found exactly when no alias is in scope, and reports an ambiguity only
    when two aliases in scope share the most specific level. *)
Theorem resolve_alias_most_specific self actor name :
  match resolve_alias self actor name with
  | Ok a => ∃ s, alias_in_scope self actor name s a ∧
      ∀ s' a', alias_in_scope self actor name s' a' → a' = a ∨ (s' < s)%Z
  | Err (GatewayError.NotFound _) => ∀ s a, ¬ alias_in_scope self actor name s a
  | Err (GatewayError.BadRequest _) => ∃ s a b rest,
      sort_by score_order (scoped_aliases self actor name) = (s, a) :: rest ∧
      (s, b) ∈ rest ∧ ∀ s' a', alias_in_scope self actor name s' a' → (s' ≤ s)%Z
  | _ => False
  end.
Proof.
  unfold resolve_alias. destruct (sort_by score_order _) as [|[s a] rest] eqn:E.
  - intros s a Hin%scoped_aliases_elem. apply (sort_by_elem score_order) in Hin. rewrite E in Hin. set_solver.
  - destruct (sorted_scores_head _ _ _ E) as (Hin & Hcase & Hrest). simpl in Hrest.
    destruct (existsb _ rest) eqn:Ex.
    + apply existsb_iff in Ex as ([s' b] & Hb & Heq). btrue. simplify_eq/=.
      exists s, a, b, rest. split_and!; [done..|]. intros s' a' [[= -> ->]|Hq]%scoped_aliases_elem%Hcase; [lia|].
      by apply Hrest in Hq as [_ Hle].
    + rewrite existsb_false_iff in Ex. exists s. split; [by apply scoped_aliases_elem|].
      intros s' a' [[= -> ->]|Hq]%scoped_aliases_elem%Hcase; [by left|right].
      apply Hrest in Hq as Hle. specialize (Ex _ Hq). simpl in *. btrue. lia.
Qed.

(** ** Planning on a validated snapshot *)

Lemma nodup_key_eq {A} (key : A → string) l x y :
  NoDup (key <$> l) → x ∈ l → y ∈ l → key x = key y → x = y.
Proof.
  intros Hnd [i Hi]%list_elem_of_lookup [j Hj]%list_elem_of_lookup E.
  assert (i = j) as ->; [|congruence].
  apply (NoDup_lookup _ i j (key x) Hnd); rewrite list_lookup_fmap, ?Hi, ?Hj; simpl; congruence.
Qed.

Lemma find_key_unique {A} (key : A → string) l x k :
  NoDup (key <$> l) → x ∈ l → key x = k → List.find (λ y, key y ==? k) l = Some x.
Proof.
  intros Hnd Hx Hk. destruct (List.find _ l) as [y|] eqn:E.
  - apply find_Some_in in E as [Hy ?]. btrue. f_equal. apply (nodup_key_eq key l); congruence.
  - rewrite find_None_iff in E. specialize (E x Hx). btrue. congruence.
Qed.

Lemma index_get {A} (key : A → string) what l m x :
  index_loop key what ∅ l = Ok m → x ∈ l → m !! key x = Some x.
Proof. intros (_ & _ & Hm)%index_loop_ok Hx. apply Hm. by right. Qed.

Lemma request_context_inv self request context :
  request_context self request = Ok context →
  resolve_route_binding self request =
    Ok (RouteCandidateContext.alias context, RouteCandidateContext.policy context,
        RouteCandidateContext.group context) ∧
  RouteCandidateContext.protocol_family context = RoutePlanRequest.protocol_family request ∧
  index_endpoints (GatewayCatalogSnapshot.provider_endpoints self)
    = Ok (RouteCandidateContext.endpoints context) ∧
  index_credentials (GatewayCatalogSnapshot.upstream_credentials self)
    = Ok (RouteCandidateContext.credentials context) ∧
  index_targets (GatewayCatalogSnapshot.model_targets self)
    = Ok (RouteCandidateContext.targets context).
Proof.
  unfold request_context.
  intros ([[alias policy] group] & Hb & (es & He & (cs & Hc & (ts & Ht & [= <-])%bind_ok)%bind_ok
    )%bind_ok)%bind_ok. simpl. by split_and!.
Qed.

(** The binding returned is the one the alias names, and it is active. *)
Lemma resolve_route_binding_inv self request alias policy group :
  resolve_route_binding self request = Ok (alias, policy, group) →
  resolve_alias self (RoutePlanRequest.actor request) (RoutePlanRequest.alias_name request)
    = Ok alias ∧
  ModelAliasConfig.protocol_family alias = RoutePlanRequest.protocol_family request ∧
  ModelAliasConfig.status alias = ResourceStatus.Active ∧
  (policy ∈ GatewayCatalogSnapshot.route_policies self ∧
   RoutePolicyConfig.route_policy_id policy = ModelAliasConfig.route_policy_id alias ∧
   RoutePolicyConfig.status policy = ResourceStatus.Active) ∧
  group ∈ GatewayCatalogSnapshot.routing_groups self ∧
  RoutingGroupConfig.routing_group_id group = RoutePolicyConfig.routing_group_id policy ∧
  RoutingGroupConfig.status group = ResourceStatus.Active.
Proof.
  unfold resolve_route_binding. intros (a & Ha & H)%bind_ok.
  case_bool_decide as Hf; [|done].
  destruct (ResourceStatus.is_active (ModelAliasConfig.status a)) eqn:Hs; [|done].
  apply bind_ok in H as (p & Hp & H). unfold ok_or in Hp.
  destruct (List.find _ (GatewayCatalogSnapshot.route_policies self)) eqn:Hfp; [|done].
  destruct (ResourceStatus.is_active (RoutePolicyConfig.status p)) eqn:Hsp; [|done].
  apply bind_ok in H as (g & Hg & H). unfold ok_or in Hg.
  destruct (List.find _ (GatewayCatalogSnapshot.routing_groups self)) eqn:Hfg; [|done].
  destruct (ResourceStatus.is_active (RoutingGroupConfig.status g)) eqn:Hsg; [|done].
  simplify_eq/=. apply is_active_iff in Hs, Hsp, Hsg.
  apply find_Some_in in Hfp as [? ?], Hfg as [? ?]. btrue. by split_and!.
Qed.

Lemma resolve_alias_elem self actor name a :
  resolve_alias self actor name = Ok a → a ∈ GatewayCatalogSnapshot.model_aliases self.
Proof.
  unfold resolve_alias. destruct (sort_by score_order _) as [|[s b] rest] eqn:E; [done|].
  destruct (existsb _ rest); [done|]. intros [= <-].
  destruct (sorted_scores_head _ _ _ E) as (Hin & _). by apply scoped_aliases_elem in Hin as [? _].
Qed.

(** The targets of a bound group are targets of the snapshot that speak the
    ingress protocol. *)
Lemma bound_candidate_target `{UriLibrary} self request context c :
  closed_catalog self → request_context self request = Ok context →
  c ∈ sorted_candidates self (RouteCandidateContext.group context) →
  ∃ t, t ∈ GatewayCatalogSnapshot.model_targets self ∧
    RouteCandidateContext.targets context !! RoutingGroupTargetConfig.model_target_id c = Some t ∧
    ModelTargetConfig.protocol_family t = RouteCandidateContext.protocol_family context.
Proof.
  intros Hcl (Hb & Hpf & _ & _ & Ht)%request_context_inv [Hc Hcg]%sorted_candidates_elem.
  apply resolve_route_binding_inv in Hb
    as (Ha & Haf & _ & (Hp & Hpid & _) & _ & Hgid & _).
  destruct (closed_aliases _ Hcl _ (resolve_alias_elem _ _ _ _ Ha)) as (p & Hp' & Hid & _ & Hts).
  assert (p = RouteCandidateContext.policy context) as ->.
  { eapply (nodup_key_eq RoutePolicyConfig.route_policy_id); [apply Hcl|done..|congruence]. }
  destruct (Hts c Hc) as (t & Htin & Htid & Htf); [congruence|].
  exists t. split_and!; [done| |congruence]. rewrite <- Htid. by eapply index_get.
Qed.

(** The gates a validated snapshot always passes. *)
Definition dangling_reasons : list RouteFilterReason.t :=
  [RouteFilterReason.TargetMissing; RouteFilterReason.ProtocolMismatch;
   RouteFilterReason.EndpointMissing; RouteFilterReason.EndpointProtocolMismatch;
   RouteFilterReason.CredentialMissing; RouteFilterReason.CredentialUnusable].

Lemma validated_credential `{UriLibrary} self request context t :
  closed_catalog self → request_context self request = Ok context →
  t ∈ GatewayCatalogSnapshot.model_targets self → credential_reason context t = None.
Proof.
  intros Hcl (_ & _ & _ & Hcr & _)%request_context_inv Ht. apply credential_reason_none.
  intros id Hid. destruct (closed_targets _ Hcl _ Ht) as [_ Hok].
  destruct (Hok id Hid) as (cr & Hin & <- & _ & Hu). exists cr. split; [|done].
  by eapply index_get.
Qed.

Lemma validated_filter_reason `{UriLibrary} self request context c r :
  closed_catalog self → request_context self request = Ok context →
  c ∈ sorted_candidates self (RouteCandidateContext.group context) →
  filter_reason (GatewayCatalogSnapshot.provider_grants self) context c = Some r →
  r ∉ dangling_reasons.
Proof.
  intros Hcl Hctx Hc.
  destruct (bound_candidate_target _ _ _ _ Hcl Hctx Hc) as (t & Ht & Hlook & Hpf).
  destruct (closed_targets _ Hcl _ Ht) as [(e & He & Heid & Hfam) _].
  pose proof (validated_credential _ _ _ _ Hcl Hctx Ht) as Hcred.
  apply request_context_inv in Hctx as (_ & _ & Hes & _ & _).
  unfold filter_reason, evaluate_candidate. cbv zeta.
  rewrite Hlook, (bool_decide_true (ModelTargetConfig.protocol_family t = _)) by done.
  rewrite <- Heid, (index_get _ _ _ _ _ Hes He).
  rewrite (bool_decide_true (_ ∈ ProviderEndpoint.protocol_families e)) by congruence.
  fold (credential_reason context t). rewrite Hcred. simpl.
  intros Hr Hin. repeat case_match; simplify_eq; set_solver.
Qed.

Lemma validated_indexes `{UriLibrary} self :
  closed_catalog self →
  (∃ m, index_endpoints (GatewayCatalogSnapshot.provider_endpoints self) = Ok m) ∧
  (∃ m, index_credentials (GatewayCatalogSnapshot.upstream_credentials self) = Ok m) ∧
  (∃ m, index_targets (GatewayCatalogSnapshot.model_targets self) = Ok m).
Proof.
  intros [[He Hc Ht _ _ _] _ _ _ _ _ _]. unfold index_endpoints, index_credentials, index_targets.
  split_and!.
  - destruct (index_spec ProviderEndpoint.provider_endpoint_id "provider endpoint"
      (GatewayCatalogSnapshot.provider_endpoints self)) as [(m & ? & _)|[[] _]]; eauto.
  - destruct (index_spec UpstreamCredentialConfig.upstream_credential_id "upstream credential"
      (GatewayCatalogSnapshot.upstream_credentials self)) as [(m & ? & _)|[[] _]]; eauto.
  - destruct (index_spec ModelTargetConfig.model_target_id "model target"
      (GatewayCatalogSnapshot.model_targets self)) as [(m & ? & _)|[[] _]]; eauto.
Qed.

Lemma validated_binding `{UriLibrary} self request alias e :
  closed_catalog self →
  resolve_alias self (RoutePlanRequest.actor request) (RoutePlanRequest.alias_name request)
    = Ok alias →
  ModelAliasConfig.protocol_family alias = RoutePlanRequest.protocol_family request →
  ModelAliasConfig.status alias = ResourceStatus.Active →
  resolve_route_binding self request = Err e →
  e = GatewayError.NotReady ∧
  ∃ policy group, policy ∈ GatewayCatalogSnapshot.route_policies self ∧
    RoutePolicyConfig.route_policy_id policy = ModelAliasConfig.route_policy_id alias ∧
    group ∈ GatewayCatalogSnapshot.routing_groups self ∧
    RoutingGroupConfig.routing_group_id group = RoutePolicyConfig.routing_group_id policy ∧
    (RoutePolicyConfig.status policy ≠ ResourceStatus.Active ∨
     RoutingGroupConfig.status group ≠ ResourceStatus.Active).
Proof.
  intros Hcl Ha Hf Hs. unfold resolve_route_binding. rewrite Ha. cbn [mbind result_bind].
  rewrite bool_decide_true, Hs by done. simpl.
  destruct (closed_aliases _ Hcl _ (resolve_alias_elem _ _ _ _ Ha)) as (p & Hp & Hpid & _ & _).
  destruct (closed_policies _ Hcl _ Hp) as (_ & (g & Hg & Hgid) & _).
  rewrite (find_key_unique RoutePolicyConfig.route_policy_id _ p) by (done || apply Hcl).
  simpl. destruct (ResourceStatus.is_active (RoutePolicyConfig.status p)) eqn:Hsp; simpl.
  - rewrite (find_key_unique RoutingGroupConfig.routing_group_id _ g) by (done || apply Hcl).
    simpl. destruct (ResourceStatus.is_active (RoutingGroupConfig.status g)) eqn:Hsg; [done|].
    intros [= <-]. split; [done|]. exists p, g. split_and!; try done.
    right. intros E. by rewrite E in Hsg.
  - intros [= <-]. split; [done|]. exists p, g. split_and!; try done.
    left. intros E. by rewrite E in Hsp.
Qed.

(** A validated snapshot never dangles: planning on it fails only because
    the alias does not resolve, speaks another protocol or is inactive, or
    because its policy or group is inactive; and no candidate is ever filtered
    for a missing target, endpoint or credential, for an unusable credential or
    for a protocol mismatch. *)
Theorem validated_catalog_never_dangles `{UriLibrary} self request :
  validate self = Ok tt →
  (∀ e, plan_runtime_route_with_hot_state self request = Err e →
    resolve_alias self (RoutePlanRequest.actor request) (RoutePlanRequest.alias_name request)
      = Err e ∨
    ∃ alias,
      resolve_alias self (RoutePlanRequest.actor request) (RoutePlanRequest.alias_name request)
        = Ok alias ∧
      (ModelAliasConfig.protocol_family alias ≠ RoutePlanRequest.protocol_family request ∨
       ModelAliasConfig.status alias ≠ ResourceStatus.Active ∨
       e = GatewayError.NotReady ∧
       ∃ policy group, policy ∈ GatewayCatalogSnapshot.route_policies self ∧
         RoutePolicyConfig.route_policy_id policy = ModelAliasConfig.route_policy_id alias ∧
         group ∈ GatewayCatalogSnapshot.routing_groups self ∧
         RoutingGroupConfig.routing_group_id group = RoutePolicyConfig.routing_group_id policy ∧
         (RoutePolicyConfig.status policy ≠ ResourceStatus.Active ∨
          RoutingGroupConfig.status group ≠ ResourceStatus.Active))) ∧
  (∀ context c r, request_context self request = Ok context →
    c ∈ sorted_candidates self (RouteCandidateContext.group context) →
    filter_reason (GatewayCatalogSnapshot.provider_grants self) context c = Some r →
    r ∉ dangling_reasons).
Proof.
  intros Hv. assert (closed_catalog self) as Hcl.
  { apply validate_unique; eauto using validate_ok_unique. }
  split; [|by eauto using validated_filter_reason].
  intros e Hplan. destruct (request_context self request) as [context|e'] eqn:Hctx.
  { exfalso. destruct (plan_cases self request context Hctx)
      as [(t & ep & _ & E)|[_ [(pre & c & post & t & ep & m & _ & _ & _ & E)|[_ E]]]]; congruence. }
  destruct (validated_indexes self Hcl) as ((me & Ee) & (mc & Ec) & (mt & Et)).
  assert (resolve_route_binding self request = Err e) as Hb.
  { unfold plan_runtime_route_with_hot_state, request_context in *.
    destruct (resolve_route_binding self request) as [[[a p] g]|]; [|simplify_eq/=; congruence].
    simpl in *. rewrite Ee, Ec, Et in Hctx. done. }
  destruct (resolve_alias self _ _) as [alias|e''] eqn:Ha.
  - right. exists alias. split; [done|].
    destruct (decide (ModelAliasConfig.protocol_family alias
      = RoutePlanRequest.protocol_family request)); [right|by left].
    destruct (decide (ModelAliasConfig.status alias = ResourceStatus.Active)); [right|by left].
    by eapply validated_binding.
  - left. unfold resolve_route_binding in Hb. rewrite Ha in Hb. simpl in Hb. congruence.
Qed.

(** ** Witnesses *)

Module PlanSample.
#[local] Open Scope Z_scope.
Definition catalog : GatewayCatalogSnapshot.t := Sample.catalog "https://api.example.com/v1".

(** The first target's endpoint is drained, the second's is healthy, and the
    request's affinity key is stuck to one of them. *)
Definition hot (sticky_target sticky_endpoint : string) (drained : list string) : RouteHotState.t :=
  {| RouteHotState.endpoint_health_state _ _ _ _ := EndpointHealthState.Healthy;
     RouteHotState.endpoint_is_drained _ id _ _ := bool_decide (id ∈ drained);
     RouteHotState.sticky_route tenant project alias hash cv now :=
       if hash ==? "key" then
         Some (StickyRouteRecord.mk tenant project alias hash "group1" sticky_target
                 sticky_endpoint 7 0 100)
       else None |}.

Definition request (hot_state : RouteHotState.t) (hash : option string) : RoutePlanRequest.t :=
  RoutePlanRequest.mk GrantSample.actor ProtocolFamily.OpenAiChat "fast" false hot_state
    (Some 7) 50 hash.

Definition context (hot_state : RouteHotState.t) : RouteCandidateContext.t :=
  RouteCandidateContext.mk GrantSample.actor ProtocolFamily.OpenAiChat false Sample.alias
    Sample.policy Sample.group
    (<["ep2" := GrantSample.ep "ep2"]> {["ep1" := GrantSample.ep "ep1"]}) ∅
    (<["t2" := Sample.target "t2" "ep2"]> {["t1" := Sample.target "t1" "ep1"]})
    hot_state (Some 7) 50.
End PlanSample.

Lemma plan_decides_eligibility_witness :
  ∃ plan, plan_runtime_route_with_hot_state PlanSample.catalog
    (PlanSample.request (PlanSample.hot "t1" "ep1" []) None) = Ok plan.
Proof.
  destruct (plan_decides_eligibility PlanSample.catalog
    (PlanSample.request (PlanSample.hot "t1" "ep1" []) None)
    (PlanSample.context (PlanSample.hot "t1" "ep1" []))) as (plan & Hplan & _);
    [reflexivity|]. exists plan. exact Hplan.
Defined.

Lemma selection_is_best_witness :
  ∃ best, best ∈ sorted_candidates PlanSample.catalog Sample.group.
Proof.
  destruct (selection_is_best PlanSample.catalog
    (PlanSample.request (PlanSample.hot "t1" "ep1" ["ep1"]) None)
    (PlanSample.context (PlanSample.hot "t1" "ep1" ["ep1"]))
    _ _ eq_refl eq_refl eq_refl eq_refl) as (best & _ & _ & Hin & _).
  exists best. exact Hin.
Defined.

Lemma sticky_hit_iff_reusable_witness :
  ∃ target endpoint,
    sticky_reusable [Sample.org_grant] (PlanSample.request (PlanSample.hot "t2" "ep2" []) (Some "key"))
      (PlanSample.context (PlanSample.hot "t2" "ep2" []))
      (sorted_candidates PlanSample.catalog Sample.group) target endpoint.
Proof.
  destruct (sticky_hit_iff_reusable PlanSample.catalog
    (PlanSample.request (PlanSample.hot "t2" "ep2" []) (Some "key"))
    (PlanSample.context (PlanSample.hot "t2" "ep2" [])) eq_refl) as [_ H].
  destruct (H _ _ eq_refl eq_refl eq_refl) as (t & e & Hr & _). exists t, e. exact Hr.
Defined.

(** Both endpoints are drained and the sticky route names the first: two
    candidates are filtered, and the summary says three. *)
Lemma filter_summary_accounts_witness :
  count_of RouteFilterReason.EndpointDrained
    [RouteFilterSummary.mk RouteFilterReason.EndpointDrained 3] = 3%Z ∧
  length (sorted_candidates PlanSample.catalog Sample.group) = 2.
Proof.
  split; [|reflexivity].
  etransitivity; [apply (filter_summary_accounts PlanSample.catalog
    (PlanSample.request (PlanSample.hot "t1" "ep1" ["ep1"; "ep2"]) (Some "key"))
    (PlanSample.context (PlanSample.hot "t1" "ep1" ["ep1"; "ep2"]))
    (RoutePlan.mk RoutePlanOutcome.NoRoute
       [RouteFilterSummary.mk RouteFilterReason.EndpointDrained 3])
    eq_refl eq_refl (λ selection H, ltac:(discriminate H)))|reflexivity].
Defined.

Lemma validated_catalog_never_dangles_witness :
  RouteFilterReason.EndpointDrained ∉ dangling_reasons.
Proof.
  apply (proj2 (@validated_catalog_never_dangles Sample.uri_library PlanSample.catalog
      (PlanSample.request (PlanSample.hot "t1" "ep1" ["ep1"]) None) eq_refl)
    (PlanSample.context (PlanSample.hot "t1" "ep1" ["ep1"])) (Sample.group_target "gt1" "t1" 0)
    RouteFilterReason.EndpointDrained); [reflexivity|left|reflexivity].
Defined.
