(* ===== verification/Json.v ===== *)
(** * JSON values

    The gateway keeps usage, cost and pricing documents as [serde_json::Value].
    The library is a class: the accessors and constructors the gateway uses,
    with their documented behaviour as laws.  [Tree] is an instance, used by
    witnesses. *)

From S2P Require Import Prelude.

Class JsonLibrary (V : Type) : Type := {
  json_get : V → string → option V;
  as_i64 : V → option Z;
  as_u64 : V → option Z;
  as_str : V → option string;
  as_array : V → option (list V);
  is_null : V → bool;
  json_null : V;
  json_int : Z → V;
  json_str : string → V;
  json_bool : bool → V;
  json_datetime : DateTime → V;
  json_arr : list V → V;
  json_obj : list (string * V) → V;
  json_set : string → V → V → V;
}.

(** The value bound to a key in an object literal. *)
Fixpoint assoc {V} (k : string) (l : list (string * V)) : option V :=
  match l with
  | [] => None
  | (k', v) :: l' => if k' ==? k then Some v else assoc k l'
  end.

Class JsonLaws (V : Type) `{JsonLibrary V} : Type := {
  is_object : V → Prop;
  (** an object literal with distinct keys *)
  obj_is_object l : is_object (json_obj l);
  get_obj l k : NoDup l.*1 → json_get (json_obj l) k = assoc k l;
  get_null k : json_get json_null k = None;
  (** [value[key] = x] on an object *)
  set_is_object k x v : is_object v → is_object (json_set k x v);
  get_set k x v k' : is_object v →
    json_get (json_set k x v) k' = if k' ==? k then Some x else json_get v k';
  (** an [i64] and a string survive *)
  as_i64_int z : in_i64 z → as_i64 (json_int z) = Some z;
  as_str_str s : as_str (json_str s) = Some s;
  (** [as_i64] answers only with an [i64] *)
  as_i64_range v z : as_i64 v = Some z → in_i64 z;
}.

(** [value.get(key).and_then(Value::as_i64).unwrap_or_default()]. *)
Definition get_i64 {V} `{JsonLibrary V} (v : V) (k : string) : option Z := json_get v k ≫= as_i64.
Definition get_i64_or_0 {V} `{JsonLibrary V} (v : V) (k : string) : Z := default 0%Z (get_i64 v k).
Definition get_str {V} `{JsonLibrary V} (v : V) (k : string) : option string :=
  json_get v k ≫= as_str.

Lemma get_i64_or_0_range {V} `{JsonLibrary V} `{!JsonLaws V} (v : V) k : in_i64 (get_i64_or_0 v k).
Proof.
  unfold get_i64_or_0, get_i64. destruct (json_get v k) as [x|]; simpl; [|by unfold in_i64].
  destruct (as_i64 x) eqn:E; simpl; [by eapply as_i64_range|by unfold in_i64].
Qed.

(** Reading an integer field of an object literal. *)
Lemma get_i64_obj {V} `{JsonLibrary V} `{!JsonLaws V} (l : list (string * V)) k z :
  bool_decide (NoDup l.*1) = true → assoc k l = Some (json_int z) → in_i64 z →
  get_i64 (json_obj l) k = Some z.
Proof.
  intros Hnd%bool_decide_eq_true Ha Hz. unfold get_i64. rewrite get_obj, Ha by done. simpl.
  by apply as_i64_int.
Qed.

Lemma get_str_obj {V} `{JsonLibrary V} `{!JsonLaws V} (l : list (string * V)) k x :
  bool_decide (NoDup l.*1) = true → assoc k l = Some (json_str x) →
  get_str (json_obj l) k = Some x.
Proof.
  intros Hnd%bool_decide_eq_true Ha. unfold get_str. rewrite get_obj, Ha by done. simpl.
  apply as_str_str.
Qed.

Create HintDb json.
#[export] Hint Resolve obj_is_object set_is_object : json.

(** ** JSON trees *)

Module Tree.
Inductive t : Set :=
| Null
| Int (z : Z)
| Str (s : string)
| Bool (b : bool)
| Time (t : DateTime)
| Arr (l : list t)
| Obj (l : list (string * t)).

Definition get (v : t) (k : string) : option t :=
  match v with Obj l => assoc k l | _ => None end.
Definition set (k : string) (x v : t) : t :=
  match v with Obj l => Obj ((k, x) :: l) | _ => v end.

#[global] Instance library : JsonLibrary t := {
  json_get := get;
  as_i64 v :=
    match v with
    | Int z => if ((i64_min <=? z) && (z <=? i64_max))%Z then Some z else None
    | _ => None
    end;
  as_u64 v :=
    match v with
    | Int z => if ((0 <=? z) && (z <=? 18446744073709551615))%Z then Some z else None
    | _ => None
    end;
  as_str v := match v with Str s => Some s | _ => None end;
  as_array v := match v with Arr l => Some l | _ => None end;
  is_null v := match v with Null => true | _ => false end;
  json_null := Null;
  json_int := Int;
  json_str := Str;
  json_bool := Bool;
  json_datetime := Time;
  json_arr := Arr;
  json_obj := Obj;
  json_set := set;
}.

#[global] Instance laws : JsonLaws t.
Proof.
  refine {| is_object v := ∃ l, v = Obj l |}; simpl; try done.
  - eauto.
  - intros k x v [l ->]. simpl. eauto.
  - intros k x v k' [l ->]. simpl. repeat case_bool_decide; congruence.
  - intros z [H1 H2]. apply Z.leb_le in H1 as ->, H2 as ->. done.
  - intros v z. destruct v; try done. destruct (_ && _) eqn:E; [|done].
    intros [= <-]. btrue. done.
Defined.
End Tree.
