(* ===== verification/Usage.v ===== *)
(** * Usage accounting

    [record_usage_event] of the in-memory store ([storage.rs]): usage events
    are appended once per request and folded into the ledger buckets of five
    granularities.  The properties state that recording is idempotent and that
    every bucket is exactly the aggregate of the events that map to it. *)

From stdpp Require Import pretty.
From S2P Require Import Prelude Order Domain Json.

(** ** Calendar *)

(** The calendar functions of [chrono] the gateway uses. *)
Class ChronoCalendar : Type := {
  date_year : DateTime → Z;
  date_month : DateTime → Z;
  date_day : DateTime → Z;
  (** [format("%Y-%m-%d")] *)
  format_ymd : DateTime → string;
  (** [DateTime::from_timestamp(secs, 0)] *)
  from_timestamp : Z → option DateTime;
  (** midnight of [NaiveDate::from_ymd_opt(year, month, 1)] *)
  month_midnight : Z → Z → option DateTime;
}.

(** ** Records *)

Module UsageEventRecord.
Record t {V : Type} : Type := mk {
  usage_event_id : string;
  tenant_id : string;
  organization_id : option string;
  project_id : option string;
  principal_id : option string;
  project_member_id : option string;
  service_account_id : option string;
  api_key_id : option string;
  request_id : string;
  trace_id : string;
  protocol_family : ProtocolFamily.t;
  route_decision_id : option string;
  model_alias_id : option string;
  model_target_id : option string;
  route_policy_id : option string;
  routing_group_id : option string;
  provider_endpoint_id : option string;
  upstream_credential_id : option string;
  usage_confidence : string;
  latency_ms : option Z;
  time_to_first_token_ms : option Z;
  status : string;
  usage_payload : V;
  cost_payload : V;
  occurred_at : DateTime;
}.
Arguments t V : clear implicits.
Arguments mk {V}.
End UsageEventRecord.

Module LedgerBucketRecord.
Record t : Type := mk {
  ledger_bucket_id : string;
  tenant_id : string;
  organization_id : option string;
  project_id : option string;
  principal_id : option string;
  project_member_id : option string;
  service_account_id : option string;
  api_key_id : option string;
  model_alias_id : option string;
  model_target_id : option string;
  provider_endpoint_id : option string;
  upstream_credential_id : option string;
  route_policy_id : option string;
  routing_group_id : option string;
  protocol_family : option ProtocolFamily.t;
  status : option string;
  usage_confidence : option string;
  bucket_kind : string;
  bucket_start : DateTime;
  currency_code : string;
  input_tokens : Z;
  output_tokens : Z;
  reasoning_tokens : Z;
  media_units : Z;
  request_count : Z;
  success_count : Z;
  error_count : Z;
  blocked_count : Z;
  usage_missing_count : Z;
  usage_estimated_count : Z;
  estimated_cost_micros : Z;
  pricing_version : string;
  updated_at : DateTime;
}.
End LedgerBucketRecord.

Section usage.
Context {V : Type} `{JsonLibrary V} `{ChronoCalendar}.

(** ** Buckets *)

Definition usage_payload_i64 (payload : V) (key : string) : Z := get_i64_or_0 payload key.

Definition usage_bucket_start (bucket_kind : string) (occurred_at : DateTime) : DateTime :=
  let seconds := timestamp occurred_at in
  if bucket_kind ==? "minute" then
    default occurred_at (from_timestamp (seconds - seconds mod 60)%Z)
  else if bucket_kind ==? "hour" then
    default occurred_at (from_timestamp (seconds - seconds mod 3600)%Z)
  else if bucket_kind ==? "day" then
    default occurred_at (from_timestamp (seconds - seconds mod 86400)%Z)
  else if bucket_kind ==? "month" then
    default occurred_at (month_midnight (date_year occurred_at) (date_month occurred_at))
  else occurred_at.

Definition usage_bucket_key (record : UsageEventRecord.t V) (bucket_kind : string)
    (bucket_start : DateTime) : string :=
  join "|"
    [UsageEventRecord.tenant_id record;
     default "" (UsageEventRecord.organization_id record);
     default "" (UsageEventRecord.project_id record);
     default "" (UsageEventRecord.principal_id record);
     default "" (UsageEventRecord.project_member_id record);
     default "" (UsageEventRecord.service_account_id record);
     default "" (UsageEventRecord.api_key_id record);
     default "" (UsageEventRecord.model_alias_id record);
     default "" (UsageEventRecord.model_target_id record);
     default "" (UsageEventRecord.provider_endpoint_id record);
     default "" (UsageEventRecord.upstream_credential_id record);
     default "" (UsageEventRecord.route_policy_id record);
     default "" (UsageEventRecord.routing_group_id record);
     ProtocolFamily.as_str (UsageEventRecord.protocol_family record);
     UsageEventRecord.status record;
     UsageEventRecord.usage_confidence record;
     bucket_kind]
  +:+ "|" +:+ pretty (timestamp bucket_start).

(** The amounts one event adds to its buckets. *)
Definition event_media_units (record : UsageEventRecord.t V) : Z :=
  let payload := UsageEventRecord.usage_payload record in
  sum_i64 [usage_payload_i64 payload "image_input_units";
           usage_payload_i64 payload "image_output_units";
           usage_payload_i64 payload "audio_input_units";
           usage_payload_i64 payload "audio_output_units";
           usage_payload_i64 payload "request_units"].

Definition event_cost_micros (record : UsageEventRecord.t V) : Z :=
  get_i64_or_0 (UsageEventRecord.cost_payload record) "total_cost".

Definition event_currency (record : UsageEventRecord.t V) : string :=
  default "USD" (get_str (UsageEventRecord.cost_payload record) "currency").

Definition event_pricing_version (record : UsageEventRecord.t V) : string :=
  default "unpriced" (get_str (UsageEventRecord.cost_payload record) "pricing_version").

(** [or_insert_with]: the bucket a first event opens; [uuid] is fresh. *)
Definition new_bucket (uuid : string) (record : UsageEventRecord.t V) (bucket_kind : string)
    (bucket_start : DateTime) : LedgerBucketRecord.t :=
  LedgerBucketRecord.mk (new_prefixed_id "lb" uuid)
    (UsageEventRecord.tenant_id record) (UsageEventRecord.organization_id record)
    (UsageEventRecord.project_id record) (UsageEventRecord.principal_id record)
    (UsageEventRecord.project_member_id record) (UsageEventRecord.service_account_id record)
    (UsageEventRecord.api_key_id record) (UsageEventRecord.model_alias_id record)
    (UsageEventRecord.model_target_id record) (UsageEventRecord.provider_endpoint_id record)
    (UsageEventRecord.upstream_credential_id record) (UsageEventRecord.route_policy_id record)
    (UsageEventRecord.routing_group_id record)
    (Some (UsageEventRecord.protocol_family record)) (Some (UsageEventRecord.status record))
    (Some (UsageEventRecord.usage_confidence record))
    bucket_kind bucket_start (event_currency record)
    0%Z 0%Z 0%Z 0%Z 0%Z 0%Z 0%Z 0%Z 0%Z 0%Z 0%Z (event_pricing_version record)
    (UsageEventRecord.occurred_at record).

Definition i64_from (b : bool) : Z := if b then 1 else 0.

(** The compound assignments on the bucket; [+=] wraps. *)
Definition add_event (record : UsageEventRecord.t V) (b : LedgerBucketRecord.t)
    : LedgerBucketRecord.t :=
  let payload := UsageEventRecord.usage_payload record in
  let status := UsageEventRecord.status record in
  let confidence := UsageEventRecord.usage_confidence record in
  let plus a n := wrap_i64 (a + n) in
  LedgerBucketRecord.mk (LedgerBucketRecord.ledger_bucket_id b)
    (LedgerBucketRecord.tenant_id b) (LedgerBucketRecord.organization_id b)
    (LedgerBucketRecord.project_id b) (LedgerBucketRecord.principal_id b)
    (LedgerBucketRecord.project_member_id b) (LedgerBucketRecord.service_account_id b)
    (LedgerBucketRecord.api_key_id b) (LedgerBucketRecord.model_alias_id b)
    (LedgerBucketRecord.model_target_id b) (LedgerBucketRecord.provider_endpoint_id b)
    (LedgerBucketRecord.upstream_credential_id b) (LedgerBucketRecord.route_policy_id b)
    (LedgerBucketRecord.routing_group_id b) (LedgerBucketRecord.protocol_family b)
    (LedgerBucketRecord.status b) (LedgerBucketRecord.usage_confidence b)
    (LedgerBucketRecord.bucket_kind b) (LedgerBucketRecord.bucket_start b)
    (LedgerBucketRecord.currency_code b)
    (plus (LedgerBucketRecord.input_tokens b) (usage_payload_i64 payload "input_tokens"))
    (plus (LedgerBucketRecord.output_tokens b) (usage_payload_i64 payload "output_tokens"))
    (plus (LedgerBucketRecord.reasoning_tokens b) (usage_payload_i64 payload "reasoning_tokens"))
    (plus (LedgerBucketRecord.media_units b) (event_media_units record))
    (plus (LedgerBucketRecord.request_count b) 1%Z)
    (plus (LedgerBucketRecord.success_count b) (i64_from (status ==? "success")))
    (plus (LedgerBucketRecord.error_count b)
       (i64_from ((status ==? "error") || (status ==? "partial") || (status ==? "canceled"))))
    (plus (LedgerBucketRecord.blocked_count b) (i64_from (status ==? "blocked")))
    (plus (LedgerBucketRecord.usage_missing_count b) (i64_from (confidence ==? "missing")))
    (plus (LedgerBucketRecord.usage_estimated_count b) (i64_from (confidence ==? "estimated")))
    (plus (LedgerBucketRecord.estimated_cost_micros b) (event_cost_micros record))
    (LedgerBucketRecord.pricing_version b)
    (Z.max (LedgerBucketRecord.updated_at b) (UsageEventRecord.occurred_at record)).

Definition fold_usage_event_into_bucket (uuid : string)
    (buckets : gmap string LedgerBucketRecord.t) (record : UsageEventRecord.t V)
    (bucket_kind : string) : gmap string LedgerBucketRecord.t :=
  let bucket_start := usage_bucket_start bucket_kind (UsageEventRecord.occurred_at record) in
  let key := usage_bucket_key record bucket_kind bucket_start in
  let bucket := default (new_bucket uuid record bucket_kind bucket_start) (buckets !! key) in
  <[key := add_event record bucket]> buckets.

Definition bucket_kinds : list string := ["event"; "minute"; "hour"; "day"; "month"].

(** ** The store *)

Record UsageStore : Type := mk_usage_store {
  usage_events : list (UsageEventRecord.t V);
  ledger_buckets : gmap string LedgerBucketRecord.t;
}.

Definition same_event (existing record : UsageEventRecord.t V) : bool :=
  (UsageEventRecord.usage_event_id existing ==? UsageEventRecord.usage_event_id record)
  || ((UsageEventRecord.tenant_id existing ==? UsageEventRecord.tenant_id record)
      && (UsageEventRecord.request_id existing ==? UsageEventRecord.request_id record)).

(** [uuid kind] is the id drawn for the bucket of that granularity. *)
Definition record_usage_event (uuid : string → string) (record : UsageEventRecord.t V)
    (s : UsageStore) : UsageStore :=
  if existsb (λ existing, same_event existing record) (usage_events s) then s
  else mk_usage_store (usage_events s ++ [record])
         (fold_left (λ buckets kind,
            fold_usage_event_into_bucket (uuid kind) buckets record kind)
            bucket_kinds (ledger_buckets s)).

Definition usage_events_for_tenant (s : UsageStore) (tenant_id : string)
    : list (UsageEventRecord.t V) :=
  sort_by (cmp_then (cmp_rev (cmp_on UsageEventRecord.occurred_at Z.compare))
                    (cmp_on UsageEventRecord.usage_event_id String.compare))
    (List.filter (λ r, UsageEventRecord.tenant_id r ==? tenant_id) (usage_events s)).

Definition ledger_buckets_for_tenant (s : UsageStore) (tenant_id : string)
    : list LedgerBucketRecord.t :=
  sort_by (cmp_then (cmp_rev (cmp_on LedgerBucketRecord.bucket_start Z.compare))
                    (cmp_on LedgerBucketRecord.ledger_bucket_id String.compare))
    (List.filter (λ r, LedgerBucketRecord.tenant_id r ==? tenant_id)
       ((map_to_list (ledger_buckets s)).*2)).
End usage.
Arguments UsageStore V : clear implicits.

(** ** The ledger as an aggregate of the events *)

Section aggregate.
Context {V : Type} `{JsonLibrary V} `{ChronoCalendar}.

(** Every event contributes once per granularity. *)
Definition contributions (events : list (UsageEventRecord.t V))
    : list (UsageEventRecord.t V * string) :=
  flat_map (λ e, (e,.) <$> bucket_kinds) events.

Definition contribution_key (c : UsageEventRecord.t V * string) : string :=
  usage_bucket_key c.1 c.2 (usage_bucket_start c.2 (UsageEventRecord.occurred_at c.1)).

Definition events_in (key : string) (cs : list (UsageEventRecord.t V * string))
    : list (UsageEventRecord.t V) :=
  (List.filter (λ c, contribution_key c ==? key) cs).*1.

Definition total {A} (f : A → Z) (l : list A) : Z := foldr (λ x n, (f x + n)%Z) 0%Z l.

(** A bucket holds the wrapped sums over the events it aggregates. *)
Record aggregates (l : list (UsageEventRecord.t V)) (b : LedgerBucketRecord.t) : Prop := {
  agg_requests : LedgerBucketRecord.request_count b = wrap_i64 (Z.of_nat (length l));
  agg_input : LedgerBucketRecord.input_tokens b = wrap_i64
    (total (λ e, usage_payload_i64 (UsageEventRecord.usage_payload e) "input_tokens") l);
  agg_output : LedgerBucketRecord.output_tokens b = wrap_i64
    (total (λ e, usage_payload_i64 (UsageEventRecord.usage_payload e) "output_tokens") l);
  agg_reasoning : LedgerBucketRecord.reasoning_tokens b = wrap_i64
    (total (λ e, usage_payload_i64 (UsageEventRecord.usage_payload e) "reasoning_tokens") l);
  agg_media : LedgerBucketRecord.media_units b = wrap_i64 (total event_media_units l);
  agg_cost : LedgerBucketRecord.estimated_cost_micros b = wrap_i64 (total event_cost_micros l);
  agg_success : LedgerBucketRecord.success_count b = wrap_i64
    (total (λ e, i64_from (UsageEventRecord.status e ==? "success")) l);
  agg_blocked : LedgerBucketRecord.blocked_count b = wrap_i64
    (total (λ e, i64_from (UsageEventRecord.status e ==? "blocked")) l);
  agg_missing : LedgerBucketRecord.usage_missing_count b = wrap_i64
    (total (λ e, i64_from (UsageEventRecord.usage_confidence e ==? "missing")) l);
  agg_estimated : LedgerBucketRecord.usage_estimated_count b = wrap_i64
    (total (λ e, i64_from (UsageEventRecord.usage_confidence e ==? "estimated")) l);
  agg_error : LedgerBucketRecord.error_count b = wrap_i64
    (total (λ e, i64_from ((UsageEventRecord.status e ==? "error")
                           || (UsageEventRecord.status e ==? "partial")
                           || (UsageEventRecord.status e ==? "canceled"))) l);
}.

(** The ledger holds a bucket for exactly the keys some event maps to, and
    each bucket aggregates those events. *)
Definition ledger_matches (s : UsageStore V) : Prop :=
  ∀ key,
  let l := events_in key (contributions (usage_events s)) in
  match ledger_buckets s !! key with
  | None => l = []
  | Some b => l ≠ [] ∧ aggregates l b
  end.

(** Two events that would be the same request are never both stored. *)
Definition no_duplicate_events (s : UsageStore V) : Prop :=
  ∀ i j e f, usage_events s !! i = Some e → usage_events s !! j = Some f →
    same_event e f = true → i = j.

(** Stores reached by recording events. *)
Inductive usage_reachable : UsageStore V → Prop :=
| reach_empty : usage_reachable (mk_usage_store [] ∅)
| reach_record uuid record s :
    usage_reachable s → usage_reachable (record_usage_event uuid record s).

(** *** Lemmas *)

Lemma total_app {A} (f : A → Z) l x : total f (l ++ [x]) = (total f l + f x)%Z.
Proof. induction l as [|y l IH]; simpl; [lia|]. rewrite IH. lia. Qed.

Lemma aggregates_snoc l e b :
  aggregates l b → aggregates (l ++ [e]) (add_event e b).
Proof.
  intros []. constructor; simpl;
    rewrite ?total_app, ?length_app, ?Nat2Z.inj_add;
    match goal with E : ?x = wrap_i64 _ |- wrap_i64 (?x + _) = _ => rewrite E end;
    apply wrap_i64_add_l.
Qed.

Lemma aggregates_new uuid e kind start : aggregates [] (new_bucket uuid e kind start).
Proof. constructor; done. Qed.

Lemma events_in_snoc key cs c :
  events_in key (cs ++ [c]) =
  if contribution_key c ==? key then events_in key cs ++ [c.1] else events_in key cs.
Proof.
  unfold events_in. rewrite List.filter_app, fmap_app. simpl.
  case_bool_decide; simpl; [done|]. by rewrite (right_id_L [] (++)).
Qed.

(** Folding one contribution keeps the correspondence, whatever the order. *)
Lemma fold_step (m : gmap string LedgerBucketRecord.t) cs uuid e kind :
  (∀ key, match m !! key with
          | None => events_in key cs = []
          | Some b => events_in key cs ≠ [] ∧ aggregates (events_in key cs) b
          end) →
  ∀ key, match fold_usage_event_into_bucket uuid m e kind !! key with
         | None => events_in key (cs ++ [(e, kind)]) = []
         | Some b => events_in key (cs ++ [(e, kind)]) ≠ [] ∧
                     aggregates (events_in key (cs ++ [(e, kind)])) b
         end.
Proof.
  intros Hm key. rewrite events_in_snoc. unfold fold_usage_event_into_bucket.
  change (usage_bucket_key e kind _) with (contribution_key (e, kind)).
  case_bool_decide as E.
  - subst key. rewrite lookup_insert_eq. split; [by destruct (events_in _ _)|].
    specialize (Hm (contribution_key (e, kind))). apply aggregates_snoc.
    destruct (m !! contribution_key (e, kind)) as [b|]; [by destruct Hm|].
    rewrite Hm. apply aggregates_new.
  - rewrite lookup_insert_ne by done. apply Hm.
Qed.

Lemma contributions_snoc events e :
  contributions (events ++ [e]) = contributions events ++ ((e,.) <$> bucket_kinds).
Proof. unfold contributions. by rewrite flat_map_app. Qed.

Lemma record_ledger_matches uuid e s :
  ledger_matches s → ledger_matches (record_usage_event uuid e s).
Proof.
  intros Hs. unfold record_usage_event. destruct (existsb _ _); [done|].
  unfold ledger_matches in *. cbn zeta in *. simpl usage_events. rewrite contributions_snoc.
  simpl ledger_buckets. intros key.
  change ((e,.) <$> bucket_kinds) with
    ([(e, "event")] ++ [(e, "minute")] ++ [(e, "hour")] ++ [(e, "day")] ++ [(e, "month")]).
  rewrite !(assoc_L (++)). by repeat apply fold_step.
Qed.

Lemma record_no_duplicates uuid e s :
  no_duplicate_events s → no_duplicate_events (record_usage_event uuid e s).
Proof.
  intros Hs. unfold record_usage_event. destruct (existsb _ _) eqn:E; [done|].
  rewrite existsb_false_iff in E. intros i j x y. simpl.
  rewrite !lookup_app_Some, !list_lookup_singleton_Some.
  intros [Hi|[Hi [Hi' <-]]] [Hj|[Hj [Hj' <-]]] Hsame.
  - eauto.
  - by rewrite (E x (list_elem_of_lookup_2 _ _ _ Hi)) in Hsame.
  - apply list_elem_of_lookup_2 in Hj. specialize (E y Hj). unfold same_event in *.
    repeat case_bool_decide; simpl in *; congruence.
  - lia.
Qed.
End aggregate.

(** ** Properties *)

(** Recording usage is idempotent and exactly-once: after any sequence of
    recordings no two stored events share an event id or a tenant and request
    id, and recording an event again, or an event for a request already stored,
    leaves events and ledger untouched. *)
Theorem record_usage_event_once {V} `{JsonLibrary V} `{ChronoCalendar}
    (s : UsageStore V) uuid uuid' e :
  usage_reachable s →
  no_duplicate_events s ∧
  record_usage_event uuid' e (record_usage_event uuid e s) = record_usage_event uuid e s ∧
  (∀ x, x ∈ usage_events s → same_event x e = true → record_usage_event uuid e s = s).
Proof.
  intros Hr. split_and!.
  - induction Hr; [by intros i j ?? Hi|by apply record_no_duplicates].
  - unfold record_usage_event at 1.
    assert (existsb (λ existing, same_event existing e)
      (usage_events (record_usage_event uuid e s)) = true) as ->; [|done].
    unfold record_usage_event. destruct (existsb _ (usage_events s)) eqn:E; [done|].
    apply existsb_iff. exists e. split; [set_solver|]. unfold same_event. by rewrite bool_decide_true.
  - intros x Hx Hsame. unfold record_usage_event.
    assert (existsb (λ existing, same_event existing e) (usage_events s) = true) as ->; [|done].
    apply existsb_iff. eauto.
Qed.

(** C36. The ledger is the aggregate of the usage events: in every store reached
    by recording events, a bucket exists for exactly the keys some event maps
    to at some granularity, and its request, token, media, cost, outcome and
    confidence totals are the (64-bit wrapped) sums over exactly those
    events. *)
Theorem ledger_is_aggregate {V} `{JsonLibrary V} `{ChronoCalendar} (s : UsageStore V) :
  usage_reachable s → ledger_matches s.
Proof.
  induction 1; [|by apply record_ledger_matches].
  intros key. cbn. by rewrite lookup_empty.
Qed.

(** ** Witnesses *)

Module UsageSample.
#[local] Open Scope Z_scope.

#[global] Instance calendar : ChronoCalendar := {
  date_year _ := 2024;
  date_month _ := 1;
  date_day t := 1 + timestamp t / 86400;
  format_ymd _ := "2024-01-01";
  from_timestamp s := Some (duration_seconds s);
  month_midnight _ _ := Some 0;
}.

Definition event (id request currency : string) (cost at_second : Z) : UsageEventRecord.t Tree.t :=
  UsageEventRecord.mk id "ten" (Some "org") None None None None None request "trace"
    ProtocolFamily.OpenAiChat None None None None None None None "exact" None None "success"
    (Tree.Obj [("input_tokens", Tree.Int 7); ("output_tokens", Tree.Int 0)])
    (Tree.Obj [("total_cost", Tree.Int cost); ("currency", Tree.Str currency)])
    (duration_seconds at_second).

Definition store : UsageStore Tree.t :=
  record_usage_event (λ k, k) (event "u2" "r2" "EUR" 5 20)
    (record_usage_event (λ k, k) (event "u1" "r1" "USD" 3 10) (mk_usage_store [] ∅)).

Lemma sample_usage_reachable : usage_reachable store.
Proof. repeat constructor. Qed.
End UsageSample.

Lemma record_usage_event_once_witness :
  record_usage_event (λ k, k) (UsageSample.event "u9" "r1" "USD" 8 30) UsageSample.store
    = UsageSample.store.
Proof.
  destruct (record_usage_event_once UsageSample.store (λ k, k) (λ k, k)
    (UsageSample.event "u9" "r1" "USD" 8 30) UsageSample.sample_usage_reachable) as (_ & _ & H).
  apply (H (UsageSample.event "u1" "r1" "USD" 3 10)); [left|reflexivity].
Defined.

Lemma ledger_is_aggregate_witness : ledger_matches UsageSample.store.
Proof. apply (ledger_is_aggregate UsageSample.store UsageSample.sample_usage_reachable). Defined.

(** The key of a bucket carries no currency: a request priced in EUR is added
    to the USD bucket that an earlier request of the same minute opened. *)
Theorem bucket_mixes_currencies :
  ∃ b, ledger_buckets UsageSample.store
         !! "ten|org||||||||||||openai_chat|success|exact|minute|0" = Some b ∧
    LedgerBucketRecord.currency_code b = "USD" ∧
    LedgerBucketRecord.estimated_cost_micros b = 8%Z.
Proof. eexists. vm_compute. split_and!; reflexivity. Qed.
