(* ===== verification/Pricing.v ===== *)
(** * Pricing and cost

    [service.rs]: normalizing provider usage, resolving the pricing SKU of a
    request, and the fixed-point cost of the usage under it.  Money and tokens
    are [i64]; the per-million product is exact in [i128]. *)

From stdpp Require Import pretty.
From S2P Require Import Prelude Order Text Domain Json Usage.

(** ** Strings *)

Definition star : Ascii.ascii := Ascii.ascii_of_nat 42.

(** [chars().filter(|ch| *ch != '*').count()]: characters are the bytes that
    are not UTF-8 continuation bytes. *)
Fixpoint count_plain_chars (s : string) : Z :=
  match s with
  | EmptyString => 0
  | String c s' =>
      (if (N.land (Ascii.N_of_ascii c) 192 =? 128)%N || (c ==? star) then 0 else 1)
      + count_plain_chars s'
  end%Z.

(** [split_at(find('*'))] without the star. *)
Fixpoint split_star (s : string) : option (string * string) :=
  match s with
  | EmptyString => None
  | String c s' =>
      if c ==? star then Some (EmptyString, s')
      else match split_star s' with
           | Some (pre, suf) => Some (String c pre, suf)
           | None => None
           end
  end.

(** ** SKUs *)

Module PricingSkuRecord.
Record t {V : Type} : Type := mk {
  pricing_sku_id : string;
  tenant_id : string;
  organization_id : option string;
  name : string;
  currency : string;
  unit_name : string;
  model_id_patterns : list string;
  provider_endpoint_patterns : list string;
  pricing_document : V;
  pricing_version : Z;
  effective_from : DateTime;
  effective_until : option DateTime;
  is_preset : bool;
  status : ResourceStatus.t;
  resource_version : Z;
  schema_version : Z;
  created_by : string;
  created_at : DateTime;
  updated_at : DateTime;
}.
Arguments t V : clear implicits.
Arguments mk {V}.
End PricingSkuRecord.

Definition pricing_pattern_matches (pattern value : string) : bool :=
  if (pattern ==? "*") || (pattern ==? value) then true
  else match split_star pattern with
       | None => false
       | Some (prefix, suffix) => starts_with prefix value && ends_with suffix value
       end.

Definition pricing_patterns_match (patterns : list string) (value : string) : bool :=
  existsb (λ pattern, pricing_pattern_matches (trim pattern) value) patterns.

(** [Iterator::min_by]: the first of the minimal elements. *)
Fixpoint min_by_from {A} (c : A → A → comparison) (best : A) (l : list A) : A :=
  match l with
  | [] => best
  | x :: l' => min_by_from c (match c best x with Gt => x | _ => best end) l'
  end.
Definition min_by {A} (c : A → A → comparison) (l : list A) : option A :=
  match l with [] => None | x :: l' => Some (min_by_from c x l') end.

Definition fixed_per_million_cost (units price_per_million : Z) (rounding_mode : string) : Z :=
  let raw := (units * price_per_million)%Z in
  let value :=
    if rounding_mode ==? "floor_per_event" then Z.quot raw 1000000
    else if (raw =? 0)%Z then 0%Z
    else Z.quot (raw + 1000000 - 1) 1000000 in
  if ((i64_min <=? value) && (value <=? i64_max))%Z then value else i64_max.

Section pricing.
Context {V : Type} `{JsonLibrary V}.

Definition runtime_pricing_sku_is_available (sku : PricingSkuRecord.t V)
    (actor : AuthenticatedActor.t) (now : DateTime) : bool :=
  (PricingSkuRecord.tenant_id sku ==? AuthenticatedActor.tenant_id actor)
  && (PricingSkuRecord.status sku ==? ResourceStatus.Active)
  && match PricingSkuRecord.organization_id sku with
     | None => true
     | Some organization_id => Some organization_id ==? AuthenticatedActor.organization_id actor
     end
  && (PricingSkuRecord.effective_from sku <=? now)%Z
  && match PricingSkuRecord.effective_until sku with
     | None => true
     | Some until => (now <? until)%Z
     end.

Definition pricing_sku_specificity (sku : PricingSkuRecord.t V) : Z :=
  foldr Z.add 0%Z
    (count_plain_chars <$> PricingSkuRecord.model_id_patterns sku
                           ++ PricingSkuRecord.provider_endpoint_patterns sku).

(** More specific first, then by name and id. *)
Definition sku_order : PricingSkuRecord.t V → PricingSkuRecord.t V → comparison :=
  cmp_then (cmp_rev (cmp_on pricing_sku_specificity Z.compare))
    (cmp_then (cmp_on PricingSkuRecord.name String.compare)
       (cmp_on PricingSkuRecord.pricing_sku_id String.compare)).

(** The SKUs of the store, by id. *)
Definition pricing_skus_for_tenant (skus : gmap string (PricingSkuRecord.t V))
    (tenant_id : string) : list (PricingSkuRecord.t V) :=
  sort_by (cmp_then (cmp_on PricingSkuRecord.name String.compare)
                    (cmp_on PricingSkuRecord.pricing_sku_id String.compare))
    (List.filter (λ sku, PricingSkuRecord.tenant_id sku ==? tenant_id) ((map_to_list skus).*2)).

Definition sku_matches (actor : AuthenticatedActor.t)
    (upstream_model_id provider_endpoint_id : string) (now : DateTime)
    (sku : PricingSkuRecord.t V) : bool :=
  runtime_pricing_sku_is_available sku actor now
  && pricing_patterns_match (PricingSkuRecord.model_id_patterns sku) upstream_model_id
  && (match PricingSkuRecord.provider_endpoint_patterns sku with [] => true | _ => false end
      || pricing_patterns_match (PricingSkuRecord.provider_endpoint_patterns sku)
           provider_endpoint_id).

Definition resolve_runtime_pricing_sku (skus : gmap string (PricingSkuRecord.t V))
    (actor : AuthenticatedActor.t) (upstream_model_id provider_endpoint_id : string)
    (explicit_pricing_sku_id : option string) (now : DateTime)
    : option (PricingSkuRecord.t V) :=
  match explicit_pricing_sku_id with
  | Some pricing_sku_id =>
      match skus !! pricing_sku_id with
      | Some sku => if runtime_pricing_sku_is_available sku actor now then Some sku else None
      | None => None
      end
  | None =>
      min_by sku_order
        (List.filter (sku_matches actor upstream_model_id provider_endpoint_id now)
           (pricing_skus_for_tenant skus (AuthenticatedActor.tenant_id actor)))
  end.

(** ** Cost *)

Definition token_component_cost (usage_payload token_prices : V)
    (usage_key price_key rounding_mode : string) : Z :=
  let units := Z.max (get_i64_or_0 usage_payload usage_key) 0 in
  let price_per_million := Z.max (get_i64_or_0 token_prices price_key) 0 in
  fixed_per_million_cost units price_per_million rounding_mode.

Definition unpriced_cost_payload : V :=
  json_obj [("currency", json_str "USD"); ("unit", json_str "micro_usd");
    ("input_cost", json_int 0); ("output_cost", json_int 0);
    ("cache_read_cost", json_int 0); ("cache_write_cost", json_int 0);
    ("reasoning_cost", json_int 0); ("media_cost", json_int 0);
    ("request_cost", json_int 0); ("total_cost", json_int 0);
    ("confidence", json_str "unpriced"); ("pricing_sku_id", json_null);
    ("pricing_version", json_str "unpriced"); ("rounding_mode", json_str "none");
    ("diagnostics", json_arr [json_str "pricing_resolution_not_connected"])].

Definition cost_payload_from_pricing_sku (sku : PricingSkuRecord.t V) (usage_payload : V) : V :=
  let document := PricingSkuRecord.pricing_document sku in
  let rounding_mode := default "ceil_per_event" (get_str document "rounding") in
  let token_prices := default json_null (json_get document "tokens") in
  let cost usage_key price_key :=
    token_component_cost usage_payload token_prices usage_key price_key rounding_mode in
  let input_cost := cost "input_tokens" "input_per_million" in
  let output_cost := cost "output_tokens" "output_per_million" in
  let cache_read_cost := cost "cache_read_tokens" "cache_read_per_million" in
  let cache_write_cost :=
    saturating_add
      (saturating_add (cost "cache_write_tokens" "cache_write_per_million")
         (cost "cache_write_5m_tokens" "cache_write_5m_per_million"))
      (cost "cache_write_1h_tokens" "cache_write_1h_per_million") in
  let reasoning_cost := cost "reasoning_tokens" "reasoning_per_million" in
  let media_cost := 0%Z in
  let request_cost := Z.max (get_i64_or_0 document "flat_request_cost") 0 in
  let total_cost :=
    saturating_add (saturating_add (saturating_add (saturating_add (saturating_add
      (saturating_add input_cost output_cost) cache_read_cost) cache_write_cost)
      reasoning_cost) media_cost) request_cost in
  json_obj [("currency", json_str (PricingSkuRecord.currency sku));
    ("unit", json_str (PricingSkuRecord.unit_name sku));
    ("input_cost", json_int input_cost); ("output_cost", json_int output_cost);
    ("cache_read_cost", json_int cache_read_cost); ("cache_write_cost", json_int cache_write_cost);
    ("reasoning_cost", json_int reasoning_cost); ("media_cost", json_int media_cost);
    ("request_cost", json_int request_cost); ("total_cost", json_int total_cost);
    ("confidence", json_str "estimated");
    ("pricing_sku_id", json_str (PricingSkuRecord.pricing_sku_id sku));
    ("pricing_version", json_str (pretty (PricingSkuRecord.pricing_version sku)));
    ("rounding_mode", json_str rounding_mode); ("diagnostics", json_arr [])].

Definition runtime_cost_payload (skus : gmap string (PricingSkuRecord.t V))
    (actor : AuthenticatedActor.t) (upstream_model_id provider_endpoint_id : string)
    (pricing_sku_id : option string) (ended_at : DateTime) (usage_payload : V) : V :=
  match resolve_runtime_pricing_sku skus actor upstream_model_id provider_endpoint_id
          pricing_sku_id ended_at with
  | None => unpriced_cost_payload
  | Some sku => cost_payload_from_pricing_sku sku usage_payload
  end.

(** ** Provider usage *)

Definition empty_usage_payload : V :=
  json_obj [("input_tokens", json_int 0); ("output_tokens", json_int 0);
    ("total_tokens", json_int 0); ("cache_read_tokens", json_int 0);
    ("cache_write_tokens", json_int 0); ("cache_write_5m_tokens", json_int 0);
    ("cache_write_1h_tokens", json_int 0); ("reasoning_tokens", json_int 0);
    ("tool_tokens", json_int 0); ("image_input_units", json_int 0);
    ("image_output_units", json_int 0); ("audio_input_units", json_int 0);
    ("audio_output_units", json_int 0); ("request_units", json_int 0);
    ("provider_usage_metadata", json_obj [])].

Fixpoint first_i64 (value : V) (keys : list string) : option Z :=
  match keys with
  | [] => None
  | key :: keys' =>
      match get_i64 value key with Some z => Some z | None => first_i64 value keys' end
  end.

Definition option_zip {A B} (a : option A) (b : option B) : option (A * B) :=
  match a, b with Some a, Some b => Some (a, b) | _, _ => None end.

(** The usage object of a response body, where its protocol has one. *)
Definition provider_usage (family : ProtocolFamily.t) (body : V) : option V :=
  match family with
  | ProtocolFamily.OpenAiResponses | ProtocolFamily.OpenAiChat
  | ProtocolFamily.AnthropicMessages | ProtocolFamily.BedrockConverse => json_get body "usage"
  | ProtocolFamily.GeminiGenerateContent => json_get body "usageMetadata"
  | ProtocolFamily.ProviderNative => None
  end.

Definition normalized_usage_payload (family : ProtocolFamily.t) (body : V) : V * string :=
  match provider_usage family body with
  | None => (empty_usage_payload, "missing")
  | Some usage =>
      let input_tokens := first_i64 usage ["input_tokens"; "promptTokenCount"; "inputTokens"] in
      let output_tokens :=
        first_i64 usage ["output_tokens"; "candidatesTokenCount"; "outputTokens"] in
      let total_tokens :=
        match first_i64 usage ["total_tokens"; "totalTokenCount"; "totalTokens"] with
        | Some total => Some total
        | None => (λ p, wrap_i64 (p.1 + p.2)) <$> option_zip input_tokens output_tokens
        end in
      (json_set "total_tokens" (json_int (default 0%Z total_tokens))
         (json_set "output_tokens" (json_int (default 0%Z output_tokens))
            (json_set "input_tokens" (json_int (default 0%Z input_tokens)) empty_usage_payload)),
       "exact")
  end.

Definition terminal_usage_token_count (usage_payload : V) : Z :=
  match get_i64 usage_payload "total_tokens" with
  | Some total => total
  | None =>
      match option_zip (get_i64 usage_payload "input_tokens")
              (get_i64 usage_payload "output_tokens") with
      | Some (input, output) =>
          saturating_add (saturating_add input output)
            (get_i64_or_0 usage_payload "reasoning_tokens")
      | None => 0%Z
      end
  end.
End pricing.

(** ** Lemmas on fixed-point cost *)

Lemma fixed_cost_value units price mode :
  (0 ≤ units)%Z → (0 ≤ price)%Z →
  fixed_per_million_cost units price mode =
  Z.min i64_max
    (if mode ==? "floor_per_event" then units * price / 1000000
     else (units * price + 999999) / 1000000)%Z.
Proof.
  intros Hu Hp. unfold fixed_per_million_cost. cbv zeta.
  assert (0 ≤ units * price)%Z as Hr by nia. set (raw := (units * price)%Z) in *.
  assert (∀ v, (0 ≤ v)%Z → (if ((i64_min <=? v) && (v <=? i64_max))%Z then v else i64_max)
    = Z.min i64_max v) as Hclamp.
  { intros v Hv. unfold i64_min. destruct (Z.leb_spec (-9223372036854775808) v); [|lia].
    destruct (Z.leb_spec v i64_max); cbn [andb]; lia. }
  case_bool_decide.
  - rewrite Z.quot_div_nonneg by lia. apply Hclamp. apply Z.div_pos; lia.
  - destruct (Z.eqb_spec raw 0) as [->|Hne]; [done|].
    replace (raw + 1000000 - 1)%Z with (raw + 999999)%Z by lia.
    rewrite Z.quot_div_nonneg by lia. apply Hclamp, Z.div_pos; lia.
Qed.

Lemma fixed_cost_range units price mode :
  (0 ≤ units)%Z → (0 ≤ price)%Z →
  (0 ≤ fixed_per_million_cost units price mode ≤ i64_max)%Z.
Proof.
  intros. rewrite fixed_cost_value by done. assert (0 ≤ units * price)%Z by nia.
  assert (0 ≤ i64_max)%Z by done.
  pose proof (Z.div_pos (units * price) 1000000).
  pose proof (Z.div_pos (units * price + 999999) 1000000).
  case_bool_decide; lia.
Qed.

Lemma saturating_add_nonneg a b :
  (0 ≤ a)%Z → (0 ≤ b)%Z → saturating_add a b = Z.min i64_max (a + b).
Proof. intros. unfold saturating_add, clamp_i64, i64_min, i64_max. lia. Qed.

(** ** Lemmas on patterns and resolution *)

Lemma split_star_spec p pre suf :
  split_star p = Some (pre, suf) → p = pre +:+ "*" +:+ suf.
Proof.
  revert pre suf. induction p as [|c p IH]; intros pre suf; simpl; [done|].
  case_bool_decide as E.
  - intros [= <- <-]. by rewrite E.
  - destruct (split_star p) as [[pre' suf']|]; [|done]. intros [= <- <-].
    simpl. by rewrite (IH pre' suf' eq_refl).
Qed.

Lemma min_by_spec {A} (c : A → A → comparison) `{!TotalCmp c} l x :
  min_by c l = Some x → x ∈ l ∧ ∀ y, y ∈ l → c x y ≠ Gt.
Proof.
  destruct l as [|a l]; simpl; [done|]. intros [= <-].
  assert (∀ b, (min_by_from c b l = b ∨ min_by_from c b l ∈ l) ∧
    c (min_by_from c b l) b ≠ Gt ∧ ∀ y, y ∈ l → c (min_by_from c b l) y ≠ Gt) as H.
  { induction l as [|y l IH]; intros b; simpl.
    - split_and!; [by left|by rewrite (cmp_refl c)|set_solver].
    - specialize (IH (match c b y with Gt => y | _ => b end)) as (H1 & H2 & H3).
      set (b' := match c b y with Gt => y | _ => b end) in *.
      assert (c b' b ≠ Gt ∧ c b' y ≠ Gt ∧ (b' = b ∨ b' = y)) as (Hb & Hy & Heq).
      { subst b'. destruct (c b y) eqn:E; split_and!; auto; rewrite ?(cmp_refl c), ?E; try done.
        by rewrite (cmp_antisym c b y), E. }
      split_and!.
      + destruct H1 as [->|?]; [|set_solver]. destruct Heq as [->| ->]; set_solver.
      + by apply (cmp_le_trans c _ b' _).
      + intros z [->|Hz]%elem_of_cons; [by apply (cmp_le_trans c _ b' _)|auto]. }
  destruct (H a) as (H1 & H2 & H3). split; [set_solver|].
  intros y [->|Hy]%elem_of_cons; auto.
Qed.

Lemma min_by_none {A} (c : A → A → comparison) l : min_by c l = None ↔ l = [].
Proof. by destruct l. Qed.

#[global] Instance sku_order_total {V} : TotalCmp (@sku_order V).
Proof.
  apply cmp_then_total; [apply cmp_rev_total, cmp_on_total, _|].
  apply cmp_then_total; apply cmp_on_total, _.
Qed.

Lemma pricing_skus_for_tenant_elem {V} (skus : gmap string (PricingSkuRecord.t V)) tenant sku :
  sku ∈ pricing_skus_for_tenant skus tenant ↔
  (∃ id, skus !! id = Some sku) ∧ PricingSkuRecord.tenant_id sku = tenant.
Proof.
  unfold pricing_skus_for_tenant. rewrite sort_by_elem, filter_iff, bool_decide_eq_true.
  rewrite list_elem_of_fmap. split.
  - intros [([id x] & -> & Hin) ?]. rewrite elem_of_map_to_list in Hin. eauto.
  - intros [[id Hid] ?]. split; [|done]. exists (id, sku). by rewrite elem_of_map_to_list.
Qed.

(** ** Properties *)

(** Fixed-point cost is exact up to its rounding mode: for non-negative
    units and price it is the rounded quotient of the exact product, capped at
    the largest [i64]; flooring never overcharges, every other mode rounds up
    and never undercharges, and either is off by less than one unit. *)
Theorem fixed_per_million_cost_exact units price mode :
  (0 ≤ units ≤ i64_max)%Z → (0 ≤ price ≤ i64_max)%Z →
  let c := fixed_per_million_cost units price mode in
  (0 ≤ c ≤ i64_max)%Z ∧
  (c = i64_max ∨
   if mode ==? "floor_per_event"
   then c * 1000000 ≤ units * price < (c + 1) * 1000000
   else (c - 1) * 1000000 < units * price ≤ c * 1000000)%Z.
Proof.
  intros [Hu _] [Hp _] c. split; [by apply fixed_cost_range|].
  unfold c. rewrite fixed_cost_value by done.
  case_bool_decide.
  - pose proof (Z.div_mod (units * price) 1000000).
    pose proof (Z.mod_pos_bound (units * price) 1000000). lia.
  - pose proof (Z.div_mod (units * price + 999999) 1000000).
    pose proof (Z.mod_pos_bound (units * price + 999999) 1000000). lia.
Qed.

Lemma fixed_per_million_cost_exact_witness :
  fixed_per_million_cost 1 1 "ceil_per_event" = 1%Z ∧
  (0 ≤ fixed_per_million_cost 1500000 3 "floor_per_event" ≤ i64_max)%Z.
Proof.
  split; [reflexivity|]. apply (fixed_per_million_cost_exact 1500000 3 "floor_per_event");
    unfold i64_max; lia.
Defined.

Section resolution.
Context {V : Type} `{JsonLibrary V}.

(** The SKU may price a request of the actor at this time. *)
Definition sku_in_force (actor : AuthenticatedActor.t) (now : DateTime)
    (sku : PricingSkuRecord.t V) : Prop :=
  PricingSkuRecord.tenant_id sku = AuthenticatedActor.tenant_id actor ∧
  PricingSkuRecord.status sku = ResourceStatus.Active ∧
  (PricingSkuRecord.organization_id sku = None ∨
   PricingSkuRecord.organization_id sku = AuthenticatedActor.organization_id actor) ∧
  (PricingSkuRecord.effective_from sku ≤ now)%Z ∧
  ∀ until, PricingSkuRecord.effective_until sku = Some until → (now < until)%Z.

(** It is in force and its patterns cover the model and the endpoint. *)
Definition sku_covers (actor : AuthenticatedActor.t) (model endpoint : string) (now : DateTime)
    (sku : PricingSkuRecord.t V) : Prop :=
  sku_in_force actor now sku ∧
  pricing_patterns_match (PricingSkuRecord.model_id_patterns sku) model = true ∧
  (PricingSkuRecord.provider_endpoint_patterns sku = [] ∨
   pricing_patterns_match (PricingSkuRecord.provider_endpoint_patterns sku) endpoint = true).

(** [best] goes before [other] or is indistinguishable from it. *)
Definition sku_preferred (best other : PricingSkuRecord.t V) : Prop :=
  (pricing_sku_specificity other < pricing_sku_specificity best ∨
   pricing_sku_specificity best = pricing_sku_specificity other ∧
   match String.compare (PricingSkuRecord.name best) (PricingSkuRecord.name other) with
   | Lt => True
   | Eq => String.compare (PricingSkuRecord.pricing_sku_id best)
             (PricingSkuRecord.pricing_sku_id other) ≠ Gt
   | Gt => False
   end)%Z.

Lemma sku_available_iff sku actor now :
  runtime_pricing_sku_is_available sku actor now = true ↔ sku_in_force actor now sku.
Proof.
  unfold runtime_pricing_sku_is_available, sku_in_force.
  rewrite !andb_true_iff, !bool_decide_eq_true, Z.leb_le.
  destruct (PricingSkuRecord.organization_id sku), (PricingSkuRecord.effective_until sku);
    rewrite ?bool_decide_eq_true, ?Z.ltb_lt; naive_solver.
Qed.

Lemma sku_matches_iff actor model endpoint now sku :
  sku_matches actor model endpoint now sku = true ↔ sku_covers actor model endpoint now sku.
Proof.
  unfold sku_matches, sku_covers. rewrite !andb_true_iff, sku_available_iff, orb_true_iff.
  destruct (PricingSkuRecord.provider_endpoint_patterns sku); naive_solver.
Qed.

Lemma sku_order_preferred best other : sku_order best other ≠ Gt → sku_preferred best other.
Proof.
  unfold sku_order, sku_preferred, cmp_then, cmp_rev, cmp_on.
  destruct (Z.compare_spec (pricing_sku_specificity other) (pricing_sku_specificity best));
    [|by left|done].
  intros Ho. right. split; [done|]. by destruct (String.compare (PricingSkuRecord.name best) _).
Qed.
End resolution.

(** Pricing resolution never crosses a tenant or a validity window and
    prefers the most specific SKU: the SKU chosen is stored, belongs to the
    actor's tenant, is active, fits the actor's organization and is in effect;
    with an explicit id it is the SKU of that id, and otherwise its patterns
    match the model and endpoint and no other matching SKU of the tenant comes
    before it in the order of specificity, name and id; nothing is chosen only
    if nothing matches. *)
Theorem resolve_pricing_best {V} `{JsonLibrary V}
    (skus : gmap string (PricingSkuRecord.t V)) actor model endpoint explicit now :
  match resolve_runtime_pricing_sku skus actor model endpoint explicit now with
  | Some sku =>
      (∃ id, skus !! id = Some sku) ∧ sku_in_force actor now sku ∧
      match explicit with
      | Some id => skus !! id = Some sku
      | None =>
          sku_covers actor model endpoint now sku ∧
          ∀ id other, skus !! id = Some other →
            sku_covers actor model endpoint now other → sku_preferred sku other
      end
  | None =>
      match explicit with
      | Some id => ∀ sku, skus !! id = Some sku → ¬ sku_in_force actor now sku
      | None => ∀ id sku, skus !! id = Some sku → ¬ sku_covers actor model endpoint now sku
      end
  end.
Proof.
  assert (∀ id sku, skus !! id = Some sku → sku_covers actor model endpoint now sku →
    sku ∈ List.filter (sku_matches actor model endpoint now)
      (pricing_skus_for_tenant skus (AuthenticatedActor.tenant_id actor))) as Hin.
  { intros id sku Hid Hc. apply filter_iff. rewrite sku_matches_iff.
    split; [|done]. apply pricing_skus_for_tenant_elem. split; [by eauto|apply Hc]. }
  unfold resolve_runtime_pricing_sku. destruct explicit as [id|].
  - destruct (skus !! id) as [sku|] eqn:E; [|by intros].
    destruct (runtime_pricing_sku_is_available sku actor now) eqn:Ea.
    + apply sku_available_iff in Ea. eauto.
    + intros sku' [= <-] Hf%sku_available_iff. congruence.
  - destruct (min_by _ _) as [sku|] eqn:E.
    + apply (min_by_spec sku_order) in E as [[Hs Hm%sku_matches_iff]%filter_iff Hmin].
      apply pricing_skus_for_tenant_elem in Hs as [Hid _].
      split_and!; [done|apply Hm|done|]. intros. apply sku_order_preferred. eauto.
    + apply min_by_none in E. intros id sku Hid Hc. specialize (Hin id sku Hid Hc).
      rewrite E in Hin. by apply not_elem_of_nil in Hin.
Qed.

(** ** Documents *)

Section documents.
Context {V : Type} `{JsonLibrary V} `{!JsonLaws V}.

Lemma token_component_range (usage prices : V) uk pk mode :
  (0 ≤ token_component_cost usage prices uk pk mode ≤ i64_max)%Z.
Proof. apply fixed_cost_range; lia. Qed.

Lemma nonneg_in_i64 z : (0 ≤ z ≤ i64_max)%Z → in_i64 z.
Proof. unfold in_i64, i64_min. lia. Qed.

Lemma saturating_add_range a b :
  (0 ≤ a)%Z → (0 ≤ b)%Z → (0 ≤ saturating_add a b ≤ i64_max)%Z.
Proof. intros. rewrite saturating_add_nonneg by done. unfold i64_max. lia. Qed.

Lemma total_cost_sum i o cr cw r q :
  (0 ≤ i ≤ i64_max)%Z → (0 ≤ o ≤ i64_max)%Z → (0 ≤ cr ≤ i64_max)%Z → (0 ≤ cw ≤ i64_max)%Z →
  (0 ≤ r ≤ i64_max)%Z → (0 ≤ q ≤ i64_max)%Z →
  saturating_add (saturating_add (saturating_add (saturating_add (saturating_add
    (saturating_add i o) cr) cw) r) 0) q = Z.min i64_max (i + o + cr + cw + r + 0 + q).
Proof. unfold saturating_add, clamp_i64, i64_min, i64_max. lia. Qed.

(** Reading the fields of a cost object back. *)
Lemma cost_object_reads currency unit input output cache_read cache_write reasoning media
    request total sku_id version mode diagnostics confidence :
  in_i64 input → in_i64 output → in_i64 cache_read → in_i64 cache_write → in_i64 reasoning →
  in_i64 media → in_i64 request → in_i64 total →
  let p : V := json_obj [("currency", json_str currency); ("unit", unit);
    ("input_cost", json_int input); ("output_cost", json_int output);
    ("cache_read_cost", json_int cache_read); ("cache_write_cost", json_int cache_write);
    ("reasoning_cost", json_int reasoning); ("media_cost", json_int media);
    ("request_cost", json_int request); ("total_cost", json_int total);
    ("confidence", confidence); ("pricing_sku_id", sku_id); ("pricing_version", version);
    ("rounding_mode", mode); ("diagnostics", diagnostics)] in
  get_i64 p "input_cost" = Some input ∧ get_i64 p "output_cost" = Some output ∧
  get_i64 p "cache_read_cost" = Some cache_read ∧
  get_i64 p "cache_write_cost" = Some cache_write ∧
  get_i64 p "reasoning_cost" = Some reasoning ∧ get_i64 p "media_cost" = Some media ∧
  get_i64 p "request_cost" = Some request ∧ get_i64 p "total_cost" = Some total ∧
  get_str p "currency" = Some currency.
Proof.
  intros. split_and!; try (apply get_i64_obj; [reflexivity|reflexivity|done]).
  by apply get_str_obj.
Qed.

(** A priced cost document is internally consistent and is what the ledger
    reads back: its component costs are non-negative, its total is their sum
    capped at the largest [i64], and an event carrying the document is
    accounted with exactly that total in the SKU's currency. *)
Theorem cost_payload_total sku (usage : V) (e : UsageEventRecord.t V) :
  let p := cost_payload_from_pricing_sku sku usage in
  UsageEventRecord.cost_payload e = p →
  ∃ input output cache_read cache_write reasoning media request,
    get_i64 p "input_cost" = Some input ∧ get_i64 p "output_cost" = Some output ∧
    get_i64 p "cache_read_cost" = Some cache_read ∧
    get_i64 p "cache_write_cost" = Some cache_write ∧
    get_i64 p "reasoning_cost" = Some reasoning ∧ get_i64 p "media_cost" = Some media ∧
    get_i64 p "request_cost" = Some request ∧
    Forall (λ z, (0 ≤ z)%Z) [input; output; cache_read; cache_write; reasoning; media; request] ∧
    event_cost_micros e = Z.min i64_max
      (input + output + cache_read + cache_write + reasoning + media + request) ∧
    event_currency e = PricingSkuRecord.currency sku.
Proof.
  intros p He. unfold event_cost_micros, event_currency, get_i64_or_0. rewrite He.
  unfold p, cost_payload_from_pricing_sku. cbv zeta.
  set (doc := PricingSkuRecord.pricing_document sku).
  set (mode := default "ceil_per_event" _). set (prices := default json_null _).
  pose proof (λ uk pk, token_component_range usage prices uk pk mode) as Hc.
  assert (0 ≤ Z.max (get_i64_or_0 doc "flat_request_cost") 0 ≤ i64_max)%Z as Hq.
  { pose proof (get_i64_or_0_range doc "flat_request_cost") as [_ ?]. unfold i64_max in *. lia. }
  pose proof (Hc "input_tokens" "input_per_million") as Hi.
  pose proof (Hc "output_tokens" "output_per_million") as Ho.
  pose proof (Hc "cache_read_tokens" "cache_read_per_million") as Hcr.
  pose proof (Hc "reasoning_tokens" "reasoning_per_million") as Hr.
  assert (0 ≤ saturating_add (saturating_add
      (token_component_cost usage prices "cache_write_tokens" "cache_write_per_million" mode)
      (token_component_cost usage prices "cache_write_5m_tokens" "cache_write_5m_per_million" mode))
      (token_component_cost usage prices "cache_write_1h_tokens" "cache_write_1h_per_million" mode)
    ≤ i64_max)%Z as Hcw by (repeat (apply saturating_add_range; [|apply Hc]); apply Hc).
  set (i := token_component_cost _ _ "input_tokens" _ _) in *.
  set (o := token_component_cost _ _ "output_tokens" _ _) in *.
  set (cr := token_component_cost _ _ "cache_read_tokens" _ _) in *.
  set (r := token_component_cost _ _ "reasoning_tokens" _ _) in *.
  set (q := Z.max _ 0) in *. set (cw := saturating_add (saturating_add _ _) _) in Hcw |- *.
  fold cw. clearbody i o cr r q cw.
  rewrite (total_cost_sum i o cr cw r q) by done.
  destruct (cost_object_reads (PricingSkuRecord.currency sku)
    (json_str (PricingSkuRecord.unit_name sku)) i o cr cw r 0 q
    (Z.min i64_max (i + o + cr + cw + r + 0 + q))
    (json_str (PricingSkuRecord.pricing_sku_id sku))
    (json_str (pretty (PricingSkuRecord.pricing_version sku))) (json_str mode) (json_arr [])
    (json_str "estimated")) as (Ei & Eo & Ecr & Ecw & Er & Em & Eq & Et & Ecur);
    [apply nonneg_in_i64; unfold i64_max in *; lia..|].
  exists i, o, cr, cw, r, 0%Z, q. split_and!; try done.
  - repeat constructor; lia.
  - by rewrite Et.
  - by rewrite Ecur.
Qed.
End documents.

(** ** Normalized usage *)

Section normalized.
Context {V : Type} `{JsonLibrary V} `{!JsonLaws V}.

Lemma first_i64_range (v : V) keys z : first_i64 v keys = Some z → in_i64 z.
Proof.
  induction keys as [|k keys IH]; simpl; [done|]. unfold get_i64 at 1.
  destruct (json_get v k) as [x|]; simpl; [|done].
  destruct (as_i64 x) as [y|] eqn:E; [|done]. intros [= <-]. by eapply as_i64_range.
Qed.

Lemma default_range (o : option Z) : (∀ z, o = Some z → in_i64 z) → in_i64 (default 0%Z o).
Proof. destruct o; simpl; [auto|]. intros _. by unfold in_i64. Qed.

Lemma get_i64_set k z (v : V) k' : is_object v → in_i64 z →
  get_i64 (json_set k (json_int z) v) k' = if k' ==? k then Some z else get_i64 v k'.
Proof.
  intros Hv Hz. unfold get_i64. rewrite get_set by done. case_bool_decide; [|done].
  simpl. by apply as_i64_int.
Qed.

(** Usage normalization is total and agrees with accounting: a body without
    a usage object of its protocol yields all-zero usage marked missing; with
    one, the payload is marked exact, its input and output counts are the first
    of the provider's spellings present (zero if none), and the token count
    charged against quotas and budgets is the provider's total, or input plus
    output when both are present and no total is given, or zero. *)
Theorem normalized_usage_token_count family (body : V) :
  let '(payload, confidence) := normalized_usage_payload family body in
  match provider_usage family body with
  | None => confidence = "missing" ∧ terminal_usage_token_count payload = 0%Z
  | Some u =>
      let input := first_i64 u ["input_tokens"; "promptTokenCount"; "inputTokens"] in
      let output := first_i64 u ["output_tokens"; "candidatesTokenCount"; "outputTokens"] in
      confidence = "exact" ∧
      get_i64 payload "input_tokens" = Some (default 0%Z input) ∧
      get_i64 payload "output_tokens" = Some (default 0%Z output) ∧
      terminal_usage_token_count payload =
        match first_i64 u ["total_tokens"; "totalTokenCount"; "totalTokens"], input, output with
        | Some total, _, _ => total
        | None, Some i, Some o => wrap_i64 (i + o)
        | None, _, _ => 0%Z
        end
  end.
Proof.
  unfold normalized_usage_payload. destruct (provider_usage family body) as [u|].
  - cbv zeta. set (input := first_i64 u ["input_tokens"; _; _]).
    set (output := first_i64 u ["output_tokens"; _; _]). set (total := first_i64 u ["total_tokens"; _; _]).
    assert (∀ z, input = Some z → in_i64 z) as Hi by (intros; by eapply first_i64_range).
    assert (∀ z, output = Some z → in_i64 z) as Ho by (intros; by eapply first_i64_range).
    assert (∀ z, total = Some z → in_i64 z) as Ht by (intros; by eapply first_i64_range).
    set (t := match total with Some total => Some total | None => _ end).
    assert (in_i64 (default 0%Z t)) as Htr.
    { apply default_range. unfold t. destruct total; [auto|]. destruct input, output; simpl; try done.
      intros ? [= <-]. apply wrap_i64_in. }
    assert (is_object (empty_usage_payload (V:=V))) as Hobj by (apply obj_is_object).
    unfold terminal_usage_token_count.
    rewrite !get_i64_set by (eauto using default_range with json). simpl.
    split_and!; try done. unfold t. by destruct total, input, output.
  - split; [done|]. unfold terminal_usage_token_count, empty_usage_payload.
    by rewrite (get_i64_obj _ "total_tokens" 0) by done.
Qed.
End normalized.

(** A value shorter than prefix and suffix together still matches. *)
Theorem pattern_prefix_suffix_overlap :
  pricing_pattern_matches "gpt-4*4-turbo" "gpt-4-turbo" = true.
Proof. reflexivity. Qed.

(** ** Witnesses *)

Module PricingSample.
#[local] Open Scope Z_scope.
Definition sku : PricingSkuRecord.t Tree.t :=
  PricingSkuRecord.mk "sku1" "ten" None "list price" "EUR" "micro_eur" ["gpt*"] []
    (Tree.Obj [("tokens", Tree.Obj [("input_per_million", Tree.Int 2500000)]);
               ("flat_request_cost", Tree.Int 10)])
    1 0 None false ResourceStatus.Active 1 1 "admin" 0 0.
Definition usage : Tree.t := Tree.Obj [("input_tokens", Tree.Int 3)].
Definition event : UsageEventRecord.t Tree.t :=
  UsageEventRecord.mk "u1" "ten" None None None None None None "r1" "tr" ProtocolFamily.OpenAiChat
    None None None None None None None "exact" None None "success" usage
    (cost_payload_from_pricing_sku sku usage) 0.
End PricingSample.

Lemma cost_payload_total_witness :
  event_cost_micros PricingSample.event = 18%Z ∧ event_currency PricingSample.event = "EUR".
Proof.
  destruct (cost_payload_total PricingSample.sku PricingSample.usage PricingSample.event eq_refl)
    as (i & o & cr & cw & r & m & q & _ & _ & _ & _ & _ & _ & _ & _ & _ & Hcur).
  split; [reflexivity|exact Hcur].
Defined.
