(* ===== verification/PolicyStore.v ===== *)
(** * Runtime policy counters and budget leases

    The [RuntimePolicyRepository] trait of [storage.rs] and its in-memory
    implementation: quota counters, the local loss allowances used while the
    hot state is down, and budget reservation leases.  The trait is the class
    [RuntimePolicyRepository]; [PolicyRepositoryLaws] states what its clients
    rely on, over three views of the store, and the in-memory instance
    discharges it. *)

From Stdlib Require Import Sorting.Sorted.
From S2P Require Import Prelude Order Domain.

(** ** Records *)

Module RuntimeQuotaCounterDecision.
Record t : Set := mk { current : Z; allowed : bool }.
End RuntimeQuotaCounterDecision.

Module RuntimeBudgetLeaseRecord.
Record t : Set := mk {
  lease_id : string;
  tenant_id : string;
  budget_policy_id : string;
  counter_key : string;
  request_id : string;
  amount : Z;
  status : string;
  expires_at : DateTime;
  created_at : DateTime;
  updated_at : DateTime;
}.

(** The in-place update of [status] and [updated_at]. *)
Definition with_status (status' : string) (now : DateTime) (l : t) : t :=
  mk (lease_id l) (tenant_id l) (budget_policy_id l) (counter_key l) (request_id l)
     (amount l) status' (expires_at l) (created_at l) now.
End RuntimeBudgetLeaseRecord.

(** ** The repository interface *)

Class RuntimePolicyRepository (S : Type) : Type := {
  runtime_policy_hot_state_available : S → bool;
  increment_runtime_quota_counter : string → Z → Z → S → RuntimeQuotaCounterDecision.t * S;
  runtime_policy_counter : string → S → Z * S;
  adjust_runtime_policy_counter : string → Z → S → Z * S;
  increment_runtime_policy_loss_allowance_counter :
    string → Z → Z → S → RuntimeQuotaCounterDecision.t * S;
  adjust_runtime_policy_loss_allowance_counter : string → Z → S → Z * S;
  runtime_policy_loss_allowance_counter : string → S → Z * S;
  record_runtime_budget_lease : RuntimeBudgetLeaseRecord.t → S → unit * S;
  release_runtime_budget_lease :
    string → DateTime → S → option RuntimeBudgetLeaseRecord.t * S;
  expire_runtime_budget_leases :
    string → DateTime → S → list RuntimeBudgetLeaseRecord.t * S;
  runtime_budget_leases_for_tenant : string → S → list RuntimeBudgetLeaseRecord.t * S;
}.

(** ** The in-memory implementation *)

Module InMemoryPolicyStore.
Record t : Type := mk {
  hot_state_unavailable : bool;
  runtime_quota_counters : gmap string Z;
  runtime_policy_loss_allowances : gmap string Z;
  runtime_budget_leases : gmap string RuntimeBudgetLeaseRecord.t;
}.

Definition empty : t := mk false ∅ ∅ ∅.

(** [entry(key).or_insert(0)] then saturating add. *)
Definition increment (key : string) (increment limit : Z) (counters : gmap string Z)
    : RuntimeQuotaCounterDecision.t * gmap string Z :=
  let current := saturating_add (default 0%Z (counters !! key)) increment in
  (RuntimeQuotaCounterDecision.mk current (current <=? limit)%Z, <[key := current]> counters).

(** Saturating add, floored at zero; a zero counter is removed. *)
Definition adjust (key : string) (delta : Z) (counters : gmap string Z) : Z * gmap string Z :=
  let next := Z.max (saturating_add (default 0%Z (counters !! key)) delta) 0 in
  (next, if (next =? 0)%Z then delete key counters else <[key := next]> counters).

Definition increment_runtime_quota_counter (key : string) (inc limit : Z) (s : t)
    : RuntimeQuotaCounterDecision.t * t :=
  let '(d, counters) := increment key inc limit (runtime_quota_counters s) in
  (d, mk (hot_state_unavailable s) counters (runtime_policy_loss_allowances s)
         (runtime_budget_leases s)).

Definition runtime_policy_counter (key : string) (s : t) : Z * t :=
  (default 0%Z (runtime_quota_counters s !! key), s).

Definition adjust_runtime_policy_counter (key : string) (delta : Z) (s : t) : Z * t :=
  let '(next, counters) := adjust key delta (runtime_quota_counters s) in
  (next, mk (hot_state_unavailable s) counters (runtime_policy_loss_allowances s)
            (runtime_budget_leases s)).

Definition increment_runtime_policy_loss_allowance_counter (key : string) (inc limit : Z) (s : t)
    : RuntimeQuotaCounterDecision.t * t :=
  let '(d, counters) := increment key inc limit (runtime_policy_loss_allowances s) in
  (d, mk (hot_state_unavailable s) (runtime_quota_counters s) counters
         (runtime_budget_leases s)).

Definition adjust_runtime_policy_loss_allowance_counter (key : string) (delta : Z) (s : t) : Z * t :=
  let '(next, counters) := adjust key delta (runtime_policy_loss_allowances s) in
  (next, mk (hot_state_unavailable s) (runtime_quota_counters s) counters
            (runtime_budget_leases s)).

Definition runtime_policy_loss_allowance_counter (key : string) (s : t) : Z * t :=
  (default 0%Z (runtime_policy_loss_allowances s !! key), s).

Definition with_leases (leases : gmap string RuntimeBudgetLeaseRecord.t) (s : t) : t :=
  mk (hot_state_unavailable s) (runtime_quota_counters s) (runtime_policy_loss_allowances s) leases.

Definition record_runtime_budget_lease (record : RuntimeBudgetLeaseRecord.t) (s : t) : unit * t :=
  (tt, with_leases (<[RuntimeBudgetLeaseRecord.lease_id record := record]>
                      (runtime_budget_leases s)) s).

Definition release_runtime_budget_lease (lease_id : string) (now : DateTime) (s : t)
    : option RuntimeBudgetLeaseRecord.t * t :=
  match runtime_budget_leases s !! lease_id with
  | None => (None, s)
  | Some lease =>
      if RuntimeBudgetLeaseRecord.status lease !=? "reserved" then (None, s)
      else
        let lease' := RuntimeBudgetLeaseRecord.with_status "released" now lease in
        (Some lease', with_leases (<[lease_id := lease']> (runtime_budget_leases s)) s)
  end.

(** The test of [expire_runtime_budget_leases]. *)
Definition expires (tenant_id : string) (now : DateTime) (lease : RuntimeBudgetLeaseRecord.t) : bool :=
  (RuntimeBudgetLeaseRecord.tenant_id lease ==? tenant_id)
  && (RuntimeBudgetLeaseRecord.status lease ==? "reserved")
  && (RuntimeBudgetLeaseRecord.expires_at lease <=? now)%Z.

Definition by_lease_id : RuntimeBudgetLeaseRecord.t → RuntimeBudgetLeaseRecord.t → comparison :=
  cmp_on RuntimeBudgetLeaseRecord.lease_id String.compare.

Definition expire_runtime_budget_leases (tenant_id : string) (now : DateTime) (s : t)
    : list RuntimeBudgetLeaseRecord.t * t :=
  let expired :=
    RuntimeBudgetLeaseRecord.with_status "expired" now
      <$> List.filter (expires tenant_id now) ((map_to_list (runtime_budget_leases s)).*2) in
  let leases :=
    (λ lease, if expires tenant_id now lease
              then RuntimeBudgetLeaseRecord.with_status "expired" now lease else lease)
      <$> runtime_budget_leases s in
  (sort_by by_lease_id expired, with_leases leases s).

(** Newest first, then by id. *)
Definition by_created_desc : RuntimeBudgetLeaseRecord.t → RuntimeBudgetLeaseRecord.t → comparison :=
  cmp_then (cmp_rev (cmp_on RuntimeBudgetLeaseRecord.created_at Z.compare)) by_lease_id.

Definition runtime_budget_leases_for_tenant (tenant_id : string) (s : t)
    : list RuntimeBudgetLeaseRecord.t * t :=
  (sort_by by_created_desc
     (List.filter (λ l, RuntimeBudgetLeaseRecord.tenant_id l ==? tenant_id)
        ((map_to_list (runtime_budget_leases s)).*2)), s).

#[global] Instance repository : RuntimePolicyRepository t := {
  runtime_policy_hot_state_available s := negb (hot_state_unavailable s);
  increment_runtime_quota_counter := increment_runtime_quota_counter;
  runtime_policy_counter := runtime_policy_counter;
  adjust_runtime_policy_counter := adjust_runtime_policy_counter;
  increment_runtime_policy_loss_allowance_counter :=
    increment_runtime_policy_loss_allowance_counter;
  adjust_runtime_policy_loss_allowance_counter := adjust_runtime_policy_loss_allowance_counter;
  runtime_policy_loss_allowance_counter := runtime_policy_loss_allowance_counter;
  record_runtime_budget_lease := record_runtime_budget_lease;
  release_runtime_budget_lease := release_runtime_budget_lease;
  expire_runtime_budget_leases := expire_runtime_budget_leases;
  runtime_budget_leases_for_tenant := runtime_budget_leases_for_tenant;
}.
End InMemoryPolicyStore.

(** ** What clients see of a repository *)

Module PolicyView.
Record t : Type := mk {
  available : bool;
  counter : string → Z;
  allowance : string → Z;
  lease : string → option RuntimeBudgetLeaseRecord.t;
}.

(** Views are compared pointwise. *)
#[global] Instance equiv : Equiv t := λ v w,
  available v = available w ∧
  (∀ k, counter v k = counter w k) ∧
  (∀ k, allowance v k = allowance w k) ∧
  (∀ k, lease v k = lease w k).

#[global] Instance equivalence : Equivalence (≡@{t}).
Proof.
  split.
  - by intros v.
  - intros v w (? & ? & ? & ?). by split_and!.
  - intros u v w (? & Hc & Ha & Hl) (? & Hc' & Ha' & Hl'). split_and!; [congruence|..]; intros k;
      [rewrite Hc|rewrite Ha|rewrite Hl]; auto.
Qed.

Definition set_counter (k : string) (n : Z) (v : t) : t :=
  mk (available v) (λ k', if k' ==? k then n else counter v k') (allowance v) (lease v).
Definition set_allowance (k : string) (n : Z) (v : t) : t :=
  mk (available v) (counter v) (λ k', if k' ==? k then n else allowance v k') (lease v).
Definition map_lease (f : string → option RuntimeBudgetLeaseRecord.t) (v : t) : t :=
  mk (available v) (counter v) (allowance v) f.
Definition set_lease (k : string) (l : RuntimeBudgetLeaseRecord.t) (v : t) : t :=
  map_lease (λ k', if k' ==? k then Some l else lease v k') v.

#[global] Instance available_proper : Proper ((≡) ==> (=)) available.
Proof. by intros v w (? & _). Qed.
#[global] Instance counter_proper : Proper ((≡) ==> (=) ==> (=)) counter.
Proof. intros v w (_ & H & _) k ? <-. apply H. Qed.
#[global] Instance allowance_proper : Proper ((≡) ==> (=) ==> (=)) allowance.
Proof. intros v w (_ & _ & H & _) k ? <-. apply H. Qed.
#[global] Instance lease_proper : Proper ((≡) ==> (=) ==> (=)) lease.
Proof. intros v w (_ & _ & _ & H) k ? <-. apply H. Qed.
#[global] Instance set_counter_proper : Proper ((=) ==> (=) ==> (≡) ==> (≡)) set_counter.
Proof.
  intros k ? <- n ? <- v w (? & Hc & ? & ?). split_and!; try done. intros k'. simpl. by rewrite Hc.
Qed.
#[global] Instance set_allowance_proper : Proper ((=) ==> (=) ==> (≡) ==> (≡)) set_allowance.
Proof.
  intros k ? <- n ? <- v w (? & ? & Ha & ?). split_and!; try done. intros k'. simpl. by rewrite Ha.
Qed.
#[global] Instance set_lease_proper : Proper ((=) ==> (=) ==> (≡) ==> (≡)) set_lease.
Proof.
  intros k ? <- l ? <- v w (? & ? & ? & Hl). split_and!; try done. intros k'. simpl. by rewrite Hl.
Qed.
End PolicyView.

(** The counter after an adjustment. *)
Definition adjusted (n delta : Z) : Z := Z.max (saturating_add n delta) 0.

Definition reserved (l : RuntimeBudgetLeaseRecord.t) : bool :=
  RuntimeBudgetLeaseRecord.status l ==? "reserved".

Class PolicyRepositoryLaws (S : Type) `{RuntimePolicyRepository S} : Type := {
  view : S → PolicyView.t;
  available_law s : runtime_policy_hot_state_available s = PolicyView.available (view s);
  counter_law k s : runtime_policy_counter k s = (PolicyView.counter (view s) k, s);
  allowance_law k s :
    runtime_policy_loss_allowance_counter k s = (PolicyView.allowance (view s) k, s);
  increment_law k inc limit s :
    let n := saturating_add (PolicyView.counter (view s) k) inc in
    (increment_runtime_quota_counter k inc limit s).1
      = RuntimeQuotaCounterDecision.mk n (n <=? limit)%Z ∧
    view (increment_runtime_quota_counter k inc limit s).2 ≡ PolicyView.set_counter k n (view s);
  adjust_law k delta s :
    let n := adjusted (PolicyView.counter (view s) k) delta in
    (adjust_runtime_policy_counter k delta s).1 = n ∧
    view (adjust_runtime_policy_counter k delta s).2 ≡ PolicyView.set_counter k n (view s);
  increment_allowance_law k inc limit s :
    let n := saturating_add (PolicyView.allowance (view s) k) inc in
    (increment_runtime_policy_loss_allowance_counter k inc limit s).1
      = RuntimeQuotaCounterDecision.mk n (n <=? limit)%Z ∧
    view (increment_runtime_policy_loss_allowance_counter k inc limit s).2
      ≡ PolicyView.set_allowance k n (view s);
  adjust_allowance_law k delta s :
    let n := adjusted (PolicyView.allowance (view s) k) delta in
    (adjust_runtime_policy_loss_allowance_counter k delta s).1 = n ∧
    view (adjust_runtime_policy_loss_allowance_counter k delta s).2
      ≡ PolicyView.set_allowance k n (view s);
  record_law l s :
    view (record_runtime_budget_lease l s).2
      ≡ PolicyView.set_lease (RuntimeBudgetLeaseRecord.lease_id l) l (view s);
  release_law id now s :
    match PolicyView.lease (view s) id with
    | Some l =>
        if reserved l then
          let l' := RuntimeBudgetLeaseRecord.with_status "released" now l in
          (release_runtime_budget_lease id now s).1 = Some l' ∧
          view (release_runtime_budget_lease id now s).2 ≡ PolicyView.set_lease id l' (view s)
        else
          (release_runtime_budget_lease id now s).1 = None ∧
          view (release_runtime_budget_lease id now s).2 ≡ view s
    | None =>
        (release_runtime_budget_lease id now s).1 = None ∧
        view (release_runtime_budget_lease id now s).2 ≡ view s
    end;
  expire_law tenant now s :
    let expired l := InMemoryPolicyStore.expires tenant now l in
    view (expire_runtime_budget_leases tenant now s).2
      ≡ PolicyView.map_lease (λ id,
          (λ l, if expired l then RuntimeBudgetLeaseRecord.with_status "expired" now l else l)
            <$> PolicyView.lease (view s) id) (view s) ∧
    ∃ ids, NoDup ids ∧
      (∀ id, id ∈ ids ↔ ∃ l, PolicyView.lease (view s) id = Some l ∧ expired l = true) ∧
      (expire_runtime_budget_leases tenant now s).1 ≡ₚ
        RuntimeBudgetLeaseRecord.with_status "expired" now
          <$> omap (PolicyView.lease (view s)) ids;
}.

(** ** The in-memory repository is lawful *)

Definition in_memory_view (s : InMemoryPolicyStore.t) : PolicyView.t :=
  PolicyView.mk (negb (InMemoryPolicyStore.hot_state_unavailable s))
    (λ k, default 0%Z (InMemoryPolicyStore.runtime_quota_counters s !! k))
    (λ k, default 0%Z (InMemoryPolicyStore.runtime_policy_loss_allowances s !! k))
    (λ id, InMemoryPolicyStore.runtime_budget_leases s !! id).

Lemma adjust_lookup k delta m k' :
  default 0%Z ((InMemoryPolicyStore.adjust k delta m).2 !! k') =
  if k' ==? k then adjusted (default 0%Z (m !! k)) delta else default 0%Z (m !! k').
Proof.
  unfold InMemoryPolicyStore.adjust, adjusted. simpl.
  destruct (Z.eqb_spec (Z.max (saturating_add (default 0%Z (m !! k)) delta) 0) 0) as [->|];
    case_bool_decide; subst; rewrite ?lookup_delete_eq, ?lookup_insert_eq,
      ?lookup_delete_ne, ?lookup_insert_ne by done; done.
Qed.

Lemma increment_lookup k inc limit m k' :
  default 0%Z ((InMemoryPolicyStore.increment k inc limit m).2 !! k') =
  if k' ==? k then saturating_add (default 0%Z (m !! k)) inc else default 0%Z (m !! k').
Proof.
  unfold InMemoryPolicyStore.increment. simpl. case_bool_decide; subst;
    [by rewrite lookup_insert_eq|by rewrite lookup_insert_ne].
Qed.

(** The leases selected by a test, with the keys they are stored under. *)
Lemma filter_snd_omap (m : gmap string RuntimeBudgetLeaseRecord.t) f :
  let ids := List.filter (λ id, match m !! id with Some l => f l | None => false end)
               (map_to_list m).*1 in
  NoDup ids ∧ (∀ id, id ∈ ids ↔ ∃ l, m !! id = Some l ∧ f l = true) ∧
  List.filter f (map_to_list m).*2 = omap (λ id, m !! id) ids.
Proof.
  intros ids. split_and!.
  - apply NoDup_ListNoDup, List.NoDup_filter, NoDup_ListNoDup, NoDup_fst_map_to_list.
  - intros id. unfold ids. rewrite filter_iff. split.
    + intros [_ H]. destruct (m !! id); [eauto|done].
    + intros (l & Hl & Hf). rewrite Hl. split; [|done].
      apply list_elem_of_fmap. exists (id, l). by rewrite elem_of_map_to_list.
  - unfold ids. assert (∀ l, l ⊆ map_to_list m →
      List.filter f l.*2 = omap (λ id, m !! id)
        (List.filter (λ id, match m !! id with Some l => f l | None => false end) l.*1)) as H.
    { intros l. induction l as [|[id x] l IH]; intros Hsub; [done|].
      assert (m !! id = Some x) as Hx by (apply elem_of_map_to_list, Hsub; set_solver).
      cbn. rewrite Hx, IH by set_solver. destruct (f x); cbn; by rewrite ?Hx. }
    by apply H.
Qed.

#[global] Instance in_memory_laws : PolicyRepositoryLaws InMemoryPolicyStore.t.
Proof.
  refine {| view := in_memory_view |}; intros; simpl.
  - done.
  - done.
  - done.
  - split; [done|]. split_and!; try done. intros k'. apply (increment_lookup _ _ limit).
  - split; [done|]. split_and!; try done. intros k'. apply adjust_lookup.
  - split; [done|]. split_and!; try done. intros k'. apply (increment_lookup _ _ limit).
  - split; [done|]. split_and!; try done. intros k'. apply adjust_lookup.
  - split_and!; try done. intros k'. simpl.
    case_bool_decide; subst; [by rewrite lookup_insert_eq|by rewrite lookup_insert_ne].
  - unfold InMemoryPolicyStore.release_runtime_budget_lease, reserved.
    destruct (_ !! id) as [l|]; [|done]. case_bool_decide; [|done]. simpl.
    split; [done|]. split_and!; try done. intros k'. simpl.
    case_bool_decide; subst; [by rewrite lookup_insert_eq|by rewrite lookup_insert_ne].
  - split.
    + split_and!; try done. intros k. simpl. by rewrite lookup_fmap.
    + destruct (filter_snd_omap (InMemoryPolicyStore.runtime_budget_leases s)
        (InMemoryPolicyStore.expires tenant now)) as (Hnd & Hin & ->).
      eexists. split; [exact Hnd|]. split; [exact Hin|]. apply sort_by_perm.
Defined.
