(* ===== verification/RuntimePolicy.v ===== *)
(** * Runtime budget and quota enforcement

    [service.rs]: the preflight every model request passes before it reaches a
    provider, the reservations it takes, and their release.  The code is a
    sequence of repository calls that can stop with an error in between: each
    function is a computation in the state and error monad [M S], over any
    repository.  Policies, ledger and emergency operations are read from the
    durable store and are arguments. *)

From stdpp Require Import pretty.
From S2P Require Import Prelude Order Domain Routing Json Usage PolicyStore.

(** ** Records *)

Module BudgetPolicyRecord.
Record t : Set := mk {
  budget_policy_id : string;
  tenant_id : string;
  scope_kind : string;
  scope_id : string;
  organization_id : option string;
  project_id : option string;
  currency : option string;
  period : string;
  limit_kind : string;
  hard_limit : option Z;
  soft_limit : option Z;
  thresholds : list Z;
  reset_policy : string;
  overage_mode : string;
  consistency_mode : string;
  status : ResourceStatus.t;
  resource_version : Z;
  schema_version : Z;
  created_by : string;
  created_at : DateTime;
  updated_at : DateTime;
}.
End BudgetPolicyRecord.

Module QuotaPolicyRecord.
Record t : Set := mk {
  quota_policy_id : string;
  tenant_id : string;
  scope_kind : string;
  scope_id : string;
  organization_id : option string;
  project_id : option string;
  counter_kind : string;
  limit : Z;
  burst_limit : option Z;
  window : string;
  increment_source : string;
  loss_behavior : string;
  status : ResourceStatus.t;
  resource_version : Z;
  schema_version : Z;
  created_by : string;
  created_at : DateTime;
  updated_at : DateTime;
}.
End QuotaPolicyRecord.

Module EmergencyOperationRecord.
Record t {V : Type} : Type := mk {
  emergency_operation_id : string;
  tenant_id : string;
  organization_id : option string;
  project_id : option string;
  operation_kind : string;
  target_resource_kind : string;
  target_resource_id : string;
  requested_by : string;
  reason : string;
  status : string;
  operator_alert_document : V;
  resource_version : Z;
  schema_version : Z;
  created_at : DateTime;
  updated_at : DateTime;
  expires_at : DateTime;
}.
Arguments t V : clear implicits.
Arguments mk {V}.
End EmergencyOperationRecord.

Module RuntimeBudgetReservation.
Record t : Set := mk { lease_id : string; counter_key : string; amount : Z }.
End RuntimeBudgetReservation.

Module RuntimePolicyCounterBackend.
Inductive t : Set := HotState | LossAllowance.
End RuntimePolicyCounterBackend.

Module RuntimeQuotaReservation.
Record t : Set := mk {
  counter_key : string;
  amount : Z;
  counter_backend : RuntimePolicyCounterBackend.t;
}.
End RuntimeQuotaReservation.

Module RuntimePolicyPreflight.
Record t : Set := mk {
  budget_reservations : list RuntimeBudgetReservation.t;
  quota_reservations : list RuntimeQuotaReservation.t;
}.
End RuntimePolicyPreflight.

Module RuntimeQuotaPreflightInput.
Record t : Set := mk {
  replay_case : GatewayReplayCase.t;
  request_body_bytes : Z;
  now : DateTime;
  hot_state_available : bool;
}.
End RuntimeQuotaPreflightInput.

(** What enforcement reads from the durable store. *)
Module PolicyData.
Record t {V : Type} : Type := mk {
  budget_policies : gmap string BudgetPolicyRecord.t;
  quota_policies : gmap string QuotaPolicyRecord.t;
  emergency_operations : gmap string (EmergencyOperationRecord.t V);
  usage : UsageStore V;
}.
Arguments t V : clear implicits.
Arguments mk {V}.
End PolicyData.

Definition RUNTIME_BUDGET_LEASE_TTL_SECONDS : Z := 300.

(** ** Listing policies *)

Definition budget_policies_for_tenant (policies : gmap string BudgetPolicyRecord.t)
    (tenant_id : string) : list BudgetPolicyRecord.t :=
  sort_by
    (cmp_then (cmp_on BudgetPolicyRecord.scope_kind String.compare)
      (cmp_then (cmp_on BudgetPolicyRecord.scope_id String.compare)
        (cmp_then (cmp_on BudgetPolicyRecord.limit_kind String.compare)
          (cmp_on BudgetPolicyRecord.budget_policy_id String.compare))))
    (List.filter (λ p, BudgetPolicyRecord.tenant_id p ==? tenant_id) ((map_to_list policies).*2)).

Definition quota_policies_for_tenant (policies : gmap string QuotaPolicyRecord.t)
    (tenant_id : string) : list QuotaPolicyRecord.t :=
  sort_by
    (cmp_then (cmp_on QuotaPolicyRecord.scope_kind String.compare)
      (cmp_then (cmp_on QuotaPolicyRecord.scope_id String.compare)
        (cmp_then (cmp_on QuotaPolicyRecord.counter_kind String.compare)
          (cmp_on QuotaPolicyRecord.quota_policy_id String.compare))))
    (List.filter (λ p, QuotaPolicyRecord.tenant_id p ==? tenant_id) ((map_to_list policies).*2)).

Definition emergency_operations_for_tenant {V}
    (operations : gmap string (EmergencyOperationRecord.t V)) (tenant_id : string)
    : list (EmergencyOperationRecord.t V) :=
  sort_by
    (cmp_then (cmp_rev (cmp_on EmergencyOperationRecord.created_at Z.compare))
      (cmp_rev (cmp_on EmergencyOperationRecord.emergency_operation_id String.compare)))
    (List.filter (λ o, EmergencyOperationRecord.tenant_id o ==? tenant_id)
       ((map_to_list operations).*2)).

(** ** Matching policies to requests and buckets *)

Section matching.
Context `{ChronoCalendar}.

Definition runtime_budget_policy_matches_request (policy : BudgetPolicyRecord.t)
    (actor : AuthenticatedActor.t) (selected : option SelectedRouteEvidence.t) : bool :=
  let kind := BudgetPolicyRecord.scope_kind policy in
  let id := BudgetPolicyRecord.scope_id policy in
  let route f := match selected with Some r => f r ==? id | None => false end in
  if kind ==? "tenant" then id ==? AuthenticatedActor.tenant_id actor
  else if kind ==? "organization" then AuthenticatedActor.organization_id actor ==? Some id
  else if kind ==? "project" then AuthenticatedActor.project_id actor ==? Some id
  else if kind ==? "credential" then
    (selected ≫= SelectedRouteEvidence.upstream_credential_id) ==? Some id
  else if kind ==? "alias" then route SelectedRouteEvidence.model_alias_id
  else if kind ==? "group" then route SelectedRouteEvidence.routing_group_id
  else if kind ==? "endpoint" then route SelectedRouteEvidence.provider_endpoint_id
  else if kind ==? "target" then route SelectedRouteEvidence.model_target_id
  else false.

Definition runtime_budget_period_matches (policy : BudgetPolicyRecord.t)
    (bucket_start now : DateTime) : bool :=
  if BudgetPolicyRecord.period policy ==? "calendar_day" then
    (date_year bucket_start =? date_year now)%Z && (date_month bucket_start =? date_month now)%Z
    && (date_day bucket_start =? date_day now)%Z
  else if BudgetPolicyRecord.period policy ==? "calendar_month" then
    (date_year bucket_start =? date_year now)%Z && (date_month bucket_start =? date_month now)%Z
  else true.

Definition runtime_budget_bucket_scope_matches (policy : BudgetPolicyRecord.t)
    (bucket : LedgerBucketRecord.t) : bool :=
  let kind := BudgetPolicyRecord.scope_kind policy in
  let id := BudgetPolicyRecord.scope_id policy in
  if kind ==? "tenant" then LedgerBucketRecord.tenant_id bucket ==? id
  else if kind ==? "organization" then LedgerBucketRecord.organization_id bucket ==? Some id
  else if kind ==? "project" then LedgerBucketRecord.project_id bucket ==? Some id
  else if kind ==? "credential" then LedgerBucketRecord.upstream_credential_id bucket ==? Some id
  else if kind ==? "alias" then LedgerBucketRecord.model_alias_id bucket ==? Some id
  else if kind ==? "group" then LedgerBucketRecord.routing_group_id bucket ==? Some id
  else if kind ==? "endpoint" then LedgerBucketRecord.provider_endpoint_id bucket ==? Some id
  else if kind ==? "target" then LedgerBucketRecord.model_target_id bucket ==? Some id
  else false.

Definition runtime_budget_bucket_currency_matches (policy : BudgetPolicyRecord.t)
    (bucket : LedgerBucketRecord.t) : bool :=
  match BudgetPolicyRecord.currency policy with
  | None => true
  | Some currency => currency ==? LedgerBucketRecord.currency_code bucket
  end.

Definition runtime_budget_bucket_matches (policy : BudgetPolicyRecord.t)
    (bucket : LedgerBucketRecord.t) (now : DateTime) : bool :=
  (LedgerBucketRecord.bucket_kind bucket ==? "event")
  && runtime_budget_period_matches policy (LedgerBucketRecord.bucket_start bucket) now
  && runtime_budget_bucket_scope_matches policy bucket
  && runtime_budget_bucket_currency_matches policy bucket.

Definition runtime_budget_bucket_value (policy : BudgetPolicyRecord.t)
    (bucket : LedgerBucketRecord.t) : Z :=
  let kind := BudgetPolicyRecord.limit_kind policy in
  if kind ==? "requests" then LedgerBucketRecord.request_count bucket
  else if kind ==? "tokens" then
    saturating_add (saturating_add (LedgerBucketRecord.input_tokens bucket)
                      (LedgerBucketRecord.output_tokens bucket))
      (LedgerBucketRecord.reasoning_tokens bucket)
  else if kind ==? "cost" then LedgerBucketRecord.estimated_cost_micros bucket
  else 0%Z.

Definition runtime_budget_policy_is_preflight_enforced (policy : BudgetPolicyRecord.t) : bool :=
  (BudgetPolicyRecord.status policy ==? ResourceStatus.Active)
  && (BudgetPolicyRecord.overage_mode policy ==? "block_new_requests")
  && ((BudgetPolicyRecord.limit_kind policy ==? "requests")
      || (BudgetPolicyRecord.limit_kind policy ==? "tokens")
      || (BudgetPolicyRecord.limit_kind policy ==? "cost")).

(** The ledger value a policy is compared with. *)
Definition budget_ledger_value (policy : BudgetPolicyRecord.t)
    (buckets : list LedgerBucketRecord.t) (now : DateTime) : Z :=
  sum_i64 (runtime_budget_bucket_value policy
    <$> List.filter (λ b, runtime_budget_bucket_matches policy b now) buckets).

Definition two_digits (z : Z) : string :=
  if (z <? 10)%Z then "0" +:+ pretty z else pretty z.

Definition runtime_budget_reservation_period_key (policy : BudgetPolicyRecord.t) (now : DateTime)
    : string :=
  if BudgetPolicyRecord.period policy ==? "calendar_day" then format_ymd now
  else if BudgetPolicyRecord.period policy ==? "calendar_month" then
    pretty (date_year now) +:+ "-" +:+ two_digits (date_month now)
  else "all_time".

Definition runtime_budget_reservation_key (policy : BudgetPolicyRecord.t) (now : DateTime)
    : string :=
  join "|" [BudgetPolicyRecord.tenant_id policy; BudgetPolicyRecord.budget_policy_id policy;
    BudgetPolicyRecord.scope_kind policy; BudgetPolicyRecord.scope_id policy;
    BudgetPolicyRecord.limit_kind policy; BudgetPolicyRecord.period policy;
    runtime_budget_reservation_period_key policy now].

Definition runtime_quota_policy_matches_request (policy : QuotaPolicyRecord.t)
    (actor : AuthenticatedActor.t) (replay_case : GatewayReplayCase.t)
    (selected : option SelectedRouteEvidence.t) : bool :=
  let kind := QuotaPolicyRecord.scope_kind policy in
  let id := QuotaPolicyRecord.scope_id policy in
  let route f := match selected with Some r => f r ==? id | None => false end in
  if kind ==? "tenant" then id ==? AuthenticatedActor.tenant_id actor
  else if kind ==? "organization" then AuthenticatedActor.organization_id actor ==? Some id
  else if kind ==? "project" then AuthenticatedActor.project_id actor ==? Some id
  else if kind ==? "credential" then
    (selected ≫= SelectedRouteEvidence.upstream_credential_id) ==? Some id
  else if kind ==? "alias" then route SelectedRouteEvidence.model_alias_id
  else if kind ==? "endpoint" then route SelectedRouteEvidence.provider_endpoint_id
  else if kind ==? "protocol_family" then
    ProtocolFamily.as_str (GatewayReplayCase.protocol_family replay_case) ==? id
  else false.

Definition runtime_quota_counter_key (policy : QuotaPolicyRecord.t) (now : DateTime) : string :=
  let window := QuotaPolicyRecord.window policy in
  let window_slot :=
    if (window ==? "fixed") || (window ==? "sliding") then pretty (timestamp now / 60)%Z
    else if (window ==? "request_lifetime") || (window ==? "stream_lifetime") then "active"
    else if window ==? "ledger_bucket" then "ledger_bucket"
    else "default" in
  join "|" [QuotaPolicyRecord.tenant_id policy; QuotaPolicyRecord.quota_policy_id policy;
    QuotaPolicyRecord.scope_kind policy; QuotaPolicyRecord.scope_id policy;
    QuotaPolicyRecord.counter_kind policy; window; window_slot].

Definition runtime_quota_loss_allowance_key (policy : QuotaPolicyRecord.t) (now : DateTime)
    : string := "loss|" +:+ runtime_quota_counter_key policy now.

Definition quota_is (policy : QuotaPolicyRecord.t) (counter_kind increment_source : string) : bool :=
  (QuotaPolicyRecord.counter_kind policy ==? counter_kind)
  && (QuotaPolicyRecord.increment_source policy ==? increment_source).

Definition runtime_quota_policy_needs_hot_state (policy : QuotaPolicyRecord.t) : bool :=
  quota_is policy "request_rate" "accepted_preflight_request"
  || quota_is policy "concurrent_request" "preflight_acquire"
  || quota_is policy "concurrent_stream" "stream_start"
  || quota_is policy "stream_duration" "stream_start"
  || quota_is policy "token_actual_rate" "terminal_usage_event".

Definition runtime_quota_policy_requires_stream (policy : QuotaPolicyRecord.t) : bool :=
  (QuotaPolicyRecord.counter_kind policy ==? "concurrent_stream")
  || (QuotaPolicyRecord.counter_kind policy ==? "stream_duration").

Definition runtime_quota_policy_skips_request (policy : QuotaPolicyRecord.t)
    (replay_case : GatewayReplayCase.t) : bool :=
  runtime_quota_policy_requires_stream policy && negb (GatewayReplayCase.streaming replay_case).

Definition usize_to_i64 (value : Z) : Z := if (value <=? i64_max)%Z then value else i64_max.

Definition enforce_runtime_quota_body_limit (policy : QuotaPolicyRecord.t)
    (request_body_bytes : Z) : Result unit :=
  if quota_is policy "request_body_bytes" "request_body_bytes"
     && (QuotaPolicyRecord.limit policy <? usize_to_i64 request_body_bytes)%Z
  then Err (GatewayError.QuotaExceeded "request_body_size_limit_reached")
  else Ok tt.

(** ** Emergency blocks *)

Definition active_force_budget_block_policy {V} (data : PolicyData.t V)
    (actor : AuthenticatedActor.t) (selected : option SelectedRouteEvidence.t) (now : DateTime)
    : option BudgetPolicyRecord.t :=
  let operations :=
    List.filter (λ o,
      (EmergencyOperationRecord.operation_kind o ==? "force_budget_block")
      && (EmergencyOperationRecord.target_resource_kind o ==? "BudgetPolicy")
      && (EmergencyOperationRecord.status o ==? "applied")
      && (now <? EmergencyOperationRecord.expires_at o)%Z)
      (emergency_operations_for_tenant (PolicyData.emergency_operations data)
         (AuthenticatedActor.tenant_id actor)) in
  head (omap (λ o,
    policy ← PolicyData.budget_policies data
               !! EmergencyOperationRecord.target_resource_id o;
    if (BudgetPolicyRecord.tenant_id policy ==? AuthenticatedActor.tenant_id actor)
       && (BudgetPolicyRecord.status policy !=? ResourceStatus.Deleted)
       && runtime_budget_policy_matches_request policy actor selected
    then Some policy else None) operations).
End matching.

(** ** Reservations

    [release_now] is the clock read while releasing; it only dates the lease
    record. *)

Section enforcement.
Context `{ChronoCalendar} {S : Type} `{RuntimePolicyRepository S}.

Abbreviation Eff := (M S GatewayError.t).

Fixpoint release_runtime_budget_reservations (release_now : DateTime)
    (reservations : list RuntimeBudgetReservation.t) : Eff unit :=
  match reservations with
  | [] => mret tt
  | reservation :: reservations' =>
      released ← act (release_runtime_budget_lease
                        (RuntimeBudgetReservation.lease_id reservation) release_now);
      match released with
      | Some _ =>
          act (adjust_runtime_policy_counter (RuntimeBudgetReservation.counter_key reservation)
                 (- RuntimeBudgetReservation.amount reservation)%Z);;
          release_runtime_budget_reservations release_now reservations'
      | None => release_runtime_budget_reservations release_now reservations'
      end
  end.

Fixpoint release_runtime_quota_reservations (reservations : list RuntimeQuotaReservation.t)
    : Eff unit :=
  match reservations with
  | [] => mret tt
  | reservation :: reservations' =>
      match RuntimeQuotaReservation.counter_backend reservation with
      | RuntimePolicyCounterBackend.HotState =>
          act (adjust_runtime_policy_counter (RuntimeQuotaReservation.counter_key reservation)
                 (- RuntimeQuotaReservation.amount reservation)%Z)
      | RuntimePolicyCounterBackend.LossAllowance =>
          act (adjust_runtime_policy_loss_allowance_counter
                 (RuntimeQuotaReservation.counter_key reservation)
                 (- RuntimeQuotaReservation.amount reservation)%Z)
      end;;
      release_runtime_quota_reservations reservations'
  end.

Definition release_runtime_policy_reservations (release_now : DateTime)
    (preflight : RuntimePolicyPreflight.t) : Eff unit :=
  release_runtime_budget_reservations release_now
    (RuntimePolicyPreflight.budget_reservations preflight);;
  release_runtime_quota_reservations (RuntimePolicyPreflight.quota_reservations preflight).

(** ** Budgets *)

Definition reserve_runtime_request_budget (uuid : string) (actor : AuthenticatedActor.t)
    (policy : BudgetPolicyRecord.t) (current_ledger_value limit : Z) (now : DateTime)
    : Eff RuntimeBudgetReservation.t :=
  available ← gets runtime_policy_hot_state_available;
  if negb available then throw (GatewayError.BudgetExceeded "budget_hot_state_unavailable")
  else
    let counter_key := runtime_budget_reservation_key policy now in
    let lease_id := new_prefixed_id "bls" uuid in
    reserved_after_increment ← act (adjust_runtime_policy_counter counter_key 1);
    if (limit <? saturating_add current_ledger_value reserved_after_increment)%Z then
      act (adjust_runtime_policy_counter counter_key (-1));;
      throw (GatewayError.BudgetExceeded "hard_limit_reserved")
    else
      act (record_runtime_budget_lease
             (RuntimeBudgetLeaseRecord.mk lease_id (BudgetPolicyRecord.tenant_id policy)
                (BudgetPolicyRecord.budget_policy_id policy) counter_key
                (AuthenticatedActor.request_id actor) 1 "reserved"
                (now + duration_seconds RUNTIME_BUDGET_LEASE_TTL_SECONDS)%Z now now));;
      mret (RuntimeBudgetReservation.mk lease_id counter_key 1).

(** The loop over the policies; [uuid i] is the id drawn in round [i]. *)
Fixpoint budget_preflight_loop (uuid : nat → string) (i : nat) (release_now : DateTime)
    (actor : AuthenticatedActor.t) (selected : option SelectedRouteEvidence.t) (now : DateTime)
    (ledger_buckets : list LedgerBucketRecord.t) (policies : list BudgetPolicyRecord.t)
    (reservations : list RuntimeBudgetReservation.t) : Eff (list RuntimeBudgetReservation.t) :=
  match policies with
  | [] => mret reservations
  | policy :: policies' =>
      let continue reservations' :=
        budget_preflight_loop uuid (Datatypes.S i) release_now actor selected now ledger_buckets
          policies' reservations' in
      match BudgetPolicyRecord.hard_limit policy with
      | None => continue reservations
      | Some limit =>
          if negb (runtime_budget_policy_is_preflight_enforced policy)
             || negb (runtime_budget_policy_matches_request policy actor selected)
          then continue reservations
          else
            let current := budget_ledger_value policy ledger_buckets now in
            let kind := BudgetPolicyRecord.limit_kind policy in
            let exceeded :=
              if kind ==? "requests" then (limit <? saturating_add current 1)%Z
              else if (kind ==? "tokens") || (kind ==? "cost") then (limit <=? current)%Z
              else false in
            if exceeded then
              release_runtime_budget_reservations release_now reservations;;
              throw (GatewayError.BudgetExceeded "hard_limit_reached")
            else if kind ==? "requests" then
              reservation ← reserve_runtime_request_budget (uuid i) actor policy current limit now;
              continue (reservations ++ [reservation])
            else continue reservations
      end
  end.

Definition enforce_runtime_budget_preflight {V} (data : PolicyData.t V) (uuid : nat → string)
    (release_now : DateTime) (actor : AuthenticatedActor.t)
    (selected : option SelectedRouteEvidence.t) (now : DateTime)
    : Eff (list RuntimeBudgetReservation.t) :=
  match active_force_budget_block_policy data actor selected now with
  | Some _ => throw (GatewayError.BudgetExceeded "emergency_force_budget_block")
  | None =>
      budget_preflight_loop uuid 0 release_now actor selected now
        (ledger_buckets_for_tenant (PolicyData.usage data) (AuthenticatedActor.tenant_id actor))
        (budget_policies_for_tenant (PolicyData.budget_policies data)
           (AuthenticatedActor.tenant_id actor)) []
  end.

(** ** Quotas *)

Definition runtime_quota_current_value (policy : QuotaPolicyRecord.t) (now : DateTime) : Eff Z :=
  act (runtime_policy_counter (runtime_quota_counter_key policy now)).

Definition reserve_runtime_quota_counter (policy : QuotaPolicyRecord.t) (amount : Z)
    (reason : string) (now : DateTime) : Eff RuntimeQuotaReservation.t :=
  let counter_key := runtime_quota_counter_key policy now in
  current ← act (adjust_runtime_policy_counter counter_key amount);
  if (QuotaPolicyRecord.limit policy <? current)%Z then
    act (adjust_runtime_policy_counter counter_key (- amount)%Z);;
    throw (GatewayError.QuotaExceeded reason)
  else
    mret (RuntimeQuotaReservation.mk counter_key amount RuntimePolicyCounterBackend.HotState).

Definition enforce_runtime_quota_current_limit (policy : QuotaPolicyRecord.t) (now : DateTime)
    : Eff unit :=
  (if quota_is policy "token_actual_rate" "terminal_usage_event" then
     current ← runtime_quota_current_value policy now;
     if (QuotaPolicyRecord.limit policy <=? current)%Z
     then throw (GatewayError.QuotaExceeded "token_actual_rate_limit_reached") else mret tt
   else mret tt);;
  (if quota_is policy "stream_duration" "stream_start" then
     current ← runtime_quota_current_value policy now;
     if (QuotaPolicyRecord.limit policy <=? current)%Z
     then throw (GatewayError.QuotaExceeded "stream_duration_limit_reached") else mret tt
   else mret tt).

Fixpoint enforce_runtime_quota_preflight_limits (input : RuntimeQuotaPreflightInput.t)
    (policies : list QuotaPolicyRecord.t) : Eff unit :=
  match policies with
  | [] => mret tt
  | policy :: policies' =>
      if runtime_quota_policy_skips_request policy (RuntimeQuotaPreflightInput.replay_case input)
      then enforce_runtime_quota_preflight_limits input policies'
      else
        lift (enforce_runtime_quota_body_limit policy
                (RuntimeQuotaPreflightInput.request_body_bytes input));;
        (if RuntimeQuotaPreflightInput.hot_state_available input
         then enforce_runtime_quota_current_limit policy (RuntimeQuotaPreflightInput.now input)
         else mret tt);;
        enforce_runtime_quota_preflight_limits input policies'
  end.

Definition reserve_runtime_quota_loss_allowance (policy : QuotaPolicyRecord.t) (now : DateTime)
    : Eff (option RuntimeQuotaReservation.t) :=
  let limit := default 0%Z (QuotaPolicyRecord.burst_limit policy) in
  if (limit <=? 0)%Z
  then throw (GatewayError.QuotaExceeded "fail_limited_allowance_unconfigured")
  else
    let counter_key := runtime_quota_loss_allowance_key policy now in
    decision ← act (increment_runtime_policy_loss_allowance_counter counter_key 1 limit);
    if negb (RuntimeQuotaCounterDecision.allowed decision)
    then throw (GatewayError.QuotaExceeded "fail_limited_allowance_exhausted")
    else if quota_is policy "concurrent_request" "preflight_acquire"
            || quota_is policy "concurrent_stream" "stream_start"
    then mret (Some (RuntimeQuotaReservation.mk counter_key 1
                       RuntimePolicyCounterBackend.LossAllowance))
    else mret None.

Definition handle_runtime_quota_hot_state_loss (policy : QuotaPolicyRecord.t) (now : DateTime)
    : Eff (option RuntimeQuotaReservation.t) :=
  if QuotaPolicyRecord.loss_behavior policy ==? "fail_open" then mret None
  else if QuotaPolicyRecord.loss_behavior policy ==? "fail_limited"
  then reserve_runtime_quota_loss_allowance policy now
  else throw (GatewayError.QuotaExceeded "hot_state_unavailable").

(** [match m { Ok(x) => k(x), Err(error) => { release; return Err(error) } }]. *)
Definition or_release {A B} (m : Eff A) (reservations : list RuntimeQuotaReservation.t)
    (k : A → Eff B) : Eff B := λ s,
  match m s with
  | (Ok a, s') => k a s'
  | (Err e, s') => (release_runtime_quota_reservations reservations;; throw e) s'
  end.

Fixpoint reserve_runtime_quota_preflight (input : RuntimeQuotaPreflightInput.t)
    (policies : list QuotaPolicyRecord.t) (reservations : list RuntimeQuotaReservation.t)
    : Eff (list RuntimeQuotaReservation.t) :=
  match policies with
  | [] => mret reservations
  | policy :: policies' =>
      let now := RuntimeQuotaPreflightInput.now input in
      let continue reservations' :=
        reserve_runtime_quota_preflight input policies' reservations' in
      if runtime_quota_policy_skips_request policy (RuntimeQuotaPreflightInput.replay_case input)
      then continue reservations
      else if runtime_quota_policy_needs_hot_state policy
              && negb (RuntimeQuotaPreflightInput.hot_state_available input)
      then
        reservation ← handle_runtime_quota_hot_state_loss policy now;
        continue (reservations ++ option_list reservation)
      else if quota_is policy "request_rate" "accepted_preflight_request" then
        decision ← act (increment_runtime_quota_counter (runtime_quota_counter_key policy now) 1
                          (QuotaPolicyRecord.limit policy));
        if negb (RuntimeQuotaCounterDecision.allowed decision)
        then
          release_runtime_quota_reservations reservations;;
          throw (GatewayError.QuotaExceeded "request_rate_limit_reached")
        else continue reservations
      else if quota_is policy "concurrent_request" "preflight_acquire" then
        or_release (reserve_runtime_quota_counter policy 1 "concurrent_request_limit_reached" now)
          reservations (λ reservation, continue (reservations ++ [reservation]))
      else if quota_is policy "concurrent_stream" "stream_start" then
        or_release (reserve_runtime_quota_counter policy 1 "concurrent_stream_limit_reached" now)
          reservations (λ reservation, continue (reservations ++ [reservation]))
      else continue reservations
  end.

Definition enforce_runtime_quota_preflight {V} (data : PolicyData.t V)
    (actor : AuthenticatedActor.t) (replay_case : GatewayReplayCase.t)
    (selected : option SelectedRouteEvidence.t) (request_body_bytes : Z) (now : DateTime)
    : Eff (list RuntimeQuotaReservation.t) :=
  let policies :=
    List.filter (λ policy,
      (QuotaPolicyRecord.status policy ==? ResourceStatus.Active)
      && runtime_quota_policy_matches_request policy actor replay_case selected)
      (quota_policies_for_tenant (PolicyData.quota_policies data)
         (AuthenticatedActor.tenant_id actor)) in
  hot_state_available ← gets runtime_policy_hot_state_available;
  let input :=
    RuntimeQuotaPreflightInput.mk replay_case request_body_bytes now hot_state_available in
  enforce_runtime_quota_preflight_limits input policies;;
  reserve_runtime_quota_preflight input policies [].

(** ** The preflight *)

Definition enforce_runtime_policy_preflight {V} (data : PolicyData.t V) (uuid : nat → string)
    (release_now : DateTime) (actor : AuthenticatedActor.t) (replay_case : GatewayReplayCase.t)
    (selected : option SelectedRouteEvidence.t) (request_body_bytes : Z) (now : DateTime)
    : Eff RuntimePolicyPreflight.t := λ s,
  match enforce_runtime_budget_preflight data uuid release_now actor selected now s with
  | (Err e, s1) => (Err e, s1)
  | (Ok budget_reservations, s1) =>
      match enforce_runtime_quota_preflight data actor replay_case selected request_body_bytes
              now s1 with
      | (Ok quota_reservations, s2) =>
          (Ok (RuntimePolicyPreflight.mk budget_reservations quota_reservations), s2)
      | (Err e, s2) =>
          (release_runtime_budget_reservations release_now budget_reservations;; throw e) s2
      end
  end.
End enforcement.
