(* ===== verification/PolicyFacts.v ===== *)
(** * Properties of runtime policy enforcement

    Proved against the laws of the repository interface, so they hold of every
    lawful backend; the in-memory backend is one.  Counters are [i64] and
    saturate: the statements ask that the counters involved stay below the
    largest [i64]. *)

From S2P Require Import Prelude Order Domain Action Routing Json Usage.
From S2P Require Import PolicyStore RuntimePolicy.

(** ** Reservations held on a counter *)

Definition held (k : string) (rs : list RuntimeBudgetReservation.t) : Z :=
  total (λ r, if RuntimeBudgetReservation.counter_key r ==? k
              then RuntimeBudgetReservation.amount r else 0%Z) rs.

(** The leases of the reservations are distinct and still reserved. *)
Definition holds (v : PolicyView.t) (rs : list RuntimeBudgetReservation.t) : Prop :=
  NoDup (RuntimeBudgetReservation.lease_id <$> rs) ∧
  (∀ r, r ∈ rs → ∃ l, PolicyView.lease v (RuntimeBudgetReservation.lease_id r) = Some l ∧
                      reserved l = true) ∧
  (∀ r, r ∈ rs → RuntimeBudgetReservation.amount r = 1%Z).

(** Counters are non-negative and at least [n] below saturation. *)
Definition fits (v : PolicyView.t) (n : Z) : Prop :=
  ∀ k, (0 ≤ PolicyView.counter v k ∧ PolicyView.counter v k + n ≤ i64_max)%Z.

Lemma adjusted_exact n d :
  (0 ≤ n + d ≤ i64_max)%Z → adjusted n d = (n + d)%Z.
Proof. unfold adjusted, saturating_add, clamp_i64, i64_min. lia. Qed.

Lemma held_app k rs rs' : held k (rs ++ rs') = (held k rs + held k rs')%Z.
Proof.
  unfold held. induction rs as [|r rs IH]; simpl; [done|]. rewrite IH. lia.
Qed.

Lemma held_nonneg k rs :
  (∀ r, r ∈ rs → RuntimeBudgetReservation.amount r = 1%Z) → (0 ≤ held k rs)%Z.
Proof.
  unfold held. induction rs as [|r rs IH]; simpl; [done|]. intros Ha.
  rewrite (Ha r) by set_solver. assert (0 ≤ held k rs)%Z by (apply IH; set_solver).
  unfold held in *. case_bool_decide; lia.
Qed.

Section laws.
Context `{ChronoCalendar} {S : Type} `{RuntimePolicyRepository S} `{!PolicyRepositoryLaws S}.

(** Symbolic execution of one repository call. *)
Lemma run_act {A B} (f : S → A * S) (k : A → M S GatewayError.t B) s :
  (act f ≫= k) s = k (f s).1 (f s).2.
Proof. unfold mbind, M_bind, act. by destruct (f s). Qed.

Lemma run_gets {A B} (f : S → A) (k : A → M S GatewayError.t B) s :
  (gets f ≫= k) s = k (f s) s.
Proof. done. Qed.

Lemma run_bind_assoc {A B C} (m : M S GatewayError.t A) (f : A → M S GatewayError.t B)
    (k : B → M S GatewayError.t C) s :
  ((m ≫= f) ≫= k) s = (m ≫= λ a, f a ≫= k) s.
Proof. unfold mbind, M_bind. by destruct (m s) as [[]]. Qed.

(** Releasing reservations gives back exactly what they hold. *)
Lemma release_budget_spec now rs s :
  holds (view s) rs →
  (∀ k, held k rs ≤ PolicyView.counter (view s) k ≤ i64_max)%Z →
  ∃ s', release_runtime_budget_reservations now rs s = (Ok tt, s') ∧
    PolicyView.available (view s') = PolicyView.available (view s) ∧
    (∀ k, PolicyView.counter (view s') k = (PolicyView.counter (view s) k - held k rs)%Z) ∧
    (∀ k, PolicyView.allowance (view s') k = PolicyView.allowance (view s) k) ∧
    (∀ id, id ∉ RuntimeBudgetReservation.lease_id <$> rs →
      PolicyView.lease (view s') id = PolicyView.lease (view s) id).
Proof.
  revert s. induction rs as [|r rs IH]; intros s (Hnd & Hl & Ha) Hc.
  { exists s. split_and!; try done. intros k. unfold held. simpl. lia. }
  rewrite fmap_cons, NoDup_cons in Hnd. destruct Hnd as [Hfresh Hnd].
  assert (∀ k, 0 ≤ held k rs)%Z as Hpos by (intros k; apply held_nonneg; set_solver).
  assert (∀ k, held k (r :: rs) = ((if RuntimeBudgetReservation.counter_key r ==? k
    then 1 else 0) + held k rs)%Z) as Hcons.
  { intros k. unfold held. simpl. by rewrite (Ha r) by set_solver. }
  cbn [release_runtime_budget_reservations]. rewrite run_act.
  destruct (Hl r) as (l & Hlr & Hres); [set_solver|].
  pose proof (release_law (RuntimeBudgetReservation.lease_id r) now s) as Hrel.
  rewrite Hlr, Hres in Hrel. destruct Hrel as [-> Hv1].
  set (s1 := (release_runtime_budget_lease _ now s).2) in *.
  rewrite run_act. pose proof (adjust_law (RuntimeBudgetReservation.counter_key r)
    (- RuntimeBudgetReservation.amount r) s1) as [_ Hv2].
  set (s2 := (adjust_runtime_policy_counter _ _ s1).2) in *.
  destruct Hv1 as (Hav1 & Hcv1 & Halv1 & Hlv1). destruct Hv2 as (Hav2 & Hcv2 & Halv2 & Hlv2).
  simpl in *.
  assert (∀ k, PolicyView.counter (view s2) k = (PolicyView.counter (view s) k -
    if RuntimeBudgetReservation.counter_key r ==? k then 1 else 0)%Z) as Hcv.
  { intros k. specialize (Hc k). specialize (Hpos k). rewrite Hcons in Hc.
    rewrite Hcv2, !Hcv1, (Ha r) by set_solver.
    case_bool_decide; simplify_eq; [|rewrite bool_decide_false by done; lia].
    rewrite bool_decide_true in * by done. rewrite adjusted_exact; lia. }
  assert (∀ id, PolicyView.lease (view s2) id =
    if id ==? RuntimeBudgetReservation.lease_id r
    then Some (RuntimeBudgetLeaseRecord.with_status "released" now l)
    else PolicyView.lease (view s) id) as Hlv by (intros id; by rewrite Hlv2, Hlv1).
  destruct (IH s2) as (s' & Hrun & Hav' & Hc' & Hal' & Hl').
  - split_and!; [done| |set_solver]. intros r' Hr'. rewrite Hlv. case_bool_decide as E.
    + destruct Hfresh. rewrite <- E. by apply list_elem_of_fmap_2.
    + apply Hl. set_solver.
  - intros k. specialize (Hc k). rewrite Hcv, Hcons in *. specialize (Hpos k).
    repeat case_bool_decide; simplify_eq; lia.
  - exists s'. split_and!; [done|by rewrite Hav', Hav2|..].
    + intros k. rewrite Hc', Hcv, Hcons. repeat case_bool_decide; simplify_eq; lia.
    + intros k. by rewrite Hal', Halv2, Halv1.
    + intros id Hid. rewrite Hl', Hlv by set_solver.
      rewrite bool_decide_false by set_solver. done.
Qed.

(** [s'] is [s] with the reservations [new] taken, and nothing else. *)
Record took (s s' : S) (new : list RuntimeBudgetReservation.t) : Prop := {
  took_available : PolicyView.available (view s') = PolicyView.available (view s);
  took_counter k :
    PolicyView.counter (view s') k = (PolicyView.counter (view s) k + held k new)%Z;
  took_allowance k : PolicyView.allowance (view s') k = PolicyView.allowance (view s) k;
  took_lease id : id ∉ RuntimeBudgetReservation.lease_id <$> new →
    PolicyView.lease (view s') id = PolicyView.lease (view s) id;
  took_holds : holds (view s') new;
  took_fresh id : id ∈ RuntimeBudgetReservation.lease_id <$> new →
    PolicyView.lease (view s) id = None;
}.

Lemma took_nil s s' : view s' ≡ view s → took s s' [].
Proof.
  intros (Ha & Hc & Hal & Hl). constructor; [done| |done|by intros| |set_solver].
  - intros k. rewrite Hc. unfold held. simpl. lia.
  - split_and!; [constructor|set_solver..].
Qed.

Lemma reserve_budget_spec uuid actor policy current limit now s :
  fits (view s) 1 → PolicyView.lease (view s) (new_prefixed_id "bls" uuid) = None →
  let key := runtime_budget_reservation_key policy now in
  match reserve_runtime_request_budget uuid actor policy current limit now s with
  | (Ok r, s') =>
      r = RuntimeBudgetReservation.mk (new_prefixed_id "bls" uuid) key 1 ∧
      PolicyView.available (view s) = true ∧ took s s' [r] ∧
      (saturating_add current (PolicyView.counter (view s') key) ≤ limit)%Z
  | (Err e, s') =>
      view s' ≡ view s ∧
      (PolicyView.available (view s) = false ∧
         e = GatewayError.BudgetExceeded "budget_hot_state_unavailable" ∨
       (limit < saturating_add current (PolicyView.counter (view s) key + 1))%Z ∧
         e = GatewayError.BudgetExceeded "hard_limit_reserved")
  end.
Proof.
  intros Hfit Hfresh key. unfold reserve_runtime_request_budget. rewrite run_gets, available_law.
  destruct (PolicyView.available (view s)) eqn:Hav; [|by split; [|left]]. cbn [negb]. cbv zeta.
  fold key. rewrite run_act. pose proof (adjust_law key 1 s) as [Hn (Ha1 & Hc1 & Hal1 & Hl1)].
  simpl in *. destruct (Hfit key) as [Hk0 Hk1].
  set (s1 := (adjust_runtime_policy_counter key 1 s).2) in *.
  assert (adjusted (PolicyView.counter (view s) key) 1 = PolicyView.counter (view s) key + 1)%Z
    as Hadj by (apply adjusted_exact; lia).
  rewrite Hadj in Hn. rewrite Hadj in Hc1.
  rewrite Hn. destruct (_ <? _)%Z eqn:E; btrue.
  - rewrite run_act. pose proof (adjust_law key (-1) s1) as [_ (Ha2 & Hc2 & Hal2 & Hl2)].
    simpl in *. set (s2 := (adjust_runtime_policy_counter key (-1) s1).2) in *.
    split; [|right; done]. split_and!; [congruence|..].
    + intros k. rewrite Hc2. case_bool_decide; subst; rewrite Hc1.
      * rewrite bool_decide_true by done. rewrite adjusted_exact; lia.
      * by rewrite bool_decide_false.
    + intros k. by rewrite Hal2, Hal1.
    + intros k. by rewrite Hl2, Hl1.
  - rewrite run_act. set (lease := RuntimeBudgetLeaseRecord.mk _ _ _ _ _ _ _ _ _ _).
    pose proof (record_law lease s1) as (Ha2 & Hc2 & Hal2 & Hl2). simpl in *.
    set (s2 := (record_runtime_budget_lease lease s1).2) in *.
    cbn [mret M_ret]. split_and!; [done|done| |].
    + constructor; simpl.
      * congruence.
      * intros k. rewrite Hc2, Hc1. unfold held. simpl. repeat case_bool_decide; subst; try done; lia.
      * intros k. by rewrite Hal2, Hal1.
      * intros id Hid. rewrite Hl2, Hl1, bool_decide_false by set_solver. done.
      * split_and!; simpl; [apply NoDup_singleton| |set_solver].
        intros r ->%list_elem_of_singleton. rewrite Hl2. simpl. rewrite bool_decide_true by done. eauto.
      * intros id. rewrite list_elem_of_singleton. by intros ->.
    + rewrite Hc2, Hc1, bool_decide_true by done. done.
Qed.

Lemma took_cons s s1 s2 r new :
  took s s1 [r] → took s1 s2 new → took s s2 (r :: new).
Proof.
  intros [A1 C1 L1 E1 (N1 & H1 & M1) F1] [A2 C2 L2 E2 (N2 & H2 & M2) F2].
  assert (RuntimeBudgetReservation.lease_id r ∉ RuntimeBudgetReservation.lease_id <$> new) as Hr.
  { intros Hin. apply F2 in Hin. destruct (H1 r) as (l & Hl & _); [set_solver|]. congruence. }
  constructor.
  - congruence.
  - intros k. rewrite C2, C1. change (r :: new) with ([r] ++ new). rewrite held_app. lia.
  - intros k. by rewrite L2, L1.
  - intros id Hid. rewrite fmap_cons in Hid. rewrite E2, E1 by set_solver. done.
  - split_and!.
    + rewrite fmap_cons. by constructor.
    + intros r' [->|Hr']%elem_of_cons; [|by apply H2]. rewrite E2 by done. apply H1. set_solver.
    + intros r' [->|Hr']%elem_of_cons; [apply M1; set_solver|by apply M2].
  - intros id. rewrite fmap_cons, elem_of_cons. intros [->|Hid]; [apply F1; set_solver|].
    rewrite <- (E1 id); [by apply F2|].
    intros ->%list_elem_of_singleton. by apply Hr.
Qed.

Lemma took_keeps_holds s s' r rs :
  took s s' [r] → holds (view s) rs → holds (view s') (rs ++ [r]).
Proof.
  intros [A C L E (N & Hh & Ha) F] (N' & Hh' & Ha').
  assert (RuntimeBudgetReservation.lease_id r ∉ RuntimeBudgetReservation.lease_id <$> rs) as Hr.
  { intros (r' & E' & Hin)%list_elem_of_fmap. destruct (Hh' r' Hin) as (l & Hl & _).
    rewrite <- E', F in Hl; [done|set_solver]. }
  split_and!.
  - rewrite fmap_app. apply list.NoDup_app. split_and!; [done|set_solver|apply NoDup_singleton].
  - intros r' [Hr'|Hr']%elem_of_app; [|by apply Hh]. rewrite E; [by apply Hh'|].
    intros E'%list_elem_of_singleton. apply Hr. rewrite <- E'. by apply list_elem_of_fmap_2.
  - intros r' [Hr'|Hr']%elem_of_app; auto.
Qed.

(** The whole loop: reservations already taken, [rs], and those it takes. *)
Lemma budget_loop_spec uuid i release_now actor selected now buckets policies rs s :
  (∀ j j', uuid j = uuid j' → j = j') →
  (∀ j, i ≤ j → PolicyView.lease (view s) (new_prefixed_id "bls" (uuid j)) = None) →
  fits (view s) (Z.of_nat (length policies)) →
  holds (view s) rs → (∀ k, held k rs ≤ PolicyView.counter (view s) k)%Z →
  match budget_preflight_loop uuid i release_now actor selected now buckets policies rs s with
  | (Ok rs', s') => ∃ new, rs' = rs ++ new ∧ took s s' new
  | (Err e, s') =>
      e = GatewayError.BudgetExceeded "hard_limit_reached" ∧
        (∀ k, PolicyView.counter (view s') k = (PolicyView.counter (view s) k - held k rs)%Z) ∧
        (∀ k, PolicyView.allowance (view s') k = PolicyView.allowance (view s) k) ∨
      (e = GatewayError.BudgetExceeded "hard_limit_reserved" ∨
       PolicyView.available (view s) = false) ∧ ∃ new, took s s' new
  end.
Proof.
  intros Hinj. revert i rs s. induction policies as [|p ps IH]; intros i rs s Hfresh Hfit Hh Hc.
  { exists []. rewrite (right_id_L [] (++)). split; [done|by apply took_nil]. }
  assert (fits (view s) (Z.of_nat (length ps))) as Hfit'.
  { intros k. specialize (Hfit k). simpl in Hfit. lia. }
  assert (∀ j, Datatypes.S i ≤ j → PolicyView.lease (view s) (new_prefixed_id "bls" (uuid j)) = None)
    as Hfresh' by (intros j Hj; apply Hfresh; lia).
  specialize (IH (Datatypes.S i)). cbn [budget_preflight_loop].
  destruct (BudgetPolicyRecord.hard_limit p) as [limit|]; [|by apply IH].
  destruct (_ || _); [by apply IH|]. cbv zeta.
  set (current := budget_ledger_value p buckets now).
  destruct (if BudgetPolicyRecord.limit_kind p ==? "requests" then _ else _).
  { destruct (release_budget_spec release_now rs s) as (s' & Hrel & _ & Hc' & Hal' & _); [done| |].
    - intros k. split; [done|]. specialize (Hfit k). lia.
    - unfold mbind, M_bind. rewrite Hrel. left. done. }
  case_bool_decide; [|by apply IH].
  pose proof (reserve_budget_spec (uuid i) actor p current limit now s) as Hres. cbv zeta in Hres.
  unfold mbind, M_bind.
  destruct (reserve_runtime_request_budget _ _ _ _ _ _ s) as [[r|e] s1].
  - destruct Hres as (Er & _ & Ht & _).
    { intros k. specialize (Hfit k). simpl in Hfit. lia. }
    { apply Hfresh. lia. }
    assert (RuntimeBudgetReservation.amount r = 1%Z) as Hamt by (by rewrite Er).
    assert (∀ k, held k [r] = if RuntimeBudgetReservation.counter_key r ==? k then 1 else 0)%Z
      as Hheld by (intros k; unfold held; simpl; rewrite Hamt; case_bool_decide; lia).
    lapply (IH (rs ++ [r]) s1); [clear IH; intros IH|].
    2:{ intros j Hj. rewrite (took_lease _ _ _ Ht); [by apply Hfresh'|].
        rewrite Er. intros E%list_elem_of_singleton. unfold new_prefixed_id in E. simpl in E.
        assert (uuid j = uuid i) as ?%Hinj by (by injection E). lia. }
    lapply IH; [clear IH; intros IH|].
    2:{ intros k. rewrite (took_counter _ _ _ Ht), Hheld. specialize (Hfit k). simpl in Hfit.
        case_bool_decide; lia. }
    lapply IH; [clear IH; intros IH|by eapply took_keeps_holds].
    lapply IH; [clear IH; intros IH|].
    2:{ intros k. rewrite (took_counter _ _ _ Ht), held_app. specialize (Hc k). lia. }
    destruct (budget_preflight_loop _ _ _ _ _ _ _ ps _ s1) as [[rs'|e] s'].
    + destruct IH as (new & -> & Ht'). exists (r :: new). rewrite <- (assoc_L (++)).
      split; [done|by eapply took_cons].
    + destruct IH as [(-> & Hc' & Hal')|(Hne & new & Ht')].
      * left. split_and!; [done| |].
        -- intros k. rewrite Hc', (took_counter _ _ _ Ht), held_app. lia.
        -- intros k. by rewrite Hal', (took_allowance _ _ _ Ht).
      * right. split; [by rewrite <- (took_available _ _ _ Ht)|].
        exists (r :: new). by eapply took_cons.
  - destruct Hres as (Hv & He).
    { intros k. specialize (Hfit k). simpl in Hfit. lia. }
    { apply Hfresh. lia. }
    right. split; [destruct He as [[? _]|[_ ->]]; auto|]. exists []. by apply took_nil.
Qed.

(** *** Quotas *)

Definition qheld (k : string) (rs : list RuntimeQuotaReservation.t) : Z :=
  total (λ r, if RuntimeQuotaReservation.counter_key r ==? k
              then RuntimeQuotaReservation.amount r else 0%Z) rs.

(** Reservations of one unit on the hot-state counters. *)
Definition hot_units (rs : list RuntimeQuotaReservation.t) : Prop :=
  ∀ r, r ∈ rs → RuntimeQuotaReservation.amount r = 1%Z ∧
    RuntimeQuotaReservation.counter_backend r = RuntimePolicyCounterBackend.HotState.

(** The request-rate policies that count on key [k]: they count attempts. *)
Definition rate_hits (input : RuntimeQuotaPreflightInput.t) (k : string)
    (policies : list QuotaPolicyRecord.t) : Z :=
  total (λ p,
    if negb (runtime_quota_policy_skips_request p (RuntimeQuotaPreflightInput.replay_case input))
       && quota_is p "request_rate" "accepted_preflight_request"
       && (runtime_quota_counter_key p (RuntimeQuotaPreflightInput.now input) ==? k)
    then 1%Z else 0%Z) policies.

#[local] Arguments qheld : simpl never.
#[local] Arguments rate_hits : simpl never.

(** The counters changed by [delta]; nothing else did. *)
Record counters_moved (s s' : S) (delta : string → Z) : Prop := {
  moved_available : PolicyView.available (view s') = PolicyView.available (view s);
  moved_counter k : PolicyView.counter (view s') k = (PolicyView.counter (view s) k + delta k)%Z;
  moved_allowance k : PolicyView.allowance (view s') k = PolicyView.allowance (view s) k;
  moved_lease id : PolicyView.lease (view s') id = PolicyView.lease (view s) id;
}.

Lemma moved_trans s s1 s2 d1 d2 :
  counters_moved s s1 d1 → counters_moved s1 s2 d2 → counters_moved s s2 (λ k, d1 k + d2 k)%Z.
Proof.
  intros [A1 C1 L1 E1] [A2 C2 L2 E2]. constructor; [congruence| | |].
  - intros k. rewrite C2, C1. lia.
  - intros k. by rewrite L2, L1.
  - intros k. by rewrite E2, E1.
Qed.

Lemma moved_ext s s' d d' : (∀ k, d k = d' k) → counters_moved s s' d → counters_moved s s' d'.
Proof. intros Hd [A C L E]. constructor; try done. intros k. by rewrite C, Hd. Qed.

Lemma moved_refl s : counters_moved s s (λ _, 0%Z).
Proof. constructor; try done. intros k. lia. Qed.

(** One adjustment that neither saturates nor hits zero. *)
Lemma adjust_moved key d s :
  (0 ≤ PolicyView.counter (view s) key + d ≤ i64_max)%Z →
  (adjust_runtime_policy_counter key d s).1 = (PolicyView.counter (view s) key + d)%Z ∧
  counters_moved s (adjust_runtime_policy_counter key d s).2 (λ k, if key ==? k then d else 0%Z).
Proof.
  intros Hb. pose proof (adjust_law key d s) as [Hn (Ha & Hc & Hal & Hl)]. simpl in *.
  rewrite adjusted_exact in Hn by done. rewrite adjusted_exact in Hc by done.
  split; [done|]. constructor; try done. intros k. rewrite Hc.
  repeat case_bool_decide; subst; try done; lia.
Qed.

Lemma increment_moved key limit s :
  (0 ≤ PolicyView.counter (view s) key + 1 ≤ i64_max)%Z →
  (increment_runtime_quota_counter key 1 limit s).1 =
    RuntimeQuotaCounterDecision.mk (PolicyView.counter (view s) key + 1)
      (PolicyView.counter (view s) key + 1 <=? limit)%Z ∧
  counters_moved s (increment_runtime_quota_counter key 1 limit s).2
    (λ k, if key ==? k then 1 else 0)%Z.
Proof.
  intros Hb. pose proof (increment_law key 1 limit s) as [Hn (Ha & Hc & Hal & Hl)]. simpl in *.
  assert (saturating_add (PolicyView.counter (view s) key) 1
    = PolicyView.counter (view s) key + 1)%Z as Hsat.
  { unfold saturating_add. apply clamp_i64_id. unfold in_i64, i64_min. lia. }
  rewrite Hsat in Hn, Hc. split; [done|]. constructor; try done. intros k. rewrite Hc.
  repeat case_bool_decide; subst; try done; lia.
Qed.

Lemma qheld_cons k r rs :
  qheld k (r :: rs) = ((if RuntimeQuotaReservation.counter_key r ==? k
    then RuntimeQuotaReservation.amount r else 0) + qheld k rs)%Z.
Proof. done. Qed.

Lemma qheld_app k rs rs' : qheld k (rs ++ rs') = (qheld k rs + qheld k rs')%Z.
Proof. unfold qheld. induction rs as [|r rs IH]; simpl; [done|]. rewrite IH. lia. Qed.

Lemma qheld_nonneg k rs : hot_units rs → (0 ≤ qheld k rs)%Z.
Proof.
  induction rs as [|r rs IH]; intros Hu; [done|]. rewrite qheld_cons.
  rewrite (proj1 (Hu r ltac:(set_solver))). assert (hot_units rs) by (intros x Hx; apply Hu; set_solver).
  specialize (IH ltac:(done)). case_bool_decide; lia.
Qed.

Lemma release_quota_spec rs s :
  hot_units rs → (∀ k, qheld k rs ≤ PolicyView.counter (view s) k ≤ i64_max)%Z →
  ∃ s', release_runtime_quota_reservations rs s = (Ok tt, s') ∧
    counters_moved s s' (λ k, - qheld k rs)%Z.
Proof.
  revert s. induction rs as [|r rs IH]; intros s Hu Hc.
  { exists s. split; [done|]. apply (moved_ext _ _ _ _ (λ k, eq_refl)), moved_refl. }
  assert (hot_units rs) as Hu' by (intros x Hx; apply Hu; set_solver).
  destruct (Hu r ltac:(set_solver)) as [Hamt Hb].
  assert (∀ k, 0 ≤ qheld k rs)%Z as Hpos by (intros k; by apply qheld_nonneg).
  cbn [release_runtime_quota_reservations]. rewrite Hb, Hamt, run_act.
  destruct (adjust_moved (RuntimeQuotaReservation.counter_key r) (-1) s) as [_ Hm].
  { specialize (Hc (RuntimeQuotaReservation.counter_key r)).
    specialize (Hpos (RuntimeQuotaReservation.counter_key r)).
    rewrite qheld_cons, bool_decide_true in Hc by done. lia. }
  destruct (IH (adjust_runtime_policy_counter (RuntimeQuotaReservation.counter_key r) (-1) s).2)
    as (s' & Hrun & Hm'); [done| |].
  - intros k. rewrite (moved_counter _ _ _ Hm). specialize (Hc k). specialize (Hpos k).
    rewrite qheld_cons, Hamt in Hc. case_bool_decide; lia.
  - exists s'. split; [done|]. eapply moved_ext; [|by eapply moved_trans].
    intros k. cbn beta. rewrite qheld_cons, Hamt. case_bool_decide; lia.
Qed.

(** A concurrency slot is taken within the limit, or nothing happens. *)
Lemma reserve_quota_spec policy reason now s :
  let key := runtime_quota_counter_key policy now in
  (0 ≤ PolicyView.counter (view s) key < i64_max)%Z →
  match reserve_runtime_quota_counter policy 1 reason now s with
  | (Ok r, s') =>
      r = RuntimeQuotaReservation.mk key 1 RuntimePolicyCounterBackend.HotState ∧
      counters_moved s s' (λ k, qheld k [r]) ∧
      (PolicyView.counter (view s') key ≤ QuotaPolicyRecord.limit policy)%Z
  | (Err e, s') =>
      e = GatewayError.QuotaExceeded reason ∧ counters_moved s s' (λ _, 0%Z) ∧
      (QuotaPolicyRecord.limit policy ≤ PolicyView.counter (view s) key)%Z
  end.
Proof.
  intros key Hk. unfold reserve_runtime_quota_counter. cbv zeta. fold key. rewrite run_act.
  destruct (adjust_moved key 1 s) as [Hn Hm]; [lia|]. rewrite Hn.
  destruct (_ <? _)%Z eqn:E; btrue.
  - rewrite run_act.
    destruct (adjust_moved key (-1) (adjust_runtime_policy_counter key 1 s).2) as [_ Hm'].
    { rewrite (moved_counter _ _ _ Hm), bool_decide_true by done. lia. }
    split_and!; [done| |lia]. eapply moved_ext; [|by eapply moved_trans].
    intros k. simpl. case_bool_decide; lia.
  - split_and!; [done| |].
    + eapply moved_ext; [|done]. intros k. unfold qheld. simpl. case_bool_decide; lia.
    + simpl. rewrite (moved_counter _ _ _ Hm), bool_decide_true by done. lia.
Qed.

Lemma rate_hits_range input k policies :
  (0 ≤ rate_hits input k policies ≤ Z.of_nat (length policies))%Z.
Proof.
  unfold rate_hits. induction policies as [|p ps IH]; cbn [total foldr length]; [lia|].
  fold (total (λ p, if negb (runtime_quota_policy_skips_request p
    (RuntimeQuotaPreflightInput.replay_case input))
       && quota_is p "request_rate" "accepted_preflight_request"
       && (runtime_quota_counter_key p (RuntimeQuotaPreflightInput.now input) ==? k)
    then 1%Z else 0%Z) ps) in *. destruct (_ && _); lia.
Qed.

(** The result of the reservation loop on a key, given what was held. *)
Definition quota_outcome (input : RuntimeQuotaPreflightInput.t)
    (policies : list QuotaPolicyRecord.t) (rs : list RuntimeQuotaReservation.t) (s : S)
    (out : result GatewayError.t (list RuntimeQuotaReservation.t) * S) : Prop :=
  match out with
  | (Ok rs', s') => ∃ new, rs' = rs ++ new ∧ hot_units new ∧
      (∀ k, qheld k new + rate_hits input k policies ≤ Z.of_nat (length policies))%Z ∧
      counters_moved s s' (λ k, qheld k new + rate_hits input k policies)%Z
  | (Err e, s') => ∃ hits, (∀ k, 0 ≤ hits k ≤ rate_hits input k policies)%Z ∧
      counters_moved s s' (λ k, hits k - qheld k rs)%Z
  end.

Lemma rate_hits_cons input k p policies :
  rate_hits input k (p :: policies) =
  ((if negb (runtime_quota_policy_skips_request p (RuntimeQuotaPreflightInput.replay_case input))
       && quota_is p "request_rate" "accepted_preflight_request"
       && (runtime_quota_counter_key p (RuntimeQuotaPreflightInput.now input) ==? k)
    then 1 else 0) + rate_hits input k policies)%Z.
Proof. done. Qed.

(** Prepending a policy that moved the counters by its own rate hits. *)
Lemma quota_outcome_step input p policies rs s s1 d out :
  counters_moved s s1 d →
  (∀ k, d k + rate_hits input k policies = rate_hits input k (p :: policies))%Z →
  (∀ k, 0 ≤ d k)%Z →
  quota_outcome input policies rs s1 out → quota_outcome input (p :: policies) rs s out.
Proof.
  intros Hm Hd Hpos. destruct out as [[rs'|e] s']; simpl.
  - intros (new & -> & Hu & Hle & Hm'). exists new. split_and!; [done..| |].
    { intros k. specialize (Hle k). rewrite rate_hits_cons. case_match; lia. }
    eapply moved_ext; [|by eapply moved_trans]. intros k. cbn beta. specialize (Hd k). lia.
  - intros (hits & Hh & Hm'). exists (λ k, d k + hits k)%Z. split.
    + intros k. specialize (Hd k). specialize (Hpos k). specialize (Hh k). lia.
    + eapply moved_ext; [|by eapply moved_trans]. intros k. cbn beta. lia.
Qed.

Lemma quota_is_exclusive p c1 i1 c2 i2 :
  c1 ≠ c2 → quota_is p c1 i1 = true → quota_is p c2 i2 = false.
Proof.
  unfold quota_is. intros Hne H1. btrue. apply andb_false_iff. left.
  apply bool_decide_eq_false. congruence.
Qed.

(** A round that takes a concurrency slot. *)
Lemma quota_slot_round input p policies rs reason s :
  quota_is p "request_rate" "accepted_preflight_request" = false →
  hot_units rs → fits (view s) (Z.of_nat (length (p :: policies))) →
  (∀ k, qheld k rs ≤ PolicyView.counter (view s) k)%Z →
  (∀ rs' s1, hot_units rs' → fits (view s1) (Z.of_nat (length policies)) →
    (∀ k, qheld k rs' ≤ PolicyView.counter (view s1) k)%Z →
    quota_outcome input policies rs' s1 (reserve_runtime_quota_preflight input policies rs' s1)) →
  quota_outcome input (p :: policies) rs s
    (or_release (reserve_runtime_quota_counter p 1 reason (RuntimeQuotaPreflightInput.now input))
       rs (λ r, reserve_runtime_quota_preflight input policies (rs ++ [r])) s).
Proof.
  intros Hrate Hu Hfit Hc IH. unfold or_release.
  assert (∀ k, rate_hits input k (p :: policies) = rate_hits input k policies) as Hrh.
  { intros k. rewrite rate_hits_cons, Hrate, andb_false_r. simpl. lia. }
  set (key := runtime_quota_counter_key p (RuntimeQuotaPreflightInput.now input)).
  pose proof (reserve_quota_spec p reason (RuntimeQuotaPreflightInput.now input) s) as Hres.
  cbv zeta in Hres. fold key in Hres.
  destruct (reserve_runtime_quota_counter _ _ _ _ s) as [[r|e] s1].
  - destruct Hres as (Er & Hm & _); [specialize (Hfit key); simpl in Hfit; lia|].
    assert (∀ k, 0 ≤ qheld k [r] ≤ 1)%Z as Hr1.
    { intros k. rewrite Er. unfold qheld. simpl. case_bool_decide; lia. }
    assert (hot_units (rs ++ [r])) as Hu'.
    { intros x [Hx|Hx]%elem_of_app; [by apply Hu|]. apply list_elem_of_singleton in Hx as ->.
      by rewrite Er. }
    specialize (IH (rs ++ [r]) s1 Hu').
    destruct (reserve_runtime_quota_preflight input policies (rs ++ [r]) s1) as [[rs'|e] s'];
      simpl in *; (lapply IH; [clear IH; intros IH|]).
    2,4: intros k; rewrite (moved_counter _ _ _ Hm); specialize (Hr1 k); specialize (Hfit k); lia.
    + lapply IH; [clear IH|intros k; rewrite (moved_counter _ _ _ Hm), qheld_app; specialize (Hc k); lia].
      intros (new & -> & Hun & Hle & Hm'). exists (r :: new). split_and!.
      3:{ intros k. specialize (Hle k). specialize (Hr1 k). rewrite Hrh.
          change (r :: new) with ([r] ++ new). rewrite qheld_app. lia. }
      * by rewrite <- (assoc_L (++)).
      * intros x [->|Hx]%elem_of_cons; [by rewrite Er|by apply Hun].
      * eapply moved_ext; [|by eapply moved_trans]. intros k. cbn beta.
        rewrite Hrh. change (r :: new) with ([r] ++ new). rewrite qheld_app. lia.
    + lapply IH; [clear IH|intros k; rewrite (moved_counter _ _ _ Hm), qheld_app; specialize (Hc k); lia].
      intros (hits & Hh & Hm'). exists hits. split; [intros k; rewrite Hrh; apply Hh|].
      eapply moved_ext; [|by eapply moved_trans]. intros k. cbn beta. rewrite qheld_app. lia.
  - destruct Hres as (-> & Hm & _); [specialize (Hfit key); simpl in Hfit; lia|].
    destruct (release_quota_spec rs s1 Hu) as (s' & Hrun & Hm').
    { intros k. rewrite (moved_counter _ _ _ Hm). specialize (Hc k). specialize (Hfit k). lia. }
    unfold mbind, M_bind. rewrite Hrun. simpl. exists (λ _, 0%Z). split.
    + intros k. split; [done|]. apply rate_hits_range.
    + eapply moved_ext; [|by eapply moved_trans]. intros k. cbn beta. lia.
Qed.

Lemma reserve_quota_preflight_spec input policies rs s :
  RuntimeQuotaPreflightInput.hot_state_available input = true →
  hot_units rs → fits (view s) (Z.of_nat (length policies)) →
  (∀ k, qheld k rs ≤ PolicyView.counter (view s) k)%Z →
  quota_outcome input policies rs s (reserve_runtime_quota_preflight input policies rs s).
Proof.
  intros Hav. revert rs s. induction policies as [|p ps IH]; intros rs s Hu Hfit Hc.
  { exists []. rewrite (right_id_L [] (++)). split_and!; [done|set_solver|done|].
    eapply moved_ext; [|apply moved_refl]. done. }
  assert (fits (view s) (Z.of_nat (length ps))) as Hfit'.
  { intros k. specialize (Hfit k). simpl in Hfit. lia. }
  assert ((∀ k, rate_hits input k (p :: ps) = rate_hits input k ps) →
    quota_outcome input (p :: ps) rs s (reserve_runtime_quota_preflight input ps rs s)) as Hskip.
  { intros Hr. eapply (quota_outcome_step input p ps rs s s (λ _, 0%Z));
      [apply moved_refl|intros k; by rewrite Hr|done|by apply IH]. }
  cbn [reserve_runtime_quota_preflight].
  destruct (runtime_quota_policy_skips_request p _) eqn:Hs.
  { apply Hskip. intros k. rewrite rate_hits_cons, Hs. simpl. lia. }
  rewrite Hav, andb_false_r.
  destruct (quota_is p "request_rate" _) eqn:Hrate.
  { rewrite run_act. set (key := runtime_quota_counter_key p _).
    destruct (increment_moved key (QuotaPolicyRecord.limit p) s) as [Hn Hm];
      [specialize (Hfit key); simpl in Hfit; lia|].
    rewrite Hn. set (s1 := (increment_runtime_quota_counter _ _ _ s).2) in *. simpl.
    assert (∀ k, rate_hits input k (p :: ps)
      = (if key ==? k then 1 else 0) + rate_hits input k ps)%Z as Hrh.
    { intros k. by rewrite rate_hits_cons, Hs, Hrate. }
    destruct (_ <=? _)%Z; cbn [negb].
    - eapply quota_outcome_step; [done|intros k; by rewrite Hrh|intros k; cbn beta; case_bool_decide; lia|].
      apply IH; [done|..]; intros k; rewrite (moved_counter _ _ _ Hm); specialize (Hc k);
        specialize (Hfit k); simpl in Hfit; case_bool_decide; lia.
    - destruct (release_quota_spec rs s1 Hu) as (s' & Hrun & Hm').
      { intros k. rewrite (moved_counter _ _ _ Hm). specialize (Hc k). specialize (Hfit k).
        simpl in Hfit. case_bool_decide; lia. }
      unfold mbind, M_bind. rewrite Hrun. simpl. exists (λ k, if key ==? k then 1 else 0)%Z. split.
      + intros k. rewrite Hrh. pose proof (rate_hits_range input k ps). case_bool_decide; lia.
      + eapply moved_ext; [|by eapply moved_trans]. intros k. cbn beta. lia. }
  destruct (quota_is p "concurrent_request" _) eqn:Hcr; [by apply quota_slot_round|].
  destruct (quota_is p "concurrent_stream" _) eqn:Hcs; [by apply quota_slot_round|].
  apply Hskip. intros k. rewrite rate_hits_cons, Hrate, andb_false_r. simpl. lia.
Qed.

(** The limit checks only read. *)
Lemma quota_limits_pure input policies s :
  (enforce_runtime_quota_preflight_limits input policies s).2 = s.
Proof.
  induction policies as [|p ps IH]; [done|]. cbn [enforce_runtime_quota_preflight_limits].
  destruct (runtime_quota_policy_skips_request _ _); [done|].
  unfold mbind at 1, M_bind at 1, lift.
  destruct (enforce_runtime_quota_body_limit _ _) as [[]|]; [|done].
  assert ((enforce_runtime_quota_current_limit p (RuntimeQuotaPreflightInput.now input) s).2 = s) as Hcur.
  { unfold enforce_runtime_quota_current_limit, runtime_quota_current_value, mbind, M_bind, act.
    destruct (quota_is p "token_actual_rate" _), (quota_is p "stream_duration" _); simpl;
      by repeat (rewrite counter_law; simpl; destruct (_ <=? _)%Z; simpl). }
  unfold mbind at 1, M_bind at 1.
  destruct (RuntimeQuotaPreflightInput.hot_state_available input); [|done].
  destruct (enforce_runtime_quota_current_limit p _ s) as [[[]|] s1]; simpl in Hcur; by subst.
Qed.

Lemma took_all_keys s s' new : took s s' new → fits (view s) (Z.of_nat (length new)) →
  ∀ k, (0 ≤ PolicyView.counter (view s') k)%Z.
Proof.
  intros Ht Hf k. rewrite (took_counter _ _ _ Ht). specialize (Hf k).
  pose proof (held_nonneg k new (proj2 (proj2 (took_holds _ _ _ Ht)))). lia.
Qed.

Lemma held_length k rs :
  (∀ r, r ∈ rs → RuntimeBudgetReservation.amount r = 1%Z) → (held k rs ≤ Z.of_nat (length rs))%Z.
Proof.
  unfold held. induction rs as [|r rs IH]; intros Ha; cbn [total foldr length]; [lia|].
  rewrite (Ha r) by set_solver.
  assert (held k rs ≤ Z.of_nat (length rs))%Z by (apply IH; set_solver).
  unfold held, total in *. case_bool_decide; lia.
Qed.

(** The loop takes at most one reservation per policy. *)
Lemma budget_loop_length uuid i release_now actor selected now buckets policies rs s rs' s' :
  budget_preflight_loop uuid i release_now actor selected now buckets policies rs s = (Ok rs', s') →
  (length rs' ≤ length rs + length policies)%nat.
Proof.
  revert i rs s. induction policies as [|p ps IH]; intros i rs s; cbn [budget_preflight_loop].
  { intros [= <- _]. simpl. lia. }
  destruct (BudgetPolicyRecord.hard_limit p); [|intros ?%IH; simpl; lia].
  destruct (_ || _); [intros ?%IH; simpl; lia|]. cbv zeta.
  destruct (if BudgetPolicyRecord.limit_kind p ==? "requests" then _ else _).
  { unfold mbind, M_bind. by destruct (release_runtime_budget_reservations _ _ _) as [[]]. }
  case_bool_decide; [|intros ?%IH; simpl; lia]. unfold mbind, M_bind.
  destruct (reserve_runtime_request_budget _ _ _ _ _ _ s) as [[r|] s1]; [|done].
  intros Hl%IH. rewrite length_app in Hl. simpl in *. lia.
Qed.

Lemma moved_holds s s' d rs : counters_moved s s' d → holds (view s) rs → holds (view s') rs.
Proof.
  intros Hm (Hnd & Hl & Ha). split_and!; [done| |done]. intros r Hr.
  rewrite (moved_lease _ _ _ Hm). by apply Hl.
Qed.
End laws.

(** ** Properties *)

Section properties.
Context `{ChronoCalendar} {S : Type} `{RuntimePolicyRepository S} `{!PolicyRepositoryLaws S}.
Context {V : Type} (data : PolicyData.t V).
Context (actor : AuthenticatedActor.t) (replay_case : GatewayReplayCase.t).
Context (selected : option SelectedRouteEvidence.t) (body_bytes : Z) (now release_now : DateTime).

Let budget_policies := budget_policies_for_tenant (PolicyData.budget_policies data)
  (AuthenticatedActor.tenant_id actor).
Let quota_policies :=
  List.filter (λ policy,
    (QuotaPolicyRecord.status policy ==? ResourceStatus.Active)
    && runtime_quota_policy_matches_request policy actor replay_case selected)
    (quota_policies_for_tenant (PolicyData.quota_policies data)
       (AuthenticatedActor.tenant_id actor)).
Let input := RuntimeQuotaPreflightInput.mk replay_case body_bytes now true.

(** The quota half of the preflight, from a store it can count on. *)
Lemma quota_preflight_spec (s : S) :
  PolicyView.available (view s) = true → fits (view s) (Z.of_nat (length quota_policies)) →
  match enforce_runtime_quota_preflight data actor replay_case selected body_bytes now s with
  | (Ok qs, s') => hot_units qs ∧
      (∀ k, qheld k qs + rate_hits input k quota_policies ≤ Z.of_nat (length quota_policies))%Z ∧
      counters_moved s s' (λ k, qheld k qs + rate_hits input k quota_policies)%Z
  | (Err e, s') =>
      ∃ hits, (∀ k, 0 ≤ hits k ≤ rate_hits input k quota_policies)%Z ∧ counters_moved s s' hits
  end.
Proof.
  intros Hav Hfit. unfold enforce_runtime_quota_preflight. cbv zeta. fold quota_policies.
  rewrite run_gets, available_law, Hav. fold input.
  pose proof (quota_limits_pure input quota_policies s) as Hp. unfold mbind, M_bind.
  destruct (enforce_runtime_quota_preflight_limits input quota_policies s) as [[[]|e] s1];
    simpl in Hp; subst s1.
  - pose proof (reserve_quota_preflight_spec input quota_policies [] s eq_refl) as Hr.
    unfold quota_outcome in Hr.
    destruct (reserve_runtime_quota_preflight input quota_policies [] s) as [[qs|e] s'].
    + destruct Hr as (new & -> & Hu & Hle & Hm); [set_solver|done|intros k; apply Hfit|done].
    + destruct Hr as (hits & Hh & Hm); [set_solver|done|intros k; apply Hfit|].
      exists hits. split; [done|]. eapply moved_ext; [|done]. intros k. cbn. lia.
  - exists (λ _, 0%Z). split; [|apply moved_refl]. intros k. split; [done|apply rate_hits_range].
Qed.

(** The budget half: on success it took what it returns, at most one unit per
    policy; on failure what it took and did not give back is [leaked]. *)
Lemma budget_preflight_spec uuid (s : S) :
  (∀ j j', uuid j = uuid j' → j = j') →
  (∀ j, PolicyView.lease (view s) (new_prefixed_id "bls" (uuid j)) = None) →
  PolicyView.available (view s) = true → fits (view s) (Z.of_nat (length budget_policies)) →
  match enforce_runtime_budget_preflight data uuid release_now actor selected now s with
  | (Ok bs, s') => took s s' bs ∧ ∀ k, (0 ≤ held k bs ≤ Z.of_nat (length budget_policies))%Z
  | (Err e, s') => ∃ leaked,
      (∀ k, PolicyView.counter (view s') k = PolicyView.counter (view s) k + held k leaked)%Z ∧
      (leaked ≠ [] → e = GatewayError.BudgetExceeded "hard_limit_reserved")
  end.
Proof.
  intros Hinj Hfresh Hav Hfit. unfold enforce_runtime_budget_preflight.
  destruct (active_force_budget_block_policy _ _ _ _).
  { exists []. split; [|done]. intros k. unfold held. simpl. lia. }
  fold budget_policies.
  set (buckets := ledger_buckets_for_tenant _ _).
  pose proof (budget_loop_spec uuid 0 release_now actor selected now buckets
    budget_policies [] s Hinj) as Hb.
  pose proof (budget_loop_length uuid 0 release_now actor selected now buckets
    budget_policies [] s) as Hlen.
  destruct (budget_preflight_loop _ _ _ _ _ _ _ budget_policies [] s) as [[bs|e] s1].
  - destruct Hb as (new & -> & Ht);
      [by intros|done|split_and!; [constructor|set_solver..]|intros k; apply Hfit|].
    specialize (Hlen _ _ eq_refl). cbn [app length] in *. split; [done|].
    destruct (took_holds _ _ _ Ht) as (_ & _ & Hamt). intros k.
    split; [by apply held_nonneg|]. pose proof (held_length k new Hamt). lia.
  - destruct Hb as [(-> & Hc & _)|(Hne & new & Ht)];
      [by intros|done|split_and!; [constructor|set_solver..]|intros k; apply Hfit| |].
    + exists []. split; [|done]. intros k. rewrite Hc. unfold held. simpl. lia.
    + exists new. split; [apply Ht|]. intros _. destruct Hne as [->|Hne]; [done|congruence].
Qed.

(** Releasing a preflight gives back what both halves took. *)
Lemma release_preflight_spec bs qs extra (s s1 s2 : S) :
  took s s1 bs → hot_units qs → counters_moved s1 s2 (λ k, qheld k qs + extra k)%Z →
  (∀ k, 0 ≤ extra k ∧ 0 ≤ held k bs ∧ 0 ≤ PolicyView.counter (view s) k ∧
    PolicyView.counter (view s) k + held k bs + qheld k qs + extra k ≤ i64_max)%Z →
  ∃ s3, release_runtime_policy_reservations release_now (RuntimePolicyPreflight.mk bs qs) s2
          = (Ok tt, s3) ∧
    ∀ k, PolicyView.counter (view s3) k = (PolicyView.counter (view s) k + extra k)%Z.
Proof.
  intros Ht Hu Hm Hfit. unfold release_runtime_policy_reservations.
  cbn [RuntimePolicyPreflight.budget_reservations RuntimePolicyPreflight.quota_reservations].
  assert (∀ k, PolicyView.counter (view s2) k = PolicyView.counter (view s) k + held k bs
    + qheld k qs + extra k)%Z as Hc2.
  { intros k. rewrite (moved_counter _ _ _ Hm), (took_counter _ _ _ Ht). lia. }
  assert (∀ k, 0 ≤ qheld k qs)%Z as Hqpos by (intros; by apply qheld_nonneg).
  destruct (release_budget_spec release_now bs s2) as (s3 & Hrun & _ & Hc3 & _ & _).
  { eapply moved_holds; [done|apply Ht]. }
  { intros k. rewrite Hc2. specialize (Hfit k). specialize (Hqpos k). lia. }
  destruct (release_quota_spec qs s3 Hu) as (s4 & Hrun' & Hm4).
  { intros k. rewrite Hc3, Hc2. specialize (Hfit k). lia. }
  exists s4. unfold mbind, M_bind. rewrite Hrun, Hrun'. split; [done|].
  intros k. rewrite (moved_counter _ _ _ Hm4), Hc3, Hc2. lia.
Qed.

(** A preflight that succeeds took its budget reservations, then moved the quota
    counters by its slots and the request rates. *)
Lemma preflight_taken uuid (s : S) preflight s2 :
  (∀ j j', uuid j = uuid j' → j = j') →
  (∀ j, PolicyView.lease (view s) (new_prefixed_id "bls" (uuid j)) = None) →
  PolicyView.available (view s) = true →
  fits (view s) (Z.of_nat (length budget_policies + length quota_policies)) →
  enforce_runtime_policy_preflight data uuid release_now actor replay_case selected body_bytes now s
    = (Ok preflight, s2) →
  ∃ bs qs s1, preflight = RuntimePolicyPreflight.mk bs qs ∧ took s s1 bs ∧ hot_units qs ∧
    counters_moved s1 s2 (λ k, qheld k qs + rate_hits input k quota_policies)%Z ∧
    (∀ k, 0 ≤ held k bs ≤ Z.of_nat (length budget_policies))%Z ∧
    (∀ k, qheld k qs + rate_hits input k quota_policies ≤ Z.of_nat (length quota_policies))%Z.
Proof.
  intros Hinj Hfresh Hav Hfit. unfold enforce_runtime_policy_preflight.
  pose proof (budget_preflight_spec uuid s Hinj Hfresh Hav) as Hb.
  lapply Hb; [clear Hb; intros Hb|intros k; specialize (Hfit k); lia].
  destruct (enforce_runtime_budget_preflight _ _ _ _ _ _ s) as [[bs|e] s1]; [|done].
  destruct Hb as [Ht Hheld]. pose proof (quota_preflight_spec s1) as Hq.
  lapply Hq; [clear Hq; intros Hq|by rewrite (took_available _ _ _ Ht)].
  lapply Hq; [clear Hq; intros Hq|intros k; rewrite (took_counter _ _ _ Ht);
    specialize (Hfit k); specialize (Hheld k); lia].
  destruct (enforce_runtime_quota_preflight _ _ _ _ _ _ s1) as [[qs|e] s2'].
  - destruct Hq as (Hu & Hle & Hm). intros [= <- <-]. exists bs, qs, s1. by split_and!.
  - unfold mbind, M_bind. by destruct (release_runtime_budget_reservations _ _ _) as [[]].
Qed.

(** Reservations are accounted for on every path: with the hot state up and
    counters below saturation, a preflight that succeeds can be released and
    then every counter is what it was, except that request-rate counters keep
    the attempt; a preflight that fails leaves every counter as it was (request
    rates again excepted), unless it fails with [hard_limit_reserved], in which
    case the reservations already taken for earlier budget policies are not
    given back and stay counted until their leases expire. *)
Theorem preflight_reservations_accounted (uuid : nat → string) (s : S) :
  (∀ j j', uuid j = uuid j' → j = j') →
  (∀ j, PolicyView.lease (view s) (new_prefixed_id "bls" (uuid j)) = None) →
  PolicyView.available (view s) = true →
  fits (view s) (Z.of_nat (length budget_policies + length quota_policies)) →
  match enforce_runtime_policy_preflight data uuid release_now actor replay_case selected
          body_bytes now s with
  | (Ok preflight, s1) =>
      ∃ s2, release_runtime_policy_reservations release_now preflight s1 = (Ok tt, s2) ∧
        ∀ k, PolicyView.counter (view s2) k
             = (PolicyView.counter (view s) k + rate_hits input k quota_policies)%Z
  | (Err e, s1) =>
      ∃ leaked hits,
        (∀ k, PolicyView.counter (view s1) k
              = PolicyView.counter (view s) k + held k leaked + hits k)%Z ∧
        (∀ k, 0 ≤ hits k ≤ rate_hits input k quota_policies)%Z ∧
        (leaked ≠ [] → e = GatewayError.BudgetExceeded "hard_limit_reserved")
  end.
Proof.
  intros Hinj Hfresh Hav Hfit. unfold enforce_runtime_policy_preflight.
  pose proof (λ k, rate_hits_range input k quota_policies) as Hrate.
  pose proof (budget_preflight_spec uuid s Hinj Hfresh Hav) as Hb.
  lapply Hb; [clear Hb; intros Hb|intros k; specialize (Hfit k); lia].
  destruct (enforce_runtime_budget_preflight _ _ _ _ _ _ s) as [[bs|e] s1].
  2:{ destruct Hb as (leaked & Hc & He). exists leaked, (λ _, 0%Z). split_and!; [|intros k|done].
      - intros k. rewrite Hc. lia.
      - specialize (Hrate k). lia. }
  destruct Hb as [Ht Hheld]. pose proof (quota_preflight_spec s1) as Hq.
  lapply Hq; [clear Hq; intros Hq|by rewrite (took_available _ _ _ Ht)].
  lapply Hq; [clear Hq; intros Hq|intros k; rewrite (took_counter _ _ _ Ht);
    specialize (Hfit k); specialize (Hheld k); lia].
  destruct (enforce_runtime_quota_preflight _ _ _ _ _ _ s1) as [[qs|e] s2].
  - destruct Hq as (Hu & Hle & Hm).
    apply (release_preflight_spec bs qs (λ k, rate_hits input k quota_policies) s s1 s2 Ht Hu Hm).
    intros k. specialize (Hfit k). specialize (Hheld k). specialize (Hle k). specialize (Hrate k). lia.
  - destruct Hq as (hits & Hh & Hm).
    destruct (release_budget_spec release_now bs s2) as (s3 & Hrun & _ & Hc3 & _ & _).
    { eapply moved_holds; [done|apply Ht]. }
    { intros k. rewrite (moved_counter _ _ _ Hm), (took_counter _ _ _ Ht). specialize (Hrate k).
      specialize (Hfit k). specialize (Hheld k). specialize (Hh k). lia. }
    unfold mbind, M_bind. rewrite Hrun. simpl. exists [], hits. split_and!; [|done|done].
    intros k. rewrite Hc3, (moved_counter _ _ _ Hm), (took_counter _ _ _ Ht).
    unfold held at 3. simpl. lia.
Qed.
End properties.

(** ** Witness *)

Module PreflightSample.
#[local] Open Scope Z_scope.

(** Distinct ids for the rounds of the loop. *)
Fixpoint uuid (n : nat) : string :=
  match n with O => EmptyString | S n => "a" +:+ uuid n end.

Lemma uuid_inj j j' : uuid j = uuid j' → j = j'.
Proof. revert j'. induction j; intros [|j']; simpl; intros [=]; auto. Qed.

Definition budget (id : string) (limit : Z) : BudgetPolicyRecord.t :=
  BudgetPolicyRecord.mk id "ten" "tenant" "ten" None None None "all_time" "requests" (Some limit)
    None [] "none" "block_new_requests" "strong" ResourceStatus.Active 1 1 "admin" 0 0.
Definition slots : QuotaPolicyRecord.t :=
  QuotaPolicyRecord.mk "qp1" "ten" "tenant" "ten" None None "concurrent_request" 5 None
    "request_lifetime" "preflight_acquire" "fail_closed" ResourceStatus.Active 1 1 "admin" 0 0.
Definition data : PolicyData.t Tree.t :=
  PolicyData.mk {["bp1" := budget "bp1" 9]} {["qp1" := slots]} ∅ UsageSample.store.
Definition actor : AuthenticatedActor.t :=
  AuthenticatedActor.for_internal_service "ten" "svc" "req1" "trace1".
Definition case : GatewayReplayCase.t :=
  GatewayReplayCase.mk "openai_responses_non_stream" ProtocolFamily.OpenAiResponses Method.POST
    "/v1/responses" GatewayAction.ModelInvoke false false.
Definition preflight (s : InMemoryPolicyStore.t)
    : result GatewayError.t RuntimePolicyPreflight.t * InMemoryPolicyStore.t :=
  enforce_runtime_policy_preflight data uuid 7 actor case None 10 5 s.
End PreflightSample.

Lemma preflight_reservations_accounted_witness :
  match PreflightSample.preflight InMemoryPolicyStore.empty with
  | (Ok preflight, s1) =>
      length (RuntimePolicyPreflight.budget_reservations preflight) = 1 ∧
      length (RuntimePolicyPreflight.quota_reservations preflight) = 1 ∧
      ∃ s2, release_runtime_policy_reservations 7 preflight s1 = (Ok tt, s2) ∧
        ∀ k, PolicyView.counter (view s2) k = 0%Z
  | (Err _, _) => False
  end.
Proof.
  pose proof (preflight_reservations_accounted PreflightSample.data PreflightSample.actor
    PreflightSample.case None 10 5 7 PreflightSample.uuid InMemoryPolicyStore.empty) as H.
  lapply H; [clear H; intros H|apply PreflightSample.uuid_inj].
  lapply H; [clear H; intros H|reflexivity].
  lapply H; [clear H; intros H|reflexivity].
  lapply H; [clear H; intros H|intros k; split; vm_compute; congruence].
  fold (PreflightSample.preflight InMemoryPolicyStore.empty) in H.
  assert (match (PreflightSample.preflight InMemoryPolicyStore.empty).1 with
    | Ok p => length (RuntimePolicyPreflight.budget_reservations p) = 1 ∧
              length (RuntimePolicyPreflight.quota_reservations p) = 1
    | Err _ => False
    end) as Hlen by (vm_compute; split; reflexivity).
  destruct (PreflightSample.preflight InMemoryPolicyStore.empty) as [[p|] s1]; [|destruct Hlen].
  destruct Hlen as [H1 H2]. split; [exact H1|]. split; [exact H2|].
  destruct H as (s2 & Hr & Hc). exists s2. split; [exact Hr|]. intros k. rewrite Hc. reflexivity.
Defined.
