(* ===== verification/BudgetConcurrency.v ===== *)
(** * Concurrent budget reservations

    Requests reserve, release and lose budget leases concurrently; each store
    call is atomic and other requests run between any two calls.  The steps of
    a request of [reserve_runtime_request_budget],
    [release_runtime_budget_reservations] and of the reconciler's lease expiry
    are the constructors of [step], over the in-memory store; what a request
    still has to do is kept in [inflight].  The invariant ties every counter to
    the leases and the requests in flight, and bounds what is admitted. *)

From S2P Require Import Prelude Order Domain Usage PolicyStore RuntimePolicy PolicyFacts.

(** ** The system *)

(** What a request does next, between two store calls. *)
Inductive pending : Type :=
| PRecord (lease : RuntimeBudgetLeaseRecord.t)   (* admitted: record the lease *)
| PRollback (key : string)                       (* refused: take the unit back *)
| PDecrement (key : string) (amount : Z).        (* lease closed: give the units back *)

Module Sys.
Record t : Type := mk { store : InMemoryPolicyStore.t; inflight : list pending }.
End Sys.

Section system.
Context `{ChronoCalendar}.

(** The most a counter key may be granted: limit minus ledger value at most. *)
Variable cap : string → Z.

Inductive step : Sys.t → Sys.t → Prop :=
(** The increment of [reserve_runtime_request_budget] and its test. *)
| step_reserve s fl uuid actor policy current limit now n s' :
    let key := runtime_budget_reservation_key policy now in
    runtime_policy_hot_state_available s = true →
    (0 ≤ current)%Z → (limit < i64_max)%Z → (limit - current ≤ cap key)%Z →
    (default 0 (InMemoryPolicyStore.runtime_quota_counters s !! key) < i64_max)%Z →
    adjust_runtime_policy_counter key 1 s = (n, s') →
    step (Sys.mk s fl)
      (Sys.mk s' (fl ++
        [if (limit <? saturating_add current n)%Z then PRollback key
         else PRecord (RuntimeBudgetLeaseRecord.mk (new_prefixed_id "bls" uuid)
                (BudgetPolicyRecord.tenant_id policy) (BudgetPolicyRecord.budget_policy_id policy)
                key (AuthenticatedActor.request_id actor) 1 "reserved"
                (now + duration_seconds RUNTIME_BUDGET_LEASE_TTL_SECONDS) now now)]))
(** The admitted request records its lease under a fresh id. *)
| step_record s fl1 l fl2 :
    InMemoryPolicyStore.runtime_budget_leases s !! RuntimeBudgetLeaseRecord.lease_id l = None →
    step (Sys.mk s (fl1 ++ PRecord l :: fl2))
      (Sys.mk (record_runtime_budget_lease l s).2 (fl1 ++ fl2))
(** The refused request undoes its increment. *)
| step_rollback s fl1 key fl2 :
    step (Sys.mk s (fl1 ++ PRollback key :: fl2))
      (Sys.mk (adjust_runtime_policy_counter key (-1) s).2 (fl1 ++ fl2))
(** A request ends and closes its lease, if it is still reserved. *)
| step_release s fl id now l s' :
    release_runtime_budget_lease id now s = (Some l, s') →
    step (Sys.mk s fl)
      (Sys.mk s' (fl ++ [PDecrement (RuntimeBudgetLeaseRecord.counter_key l)
                           (RuntimeBudgetLeaseRecord.amount l)]))
(** The reconciler expires the leases of a tenant. *)
| step_expire s fl tenant now ls s' :
    expire_runtime_budget_leases tenant now s = (ls, s') →
    step (Sys.mk s fl)
      (Sys.mk s' (fl ++ ((λ l, PDecrement (RuntimeBudgetLeaseRecord.counter_key l)
                                 (RuntimeBudgetLeaseRecord.amount l)) <$> ls)))
(** The decrement that follows a release or an expiry. *)
| step_decrement s fl1 key amount fl2 :
    step (Sys.mk s (fl1 ++ PDecrement key amount :: fl2))
      (Sys.mk (adjust_runtime_policy_counter key (- amount) s).2 (fl1 ++ fl2)).

Inductive reachable : Sys.t → Prop :=
| reach_init : reachable (Sys.mk InMemoryPolicyStore.empty [])
| reach_step y y' : reachable y → step y y' → reachable y'.

(** ** The invariant *)

(** Units a lease holds on a counter. *)
Definition lease_units (k : string) (l : RuntimeBudgetLeaseRecord.t) : Z :=
  if reserved l && (RuntimeBudgetLeaseRecord.counter_key l ==? k)
  then RuntimeBudgetLeaseRecord.amount l else 0%Z.

Definition outstanding (k : string) (m : gmap string RuntimeBudgetLeaseRecord.t) : Z :=
  total (lease_units k) ((map_to_list m).*2).

(** Units a request in flight has on a counter, admitted or not. *)
Definition pending_units (k : string) (p : pending) : Z :=
  match p with
  | PRecord l => lease_units k l
  | PRollback key => if key ==? k then 1%Z else 0%Z
  | PDecrement key amount => if key ==? k then amount else 0%Z
  end.

Definition admitted_units (k : string) (p : pending) : Z :=
  match p with PRecord l => lease_units k l | _ => 0%Z end.

(** Requests admitted on a counter: with a reserved lease, or about to record
    one. *)
Definition admitted (k : string) (y : Sys.t) : Z :=
  (outstanding k (InMemoryPolicyStore.runtime_budget_leases (Sys.store y))
   + total (admitted_units k) (Sys.inflight y))%Z.

Definition unit_lease (l : RuntimeBudgetLeaseRecord.t) : Prop :=
  RuntimeBudgetLeaseRecord.amount l = 1%Z.

Definition pending_ok (p : pending) : Prop :=
  match p with
  | PRecord l => unit_lease l ∧ reserved l = true
  | PRollback _ => True
  | PDecrement _ amount => amount = 1%Z
  end.

Record invariant (y : Sys.t) : Prop := {
  inv_leases : map_Forall (λ _, unit_lease) (InMemoryPolicyStore.runtime_budget_leases (Sys.store y));
  inv_pending : Forall pending_ok (Sys.inflight y);
  inv_counter k :
    default 0%Z (InMemoryPolicyStore.runtime_quota_counters (Sys.store y) !! k) =
    (outstanding k (InMemoryPolicyStore.runtime_budget_leases (Sys.store y))
     + total (pending_units k) (Sys.inflight y))%Z;
  inv_max k :
    (default 0%Z (InMemoryPolicyStore.runtime_quota_counters (Sys.store y) !! k) ≤ i64_max)%Z;
  inv_admitted k : (admitted k y ≤ Z.max 0 (cap k))%Z;
}.

(** *** Sums *)

Lemma total_cons {A} (f : A → Z) x l : total f (x :: l) = (f x + total f l)%Z.
Proof. done. Qed.

Lemma total_app_list {A} (f : A → Z) l l' : total f (l ++ l') = (total f l + total f l')%Z.
Proof. induction l as [|x l IH]; simpl; [done|]. rewrite IH. lia. Qed.

Lemma total_middle {A} (f : A → Z) l1 x l2 :
  total f (l1 ++ x :: l2) = (f x + total f (l1 ++ l2))%Z.
Proof. rewrite !total_app_list, total_cons. lia. Qed.

Lemma total_perm {A} (f : A → Z) l l' : l ≡ₚ l' → total f l = total f l'.
Proof. induction 1; simpl; lia. Qed.

Lemma total_nonneg {A} (f : A → Z) l : (∀ x, x ∈ l → 0 ≤ f x)%Z → (0 ≤ total f l)%Z.
Proof.
  induction l as [|x l IH]; intros Hf; simpl; [lia|].
  assert (0 ≤ f x)%Z by (apply Hf; set_solver). assert (0 ≤ total f l)%Z by (apply IH; set_solver).
  lia.
Qed.

Lemma total_le {A} (f g : A → Z) l : (∀ x, x ∈ l → f x ≤ g x)%Z → (total f l ≤ total g l)%Z.
Proof.
  induction l as [|x l IH]; intros Hf; simpl; [lia|].
  assert (f x ≤ g x)%Z by (apply Hf; set_solver). assert (total f l ≤ total g l)%Z by (apply IH; set_solver).
  lia.
Qed.

Lemma outstanding_insert k m id l :
  m !! id = None → outstanding k (<[id := l]> m) = (lease_units k l + outstanding k m)%Z.
Proof.
  intros Hid. unfold outstanding.
  by rewrite (total_perm _ _ _ (fmap_Permutation snd _ _ (map_to_list_insert m id l Hid))).
Qed.

Lemma outstanding_update k m id l l' :
  m !! id = Some l →
  outstanding k (<[id := l']> m) = (outstanding k m - lease_units k l + lease_units k l')%Z.
Proof.
  intros Hid. rewrite <- (insert_delete_eq m id l'), outstanding_insert by apply lookup_delete_eq.
  rewrite <- (insert_delete_id m id l Hid) at 2. rewrite outstanding_insert by apply lookup_delete_eq.
  lia.
Qed.

(** Expiring moves the units of the expired leases to the decrements. *)
Lemma outstanding_expire k tenant now s ls s' :
  expire_runtime_budget_leases tenant now s = (ls, s') →
  outstanding k (InMemoryPolicyStore.runtime_budget_leases s) =
  (outstanding k (InMemoryPolicyStore.runtime_budget_leases s')
   + total (pending_units k) ((λ l, PDecrement (RuntimeBudgetLeaseRecord.counter_key l)
       (RuntimeBudgetLeaseRecord.amount l)) <$> ls))%Z.
Proof.
  cbn [expire_runtime_budget_leases InMemoryPolicyStore.repository].
  unfold InMemoryPolicyStore.expire_runtime_budget_leases. cbv zeta. intros [= <- <-].
  unfold outstanding. cbn [InMemoryPolicyStore.runtime_budget_leases InMemoryPolicyStore.with_leases].
  rewrite map_to_list_fmap.
  rewrite (total_perm (pending_units k) _ _ (fmap_Permutation _ _ _ (sort_by_perm _ _))).
  generalize (map_to_list (InMemoryPolicyStore.runtime_budget_leases s)) as L.
  induction L as [|[id l] L IH]; [done|].
  cbn [fmap list_fmap List.filter]. rewrite !total_cons, IH. simpl snd.
  destruct (InMemoryPolicyStore.expires tenant now l) eqn:E; cbn [fmap list_fmap]; [|lia].
  rewrite total_cons. unfold InMemoryPolicyStore.expires in E. btrue.
  unfold lease_units, reserved. simpl. rewrite (bool_decide_true (_ = "reserved")) by done. simpl. lia.
Qed.

(** *** Every step keeps the invariant *)

Lemma pending_units_nonneg k p : pending_ok p → (0 ≤ admitted_units k p ≤ pending_units k p)%Z.
Proof.
  destruct p as [l|key|key a]; simpl.
  - intros [Hu Hr]. unfold lease_units, unit_lease in *. rewrite Hr, Hu. simpl.
    case_bool_decide; lia.
  - case_bool_decide; lia.
  - intros ->. case_bool_decide; lia.
Qed.

Lemma outstanding_nonneg k m : map_Forall (λ _, unit_lease) m → (0 ≤ outstanding k m)%Z.
Proof.
  intros Hm. apply total_nonneg. intros ? ([id l] & -> & Hin)%list_elem_of_fmap. simpl.
  apply elem_of_map_to_list in Hin. apply Hm in Hin as Hu.
  unfold lease_units, unit_lease in *. rewrite Hu. case_match; lia.
Qed.

Lemma inflight_nonneg k fl : Forall pending_ok fl → (0 ≤ total (pending_units k) fl)%Z.
Proof.
  intros Hf. apply total_nonneg. intros p Hp. rewrite Forall_forall in Hf.
  specialize (Hf p Hp). pose proof (pending_units_nonneg k p Hf). lia.
Qed.

Lemma admitted_le_counter k y :
  invariant y →
  (admitted k y ≤ default 0 (InMemoryPolicyStore.runtime_quota_counters (Sys.store y) !! k))%Z.
Proof.
  intros I. rewrite (inv_counter _ I). unfold admitted.
  assert (total (admitted_units k) (Sys.inflight y) ≤ total (pending_units k) (Sys.inflight y))%Z;
    [|lia].
  apply total_le. intros p Hp. pose proof (inv_pending _ I) as Hf. rewrite Forall_forall in Hf.
  by apply pending_units_nonneg, Hf.
Qed.

(** The counter map after an adjustment, pointwise. *)
Lemma adjust_counters key d s :
  InMemoryPolicyStore.runtime_budget_leases (adjust_runtime_policy_counter key d s).2
    = InMemoryPolicyStore.runtime_budget_leases s ∧
  ∀ k, default 0%Z (InMemoryPolicyStore.runtime_quota_counters
         (adjust_runtime_policy_counter key d s).2 !! k) =
       if k ==? key
       then adjusted (default 0%Z (InMemoryPolicyStore.runtime_quota_counters s !! key)) d
       else default 0%Z (InMemoryPolicyStore.runtime_quota_counters s !! k).
Proof. split; [done|]. intros k. apply adjust_lookup. Qed.

(** Giving one unit back for a request in flight that holds it. *)
Lemma give_back_invariant s fl1 p fl2 key :
  invariant (Sys.mk s (fl1 ++ p :: fl2)) →
  (∀ k, pending_units k p = if key ==? k then 1 else 0)%Z → (∀ k, admitted_units k p = 0%Z) →
  invariant (Sys.mk (adjust_runtime_policy_counter key (-1) s).2 (fl1 ++ fl2)).
Proof.
  intros [IL IP IC IM IA] Hp Ha. simpl in *.
  apply Forall_app in IP as [IP1 [_ IP2]%Forall_cons].
  assert (Forall pending_ok (fl1 ++ fl2)) as IP' by (by apply Forall_app).
  destruct (adjust_counters key (-1) s) as [Hl Hc].
  assert (∀ k, default 0%Z (InMemoryPolicyStore.runtime_quota_counters
    (adjust_runtime_policy_counter key (-1) s).2 !! k) =
    (default 0%Z (InMemoryPolicyStore.runtime_quota_counters s !! k)
     - if key ==? k then 1 else 0)%Z) as Hc'.
  { intros k. rewrite Hc. case_bool_decide; subst; [|rewrite bool_decide_false by done; lia].
    rewrite bool_decide_true by done. apply adjusted_exact. specialize (IM key).
    pose proof (inflight_nonneg key _ IP'). pose proof (outstanding_nonneg key _ IL).
    rewrite IC, total_middle, Hp, bool_decide_true in * by done. lia. }
  constructor; simpl; rewrite ?Hl; try done.
  - intros k. rewrite Hc', IC, total_middle, Hp. lia.
  - intros k. rewrite Hc'. specialize (IM k). case_bool_decide; lia.
  - intros k. specialize (IA k). unfold admitted in *. simpl in *.
    rewrite total_middle, Ha in IA. lia.
Qed.

Lemma reserve_invariant s fl key n s' current limit l :
  invariant (Sys.mk s fl) → (0 ≤ current)%Z → (limit < i64_max)%Z →
  (limit - current ≤ cap key)%Z →
  (default 0 (InMemoryPolicyStore.runtime_quota_counters s !! key) < i64_max)%Z →
  adjust_runtime_policy_counter key 1 s = (n, s') →
  unit_lease l → reserved l = true → RuntimeBudgetLeaseRecord.counter_key l = key →
  invariant (Sys.mk s' (fl ++
    [if (limit <? saturating_add current n)%Z then PRollback key else PRecord l])).
Proof.
  intros I Hcur Hlim Hcap Hroom Hadj Hu Hr Hkey.
  pose proof (λ k, admitted_le_counter k _ I) as Hadm. destruct I as [IL IP IC IM IA].
  simpl in IL, IP, IC, IM, IA, Hadm.
  assert (0 ≤ default 0 (InMemoryPolicyStore.runtime_quota_counters s !! key))%Z as Hpos.
  { rewrite IC. pose proof (inflight_nonneg key _ IP). pose proof (outstanding_nonneg key _ IL). lia. }
  assert (n = default 0 (InMemoryPolicyStore.runtime_quota_counters s !! key) + 1)%Z as Hn.
  { destruct (adjust_law key 1 s) as [Hn _]. rewrite Hadj in Hn. simpl in Hn. rewrite Hn.
    apply adjusted_exact. lia. }
  destruct (adjust_counters key 1 s) as [Hl Hc]. rewrite Hadj in Hl, Hc. simpl in Hl, Hc.
  rewrite adjusted_exact in Hc by lia.
  set (p := if (limit <? saturating_add current n)%Z then PRollback key else PRecord l).
  assert (∀ k, pending_units k p = if key ==? k then 1 else 0)%Z as Hp.
  { intros k. subst p. destruct (_ <? _)%Z; simpl; [done|].
    unfold lease_units. rewrite Hr, Hkey, Hu. simpl. done. }
  assert (pending_ok p) as Hok by (subst p; destruct (_ <? _)%Z; simpl; done).
  constructor; simpl; rewrite ?Hl.
  - done.
  - apply Forall_app. split; [done|]. by constructor.
  - intros k. rewrite Hc, total_app, Hp, IC. case_bool_decide; subst; [rewrite bool_decide_true by done|];
      rewrite ?IC; [lia|]. rewrite bool_decide_false by done. lia.
  - intros k. rewrite Hc. specialize (IM k). case_bool_decide; lia.
  - intros k. specialize (IA k). specialize (Hadm k). unfold admitted in *. simpl in *.
    rewrite Hl, total_app. subst p. destruct (_ <? _)%Z eqn:E; simpl; [lia|]. btrue.
    assert (lease_units k l = if key ==? k then 1 else 0)%Z as ->
      by (unfold lease_units; rewrite Hr, Hkey, Hu; done).
    case_bool_decide as Ek; [subst k|lia].
    assert (current + n ≤ limit)%Z; [|lia].
    unfold saturating_add, clamp_i64, i64_min in *. lia.
Qed.

Lemma admitted_decrements k (ls : list RuntimeBudgetLeaseRecord.t) :
  total (admitted_units k) ((λ l, PDecrement (RuntimeBudgetLeaseRecord.counter_key l)
    (RuntimeBudgetLeaseRecord.amount l)) <$> ls) = 0%Z.
Proof. induction ls as [|l ls IH]; [done|]. rewrite fmap_cons, total_cons, IH. done. Qed.

Lemma release_invariant s fl id now l s' :
  invariant (Sys.mk s fl) → release_runtime_budget_lease id now s = (Some l, s') →
  invariant (Sys.mk s' (fl ++ [PDecrement (RuntimeBudgetLeaseRecord.counter_key l)
                                 (RuntimeBudgetLeaseRecord.amount l)])).
Proof.
  intros [IL IP IC IM IA] Hrel. simpl in IL, IP, IC, IM, IA.
  cbn [release_runtime_budget_lease InMemoryPolicyStore.repository] in Hrel.
  unfold InMemoryPolicyStore.release_runtime_budget_lease in Hrel.
  destruct (_ !! id) as [l0|] eqn:Hid; [|done]. case_bool_decide as Hr; [|done]. simplify_eq/=.
  assert (unit_lease l0) as Hu by (by apply (IL id)).
  set (l' := RuntimeBudgetLeaseRecord.with_status "released" now l0).
  assert (∀ k, outstanding k (<[id := l']> (InMemoryPolicyStore.runtime_budget_leases s))
    = outstanding k (InMemoryPolicyStore.runtime_budget_leases s)
      - if RuntimeBudgetLeaseRecord.counter_key l0 ==? k then 1 else 0)%Z as Ho.
  { intros k. rewrite (outstanding_update _ _ _ _ _ Hid). unfold lease_units, reserved.
    rewrite Hr, Hu. simpl. case_bool_decide; lia. }
  constructor; simpl.
  - by apply map_Forall_insert_2.
  - apply Forall_app. split; [done|]. by constructor.
  - intros k. rewrite IC, Ho, total_app. simpl. rewrite Hu. lia.
  - done.
  - intros k. specialize (IA k). unfold admitted in *. simpl in *. rewrite Ho, total_app. simpl.
    case_bool_decide; lia.
Qed.

Lemma expire_invariant s fl tenant now ls s' :
  invariant (Sys.mk s fl) → expire_runtime_budget_leases tenant now s = (ls, s') →
  invariant (Sys.mk s' (fl ++ ((λ l, PDecrement (RuntimeBudgetLeaseRecord.counter_key l)
                                      (RuntimeBudgetLeaseRecord.amount l)) <$> ls))).
Proof.
  intros [IL IP IC IM IA] Hexp. simpl in IL, IP, IC, IM, IA.
  pose proof (λ k, outstanding_expire k _ _ _ _ _ Hexp) as Ho.
  cbn [expire_runtime_budget_leases InMemoryPolicyStore.repository] in Hexp.
  unfold InMemoryPolicyStore.expire_runtime_budget_leases in Hexp. cbv zeta in Hexp.
  injection Hexp as Els Es.
  assert (Forall pending_ok ((λ l, PDecrement (RuntimeBudgetLeaseRecord.counter_key l)
    (RuntimeBudgetLeaseRecord.amount l)) <$> ls)) as Hok.
  { rewrite Forall_fmap, Forall_forall. intros l Hl. simpl. rewrite <- Els, sort_by_elem in Hl.
    apply list_elem_of_fmap in Hl as (l0 & -> & Hl0). apply filter_iff in Hl0 as [Hl0 _].
    apply list_elem_of_fmap in Hl0 as ([id l1] & -> & Hin). apply elem_of_map_to_list in Hin.
    exact (IL id l1 Hin). }
  constructor; simpl; rewrite <- ?Es; simpl.
  - apply map_Forall_fmap. intros id l Hl. apply IL in Hl. simpl. by case_match.
  - by apply Forall_app.
  - intros k. rewrite IC, total_app_list, Ho, <- Es. simpl. lia.
  - done.
  - intros k. specialize (IA k). unfold admitted in *. simpl in *.
    rewrite total_app_list, admitted_decrements. rewrite Ho, <- Es in IA. simpl in IA.
    pose proof (inflight_nonneg k _ Hok). lia.
Qed.

Lemma step_invariant y y' : invariant y → step y y' → invariant y'.
Proof.
  intros I Hstep. destruct Hstep as
    [s fl uuid actor policy current limit now n s' key Hav Hcur Hlim Hcap Hroom Hadj
    |s fl1 l fl2 Hfresh|s fl1 key fl2|s fl id now l s' Hrel|s fl tenant now ls s' Hexp
    |s fl1 key amount fl2].
  - by eapply reserve_invariant.
  - destruct I as [IL IP IC IM IA]. simpl in *.
    apply Forall_app in IP as [IP1 [[Hu Hr] IP2]%Forall_cons].
    constructor; simpl.
    + by apply map_Forall_insert_2.
    + by apply Forall_app.
    + intros k. rewrite IC, outstanding_insert, total_middle by done. simpl. lia.
    + done.
    + intros k. specialize (IA k). unfold admitted in *. simpl in *.
      rewrite outstanding_insert by done. rewrite total_middle in IA. simpl in IA. lia.
  - by eapply give_back_invariant.
  - by eapply release_invariant.
  - by eapply expire_invariant.
  - pose proof (inv_pending _ I) as IP. simpl in IP.
    apply Forall_app in IP as [_ [Ha _]%Forall_cons]. simpl in Ha. subst amount.
    by eapply give_back_invariant.
Qed.

Lemma reachable_invariant y : reachable y → invariant y.
Proof.
  induction 1 as [|y y' _ IH Hs]; [|by eapply step_invariant].
  constructor; simpl; [apply map_Forall_empty|constructor|intros k; by rewrite lookup_empty
    |intros k; by rewrite lookup_empty|].
  - intros k. unfold admitted. simpl. unfold outstanding. rewrite map_to_list_empty. simpl. lia.
Qed.

(** C30. Concurrent reservations never over-admit: in every interleaving of
    requests that reserve, roll back, record, release and decrement, and of the
    reconciler expiring leases, the number of requests admitted on a budget
    counter never exceeds what limit minus ledger allowed; and the counter is
    always exactly the units of the reserved leases plus those of the requests
    in flight, so a counter with no lease and no request in flight is zero. *)
Theorem concurrent_budget_never_over_admits y :
  reachable y →
  ∀ k,
    (admitted k y ≤ Z.max 0 (cap k))%Z ∧
    default 0%Z (InMemoryPolicyStore.runtime_quota_counters (Sys.store y) !! k) =
      (outstanding k (InMemoryPolicyStore.runtime_budget_leases (Sys.store y))
       + total (pending_units k) (Sys.inflight y))%Z.
Proof. intros I%reachable_invariant k. split; apply I. Qed.

(** The step relation is faithful to the sequential code: running
    [reserve_runtime_request_budget] to its end, whatever it answers, is zero
    or two steps of the concurrent system that leave nothing in flight. *)
Theorem reserve_is_steps s fl uuid actor policy current limit now :
  let key := runtime_budget_reservation_key policy now in
  (0 ≤ current)%Z → (limit < i64_max)%Z → (limit - current ≤ cap key)%Z →
  (default 0 (InMemoryPolicyStore.runtime_quota_counters s !! key) < i64_max)%Z →
  InMemoryPolicyStore.runtime_budget_leases s !! new_prefixed_id "bls" uuid = None →
  rtc step (Sys.mk s fl)
    (Sys.mk (reserve_runtime_request_budget uuid actor policy current limit now s).2 fl).
Proof.
  intros key Hcur Hlim Hcap Hroom Hfresh. unfold reserve_runtime_request_budget.
  rewrite run_gets. destruct (runtime_policy_hot_state_available s) eqn:Hav; [|apply rtc_refl].
  cbn [negb]. cbv zeta. fold key. rewrite run_act.
  destruct (adjust_runtime_policy_counter key 1 s) as [n s1] eqn:Hadj. cbn [fst snd].
  eapply rtc_l; [by eapply (step_reserve s fl uuid actor policy current limit now)|].
  fold key. destruct (limit <? saturating_add current n)%Z; rewrite run_act.
  - eapply rtc_l; [apply (step_rollback s1 fl key [])|]. rewrite (right_id_L [] (++)).
    apply rtc_refl.
  - eapply rtc_l; [apply (step_record s1 fl _ [])|].
    + simpl. destruct (adjust_counters key 1 s) as [Hl _]. rewrite Hadj in Hl. simpl in Hl.
      by rewrite Hl.
    + rewrite (right_id_L [] (++)). apply rtc_refl.
Qed.
End system.

(** ** Witnesses *)

Module ConcurrencySample.
#[local] Open Scope Z_scope.
Definition policy : BudgetPolicyRecord.t :=
  BudgetPolicyRecord.mk "bp1" "ten" "tenant" "ten" None None None "all_time" "requests" (Some 1)
    None [] "none" "block_new_requests" "strong" ResourceStatus.Active 1 1 "admin" 0 0.
Definition actor : AuthenticatedActor.t :=
  AuthenticatedActor.for_internal_service "ten" "svc" "req1" "trace1".
Definition key : string := runtime_budget_reservation_key policy 0.
Definition cap (_ : string) : Z := 1.

(** Two requests increment the counter before either goes on: the first is
    admitted, the second refused. *)
Definition s1 : InMemoryPolicyStore.t := (adjust_runtime_policy_counter key 1 InMemoryPolicyStore.empty).2.
Definition s2 : InMemoryPolicyStore.t := (adjust_runtime_policy_counter key 1 s1).2.
Definition lease : RuntimeBudgetLeaseRecord.t :=
  RuntimeBudgetLeaseRecord.mk "bls_a" "ten" "bp1" key "req1" 1 "reserved" (duration_seconds 300) 0 0.

Lemma two_reserve : reachable cap (Sys.mk s2 [PRecord lease; PRollback key]).
Proof.
  eapply reach_step.
  - eapply reach_step; [apply reach_init|].
    apply (step_reserve cap InMemoryPolicyStore.empty [] "a" actor policy 0 1 0 1 s1);
      done || reflexivity.
  - apply (step_reserve cap s1 [PRecord lease] "b" actor policy 0 1 0 2 s2);
      done || reflexivity.
Qed.
End ConcurrencySample.

Lemma concurrent_budget_never_over_admits_witness :
  (admitted ConcurrencySample.key
     (Sys.mk ConcurrencySample.s2
        [PRecord ConcurrencySample.lease; PRollback ConcurrencySample.key]) ≤ 1)%Z.
Proof.
  apply (concurrent_budget_never_over_admits ConcurrencySample.cap _
           ConcurrencySample.two_reserve).
Defined.

Lemma reserve_is_steps_witness :
  rtc (step ConcurrencySample.cap) (Sys.mk InMemoryPolicyStore.empty [])
    (Sys.mk (reserve_runtime_request_budget "a" ConcurrencySample.actor ConcurrencySample.policy
               0 1 0 InMemoryPolicyStore.empty).2 []).
Proof. apply reserve_is_steps; done || reflexivity. Defined.
