(* ===== verification/Redis.v ===== *)
(** * The Redis hot-state backend

    [redis_hot_state.rs]: the counters and leases of the runtime policy and the
    route hot state, kept in a Redis-compatible server.  [RedisServer] is what the
    commands the backend sends do to the server; a command may be answered, be
    executed with its answer lost, or never arrive; [RedisRuntimePolicyRepository]
    is the backend, the second instance of the repository interface of
    [PolicyStore.v]. *)

From S2P Require Import Prelude Order Text Domain HotState PolicyStore.

(** ** Lua numbers

    The numbers of a script are doubles.  On the integers of this file rounding to
    53 bits, ties to even, is all there is to it. *)

Definition double (z : Z) : Z :=
  let magnitude := Z.abs z in
  let k := (Z.log2 magnitude - 52)%Z in
  if (k <=? 0)%Z then z
  else
    let q := Z.shiftr magnitude k in
    let r := (magnitude - Z.shiftl q k)%Z in
    let half := Z.shiftl 1 (k - 1) in
    let up := (half <? r)%Z || ((r =? half)%Z && Z.odd q) in
    (Z.sgn z * Z.shiftl (if up then q + 1 else q) k)%Z.

(** ** The server *)

(** A string that is the decimal notation of an [i64], any other string, a hash. *)
Module RedisValue.
Inductive t : Type := Int (z : Z) | Text (s : string) | Hash (h : gmap string string).
End RedisValue.

(** What a script does with numbers outside of its arithmetic: reading a string that
    is no plain integer, writing a number as a string, answering with one. *)
Class RedisScripting : Type := {
  lua_tonumber : string → option Z;
  lua_tostring : Z → RedisValue.t;
  lua_reply : Z → Z;
}.

Class RedisScriptingLaws `{RedisScripting} : Prop := {
  lua_tostring_small z : (0 < z ≤ 2 ^ 53)%Z → lua_tostring z = RedisValue.Int z;
  lua_reply_small z : (0 < z ≤ 2 ^ 53)%Z → lua_reply z = z;
}.

Module RedisServer.
(** Entries carry the time at which they vanish, if they do. *)
Record t : Type := mk {
  now : DateTime;
  entries : gmap string (RedisValue.t * option DateTime);
}.

(** A command answers, with an error of the server or a value. *)
Definition Command (A : Type) : Type := t → result string A * t.

Definition alive (s : t) (expiry : option DateTime) : bool :=
  match expiry with Some at_ => (now s <? at_)%Z | None => true end.

Definition lookup (key : string) (s : t) : option (RedisValue.t * option DateTime) :=
  match entries s !! key with
  | Some (value, expiry) => if alive s expiry then Some (value, expiry) else None
  | None => None
  end.

Definition put (key : string) (value : RedisValue.t) (expiry : option DateTime) (s : t) : t :=
  mk (now s) (<[key := (value, expiry)]> (entries s)).

Definition wrong_type : string :=
  "WRONGTYPE Operation against a key holding the wrong kind of value".

(** GET *)
Definition get (key : string) : Command (option RedisValue.t) := λ s,
  match lookup key s with
  | None => (Ok None, s)
  | Some (RedisValue.Hash _, _) => (Err wrong_type, s)
  | Some (value, _) => (Ok (Some value), s)
  end.

(** SET, with EX if there is a time to live *)
Definition set (key : string) (value : RedisValue.t) (ttl_seconds : option Z) : Command unit := λ s,
  (Ok tt, put key value ((λ ttl, (now s + duration_seconds ttl)%Z) <$> ttl_seconds) s).

(** DEL *)
Definition del (key : string) : Command unit := λ s, (Ok tt, mk (now s) (delete key (entries s))).

(** INCRBY *)
Definition incr_by (key : string) (increment : Z) : Command Z := λ s,
  let add z expiry :=
    let n := (z + increment)%Z in
    if (i64_min <=? n)%Z && (n <=? i64_max)%Z then (Ok n, put key (RedisValue.Int n) expiry s)
    else (Err "ERR increment or decrement would overflow", s) in
  match lookup key s with
  | None => add 0%Z None
  | Some (RedisValue.Int z, expiry) => add z expiry
  | Some (RedisValue.Text _, _) => (Err "ERR value is not an integer or out of range", s)
  | Some (RedisValue.Hash _, _) => (Err wrong_type, s)
  end.

(** HSET of one field *)
Definition hset (key field value : string) : Command unit := λ s,
  match lookup key s with
  | None => (Ok tt, put key (RedisValue.Hash {[field := value]}) None s)
  | Some (RedisValue.Hash h, expiry) =>
      (Ok tt, put key (RedisValue.Hash (<[field := value]> h)) expiry s)
  | Some _ => (Err wrong_type, s)
  end.

(** HVALS *)
Definition hvals (key : string) : Command (list string) := λ s,
  match lookup key s with
  | None => (Ok [], s)
  | Some (RedisValue.Hash h, _) => (Ok (map_to_list h).*2, s)
  | Some _ => (Err wrong_type, s)
  end.

(** EVAL of [SATURATING_ADJUST_COUNTER_LUA] *)
Definition saturating_adjust_counter `{RedisScripting} (key : string) (delta : Z) : Command Z := λ s,
  let stored :=
    match get key s with
    | (Err e, _) => Err e
    | (Ok None, _) => Ok 0%Z
    | (Ok (Some (RedisValue.Int z)), _) => Ok (double z)
    | (Ok (Some (RedisValue.Text text)), _) =>
        ok_or (lua_tonumber text) "ERR attempt to perform arithmetic on a nil value"
    | (Ok (Some (RedisValue.Hash _)), _) => Err wrong_type
    end in
  match stored with
  | Err e => (Err e, s)
  | Ok stored =>
      let value := double (stored + double delta) in
      if (value <=? 0)%Z then (Ok 0%Z, (del key s).2)
      else (Ok (lua_reply value), (set key (lua_tostring value) None s).2)
  end.
End RedisServer.

(** ** The client *)

(** What becomes of a command. *)
Module Delivery.
Inductive t : Set := Answered | AnswerLost | NotSent.
End Delivery.

(** What the code uses of [serde_json] on the records it stores. *)
Class SerdeJson (T : Type) : Type := {
  to_string : T → result string string;
  from_str : string → result string T;
}.

Class SerdeJsonLaws (T : Type) `{SerdeJson T} : Prop := {
  to_string_ok (record : T) : ∃ text, to_string record = Ok text;
  from_to_str (record : T) text : to_string record = Ok text → from_str text = Ok record;
}.

Module RedisRuntimePolicyRepository.
(** The deliveries are those of the next commands; later ones are answered. *)
Record t : Type := mk {
  server : RedisServer.t;
  deliveries : list Delivery.t;
  connected : bool;
  available : bool;
  local_loss_allowance_store : InMemoryPolicyStore.t;
}.

Definition set_server (x : RedisServer.t) (s : t) : t :=
  mk x (deliveries s) (connected s) (available s) (local_loss_allowance_store s).
Definition set_deliveries (x : list Delivery.t) (s : t) : t :=
  mk (server s) x (connected s) (available s) (local_loss_allowance_store s).
Definition set_available (x : bool) (s : t) : t :=
  mk (server s) (deliveries s) (connected s) x (local_loss_allowance_store s).
Definition set_local (x : InMemoryPolicyStore.t) (s : t) : t :=
  mk (server s) (deliveries s) (connected s) (available s) x.

Definition mark_available : t → t := set_available true.
Definition mark_unavailable : t → t := set_available false.

Definition opened (x : RedisServer.t) (ds : list Delivery.t) : t :=
  mk x ds true true InMemoryPolicyStore.empty.

(** [config] is what the URL and the builder give, [init] the outcome of the first
    connection, nothing if it does not come in time. *)
Definition connect (config : result string unit) (init : option (result string unit))
    (x : RedisServer.t) (ds : list Delivery.t) : result string t :=
  config;;
  match init with
  | None => Err "timed out connecting Redis-compatible hot state"
  | Some (Err error) => Err error
  | Some (Ok _) => Ok (opened x ds)
  end.

(** The callbacks of the connection; whether the client is connected is its own affair. *)
Definition on_error : t → t := mark_unavailable.
Definition on_reconnect : t → t := mark_available.

(** One command of the client. *)
Abbreviation Redis := (M t string).

Definition call {A} (command : RedisServer.Command A) : Redis A := λ s,
  let '(d, rest) := match deliveries s with
                    | [] => (Delivery.Answered, [])
                    | d :: rest => (d, rest)
                    end in
  let s' := set_deliveries rest s in
  match d with
  | Delivery.NotSent => (Err "connection error", s')
  | Delivery.AnswerLost => (Err "connection error", set_server (command (server s)).2 s')
  | Delivery.Answered => let '(r, x) := command (server s) in (r, set_server x s')
  end.

Definition budget_lease_key (lease_id : string) : string :=
  "gateway:runtime_policy:budget_lease:" +:+ lease_id.

Definition tenant_budget_lease_hash_key (tenant_id : string) : string :=
  "gateway:runtime_policy:budget_leases:" +:+ tenant_id.

Definition ttl_until (now expires_at : DateTime) : option Z :=
  let ttl_seconds := num_seconds (expires_at - now) in
  if (0 <? ttl_seconds)%Z then Some ttl_seconds else None.

Section json.
Context {T : Type} `{SerdeJson T}.

Definition decode_json (payload label : string) : result string T :=
  match from_str payload with
  | Ok record => Ok record
  | Err error => Err ("failed to decode " +:+ label +:+ ": " +:+ error)
  end.

Definition encode_json (record : T) (label : string) : result string string :=
  match to_string record with
  | Ok payload => Ok payload
  | Err error => Err ("failed to encode " +:+ label +:+ ": " +:+ error)
  end.

(** A stored value as the payload of a record; integers are no records. *)
Definition decode_value (label : string) (value : RedisValue.t) : result string T :=
  match value with
  | RedisValue.Text payload => decode_json payload label
  | _ => Err ("failed to decode " +:+ label)
  end.

Definition read_json (key label : string) : Redis (option T) :=
  payload ← call (RedisServer.get key);
  match payload with
  | None => mret None
  | Some value => lift (Some <$> decode_value label value)
  end.

(** [now] is the time of the gateway. *)
Definition write_expiring_json (now : DateTime) (key : string) (record : T) (expires_at : DateTime)
    (label : string) : Redis unit :=
  match ttl_until now expires_at with
  | None => mret tt
  | Some ttl =>
      payload ← lift (encode_json record label);
      call (RedisServer.set key (RedisValue.Text payload) (Some ttl))
  end.
End json.

(** [map_or_else] on the outcome of a command, with the availability it shows. *)
Definition settle {A B} (op : Redis A) (failed : B) (f : A → B) : t → B * t := λ s,
  match op s with
  | (Err _, s') => (failed, mark_unavailable s')
  | (Ok a, s') => (f a, mark_available s')
  end.

(** *** Route hot state

    [RouteHotState]; reads tell availability too, so they change the repository. *)

Section route_hot_state.
Context `{SerdeJson EndpointHealthRecord.t} `{SerdeJson EndpointDrainRecord.t}.
Context `{SerdeJson StickyRouteRecord.t}.

Definition endpoint_health_state (tenant_id provider_endpoint_id : string) (cv : option Z)
    (now : DateTime) : t → EndpointHealthState.t * t :=
  settle (read_json (endpoint_health_key tenant_id provider_endpoint_id) "endpoint health hot state")
    EndpointHealthState.Unknown
    (λ record, match record with
               | Some record =>
                   if EndpointHealthRecord.is_fresh_for record cv now
                   then EndpointHealthRecord.state record else EndpointHealthState.Unknown
               | None => EndpointHealthState.Unknown
               end).

Definition endpoint_is_drained (tenant_id provider_endpoint_id : string) (cv : option Z)
    (now : DateTime) : t → bool * t :=
  settle (read_json (endpoint_drain_key tenant_id provider_endpoint_id) "endpoint drain hot state")
    false
    (λ record, match record with
               | Some record => EndpointDrainRecord.is_fresh_for record cv now
               | None => false
               end).

Definition sticky_route (tenant_id : string) (project_id : option string)
    (model_alias_id affinity_hash : string) (cv : option Z) (now : DateTime)
    : t → option StickyRouteRecord.t * t :=
  settle (read_json (sticky_route_key tenant_id project_id model_alias_id affinity_hash)
            "sticky route hot state")
    None
    (λ record, match record with
               | Some record => if StickyRouteRecord.is_fresh_for record cv now then Some record else None
               | None => None
               end).

Definition set_endpoint_health (now : DateTime) (record : EndpointHealthRecord.t) : t → unit * t :=
  settle (write_expiring_json now
            (endpoint_health_key (EndpointHealthRecord.tenant_id record)
               (EndpointHealthRecord.provider_endpoint_id record))
            record (EndpointHealthRecord.expires_at record) "endpoint health hot state") tt id.

Definition set_endpoint_drain (now : DateTime) (record : EndpointDrainRecord.t) : t → unit * t :=
  settle (write_expiring_json now
            (endpoint_drain_key (EndpointDrainRecord.tenant_id record)
               (EndpointDrainRecord.provider_endpoint_id record))
            record (EndpointDrainRecord.expires_at record) "endpoint drain hot state") tt id.

Definition set_sticky_route (now : DateTime) (record : StickyRouteRecord.t) : t → unit * t :=
  settle (write_expiring_json now
            (sticky_route_key (StickyRouteRecord.tenant_id record)
               (StickyRouteRecord.project_id record) (StickyRouteRecord.model_alias_id record)
               (StickyRouteRecord.affinity_hash record))
            record (StickyRouteRecord.expires_at record) "sticky route hot state") tt id.
End route_hot_state.

(** *** Counters and leases

    [RuntimePolicyRepository]. *)

Section runtime_policy.
Context `{RedisScripting} `{SerdeJson RuntimeBudgetLeaseRecord.t}.

Definition runtime_policy_hot_state_available (s : t) : bool := connected s && available s.

Definition increment_runtime_quota_counter (key : string) (increment limit : Z)
    : t → RuntimeQuotaCounterDecision.t * t :=
  settle (call (RedisServer.incr_by key increment)) (RuntimeQuotaCounterDecision.mk limit false)
    (λ current, RuntimeQuotaCounterDecision.mk current (current <=? limit)%Z).

Definition runtime_policy_counter (key : string) : t → Z * t :=
  settle (call (RedisServer.get key)) 0%Z
    (λ value, match value with
              | Some (RedisValue.Int z) => Z.max z 0
              | _ => 0%Z
              end).

Definition adjust_runtime_policy_counter (key : string) (delta : Z) : t → Z * t :=
  settle (call (RedisServer.saturating_adjust_counter key delta)) 0%Z id.

(** The loss allowances are those of a store of the process. *)
Definition on_local {A} (op : InMemoryPolicyStore.t → A * InMemoryPolicyStore.t) : t → A * t := λ s,
  let '(a, x) := op (local_loss_allowance_store s) in (a, set_local x s).

Definition increment_runtime_policy_loss_allowance_counter (key : string) (increment limit : Z)
    : t → RuntimeQuotaCounterDecision.t * t :=
  on_local (InMemoryPolicyStore.increment_runtime_policy_loss_allowance_counter key increment limit).
Definition adjust_runtime_policy_loss_allowance_counter (key : string) (delta : Z) : t → Z * t :=
  on_local (InMemoryPolicyStore.adjust_runtime_policy_loss_allowance_counter key delta).
Definition runtime_policy_loss_allowance_counter (key : string) : t → Z * t :=
  on_local (InMemoryPolicyStore.runtime_policy_loss_allowance_counter key).

Definition write_budget_lease (record : RuntimeBudgetLeaseRecord.t) : Redis unit :=
  payload ← lift (encode_json record "runtime budget lease");
  let lease_key := budget_lease_key (RuntimeBudgetLeaseRecord.lease_id record) in
  let tenant_hash_key := tenant_budget_lease_hash_key (RuntimeBudgetLeaseRecord.tenant_id record) in
  call (RedisServer.set lease_key (RedisValue.Text payload) None);;
  call (RedisServer.hset tenant_hash_key (RuntimeBudgetLeaseRecord.lease_id record) payload).

Definition read_budget_lease (lease_id : string) : Redis (option RuntimeBudgetLeaseRecord.t) :=
  payload ← call (RedisServer.get (budget_lease_key lease_id));
  match payload with
  | None => mret None
  | Some value => lift (Some <$> decode_value "runtime budget lease" value)
  end.

Definition read_tenant_budget_leases (tenant_id : string) : Redis (list RuntimeBudgetLeaseRecord.t) :=
  payloads ← call (RedisServer.hvals (tenant_budget_lease_hash_key tenant_id));
  lift (mapM (λ payload, decode_json payload "runtime budget lease") payloads).

Definition record_runtime_budget_lease (record : RuntimeBudgetLeaseRecord.t) : t → unit * t :=
  settle (write_budget_lease record) tt id.

(** The release reads the lease and, if it is reserved, writes it back. *)
Definition release_read (lease_id : string) : t → option RuntimeBudgetLeaseRecord.t * t :=
  settle (read_budget_lease lease_id) None id.

Definition release_write (now : DateTime) (lease : option RuntimeBudgetLeaseRecord.t)
    : t → option RuntimeBudgetLeaseRecord.t * t := λ s,
  match lease with
  | None => (None, s)
  | Some lease =>
      if RuntimeBudgetLeaseRecord.status lease !=? "reserved" then (None, s)
      else
        let lease' := RuntimeBudgetLeaseRecord.with_status "released" now lease in
        settle (write_budget_lease lease') None (λ _, Some lease') s
  end.

Definition release_runtime_budget_lease (lease_id : string) (now : DateTime)
    : t → option RuntimeBudgetLeaseRecord.t * t := λ s,
  let '(lease, s') := release_read lease_id s in release_write now lease s'.

Fixpoint expire_loop (now : DateTime) (leases : list RuntimeBudgetLeaseRecord.t)
    : t → list RuntimeBudgetLeaseRecord.t * t := λ s,
  match leases with
  | [] => ([], s)
  | lease :: leases' =>
      if (RuntimeBudgetLeaseRecord.status lease ==? "reserved")
         && (RuntimeBudgetLeaseRecord.expires_at lease <=? now)%Z
      then
        let lease' := RuntimeBudgetLeaseRecord.with_status "expired" now lease in
        match write_budget_lease lease' s with
        | (Ok _, s') => let '(expired, s'') := expire_loop now leases' s' in (lease' :: expired, s'')
        | (Err _, s') => expire_loop now leases' (mark_unavailable s')
        end
      else expire_loop now leases' s
  end.

Definition expire_runtime_budget_leases (tenant_id : string) (now : DateTime)
    : t → list RuntimeBudgetLeaseRecord.t * t := λ s,
  match read_tenant_budget_leases tenant_id s with
  | (Err _, s') => ([], mark_unavailable s')
  | (Ok leases, s') =>
      let '(expired, s'') := expire_loop now leases (mark_available s') in
      (sort_by InMemoryPolicyStore.by_lease_id expired, s'')
  end.

Definition runtime_budget_leases_for_tenant (tenant_id : string)
    : t → list RuntimeBudgetLeaseRecord.t * t :=
  settle (read_tenant_budget_leases tenant_id) [] (sort_by InMemoryPolicyStore.by_created_desc).

#[global] Instance repository : RuntimePolicyRepository t := {
  PolicyStore.runtime_policy_hot_state_available := runtime_policy_hot_state_available;
  PolicyStore.increment_runtime_quota_counter := increment_runtime_quota_counter;
  PolicyStore.runtime_policy_counter := runtime_policy_counter;
  PolicyStore.adjust_runtime_policy_counter := adjust_runtime_policy_counter;
  PolicyStore.increment_runtime_policy_loss_allowance_counter :=
    increment_runtime_policy_loss_allowance_counter;
  PolicyStore.adjust_runtime_policy_loss_allowance_counter :=
    adjust_runtime_policy_loss_allowance_counter;
  PolicyStore.runtime_policy_loss_allowance_counter := runtime_policy_loss_allowance_counter;
  PolicyStore.record_runtime_budget_lease := record_runtime_budget_lease;
  PolicyStore.release_runtime_budget_lease := release_runtime_budget_lease;
  PolicyStore.expire_runtime_budget_leases := expire_runtime_budget_leases;
  PolicyStore.runtime_budget_leases_for_tenant := runtime_budget_leases_for_tenant;
}.
End runtime_policy.
End RedisRuntimePolicyRepository.
