(* ===== verification/RedisFacts.v ===== *)
(** * Facts about the Redis backend

    The Redis backend against the in-memory one: on a connection that answers, any
    sequence of repository calls within the range of exact script arithmetic gets
    the same answers from both.  When commands fail, a quota is never over-admitted
    by increments. *)

From Stdlib Require Import Sorting.Sorted Sorting.Permutation.
From stdpp Require Import sorting.
From S2P Require Import Prelude Order Text Domain HotState PolicyStore Redis.
Import RedisRuntimePolicyRepository (budget_lease_key, tenant_budget_lease_hash_key).

(** ** Exact numbers *)

Lemma double_exact z : (- 2 ^ 53 ≤ z ≤ 2 ^ 53)%Z → double z = z.
Proof.
  intros Hz. unfold double. case_match eqn:E; [done|]. apply Z.leb_gt in E.
  assert (Z.abs z = 2 ^ 53)%Z as Ha.
  { destruct (decide (Z.abs z < 2 ^ 53)%Z) as [Hlt|]; [|lia].
    destruct (decide (z = 0)%Z) as [->|]; [done|].
    apply Z.log2_lt_pow2 in Hlt; lia. }
  rewrite Ha. change (Z.log2 (2 ^ 53) - 52)%Z with 1%Z.
  change (Z.sgn z * 2 ^ 53 = z)%Z. lia.
Qed.

(** ** Sorting lists without ties *)

Lemma sort_by_unique {A} (c : A → A → comparison) `{!TotalCmp c} (l l' : list A) :
  l ≡ₚ l' → (∀ x y, x ∈ l → y ∈ l → c x y = Eq → x = y) → sort_by c l = sort_by c l'.
Proof.
  intros Hp Hinj. apply (StronglySorted_unique_strong (cmp_le c)); [|by apply sort_by_sorted..|].
  - intros x y Hx%sort_by_elem Hy%sort_by_elem Hxy Hyx. rewrite <- Hp in Hy.
    apply Hinj; [done..|]. unfold cmp_le in *.
    pose proof (cmp_antisym c x y) as Ha. destruct (c x y), (c y x); simpl in *; congruence.
  - etrans; [apply sort_by_perm|]. etrans; [exact Hp|]. symmetry. apply sort_by_perm.
Qed.

Lemma by_lease_id_total : TotalCmp InMemoryPolicyStore.by_lease_id.
Proof. apply cmp_on_total, _. Qed.

Lemma by_created_desc_total : TotalCmp InMemoryPolicyStore.by_created_desc.
Proof. apply cmp_then_total; [apply cmp_rev_total, cmp_on_total, _|apply by_lease_id_total]. Qed.

(** ** Calls of the repository *)

Module RepositoryCall.
Inductive t : Type :=
| Available
| Increment (key : string) (increment limit : Z)
| Counter (key : string)
| Adjust (key : string) (delta : Z)
| IncrementAllowance (key : string) (increment limit : Z)
| AdjustAllowance (key : string) (delta : Z)
| Allowance (key : string)
| RecordLease (record : RuntimeBudgetLeaseRecord.t)
| ReleaseLease (lease_id : string) (now : DateTime)
| ExpireLeases (tenant_id : string) (now : DateTime)
| Leases (tenant_id : string).
End RepositoryCall.

Module Answer.
Inductive t : Type :=
| Bool (b : bool) | Decision (d : RuntimeQuotaCounterDecision.t) | Int (z : Z) | Done
| Lease (l : option RuntimeBudgetLeaseRecord.t) | Leases (l : list RuntimeBudgetLeaseRecord.t).
End Answer.

Section perform.
Context {S : Type} `{RuntimePolicyRepository S}.

Definition answered {A} (f : A → Answer.t) (r : A * S) : Answer.t * S := (f r.1, r.2).

Definition perform (call : RepositoryCall.t) (s : S) : Answer.t * S :=
  match call with
  | RepositoryCall.Available => (Answer.Bool (runtime_policy_hot_state_available s), s)
  | RepositoryCall.Increment k inc limit =>
      answered Answer.Decision (increment_runtime_quota_counter k inc limit s)
  | RepositoryCall.Counter k => answered Answer.Int (runtime_policy_counter k s)
  | RepositoryCall.Adjust k delta => answered Answer.Int (adjust_runtime_policy_counter k delta s)
  | RepositoryCall.IncrementAllowance k inc limit =>
      answered Answer.Decision (increment_runtime_policy_loss_allowance_counter k inc limit s)
  | RepositoryCall.AdjustAllowance k delta =>
      answered Answer.Int (adjust_runtime_policy_loss_allowance_counter k delta s)
  | RepositoryCall.Allowance k => answered Answer.Int (runtime_policy_loss_allowance_counter k s)
  | RepositoryCall.RecordLease record =>
      answered (λ _, Answer.Done) (record_runtime_budget_lease record s)
  | RepositoryCall.ReleaseLease id now => answered Answer.Lease (release_runtime_budget_lease id now s)
  | RepositoryCall.ExpireLeases t now => answered Answer.Leases (expire_runtime_budget_leases t now s)
  | RepositoryCall.Leases t => answered Answer.Leases (runtime_budget_leases_for_tenant t s)
  end.

Fixpoint perform_all (calls : list RepositoryCall.t) (s : S) : list Answer.t * S :=
  match calls with
  | [] => ([], s)
  | call :: calls' =>
      let '(answer, s1) := perform call s in
      let '(answers, s2) := perform_all calls' s1 in (answer :: answers, s2)
  end.
End perform.

(** ** Calls both backends answer alike *)

(** A key that is not one of a lease. *)
Definition plain_key (key : string) : bool :=
  negb (starts_with "gateway:runtime_policy:budget_lease" key).

Definition exact_limit : Z := (2 ^ 53)%Z.

Definition counter_of (m : InMemoryPolicyStore.t) (key : string) : Z :=
  default 0%Z (InMemoryPolicyStore.runtime_quota_counters m !! key).

(** Counters of their own, that stay below the exact range of scripts and, where they
    are incremented, above zero; a lease recorded again stays with its tenant. *)
Definition fits (m : InMemoryPolicyStore.t) (call : RepositoryCall.t) : bool :=
  match call with
  | RepositoryCall.Increment k inc _ =>
      plain_key k && (0 <=? counter_of m k + inc)%Z && (counter_of m k + inc <=? exact_limit)%Z
  | RepositoryCall.Counter k => plain_key k
  | RepositoryCall.Adjust k delta =>
      plain_key k && (- exact_limit <=? delta)%Z && (delta <=? exact_limit)%Z
      && (counter_of m k + delta <=? exact_limit)%Z
  | RepositoryCall.RecordLease record =>
      match InMemoryPolicyStore.runtime_budget_leases m !! RuntimeBudgetLeaseRecord.lease_id record with
      | Some old => RuntimeBudgetLeaseRecord.tenant_id old ==? RuntimeBudgetLeaseRecord.tenant_id record
      | None => true
      end
  | _ => true
  end.

Fixpoint all_fit (m : InMemoryPolicyStore.t) (calls : list RepositoryCall.t) : bool :=
  match calls with
  | [] => true
  | call :: calls' => fits m call && all_fit (perform call m).2 calls'
  end.

(** ** Leases as the server keeps them *)

Abbreviation LeaseMap := (gmap string RuntimeBudgetLeaseRecord.t).

(** Leases are stored under their ids. *)
Definition keyed (leases : LeaseMap) : Prop :=
  ∀ id l, leases !! id = Some l → RuntimeBudgetLeaseRecord.lease_id l = id.

Lemma keyed_values (leases : LeaseMap) : keyed leases →
  let values := (map_to_list leases).*2 in
  NoDup (RuntimeBudgetLeaseRecord.lease_id <$> values)
  ∧ ∀ l, l ∈ values ↔ leases !! RuntimeBudgetLeaseRecord.lease_id l = Some l.
Proof.
  intros Hk values.
  assert (RuntimeBudgetLeaseRecord.lease_id <$> values = (map_to_list leases).*1) as ->.
  { unfold values. rewrite <- list_fmap_compose. apply Forall_fmap_ext, Forall_forall.
    intros [id l] Hin%elem_of_map_to_list. simpl. by apply Hk. }
  split; [apply NoDup_fst_map_to_list|]. intros l. unfold values. rewrite list_elem_of_fmap. split.
  - intros ([id l'] & -> & Hin%elem_of_map_to_list). simpl. by rewrite (Hk _ _ Hin).
  - intros Hl. exists (RuntimeBudgetLeaseRecord.lease_id l, l). by rewrite elem_of_map_to_list.
Qed.

Lemma with_status_keyed leases id l status now :
  keyed leases → leases !! id = Some l →
  keyed (<[id := RuntimeBudgetLeaseRecord.with_status status now l]> leases).
Proof.
  intros Hk Hl id' l' [[<- <-]|[? ?]]%lookup_insert_Some; [|by apply Hk]. simpl. by apply Hk.
Qed.

Lemma ids_filter (p : RuntimeBudgetLeaseRecord.t → bool) l :
  NoDup (RuntimeBudgetLeaseRecord.lease_id <$> l) →
  NoDup (RuntimeBudgetLeaseRecord.lease_id <$> List.filter p l).
Proof.
  induction l as [|x l IH]; [done|]. simpl. intros [Hx Hl]%NoDup_cons.
  destruct (p x); [|by apply IH]. simpl. apply NoDup_cons. split; [|by apply IH].
  intros (y & Hy & Hin)%list_elem_of_fmap. apply Hx. rewrite Hy. apply list_elem_of_fmap.
  exists y. split; [done|]. by apply filter_iff in Hin as [? _].
Qed.

Lemma filter_twice {A} (p q : A → bool) l :
  List.filter p (List.filter q l) = List.filter (λ x, q x && p x) l.
Proof. induction l as [|x l IH]; [done|]. simpl. destruct (q x); simpl; [|done]. by rewrite IH. Qed.

Lemma filter_permutation {A} (p : A → bool) (l l' : list A) :
  l ≡ₚ l' → List.filter p l ≡ₚ List.filter p l'.
Proof.
  induction 1 as [|x l l' _ IH|x y l|]; simpl; [done| | |by etrans].
  - destruct (p x); by rewrite IH.
  - destruct (p x), (p y); try done. apply Permutation_swap.
Qed.

(** Values of a list of leases without repeated ids are told apart by their ids. *)
Lemma same_id_same (l : list RuntimeBudgetLeaseRecord.t) x y :
  NoDup (RuntimeBudgetLeaseRecord.lease_id <$> l) → x ∈ l → y ∈ l →
  RuntimeBudgetLeaseRecord.lease_id x = RuntimeBudgetLeaseRecord.lease_id y → x = y.
Proof.
  intros Hnd [i Hi]%list_elem_of_lookup_1 [j Hj]%list_elem_of_lookup_1 Heq.
  assert (i = j) as ->; [|congruence].
  eapply (NoDup_lookup _ _ _ (RuntimeBudgetLeaseRecord.lease_id x)); [exact Hnd|..];
    rewrite list_lookup_fmap; [by rewrite Hi|rewrite Hj; simpl; by rewrite Heq].
Qed.

(** ** The simulation *)

Section simulation.
Context `{RedisScripting} `{!RedisScriptingLaws}.
Context `{SerdeJson RuntimeBudgetLeaseRecord.t} `{!SerdeJsonLaws RuntimeBudgetLeaseRecord.t}.
Implicit Types (m : InMemoryPolicyStore.t) (x : RedisServer.t) (l : RuntimeBudgetLeaseRecord.t).

(** The payload of a lease. *)
Definition payload_of l : string :=
  match to_string l with Ok text => text | Err _ => "" end.

Lemma payload_encoded l : to_string l = Ok (payload_of l).
Proof. unfold payload_of. destruct (to_string_ok l) as [text Ht]. by rewrite Ht. Qed.

Lemma payload_decoded l : from_str (payload_of l) = Ok l.
Proof. by apply from_to_str, payload_encoded. Qed.

Definition tenant_leases m (tenant : string) : LeaseMap :=
  filter (λ entry, RuntimeBudgetLeaseRecord.tenant_id entry.2 = tenant)
    (InMemoryPolicyStore.runtime_budget_leases m).

(** The server holds the counters and leases of the in-memory store: a counter as an
    integer, no entry for zero allowed; a lease as its payload, under its own key and
    in the hash of its tenant. *)
Record mirrors m x : Prop := {
  mi_keyed : keyed (InMemoryPolicyStore.runtime_budget_leases m);
  mi_counter k : plain_key k = true →
    (0 ≤ counter_of m k ≤ exact_limit)%Z
    ∧ (RedisServer.entries x !! k = None ∧ counter_of m k = 0%Z
       ∨ RedisServer.entries x !! k = Some (RedisValue.Int (counter_of m k), None));
  mi_lease id :
    RedisServer.entries x !! budget_lease_key id
    = (λ l, (RedisValue.Text (payload_of l), None))
        <$> InMemoryPolicyStore.runtime_budget_leases m !! id;
  mi_hash tenant :
    RedisServer.entries x !! tenant_budget_lease_hash_key tenant = None
    ∧ tenant_leases m tenant = ∅
    ∨ RedisServer.entries x !! tenant_budget_lease_hash_key tenant
      = Some (RedisValue.Hash (payload_of <$> tenant_leases m tenant), None);
}.

(** A connection that answers. *)
Definition answering x (local : InMemoryPolicyStore.t) : RedisRuntimePolicyRepository.t :=
  RedisRuntimePolicyRepository.mk x [] true true local.

Lemma mark_answering x local :
  RedisRuntimePolicyRepository.mark_available (answering x local) = answering x local.
Proof. done. Qed.

(** *** Keys *)

Lemma lease_key_inj id id' : budget_lease_key id = budget_lease_key id' → id = id'.
Proof. apply (inj (String.append "gateway:runtime_policy:budget_lease:")). Qed.

Lemma hash_key_inj t t' : tenant_budget_lease_hash_key t = tenant_budget_lease_hash_key t' → t = t'.
Proof. apply (inj (String.append "gateway:runtime_policy:budget_leases:")). Qed.

Lemma lease_key_not_hash id t : budget_lease_key id ≠ tenant_budget_lease_hash_key t.
Proof. unfold budget_lease_key, tenant_budget_lease_hash_key. by cbn. Qed.

Lemma plain_not_lease k id : plain_key k = true → k ≠ budget_lease_key id.
Proof.
  unfold plain_key. intros Hp ->. apply negb_true_iff, not_true_iff_false in Hp.
  apply Hp, starts_with_app. by exists (":" +:+ id).
Qed.

Lemma plain_not_hash k t : plain_key k = true → k ≠ tenant_budget_lease_hash_key t.
Proof.
  unfold plain_key. intros Hp ->. apply negb_true_iff, not_true_iff_false in Hp.
  apply Hp, starts_with_app. by exists ("s:" +:+ t).
Qed.

(** *** Counters *)

Lemma lookup_permanent x k v :
  RedisServer.entries x !! k = Some (v, None) → RedisServer.lookup k x = Some (v, None).
Proof. unfold RedisServer.lookup. by intros ->. Qed.

Lemma lookup_missing x k : RedisServer.entries x !! k = None → RedisServer.lookup k x = None.
Proof. unfold RedisServer.lookup. by intros ->. Qed.

(** A store whose counter [k] is [n]. *)
Definition with_counters (counters : gmap string Z) m : InMemoryPolicyStore.t :=
  InMemoryPolicyStore.mk (InMemoryPolicyStore.hot_state_unavailable m) counters
    (InMemoryPolicyStore.runtime_policy_loss_allowances m)
    (InMemoryPolicyStore.runtime_budget_leases m).

(** Replacing what the server holds under a plain key. *)
Lemma mirrors_counter m x k n counters entry :
  mirrors m x → plain_key k = true → (0 ≤ n ≤ exact_limit)%Z →
  (∀ k', default 0%Z (counters !! k') = if k' ==? k then n else counter_of m k') →
  (entry = None ∧ n = 0%Z ∨ entry = Some (RedisValue.Int n, None)) →
  mirrors (with_counters counters m)
    (RedisServer.mk (RedisServer.now x) (partial_alter (λ _, entry) k (RedisServer.entries x))).
Proof.
  intros [Hk Hc Hl Hh] Hp Hn Hcs He. split.
  - exact Hk.
  - intros k' Hp'. unfold counter_of. simpl. rewrite Hcs. case_bool_decide as Heq.
    + subst. split; [done|]. rewrite lookup_partial_alter_eq. destruct He as [[-> ->]| ->]; auto.
    + rewrite lookup_partial_alter_ne by done. by apply Hc.
  - intros id. simpl. rewrite lookup_partial_alter_ne by (by apply plain_not_lease). apply Hl.
  - intros t. simpl. rewrite lookup_partial_alter_ne by (by apply plain_not_hash). apply Hh.
Qed.

Lemma saturating_exact a b :
  (- exact_limit ≤ a + b ≤ exact_limit)%Z → saturating_add a b = (a + b)%Z.
Proof. intros Hab. unfold saturating_add, clamp_i64, exact_limit, i64_min, i64_max in *. lia. Qed.

Lemma increment_simulated m x local k inc limit :
  mirrors m x → fits m (RepositoryCall.Increment k inc limit) = true →
  ∃ x', perform (RepositoryCall.Increment k inc limit) (answering x local)
        = ((perform (RepositoryCall.Increment k inc limit) m).1, answering x' local)
    ∧ mirrors (perform (RepositoryCall.Increment k inc limit) m).2 x'.
Proof.
  intros Hm Hf. simpl in Hf. rewrite !andb_true_iff, !Z.leb_le in Hf. destruct Hf as [[Hp Hlo] Hhi].
  pose proof (mi_counter _ _ Hm k Hp) as [Hn He].
  assert (saturating_add (counter_of m k) inc = counter_of m k + inc)%Z as Hs
    by (apply saturating_exact; unfold exact_limit in *; lia).
  assert (RedisServer.incr_by k inc x = (Ok (counter_of m k + inc)%Z,
    RedisServer.put k (RedisValue.Int (counter_of m k + inc)) None x)) as Hrun.
  { unfold RedisServer.incr_by. destruct He as [[He Hz]|He].
    - rewrite (lookup_missing _ _ He), Hz in *. rewrite !(proj2 (Z.leb_le _ _)); [done|..];
        unfold exact_limit, i64_min, i64_max in *; lia.
    - rewrite (lookup_permanent _ _ _ He). rewrite !(proj2 (Z.leb_le _ _)); [done|..];
        unfold exact_limit, i64_min, i64_max in *; lia. }
  eexists. split.
  - unfold perform, answered. simpl. unfold RedisRuntimePolicyRepository.increment_runtime_quota_counter,
      RedisRuntimePolicyRepository.settle, RedisRuntimePolicyRepository.call. simpl. rewrite Hrun. simpl.
    unfold InMemoryPolicyStore.increment. fold (counter_of m k). rewrite Hs. reflexivity.
  - apply (mirrors_counter m x k (counter_of m k + inc)); [done..| |by right].
    intros k'. rewrite <- Hs. apply (increment_lookup _ _ limit).
Qed.

Lemma counter_read_simulated m x local k :
  mirrors m x → plain_key k = true →
  RedisRuntimePolicyRepository.runtime_policy_counter k (answering x local)
  = (counter_of m k, answering x local).
Proof.
  intros Hm Hp. pose proof (mi_counter _ _ Hm k Hp) as [Hn He].
  unfold RedisRuntimePolicyRepository.runtime_policy_counter, RedisRuntimePolicyRepository.settle,
    RedisRuntimePolicyRepository.call. simpl. unfold RedisServer.get.
  destruct He as [[He Hz]|He].
  - rewrite (lookup_missing _ _ He), Hz. reflexivity.
  - rewrite (lookup_permanent _ _ _ He). simpl. by rewrite Z.max_l by lia.
Qed.

(** The script, below the exact range. *)
Lemma script_run m x k delta :
  mirrors m x → plain_key k = true → (- exact_limit ≤ delta ≤ exact_limit)%Z →
  (counter_of m k + delta ≤ exact_limit)%Z →
  let n := Z.max (counter_of m k + delta) 0 in
  RedisServer.saturating_adjust_counter k delta x
  = (Ok n, RedisServer.mk (RedisServer.now x)
      (partial_alter (λ _, if (n =? 0)%Z then None else Some (RedisValue.Int n, None)) k
         (RedisServer.entries x))).
Proof.
  intros Hm Hp Hd Hle n. pose proof (mi_counter _ _ Hm k Hp) as [Hn He].
  assert (match RedisServer.get k x with
          | (Err e, _) => Err e
          | (Ok None, _) => Ok 0%Z
          | (Ok (Some (RedisValue.Int z)), _) => Ok (double z)
          | (Ok (Some (RedisValue.Text text)), _) =>
              ok_or (lua_tonumber text) "ERR attempt to perform arithmetic on a nil value"
          | (Ok (Some (RedisValue.Hash _)), _) => Err RedisServer.wrong_type
          end = Ok (counter_of m k)) as Hget.
  { unfold RedisServer.get. destruct He as [[He Hz]|He].
    - by rewrite (lookup_missing _ _ He), Hz.
    - rewrite (lookup_permanent _ _ _ He). f_equal. apply double_exact. unfold exact_limit in *. lia. }
  unfold RedisServer.saturating_adjust_counter. rewrite Hget.
  rewrite (double_exact delta) by (unfold exact_limit in *; lia).
  rewrite double_exact by (unfold exact_limit in *; lia).
  destruct (Z.leb_spec (counter_of m k + delta) 0) as [Hneg|Hpos]; simpl.
  - unfold n. rewrite Z.max_r by done. done.
  - unfold n. rewrite Z.max_l by lia. destruct (Z.eqb_spec (counter_of m k + delta) 0); [lia|].
    rewrite lua_reply_small, lua_tostring_small by (unfold exact_limit in *; lia). done.
Qed.

Lemma adjust_simulated m x local k delta :
  mirrors m x → fits m (RepositoryCall.Adjust k delta) = true →
  ∃ x', perform (RepositoryCall.Adjust k delta) (answering x local)
        = ((perform (RepositoryCall.Adjust k delta) m).1, answering x' local)
    ∧ mirrors (perform (RepositoryCall.Adjust k delta) m).2 x'.
Proof.
  intros Hm Hf. simpl in Hf. rewrite !andb_true_iff, !Z.leb_le in Hf.
  destruct Hf as [[[Hp Hlo] Hhi] Hle]. pose proof (mi_counter _ _ Hm k Hp) as [Hn _].
  assert (adjusted (counter_of m k) delta = Z.max (counter_of m k + delta) 0) as Hs.
  { unfold adjusted. rewrite saturating_exact; [done|]. unfold exact_limit in *. lia. }
  pose proof (script_run m x k delta Hm Hp (conj Hlo Hhi) Hle) as Hrun. simpl in Hrun.
  eexists. split.
  - unfold perform, answered. simpl. unfold RedisRuntimePolicyRepository.adjust_runtime_policy_counter,
      RedisRuntimePolicyRepository.settle, RedisRuntimePolicyRepository.call. simpl. rewrite Hrun. simpl.
    unfold InMemoryPolicyStore.adjust. fold (counter_of m k). fold (adjusted (counter_of m k) delta).
    rewrite Hs. reflexivity.
  - apply (mirrors_counter m x k (Z.max (counter_of m k + delta) 0)); [done..|lia| |].
    + intros k'. rewrite <- Hs. apply adjust_lookup.
    + case_match eqn:E; [left; by rewrite Z.eqb_eq in E|by right].
Qed.

(** *** Leases *)

Lemma tenant_leases_insert m l tenant :
  (∀ old, InMemoryPolicyStore.runtime_budget_leases m !! RuntimeBudgetLeaseRecord.lease_id l
          = Some old → RuntimeBudgetLeaseRecord.tenant_id old = RuntimeBudgetLeaseRecord.tenant_id l) →
  tenant_leases (InMemoryPolicyStore.record_runtime_budget_lease l m).2 tenant
  = if RuntimeBudgetLeaseRecord.tenant_id l ==? tenant
    then <[RuntimeBudgetLeaseRecord.lease_id l := l]> (tenant_leases m tenant)
    else tenant_leases m tenant.
Proof.
  intros Hsame. unfold tenant_leases. simpl. case_bool_decide as Ht.
  - by rewrite map_filter_insert_True.
  - rewrite map_filter_insert_False by done. apply map_filter_delete_not.
    intros old Hold. simpl. by rewrite (Hsame old Hold).
Qed.

Lemma write_lease_run m x local l :
  mirrors m x → fits m (RepositoryCall.RecordLease l) = true →
  ∃ x', RedisRuntimePolicyRepository.write_budget_lease l (answering x local)
        = (Ok tt, answering x' local)
    ∧ mirrors (InMemoryPolicyStore.record_runtime_budget_lease l m).2 x'.
Proof.
  intros [Hk Hc Hl Hh] Hf. simpl in Hf.
  assert (∀ old, InMemoryPolicyStore.runtime_budget_leases m !! RuntimeBudgetLeaseRecord.lease_id l
    = Some old → RuntimeBudgetLeaseRecord.tenant_id old = RuntimeBudgetLeaseRecord.tenant_id l) as Hsame.
  { intros old Hold. rewrite Hold in Hf. by apply bool_decide_eq_true in Hf. }
  pose proof (tenant_leases_insert m l) as Hins. specialize (Hh (RuntimeBudgetLeaseRecord.tenant_id l)) as Hthis.
  set (tenant := RuntimeBudgetLeaseRecord.tenant_id l) in *.
  set (id := RuntimeBudgetLeaseRecord.lease_id l) in *.
  set (x1 := RedisServer.put (budget_lease_key id) (RedisValue.Text (payload_of l)) None x).
  set (x' := RedisServer.put (tenant_budget_lease_hash_key tenant)
    (RedisValue.Hash (payload_of <$> <[id := l]> (tenant_leases m tenant))) None x1).
  exists x'. split.
  - unfold RedisRuntimePolicyRepository.write_budget_lease, RedisRuntimePolicyRepository.encode_json.
    rewrite payload_encoded. unfold mbind, M_bind, lift, RedisRuntimePolicyRepository.call. simpl.
    fold id tenant x1. change (RedisServer.put (budget_lease_key id) (RedisValue.Text (payload_of l)) None x) with x1.
    assert (RedisServer.entries x1 !! tenant_budget_lease_hash_key tenant
      = RedisServer.entries x !! tenant_budget_lease_hash_key tenant) as Hx1
      by (apply lookup_insert_ne, lease_key_not_hash).
    unfold RedisServer.hset. destruct Hthis as [[He Hemp]|He].
    + rewrite lookup_missing by (by rewrite Hx1). unfold x'. by rewrite Hemp, fmap_insert, fmap_empty.
    + rewrite (lookup_permanent _ _ (RedisValue.Hash (payload_of <$> tenant_leases m tenant)))
        by (by rewrite Hx1). unfold x'. by rewrite fmap_insert.
  - split.
    + intros id' l'. simpl. intros [[<- <-]|[_ Hl']]%lookup_insert_Some; [done|by apply Hk].
    + intros k Hp. simpl. rewrite !lookup_insert_ne by (symmetry; first
        [by apply plain_not_lease|by apply plain_not_hash]). by apply Hc.
    + intros id'. simpl. rewrite lookup_insert_ne by (apply not_eq_sym, lease_key_not_hash).
      destruct (decide (id' = id)) as [->|Hne]; [by rewrite !lookup_insert_eq|].
      rewrite !lookup_insert_ne by (by first [intros ?%lease_key_inj|done]). apply Hl.
    + intros t. rewrite (Hins t Hsame). simpl. fold tenant id.
      destruct (decide (tenant = t)) as [<-|Hne].
      * right. by rewrite lookup_insert_eq, bool_decide_true.
      * rewrite bool_decide_false by done.
        rewrite lookup_insert_ne by (by intros ?%hash_key_inj).
        rewrite lookup_insert_ne by (apply lease_key_not_hash). apply Hh.
Qed.

Lemma read_lease_run m x local id :
  mirrors m x →
  RedisRuntimePolicyRepository.read_budget_lease id (answering x local)
  = (Ok (InMemoryPolicyStore.runtime_budget_leases m !! id), answering x local).
Proof.
  intros Hm. pose proof (mi_lease _ _ Hm id) as Hl.
  unfold RedisRuntimePolicyRepository.read_budget_lease, mbind, M_bind,
    RedisRuntimePolicyRepository.call. simpl. unfold RedisServer.get.
  destruct (InMemoryPolicyStore.runtime_budget_leases m !! id) as [l|]; simpl in Hl.
  - rewrite (lookup_permanent _ _ _ Hl). simpl.
    unfold RedisRuntimePolicyRepository.decode_json, lift. by rewrite payload_decoded.
  - by rewrite (lookup_missing _ _ Hl).
Qed.

Lemma status_fits m id l status now :
  keyed (InMemoryPolicyStore.runtime_budget_leases m) →
  InMemoryPolicyStore.runtime_budget_leases m !! id = Some l →
  fits m (RepositoryCall.RecordLease (RuntimeBudgetLeaseRecord.with_status status now l)) = true.
Proof. intros Hk Hl. simpl. rewrite (Hk _ _ Hl), Hl. by apply bool_decide_eq_true. Qed.

Lemma release_simulated m x local id now :
  mirrors m x →
  ∃ x', perform (RepositoryCall.ReleaseLease id now) (answering x local)
        = ((perform (RepositoryCall.ReleaseLease id now) m).1, answering x' local)
    ∧ mirrors (perform (RepositoryCall.ReleaseLease id now) m).2 x'.
Proof.
  intros Hm. unfold perform, answered. simpl.
  unfold RedisRuntimePolicyRepository.release_runtime_budget_lease,
    RedisRuntimePolicyRepository.release_read, RedisRuntimePolicyRepository.settle.
  rewrite (read_lease_run m) by done. rewrite mark_answering.
  unfold InMemoryPolicyStore.release_runtime_budget_lease, RedisRuntimePolicyRepository.release_write.
  destruct (InMemoryPolicyStore.runtime_budget_leases m !! id) as [l|] eqn:El; cbn [Datatypes.id];
    [|exists x; by split].
  destruct (RuntimeBudgetLeaseRecord.status l !=? "reserved"); [exists x; by split|].
  destruct (write_lease_run m x local (RuntimeBudgetLeaseRecord.with_status "released" now l))
    as (x' & Hw & Hm'); [done|by eapply status_fits; [apply Hm|]|].
  exists x'. unfold RedisRuntimePolicyRepository.settle. rewrite Hw. split; [done|].
  simpl in Hm'. by rewrite (mi_keyed _ _ Hm _ _ El) in Hm'.
Qed.

Lemma decode_payloads leases :
  mapM (λ payload, RedisRuntimePolicyRepository.decode_json payload "runtime budget lease")
    (payload_of <$> leases) = Ok leases.
Proof.
  induction leases as [|l leases IH]; [done|]. rewrite fmap_cons. cbn [mapM].
  assert (RedisRuntimePolicyRepository.decode_json (payload_of l) "runtime budget lease" = Ok l) as ->.
  { unfold RedisRuntimePolicyRepository.decode_json. by rewrite payload_decoded. }
  unfold mbind at 1, result_bind at 1. by rewrite IH.
Qed.

(** The leases of a tenant, in some order. *)
Lemma read_tenant_run m x local tenant :
  mirrors m x →
  ∃ leases,
    RedisRuntimePolicyRepository.read_tenant_budget_leases tenant (answering x local)
    = (Ok leases, answering x local)
    ∧ leases ≡ₚ List.filter (λ l, RuntimeBudgetLeaseRecord.tenant_id l ==? tenant)
                  (map_to_list (InMemoryPolicyStore.runtime_budget_leases m)).*2.
Proof.
  intros Hm. set (wanted := (map_to_list (tenant_leases m tenant)).*2).
  assert (∃ payloads, RedisServer.hvals (tenant_budget_lease_hash_key tenant) x = (Ok payloads, x)
    ∧ payloads ≡ₚ payload_of <$> wanted) as (payloads & Hv & Hp).
  { unfold RedisServer.hvals. destruct (mi_hash _ _ Hm tenant) as [[He Hemp]|He].
    - rewrite (lookup_missing _ _ He). exists []. unfold wanted. by rewrite Hemp, map_to_list_empty.
    - rewrite (lookup_permanent _ _ _ He). eexists. split; [done|]. unfold wanted.
      rewrite map_to_list_fmap, <- !list_fmap_compose. done. }
  apply Permutation_map_inv in Hp as (leases & -> & Hp). exists leases. split.
  - unfold RedisRuntimePolicyRepository.read_tenant_budget_leases, mbind, M_bind,
      RedisRuntimePolicyRepository.call. simpl. rewrite Hv. unfold lift. simpl. f_equal.
    apply decode_payloads.
  - rewrite <- Hp. pose proof (mi_keyed _ _ Hm) as Hk.
    assert (keyed (tenant_leases m tenant)) as Hk'.
    { intros id l [Hl _]%map_lookup_filter_Some. by apply Hk. }
    destruct (keyed_values _ Hk) as [Hnd Hin]. destruct (keyed_values _ Hk') as [Hnd' Hin'].
    apply NoDup_Permutation.
    + by apply NoDup_fmap_1 in Hnd'.
    + apply NoDup_ListNoDup, List.NoDup_filter, NoDup_ListNoDup. by apply NoDup_fmap_1 in Hnd.
    + intros l. unfold wanted. rewrite filter_iff, Hin, Hin', bool_decide_eq_true. unfold tenant_leases.
      by rewrite map_lookup_filter_Some.
Qed.

Lemma leases_simulated m x local tenant :
  mirrors m x →
  perform (RepositoryCall.Leases tenant) (answering x local)
  = ((perform (RepositoryCall.Leases tenant) m).1, answering x local).
Proof.
  intros Hm. unfold perform, answered. simpl.
  unfold RedisRuntimePolicyRepository.runtime_budget_leases_for_tenant, RedisRuntimePolicyRepository.settle.
  destruct (read_tenant_run m x local tenant Hm) as (leases & Hr & Hp). rewrite Hr. simpl.
  unfold InMemoryPolicyStore.runtime_budget_leases_for_tenant.
  rewrite (sort_by_unique _ (TotalCmp0 := by_created_desc_total) leases _ Hp); [done|].
  intros l l' Hl Hl' Hc. destruct (keyed_values _ (mi_keyed _ _ Hm)) as [Hnd _].
  rewrite Hp in Hl, Hl'. apply filter_iff in Hl as [Hl _]. apply filter_iff in Hl' as [Hl' _].
  eapply same_id_same; [exact Hnd|done..|].
  unfold InMemoryPolicyStore.by_created_desc, cmp_then in Hc. case_match; try done.
  by apply string_compare_eq.
Qed.

(** The loop of the expiry, on leases the store has. *)
Definition expiring (now : DateTime) l : bool :=
  (RuntimeBudgetLeaseRecord.status l ==? "reserved")
  && (RuntimeBudgetLeaseRecord.expires_at l <=? now)%Z.

Definition expire_one (now : DateTime) (leases : LeaseMap) l : LeaseMap :=
  if expiring now l
  then <[RuntimeBudgetLeaseRecord.lease_id l
           := RuntimeBudgetLeaseRecord.with_status "expired" now l]> leases
  else leases.

Lemma expire_loop_run now leases m x local :
  mirrors m x → NoDup (RuntimeBudgetLeaseRecord.lease_id <$> leases) →
  (∀ l, l ∈ leases → InMemoryPolicyStore.runtime_budget_leases m
                       !! RuntimeBudgetLeaseRecord.lease_id l = Some l) →
  ∃ x', RedisRuntimePolicyRepository.expire_loop now leases (answering x local)
        = (RuntimeBudgetLeaseRecord.with_status "expired" now <$> List.filter (expiring now) leases,
           answering x' local)
    ∧ mirrors (InMemoryPolicyStore.with_leases (fold_left (expire_one now) leases
                 (InMemoryPolicyStore.runtime_budget_leases m)) m) x'.
Proof.
  revert m x. induction leases as [|l leases IH]; intros m x Hm Hnd Hin.
  { exists x. split; [done|]. by destruct m. }
  rewrite fmap_cons in Hnd. apply NoDup_cons in Hnd as [Hnot Hnd].
  assert (InMemoryPolicyStore.runtime_budget_leases m !! RuntimeBudgetLeaseRecord.lease_id l = Some l)
    as Hl by (apply Hin; by left).
  cbn [RedisRuntimePolicyRepository.expire_loop]. fold (expiring now l). simpl. unfold expire_one at 2.
  destruct (expiring now l) eqn:Ee; [|apply IH; [done..|]; intros l' Hl'; apply Hin; by right].
  destruct (write_lease_run m x local (RuntimeBudgetLeaseRecord.with_status "expired" now l))
    as (x1 & Hw & Hm1); [done|eapply status_fits; [apply Hm|done]|].
  rewrite Hw. destruct (IH _ x1 Hm1 Hnd) as (x' & Hr & Hm').
  { intros l' Hl'. simpl. rewrite lookup_insert_ne; [apply Hin; by right|].
    intros Heq. apply Hnot. rewrite Heq. apply list_elem_of_fmap. by exists l'. }
  exists x'. rewrite Hr. by split.
Qed.

Lemma expire_fold now leases (stored : LeaseMap) :
  NoDup (RuntimeBudgetLeaseRecord.lease_id <$> leases) →
  (∀ l, l ∈ leases → stored !! RuntimeBudgetLeaseRecord.lease_id l = Some l) →
  ∀ id, (fold_left (expire_one now) leases stored) !! id
    = (λ l, if bool_decide (id ∈ RuntimeBudgetLeaseRecord.lease_id <$> leases) && expiring now l
            then RuntimeBudgetLeaseRecord.with_status "expired" now l else l) <$> stored !! id.
Proof.
  revert stored. induction leases as [|l leases IH]; intros stored Hnd Hin id; simpl.
  { by destruct (stored !! id). }
  apply NoDup_cons in Hnd as [Hnot Hnd]. rewrite IH; [|done|]; last first.
  { intros l' Hl'. unfold expire_one. destruct (expiring now l); [|apply Hin; by right].
    rewrite lookup_insert_ne; [apply Hin; by right|]. intros Heq. apply Hnot. rewrite Heq.
    apply list_elem_of_fmap. by exists l'. }
  assert (stored !! RuntimeBudgetLeaseRecord.lease_id l = Some l) as Hl by (apply Hin; by left).
  unfold expire_one. destruct (decide (id = RuntimeBudgetLeaseRecord.lease_id l)) as [->|Hne].
  - rewrite Hl. simpl. rewrite (bool_decide_true (_ ∈ _ :: _)) by (by left). simpl.
    destruct (expiring now l) eqn:Ee; [rewrite lookup_insert_eq|rewrite Hl]; simpl;
      by rewrite bool_decide_false.
  - assert ((if expiring now l then <[RuntimeBudgetLeaseRecord.lease_id l
      := RuntimeBudgetLeaseRecord.with_status "expired" now l]> stored else stored) !! id
      = stored !! id) as -> by (by destruct (expiring now l); rewrite ?lookup_insert_ne).
    destruct (stored !! id) as [l'|]; [|done]. simpl.
    rewrite (bool_decide_ext (id ∈ _ :: _) (id ∈ RuntimeBudgetLeaseRecord.lease_id <$> leases));
      [done|]. rewrite elem_of_cons. naive_solver.
Qed.

Lemma expire_simulated m x local tenant now :
  mirrors m x →
  ∃ x', perform (RepositoryCall.ExpireLeases tenant now) (answering x local)
        = ((perform (RepositoryCall.ExpireLeases tenant now) m).1, answering x' local)
    ∧ mirrors (perform (RepositoryCall.ExpireLeases tenant now) m).2 x'.
Proof.
  intros Hm. destruct (read_tenant_run m x local tenant Hm) as (leases & Hr & Hp).
  destruct (keyed_values _ (mi_keyed _ _ Hm)) as [Hnd Hin].
  set (stored := InMemoryPolicyStore.runtime_budget_leases m) in *.
  set (mine := List.filter (λ l, RuntimeBudgetLeaseRecord.tenant_id l ==? tenant)
    (map_to_list stored).*2) in *.
  assert (∀ l, l ∈ leases ↔ stored !! RuntimeBudgetLeaseRecord.lease_id l = Some l
    ∧ RuntimeBudgetLeaseRecord.tenant_id l = tenant) as Hmem.
  { intros l. rewrite Hp. unfold mine. by rewrite filter_iff, Hin, bool_decide_eq_true. }
  assert (NoDup (RuntimeBudgetLeaseRecord.lease_id <$> leases)) as Hnd'.
  { rewrite Hp. unfold mine. by apply ids_filter. }
  destruct (expire_loop_run now leases m x local Hm Hnd') as (x' & Hrun & Hm').
  { intros l [Hl _]%Hmem. exact Hl. }
  exists x'. unfold perform, answered. simpl.
  unfold RedisRuntimePolicyRepository.expire_runtime_budget_leases. rewrite Hr, mark_answering, Hrun.
  split.
  - unfold InMemoryPolicyStore.expire_runtime_budget_leases. cbn [fst snd]. fold stored.
    rewrite (sort_by_unique _ (TotalCmp0 := by_lease_id_total) _
      (RuntimeBudgetLeaseRecord.with_status "expired" now
         <$> List.filter (InMemoryPolicyStore.expires tenant now) (map_to_list stored).*2)); [done| |].
    + apply fmap_Permutation. rewrite (filter_permutation _ _ _ Hp). unfold mine. rewrite filter_twice.
      rewrite (List.filter_ext _ (InMemoryPolicyStore.expires tenant now)); [done|].
      intros l. unfold expiring, InMemoryPolicyStore.expires. by rewrite andb_assoc.
    + intros y y' (l & -> & Hl)%list_elem_of_fmap (l' & -> & Hl')%list_elem_of_fmap Hc.
      apply filter_iff in Hl as [Hl _]. apply filter_iff in Hl' as [Hl' _].
      apply string_compare_eq in Hc. simpl in Hc. f_equal. by eapply same_id_same.
  - simpl in *. unfold InMemoryPolicyStore.expire_runtime_budget_leases. cbn [fst snd]. fold stored.
    assert (fold_left (expire_one now) leases stored
      = (λ lease, if InMemoryPolicyStore.expires tenant now lease
                  then RuntimeBudgetLeaseRecord.with_status "expired" now lease else lease)
          <$> stored) as <-; [|exact Hm'].
    apply map_eq. intros id. rewrite expire_fold, lookup_fmap; [|done|by intros l [? _]%Hmem].
    destruct (stored !! id) as [l|] eqn:El; [|done]. simpl.
    apply (mi_keyed _ _ Hm) in El as Hid.
    rewrite (bool_decide_ext _ (RuntimeBudgetLeaseRecord.tenant_id l = tenant)).
    + unfold InMemoryPolicyStore.expires, expiring. by rewrite andb_assoc.
    + rewrite list_elem_of_fmap. split.
      * intros (l' & -> & [Hl' Ht]%Hmem). congruence.
      * intros Ht. exists l. split; [done|]. apply Hmem. by rewrite Hid.
Qed.

(** The backend stands for the in-memory store: it answers, its server mirrors the
    store, and its allowances are those of the store. *)
Definition stands_for m (s : RedisRuntimePolicyRepository.t) : Prop :=
  ∃ x local, s = answering x local ∧ mirrors m x
    ∧ InMemoryPolicyStore.hot_state_unavailable m = false
    ∧ InMemoryPolicyStore.runtime_policy_loss_allowances local
      = InMemoryPolicyStore.runtime_policy_loss_allowances m.

(** A connection to an empty server stands for the empty store. *)
Lemma fresh_stands_for config init now s :
  RedisRuntimePolicyRepository.connect config init (RedisServer.mk now ∅) [] = Ok s →
  stands_for InMemoryPolicyStore.empty s.
Proof.
  unfold RedisRuntimePolicyRepository.connect. destruct config; [simpl|done].
  destruct init as [[]|]; [|done..]. intros [= <-].
  exists (RedisServer.mk now ∅), InMemoryPolicyStore.empty. split_and!; [done| |done..].
  split; [done| |done|].
  - intros k _. unfold counter_of, exact_limit. simpl. rewrite lookup_empty. simpl.
    split; [lia|by left].
  - intros t. left. split; [done|]. apply map_filter_empty.
Qed.

Lemma call_simulated call m s :
  stands_for m s → fits m call = true →
  (perform call s).1 = (perform call m).1 ∧ stands_for (perform call m).2 (perform call s).2.
Proof.
  intros (x & local & -> & Hm & Hav & Hal) Hf.
  assert (∀ m', perform call m = ((perform call m).1, m') →
    (∃ x', perform call (answering x local) = ((perform call m).1, answering x' local) ∧ mirrors m' x') →
    InMemoryPolicyStore.hot_state_unavailable m' = false →
    InMemoryPolicyStore.runtime_policy_loss_allowances m'
      = InMemoryPolicyStore.runtime_policy_loss_allowances m →
    (perform call (answering x local)).1 = (perform call m).1
    ∧ stands_for (perform call m).2 (perform call (answering x local)).2) as Hstep.
  { intros m' Heq (x' & Hx & Hm') Hav' Hal'. rewrite Hx, Heq. split; [done|]. simpl.
    exists x', local. split_and!; congruence || done. }
  destruct call as [|k inc limit|k|k delta|k inc limit|k delta|k|record|id now|tenant now|tenant].
  - split; [simpl; by rewrite Hav|]. by exists x, local.
  - apply (Hstep (perform (RepositoryCall.Increment k inc limit) m).2); [done|by apply increment_simulated|done..].
  - apply (Hstep m); [done| |done..]. exists x. split; [|done].
    unfold perform, answered. simpl in *. by rewrite (counter_read_simulated m x).
  - apply (Hstep (perform (RepositoryCall.Adjust k delta) m).2); [done|by apply adjust_simulated|done..].
  - unfold perform, answered. simpl. unfold RedisRuntimePolicyRepository.increment_runtime_policy_loss_allowance_counter,
      RedisRuntimePolicyRepository.on_local. simpl. rewrite Hal. split; [done|].
    eexists x, _. split_and!; [done| |done..]. by destruct Hm.
  - unfold perform, answered. simpl. unfold RedisRuntimePolicyRepository.adjust_runtime_policy_loss_allowance_counter,
      RedisRuntimePolicyRepository.on_local. simpl. rewrite Hal. split; [done|].
    eexists x, _. split_and!; [done| |done..]. by destruct Hm.
  - split; [simpl; by rewrite Hal|]. by exists x, local.
  - apply (Hstep (InMemoryPolicyStore.record_runtime_budget_lease record m).2); [done| |done..].
    destruct (write_lease_run m x local record Hm Hf) as (x' & Hw & Hm'). exists x'. split; [|done].
    unfold perform, answered. simpl. unfold RedisRuntimePolicyRepository.record_runtime_budget_lease,
      RedisRuntimePolicyRepository.settle. by rewrite Hw.
  - apply (Hstep (perform (RepositoryCall.ReleaseLease id now) m).2); [done|by apply release_simulated|..];
      simpl; unfold InMemoryPolicyStore.release_runtime_budget_lease; by repeat case_match.
  - apply (Hstep (perform (RepositoryCall.ExpireLeases tenant now) m).2); [done|by apply expire_simulated|done..].
  - apply (Hstep m); [done| |done..]. exists x. split; [|done]. by apply leases_simulated.
Qed.

(** C31. The two backends are interchangeable: on a connection that answers, any
    sequence of repository calls, increments, reads and adjustments of counters and
    allowances, recording, release, expiry and listing of leases, gets from the Redis
    backend, command by command and script by script, exactly the answers of the
    in-memory store, as long as counters stay between zero and 2^53, where the
    arithmetic of scripts is exact, counter keys are not those of leases, and a lease
    id is not used by two tenants; and the server then still stands for the store. *)
Theorem redis_answers_like_memory calls m s :
  stands_for m s → all_fit m calls = true →
  (perform_all calls s).1 = (perform_all calls m).1
  ∧ stands_for (perform_all calls m).2 (perform_all calls s).2.
Proof.
  revert m s. induction calls as [|call calls IH]; intros m s Hs Hf; [done|].
  simpl in Hf. apply andb_true_iff in Hf as [Hc Hf].
  destruct (call_simulated call m s Hs Hc) as [Ha Hs']. simpl.
  destruct (perform call s) as [a s1], (perform call m) as [a' m1]. simpl in *.
  destruct (IH m1 s1 Hs' Hf) as [Hr Hs2].
  destruct (perform_all calls s1), (perform_all calls m1). simpl in *. by subst.
Qed.
End simulation.

(** ** Commands that fail *)

Section failures.
Context `{RedisScripting} `{SerdeJson RuntimeBudgetLeaseRecord.t}.
Implicit Types (s : RedisRuntimePolicyRepository.t) (x : RedisServer.t).

(** The number the server keeps under a key. *)
Definition stored_number (k : string) x : Z :=
  match RedisServer.lookup k x with Some (RedisValue.Int z, _) => z | _ => 0%Z end.

(** A sequence of increments, each with its key, amount and limit, and the total of
    those on one key that were allowed. *)
Fixpoint admitted_total (k : string) (increments : list (string * Z * Z)) s : Z :=
  match increments with
  | [] => 0%Z
  | (key, inc, limit) :: increments' =>
      let '(decision, s') := increment_runtime_quota_counter key inc limit s in
      ((if (key ==? k) && RuntimeQuotaCounterDecision.allowed decision then inc else 0)
       + admitted_total k increments' s')%Z
  end.

Lemma put_lookup k k' v expiry x :
  RedisServer.alive x expiry = true →
  RedisServer.lookup k' (RedisServer.put k v expiry x)
  = if k' ==? k then Some (v, expiry) else RedisServer.lookup k' x.
Proof.
  intros Ha. unfold RedisServer.lookup, RedisServer.put. simpl. case_bool_decide as Hk.
  - subst. rewrite lookup_insert_eq. unfold RedisServer.alive in *. simpl in *. by rewrite Ha.
  - by rewrite lookup_insert_ne.
Qed.

Lemma incr_by_cases key inc x :
  let '(r, x') := RedisServer.incr_by key inc x in
  (∃ e, r = Err e ∧ x' = x)
  ∨ r = Ok (stored_number key x + inc)%Z ∧ stored_number key x' = (stored_number key x + inc)%Z
    ∧ ∀ k, k ≠ key → stored_number k x' = stored_number k x.
Proof.
  assert (∀ n expiry, RedisServer.alive x expiry = true →
    let x' := RedisServer.put key (RedisValue.Int n) expiry x in
    stored_number key x' = n ∧ ∀ k, k ≠ key → stored_number k x' = stored_number k x) as Hput.
  { intros n expiry Ha x'. unfold stored_number, x'. split.
    - by rewrite put_lookup, bool_decide_true.
    - intros k Hk. by rewrite put_lookup, bool_decide_false. }
  unfold RedisServer.incr_by. destruct (RedisServer.lookup key x) as [[[z|text|h] expiry]|] eqn:E.
  - assert (RedisServer.alive x expiry = true) as Ha.
    { unfold RedisServer.lookup in E. destruct (RedisServer.entries x !! key) as [[v e]|]; [|done].
      destruct (RedisServer.alive x e) eqn:Ha; [|done]. congruence. }
    assert (stored_number key x = z) as -> by (unfold stored_number; by rewrite E).
    destruct (_ && _); [right|left; by eexists]. destruct (Hput (z + inc)%Z expiry Ha). by split_and!.
  - left. by eexists.
  - left. by eexists.
  - assert (stored_number key x = 0%Z) as -> by (unfold stored_number; by rewrite E).
    destruct (_ && _); [right|left; by eexists]. destruct (Hput (0 + inc)%Z None eq_refl). by split_and!.
Qed.

Lemma increment_run k key inc limit s :
  (0 ≤ inc)%Z →
  let x := RedisRuntimePolicyRepository.server s in
  let '(decision, s') := increment_runtime_quota_counter key inc limit s in
  let x' := RedisRuntimePolicyRepository.server s' in
  (stored_number k x ≤ stored_number k x')%Z
  ∧ (key = k → RuntimeQuotaCounterDecision.allowed decision = true →
       stored_number k x' = (stored_number k x + inc)%Z ∧ (stored_number k x' ≤ limit)%Z).
Proof.
  intros Hinc x. simpl. unfold RedisRuntimePolicyRepository.increment_runtime_quota_counter,
    RedisRuntimePolicyRepository.settle, RedisRuntimePolicyRepository.call.
  pose proof (incr_by_cases key inc x) as Hi. fold x.
  destruct (RedisServer.incr_by key inc x) as [r x'].
  assert (stored_number k x ≤ stored_number k x')%Z as Hle.
  { destruct Hi as [(e & _ & ->)|(_ & Hk & Ho)]; [done|].
    destruct (decide (k = key)) as [->|Hne]; [lia|]. rewrite (Ho k Hne). lia. }
  destruct (match RedisRuntimePolicyRepository.deliveries s with [] => _ | _ :: _ => _ end)
    as [[] rest]; simpl; [|by split..].
  destruct Hi as [(e & -> & ->)|(-> & Hk & Ho)]; simpl; [by split|]. split; [done|].
  intros <- Hal%Z.leb_le. lia.
Qed.

(** Increments never over-admit, whatever the connection does: for any sequence
    of non-negative increments on any keys, with commands answered, executed with
    their answer lost, or never sent, the increments allowed on a key of one limit,
    together with what the counter held, stay within the limit. *)
Theorem redis_quota_never_over_admits k limit increments s :
  Forall (λ '(key, inc, l), (0 ≤ inc)%Z ∧ (key = k → l = limit)) increments →
  let total := admitted_total k increments s in
  (0 ≤ total)%Z
  ∧ (total = 0%Z
     ∨ (stored_number k (RedisRuntimePolicyRepository.server s) + total ≤ limit)%Z).
Proof.
  revert s. induction increments as [|[[key inc] l] increments IH]; intros s Hall total.
  { split; [done|by left]. }
  apply Forall_cons in Hall as [[Hinc Hl] Hall]. unfold total. cbn [admitted_total].
  pose proof (increment_run k key inc l s Hinc) as Hstep. simpl in Hstep.
  destruct (increment_runtime_quota_counter key inc l s) as [decision s'] eqn:E.
  simpl in E. rewrite E in Hstep. destruct Hstep as [Hle Hallow]. destruct (IH s' Hall) as [Hpos Hcase].
  case_bool_decide as Hk; simpl; [|by split; [lia|]; destruct Hcase; [left|right]; lia].
  destruct (RuntimeQuotaCounterDecision.allowed decision);
    [|by split; [lia|]; destruct Hcase; [left|right]; lia].
  destruct (Hallow Hk eq_refl) as [Heq Hlim]. rewrite (Hl Hk) in Hlim.
  split; [lia|]. right. destruct Hcase; lia.
Qed.
End failures.

(** ** Route hot state *)

Section hot_state.
Context {T : Type} `{SerdeJson T} `{!SerdeJsonLaws T}.
Implicit Types (s : RedisRuntimePolicyRepository.t) (record : T).

(** Time passes on the server. *)
Definition later (now : DateTime) s : RedisRuntimePolicyRepository.t :=
  RedisRuntimePolicyRepository.set_server
    (RedisServer.mk now (RedisServer.entries (RedisRuntimePolicyRepository.server s))) s.

(** What a record that was written reads as, on a connection that answers. *)
Lemma write_then_read x local key record now expires_at label now' ttl :
  RedisRuntimePolicyRepository.ttl_until now expires_at = Some ttl →
  ∃ s', RedisRuntimePolicyRepository.write_expiring_json now key record expires_at label
          (answering x local) = (Ok tt, s')
    ∧ (RedisRuntimePolicyRepository.read_json key label
         (later now' (RedisRuntimePolicyRepository.mark_available s'))).1
      = Ok (if (now' <? RedisServer.now x + duration_seconds ttl)%Z then Some record else None).
Proof.
  intros Httl. unfold RedisRuntimePolicyRepository.write_expiring_json. rewrite Httl.
  destruct (to_string_ok record) as [text Ht].
  unfold RedisRuntimePolicyRepository.encode_json. rewrite Ht.
  unfold mbind, M_bind, lift, RedisRuntimePolicyRepository.call. simpl.
  eexists. split; [reflexivity|].
  unfold RedisRuntimePolicyRepository.read_json, mbind, M_bind, RedisRuntimePolicyRepository.call. simpl.
  unfold RedisServer.get, RedisServer.lookup. simpl. rewrite lookup_insert_eq. simpl.
  destruct (now' <? _)%Z; [|done]. simpl. unfold RedisRuntimePolicyRepository.decode_json, lift.
  by rewrite (from_to_str record text Ht).
Qed.
End hot_state.

Section drains.
Context `{SerdeJson EndpointDrainRecord.t} `{!SerdeJsonLaws EndpointDrainRecord.t}.

Lemma ttl_bounds now expires_at ttl :
  RedisRuntimePolicyRepository.ttl_until now expires_at = Some ttl →
  (now + duration_seconds ttl ≤ expires_at < now + duration_seconds (ttl + 1))%Z.
Proof.
  unfold RedisRuntimePolicyRepository.ttl_until, num_seconds, duration_seconds.
  case_match eqn:E; [|done]. intros [= <-]. apply Z.ltb_lt in E.
  pose proof (Z.quot_rem' (expires_at - now) 1000000000) as Hq.
  destruct (decide (0 ≤ expires_at - now)%Z) as [Hpos|Hneg].
  - pose proof (Z.rem_bound_pos (expires_at - now) 1000000000 Hpos eq_refl). lia.
  - exfalso. pose proof (Z.rem_bound_pos_neg (expires_at - now) 1000000000). lia.
Qed.

Lemma ttl_some now expires_at :
  (now + duration_seconds 1 ≤ expires_at)%Z →
  is_Some (RedisRuntimePolicyRepository.ttl_until now expires_at).
Proof.
  unfold RedisRuntimePolicyRepository.ttl_until, num_seconds, duration_seconds. intros Hle.
  assert (1 ≤ Z.quot (expires_at - now) 1000000000)%Z as Hq
    by (apply Z.quot_le_lower_bound; lia).
  rewrite (proj2 (Z.ltb_lt _ _)) by lia. by eexists.
Qed.

(** A drain holds in Redis to the second: written a second or more before it
    expires, on a connection that answers and with clocks that agree, a drain is
    honoured for its configuration version until at least one second before its
    expiry, at no time for another version, and never from its expiry on. *)
Theorem redis_drain_honoured x local record cv later_now :
  let now := RedisServer.now x in
  (now + duration_seconds 1 ≤ EndpointDrainRecord.expires_at record)%Z →
  let drained :=
    (RedisRuntimePolicyRepository.endpoint_is_drained (EndpointDrainRecord.tenant_id record)
       (EndpointDrainRecord.provider_endpoint_id record) cv later_now
       (later later_now
          (RedisRuntimePolicyRepository.set_endpoint_drain now record (answering x local)).2)).1 in
  (drained = true → cv = Some (EndpointDrainRecord.config_version record)
     ∧ (later_now < EndpointDrainRecord.expires_at record)%Z)
  ∧ (cv = Some (EndpointDrainRecord.config_version record) →
     (later_now + duration_seconds 1 ≤ EndpointDrainRecord.expires_at record)%Z → drained = true).
Proof.
  intros now Hexp. apply ttl_some in Hexp as [ttl Httl]. apply ttl_bounds in Httl as Hb.
  destruct (write_then_read x local
    (endpoint_drain_key (EndpointDrainRecord.tenant_id record)
       (EndpointDrainRecord.provider_endpoint_id record)) record now
    (EndpointDrainRecord.expires_at record) "endpoint drain hot state" later_now ttl Httl)
    as (s' & Hw & Hr).
  unfold RedisRuntimePolicyRepository.set_endpoint_drain,
    RedisRuntimePolicyRepository.endpoint_is_drained, RedisRuntimePolicyRepository.settle.
  rewrite Hw. cbn [snd].
  destruct (RedisRuntimePolicyRepository.read_json _ _ _) as [r s2]. cbn [fst] in Hr. subst r.
  fold now. unfold duration_seconds in *. destruct (Z.ltb_spec later_now (now + ttl * 1000000000)); simpl.
  - unfold EndpointDrainRecord.is_fresh_for. rewrite fresh_for_iff. split; [done|]. intros -> Hle.
    split; [done|lia].
  - split; [done|]. intros _ Hle. lia.
Qed.
End drains.
