(* ===== verification/Reconciler.v ===== *)
(** * The runtime policy reconciler

    [run_runtime_policy_reconciler_once] of [service.rs]: expire the budget
    leases of a tenant, give their units back, and raise quota counters that
    fell behind the durable usage evidence; every repair leaves an audit
    event. *)

From S2P Require Import Prelude Order Domain Routing Json Usage Pricing PolicyStore.
From S2P Require Import RuntimePolicy PolicyFacts.

(** ** Records *)

Module AuditEventRecord.
Record t {V : Type} : Type := mk {
  audit_event_id : string;
  event_type : string;
  tenant_id : string;
  organization_id : option string;
  project_id : option string;
  scope_kind : string;
  scope_id : string;
  resource_kind : string;
  resource_id : string;
  before_version : option Z;
  after_version : option Z;
  actor_id : string;
  actor_kind : ActorKind.t;
  principal_id : option string;
  request_id : string;
  trace_id : string;
  redacted_diff : V;
  occurred_at : DateTime;
}.
Arguments t V : clear implicits.
Arguments mk {V}.
End AuditEventRecord.

Module RuntimePolicyReconciliationSummary.
Record t : Set := mk {
  tenant_id : string;
  worker_id : string;
  hot_state_available : bool;
  considered_budget_policy_count : Z;
  expired_budget_lease_count : Z;
  expired_budget_lease_total : Z;
  considered_quota_policy_count : Z;
  repairable_quota_policy_count : Z;
  repaired_counter_count : Z;
  audit_event_count : Z;
  repaired_delta_total : Z;
}.

Definition start (tenant_id worker_id : string) (hot_state_available : bool) : t :=
  mk tenant_id worker_id hot_state_available 0 0 0 0 0 0 0 0.

(** The updates of the loop bodies. *)
Definition with_budget_count (n : Z) (x : t) : t :=
  mk (tenant_id x) (worker_id x) (hot_state_available x) n (expired_budget_lease_count x)
    (expired_budget_lease_total x) (considered_quota_policy_count x)
    (repairable_quota_policy_count x) (repaired_counter_count x) (audit_event_count x)
    (repaired_delta_total x).
Definition lease_expired (amount : Z) (x : t) : t :=
  mk (tenant_id x) (worker_id x) (hot_state_available x) (considered_budget_policy_count x)
    (expired_budget_lease_count x + 1) (saturating_add (expired_budget_lease_total x) amount)
    (considered_quota_policy_count x) (repairable_quota_policy_count x)
    (repaired_counter_count x) (audit_event_count x + 1) (repaired_delta_total x).
Definition considered (x : t) : t :=
  mk (tenant_id x) (worker_id x) (hot_state_available x) (considered_budget_policy_count x)
    (expired_budget_lease_count x) (expired_budget_lease_total x)
    (considered_quota_policy_count x + 1) (repairable_quota_policy_count x)
    (repaired_counter_count x) (audit_event_count x) (repaired_delta_total x).
Definition repairable (x : t) : t :=
  mk (tenant_id x) (worker_id x) (hot_state_available x) (considered_budget_policy_count x)
    (expired_budget_lease_count x) (expired_budget_lease_total x)
    (considered_quota_policy_count x) (repairable_quota_policy_count x + 1)
    (repaired_counter_count x) (audit_event_count x) (repaired_delta_total x).
Definition repaired (delta : Z) (x : t) : t :=
  mk (tenant_id x) (worker_id x) (hot_state_available x) (considered_budget_policy_count x)
    (expired_budget_lease_count x) (expired_budget_lease_total x)
    (considered_quota_policy_count x) (repairable_quota_policy_count x)
    (repaired_counter_count x + 1) (audit_event_count x + 1)
    (saturating_add (repaired_delta_total x) delta).
End RuntimePolicyReconciliationSummary.

(** ** Durable usage of a quota *)

Section durable.
Context {V : Type} `{JsonLibrary V}.

Definition runtime_quota_policy_has_durable_repair_source (policy : QuotaPolicyRecord.t) : bool :=
  (quota_is policy "token_actual_rate" "terminal_usage_event"
   || quota_is policy "stream_duration" "stream_start")
  && ((QuotaPolicyRecord.window policy ==? "fixed")
      || (QuotaPolicyRecord.window policy ==? "sliding")
      || (QuotaPolicyRecord.window policy ==? "ledger_bucket")).

Definition durable_stream_duration_seconds (event : UsageEventRecord.t V) : Z :=
  match UsageEventRecord.time_to_first_token_ms event with
  | None => 0%Z
  | Some _ => Z.max (default 0%Z (UsageEventRecord.latency_ms event) / 1000)%Z 1
  end.

Definition runtime_quota_durable_usage_event_value (policy : QuotaPolicyRecord.t)
    (event : UsageEventRecord.t V) : Z :=
  if QuotaPolicyRecord.counter_kind policy ==? "token_actual_rate"
  then terminal_usage_token_count (UsageEventRecord.usage_payload event)
  else if QuotaPolicyRecord.counter_kind policy ==? "stream_duration"
  then durable_stream_duration_seconds event
  else 0%Z.

Definition runtime_quota_usage_event_matches_policy (policy : QuotaPolicyRecord.t)
    (event : UsageEventRecord.t V) : bool :=
  let kind := QuotaPolicyRecord.scope_kind policy in
  let id := QuotaPolicyRecord.scope_id policy in
  if kind ==? "tenant" then UsageEventRecord.tenant_id event ==? id
  else if kind ==? "organization" then UsageEventRecord.organization_id event ==? Some id
  else if kind ==? "project" then UsageEventRecord.project_id event ==? Some id
  else if kind ==? "credential" then UsageEventRecord.upstream_credential_id event ==? Some id
  else if kind ==? "alias" then UsageEventRecord.model_alias_id event ==? Some id
  else if kind ==? "endpoint" then UsageEventRecord.provider_endpoint_id event ==? Some id
  else if kind ==? "protocol_family" then
    ProtocolFamily.as_str (UsageEventRecord.protocol_family event) ==? id
  else false.

Definition runtime_quota_usage_event_matches_window (policy : QuotaPolicyRecord.t)
    (event : UsageEventRecord.t V) (now : DateTime) : bool :=
  let window := QuotaPolicyRecord.window policy in
  if (window ==? "fixed") || (window ==? "sliding") then
    (timestamp (UsageEventRecord.occurred_at event) / 60 =? timestamp now / 60)%Z
  else window ==? "ledger_bucket".

Definition runtime_quota_durable_usage_value_for_policy (policy : QuotaPolicyRecord.t)
    (usage_events : list (UsageEventRecord.t V)) (now : DateTime) : Z :=
  sum_i64 (runtime_quota_durable_usage_event_value policy <$>
    List.filter (λ event,
      (UsageEventRecord.status event ==? "success")
      && runtime_quota_usage_event_matches_policy policy event
      && runtime_quota_usage_event_matches_window policy event now) usage_events).

(** ** Audit events *)

Definition redaction_document : V :=
  json_obj [("raw_hot_state_key_included", json_bool false);
    ("request_body_included", json_bool false); ("provider_body_included", json_bool false);
    ("secret_material_included", json_bool false)].

Definition record_runtime_budget_lease_expiry_audit (uuid : string)
    (policy : option BudgetPolicyRecord.t) (lease : RuntimeBudgetLeaseRecord.t)
    (worker_id : string) (previous_value repaired_value : Z) (now : DateTime)
    : AuditEventRecord.t V :=
  AuditEventRecord.mk (new_prefixed_id "aud" uuid) "gateway.runtime_policy.budget_lease_expired"
    (RuntimeBudgetLeaseRecord.tenant_id lease) (policy ≫= BudgetPolicyRecord.organization_id)
    (policy ≫= BudgetPolicyRecord.project_id)
    (match policy with None => "tenant" | Some p => BudgetPolicyRecord.scope_kind p end)
    (match policy with
     | None => RuntimeBudgetLeaseRecord.tenant_id lease
     | Some p => BudgetPolicyRecord.scope_id p
     end)
    "BudgetPolicy" (RuntimeBudgetLeaseRecord.budget_policy_id lease) None None worker_id
    ActorKind.System None ("req_runtime_policy_reconcile_" +:+ worker_id)
    ("tr_runtime_policy_reconcile_" +:+ worker_id)
    (json_obj [("schema", json_str "gateway.runtime_policy.budget_lease_expiry.v1");
      ("repair_action", json_str "expire_budget_lease");
      ("source", json_str "runtime_budget_lease_ttl");
      ("key_class", json_str "runtime_budget_reservation_counter");
      ("lease", json_obj [("lease_id", json_str (RuntimeBudgetLeaseRecord.lease_id lease));
        ("budget_policy_id", json_str (RuntimeBudgetLeaseRecord.budget_policy_id lease));
        ("request_id", json_str (RuntimeBudgetLeaseRecord.request_id lease));
        ("amount", json_int (RuntimeBudgetLeaseRecord.amount lease));
        ("status", json_obj [("before", json_str "reserved"); ("after", json_str "expired")]);
        ("expires_at", json_datetime (RuntimeBudgetLeaseRecord.expires_at lease))]);
      ("previous_counter_value", json_int previous_value);
      ("repaired_counter_value", json_int repaired_value);
      ("delta", json_int (saturating_sub repaired_value previous_value));
      ("redaction", redaction_document)]) now.

Definition record_runtime_policy_reconciliation_audit (uuid : string)
    (policy : QuotaPolicyRecord.t) (worker_id : string)
    (previous_value repaired_value delta : Z) (now : DateTime) : AuditEventRecord.t V :=
  AuditEventRecord.mk (new_prefixed_id "aud" uuid) "gateway.runtime_policy.reconciliation_repair"
    (QuotaPolicyRecord.tenant_id policy) (QuotaPolicyRecord.organization_id policy)
    (QuotaPolicyRecord.project_id policy) (QuotaPolicyRecord.scope_kind policy)
    (QuotaPolicyRecord.scope_id policy) "QuotaPolicy" (QuotaPolicyRecord.quota_policy_id policy)
    None None worker_id ActorKind.System None ("req_runtime_policy_reconcile_" +:+ worker_id)
    ("tr_runtime_policy_reconcile_" +:+ worker_id)
    (json_obj [("schema", json_str "gateway.runtime_policy.reconciliation_repair.v1");
      ("repair_action", json_str "increase_hot_counter");
      ("source", json_str "durable_usage_events");
      ("key_class", json_str "runtime_policy_counter");
      ("policy", json_obj [("quota_policy_id", json_str (QuotaPolicyRecord.quota_policy_id policy));
        ("scope_kind", json_str (QuotaPolicyRecord.scope_kind policy));
        ("scope_id", json_str (QuotaPolicyRecord.scope_id policy));
        ("counter_kind", json_str (QuotaPolicyRecord.counter_kind policy));
        ("window", json_str (QuotaPolicyRecord.window policy));
        ("increment_source", json_str (QuotaPolicyRecord.increment_source policy))]);
      ("previous_value", json_int previous_value);
      ("repaired_value", json_int repaired_value); ("delta", json_int delta);
      ("redaction", redaction_document)]) now.
End durable.

(** ** The tick *)

Section reconcile.
Context {V : Type} `{JsonLibrary V} `{ChronoCalendar} {S : Type} `{RuntimePolicyRepository S}.

(** The store, the summary and the audit log, threaded through the loops. *)
Record Tick : Type := mk_tick {
  tick_store : S;
  tick_summary : RuntimePolicyReconciliationSummary.t;
  tick_audit : list (AuditEventRecord.t V);
}.

(** One expired lease. *)
Definition expire_lease_tick (budget_policies : list BudgetPolicyRecord.t)
    (worker_id : string) (now : DateTime) (uuid : nat → string) (t : Tick)
    (lease : RuntimeBudgetLeaseRecord.t) : Tick :=
  let '(previous_value, s) :=
    runtime_policy_counter (RuntimeBudgetLeaseRecord.counter_key lease) (tick_store t) in
  let '(repaired_value, s) :=
    adjust_runtime_policy_counter (RuntimeBudgetLeaseRecord.counter_key lease)
      (wrap_i64 (- RuntimeBudgetLeaseRecord.amount lease)) s in
  let policy := List.find (λ policy, BudgetPolicyRecord.budget_policy_id policy
                             ==? RuntimeBudgetLeaseRecord.budget_policy_id lease) budget_policies in
  mk_tick s
    (RuntimePolicyReconciliationSummary.lease_expired (RuntimeBudgetLeaseRecord.amount lease)
       (tick_summary t))
    (tick_audit t ++ [record_runtime_budget_lease_expiry_audit (uuid (length (tick_audit t)))
                        policy lease worker_id previous_value repaired_value now]).

(** One quota policy. *)
Definition quota_policy_tick (usage_events : list (UsageEventRecord.t V)) (worker_id : string)
    (now : DateTime) (uuid : nat → string) (t : Tick) (policy : QuotaPolicyRecord.t) : Tick :=
  if QuotaPolicyRecord.status policy !=? ResourceStatus.Active then t
  else
    let x := RuntimePolicyReconciliationSummary.considered (tick_summary t) in
    if negb (runtime_quota_policy_has_durable_repair_source policy)
    then mk_tick (tick_store t) x (tick_audit t)
    else
      let x := RuntimePolicyReconciliationSummary.repairable x in
      let durable_value := runtime_quota_durable_usage_value_for_policy policy usage_events now in
      if (durable_value <=? 0)%Z then mk_tick (tick_store t) x (tick_audit t)
      else
        let counter_key := runtime_quota_counter_key policy now in
        let '(current_value, s) := runtime_policy_counter counter_key (tick_store t) in
        if (durable_value <=? current_value)%Z then mk_tick s x (tick_audit t)
        else
          let delta := saturating_sub durable_value current_value in
          let '(_, s) := adjust_runtime_policy_counter counter_key delta s in
          mk_tick s (RuntimePolicyReconciliationSummary.repaired delta x)
            (tick_audit t ++ [record_runtime_policy_reconciliation_audit
               (uuid (length (tick_audit t))) policy worker_id current_value durable_value
               delta now]).

Definition run_runtime_policy_reconciler_once (data : PolicyData.t V) (uuid : nat → string)
    (tenant_id worker_id : string) (now : DateTime) (s : S) : Tick :=
  let hot_state_available := runtime_policy_hot_state_available s in
  let x := RuntimePolicyReconciliationSummary.start tenant_id worker_id hot_state_available in
  if negb hot_state_available then mk_tick s x []
  else
    let budget_policies := budget_policies_for_tenant (PolicyData.budget_policies data) tenant_id in
    let x := RuntimePolicyReconciliationSummary.with_budget_count
      (Z.of_nat (length (List.filter runtime_budget_policy_is_preflight_enforced budget_policies))) x in
    let '(leases, s) := expire_runtime_budget_leases tenant_id now s in
    let t := fold_left (expire_lease_tick budget_policies worker_id now uuid) leases
               (mk_tick s x []) in
    let usage_events := usage_events_for_tenant (PolicyData.usage data) tenant_id in
    fold_left (quota_policy_tick usage_events worker_id now uuid)
      (quota_policies_for_tenant (PolicyData.quota_policies data) tenant_id) t.
End reconcile.

(** ** What a tick does to the counters *)

(** The units that leases hold on a counter. *)
Definition lease_units (k : string) (leases : list RuntimeBudgetLeaseRecord.t) : Z :=
  total (λ l, if RuntimeBudgetLeaseRecord.counter_key l ==? k
              then RuntimeBudgetLeaseRecord.amount l else 0%Z) leases.

Lemma lease_units_cons k l leases :
  lease_units k (l :: leases)
    = ((if RuntimeBudgetLeaseRecord.counter_key l ==? k
        then RuntimeBudgetLeaseRecord.amount l else 0) + lease_units k leases)%Z.
Proof. done. Qed.

Lemma lease_units_nonneg k leases :
  (∀ l, l ∈ leases → 0 ≤ RuntimeBudgetLeaseRecord.amount l)%Z → (0 ≤ lease_units k leases)%Z.
Proof.
  induction leases as [|l leases IH]; intros Ha; [unfold lease_units; simpl; lia|].
  rewrite lease_units_cons. assert (0 ≤ RuntimeBudgetLeaseRecord.amount l)%Z by (apply Ha; set_solver).
  assert (0 ≤ lease_units k leases)%Z by (apply IH; set_solver). case_bool_decide; lia.
Qed.

Section targets.
Context {V : Type} `{JsonLibrary V}.
Context (usage_events : list (UsageEventRecord.t V)) (now : DateTime).

(** The durable usage a policy proves of a counter, zero when it proves none. *)
Definition proven_usage (k : string) (policy : QuotaPolicyRecord.t) : Z :=
  if (QuotaPolicyRecord.status policy ==? ResourceStatus.Active)
     && runtime_quota_policy_has_durable_repair_source policy
     && (runtime_quota_counter_key policy now ==? k)
  then runtime_quota_durable_usage_value_for_policy policy usage_events now else 0%Z.

(** A counter raised to the largest usage proven of it. *)
Definition raised (k : string) (n : Z) (policies : list QuotaPolicyRecord.t) : Z :=
  fold_left (λ m policy, Z.max m (proven_usage k policy)) policies n.

Lemma raised_ge k n policies : (n ≤ raised k n policies)%Z.
Proof.
  unfold raised. revert n. induction policies as [|p ps IH]; intros n; simpl; [lia|].
  specialize (IH (Z.max n (proven_usage k p))). lia.
Qed.

Lemma raised_proven k n policies p :
  p ∈ policies → (proven_usage k p ≤ raised k n policies)%Z.
Proof.
  unfold raised. revert n. induction policies as [|q qs IH]; intros n; [set_solver|].
  intros [->|Hp]%elem_of_cons; simpl; [|by apply IH].
  pose proof (raised_ge k (Z.max n (proven_usage k q)) qs). unfold raised in *. lia.
Qed.

(** A counter that already covers every proven usage stays. *)
Lemma raised_id k n policies :
  (∀ p, p ∈ policies → proven_usage k p ≤ n)%Z → raised k n policies = n.
Proof.
  unfold raised. induction policies as [|q qs IH]; intros Hle; simpl; [done|].
  rewrite Z.max_l by (apply Hle; set_solver). apply IH. set_solver.
Qed.

Lemma sum_i64_in l : in_i64 (sum_i64 l).
Proof.
  unfold sum_i64. assert (in_i64 0%Z) as H0 by (unfold in_i64, i64_min, i64_max; lia).
  revert H0. generalize 0%Z. induction l as [|x l IH]; simpl; [done|]. intros. apply IH; auto with gw.
Qed.

Lemma proven_usage_in k p : in_i64 (proven_usage k p).
Proof.
  unfold proven_usage. destruct (_ && _); [apply sum_i64_in|unfold in_i64, i64_min, i64_max; lia].
Qed.
End targets.

Section tick_facts.
Context {V : Type} `{JsonLibrary V} `{ChronoCalendar} {S : Type} `{RuntimePolicyRepository S}
  `{!PolicyRepositoryLaws S}.
Context (worker_id : string) (now : DateTime) (uuid : nat → string).

(** Same store up to the counters. *)
Definition only_counters (s s' : S) : Prop :=
  PolicyView.available (view s') = PolicyView.available (view s) ∧
  (∀ k, PolicyView.allowance (view s') k = PolicyView.allowance (view s) k) ∧
  (∀ id, PolicyView.lease (view s') id = PolicyView.lease (view s) id).

#[local] Instance only_counters_preorder : PreOrder only_counters.
Proof.
  split; [intros s; split_and!; done|]. intros a b c (? & Ha & Hl) (? & Ha' & Hl').
  split_and!; [congruence|..]; intros; [by rewrite Ha'|by rewrite Hl'].
Qed.

Definition counters_ok (s : S) : Prop :=
  ∀ k, (0 ≤ PolicyView.counter (view s) k ≤ i64_max)%Z.

Lemma adjust_only_counters k d s : only_counters s (adjust_runtime_policy_counter k d s).2.
Proof. destruct (adjust_law k d s) as (_ & ? & _ & ? & ?). split_and!; done. Qed.

Lemma adjust_counter k d s k' :
  PolicyView.counter (view (adjust_runtime_policy_counter k d s).2) k' =
  if k' ==? k then adjusted (PolicyView.counter (view s) k) d else PolicyView.counter (view s) k'.
Proof. destruct (adjust_law k d s) as (_ & _ & Hc & _). apply Hc. Qed.

Lemma adjusted_ok n d : (0 ≤ adjusted n d ≤ i64_max)%Z.
Proof. unfold adjusted, saturating_add, clamp_i64, i64_min, i64_max. lia. Qed.

Lemma adjust_counters_ok k d s :
  counters_ok s → counters_ok (adjust_runtime_policy_counter k d s).2.
Proof.
  intros Hok k'. rewrite adjust_counter. case_bool_decide; [apply adjusted_ok|apply Hok].
Qed.

(** The lease loop: every lease is given back, down to zero. *)
Lemma lease_loop_counters policies leases (t : Tick (V := V) (S := S)) :
  counters_ok (tick_store t) →
  (∀ l, l ∈ leases → 0 ≤ RuntimeBudgetLeaseRecord.amount l ≤ i64_max)%Z →
  let t' := fold_left (expire_lease_tick policies worker_id now uuid) leases t in
  only_counters (tick_store t) (tick_store t') ∧ counters_ok (tick_store t') ∧
  ∀ k, PolicyView.counter (view (tick_store t')) k
       = Z.max 0 (PolicyView.counter (view (tick_store t)) k - lease_units k leases).
Proof.
  revert t. induction leases as [|l ls IH]; intros t Hok Ham; cbn [fold_left].
  { split_and!; [reflexivity|done|]. intros k. specialize (Hok k). unfold lease_units. simpl. lia. }
  set (t1 := expire_lease_tick policies worker_id now uuid t l).
  assert (tick_store t1 = (adjust_runtime_policy_counter (RuntimeBudgetLeaseRecord.counter_key l)
    (wrap_i64 (- RuntimeBudgetLeaseRecord.amount l)) (tick_store t)).2) as Ht1.
  { unfold t1, expire_lease_tick. rewrite counter_law. by destruct (adjust_runtime_policy_counter _ _ _). }
  destruct (IH t1) as (Ho & Hk & Hc); [rewrite Ht1; by apply adjust_counters_ok|set_solver|].
  split_and!; [|done|].
  { etrans; [|exact Ho]. rewrite Ht1. apply adjust_only_counters. }
  intros k. rewrite Hc, Ht1, adjust_counter.
  assert (0 ≤ RuntimeBudgetLeaseRecord.amount l ≤ i64_max)%Z by (apply Ham; set_solver).
  pose proof (lease_units_nonneg k ls) as Hpos. rewrite lease_units_cons.
  specialize (Hok k). rewrite wrap_i64_id by (unfold in_i64, i64_min, i64_max in *; lia).
  lapply Hpos; [clear Hpos; intros Hpos|intros x Hx; apply Ham; set_solver].
  repeat case_bool_decide; simplify_eq; [|lia].
  unfold adjusted, saturating_add, clamp_i64, i64_min, i64_max in *. lia.
Qed.

(** One quota policy raises its counter to the usage it proves. *)
Lemma quota_tick_counters usage_events p (t : Tick (V := V) (S := S)) :
  counters_ok (tick_store t) →
  let t' := quota_policy_tick usage_events worker_id now uuid t p in
  only_counters (tick_store t) (tick_store t') ∧ counters_ok (tick_store t') ∧
  ∀ k, PolicyView.counter (view (tick_store t')) k
       = Z.max (PolicyView.counter (view (tick_store t)) k) (proven_usage usage_events now k p).
Proof.
  intros Hok t'.
  assert (tick_store t' = tick_store t →
    (∀ k, proven_usage usage_events now k p ≤ PolicyView.counter (view (tick_store t)) k)%Z →
    only_counters (tick_store t) (tick_store t') ∧ counters_ok (tick_store t') ∧
    ∀ k, PolicyView.counter (view (tick_store t')) k
       = Z.max (PolicyView.counter (view (tick_store t)) k) (proven_usage usage_events now k p)) as Hsame.
  { intros -> Hle. split_and!; [reflexivity|done|]. intros k. specialize (Hle k). lia. }
  pose proof (λ k, proven_usage_in usage_events now k p) as Hin.
  unfold t', quota_policy_tick, proven_usage in *.
  destruct (QuotaPolicyRecord.status p ==? ResourceStatus.Active); cbn [negb andb] in *;
    [|apply Hsame; [done|intros; apply Hok]].
  destruct (runtime_quota_policy_has_durable_repair_source p); cbn [negb andb] in *;
    [|apply Hsame; [done|intros; apply Hok]].
  set (d := runtime_quota_durable_usage_value_for_policy p usage_events now) in *.
  set (key := runtime_quota_counter_key p now) in *. clearbody d key.
  rewrite counter_law in *. specialize (Hin key). rewrite bool_decide_true in Hin by done.
  destruct (Z.leb_spec d 0).
  { apply Hsame; [done|]. intros k. specialize (Hok k). case_bool_decide; lia. }
  destruct (Z.leb_spec d (PolicyView.counter (view (tick_store t)) key)).
  { apply Hsame; [done|]. intros k. specialize (Hok k). case_bool_decide; subst; lia. }
  clear Hsame. set (delta := saturating_sub d _).
  pose proof (adjust_counter key delta (tick_store t)) as Hadj.
  pose proof (adjust_only_counters key delta (tick_store t)) as Honly.
  pose proof (adjust_counters_ok key delta (tick_store t) Hok) as Hok'.
  destruct (adjust_runtime_policy_counter key delta (tick_store t)) as [n s1]. simpl in *.
  split_and!; [done..|]. intros k. rewrite Hadj. pose proof (Hok k). specialize (Hok key).
  repeat case_bool_decide; simplify_eq; subst delta;
    unfold adjusted, saturating_add, saturating_sub, clamp_i64, in_i64, i64_min, i64_max in *; lia.
Qed.

(** The quota loop: every counter is raised to the usage proven of it. *)
Lemma quota_loop_counters usage_events policies (t : Tick (V := V) (S := S)) :
  counters_ok (tick_store t) →
  let t' := fold_left (quota_policy_tick usage_events worker_id now uuid) policies t in
  only_counters (tick_store t) (tick_store t') ∧ counters_ok (tick_store t') ∧
  ∀ k, PolicyView.counter (view (tick_store t')) k
       = raised usage_events now k (PolicyView.counter (view (tick_store t)) k) policies.
Proof.
  revert t. induction policies as [|p ps IH]; intros t Hok; simpl; [split_and!; done|].
  destruct (quota_tick_counters usage_events p t Hok) as (Ho1 & Hk1 & Hc1).
  destruct (IH _ Hk1) as (Ho & Hk & Hc). split_and!; [by etrans|done|].
  intros k. by rewrite Hc, Hc1.
Qed.

(** When every proven usage is already counted the quota loop only counts
    policies: no repair, no audit event. *)
Lemma quota_loop_quiet usage_events policies (t : Tick (V := V) (S := S)) :
  (∀ k p, p ∈ policies → proven_usage usage_events now k p
                         ≤ PolicyView.counter (view (tick_store t)) k)%Z →
  let t' := fold_left (quota_policy_tick usage_events worker_id now uuid) policies t in
  tick_store t' = tick_store t ∧ tick_audit t' = tick_audit t ∧
  RuntimePolicyReconciliationSummary.repaired_counter_count (tick_summary t')
    = RuntimePolicyReconciliationSummary.repaired_counter_count (tick_summary t) ∧
  RuntimePolicyReconciliationSummary.expired_budget_lease_count (tick_summary t')
    = RuntimePolicyReconciliationSummary.expired_budget_lease_count (tick_summary t).
Proof.
  revert t. induction policies as [|p ps IH]; intros t Hle; simpl; [split_and!; done|].
  set (t1 := quota_policy_tick usage_events worker_id now uuid t p).
  assert (tick_store t1 = tick_store t ∧ tick_audit t1 = tick_audit t ∧
    RuntimePolicyReconciliationSummary.repaired_counter_count (tick_summary t1)
      = RuntimePolicyReconciliationSummary.repaired_counter_count (tick_summary t) ∧
    RuntimePolicyReconciliationSummary.expired_budget_lease_count (tick_summary t1)
      = RuntimePolicyReconciliationSummary.expired_budget_lease_count (tick_summary t))
    as (E1 & E2 & E3 & E4).
  { pose proof (Hle (runtime_quota_counter_key p now) p) as Hp.
    lapply Hp; [clear Hp; intros Hp|set_solver].
    unfold t1, quota_policy_tick, proven_usage in *. rewrite (bool_decide_true (runtime_quota_counter_key p now = _)) in Hp by done.
    destruct (_ ==? _); cbn [negb andb] in *; [|split_and!; done].
    destruct (runtime_quota_policy_has_durable_repair_source p); cbn [negb andb] in *;
      [|split_and!; done].
    destruct (_ <=? 0)%Z; [split_and!; done|]. rewrite counter_law.
    apply Z.leb_le in Hp. rewrite Hp. split_and!; done. }
  destruct (IH t1) as (F1 & F2 & F3 & F4); [rewrite E1; set_solver|].
  split_and!; congruence.
Qed.

(** [e] leases expired and [r] counters repaired between two states of the
    tick, each with one audit event. *)
Definition audited (t t' : Tick (V := V) (S := S)) (e r : Z) : Prop :=
  (RuntimePolicyReconciliationSummary.expired_budget_lease_count (tick_summary t')
     = RuntimePolicyReconciliationSummary.expired_budget_lease_count (tick_summary t) + e ∧
   RuntimePolicyReconciliationSummary.repaired_counter_count (tick_summary t')
     = RuntimePolicyReconciliationSummary.repaired_counter_count (tick_summary t) + r ∧
   RuntimePolicyReconciliationSummary.audit_event_count (tick_summary t')
     = RuntimePolicyReconciliationSummary.audit_event_count (tick_summary t) + e + r ∧
   Z.of_nat (length (tick_audit t')) = Z.of_nat (length (tick_audit t)) + e + r)%Z.

Lemma audited_trans t1 t2 t3 e r e' r' :
  audited t1 t2 e r → audited t2 t3 e' r' → audited t1 t3 (e + e') (r + r').
Proof. unfold audited. lia. Qed.

Lemma lease_loop_audited policies leases t :
  audited t (fold_left (expire_lease_tick policies worker_id now uuid) leases t)
    (Z.of_nat (length leases)) 0.
Proof.
  revert t. induction leases as [|l ls IH]; intros t; [unfold audited; simpl; lia|].
  cbn [fold_left length].
  replace (Z.of_nat (Datatypes.S (length ls))) with (1 + Z.of_nat (length ls))%Z by lia.
  apply (audited_trans _ (expire_lease_tick policies worker_id now uuid t l) _ 1 0 _ 0); [|apply IH].
  unfold expire_lease_tick. rewrite counter_law. destruct (adjust_runtime_policy_counter _ _ _).
  unfold audited. simpl. rewrite length_app. simpl. lia.
Qed.

Lemma quota_loop_audited usage_events policies t :
  ∃ r, (0 ≤ r)%Z ∧
    audited t (fold_left (quota_policy_tick usage_events worker_id now uuid) policies t) 0 r.
Proof.
  revert t. induction policies as [|p ps IH]; intros t; [exists 0%Z; unfold audited; simpl; lia|].
  cbn [fold_left]. destruct (IH (quota_policy_tick usage_events worker_id now uuid t p)) as (r & Hr & Ha).
  assert (∃ r1, (0 ≤ r1)%Z ∧ audited t (quota_policy_tick usage_events worker_id now uuid t p) 0 r1)
    as (r1 & Hr1 & Ha1).
  { unfold quota_policy_tick. rewrite counter_law.
    repeat case_match; simplify_eq; first [exists 0%Z; unfold audited; simpl; lia
      |exists 1%Z; unfold audited; simpl; rewrite length_app; simpl; lia]. }
  exists (r1 + r)%Z. split; [lia|]. apply (audited_trans _ _ _ 0 r1 0 r Ha1 Ha).
Qed.
End tick_facts.

(** ** Properties *)

Section reconciler_properties.
Context {V : Type} `{JsonLibrary V} `{ChronoCalendar} {S : Type} `{RuntimePolicyRepository S}
  `{!PolicyRepositoryLaws S}.
Context (data : PolicyData.t V) (uuid : nat → string) (tenant_id worker_id : string).
Context (now : DateTime).

Let quota_policies := quota_policies_for_tenant (PolicyData.quota_policies data) tenant_id.
Let usage_events := usage_events_for_tenant (PolicyData.usage data) tenant_id.
Let tick (s : S) : Tick (V := V) (S := S) :=
  run_runtime_policy_reconciler_once data uuid tenant_id worker_id now s.

(** Stores whose counters and leases are in range. *)
Definition in_range (s : S) : Prop :=
  counters_ok s ∧
  ∀ id l, PolicyView.lease (view s) id = Some l → (0 ≤ RuntimeBudgetLeaseRecord.amount l ≤ i64_max)%Z.

Lemma expired_amounts s l :
  in_range s → l ∈ (expire_runtime_budget_leases tenant_id now s).1 →
  (0 ≤ RuntimeBudgetLeaseRecord.amount l ≤ i64_max)%Z.
Proof.
  intros [_ Ham] Hl. destruct (expire_law tenant_id now s) as [_ (ids & _ & _ & Hp)].
  rewrite Hp in Hl. apply list_elem_of_fmap in Hl as (l0 & -> & Hl0).
  apply list_elem_of_omap in Hl0 as (id & _ & Hid). apply (Ham id l0 Hid).
Qed.

Lemma tick_facts (s : S) :
  PolicyView.available (view s) = true → in_range s →
  let s' := tick_store (tick s) in
  (∀ k, PolicyView.counter (view s') k = raised usage_events now k
     (Z.max 0 (PolicyView.counter (view s) k
               - lease_units k (expire_runtime_budget_leases tenant_id now s).1)) quota_policies) ∧
  PolicyView.available (view s') = true ∧
  (∀ k, PolicyView.allowance (view s') k = PolicyView.allowance (view s) k) ∧
  (∀ id, PolicyView.lease (view s') id =
     (λ l, if InMemoryPolicyStore.expires tenant_id now l
           then RuntimeBudgetLeaseRecord.with_status "expired" now l else l)
       <$> PolicyView.lease (view s) id) ∧
  counters_ok s'.
Proof.
  intros Hav Hr s'. pose proof (expired_amounts s) as Ham.
  destruct (expire_law tenant_id now s) as [(Ha0 & Hc0 & Hal0 & Hl0) _].
  unfold s', tick, run_runtime_policy_reconciler_once. rewrite available_law, Hav. cbn [negb]. cbv zeta.
  destruct (expire_runtime_budget_leases tenant_id now s) as [leases s1]. simpl in *.
  match goal with |- context [fold_left (expire_lease_tick ?bp _ _ _) leases ?t] =>
    pose proof (lease_loop_counters worker_id now uuid bp leases t) as Hl;
    set (t1 := fold_left (expire_lease_tick bp worker_id now uuid) leases t) in * end.
  destruct Hl as ((Ha1 & Hal1 & Hl1) & Hok1 & Hc1);
    [intros k; simpl; rewrite Hc0; apply (proj1 Hr)|intros l Hin; by apply Ham|].
  destruct (quota_loop_counters worker_id now uuid usage_events quota_policies t1 Hok1)
    as ((Ha2 & Hal2 & Hl2) & Hok2 & Hc2). subst usage_events quota_policies. simpl in *.
  split_and!; [|congruence|..|done].
  - intros k. rewrite Hc2, Hc1. simpl. by rewrite Hc0.
  - intros k. rewrite Hal2, Hal1. apply Hal0.
  - intros id. rewrite Hl2, Hl1. apply Hl0.
Qed.

(** The outcome of a tick, counter by counter: with the hot state up, a
    counter ends at the largest durable usage that an active repairable quota
    policy proves of it, or at its old value less the units of the leases that
    expired (never below zero), whichever is more; the tenant's overdue
    reserved leases become expired and no other lease and no loss allowance
    changes. *)
Theorem reconciler_counters_exact (s : S) :
  PolicyView.available (view s) = true → in_range s →
  let s' := tick_store (tick s) in
  (∀ k, PolicyView.counter (view s') k = raised usage_events now k
     (Z.max 0 (PolicyView.counter (view s) k
               - lease_units k (expire_runtime_budget_leases tenant_id now s).1)) quota_policies) ∧
  (∀ k, PolicyView.allowance (view s') k = PolicyView.allowance (view s) k) ∧
  (∀ id, PolicyView.lease (view s') id =
     (λ l, if InMemoryPolicyStore.expires tenant_id now l
           then RuntimeBudgetLeaseRecord.with_status "expired" now l else l)
       <$> PolicyView.lease (view s) id).
Proof. intros Hav Hr s'. destruct (tick_facts s Hav Hr) as (? & _ & ? & ? & _). split_and!; done. Qed.

(** A second expiry at the same time finds nothing. *)
Lemma expire_again (s s' : S) :
  (∀ id, PolicyView.lease (view s') id =
     (λ l, if InMemoryPolicyStore.expires tenant_id now l
           then RuntimeBudgetLeaseRecord.with_status "expired" now l else l)
       <$> PolicyView.lease (view s) id) →
  (expire_runtime_budget_leases tenant_id now s').1 = [].
Proof.
  intros Hl. destruct (expire_law tenant_id now s') as [_ (ids & _ & Hin & Hp)].
  destruct ids as [|id ids]; [by apply Permutation_nil_r in Hp|].
  destruct (proj1 (Hin id)) as (l & Hid & Hex); [set_solver|].
  rewrite Hl in Hid. destruct (PolicyView.lease (view s) id) as [l0|]; simplify_eq/=.
  destruct (InMemoryPolicyStore.expires tenant_id now l0) eqn:E; [|congruence].
  unfold InMemoryPolicyStore.expires in Hex. simpl in Hex. by rewrite andb_false_r in Hex.
Qed.

(** The reconciler is idempotent: a second tick at the same time, over the
    same durable evidence, expires nothing, repairs nothing, audits nothing and
    leaves every counter as the first tick left it. *)
Theorem reconciler_idempotent (s : S) :
  PolicyView.available (view s) = true → in_range s →
  let t1 := tick s in let t2 := tick (tick_store t1) in
  view (tick_store t2) ≡ view (tick_store t1) ∧ tick_audit t2 = [] ∧
  RuntimePolicyReconciliationSummary.expired_budget_lease_count (tick_summary t2) = 0%Z ∧
  RuntimePolicyReconciliationSummary.repaired_counter_count (tick_summary t2) = 0%Z.
Proof.
  intros Hav Hr. cbv zeta.
  destruct (tick_facts s Hav Hr) as (Hc & Hav1 & _ & Hl & Hok).
  set (s1 := tick_store (tick s)) in *. unfold tick, run_runtime_policy_reconciler_once.
  rewrite available_law, Hav1. cbn [negb]. cbv zeta.
  pose proof (expire_again s s1 Hl) as He.
  destruct (expire_law tenant_id now s1) as [Hv _].
  destruct (expire_runtime_budget_leases tenant_id now s1) as [leases s2]. simpl in He, Hv. subst leases.
  cbn [fold_left]. match goal with |- context [fold_left (quota_policy_tick _ _ _ _) _ ?t] =>
    destruct (quota_loop_quiet worker_id now uuid usage_events quota_policies t) as (E1 & E2 & E3 & E4) end.
  { intros k p Hp. simpl. destruct Hv as (_ & Hcv & _). rewrite Hcv. simpl. rewrite Hc.
    by apply raised_proven. }
  fold usage_events quota_policies. rewrite E1, E2, E3, E4. simpl. split_and!; try done.
  destruct Hv as (Ha' & Hc' & Hal' & Hl'). split_and!; [done..|].
  intros id. rewrite Hl'. simpl. rewrite Hl. destruct (PolicyView.lease (view s) id) as [l|]; [|done].
  simpl. destruct (InMemoryPolicyStore.expires tenant_id now l) eqn:E; [|by rewrite E].
  unfold InMemoryPolicyStore.expires at 1. simpl. by rewrite andb_false_r.
Qed.

(** Repairs are audited: when the hot state is down the tick touches nothing
    and writes nothing; otherwise it writes exactly one audit event per expired
    lease and per repaired counter, and its summary counts them. *)
Theorem reconciler_audits_repairs (s : S) :
  let t := tick s in
  let x := tick_summary t in
  if runtime_policy_hot_state_available s then
    RuntimePolicyReconciliationSummary.expired_budget_lease_count x
      = Z.of_nat (length (expire_runtime_budget_leases tenant_id now s).1) ∧
    (0 ≤ RuntimePolicyReconciliationSummary.repaired_counter_count x)%Z ∧
    RuntimePolicyReconciliationSummary.audit_event_count x
      = (RuntimePolicyReconciliationSummary.expired_budget_lease_count x
         + RuntimePolicyReconciliationSummary.repaired_counter_count x)%Z ∧
    Z.of_nat (length (tick_audit t)) = RuntimePolicyReconciliationSummary.audit_event_count x
  else tick_store t = s ∧ tick_audit t = [] ∧
       RuntimePolicyReconciliationSummary.audit_event_count x = 0%Z.
Proof.
  cbv zeta. unfold tick, run_runtime_policy_reconciler_once.
  destruct (runtime_policy_hot_state_available s); cbn [negb]; [|split_and!; done]. cbv zeta.
  destruct (expire_runtime_budget_leases tenant_id now s) as [leases s1]. cbn [fst].
  match goal with |- context [fold_left (expire_lease_tick ?bp _ _ _) leases ?t] =>
    pose proof (lease_loop_audited worker_id now uuid bp leases t) as Ha;
    set (t1 := fold_left (expire_lease_tick bp worker_id now uuid) leases t) in * end.
  destruct (quota_loop_audited worker_id now uuid usage_events quota_policies t1) as (r & Hr & Hq).
  subst usage_events quota_policies. unfold audited in *. simpl in *. lia.
Qed.
End reconciler_properties.

(** ** Witnesses *)

Module ReconcilerSample.
#[local] Open Scope Z_scope.

Definition quota : QuotaPolicyRecord.t :=
  QuotaPolicyRecord.mk "qp1" "ten" "tenant" "ten" None None "token_actual_rate" 100 None "ledger_bucket"
    "terminal_usage_event" "fail_closed" ResourceStatus.Active 1 1 "admin" 0 0.
Definition data : PolicyData.t Tree.t :=
  PolicyData.mk ∅ {["qp1" := quota]} ∅ UsageSample.store.
Definition lease : RuntimeBudgetLeaseRecord.t :=
  RuntimeBudgetLeaseRecord.mk "bls_a" "ten" "bp1" "budget" "r1" 2 "reserved" 50 0 0.
Definition store : InMemoryPolicyStore.t :=
  InMemoryPolicyStore.mk false {["budget" := 3]} ∅ {["bls_a" := lease]}.
Definition quota_key : string := runtime_quota_counter_key quota 100.

Definition tick (s : InMemoryPolicyStore.t) : Tick (V := Tree.t) (S := InMemoryPolicyStore.t) :=
  run_runtime_policy_reconciler_once data (λ _, "0") "ten" "worker" 100 s.

Lemma store_in_range : in_range store.
Proof.
  split; simpl.
  - intros k. simpl. destruct (decide (k = "budget")) as [->|].
    + rewrite lookup_singleton_eq. unfold i64_max. simpl. lia.
    + rewrite lookup_singleton_ne by done. unfold i64_max. simpl. lia.
  - intros id l Hl. simpl in Hl. apply lookup_singleton_Some in Hl as [_ <-].
    unfold i64_max. simpl. lia.
Qed.
End ReconcilerSample.

Lemma reconciler_counters_exact_witness :
  PolicyView.counter (view (tick_store (ReconcilerSample.tick ReconcilerSample.store)))
    ReconcilerSample.quota_key = 14%Z.
Proof.
  destruct (reconciler_counters_exact ReconcilerSample.data (λ _, "0") "ten" "worker" 100
    ReconcilerSample.store) as (H & _); [reflexivity|apply ReconcilerSample.store_in_range|].
  unfold ReconcilerSample.tick. rewrite (H ReconcilerSample.quota_key). vm_compute. reflexivity.
Defined.

Lemma reconciler_idempotent_witness :
  tick_audit (ReconcilerSample.tick (tick_store (ReconcilerSample.tick ReconcilerSample.store))) = [].
Proof.
  destruct (reconciler_idempotent ReconcilerSample.data (λ _, "0") "ten" "worker" 100
    ReconcilerSample.store) as (_ & H & _); [reflexivity|apply ReconcilerSample.store_in_range|].
  exact H.
Defined.

(** A tick lowers a counter when a lease on it has expired. *)
Theorem reconciler_lowers_counter :
  PolicyView.counter (view ReconcilerSample.store) "budget" = 3%Z ∧
  PolicyView.counter (view (tick_store (ReconcilerSample.tick ReconcilerSample.store))) "budget" = 1%Z.
Proof. split; vm_compute; reflexivity. Qed.
