(* ===== verification/Outbox.v ===== *)
(** * The notification outbox

    The notification half of [storage.rs]: sinks and subscriptions are admin
    resources, the outbox holds one event per matched subscription, and every
    delivery attempt is kept as evidence.  Appending is idempotent on a
    tenant-local key; an event moves through the statuses [pending],
    [delivering], [retryable_failed] and the final [delivered],
    [permanent_failed] and [dead_lettered], and an operator can replay a
    dead-lettered event. *)

From S2P Require Import Prelude Order Domain Json.

(** ** Records *)

Module NotificationSinkRecord.
Record t {V : Type} : Type := mk {
  notification_sink_id : string;
  tenant_id : string;
  organization_id : option string;
  project_id : option string;
  name : string;
  sink_kind : string;
  endpoint_config : V;
  signing_secret_ref_id : option string;
  status : ResourceStatus.t;
  resource_version : Z;
  schema_version : Z;
  created_by : string;
  created_at : DateTime;
  updated_at : DateTime;
}.
Arguments t V : clear implicits.
Arguments mk {V}.
End NotificationSinkRecord.

Module NotificationSubscriptionRecord.
Record t {V : Type} : Type := mk {
  notification_subscription_id : string;
  tenant_id : string;
  organization_id : option string;
  project_id : option string;
  notification_sink_id : string;
  event_family : string;
  filter_document : V;
  status : ResourceStatus.t;
  resource_version : Z;
  schema_version : Z;
  created_by : string;
  created_at : DateTime;
  updated_at : DateTime;
}.
Arguments t V : clear implicits.
Arguments mk {V}.
End NotificationSubscriptionRecord.

Module NotificationOutboxEventRecord.
Record t {V : Type} : Type := mk {
  notification_outbox_event_id : string;
  tenant_id : string;
  organization_id : option string;
  project_id : option string;
  notification_subscription_id : option string;
  notification_sink_id : option string;
  event_kind : string;
  dedupe_key : string;
  payload_document : V;
  status : string;
  attempt_count : Z; (* i32 *)
  next_attempt_at : option DateTime;
  created_at : DateTime;
  updated_at : DateTime;
}.
Arguments t V : clear implicits.
Arguments mk {V}.

(** The in-place updates of the delivery fields. *)
Definition update {V} (status' : string) (attempt_count' : Z)
    (next_attempt_at' : option DateTime) (updated_at' : DateTime) (e : t V) : t V :=
  mk (notification_outbox_event_id e) (tenant_id e) (organization_id e) (project_id e)
    (notification_subscription_id e) (notification_sink_id e) (event_kind e) (dedupe_key e)
    (payload_document e) status' attempt_count' next_attempt_at' (created_at e) updated_at'.
End NotificationOutboxEventRecord.

Module NotificationDeliveryAttemptRecord.
Record t {V : Type} : Type := mk {
  notification_delivery_attempt_id : string;
  notification_outbox_event_id : string;
  notification_sink_id : option string;
  attempt_index : Z; (* i32 *)
  status : string;
  response_status : option Z;
  error_message : option string;
  request_body_sha256 : option string;
  signing_secret_ref_id : option string;
  signature_sha256 : option string;
  delivery_headers : V;
  attempted_at : DateTime;
}.
Arguments t V : clear implicits.
Arguments mk {V}.
End NotificationDeliveryAttemptRecord.

Module CreateNotificationOutboxEventRequest.
Record t {V : Type} : Type := mk {
  tenant_id : string;
  organization_id : option string;
  project_id : option string;
  notification_subscription_id : option string;
  notification_sink_id : option string;
  event_kind : string;
  dedupe_key : string;
  payload_document : V;
  next_attempt_at : option DateTime;
}.
Arguments t V : clear implicits.
Arguments mk {V}.
End CreateNotificationOutboxEventRequest.

Module CreateNotificationDeliveryAttemptRequest.
Record t {V : Type} : Type := mk {
  notification_outbox_event_id : string;
  notification_sink_id : option string;
  status : string;
  response_status : option Z;
  error_message : option string;
  request_body_sha256 : option string;
  signing_secret_ref_id : option string;
  signature_sha256 : option string;
  delivery_headers : V;
  next_attempt_at : option DateTime;
}.
Arguments t V : clear implicits.
Arguments mk {V}.
End CreateNotificationDeliveryAttemptRequest.

(** ** The store *)

Module OutboxStore.
Record t {V : Type} : Type := mk {
  notification_sinks : gmap string (NotificationSinkRecord.t V);
  notification_subscriptions : gmap string (NotificationSubscriptionRecord.t V);
  notification_outbox_events : gmap string (NotificationOutboxEventRecord.t V);
  notification_delivery_attempts : list (NotificationDeliveryAttemptRecord.t V);
}.
Arguments t V : clear implicits.
Arguments mk {V}.

Definition with_events {V} (events : gmap string (NotificationOutboxEventRecord.t V)) (s : t V) : t V :=
  mk (notification_sinks s) (notification_subscriptions s) events
    (notification_delivery_attempts s).
Definition push_attempt {V} (a : NotificationDeliveryAttemptRecord.t V) (s : t V) : t V :=
  mk (notification_sinks s) (notification_subscriptions s) (notification_outbox_events s)
    (notification_delivery_attempts s ++ [a]).
End OutboxStore.

Section outbox.
Context {V : Type} `{JsonLibrary V}.

(** [events.values().find(..)]: some event of the tenant with the key. *)
Definition same_key (tenant_id dedupe_key : string) (e : NotificationOutboxEventRecord.t V) : bool :=
  (NotificationOutboxEventRecord.tenant_id e ==? tenant_id)
  && (NotificationOutboxEventRecord.dedupe_key e ==? dedupe_key).

Definition append_notification_outbox_event (uuid : string)
    (request : CreateNotificationOutboxEventRequest.t V) (now : DateTime) (s : OutboxStore.t V)
    : NotificationOutboxEventRecord.t V * OutboxStore.t V :=
  match List.find (same_key (CreateNotificationOutboxEventRequest.tenant_id request)
                     (CreateNotificationOutboxEventRequest.dedupe_key request))
          ((map_to_list (OutboxStore.notification_outbox_events s)).*2) with
  | Some existing => (existing, s)
  | None =>
      let id := new_prefixed_id "nob" uuid in
      let record :=
        NotificationOutboxEventRecord.mk id
          (CreateNotificationOutboxEventRequest.tenant_id request)
          (CreateNotificationOutboxEventRequest.organization_id request)
          (CreateNotificationOutboxEventRequest.project_id request)
          (CreateNotificationOutboxEventRequest.notification_subscription_id request)
          (CreateNotificationOutboxEventRequest.notification_sink_id request)
          (CreateNotificationOutboxEventRequest.event_kind request)
          (CreateNotificationOutboxEventRequest.dedupe_key request)
          (CreateNotificationOutboxEventRequest.payload_document request)
          "pending" 0 (CreateNotificationOutboxEventRequest.next_attempt_at request) now now in
      (record, OutboxStore.with_events
                 (<[id := record]> (OutboxStore.notification_outbox_events s)) s)
  end.

Definition notification_outbox_event (id : string) (s : OutboxStore.t V)
    : option (NotificationOutboxEventRecord.t V) :=
  OutboxStore.notification_outbox_events s !! id.

Definition replay_dead_lettered_notification_outbox_event (id : string) (now : DateTime)
    (s : OutboxStore.t V) : Result (NotificationOutboxEventRecord.t V) * OutboxStore.t V :=
  match OutboxStore.notification_outbox_events s !! id with
  | None => (Err (GatewayError.NotFound ("notification outbox event " +:+ id)), s)
  | Some event =>
      if NotificationOutboxEventRecord.status event !=? "dead_lettered"
      then (Err (GatewayError.BadRequest "notification_replay_requires_dead_lettered_event"), s)
      else
        let record := NotificationOutboxEventRecord.update "pending" 0 (Some now) now event in
        (Ok record, OutboxStore.with_events
                      (<[id := record]> (OutboxStore.notification_outbox_events s)) s)
  end.

Definition notification_subscriptions_for_tenant (tenant_id : string) (s : OutboxStore.t V)
    : list (NotificationSubscriptionRecord.t V) :=
  sort_by
    (cmp_then (cmp_on NotificationSubscriptionRecord.notification_sink_id String.compare)
      (cmp_then (cmp_on NotificationSubscriptionRecord.event_family String.compare)
        (cmp_on NotificationSubscriptionRecord.notification_subscription_id String.compare)))
    (List.filter (λ x, NotificationSubscriptionRecord.tenant_id x ==? tenant_id)
       ((map_to_list (OutboxStore.notification_subscriptions s)).*2)).

Definition notification_outbox_events_for_tenant (tenant_id : string) (s : OutboxStore.t V)
    : list (NotificationOutboxEventRecord.t V) :=
  sort_by
    (cmp_then (cmp_rev (cmp_on NotificationOutboxEventRecord.created_at Z.compare))
      (cmp_on NotificationOutboxEventRecord.notification_outbox_event_id String.compare))
    (List.filter (λ e, NotificationOutboxEventRecord.tenant_id e ==? tenant_id)
       ((map_to_list (OutboxStore.notification_outbox_events s)).*2)).

(** The test of [due_notification_outbox_events]. *)
Definition is_due (tenant_id : string) (now : DateTime) (e : NotificationOutboxEventRecord.t V) : bool :=
  (NotificationOutboxEventRecord.tenant_id e ==? tenant_id)
  && ((NotificationOutboxEventRecord.status e ==? "pending")
      || (NotificationOutboxEventRecord.status e ==? "retryable_failed"))
  && match NotificationOutboxEventRecord.next_attempt_at e with
     | None => true
     | Some next => (next <=? now)%Z
     end.

(** Oldest first. *)
Definition due_order : NotificationOutboxEventRecord.t V → NotificationOutboxEventRecord.t V → comparison :=
  cmp_then (cmp_on NotificationOutboxEventRecord.created_at Z.compare)
    (cmp_on NotificationOutboxEventRecord.notification_outbox_event_id String.compare).

Definition due_notification_outbox_events (tenant_id : string) (now : DateTime) (limit : nat)
    (s : OutboxStore.t V) : list (NotificationOutboxEventRecord.t V) :=
  take limit (sort_by due_order
    (List.filter (is_due tenant_id now)
       ((map_to_list (OutboxStore.notification_outbox_events s)).*2))).

(** The status an attempt leaves an event in. *)
Definition status_after_attempt (attempt_status : string) : option string :=
  if attempt_status ==? "succeeded" then Some "delivered"
  else if attempt_status ==? "retryable_failed" then Some "retryable_failed"
  else if attempt_status ==? "permanent_failed" then Some "permanent_failed"
  else if attempt_status ==? "dead_lettered" then Some "dead_lettered"
  else if attempt_status ==? "started" then Some "delivering"
  else None.

(** The attempt count is written before the status is checked. *)
Definition record_notification_delivery_attempt (uuid : string)
    (request : CreateNotificationDeliveryAttemptRequest.t V) (now : DateTime) (s : OutboxStore.t V)
    : Result (NotificationDeliveryAttemptRecord.t V) * OutboxStore.t V :=
  let id := CreateNotificationDeliveryAttemptRequest.notification_outbox_event_id request in
  let events := OutboxStore.notification_outbox_events s in
  match events !! id with
  | None => (Err (GatewayError.NotFound ("notification outbox event " +:+ id)), s)
  | Some event =>
      let attempt_index := NotificationOutboxEventRecord.attempt_count event in
      let attempt_count := saturating_add_i32 attempt_index 1 in
      let attempt_status := CreateNotificationDeliveryAttemptRequest.status request in
      match status_after_attempt attempt_status with
      | None =>
          (Err (GatewayError.BadRequest "notification_delivery_attempt_status_invalid"),
           OutboxStore.with_events
             (<[id := NotificationOutboxEventRecord.update
                        (NotificationOutboxEventRecord.status event) attempt_count
                        (NotificationOutboxEventRecord.next_attempt_at event)
                        (NotificationOutboxEventRecord.updated_at event) event]> events) s)
      | Some status =>
          let next_attempt_at :=
            if attempt_status ==? "retryable_failed"
            then CreateNotificationDeliveryAttemptRequest.next_attempt_at request
            else if attempt_status ==? "started"
            then NotificationOutboxEventRecord.next_attempt_at event
            else None in
          let event' :=
            NotificationOutboxEventRecord.update status attempt_count next_attempt_at now event in
          let record :=
            NotificationDeliveryAttemptRecord.mk (new_prefixed_id "nda" uuid) id
              (CreateNotificationDeliveryAttemptRequest.notification_sink_id request)
              attempt_index attempt_status
              (CreateNotificationDeliveryAttemptRequest.response_status request)
              (CreateNotificationDeliveryAttemptRequest.error_message request)
              (CreateNotificationDeliveryAttemptRequest.request_body_sha256 request)
              (CreateNotificationDeliveryAttemptRequest.signing_secret_ref_id request)
              (CreateNotificationDeliveryAttemptRequest.signature_sha256 request)
              (CreateNotificationDeliveryAttemptRequest.delivery_headers request) now in
          (Ok record, OutboxStore.push_attempt record
                        (OutboxStore.with_events (<[id := event']> events) s))
      end
  end.

Definition notification_delivery_attempts_for_event (id : string) (s : OutboxStore.t V)
    : list (NotificationDeliveryAttemptRecord.t V) :=
  sort_by
    (cmp_then (cmp_on NotificationDeliveryAttemptRecord.attempt_index Z.compare)
      (cmp_on NotificationDeliveryAttemptRecord.notification_delivery_attempt_id String.compare))
    (List.filter (λ a, NotificationDeliveryAttemptRecord.notification_outbox_event_id a ==? id)
       (OutboxStore.notification_delivery_attempts s)).

Definition notification_sink (id : string) (s : OutboxStore.t V)
    : option (NotificationSinkRecord.t V) := OutboxStore.notification_sinks s !! id.

(** ** Subscription filters *)

Definition notification_subscription_filter_matches (filter : V)
    (event_kind scope_kind scope_id : string) : bool :=
  if is_null filter then true
  else
    let event_ok :=
      match json_get filter "event_types" ≫= as_array with
      | Some event_types =>
          existsb (λ candidate, candidate ==? event_kind) (omap as_str event_types)
      | None => true
      end in
    let kind_ok :=
      match get_str filter "scope_kind" with
      | Some k => k ==? scope_kind
      | None => true
      end in
    let id_ok :=
      match get_str filter "scope_id" with
      | Some i => i ==? scope_id
      | None => true
      end in
    event_ok && kind_ok && id_ok.
End outbox.

(** ** The outbox as a state machine *)

Section machine.
Context {V : Type} `{JsonLibrary V}.

(** One write to the outbox; an event id is drawn fresh. *)
Inductive outbox_step : OutboxStore.t V → OutboxStore.t V → Prop :=
| step_append uuid request now s :
    notification_outbox_event (new_prefixed_id "nob" uuid) s = None →
    outbox_step s (append_notification_outbox_event uuid request now s).2
| step_attempt uuid request now s :
    outbox_step s (record_notification_delivery_attempt uuid request now s).2
| step_replay id now s :
    outbox_step s (replay_dead_lettered_notification_outbox_event id now s).2.

Inductive outbox_reachable : OutboxStore.t V → Prop :=
| reach_empty sinks subscriptions : outbox_reachable (OutboxStore.mk sinks subscriptions ∅ [])
| reach_next s s' : outbox_reachable s → outbox_step s s' → outbox_reachable s'.

(** The statuses an event can be in, and the final ones. *)
Definition outbox_statuses : list string :=
  ["pending"; "delivering"; "retryable_failed"; "delivered"; "permanent_failed"; "dead_lettered"].
Definition final_status (status : string) : bool :=
  (status ==? "delivered") || (status ==? "permanent_failed") || (status ==? "dead_lettered").

Definition event_ok (e : NotificationOutboxEventRecord.t V) : Prop :=
  NotificationOutboxEventRecord.status e ∈ outbox_statuses ∧
  (final_status (NotificationOutboxEventRecord.status e) = true →
   NotificationOutboxEventRecord.next_attempt_at e = None) ∧
  (0 ≤ NotificationOutboxEventRecord.attempt_count e ≤ i32_max)%Z.

(** Ids are keys, a tenant's dedupe keys are unique, events are well-formed
    and every attempt belongs to an event. *)
Record outbox_ok (s : OutboxStore.t V) : Prop := {
  ok_id id e : notification_outbox_event id s = Some e →
    NotificationOutboxEventRecord.notification_outbox_event_id e = id;
  ok_key id id' e e' :
    notification_outbox_event id s = Some e → notification_outbox_event id' s = Some e' →
    NotificationOutboxEventRecord.tenant_id e = NotificationOutboxEventRecord.tenant_id e' →
    NotificationOutboxEventRecord.dedupe_key e = NotificationOutboxEventRecord.dedupe_key e' →
    id = id';
  ok_event id e : notification_outbox_event id s = Some e → event_ok e;
  ok_attempt a : a ∈ OutboxStore.notification_delivery_attempts s →
    is_Some (notification_outbox_event
               (NotificationDeliveryAttemptRecord.notification_outbox_event_id a) s);
}.

Lemma same_key_iff tenant key (e : NotificationOutboxEventRecord.t V) :
  same_key tenant key e = true ↔
  NotificationOutboxEventRecord.tenant_id e = tenant ∧
  NotificationOutboxEventRecord.dedupe_key e = key.
Proof. unfold same_key. rewrite andb_true_iff, !bool_decide_eq_true. done. Qed.

(** The lookup by key among the stored events. *)
Lemma find_event (s : OutboxStore.t V) f :
  match List.find f ((map_to_list (OutboxStore.notification_outbox_events s)).*2) with
  | Some e => ∃ id, notification_outbox_event id s = Some e ∧ f e = true
  | None => ∀ id e, notification_outbox_event id s = Some e → f e = false
  end.
Proof.
  destruct (List.find _ _) as [e|] eqn:E.
  - apply find_Some_in in E as [Hin Hf].
    apply list_elem_of_fmap in Hin as ([id e'] & -> & Hin). exists id. split; [|done].
    by apply elem_of_map_to_list.
  - rewrite find_None_iff in E. intros id e He. apply E.
    apply list_elem_of_fmap. exists (id, e). split; [done|]. by apply elem_of_map_to_list.
Qed.

(** Rewriting one event with its identity kept preserves the invariant. *)
Lemma outbox_ok_update (s : OutboxStore.t V) id e e' :
  outbox_ok s → notification_outbox_event id s = Some e →
  NotificationOutboxEventRecord.notification_outbox_event_id e'
    = NotificationOutboxEventRecord.notification_outbox_event_id e →
  NotificationOutboxEventRecord.tenant_id e' = NotificationOutboxEventRecord.tenant_id e →
  NotificationOutboxEventRecord.dedupe_key e' = NotificationOutboxEventRecord.dedupe_key e →
  event_ok e' →
  outbox_ok (OutboxStore.with_events (<[id := e']> (OutboxStore.notification_outbox_events s)) s).
Proof.
  intros Hok He Hid Ht Hk Hev.
  assert (∀ id0 e0, <[id := e']> (OutboxStore.notification_outbox_events s) !! id0 = Some e0 →
    (∃ e1, notification_outbox_event id0 s = Some e1 ∧
      NotificationOutboxEventRecord.notification_outbox_event_id e0
        = NotificationOutboxEventRecord.notification_outbox_event_id e1 ∧
      NotificationOutboxEventRecord.tenant_id e0 = NotificationOutboxEventRecord.tenant_id e1 ∧
      NotificationOutboxEventRecord.dedupe_key e0 = NotificationOutboxEventRecord.dedupe_key e1) ∧
    event_ok e0) as Hl.
  { intros id0 e0. destruct (decide (id0 = id)) as [->|Hne].
    - rewrite lookup_insert_eq. intros [= <-]. eauto 7.
    - rewrite lookup_insert_ne by done. intros H0. split; [eauto 7|by eapply ok_event]. }
  constructor; unfold notification_outbox_event in *; simpl.
  - intros id0 e0 ((e1 & H1 & -> & _) & _)%Hl. by apply (ok_id s Hok).
  - intros id1 id2 e1 e2 ((f1 & H1 & _ & T1 & K1) & _)%Hl ((f2 & H2 & _ & T2 & K2) & _)%Hl ET EK.
    apply (ok_key s Hok id1 id2 f1 f2 H1 H2); congruence.
  - intros id0 e0 (_ & H0)%Hl. done.
  - intros a Ha%(ok_attempt s Hok). unfold notification_outbox_event in Ha.
    destruct (decide (NotificationDeliveryAttemptRecord.notification_outbox_event_id a = id)) as [->|].
    + rewrite lookup_insert_eq. eauto.
    + by rewrite lookup_insert_ne.
Qed.

Lemma append_ok uuid request now (s : OutboxStore.t V) :
  outbox_ok s → notification_outbox_event (new_prefixed_id "nob" uuid) s = None →
  outbox_ok (append_notification_outbox_event uuid request now s).2.
Proof.
  intros Hok Hfresh. unfold append_notification_outbox_event.
  pose proof (find_event s (same_key (CreateNotificationOutboxEventRequest.tenant_id request)
    (CreateNotificationOutboxEventRequest.dedupe_key request))) as Hf.
  destruct (List.find _ _); [done|]. simpl.
  set (record := NotificationOutboxEventRecord.mk _ _ _ _ _ _ _ _ _ _ _ _ _ _).
  assert (∀ id e, notification_outbox_event id s = Some e →
    NotificationOutboxEventRecord.tenant_id e = NotificationOutboxEventRecord.tenant_id record →
    NotificationOutboxEventRecord.dedupe_key e = NotificationOutboxEventRecord.dedupe_key record →
    False) as Hnew.
  { intros id e He%Hf HT HK. rewrite (proj2 (same_key_iff _ _ e)) in He; done. }
  constructor; unfold notification_outbox_event in *; simpl.
  - intros id e [[<- <-]|[_ He]]%lookup_insert_Some; [done|by apply (ok_id s Hok)].
  - intros id1 id2 e1 e2 [[<- <-]|[_ H1]]%lookup_insert_Some [[<- <-]|[_ H2]]%lookup_insert_Some ET EK.
    + done.
    + exfalso. by eapply Hnew.
    + exfalso. by eapply Hnew.
    + by eapply (ok_key s Hok).
  - intros id e [[<- <-]|[_ He]]%lookup_insert_Some; [|by eapply ok_event].
    split_and!; simpl; [set_solver|done|done|done].
  - intros a Ha%(ok_attempt s Hok). unfold notification_outbox_event in Ha.
    rewrite lookup_insert_ne; [done|]. intros E. rewrite <- E in Ha. destruct Ha. congruence.
Qed.
Lemma saturating_i32_ok n : (0 ≤ n ≤ i32_max)%Z → (0 ≤ saturating_add_i32 n 1 ≤ i32_max)%Z.
Proof. unfold saturating_add_i32, i32_min, i32_max. lia. Qed.

(** The status after an attempt is a status; a final one clears the schedule. *)
Lemma status_after_attempt_ok st st' :
  status_after_attempt st = Some st' → st' ∈ outbox_statuses ∧
  (final_status st' = true → st ≠ "retryable_failed" ∧ st ≠ "started").
Proof.
  unfold status_after_attempt. repeat case_bool_decide; intros [= <-]; subst;
    (split; [set_solver|vm_compute; done]).
Qed.

Lemma attempt_ok uuid request now (s : OutboxStore.t V) :
  outbox_ok s → outbox_ok (record_notification_delivery_attempt uuid request now s).2.
Proof.
  intros Hok. unfold record_notification_delivery_attempt. cbv zeta.
  set (id := CreateNotificationDeliveryAttemptRequest.notification_outbox_event_id request).
  destruct (_ !! id) as [e|] eqn:He; [|done].
  destruct (ok_event s Hok id e He) as (Hst & Hfin & Hcount).
  destruct (status_after_attempt _) as [st|] eqn:Est; simpl.
  - apply status_after_attempt_ok in Est as [Hin Hf].
    set (e' := NotificationOutboxEventRecord.update st _ _ _ e).
    assert (outbox_ok (OutboxStore.with_events
      (<[id := e']> (OutboxStore.notification_outbox_events s)) s)) as Hok'.
    { eapply outbox_ok_update; [done..|]. split_and!; simpl; [done| |by apply saturating_i32_ok..].
      intros [H1 H2]%Hf. by rewrite !bool_decide_false. }
    destruct Hok' as [O1 O2 O3 O4]. constructor; [done..|]. simpl. intros a.
    rewrite elem_of_app, list_elem_of_singleton. intros [Ha| ->]; [by apply O4|].
    unfold notification_outbox_event. simpl. rewrite lookup_insert_eq. eauto.
  - eapply outbox_ok_update; [done..|]. split_and!; simpl; [done|done|by apply saturating_i32_ok..].
Qed.

Lemma replay_ok id now (s : OutboxStore.t V) :
  outbox_ok s → outbox_ok (replay_dead_lettered_notification_outbox_event id now s).2.
Proof.
  intros Hok. unfold replay_dead_lettered_notification_outbox_event.
  destruct (_ !! id) as [e|] eqn:He; [|done]. destruct (negb _); [done|]. simpl.
  eapply outbox_ok_update; [done..|]. split_and!; simpl; [set_solver|done|done|done].
Qed.

Lemma reachable_ok s : outbox_reachable s → outbox_ok s.
Proof.
  induction 1 as [sinks subs|s s' _ IH Hstep].
  - constructor; unfold notification_outbox_event; simpl; try set_solver;
      intros *; by rewrite lookup_empty.
  - destruct Hstep; [by apply append_ok|by apply attempt_ok|by apply replay_ok].
Qed.

(** ** Properties *)

(** Appending is idempotent per tenant: in every outbox reached by appends,
    attempts and replays, appending a request returns the one stored event of
    its tenant and dedupe key; an event already there comes back as it is and
    the outbox does not change, otherwise exactly one pending event is added. *)
Theorem append_exactly_once uuid request now (s : OutboxStore.t V) :
  outbox_reachable s → notification_outbox_event (new_prefixed_id "nob" uuid) s = None →
  let '(e, s') := append_notification_outbox_event uuid request now s in
  let key := same_key (CreateNotificationOutboxEventRequest.tenant_id request)
               (CreateNotificationOutboxEventRequest.dedupe_key request) in
  (∀ id e', notification_outbox_event id s' = Some e' → key e' = true ↔ e' = e) ∧
  notification_outbox_event (NotificationOutboxEventRecord.notification_outbox_event_id e) s' = Some e ∧
  ((∃ id, notification_outbox_event id s = Some e) ∧ s' = s ∨
   (∀ id e', notification_outbox_event id s = Some e' → key e' = false) ∧
   NotificationOutboxEventRecord.status e = "pending" ∧
   ∀ id, id ≠ NotificationOutboxEventRecord.notification_outbox_event_id e →
     notification_outbox_event id s' = notification_outbox_event id s).
Proof.
  intros Hr Hfresh. pose proof (reachable_ok s Hr) as Hok.
  pose proof (append_ok uuid request now s Hok Hfresh) as Hok'. revert Hok'.
  unfold append_notification_outbox_event.
  pose proof (find_event s (same_key (CreateNotificationOutboxEventRequest.tenant_id request)
    (CreateNotificationOutboxEventRequest.dedupe_key request))) as Hf.
  destruct (List.find _ _) as [e|]; simpl; intros Hok'.
  - destruct Hf as (id & He & [HT HK]%same_key_iff). split_and!; [|by rewrite (ok_id s Hok id e)|eauto].
    intros id' e' He'. rewrite same_key_iff. split; [|by intros ->].
    intros [HT' HK']. assert (id = id') as <- by (eapply (ok_key s Hok); [done..| |]; congruence).
    congruence.
  - set (record := NotificationOutboxEventRecord.mk _ _ _ _ _ _ _ _ _ _ _ _ _ _) in *.
    assert (notification_outbox_event (new_prefixed_id "nob" uuid)
      (OutboxStore.with_events (<[new_prefixed_id "nob" uuid:=record]>
        (OutboxStore.notification_outbox_events s)) s) = Some record) as Hrec
      by (unfold notification_outbox_event; simpl; by rewrite lookup_insert_eq).
    split_and!; [|done|right; split_and!; [done|done|]].
    + intros id' e' He'. rewrite same_key_iff. split; [|by intros ->]. intros [HT HK].
      assert (new_prefixed_id "nob" uuid = id') as <- by (eapply (ok_key _ Hok'); done).
      congruence.
    + intros id Hid. unfold notification_outbox_event. simpl. by rewrite lookup_insert_ne.
Qed.

(** Delivery status is well-behaved: in every reachable outbox an event is
    in one of its six statuses, an event in a final status is not scheduled,
    a tenant never has two events with the same dedupe key, and every recorded
    attempt belongs to an event that is still there. *)
Theorem outbox_well_formed (s : OutboxStore.t V) : outbox_reachable s → outbox_ok s.
Proof. apply reachable_ok. Qed.
End machine.

(** ** Witnesses *)

Module OutboxSample.
#[local] Open Scope Z_scope.

Definition sink : NotificationSinkRecord.t Tree.t :=
  NotificationSinkRecord.mk "ns_1" "ten" None None "hook" "webhook"
    (Tree.Obj [("url", Tree.Str "https://retry.example/gateway")]) (Some "sec_1")
    ResourceStatus.Active 1 1 "admin" 0 0.
Definition request (key : string) : CreateNotificationOutboxEventRequest.t Tree.t :=
  CreateNotificationOutboxEventRequest.mk "ten" None None None (Some "ns_1")
    "gateway.budget.hard_block" key Tree.Null (Some 10).
Definition empty : OutboxStore.t Tree.t := OutboxStore.mk {["ns_1" := sink]} ∅ ∅ [].
Definition store : OutboxStore.t Tree.t :=
  (append_notification_outbox_event "1" (request "k1") 10 empty).2.

Lemma sample_outbox_reachable : outbox_reachable store.
Proof.
  apply (reach_next empty); [apply reach_empty|]. apply step_append. reflexivity.
Qed.
End OutboxSample.

Lemma append_exactly_once_witness :
  (append_notification_outbox_event "2" (OutboxSample.request "k1") 20 OutboxSample.store).2
    = OutboxSample.store ∧
  size (OutboxStore.notification_outbox_events
          (append_notification_outbox_event "2" (OutboxSample.request "k2") 20 OutboxSample.store).2) = 2.
Proof.
  split; [|reflexivity].
  pose proof (append_exactly_once "2" (OutboxSample.request "k1") 20 OutboxSample.store
    OutboxSample.sample_outbox_reachable eq_refl) as H.
  destruct (append_notification_outbox_event "2" (OutboxSample.request "k1") 20 OutboxSample.store)
    as [e s'] eqn:E. destruct H as (_ & _ & [[_ H]|[H _]]); [exact H|].
  exfalso. specialize (H "nob_1" _ eq_refl). discriminate H.
Defined.

Lemma outbox_well_formed_witness : outbox_ok OutboxSample.store.
Proof. apply (outbox_well_formed OutboxSample.store OutboxSample.sample_outbox_reachable). Defined.
