(* ===== verification/Delivery.v ===== *)
(** * Notification delivery

    The delivery worker of [service.rs]: it takes the due events of a tenant,
    builds a delivery plan for each from its sink, and records one attempt per
    event.  Webhooks are signed with a secret; a failed webhook is retried
    after a delay until its attempt budget is spent, then dead-lettered. *)

From S2P Require Import Prelude Order Text Domain Catalog Json Outbox.

(** ** Secrets *)

Module SecretRefStatus.
Inductive t : Set := Active | Rotating | Disabled | Deleted.
End SecretRefStatus.

Module SecretRefRecord.
Record t : Set := mk {
  secret_ref_id : string;
  tenant_id : string;
  organization_id : option string;
  project_id : option string;
  purpose : string;
  backend_kind : string;
  backend_locator : string;
  display_mask : string;
  fingerprint : string;
  status : SecretRefStatus.t;
  resource_version : Z;
  schema_version : Z;
  created_by : string;
  created_at : DateTime;
  updated_at : DateTime;
}.
End SecretRefRecord.

(** The secret half of the store; [read_to_string] is the file system. *)
Module SecretStore.
Record t : Type := mk {
  secret_refs : gmap string SecretRefRecord.t;
  secret_values : gmap string string;
  read_to_string : string → option string;
}.
End SecretStore.

(** [str::strip_prefix]. *)
Fixpoint strip_prefix (pre s : string) : option string :=
  match pre, s with
  | EmptyString, _ => Some s
  | String c pre', String c' s' => if c ==? c' then strip_prefix pre' s' else None
  | String _ _, EmptyString => None
  end.

Definition read_file_secret_value (store : SecretStore.t) (locator : string) : option string :=
  path ← strip_prefix "file://" locator;
  SecretStore.read_to_string store path.

Definition secret_value (store : SecretStore.t) (secret_ref_id : string) : option string :=
  record ← SecretStore.secret_refs store !! secret_ref_id;
  match SecretRefRecord.status record with
  | SecretRefStatus.Active | SecretRefStatus.Rotating =>
      if SecretRefRecord.backend_kind record ==? "memory"
      then SecretStore.secret_values store !! secret_ref_id
      else if SecretRefRecord.backend_kind record ==? "file"
      then read_file_secret_value store (SecretRefRecord.backend_locator record)
      else None
  | _ => None
  end.

(** ** Webhook endpoints *)

Definition allows_local_callback_adapter (environment : string) : bool :=
  (environment ==? "local") || (environment ==? "test").

Definition is_loopback_host (host : string) : bool :=
  (host ==? "localhost") || (host ==? "127.0.0.1") || (host ==? "[::1]") || (host ==? "::1").

Definition safe_webhook_endpoint_host_with_policy `{UriLibrary} (value : string)
    (allow_loopback_http : bool) : option string :=
  match parse_uri value with
  | Err _ => None
  | Ok uri =>
      match Uri.query uri, Uri.scheme_str uri, Uri.authority uri with
      | None, Some scheme, Some authority =>
          let host := Uri.host uri in
          if contains "@" authority then None
          else if (host ==? "") || (253 <? String.length host)%nat then None
          else if scheme ==? "https" then Some host
          else if (scheme ==? "http") && allow_loopback_http && is_loopback_host host
          then Some host
          else None
      | _, _, _ => None
      end
  end.

Definition safe_webhook_endpoint_host_for_config `{UriLibrary} (environment value : string)
    : option string :=
  safe_webhook_endpoint_host_with_policy value (allows_local_callback_adapter environment).

Definition safe_webhook_endpoint_host `{UriLibrary} (value : string) : option string :=
  safe_webhook_endpoint_host_with_policy value true.

Definition safe_url_path `{UriLibrary} (value : string) : option string :=
  match parse_uri value with
  | Err _ => None
  | Ok uri => if Uri.path uri ==? "" then None else Some (Uri.path uri)
  end.

Definition mask_secret_ref_id (secret_ref_id : string) : string :=
  if starts_with "sec_" secret_ref_id then "sec_***" else "***".

(** ** The libraries the worker calls

    [serde_json::to_vec], SHA-256 (lower-case hexadecimal), HMAC-SHA-256 with a
    key of any length and RFC 3339 timestamps. *)
Class WebhookLibrary (V : Type) : Type := {
  to_vec : V → result string string;
  sha256_digest : string → string;
  hmac_sha256 : string → string → result string string;
  to_rfc3339 : DateTime → string;
}.

(** ** Records *)

Module NotificationDeliveryTransport.
Inductive t : Set := Http | Synthetic.
Definition as_str (x : t) : string := match x with Http => "http" | Synthetic => "synthetic" end.
End NotificationDeliveryTransport.

Module NotificationDeliveryPlan.
Record t {V : Type} : Type := mk {
  status : string;
  response_status : option Z;
  error_message : option string;
  request_body_sha256 : option string;
  signing_secret_ref_id : option string;
  signature_sha256 : option string;
  delivery_headers : V;
  next_attempt_at : option DateTime;
}.
Arguments t V : clear implicits.
Arguments mk {V}.

Definition success {V} (response_status : option Z) (delivery_headers : V) : t V :=
  mk "succeeded" response_status None None None None delivery_headers None.
Definition failure {V} (status : string) (response_status : option Z) (error_message : string)
    (delivery_headers : V) : t V :=
  mk status response_status (Some error_message) None None None delivery_headers None.
Definition with_next_attempt_at {V} (next : DateTime) (p : t V) : t V :=
  mk (status p) (response_status p) (error_message p) (request_body_sha256 p)
    (signing_secret_ref_id p) (signature_sha256 p) (delivery_headers p) (Some next).
End NotificationDeliveryPlan.

Module WebhookDeliveryResultKind.
Inductive t : Set := Succeeded | RetryableFailed | PermanentFailed.
#[global] Instance eq_dec : EqDecision t.
Proof. solve_decision. Defined.
End WebhookDeliveryResultKind.

Module WebhookDeliveryResult.
Record t : Set := mk {
  kind : WebhookDeliveryResultKind.t;
  response_status : option Z;
  response_status_class : option string;
  timeout_seconds : Z;
}.
End WebhookDeliveryResult.

(** The request without transport and client, which are arguments below. *)
Module WebhookDeliveryRequest.
Record t : Set := mk {
  url : string;
  body : string;
  delivery_id : string;
  event_id : string;
  event_type : string;
  schema : string;
  timestamp : string;
  signature : string;
  timeout_seconds : Z;
}.
End WebhookDeliveryRequest.

(** An HTTP client as the worker uses it: the response status of a request,
    or none when sending fails or times out. *)
Definition HttpClient : Type := WebhookDeliveryRequest.t → option Z.

Definition NOTIFICATION_DELIVERY_MAX_ATTEMPTS : Z := 3.
Definition NOTIFICATION_DELIVERY_RETRY_DELAY_SECONDS : Z := 60.
Definition NOTIFICATION_WEBHOOK_DEFAULT_TIMEOUT_SECONDS : Z := 10.
Definition NOTIFICATION_WEBHOOK_MAX_TIMEOUT_SECONDS : Z := 60.
Definition NOTIFICATION_WEBHOOK_MAX_RETRY_ATTEMPTS : Z := 10.

(** ** Webhook results *)

Definition http_status_class (status : Z) : string :=
  if ((100 <=? status) && (status <=? 199))%Z then "1xx"
  else if ((200 <=? status) && (status <=? 299))%Z then "2xx"
  else if ((300 <=? status) && (status <=? 399))%Z then "3xx"
  else if ((400 <=? status) && (status <=? 499))%Z then "4xx"
  else if ((500 <=? status) && (status <=? 599))%Z then "5xx"
  else "unknown".

Definition webhook_result_from_http_status (status timeout_seconds : Z) : WebhookDeliveryResult.t :=
  let kind :=
    if ((200 <=? status) && (status <=? 299))%Z then WebhookDeliveryResultKind.Succeeded
    else if ((status =? 408) || (status =? 425) || (status =? 429) || (500 <=? status))%Z
    then WebhookDeliveryResultKind.RetryableFailed
    else WebhookDeliveryResultKind.PermanentFailed in
  WebhookDeliveryResult.mk kind (Some status) (Some (http_status_class status)) timeout_seconds.

Definition synthetic_webhook_delivery_result `{UriLibrary} (url : string) (timeout_seconds : Z)
    : WebhookDeliveryResult.t :=
  let host := to_ascii_lowercase (default "" (safe_webhook_endpoint_host url)) in
  if contains "gone" host || contains "permanent" host then
    WebhookDeliveryResult.mk WebhookDeliveryResultKind.PermanentFailed (Some 410%Z) (Some "4xx")
      timeout_seconds
  else if contains "retry" host || contains "unavailable" host || contains "fail" host then
    WebhookDeliveryResult.mk WebhookDeliveryResultKind.RetryableFailed (Some 503%Z) (Some "5xx")
      timeout_seconds
  else
    WebhookDeliveryResult.mk WebhookDeliveryResultKind.Succeeded (Some 204%Z) (Some "2xx")
      timeout_seconds.

Definition execute_webhook_delivery `{UriLibrary} (transport : NotificationDeliveryTransport.t)
    (http_client : option HttpClient) (request : WebhookDeliveryRequest.t)
    : Result WebhookDeliveryResult.t :=
  match transport with
  | NotificationDeliveryTransport.Synthetic =>
      Ok (synthetic_webhook_delivery_result (WebhookDeliveryRequest.url request)
            (WebhookDeliveryRequest.timeout_seconds request))
  | NotificationDeliveryTransport.Http =>
      match http_client with
      | None => Err (GatewayError.Internal "notification_http_client_missing")
      | Some client =>
          Ok match client request with
             | None =>
                 WebhookDeliveryResult.mk WebhookDeliveryResultKind.RetryableFailed None None
                   (WebhookDeliveryRequest.timeout_seconds request)
             | Some status =>
                 webhook_result_from_http_status status
                   (WebhookDeliveryRequest.timeout_seconds request)
             end
      end
  end.

Section delivery.
Context {V : Type} `{JsonLibrary V} `{!WebhookLibrary V} `{UriLibrary}.

(** [i32::try_from(value).ok()]. *)
Definition i32_try_from (z : Z) : option Z :=
  if ((i32_min <=? z) && (z <=? i32_max))%Z then Some z else None.

Definition notification_delivery_max_attempts (sink : NotificationSinkRecord.t V) : Z :=
  let configured : option Z :=
    policy ← json_get (NotificationSinkRecord.endpoint_config sink) "retry_policy";
    value ← get_i64 policy "max_attempts";
    value ← i32_try_from value;
    if ((1 <=? value) && (value <=? NOTIFICATION_WEBHOOK_MAX_RETRY_ATTEMPTS))%Z
    then Some value else None in
  default NOTIFICATION_DELIVERY_MAX_ATTEMPTS configured.

Definition notification_webhook_timeout_seconds (sink : NotificationSinkRecord.t V) : Z :=
  let configured : option Z :=
    value ← json_get (NotificationSinkRecord.endpoint_config sink) "timeout_seconds";
    value ← as_u64 value;
    if ((1 <=? value) && (value <=? NOTIFICATION_WEBHOOK_MAX_TIMEOUT_SECONDS))%Z
    then Some value else None in
  default NOTIFICATION_WEBHOOK_DEFAULT_TIMEOUT_SECONDS configured.

Definition notification_delivery_status_from_result (event : NotificationOutboxEventRecord.t V)
    (sink : NotificationSinkRecord.t V) (kind : WebhookDeliveryResultKind.t) (now : DateTime)
    : string * option string * option DateTime :=
  match kind with
  | WebhookDeliveryResultKind.Succeeded => ("succeeded", None, None)
  | WebhookDeliveryResultKind.PermanentFailed =>
      ("permanent_failed", Some "notification_webhook_permanent_failure", None)
  | WebhookDeliveryResultKind.RetryableFailed =>
      if (notification_delivery_max_attempts sink
          <=? saturating_add_i32 (NotificationOutboxEventRecord.attempt_count event) 1)%Z
      then ("dead_lettered", Some "notification_webhook_retry_exhausted", None)
      else ("retryable_failed", Some "notification_webhook_retryable_failure",
            Some (now + duration_seconds NOTIFICATION_DELIVERY_RETRY_DELAY_SECONDS)%Z)
  end.

Definition sha256_hex (bytes : string) : string := "sha256:" +:+ sha256_digest bytes.

Definition notification_signature (signing_secret timestamp body : string) : Result string :=
  match hmac_sha256 signing_secret (timestamp +:+ "." +:+ body) with
  | Err error =>
      Err (GatewayError.Internal ("failed to initialize notification signer: " +:+ error))
  | Ok mac => Ok ("v1=" +:+ base64_url_no_pad (bytes_of mac))
  end.

(** [json!] of an optional string. *)
Definition json_opt_str (o : option string) : V :=
  match o with None => json_null | Some s => json_str s end.

Definition webhook_delivery_plan (environment : string) (secrets : SecretStore.t)
    (sink : NotificationSinkRecord.t V) (event : NotificationOutboxEventRecord.t V)
    (now : DateTime) (transport : NotificationDeliveryTransport.t)
    (http_client : option HttpClient) : Result (NotificationDeliveryPlan.t V) :=
  url ← ok_or (get_str (NotificationSinkRecord.endpoint_config sink) "url")
          (GatewayError.BadRequest "notification_sink_webhook_url_required");
  host ← ok_or (safe_webhook_endpoint_host_for_config environment url)
           (GatewayError.BadRequest "notification_sink_webhook_url_invalid");
  signing_secret_ref_id ← ok_or (NotificationSinkRecord.signing_secret_ref_id sink)
    (GatewayError.BadRequest "notification_sink_signing_secret_ref_required");
  signing_secret ← ok_or (secret_value secrets signing_secret_ref_id)
    (GatewayError.BadRequest "notification_sink_signing_secret_missing");
  body ← match to_vec (NotificationOutboxEventRecord.payload_document event) with
         | Ok body => Ok body
         | Err error =>
             Err (GatewayError.Internal ("failed to encode notification payload: " +:+ error))
         end;
  let body_sha256 := sha256_hex body in
  let timestamp := to_rfc3339 now in
  signature ← notification_signature signing_secret timestamp body;
  let signature_sha256 := sha256_hex signature in
  let payload_schema :=
    default "gateway.notification.v1"
      (get_str (NotificationOutboxEventRecord.payload_document event) "schema") in
  delivery ← execute_webhook_delivery transport http_client
    (WebhookDeliveryRequest.mk url body
       (NotificationOutboxEventRecord.notification_outbox_event_id event)
       (NotificationOutboxEventRecord.dedupe_key event)
       (NotificationOutboxEventRecord.event_kind event) payload_schema timestamp signature
       (notification_webhook_timeout_seconds sink));
  let '(status, error_message, next_attempt_at) :=
    notification_delivery_status_from_result event sink (WebhookDeliveryResult.kind delivery) now in
  mret (NotificationDeliveryPlan.mk status (WebhookDeliveryResult.response_status delivery)
    error_message (Some body_sha256) (Some signing_secret_ref_id) (Some signature_sha256)
    (json_obj [("transport", json_str "webhook");
       ("transport_mode", json_str (NotificationDeliveryTransport.as_str transport));
       ("url_host", json_str host); ("url_path", json_opt_str (safe_url_path url));
       ("body_sha256", json_str body_sha256); ("signature_algorithm", json_str "hmac-sha256");
       ("signature_sha256", json_str signature_sha256);
       ("timeout_seconds", json_int (WebhookDeliveryResult.timeout_seconds delivery));
       ("response_status_class", json_opt_str (WebhookDeliveryResult.response_status_class delivery));
       ("headers", json_obj
          [("x-gateway-delivery-id",
              json_str (NotificationOutboxEventRecord.notification_outbox_event_id event));
           ("x-gateway-event-id", json_str (NotificationOutboxEventRecord.dedupe_key event));
           ("x-gateway-event-type", json_str (NotificationOutboxEventRecord.event_kind event));
           ("x-gateway-schema", json_str payload_schema);
           ("x-gateway-timestamp", json_str timestamp);
           ("x-gateway-signature", json_str "hmac-sha256:***")]);
       ("signing_secret_ref_id", json_str (mask_secret_ref_id signing_secret_ref_id))])
    next_attempt_at).

(** ** The worker *)

(** The plan for an event, from its sink. *)
Definition delivery_plan (environment : string) (secrets : SecretStore.t)
    (sink : option (NotificationSinkRecord.t V)) (event : NotificationOutboxEventRecord.t V)
    (now : DateTime) (transport : NotificationDeliveryTransport.t)
    (http_client : option HttpClient) : Result (NotificationDeliveryPlan.t V) :=
  match sink with
  | None =>
      Ok (NotificationDeliveryPlan.failure "permanent_failed" None "notification_sink_missing"
            (json_obj [("transport", json_null)]))
  | Some sink =>
      let kind := NotificationSinkRecord.sink_kind sink in
      if NotificationSinkRecord.status sink !=? ResourceStatus.Active then
        Ok (NotificationDeliveryPlan.failure "permanent_failed" None
              "notification_sink_not_active" (json_obj [("transport", json_str kind)]))
      else if kind ==? "stdout" then
        Ok (NotificationDeliveryPlan.success (Some 204%Z)
              (json_obj [("transport", json_str "stdout")]))
      else if kind ==? "disabled" then
        Ok (NotificationDeliveryPlan.failure "permanent_failed" None
              "notification_sink_disabled" (json_obj [("transport", json_str "disabled")]))
      else if kind ==? "webhook" then
        webhook_delivery_plan environment secrets sink event now transport http_client
      else
        Ok (NotificationDeliveryPlan.with_next_attempt_at
              (now + duration_seconds NOTIFICATION_DELIVERY_RETRY_DELAY_SECONDS)%Z
              (NotificationDeliveryPlan.failure "retryable_failed" None
                 "notification_delivery_backend_not_connected"
                 (json_obj [("transport", json_str kind)])))
  end.

Definition deliver_notification_outbox_event (environment : string) (secrets : SecretStore.t)
    (uuid : string) (event : NotificationOutboxEventRecord.t V) (now : DateTime)
    (transport : NotificationDeliveryTransport.t) (http_client : option HttpClient)
    (s : OutboxStore.t V) : Result (NotificationDeliveryAttemptRecord.t V) * OutboxStore.t V :=
  let sink := NotificationOutboxEventRecord.notification_sink_id event
                ≫= λ sink_id, notification_sink sink_id s in
  match delivery_plan environment secrets sink event now transport http_client with
  | Err e => (Err e, s)
  | Ok plan =>
      record_notification_delivery_attempt uuid
        (CreateNotificationDeliveryAttemptRequest.mk
           (NotificationOutboxEventRecord.notification_outbox_event_id event)
           (NotificationOutboxEventRecord.notification_sink_id event)
           (NotificationDeliveryPlan.status plan) (NotificationDeliveryPlan.response_status plan)
           (NotificationDeliveryPlan.error_message plan)
           (NotificationDeliveryPlan.request_body_sha256 plan)
           (NotificationDeliveryPlan.signing_secret_ref_id plan)
           (NotificationDeliveryPlan.signature_sha256 plan)
           (NotificationDeliveryPlan.delivery_headers plan)
           (NotificationDeliveryPlan.next_attempt_at plan)) now s
  end.

(** The loop over the due events; [uuid i] is the id drawn in round [i]. *)
Fixpoint deliver_loop (environment : string) (secrets : SecretStore.t) (uuid : nat → string)
    (i : nat) (events : list (NotificationOutboxEventRecord.t V)) (now : DateTime)
    (transport : NotificationDeliveryTransport.t) (http_client : option HttpClient)
    (attempts : list (NotificationDeliveryAttemptRecord.t V)) (s : OutboxStore.t V)
    : list (NotificationDeliveryAttemptRecord.t V) * OutboxStore.t V :=
  match events with
  | [] => (attempts, s)
  | event :: events' =>
      let '(r, s') := deliver_notification_outbox_event environment secrets (uuid i) event now
                        transport http_client s in
      deliver_loop environment secrets uuid (S i) events' now transport http_client
        (match r with Ok attempt => attempts ++ [attempt] | Err _ => attempts end) s'
  end.

Definition deliver_due_notifications_with_transport (environment : string)
    (secrets : SecretStore.t) (uuid : nat → string) (client : HttpClient) (tenant_id : string)
    (now : DateTime) (limit : nat) (transport : NotificationDeliveryTransport.t)
    (s : OutboxStore.t V) : list (NotificationDeliveryAttemptRecord.t V) * OutboxStore.t V :=
  let http_client :=
    match transport with
    | NotificationDeliveryTransport.Http => Some client
    | NotificationDeliveryTransport.Synthetic => None
    end in
  deliver_loop environment secrets uuid 0 (due_notification_outbox_events tenant_id now limit s)
    now transport http_client [] s.
End delivery.

(** ** One delivery *)

Section worker.
Context {V : Type} `{JsonLibrary V} `{!WebhookLibrary V} `{UriLibrary}.
Context (environment : string) (secrets : SecretStore.t).

(** An event after the worker handled it, given its sink. *)
Definition attempted (sink : option (NotificationSinkRecord.t V)) (now : DateTime)
    (transport : NotificationDeliveryTransport.t) (http_client : option HttpClient)
    (e : NotificationOutboxEventRecord.t V) : NotificationOutboxEventRecord.t V :=
  match delivery_plan environment secrets sink e now transport http_client with
  | Err _ => e
  | Ok plan =>
      NotificationOutboxEventRecord.update
        (default "" (status_after_attempt (NotificationDeliveryPlan.status plan)))
        (saturating_add_i32 (NotificationOutboxEventRecord.attempt_count e) 1)
        (NotificationDeliveryPlan.next_attempt_at plan) now e
  end.

Definition sink_of (s : OutboxStore.t V) (e : NotificationOutboxEventRecord.t V)
    : option (NotificationSinkRecord.t V) :=
  NotificationOutboxEventRecord.notification_sink_id e ≫= λ sink_id, notification_sink sink_id s.

(** What the worker plans: success, a permanent failure, a dead letter, or a
    retry after the delay; nothing else is scheduled. *)
Definition plan_ok (now : DateTime) (plan : NotificationDeliveryPlan.t V) : Prop :=
  let st := NotificationDeliveryPlan.status plan in
  (st = "succeeded" ∨ st = "permanent_failed" ∨ st = "dead_lettered") ∧
    NotificationDeliveryPlan.next_attempt_at plan = None ∨
  st = "retryable_failed" ∧
    NotificationDeliveryPlan.next_attempt_at plan
      = Some (now + duration_seconds NOTIFICATION_DELIVERY_RETRY_DELAY_SECONDS)%Z.

Lemma webhook_plan_cases sink e now transport client plan :
  webhook_delivery_plan environment secrets sink e now transport client = Ok plan →
  ∃ kind, let '(st, msg, next) := notification_delivery_status_from_result e sink kind now in
    NotificationDeliveryPlan.status plan = st ∧ NotificationDeliveryPlan.next_attempt_at plan = next.
Proof.
  unfold webhook_delivery_plan.
  repeat (rewrite bind_ok; intros (? & _ & ?); revert select (_ = Ok plan)).
  revert select WebhookDeliveryResult.t. intros delivery Hp.
  exists (WebhookDeliveryResult.kind delivery).
  destruct (notification_delivery_status_from_result _ _ _ _) as [[st msg] next].
  injection Hp as <-. done.
Qed.

Lemma delivery_plan_ok sink e now transport client plan :
  delivery_plan environment secrets sink e now transport client = Ok plan → plan_ok now plan.
Proof.
  unfold delivery_plan, plan_ok. destruct sink as [sink|]; [|intros [= <-]; left; simpl; auto].
  cbv zeta. destruct (negb _); [intros [= <-]; left; simpl; auto|].
  destruct (_ ==? "stdout"); [intros [= <-]; left; simpl; auto|].
  destruct (_ ==? "disabled"); [intros [= <-]; left; simpl; auto|].
  destruct (_ ==? "webhook"); [|intros [= <-]; right; done].
  intros (kind & Hk)%webhook_plan_cases. unfold notification_delivery_status_from_result in Hk.
  destruct kind; [destruct Hk as [-> ->]; auto| |destruct Hk as [-> ->]; auto].
  destruct (_ <=? _)%Z; destruct Hk as [-> ->]; auto.
Qed.

(** Delivering a stored event: it becomes what [attempted] says, and an attempt
    is recorded exactly when there was a plan. *)
Lemma deliver_one uuid e now transport client (s : OutboxStore.t V) :
  let id := NotificationOutboxEventRecord.notification_outbox_event_id e in
  notification_outbox_event id s = Some e →
  let '(r, s') := deliver_notification_outbox_event environment secrets uuid e now transport client s in
  OutboxStore.notification_sinks s' = OutboxStore.notification_sinks s ∧
  (∀ id', notification_outbox_event id' s' =
     if id' ==? id then Some (attempted (sink_of s e) now transport client e)
     else notification_outbox_event id' s) ∧
  match r with
  | Ok a => NotificationDeliveryAttemptRecord.notification_outbox_event_id a = id ∧
      NotificationDeliveryAttemptRecord.attempt_index a
        = NotificationOutboxEventRecord.attempt_count e ∧
      OutboxStore.notification_delivery_attempts s'
        = OutboxStore.notification_delivery_attempts s ++ [a]
  | Err _ => s' = s
  end.
Proof.
  intros id He. unfold deliver_notification_outbox_event. fold (sink_of s e). unfold attempted.
  destruct (delivery_plan _ _ _ _ _ _ _) as [plan|err] eqn:Ep.
  2:{ split_and!; [done| |done]. intros id'. case_bool_decide; by subst. }
  apply delivery_plan_ok in Ep. unfold record_notification_delivery_attempt. cbv zeta. simpl.
  unfold notification_outbox_event in He. fold id. rewrite He.
  assert (∀ st, status_after_attempt (NotificationDeliveryPlan.status plan) = Some st →
    (if NotificationDeliveryPlan.status plan ==? "retryable_failed"
     then NotificationDeliveryPlan.next_attempt_at plan
     else if NotificationDeliveryPlan.status plan ==? "started"
     then NotificationOutboxEventRecord.next_attempt_at e else None)
    = NotificationDeliveryPlan.next_attempt_at plan) as Hnext.
  { intros st _. destruct Ep as [[[->|[->| ->]] ->]|[-> ->]]; done. }
  destruct (status_after_attempt _) as [st|] eqn:Est.
  - rewrite (Hnext st) by done. simpl. split_and!; try done. intros id'.
    unfold notification_outbox_event. simpl. subst id.
    clear Hnext. case_bool_decide as E; [rewrite E; by rewrite lookup_insert_eq|by rewrite lookup_insert_ne].
  - exfalso. revert Est. destruct Ep as [[[->|[->| ->]] _]|[-> _]]; done.
Qed.

(** The events that got a plan are the ones attempted. *)
Definition planned (s : OutboxStore.t V) (now : DateTime)
    (transport : NotificationDeliveryTransport.t) (client : option HttpClient)
    (e : NotificationOutboxEventRecord.t V) : bool :=
  is_ok (delivery_plan environment secrets (sink_of s e) e now transport client).

Lemma deliver_reachable uuid e now transport client s :
  outbox_reachable s →
  outbox_reachable (deliver_notification_outbox_event environment secrets uuid e now transport client s).2.
Proof.
  intros Hr. unfold deliver_notification_outbox_event. destruct (delivery_plan _ _ _ _ _ _ _); [|done].
  eapply reach_next; [done|apply step_attempt].
Qed.

(** The whole loop, over distinct stored events. *)
Lemma deliver_loop_spec uuid i events now transport client acc s :
  NoDup (NotificationOutboxEventRecord.notification_outbox_event_id <$> events) →
  (∀ e, e ∈ events → notification_outbox_event
     (NotificationOutboxEventRecord.notification_outbox_event_id e) s = Some e) →
  outbox_reachable s →
  ∃ new s', deliver_loop environment secrets uuid i events now transport client acc s = (acc ++ new, s') ∧
    outbox_reachable s' ∧
    OutboxStore.notification_sinks s' = OutboxStore.notification_sinks s ∧
    (∀ e, e ∈ events → notification_outbox_event
       (NotificationOutboxEventRecord.notification_outbox_event_id e) s'
       = Some (attempted (sink_of s e) now transport client e)) ∧
    (∀ id, id ∉ NotificationOutboxEventRecord.notification_outbox_event_id <$> events →
       notification_outbox_event id s' = notification_outbox_event id s) ∧
    (λ a, (NotificationDeliveryAttemptRecord.notification_outbox_event_id a,
           NotificationDeliveryAttemptRecord.attempt_index a)) <$> new
      = (λ e, (NotificationOutboxEventRecord.notification_outbox_event_id e,
               NotificationOutboxEventRecord.attempt_count e))
          <$> List.filter (planned s now transport client) events ∧
    OutboxStore.notification_delivery_attempts s'
      = OutboxStore.notification_delivery_attempts s ++ new.
Proof.
  revert i acc s. induction events as [|e events IH]; intros i acc s Hnd Hst Hr.
  { exists [], s. rewrite !(right_id_L [] (++)). split_and!; try done. set_solver. }
  rewrite fmap_cons, NoDup_cons in Hnd. destruct Hnd as [Hfresh Hnd].
  cbn [deliver_loop]. pose proof (deliver_one (uuid i) e now transport client s) as Ho.
  pose proof (deliver_reachable (uuid i) e now transport client s Hr) as Hr1.
  assert (planned s now transport client e =
    is_ok (deliver_notification_outbox_event environment secrets (uuid i) e now transport client s).1)
    as Hp.
  { unfold planned, deliver_notification_outbox_event. fold (sink_of s e).
    destruct (delivery_plan _ _ _ _ _ _ _) as [plan|] eqn:Ep; [|done].
    apply delivery_plan_ok in Ep. unfold record_notification_delivery_attempt. simpl.
    unfold notification_outbox_event in Hst. rewrite Hst by set_solver.
    by destruct Ep as [[[->|[->| ->]] ->]|[-> ->]]. }
  destruct (deliver_notification_outbox_event _ _ _ _ _ _ _ s) as [r s1].
  destruct Ho as (Hsk & Hev & Ha); [apply Hst; set_solver|]. simpl in Hr1, Hp.
  assert (∀ e', sink_of s1 e' = sink_of s e') as Hsink.
  { intros e'. unfold sink_of, notification_sink. by rewrite Hsk. }
  assert (∀ e', planned s1 now transport client e' = planned s now transport client e') as Hpl.
  { intros e'. unfold planned. by rewrite Hsink. }
  destruct (IH (Datatypes.S i) (match r with Ok a => acc ++ [a] | Err _ => acc end) s1)
    as (new & s' & -> & Hr' & Hsk' & He' & Hid' & Hnew & Hatt); [done| |done|].
  { intros e' He'. rewrite Hev, bool_decide_false; [apply Hst; set_solver|].
    intros E. apply Hfresh. rewrite <- E. by apply list_elem_of_fmap_2. }
  exists (match r with Ok a => [a] | Err _ => [] end ++ new), s'. split_and!.
  - f_equal. destruct r; simpl; [by rewrite <- (assoc_L (++))|done].
  - done.
  - congruence.
  - intros e' [->|He0]%elem_of_cons; [|by rewrite He', Hsink].
    rewrite Hid' by done. by rewrite Hev, bool_decide_true.
  - intros id Hid. rewrite fmap_cons in Hid. rewrite Hid', Hev, bool_decide_false by set_solver. done.
  - rewrite fmap_app, Hnew. cbn [List.filter].
    rewrite (List.filter_ext _ _ Hpl), Hp. destruct r as [a|]; [|done]. simpl.
    destruct Ha as (-> & -> & _). done.
  - rewrite Hatt. destruct r as [a|]; [destruct Ha as (_ & _ & ->); by rewrite <- (assoc_L (++))|by subst].
Qed.

Lemma NoDup_fmap_filter {A B} (f : A → B) (p : A → bool) l :
  NoDup (f <$> l) → NoDup (f <$> List.filter p l).
Proof.
  induction l as [|x l IH]; [done|]. rewrite fmap_cons, NoDup_cons. intros [Hx Hl]. cbn [List.filter].
  destruct (p x); [|by apply IH]. rewrite fmap_cons, NoDup_cons. split; [|by apply IH].
  intros (y & E & [Hy _]%filter_iff)%list_elem_of_fmap. apply Hx. rewrite E. by apply list_elem_of_fmap_2.
Qed.

Lemma NoDup_fmap_take {A B} (f : A → B) n l : NoDup (f <$> l) → NoDup (f <$> take n l).
Proof.
  intros Hl. rewrite <- (take_drop n l), fmap_app in Hl. by apply list.NoDup_app in Hl as (? & _ & _).
Qed.

(** The due events are stored, distinct, and all of them when the limit allows. *)
Lemma due_spec tenant now limit (s : OutboxStore.t V) :
  outbox_ok s →
  let due := due_notification_outbox_events tenant now limit s in
  NoDup (NotificationOutboxEventRecord.notification_outbox_event_id <$> due) ∧
  (∀ e, e ∈ due → is_due tenant now e = true ∧ notification_outbox_event
     (NotificationOutboxEventRecord.notification_outbox_event_id e) s = Some e) ∧
  (size (OutboxStore.notification_outbox_events s) ≤ limit →
   ∀ id e, notification_outbox_event id s = Some e → is_due tenant now e = true → e ∈ due).
Proof.
  intros Hok due. unfold due, due_notification_outbox_events.
  set (values := (map_to_list (OutboxStore.notification_outbox_events s)).*2).
  assert (∀ e, e ∈ values → notification_outbox_event
    (NotificationOutboxEventRecord.notification_outbox_event_id e) s = Some e) as Hval.
  { intros e ([id e'] & -> & Hin%elem_of_map_to_list)%list_elem_of_fmap. simpl.
    by rewrite (ok_id s Hok id e'). }
  assert (NoDup (NotificationOutboxEventRecord.notification_outbox_event_id <$> values)) as Hnd.
  { unfold values. rewrite <- list_fmap_compose.
    rewrite (list_fmap_ext _ fst); [apply NoDup_fst_map_to_list|].
    intros i [id e] Hl%list_elem_of_lookup_2%elem_of_map_to_list. simpl. by apply (ok_id s Hok). }
  split_and!.
  - apply NoDup_fmap_take. rewrite (sort_by_perm due_order). by apply NoDup_fmap_filter.
  - intros e He. assert (e ∈ List.filter (is_due tenant now) values) as [Hv Hd]%filter_iff.
    { rewrite <- (sort_by_elem due_order). eapply elem_of_subseteq; [|exact He].
      intros x Hx. rewrite <- (take_drop limit (sort_by due_order _)). set_solver. }
    auto.
  - intros Hlim id e He Hd. rewrite take_ge.
    + rewrite sort_by_elem, filter_iff. split; [|done]. apply list_elem_of_fmap.
      exists (id, e). split; [done|]. by apply elem_of_map_to_list.
    + rewrite sort_by_length. etrans; [apply List.filter_length_le|]. unfold values.
      by rewrite length_fmap, length_map_to_list.
Qed.

(** The delivery worker handles due events once: over a reachable outbox, a
    tick attempts every due event within the limit exactly once and in order,
    whatever happened to the others; an attempted event has its count raised
    and its status set by the attempt, an event whose plan could not be built
    stays as it is, and no other event changes.  The attempts it returns are
    the ones it recorded, with the count before the attempt as their index. *)
Theorem worker_tick_exact uuid send tenant now limit transport (s : OutboxStore.t V) :
  outbox_reachable s →
  let due := due_notification_outbox_events tenant now limit s in
  let client := match transport with
                | NotificationDeliveryTransport.Http => Some send
                | NotificationDeliveryTransport.Synthetic => None
                end in
  let '(attempts, s') := deliver_due_notifications_with_transport environment secrets uuid send
                           tenant now limit transport s in
  (∀ e, e ∈ due → is_due tenant now e = true ∧
     notification_outbox_event (NotificationOutboxEventRecord.notification_outbox_event_id e) s'
       = Some (attempted (sink_of s e) now transport client e)) ∧
  (∀ id e, notification_outbox_event id s = Some e → e ∉ due →
     notification_outbox_event id s' = Some e) ∧
  (λ a, (NotificationDeliveryAttemptRecord.notification_outbox_event_id a,
         NotificationDeliveryAttemptRecord.attempt_index a)) <$> attempts
    = (λ e, (NotificationOutboxEventRecord.notification_outbox_event_id e,
             NotificationOutboxEventRecord.attempt_count e))
        <$> List.filter (planned s now transport client) due ∧
  OutboxStore.notification_delivery_attempts s'
    = OutboxStore.notification_delivery_attempts s ++ attempts.
Proof.
  intros Hr. cbv zeta. pose proof (reachable_ok s Hr) as Hok.
  unfold deliver_due_notifications_with_transport.
  destruct (due_spec tenant now limit s Hok) as (Hnd & Hdue & _).
  set (due := due_notification_outbox_events tenant now limit s) in *.
  match goal with |- context [deliver_loop _ _ _ _ _ _ _ ?c _ _] =>
    destruct (deliver_loop_spec uuid 0 due now transport c [] s)
      as (new & s' & -> & _ & _ & He & Hid & Hnew & Hatt); [done|intros; by apply Hdue|done|] end.
  simpl. split_and!; [|..|done|done].
  - intros e Hin. split; [by apply Hdue|by apply He].
  - intros id e Hl Hnin. rewrite Hid; [done|]. intros (e' & -> & Hin)%list_elem_of_fmap.
    destruct (Hdue e' Hin) as [_ Hst]. congruence.
Qed.

(** ** Retries end *)

(** A webhook sink and payload for which a plan can always be built. *)
Definition deliverable (sink : NotificationSinkRecord.t V) (payload : V) : Prop :=
  NotificationSinkRecord.status sink = ResourceStatus.Active ∧
  NotificationSinkRecord.sink_kind sink = "webhook" ∧
  ∃ url secret_id secret body,
    get_str (NotificationSinkRecord.endpoint_config sink) "url" = Some url ∧
    is_Some (safe_webhook_endpoint_host_for_config environment url) ∧
    NotificationSinkRecord.signing_secret_ref_id sink = Some secret_id ∧
    secret_value secrets secret_id = Some secret ∧
    to_vec payload = Ok body ∧
    ∀ message, ∃ mac, hmac_sha256 (WebhookLibrary := WebhookLibrary0) secret message = Ok mac.

(** The client of a transport. *)
Definition client_of (transport : NotificationDeliveryTransport.t) (send : HttpClient)
    : option HttpClient :=
  match transport with
  | NotificationDeliveryTransport.Http => Some send
  | NotificationDeliveryTransport.Synthetic => None
  end.

Lemma deliverable_plan sink e now transport send :
  deliverable sink (NotificationOutboxEventRecord.payload_document e) →
  ∃ plan, delivery_plan environment secrets (Some sink) e now transport
            (client_of transport send) = Ok plan ∧
    ∃ kind, let '(st, msg, next) := notification_delivery_status_from_result e sink kind now in
      NotificationDeliveryPlan.status plan = st ∧ NotificationDeliveryPlan.next_attempt_at plan = next.
Proof.
  intros (Hst & Hk & url & sid & secret & body & Hurl & [host Hhost] & Hsid & Hsec & Hbody & Hmac).
  assert (∃ plan, webhook_delivery_plan environment secrets sink e now transport
    (client_of transport send) = Ok plan) as [plan Hplan].
  { unfold webhook_delivery_plan. rewrite Hurl, Hsid. simpl. rewrite Hhost. simpl. rewrite Hsec. simpl.
    rewrite Hbody. simpl. unfold notification_signature.
    destruct (Hmac (to_rfc3339 now +:+ "." +:+ body)) as [mac Hm]. rewrite Hm. simpl.
    unfold execute_webhook_delivery. destruct transport; simpl;
      destruct (notification_delivery_status_from_result _ _ _ _) as [[? ?] ?]; eauto. }
  exists plan. split; [|by eapply webhook_plan_cases].
  unfold delivery_plan. cbv zeta. rewrite Hst, Hk. exact Hplan.
Qed.

Lemma max_attempts_range (sink : NotificationSinkRecord.t V) :
  (1 ≤ notification_delivery_max_attempts sink ≤ NOTIFICATION_WEBHOOK_MAX_RETRY_ATTEMPTS)%Z.
Proof.
  unfold notification_delivery_max_attempts. cbv zeta.
  set (configured := (_ ≫= _)). assert (∀ v, configured = Some v →
    1 ≤ v ≤ NOTIFICATION_WEBHOOK_MAX_RETRY_ATTEMPTS)%Z as Hc.
  { intros v. unfold configured. intros (policy & _ & Hv)%bind_Some.
    apply bind_Some in Hv as (w & _ & Hw). apply bind_Some in Hw as (x & _ & Hx).
    destruct (_ && _) eqn:E; [|done]. injection Hx as <-. btrue. lia. }
  destruct configured as [v|]; simpl; [by apply Hc|].
  unfold NOTIFICATION_DELIVERY_MAX_ATTEMPTS, NOTIFICATION_WEBHOOK_MAX_RETRY_ATTEMPTS. lia.
Qed.

(** One attempt settles the event or brings it closer to its limit. *)
Lemma attempted_progress sink e now transport send :
  deliverable sink (NotificationOutboxEventRecord.payload_document e) →
  (0 ≤ NotificationOutboxEventRecord.attempt_count e ≤ i32_max)%Z →
  let e' := attempted (Some sink) now transport (client_of transport send) e in
  let n := NotificationOutboxEventRecord.attempt_count in
  NotificationOutboxEventRecord.tenant_id e' = NotificationOutboxEventRecord.tenant_id e ∧
  NotificationOutboxEventRecord.notification_sink_id e'
    = NotificationOutboxEventRecord.notification_sink_id e ∧
  NotificationOutboxEventRecord.payload_document e' = NotificationOutboxEventRecord.payload_document e ∧
  (n e' = saturating_add_i32 (n e) 1)%Z ∧
  (final_status (NotificationOutboxEventRecord.status e') = true ∨
   NotificationOutboxEventRecord.status e' = "retryable_failed" ∧
   NotificationOutboxEventRecord.next_attempt_at e'
     = Some (now + duration_seconds NOTIFICATION_DELIVERY_RETRY_DELAY_SECONDS)%Z ∧
   (n e' = n e + 1)%Z ∧ (n e' < notification_delivery_max_attempts sink)%Z).
Proof.
  intros Hd Hn. cbv zeta. destruct (deliverable_plan sink e now transport send Hd)
    as (plan & Hplan & kind & Hk).
  unfold attempted. rewrite Hplan. simpl. split_and!; [done..|].
  unfold notification_delivery_status_from_result in Hk. pose proof (max_attempts_range sink) as Hmax.
  unfold NOTIFICATION_WEBHOOK_MAX_RETRY_ATTEMPTS in Hmax.
  destruct kind; [destruct Hk as [-> ->]; by left| |destruct Hk as [-> ->]; by left].
  destruct (Z.leb_spec (notification_delivery_max_attempts sink)
    (saturating_add_i32 (NotificationOutboxEventRecord.attempt_count e) 1));
    destruct Hk as [-> ->]; [by left|]. right. split_and!; [done|done| |done].
  unfold saturating_add_i32, i32_min, i32_max in *. lia.
Qed.

(** Successive ticks of the worker, each with its time, ids and network. *)
Fixpoint run_worker (tenant : string) (limit : nat) (transport : NotificationDeliveryTransport.t)
    (ticks : list (DateTime * (nat → string) * HttpClient)) (s : OutboxStore.t V) : OutboxStore.t V :=
  match ticks with
  | [] => s
  | (now, uuid, send) :: ticks' =>
      run_worker tenant limit transport ticks'
        (deliver_due_notifications_with_transport environment secrets uuid send tenant now limit
           transport s).2
  end.

(** Ticks at least a retry delay apart, the first not before [t]. *)
Fixpoint spaced (t : DateTime) (ticks : list (DateTime * (nat → string) * HttpClient)) : Prop :=
  match ticks with
  | [] => True
  | (now, _, _) :: ticks' =>
      (t ≤ now)%Z ∧
      spaced (now + duration_seconds NOTIFICATION_DELIVERY_RETRY_DELAY_SECONDS)%Z ticks'
  end.

(** One tick, seen from one event that is deliverable. *)
Lemma tick_event tenant limit transport now uuid send sink id e (s : OutboxStore.t V) :
  outbox_reachable s → notification_outbox_event id s = Some e →
  sink_of s e = Some sink → NotificationOutboxEventRecord.tenant_id e = tenant →
  size (OutboxStore.notification_outbox_events s) ≤ limit →
  let s' := (deliver_due_notifications_with_transport environment secrets uuid send tenant now limit
               transport s).2 in
  outbox_reachable s' ∧
  OutboxStore.notification_sinks s' = OutboxStore.notification_sinks s ∧
  size (OutboxStore.notification_outbox_events s') ≤ limit ∧
  notification_outbox_event id s'
    = Some (if is_due tenant now e
            then attempted (Some sink) now transport (client_of transport send) e else e).
Proof.
  intros Hr He Hsink Ht Hlim. cbv zeta. pose proof (reachable_ok s Hr) as Hok.
  unfold deliver_due_notifications_with_transport. fold (client_of transport send).
  destruct (due_spec tenant now limit s Hok) as (Hnd & Hdue & Hall). specialize (Hall Hlim).
  set (due := due_notification_outbox_events tenant now limit s) in *.
  destruct (deliver_loop_spec uuid 0 due now transport (client_of transport send) [] s)
    as (new & s' & -> & Hr' & Hsk & Hin & Hid & _ & _); [done|intros; by apply Hdue|done|].
  simpl. split_and!; [done|done| |].
  - rewrite <- (size_dom (D := gset string)). etrans; [|exact Hlim]. rewrite <- (size_dom (D := gset string)).
    apply subseteq_size. intros id' Hid'%elem_of_dom. apply elem_of_dom.
    destruct (decide (id' ∈ NotificationOutboxEventRecord.notification_outbox_event_id <$> due)) as [Hd|Hd].
    + apply list_elem_of_fmap in Hd as (e' & -> & He'%Hdue). destruct He' as [_ He']. eauto.
    + unfold notification_outbox_event in Hid. by rewrite <- Hid.
  - destruct (is_due tenant now e) eqn:Ed.
    + rewrite <- Hsink, <- (ok_id s Hok id e He). apply Hin. by eapply Hall.
    + rewrite Hid; [done|]. intros (e' & -> & He')%list_elem_of_fmap.
      apply Hdue in He' as [Hd' He']. congruence.
Qed.

Lemma final_not_due tenant now (e : NotificationOutboxEventRecord.t V) :
  final_status (NotificationOutboxEventRecord.status e) = true → is_due tenant now e = false.
Proof.
  unfold final_status, is_due. intros Hf. apply andb_false_intro1, andb_false_intro2.
  repeat case_bool_decide; simpl in *; congruence.
Qed.

(** C38. Retries of a webhook end: in an outbox that fits the batch of one tick, a
    due, undelivered event of a configured webhook sink that can be delivered to,
    handled by ticks at least a retry delay apart, is delivered, permanently
    failed or dead-lettered after at most as many ticks as the sink allows
    attempts, which is between 1 and 10, whatever the network answers; and it is
    never attempted more often than that. *)
Theorem webhook_retries_end tenant limit transport ticks sink id e t (s : OutboxStore.t V) :
  outbox_reachable s → notification_outbox_event id s = Some e →
  NotificationOutboxEventRecord.tenant_id e = tenant → sink_of s e = Some sink →
  deliverable sink (NotificationOutboxEventRecord.payload_document e) →
  is_due tenant t e = true → spaced t ticks →
  size (OutboxStore.notification_outbox_events s) ≤ limit →
  (NotificationOutboxEventRecord.attempt_count e < notification_delivery_max_attempts sink)%Z →
  (notification_delivery_max_attempts sink - NotificationOutboxEventRecord.attempt_count e
     ≤ Z.of_nat (length ticks))%Z →
  ∃ e', notification_outbox_event id (run_worker tenant limit transport ticks s) = Some e' ∧
    final_status (NotificationOutboxEventRecord.status e') = true ∧
    (NotificationOutboxEventRecord.attempt_count e' ≤ notification_delivery_max_attempts sink
       ≤ NOTIFICATION_WEBHOOK_MAX_RETRY_ATTEMPTS)%Z.
Proof.
  pose proof (max_attempts_range sink) as Hmax. set (m := notification_delivery_max_attempts sink) in *.
  assert (∀ ticks s e, outbox_reachable s → notification_outbox_event id s = Some e →
    NotificationOutboxEventRecord.tenant_id e = tenant → sink_of s e = Some sink →
    size (OutboxStore.notification_outbox_events s) ≤ limit →
    final_status (NotificationOutboxEventRecord.status e) = true →
    notification_outbox_event id (run_worker tenant limit transport ticks s) = Some e) as Hfinal.
  { clear ticks s e. induction ticks as [|[[now uuid] send] ticks IH]; intros s e Hr He Ht Hs Hl Hf; [done|].
    destruct (tick_event tenant limit transport now uuid send sink id e s Hr He Hs Ht Hl)
      as (Hr' & Hsk & Hl' & He'). rewrite (final_not_due tenant now e Hf) in He'.
    apply IH; [done..| |done|done]. unfold sink_of, notification_sink in *. by rewrite Hsk. }
  revert t s e. induction ticks as [|[[now uuid] send] ticks IH];
    intros t s e Hr He Ht Hs Hd Hdue Hsp Hl Hn Hlen; [simpl in Hlen; lia|].
  destruct Hsp as [Hnow Hsp].
  destruct (tick_event tenant limit transport now uuid send sink id e s Hr He Hs Ht Hl)
    as (Hr' & Hsk & Hl' & He').
  assert (is_due tenant now e = true) as Hdue'.
  { revert Hdue. unfold is_due. rewrite !andb_true_iff. intros [? Hn']. split; [done|].
    destruct (NotificationOutboxEventRecord.next_attempt_at e); [btrue; lia|done]. }
  rewrite Hdue' in He'. cbn [run_worker].
  destruct (ok_event s (reachable_ok s Hr) id e He) as (_ & _ & Hcount).
  destruct (attempted_progress sink e now transport send Hd Hcount) as (Ht' & Hs' & Hp' & Hn' & Hcase).
  set (e' := attempted (Some sink) now transport (client_of transport send) e) in *.
  assert (sink_of (deliver_due_notifications_with_transport environment secrets uuid send tenant now
    limit transport s).2 e' = Some sink) as Hsink'.
  { revert Hs. unfold sink_of, notification_sink. by rewrite Hsk, Hs'. }
  assert (NotificationOutboxEventRecord.attempt_count e' ≤ m)%Z as Hle.
  { rewrite Hn'. unfold saturating_add_i32, i32_min, i32_max in *. lia. }
  destruct Hcase as [Hf|(Hst & Hnext & Hn1 & Hlt)].
  - exists e'. split_and!; [|done|done|lia]. apply Hfinal; [done|done|by rewrite Ht', Ht|done|done|done].
  - eapply (IH (now + duration_seconds NOTIFICATION_DELIVERY_RETRY_DELAY_SECONDS)%Z _ e');
      [done|done|by rewrite Ht', Ht|done|by rewrite Hp'| |done|done|done|simpl in Hlen; lia].
    unfold is_due. rewrite Hst, Hnext, Ht', Ht, bool_decide_true by done. simpl. apply Z.leb_le. lia.
Qed.
End worker.

(** ** Witnesses *)

Module DeliverySample.
#[local] Open Scope Z_scope.

#[global] Instance webhooks : WebhookLibrary Tree.t := {
  to_vec _ := Ok "null";
  sha256_digest s := s;
  hmac_sha256 k m := Ok (k +:+ m);
  to_rfc3339 _ := "2024-01-01T00:00:00Z";
}.
#[global] Instance uris : UriLibrary := λ _,
  Ok (Uri.mk (Some "https") (Some "retry.example") "retry.example" None "/gateway").
Definition secrets : SecretStore.t :=
  SecretStore.mk
    {["sec_1" := SecretRefRecord.mk "sec_1" "ten" None None "webhook" "memory" "" "***" "fp"
                   SecretRefStatus.Active 1 1 "admin" 0 0]}
    {["sec_1" := "key"]} (λ _, None).
Definition delay : Z := duration_seconds NOTIFICATION_DELIVERY_RETRY_DELAY_SECONDS.
Definition tick (now : Z) : DateTime * (nat → string) * HttpClient :=
  (now, λ _, "a", λ _, Some 503).
Definition ticks : list (DateTime * (nat → string) * HttpClient) :=
  [tick 10; tick (10 + delay); tick (10 + delay + delay)].
Definition event : NotificationOutboxEventRecord.t Tree.t :=
  NotificationOutboxEventRecord.mk "nob_1" "ten" None None None (Some "ns_1")
    "gateway.budget.hard_block" "k1" Tree.Null "pending" 0 (Some 10) 10 10.
End DeliverySample.

Lemma worker_tick_exact_witness :
  NotificationDeliveryAttemptRecord.attempt_index <$>
    (deliver_due_notifications_with_transport "production" DeliverySample.secrets (λ _, "a")
       (λ _, Some 503%Z) "ten" 10 5 NotificationDeliveryTransport.Http OutboxSample.store).1 = [0%Z].
Proof.
  pose proof (worker_tick_exact "production" DeliverySample.secrets (λ _, "a") (λ _, Some 503%Z)
    "ten" 10 5 NotificationDeliveryTransport.Http OutboxSample.store OutboxSample.sample_outbox_reachable) as H.
  cbv beta zeta iota in H.
  destruct (deliver_due_notifications_with_transport _ _ _ _ _ _ _ _ OutboxSample.store)
    as [attempts s']. destruct H as (_ & _ & H & _). simpl.
  match type of H with _ = _ <$> ?l =>
    replace l with [DeliverySample.event] in H by (vm_compute; reflexivity) end.
  destruct attempts as [|a [|]]; [discriminate H| |discriminate H].
  injection H as _ H. simpl. rewrite H. reflexivity.
Defined.

Lemma webhook_retries_end_witness :
  ∃ e', notification_outbox_event "nob_1"
          (run_worker "production" DeliverySample.secrets "ten" 5 NotificationDeliveryTransport.Http
             DeliverySample.ticks OutboxSample.store) = Some e' ∧
    final_status (NotificationOutboxEventRecord.status e') = true.
Proof.
  destruct (webhook_retries_end "production" DeliverySample.secrets "ten" 5
    NotificationDeliveryTransport.Http DeliverySample.ticks OutboxSample.sink "nob_1"
    DeliverySample.event 10 OutboxSample.store OutboxSample.sample_outbox_reachable) as (e' & He & Hf & _).
  - reflexivity.
  - reflexivity.
  - reflexivity.
  - split; [reflexivity|]. split; [reflexivity|].
    exists "https://retry.example/gateway", "sec_1", "key", "null".
    split_and!; [reflexivity|eexists; reflexivity|reflexivity..|]. intros m. eexists. reflexivity.
  - reflexivity.
  - vm_compute. repeat split; congruence.
  - vm_compute. lia.
  - vm_compute. reflexivity.
  - vm_compute. congruence.
  - exists e'. split; [exact He|exact Hf].
Defined.

(** An event whose plan cannot be built leaves no trace: it is due again at
    every tick, with no attempt recorded and no count towards its limit. *)
Theorem misconfigured_sink_never_settles :
  let s := (append_notification_outbox_event "1" (OutboxSample.request "k1") 10 OutboxSample.empty).2 in
  let no_secret := SecretStore.mk ∅ ∅ (λ _, None) in
  deliver_due_notifications_with_transport "production" no_secret (λ _, "a") (λ _, Some 204%Z)
    "ten" 99 5 NotificationDeliveryTransport.Http s = ([], s) ∧
  length (due_notification_outbox_events "ten" 99 5 s) = 1.
Proof. split; reflexivity. Qed.
