(* ===== verification/Terminal.v ===== *)
(** * Terminal accounting

    What [service.rs] does when a provider answered: normalize the usage, price
    it, record the usage event, add tokens and stream time to the quota
    counters, and notify subscribers of every budget threshold the request
    crossed. *)

From stdpp Require Import pretty.
From Stdlib Require Import Sorting.Sorted.
From S2P Require Import Prelude Order Domain Action Routing Json Usage.
From S2P Require Import Pricing PolicyStore RuntimePolicy PolicyFacts Outbox.

(** ** Records *)

Module RuntimeIngressResponse.
Record t {V : Type} : Type := mk {
  protocol_family : ProtocolFamily.t;
  authorization : AuthorizationDecision.t;
  body : V;
  streaming : bool;
}.
Arguments t V : clear implicits.
Arguments mk {V}.
End RuntimeIngressResponse.

Module TerminalUsageInput.
Record t {V : Type} : Type := mk {
  replay_case : GatewayReplayCase.t;
  route_decision_id : string;
  selected : SelectedRouteEvidence.t;
  requested_model : string;
  upstream_model_id : string;
  pricing_sku_id : option string;
  response : RuntimeIngressResponse.t V;
  started_at : DateTime;
  ended_at : DateTime;
}.
Arguments t V : clear implicits.
Arguments mk {V}.
End TerminalUsageInput.

Module RuntimeBudgetThreshold.
Record t : Set := mk {
  event_kind : string;
  threshold_kind : string;
  reason : string;
  value : Z;
}.
#[global] Instance eq_dec : EqDecision t.
Proof. solve_decision. Defined.
End RuntimeBudgetThreshold.

(** ** Budget thresholds *)

(** [Vec::dedup]: drop an element equal to the one kept before it. *)
Fixpoint dedup_from {A} `{EqDecision A} (last : A) (l : list A) : list A :=
  match l with
  | [] => []
  | x :: l' => if x ==? last then dedup_from last l' else x :: dedup_from x l'
  end.
Definition dedup {A} `{EqDecision A} (l : list A) : list A :=
  match l with [] => [] | x :: l' => x :: dedup_from x l' end.

Definition threshold_order : RuntimeBudgetThreshold.t → RuntimeBudgetThreshold.t → comparison :=
  cmp_then (cmp_on RuntimeBudgetThreshold.value Z.compare)
    (cmp_on RuntimeBudgetThreshold.threshold_kind String.compare).

Definition runtime_budget_terminal_thresholds (policy : BudgetPolicyRecord.t)
    : list RuntimeBudgetThreshold.t :=
  let soft := match BudgetPolicyRecord.soft_limit policy with
              | Some v => [RuntimeBudgetThreshold.mk "gateway.budget.soft_limit_reached" "soft_limit"
                             "soft_limit_reached" v]
              | None => []
              end in
  let hard := match BudgetPolicyRecord.hard_limit policy with
              | Some v => [RuntimeBudgetThreshold.mk "gateway.budget.hard_limit_reached" "hard_limit"
                             "hard_limit_reached" v]
              | None => []
              end in
  let others := (λ v, RuntimeBudgetThreshold.mk "gateway.budget.threshold_reached" "threshold"
                        "threshold_reached" v) <$> BudgetPolicyRecord.thresholds policy in
  dedup (sort_by threshold_order (soft ++ hard ++ others)).

(** The test of the inner loop. *)
Definition crosses (previous current : Z) (threshold : RuntimeBudgetThreshold.t) : bool :=
  (previous <? RuntimeBudgetThreshold.value threshold)%Z
  && (RuntimeBudgetThreshold.value threshold <=? current)%Z.

Section terminal.
Context {V : Type} `{JsonLibrary V} `{ChronoCalendar}.

Definition runtime_budget_terminal_value (policy : BudgetPolicyRecord.t)
    (usage_payload cost_payload : V) : Z :=
  let kind := BudgetPolicyRecord.limit_kind policy in
  if kind ==? "requests" then 1%Z
  else if kind ==? "tokens" then terminal_usage_token_count usage_payload
  else if kind ==? "cost" then get_i64_or_0 cost_payload "total_cost"
  else 0%Z.

Definition json_optional_str (o : option string) : V :=
  match o with None => json_null | Some s => json_str s end.

Definition threshold_payload (actor : AuthenticatedActor.t) (input : TerminalUsageInput.t V)
    (policy : BudgetPolicyRecord.t) (threshold : RuntimeBudgetThreshold.t)
    (previous_value current_value : Z) : V :=
  let selected := TerminalUsageInput.selected input in
  json_obj [("schema", json_str "gateway.notification.runtime_budget_threshold.v1");
    ("event_type", json_str (RuntimeBudgetThreshold.event_kind threshold));
    ("event_family", json_str "budget");
    ("tenant_id", json_str (AuthenticatedActor.tenant_id actor));
    ("organization_id", json_optional_str (AuthenticatedActor.organization_id actor));
    ("project_id", json_optional_str (AuthenticatedActor.project_id actor));
    ("scope", json_obj [("kind", json_str (BudgetPolicyRecord.scope_kind policy));
       ("id", json_str (BudgetPolicyRecord.scope_id policy))]);
    ("request", json_obj [("request_id", json_str (AuthenticatedActor.request_id actor));
       ("protocol_family", json_str (ProtocolFamily.as_str
          (GatewayReplayCase.protocol_family (TerminalUsageInput.replay_case input))));
       ("requested_model", json_str (TerminalUsageInput.requested_model input))]);
    ("actor", json_obj [("actor_kind", json_str (ActorKind.as_str (AuthenticatedActor.actor_kind actor)));
       ("actor_id", json_str (AuthenticatedActor.actor_id actor))]);
    ("route", json_obj [("model_alias_id", json_str (SelectedRouteEvidence.model_alias_id selected));
       ("model_target_id", json_str (SelectedRouteEvidence.model_target_id selected));
       ("routing_group_id", json_str (SelectedRouteEvidence.routing_group_id selected));
       ("provider_endpoint_id", json_str (SelectedRouteEvidence.provider_endpoint_id selected));
       ("upstream_credential_id",
          json_optional_str (SelectedRouteEvidence.upstream_credential_id selected))]);
    ("policy", json_obj [("budget_policy_id", json_str (BudgetPolicyRecord.budget_policy_id policy));
       ("limit_kind", json_str (BudgetPolicyRecord.limit_kind policy));
       ("period", json_str (BudgetPolicyRecord.period policy));
       ("threshold_kind", json_str (RuntimeBudgetThreshold.threshold_kind threshold));
       ("threshold_value", json_int (RuntimeBudgetThreshold.value threshold));
       ("previous_value", json_int previous_value); ("current_value", json_int current_value);
       ("reason", json_str (RuntimeBudgetThreshold.reason threshold))]);
    ("redaction", json_obj [("request_body_included", json_bool false);
       ("provider_body_included", json_bool false); ("secret_material_included", json_bool false)]);
    ("occurred_at", json_datetime (TerminalUsageInput.ended_at input))].

Definition threshold_dedupe_key (policy : BudgetPolicyRecord.t) (ended_at : DateTime)
    (threshold : RuntimeBudgetThreshold.t) (subscription_id : string) : string :=
  "runtime-budget-threshold:" +:+ BudgetPolicyRecord.budget_policy_id policy +:+ ":"
  +:+ runtime_budget_reservation_period_key policy ended_at +:+ ":"
  +:+ RuntimeBudgetThreshold.threshold_kind threshold +:+ ":"
  +:+ pretty (RuntimeBudgetThreshold.value threshold) +:+ ":" +:+ subscription_id.

(** One matching subscription; a missing or inactive sink is skipped. *)
Definition enqueue_for_subscription (uuid : string → string) (actor : AuthenticatedActor.t)
    (input : TerminalUsageInput.t V) (policy : BudgetPolicyRecord.t)
    (threshold : RuntimeBudgetThreshold.t) (payload : V) (s : OutboxStore.t V)
    (subscription : NotificationSubscriptionRecord.t V) : OutboxStore.t V :=
  match notification_sink (NotificationSubscriptionRecord.notification_sink_id subscription) s with
  | None => s
  | Some sink =>
      if NotificationSinkRecord.status sink !=? ResourceStatus.Active then s
      else
        let key := threshold_dedupe_key policy (TerminalUsageInput.ended_at input) threshold
          (NotificationSubscriptionRecord.notification_subscription_id subscription) in
        (append_notification_outbox_event (uuid key)
           (CreateNotificationOutboxEventRequest.mk (AuthenticatedActor.tenant_id actor)
              (AuthenticatedActor.organization_id actor) (AuthenticatedActor.project_id actor)
              (Some (NotificationSubscriptionRecord.notification_subscription_id subscription))
              (Some (NotificationSinkRecord.notification_sink_id sink))
              (RuntimeBudgetThreshold.event_kind threshold) key payload
              (Some (TerminalUsageInput.ended_at input)))
           (TerminalUsageInput.ended_at input) s).2
  end.

(** [uuid key] is the id drawn for the outbox event with that dedupe key. *)
Definition enqueue_runtime_budget_threshold_event (uuid : string → string)
    (actor : AuthenticatedActor.t) (input : TerminalUsageInput.t V) (policy : BudgetPolicyRecord.t)
    (previous_value current_value : Z) (s : OutboxStore.t V)
    (threshold : RuntimeBudgetThreshold.t) : OutboxStore.t V :=
  let payload := threshold_payload actor input policy threshold previous_value current_value in
  fold_left (enqueue_for_subscription uuid actor input policy threshold payload)
    (List.filter (λ subscription,
       (NotificationSubscriptionRecord.status subscription ==? ResourceStatus.Active)
       && (NotificationSubscriptionRecord.event_family subscription ==? "budget")
       && notification_subscription_filter_matches
            (NotificationSubscriptionRecord.filter_document subscription)
            (RuntimeBudgetThreshold.event_kind threshold) (BudgetPolicyRecord.scope_kind policy)
            (BudgetPolicyRecord.scope_id policy))
       (notification_subscriptions_for_tenant (AuthenticatedActor.tenant_id actor) s)) s.

Definition finalize_budget_policy (uuid : string → string) (actor : AuthenticatedActor.t)
    (input : TerminalUsageInput.t V) (usage_payload cost_payload : V)
    (ledger_buckets : list LedgerBucketRecord.t) (s : OutboxStore.t V)
    (policy : BudgetPolicyRecord.t) : OutboxStore.t V :=
  if (BudgetPolicyRecord.status policy !=? ResourceStatus.Active)
     || negb (runtime_budget_policy_matches_request policy actor
                (Some (TerminalUsageInput.selected input)))
  then s
  else
    let event_value := runtime_budget_terminal_value policy usage_payload cost_payload in
    if (event_value <=? 0)%Z then s
    else
      let current := budget_ledger_value policy ledger_buckets (TerminalUsageInput.ended_at input) in
      let previous := saturating_sub current event_value in
      fold_left (enqueue_runtime_budget_threshold_event uuid actor input policy previous current)
        (List.filter (crosses previous current) (runtime_budget_terminal_thresholds policy)) s.

Definition finalize_runtime_budget_terminal (data : PolicyData.t V) (uuid : string → string)
    (actor : AuthenticatedActor.t) (input : TerminalUsageInput.t V) (usage_payload cost_payload : V)
    (s : OutboxStore.t V) : OutboxStore.t V :=
  fold_left (finalize_budget_policy uuid actor input usage_payload cost_payload
               (ledger_buckets_for_tenant (PolicyData.usage data) (AuthenticatedActor.tenant_id actor)))
    (budget_policies_for_tenant (PolicyData.budget_policies data)
       (AuthenticatedActor.tenant_id actor)) s.

(** ** Quota counters *)

Definition runtime_stream_duration_seconds (input : TerminalUsageInput.t V) : Z :=
  Z.max (num_seconds (TerminalUsageInput.ended_at input - TerminalUsageInput.started_at input)) 1.

(** The policies of the two terminal loops. *)
Definition terminal_quota_matches (counter_kind increment_source : string)
    (actor : AuthenticatedActor.t) (input : TerminalUsageInput.t V)
    (policy : QuotaPolicyRecord.t) : bool :=
  (QuotaPolicyRecord.status policy ==? ResourceStatus.Active)
  && quota_is policy counter_kind increment_source
  && runtime_quota_policy_matches_request policy actor (TerminalUsageInput.replay_case input)
       (Some (TerminalUsageInput.selected input)).

Section quotas.
Context {S : Type} `{RuntimePolicyRepository S}.

(** The body shared by the two loops. *)
Definition add_terminal (counter_kind increment_source : string) (actor : AuthenticatedActor.t)
    (input : TerminalUsageInput.t V) (amount : Z) (s : S) (policy : QuotaPolicyRecord.t) : S :=
  if terminal_quota_matches counter_kind increment_source actor input policy
  then (adjust_runtime_policy_counter
          (runtime_quota_counter_key policy (TerminalUsageInput.ended_at input)) amount s).2
  else s.

Definition finalize_runtime_token_actual_quota_terminal (data : PolicyData.t V)
    (actor : AuthenticatedActor.t) (input : TerminalUsageInput.t V) (usage_payload : V) (s : S) : S :=
  let terminal_tokens := terminal_usage_token_count usage_payload in
  if (terminal_tokens <=? 0)%Z then s
  else fold_left (add_terminal "token_actual_rate" "terminal_usage_event" actor input terminal_tokens)
         (quota_policies_for_tenant (PolicyData.quota_policies data)
            (AuthenticatedActor.tenant_id actor)) s.

Definition finalize_runtime_stream_duration_quota_terminal (data : PolicyData.t V)
    (actor : AuthenticatedActor.t) (input : TerminalUsageInput.t V) (s : S) : S :=
  if negb (GatewayReplayCase.streaming (TerminalUsageInput.replay_case input)) then s
  else fold_left (add_terminal "stream_duration" "stream_start" actor input
                    (runtime_stream_duration_seconds input))
         (quota_policies_for_tenant (PolicyData.quota_policies data)
            (AuthenticatedActor.tenant_id actor)) s.

Definition finalize_runtime_quota_terminal (data : PolicyData.t V) (actor : AuthenticatedActor.t)
    (input : TerminalUsageInput.t V) (usage_payload : V) (s : S) : S :=
  if negb (runtime_policy_hot_state_available s) then s
  else finalize_runtime_stream_duration_quota_terminal data actor input
         (finalize_runtime_token_actual_quota_terminal data actor input usage_payload s).

(** ** The terminal step *)

(** The stores a request writes. *)
Record Stores : Type := mk_stores {
  st_usage : UsageStore V;
  st_policy : S;
  st_outbox : OutboxStore.t V;
}.

Definition finalize_runtime_policy_terminal (data : PolicyData.t V) (uuid : string → string)
    (actor : AuthenticatedActor.t) (input : TerminalUsageInput.t V) (usage_payload cost_payload : V)
    (st : Stores) : Stores :=
  mk_stores (st_usage st)
    (finalize_runtime_quota_terminal data actor input usage_payload (st_policy st))
    (finalize_runtime_budget_terminal data uuid actor input usage_payload cost_payload (st_outbox st)).

(** The usage event of an answered request. *)
Definition terminal_usage_event (memberships : gmap (string * string) ProjectMembershipRecord.t)
    (skus : gmap string (PricingSkuRecord.t V)) (uuid : string) (actor : AuthenticatedActor.t)
    (input : TerminalUsageInput.t V) : UsageEventRecord.t V :=
  let response := TerminalUsageInput.response input in
  let selected := TerminalUsageInput.selected input in
  let '(usage_payload, usage_confidence) :=
    normalized_usage_payload (RuntimeIngressResponse.protocol_family response)
      (RuntimeIngressResponse.body response) in
  let latency_ms :=
    Z.max (num_milliseconds (TerminalUsageInput.ended_at input - TerminalUsageInput.started_at input)) 0 in
  let project_member_id :=
    principal_id ← AuthenticatedActor.principal_id actor;
    project_id ← AuthenticatedActor.project_id actor;
    ProjectMembershipRecord.project_member_id <$> memberships !! (principal_id, project_id) in
  let service_account_id :=
    match AuthenticatedActor.actor_kind actor with
    | ActorKind.ServiceAccount => Some (AuthenticatedActor.actor_id actor)
    | _ => None
    end in
  let cost_payload :=
    runtime_cost_payload skus actor (TerminalUsageInput.upstream_model_id input)
      (SelectedRouteEvidence.provider_endpoint_id selected) (TerminalUsageInput.pricing_sku_id input)
      (TerminalUsageInput.ended_at input) usage_payload in
  UsageEventRecord.mk (new_prefixed_id "use" uuid) (AuthenticatedActor.tenant_id actor)
    (AuthenticatedActor.organization_id actor) (AuthenticatedActor.project_id actor)
    (AuthenticatedActor.principal_id actor) project_member_id service_account_id
    (AuthenticatedActor.api_key_id actor) (AuthenticatedActor.request_id actor)
    (AuthenticatedActor.trace_id actor)
    (GatewayReplayCase.protocol_family (TerminalUsageInput.replay_case input))
    (Some (TerminalUsageInput.route_decision_id input))
    (Some (SelectedRouteEvidence.model_alias_id selected))
    (Some (SelectedRouteEvidence.model_target_id selected))
    (Some (SelectedRouteEvidence.route_policy_id selected))
    (Some (SelectedRouteEvidence.routing_group_id selected))
    (Some (SelectedRouteEvidence.provider_endpoint_id selected))
    (SelectedRouteEvidence.upstream_credential_id selected) usage_confidence (Some latency_ms)
    (if GatewayReplayCase.streaming (TerminalUsageInput.replay_case input)
     then Some latency_ms else None)
    "success" usage_payload cost_payload (TerminalUsageInput.ended_at input).

(** [insert] is the durable store's insert, when one is configured; its error
    skips the policy step but keeps what was recorded in memory.  The policy
    step reads the ledger after the event was recorded. *)
Definition record_terminal_usage_event
    (memberships : gmap (string * string) ProjectMembershipRecord.t)
    (skus : gmap string (PricingSkuRecord.t V)) (data : PolicyData.t V)
    (insert : option (UsageEventRecord.t V → Result unit)) (event_uuid : string)
    (uuid : string → string) (actor : AuthenticatedActor.t) (input : TerminalUsageInput.t V)
    (st : Stores) : Result unit * Stores :=
  let record := terminal_usage_event memberships skus event_uuid actor input in
  let usage := record_usage_event uuid record (st_usage st) in
  let st1 := mk_stores usage (st_policy st) (st_outbox st) in
  match match insert with None => Ok tt | Some f => f record end with
  | Err e => (Err e, st1)
  | Ok _ =>
      (Ok tt,
       finalize_runtime_policy_terminal
         (PolicyData.mk (PolicyData.budget_policies data) (PolicyData.quota_policies data)
            (PolicyData.emergency_operations data) usage)
         uuid actor input (UsageEventRecord.usage_payload record)
         (UsageEventRecord.cost_payload record) st1)
  end.
End quotas.
End terminal.

(** ** Thresholds are crossed once *)

#[global] Instance threshold_order_total : TotalCmp threshold_order.
Proof. apply cmp_then_total; apply cmp_on_total; apply _. Qed.

(** A threshold is determined by its kind and value. *)
Definition threshold_wf (t : RuntimeBudgetThreshold.t) : Prop :=
  t ∈ [RuntimeBudgetThreshold.mk "gateway.budget.soft_limit_reached" "soft_limit"
         "soft_limit_reached" (RuntimeBudgetThreshold.value t);
       RuntimeBudgetThreshold.mk "gateway.budget.hard_limit_reached" "hard_limit"
         "hard_limit_reached" (RuntimeBudgetThreshold.value t);
       RuntimeBudgetThreshold.mk "gateway.budget.threshold_reached" "threshold"
         "threshold_reached" (RuntimeBudgetThreshold.value t)].

Lemma threshold_order_eq a b :
  threshold_wf a → threshold_wf b → threshold_order a b = Eq → a = b.
Proof.
  unfold threshold_order, cmp_then, cmp_on. intros Ha Hb.
  destruct (Z.compare_spec (RuntimeBudgetThreshold.value a) (RuntimeBudgetThreshold.value b)) as [E| |];
    [|done..]. rewrite string_compare_eq. intros Ek. unfold threshold_wf in *. rewrite <- E in Hb.
  rewrite !elem_of_cons, elem_of_nil in Ha, Hb.
  destruct_or! Ha; destruct_or! Hb; try done; rewrite Ha, Hb in *; simpl in *; congruence.
Qed.

Lemma dedup_from_elem {A} `{EqDecision A} (l : list A) a x :
  x ∈ dedup_from a l → x ∈ l.
Proof.
  revert a. induction l as [|y l IH]; intros a; simpl; [done|].
  case_bool_decide; [intros; right; by eapply IH|].
  intros [->|?]%elem_of_cons; [left|right; by eapply IH].
Qed.

Lemma elem_of_dedup_from {A} `{EqDecision A} (l : list A) a x :
  x ∈ l → x = a ∨ x ∈ dedup_from a l.
Proof.
  revert a. induction l as [|y l IH]; intros a; simpl; [set_solver|].
  intros [->|Hx]%elem_of_cons; case_bool_decide as E; [by left|right; left|by apply IH|].
  destruct (IH y Hx) as [->|?]; [right; left|right; by right].
Qed.

(** Deduplicating a list sorted by an order that separates its elements
    leaves a strictly increasing list. *)
Lemma dedup_strict {A} `{EqDecision A} (c : A → A → comparison) `{!TotalCmp c} (l : list A) a :
  StronglySorted (cmp_le c) (a :: l) →
  (∀ x y, x ∈ a :: l → y ∈ a :: l → c x y = Eq → x = y) →
  StronglySorted (λ x y, c x y = Lt) (a :: dedup_from a l).
Proof.
  revert a. induction l as [|b l IH]; intros a Hs Heq; simpl; [repeat constructor|].
  apply StronglySorted_inv in Hs as [Hs Ha]. rewrite Forall_forall in Ha.
  case_bool_decide as E.
  - subst b. apply IH; [|set_solver].
    constructor; [by apply StronglySorted_inv in Hs as [? _]|]. apply Forall_forall. set_solver.
  - constructor; [apply IH; [done|set_solver]|]. apply Forall_forall. intros x Hx.
    assert (x ∈ b :: l) as Hx'.
    { apply elem_of_cons in Hx as [->|Hx]; [left|right; by eapply dedup_from_elem]. }
    pose proof (Ha x Hx') as Hax. unfold cmp_le in Hax. destruct (c a x) eqn:Ec; [exfalso|done|done].
    assert (a = x) as <- by (apply Heq; [left|right; done|done]).
    apply elem_of_cons in Hx' as [->|Hx']; [done|].
    apply StronglySorted_inv in Hs as [_ Hb]. rewrite Forall_forall in Hb.
    pose proof (Hb a Hx') as Hba. assert (cmp_le c a b) as Hab by (apply Ha; left).
    unfold cmp_le in *. rewrite (cmp_antisym c a b) in Hba. apply E. symmetry.
    apply Heq; [left|right; left|]. destruct (c a b); done.
Qed.

Lemma thresholds_strict policy :
  StronglySorted (λ x y, threshold_order x y = Lt) (runtime_budget_terminal_thresholds policy).
Proof.
  unfold runtime_budget_terminal_thresholds. cbv zeta. set (all := _ ++ _ ++ _).
  assert (∀ x, x ∈ sort_by threshold_order all → threshold_wf x) as Hwf.
  { intros x Hx%sort_by_elem. unfold all in Hx. rewrite !elem_of_app in Hx. unfold threshold_wf.
    destruct Hx as [Hx|[Hx|Hx]].
    - destruct (BudgetPolicyRecord.soft_limit policy); [|set_solver].
      apply list_elem_of_singleton in Hx as ->. simpl. left.
    - destruct (BudgetPolicyRecord.hard_limit policy); [|set_solver].
      apply list_elem_of_singleton in Hx as ->. simpl. right. left.
    - apply list_elem_of_fmap in Hx as (v & -> & _). simpl. right. right. left. }
  pose proof (sort_by_sorted threshold_order all) as Hs.
  destruct (sort_by threshold_order all) as [|a l]; [constructor|]. simpl.
  apply (dedup_strict threshold_order); [exact Hs|].
  intros x y Hx%Hwf Hy%Hwf. by apply threshold_order_eq.
Qed.

(** A list sorted by value splits at any value: the part crossed by a first
    step precedes the part crossed by the next. *)
Lemma crosses_split l p q r :
  StronglySorted (λ x y, threshold_order x y = Lt) l → (p ≤ q)%Z → (q ≤ r)%Z →
  List.filter (crosses p q) l ++ List.filter (crosses q r) l = List.filter (crosses p r) l.
Proof.
  intros Hs Hpq Hqr. induction Hs as [|t l Hs IH Ht]; [done|]. cbn [List.filter].
  set (v := RuntimeBudgetThreshold.value t) in *.
  assert (∀ a b, crosses a b t = ((a <? v) && (v <=? b))%Z) as Hc by done. rewrite !Hc.
  destruct (Z.ltb_spec p v), (Z.leb_spec v q), (Z.ltb_spec q v), (Z.leb_spec v r); simpl;
    try lia; rewrite <- ?IH; try done.
  (* above the first step: nothing after it is crossed by the first step *)
  assert (List.filter (crosses p q) l = []) as Hnil.
  { apply elem_of_nil_inv. intros x [Hx Hcx]%filter_iff. unfold crosses in Hcx. btrue.
    rewrite Forall_forall in Ht. specialize (Ht x Hx). unfold threshold_order, cmp_then, cmp_on in Ht.
    destruct (Z.compare_spec (RuntimeBudgetThreshold.value t) (RuntimeBudgetThreshold.value x));
      [|..|done]; unfold v in *; lia. }
  by rewrite Hnil.
Qed.

(** The thresholds notified along successive ledger values. *)
Fixpoint notified (policy : BudgetPolicyRecord.t) (previous : Z) (values : list Z)
    : list RuntimeBudgetThreshold.t :=
  match values with
  | [] => []
  | current :: values' =>
      List.filter (crosses previous current) (runtime_budget_terminal_thresholds policy)
        ++ notified policy current values'
  end.

(** The last of the values. *)
Fixpoint final_value (start : Z) (values : list Z) : Z :=
  match values with [] => start | v :: values' => final_value v values' end.

Lemma final_value_ge start values :
  StronglySorted Z.le (start :: values) → (start ≤ final_value start values)%Z.
Proof.
  revert start. induction values as [|v vs IH]; intros start Hs; simpl; [lia|].
  apply StronglySorted_inv in Hs as [Hs Hf]. rewrite Forall_forall in Hf.
  assert (start ≤ v)%Z by (apply Hf; left). specialize (IH v Hs). lia.
Qed.

(** Every budget threshold is notified exactly once: along a ledger that only
    grows, the thresholds the terminal steps select, in the order they select
    them, are exactly the policy's thresholds between the first and the last
    value, in increasing order and without repetition. *)
Theorem thresholds_notified_once policy start values :
  StronglySorted Z.le (start :: values) →
  notified policy start values
    = List.filter (crosses start (final_value start values)) (runtime_budget_terminal_thresholds policy) ∧
  NoDup (notified policy start values).
Proof.
  intros Hs. pose proof (thresholds_strict policy) as Hstrict.
  assert (notified policy start values = List.filter (crosses start (final_value start values))
    (runtime_budget_terminal_thresholds policy)) as E.
  { revert start Hs. induction values as [|v vs IH]; intros start Hs.
    - simpl. symmetry. apply elem_of_nil_inv. intros x [_ Hx]%filter_iff. unfold crosses in Hx.
      btrue. lia.
    - apply StronglySorted_inv in Hs as [Hs Hf]. cbn [notified]. rewrite IH by done.
      cbn [final_value]. rewrite crosses_split; [done|done| |by apply final_value_ge].
      rewrite Forall_forall in Hf. apply Hf. left. }
  split; [done|]. rewrite E. clear E. induction Hstrict as [|t l Hl IH Ht]; [constructor|].
  cbn [List.filter]. destruct (crosses _ _ t); [|done]. constructor; [|done].
  intros [Hin _]%filter_iff. rewrite Forall_forall in Ht. specialize (Ht t Hin).
  by rewrite (cmp_refl threshold_order) in Ht.
Qed.

(** ** Quota counters *)

Section quota_facts.
Context {V : Type} `{JsonLibrary V} `{ChronoCalendar} {S : Type} `{RuntimePolicyRepository S}
  `{!PolicyRepositoryLaws S}.
Context (actor : AuthenticatedActor.t) (input : TerminalUsageInput.t V).

(** How many policies of a kind count on key [k]. *)
Definition terminal_hits (counter_kind increment_source k : string)
    (policies : list QuotaPolicyRecord.t) : Z :=
  total (λ p, if terminal_quota_matches counter_kind increment_source actor input p
                 && (runtime_quota_counter_key p (TerminalUsageInput.ended_at input) ==? k)
              then 1%Z else 0%Z) policies.

Lemma terminal_hits_nonneg kind source k policies : (0 ≤ terminal_hits kind source k policies)%Z.
Proof.
  unfold terminal_hits. induction policies as [|p ps IH]; simpl; [lia|]. destruct (_ && _); lia.
Qed.

Lemma terminal_hits_length kind source k policies :
  (terminal_hits kind source k policies ≤ Z.of_nat (length policies))%Z.
Proof.
  unfold terminal_hits. induction policies as [|p ps IH]; cbn [total foldr length]; [lia|].
  unfold total in IH. destruct (_ && _); lia.
Qed.

Lemma add_terminal_loop kind source amount policies (s : S) :
  (0 ≤ amount)%Z →
  (∀ k, 0 ≤ PolicyView.counter (view s) k ∧
        PolicyView.counter (view s) k + amount * terminal_hits kind source k policies ≤ i64_max)%Z →
  counters_moved s (fold_left (add_terminal kind source actor input amount) policies s)
    (λ k, amount * terminal_hits kind source k policies)%Z.
Proof.
  intros Ha. revert s. induction policies as [|p ps IH]; intros s Hfit; cbn [fold_left].
  { eapply moved_ext; [|apply moved_refl]. intros k. unfold terminal_hits. simpl. lia. }
  assert (∀ k, terminal_hits kind source k (p :: ps) =
    (if terminal_quota_matches kind source actor input p
        && (runtime_quota_counter_key p (TerminalUsageInput.ended_at input) ==? k) then 1 else 0)
    + terminal_hits kind source k ps)%Z as Hcons by done.
  unfold add_terminal at 2. destruct (terminal_quota_matches kind source actor input p); cbn [andb] in Hcons.
  - set (key := runtime_quota_counter_key p _) in *.
    destruct (adjust_moved key amount s) as [_ Hm].
    { specialize (Hfit key). rewrite Hcons, bool_decide_true in Hfit by done.
      pose proof (terminal_hits_nonneg kind source key ps). nia. }
    eapply moved_ext; [|eapply moved_trans; [exact Hm|apply IH]].
    + intros k. cbn beta. rewrite Hcons. case_bool_decide; lia.
    + intros k. rewrite (moved_counter _ _ _ Hm). specialize (Hfit k). rewrite Hcons in Hfit.
      case_bool_decide; lia.
  - eapply moved_ext; [|apply IH]; intros k; [cbn beta; by rewrite Hcons|].
    specialize (Hfit k). rewrite Hcons in Hfit. lia.
Qed.

(** Terminal usage is counted once per policy: when the hot state is up and
    no counter would saturate, the terminal step adds the tokens of the
    response to the counter of every active matching token policy, and the
    seconds of the stream to that of every matching stream policy when the
    request streamed, and changes nothing else; when it is down nothing is
    counted. *)
Theorem terminal_quota_counts (data : PolicyData.t V) (usage_payload : V) (s : S) :
  let policies := quota_policies_for_tenant (PolicyData.quota_policies data)
                    (AuthenticatedActor.tenant_id actor) in
  let tokens := Z.max 0 (terminal_usage_token_count usage_payload) in
  let seconds := if GatewayReplayCase.streaming (TerminalUsageInput.replay_case input)
                 then runtime_stream_duration_seconds input else 0%Z in
  let delta k := (tokens * terminal_hits "token_actual_rate" "terminal_usage_event" k policies
                  + seconds * terminal_hits "stream_duration" "stream_start" k policies)%Z in
  (∀ k, 0 ≤ PolicyView.counter (view s) k ∧ PolicyView.counter (view s) k + delta k ≤ i64_max)%Z →
  let s' := finalize_runtime_quota_terminal data actor input usage_payload s in
  if PolicyView.available (view s) then counters_moved s s' delta else s' = s.
Proof.
  cbv zeta. intros Hfit. unfold finalize_runtime_quota_terminal. rewrite available_law.
  destruct (PolicyView.available (view s)); cbn [negb]; [|done].
  set (policies := quota_policies_for_tenant _ _) in *.
  set (tokens := terminal_usage_token_count usage_payload) in *.
  set (seconds := if GatewayReplayCase.streaming _ then _ else _) in *.
  pose proof (λ k, terminal_hits_nonneg "token_actual_rate" "terminal_usage_event" k policies) as Hn1.
  pose proof (λ k, terminal_hits_nonneg "stream_duration" "stream_start" k policies) as Hn2.
  assert (0 ≤ seconds)%Z as Hsec.
  { unfold seconds, runtime_stream_duration_seconds. destruct (GatewayReplayCase.streaming _); lia. }
  set (s1 := finalize_runtime_token_actual_quota_terminal data actor input usage_payload s).
  assert (counters_moved s s1 (λ k, Z.max 0 tokens *
    terminal_hits "token_actual_rate" "terminal_usage_event" k policies)%Z) as Hm1.
  { unfold s1, finalize_runtime_token_actual_quota_terminal. fold tokens policies.
    destruct (Z.leb_spec tokens 0).
    - eapply moved_ext; [|apply moved_refl]. intros k. cbn beta. rewrite Z.max_l by lia. lia.
    - rewrite Z.max_r in * by lia. apply add_terminal_loop; [lia|]. intros k. specialize (Hfit k).
      specialize (Hn2 k). nia. }
  eapply moved_trans; [exact Hm1|].
  unfold finalize_runtime_stream_duration_quota_terminal. fold policies. unfold seconds in *.
  destruct (GatewayReplayCase.streaming _); cbn [negb].
  - apply add_terminal_loop; [done|]. intros k. rewrite (moved_counter _ _ _ Hm1).
    specialize (Hfit k). specialize (Hn1 k). nia.
  - eapply moved_ext; [|apply moved_refl]. done.
Qed.
End quota_facts.

(** ** Witnesses *)

Module TerminalSample.
#[local] Open Scope Z_scope.

Definition budget : BudgetPolicyRecord.t :=
  BudgetPolicyRecord.mk "bp1" "ten" "tenant" "ten" None None None "all_time" "tokens" (Some 20)
    (Some 10) [10; 20; 10] "none" "notify_only" "strong" ResourceStatus.Active 1 1 "admin" 0 0.
Definition quota : QuotaPolicyRecord.t :=
  QuotaPolicyRecord.mk "qp1" "ten" "tenant" "ten" None None "token_actual_rate" 100 None
    "ledger_bucket" "terminal_usage_event" "fail_closed" ResourceStatus.Active 1 1 "admin" 0 0.
Definition data : PolicyData.t Tree.t :=
  PolicyData.mk ∅ {["qp1" := quota]} ∅ (mk_usage_store [] ∅).
Definition selected : SelectedRouteEvidence.t :=
  SelectedRouteEvidence.mk "alias" "policy" "group" "target" "endpoint" None [] false None.
Definition input (tokens : Z) : TerminalUsageInput.t Tree.t :=
  TerminalUsageInput.mk PreflightSample.case "rd_1" selected "gpt" "gpt-up" None
    (RuntimeIngressResponse.mk ProtocolFamily.OpenAiResponses AuthorizationDecision.allow
       (Tree.Obj [("usage", Tree.Obj [("input_tokens", Tree.Int tokens);
                                      ("output_tokens", Tree.Int 0)])]) false) 0 10.
Definition key : string := runtime_quota_counter_key quota 10.
Definition payload (tokens : Z) : Tree.t := Tree.Obj [("total_tokens", Tree.Int tokens)].
Definition stores : Stores (V := Tree.t) (S := InMemoryPolicyStore.t) :=
  mk_stores (mk_usage_store [] ∅) InMemoryPolicyStore.empty (OutboxStore.mk ∅ ∅ ∅ []).
Definition terminal (uuid : string) (tokens : Z) (st : Stores (V := Tree.t) (S := InMemoryPolicyStore.t))
    : Stores (V := Tree.t) (S := InMemoryPolicyStore.t) :=
  (record_terminal_usage_event ∅ ∅ data None uuid (λ k, k) PreflightSample.actor (input tokens) st).2.
End TerminalSample.

Lemma thresholds_notified_once_witness :
  RuntimeBudgetThreshold.value <$> notified TerminalSample.budget 0 [7; 15; 15; 31]%Z = [10; 10; 20; 20]%Z.
Proof.
  destruct (thresholds_notified_once TerminalSample.budget 0 [7; 15; 15; 31]%Z) as [H _].
  - repeat constructor; lia.
  - rewrite H. vm_compute. reflexivity.
Defined.

Lemma terminal_quota_counts_witness :
  PolicyView.counter (view (finalize_runtime_quota_terminal TerminalSample.data PreflightSample.actor
    (TerminalSample.input 7) (TerminalSample.payload 7) InMemoryPolicyStore.empty)) TerminalSample.key = 7%Z.
Proof.
  pose proof (terminal_quota_counts PreflightSample.actor (TerminalSample.input 7) TerminalSample.data
    (TerminalSample.payload 7) InMemoryPolicyStore.empty) as H. cbv zeta in H.
  lapply H; [clear H; intros H|].
  - pose proof (moved_counter _ _ _ H TerminalSample.key) as Hk. rewrite Hk. vm_compute. reflexivity.
  - intros k. split; [done|].
    change (PolicyView.counter (view InMemoryPolicyStore.empty) k) with 0%Z.
    pose proof (terminal_hits_length PreflightSample.actor (TerminalSample.input 7) "token_actual_rate"
      "terminal_usage_event" k [TerminalSample.quota]) as Hle. cbn [length] in Hle.
    change (quota_policies_for_tenant _ _) with [TerminalSample.quota].
    change (Z.max 0 (terminal_usage_token_count _)) with 7%Z.
    change (GatewayReplayCase.streaming _) with false. unfold i64_max. cbv iota. lia.
Defined.

(** Usage is keyed by request id, quota counting is not: a second response under
    the same request id adds to the quota counter and leaves the ledger as it
    was. *)
Theorem repeated_request_id_not_billed :
  let st1 := TerminalSample.terminal "1" 7 TerminalSample.stores in
  let st2 := TerminalSample.terminal "2" 90 st1 in
  st_usage st2 = st_usage st1 ∧
  PolicyView.counter (view (st_policy st1)) TerminalSample.key = 7%Z ∧
  PolicyView.counter (view (st_policy st2)) TerminalSample.key = 97%Z.
Proof. cbv zeta. split_and!; vm_compute; reflexivity. Qed.
