(* ===== verification/Auth.v ===== *)
(** * Authentication

    [auth.rs] over the credential half of [storage.rs]: API keys are found by
    their visible prefix and verified against a password hash, with a limit on
    failed attempts per prefix; session tokens are found by their hash;
    users and service accounts act through an active project membership. *)

From S2P Require Import Prelude Order Domain Text.

(** ** Libraries

    Argon2 ([verify_password] on a parsed hash, [hash_password] with a salt) and
    SHA-256 in lower-case hexadecimal. *)
Class AuthLibrary : Type := {
  argon2_verify : string → string → result string bool;
  argon2_hash : string → string → result string string;
  sha256_hexdigest : string → string;
}.

Class AuthLaws `{AuthLibrary} : Prop :=
  argon2_verify_hash salt key hash : argon2_hash salt key = Ok hash → argon2_verify key hash = Ok true.

(** ** The store *)

Module ApiKeyLastUsedUpdate.
Record t : Set := mk {
  tenant_id : string;
  api_key_id : string;
  key_prefix : string;
  request_id : string;
  used_at : DateTime;
}.
End ApiKeyLastUsedUpdate.

Module AuthStore.
Record t : Type := mk {
  api_keys : gmap string (list ApiKeyRecord.t);
  api_key_failed_auth : gmap string (list DateTime);
  api_key_last_used_updates : list ApiKeyLastUsedUpdate.t;
  auth_sessions : gmap string AuthSessionRecord.t;
  project_memberships : gmap (string * string) ProjectMembershipRecord.t;
}.
Definition with_api_keys (m : gmap string (list ApiKeyRecord.t)) (s : t) : t :=
  mk m (api_key_failed_auth s) (api_key_last_used_updates s) (auth_sessions s) (project_memberships s).
Definition with_failed (m : gmap string (list DateTime)) (s : t) : t :=
  mk (api_keys s) m (api_key_last_used_updates s) (auth_sessions s) (project_memberships s).
Definition with_sessions (m : gmap string AuthSessionRecord.t) (s : t) : t :=
  mk (api_keys s) (api_key_failed_auth s) (api_key_last_used_updates s) m (project_memberships s).
End AuthStore.

Definition API_KEY_FAILED_AUTH_WINDOW_SECONDS : Z := 60.
Definition API_KEY_FAILED_AUTH_MAX_ATTEMPTS : nat := 8.
Definition API_KEY_CANDIDATE_LIMIT : nat := 8.

(** *** API keys *)

Definition insert_api_key (record : ApiKeyRecord.t) (s : AuthStore.t) : AuthStore.t :=
  let retained :=
    List.filter (λ candidate, ApiKeyRecord.api_key_id candidate !=? ApiKeyRecord.api_key_id record)
      <$> AuthStore.api_keys s in
  AuthStore.with_api_keys
    (<[ApiKeyRecord.key_prefix record :=
         default [] (retained !! ApiKeyRecord.key_prefix record) ++ [record]]> retained) s.

Definition candidates_by_prefix (prefix : string) (s : AuthStore.t) : list ApiKeyRecord.t :=
  default [] (take API_KEY_CANDIDATE_LIMIT <$> AuthStore.api_keys s !! prefix).

Definition retain_fresh_failed_auth (attempts : list DateTime) (now : DateTime) : list DateTime :=
  let window_start := (now - duration_seconds API_KEY_FAILED_AUTH_WINDOW_SECONDS)%Z in
  List.filter (λ attempt, (window_start <? attempt)%Z) attempts.

(** The count drops the attempts that left the window. *)
Definition failed_api_key_auth_count (throttle_key : string) (now : DateTime) (s : AuthStore.t)
    : nat * AuthStore.t :=
  let attempts := retain_fresh_failed_auth
                    (default [] (AuthStore.api_key_failed_auth s !! throttle_key)) now in
  (length attempts,
   AuthStore.with_failed (<[throttle_key := attempts]> (AuthStore.api_key_failed_auth s)) s).

Definition api_key_failed_auth_allowed (throttle_key : string) (now : DateTime) (s : AuthStore.t)
    : bool * AuthStore.t :=
  let '(n, s') := failed_api_key_auth_count throttle_key now s in
  ((n <? API_KEY_FAILED_AUTH_MAX_ATTEMPTS)%nat, s').

Definition record_api_key_failed_auth (throttle_key : string) (now : DateTime) (s : AuthStore.t)
    : AuthStore.t :=
  let attempts := retain_fresh_failed_auth
                    (default [] (AuthStore.api_key_failed_auth s !! throttle_key)) now in
  AuthStore.with_failed
    (<[throttle_key := attempts ++ [now]]> (AuthStore.api_key_failed_auth s)) s.

Definition record_api_key_last_used (update : ApiKeyLastUsedUpdate.t) (s : AuthStore.t) : AuthStore.t :=
  AuthStore.mk (AuthStore.api_keys s)
    (delete (ApiKeyLastUsedUpdate.key_prefix update) (AuthStore.api_key_failed_auth s))
    (AuthStore.api_key_last_used_updates s ++ [update]) (AuthStore.auth_sessions s)
    (AuthStore.project_memberships s).

(** *** Sessions *)

Definition insert_auth_session (record : AuthSessionRecord.t) (s : AuthStore.t) : AuthStore.t :=
  AuthStore.with_sessions
    (<[AuthSessionRecord.session_hash record := record]> (AuthStore.auth_sessions s)) s.

Definition session_by_hash (session_hash : string) (s : AuthStore.t) : option AuthSessionRecord.t :=
  AuthStore.auth_sessions s !! session_hash.

(** The in-place update of status and time. *)
Definition set_session_status (status : AuthSessionStatus.t) (now : DateTime)
    (r : AuthSessionRecord.t) : AuthSessionRecord.t :=
  AuthSessionRecord.mk (AuthSessionRecord.auth_session_id r) (AuthSessionRecord.tenant_id r)
    (AuthSessionRecord.principal_id r) (AuthSessionRecord.active_organization_id r)
    (AuthSessionRecord.active_project_id r) (AuthSessionRecord.session_hash r) status
    (AuthSessionRecord.expires_at r) (AuthSessionRecord.created_at r) now.

Definition revoke_session_by_hash (session_hash : string) (now : DateTime) (s : AuthStore.t)
    : Result AuthSessionRecord.t * AuthStore.t :=
  match AuthStore.auth_sessions s !! session_hash with
  | None => (Err GatewayError.Authentication, s)
  | Some session =>
      let revoked := set_session_status AuthSessionStatus.Revoked now session in
      (Ok revoked,
       AuthStore.with_sessions (<[session_hash := revoked]> (AuthStore.auth_sessions s)) s)
  end.

Definition update_session_active_context_by_hash (session_hash : string)
    (active_organization_id active_project_id : option string) (now : DateTime) (s : AuthStore.t)
    : Result AuthSessionRecord.t * AuthStore.t :=
  match AuthStore.auth_sessions s !! session_hash with
  | None => (Err GatewayError.Authentication, s)
  | Some r =>
      if negb (AuthSessionRecord.can_authenticate_at r now) then (Err GatewayError.Authentication, s)
      else
        let updated :=
          AuthSessionRecord.mk (AuthSessionRecord.auth_session_id r) (AuthSessionRecord.tenant_id r)
            (AuthSessionRecord.principal_id r) active_organization_id active_project_id
            (AuthSessionRecord.session_hash r) (AuthSessionRecord.status r)
            (AuthSessionRecord.expires_at r) (AuthSessionRecord.created_at r) now in
        (Ok updated,
         AuthStore.with_sessions (<[session_hash := updated]> (AuthStore.auth_sessions s)) s)
  end.

(** The test of [revoke_sessions_for_principal]. *)
Definition principal_active (tenant_id principal_id : string) (r : AuthSessionRecord.t) : bool :=
  (AuthSessionRecord.tenant_id r ==? tenant_id)
  && (AuthSessionRecord.principal_id r ==? principal_id)
  && (AuthSessionRecord.status r ==? AuthSessionStatus.Active).

Definition revoke_sessions_for_principal (tenant_id principal_id : string) (now : DateTime)
    (s : AuthStore.t) : nat * AuthStore.t :=
  (length (List.filter (principal_active tenant_id principal_id)
             ((map_to_list (AuthStore.auth_sessions s)).*2)),
   AuthStore.with_sessions
     ((λ r, if principal_active tenant_id principal_id r
            then set_session_status AuthSessionStatus.Revoked now r else r)
        <$> AuthStore.auth_sessions s) s).

Definition project_membership (principal_id project_id : string) (s : AuthStore.t)
    : option ProjectMembershipRecord.t := AuthStore.project_memberships s !! (principal_id, project_id).

(** ** Tokens *)

Definition API_KEY_PREFIX_LEN : nat := 12.

Definition HEX : string := "0123456789abcdef".
Definition hex_char (i : Z) : string := String.substring (Z.to_nat i) 1 HEX.

(** [bytes] are the random bytes drawn. *)
Definition generate_raw_prefixed_token (prefix : string) (bytes : list Z) : string :=
  prefix +:+ foldr (λ byte s, hex_char (Z.shiftr byte 4) +:+ hex_char (Z.land byte 15) +:+ s) ""
    bytes.
Definition generate_raw_key (bytes : list Z) : string := generate_raw_prefixed_token "swg_" bytes.
Definition generate_raw_session_token (bytes : list Z) : string :=
  generate_raw_prefixed_token "sws_" bytes.

Fixpoint is_ascii (s : string) : bool :=
  match s with
  | EmptyString => true
  | String c s' => (Ascii.nat_of_ascii c <? 128)%nat && is_ascii s'
  end.

Definition key_prefix (raw_key : string) : Result string :=
  let prefix_len := String.length "swg_" + API_KEY_PREFIX_LEN in
  if negb (is_ascii raw_key) || negb (starts_with "swg_" raw_key)
     || (String.length raw_key <? prefix_len)%nat
  then Err GatewayError.Authentication
  else Ok (String.substring 0 prefix_len raw_key).

(** [constant_time_eq] answers what [==] answers. *)
Definition constant_time_eq (left right : string) : bool := left ==? right.

Section auth.
Context `{AuthLibrary}.

Definition session_token_hash (raw_token : string) : string :=
  "sha256:" +:+ sha256_hexdigest raw_token.

Definition verify_secret (presented_key secret_hash : string) : Result bool :=
  match argon2_verify presented_key secret_hash with
  | Err error => Err (GatewayError.Internal ("stored api key hash is invalid: " +:+ error))
  | Ok b => Ok b
  end.

Definition api_key_secret_metadata (salt raw_key : string) : Result (string * string) :=
  prefix ← key_prefix raw_key;
  match argon2_hash salt raw_key with
  | Err error => Err (GatewayError.Internal ("api key hash failed: " +:+ error))
  | Ok hash => Ok (prefix, hash)
  end.
End auth.

(** ** Requests *)

Module CreateApiKeyRequest.
Record t : Set := mk {
  tenant_id : string;
  organization_id : option string;
  project_id : option string;
  owner_principal_id : string;
  name : string;
  created_by : string;
  expires_at : option DateTime;
  allowed_actions : list string;
  allowed_resources : list string;
}.
End CreateApiKeyRequest.

Module CreateAuthSessionRequest.
Record t : Set := mk {
  tenant_id : string;
  principal_id : string;
  active_organization_id : option string;
  active_project_id : option string;
  expires_at : DateTime;
}.
End CreateAuthSessionRequest.

Module ResolveUserSessionRequest.
Record t : Set := mk {
  principal_id : string;
  session_id : string;
  project_id : string;
  request_id : string;
  trace_id : string;
  expires_at : option DateTime;
}.
End ResolveUserSessionRequest.

Module ResolveServiceAccountRequest.
Record t : Set := mk {
  service_account_id : string;
  project_id : string;
  request_id : string;
  trace_id : string;
}.
End ResolveServiceAccountRequest.

(** ** Issuing and verifying *)

Section verify.
Context `{AuthLibrary}.

(** The record and the raw key returned once. *)
Definition create_api_key (uuid salt : string) (bytes : list Z) (request : CreateApiKeyRequest.t)
    (now : DateTime) : Result (ApiKeyRecord.t * string) :=
  let raw_key := generate_raw_key bytes in
  '(prefix, secret_hash) ← api_key_secret_metadata salt raw_key;
  mret (ApiKeyRecord.mk (new_prefixed_id "ak" uuid) (CreateApiKeyRequest.tenant_id request)
    (CreateApiKeyRequest.organization_id request) (CreateApiKeyRequest.project_id request)
    (CreateApiKeyRequest.owner_principal_id request) (CreateApiKeyRequest.name request) prefix
    secret_hash 1 ApiKeyStatus.Active (CreateApiKeyRequest.allowed_actions request)
    (CreateApiKeyRequest.allowed_resources request) (CreateApiKeyRequest.expires_at request) None
    None (CreateApiKeyRequest.created_by request) now now, raw_key).

Definition rotate_api_key_secret (salt : string) (bytes : list Z) (record : ApiKeyRecord.t)
    (now : DateTime) : Result (ApiKeyRecord.t * string) :=
  let raw_key := generate_raw_key bytes in
  '(prefix, secret_hash) ← api_key_secret_metadata salt raw_key;
  mret (ApiKeyRecord.mk (ApiKeyRecord.api_key_id record) (ApiKeyRecord.tenant_id record)
    (ApiKeyRecord.organization_id record) (ApiKeyRecord.project_id record)
    (ApiKeyRecord.owner_principal_id record) (ApiKeyRecord.name record) prefix secret_hash 1
    ApiKeyStatus.Active (ApiKeyRecord.allowed_actions record)
    (ApiKeyRecord.allowed_resources record) (ApiKeyRecord.expires_at record) None None
    (ApiKeyRecord.created_by record) (ApiKeyRecord.created_at record) now, raw_key).

Definition create_auth_session (uuid : string) (bytes : list Z) (request : CreateAuthSessionRequest.t)
    (now : DateTime) : AuthSessionRecord.t * string :=
  let raw_token := generate_raw_session_token bytes in
  (AuthSessionRecord.mk (new_prefixed_id "sess" uuid) (CreateAuthSessionRequest.tenant_id request)
     (CreateAuthSessionRequest.principal_id request)
     (CreateAuthSessionRequest.active_organization_id request)
     (CreateAuthSessionRequest.active_project_id request) (session_token_hash raw_token)
     AuthSessionStatus.Active (CreateAuthSessionRequest.expires_at request) now now, raw_token).

(** The loop over the candidates: the first live one whose secret verifies; a
    stored hash that does not parse stops it. *)
Fixpoint verify_candidates (presented_key prefix : string) (now : DateTime)
    (candidates : list ApiKeyRecord.t) : Result (option ApiKeyRecord.t) :=
  match candidates with
  | [] => Ok None
  | candidate :: candidates' =>
      if negb (constant_time_eq (ApiKeyRecord.key_prefix candidate) prefix)
         || negb (ApiKeyRecord.can_authenticate_at candidate now)
      then verify_candidates presented_key prefix now candidates'
      else
        verified ← verify_secret presented_key (ApiKeyRecord.secret_hash candidate);
        if (verified : bool) then Ok (Some candidate)
        else verify_candidates presented_key prefix now candidates'
  end.

Definition verify_api_key (presented_key request_id trace_id : string) (now : DateTime)
    (s : AuthStore.t) : Result AuthenticatedActor.t * AuthStore.t :=
  match key_prefix presented_key with
  | Err e => (Err e, s)
  | Ok prefix =>
      let '(allowed, s1) := api_key_failed_auth_allowed prefix now s in
      if negb allowed then (Err GatewayError.Authentication, s1)
      else
        match verify_candidates presented_key prefix now (candidates_by_prefix prefix s1) with
        | Err e => (Err e, s1)
        | Ok None =>
            (Err GatewayError.Authentication, record_api_key_failed_auth prefix now s1)
        | Ok (Some candidate) =>
            (Ok (AuthenticatedActor.for_api_key candidate request_id trace_id),
             record_api_key_last_used
               (ApiKeyLastUsedUpdate.mk (ApiKeyRecord.tenant_id candidate)
                  (ApiKeyRecord.api_key_id candidate) prefix request_id now) s1)
        end
  end.

Definition verify_session_token (presented_token : string) (now : DateTime) (s : AuthStore.t)
    : Result AuthSessionRecord.t :=
  if negb (is_ascii presented_token) || negb (starts_with "sws_" presented_token)
  then Err GatewayError.Authentication
  else
    let presented_hash := session_token_hash presented_token in
    match session_by_hash presented_hash s with
    | None => Err GatewayError.Authentication
    | Some session =>
        if negb (constant_time_eq (AuthSessionRecord.session_hash session) presented_hash)
           || negb (AuthSessionRecord.can_authenticate_at session now)
        then Err GatewayError.Authentication
        else Ok session
    end.
End verify.

Definition active_project_membership (principal_id project_id missing_reason : string)
    (s : AuthStore.t) : Result ProjectMembershipRecord.t :=
  match project_membership principal_id project_id s with
  | None => Err (GatewayError.Authorization missing_reason)
  | Some membership =>
      if negb (ProjectMembershipRecord.accepts_access membership)
      then Err (GatewayError.Authorization "project_membership_inactive")
      else Ok membership
  end.

Definition resolve_user_session_actor (request : ResolveUserSessionRequest.t) (s : AuthStore.t)
    : Result AuthenticatedActor.t :=
  membership ← active_project_membership (ResolveUserSessionRequest.principal_id request)
    (ResolveUserSessionRequest.project_id request) "user_project_membership_required" s;
  mret (AuthenticatedActor.for_user_session (ActorScope.from_project_membership membership)
    (ResolveUserSessionRequest.principal_id request) (ResolveUserSessionRequest.session_id request)
    (ResolveUserSessionRequest.request_id request) (ResolveUserSessionRequest.trace_id request)
    (ResolveUserSessionRequest.expires_at request)).

Definition resolve_service_account_actor (request : ResolveServiceAccountRequest.t)
    (s : AuthStore.t) : Result AuthenticatedActor.t :=
  membership ← active_project_membership (ResolveServiceAccountRequest.service_account_id request)
    (ResolveServiceAccountRequest.project_id request)
    "service_account_project_membership_required" s;
  mret (AuthenticatedActor.for_service_account (ActorScope.from_project_membership membership)
    (ResolveServiceAccountRequest.service_account_id request)
    (ResolveServiceAccountRequest.request_id request)
    (ResolveServiceAccountRequest.trace_id request)).

(** ** Lemmas *)

Section facts.
Context `{AuthLibrary}.

Lemma verify_candidates_spec presented prefix now candidates :
  match verify_candidates presented prefix now candidates with
  | Ok (Some r) => r ∈ candidates ∧ ApiKeyRecord.key_prefix r = prefix ∧
      ApiKeyRecord.can_authenticate_at r now = true ∧
      argon2_verify presented (ApiKeyRecord.secret_hash r) = Ok true
  | Ok None => ∀ r, r ∈ candidates → ApiKeyRecord.key_prefix r = prefix →
      ApiKeyRecord.can_authenticate_at r now = true →
      argon2_verify presented (ApiKeyRecord.secret_hash r) = Ok false
  | Err e => ∃ r err, r ∈ candidates ∧ argon2_verify presented (ApiKeyRecord.secret_hash r) = Err err ∧
      e = GatewayError.Internal ("stored api key hash is invalid: " +:+ err)
  end.
Proof.
  induction candidates as [|c cs IH]; cbn [verify_candidates]; [set_solver|].
  destruct (_ || _) eqn:Eskip.
  - destruct (verify_candidates _ _ _ cs) as [[r|]|e].
    + destruct IH as (? & ? & ? & ?). split_and!; [set_solver|done..].
    + intros r [->|Hr]%elem_of_cons Hp Hc; [|by apply IH]. exfalso.
      unfold constant_time_eq in Eskip. rewrite Hp, Hc, bool_decide_true in Eskip by done. done.
    + destruct IH as (r & err & ? & ? & ?). exists r, err. split_and!; [set_solver|done..].
  - unfold constant_time_eq in Eskip. btrue. unfold verify_secret.
    destruct (argon2_verify presented (ApiKeyRecord.secret_hash c)) as [[|]|err] eqn:Ev; simpl.
    + split_and!; [set_solver|done..].
    + destruct (verify_candidates _ _ _ cs) as [[r|]|e].
      * destruct IH as (? & ? & ? & ?). split_and!; [set_solver|done..].
      * intros r [->|Hr]%elem_of_cons Hp Hc; [done|by apply IH].
      * destruct IH as (r & err & ? & ? & ?). exists r, err. split_and!; [set_solver|done..].
    + exists c, err. split_and!; [set_solver|done..].
Qed.

(** The failures that still count for a prefix. *)
Definition recent_failures (prefix : string) (now : DateTime) (s : AuthStore.t) : list DateTime :=
  retain_fresh_failed_auth (default [] (AuthStore.api_key_failed_auth s !! prefix)) now.

Lemma candidates_with_failed prefix m s :
  candidates_by_prefix prefix (AuthStore.with_failed m s) = candidates_by_prefix prefix s.
Proof. done. Qed.

Lemma fresh_idem l now :
  retain_fresh_failed_auth (retain_fresh_failed_auth l now) now = retain_fresh_failed_auth l now.
Proof.
  unfold retain_fresh_failed_auth. cbv zeta. induction l as [|x l IH]; [done|]. cbn [List.filter].
  destruct (_ <? x)%Z eqn:E; [|done]. cbn [List.filter]. rewrite E. by f_equal.
Qed.

Lemma candidate_stored prefix s r :
  r ∈ candidates_by_prefix prefix s →
  ∃ l, AuthStore.api_keys s !! prefix = Some l ∧ r ∈ l.
Proof.
  unfold candidates_by_prefix. destruct (AuthStore.api_keys s !! prefix) as [l|]; [|set_solver].
  simpl. intros Hr. exists l. split; [done|]. rewrite <- (take_drop API_KEY_CANDIDATE_LIMIT l). set_solver.
Qed.

(** ** Properties *)

(** API key authentication is sound on every path: a presented key is
    accepted only for a stored key of its own prefix that is active and not
    expired now, whose stored hash verifies the presented key, with fewer than
    eight failures of that prefix in the last minute; then the actor is that
    key's, the use is recorded and the failures are forgotten.  A malformed key
    or a throttled prefix is refused without touching keys or failures, a key
    that matches nothing adds exactly one failure, and no other prefix is
    affected. *)
Theorem verify_api_key_sound presented request_id trace_id now (s : AuthStore.t) :
  match key_prefix presented with
  | Err e => verify_api_key presented request_id trace_id now s = (Err GatewayError.Authentication, s)
  | Ok prefix =>
      let '(r, s') := verify_api_key presented request_id trace_id now s in
      let recent := recent_failures prefix now s in
      AuthStore.api_keys s' = AuthStore.api_keys s ∧
      (∀ p, p ≠ prefix → AuthStore.api_key_failed_auth s' !! p = AuthStore.api_key_failed_auth s !! p) ∧
      match r with
      | Ok actor =>
          length recent < API_KEY_FAILED_AUTH_MAX_ATTEMPTS ∧ recent_failures prefix now s' = [] ∧
          ∃ l record, AuthStore.api_keys s !! prefix = Some l ∧ record ∈ l ∧
            ApiKeyRecord.key_prefix record = prefix ∧
            ApiKeyRecord.can_authenticate_at record now = true ∧
            argon2_verify presented (ApiKeyRecord.secret_hash record) = Ok true ∧
            actor = AuthenticatedActor.for_api_key record request_id trace_id ∧
            AuthStore.api_key_last_used_updates s'
              = AuthStore.api_key_last_used_updates s
                  ++ [ApiKeyLastUsedUpdate.mk (ApiKeyRecord.tenant_id record)
                        (ApiKeyRecord.api_key_id record) prefix request_id now]
      | Err e =>
          AuthStore.api_key_last_used_updates s' = AuthStore.api_key_last_used_updates s ∧
          if (length recent <? API_KEY_FAILED_AUTH_MAX_ATTEMPTS)%nat
          then e = GatewayError.Authentication ∧ recent_failures prefix now s' = recent ++ [now] ∨
               (∃ err, e = GatewayError.Internal ("stored api key hash is invalid: " +:+ err)) ∧
               recent_failures prefix now s' = recent
          else e = GatewayError.Authentication ∧ recent_failures prefix now s' = recent
      end
  end.
Proof.
  unfold verify_api_key. destruct (key_prefix presented) as [prefix|e] eqn:Ep.
  2:{ unfold key_prefix in Ep. destruct (_ || _); [by injection Ep as <-|done]. }
  unfold api_key_failed_auth_allowed, failed_api_key_auth_count. cbv zeta beta iota.
  fold (recent_failures prefix now s). set (recent := recent_failures prefix now s).
  set (s1 := AuthStore.with_failed _ s).
  assert (∀ p, p ≠ prefix →
    AuthStore.api_key_failed_auth s1 !! p = AuthStore.api_key_failed_auth s !! p) as Hother.
  { intros p Hp. unfold s1. simpl. by rewrite lookup_insert_ne. }
  assert (recent_failures prefix now s1 = recent) as Hrecent.
  { unfold recent_failures, s1. simpl. rewrite lookup_insert_eq. simpl. apply fresh_idem. }
  destruct (_ <? _)%nat eqn:Elim; cbn [negb]; [|split_and!; done].
  pose proof (verify_candidates_spec presented prefix now (candidates_by_prefix prefix s1)) as Hv.
  destruct (verify_candidates _ _ _ _) as [[record|]|e].
  - destruct Hv as (Hin & Hp & Hc & Ha). apply candidate_stored in Hin as (l & Hl & Hin).
    split_and!; [done| | | |].
    + intros p Hne. simpl. rewrite lookup_delete_ne by done. by apply Hother.
    + by apply Nat.ltb_lt.
    + unfold recent_failures. simpl. by rewrite lookup_delete_eq.
    + exists l, record. split_and!; done.
  - split_and!; [done| |done|left; split; [done|]].
    + intros p Hne. simpl. rewrite lookup_insert_ne by done. by apply Hother.
    + unfold recent_failures at 1, record_api_key_failed_auth. cbv zeta. simpl.
      rewrite !lookup_insert_eq. simpl. unfold retain_fresh_failed_auth at 1.
      rewrite List.filter_app. fold (retain_fresh_failed_auth (retain_fresh_failed_auth recent now) now).
      unfold recent, recent_failures. rewrite !fresh_idem. f_equal. simpl.
      destruct (Z.ltb_spec (now - duration_seconds API_KEY_FAILED_AUTH_WINDOW_SECONDS) now); [done|].
      unfold duration_seconds, API_KEY_FAILED_AUTH_WINDOW_SECONDS in *. lia.
  - split_and!; [done|done|done|right]. destruct Hv as (r & err & _ & _ & ->). eauto.
Qed.

(** Stores reached from one without failures by verification attempts. *)
Inductive auth_reachable : AuthStore.t → Prop :=
| auth_start s : AuthStore.api_key_failed_auth s = ∅ → auth_reachable s
| auth_verify presented request_id trace_id now s :
    auth_reachable s → auth_reachable (verify_api_key presented request_id trace_id now s).2.

Definition failures_bounded (s : AuthStore.t) : Prop :=
  ∀ prefix l, AuthStore.api_key_failed_auth s !! prefix = Some l →
    length l ≤ API_KEY_FAILED_AUTH_MAX_ATTEMPTS.

Lemma fresh_length l now : length (retain_fresh_failed_auth l now) ≤ length l.
Proof. apply List.filter_length_le. Qed.

Lemma verify_failures_bounded presented request_id trace_id now s :
  failures_bounded s → failures_bounded (verify_api_key presented request_id trace_id now s).2.
Proof.
  intros Hs. unfold verify_api_key. destruct (key_prefix presented) as [prefix|]; [|done].
  unfold api_key_failed_auth_allowed, failed_api_key_auth_count. cbv zeta beta iota.
  set (recent := retain_fresh_failed_auth _ now). set (s1 := AuthStore.with_failed _ s).
  assert (failures_bounded s1) as Hs1.
  { intros p l. unfold s1. simpl. intros [[<- <-]|[_ Hl]]%lookup_insert_Some; [|by eapply Hs].
    unfold recent. etrans; [apply fresh_length|].
    destruct (AuthStore.api_key_failed_auth s !! prefix) as [l|] eqn:El; simpl; [by eapply Hs|].
    unfold API_KEY_FAILED_AUTH_MAX_ATTEMPTS. lia. }
  destruct (Nat.ltb_spec (length recent) API_KEY_FAILED_AUTH_MAX_ATTEMPTS); cbn [negb]; [|done].
  destruct (verify_candidates _ _ _ _) as [[record|]|e]; [| |done]; simpl.
  - intros p l Hl. simpl in Hl. apply lookup_delete_Some in Hl as [_ Hl]. by eapply (Hs1 p).
  - intros p l Hl. simpl in Hl. revert Hl. intros [[<- <-]|[_ Hl]]%lookup_insert_Some; [|by eapply (Hs1 p)].
    rewrite lookup_insert_eq. simpl. unfold recent in *. rewrite fresh_idem, length_app. simpl. lia.
Qed.

(** Guessing is throttled: however verification is called, a prefix never
    has more than eight failures on record; and once eight of them are less
    than a minute old, every key of that prefix is refused, the right one too,
    without a hash being checked or a failure being added, until the oldest
    leaves the window. *)
Theorem failed_auth_throttled (s : AuthStore.t) :
  auth_reachable s →
  failures_bounded s ∧
  ∀ presented request_id trace_id now prefix,
    key_prefix presented = Ok prefix →
    API_KEY_FAILED_AUTH_MAX_ATTEMPTS ≤ length (recent_failures prefix now s) →
    let '(r, s') := verify_api_key presented request_id trace_id now s in
    r = Err GatewayError.Authentication ∧ recent_failures prefix now s' = recent_failures prefix now s.
Proof.
  intros Hr. split.
  - induction Hr as [s E|presented request_id trace_id now s _ IH]; [|by apply verify_failures_bounded].
    intros p l. rewrite E, lookup_empty. done.
  - intros presented request_id trace_id now prefix Hp Hlim. unfold verify_api_key. rewrite Hp.
    unfold api_key_failed_auth_allowed, failed_api_key_auth_count. cbv zeta beta iota.
    fold (recent_failures prefix now s). rewrite (proj2 (Nat.ltb_ge _ _) Hlim). cbn [negb].
    split; [done|]. unfold recent_failures at 1. simpl. rewrite lookup_insert_eq. simpl. apply fresh_idem.
Qed.

(** ** Storing and rotating keys *)

(** After an insert the key is stored once, under its own prefix. *)
Lemma insert_api_key_stored record s p l r :
  AuthStore.api_keys (insert_api_key record s) !! p = Some l → r ∈ l →
  ApiKeyRecord.api_key_id r = ApiKeyRecord.api_key_id record →
  r = record ∧ p = ApiKeyRecord.key_prefix record.
Proof.
  unfold insert_api_key. cbv zeta. simpl. set (retained := _ <$> AuthStore.api_keys s).
  assert (∀ q m x, retained !! q = Some m → x ∈ m →
    ApiKeyRecord.api_key_id x ≠ ApiKeyRecord.api_key_id record) as Hret.
  { intros q m x. unfold retained. rewrite lookup_fmap. intros (m0 & _ & ->)%fmap_Some [_ Hx]%filter_iff.
    by btrue. }
  intros [[<- <-]|[Hne Hl]]%lookup_insert_Some Hin Hid; [|exfalso; by eapply Hret].
  apply elem_of_app in Hin as [Hin| ->%list_elem_of_singleton]; [|done]. exfalso.
  destruct (retained !! _) as [m|] eqn:E; [|set_solver]. by eapply Hret.
Qed.

(** Rotation retires the old secret: after a rotated record replaces a key,
    a presented key of any other prefix never authenticates as that key, and
    one of the new prefix does so only if it verifies against the new hash. *)
Theorem rotation_retires_old_secret salt bytes old now record raw presented request_id trace_id
    later (s : AuthStore.t) :
  rotate_api_key_secret salt bytes old now = Ok (record, raw) →
  match (verify_api_key presented request_id trace_id later (insert_api_key record s)).1 with
  | Ok actor =>
      AuthenticatedActor.api_key_id actor = Some (ApiKeyRecord.api_key_id old) →
      key_prefix presented = key_prefix raw ∧
      argon2_verify presented (ApiKeyRecord.secret_hash record) = Ok true
  | Err _ => True
  end.
Proof.
  intros Hrot. unfold rotate_api_key_secret in Hrot. cbv zeta in Hrot.
  apply bind_ok in Hrot as ([prefix hash] & Hmeta & Hret). injection Hret as <- <-.
  set (record := ApiKeyRecord.mk _ _ _ _ _ _ _ _ _ _ _ _ _ _ _ _ _ _).
  unfold api_key_secret_metadata in Hmeta. apply bind_ok in Hmeta as (prefix' & Hprefix & Hh).
  assert (prefix' = prefix) as -> by (destruct (argon2_hash _ _); [congruence|done]).
  pose proof (verify_api_key_sound presented request_id trace_id later (insert_api_key record s)) as Hs.
  destruct (key_prefix presented) as [p|e]; [|by rewrite Hs].
  destruct (verify_api_key _ _ _ _ _) as [[actor|e] s']; [|done]. simpl.
  destruct Hs as (_ & _ & _ & _ & l & r & Hl & Hin & _ & _ & Hv & -> & _).
  intros [= Hid].
  destruct (insert_api_key_stored record s p l r Hl Hin Hid) as [-> ->]. by rewrite Hprefix.
Qed.

(** A created key works: stored where no other key has its prefix, and with
    the prefix not throttled, the raw key returned at creation authenticates
    as that key, with its owner, scope and restrictions, until it expires. *)
Theorem created_key_authenticates `{!AuthLaws} uuid salt bytes request now record raw request_id
    trace_id later (s : AuthStore.t) :
  create_api_key uuid salt bytes request now = Ok (record, raw) →
  AuthStore.api_keys s !! ApiKeyRecord.key_prefix record = None →
  length (recent_failures (ApiKeyRecord.key_prefix record) later s) < API_KEY_FAILED_AUTH_MAX_ATTEMPTS →
  match CreateApiKeyRequest.expires_at request with None => True | Some e => (later < e)%Z end →
  (verify_api_key raw request_id trace_id later (insert_api_key record s)).1
    = Ok (AuthenticatedActor.for_api_key record request_id trace_id).
Proof.
  intros Hc Hfree Hlim Hexp. unfold create_api_key in Hc. cbv zeta in Hc.
  apply bind_ok in Hc as ([prefix hash] & Hmeta & Hret). injection Hret as <- <-. simpl in *.
  set (record := ApiKeyRecord.mk _ _ _ _ _ _ _ _ _ _ _ _ _ _ _ _ _ _).
  unfold api_key_secret_metadata in Hmeta. apply bind_ok in Hmeta as (prefix' & Hprefix & Hh).
  destruct (argon2_hash salt _) as [hash'|] eqn:Ehash; [|done]. injection Hh as -> ->.
  unfold verify_api_key. rewrite Hprefix.
  unfold api_key_failed_auth_allowed, failed_api_key_auth_count. cbv zeta beta iota.
  change (AuthStore.api_key_failed_auth (insert_api_key record s)) with (AuthStore.api_key_failed_auth s).
  fold (recent_failures prefix later s). rewrite (proj2 (Nat.ltb_lt _ _) Hlim). cbn [negb].
  rewrite candidates_with_failed.
  assert (candidates_by_prefix prefix (insert_api_key record s) = [record]) as ->.
  { unfold candidates_by_prefix, insert_api_key. simpl.
    by rewrite lookup_insert_eq, lookup_fmap, Hfree. }
  cbn [verify_candidates]. unfold constant_time_eq. simpl. rewrite bool_decide_true by done. simpl.
  assert (ApiKeyRecord.can_authenticate_at record later = true) as ->.
  { unfold ApiKeyRecord.can_authenticate_at. simpl.
    destruct (CreateApiKeyRequest.expires_at request); [by apply Z.ltb_lt|done]. }
  unfold verify_secret. rewrite (argon2_verify_hash _ _ _ Ehash). done.
Qed.

(** ** Sessions *)

Lemma verify_session_stored token now s session :
  verify_session_token token now s = Ok session →
  session_by_hash (session_token_hash token) s = Some session ∧
  AuthSessionRecord.status session = AuthSessionStatus.Active ∧
  (now < AuthSessionRecord.expires_at session)%Z.
Proof.
  unfold verify_session_token. destruct (_ || _); [done|]. cbv zeta.
  destruct (session_by_hash _ s) as [r|] eqn:Er; [|done]. destruct (_ || _) eqn:E; [done|].
  intros [= <-]. btrue. split; [done|].
  unfold AuthSessionRecord.can_authenticate_at in *. btrue. split; [|done].
  by destruct (AuthSessionRecord.status r).
Qed.

(** Revocation is final: after a session is revoked by its hash, no token
    with that hash is accepted at any time; after all sessions of a principal
    are revoked, no token is accepted for that principal of that tenant; the
    sessions of others stay as they were. *)
Theorem revoked_sessions_refused hash tenant_id principal_id now (s : AuthStore.t) :
  (∀ token later, session_token_hash token = hash →
     is_Some (session_by_hash hash s) →
     verify_session_token token later (revoke_session_by_hash hash now s).2
       = Err GatewayError.Authentication) ∧
  (∀ token later session,
     verify_session_token token later (revoke_sessions_for_principal tenant_id principal_id now s).2
       = Ok session →
     (AuthSessionRecord.tenant_id session ≠ tenant_id ∨
      AuthSessionRecord.principal_id session ≠ principal_id) ∧
     verify_session_token token later s = Ok session).
Proof.
  split.
  - intros token later Hh [r Hr]. unfold revoke_session_by_hash. unfold session_by_hash in Hr.
    rewrite Hr. unfold verify_session_token. destruct (_ || _); [done|]. cbv zeta.
    unfold session_by_hash. simpl. rewrite Hh, lookup_insert_eq.
    unfold AuthSessionRecord.can_authenticate_at. simpl. by rewrite orb_true_r.
  - intros token later session Hv. destruct (verify_session_stored _ _ _ _ Hv) as (Hst & Hact & _).
    unfold session_by_hash, revoke_sessions_for_principal in Hst. simpl in Hst.
    rewrite lookup_fmap in Hst. apply fmap_Some in Hst as (r & Hr & Hs).
    destruct (principal_active tenant_id principal_id r) eqn:Ea; subst session; [done|].
    split.
    + unfold principal_active in Ea. rewrite Hact, (bool_decide_true (_ = AuthSessionStatus.Active)), andb_true_r in Ea by done.
      apply andb_false_iff in Ea as [?|?]; btrue; auto.
    + revert Hv. unfold verify_session_token. destruct (_ || _); [done|]. cbv zeta.
      unfold session_by_hash. simpl. rewrite lookup_fmap, Hr. simpl. by rewrite Ea.
Qed.
End facts.

(** ** Witnesses *)

Module AuthSample.
#[local] Open Scope Z_scope.

(** A toy library: the hash is the salted key. *)
#[global] Instance library : AuthLibrary := {
  argon2_verify key hash := Ok (hash ==? ("h:" +:+ key));
  argon2_hash salt key := Ok ("h:" +:+ key);
  sha256_hexdigest s := s;
}.
#[global] Instance laws : AuthLaws.
Proof. intros salt key hash [= <-]. simpl. by rewrite bool_decide_true. Qed.

Definition bytes : list Z := replicate 32 171.
Definition request : CreateApiKeyRequest.t :=
  CreateApiKeyRequest.mk "ten" None (Some "proj") "usr_1" "ci" "usr_1" (Some 1000) [] [].
Definition empty : AuthStore.t := AuthStore.mk ∅ ∅ [] ∅ ∅.
Definition record : ApiKeyRecord.t :=
  ApiKeyRecord.mk "ak_1" "ten" None (Some "proj") "usr_1" "ci" "swg_abababababab"
    ("h:" +:+ generate_raw_key bytes) 1 ApiKeyStatus.Active [] [] (Some 1000) None None "usr_1" 5 5.
Definition session : AuthSessionRecord.t :=
  AuthSessionRecord.mk "sess_1" "ten" "usr_1" None None "sha256:sws_1" AuthSessionStatus.Active 99 0 0.
End AuthSample.

Lemma created_key_authenticates_witness :
  (verify_api_key (generate_raw_key AuthSample.bytes) "req" "tr" 10
     (insert_api_key AuthSample.record AuthSample.empty)).1
    = Ok (AuthenticatedActor.for_api_key AuthSample.record "req" "tr").
Proof.
  apply (created_key_authenticates "1" "salt" AuthSample.bytes AuthSample.request 5
    AuthSample.record (generate_raw_key AuthSample.bytes)).
  - vm_compute. reflexivity.
  - reflexivity.
  - vm_compute. lia.
  - vm_compute. reflexivity.
Defined.

Lemma failed_auth_throttled_witness :
  failures_bounded (verify_api_key "swg_000000000000" "req" "tr" 10 AuthSample.empty).2.
Proof.
  apply failed_auth_throttled. apply auth_verify. apply auth_start. reflexivity.
Defined.

Lemma rotation_retires_old_secret_witness :
  match (verify_api_key "swg_000000000000" "req" "tr" 10
           (insert_api_key AuthSample.record AuthSample.empty)).1 with
  | Ok actor => AuthenticatedActor.api_key_id actor = Some "ak_1" →
      key_prefix "swg_000000000000" = key_prefix (generate_raw_key AuthSample.bytes) ∧
      argon2_verify "swg_000000000000" (ApiKeyRecord.secret_hash AuthSample.record) = Ok true
  | Err _ => True
  end.
Proof.
  apply (rotation_retires_old_secret "salt" AuthSample.bytes AuthSample.record 5).
  vm_compute. reflexivity.
Defined.

Lemma revoked_sessions_refused_witness :
  verify_session_token "sws_1" 10
    (revoke_session_by_hash "sha256:sws_1" 7 (insert_auth_session AuthSample.session AuthSample.empty)).2
    = Err GatewayError.Authentication.
Proof.
  destruct (revoked_sessions_refused "sha256:sws_1" "ten" "usr_1" 7
    (insert_auth_session AuthSample.session AuthSample.empty)) as [H _].
  apply H; [reflexivity|eexists; reflexivity].
Defined.
