(* ===== verification/CedarPolicy.v ===== *)
(** * The Cedar schema and policy bundles

    The rest of [policy.rs]: the schema the gateway derives from its action
    registry, the validation of a policy bundle against it, and the engine
    built from a bundle.  Parsing and validation by the Cedar library are
    parameters. *)

From S2P Require Import Prelude Order Text Domain Action.

(** What [policy.rs] calls of the library: a schema and a policy set from
    text (or an error message), strict validation (its errors and the number of
    warnings), and evaluation for a policy set and a schema. *)
Class CedarParser : Type := {
  Schema : Type;
  PolicySet : Type;
  schema_from_str : string → result string Schema;
  policy_set_from_str : string → result string PolicySet;
  validate_strict : Schema → PolicySet → list string * nat;
  evaluator : PolicySet → Schema → CedarLibrary.t;
}.

Definition CEDAR_PRINCIPAL_TYPES : list string :=
  ["User"; "ServiceAccount"; "ApiKey"; "InternalService"; "System"].

Module PolicyValidationReport.
Record t : Set := mk { warning_count : nat }.
End PolicyValidationReport.

(** A [BTreeSet<&str>] collected from a list. *)
Fixpoint btree_set (l : list string) : list string :=
  match l with
  | [] => []
  | x :: l => let s := btree_set l in
              if bool_decide (x ∈ s) then s else insert_by String.compare x s
  end.

Definition canonical_resource_kinds : list string :=
  btree_set (List.filter (λ kind, negb (bool_decide (kind ∈ CEDAR_PRINCIPAL_TYPES)))
               (GatewayAction.definition_resource_kind
                  <$> GatewayAction.canonical_definitions)).

Definition newline : string := byte_string [10].
Definition quote : string := byte_string [34].

Definition schema_action_line (definition : GatewayAction.ActionDefinition) : string :=
  "  action " +:+ quote +:+ GatewayAction.action_id definition +:+ quote
  +:+ " appliesTo { principal: [" +:+ join ", " CEDAR_PRINCIPAL_TYPES
  +:+ "], resource: [" +:+ GatewayAction.definition_resource_kind definition
  +:+ "], context: {} };" +:+ newline.
Definition schema_entity_line (name : string) : string := "  entity " +:+ name +:+ ";" +:+ newline.

Definition canonical_cedar_schema_source : string :=
  "namespace Gateway {" +:+ newline
  +:+ join "" (schema_entity_line <$> CEDAR_PRINCIPAL_TYPES)
  +:+ join "" (schema_entity_line <$> canonical_resource_kinds)
  +:+ join "" (schema_action_line <$> GatewayAction.canonical_definitions)
  +:+ "}" +:+ newline.

Section policies.
Context `{CedarParser}.

Definition parse_canonical_schema : result GatewayError.t Schema :=
  match schema_from_str canonical_cedar_schema_source with
  | Ok schema => Ok schema
  | Err error => Err (GatewayError.Internal ("canonical cedar schema is invalid: " +:+ error))
  end.

Definition parse_policy_set (policy_source : string) : result GatewayError.t PolicySet :=
  match policy_set_from_str policy_source with
  | Ok policy_set => Ok policy_set
  | Err error => Err (GatewayError.BadRequest ("cedar policy bundle parse failed: " +:+ error))
  end.

(** [validation_passed] says that there are no errors. *)
Definition validate_policy_set (schema : Schema) (policy_set : PolicySet)
    : result GatewayError.t PolicyValidationReport.t :=
  match validate_strict schema policy_set with
  | ([], warnings) => Ok (PolicyValidationReport.mk warnings)
  | (errors, _) =>
      Err (GatewayError.BadRequest ("cedar policy bundle validation failed: " +:+ join "; " errors))
  end.

Definition validate_cedar_policy_bundle (policy_source : string)
    : result GatewayError.t PolicyValidationReport.t :=
  schema ← parse_canonical_schema;
  policy_set ← parse_policy_set policy_source;
  validate_policy_set schema policy_set.

Definition from_policy_source (policy_source : string)
    : result GatewayError.t CedarAuthorizationEngine.t :=
  schema ← parse_canonical_schema;
  policy_set ← parse_policy_set policy_source;
  validate_policy_set schema policy_set;;
  Ok (CedarAuthorizationEngine.mk (evaluator policy_set schema)).

(** A bundle that validates is a bundle an engine can be built from. *)
Lemma validated_bundle_loads source :
  (∃ report, validate_cedar_policy_bundle source = Ok report) ↔
  (∃ engine, from_policy_source source = Ok engine).
Proof.
  unfold validate_cedar_policy_bundle, from_policy_source.
  destruct parse_canonical_schema as [schema|e]; simpl; [|naive_solver].
  destruct (parse_policy_set source) as [ps|e]; simpl; [|naive_solver].
  destruct (validate_policy_set schema ps) as [r|e]; simpl; naive_solver.
Qed.
End policies.

(** The schema covers the registry: every action is declared for a resource
    kind that is declared once, as a principal type or as a resource kind. *)
Lemma schema_covers_actions a :
  GatewayAction.resource_kind a ∈ CEDAR_PRINCIPAL_TYPES ++ canonical_resource_kinds ∧
  NoDup (CEDAR_PRINCIPAL_TYPES ++ canonical_resource_kinds).
Proof.
  split.
  - assert (Forall (λ a, GatewayAction.resource_kind a
                     ∈ CEDAR_PRINCIPAL_TYPES ++ canonical_resource_kinds)
              GatewayAction.canonical_actions) as Hall
      by (apply (bool_decide_unpack _); vm_compute; exact I).
    rewrite Forall_forall in Hall. apply Hall, GatewayAction.canonical_actions_complete.
  - apply (bool_decide_unpack _). by vm_compute.
Qed.
