(* ===== verification/Publication.v ===== *)
(** * Configuration publication

    [config.rs]: publishing a configuration document and rolling one back, over
    the [ConfigSnapshotStore] and [ConfigPublicationRepository] operations of
    the in-memory store ([storage.rs]): snapshots, the pointer to the latest one
    of a tenant, invalidation events and the reloads of workers. *)

From S2P Require Import Prelude Order Text Json Domain Action CedarPolicy.

(** The bytes [serde_json::to_vec] writes; a struct is written as the object of
    its fields.  Writing a [Value] or a struct of such does not fail. *)
Class JsonText (V : Type) : Type := json_to_vec : V → string.

(** ** Records of [domain.rs] and [config.rs] *)

Module ConfigSnapshotStatus.
Inductive t : Set := Pending | Published | Rejected | RolledBack.
#[global] Instance eq_dec : EqDecision t.
Proof. solve_decision. Defined.
Definition as_str (self : t) : string :=
  match self with
  | Pending => "pending" | Published => "published" | Rejected => "rejected"
  | RolledBack => "rolled_back"
  end.
End ConfigSnapshotStatus.

Module ConfigSnapshot.
Record t : Set := mk {
  snapshot_id : string;
  tenant_id : string;
  version : Z;
  checksum : string;
  status : ConfigSnapshotStatus.t;
  compiled_at : DateTime;
}.
End ConfigSnapshot.

Module ResourceVersion.
Record t : Set := mk { resource_kind : string; resource_id : string; version : Z }.
End ResourceVersion.

Module ConfigSnapshotDocument.
Record t {V : Type} : Type := mk {
  schema : string;
  resource_versions : list ResourceVersion.t;
  payload : V;
  rollback_of : option string;
}.
Arguments t V : clear implicits.
Arguments mk {V}.
Definition rolled_back {V} (self : t V) (source_snapshot_id : string) : t V :=
  mk (schema self) (resource_versions self) (payload self) (Some source_snapshot_id).
End ConfigSnapshotDocument.

Module PublishedConfigSnapshot.
Record t {V : Type} : Type := mk {
  metadata : ConfigSnapshot.t;
  document : ConfigSnapshotDocument.t V;
  created_by : string;
  published_at : DateTime;
}.
Arguments t V : clear implicits.
Arguments mk {V}.
Definition tenant_id {V} (self : t V) : string := ConfigSnapshot.tenant_id (metadata self).
Definition snapshot_id {V} (self : t V) : string := ConfigSnapshot.snapshot_id (metadata self).
Definition version {V} (self : t V) : Z := ConfigSnapshot.version (metadata self).
End PublishedConfigSnapshot.

Module PublishConfigSnapshotRequest.
Record t {V : Type} : Type := mk {
  tenant_id : string;
  resource_versions : list ResourceVersion.t;
  payload : V;
  created_by : string;
}.
Arguments t V : clear implicits.
Arguments mk {V}.
End PublishConfigSnapshotRequest.

Module ConfigPublicationPointerRecord.
Record t : Set := mk {
  tenant_id : string;
  snapshot_id : string;
  version : Z;
  checksum : string;
  invalidation_id : string;
  published_at : DateTime;
  updated_at : DateTime;
}.
End ConfigPublicationPointerRecord.

Module ConfigInvalidationEventRecord.
Record t : Set := mk {
  invalidation_id : string;
  tenant_id : string;
  snapshot_id : string;
  version : Z;
  checksum : string;
  published_at : DateTime;
  created_at : DateTime;
}.
End ConfigInvalidationEventRecord.

Module ConfigReloadSource.
Inductive t : Set := Invalidation | Polling.
Definition as_str (self : t) : string :=
  match self with Invalidation => "invalidation" | Polling => "polling" end.
End ConfigReloadSource.

Module ConfigWorkerReloadStatus.
Inductive t : Set := Loaded | Failed.
Definition as_str (self : t) : string :=
  match self with Loaded => "loaded" | Failed => "failed" end.
End ConfigWorkerReloadStatus.

Module ConfigWorkerReloadRecord.
Record t : Set := mk {
  tenant_id : string;
  worker_id : string;
  snapshot_id : string;
  loaded_version : Z;
  checksum : string;
  last_known_good_snapshot_id : string;
  last_known_good_version : Z;
  reload_source : ConfigReloadSource.t;
  status : ConfigWorkerReloadStatus.t;
  missed_invalidation_count : N;
  publication_lag_ms : Z;
  reloaded_at : DateTime;
}.
End ConfigWorkerReloadRecord.

(** ** The store *)

(** [Iterator::max_by_key]: the last of the largest. *)
Definition max_by_key {A} (key : A → Z) (l : list A) : option A :=
  fold_left (λ best x, match best with
                       | None => Some x
                       | Some b => if (key b <=? key x)%Z then Some x else Some b
                       end) l None.

Module ConfigStore.
Record t {V : Type} : Type := mk {
  config_snapshots : list (PublishedConfigSnapshot.t V);
  config_publications : gmap string ConfigPublicationPointerRecord.t;
  config_invalidations : list ConfigInvalidationEventRecord.t;
  config_worker_reloads : gmap (string * string) ConfigWorkerReloadRecord.t;
  latest_snapshot : option ConfigSnapshot.t;
}.
Arguments t V : clear implicits.
Arguments mk {V}.

Section store.
Context {V : Type}.

Definition empty : t V := mk [] ∅ [] ∅ None.

Definition latest_published_snapshot (s : t V) : option ConfigSnapshot.t := latest_snapshot s.

Definition config_snapshot (snapshot_id : string) (s : t V)
    : option (PublishedConfigSnapshot.t V) :=
  List.find (λ x, PublishedConfigSnapshot.snapshot_id x ==? snapshot_id) (config_snapshots s).

Definition latest_published_snapshot_for_tenant (tenant_id : string) (s : t V)
    : option ConfigSnapshot.t :=
  match config_publications s !! tenant_id with
  | Some pointer =>
      PublishedConfigSnapshot.metadata
        <$> config_snapshot (ConfigPublicationPointerRecord.snapshot_id pointer) s
  | None =>
      PublishedConfigSnapshot.metadata
        <$> max_by_key PublishedConfigSnapshot.version
              (List.filter (λ x, PublishedConfigSnapshot.tenant_id x ==? tenant_id)
                 (config_snapshots s))
  end.

Definition insert_config_snapshot (uuid : string) (snapshot : PublishedConfigSnapshot.t V)
    (s : t V) : t V :=
  let metadata := PublishedConfigSnapshot.metadata snapshot in
  let invalidation_id := new_prefixed_id "cfginv" uuid in
  let published_at := PublishedConfigSnapshot.published_at snapshot in
  let pointer := ConfigPublicationPointerRecord.mk
    (ConfigSnapshot.tenant_id metadata) (ConfigSnapshot.snapshot_id metadata)
    (ConfigSnapshot.version metadata) (ConfigSnapshot.checksum metadata)
    invalidation_id published_at published_at in
  let invalidation := ConfigInvalidationEventRecord.mk invalidation_id
    (ConfigSnapshot.tenant_id metadata) (ConfigSnapshot.snapshot_id metadata)
    (ConfigSnapshot.version metadata) (ConfigSnapshot.checksum metadata)
    published_at published_at in
  mk (config_snapshots s ++ [snapshot])
     (<[ConfigPublicationPointerRecord.tenant_id pointer := pointer]> (config_publications s))
     (config_invalidations s ++ [invalidation])
     (config_worker_reloads s) (Some metadata).

Definition config_publication (tenant_id : string) (s : t V)
    : option ConfigPublicationPointerRecord.t := config_publications s !! tenant_id.

Definition config_invalidation_events_for_tenant (tenant_id : string) (s : t V)
    : list ConfigInvalidationEventRecord.t :=
  List.filter (λ event, ConfigInvalidationEventRecord.tenant_id event ==? tenant_id)
    (config_invalidations s).

(** [BTreeMap::values] on pairs of strings, in key order. *)
Definition config_worker_reloads_for_tenant (tenant_id : string) (s : t V)
    : list ConfigWorkerReloadRecord.t :=
  sort_by (cmp_then (cmp_on ConfigWorkerReloadRecord.worker_id String.compare)
             (cmp_on ConfigWorkerReloadRecord.reloaded_at Z.compare))
    (List.filter (λ record, ConfigWorkerReloadRecord.tenant_id record ==? tenant_id)
       (sort_by (cmp_then (cmp_on fst (cmp_on fst String.compare))
                   (cmp_on fst (cmp_on snd String.compare)))
          (map_to_list (config_worker_reloads s))).*2).

Definition config_worker_reload (tenant_id worker_id : string) (s : t V)
    : option ConfigWorkerReloadRecord.t := config_worker_reloads s !! (tenant_id, worker_id).

Definition count_missed_invalidations (tenant_id : string)
    (previous : option ConfigWorkerReloadRecord.t) (target_version : Z) (s : t V) : N :=
  let previous_version :=
    match previous with Some r => ConfigWorkerReloadRecord.loaded_version r | None => 0%Z end in
  N.of_nat (length (List.filter (λ event,
    (ConfigInvalidationEventRecord.tenant_id event ==? tenant_id)
    && (previous_version <? ConfigInvalidationEventRecord.version event)%Z
    && (ConfigInvalidationEventRecord.version event <=? target_version)%Z)
    (config_invalidations s))).

Definition config_worker_reload_record (tenant_id worker_id : string) (snapshot : ConfigSnapshot.t)
    (reload_source : ConfigReloadSource.t) (missed_invalidation_count : N)
    (published_at reloaded_at : DateTime) : ConfigWorkerReloadRecord.t :=
  ConfigWorkerReloadRecord.mk tenant_id worker_id (ConfigSnapshot.snapshot_id snapshot)
    (ConfigSnapshot.version snapshot) (ConfigSnapshot.checksum snapshot)
    (ConfigSnapshot.snapshot_id snapshot) (ConfigSnapshot.version snapshot)
    reload_source ConfigWorkerReloadStatus.Loaded missed_invalidation_count
    (Z.max (num_milliseconds (reloaded_at - published_at)) 0) reloaded_at.

Definition insert_reload (record : ConfigWorkerReloadRecord.t) (s : t V) : t V :=
  mk (config_snapshots s) (config_publications s) (config_invalidations s)
    (<[(ConfigWorkerReloadRecord.tenant_id record, ConfigWorkerReloadRecord.worker_id record)
       := record]> (config_worker_reloads s)) (latest_snapshot s).

Abbreviation Eff := (M (t V) GatewayError.t).

Definition reload_config_worker_from_invalidation (tenant_id worker_id invalidation_id : string)
    (now : DateTime) : Eff ConfigWorkerReloadRecord.t := λ s,
  match List.find (λ event,
          (ConfigInvalidationEventRecord.tenant_id event ==? tenant_id)
          && (ConfigInvalidationEventRecord.invalidation_id event ==? invalidation_id))
          (config_invalidations s) with
  | None => (Err (GatewayError.NotFound ("config invalidation " +:+ invalidation_id)), s)
  | Some event =>
      let previous := config_worker_reload tenant_id worker_id s in
      match config_snapshot (ConfigInvalidationEventRecord.snapshot_id event) s with
      | None => (Err (GatewayError.NotFound
                   ("config snapshot " +:+ ConfigInvalidationEventRecord.snapshot_id event)), s)
      | Some snapshot =>
          let missed_invalidation_count := count_missed_invalidations tenant_id previous
            (ConfigInvalidationEventRecord.version event) s in
          let record := config_worker_reload_record tenant_id worker_id
            (PublishedConfigSnapshot.metadata snapshot) ConfigReloadSource.Invalidation
            (missed_invalidation_count - 1) (ConfigInvalidationEventRecord.published_at event) now in
          (Ok record, insert_reload record s)
      end
  end.

Definition reload_config_worker_by_polling (tenant_id worker_id : string) (now : DateTime)
    : Eff ConfigWorkerReloadRecord.t := λ s,
  match config_publication tenant_id s with
  | None => (Err (GatewayError.NotFound ("config publication pointer " +:+ tenant_id)), s)
  | Some pointer =>
      let previous := config_worker_reload tenant_id worker_id s in
      match config_snapshot (ConfigPublicationPointerRecord.snapshot_id pointer) s with
      | None => (Err (GatewayError.NotFound
                   ("config snapshot " +:+ ConfigPublicationPointerRecord.snapshot_id pointer)), s)
      | Some snapshot =>
          let missed_invalidation_count := count_missed_invalidations tenant_id previous
            (ConfigPublicationPointerRecord.version pointer) s in
          let record := config_worker_reload_record tenant_id worker_id
            (PublishedConfigSnapshot.metadata snapshot) ConfigReloadSource.Polling
            missed_invalidation_count (ConfigPublicationPointerRecord.published_at pointer) now in
          (Ok record, insert_reload record s)
      end
  end.
End store.
End ConfigStore.

(** ** Publishing *)

Section publish.
Context {V : Type} `{JsonLibrary V} `{JsonText V} `{Sha256Library} `{CedarParser}.
Abbreviation Eff := (M (ConfigStore.t V) GatewayError.t).

Definition document_json (document : ConfigSnapshotDocument.t V) : V :=
  json_obj [
    ("schema", json_str (ConfigSnapshotDocument.schema document));
    ("resource_versions", json_arr ((λ r, json_obj [
       ("resource_kind", json_str (ResourceVersion.resource_kind r));
       ("resource_id", json_str (ResourceVersion.resource_id r));
       ("version", json_int (ResourceVersion.version r))])
       <$> ConfigSnapshotDocument.resource_versions document));
    ("payload", ConfigSnapshotDocument.payload document);
    ("rollback_of", match ConfigSnapshotDocument.rollback_of document with
                    | Some id => json_str id | None => json_null end)].

Definition snapshot_checksum (document : ConfigSnapshotDocument.t V) : string :=
  "sha256:" +:+ lower_hex (sha256 (json_to_vec (document_json document))).

Definition validate_config_snapshot_payload (payload : V) : result GatewayError.t unit :=
  match json_get payload "cedar_policy_bundle" with
  | None => Ok tt
  | Some policy_bundle =>
      match as_str policy_bundle with
      | None => Err (GatewayError.BadRequest "cedar_policy_bundle must be a string")
      | Some policy_bundle => validate_cedar_policy_bundle policy_bundle;; Ok tt
      end
  end.

(** The two drawn UUIDs are those of the snapshot and of its invalidation. *)
Definition publish_document (snapshot_uuid invalidation_uuid tenant_id : string)
    (document : ConfigSnapshotDocument.t V) (created_by : string) (now : DateTime)
    : Eff (PublishedConfigSnapshot.t V) := λ s,
  let version :=
    match ConfigStore.latest_published_snapshot_for_tenant tenant_id s with
    | Some snapshot => wrap_i64 (ConfigSnapshot.version snapshot + 1)
    | None => 1%Z
    end in
  let snapshot := PublishedConfigSnapshot.mk
    (ConfigSnapshot.mk (new_prefixed_id "cfg" snapshot_uuid) tenant_id version
       (snapshot_checksum document) ConfigSnapshotStatus.Published now)
    document created_by now in
  (Ok snapshot, ConfigStore.insert_config_snapshot invalidation_uuid snapshot s).

Definition publish_config_snapshot (snapshot_uuid invalidation_uuid : string)
    (request : PublishConfigSnapshotRequest.t V) (now : DateTime)
    : Eff (PublishedConfigSnapshot.t V) :=
  lift (validate_config_snapshot_payload (PublishConfigSnapshotRequest.payload request));;
  let document := ConfigSnapshotDocument.mk "gateway.config_snapshot.v1"
    (PublishConfigSnapshotRequest.resource_versions request)
    (PublishConfigSnapshotRequest.payload request) None in
  publish_document snapshot_uuid invalidation_uuid (PublishConfigSnapshotRequest.tenant_id request)
    document (PublishConfigSnapshotRequest.created_by request) now.

Definition rollback_config_snapshot (snapshot_uuid invalidation_uuid tenant_id : string)
    (source_snapshot_id created_by : string) (now : DateTime)
    : Eff (PublishedConfigSnapshot.t V) := λ s,
  match ConfigStore.config_snapshot source_snapshot_id s with
  | None => (Err (GatewayError.NotFound ("config snapshot " +:+ source_snapshot_id)), s)
  | Some source =>
      if PublishedConfigSnapshot.tenant_id source !=? tenant_id
      then (Err (GatewayError.Authorization "snapshot_tenant_mismatch"), s)
      else publish_document snapshot_uuid invalidation_uuid tenant_id
             (ConfigSnapshotDocument.rolled_back (PublishedConfigSnapshot.document source)
                source_snapshot_id) created_by now s
  end.
End publish.
