(* ===== verification/PublicationFacts.v ===== *)
(** * Publication: histories, rollback and convergence

    The states reached by publications, rollbacks and worker reloads, their
    invariant, and what it gives. *)

From S2P Require Import Prelude Order Text Json Domain Action CedarPolicy Publication.
From stdpp Require Import list_numbers.
Import ConfigStore.

Section facts.
Context {V : Type} `{JsonLibrary V} `{JsonText V} `{Sha256Library} `{CedarParser}.
Implicit Types (s : ConfigStore.t V) (x : PublishedConfigSnapshot.t V).

Definition tenant_snapshots (tenant : string) s : list (PublishedConfigSnapshot.t V) :=
  List.filter (λ x, PublishedConfigSnapshot.tenant_id x ==? tenant) (config_snapshots s).

(** The event of a snapshot. *)
Record announces x (e : ConfigInvalidationEventRecord.t) : Prop := {
  same_tenant : ConfigInvalidationEventRecord.tenant_id e = PublishedConfigSnapshot.tenant_id x;
  same_snapshot :
    ConfigInvalidationEventRecord.snapshot_id e = PublishedConfigSnapshot.snapshot_id x;
  same_version : ConfigInvalidationEventRecord.version e = PublishedConfigSnapshot.version x;
  same_checksum : ConfigInvalidationEventRecord.checksum e
                  = ConfigSnapshot.checksum (PublishedConfigSnapshot.metadata x);
  same_time : ConfigInvalidationEventRecord.published_at e
              = PublishedConfigSnapshot.published_at x;
}.

(** The pointer to a snapshot. *)
Record points_to (p : ConfigPublicationPointerRecord.t) x : Prop := {
  pointed_snapshot :
    ConfigPublicationPointerRecord.snapshot_id p = PublishedConfigSnapshot.snapshot_id x;
  pointed_version : ConfigPublicationPointerRecord.version p = PublishedConfigSnapshot.version x;
  pointed_checksum : ConfigPublicationPointerRecord.checksum p
                     = ConfigSnapshot.checksum (PublishedConfigSnapshot.metadata x);
  pointed_time : ConfigPublicationPointerRecord.published_at p
                 = PublishedConfigSnapshot.published_at x;
}.

(** What a worker record says it loaded. *)
Record loaded (r : ConfigWorkerReloadRecord.t) x : Prop := {
  loaded_snapshot : ConfigWorkerReloadRecord.snapshot_id r = PublishedConfigSnapshot.snapshot_id x;
  loaded_at_version :
    ConfigWorkerReloadRecord.loaded_version r = PublishedConfigSnapshot.version x;
  loaded_checksum : ConfigWorkerReloadRecord.checksum r
                    = ConfigSnapshot.checksum (PublishedConfigSnapshot.metadata x);
}.

(** A snapshot as it was published: its status, the checksum of its document,
    and a payload that validates. *)
Record sound_snapshot x : Prop := {
  sound_status : ConfigSnapshot.status (PublishedConfigSnapshot.metadata x)
                 = ConfigSnapshotStatus.Published;
  sound_checksum : ConfigSnapshot.checksum (PublishedConfigSnapshot.metadata x)
                   = snapshot_checksum (PublishedConfigSnapshot.document x);
  sound_payload : validate_config_snapshot_payload
                    (ConfigSnapshotDocument.payload (PublishedConfigSnapshot.document x)) = Ok tt;
}.

Record consistent s : Prop := {
  ids_unique : NoDup (PublishedConfigSnapshot.snapshot_id <$> config_snapshots s);
  events_unique : NoDup (ConfigInvalidationEventRecord.invalidation_id <$> config_invalidations s);
  one_event_each : Forall2 announces (config_snapshots s) (config_invalidations s);
  versions_linear tenant :
    PublishedConfigSnapshot.version <$> tenant_snapshots tenant s
    = seqZ 1 (Z.of_nat (length (tenant_snapshots tenant s)));
  pointer_latest tenant :
    match config_publications s !! tenant, last (tenant_snapshots tenant s) with
    | Some p, Some x => points_to p x
    | None, None => True
    | _, _ => False
    end;
  workers_loaded tenant worker r :
    config_worker_reloads s !! (tenant, worker) = Some r →
    ∃ x, x ∈ tenant_snapshots tenant s ∧ loaded r x;
  all_sound : Forall sound_snapshot (config_snapshots s);
}.

(** ** Reading a consistent store *)

Lemma tenant_snapshots_in tenant s x :
  x ∈ tenant_snapshots tenant s ↔
  x ∈ config_snapshots s ∧ PublishedConfigSnapshot.tenant_id x = tenant.
Proof. unfold tenant_snapshots. rewrite filter_iff. rewrite bool_decide_eq_true. tauto. Qed.

Lemma config_snapshot_in s x : consistent s → x ∈ config_snapshots s →
  config_snapshot (PublishedConfigSnapshot.snapshot_id x) s = Some x.
Proof.
  intros [Hids _ _ _ _ _ _]. unfold config_snapshot.
  induction (config_snapshots s) as [|y l IH]; simpl; [by intros ?%elem_of_nil|].
  simpl in Hids. apply NoDup_cons in Hids as [Hy Hl]. case_bool_decide as E.
  - intros [->|Hin]%elem_of_cons; [done|]. exfalso. apply Hy. rewrite E.
    by apply list_elem_of_fmap_2.
  - intros [->|Hin]%elem_of_cons; [done|]. by apply IH.
Qed.

Lemma find_app_l {A} (f : A → bool) l l' a :
  List.find f l = Some a → List.find f (l ++ l') = Some a.
Proof. induction l as [|b l IH]; simpl; [done|]. by destruct (f b). Qed.

Lemma last_in {A} (l : list A) a : last l = Some a → a ∈ l.
Proof. intros (l' & ->)%last_Some. apply elem_of_app. right. by apply list_elem_of_singleton. Qed.

Lemma latest_for_tenant s tenant : consistent s →
  latest_published_snapshot_for_tenant tenant s
  = PublishedConfigSnapshot.metadata <$> last (tenant_snapshots tenant s).
Proof.
  intros Hs. unfold latest_published_snapshot_for_tenant.
  pose proof (pointer_latest s Hs tenant) as Hp.
  destruct (config_publications s !! tenant) as [p|] eqn:Ep;
    destruct (last (tenant_snapshots tenant s)) as [x|] eqn:Ex; try done.
  - rewrite (pointed_snapshot _ _ Hp).
    apply last_in, tenant_snapshots_in in Ex as [Hin _].
    by rewrite config_snapshot_in.
  - apply last_None in Ex. unfold tenant_snapshots in Ex. rewrite Ex. done.
Qed.

Lemma version_at s tenant x : consistent s → x ∈ tenant_snapshots tenant s →
  (1 ≤ PublishedConfigSnapshot.version x ≤ Z.of_nat (length (tenant_snapshots tenant s)))%Z.
Proof.
  intros Hs Hx. pose proof (versions_linear s Hs tenant) as Hv.
  assert (PublishedConfigSnapshot.version x ∈ seqZ 1 (Z.of_nat (length (tenant_snapshots tenant s)))) as Hin
    by (rewrite <-Hv; by apply list_elem_of_fmap_2).
  apply elem_of_seqZ in Hin. lia.
Qed.

Lemma seqZ_1 m : seqZ m 1 = [m].
Proof. by rewrite seqZ_cons, seqZ_nil by lia. Qed.

Lemma latest_version s tenant x : consistent s → last (tenant_snapshots tenant s) = Some x →
  PublishedConfigSnapshot.version x = Z.of_nat (length (tenant_snapshots tenant s)).
Proof.
  intros Hs Hx. pose proof (versions_linear s Hs tenant) as Hv.
  apply (f_equal last) in Hv. rewrite fmap_last, Hx in Hv. simpl in Hv.
  apply last_Some in Hx as (l & Hl). rewrite Hl, length_app in Hv. simpl in Hv.
  rewrite Hl, length_app. simpl.
  replace (Z.of_nat (length l + 1)) with (Z.of_nat (length l) + 1)%Z in * by lia.
  rewrite seqZ_app, last_app in Hv by lia.
  rewrite seqZ_1 in Hv. simpl in Hv. injection Hv as ->. lia.
Qed.

(** ** Every operation keeps the store consistent *)

Lemma tenant_snapshots_insert u x s tenant :
  tenant_snapshots tenant (insert_config_snapshot u x s)
  = tenant_snapshots tenant s
    ++ (if PublishedConfigSnapshot.tenant_id x ==? tenant then [x] else []).
Proof.
  unfold tenant_snapshots. simpl. rewrite List.filter_app. simpl. by case_bool_decide.
Qed.

(** Ids no snapshot and no event has. *)
Definition fresh_ids (snapshot_uuid invalidation_uuid : string) s : Prop :=
  (new_prefixed_id "cfg" snapshot_uuid
     ∉ (PublishedConfigSnapshot.snapshot_id <$> config_snapshots s)) ∧
  (new_prefixed_id "cfginv" invalidation_uuid
     ∉ (ConfigInvalidationEventRecord.invalidation_id <$> config_invalidations s)).

(** Fewer snapshots than an [i64] version can count. *)
Definition has_room s : Prop := (Z.of_nat (length (config_snapshots s)) < i64_max)%Z.

Lemma tenant_count tenant s : length (tenant_snapshots tenant s) ≤ length (config_snapshots s).
Proof. unfold tenant_snapshots. apply List.filter_length_le. Qed.

Lemma publish_document_run u1 u2 tenant document by_ now s : consistent s → has_room s →
  let n := Z.of_nat (length (tenant_snapshots tenant s)) in
  let x := PublishedConfigSnapshot.mk
    (ConfigSnapshot.mk (new_prefixed_id "cfg" u1) tenant (n + 1) (snapshot_checksum document)
       ConfigSnapshotStatus.Published now) document by_ now in
  publish_document u1 u2 tenant document by_ now s = (Ok x, insert_config_snapshot u2 x s).
Proof.
  intros Hs Hroom n. simpl. unfold publish_document. rewrite latest_for_tenant by done.
  pose proof (tenant_count tenant s) as Hc. unfold has_room in Hroom.
  destruct (last (tenant_snapshots tenant s)) as [y|] eqn:Ey; simpl.
  - apply (latest_version s tenant y Hs) in Ey. unfold PublishedConfigSnapshot.version in Ey.
    rewrite Ey, wrap_i64_id; [done|]. unfold in_i64, i64_min, i64_max in *. lia.
  - apply last_None in Ey. unfold n. rewrite Ey. done.
Qed.

Lemma insert_consistent u x s : consistent s →
  PublishedConfigSnapshot.snapshot_id x
    ∉ (PublishedConfigSnapshot.snapshot_id <$> config_snapshots s) →
  new_prefixed_id "cfginv" u
    ∉ (ConfigInvalidationEventRecord.invalidation_id <$> config_invalidations s) →
  PublishedConfigSnapshot.version x
    = (Z.of_nat (length (tenant_snapshots (PublishedConfigSnapshot.tenant_id x) s)) + 1)%Z →
  sound_snapshot x →
  consistent (insert_config_snapshot u x s).
Proof.
  intros Hs Hid Hev Hver Hsound.
  split.
  - simpl. rewrite fmap_app. apply NoDup_app. split; [apply Hs|].
    split; [|apply NoDup_singleton]. intros i Hi ->%list_elem_of_singleton. done.
  - simpl. rewrite fmap_app. apply NoDup_app. split; [apply Hs|].
    split; [|apply NoDup_singleton]. intros i Hi ->%list_elem_of_singleton. done.
  - simpl. apply Forall2_app; [apply Hs|]. constructor; [|constructor]. by split.
  - intros tenant. rewrite tenant_snapshots_insert, length_app, fmap_app, (versions_linear s Hs).
    case_bool_decide as E; simpl.
    + rewrite Nat2Z.inj_add, seqZ_app by lia. f_equal. rewrite Hver, E.
      change (Z.of_nat 1) with 1%Z. rewrite seqZ_1. f_equal. lia.
    + by rewrite app_nil_r, Nat.add_0_r.
  - intros tenant. rewrite tenant_snapshots_insert.
    assert (config_publications (insert_config_snapshot u x s)
            = <[PublishedConfigSnapshot.tenant_id x
                := ConfigPublicationPointerRecord.mk (PublishedConfigSnapshot.tenant_id x)
                     (PublishedConfigSnapshot.snapshot_id x) (PublishedConfigSnapshot.version x)
                     (ConfigSnapshot.checksum (PublishedConfigSnapshot.metadata x))
                     (new_prefixed_id "cfginv" u) (PublishedConfigSnapshot.published_at x)
                     (PublishedConfigSnapshot.published_at x)]> (config_publications s)) as -> by done.
    case_bool_decide as E.
    + rewrite E, lookup_insert_eq, last_snoc. by split.
    + rewrite lookup_insert_ne by done. rewrite app_nil_r. apply Hs.
  - intros tenant worker r Hr. apply Hs in Hr as (y & Hy & Hl). exists y.
    rewrite tenant_snapshots_insert, elem_of_app. auto.
  - simpl. apply Forall_app. split; [apply Hs|]. by constructor.
Qed.

Lemma publish_document_consistent u1 u2 tenant document by_ now s : consistent s →
  has_room s → fresh_ids u1 u2 s →
  validate_config_snapshot_payload (ConfigSnapshotDocument.payload document) = Ok tt →
  consistent (publish_document u1 u2 tenant document by_ now s).2.
Proof.
  intros Hs Hroom [Hf1 Hf2] Hp. rewrite publish_document_run by done.
  by apply insert_consistent.
Qed.

Lemma publish_consistent u1 u2 request now s : consistent s → has_room s → fresh_ids u1 u2 s →
  consistent (publish_config_snapshot u1 u2 request now s).2.
Proof.
  intros Hs Hroom Hf. unfold publish_config_snapshot, mbind, M_bind, lift.
  destruct (validate_config_snapshot_payload _) as [[]|e] eqn:Ev; [|done].
  by apply publish_document_consistent.
Qed.

Lemma rollback_consistent u1 u2 tenant source by_ now s : consistent s → has_room s →
  fresh_ids u1 u2 s → consistent (rollback_config_snapshot u1 u2 tenant source by_ now s).2.
Proof.
  intros Hs Hroom Hf. unfold rollback_config_snapshot.
  destruct (config_snapshot source s) as [x|] eqn:Ex; [|done].
  case_bool_decide; simpl; [|done].
  apply publish_document_consistent; try done. simpl.
  apply find_Some_in in Ex as [Hin _]. pose proof (all_sound s Hs) as Ha.
  rewrite Forall_forall in Ha. by apply Ha.
Qed.

Lemma reload_consistent tenant worker r x s : consistent s →
  ConfigWorkerReloadRecord.tenant_id r = tenant → ConfigWorkerReloadRecord.worker_id r = worker →
  x ∈ tenant_snapshots tenant s → loaded r x → consistent (insert_reload r s).
Proof.
  intros [H1' H2' H3' H4' H5' H6' H7'] Ht Hw Hx Hl. split; try done.
  intros tenant' worker' r'. simpl. rewrite Ht, Hw. intros [[[= -> ->] ->]|[_ Hr]]%lookup_insert_Some.
  - by exists x.
  - by apply H6' in Hr.
Qed.
(** ** Reloads *)

(** Polling finds the pointer and the snapshot it points to. *)
Lemma polling_run tenant worker now s x : consistent s →
  last (tenant_snapshots tenant s) = Some x →
  let r := config_worker_reload_record tenant worker (PublishedConfigSnapshot.metadata x)
    ConfigReloadSource.Polling
    (count_missed_invalidations tenant (config_worker_reload tenant worker s)
       (PublishedConfigSnapshot.version x) s) (PublishedConfigSnapshot.published_at x) now in
  reload_config_worker_by_polling tenant worker now s = (Ok r, insert_reload r s).
Proof.
  intros Hs Hx. simpl. unfold reload_config_worker_by_polling, config_publication.
  pose proof (pointer_latest s Hs tenant) as Hp. rewrite Hx in Hp.
  destruct (config_publications s !! tenant) as [p|]; [|done].
  destruct Hp as [Hps Hpv _ Hpt]. rewrite Hps, Hpv, Hpt.
  apply last_in, tenant_snapshots_in in Hx as [Hin _].
  by rewrite config_snapshot_in.
Qed.

(** The snapshot of an event of a tenant. *)
Lemma event_snapshot s e : consistent s → e ∈ config_invalidations s →
  ∃ x, x ∈ config_snapshots s ∧ announces x e.
Proof.
  intros Hs [i Hi]%list_elem_of_lookup. pose proof (one_event_each s Hs) as Hf.
  apply (Forall2_lookup_r _ _ _ _ _ Hf) in Hi as (x & Hx & Ha).
  exists x. split; [by eapply list_elem_of_lookup_2|done].
Qed.

Lemma invalidation_run tenant worker id now s r s' : consistent s →
  reload_config_worker_from_invalidation tenant worker id now s = (Ok r, s') →
  ∃ x e, e ∈ config_invalidations s ∧ ConfigInvalidationEventRecord.invalidation_id e = id ∧
    x ∈ tenant_snapshots tenant s ∧ announces x e ∧ s' = insert_reload r s ∧
    r = config_worker_reload_record tenant worker (PublishedConfigSnapshot.metadata x)
          ConfigReloadSource.Invalidation
          (count_missed_invalidations tenant (config_worker_reload tenant worker s)
             (PublishedConfigSnapshot.version x) s - 1)
          (PublishedConfigSnapshot.published_at x) now.
Proof.
  intros Hs. unfold reload_config_worker_from_invalidation.
  destruct (List.find _ _) as [e|] eqn:Ee; [|done].
  apply find_Some_in in Ee as [Hin Hb]. btrue. subst.
  destruct (event_snapshot s e Hs Hin) as (x & Hx & Ha).
  rewrite (same_snapshot _ _ Ha), config_snapshot_in by done.
  intros [= <- <-]. exists x, e. split_and!; try done.
  - apply tenant_snapshots_in. split; [done|]. symmetry. apply Ha.
  - by rewrite (same_version _ _ Ha), (same_time _ _ Ha).
Qed.

Lemma polling_consistent tenant worker now s : consistent s →
  consistent (reload_config_worker_by_polling tenant worker now s).2.
Proof.
  intros Hs. destruct (last (tenant_snapshots tenant s)) as [x|] eqn:Ex.
  - rewrite (polling_run _ _ _ _ x) by done. simpl.
    apply (reload_consistent tenant worker _ x); [done..|by apply last_in|by split].
  - unfold reload_config_worker_by_polling, config_publication.
    pose proof (pointer_latest s Hs tenant) as Hp. rewrite Ex in Hp.
    by destruct (config_publications s !! tenant).
Qed.

Lemma invalidation_consistent tenant worker id now s : consistent s →
  consistent (reload_config_worker_from_invalidation tenant worker id now s).2.
Proof.
  intros Hs.
  destruct (reload_config_worker_from_invalidation tenant worker id now s) as [[r|e] s'] eqn:E.
  - apply invalidation_run in E as (x & e & _ & _ & Hx & _ & -> & ->); [|done]. simpl.
    by apply (reload_consistent tenant worker _ x).
  - unfold reload_config_worker_from_invalidation in E. by step_matches.
Qed.

(** ** Reachable stores *)

(** One call, with fresh ids and room for the version; a call that fails leaves
    the store as it is. *)
Inductive config_step s : ConfigStore.t V → Prop :=
  | step_publish u1 u2 request now : fresh_ids u1 u2 s → has_room s →
      config_step s (publish_config_snapshot u1 u2 request now s).2
  | step_rollback u1 u2 tenant source by_ now : fresh_ids u1 u2 s → has_room s →
      config_step s (rollback_config_snapshot u1 u2 tenant source by_ now s).2
  | step_invalidation tenant worker id now :
      config_step s (reload_config_worker_from_invalidation tenant worker id now s).2
  | step_polling tenant worker now :
      config_step s (reload_config_worker_by_polling tenant worker now s).2.

Inductive config_reached : ConfigStore.t V → Prop :=
  | reached_empty : config_reached ConfigStore.empty
  | reached_step s s' : config_reached s → config_step s s' → config_reached s'.

Lemma empty_consistent : consistent ConfigStore.empty.
Proof. split; try done; constructor. Qed.

Lemma reached_consistent s : config_reached s → consistent s.
Proof.
  induction 1 as [|s s' _ IH Hstep]; [apply empty_consistent|].
  destruct Hstep; eauto using publish_consistent, rollback_consistent, polling_consistent,
    invalidation_consistent.
Qed.

(** ** Counting missed invalidations *)

Lemma events_of_tenant (f : Z → bool) tenant l l' : Forall2 announces l l' →
  length (List.filter (λ e, (ConfigInvalidationEventRecord.tenant_id e ==? tenant)
                            && f (ConfigInvalidationEventRecord.version e)) l')
  = length (List.filter f (PublishedConfigSnapshot.version
       <$> List.filter (λ x, PublishedConfigSnapshot.tenant_id x ==? tenant) l)).
Proof.
  induction 1 as [|x e l l' Hxe _ IH]; simpl; [done|].
  rewrite (same_tenant _ _ Hxe), (same_version _ _ Hxe).
  case_bool_decide; simpl; [|done]. destruct (f _); simpl; by rewrite IH.
Qed.

Lemma filter_none {A} (l : list A) : List.filter (λ _, false) l = [].
Proof. by induction l. Qed.

Lemma count_between (n : nat) a b : (0 ≤ a ≤ b)%Z → (b ≤ Z.of_nat n)%Z →
  Z.of_nat (length (List.filter (λ v, (a <? v) && (v <=? b))%Z (seqZ 1 (Z.of_nat n)))) = (b - a)%Z.
Proof.
  intros [Ha Hab]. apply Z.le_lteq in Hab as [Hab| ->].
  2: { intros _. rewrite (List.filter_ext _ (λ _, false)), filter_none; [simpl; lia|].
       intros v. destruct (b <? v)%Z eqn:E; btrue; [|done]. apply Z.leb_gt. lia. }
  revert b Hab. induction n as [|n IH]; intros b Hab Hb.
  - lia.
  - replace (Z.of_nat (S n)) with (Z.of_nat n + 1)%Z by lia.
    rewrite seqZ_app, seqZ_1, List.filter_app, length_app by lia. simpl.
    destruct (decide (b ≤ Z.of_nat n)%Z) as [Hle|Hgt].
    + rewrite (proj2 (Z.leb_gt (1 + Z.of_nat n) b)) by lia. rewrite andb_false_r. simpl.
      rewrite Nat.add_0_r. by apply IH.
    + assert (b = 1 + Z.of_nat n)%Z as -> by lia.
      rewrite Z.leb_refl, andb_true_r.
      assert (List.filter (λ v, (a <? v) && (v <=? 1 + Z.of_nat n))%Z (seqZ 1 (Z.of_nat n))
              = List.filter (λ v, (a <? v) && (v <=? Z.of_nat n))%Z (seqZ 1 (Z.of_nat n))) as ->.
      { apply List.filter_ext_in. intros v Hv%list_elem_of_In%elem_of_seqZ. f_equal.
        rewrite !(proj2 (Z.leb_le _ _)) by lia. done. }
      rewrite (proj2 (Z.ltb_lt a (1 + Z.of_nat n))) by lia. simpl. rewrite Nat2Z.inj_add.
      destruct (decide (a = Z.of_nat n)) as [->|Hne]; [|rewrite IH by lia; lia].
      rewrite (List.filter_ext _ (λ _, false)), filter_none; [simpl; lia|].
      intros v. destruct (_ <? v)%Z eqn:E; btrue; [|done]. apply Z.leb_gt. lia.
Qed.
Lemma missed_exactly tenant worker s x : consistent s →
  last (tenant_snapshots tenant s) = Some x →
  Z.of_N (count_missed_invalidations tenant (config_worker_reload tenant worker s)
            (PublishedConfigSnapshot.version x) s)
  = (PublishedConfigSnapshot.version x
     - default 0 (ConfigWorkerReloadRecord.loaded_version
                    <$> config_worker_reload tenant worker s))%Z.
Proof.
  intros Hs Hx. unfold count_missed_invalidations. rewrite nat_N_Z.
  set (prev := match config_worker_reload tenant worker s with
               | Some r => ConfigWorkerReloadRecord.loaded_version r | None => 0%Z end).
  pose (f v := ((prev <? v) && (v <=? PublishedConfigSnapshot.version x))%Z).
  rewrite (List.filter_ext _ (λ e, (ConfigInvalidationEventRecord.tenant_id e ==? tenant)
                                   && f (ConfigInvalidationEventRecord.version e)))
    by (intros e; unfold f; by rewrite andb_assoc).
  rewrite (events_of_tenant f _ _ _ (one_event_each s Hs)). unfold f, prev.
  change (List.filter _ (config_snapshots s)) with (tenant_snapshots tenant s).
  rewrite (versions_linear s Hs), (latest_version s tenant x) by done.
  destruct (config_worker_reload tenant worker s) as [r|] eqn:Er; simpl.
  - apply (workers_loaded s Hs) in Er as (y & Hy & Hl).
    apply (version_at s tenant y Hs) in Hy. rewrite (loaded_at_version _ _ Hl).
    apply count_between; lia.
  - apply count_between; lia.
Qed.

(** ** Theorems *)

(** C12. Publication histories are linear: however publications, rollbacks and
    reloads are interleaved, the snapshots of a tenant carry the versions 1, 2,
    3, ... in the order they were published, under distinct ids; the latest
    published snapshot and the pointer are the last of them; there is exactly
    one invalidation event per snapshot, in the same order, with its id,
    version, checksum and time; every worker record names a snapshot of its own
    tenant with that snapshot's version and checksum; and every snapshot carries
    the checksum of its document and a payload that validates, so its policy
    bundle, if any, loads. *)
Theorem publication_history_linear s (Hs : config_reached s) :
  NoDup (PublishedConfigSnapshot.snapshot_id <$> config_snapshots s) ∧
  Forall2 announces (config_snapshots s) (config_invalidations s) ∧
  (∀ tenant,
     PublishedConfigSnapshot.version <$> tenant_snapshots tenant s
       = seqZ 1 (Z.of_nat (length (tenant_snapshots tenant s))) ∧
     latest_published_snapshot_for_tenant tenant s
       = PublishedConfigSnapshot.metadata <$> last (tenant_snapshots tenant s) ∧
     (∀ p, config_publication tenant s = Some p →
        ∃ x, last (tenant_snapshots tenant s) = Some x ∧ points_to p x)) ∧
  (∀ tenant worker r, config_worker_reload tenant worker s = Some r →
     ∃ x, x ∈ tenant_snapshots tenant s ∧ loaded r x) ∧
  (∀ x, x ∈ config_snapshots s → sound_snapshot x ∧
     ∀ bundle, (json_get (ConfigSnapshotDocument.payload (PublishedConfigSnapshot.document x))
                  "cedar_policy_bundle" ≫= as_str) = Some bundle →
       ∃ engine, from_policy_source bundle = Ok engine).
Proof.
  apply reached_consistent in Hs. pose proof Hs as [H1' H2' H3' H4' H5' H6' H7'].
  split_and!; try done.
  - intros tenant. split_and!; [done|by apply latest_for_tenant|].
    unfold config_publication. intros p Hp. specialize (H5' tenant). rewrite Hp in H5'.
    destruct (last _) as [x|]; [by exists x|done].
  - intros x Hx. rewrite Forall_forall in H7'. apply H7' in Hx. split; [done|].
    intros bundle Hb. apply validated_bundle_loads.
    pose proof (sound_payload _ Hx) as Hp. unfold validate_config_snapshot_payload in Hp.
    destruct (json_get _ _) as [v|]; [|done]. simpl in Hb. rewrite Hb in Hp.
    destruct (validate_cedar_policy_bundle bundle) as [r|e]; [by exists r|done].
Qed.

(** Rolling back restores: a rollback succeeds exactly when the source is a
    snapshot of the tenant; then it publishes, as the next version, a document
    with the payload and resource versions of the source and a reference to it,
    keeps every snapshot there was, and leaves what other tenants see; otherwise
    it is refused (404 for an unknown snapshot, 403 for another tenant's) and
    nothing changes. *)
Theorem rollback_restores u1 u2 tenant source by_ now s (Hs : config_reached s)
    (Hroom : has_room s) :
  match config_snapshot source s with
  | None => rollback_config_snapshot u1 u2 tenant source by_ now s
            = (Err (GatewayError.NotFound ("config snapshot " +:+ source)), s)
  | Some old =>
      if decide (PublishedConfigSnapshot.tenant_id old = tenant) then
        ∃ x s', rollback_config_snapshot u1 u2 tenant source by_ now s = (Ok x, s') ∧
          ConfigSnapshotDocument.payload (PublishedConfigSnapshot.document x)
            = ConfigSnapshotDocument.payload (PublishedConfigSnapshot.document old) ∧
          ConfigSnapshotDocument.resource_versions (PublishedConfigSnapshot.document x)
            = ConfigSnapshotDocument.resource_versions (PublishedConfigSnapshot.document old) ∧
          ConfigSnapshotDocument.rollback_of (PublishedConfigSnapshot.document x) = Some source ∧
          PublishedConfigSnapshot.version x
            = (Z.of_nat (length (tenant_snapshots tenant s)) + 1)%Z ∧
          config_snapshots s' = config_snapshots s ++ [x] ∧
          (∀ other, other ≠ tenant →
             latest_published_snapshot_for_tenant other s'
             = PublishedConfigSnapshot.metadata <$> last (tenant_snapshots other s) ∧
             config_publication other s' = config_publication other s)
      else rollback_config_snapshot u1 u2 tenant source by_ now s
           = (Err (GatewayError.Authorization "snapshot_tenant_mismatch"), s)
  end.
Proof.
  apply reached_consistent in Hs. unfold rollback_config_snapshot.
  destruct (config_snapshot source s) as [old|] eqn:E; [|done].
  destruct (decide _) as [Ht|Ht]; [|by rewrite bool_decide_eq_false_2].
  rewrite bool_decide_eq_true_2 by done. simpl. rewrite publish_document_run by done.
  eexists _, _. split_and!; try done.
  intros other Hne. unfold config_publication. simpl. rewrite lookup_insert_ne by done.
  split; [|done]. rewrite <-(latest_for_tenant s other Hs).
  unfold latest_published_snapshot_for_tenant, config_snapshot. simpl.
  rewrite lookup_insert_ne by done.
  pose proof (pointer_latest s Hs other) as Hp.
  destruct (config_publications s !! other) as [p|]; simpl.
  - destruct (last (tenant_snapshots other s)) as [x|] eqn:Ex; [|done].
    apply last_in, tenant_snapshots_in in Ex as [Hin _].
    pose proof (config_snapshot_in s x Hs Hin) as Hf. unfold config_snapshot in Hf.
    rewrite (pointed_snapshot _ _ Hp). by rewrite (find_app_l _ _ _ _ Hf), Hf.
  - rewrite List.filter_app. simpl. rewrite bool_decide_eq_false_2 by done.
    by rewrite app_nil_r.
Qed.

(** C29. Workers converge by polling, however many invalidations they missed: as
    soon as the tenant has published anything, polling succeeds and leaves the
    worker on the latest snapshot, with its checksum; the missed invalidations
    it reports are exactly the versions between the one it had loaded (0 if
    none) and the latest one; the lag is not negative; and polling again finds
    nothing missed.  Without a publication it is refused and nothing changes. *)
Theorem polling_converges tenant worker now s (Hs : config_reached s) :
  match last (tenant_snapshots tenant s) with
  | None => ∃ e, reload_config_worker_by_polling tenant worker now s = (Err e, s)
  | Some x =>
      ∃ r s', reload_config_worker_by_polling tenant worker now s = (Ok r, s') ∧
        loaded r x ∧ config_worker_reload tenant worker s' = Some r ∧
        Z.of_N (ConfigWorkerReloadRecord.missed_invalidation_count r)
          = (PublishedConfigSnapshot.version x
             - default 0 (ConfigWorkerReloadRecord.loaded_version
                            <$> config_worker_reload tenant worker s))%Z ∧
        (0 ≤ ConfigWorkerReloadRecord.publication_lag_ms r)%Z ∧
        ∀ later, ∃ r' s'',
          reload_config_worker_by_polling tenant worker later s' = (Ok r', s'') ∧ loaded r' x ∧
          ConfigWorkerReloadRecord.missed_invalidation_count r' = 0%N
  end.
Proof.
  apply reached_consistent in Hs.
  destruct (last (tenant_snapshots tenant s)) as [x|] eqn:Ex.
  2: { unfold reload_config_worker_by_polling, config_publication.
       pose proof (pointer_latest s Hs tenant) as Hp. rewrite Ex in Hp.
       destruct (config_publications s !! tenant); [done|]. eauto. }
  pose proof (polling_consistent tenant worker now s Hs) as Hs'.
  rewrite (polling_run _ _ _ _ x) in * by done. eexists _, _. split; [done|].
  split; [by split|]. unfold config_worker_reload at 1. simpl in *.
  rewrite lookup_insert_eq. split; [done|]. split; [|split; [lia|]].
  - by apply missed_exactly.
  - intros later. eexists _, _. split; [by apply (polling_run _ _ _ _ x)|].
    split; [by split|]. simpl. apply N2Z.inj. rewrite missed_exactly by done.
    unfold config_worker_reload. simpl. rewrite lookup_insert_eq. simpl.
    unfold PublishedConfigSnapshot.version. lia.
Qed.
End facts.

(** ** A sample history *)

Module SampleHistory.
#[local] Instance sample_text : JsonText Tree.t := λ _, "document".
#[local] Instance sample_sha256 : Sha256Library := λ _, repeat 7%Z 32.
#[local] Instance sample_cedar : CedarParser := {
  Schema := unit; PolicySet := string;
  schema_from_str _ := Ok tt;
  policy_set_from_str source := if source ==? "" then Err "empty" else Ok source;
  validate_strict _ _ := ([], 0);
  evaluator _ _ := CedarLibrary.mk string unit unit Some (λ _ _, false) (λ _ _ _, Some tt)
    (λ _, Some tt) (λ _ _, (false, true));
}.

Definition payload (model : string) : Tree.t :=
  Tree.Obj [("cedar_policy_bundle", Tree.Str "permit"); ("model", Tree.Str model)].
Definition request (tenant model : string) : PublishConfigSnapshotRequest.t Tree.t :=
  PublishConfigSnapshotRequest.mk tenant [] (payload model) "usr_a".

(** Two publications of one tenant, one of another, a rollback to the first,
    and a worker that polls. *)
Definition first : ConfigStore.t Tree.t :=
  (publish_config_snapshot "1" "1" (request "ten_t" "one") 1000 ConfigStore.empty).2.
Definition second : ConfigStore.t Tree.t :=
  (publish_config_snapshot "2" "2" (request "ten_t" "two") 2000 first).2.
Definition third : ConfigStore.t Tree.t :=
  (publish_config_snapshot "3" "3" (request "ten_u" "three") 3000 second).2.
Definition restored : ConfigStore.t Tree.t :=
  (rollback_config_snapshot "4" "4" "ten_t" "cfg_1" "usr_a" 4000 third).2.
Definition polled : ConfigStore.t Tree.t :=
  (reload_config_worker_by_polling "ten_t" "wrk_1" 9000000 restored).2.

(** The side conditions of a step, decided. *)
Definition fresh_idsb (u1 u2 : string) (s : ConfigStore.t Tree.t) : bool :=
  forallb (λ x, PublishedConfigSnapshot.snapshot_id x !=? new_prefixed_id "cfg" u1)
    (config_snapshots s)
  && forallb (λ e, ConfigInvalidationEventRecord.invalidation_id e
                   !=? new_prefixed_id "cfginv" u2) (config_invalidations s).
Lemma fresh_idsb_ok u1 u2 s : fresh_idsb u1 u2 s = true → fresh_ids u1 u2 s.
Proof.
  unfold fresh_idsb. intros [H1 H2]%andb_prop. rewrite forallb_iff in H1. rewrite forallb_iff in H2.
  split; intros (x & E & Hx)%list_elem_of_fmap; [apply H1 in Hx|apply H2 in Hx]; btrue; congruence.
Qed.

Ltac decide_step :=
  first [apply step_publish | apply step_rollback]; [apply fresh_idsb_ok; by vm_compute|by vm_compute].
Lemma third_reached : config_reached third.
Proof.
  apply (reached_step second); [|decide_step]. apply (reached_step first); [|decide_step].
  apply (reached_step ConfigStore.empty); [apply reached_empty|decide_step].
Qed.
Lemma restored_reached : config_reached restored.
Proof. apply (reached_step third); [apply third_reached|decide_step]. Qed.

Lemma publication_history_linear_witness :
  (PublishedConfigSnapshot.version <$> tenant_snapshots "ten_t" restored) = [1; 2; 3]%Z ∧
  (PublishedConfigSnapshot.version <$> tenant_snapshots "ten_t" restored)
    = seqZ 1 (Z.of_nat (length (tenant_snapshots "ten_t" restored))).
Proof.
  split; [by vm_compute|].
  destruct (publication_history_linear restored restored_reached) as (_ & _ & Hl & _).
  apply (Hl "ten_t").
Defined.

Lemma rollback_restores_witness :
  ∃ x, rollback_config_snapshot "4" "4" "ten_t" "cfg_1" "usr_a" 4000 third = (Ok x, restored) ∧
    ConfigSnapshotDocument.payload (PublishedConfigSnapshot.document x) = payload "one".
Proof.
  pose proof (rollback_restores "4" "4" "ten_t" "cfg_1" "usr_a" 4000 third third_reached
    ltac:(by vm_compute)) as Hr.
  assert (∃ old, config_snapshot "cfg_1" third = Some old ∧
            PublishedConfigSnapshot.tenant_id old = "ten_t" ∧
            ConfigSnapshotDocument.payload (PublishedConfigSnapshot.document old) = payload "one")
    as (old & E & Ht & Hp) by (eexists; split_and!; by vm_compute).
  rewrite E, decide_True in Hr by done. destruct Hr as (x & s' & Hr & Hx & _).
  exists x. unfold restored. rewrite Hr. by rewrite <-Hp.
Defined.

Lemma polling_converges_witness :
  ConfigWorkerReloadRecord.loaded_version
    <$> config_worker_reload "ten_t" "wrk_1" polled = Some 3%Z ∧
  (∃ r s', reload_config_worker_by_polling "ten_t" "wrk_1" 9000000 restored = (Ok r, s') ∧
     Z.of_N (ConfigWorkerReloadRecord.missed_invalidation_count r) = 3%Z).
Proof.
  split; [by vm_compute|].
  pose proof (polling_converges "ten_t" "wrk_1" 9000000 restored restored_reached) as Hp.
  destruct (last _) as [x|] eqn:Ex; [|by vm_compute in Ex].
  destruct Hp as (r & s' & Hrun & _ & _ & Hm & _). exists r, s'. split; [done|].
  rewrite Hm. vm_compute in Ex. injection Ex as <-. by vm_compute.
Defined.

(** A delayed invalidation takes a worker back: the event of version 1,
    delivered after the worker has loaded version 3, makes it load version 1
    again and report nothing missed, although workers are to compare the
    incoming version with the loaded one and to apply snapshots monotonically. *)
Lemma stale_invalidation_downgrades_worker :
  let s := (reload_config_worker_from_invalidation "ten_t" "wrk_1" "cfginv_1" 9100000 polled).2 in
  ConfigWorkerReloadRecord.loaded_version
    <$> config_worker_reload "ten_t" "wrk_1" polled = Some 3%Z ∧
  ConfigWorkerReloadRecord.loaded_version
    <$> config_worker_reload "ten_t" "wrk_1" s = Some 1%Z ∧
  ConfigWorkerReloadRecord.missed_invalidation_count
    <$> config_worker_reload "ten_t" "wrk_1" s = Some 0%N.
Proof. by vm_compute. Qed.
End SampleHistory.
