(* ===== verification/GwRoute.v ===== *)
(** * The gateway's route table

    [route.rs]: the metadata of every route, the actor constraints of a route
    and authorization with evidence; and the lookups and the freeze gate of
    [service.rs] that read it. *)

From S2P Require Import Prelude Order Text Domain Action.

(** A method is written as [http::Method::as_str] gives it. *)
Module RouteMetadata.
Record t : Set := mk {
  method : string;
  path_pattern : string;
  protocol_family : option ProtocolFamily.t;
  action : GatewayAction.t;
  resource_kind : string;
  scope_params : list string;
  allow_api_key : bool;
  strong_auth_required : bool;
  audit_event_type : string;
}.
#[global] Instance eq_dec : EqDecision t.
Proof. solve_decision. Defined.

Definition actor_constraint_denial (self : t) (actor : AuthenticatedActor.t) : option string :=
  if match AuthenticatedActor.api_key_id actor with Some _ => true | None => false end
     && negb (allow_api_key self)
  then Some "api_key_not_allowed_for_route"
  else if strong_auth_required self && (AuthenticatedActor.auth_strength actor <? 80)%Z
  then Some "strong_auth_required"
  else None.

Definition resource (self : t) (id : string) : ResourceRef.t :=
  ResourceRef.mk (resource_kind self) id.
End RouteMetadata.

(** ** The table *)

(** Model ingress. *)
Definition model_route_table : list RouteMetadata.t := [
   RouteMetadata.mk "POST" "/v1/responses" (Some ProtocolFamily.OpenAiResponses)
     GatewayAction.ModelInvoke "ModelAlias" ["model"] true false "gateway.model.invoke";
   RouteMetadata.mk "POST" "/v1/chat/completions" (Some ProtocolFamily.OpenAiChat)
     GatewayAction.ModelStream "ModelAlias" ["model"] true false "gateway.model.stream";
   RouteMetadata.mk "POST" "/v1/messages" (Some ProtocolFamily.AnthropicMessages)
     GatewayAction.ModelInvoke "ModelAlias" ["model"] true false "gateway.model.invoke";
   RouteMetadata.mk "POST" "/v1beta/models/{model}:generateContent" (Some
     ProtocolFamily.GeminiGenerateContent) GatewayAction.ModelInvoke "ModelAlias" ["model"]
     true false "gateway.model.invoke";
   RouteMetadata.mk "POST" "/model/{model}/converse" (Some ProtocolFamily.BedrockConverse)
     GatewayAction.ModelInvoke "ModelAlias" ["model"] true false "gateway.model.invoke";
   RouteMetadata.mk "POST" "/native/{provider}/{operation}" (Some
     ProtocolFamily.ProviderNative) GatewayAction.ModelNative "ProviderNativeEndpoint"
     ["provider"; "operation"] true false "gateway.model.native"].

(** Configuration snapshots and catalog imports. *)
Definition configuration_route_table : list RouteMetadata.t := [
   RouteMetadata.mk "GET" "/admin/v1/config/snapshots" None GatewayAction.ConfigRead
     "ConfigSnapshot" ["tenant_id"] true false "gateway.config.read";
   RouteMetadata.mk "GET" "/admin/v1/config/snapshots/{snapshot_id}" None
     GatewayAction.ConfigRead "ConfigSnapshot" ["tenant_id"; "snapshot_id"] true false
     "gateway.config.read";
   RouteMetadata.mk "POST" "/admin/v1/config/snapshots:validate" None GatewayAction.ConfigRead
     "ConfigSnapshot" ["tenant_id"] true false "gateway.config.validate";
   RouteMetadata.mk "GET" "/admin/v1/config/validation-diagnostics" None
     GatewayAction.ConfigRead "ConfigSnapshot" ["tenant_id"] true false
     "gateway.config.validation_diagnostic.read";
   RouteMetadata.mk "GET" "/admin/v1/catalog-imports" None GatewayAction.CatalogImportRead
     "CatalogImport" ["tenant_id"] true false "gateway.catalog_import.read";
   RouteMetadata.mk "POST" "/admin/v1/catalog-imports" None GatewayAction.CatalogImportCreate
     "CatalogImport" ["tenant_id"] true false "gateway.catalog_import.create";
   RouteMetadata.mk "POST" "/admin/v1/catalog-imports:validate" None
     GatewayAction.CatalogImportRead "CatalogImport" ["tenant_id"] true false
     "gateway.catalog_import.validate";
   RouteMetadata.mk "GET" "/admin/v1/catalog-imports/{catalog_import_id}" None
     GatewayAction.CatalogImportRead "CatalogImport" ["tenant_id"; "catalog_import_id"] true
     false "gateway.catalog_import.read"].

(** Simulation, route evidence, audit, publication. *)
Definition evidence_route_table : list RouteMetadata.t := [
   RouteMetadata.mk "POST" "/admin/v1/route-simulations" None GatewayAction.RouteSimulationRun
     "RouteSimulation" ["tenant_id"; "alias_name"; "protocol_family"] true false
     "gateway.route_simulation.run";
   RouteMetadata.mk "GET" "/admin/v1/route-decisions" None GatewayAction.RouteDebugRead
     "RouteDecision" ["tenant_id"] false true "gateway.route_decision.read";
   RouteMetadata.mk "GET" "/admin/v1/route-decisions/{route_decision_id}" None
     GatewayAction.RouteDebugRead "RouteDecision" ["tenant_id"; "route_decision_id"] false
     true "gateway.route_decision.read";
   RouteMetadata.mk "GET" "/admin/v1/route-attempts" None GatewayAction.RouteDebugRead
     "RouteDecision" ["tenant_id"] false true "gateway.route_attempt.read";
   RouteMetadata.mk "GET" "/admin/v1/route-attempts/{route_attempt_event_id}" None
     GatewayAction.RouteDebugRead "RouteDecision" ["tenant_id"; "route_attempt_event_id"]
     false true "gateway.route_attempt.read";
   RouteMetadata.mk "GET" "/admin/v1/audit/events" None GatewayAction.AuditRead "AuditEvent"
     ["tenant_id"] false true "gateway.audit.read";
   RouteMetadata.mk "POST" "/admin/v1/config/snapshots:publish" None
     GatewayAction.ConfigPublish "ConfigSnapshot" ["tenant_id"] false true
     "gateway.config.publish";
   RouteMetadata.mk "POST" "/admin/v1/config/snapshots:rollback" None
     GatewayAction.ConfigRollback "ConfigSnapshot" ["tenant_id"; "source_snapshot_id"] false
     true "gateway.config.rollback"].

(** Projects, organizations and their members. *)
Definition tenancy_route_table : list RouteMetadata.t := [
   RouteMetadata.mk "GET" "/admin/v1/projects" None GatewayAction.ProjectRead "Project"
     ["tenant_id"] true false "gateway.project.read";
   RouteMetadata.mk "GET" "/admin/v1/projects/{project_id}" None GatewayAction.ProjectRead
     "Project" ["tenant_id"; "project_id"] true false "gateway.project.read";
   RouteMetadata.mk "PATCH" "/admin/v1/projects/{project_id}" None GatewayAction.ProjectWrite
     "Project" ["tenant_id"; "project_id"] true false "gateway.project.update";
   RouteMetadata.mk "GET" "/admin/v1/organizations" None GatewayAction.OrganizationRead
     "Organization" ["tenant_id"] true false "gateway.organization.read";
   RouteMetadata.mk "GET" "/admin/v1/organizations/{organization_id}" None
     GatewayAction.OrganizationRead "Organization" ["tenant_id"; "organization_id"] true false
     "gateway.organization.read";
   RouteMetadata.mk "PATCH" "/admin/v1/organizations/{organization_id}" None
     GatewayAction.OrganizationWrite "Organization" ["tenant_id"; "organization_id"] true
     false "gateway.organization.update";
   RouteMetadata.mk "GET" "/admin/v1/organizations/{organization_id}/members" None
     GatewayAction.OrganizationMemberRead "OrganizationMember" ["tenant_id";
     "organization_id"] true false "gateway.organization_member.read";
   RouteMetadata.mk "GET"
     "/admin/v1/organizations/{organization_id}/members/{organization_member_id}" None
     GatewayAction.OrganizationMemberRead "OrganizationMember" ["tenant_id";
     "organization_id"; "organization_member_id"] true false
     "gateway.organization_member.read";
   RouteMetadata.mk "PATCH"
     "/admin/v1/organizations/{organization_id}/members/{organization_member_id}" None
     GatewayAction.OrganizationMemberWrite "OrganizationMember" ["tenant_id";
     "organization_id"; "organization_member_id"] true false
     "gateway.organization_member.update";
   RouteMetadata.mk "GET" "/admin/v1/projects/{project_id}/members" None
     GatewayAction.ProjectMemberRead "ProjectMember" ["tenant_id"; "project_id"] true false
     "gateway.project_member.read";
   RouteMetadata.mk "POST" "/admin/v1/projects/{project_id}/members" None
     GatewayAction.ProjectMemberWrite "ProjectMember" ["tenant_id"; "project_id"] false true
     "gateway.project_member.create";
   RouteMetadata.mk "GET" "/admin/v1/projects/{project_id}/members/{project_member_id}" None
     GatewayAction.ProjectMemberRead "ProjectMember" ["tenant_id"; "project_id";
     "project_member_id"] true false "gateway.project_member.read";
   RouteMetadata.mk "PATCH" "/admin/v1/projects/{project_id}/members/{project_member_id}" None
     GatewayAction.ProjectMemberWrite "ProjectMember" ["tenant_id"; "project_id";
     "project_member_id"] true false "gateway.project_member.update"].

(** Service accounts and API keys. *)
Definition credential_route_table : list RouteMetadata.t := [
   RouteMetadata.mk "GET" "/admin/v1/service-accounts" None GatewayAction.ServiceAccountRead
     "ServiceAccount" ["tenant_id"] true false "gateway.service_account.read";
   RouteMetadata.mk "POST" "/admin/v1/service-accounts" None GatewayAction.ServiceAccountWrite
     "ServiceAccount" ["tenant_id"] true false "gateway.service_account.create";
   RouteMetadata.mk "GET" "/admin/v1/service-accounts/{service_account_id}" None
     GatewayAction.ServiceAccountRead "ServiceAccount" ["tenant_id"; "service_account_id"]
     true false "gateway.service_account.read";
   RouteMetadata.mk "PATCH" "/admin/v1/service-accounts/{service_account_id}" None
     GatewayAction.ServiceAccountWrite "ServiceAccount" ["tenant_id"; "service_account_id"]
     true false "gateway.service_account.update";
   RouteMetadata.mk "GET" "/admin/v1/api-keys" None GatewayAction.ApiKeyRead "ApiKey"
     ["tenant_id"] false true "gateway.api_key.read";
   RouteMetadata.mk "POST" "/admin/v1/api-keys" None GatewayAction.ApiKeyCreate "ApiKey"
     ["tenant_id"] false true "gateway.api_key.create";
   RouteMetadata.mk "GET" "/admin/v1/api-keys/{api_key_id}" None GatewayAction.ApiKeyRead
     "ApiKey" ["tenant_id"; "api_key_id"] false true "gateway.api_key.read";
   RouteMetadata.mk "POST" "/admin/v1/api-keys/{api_key_id}/rotate" None
     GatewayAction.ApiKeyRotate "ApiKey" ["tenant_id"; "api_key_id"] false true
     "gateway.api_key.rotate";
   RouteMetadata.mk "POST" "/admin/v1/api-keys/{api_key_id}/disable" None
     GatewayAction.ApiKeyDisable "ApiKey" ["tenant_id"; "api_key_id"] false true
     "gateway.api_key.disable"].

(** Provider endpoints and upstream credentials. *)
Definition provider_route_table : list RouteMetadata.t := [
   RouteMetadata.mk "GET" "/admin/v1/provider-endpoints" None
     GatewayAction.ProviderEndpointRead "ProviderEndpoint" ["tenant_id"] true false
     "gateway.provider_endpoint.read";
   RouteMetadata.mk "POST" "/admin/v1/provider-endpoints" None
     GatewayAction.ProviderEndpointWrite "ProviderEndpoint" ["tenant_id"] true false
     "gateway.provider_endpoint.create";
   RouteMetadata.mk "POST" "/admin/v1/provider-endpoints:validate" None
     GatewayAction.ProviderEndpointRead "ProviderEndpoint" ["tenant_id"] true false
     "gateway.provider_endpoint.validate";
   RouteMetadata.mk "GET" "/admin/v1/provider-endpoints/{provider_endpoint_id}" None
     GatewayAction.ProviderEndpointRead "ProviderEndpoint" ["tenant_id";
     "provider_endpoint_id"] true false "gateway.provider_endpoint.read";
   RouteMetadata.mk "PATCH" "/admin/v1/provider-endpoints/{provider_endpoint_id}" None
     GatewayAction.ProviderEndpointWrite "ProviderEndpoint" ["tenant_id";
     "provider_endpoint_id"] true false "gateway.provider_endpoint.update";
   RouteMetadata.mk "GET" "/admin/v1/upstream-credentials" None
     GatewayAction.UpstreamCredentialRead "UpstreamCredential" ["tenant_id"] true false
     "gateway.upstream_credential.read";
   RouteMetadata.mk "POST" "/admin/v1/upstream-credentials" None
     GatewayAction.UpstreamCredentialWrite "UpstreamCredential" ["tenant_id"] true false
     "gateway.upstream_credential.create";
   RouteMetadata.mk "POST" "/admin/v1/upstream-credentials:validate" None
     GatewayAction.UpstreamCredentialRead "UpstreamCredential" ["tenant_id"] true false
     "gateway.upstream_credential.validate";
   RouteMetadata.mk "GET" "/admin/v1/upstream-credentials/{upstream_credential_id}" None
     GatewayAction.UpstreamCredentialRead "UpstreamCredential" ["tenant_id";
     "upstream_credential_id"] true false "gateway.upstream_credential.read";
   RouteMetadata.mk "PATCH" "/admin/v1/upstream-credentials/{upstream_credential_id}" None
     GatewayAction.UpstreamCredentialWrite "UpstreamCredential" ["tenant_id";
     "upstream_credential_id"] true false "gateway.upstream_credential.update"].

(** Codex OAuth. *)
Definition codex_route_table : list RouteMetadata.t := [
   RouteMetadata.mk "GET" "/admin/v1/codex/oauth/connections" None
     GatewayAction.CodexOAuthConnectionRead "CodexOAuthConnection" ["tenant_id"] false true
     "gateway.codex_oauth_connection.read";
   RouteMetadata.mk "POST" "/admin/v1/codex/oauth/connections" None
     GatewayAction.CodexOAuthConnectionWrite "CodexOAuthConnection" ["tenant_id"] false true
     "gateway.codex_oauth_connection.create";
   RouteMetadata.mk "GET" "/admin/v1/codex/oauth/connections/{codex_oauth_connection_id}" None
     GatewayAction.CodexOAuthConnectionRead "CodexOAuthConnection" ["tenant_id";
     "codex_oauth_connection_id"] false true "gateway.codex_oauth_connection.read";
   RouteMetadata.mk "PATCH" "/admin/v1/codex/oauth/connections/{codex_oauth_connection_id}"
     None GatewayAction.CodexOAuthConnectionWrite "CodexOAuthConnection" ["tenant_id";
     "codex_oauth_connection_id"] false true "gateway.codex_oauth_connection.update";
   RouteMetadata.mk "GET"
     "/admin/v1/codex/oauth/connections/{codex_oauth_connection_id}/sessions" None
     GatewayAction.CodexOAuthSessionRead "CodexOAuthSession" ["tenant_id";
     "codex_oauth_connection_id"] false true "gateway.codex_oauth_session.read";
   RouteMetadata.mk "POST"
     "/admin/v1/codex/oauth/connections/{codex_oauth_connection_id}/sessions" None
     GatewayAction.CodexOAuthSessionStart "CodexOAuthSession" ["tenant_id";
     "codex_oauth_connection_id"] false true "gateway.codex_oauth_session.start";
   RouteMetadata.mk "GET" "/admin/v1/codex/oauth/sessions/{codex_oauth_session_id}" None
     GatewayAction.CodexOAuthSessionRead "CodexOAuthSession" ["tenant_id";
     "codex_oauth_session_id"] false true "gateway.codex_oauth_session.read";
   RouteMetadata.mk "POST" "/admin/v1/codex/oauth/sessions/{codex_oauth_session_id}/revoke"
     None GatewayAction.CodexOAuthSessionRevoke "CodexOAuthSession" ["tenant_id";
     "codex_oauth_session_id"] false true "gateway.codex_oauth_session.revoke";
   RouteMetadata.mk "GET" "/admin/v1/codex/oauth/refresh-status/{codex_oauth_connection_id}"
     None GatewayAction.CodexOAuthRefreshRead "CodexOAuthRefreshStatus" ["tenant_id";
     "codex_oauth_connection_id"] false true "gateway.codex_oauth_refresh.read"].

(** Secret references. *)
Definition secret_route_table : list RouteMetadata.t := [
   RouteMetadata.mk "GET" "/admin/v1/secret-refs" None GatewayAction.SecretRefRead "SecretRef"
     ["tenant_id"] true false "gateway.secret_ref.read";
   RouteMetadata.mk "POST" "/admin/v1/secret-refs" None GatewayAction.SecretRefWrite
     "SecretRef" ["tenant_id"] true false "gateway.secret_ref.create";
   RouteMetadata.mk "GET" "/admin/v1/secret-refs/{secret_ref_id}" None
     GatewayAction.SecretRefRead "SecretRef" ["tenant_id"; "secret_ref_id"] true false
     "gateway.secret_ref.read";
   RouteMetadata.mk "PATCH" "/admin/v1/secret-refs/{secret_ref_id}" None
     GatewayAction.SecretRefWrite "SecretRef" ["tenant_id"; "secret_ref_id"] true false
     "gateway.secret_ref.update";
   RouteMetadata.mk "GET" "/admin/v1/secret-refs/{secret_ref_id}/locator" None
     GatewayAction.SecretRefLocatorRead "SecretRef" ["tenant_id"; "secret_ref_id"] false true
     "gateway.secret_ref.locator.read";
   RouteMetadata.mk "POST" "/admin/v1/secret-refs/{secret_ref_id}/rotate" None
     GatewayAction.SecretRefWrite "SecretRef" ["tenant_id"; "secret_ref_id"] false true
     "gateway.secret_ref.rotate"].

(** Model targets and aliases. *)
Definition model_catalog_route_table : list RouteMetadata.t := [
   RouteMetadata.mk "GET" "/admin/v1/model-targets" None GatewayAction.ModelTargetRead
     "ModelTarget" ["tenant_id"] true false "gateway.model_target.read";
   RouteMetadata.mk "POST" "/admin/v1/model-targets" None GatewayAction.ModelTargetWrite
     "ModelTarget" ["tenant_id"] true false "gateway.model_target.create";
   RouteMetadata.mk "POST" "/admin/v1/model-targets:validate" None
     GatewayAction.ModelTargetRead "ModelTarget" ["tenant_id"] true false
     "gateway.model_target.validate";
   RouteMetadata.mk "GET" "/admin/v1/model-targets/{model_target_id}" None
     GatewayAction.ModelTargetRead "ModelTarget" ["tenant_id"; "model_target_id"] true false
     "gateway.model_target.read";
   RouteMetadata.mk "PATCH" "/admin/v1/model-targets/{model_target_id}" None
     GatewayAction.ModelTargetWrite "ModelTarget" ["tenant_id"; "model_target_id"] true false
     "gateway.model_target.update";
   RouteMetadata.mk "GET" "/admin/v1/model-aliases" None GatewayAction.ModelAliasRead
     "ModelAlias" ["tenant_id"] true false "gateway.model_alias.read";
   RouteMetadata.mk "POST" "/admin/v1/model-aliases" None GatewayAction.ModelAliasWrite
     "ModelAlias" ["tenant_id"] true false "gateway.model_alias.create";
   RouteMetadata.mk "POST" "/admin/v1/model-aliases:validate" None
     GatewayAction.ModelAliasRead "ModelAlias" ["tenant_id"] true false
     "gateway.model_alias.validate";
   RouteMetadata.mk "GET" "/admin/v1/model-aliases/{model_alias_id}" None
     GatewayAction.ModelAliasRead "ModelAlias" ["tenant_id"; "model_alias_id"] true false
     "gateway.model_alias.read";
   RouteMetadata.mk "PATCH" "/admin/v1/model-aliases/{model_alias_id}" None
     GatewayAction.ModelAliasWrite "ModelAlias" ["tenant_id"; "model_alias_id"] true false
     "gateway.model_alias.update"].

(** Pricing and budgets. *)
Definition budget_route_table : list RouteMetadata.t := [
   RouteMetadata.mk "GET" "/admin/v1/pricing-skus" None GatewayAction.PricingSkuRead
     "PricingSku" ["tenant_id"] true false "gateway.pricing_sku.read";
   RouteMetadata.mk "POST" "/admin/v1/pricing-skus" None GatewayAction.PricingSkuWrite
     "PricingSku" ["tenant_id"] true false "gateway.pricing_sku.create";
   RouteMetadata.mk "POST" "/admin/v1/pricing-skus:validate" None GatewayAction.PricingSkuRead
     "PricingSku" ["tenant_id"] true false "gateway.pricing_sku.validate";
   RouteMetadata.mk "GET" "/admin/v1/pricing-skus/{pricing_sku_id}" None
     GatewayAction.PricingSkuRead "PricingSku" ["tenant_id"; "pricing_sku_id"] true false
     "gateway.pricing_sku.read";
   RouteMetadata.mk "PATCH" "/admin/v1/pricing-skus/{pricing_sku_id}" None
     GatewayAction.PricingSkuWrite "PricingSku" ["tenant_id"; "pricing_sku_id"] true false
     "gateway.pricing_sku.update";
   RouteMetadata.mk "GET" "/admin/v1/budgets/dashboard" None GatewayAction.BudgetDashboardRead
     "BudgetDashboard" ["tenant_id"] true false "gateway.budget_dashboard.read";
   RouteMetadata.mk "GET" "/admin/v1/budgets/{budget_policy_id}/timeseries" None
     GatewayAction.BudgetDashboardRead "BudgetDashboard" ["tenant_id"; "budget_policy_id"]
     true false "gateway.budget_dashboard.timeseries.read";
   RouteMetadata.mk "GET" "/admin/v1/budget-policies" None GatewayAction.BudgetPolicyRead
     "BudgetPolicy" ["tenant_id"] true false "gateway.budget_policy.read";
   RouteMetadata.mk "POST" "/admin/v1/budget-policies" None GatewayAction.BudgetPolicyWrite
     "BudgetPolicy" ["tenant_id"] true false "gateway.budget_policy.create";
   RouteMetadata.mk "POST" "/admin/v1/budget-policies:validate" None
     GatewayAction.BudgetPolicyRead "BudgetPolicy" ["tenant_id"] true false
     "gateway.budget_policy.validate";
   RouteMetadata.mk "GET" "/admin/v1/budget-policies/{budget_policy_id}" None
     GatewayAction.BudgetPolicyRead "BudgetPolicy" ["tenant_id"; "budget_policy_id"] true
     false "gateway.budget_policy.read";
   RouteMetadata.mk "PATCH" "/admin/v1/budget-policies/{budget_policy_id}" None
     GatewayAction.BudgetPolicyWrite "BudgetPolicy" ["tenant_id"; "budget_policy_id"] true
     false "gateway.budget_policy.update"].

(** Quotas. *)
Definition quota_route_table : list RouteMetadata.t := [
   RouteMetadata.mk "GET" "/admin/v1/quotas/dashboard" None GatewayAction.QuotaDashboardRead
     "QuotaDashboard" ["tenant_id"] true false "gateway.quota_dashboard.read";
   RouteMetadata.mk "GET" "/admin/v1/rate-limits/{quota_policy_id}/timeseries" None
     GatewayAction.QuotaDashboardRead "QuotaDashboard" ["tenant_id"; "quota_policy_id"] true
     false "gateway.quota_dashboard.timeseries.read";
   RouteMetadata.mk "GET" "/admin/v1/quota-policies" None GatewayAction.QuotaPolicyRead
     "QuotaPolicy" ["tenant_id"] true false "gateway.quota_policy.read";
   RouteMetadata.mk "POST" "/admin/v1/quota-policies" None GatewayAction.QuotaPolicyWrite
     "QuotaPolicy" ["tenant_id"] true false "gateway.quota_policy.create";
   RouteMetadata.mk "POST" "/admin/v1/quota-policies:validate" None
     GatewayAction.QuotaPolicyRead "QuotaPolicy" ["tenant_id"] true false
     "gateway.quota_policy.validate";
   RouteMetadata.mk "GET" "/admin/v1/quota-policies/{quota_policy_id}" None
     GatewayAction.QuotaPolicyRead "QuotaPolicy" ["tenant_id"; "quota_policy_id"] true false
     "gateway.quota_policy.read";
   RouteMetadata.mk "PATCH" "/admin/v1/quota-policies/{quota_policy_id}" None
     GatewayAction.QuotaPolicyWrite "QuotaPolicy" ["tenant_id"; "quota_policy_id"] true false
     "gateway.quota_policy.update"].

(** Exports and maintenance windows. *)
Definition export_route_table : list RouteMetadata.t := [
   RouteMetadata.mk "GET" "/admin/v1/exports/jobs" None GatewayAction.ExportRead
     "ExportManifest" ["tenant_id"] false true "gateway.export_job.read";
   RouteMetadata.mk "POST" "/admin/v1/exports/jobs" None GatewayAction.ExportCreate
     "ExportJob" ["tenant_id"] false true "gateway.export_job.create";
   RouteMetadata.mk "GET" "/admin/v1/exports/jobs/{export_job_id}" None
     GatewayAction.ExportRead "ExportManifest" ["tenant_id"; "export_job_id"] false true
     "gateway.export_job.read";
   RouteMetadata.mk "GET" "/admin/v1/exports/jobs/{export_job_id}/manifest" None
     GatewayAction.ExportRead "ExportManifest" ["tenant_id"; "export_job_id"] false true
     "gateway.export_manifest.read";
   RouteMetadata.mk "GET" "/admin/v1/maintenance-windows" None
     GatewayAction.MaintenanceWindowRead "MaintenanceWindow" ["tenant_id"] false true
     "gateway.maintenance_window.read";
   RouteMetadata.mk "POST" "/admin/v1/maintenance-windows" None
     GatewayAction.MaintenanceWindowWrite "MaintenanceWindow" ["tenant_id"] false true
     "gateway.maintenance_window.create";
   RouteMetadata.mk "POST" "/admin/v1/maintenance-windows:validate" None
     GatewayAction.MaintenanceWindowRead "MaintenanceWindow" ["tenant_id"] false true
     "gateway.maintenance_window.validate";
   RouteMetadata.mk "GET" "/admin/v1/maintenance-windows/{maintenance_window_id}" None
     GatewayAction.MaintenanceWindowRead "MaintenanceWindow" ["tenant_id";
     "maintenance_window_id"] false true "gateway.maintenance_window.read";
   RouteMetadata.mk "PATCH" "/admin/v1/maintenance-windows/{maintenance_window_id}" None
     GatewayAction.MaintenanceWindowWrite "MaintenanceWindow" ["tenant_id";
     "maintenance_window_id"] false true "gateway.maintenance_window.update"].

(** Emergency operations. *)
Definition emergency_route_table : list RouteMetadata.t := [
   RouteMetadata.mk "GET" "/admin/v1/emergency/operations" None GatewayAction.EmergencyDisable
     "EmergencyOperation" ["tenant_id"] false true "gateway.emergency.read";
   RouteMetadata.mk "GET" "/admin/v1/emergency/operations/{emergency_operation_id}" None
     GatewayAction.EmergencyDisable "EmergencyOperation" ["tenant_id";
     "emergency_operation_id"] false true "gateway.emergency.read";
   RouteMetadata.mk "POST"
     "/admin/v1/emergency/upstream-credentials/{upstream_credential_id}/disable" None
     GatewayAction.EmergencyDisable "EmergencyOperation" ["tenant_id";
     "upstream_credential_id"] false true "gateway.emergency.disable";
   RouteMetadata.mk "POST"
     "/admin/v1/emergency/provider-endpoints/{provider_endpoint_id}/disable" None
     GatewayAction.EmergencyDisable "EmergencyOperation" ["tenant_id"; "provider_endpoint_id"]
     false true "gateway.emergency.disable";
   RouteMetadata.mk "POST" "/admin/v1/emergency/routing-groups/{routing_group_id}/drain" None
     GatewayAction.EmergencyDisable "EmergencyOperation" ["tenant_id"; "routing_group_id"]
     false true "gateway.emergency.drain";
   RouteMetadata.mk "POST" "/admin/v1/emergency/config/freeze" None
     GatewayAction.EmergencyDisable "EmergencyOperation" ["tenant_id"] false true
     "gateway.emergency.freeze";
   RouteMetadata.mk "POST"
     "/admin/v1/emergency/config/snapshots/{source_snapshot_id}/rollback" None
     GatewayAction.ConfigRollback "ConfigSnapshot" ["tenant_id"; "source_snapshot_id"] false
     true "gateway.emergency.rollback";
   RouteMetadata.mk "POST"
     "/admin/v1/emergency/budget-policies/{budget_policy_id}/force-block" None
     GatewayAction.EmergencyDisable "EmergencyOperation" ["tenant_id"; "budget_policy_id"]
     false true "gateway.emergency.force_budget_block"].

(** Telemetry exporters. *)
Definition observability_route_table : list RouteMetadata.t := [
   RouteMetadata.mk "GET" "/admin/v1/observability/otel-export/configs" None
     GatewayAction.ObservabilityExportRead "OpenTelemetryExportConfig" ["tenant_id"] true
     false "gateway.observability_export.read";
   RouteMetadata.mk "POST" "/admin/v1/observability/otel-export/configs" None
     GatewayAction.ObservabilityExportWrite "OpenTelemetryExportConfig" ["tenant_id"] false
     true "gateway.observability_export.create";
   RouteMetadata.mk "GET"
     "/admin/v1/observability/otel-export/configs/{otel_export_config_id}" None
     GatewayAction.ObservabilityExportRead "OpenTelemetryExportConfig" ["tenant_id";
     "otel_export_config_id"] true false "gateway.observability_export.read";
   RouteMetadata.mk "PATCH"
     "/admin/v1/observability/otel-export/configs/{otel_export_config_id}" None
     GatewayAction.ObservabilityExportWrite "OpenTelemetryExportConfig" ["tenant_id";
     "otel_export_config_id"] false true "gateway.observability_export.update";
   RouteMetadata.mk "POST"
     "/admin/v1/observability/otel-export/configs/{otel_export_config_id}/validate" None
     GatewayAction.ObservabilityExportWrite "OpenTelemetryExportConfig" ["tenant_id";
     "otel_export_config_id"] false true "gateway.observability_export.validate";
   RouteMetadata.mk "POST"
     "/admin/v1/observability/otel-export/configs/{otel_export_config_id}/disable" None
     GatewayAction.ObservabilityExportWrite "OpenTelemetryExportConfig" ["tenant_id";
     "otel_export_config_id"] false true "gateway.observability_export.disable"].

(** Notifications. *)
Definition notification_route_table : list RouteMetadata.t := [
   RouteMetadata.mk "GET" "/admin/v1/notification/sinks" None GatewayAction.NotificationRead
     "NotificationSink" ["tenant_id"] true false "gateway.notification_sink.read";
   RouteMetadata.mk "POST" "/admin/v1/notification/sinks" None GatewayAction.NotificationWrite
     "NotificationSink" ["tenant_id"] false true "gateway.notification_sink.create";
   RouteMetadata.mk "POST" "/admin/v1/notification/sinks:validate" None
     GatewayAction.NotificationWrite "NotificationSink" ["tenant_id"] false true
     "gateway.notification_sink.validate";
   RouteMetadata.mk "GET" "/admin/v1/notification/sinks/{notification_sink_id}" None
     GatewayAction.NotificationRead "NotificationSink" ["tenant_id"; "notification_sink_id"]
     true false "gateway.notification_sink.read";
   RouteMetadata.mk "PATCH" "/admin/v1/notification/sinks/{notification_sink_id}" None
     GatewayAction.NotificationWrite "NotificationSink" ["tenant_id"; "notification_sink_id"]
     false true "gateway.notification_sink.update";
   RouteMetadata.mk "GET" "/admin/v1/notification/sinks/{notification_sink_id}/subscriptions"
     None GatewayAction.NotificationRead "NotificationSink" ["tenant_id";
     "notification_sink_id"] true false "gateway.notification_subscription.read";
   RouteMetadata.mk "POST" "/admin/v1/notification/sinks/{notification_sink_id}/subscriptions"
     None GatewayAction.NotificationWrite "NotificationSink" ["tenant_id";
     "notification_sink_id"] false true "gateway.notification_subscription.create";
   RouteMetadata.mk "POST"
     "/admin/v1/notification/sinks/{notification_sink_id}/subscriptions:validate" None
     GatewayAction.NotificationWrite "NotificationSink" ["tenant_id"; "notification_sink_id"]
     false true "gateway.notification_subscription.validate";
   RouteMetadata.mk "GET"
     "/admin/v1/notification/sinks/{notification_sink_id}/subscriptions/{notification_subscription_id}"
     None GatewayAction.NotificationRead "NotificationSink" ["tenant_id";
     "notification_sink_id"; "notification_subscription_id"] true false
     "gateway.notification_subscription.read";
   RouteMetadata.mk "PATCH"
     "/admin/v1/notification/sinks/{notification_sink_id}/subscriptions/{notification_subscription_id}"
     None GatewayAction.NotificationWrite "NotificationSink" ["tenant_id";
     "notification_sink_id"; "notification_subscription_id"] false true
     "gateway.notification_subscription.update";
   RouteMetadata.mk "POST"
     "/admin/v1/notification/outbox/{notification_outbox_event_id}/replay" None
     GatewayAction.NotificationOutboxWrite "NotificationOutboxEvent" ["tenant_id";
     "notification_outbox_event_id"] false true "gateway.notification_outbox.replay"].

(** Login providers. *)
Definition login_route_table : list RouteMetadata.t := [
   RouteMetadata.mk "GET" "/admin/v1/identity-providers" None
     GatewayAction.IdentityProviderRead "IdentityProvider" ["tenant_id"] true false
     "gateway.identity_provider.read";
   RouteMetadata.mk "POST" "/admin/v1/identity-providers" None
     GatewayAction.IdentityProviderWrite "IdentityProvider" ["tenant_id"] false true
     "gateway.identity_provider.create";
   RouteMetadata.mk "POST" "/admin/v1/identity-providers:validate" None
     GatewayAction.IdentityProviderWrite "IdentityProvider" ["tenant_id"] false true
     "gateway.identity_provider.validate";
   RouteMetadata.mk "GET" "/admin/v1/identity-providers/{login_provider_id}" None
     GatewayAction.IdentityProviderRead "IdentityProvider" ["tenant_id"; "login_provider_id"]
     true false "gateway.identity_provider.read";
   RouteMetadata.mk "PATCH" "/admin/v1/identity-providers/{login_provider_id}" None
     GatewayAction.IdentityProviderWrite "IdentityProvider" ["tenant_id"; "login_provider_id"]
     false true "gateway.identity_provider.update"].

(** Users and invitations. *)
Definition user_route_table : list RouteMetadata.t := [
   RouteMetadata.mk "GET" "/admin/v1/users" None GatewayAction.UserRead "UserPrincipal"
     ["tenant_id"] true false "gateway.user.read";
   RouteMetadata.mk "GET" "/admin/v1/users/{user_id}" None GatewayAction.UserRead
     "UserPrincipal" ["tenant_id"; "user_id"] true false "gateway.user.read";
   RouteMetadata.mk "PATCH" "/admin/v1/users/{user_id}" None GatewayAction.UserDisable
     "UserPrincipal" ["tenant_id"; "user_id"] false true "gateway.user.disable";
   RouteMetadata.mk "GET" "/admin/v1/users/{user_id}/sessions" None GatewayAction.SessionRead
     "AuthSession" ["tenant_id"; "user_id"] true false "gateway.session.read";
   RouteMetadata.mk "POST" "/admin/v1/users/{user_id}/sessions/{auth_session_id}/revoke" None
     GatewayAction.SessionRevoke "AuthSession" ["tenant_id"; "user_id"; "auth_session_id"]
     false true "gateway.session.revoke";
   RouteMetadata.mk "GET" "/admin/v1/users/{user_id}/external-identities" None
     GatewayAction.ExternalIdentityRead "ExternalIdentity" ["tenant_id"; "user_id"] true false
     "gateway.external_identity.read";
   RouteMetadata.mk "GET"
     "/admin/v1/users/{user_id}/external-identities/{external_identity_id}" None
     GatewayAction.ExternalIdentityRead "ExternalIdentity" ["tenant_id"; "user_id";
     "external_identity_id"] true false "gateway.external_identity.read";
   RouteMetadata.mk "POST"
     "/admin/v1/users/{user_id}/external-identities/{external_identity_id}/unlink" None
     GatewayAction.ExternalIdentityUnlink "ExternalIdentity" ["tenant_id"; "user_id";
     "external_identity_id"] false true "gateway.external_identity.unlink";
   RouteMetadata.mk "GET" "/admin/v1/organizations/{organization_id}/invitations" None
     GatewayAction.OrganizationInviteRead "OrganizationInvite" ["tenant_id";
     "organization_id"] true false "gateway.organization_invite.read";
   RouteMetadata.mk "POST" "/admin/v1/organizations/{organization_id}/invitations" None
     GatewayAction.OrganizationInviteCreate "OrganizationInvite" ["tenant_id";
     "organization_id"] false true "gateway.organization_invite.create";
   RouteMetadata.mk "GET"
     "/admin/v1/organizations/{organization_id}/invitations/{invitation_id}" None
     GatewayAction.OrganizationInviteRead "OrganizationInvite" ["tenant_id";
     "organization_id"; "invitation_id"] true false "gateway.organization_invite.read";
   RouteMetadata.mk "POST"
     "/admin/v1/organizations/{organization_id}/invitations/{invitation_id}/revoke" None
     GatewayAction.OrganizationInviteManage "OrganizationInvite" ["tenant_id";
     "organization_id"; "invitation_id"] false true "gateway.organization_invite.revoke"].

(** Route policies and provider grants. *)
Definition policy_route_table : list RouteMetadata.t := [
   RouteMetadata.mk "GET" "/admin/v1/route-policies" None GatewayAction.RoutePolicyRead
     "RoutePolicy" ["tenant_id"] true false "gateway.route_policy.read";
   RouteMetadata.mk "POST" "/admin/v1/route-policies" None GatewayAction.RoutePolicyWrite
     "RoutePolicy" ["tenant_id"] true false "gateway.route_policy.create";
   RouteMetadata.mk "POST" "/admin/v1/route-policies:validate" None
     GatewayAction.RoutePolicyRead "RoutePolicy" ["tenant_id"] true false
     "gateway.route_policy.validate";
   RouteMetadata.mk "GET" "/admin/v1/route-policies/{route_policy_id}" None
     GatewayAction.RoutePolicyRead "RoutePolicy" ["tenant_id"; "route_policy_id"] true false
     "gateway.route_policy.read";
   RouteMetadata.mk "PATCH" "/admin/v1/route-policies/{route_policy_id}" None
     GatewayAction.RoutePolicyWrite "RoutePolicy" ["tenant_id"; "route_policy_id"] true false
     "gateway.route_policy.update";
   RouteMetadata.mk "GET" "/admin/v1/provider-grants" None GatewayAction.ProviderGrantRead
     "ProviderGrant" ["tenant_id"] true false "gateway.provider_grant.read";
   RouteMetadata.mk "POST" "/admin/v1/provider-grants" None GatewayAction.ProviderGrantWrite
     "ProviderGrant" ["tenant_id"] true false "gateway.provider_grant.create";
   RouteMetadata.mk "POST" "/admin/v1/provider-grants:validate" None
     GatewayAction.ProviderGrantRead "ProviderGrant" ["tenant_id"] true false
     "gateway.provider_grant.validate";
   RouteMetadata.mk "GET" "/admin/v1/provider-grants/{provider_grant_id}" None
     GatewayAction.ProviderGrantRead "ProviderGrant" ["tenant_id"; "provider_grant_id"] true
     false "gateway.provider_grant.read";
   RouteMetadata.mk "PATCH" "/admin/v1/provider-grants/{provider_grant_id}" None
     GatewayAction.ProviderGrantWrite "ProviderGrant" ["tenant_id"; "provider_grant_id"] true
     false "gateway.provider_grant.update"].

(** Routing groups. *)
Definition routing_group_route_table : list RouteMetadata.t := [
   RouteMetadata.mk "GET" "/admin/v1/routing-groups" None GatewayAction.RoutingGroupRead
     "RoutingGroup" ["tenant_id"] true false "gateway.routing_group.read";
   RouteMetadata.mk "POST" "/admin/v1/routing-groups" None GatewayAction.RoutingGroupWrite
     "RoutingGroup" ["tenant_id"] true false "gateway.routing_group.create";
   RouteMetadata.mk "POST" "/admin/v1/routing-groups:validate" None
     GatewayAction.RoutingGroupRead "RoutingGroup" ["tenant_id"] true false
     "gateway.routing_group.validate";
   RouteMetadata.mk "GET" "/admin/v1/routing-groups/{routing_group_id}" None
     GatewayAction.RoutingGroupRead "RoutingGroup" ["tenant_id"; "routing_group_id"] true
     false "gateway.routing_group.read";
   RouteMetadata.mk "PATCH" "/admin/v1/routing-groups/{routing_group_id}" None
     GatewayAction.RoutingGroupWrite "RoutingGroup" ["tenant_id"; "routing_group_id"] true
     false "gateway.routing_group.update";
   RouteMetadata.mk "GET" "/admin/v1/routing-groups/{routing_group_id}/targets" None
     GatewayAction.RoutingGroupRead "RoutingGroup" ["tenant_id"; "routing_group_id"] true
     false "gateway.routing_group_target.read";
   RouteMetadata.mk "POST" "/admin/v1/routing-groups/{routing_group_id}/targets" None
     GatewayAction.RoutingGroupWrite "RoutingGroup" ["tenant_id"; "routing_group_id"] true
     false "gateway.routing_group_target.create";
   RouteMetadata.mk "POST" "/admin/v1/routing-groups/{routing_group_id}/targets:validate" None
     GatewayAction.RoutingGroupRead "RoutingGroup" ["tenant_id"; "routing_group_id"] true
     false "gateway.routing_group_target.validate";
   RouteMetadata.mk "GET"
     "/admin/v1/routing-groups/{routing_group_id}/targets/{routing_group_target_id}" None
     GatewayAction.RoutingGroupRead "RoutingGroup" ["tenant_id"; "routing_group_id";
     "routing_group_target_id"] true false "gateway.routing_group_target.read";
   RouteMetadata.mk "PATCH"
     "/admin/v1/routing-groups/{routing_group_id}/targets/{routing_group_target_id}" None
     GatewayAction.RoutingGroupWrite "RoutingGroup" ["tenant_id"; "routing_group_id";
     "routing_group_target_id"] true false "gateway.routing_group_target.update"].

(** Realtime views and dashboards. *)
Definition dashboard_route_table : list RouteMetadata.t := [
   RouteMetadata.mk "GET" "/admin/v1/realtime/overview" None
     GatewayAction.RealtimeDashboardRead "RealtimeDashboard" ["tenant_id"] true false
     "gateway.realtime_dashboard.read";
   RouteMetadata.mk "GET" "/admin/v1/realtime/providers" None
     GatewayAction.RealtimeDashboardRead "RealtimeDashboard" ["tenant_id"] true false
     "gateway.realtime_dashboard.read";
   RouteMetadata.mk "GET" "/admin/v1/realtime/routes" None GatewayAction.RealtimeDashboardRead
     "RealtimeDashboard" ["tenant_id"] true false "gateway.realtime_dashboard.read";
   RouteMetadata.mk "GET" "/admin/v1/realtime/budgets" None
     GatewayAction.RealtimeDashboardRead "RealtimeDashboard" ["tenant_id"] true false
     "gateway.realtime_dashboard.read";
   RouteMetadata.mk "GET" "/admin/v1/realtime/quotas" None GatewayAction.RealtimeDashboardRead
     "RealtimeDashboard" ["tenant_id"] true false "gateway.realtime_dashboard.read";
   RouteMetadata.mk "GET" "/admin/v1/realtime/workers" None
     GatewayAction.RealtimeDashboardRead "RealtimeDashboard" ["tenant_id"] true false
     "gateway.realtime_dashboard.read";
   RouteMetadata.mk "GET" "/admin/v1/dashboards/tenant/overview" None
     GatewayAction.DashboardTenantRead "TenantDashboard" ["tenant_id"] true false
     "gateway.dashboard.tenant.read";
   RouteMetadata.mk "GET" "/admin/v1/dashboards/organizations/{organization_id}" None
     GatewayAction.DashboardOrganizationRead "OrganizationDashboard" ["tenant_id";
     "organization_id"] true false "gateway.dashboard.organization.read";
   RouteMetadata.mk "GET" "/admin/v1/dashboards/projects/{project_id}" None
     GatewayAction.DashboardProjectRead "ProjectDashboard" ["tenant_id"; "project_id"] true
     false "gateway.dashboard.project.read";
   RouteMetadata.mk "GET" "/admin/v1/dashboards/project-members/{project_member_id}" None
     GatewayAction.DashboardProjectMemberRead "ProjectMemberDashboard" ["tenant_id";
     "project_member_id"] true false "gateway.dashboard.project_member.read";
   RouteMetadata.mk "GET" "/admin/v1/dashboards/api-keys/{api_key_id}" None
     GatewayAction.DashboardApiKeyRead "ApiKeyDashboard" ["tenant_id"; "api_key_id"] true
     false "gateway.dashboard.api_key.read";
   RouteMetadata.mk "GET" "/admin/v1/dashboards/service-accounts/{service_account_id}" None
     GatewayAction.DashboardServiceAccountRead "ServiceAccountDashboard" ["tenant_id";
     "service_account_id"] true false "gateway.dashboard.service_account.read"].

(** Observability of models and providers. *)
Definition model_observability_route_table : list RouteMetadata.t := [
   RouteMetadata.mk "GET" "/admin/v1/models/aliases/{model_alias_id}/dashboard" None
     GatewayAction.ModelObservabilityRead "ModelObservability" ["tenant_id"; "model_alias_id"]
     true false "gateway.model_observability.alias.read";
   RouteMetadata.mk "GET" "/admin/v1/models/aliases/{model_alias_id}/routes" None
     GatewayAction.ModelObservabilityRead "ModelObservability" ["tenant_id"; "model_alias_id"]
     true false "gateway.model_observability.alias.routes.read";
   RouteMetadata.mk "GET" "/admin/v1/models/aliases/{model_alias_id}/quality" None
     GatewayAction.ModelObservabilityRead "ModelObservability" ["tenant_id"; "model_alias_id"]
     true false "gateway.model_observability.alias.quality.read";
   RouteMetadata.mk "GET" "/admin/v1/models/targets/{model_target_id}/dashboard" None
     GatewayAction.ModelObservabilityRead "ModelObservability" ["tenant_id";
     "model_target_id"] true false "gateway.model_observability.target.read";
   RouteMetadata.mk "GET"
     "/admin/v1/provider-endpoints/{provider_endpoint_id}/observability/usage" None
     GatewayAction.ProviderObservabilityRead "ProviderEndpoint" ["tenant_id";
     "provider_endpoint_id"] true false "gateway.provider_observability.usage.read";
   RouteMetadata.mk "GET"
     "/admin/v1/provider-endpoints/{provider_endpoint_id}/observability/health" None
     GatewayAction.ProviderObservabilityRead "ProviderEndpoint" ["tenant_id";
     "provider_endpoint_id"] true false "gateway.provider_observability.health.read";
   RouteMetadata.mk "GET"
     "/admin/v1/provider-endpoints/{provider_endpoint_id}/observability/failover" None
     GatewayAction.ProviderObservabilityRead "ProviderEndpoint" ["tenant_id";
     "provider_endpoint_id"] true false "gateway.provider_observability.failover.read";
   RouteMetadata.mk "GET"
     "/admin/v1/provider-endpoints/{provider_endpoint_id}/observability/credentials" None
     GatewayAction.ProviderObservabilityRead "ProviderEndpoint" ["tenant_id";
     "provider_endpoint_id"] true false "gateway.provider_observability.credentials.read";
   RouteMetadata.mk "GET"
     "/admin/v1/provider-endpoints/{provider_endpoint_id}/observability/model-targets" None
     GatewayAction.ProviderObservabilityRead "ProviderEndpoint" ["tenant_id";
     "provider_endpoint_id"] true false "gateway.provider_observability.model_targets.read"].

(** Usage. *)
Definition usage_route_table : list RouteMetadata.t := [
   RouteMetadata.mk "GET" "/admin/v1/usage/summary" None GatewayAction.UsageSummaryRead
     "UsageScope" ["tenant_id"; "scope_kind"; "scope_id"] true false
     "gateway.usage.summary.read";
   RouteMetadata.mk "GET" "/admin/v1/usage/timeseries" None GatewayAction.UsageSummaryRead
     "UsageScope" ["tenant_id"; "scope_kind"; "scope_id"; "bucket_kind"] true false
     "gateway.usage.timeseries.read";
   RouteMetadata.mk "GET" "/admin/v1/usage/events" None GatewayAction.UsageEventRead
     "UsageEvent" ["tenant_id"; "scope_kind"; "scope_id"] true false
     "gateway.usage.event.read";
   RouteMetadata.mk "GET" "/admin/v1/usage/breakdown/by-project" None GatewayAction.UsageRead
     "UsageScope" ["tenant_id"; "scope_kind"; "scope_id"] true false
     "gateway.usage.breakdown.read";
   RouteMetadata.mk "GET" "/admin/v1/usage/breakdown/by-project-member" None
     GatewayAction.UsageRead "UsageScope" ["tenant_id"; "scope_kind"; "scope_id"] true false
     "gateway.usage.breakdown.read";
   RouteMetadata.mk "GET" "/admin/v1/usage/breakdown/by-model" None GatewayAction.UsageRead
     "UsageScope" ["tenant_id"; "scope_kind"; "scope_id"] true false
     "gateway.usage.breakdown.read";
   RouteMetadata.mk "GET" "/admin/v1/usage/breakdown/by-provider-endpoint" None
     GatewayAction.UsageRead "UsageScope" ["tenant_id"; "scope_kind"; "scope_id"] true false
     "gateway.usage.breakdown.read"].

Definition FOUNDATION_ROUTES : list RouteMetadata.t :=
  model_route_table ++ configuration_route_table ++ evidence_route_table ++
  tenancy_route_table ++ credential_route_table ++ provider_route_table ++ codex_route_table
  ++ secret_route_table ++ model_catalog_route_table ++ budget_route_table ++
  quota_route_table ++ export_route_table ++ emergency_route_table ++
  observability_route_table ++ notification_route_table ++ login_route_table ++
  user_route_table ++ policy_route_table ++ routing_group_route_table ++
  dashboard_route_table ++ model_observability_route_table ++ usage_route_table.

Definition foundation_routes : list RouteMetadata.t := FOUNDATION_ROUTES.

(** ** Authorization of a route *)

Definition authorize_route_with_evidence {E} `{!AuthorizationEngine E} (route : RouteMetadata.t)
    (engine : E) (uuid : string) (actor : AuthenticatedActor.t) (resource_id : string)
    (policy_snapshot_id : option string) (occurred_at : DateTime)
    (sink : list AuthorizationDecisionRecord.t)
    : AuthorizationDecision.t * list AuthorizationDecisionRecord.t :=
  let request := AuthorizationRequest.mk actor (RouteMetadata.action route)
                   (RouteMetadata.resource route resource_id) in
  let decision :=
    match RouteMetadata.actor_constraint_denial route actor with
    | Some reason => AuthorizationDecision.deny reason
    | None => authorize engine request
    end in
  (decision, sink ++ [AuthorizationDecisionRecord.from_decision uuid request decision
                        policy_snapshot_id occurred_at]).

Definition route_metadata (method path_pattern : string) : result GatewayError.t RouteMetadata.t :=
  ok_or (List.find (λ route, (RouteMetadata.method route ==? method)
                             && (RouteMetadata.path_pattern route ==? path_pattern))
           foundation_routes)
    (GatewayError.Internal ("missing route metadata for " +:+ method +:+ " " +:+ path_pattern)).

Definition admin_route_mutates (method : string) : bool :=
  (method ==? "POST") || (method ==? "PUT") || (method ==? "PATCH") || (method ==? "DELETE").

Definition route_allowed_during_config_freeze (route : RouteMetadata.t) : bool :=
  match RouteMetadata.action route with
  | GatewayAction.EmergencyDisable | GatewayAction.ConfigRollback
  | GatewayAction.ExternalIdentityUnlink | GatewayAction.SessionRevoke => true
  | _ => false
  end || ends_with ".validate" (RouteMetadata.audit_event_type route).

(** ** The table is coherent *)

Definition route_name (r : RouteMetadata.t) : string :=
  RouteMetadata.method r +:+ " " +:+ RouteMetadata.path_pattern r.

#[global] Instance gateway_error_eq_dec : EqDecision GatewayError.t.
Proof. solve_decision. Defined.
#[global] Instance result_eq_dec {E A} `{EqDecision E, EqDecision A} : EqDecision (result E A).
Proof. solve_decision. Defined.

(** What each entry is to satisfy, as a test. *)
Definition route_coherent (r : RouteMetadata.t) : bool :=
  (route_metadata (RouteMetadata.method r) (RouteMetadata.path_pattern r) ==? Ok r)
  && (RouteMetadata.resource_kind r ==? GatewayAction.resource_kind (RouteMetadata.action r))
  && implb (RouteMetadata.strong_auth_required r) (negb (RouteMetadata.allow_api_key r))
  && implb (requires_strong_auth (RouteMetadata.action r)) (RouteMetadata.strong_auth_required r)
  && implb (ends_with ":validate" (RouteMetadata.path_pattern r))
       (route_allowed_during_config_freeze r).

Lemma route_table_checked : forallb route_coherent foundation_routes = true.
Proof. by vm_compute. Qed.

Lemma constraint_denial_none r actor :
  RouteMetadata.actor_constraint_denial r actor = None ↔
  (AuthenticatedActor.api_key_id actor ≠ None → RouteMetadata.allow_api_key r = true) ∧
  (RouteMetadata.strong_auth_required r = true → (80 ≤ AuthenticatedActor.auth_strength actor)%Z).
Proof.
  unfold RouteMetadata.actor_constraint_denial.
  destruct (AuthenticatedActor.api_key_id actor), (RouteMetadata.allow_api_key r),
    (RouteMetadata.strong_auth_required r),
    (AuthenticatedActor.auth_strength actor <? 80)%Z eqn:E; simpl; btrue; naive_solver lia.
Qed.

(** A route is authorized exactly when its constraints and the policy engine
    agree: for any engine, a route of the table is looked up as itself, and a
    request on it is allowed if and only if the route accepts API keys when the
    actor is one, the actor is strongly authenticated when the route asks for it,
    and the engine allows the action of the route on the resource.  Exactly one
    decision is recorded, whatever the outcome.  A route that asks for strong
    authentication never serves an API key, and every action that needs it is
    behind such a route. *)
Theorem route_authorization_exact {E} `{!AuthorizationEngine E} (engine : E)
    (r : RouteMetadata.t) (uuid : string) (actor : AuthenticatedActor.t) (id : string)
    (snapshot : option string) (now : DateTime) (sink : list AuthorizationDecisionRecord.t)
    (Hr : r ∈ foundation_routes) :
  let request := AuthorizationRequest.mk actor (RouteMetadata.action r)
                   (ResourceRef.mk (GatewayAction.resource_kind (RouteMetadata.action r)) id) in
  let '(decision, sink') :=
    authorize_route_with_evidence r engine uuid actor id snapshot now sink in
  route_metadata (RouteMetadata.method r) (RouteMetadata.path_pattern r) = Ok r ∧
  (AuthorizationDecision.allowed decision = true ↔
   (AuthenticatedActor.api_key_id actor ≠ None → RouteMetadata.allow_api_key r = true) ∧
   (RouteMetadata.strong_auth_required r = true →
    (80 ≤ AuthenticatedActor.auth_strength actor)%Z) ∧
   AuthorizationDecision.allowed (authorize engine request) = true) ∧
  sink' = sink ++ [AuthorizationDecisionRecord.from_decision uuid request decision snapshot now] ∧
  (RouteMetadata.strong_auth_required r = true ∨
   requires_strong_auth (RouteMetadata.action r) = true →
   AuthenticatedActor.api_key_id actor ≠ None → AuthorizationDecision.allowed decision = false).
Proof.
  pose proof route_table_checked as Hc. rewrite forallb_iff in Hc. apply Hc in Hr.
  unfold route_coherent in Hr. rewrite !andb_true_iff in Hr. destruct Hr as [[[[H1 H2] H3] H4] _].
  btrue. intros request. unfold authorize_route_with_evidence, RouteMetadata.resource.
  rewrite H2. fold request. pose proof (constraint_denial_none r actor) as Hd.
  split; [done|]. split; [|split; [done|]].
  - destruct (RouteMetadata.actor_constraint_denial r actor) as [reason|]; simpl; naive_solver.
  - intros Hs Hk. destruct (RouteMetadata.actor_constraint_denial r actor) as [reason|]; [done|].
    exfalso. assert (RouteMetadata.allow_api_key r = true) as Ha by naive_solver.
    rewrite Ha in H3. destruct (RouteMetadata.strong_auth_required r); [done|].
    destruct (requires_strong_auth _); naive_solver.
Qed.

Definition publish_route : RouteMetadata.t :=
  RouteMetadata.mk "POST" "/admin/v1/config/snapshots:publish" None GatewayAction.ConfigPublish
    "ConfigSnapshot" ["tenant_id"] false true "gateway.config.publish".

Lemma route_authorization_exact_witness :
  AuthorizationDecision.allowed
    (authorize_route_with_evidence publish_route (FoundationAuthorizationEngine.mk []) "1"
       ActionWitness.key_actor "ten_t" None 0 []).1 = false.
Proof.
  pose proof (route_authorization_exact (FoundationAuthorizationEngine.mk []) publish_route "1"
    ActionWitness.key_actor "ten_t" None 0 []) as Hr.
  destruct (authorize_route_with_evidence _ _ _ _ _ _ _ _) as [d sink]. simpl.
  destruct Hr as (_ & _ & _ & Hno).
  - apply (bool_decide_unpack _). by vm_compute.
  - apply Hno; [by left|by vm_compute].
Defined.
