(* ===== verification/AdminRecords.v ===== *)
(** * Records of the gateway's draft catalog

    The durable records of [domain.rs] that administrators create and update,
    the requests of [storage.rs] that create them and the request bodies of the
    admin routes of [service.rs]. *)

From S2P Require Import Prelude Domain.

Module UpstreamCredentialStatus.
Inductive t : Set := Active | Rotating | Disabled | Deleted.
#[global] Instance eq_dec : EqDecision t.
Proof. solve_decision. Defined.
Definition as_str (self : t) : string :=
  match self with
  | Active => "active" | Rotating => "rotating" | Disabled => "disabled" | Deleted => "deleted"
  end.
End UpstreamCredentialStatus.

(** ** Directory *)

Module OrganizationRecord.
Record t : Set := mk {
  organization_id : string;
  tenant_id : string;
  display_name : string;
  status : DirectoryStatus.t;
  resource_version : Z;
  schema_version : Z;
  created_at : DateTime;
  updated_at : DateTime;
}.
End OrganizationRecord.

Module ProjectRecord.
Record t : Set := mk {
  project_id : string;
  tenant_id : string;
  organization_id : string;
  display_name : string;
  status : DirectoryStatus.t;
  resource_version : Z;
  schema_version : Z;
  created_at : DateTime;
  updated_at : DateTime;
}.
End ProjectRecord.

(** ** Resources, with the change of status that advances the version *)

Module ProviderEndpointRecord.
Record t : Set := mk {
  provider_endpoint_id : string;
  tenant_id : string;
  organization_id : option string;
  provider_kind : string;
  display_name : string;
  protocol_families : list ProtocolFamily.t;
  upstream_base_url : string;
  status : ResourceStatus.t;
  resource_version : Z;
  schema_version : Z;
  created_by : string;
  created_at : DateTime;
  updated_at : DateTime;
}.
Definition with_status (r : t) (status : ResourceStatus.t) (now : DateTime) : t :=
  mk (provider_endpoint_id r) (tenant_id r) (organization_id r) (provider_kind r) (display_name
    r) (protocol_families r) (upstream_base_url r) status (wrap_i64 (resource_version r + 1))
    (schema_version r) (created_by r) (created_at r) now.
End ProviderEndpointRecord.

Module UpstreamCredentialRecord.
Record t : Set := mk {
  upstream_credential_id : string;
  tenant_id : string;
  organization_id : option string;
  provider_endpoint_id : string;
  credential_kind : string;
  secret_ref_id : string;
  status : UpstreamCredentialStatus.t;
  resource_version : Z;
  schema_version : Z;
  created_by : string;
  created_at : DateTime;
  updated_at : DateTime;
}.
Definition with_status (r : t) (status : UpstreamCredentialStatus.t) (now : DateTime) : t :=
  mk (upstream_credential_id r) (tenant_id r) (organization_id r) (provider_endpoint_id r)
    (credential_kind r) (secret_ref_id r) status (wrap_i64 (resource_version r + 1))
    (schema_version r) (created_by r) (created_at r) now.
End UpstreamCredentialRecord.

Module ModelTargetRecord.
Record t : Set := mk {
  model_target_id : string;
  tenant_id : string;
  organization_id : option string;
  provider_endpoint_id : string;
  upstream_credential_id : option string;
  protocol_family : ProtocolFamily.t;
  upstream_model_id : string;
  pricing_sku_id : option string;
  supports_streaming : bool;
  status : ResourceStatus.t;
  resource_version : Z;
  schema_version : Z;
  created_by : string;
  created_at : DateTime;
  updated_at : DateTime;
}.
Definition with_status (r : t) (status : ResourceStatus.t) (now : DateTime) : t :=
  mk (model_target_id r) (tenant_id r) (organization_id r) (provider_endpoint_id r)
    (upstream_credential_id r) (protocol_family r) (upstream_model_id r) (pricing_sku_id r)
    (supports_streaming r) status (wrap_i64 (resource_version r + 1)) (schema_version r)
    (created_by r) (created_at r) now.
End ModelTargetRecord.

Module RoutingGroupRecord.
Record t : Set := mk {
  routing_group_id : string;
  tenant_id : string;
  organization_id : option string;
  name : string;
  protocol_family : ProtocolFamily.t;
  purpose : option string;
  status : ResourceStatus.t;
  resource_version : Z;
  schema_version : Z;
  created_by : string;
  created_at : DateTime;
  updated_at : DateTime;
}.
Definition with_status (r : t) (status : ResourceStatus.t) (now : DateTime) : t :=
  mk (routing_group_id r) (tenant_id r) (organization_id r) (name r) (protocol_family r)
    (purpose r) status (wrap_i64 (resource_version r + 1)) (schema_version r) (created_by r)
    (created_at r) now.
End RoutingGroupRecord.

Module RoutingGroupTargetRecord.
Record t : Set := mk {
  routing_group_target_id : string;
  tenant_id : string;
  routing_group_id : string;
  model_target_id : string;
  weight : Z;
  priority : Z;
  status : ResourceStatus.t;
  resource_version : Z;
  schema_version : Z;
  created_by : string;
  created_at : DateTime;
  updated_at : DateTime;
}.
Definition with_status (r : t) (status : ResourceStatus.t) (now : DateTime) : t :=
  mk (routing_group_target_id r) (tenant_id r) (routing_group_id r) (model_target_id r) (weight
    r) (priority r) status (wrap_i64 (resource_version r + 1)) (schema_version r) (created_by r)
    (created_at r) now.
End RoutingGroupTargetRecord.

Module ModelAliasRecord.
Record t : Set := mk {
  model_alias_id : string;
  tenant_id : string;
  organization_id : option string;
  project_id : option string;
  alias_name : string;
  protocol_family : ProtocolFamily.t;
  route_policy_id : option string;
  status : ResourceStatus.t;
  resource_version : Z;
  schema_version : Z;
  created_by : string;
  created_at : DateTime;
  updated_at : DateTime;
}.
Definition with_status (r : t) (status : ResourceStatus.t) (now : DateTime) : t :=
  mk (model_alias_id r) (tenant_id r) (organization_id r) (project_id r) (alias_name r)
    (protocol_family r) (route_policy_id r) status (wrap_i64 (resource_version r + 1))
    (schema_version r) (created_by r) (created_at r) now.
End ModelAliasRecord.

Module RoutePolicyRecord.
Record t : Set := mk {
  route_policy_id : string;
  tenant_id : string;
  organization_id : option string;
  name : string;
  protocol_family : ProtocolFamily.t;
  model_alias_id : string;
  routing_group_id : string;
  status : ResourceStatus.t;
  resource_version : Z;
  schema_version : Z;
  created_by : string;
  created_at : DateTime;
  updated_at : DateTime;
}.
Definition with_status (r : t) (status : ResourceStatus.t) (now : DateTime) : t :=
  mk (route_policy_id r) (tenant_id r) (organization_id r) (name r) (protocol_family r)
    (model_alias_id r) (routing_group_id r) status (wrap_i64 (resource_version r + 1))
    (schema_version r) (created_by r) (created_at r) now.
End RoutePolicyRecord.

Module ProviderGrantRecord.
Record t : Set := mk {
  provider_grant_id : string;
  tenant_id : string;
  scope_kind : string;
  scope_id : string;
  organization_id : option string;
  project_id : option string;
  resource_kind : string;
  resource_id : string;
  effect : string;
  closure_mode : string;
  status : ResourceStatus.t;
  resource_version : Z;
  schema_version : Z;
  created_by : string;
  created_at : DateTime;
  updated_at : DateTime;
}.
Definition with_status (r : t) (status : ResourceStatus.t) (now : DateTime) : t :=
  mk (provider_grant_id r) (tenant_id r) (scope_kind r) (scope_id r) (organization_id r)
    (project_id r) (resource_kind r) (resource_id r) (effect r) (closure_mode r) status
    (wrap_i64 (resource_version r + 1)) (schema_version r) (created_by r) (created_at r) now.
End ProviderGrantRecord.

(** ** Requests to the store *)

Module CreateProviderEndpointRequest.
Record t : Set := mk {
  tenant_id : string;
  organization_id : option string;
  provider_kind : string;
  display_name : string;
  protocol_families : list ProtocolFamily.t;
  upstream_base_url : string;
  created_by : string;
}.
End CreateProviderEndpointRequest.

Module CreateUpstreamCredentialRequest.
Record t : Set := mk {
  tenant_id : string;
  organization_id : option string;
  provider_endpoint_id : string;
  credential_kind : string;
  secret_ref_id : string;
  created_by : string;
}.
End CreateUpstreamCredentialRequest.

Module CreateModelTargetRequest.
Record t : Set := mk {
  tenant_id : string;
  organization_id : option string;
  provider_endpoint_id : string;
  upstream_credential_id : option string;
  protocol_family : ProtocolFamily.t;
  upstream_model_id : string;
  pricing_sku_id : option string;
  supports_streaming : bool;
  created_by : string;
}.
End CreateModelTargetRequest.

Module CreateRoutingGroupRequest.
Record t : Set := mk {
  tenant_id : string;
  organization_id : option string;
  name : string;
  protocol_family : ProtocolFamily.t;
  purpose : option string;
  created_by : string;
}.
End CreateRoutingGroupRequest.

Module CreateRoutingGroupTargetRequest.
Record t : Set := mk {
  tenant_id : string;
  routing_group_id : string;
  model_target_id : string;
  weight : Z;
  priority : Z;
  created_by : string;
}.
End CreateRoutingGroupTargetRequest.

Module CreateModelAliasRequest.
Record t : Set := mk {
  tenant_id : string;
  organization_id : option string;
  project_id : option string;
  alias_name : string;
  protocol_family : ProtocolFamily.t;
  route_policy_id : option string;
  created_by : string;
}.
End CreateModelAliasRequest.

Module UpdateModelAliasRequest.
Record t : Set := mk {
  expected_resource_version : Z;
  status : option ResourceStatus.t;
  route_policy_id : option string;
}.
End UpdateModelAliasRequest.

Module CreateRoutePolicyRequest.
Record t : Set := mk {
  tenant_id : string;
  name : string;
  model_alias_id : string;
  routing_group_id : string;
  created_by : string;
}.
End CreateRoutePolicyRequest.

Module CreateProviderGrantRequest.
Record t : Set := mk {
  tenant_id : string;
  scope_kind : string;
  scope_id : string;
  resource_kind : string;
  resource_id : string;
  effect : string;
  closure_mode : string;
  created_by : string;
}.
End CreateProviderGrantRequest.

(** ** Requests of the admin routes *)

Module AdminCreateProviderEndpointRequest.
Record t : Set := mk {
  idempotency_key : string;
  organization_id : option string;
  provider_kind : string;
  display_name : string;
  protocol_families : list ProtocolFamily.t;
  upstream_base_url : string;
}.
End AdminCreateProviderEndpointRequest.

Module AdminCreateUpstreamCredentialRequest.
Record t : Set := mk {
  idempotency_key : string;
  organization_id : option string;
  provider_endpoint_id : string;
  credential_kind : string;
  secret_ref_id : string;
}.
End AdminCreateUpstreamCredentialRequest.

Module AdminCreateModelTargetRequest.
Record t : Set := mk {
  idempotency_key : string;
  organization_id : option string;
  provider_endpoint_id : string;
  upstream_credential_id : option string;
  protocol_family : ProtocolFamily.t;
  upstream_model_id : string;
  pricing_sku_id : option string;
  supports_streaming : bool;
}.
End AdminCreateModelTargetRequest.

Module AdminCreateModelAliasRequest.
Record t : Set := mk {
  idempotency_key : string;
  organization_id : option string;
  project_id : option string;
  alias_name : string;
  protocol_family : ProtocolFamily.t;
  route_policy_id : option string;
}.
End AdminCreateModelAliasRequest.

Module AdminUpdateModelAliasRequest.
Record t : Set := mk {
  expected_version : Z;
  status : option ResourceStatus.t;
  route_policy_id : option string;
  reason : option string;
}.
End AdminUpdateModelAliasRequest.

Module AdminCreateRoutePolicyRequest.
Record t : Set := mk {
  idempotency_key : string;
  name : string;
  model_alias_id : string;
  routing_group_id : string;
}.
End AdminCreateRoutePolicyRequest.

Module AdminCreateProviderGrantRequest.
Record t : Set := mk {
  idempotency_key : string;
  scope_kind : string;
  scope_id : string;
  resource_kind : string;
  resource_id : string;
  effect : string;
  closure_mode : string;
}.
End AdminCreateProviderGrantRequest.

Module AdminCreateRoutingGroupRequest.
Record t : Set := mk {
  idempotency_key : string;
  organization_id : option string;
  name : string;
  protocol_family : ProtocolFamily.t;
  purpose : option string;
}.
End AdminCreateRoutingGroupRequest.

Module AdminCreateRoutingGroupTargetRequest.
Record t : Set := mk {
  idempotency_key : string;
  model_target_id : string;
  weight : Z;
  priority : Z;
}.
End AdminCreateRoutingGroupTargetRequest.

Module AdminEmergencyOperationRequest.
Record t : Set := mk {
  idempotency_key : string;
  expected_version : option Z;
  reason : string;
  expires_at : DateTime;
}.
End AdminEmergencyOperationRequest.

(** The status updates of all resources but aliases and credentials have this
    shape ([AdminUpdateProviderEndpointRequest] and the like). *)
Module AdminUpdateStatusRequest.
Record t : Set := mk {
  expected_version : Z;
  status : ResourceStatus.t;
  reason : option string;
}.
End AdminUpdateStatusRequest.

Module AdminUpdateUpstreamCredentialRequest.
Record t : Set := mk {
  expected_version : Z;
  status : UpstreamCredentialStatus.t;
  reason : option string;
}.
End AdminUpdateUpstreamCredentialRequest.
