(* ===== verification/DraftCatalog.v ===== *)
(** * The draft catalog of the in-memory store

    [ProviderAdminRepository] and the catalog part of [CatalogAdminRepository]
    of [storage.rs]: creating, listing, reading and updating provider endpoints,
    upstream credentials, model targets, routing groups and their targets, model
    aliases, route policies and provider grants, with the checks the store makes
    of its own.  The directory, secret references and pricing SKUs are read. *)

From Stdlib Require Import Ascii.
From S2P Require Import Prelude Order Text Domain Pricing Delivery AdminRecords.

Module DraftCatalog.
Record t {V : Type} : Type := mk {
  organizations : gmap string OrganizationRecord.t;
  projects : gmap string ProjectRecord.t;
  secret_refs : gmap string SecretRefRecord.t;
  pricing_skus : gmap string (PricingSkuRecord.t V);
  provider_endpoints : gmap string ProviderEndpointRecord.t;
  upstream_credentials : gmap string UpstreamCredentialRecord.t;
  model_targets : gmap string ModelTargetRecord.t;
  routing_groups : gmap string RoutingGroupRecord.t;
  routing_group_targets : gmap string RoutingGroupTargetRecord.t;
  model_aliases : gmap string ModelAliasRecord.t;
  route_policies : gmap string RoutePolicyRecord.t;
  provider_grants : gmap string ProviderGrantRecord.t;
}.
Arguments t V : clear implicits.
Arguments mk {V}.

Section setters.
Context {V : Type} (s : t V).
Definition set_provider_endpoints m : t V :=
  mk (organizations s) (projects s) (secret_refs s) (pricing_skus s) m (upstream_credentials s)
    (model_targets s) (routing_groups s) (routing_group_targets s) (model_aliases s)
    (route_policies s) (provider_grants s).
Definition set_upstream_credentials m : t V :=
  mk (organizations s) (projects s) (secret_refs s) (pricing_skus s) (provider_endpoints s) m
    (model_targets s) (routing_groups s) (routing_group_targets s) (model_aliases s)
    (route_policies s) (provider_grants s).
Definition set_model_targets m : t V :=
  mk (organizations s) (projects s) (secret_refs s) (pricing_skus s) (provider_endpoints s)
    (upstream_credentials s) m (routing_groups s) (routing_group_targets s) (model_aliases s)
    (route_policies s) (provider_grants s).
Definition set_routing_groups m : t V :=
  mk (organizations s) (projects s) (secret_refs s) (pricing_skus s) (provider_endpoints s)
    (upstream_credentials s) (model_targets s) m (routing_group_targets s) (model_aliases s)
    (route_policies s) (provider_grants s).
Definition set_routing_group_targets m : t V :=
  mk (organizations s) (projects s) (secret_refs s) (pricing_skus s) (provider_endpoints s)
    (upstream_credentials s) (model_targets s) (routing_groups s) m (model_aliases s)
    (route_policies s) (provider_grants s).
Definition set_model_aliases m : t V :=
  mk (organizations s) (projects s) (secret_refs s) (pricing_skus s) (provider_endpoints s)
    (upstream_credentials s) (model_targets s) (routing_groups s) (routing_group_targets s) m
    (route_policies s) (provider_grants s).
Definition set_route_policies m : t V :=
  mk (organizations s) (projects s) (secret_refs s) (pricing_skus s) (provider_endpoints s)
    (upstream_credentials s) (model_targets s) (routing_groups s) (routing_group_targets s)
    (model_aliases s) m (provider_grants s).
Definition set_provider_grants m : t V :=
  mk (organizations s) (projects s) (secret_refs s) (pricing_skus s) (provider_endpoints s)
    (upstream_credentials s) (model_targets s) (routing_groups s) (routing_group_targets s)
    (model_aliases s) (route_policies s) m.
End setters.
End DraftCatalog.

Import DraftCatalog.

Section store.
Context {V : Type}.
Abbreviation Store := (DraftCatalog.t V).
Abbreviation Eff := (M Store GatewayError.t).
Implicit Types (s : Store).

Definition not_found {A} (resource : string) : result GatewayError.t A :=
  Err (GatewayError.NotFound resource).
Definition bad_request {A} (message : string) : result GatewayError.t A :=
  Err (GatewayError.BadRequest message).
Definition forbidden {A} (reason : string) : result GatewayError.t A :=
  Err (GatewayError.Authorization reason).

(** A guard of the source: fail when the test holds. *)
Definition refuse_if (test : bool) (error : GatewayError.t) : result GatewayError.t unit :=
  if test then Err error else Ok tt.

Definition is_some {A} (o : option A) : bool := match o with Some _ => true | None => false end.
(** [Option::is_some_and]. *)
Definition is_some_and {A} (o : option A) (p : A → bool) : bool :=
  match o with Some a => p a | None => false end.

(** Both scopes are given and differ. *)
Definition organizations_differ (a b : option string) : bool :=
  is_some a && is_some b && (a !=? b).

(** ** Checks of the store *)

Definition validate_optional_organization_scope (tenant_id : string)
    (organization_id : option string) s : result GatewayError.t unit :=
  match organization_id with
  | None => Ok tt
  | Some organization_id =>
      organization ← ok_or (organizations s !! organization_id)
                       (GatewayError.NotFound ("organization " +:+ organization_id));
      refuse_if (OrganizationRecord.tenant_id organization !=? tenant_id)
        (GatewayError.Authorization "organization_tenant_mismatch")
  end.

Definition validate_optional_project_scope (tenant_id : string)
    (organization_id project_id : option string) s : result GatewayError.t unit :=
  validate_optional_organization_scope tenant_id organization_id s;;
  match project_id with
  | None => Ok tt
  | Some project_id =>
      project ← ok_or (projects s !! project_id) (GatewayError.NotFound ("project " +:+ project_id));
      refuse_if (ProjectRecord.tenant_id project !=? tenant_id)
        (GatewayError.Authorization "project_tenant_mismatch");;
      match organization_id with
      | Some organization_id =>
          refuse_if (ProjectRecord.organization_id project !=? organization_id)
            (GatewayError.BadRequest "project_organization_mismatch")
      | None => Ok tt
      end
  end.

Definition valid_secret_ref_id (value : string) : bool :=
  starts_with "sec_" value && (String.length value <=? 128)%nat
  && all_chars (λ c, is_ascii_alphanumeric c || bool_decide (c ∈ ["_"; "-"; "."]%char)) value.

Definition secret_ref_resolves (status : SecretRefStatus.t) : bool :=
  match status with SecretRefStatus.Active | SecretRefStatus.Rotating => true | _ => false end.

Definition ensure_secret_ref_usable (tenant_id : string) (organization_id project_id : option string)
    (secret_ref_id error_prefix : string) s : result GatewayError.t unit :=
  refuse_if (negb (valid_secret_ref_id secret_ref_id))
    (GatewayError.BadRequest (error_prefix +:+ "_invalid"));;
  secret_ref ← ok_or (secret_refs s !! secret_ref_id)
                 (GatewayError.NotFound ("secret ref " +:+ secret_ref_id));
  refuse_if (SecretRefRecord.tenant_id secret_ref !=? tenant_id)
    (GatewayError.Authorization "secret_ref_tenant_mismatch");;
  refuse_if (negb (secret_ref_resolves (SecretRefRecord.status secret_ref)))
    (GatewayError.BadRequest (error_prefix +:+ "_not_active"));;
  refuse_if (is_some_and (SecretRefRecord.organization_id secret_ref)
               (λ secret_org, organization_id !=? Some secret_org))
    (GatewayError.BadRequest (error_prefix +:+ "_scope_mismatch"));;
  refuse_if (is_some_and (SecretRefRecord.project_id secret_ref)
               (λ secret_project, project_id !=? Some secret_project))
    (GatewayError.BadRequest (error_prefix +:+ "_scope_mismatch")).

Definition validate_upstream_credential_endpoint (request : CreateUpstreamCredentialRequest.t) s
    : result GatewayError.t unit :=
  let tenant_id := CreateUpstreamCredentialRequest.tenant_id request in
  let organization_id := CreateUpstreamCredentialRequest.organization_id request in
  let provider_endpoint_id := CreateUpstreamCredentialRequest.provider_endpoint_id request in
  validate_optional_organization_scope tenant_id organization_id s;;
  endpoint ← ok_or (provider_endpoints s !! provider_endpoint_id)
               (GatewayError.NotFound ("provider endpoint " +:+ provider_endpoint_id));
  refuse_if (ProviderEndpointRecord.tenant_id endpoint !=? tenant_id)
    (GatewayError.Authorization "provider_endpoint_tenant_mismatch");;
  refuse_if (organizations_differ organization_id (ProviderEndpointRecord.organization_id endpoint))
    (GatewayError.Authorization "provider_endpoint_organization_mismatch");;
  ensure_secret_ref_usable tenant_id organization_id None
    (CreateUpstreamCredentialRequest.secret_ref_id request) "upstream_credential_secret_ref" s.

Definition validate_model_target_credential (request : CreateModelTargetRequest.t) s
    : result GatewayError.t unit :=
  match CreateModelTargetRequest.upstream_credential_id request with
  | None => Ok tt
  | Some credential_id =>
      credential ← ok_or (upstream_credentials s !! credential_id)
                     (GatewayError.NotFound ("upstream credential " +:+ credential_id));
      refuse_if (UpstreamCredentialRecord.tenant_id credential
                 !=? CreateModelTargetRequest.tenant_id request)
        (GatewayError.Authorization "upstream_credential_tenant_mismatch");;
      refuse_if (UpstreamCredentialRecord.provider_endpoint_id credential
                 !=? CreateModelTargetRequest.provider_endpoint_id request)
        (GatewayError.BadRequest "upstream_credential_endpoint_mismatch")
  end.

Definition validate_model_target_pricing (request : CreateModelTargetRequest.t) s
    : result GatewayError.t unit :=
  match CreateModelTargetRequest.pricing_sku_id request with
  | None => Ok tt
  | Some pricing_sku_id =>
      pricing_sku ← ok_or (pricing_skus s !! pricing_sku_id)
                      (GatewayError.NotFound ("pricing SKU " +:+ pricing_sku_id));
      refuse_if (PricingSkuRecord.tenant_id pricing_sku
                 !=? CreateModelTargetRequest.tenant_id request)
        (GatewayError.Authorization "pricing_sku_tenant_mismatch");;
      refuse_if (negb (ResourceStatus.is_active (PricingSkuRecord.status pricing_sku)))
        (GatewayError.BadRequest "pricing_sku_not_active");;
      refuse_if (is_some_and (PricingSkuRecord.organization_id pricing_sku)
                   (λ organization_id,
                      Some organization_id !=? CreateModelTargetRequest.organization_id request))
        (GatewayError.Authorization "pricing_sku_organization_mismatch")
  end.

Definition validate_model_target_refs (request : CreateModelTargetRequest.t) s
    : result GatewayError.t unit :=
  let tenant_id := CreateModelTargetRequest.tenant_id request in
  let provider_endpoint_id := CreateModelTargetRequest.provider_endpoint_id request in
  validate_optional_organization_scope tenant_id
    (CreateModelTargetRequest.organization_id request) s;;
  endpoint ← ok_or (provider_endpoints s !! provider_endpoint_id)
               (GatewayError.NotFound ("provider endpoint " +:+ provider_endpoint_id));
  refuse_if (ProviderEndpointRecord.tenant_id endpoint !=? tenant_id)
    (GatewayError.Authorization "provider_endpoint_tenant_mismatch");;
  refuse_if (negb (bool_decide (CreateModelTargetRequest.protocol_family request
                                ∈ ProviderEndpointRecord.protocol_families endpoint)))
    (GatewayError.BadRequest "provider_endpoint_protocol_mismatch");;
  validate_model_target_credential request s;;
  validate_model_target_pricing request s.

Definition validate_routing_group_request (request : CreateRoutingGroupRequest.t) s
    : result GatewayError.t unit :=
  validate_optional_organization_scope (CreateRoutingGroupRequest.tenant_id request)
    (CreateRoutingGroupRequest.organization_id request) s;;
  refuse_if (trim (CreateRoutingGroupRequest.name request) ==? "")
    (GatewayError.BadRequest "routing_group_name_required");;
  refuse_if (existsb (λ group,
      (RoutingGroupRecord.tenant_id group ==? CreateRoutingGroupRequest.tenant_id request)
      && (RoutingGroupRecord.organization_id group
          ==? CreateRoutingGroupRequest.organization_id request)
      && (RoutingGroupRecord.name group ==? trim (CreateRoutingGroupRequest.name request))
      && (RoutingGroupRecord.status group !=? ResourceStatus.Deleted)) (values (routing_groups s)))
    (GatewayError.BadRequest "routing_group_name_conflict").

Definition validate_routing_group_target_refs (request : CreateRoutingGroupTargetRequest.t) s
    : result GatewayError.t unit :=
  let tenant_id := CreateRoutingGroupTargetRequest.tenant_id request in
  let routing_group_id := CreateRoutingGroupTargetRequest.routing_group_id request in
  let model_target_id := CreateRoutingGroupTargetRequest.model_target_id request in
  refuse_if (CreateRoutingGroupTargetRequest.weight request =? 0)%Z
    (GatewayError.BadRequest "routing_group_target_weight_required");;
  group ← ok_or (routing_groups s !! routing_group_id)
            (GatewayError.NotFound ("routing group " +:+ routing_group_id));
  refuse_if (RoutingGroupRecord.tenant_id group !=? tenant_id)
    (GatewayError.Authorization "routing_group_tenant_mismatch");;
  model_target ← ok_or (model_targets s !! model_target_id)
                   (GatewayError.NotFound ("model target " +:+ model_target_id));
  refuse_if (ModelTargetRecord.tenant_id model_target !=? tenant_id)
    (GatewayError.Authorization "model_target_tenant_mismatch");;
  refuse_if (RoutingGroupRecord.protocol_family group
             !=? ModelTargetRecord.protocol_family model_target)
    (GatewayError.BadRequest "routing_group_target_protocol_mismatch");;
  refuse_if (organizations_differ (RoutingGroupRecord.organization_id group)
               (ModelTargetRecord.organization_id model_target))
    (GatewayError.BadRequest "routing_group_target_organization_mismatch");;
  refuse_if (existsb (λ target,
      (RoutingGroupTargetRecord.tenant_id target ==? tenant_id)
      && (RoutingGroupTargetRecord.routing_group_id target ==? routing_group_id)
      && (RoutingGroupTargetRecord.model_target_id target ==? model_target_id)
      && (RoutingGroupTargetRecord.status target !=? ResourceStatus.Deleted))
      (values (routing_group_targets s)))
    (GatewayError.BadRequest "routing_group_target_conflict").

Definition validate_model_alias_request (request : CreateModelAliasRequest.t) s
    : result GatewayError.t unit :=
  validate_optional_project_scope (CreateModelAliasRequest.tenant_id request)
    (CreateModelAliasRequest.organization_id request)
    (CreateModelAliasRequest.project_id request) s;;
  refuse_if (trim (CreateModelAliasRequest.alias_name request) ==? "")
    (GatewayError.BadRequest "model_alias_name_required");;
  refuse_if (is_some (CreateModelAliasRequest.route_policy_id request))
    (GatewayError.BadRequest "model_alias_route_policy_must_bind_after_create");;
  refuse_if (existsb (λ alias,
      (ModelAliasRecord.tenant_id alias ==? CreateModelAliasRequest.tenant_id request)
      && (ModelAliasRecord.organization_id alias ==? CreateModelAliasRequest.organization_id request)
      && (ModelAliasRecord.project_id alias ==? CreateModelAliasRequest.project_id request)
      && (ModelAliasRecord.alias_name alias ==? trim (CreateModelAliasRequest.alias_name request))
      && (ModelAliasRecord.status alias !=? ResourceStatus.Deleted)) (values (model_aliases s)))
    (GatewayError.BadRequest "model_alias_name_conflict").

Definition validate_model_alias_route_policy_binding (model_alias_id route_policy_id : string) s
    : result GatewayError.t unit :=
  alias ← ok_or (model_aliases s !! model_alias_id)
            (GatewayError.NotFound ("model alias " +:+ model_alias_id));
  policy ← ok_or (route_policies s !! route_policy_id)
             (GatewayError.NotFound ("route policy " +:+ route_policy_id));
  refuse_if (RoutePolicyRecord.tenant_id policy !=? ModelAliasRecord.tenant_id alias)
    (GatewayError.Authorization "route_policy_tenant_mismatch");;
  refuse_if (RoutePolicyRecord.model_alias_id policy !=? ModelAliasRecord.model_alias_id alias)
    (GatewayError.BadRequest "route_policy_model_alias_mismatch");;
  refuse_if (RoutePolicyRecord.protocol_family policy !=? ModelAliasRecord.protocol_family alias)
    (GatewayError.BadRequest "route_policy_protocol_mismatch").

(** [Option::or]. *)
Definition option_or {A} (a b : option A) : option A := match a with Some _ => a | None => b end.

Definition validate_route_policy_request (request : CreateRoutePolicyRequest.t) s
    : result GatewayError.t (ModelAliasRecord.t * RoutingGroupRecord.t * option string) :=
  let tenant_id := CreateRoutePolicyRequest.tenant_id request in
  refuse_if (trim (CreateRoutePolicyRequest.name request) ==? "")
    (GatewayError.BadRequest "route_policy_name_required");;
  alias ← ok_or (model_aliases s !! CreateRoutePolicyRequest.model_alias_id request)
            (GatewayError.NotFound
               ("model alias " +:+ CreateRoutePolicyRequest.model_alias_id request));
  refuse_if (ModelAliasRecord.tenant_id alias !=? tenant_id)
    (GatewayError.Authorization "model_alias_tenant_mismatch");;
  group ← ok_or (routing_groups s !! CreateRoutePolicyRequest.routing_group_id request)
            (GatewayError.NotFound
               ("routing group " +:+ CreateRoutePolicyRequest.routing_group_id request));
  refuse_if (RoutingGroupRecord.tenant_id group !=? tenant_id)
    (GatewayError.Authorization "routing_group_tenant_mismatch");;
  refuse_if (ModelAliasRecord.protocol_family alias !=? RoutingGroupRecord.protocol_family group)
    (GatewayError.BadRequest "route_policy_protocol_mismatch");;
  refuse_if (organizations_differ (ModelAliasRecord.organization_id alias)
               (RoutingGroupRecord.organization_id group))
    (GatewayError.BadRequest "route_policy_organization_mismatch");;
  let organization_id := option_or (ModelAliasRecord.organization_id alias)
                           (RoutingGroupRecord.organization_id group) in
  refuse_if (existsb (λ policy,
      (RoutePolicyRecord.tenant_id policy ==? tenant_id)
      && (RoutePolicyRecord.organization_id policy ==? organization_id)
      && (RoutePolicyRecord.name policy ==? trim (CreateRoutePolicyRequest.name request))
      && (RoutePolicyRecord.status policy !=? ResourceStatus.Deleted)) (values (route_policies s)))
    (GatewayError.BadRequest "route_policy_name_conflict");;
  Ok (alias, group, organization_id).

Definition validate_provider_grant_scope (tenant_id : string)
    (request : CreateProviderGrantRequest.t) s
    : result GatewayError.t (option string * option string) :=
  let scope_id := CreateProviderGrantRequest.scope_id request in
  if CreateProviderGrantRequest.scope_kind request ==? "organization" then
    organization ← ok_or (organizations s !! scope_id)
                     (GatewayError.NotFound ("organization " +:+ scope_id));
    refuse_if (OrganizationRecord.tenant_id organization !=? tenant_id)
      (GatewayError.Authorization "provider_grant_scope_tenant_mismatch");;
    Ok (Some (OrganizationRecord.organization_id organization), None)
  else if CreateProviderGrantRequest.scope_kind request ==? "project" then
    project ← ok_or (projects s !! scope_id) (GatewayError.NotFound ("project " +:+ scope_id));
    refuse_if (ProjectRecord.tenant_id project !=? tenant_id)
      (GatewayError.Authorization "provider_grant_scope_tenant_mismatch");;
    Ok (Some (ProjectRecord.organization_id project), Some (ProjectRecord.project_id project))
  else bad_request "provider_grant_scope_kind_invalid".

(** Is there a resource of that kind and id in the tenant?  [None] for a kind
    that grants do not cover. *)
Definition granted_resource_exists (resource_kind resource_id tenant_id : string) s : option bool :=
  let owned {A} (m : gmap string A) (tenant : A → string) :=
    is_some_and (m !! resource_id) (λ r, tenant r ==? tenant_id) in
  if resource_kind ==? "model_alias" then
    Some (owned (model_aliases s) ModelAliasRecord.tenant_id)
  else if resource_kind ==? "route_policy" then
    Some (owned (route_policies s) RoutePolicyRecord.tenant_id)
  else if resource_kind ==? "routing_group" then
    Some (owned (routing_groups s) RoutingGroupRecord.tenant_id)
  else if resource_kind ==? "model_target" then
    Some (owned (model_targets s) ModelTargetRecord.tenant_id)
  else if resource_kind ==? "provider_endpoint" then
    Some (owned (provider_endpoints s) ProviderEndpointRecord.tenant_id)
  else if resource_kind ==? "pricing_sku" then
    Some (owned (pricing_skus s) PricingSkuRecord.tenant_id)
  else None.

(** [str::replace('_', " ")]. *)
Fixpoint replace_underscores (s : string) : string :=
  match s with
  | EmptyString => EmptyString
  | String c s => String (if bool_decide (c = "_"%char) then " "%char else c) (replace_underscores s)
  end.

Definition validate_provider_grant_resource (tenant_id : string)
    (request : CreateProviderGrantRequest.t) s : result GatewayError.t unit :=
  let resource_kind := CreateProviderGrantRequest.resource_kind request in
  let resource_id := CreateProviderGrantRequest.resource_id request in
  match granted_resource_exists resource_kind resource_id tenant_id s with
  | None => bad_request "provider_grant_resource_kind_invalid"
  | Some true => Ok tt
  | Some false => not_found (replace_underscores resource_kind +:+ " " +:+ resource_id)
  end.

Definition validate_provider_grant_effect (effect closure_mode : string)
    : result GatewayError.t unit :=
  refuse_if (negb (bool_decide (effect ∈ ["allow"; "deny"])))
    (GatewayError.BadRequest "provider_grant_effect_invalid");;
  refuse_if (negb (bool_decide
      (closure_mode ∈ ["self_only"; "include_descendants"; "deny_descendants"])))
    (GatewayError.BadRequest "provider_grant_closure_mode_invalid");;
  refuse_if ((effect ==? "allow") && (closure_mode ==? "deny_descendants"))
    (GatewayError.BadRequest "provider_grant_allow_deny_descendants_invalid");;
  refuse_if ((effect ==? "deny") && (closure_mode ==? "include_descendants"))
    (GatewayError.BadRequest "provider_grant_deny_include_descendants_invalid").

Definition validate_provider_grant_request (request : CreateProviderGrantRequest.t) s
    : result GatewayError.t (option string * option string) :=
  let tenant_id := CreateProviderGrantRequest.tenant_id request in
  scope ← validate_provider_grant_scope tenant_id request s;
  validate_provider_grant_resource tenant_id request s;;
  validate_provider_grant_effect (CreateProviderGrantRequest.effect request)
    (CreateProviderGrantRequest.closure_mode request);;
  refuse_if (existsb (λ grant,
      (ProviderGrantRecord.tenant_id grant ==? tenant_id)
      && (ProviderGrantRecord.scope_kind grant ==? CreateProviderGrantRequest.scope_kind request)
      && (ProviderGrantRecord.scope_id grant ==? CreateProviderGrantRequest.scope_id request)
      && (ProviderGrantRecord.resource_kind grant
          ==? CreateProviderGrantRequest.resource_kind request)
      && (ProviderGrantRecord.resource_id grant ==? CreateProviderGrantRequest.resource_id request)
      && (ProviderGrantRecord.effect grant ==? CreateProviderGrantRequest.effect request)
      && (ProviderGrantRecord.status grant !=? ResourceStatus.Deleted)) (values (provider_grants s)))
    (GatewayError.BadRequest "provider_grant_conflict");;
  Ok scope.
(** ** Operations *)

(** The common part of the updates: find the record, compare the version the
    caller has seen, change the record in place. *)
Definition update_versioned {R} (noun : string) (version : R → Z) (change : R → R) (id : string)
    (expected_resource_version : Z) (table : gmap string R)
    : result GatewayError.t (R * gmap string R) :=
  match table !! id with
  | None => not_found (noun +:+ " " +:+ id)
  | Some record =>
      if version record !=? expected_resource_version then bad_request "stale_resource_version"
      else let updated := change record in Ok (updated, <[id := updated]> table)
  end.

(** Apply it to one table of the store. *)
Definition on_table {R A} (get : Store → gmap string R) (set : Store → gmap string R → Store)
    (op : gmap string R → result GatewayError.t (A * gmap string R)) : Eff A := λ s,
  match op (get s) with
  | Ok (a, m) => (Ok a, set s m)
  | Err e => (Err e, s)
  end.

(** Insert a new record under its id. *)
Definition insert_new {R} (get : Store → gmap string R) (set : Store → gmap string R → Store)
    (id : R → string) (record : R) : Eff R := λ s,
  (Ok record, set s (<[id record := record]> (get s))).

(** *** Provider endpoints *)

Definition create_provider_endpoint (uuid : string) (request : CreateProviderEndpointRequest.t)
    (now : DateTime) : Eff ProviderEndpointRecord.t := λ s,
  match validate_optional_organization_scope (CreateProviderEndpointRequest.tenant_id request)
          (CreateProviderEndpointRequest.organization_id request) s with
  | Err e => (Err e, s)
  | Ok _ =>
      insert_new provider_endpoints set_provider_endpoints
        ProviderEndpointRecord.provider_endpoint_id
        (ProviderEndpointRecord.mk (new_prefixed_id "pep" uuid)
           (CreateProviderEndpointRequest.tenant_id request)
           (CreateProviderEndpointRequest.organization_id request)
           (CreateProviderEndpointRequest.provider_kind request)
           (CreateProviderEndpointRequest.display_name request)
           (CreateProviderEndpointRequest.protocol_families request)
           (CreateProviderEndpointRequest.upstream_base_url request)
           ResourceStatus.Active 1 1 (CreateProviderEndpointRequest.created_by request) now now) s
  end.

Definition provider_endpoints_for_tenant (tenant_id : string) s : list ProviderEndpointRecord.t :=
  sort_by (cmp_on ProviderEndpointRecord.provider_endpoint_id String.compare)
    (List.filter (λ r, ProviderEndpointRecord.tenant_id r ==? tenant_id)
       (values (provider_endpoints s))).
Definition provider_endpoint (id : string) s : option ProviderEndpointRecord.t :=
  provider_endpoints s !! id.
Definition update_provider_endpoint_status (id : string) (expected : Z)
    (status : ResourceStatus.t) (now : DateTime) : Eff ProviderEndpointRecord.t :=
  on_table provider_endpoints set_provider_endpoints
    (update_versioned "provider endpoint" ProviderEndpointRecord.resource_version
       (λ r, ProviderEndpointRecord.with_status r status now) id expected).

(** *** Upstream credentials *)

Definition create_upstream_credential (uuid : string) (request : CreateUpstreamCredentialRequest.t)
    (now : DateTime) : Eff UpstreamCredentialRecord.t := λ s,
  match validate_upstream_credential_endpoint request s with
  | Err e => (Err e, s)
  | Ok _ =>
      insert_new upstream_credentials set_upstream_credentials
        UpstreamCredentialRecord.upstream_credential_id
        (UpstreamCredentialRecord.mk (new_prefixed_id "upc" uuid)
           (CreateUpstreamCredentialRequest.tenant_id request)
           (CreateUpstreamCredentialRequest.organization_id request)
           (CreateUpstreamCredentialRequest.provider_endpoint_id request)
           (CreateUpstreamCredentialRequest.credential_kind request)
           (CreateUpstreamCredentialRequest.secret_ref_id request)
           UpstreamCredentialStatus.Active 1 1
           (CreateUpstreamCredentialRequest.created_by request) now now) s
  end.

Definition upstream_credentials_for_tenant (tenant_id : string) s
    : list UpstreamCredentialRecord.t :=
  sort_by (cmp_on UpstreamCredentialRecord.upstream_credential_id String.compare)
    (List.filter (λ r, UpstreamCredentialRecord.tenant_id r ==? tenant_id)
       (values (upstream_credentials s))).
Definition upstream_credential (id : string) s : option UpstreamCredentialRecord.t :=
  upstream_credentials s !! id.
Definition update_upstream_credential_status (id : string) (expected : Z)
    (status : UpstreamCredentialStatus.t) (now : DateTime) : Eff UpstreamCredentialRecord.t :=
  on_table upstream_credentials set_upstream_credentials
    (update_versioned "upstream credential" UpstreamCredentialRecord.resource_version
       (λ r, UpstreamCredentialRecord.with_status r status now) id expected).

(** *** Model targets *)

Definition create_model_target (uuid : string) (request : CreateModelTargetRequest.t)
    (now : DateTime) : Eff ModelTargetRecord.t := λ s,
  match validate_model_target_refs request s with
  | Err e => (Err e, s)
  | Ok _ =>
      insert_new model_targets set_model_targets ModelTargetRecord.model_target_id
        (ModelTargetRecord.mk (new_prefixed_id "mt" uuid)
           (CreateModelTargetRequest.tenant_id request)
           (CreateModelTargetRequest.organization_id request)
           (CreateModelTargetRequest.provider_endpoint_id request)
           (CreateModelTargetRequest.upstream_credential_id request)
           (CreateModelTargetRequest.protocol_family request)
           (CreateModelTargetRequest.upstream_model_id request)
           (CreateModelTargetRequest.pricing_sku_id request)
           (CreateModelTargetRequest.supports_streaming request)
           ResourceStatus.Active 1 1 (CreateModelTargetRequest.created_by request) now now) s
  end.

Definition model_targets_for_tenant (tenant_id : string) s : list ModelTargetRecord.t :=
  sort_by (cmp_on ModelTargetRecord.model_target_id String.compare)
    (List.filter (λ r, ModelTargetRecord.tenant_id r ==? tenant_id) (values (model_targets s))).
Definition model_target (id : string) s : option ModelTargetRecord.t := model_targets s !! id.
Definition update_model_target_status (id : string) (expected : Z) (status : ResourceStatus.t)
    (now : DateTime) : Eff ModelTargetRecord.t :=
  on_table model_targets set_model_targets
    (update_versioned "model target" ModelTargetRecord.resource_version
       (λ r, ModelTargetRecord.with_status r status now) id expected).

(** *** Routing groups *)

Definition create_routing_group (uuid : string) (request : CreateRoutingGroupRequest.t)
    (now : DateTime) : Eff RoutingGroupRecord.t := λ s,
  match validate_routing_group_request request s with
  | Err e => (Err e, s)
  | Ok _ =>
      insert_new routing_groups set_routing_groups RoutingGroupRecord.routing_group_id
        (RoutingGroupRecord.mk (new_prefixed_id "rg" uuid)
           (CreateRoutingGroupRequest.tenant_id request)
           (CreateRoutingGroupRequest.organization_id request)
           (trim (CreateRoutingGroupRequest.name request))
           (CreateRoutingGroupRequest.protocol_family request)
           (CreateRoutingGroupRequest.purpose request)
           ResourceStatus.Active 1 1 (CreateRoutingGroupRequest.created_by request) now now) s
  end.

Definition routing_groups_for_tenant (tenant_id : string) s : list RoutingGroupRecord.t :=
  sort_by (cmp_then (cmp_on RoutingGroupRecord.name String.compare)
             (cmp_on RoutingGroupRecord.routing_group_id String.compare))
    (List.filter (λ r, RoutingGroupRecord.tenant_id r ==? tenant_id) (values (routing_groups s))).
Definition routing_group (id : string) s : option RoutingGroupRecord.t := routing_groups s !! id.
Definition update_routing_group_status (id : string) (expected : Z) (status : ResourceStatus.t)
    (now : DateTime) : Eff RoutingGroupRecord.t :=
  on_table routing_groups set_routing_groups
    (update_versioned "routing group" RoutingGroupRecord.resource_version
       (λ r, RoutingGroupRecord.with_status r status now) id expected).

(** *** Targets of routing groups *)

Definition create_routing_group_target (uuid : string)
    (request : CreateRoutingGroupTargetRequest.t) (now : DateTime)
    : Eff RoutingGroupTargetRecord.t := λ s,
  match validate_routing_group_target_refs request s with
  | Err e => (Err e, s)
  | Ok _ =>
      insert_new routing_group_targets set_routing_group_targets
        RoutingGroupTargetRecord.routing_group_target_id
        (RoutingGroupTargetRecord.mk (new_prefixed_id "rgt" uuid)
           (CreateRoutingGroupTargetRequest.tenant_id request)
           (CreateRoutingGroupTargetRequest.routing_group_id request)
           (CreateRoutingGroupTargetRequest.model_target_id request)
           (CreateRoutingGroupTargetRequest.weight request)
           (CreateRoutingGroupTargetRequest.priority request)
           ResourceStatus.Active 1 1 (CreateRoutingGroupTargetRequest.created_by request) now now) s
  end.

Definition routing_group_targets_for_group (tenant_id routing_group_id : string) s
    : list RoutingGroupTargetRecord.t :=
  sort_by (cmp_then (cmp_on RoutingGroupTargetRecord.priority Z.compare)
             (cmp_then (cmp_rev (cmp_on RoutingGroupTargetRecord.weight Z.compare))
                (cmp_on RoutingGroupTargetRecord.routing_group_target_id String.compare)))
    (List.filter (λ r, (RoutingGroupTargetRecord.tenant_id r ==? tenant_id)
                       && (RoutingGroupTargetRecord.routing_group_id r ==? routing_group_id))
       (values (routing_group_targets s))).
Definition routing_group_target (id : string) s : option RoutingGroupTargetRecord.t :=
  routing_group_targets s !! id.
Definition update_routing_group_target_status (id : string) (expected : Z)
    (status : ResourceStatus.t) (now : DateTime) : Eff RoutingGroupTargetRecord.t :=
  on_table routing_group_targets set_routing_group_targets
    (update_versioned "routing group target" RoutingGroupTargetRecord.resource_version
       (λ r, RoutingGroupTargetRecord.with_status r status now) id expected).

(** *** Model aliases *)

Definition create_model_alias (uuid : string) (request : CreateModelAliasRequest.t)
    (now : DateTime) : Eff ModelAliasRecord.t := λ s,
  match validate_model_alias_request request s with
  | Err e => (Err e, s)
  | Ok _ =>
      insert_new model_aliases set_model_aliases ModelAliasRecord.model_alias_id
        (ModelAliasRecord.mk (new_prefixed_id "ma" uuid)
           (CreateModelAliasRequest.tenant_id request)
           (CreateModelAliasRequest.organization_id request)
           (CreateModelAliasRequest.project_id request)
           (trim (CreateModelAliasRequest.alias_name request))
           (CreateModelAliasRequest.protocol_family request)
           (CreateModelAliasRequest.route_policy_id request)
           ResourceStatus.Active 1 1 (CreateModelAliasRequest.created_by request) now now) s
  end.

Definition model_aliases_for_tenant (tenant_id : string) s : list ModelAliasRecord.t :=
  sort_by (cmp_then (cmp_on ModelAliasRecord.alias_name String.compare)
             (cmp_on ModelAliasRecord.model_alias_id String.compare))
    (List.filter (λ r, ModelAliasRecord.tenant_id r ==? tenant_id) (values (model_aliases s))).
Definition model_alias (id : string) s : option ModelAliasRecord.t := model_aliases s !! id.

(** The change an update makes to the alias. *)
Definition changed_alias (request : UpdateModelAliasRequest.t) (now : DateTime)
    (r : ModelAliasRecord.t) : ModelAliasRecord.t :=
  let status := default (ModelAliasRecord.status r) (UpdateModelAliasRequest.status request) in
  let r := ModelAliasRecord.with_status r status now in
  ModelAliasRecord.mk (ModelAliasRecord.model_alias_id r) (ModelAliasRecord.tenant_id r)
    (ModelAliasRecord.organization_id r) (ModelAliasRecord.project_id r)
    (ModelAliasRecord.alias_name r) (ModelAliasRecord.protocol_family r)
    (option_or (UpdateModelAliasRequest.route_policy_id request)
       (ModelAliasRecord.route_policy_id r))
    (ModelAliasRecord.status r) (ModelAliasRecord.resource_version r)
    (ModelAliasRecord.schema_version r) (ModelAliasRecord.created_by r)
    (ModelAliasRecord.created_at r) (ModelAliasRecord.updated_at r).

Definition update_model_alias (id : string) (request : UpdateModelAliasRequest.t)
    (now : DateTime) : Eff ModelAliasRecord.t := λ s,
  if negb (is_some (UpdateModelAliasRequest.status request))
     && negb (is_some (UpdateModelAliasRequest.route_policy_id request))
  then (bad_request "model_alias_update_empty", s)
  else
    match match UpdateModelAliasRequest.route_policy_id request with
          | Some route_policy_id => validate_model_alias_route_policy_binding id route_policy_id s
          | None => Ok tt
          end with
    | Err e => (Err e, s)
    | Ok _ =>
        on_table model_aliases set_model_aliases
          (update_versioned "model alias" ModelAliasRecord.resource_version
             (changed_alias request now) id
             (UpdateModelAliasRequest.expected_resource_version request)) s
    end.

(** *** Route policies *)

Definition create_route_policy (uuid : string) (request : CreateRoutePolicyRequest.t)
    (now : DateTime) : Eff RoutePolicyRecord.t := λ s,
  match validate_route_policy_request request s with
  | Err e => (Err e, s)
  | Ok (alias, group, organization_id) =>
      insert_new route_policies set_route_policies RoutePolicyRecord.route_policy_id
        (RoutePolicyRecord.mk (new_prefixed_id "rp" uuid)
           (CreateRoutePolicyRequest.tenant_id request) organization_id
           (trim (CreateRoutePolicyRequest.name request)) (ModelAliasRecord.protocol_family alias)
           (ModelAliasRecord.model_alias_id alias) (RoutingGroupRecord.routing_group_id group)
           ResourceStatus.Active 1 1 (CreateRoutePolicyRequest.created_by request) now now) s
  end.

Definition route_policies_for_tenant (tenant_id : string) s : list RoutePolicyRecord.t :=
  sort_by (cmp_then (cmp_on RoutePolicyRecord.name String.compare)
             (cmp_on RoutePolicyRecord.route_policy_id String.compare))
    (List.filter (λ r, RoutePolicyRecord.tenant_id r ==? tenant_id) (values (route_policies s))).
Definition route_policy (id : string) s : option RoutePolicyRecord.t := route_policies s !! id.
Definition update_route_policy_status (id : string) (expected : Z) (status : ResourceStatus.t)
    (now : DateTime) : Eff RoutePolicyRecord.t :=
  on_table route_policies set_route_policies
    (update_versioned "route policy" RoutePolicyRecord.resource_version
       (λ r, RoutePolicyRecord.with_status r status now) id expected).

(** *** Provider grants *)

Definition create_provider_grant (uuid : string) (request : CreateProviderGrantRequest.t)
    (now : DateTime) : Eff ProviderGrantRecord.t := λ s,
  match validate_provider_grant_request request s with
  | Err e => (Err e, s)
  | Ok (organization_id, project_id) =>
      insert_new provider_grants set_provider_grants ProviderGrantRecord.provider_grant_id
        (ProviderGrantRecord.mk (new_prefixed_id "pg" uuid)
           (CreateProviderGrantRequest.tenant_id request)
           (CreateProviderGrantRequest.scope_kind request)
           (CreateProviderGrantRequest.scope_id request) organization_id project_id
           (CreateProviderGrantRequest.resource_kind request)
           (CreateProviderGrantRequest.resource_id request)
           (CreateProviderGrantRequest.effect request)
           (CreateProviderGrantRequest.closure_mode request)
           ResourceStatus.Active 1 1 (CreateProviderGrantRequest.created_by request) now now) s
  end.

Definition provider_grants_for_tenant (tenant_id : string) s : list ProviderGrantRecord.t :=
  sort_by (cmp_then (cmp_on ProviderGrantRecord.scope_kind String.compare)
             (cmp_then (cmp_on ProviderGrantRecord.scope_id String.compare)
                (cmp_then (cmp_on ProviderGrantRecord.resource_kind String.compare)
                   (cmp_then (cmp_on ProviderGrantRecord.resource_id String.compare)
                      (cmp_on ProviderGrantRecord.provider_grant_id String.compare)))))
    (List.filter (λ r, ProviderGrantRecord.tenant_id r ==? tenant_id) (values (provider_grants s))).
Definition provider_grant (id : string) s : option ProviderGrantRecord.t := provider_grants s !! id.
Definition update_provider_grant_status (id : string) (expected : Z) (status : ResourceStatus.t)
    (now : DateTime) : Eff ProviderGrantRecord.t :=
  on_table provider_grants set_provider_grants
    (update_versioned "provider grant" ProviderGrantRecord.resource_version
       (λ r, ProviderGrantRecord.with_status r status now) id expected).
End store.
