(* ===== verification/DraftFacts.v ===== *)
(** * References and names in the draft catalog

    What the checks of [DraftCatalog.v] buy: in every store reached by the
    admin operations, every reference of a draft resource leads to a resource
    of the same tenant that fits, and two live resources of one scope never
    share a name, unless a deleted resource is brought back. *)

From S2P Require Import Prelude Order Text Domain Pricing Delivery AdminRecords DraftCatalog.
Import DraftCatalog.

(** ** Tables that keep a part of their records *)

(** Every record of [m] is still in [m'], with the same [core]. *)
Definition keeps_core {R C} (core : R → C) (m m' : gmap string R) : Prop :=
  ∀ id r, m !! id = Some r → ∃ r', m' !! id = Some r' ∧ core r' = core r.

(** The table has a record [id] with the property. *)
Definition refers {R} (m : gmap string R) (id : string) (P : R → Prop) : Prop :=
  ∃ r, m !! id = Some r ∧ P r.

Section keeping.
Context {R C : Type} (core : R → C).
Implicit Types (m : gmap string R) (r : R) (id : string).

Lemma keeps_core_refl m : keeps_core core m m.
Proof. intros id r Hr. by exists r. Qed.

Lemma keeps_core_fresh m id r : m !! id = None → keeps_core core m (<[id := r]> m).
Proof.
  intros Hnew id' r' Hr'. exists r'. rewrite lookup_insert_ne; [done|]. congruence.
Qed.

Lemma keeps_core_change m id r r' :
  m !! id = Some r → core r' = core r → keeps_core core m (<[id := r']> m).
Proof.
  intros Hr Hcore id0 r0 Hr0. destruct (decide (id = id0)) as [<-|Hne].
  - exists r'. rewrite lookup_insert_eq. split; [done|congruence].
  - exists r0. by rewrite lookup_insert_ne.
Qed.

Lemma refers_keeps m m' id (P : R → Prop) :
  (∀ r r', core r' = core r → P r → P r') → keeps_core core m m' → refers m id P → refers m' id P.
Proof. intros HP Hm (r & Hr & Hp). destruct (Hm id r Hr) as (r' & ? & ?). exists r'. eauto. Qed.
End keeping.

(** ** What a sound reference is *)

Section soundness.
Context {V : Type}.
Abbreviation Store := (DraftCatalog.t V).
Implicit Types (s : Store) (id : string).

Definition organization_in (tenant : string) (organization : option string) s : Prop :=
  match organization with
  | Some id => refers (organizations s) id (λ o, OrganizationRecord.tenant_id o = tenant)
  | None => True
  end.

Definition endpoint_sound s id (r : ProviderEndpointRecord.t) : Prop :=
  ProviderEndpointRecord.provider_endpoint_id r = id
  ∧ organization_in (ProviderEndpointRecord.tenant_id r) (ProviderEndpointRecord.organization_id r) s.

(** A credential belongs to an endpoint of its tenant and, where both name
    one, of its organization; its secret is one of the tenant. *)
Definition credential_sound s id (r : UpstreamCredentialRecord.t) : Prop :=
  UpstreamCredentialRecord.upstream_credential_id r = id
  ∧ organization_in (UpstreamCredentialRecord.tenant_id r)
      (UpstreamCredentialRecord.organization_id r) s
  ∧ refers (provider_endpoints s) (UpstreamCredentialRecord.provider_endpoint_id r) (λ e,
      ProviderEndpointRecord.tenant_id e = UpstreamCredentialRecord.tenant_id r
      ∧ organizations_differ (UpstreamCredentialRecord.organization_id r)
          (ProviderEndpointRecord.organization_id e) = false)
  ∧ refers (secret_refs s) (UpstreamCredentialRecord.secret_ref_id r) (λ x,
      SecretRefRecord.tenant_id x = UpstreamCredentialRecord.tenant_id r).

(** A model target speaks a protocol of its endpoint, uses a credential of
    that endpoint and a price of the tenant. *)
Definition target_sound s id (r : ModelTargetRecord.t) : Prop :=
  ModelTargetRecord.model_target_id r = id
  ∧ organization_in (ModelTargetRecord.tenant_id r) (ModelTargetRecord.organization_id r) s
  ∧ refers (provider_endpoints s) (ModelTargetRecord.provider_endpoint_id r) (λ e,
      ProviderEndpointRecord.tenant_id e = ModelTargetRecord.tenant_id r
      ∧ ModelTargetRecord.protocol_family r ∈ ProviderEndpointRecord.protocol_families e)
  ∧ (∀ c, ModelTargetRecord.upstream_credential_id r = Some c →
      refers (upstream_credentials s) c (λ x,
        UpstreamCredentialRecord.tenant_id x = ModelTargetRecord.tenant_id r
        ∧ UpstreamCredentialRecord.provider_endpoint_id x
          = ModelTargetRecord.provider_endpoint_id r))
  ∧ (∀ p, ModelTargetRecord.pricing_sku_id r = Some p →
      refers (pricing_skus s) p (λ x,
        PricingSkuRecord.tenant_id x = ModelTargetRecord.tenant_id r)).

Definition group_sound s id (r : RoutingGroupRecord.t) : Prop :=
  RoutingGroupRecord.routing_group_id r = id
  ∧ organization_in (RoutingGroupRecord.tenant_id r) (RoutingGroupRecord.organization_id r) s.

(** A member of a routing group joins a group and a target of one tenant, one
    protocol and compatible organizations, and has weight. *)
Definition member_sound s id (r : RoutingGroupTargetRecord.t) : Prop :=
  RoutingGroupTargetRecord.routing_group_target_id r = id
  ∧ RoutingGroupTargetRecord.weight r ≠ 0%Z
  ∧ refers (routing_groups s) (RoutingGroupTargetRecord.routing_group_id r) (λ g,
      RoutingGroupRecord.tenant_id g = RoutingGroupTargetRecord.tenant_id r
      ∧ refers (model_targets s) (RoutingGroupTargetRecord.model_target_id r) (λ t,
          ModelTargetRecord.tenant_id t = RoutingGroupTargetRecord.tenant_id r
          ∧ RoutingGroupRecord.protocol_family g = ModelTargetRecord.protocol_family t
          ∧ organizations_differ (RoutingGroupRecord.organization_id g)
              (ModelTargetRecord.organization_id t) = false)).

(** The policy an alias is bound to is a policy for this alias. *)
Definition alias_sound s id (r : ModelAliasRecord.t) : Prop :=
  ModelAliasRecord.model_alias_id r = id
  ∧ organization_in (ModelAliasRecord.tenant_id r) (ModelAliasRecord.organization_id r) s
  ∧ (∀ p, ModelAliasRecord.project_id r = Some p →
      refers (projects s) p (λ x,
        ProjectRecord.tenant_id x = ModelAliasRecord.tenant_id r
        ∧ (∀ o, ModelAliasRecord.organization_id r = Some o → ProjectRecord.organization_id x = o)))
  ∧ (∀ p, ModelAliasRecord.route_policy_id r = Some p →
      refers (route_policies s) p (λ x,
        RoutePolicyRecord.tenant_id x = ModelAliasRecord.tenant_id r
        ∧ RoutePolicyRecord.model_alias_id x = id
        ∧ RoutePolicyRecord.protocol_family x = ModelAliasRecord.protocol_family r)).

(** A route policy joins an alias and a group of its tenant and protocol. *)
Definition policy_sound s id (r : RoutePolicyRecord.t) : Prop :=
  RoutePolicyRecord.route_policy_id r = id
  ∧ refers (model_aliases s) (RoutePolicyRecord.model_alias_id r) (λ a,
      ModelAliasRecord.tenant_id a = RoutePolicyRecord.tenant_id r
      ∧ ModelAliasRecord.protocol_family a = RoutePolicyRecord.protocol_family r)
  ∧ refers (routing_groups s) (RoutePolicyRecord.routing_group_id r) (λ g,
      RoutingGroupRecord.tenant_id g = RoutePolicyRecord.tenant_id r
      ∧ RoutingGroupRecord.protocol_family g = RoutePolicyRecord.protocol_family r).

(** A grant is about an existing resource of its tenant, in a scope of its
    tenant, with an effect and closure that fit. *)
Definition grant_sound s id (r : ProviderGrantRecord.t) : Prop :=
  ProviderGrantRecord.provider_grant_id r = id
  ∧ granted_resource_exists (ProviderGrantRecord.resource_kind r)
      (ProviderGrantRecord.resource_id r) (ProviderGrantRecord.tenant_id r) s = Some true
  ∧ validate_provider_grant_effect (ProviderGrantRecord.effect r)
      (ProviderGrantRecord.closure_mode r) = Ok tt
  ∧ ((ProviderGrantRecord.scope_kind r = "organization"
      ∧ organization_in (ProviderGrantRecord.tenant_id r) (Some (ProviderGrantRecord.scope_id r)) s)
     ∨ (ProviderGrantRecord.scope_kind r = "project"
        ∧ refers (projects s) (ProviderGrantRecord.scope_id r) (λ p,
            ProjectRecord.tenant_id p = ProviderGrantRecord.tenant_id r))).

Record references_sound s : Prop := {
  endpoints_ok : map_Forall (endpoint_sound s) (provider_endpoints s);
  credentials_ok : map_Forall (credential_sound s) (upstream_credentials s);
  targets_ok : map_Forall (target_sound s) (model_targets s);
  groups_ok : map_Forall (group_sound s) (routing_groups s);
  members_ok : map_Forall (member_sound s) (routing_group_targets s);
  aliases_ok : map_Forall (alias_sound s) (model_aliases s);
  policies_ok : map_Forall (policy_sound s) (route_policies s);
  grants_ok : map_Forall (grant_sound s) (provider_grants s);
}.

(** ** The parts of the records that never change *)

Definition endpoint_core (r : ProviderEndpointRecord.t) :=
  (ProviderEndpointRecord.tenant_id r, ProviderEndpointRecord.organization_id r,
   ProviderEndpointRecord.protocol_families r).
Definition credential_core (r : UpstreamCredentialRecord.t) :=
  (UpstreamCredentialRecord.tenant_id r, UpstreamCredentialRecord.provider_endpoint_id r).
Definition target_core (r : ModelTargetRecord.t) :=
  (ModelTargetRecord.tenant_id r, ModelTargetRecord.organization_id r,
   ModelTargetRecord.protocol_family r).
Definition group_core (r : RoutingGroupRecord.t) :=
  (RoutingGroupRecord.tenant_id r, RoutingGroupRecord.organization_id r,
   RoutingGroupRecord.protocol_family r).
Definition alias_core (r : ModelAliasRecord.t) :=
  (ModelAliasRecord.tenant_id r, ModelAliasRecord.protocol_family r).
Definition policy_core (r : RoutePolicyRecord.t) :=
  (RoutePolicyRecord.tenant_id r, RoutePolicyRecord.model_alias_id r,
   RoutePolicyRecord.protocol_family r).
Definition project_core (r : ProjectRecord.t) :=
  (ProjectRecord.tenant_id r, ProjectRecord.organization_id r).

Record grows s s' : Prop := {
  keeps_organizations : keeps_core OrganizationRecord.tenant_id (organizations s) (organizations s');
  keeps_projects : keeps_core project_core (projects s) (projects s');
  keeps_secrets : keeps_core SecretRefRecord.tenant_id (secret_refs s) (secret_refs s');
  keeps_prices : keeps_core PricingSkuRecord.tenant_id (pricing_skus s) (pricing_skus s');
  keeps_endpoints : keeps_core endpoint_core (provider_endpoints s) (provider_endpoints s');
  keeps_credentials : keeps_core credential_core (upstream_credentials s) (upstream_credentials s');
  keeps_targets : keeps_core target_core (model_targets s) (model_targets s');
  keeps_groups : keeps_core group_core (routing_groups s) (routing_groups s');
  keeps_aliases : keeps_core alias_core (model_aliases s) (model_aliases s');
  keeps_policies : keeps_core policy_core (route_policies s) (route_policies s');
}.

#[local] Ltac cores :=
  unfold endpoint_core, credential_core, target_core, group_core, alias_core, policy_core,
    project_core in *; naive_solver congruence.

Lemma organization_in_grows tenant o s s' :
  grows s s' → organization_in tenant o s → organization_in tenant o s'.
Proof.
  intros Hg. destruct o as [o|]; [|done].
  apply refers_keeps with (core := OrganizationRecord.tenant_id), keeps_organizations;
    [congruence|done].
Qed.

Lemma endpoint_sound_grows s s' id r : grows s s' → endpoint_sound s id r → endpoint_sound s' id r.
Proof. intros Hg [? ?]. split; [done|by eapply organization_in_grows]. Qed.

Lemma credential_sound_grows s s' id r :
  grows s s' → credential_sound s id r → credential_sound s' id r.
Proof.
  intros Hg (? & ? & He & Hs). repeat split; [done|by eapply organization_in_grows| |].
  - revert He. apply refers_keeps with (core := endpoint_core), keeps_endpoints; [cores|done].
  - revert Hs. apply refers_keeps with (core := SecretRefRecord.tenant_id), keeps_secrets;
      [congruence|done].
Qed.

Lemma target_sound_grows s s' id r : grows s s' → target_sound s id r → target_sound s' id r.
Proof.
  intros Hg (? & ? & He & Hc & Hp). split_and!; [done|by eapply organization_in_grows| | |].
  - revert He. apply refers_keeps with (core := endpoint_core), keeps_endpoints; [|done].
    unfold endpoint_core. intros a b ? [? ?]. simplify_eq. split; congruence.
  - intros c Hr. generalize (Hc c Hr).
    apply refers_keeps with (core := credential_core), keeps_credentials; [cores|done].
  - intros p Hr. generalize (Hp p Hr).
    apply refers_keeps with (core := PricingSkuRecord.tenant_id), keeps_prices; [congruence|done].
Qed.

Lemma group_sound_grows s s' id r : grows s s' → group_sound s id r → group_sound s' id r.
Proof. intros Hg [? ?]. split; [done|by eapply organization_in_grows]. Qed.

Lemma member_sound_grows s s' id r : grows s s' → member_sound s id r → member_sound s' id r.
Proof.
  intros Hg (? & ? & Href). split_and!; [done..|].
  destruct Href as (g & Hgr & Htg & t & Htr & ? & ? & ?).
  destruct (keeps_groups _ _ Hg _ _ Hgr) as (g' & Hg' & Hcg).
  destruct (keeps_targets _ _ Hg _ _ Htr) as (t' & Ht' & Hct).
  unfold group_core, target_core in *. simplify_eq. exists g'. split_and!; [done|congruence|].
  exists t'. split_and!; congruence.
Qed.

Lemma alias_sound_grows s s' id r : grows s s' → alias_sound s id r → alias_sound s' id r.
Proof.
  intros Hg (? & ? & Hp & Hr). split_and!; [done|by eapply organization_in_grows| |].
  - intros p E. generalize (Hp p E).
    apply refers_keeps with (core := project_core), keeps_projects; [|done].
    unfold project_core. intros a b Hab [? Ho]. simplify_eq. split; [congruence|].
    intros o Eo. rewrite <-(Ho o Eo). congruence.
  - intros p E. generalize (Hr p E).
    apply refers_keeps with (core := policy_core), keeps_policies; [cores|done].
Qed.

Lemma policy_sound_grows s s' id r : grows s s' → policy_sound s id r → policy_sound s' id r.
Proof.
  intros Hg (? & Ha & Hgr). split_and!; [done| |].
  - revert Ha. apply refers_keeps with (core := alias_core), keeps_aliases; [cores|done].
  - revert Hgr. apply refers_keeps with (core := group_core), keeps_groups; [cores|done].
Qed.

Lemma owned_keeps {R C} (core : R → C) (tenant : R → string) (m m' : gmap string R) id t :
  (∀ r r', core r' = core r → tenant r' = tenant r) → keeps_core core m m' →
  is_some_and (m !! id) (λ r, tenant r ==? t) = true →
  is_some_and (m' !! id) (λ r, tenant r ==? t) = true.
Proof.
  intros Hc Hm. destruct (m !! id) as [r|] eqn:E; [|done]. cbn. intros Ht%bool_decide_eq_true.
  destruct (Hm id r E) as (r' & -> & Hr'). cbn. apply bool_decide_eq_true. by rewrite (Hc _ _ Hr').
Qed.

Lemma granted_resource_grows kind id tenant s s' :
  grows s s' → granted_resource_exists kind id tenant s = Some true →
  granted_resource_exists kind id tenant s' = Some true.
Proof.
  intros Hg. unfold granted_resource_exists.
  repeat (match goal with |- context [if bool_decide (kind = ?k) then _ else _] =>
            destruct (bool_decide (kind = k)) end; [intros [= H]; f_equal; revert H|]);
    [..|intros [=]].
  - apply owned_keeps with (core := alias_core), keeps_aliases; [cores|done].
  - apply owned_keeps with (core := policy_core), keeps_policies; [cores|done].
  - apply owned_keeps with (core := group_core), keeps_groups; [cores|done].
  - apply owned_keeps with (core := target_core), keeps_targets; [cores|done].
  - apply owned_keeps with (core := endpoint_core), keeps_endpoints; [cores|done].
  - apply owned_keeps with (core := PricingSkuRecord.tenant_id), keeps_prices; [congruence|done].
Qed.

Lemma grant_sound_grows s s' id r : grows s s' → grant_sound s id r → grant_sound s' id r.
Proof.
  intros Hg (? & ? & ? & Hs). split_and!; [done|by eapply granted_resource_grows|done|].
  destruct Hs as [[? Ho]|[? Hp]]; [left|right]; (split; [done|]).
  - by eapply organization_in_grows.
  - revert Hp. apply refers_keeps with (core := project_core), keeps_projects; [cores|done].
Qed.
End soundness.

(** ** Operations as data *)

Inductive DraftOperation : Type :=
| CreateProviderEndpoint (uuid : string) (request : CreateProviderEndpointRequest.t) (now : DateTime)
| UpdateProviderEndpoint (id : string) (expected : Z) (status : ResourceStatus.t) (now : DateTime)
| CreateUpstreamCredential (uuid : string) (request : CreateUpstreamCredentialRequest.t)
    (now : DateTime)
| UpdateUpstreamCredential (id : string) (expected : Z) (status : UpstreamCredentialStatus.t)
    (now : DateTime)
| CreateModelTarget (uuid : string) (request : CreateModelTargetRequest.t) (now : DateTime)
| UpdateModelTarget (id : string) (expected : Z) (status : ResourceStatus.t) (now : DateTime)
| CreateRoutingGroup (uuid : string) (request : CreateRoutingGroupRequest.t) (now : DateTime)
| UpdateRoutingGroup (id : string) (expected : Z) (status : ResourceStatus.t) (now : DateTime)
| CreateRoutingGroupTarget (uuid : string) (request : CreateRoutingGroupTargetRequest.t)
    (now : DateTime)
| UpdateRoutingGroupTarget (id : string) (expected : Z) (status : ResourceStatus.t) (now : DateTime)
| CreateModelAlias (uuid : string) (request : CreateModelAliasRequest.t) (now : DateTime)
| UpdateModelAlias (id : string) (request : UpdateModelAliasRequest.t) (now : DateTime)
| CreateRoutePolicy (uuid : string) (request : CreateRoutePolicyRequest.t) (now : DateTime)
| UpdateRoutePolicy (id : string) (expected : Z) (status : ResourceStatus.t) (now : DateTime)
| CreateProviderGrant (uuid : string) (request : CreateProviderGrantRequest.t) (now : DateTime)
| UpdateProviderGrant (id : string) (expected : Z) (status : ResourceStatus.t) (now : DateTime).

Section operations.
Context {V : Type}.
Abbreviation Store := (DraftCatalog.t V).
Implicit Types (s : Store).

(** The store after the operation, whatever its outcome. *)
Definition perform (op : DraftOperation) s : Store :=
  match op with
  | CreateProviderEndpoint u r now => (create_provider_endpoint u r now s).2
  | UpdateProviderEndpoint i v st now => (update_provider_endpoint_status i v st now s).2
  | CreateUpstreamCredential u r now => (create_upstream_credential u r now s).2
  | UpdateUpstreamCredential i v st now => (update_upstream_credential_status i v st now s).2
  | CreateModelTarget u r now => (create_model_target u r now s).2
  | UpdateModelTarget i v st now => (update_model_target_status i v st now s).2
  | CreateRoutingGroup u r now => (create_routing_group u r now s).2
  | UpdateRoutingGroup i v st now => (update_routing_group_status i v st now s).2
  | CreateRoutingGroupTarget u r now => (create_routing_group_target u r now s).2
  | UpdateRoutingGroupTarget i v st now => (update_routing_group_target_status i v st now s).2
  | CreateModelAlias u r now => (create_model_alias u r now s).2
  | UpdateModelAlias i r now => (update_model_alias i r now s).2
  | CreateRoutePolicy u r now => (create_route_policy u r now s).2
  | UpdateRoutePolicy i v st now => (update_route_policy_status i v st now s).2
  | CreateProviderGrant u r now => (create_provider_grant u r now s).2
  | UpdateProviderGrant i v st now => (update_provider_grant_status i v st now s).2
  end.

(** The UUID drawn for a new resource is not in use. *)
Definition draws_fresh_id (op : DraftOperation) s : Prop :=
  match op with
  | CreateProviderEndpoint u _ _ => provider_endpoints s !! new_prefixed_id "pep" u = None
  | CreateUpstreamCredential u _ _ => upstream_credentials s !! new_prefixed_id "upc" u = None
  | CreateModelTarget u _ _ => model_targets s !! new_prefixed_id "mt" u = None
  | CreateRoutingGroup u _ _ => routing_groups s !! new_prefixed_id "rg" u = None
  | CreateRoutingGroupTarget u _ _ => routing_group_targets s !! new_prefixed_id "rgt" u = None
  | CreateModelAlias u _ _ => model_aliases s !! new_prefixed_id "ma" u = None
  | CreateRoutePolicy u _ _ => route_policies s !! new_prefixed_id "rp" u = None
  | CreateProviderGrant u _ _ => provider_grants s !! new_prefixed_id "pg" u = None
  | _ => True
  end.

(** The directory, the secret references and the prices are administered
    elsewhere: they may change in any way that keeps each record's owner. *)
Record elsewhere s s' : Prop := {
  elsewhere_grows : grows s s';
  same_endpoints : provider_endpoints s' = provider_endpoints s;
  same_credentials : upstream_credentials s' = upstream_credentials s;
  same_targets : model_targets s' = model_targets s;
  same_groups : routing_groups s' = routing_groups s;
  same_members : routing_group_targets s' = routing_group_targets s;
  same_aliases : model_aliases s' = model_aliases s;
  same_policies : route_policies s' = route_policies s;
  same_grants : provider_grants s' = provider_grants s;
}.

(** Stores reached by operations that satisfy [allowed] when they are made. *)
Inductive draft_reached (allowed : DraftOperation → Store → Prop) (s0 : Store) : Store → Prop :=
| draft_start : draft_reached allowed s0 s0
| draft_operation s op :
    draft_reached allowed s0 s → allowed op s → draft_reached allowed s0 (perform op s)
| draft_elsewhere s s' :
    draft_reached allowed s0 s → elsewhere s s' → draft_reached allowed s0 s'.

(** ** One operation *)

(** What is to be shown of a step: the cores are kept, and the records of the
    new tables are sound in the old store. *)
Record advances s s' : Prop := {
  advances_grows : grows s s';
  advances_endpoints : map_Forall (endpoint_sound s) (provider_endpoints s');
  advances_credentials : map_Forall (credential_sound s) (upstream_credentials s');
  advances_targets : map_Forall (target_sound s) (model_targets s');
  advances_groups : map_Forall (group_sound s) (routing_groups s');
  advances_members : map_Forall (member_sound s) (routing_group_targets s');
  advances_aliases : map_Forall (alias_sound s) (model_aliases s');
  advances_policies : map_Forall (policy_sound s) (route_policies s');
  advances_grants : map_Forall (grant_sound s) (provider_grants s');
}.

Lemma advances_sound s s' : advances s s' → references_sound s'.
Proof.
  intros [Hg ????????].
  split; (eapply map_Forall_impl; [eassumption|]); intros id r; simpl;
    eauto using endpoint_sound_grows, credential_sound_grows, target_sound_grows,
      group_sound_grows, member_sound_grows, alias_sound_grows, policy_sound_grows,
      grant_sound_grows.
Qed.

Lemma grows_refl s : grows s s.
Proof. split; apply keeps_core_refl. Qed.

Lemma advances_refl s : references_sound s → advances s s.
Proof. intros []. split; eauto using grows_refl. Qed.

Lemma elsewhere_advances s s' : references_sound s → elsewhere s s' → advances s s'.
Proof.
  intros [] [Hg ? ? ? ? ? ? ? ?].
  split; [done|..]; match goal with H : _ = _ |- map_Forall _ (_ s') => by rewrite H end.
Qed.

(** An update either fails or changes one record in place. *)
Lemma update_advances {R C} (get : Store → gmap string R) (set : Store → gmap string R → Store)
    (P : string → R → Prop) (core : R → C) noun version change id expected s :
  (references_sound s → map_Forall P (get s)) →
  (∀ m, keeps_core core (get s) m → map_Forall P m → references_sound s → advances s (set s m)) →
  (∀ r, get s !! id = Some r → core (change r) = core r ∧ (P id r → P id (change r))) →
  references_sound s →
  advances s (on_table get set (update_versioned noun version change id expected) s).2.
Proof.
  intros Hin Hset Hch Hs. unfold on_table, update_versioned.
  destruct (get s !! id) as [r|] eqn:E; simpl; [|by apply advances_refl].
  destruct (version r !=? expected); simpl; [by apply advances_refl|].
  destruct (Hch r eq_refl) as [Hc Hp].
  apply Hset; [by eapply keeps_core_change| |done].
  apply map_Forall_insert_2; [|by apply Hin]. apply Hp. by apply (Hin Hs).
Qed.

(** A creation inserts a record that passed its check under a fresh id. *)
Lemma create_advances {R C} (get : Store → gmap string R) (set : Store → gmap string R → Store)
    (P : string → R → Prop) (core : R → C) (id : R → string) record s :
  (references_sound s → map_Forall P (get s)) →
  (∀ m, keeps_core core (get s) m → map_Forall P m → references_sound s → advances s (set s m)) →
  get s !! id record = None → P (id record) record → references_sound s →
  advances s (insert_new get set id record s).2.
Proof.
  intros Hin Hset Hnew HP Hs. apply Hset; [by apply keeps_core_fresh| |done].
  apply map_Forall_insert_2; [done|by apply Hin].
Qed.

Lemma refuse_if_ok test error (u : unit) : refuse_if test error = Ok u ↔ test = false.
Proof. destruct test, u; simpl; split; congruence. Qed.

Lemma or_not_found_ok {E A} (o : option A) (e : E) a : ok_or o e = Ok a ↔ o = Some a.
Proof. destruct o; simpl; split; congruence. Qed.
End operations.

(** Take a successful check apart. *)
Ltac passed H :=
  repeat first
    [ rewrite refuse_if_ok in H
    | rewrite or_not_found_ok in H
    | rewrite negb_false_iff, bool_decide_eq_true in H
    | lazymatch type of H with mbind _ _ = Ok _ =>
        apply bind_ok in H; let a := fresh "x" in let H1 := fresh "Hc" in
        destruct H as (a & H1 & H); passed H1 end ].

Section checks.
Context {V : Type}.
Abbreviation Store := (DraftCatalog.t V).
Implicit Types (s : Store).

Lemma organization_scope_ok tenant o s u :
  validate_optional_organization_scope tenant o s = Ok u → organization_in tenant o s.
Proof.
  unfold validate_optional_organization_scope. destruct o as [o|]; [|done].
  intros H. passed H. by exists x.
Qed.

Lemma project_scope_ok tenant o p s u :
  validate_optional_project_scope tenant o p s = Ok u →
  organization_in tenant o s
  ∧ ∀ i, p = Some i → refers (projects s) i (λ x, ProjectRecord.tenant_id x = tenant
      ∧ ∀ j, o = Some j → ProjectRecord.organization_id x = j).
Proof.
  unfold validate_optional_project_scope. intros H. passed H.
  split; [by eapply organization_scope_ok|]. intros i ->. passed H. exists x0.
  split_and!; [done..|]. intros j ->. by passed H.
Qed.

(** Replacing one table is a step when that table keeps its cores and stays
    sound. *)
#[local] Ltac one_table :=
  intros m Hk Hm []; split; simpl; try done; split; simpl; try apply keeps_core_refl; done.

#[local] Ltac same_record := intros; split; [reflexivity|auto].

#[local] Ltac creates H :=
  match goal with |- advances _ (match ?c with _ => _ end).2 => destruct c as [[]|] eqn:H end;
  [|by apply advances_refl].

Lemma endpoint_operations s : references_sound s →
  (∀ u r now, draws_fresh_id (CreateProviderEndpoint u r now) s →
     advances s (create_provider_endpoint u r now s).2)
  ∧ (∀ i v st now, advances s (update_provider_endpoint_status i v st now s).2).
Proof.
  intros Hs. split.
  - intros u r now Hf. unfold create_provider_endpoint. creates H.
    apply (create_advances _ _ (endpoint_sound s) endpoint_core);
      [apply endpoints_ok|one_table|done| |done].
    split; [done|by eapply organization_scope_ok].
  - intros. apply (update_advances _ _ (endpoint_sound s) endpoint_core);
      [apply endpoints_ok|one_table|same_record|done].
Qed.

Lemma credential_operations s : references_sound s →
  (∀ u r now, draws_fresh_id (CreateUpstreamCredential u r now) s →
     advances s (create_upstream_credential u r now s).2)
  ∧ (∀ i v st now, advances s (update_upstream_credential_status i v st now s).2).
Proof.
  intros Hs. split.
  - intros u r now Hf. unfold create_upstream_credential. creates H.
    unfold validate_upstream_credential_endpoint in H. passed H.
    unfold ensure_secret_ref_usable in H. passed H.
    apply (create_advances _ _ (credential_sound s) credential_core);
      [apply credentials_ok|one_table|done| |done].
    split_and!; [done|by eapply organization_scope_ok|by exists x0|by exists x4].
  - intros. apply (update_advances _ _ (credential_sound s) credential_core);
      [apply credentials_ok|one_table|same_record|done].
Qed.

Lemma target_operations s : references_sound s →
  (∀ u r now, draws_fresh_id (CreateModelTarget u r now) s →
     advances s (create_model_target u r now s).2)
  ∧ (∀ i v st now, advances s (update_model_target_status i v st now s).2).
Proof.
  intros Hs. split.
  - intros u r now Hf. unfold create_model_target. creates H.
    unfold validate_model_target_refs in H. passed H.
    apply (create_advances _ _ (target_sound s) target_core);
      [apply targets_ok|one_table|done| |done].
    split_and!; simpl; [done|by eapply organization_scope_ok|by exists x0|..].
    + intros c Hr. match goal with H : validate_model_target_credential _ _ = _ |- _ =>
        unfold validate_model_target_credential in H; rewrite Hr in H; passed H end.
      eexists. eauto.
    + intros c Hr. unfold validate_model_target_pricing in H. rewrite Hr in H. passed H.
      eexists. eauto.
  - intros. apply (update_advances _ _ (target_sound s) target_core);
      [apply targets_ok|one_table|same_record|done].
Qed.

Lemma group_operations s : references_sound s →
  (∀ u r now, draws_fresh_id (CreateRoutingGroup u r now) s →
     advances s (create_routing_group u r now s).2)
  ∧ (∀ i v st now, advances s (update_routing_group_status i v st now s).2).
Proof.
  intros Hs. split.
  - intros u r now Hf. unfold create_routing_group. creates H.
    unfold validate_routing_group_request in H. passed H.
    apply (create_advances _ _ (group_sound s) group_core);
      [apply groups_ok|one_table|done| |done].
    split; [done|by eapply organization_scope_ok].
  - intros. apply (update_advances _ _ (group_sound s) group_core);
      [apply groups_ok|one_table|same_record|done].
Qed.

Lemma member_operations s : references_sound s →
  (∀ u r now, draws_fresh_id (CreateRoutingGroupTarget u r now) s →
     advances s (create_routing_group_target u r now s).2)
  ∧ (∀ i v st now, advances s (update_routing_group_target_status i v st now s).2).
Proof.
  intros Hs. split.
  - intros u r now Hf. unfold create_routing_group_target. creates H.
    unfold validate_routing_group_target_refs in H. passed H.
    apply (create_advances _ _ (member_sound s) (λ _, tt));
      [apply members_ok|one_table|done| |done].
    split_and!; simpl; [done|by apply Z.eqb_neq|].
    eexists. split_and!; [done|done|]. eexists. eauto.
  - intros. apply (update_advances _ _ (member_sound s) (λ _, tt));
      [apply members_ok|one_table|same_record|done].
Qed.

Lemma alias_operations s : references_sound s →
  (∀ u r now, draws_fresh_id (CreateModelAlias u r now) s →
     advances s (create_model_alias u r now s).2)
  ∧ (∀ i r now, advances s (update_model_alias i r now s).2).
Proof.
  intros Hs. split.
  - intros u r now Hf. unfold create_model_alias. creates H.
    unfold validate_model_alias_request in H. passed H.
    apply (create_advances _ _ (alias_sound s) alias_core);
      [apply aliases_ok|one_table|done| |done].
    match goal with H : validate_optional_project_scope _ _ _ _ = _ |- _ =>
      apply project_scope_ok in H as [? ?] end.
    split_and!; simpl; [done..|]. intros p Hp. rewrite Hp in *. discriminate.
  - intros i r now. unfold update_model_alias.
    destruct (_ && _); [by apply advances_refl|].
    destruct (UpdateModelAliasRequest.route_policy_id r) as [policy|] eqn:Hr; [creates H|];
      (apply (update_advances _ _ (alias_sound s) alias_core); [apply aliases_ok|one_table| |done]);
      intros a Ha; (split; [done|]); intros (? & ? & Hp & Hb); unfold changed_alias;
      rewrite Hr; [|by split_and!].
    unfold validate_model_alias_route_policy_binding in H. passed H. simplify_eq.
    split_and!; simpl; [done..|]. intros ? [= ->]. eexists. eauto.
Qed.

Lemma policy_operations s : references_sound s →
  (∀ u r now, draws_fresh_id (CreateRoutePolicy u r now) s →
     advances s (create_route_policy u r now s).2)
  ∧ (∀ i v st now, advances s (update_route_policy_status i v st now s).2).
Proof.
  intros Hs. split.
  - intros u r now Hf. unfold create_route_policy.
    destruct (validate_route_policy_request r s) as [[[alias group] o]|] eqn:H;
      [|by apply advances_refl].
    unfold validate_route_policy_request in H. passed H. simplify_eq.
    apply (create_advances _ _ (policy_sound s) policy_core);
      [apply policies_ok|one_table|done| |done].
    match goal with H : model_aliases s !! _ = Some _ |- _ =>
      pose proof (proj1 (aliases_ok _ Hs _ _ H)) end.
    match goal with H : routing_groups s !! _ = Some _ |- _ =>
      pose proof (proj1 (groups_ok _ Hs _ _ H)) end.
    split_and!; simpl; [done|exists alias|exists group]; split_and!; congruence.
  - intros. apply (update_advances _ _ (policy_sound s) policy_core);
      [apply policies_ok|one_table|same_record|done].
Qed.

Lemma grant_operations s : references_sound s →
  (∀ u r now, draws_fresh_id (CreateProviderGrant u r now) s →
     advances s (create_provider_grant u r now s).2)
  ∧ (∀ i v st now, advances s (update_provider_grant_status i v st now s).2).
Proof.
  intros Hs. split.
  - intros u r now Hf. unfold create_provider_grant.
    destruct (validate_provider_grant_request r s) as [[o p]|] eqn:H; [|by apply advances_refl].
    unfold validate_provider_grant_request in H. passed H.
    apply (create_advances _ _ (grant_sound s) (λ _, tt));
      [apply grants_ok|one_table|done| |done].
    split_and!; simpl; [done| | |].
    + unfold validate_provider_grant_resource in *.
      by destruct (granted_resource_exists _ _ _ _) as [[]|].
    + by repeat match goal with u : unit |- _ => destruct u end.
    + unfold validate_provider_grant_scope in Hc.
      case_bool_decide; [left|case_bool_decide; [right|done]]; passed Hc; by split; [|eexists].
  - intros. apply (update_advances _ _ (grant_sound s) (λ _, tt));
      [apply grants_ok|one_table|same_record|done].
Qed.

Lemma operation_advances s op :
  references_sound s → draws_fresh_id op s → advances s (perform op s).
Proof.
  intros Hs Hf. destruct op; simpl in *;
    first [ by apply endpoint_operations | by apply credential_operations
          | by apply target_operations | by apply group_operations
          | by apply member_operations | by apply alias_operations
          | by apply policy_operations | by apply grant_operations ].
Qed.

(** C13. In every draft catalog reached by admin operations (with any outcome,
    interleaved with changes of the directory, the secrets and the prices that
    keep owners) every reference leads to a resource of the same tenant that
    fits: credentials to endpoints and secrets, targets to endpoints that speak
    their protocol and to credentials of that endpoint, group members to groups
    and targets of one protocol, aliases to policies written for them, policies
    to aliases and groups of one protocol, grants to existing resources. *)
Theorem draft_references_resolve s0 s :
  references_sound s0 → draft_reached draws_fresh_id s0 s → references_sound s.
Proof.
  intros Hs0. induction 1 as [|s op _ IH Hf|s s' _ IH He]; [done|..]; eapply advances_sound.
  - by apply operation_advances.
  - by apply elsewhere_advances.
Qed.
End checks.

(** ** Names *)

(** Two live records of the table never agree on the key. *)
Definition unique_live {R K} (key : R → K) (status : R → ResourceStatus.t) (m : gmap string R)
    : Prop :=
  ∀ i j r r', m !! i = Some r → m !! j = Some r' →
    status r ≠ ResourceStatus.Deleted → status r' ≠ ResourceStatus.Deleted →
    key r = key r' → i = j.

Section unique.
Context {R K : Type} (key : R → K) (status : R → ResourceStatus.t).
Implicit Types (m : gmap string R).

Lemma unique_live_insert m id r :
  unique_live key status m → m !! id = None →
  (∀ r', r' ∈ values m → key r' = key r → status r' = ResourceStatus.Deleted) →
  unique_live key status (<[id := r]> m).
Proof.
  intros Hu Hnew Hfree i j a b Ha Hb Hla Hlb Hk.
  rewrite lookup_insert_Some in Ha. rewrite lookup_insert_Some in Hb.
  destruct Ha as [[<- <-]|[Hi Ha]], Hb as [[<- <-]|[Hj Hb]]; [done|..|by eapply Hu].
  - destruct Hlb. apply Hfree; [apply elem_of_values; eauto|done].
  - destruct Hla. apply Hfree; [apply elem_of_values; eauto|done].
Qed.

Lemma unique_live_change m id r r' :
  unique_live key status m → m !! id = Some r → key r' = key r →
  (status r = ResourceStatus.Deleted → status r' = ResourceStatus.Deleted) →
  unique_live key status (<[id := r']> m).
Proof.
  intros Hu Hr Hkey Hst i j a b Ha Hb Hla Hlb Hk.
  rewrite lookup_insert_Some in Ha. rewrite lookup_insert_Some in Hb.
  destruct Ha as [[<- <-]|[Hi Ha]], Hb as [[<- <-]|[Hj Hb]]; [done|..|by eapply Hu].
  - apply (Hu id j r b); [done|done|tauto|done|congruence].
  - apply (Hu i id a r); [done|done|done|tauto|congruence].
Qed.
End unique.

Section names.
Context {V : Type}.
Abbreviation Store := (DraftCatalog.t V).
Implicit Types (s : Store).

Definition group_name (r : RoutingGroupRecord.t) :=
  (RoutingGroupRecord.tenant_id r, RoutingGroupRecord.organization_id r, RoutingGroupRecord.name r).
Definition member_name (r : RoutingGroupTargetRecord.t) :=
  (RoutingGroupTargetRecord.tenant_id r, RoutingGroupTargetRecord.routing_group_id r,
   RoutingGroupTargetRecord.model_target_id r).
Definition alias_name (r : ModelAliasRecord.t) :=
  (ModelAliasRecord.tenant_id r, ModelAliasRecord.organization_id r, ModelAliasRecord.project_id r,
   ModelAliasRecord.alias_name r).
Definition policy_name (r : RoutePolicyRecord.t) :=
  (RoutePolicyRecord.tenant_id r, RoutePolicyRecord.organization_id r, RoutePolicyRecord.name r).
Definition grant_name (r : ProviderGrantRecord.t) :=
  (ProviderGrantRecord.tenant_id r, ProviderGrantRecord.scope_kind r,
   ProviderGrantRecord.scope_id r, ProviderGrantRecord.resource_kind r,
   ProviderGrantRecord.resource_id r, ProviderGrantRecord.effect r).

Record names_unique s : Prop := {
  group_names : unique_live group_name RoutingGroupRecord.status (routing_groups s);
  member_names :
    unique_live member_name RoutingGroupTargetRecord.status (routing_group_targets s);
  alias_names : unique_live alias_name ModelAliasRecord.status (model_aliases s);
  policy_names : unique_live policy_name RoutePolicyRecord.status (route_policies s);
  grant_names : unique_live grant_name ProviderGrantRecord.status (provider_grants s);
}.

(** The operation gives a deleted resource a live status. *)
Definition revives (op : DraftOperation) s : Prop :=
  let revived {R} (m : gmap string R) (id : string) (get : R → ResourceStatus.t) st :=
    st ≠ ResourceStatus.Deleted ∧ get <$> m !! id = Some ResourceStatus.Deleted in
  match op with
  | UpdateRoutingGroup i _ st _ => revived (routing_groups s) i RoutingGroupRecord.status st
  | UpdateRoutingGroupTarget i _ st _ =>
      revived (routing_group_targets s) i RoutingGroupTargetRecord.status st
  | UpdateModelAlias i r _ =>
      match UpdateModelAliasRequest.status r with
      | Some st => revived (model_aliases s) i ModelAliasRecord.status st
      | None => False
      end
  | UpdateRoutePolicy i _ st _ => revived (route_policies s) i RoutePolicyRecord.status st
  | UpdateProviderGrant i _ st _ => revived (provider_grants s) i ProviderGrantRecord.status st
  | _ => False
  end.

Lemma update_keeps_names {R K} (get : Store → gmap string R)
    (set : Store → gmap string R → Store) (key : R → K) (status : R → ResourceStatus.t)
    noun version change id expected s :
  names_unique s →
  (∀ m, unique_live key status m → names_unique (set s m)) →
  unique_live key status (get s) →
  (∀ r, get s !! id = Some r → key (change r) = key r
     ∧ (status r = ResourceStatus.Deleted → status (change r) = ResourceStatus.Deleted)) →
  names_unique (on_table get set (update_versioned noun version change id expected) s).2.
Proof.
  intros Hs Hset Hu Hch. unfold on_table, update_versioned.
  destruct (get s !! id) as [r|] eqn:E; simpl; [|done].
  destruct (version r !=? expected); simpl; [done|].
  destruct (Hch r eq_refl). apply Hset. by eapply unique_live_change.
Qed.

Lemma create_keeps_names {R K} (get : Store → gmap string R)
    (set : Store → gmap string R → Store) (key : R → K) (status : R → ResourceStatus.t)
    (id : R → string) record (conflict : R → bool) s :
  (∀ m, unique_live key status m → names_unique (set s m)) →
  unique_live key status (get s) → get s !! id record = None →
  existsb conflict (values (get s)) = false →
  (∀ r, key r = key record → status r ≠ ResourceStatus.Deleted → conflict r = true) →
  names_unique (insert_new get set id record s).2.
Proof.
  intros Hset Hu Hnew Hfree Hc. apply Hset, unique_live_insert; [done|done|].
  intros r Hr Hk. destruct (decide (status r = ResourceStatus.Deleted)) as [|Hl]; [done|].
  rewrite existsb_false_iff in Hfree. specialize (Hfree r Hr). rewrite (Hc r Hk Hl) in Hfree. done.
Qed.

(** An operation on a table without names, or one that fails. *)
Lemma names_only s s' :
  routing_groups s' = routing_groups s → routing_group_targets s' = routing_group_targets s →
  model_aliases s' = model_aliases s → route_policies s' = route_policies s →
  provider_grants s' = provider_grants s → names_unique s → names_unique s'.
Proof. intros E1 E2 E3 E4 E5 []. by split; rewrite ?E1, ?E2, ?E3, ?E4, ?E5. Qed.

#[local] Ltac named_table :=
  intros m Hm; match goal with H : names_unique _ |- _ => destruct H end; split; simpl; done.
#[local] Ltac clash Hl :=
  intros ? Hk Hl; simpl in Hk; unfold group_name, member_name, alias_name, policy_name, grant_name
    in Hk; simplify_eq/=; rewrite !andb_true_iff, !bool_decide_eq_true, negb_true_iff,
    bool_decide_eq_false; done.

Lemma created_names op s :
  names_unique s → draws_fresh_id op s →
  match op with
  | CreateRoutingGroup _ _ _ | CreateRoutingGroupTarget _ _ _ | CreateModelAlias _ _ _
  | CreateRoutePolicy _ _ _ | CreateProviderGrant _ _ _ => names_unique (perform op s)
  | _ => True
  end.
Proof.
  intros Hs Hf. destruct op; simpl in *; try done.
  - unfold create_routing_group. destruct (validate_routing_group_request _ _) eqn:H; [|done].
    unfold validate_routing_group_request in H. passed H.
    eapply create_keeps_names; [named_table|apply Hs|done|exact H|clash Hl].
  - unfold create_routing_group_target.
    destruct (validate_routing_group_target_refs _ _) eqn:H; [|done].
    unfold validate_routing_group_target_refs in H. passed H.
    eapply create_keeps_names; [named_table|apply Hs|done|exact H|clash Hl].
  - unfold create_model_alias. destruct (validate_model_alias_request _ _) eqn:H; [|done].
    unfold validate_model_alias_request in H. passed H.
    eapply create_keeps_names; [named_table|apply Hs|done|exact H|clash Hl].
  - unfold create_route_policy.
    destruct (validate_route_policy_request _ _) as [[[? ?] ?]|] eqn:H; [|done].
    unfold validate_route_policy_request in H. passed H. simplify_eq.
    eapply create_keeps_names; [named_table|apply Hs|done|eassumption|clash Hl].
  - unfold create_provider_grant.
    destruct (validate_provider_grant_request _ _) as [[? ?]|] eqn:H; [|done].
    unfold validate_provider_grant_request in H. passed H.
    eapply create_keeps_names; [named_table|apply Hs|done|eassumption|clash Hl].
Qed.

Lemma update_without_names {R A} (get : Store → gmap string R) (set : Store → gmap string R → Store)
    (op : gmap string R → result GatewayError.t (A * gmap string R)) s :
  (∀ m, names_unique (set s m)) → names_unique s → names_unique (on_table get set op s).2.
Proof. intros Hset Hs. unfold on_table. destruct (op (get s)) as [[? ?]|]; simpl; auto. Qed.

Lemma not_revived {R} (m : gmap string R) id (get : R → ResourceStatus.t) st r :
  m !! id = Some r →
  ¬ (st ≠ ResourceStatus.Deleted ∧ get <$> m !! id = Some ResourceStatus.Deleted) →
  get r = ResourceStatus.Deleted → st = ResourceStatus.Deleted.
Proof.
  intros Hr Hn Hd. destruct (decide (st = ResourceStatus.Deleted)) as [|Hne]; [done|].
  destruct Hn. split; [done|]. rewrite Hr. simpl. by rewrite Hd.
Qed.

Lemma operation_keeps_names op s :
  names_unique s → draws_fresh_id op s → ¬ revives op s → names_unique (perform op s).
Proof.
  intros Hs Hf Hr. pose proof (created_names op s Hs Hf) as Hc.
  destruct op; simpl in *; try exact Hc; clear Hc.
  all: try (apply update_without_names; [intros m; by apply (names_only s)|done]).
  all: try (unfold create_provider_endpoint, create_upstream_credential, create_model_target;
            match goal with |- names_unique (match ?c with _ => _ end).2 =>
              destruct c; [by apply (names_only s)|done] end).
  all: try (eapply update_keeps_names; [done|named_table|apply Hs|];
            intros r Hlook; split; [done|]; by eapply not_revived).
  unfold update_model_alias. destruct (_ && _); [done|].
  match goal with |- names_unique (match ?c with Ok _ => _ | Err _ => _ end).2 =>
    destruct c; [|done] end.
  eapply update_keeps_names; [done|named_table|apply Hs|].
  intros r Hlook. split; [done|]. simpl.
  destruct (UpdateModelAliasRequest.status request); simpl; [by eapply not_revived|done].
Qed.

(** As long as no deleted resource is brought back, two resources that are
    not deleted never share a name in one scope: routing groups and route
    policies by tenant, organization and name, aliases also by project, members
    of a group by their target, grants by scope, resource and effect. *)
Theorem live_names_unique s0 s :
  names_unique s0 →
  draft_reached (λ op s, draws_fresh_id op s ∧ ¬ revives op s) s0 s →
  names_unique s.
Proof.
  intros Hs0. induction 1 as [|s op _ IH [Hf Hr]|s s' _ IH He]; [done|..].
  - by apply operation_keeps_names.
  - destruct He. by apply (names_only s).
Qed.
End names.

(** A list of operations, each allowed when its turn comes. *)
Fixpoint allowed_along {V} (allowed : DraftOperation → DraftCatalog.t V → Prop)
    (ops : list DraftOperation) (s : DraftCatalog.t V) : Prop :=
  match ops with
  | [] => True
  | op :: ops => allowed op s ∧ allowed_along allowed ops (perform op s)
  end.

Lemma replay_reached {V} allowed ops (s0 s : DraftCatalog.t V) :
  draft_reached allowed s0 s → allowed_along allowed ops s →
  draft_reached allowed s0 (fold_left (λ s op, perform op s) ops s).
Proof.
  revert s. induction ops as [|op ops IH]; [done|]. intros s Hs [Hop Hops]. simpl.
  apply IH; [by apply draft_operation|done].
Qed.

(** ** A sample catalog *)

Module SampleDraft.
Definition nothing : DraftCatalog.t unit := DraftCatalog.mk ∅ ∅ ∅ ∅ ∅ ∅ ∅ ∅ ∅ ∅ ∅ ∅.

Definition endpoint_request : CreateProviderEndpointRequest.t :=
  CreateProviderEndpointRequest.mk "acme" None "openai" "OpenAI" [ProtocolFamily.OpenAiResponses]
    "https://api.example.com" "root".
Definition target_request : CreateModelTargetRequest.t :=
  CreateModelTargetRequest.mk "acme" None "pep_1" None ProtocolFamily.OpenAiResponses "gpt" None
    true "root".
Definition group_request : CreateRoutingGroupRequest.t :=
  CreateRoutingGroupRequest.mk "acme" None " main " ProtocolFamily.OpenAiResponses None "root".
Definition alias_request : CreateModelAliasRequest.t :=
  CreateModelAliasRequest.mk "acme" None None "fast" ProtocolFamily.OpenAiResponses None "root".
Definition policy_request : CreateRoutePolicyRequest.t :=
  CreateRoutePolicyRequest.mk "acme" "default" "ma_1" "rg_1" "root".

Definition history : list DraftOperation :=
  [CreateProviderEndpoint "1" endpoint_request 0%Z;
   CreateModelTarget "1" target_request 1%Z;
   CreateRoutingGroup "1" group_request 2%Z;
   CreateRoutingGroupTarget "1"
     (CreateRoutingGroupTargetRequest.mk "acme" "rg_1" "mt_1" 1 0 "root") 3%Z;
   CreateModelAlias "1" alias_request 4%Z;
   CreateRoutePolicy "1" policy_request 5%Z;
   UpdateModelAlias "ma_1" (UpdateModelAliasRequest.mk 1 None (Some "rp_1")) 6%Z].

Definition replay (ops : list DraftOperation) (s : DraftCatalog.t unit) : DraftCatalog.t unit :=
  fold_left (λ s op, perform op s) ops s.

Definition built : DraftCatalog.t unit := replay history nothing.

Example built_binds_alias :
  ModelAliasRecord.route_policy_id <$> model_aliases built !! "ma_1" = Some (Some "rp_1")
  ∧ RoutingGroupTargetRecord.model_target_id <$> routing_group_targets built !! "rgt_1"
    = Some "mt_1".
Proof. by vm_compute. Qed.

Lemma draft_references_resolve_witness :
  references_sound nothing
  ∧ draft_reached draws_fresh_id nothing built
  ∧ references_sound built.
Proof.
  assert (references_sound nothing) as H0 by by split; apply map_Forall_empty.
  assert (draft_reached draws_fresh_id nothing built) as Hr.
  { apply replay_reached; [constructor|]. repeat split; vm_compute; reflexivity. }
  split; [exact H0|]. split; [exact Hr|].
  exact (draft_references_resolve nothing built H0 Hr).
Defined.

Lemma live_names_unique_witness :
  names_unique nothing
  ∧ draft_reached (λ op s, draws_fresh_id op s ∧ ¬ revives op s) nothing built
  ∧ names_unique built.
Proof.
  assert (names_unique nothing) as H0 by by split; intros i j r r' Hr; simpl in Hr; rewrite lookup_empty in Hr.
  assert (draft_reached (λ op s, draws_fresh_id op s ∧ ¬ revives op s) nothing built) as Hr.
  { apply replay_reached; [constructor|]. repeat split; first [vm_compute; reflexivity|intros []]. }
  split; [exact H0|]. split; [exact Hr|].
  exact (live_names_unique nothing built H0 Hr).
Defined.

(** The proviso is needed: a deleted group can be given a live status again
    after its name has been taken, and then the name is shared. *)
Example undelete_shares_name :
  let s := replay [CreateRoutingGroup "1" group_request 0%Z;
                   UpdateRoutingGroup "rg_1" 1 ResourceStatus.Deleted 1%Z;
                   CreateRoutingGroup "2" group_request 2%Z;
                   UpdateRoutingGroup "rg_1" 2 ResourceStatus.Active 3%Z] nothing in
  ¬ names_unique s.
Proof.
  intros s [Hg _ _ _ _].
  assert ("rg_1" = "rg_2") as [=].
  eapply Hg; [vm_compute; reflexivity|vm_compute; reflexivity|done..].
Qed.
End SampleDraft.
