(* ===== verification/AdminState.v ===== *)
(** * The state behind the admin routes

    The part of [InMemoryGatewayStore] that the admin handlers of [service.rs]
    read and write, and what every handler is made of: authorization of the
    route with the engine of the active snapshot, the configuration freeze, the
    table of idempotent responses, audit events, validation diagnostics and
    emergency operations. *)

From Stdlib Require Import Ascii.
From S2P Require Import Prelude Order Text Domain Action HotState Json Pricing RuntimePolicy Reconciler Delivery CedarPolicy Publication GwRoute AdminRecords DraftCatalog.

(** [Display] of a timestamp. *)
Class ChronoDisplay : Type := datetime_display : DateTime → string.

(** ** Records *)

Module IdempotencyRecord.
Record t {V : Type} : Type := mk {
  tenant_id : string;
  scope_key : string;
  request_hash : string;
  response_record : V;
  expires_at : DateTime;
  created_at : DateTime;
}.
Arguments t V : clear implicits.
Arguments mk {V}.
End IdempotencyRecord.

Module ValidationDiagnosticRecord.
Record t {V : Type} : Type := mk {
  validation_id : string;
  tenant_id : string;
  organization_id : option string;
  project_id : option string;
  resource_kind : string;
  scope_kind : string;
  scope_id : string;
  valid : bool;
  errors : V;
  warnings : V;
  affected_resources : V;
  publication_plan : option V;
  route_simulation : option V;
  budget_simulation : option V;
  created_by : string;
  created_at : DateTime;
}.
Arguments t V : clear implicits.
Arguments mk {V}.
End ValidationDiagnosticRecord.

Module ValidationResponseInput.
Record t {V : Type} : Type := mk {
  schema : string;
  resource_kind : string;
  scope_kind : string;
  scope_id : string;
  errors : list V;
  warnings : list V;
  affected_resources : list V;
  publication_plan : option V;
  route_simulation : option V;
  budget_simulation : option V;
  occurred_at : DateTime;
}.
Arguments t V : clear implicits.
Arguments mk {V}.
End ValidationResponseInput.

Module AdminResourceAuditInput.
Record t {V : Type} : Type := mk {
  event_type : string;
  scope_kind : string;
  scope_id : string;
  resource_kind : string;
  resource_id : string;
  before_version : option Z;
  after_version : option Z;
  redacted_diff : V;
  occurred_at : DateTime;
}.
Arguments t V : clear implicits.
Arguments mk {V}.
End AdminResourceAuditInput.

Module ConfigSnapshotAuditInput.
Record t {V : Type} : Type := mk {
  event_type : string;
  resource_id : string;
  before_version : option Z;
  after_version : option Z;
  redacted_diff : V;
  occurred_at : DateTime;
}.
Arguments t V : clear implicits.
Arguments mk {V}.
End ConfigSnapshotAuditInput.

Module CreateEmergencyOperationRequest.
Record t {V : Type} : Type := mk {
  tenant_id : string;
  organization_id : option string;
  project_id : option string;
  operation_kind : string;
  target_resource_kind : string;
  target_resource_id : string;
  requested_by : string;
  reason : string;
  operator_alert_document : V;
  expires_at : DateTime;
}.
Arguments t V : clear implicits.
Arguments mk {V}.
End CreateEmergencyOperationRequest.

Module EmergencyOperationInput.
Record t : Set := mk {
  operation_kind : string;
  target_resource_kind : string;
  target_resource_id : string;
  organization_id : option string;
  project_id : option string;
  reason : string;
  expires_at : DateTime;
}.
End EmergencyOperationInput.

Module AdminPublishConfigSnapshotRequest.
Record t {V : Type} : Type := mk {
  idempotency_key : string;
  resource_versions : list ResourceVersion.t;
  payload : V;
}.
Arguments t V : clear implicits.
Arguments mk {V}.
End AdminPublishConfigSnapshotRequest.

Module AdminRollbackConfigSnapshotRequest.
Record t : Set := mk { idempotency_key : string; source_snapshot_id : string; reason : string }.
End AdminRollbackConfigSnapshotRequest.

Module AdminValidateConfigSnapshotRequest.
Record t {V : Type} : Type := mk { payload : V }.
Arguments t V : clear implicits.
Arguments mk {V}.
End AdminValidateConfigSnapshotRequest.

(** The UUIDs a handler draws, by what they are drawn for. *)
Module Drawn.
Record t : Set := mk {
  decision : string;
  resource : string;
  audit : string;
  validation : string;
  invalidation : string;
  operation : string;
}.
End Drawn.

(** ** The state *)

Module GatewayStore.
Record t {V : Type} : Type := mk {
  draft : DraftCatalog.t V;
  config : ConfigStore.t V;
  budget_policies : gmap string BudgetPolicyRecord.t;
  action_grants : list ActionGrant.t;
  authz_decisions : list AuthorizationDecisionRecord.t;
  audit_events : list (AuditEventRecord.t V);
  validation_diagnostics : list (ValidationDiagnosticRecord.t V);
  idempotency_records : gmap (string * string) (IdempotencyRecord.t V);
  emergency_operations : gmap string (EmergencyOperationRecord.t V);
  hot_state : HotStore.t;
}.
Arguments t V : clear implicits.
Arguments mk {V}.

Section setters.
Context {V : Type} (s : t V).
Definition set_draft x : t V :=
  mk x (config s) (budget_policies s) (action_grants s) (authz_decisions s) (audit_events s)
    (validation_diagnostics s) (idempotency_records s) (emergency_operations s) (hot_state s).
Definition set_config x : t V :=
  mk (draft s) x (budget_policies s) (action_grants s) (authz_decisions s) (audit_events s)
    (validation_diagnostics s) (idempotency_records s) (emergency_operations s) (hot_state s).
Definition set_authz_decisions x : t V :=
  mk (draft s) (config s) (budget_policies s) (action_grants s) x (audit_events s)
    (validation_diagnostics s) (idempotency_records s) (emergency_operations s) (hot_state s).
Definition set_audit_events x : t V :=
  mk (draft s) (config s) (budget_policies s) (action_grants s) (authz_decisions s) x
    (validation_diagnostics s) (idempotency_records s) (emergency_operations s) (hot_state s).
Definition set_validation_diagnostics x : t V :=
  mk (draft s) (config s) (budget_policies s) (action_grants s) (authz_decisions s)
    (audit_events s) x (idempotency_records s) (emergency_operations s) (hot_state s).
Definition set_idempotency_records x : t V :=
  mk (draft s) (config s) (budget_policies s) (action_grants s) (authz_decisions s)
    (audit_events s) (validation_diagnostics s) x (emergency_operations s) (hot_state s).
Definition set_emergency_operations x : t V :=
  mk (draft s) (config s) (budget_policies s) (action_grants s) (authz_decisions s)
    (audit_events s) (validation_diagnostics s) (idempotency_records s) x (hot_state s).
Definition set_hot_state x : t V :=
  mk (draft s) (config s) (budget_policies s) (action_grants s) (authz_decisions s)
    (audit_events s) (validation_diagnostics s) (idempotency_records s) (emergency_operations s) x.
End setters.
End GatewayStore.

(** ** Engines

    [Box<dyn AuthorizationEngine>]: one of the two engines. *)
Inductive AnyEngine : Type :=
| Foundation (e : FoundationAuthorizationEngine.t)
| Cedar (e : CedarAuthorizationEngine.t).

#[global] Instance any_engine : AuthorizationEngine AnyEngine := λ e request,
  match e with Foundation e => authorize e request | Cedar e => authorize e request end.

#[global] Instance any_engine_gated : PreflightGated AnyEngine.
Proof. intros [e|e] request d; exact (preflight_first e request d). Qed.

(** ** Small checks *)

Definition IDEMPOTENCY_TTL_HOURS : Z := 24.

(** [chrono::Duration::hours]. *)
Definition duration_hours (h : Z) : Z := duration_seconds (h * 3600).

Definition validate_idempotency_key (idempotency_key : string) : result GatewayError.t unit :=
  if (trim idempotency_key !=? "") && (String.length idempotency_key <=? 160)%nat
     && all_chars (λ c, is_ascii_alphanumeric c || bool_decide (c ∈ ["_"; "-"; "."]%char))
          idempotency_key
  then Ok tt
  else bad_request "invalid_idempotency_key".

Definition validate_required_reason (reason : string) : result GatewayError.t unit :=
  if trim reason ==? "" then bad_request "reason_required" else Ok tt.

Definition idempotency_scope_key (operation idempotency_key : string) : string :=
  operation +:+ ":" +:+ idempotency_key.

Definition emergency_idempotency_scope_key (operation_kind target_resource_id idempotency_key : string)
    : string :=
  idempotency_scope_key ("emergency:" +:+ operation_kind +:+ ":" +:+ target_resource_id)
    idempotency_key.

Definition validate_emergency_operation_request (request : AdminEmergencyOperationRequest.t)
    (now : DateTime) : result GatewayError.t unit :=
  validate_idempotency_key (AdminEmergencyOperationRequest.idempotency_key request);;
  validate_required_reason (AdminEmergencyOperationRequest.reason request);;
  refuse_if (AdminEmergencyOperationRequest.expires_at request <=? now)%Z
    (GatewayError.BadRequest "emergency_expiry_must_be_future").

Definition required_emergency_expected_version (request : AdminEmergencyOperationRequest.t)
    : result GatewayError.t Z :=
  match AdminEmergencyOperationRequest.expected_version request with
  | Some version =>
      if (0 <? version)%Z then Ok version else bad_request "expected_version_required"
  | None => bad_request "expected_version_required"
  end.

Definition ensure_emergency_expected_version (expected_version actual_version : Z)
    : result GatewayError.t unit :=
  refuse_if (expected_version !=? actual_version) (GatewayError.BadRequest "stale_resource_version").

Definition actor_principal_or_actor_id (actor : AuthenticatedActor.t) : string :=
  default (AuthenticatedActor.actor_id actor) (AuthenticatedActor.principal_id actor).

Definition emergency_operation_audit_event_type (operation_kind : string) : string :=
  if operation_kind ==? "drain_routing_group" then "gateway.emergency.drain"
  else if operation_kind ==? "freeze_config" then "gateway.emergency.freeze"
  else if operation_kind ==? "rollback_config_snapshot" then "gateway.emergency.rollback"
  else if operation_kind ==? "force_budget_block" then "gateway.emergency.force_budget_block"
  else "gateway.emergency.disable".

Definition reject_validation_errors {V} (errors : list V) : result GatewayError.t unit :=
  match errors with [] => Ok tt | _ => bad_request "validation_failed" end.

(** ** Documents *)

Section documents.
Context {V : Type} `{JsonLibrary V} `{JsonText V} `{Sha256Library}.

Definition json_option {A} (f : A → V) (o : option A) : V :=
  match o with Some a => f a | None => json_null end.
Definition json_option_str : option string → V := json_option json_str.

(** The serialization of a request is given as the object of its fields. *)
Definition stable_request_hash (request : V) : string :=
  "sha256:" +:+ lower_hex (sha256 (json_to_vec request)).

Definition emergency_request_json (request : AdminEmergencyOperationRequest.t) : V :=
  json_obj [
    ("idempotency_key", json_str (AdminEmergencyOperationRequest.idempotency_key request));
    ("expected_version",
      json_option json_int (AdminEmergencyOperationRequest.expected_version request));
    ("reason", json_str (AdminEmergencyOperationRequest.reason request));
    ("expires_at", json_datetime (AdminEmergencyOperationRequest.expires_at request))].

Definition emergency_request_hash (target_resource_id : string)
    (request : AdminEmergencyOperationRequest.t) : string :=
  stable_request_hash (json_obj [
    ("target_resource_id", json_str target_resource_id);
    ("request", emergency_request_json request)]).

(** Stored responses are objects, so [as_object_mut] succeeds. *)
Definition response_with_replay_flag (response : V) (replayed : bool) : V :=
  json_set "idempotency_replayed" (json_bool replayed) response.

Definition operator_alert_document (operation_kind target_resource_kind : string) : V :=
  json_obj [
    ("alert_required", json_bool true);
    ("alert_kind", json_str "emergency_operation");
    ("operation_kind", json_str operation_kind);
    ("target_resource_kind", json_str target_resource_kind);
    ("delivery_status", json_str "not_connected");
    ("redacted", json_bool true)].

Definition validation_error (field reason : string) : V :=
  json_obj [("field", json_str field); ("reason", json_str reason)].

Definition validation_input (schema resource_kind scope_kind scope_id : string) (errors : list V)
    (occurred_at : DateTime) : ValidationResponseInput.t V :=
  ValidationResponseInput.mk schema resource_kind scope_kind scope_id errors [] [] None None None
    occurred_at.

(** ** Operations *)

Abbreviation Store := (GatewayStore.t V).
Abbreviation Eff := (M Store GatewayError.t).
Implicit Types (s : Store) (actor : AuthenticatedActor.t) (now : DateTime).

(** A call of the draft catalog or of the configuration store. *)
Definition on_draft {A} (op : M (DraftCatalog.t V) GatewayError.t A) : Eff A := λ s,
  let '(r, d) := op (GatewayStore.draft s) in (r, GatewayStore.set_draft s d).
Definition on_config {A} (op : M (ConfigStore.t V) GatewayError.t A) : Eff A := λ s,
  let '(r, c) := op (GatewayStore.config s) in (r, GatewayStore.set_config s c).

Definition idempotency_response (tenant_id scope_key request_hash : string) now
    : Eff (option V) := λ s,
  let records := GatewayStore.idempotency_records s in
  match records !! (tenant_id, scope_key) with
  | None => (Ok None, s)
  | Some record =>
      if (IdempotencyRecord.expires_at record <=? now)%Z
      then (Ok None, GatewayStore.set_idempotency_records s (delete (tenant_id, scope_key) records))
      else if IdempotencyRecord.request_hash record !=? request_hash
      then (bad_request "idempotency_key_conflict", s)
      else (Ok (Some (IdempotencyRecord.response_record record)), s)
  end.

Definition record_idempotency_response (record : IdempotencyRecord.t V) : Eff unit := λ s,
  (Ok tt, GatewayStore.set_idempotency_records s
     (<[(IdempotencyRecord.tenant_id record, IdempotencyRecord.scope_key record) := record]>
        (GatewayStore.idempotency_records s))).

Definition record_idempotent_admin_response (tenant_id scope_key request_hash : string)
    (response : V) now : Eff unit :=
  record_idempotency_response (IdempotencyRecord.mk tenant_id scope_key request_hash response
    (now + duration_hours IDEMPOTENCY_TTL_HOURS) now).

(** [AuditEventRepository::record_audit_event]. *)
Definition record_audit_event (record : AuditEventRecord.t V) : Eff unit := λ s,
  (Ok tt, GatewayStore.set_audit_events s (GatewayStore.audit_events s ++ [record])).

Definition record_config_snapshot_audit (uuid : string) actor
    (input : ConfigSnapshotAuditInput.t V) : Eff string :=
  let audit_event_id := new_prefixed_id "aud" uuid in
  record_audit_event (AuditEventRecord.mk audit_event_id (ConfigSnapshotAuditInput.event_type input)
    (AuthenticatedActor.tenant_id actor) (AuthenticatedActor.organization_id actor)
    (AuthenticatedActor.project_id actor) "tenant" (AuthenticatedActor.tenant_id actor)
    "ConfigSnapshot" (ConfigSnapshotAuditInput.resource_id input)
    (ConfigSnapshotAuditInput.before_version input) (ConfigSnapshotAuditInput.after_version input)
    (AuthenticatedActor.actor_id actor) (AuthenticatedActor.actor_kind actor)
    (AuthenticatedActor.principal_id actor) (AuthenticatedActor.request_id actor)
    (AuthenticatedActor.trace_id actor) (ConfigSnapshotAuditInput.redacted_diff input)
    (ConfigSnapshotAuditInput.occurred_at input));;
  mret audit_event_id.

Definition record_admin_resource_audit (uuid : string) actor
    (input : AdminResourceAuditInput.t V) : Eff string :=
  let audit_event_id := new_prefixed_id "aud" uuid in
  record_audit_event (AuditEventRecord.mk audit_event_id (AdminResourceAuditInput.event_type input)
    (AuthenticatedActor.tenant_id actor) (AuthenticatedActor.organization_id actor)
    (AuthenticatedActor.project_id actor) (AdminResourceAuditInput.scope_kind input)
    (AdminResourceAuditInput.scope_id input) (AdminResourceAuditInput.resource_kind input)
    (AdminResourceAuditInput.resource_id input) (AdminResourceAuditInput.before_version input)
    (AdminResourceAuditInput.after_version input) (AuthenticatedActor.actor_id actor)
    (AuthenticatedActor.actor_kind actor) (AuthenticatedActor.principal_id actor)
    (AuthenticatedActor.request_id actor) (AuthenticatedActor.trace_id actor)
    (AdminResourceAuditInput.redacted_diff input) (AdminResourceAuditInput.occurred_at input));;
  mret audit_event_id.

(** [record_validation_diagnostic] of the store. *)
Definition record_validation_diagnostic (record : ValidationDiagnosticRecord.t V) : Eff unit := λ s,
  (Ok tt, GatewayStore.set_validation_diagnostics s
     (GatewayStore.validation_diagnostics s ++ [record])).

Definition validation_response (uuid : string) actor (input : ValidationResponseInput.t V) : Eff V :=
  let valid := match ValidationResponseInput.errors input with [] => true | _ => false end in
  let validation_id := new_prefixed_id "vdiag" uuid in
  let errors := json_arr (ValidationResponseInput.errors input) in
  let warnings := json_arr (ValidationResponseInput.warnings input) in
  let affected_resources := json_arr (ValidationResponseInput.affected_resources input) in
  record_validation_diagnostic (ValidationDiagnosticRecord.mk validation_id
    (AuthenticatedActor.tenant_id actor) (AuthenticatedActor.organization_id actor)
    (AuthenticatedActor.project_id actor) (ValidationResponseInput.resource_kind input)
    (ValidationResponseInput.scope_kind input) (ValidationResponseInput.scope_id input) valid
    errors warnings affected_resources (ValidationResponseInput.publication_plan input)
    (ValidationResponseInput.route_simulation input)
    (ValidationResponseInput.budget_simulation input) (actor_principal_or_actor_id actor)
    (ValidationResponseInput.occurred_at input));;
  mret (json_obj [
    ("schema", json_str (ValidationResponseInput.schema input));
    ("validation_id", json_str validation_id);
    ("valid", json_bool valid);
    ("errors", errors);
    ("warnings", warnings);
    ("affected_resources", affected_resources);
    ("publication_plan", json_option id (ValidationResponseInput.publication_plan input));
    ("route_simulation", json_option id (ValidationResponseInput.route_simulation input));
    ("budget_simulation", json_option id (ValidationResponseInput.budget_simulation input))]).

(** ** Emergency operations *)

Definition create_emergency_operation (uuid : string)
    (request : CreateEmergencyOperationRequest.t V) now : Eff (EmergencyOperationRecord.t V) := λ s,
  if trim (CreateEmergencyOperationRequest.reason request) ==? ""
  then (bad_request "reason_required", s)
  else if (CreateEmergencyOperationRequest.expires_at request <=? now)%Z
  then (bad_request "emergency_expiry_must_be_future", s)
  else
    let record := EmergencyOperationRecord.mk (new_prefixed_id "emop" uuid)
      (CreateEmergencyOperationRequest.tenant_id request)
      (CreateEmergencyOperationRequest.organization_id request)
      (CreateEmergencyOperationRequest.project_id request)
      (CreateEmergencyOperationRequest.operation_kind request)
      (CreateEmergencyOperationRequest.target_resource_kind request)
      (CreateEmergencyOperationRequest.target_resource_id request)
      (CreateEmergencyOperationRequest.requested_by request)
      (trim (CreateEmergencyOperationRequest.reason request)) "applied"
      (CreateEmergencyOperationRequest.operator_alert_document request) 1 1 now now
      (CreateEmergencyOperationRequest.expires_at request) in
    (Ok record, GatewayStore.set_emergency_operations s
       (<[EmergencyOperationRecord.emergency_operation_id record := record]>
          (GatewayStore.emergency_operations s))).

(** [emergency_operations_for_tenant] is in [RuntimePolicy.v]. *)
Definition active_emergency_operation (tenant_id operation_kind : string) now s
    : option (EmergencyOperationRecord.t V) :=
  List.find (λ operation,
      (EmergencyOperationRecord.operation_kind operation ==? operation_kind)
      && (EmergencyOperationRecord.status operation ==? "applied")
      && (now <? EmergencyOperationRecord.expires_at operation)%Z)
    (emergency_operations_for_tenant (GatewayStore.emergency_operations s) tenant_id).

Definition create_emergency_operation_record (uuid : string) actor
    (input : EmergencyOperationInput.t) now : Eff (EmergencyOperationRecord.t V) :=
  create_emergency_operation uuid (CreateEmergencyOperationRequest.mk
    (AuthenticatedActor.tenant_id actor) (EmergencyOperationInput.organization_id input)
    (EmergencyOperationInput.project_id input) (EmergencyOperationInput.operation_kind input)
    (EmergencyOperationInput.target_resource_kind input)
    (EmergencyOperationInput.target_resource_id input) (actor_principal_or_actor_id actor)
    (EmergencyOperationInput.reason input)
    (operator_alert_document (EmergencyOperationInput.operation_kind input)
       (EmergencyOperationInput.target_resource_kind input))
    (EmergencyOperationInput.expires_at input)) now.

Definition record_emergency_operation_audit (uuid : string) actor
    (operation : EmergencyOperationRecord.t V) (before_version after_version : option Z)
    (target_diff : V) now : Eff string :=
  record_admin_resource_audit uuid actor (AdminResourceAuditInput.mk
    (emergency_operation_audit_event_type (EmergencyOperationRecord.operation_kind operation))
    "tenant" (AuthenticatedActor.tenant_id actor) "EmergencyOperation"
    (EmergencyOperationRecord.emergency_operation_id operation) before_version after_version
    (json_obj [
      ("operation_kind", json_str (EmergencyOperationRecord.operation_kind operation));
      ("target_resource_kind", json_str (EmergencyOperationRecord.target_resource_kind operation));
      ("target_resource_id", json_str (EmergencyOperationRecord.target_resource_id operation));
      ("reason", json_str (EmergencyOperationRecord.reason operation));
      ("expires_at", json_datetime (EmergencyOperationRecord.expires_at operation));
      ("operator_alert", EmergencyOperationRecord.operator_alert_document operation);
      ("target_diff", target_diff)]) now).

Definition set_endpoint_emergency_drain (endpoint : ProviderEndpointRecord.t) (reason : string)
    (expires_at : DateTime) now : Eff unit := λ s,
  match ConfigStore.config_publication (ProviderEndpointRecord.tenant_id endpoint)
          (GatewayStore.config s) with
  | None => (Ok tt, s)
  | Some publication =>
      (Ok tt, GatewayStore.set_hot_state s (HotStore.set_endpoint_drain
         (EndpointDrainRecord.mk (ProviderEndpointRecord.tenant_id endpoint)
            (ProviderEndpointRecord.provider_endpoint_id endpoint)
            (ConfigPublicationPointerRecord.version publication) (trim reason) now expires_at)
         (GatewayStore.hot_state s)))
  end.
End documents.

(** ** Authorization of an admin route *)

Section authorization.
Context {V : Type} `{JsonLibrary V} `{CedarParser} `{ChronoDisplay}.
Abbreviation Store := (GatewayStore.t V).
Abbreviation Eff := (M Store GatewayError.t).
Implicit Types (s : Store) (actor : AuthenticatedActor.t) (now : DateTime).

Definition latest_snapshot_for_actor_in_memory actor s
    : result GatewayError.t (option (PublishedConfigSnapshot.t V)) :=
  match ConfigStore.latest_published_snapshot_for_tenant (AuthenticatedActor.tenant_id actor)
          (GatewayStore.config s) with
  | None => Ok None
  | Some metadata =>
      match ConfigStore.config_snapshot (ConfigSnapshot.snapshot_id metadata)
              (GatewayStore.config s) with
      | Some snapshot => Ok (Some snapshot)
      | None => Err (GatewayError.Internal ("latest config snapshot "
                  +:+ ConfigSnapshot.snapshot_id metadata +:+ " is missing from store"))
      end
  end.

Definition authorization_engine_for_actor actor s
    : result GatewayError.t (AnyEngine * option string) :=
  let foundation := Ok (Foundation (FoundationAuthorizationEngine.mk (GatewayStore.action_grants s)),
                        None) in
  snapshot ← latest_snapshot_for_actor_in_memory actor s;
  match snapshot with
  | None => foundation
  | Some snapshot =>
      match get_str (ConfigSnapshotDocument.payload (PublishedConfigSnapshot.document snapshot))
              "cedar_policy_bundle" with
      | None => foundation
      | Some policy_bundle =>
          engine ← from_policy_source policy_bundle;
          Ok (Cedar engine, Some (PublishedConfigSnapshot.snapshot_id snapshot))
      end
  end.

Definition reject_frozen_config_mutation (route : RouteMetadata.t) (method : string) actor now s
    : result GatewayError.t unit :=
  if negb (admin_route_mutates method) || route_allowed_during_config_freeze route then Ok tt
  else
    match active_emergency_operation (AuthenticatedActor.tenant_id actor) "freeze_config" now s with
    | Some freeze =>
        bad_request ("config_frozen: emergency operation "
          +:+ EmergencyOperationRecord.emergency_operation_id freeze +:+ " expires at "
          +:+ datetime_display (EmergencyOperationRecord.expires_at freeze))
    | None => Ok tt
    end.

Definition authorize_admin_route (uuid : string) actor (method path_pattern resource_id : string) now
    : Eff unit := λ s,
  match
    route ← route_metadata method path_pattern;
    reject_frozen_config_mutation route method actor now s;;
    engine ← authorization_engine_for_actor actor s;
    Ok (route, engine)
  with
  | Err e => (Err e, s)
  | Ok (route, (engine, policy_snapshot_id)) =>
      let '(decision, decisions) := authorize_route_with_evidence route engine uuid actor resource_id
        policy_snapshot_id now (GatewayStore.authz_decisions s) in
      let s := GatewayStore.set_authz_decisions s decisions in
      if AuthorizationDecision.allowed decision then (Ok tt, s)
      else (Err (GatewayError.Authorization (AuthorizationDecision.reason decision)), s)
  end.
End authorization.
