(* ===== verification/AdminValidation.v ===== *)
(** * Dry-run validation of draft resources

    The [*_validation_errors] functions of [service.rs]: what the admin routes
    report about a request to create a resource, before the store is asked.  That
    the store accepts a request without errors is shown in [AdminOutcomes.v]. *)

From Stdlib Require Import Ascii.
From S2P Require Import Prelude Order Text Domain Action HotState Json Pricing RuntimePolicy Reconciler Delivery CedarPolicy Publication GwRoute AdminRecords DraftCatalog DraftFacts AdminState.
Import DraftCatalog.

Section validation.
Context {V : Type} `{JsonLibrary V}.
Abbreviation Store := (DraftCatalog.t V).
Implicit Types (d : Store) (actor : AuthenticatedActor.t).

(** [errors.push(...)] under a condition. *)
Definition push_if (test : bool) (field reason : string) : list V :=
  if test then [validation_error field reason] else [].

(** ** Looking up a resource of the actor's tenant *)

Definition for_actor {R} (noun : string) (table : gmap string R) (tenant : R → string) actor
    (id : string) : result GatewayError.t R :=
  ok_or (match table !! id with
         | Some r => if tenant r ==? AuthenticatedActor.tenant_id actor then Some r else None
         | None => None
         end) (GatewayError.NotFound (noun +:+ " " +:+ id)).

Definition organization_for_actor actor (id : string) d : result GatewayError.t OrganizationRecord.t :=
  for_actor "organization" (organizations d) OrganizationRecord.tenant_id actor id.
Definition project_for_actor actor (id : string) d : result GatewayError.t ProjectRecord.t :=
  for_actor "project" (projects d) ProjectRecord.tenant_id actor id.
Definition provider_endpoint_for_actor actor (id : string) d
    : result GatewayError.t ProviderEndpointRecord.t :=
  for_actor "provider endpoint" (provider_endpoints d) ProviderEndpointRecord.tenant_id actor id.
Definition upstream_credential_for_actor actor (id : string) d
    : result GatewayError.t UpstreamCredentialRecord.t :=
  for_actor "upstream credential" (upstream_credentials d) UpstreamCredentialRecord.tenant_id
    actor id.
Definition model_target_for_actor actor (id : string) d : result GatewayError.t ModelTargetRecord.t :=
  for_actor "model target" (model_targets d) ModelTargetRecord.tenant_id actor id.
Definition model_alias_for_actor actor (id : string) d : result GatewayError.t ModelAliasRecord.t :=
  for_actor "model alias" (model_aliases d) ModelAliasRecord.tenant_id actor id.
Definition route_policy_for_actor actor (id : string) d : result GatewayError.t RoutePolicyRecord.t :=
  for_actor "route policy" (route_policies d) RoutePolicyRecord.tenant_id actor id.
Definition provider_grant_for_actor actor (id : string) d
    : result GatewayError.t ProviderGrantRecord.t :=
  for_actor "provider grant" (provider_grants d) ProviderGrantRecord.tenant_id actor id.
Definition routing_group_for_actor actor (id : string) d
    : result GatewayError.t RoutingGroupRecord.t :=
  for_actor "routing group" (routing_groups d) RoutingGroupRecord.tenant_id actor id.
Definition routing_group_target_for_actor actor (routing_group_id id : string) d
    : result GatewayError.t RoutingGroupTargetRecord.t :=
  routing_group_for_actor actor routing_group_id d;;
  ok_or (match routing_group_target id d with
         | Some r =>
             if (RoutingGroupTargetRecord.tenant_id r ==? AuthenticatedActor.tenant_id actor)
                && (RoutingGroupTargetRecord.routing_group_id r ==? routing_group_id)
             then Some r else None
         | None => None
         end) (GatewayError.NotFound ("routing group target " +:+ id)).

(** ** Shared parts *)

Definition safe_http_base_url (value : string) : bool :=
  let value := trim value in
  (starts_with "https://" value || starts_with "http://" value)
  && negb (existsb (λ w, contains w value) whitespace)
  && negb (contains "?" value) && negb (contains "#" value).

Definition unknown_organization actor (organization_id : option string) d : list V :=
  match organization_id with
  | Some id => push_if (negb (is_ok (organization_for_actor actor id d))) "organization_id"
                 "unknown_organization"
  | None => []
  end.

Definition validate_secret_ref_scope_fields actor (field secret_ref_id : string)
    (organization_id project_id : option string) d : list V :=
  match secret_refs d !! secret_ref_id with
  | None => [validation_error field "unknown_secret_ref"]
  | Some secret_ref =>
      if SecretRefRecord.tenant_id secret_ref !=? AuthenticatedActor.tenant_id actor
      then [validation_error field "unknown_secret_ref"]
      else
        push_if (negb (secret_ref_resolves (SecretRefRecord.status secret_ref))) field
          "inactive_secret_ref"
        ++ push_if (is_some_and (SecretRefRecord.organization_id secret_ref)
                      (λ secret_org, organization_id !=? Some secret_org)) field
             "secret_ref_scope_mismatch"
        ++ push_if (is_some_and (SecretRefRecord.project_id secret_ref)
                      (λ secret_project, project_id !=? Some secret_project)) field
             "secret_ref_scope_mismatch"
  end.

(** ** Endpoints, credentials, targets *)

Definition provider_endpoint_validation_errors actor
    (request : AdminCreateProviderEndpointRequest.t) d : list V :=
  push_if (trim (AdminCreateProviderEndpointRequest.provider_kind request) ==? "")
    "provider_kind" "required"
  ++ push_if (trim (AdminCreateProviderEndpointRequest.display_name request) ==? "")
       "display_name" "required"
  ++ push_if (match AdminCreateProviderEndpointRequest.protocol_families request with
              | [] => true | _ => false end) "protocol_families" "required"
  ++ push_if (negb (bool_decide
       (NoDup (ProtocolFamily.as_str
                 <$> AdminCreateProviderEndpointRequest.protocol_families request))))
       "protocol_families" "duplicate_protocol_family"
  ++ push_if (negb (safe_http_base_url
       (AdminCreateProviderEndpointRequest.upstream_base_url request)))
       "upstream_base_url" "invalid_http_base_url"
  ++ unknown_organization actor (AdminCreateProviderEndpointRequest.organization_id request) d.

Definition upstream_credential_validation_errors actor
    (request : AdminCreateUpstreamCredentialRequest.t) d : list V :=
  let organization_id := AdminCreateUpstreamCredentialRequest.organization_id request in
  let secret_ref_id := AdminCreateUpstreamCredentialRequest.secret_ref_id request in
  push_if (trim (AdminCreateUpstreamCredentialRequest.credential_kind request) ==? "")
    "credential_kind" "required"
  ++ (if valid_secret_ref_id secret_ref_id
      then validate_secret_ref_scope_fields actor "secret_ref_id" secret_ref_id organization_id None d
      else [validation_error "secret_ref_id" "invalid_secret_ref"])
  ++ match provider_endpoint_for_actor actor
             (AdminCreateUpstreamCredentialRequest.provider_endpoint_id request) d with
     | Ok endpoint =>
         push_if (organizations_differ organization_id
                    (ProviderEndpointRecord.organization_id endpoint)) "provider_endpoint_id"
           "organization_mismatch"
     | Err _ => [validation_error "provider_endpoint_id" "unknown_provider_endpoint"]
     end
  ++ unknown_organization actor organization_id d.

Definition model_target_endpoint_errors actor (request : AdminCreateModelTargetRequest.t) d : list V :=
  match provider_endpoint_for_actor actor
          (AdminCreateModelTargetRequest.provider_endpoint_id request) d with
  | Ok endpoint =>
      push_if (negb (bool_decide (AdminCreateModelTargetRequest.protocol_family request
                                  ∈ ProviderEndpointRecord.protocol_families endpoint)))
        "protocol_family" "provider_endpoint_protocol_mismatch"
      ++ push_if (organizations_differ (AdminCreateModelTargetRequest.organization_id request)
                    (ProviderEndpointRecord.organization_id endpoint)) "provider_endpoint_id"
           "organization_mismatch"
  | Err _ => [validation_error "provider_endpoint_id" "unknown_provider_endpoint"]
  end.

Definition model_target_pricing_errors actor (request : AdminCreateModelTargetRequest.t) d : list V :=
  match AdminCreateModelTargetRequest.pricing_sku_id request with
  | None => []
  | Some pricing_sku_id =>
      match pricing_skus d !! pricing_sku_id with
      | Some pricing_sku =>
          if PricingSkuRecord.tenant_id pricing_sku ==? AuthenticatedActor.tenant_id actor then
            push_if (negb (ResourceStatus.is_active (PricingSkuRecord.status pricing_sku)))
              "pricing_sku_id" "inactive"
            ++ push_if (is_some_and (PricingSkuRecord.organization_id pricing_sku)
                 (λ organization_id,
                    Some organization_id !=? AdminCreateModelTargetRequest.organization_id request))
                 "pricing_sku_id" "organization_mismatch"
          else [validation_error "pricing_sku_id" "wrong_tenant"]
      | None => [validation_error "pricing_sku_id" "unknown_pricing_sku"]
      end
  end.

Definition model_target_validation_errors actor (request : AdminCreateModelTargetRequest.t) d
    : list V :=
  push_if (trim (AdminCreateModelTargetRequest.upstream_model_id request) ==? "")
    "upstream_model_id" "required"
  ++ model_target_endpoint_errors actor request d
  ++ match AdminCreateModelTargetRequest.upstream_credential_id request with
     | None => []
     | Some credential_id =>
         match upstream_credential_for_actor actor credential_id d with
         | Ok credential =>
             push_if (UpstreamCredentialRecord.provider_endpoint_id credential
                      !=? AdminCreateModelTargetRequest.provider_endpoint_id request)
               "upstream_credential_id" "provider_endpoint_mismatch"
         | Err _ => [validation_error "upstream_credential_id" "unknown_upstream_credential"]
         end
     end
  ++ model_target_pricing_errors actor request d
  ++ unknown_organization actor (AdminCreateModelTargetRequest.organization_id request) d.

(** ** Aliases and policies *)

Definition model_alias_validation_errors actor (request : AdminCreateModelAliasRequest.t) d : list V :=
  let organization_id := AdminCreateModelAliasRequest.organization_id request in
  push_if (trim (AdminCreateModelAliasRequest.alias_name request) ==? "") "alias_name" "required"
  ++ push_if (is_some (AdminCreateModelAliasRequest.route_policy_id request)) "route_policy_id"
       "bind_after_route_policy_create"
  ++ push_if (existsb (λ alias,
         (ModelAliasRecord.organization_id alias ==? organization_id)
         && (ModelAliasRecord.project_id alias ==? AdminCreateModelAliasRequest.project_id request)
         && (ModelAliasRecord.alias_name alias
             ==? trim (AdminCreateModelAliasRequest.alias_name request))
         && (ModelAliasRecord.status alias !=? ResourceStatus.Deleted))
         (model_aliases_for_tenant (AuthenticatedActor.tenant_id actor) d))
       "alias_name" "duplicate_name"
  ++ unknown_organization actor organization_id d
  ++ match AdminCreateModelAliasRequest.project_id request with
     | None => []
     | Some project_id =>
         match project_for_actor actor project_id d with
         | Ok project =>
             push_if (is_some organization_id
                      && (Some (ProjectRecord.organization_id project) !=? organization_id))
               "project_id" "organization_mismatch"
         | Err _ => [validation_error "project_id" "unknown_project"]
         end
     end.

Definition model_alias_update_validation_errors actor (model_alias_id : string)
    (request : AdminUpdateModelAliasRequest.t) d : list V :=
  push_if (negb (is_some (AdminUpdateModelAliasRequest.status request))
           && negb (is_some (AdminUpdateModelAliasRequest.route_policy_id request)))
    "update" "empty_update"
  ++ match AdminUpdateModelAliasRequest.route_policy_id request with
     | None => []
     | Some route_policy_id =>
         match model_alias model_alias_id d, route_policy route_policy_id d with
         | Some alias, Some policy =>
             if (ModelAliasRecord.tenant_id alias ==? AuthenticatedActor.tenant_id actor)
                && (RoutePolicyRecord.tenant_id policy ==? AuthenticatedActor.tenant_id actor)
             then
               push_if (RoutePolicyRecord.model_alias_id policy
                        !=? ModelAliasRecord.model_alias_id alias) "route_policy_id"
                 "model_alias_mismatch"
               ++ push_if (RoutePolicyRecord.protocol_family policy
                           !=? ModelAliasRecord.protocol_family alias) "route_policy_id"
                    "protocol_family_mismatch"
             else [validation_error "route_policy_id" "unknown_route_policy"]
         | _, _ => [validation_error "route_policy_id" "unknown_route_policy"]
         end
     end.

Definition route_policy_validation_errors actor (request : AdminCreateRoutePolicyRequest.t) d
    : list V :=
  let alias := model_alias_for_actor actor (AdminCreateRoutePolicyRequest.model_alias_id request) d in
  let group := routing_group_for_actor actor
                 (AdminCreateRoutePolicyRequest.routing_group_id request) d in
  push_if (trim (AdminCreateRoutePolicyRequest.name request) ==? "") "name" "required"
  ++ push_if (negb (is_ok alias)) "model_alias_id" "unknown_model_alias"
  ++ push_if (negb (is_ok group)) "routing_group_id" "unknown_routing_group"
  ++ match alias, group with
     | Ok alias, Ok group =>
         let organization_id := option_or (ModelAliasRecord.organization_id alias)
                                  (RoutingGroupRecord.organization_id group) in
         push_if (ModelAliasRecord.protocol_family alias !=? RoutingGroupRecord.protocol_family group)
           "routing_group_id" "protocol_family_mismatch"
         ++ push_if (organizations_differ (ModelAliasRecord.organization_id alias)
                       (RoutingGroupRecord.organization_id group)) "routing_group_id"
              "organization_mismatch"
         ++ push_if (existsb (λ policy,
                (RoutePolicyRecord.organization_id policy ==? organization_id)
                && (RoutePolicyRecord.name policy
                    ==? trim (AdminCreateRoutePolicyRequest.name request))
                && (RoutePolicyRecord.status policy !=? ResourceStatus.Deleted))
                (route_policies_for_tenant (AuthenticatedActor.tenant_id actor) d))
              "name" "duplicate_name"
     | _, _ => []
     end.

(** ** Grants and routing groups *)

Definition validate_provider_grant_scope_fields actor (request : AdminCreateProviderGrantRequest.t) d
    : list V :=
  let scope_id := AdminCreateProviderGrantRequest.scope_id request in
  if AdminCreateProviderGrantRequest.scope_kind request ==? "organization" then
    push_if (negb (is_ok (organization_for_actor actor scope_id d))) "scope_id"
      "unknown_organization"
  else if AdminCreateProviderGrantRequest.scope_kind request ==? "project" then
    push_if (negb (is_ok (project_for_actor actor scope_id d))) "scope_id" "unknown_project"
  else [validation_error "scope_kind" "invalid_scope_kind"].

Definition validate_provider_grant_resource_fields actor
    (request : AdminCreateProviderGrantRequest.t) d : list V :=
  match granted_resource_exists (AdminCreateProviderGrantRequest.resource_kind request)
          (AdminCreateProviderGrantRequest.resource_id request)
          (AuthenticatedActor.tenant_id actor) d with
  | None => [validation_error "resource_kind" "invalid_resource_kind"]
  | Some exists_ => push_if (negb exists_) "resource_id" "unknown_resource"
  end.

Definition validate_provider_grant_effect_fields (request : AdminCreateProviderGrantRequest.t)
    : list V :=
  let effect := AdminCreateProviderGrantRequest.effect request in
  let closure_mode := AdminCreateProviderGrantRequest.closure_mode request in
  push_if (negb (bool_decide (effect ∈ ["allow"; "deny"]))) "effect" "invalid_effect"
  ++ push_if (negb (bool_decide
       (closure_mode ∈ ["self_only"; "include_descendants"; "deny_descendants"])))
       "closure_mode" "invalid_closure_mode"
  ++ push_if ((effect ==? "allow") && (closure_mode ==? "deny_descendants"))
       "closure_mode" "allow_deny_descendants"
  ++ push_if ((effect ==? "deny") && (closure_mode ==? "include_descendants"))
       "closure_mode" "deny_include_descendants".

Definition provider_grant_validation_errors actor (request : AdminCreateProviderGrantRequest.t) d
    : list V :=
  validate_provider_grant_scope_fields actor request d
  ++ validate_provider_grant_resource_fields actor request d
  ++ validate_provider_grant_effect_fields request
  ++ push_if (existsb (λ grant,
         (ProviderGrantRecord.scope_kind grant
          ==? AdminCreateProviderGrantRequest.scope_kind request)
         && (ProviderGrantRecord.scope_id grant ==? AdminCreateProviderGrantRequest.scope_id request)
         && (ProviderGrantRecord.resource_kind grant
             ==? AdminCreateProviderGrantRequest.resource_kind request)
         && (ProviderGrantRecord.resource_id grant
             ==? AdminCreateProviderGrantRequest.resource_id request)
         && (ProviderGrantRecord.effect grant ==? AdminCreateProviderGrantRequest.effect request)
         && (ProviderGrantRecord.status grant !=? ResourceStatus.Deleted))
         (provider_grants_for_tenant (AuthenticatedActor.tenant_id actor) d))
       "resource_id" "duplicate_grant".

Definition routing_group_validation_errors actor (request : AdminCreateRoutingGroupRequest.t) d
    : list V :=
  push_if (trim (AdminCreateRoutingGroupRequest.name request) ==? "") "name" "required"
  ++ push_if (existsb (λ group,
         (RoutingGroupRecord.organization_id group
          ==? AdminCreateRoutingGroupRequest.organization_id request)
         && (RoutingGroupRecord.name group ==? trim (AdminCreateRoutingGroupRequest.name request))
         && (RoutingGroupRecord.status group !=? ResourceStatus.Deleted))
         (routing_groups_for_tenant (AuthenticatedActor.tenant_id actor) d))
       "name" "duplicate_name"
  ++ unknown_organization actor (AdminCreateRoutingGroupRequest.organization_id request) d.

Definition routing_group_target_validation_errors actor (routing_group_id : string)
    (request : AdminCreateRoutingGroupTargetRequest.t) d : list V :=
  let group := routing_group_for_actor actor routing_group_id d in
  let target := model_target_for_actor actor
                  (AdminCreateRoutingGroupTargetRequest.model_target_id request) d in
  push_if (AdminCreateRoutingGroupTargetRequest.weight request =? 0)%Z "weight" "required"
  ++ push_if (negb (is_ok group)) "routing_group_id" "unknown_routing_group"
  ++ push_if (negb (is_ok target)) "model_target_id" "unknown_model_target"
  ++ match group, target with
     | Ok group, Ok target =>
         push_if (RoutingGroupRecord.protocol_family group
                  !=? ModelTargetRecord.protocol_family target) "model_target_id"
           "protocol_family_mismatch"
         ++ push_if (organizations_differ (RoutingGroupRecord.organization_id group)
                       (ModelTargetRecord.organization_id target)) "model_target_id"
              "organization_mismatch"
     | _, _ => []
     end
  ++ push_if (existsb (λ member,
         (RoutingGroupTargetRecord.model_target_id member
          ==? AdminCreateRoutingGroupTargetRequest.model_target_id request)
         && (RoutingGroupTargetRecord.status member !=? ResourceStatus.Deleted))
         (routing_group_targets_for_group (AuthenticatedActor.tenant_id actor) routing_group_id d))
       "model_target_id" "duplicate_membership".
End validation.
