(* ===== verification/AdminHandlers.v ===== *)
(** * The admin handlers of the draft catalog

    The handlers of [service.rs] for provider endpoints, upstream credentials,
    model targets, routing groups and their targets, model aliases, route
    policies and provider grants: list, validate, create, get and update.  The
    eight resources are handled alike; [AdminResource.t] describes one of them,
    [list_resources], [validate_resource], [create_resource], [get_resource] and
    [update_resource] are the common bodies, and each handler is one of these
    with its own paths, checks, documents and call of the store. *)

From Stdlib Require Import Ascii.
From S2P Require Import Prelude Order Text Domain Action HotState Json Pricing RuntimePolicy Reconciler Delivery CedarPolicy Publication GwRoute AdminRecords DraftCatalog DraftFacts AdminState AdminValidation.

(** What the handlers of one kind of resource differ in: its name in schemas
    and event types ([kind]), its name in audit events, its routes, the fields
    every record has, the document of a record and what is audited of a new
    one. *)
Module AdminResource.
Record t {V R : Type} : Type := mk {
  kind : string;
  resource_kind : string;
  list_path : string;
  validate_path : string;
  get_path : string;
  record_id : R → string;
  version : R → Z;
  status : R → string;
  create_diff : R → V;
  body : R → V;
}.
Arguments t V R : clear implicits.
Arguments mk {V R}.
End AdminResource.

Section handlers.
Context {V : Type} `{JsonLibrary V} `{JsonText V} `{Sha256Library} `{CedarParser} `{ChronoDisplay}.
Abbreviation Store := (GatewayStore.t V).
Abbreviation Eff := (M Store GatewayError.t).
Implicit Types (s : Store) (actor : AuthenticatedActor.t) (now : DateTime) (drawn : Drawn.t).

(** Read the draft catalog, or fail with what reading it says. *)
Definition reads_draft {A} (f : DraftCatalog.t V → result GatewayError.t A) : Eff A := λ s,
  (f (GatewayStore.draft s), s).

(** The block around every operation with an idempotency key: replay a stored
    response, or run the operation and store its response. *)
Definition idempotently actor (scope_key request_hash : string) now (operation : Eff V) : Eff V :=
  replay ← idempotency_response (AuthenticatedActor.tenant_id actor) scope_key request_hash now;
  match replay with
  | Some response => mret (response_with_replay_flag response true)
  | None =>
      response ← operation;
      record_idempotent_admin_response (AuthenticatedActor.tenant_id actor) scope_key request_hash
        response now;;
      mret response
  end.

Definition resource_envelope {R} (r : AdminResource.t V R) (record : R) : V :=
  json_obj [("schema", json_str "gateway.admin.resource.v1"); ("resource", AdminResource.body r
    record)].

Definition status_diff (before after : string) : V :=
  json_obj [("before", json_str before); ("after", json_str after)].

Section common.
Context {R : Type} (r : AdminResource.t V R) (drawn : Drawn.t) (actor : AuthenticatedActor.t).

Definition list_resources (resource_id item_path : string)
    (check : Eff unit) (items : DraftCatalog.t V → list R) (item_resource : R → string) now : Eff V
      :=
  authorize_admin_route (Drawn.decision drawn) actor "GET" (AdminResource.list_path r) resource_id
    now;;
  check;;
  route ← lift (route_metadata "GET" item_path);
  engine ← (λ s, (authorization_engine_for_actor actor s, s));
  items ← gets (λ s, items (GatewayStore.draft s));
  let authorized := authorize_item_list (fst engine) actor (RouteMetadata.action route)
    ((λ item, AuthorizableItem.mk (RouteMetadata.resource route (item_resource item)) item)
       <$> items) in
  mret (json_obj [
    ("schema", json_str ("gateway.admin." +:+ AdminResource.kind r +:+ "_list.v1"));
    ("resources", json_arr (resource_envelope r <$> AuthorizedItemList.items authorized));
    ("filtered_count", json_int (Z.of_nat (AuthorizedItemList.filtered_count authorized)));
    ("next_cursor", json_null)]).

Definition validate_resource (resource_id scope_kind scope_id : string)
    (errors : DraftCatalog.t V → list V) now : Eff V :=
  authorize_admin_route (Drawn.decision drawn) actor "POST" (AdminResource.validate_path r)
    resource_id now;;
  errors ← gets (λ s, errors (GatewayStore.draft s));
  validation_response (Drawn.validation drawn) actor
    (validation_input ("gateway.admin." +:+ AdminResource.kind r +:+ "_validation.v1")
       (AdminResource.resource_kind r) scope_kind scope_id errors now).

Definition mutation_response (record : R) (audit_event_id : string) (rest : list (string * V)) : V
    :=
  json_obj ([
    ("schema", json_str ("gateway.admin." +:+ AdminResource.kind r +:+ "_mutation.v1"));
    ("resource", AdminResource.body r record);
    ("audit_event_id", json_str audit_event_id)] ++ rest).

Definition audit_resource (event : string) (before : option Z) (record : R) (diff : V) now
    : Eff string :=
  record_admin_resource_audit (Drawn.audit drawn) actor (AdminResourceAuditInput.mk
    ("gateway." +:+ AdminResource.kind r +:+ "." +:+ event) "tenant"
    (AuthenticatedActor.tenant_id actor) (AdminResource.resource_kind r)
    (AdminResource.record_id r record) before (Some (AdminResource.version r record)) diff now).

(** [errors_first]: endpoints, credentials and targets are validated before the
    stored response is looked up, the others after. *)
Definition create_resource (resource_id operation idempotency_key : string) (request : V)
    (errors_first : bool) (errors : DraftCatalog.t V → list V)
    (create : M (DraftCatalog.t V) GatewayError.t R) now : Eff V :=
  let check := reads_draft (λ d, reject_validation_errors (errors d)) in
  lift (validate_idempotency_key idempotency_key);;
  authorize_admin_route (Drawn.decision drawn) actor "POST" (AdminResource.list_path r) resource_id
    now;;
  (if errors_first then check else mret tt);;
  idempotently actor (idempotency_scope_key operation idempotency_key) (stable_request_hash request)
    now
    ((if errors_first then mret tt else check);;
     record ← on_draft create;
     audit_event_id ← audit_resource "create" None record (AdminResource.create_diff r record) now;
     mret (mutation_response record audit_event_id [("idempotency_replayed", json_bool false)])).

Definition get_resource (resource_id : string) (find : DraftCatalog.t V → result GatewayError.t R)
    now
    : Eff V :=
  authorize_admin_route (Drawn.decision drawn) actor "GET" (AdminResource.get_path r) resource_id
    now;;
  record ← reads_draft find;
  mret (json_obj [
    ("schema", json_str ("gateway.admin." +:+ AdminResource.kind r +:+ ".v1"));
    ("resource", AdminResource.body r record)]).

Definition update_resource (resource_id : string)
    (find : DraftCatalog.t V → result GatewayError.t R)
    (check : DraftCatalog.t V → result GatewayError.t unit)
    (update : M (DraftCatalog.t V) GatewayError.t R) (diff : R → R → V) now : Eff V :=
  authorize_admin_route (Drawn.decision drawn) actor "PATCH" (AdminResource.get_path r) resource_id
    now;;
  before ← reads_draft find;
  reads_draft check;;
  updated ← on_draft update;
  audit_event_id ← audit_resource "update" (Some (AdminResource.version r before)) updated
                     (diff before updated) now;
  mret (mutation_response updated audit_event_id []).
End common.

(** [redact_url_for_audit]: up to the query. *)
Definition redact_url_for_audit (value : string) : string :=
  default value (head (split_char "?"%char value)).

(** The diff of a status update. *)
Definition status_update_diff {R} (r : AdminResource.t V R) (reason : option string) (before after
    : R)
    : V :=
  json_obj [
    ("status", status_diff (AdminResource.status r before) (AdminResource.status r after));
    ("reason", json_option_str reason)].

(** ** Provider endpoints *)

Definition provider_endpoint_resource_body (x : ProviderEndpointRecord.t) : V :=
  json_obj [
    ("kind", json_str "provider_endpoint");
    ("id", json_str (ProviderEndpointRecord.provider_endpoint_id x));
    ("tenant_id", json_str (ProviderEndpointRecord.tenant_id x));
    ("organization_id", json_option_str (ProviderEndpointRecord.organization_id x));
    ("provider_kind", json_str (ProviderEndpointRecord.provider_kind x));
    ("display_name", json_str (ProviderEndpointRecord.display_name x));
    ("protocol_families", json_arr ((λ f, json_str (ProtocolFamily.as_str f)) <$>
      ProviderEndpointRecord.protocol_families x));
    ("upstream_base_url", json_str (ProviderEndpointRecord.upstream_base_url x));
    ("version", json_int (ProviderEndpointRecord.resource_version x));
    ("status", json_str (ResourceStatus.as_str (ProviderEndpointRecord.status x)));
    ("created_by", json_str (ProviderEndpointRecord.created_by x));
    ("created_at", json_datetime (ProviderEndpointRecord.created_at x));
    ("updated_at", json_datetime (ProviderEndpointRecord.updated_at x))].

Definition provider_endpoint_resource : AdminResource.t V ProviderEndpointRecord.t :=
  AdminResource.mk "provider_endpoint" "ProviderEndpoint" "/admin/v1/provider-endpoints"
    "/admin/v1/provider-endpoints:validate"
    "/admin/v1/provider-endpoints/{provider_endpoint_id}"
      ProviderEndpointRecord.provider_endpoint_id ProviderEndpointRecord.resource_version (λ x,
        ResourceStatus.as_str (ProviderEndpointRecord.status x))
    (λ x, json_obj [
    ("provider_kind", json_str (ProviderEndpointRecord.provider_kind x));
    ("protocol_families", json_arr ((λ f, json_str (ProtocolFamily.as_str f)) <$>
      ProviderEndpointRecord.protocol_families x));
    ("upstream_base_url", json_str (redact_url_for_audit (ProviderEndpointRecord.upstream_base_url
      x)))])
    provider_endpoint_resource_body.

Definition create_provider_endpoint_json (request : AdminCreateProviderEndpointRequest.t) : V :=
  json_obj [
    ("idempotency_key", json_str (AdminCreateProviderEndpointRequest.idempotency_key request));
    ("organization_id", json_option_str (AdminCreateProviderEndpointRequest.organization_id
      request));
    ("provider_kind", json_str (AdminCreateProviderEndpointRequest.provider_kind request));
    ("display_name", json_str (AdminCreateProviderEndpointRequest.display_name request));
    ("protocol_families", json_arr ((λ f, json_str (ProtocolFamily.as_str f)) <$>
      AdminCreateProviderEndpointRequest.protocol_families request));
    ("upstream_base_url", json_str (AdminCreateProviderEndpointRequest.upstream_base_url request))].

Definition list_provider_endpoints drawn actor now : Eff V :=
  list_resources provider_endpoint_resource drawn actor "*" (AdminResource.get_path
    provider_endpoint_resource) (mret tt)
    (provider_endpoints_for_tenant (AuthenticatedActor.tenant_id actor))
      ProviderEndpointRecord.provider_endpoint_id now.

Definition validate_provider_endpoint drawn actor (request : AdminCreateProviderEndpointRequest.t)
    now : Eff V :=
  validate_resource provider_endpoint_resource drawn actor "*" "tenant"
    (AuthenticatedActor.tenant_id actor)
    (provider_endpoint_validation_errors actor request) now.

Definition create_provider_endpoint drawn actor (request : AdminCreateProviderEndpointRequest.t)
    now : Eff V :=
  create_resource provider_endpoint_resource drawn actor "*" "provider_endpoints:create"
    (AdminCreateProviderEndpointRequest.idempotency_key request) (create_provider_endpoint_json
      request) true
    (provider_endpoint_validation_errors actor request)
    (DraftCatalog.create_provider_endpoint (Drawn.resource drawn)
       (CreateProviderEndpointRequest.mk (AuthenticatedActor.tenant_id actor)
          (AdminCreateProviderEndpointRequest.organization_id request)
          (AdminCreateProviderEndpointRequest.provider_kind request)
          (AdminCreateProviderEndpointRequest.display_name request)
          (AdminCreateProviderEndpointRequest.protocol_families request)
          (AdminCreateProviderEndpointRequest.upstream_base_url request)
          (actor_principal_or_actor_id actor)) now) now.

Definition get_provider_endpoint drawn actor (provider_endpoint_id : string) now : Eff V :=
  get_resource provider_endpoint_resource drawn actor provider_endpoint_id
    (provider_endpoint_for_actor actor provider_endpoint_id) now.

Definition update_provider_endpoint drawn actor (provider_endpoint_id : string) (request :
    AdminUpdateStatusRequest.t) now
    : Eff V :=
  update_resource provider_endpoint_resource drawn actor provider_endpoint_id
    (provider_endpoint_for_actor actor provider_endpoint_id)
    (λ _, Ok tt)
    (update_provider_endpoint_status provider_endpoint_id
      (AdminUpdateStatusRequest.expected_version request)
       (AdminUpdateStatusRequest.status request) now)
    (status_update_diff provider_endpoint_resource (AdminUpdateStatusRequest.reason request)) now.

(** ** Upstream credentials *)

Definition upstream_credential_resource_body (x : UpstreamCredentialRecord.t) : V :=
  json_obj [
    ("kind", json_str "upstream_credential");
    ("id", json_str (UpstreamCredentialRecord.upstream_credential_id x));
    ("tenant_id", json_str (UpstreamCredentialRecord.tenant_id x));
    ("organization_id", json_option_str (UpstreamCredentialRecord.organization_id x));
    ("provider_endpoint_id", json_str (UpstreamCredentialRecord.provider_endpoint_id x));
    ("credential_kind", json_str (UpstreamCredentialRecord.credential_kind x));
    ("secret_ref_id", json_str (UpstreamCredentialRecord.secret_ref_id x));
    ("version", json_int (UpstreamCredentialRecord.resource_version x));
    ("status", json_str (UpstreamCredentialStatus.as_str (UpstreamCredentialRecord.status x)));
    ("created_by", json_str (UpstreamCredentialRecord.created_by x));
    ("created_at", json_datetime (UpstreamCredentialRecord.created_at x));
    ("updated_at", json_datetime (UpstreamCredentialRecord.updated_at x))].

Definition upstream_credential_resource : AdminResource.t V UpstreamCredentialRecord.t :=
  AdminResource.mk "upstream_credential" "UpstreamCredential" "/admin/v1/upstream-credentials"
    "/admin/v1/upstream-credentials:validate"
    "/admin/v1/upstream-credentials/{upstream_credential_id}"
      UpstreamCredentialRecord.upstream_credential_id UpstreamCredentialRecord.resource_version (λ
        x, UpstreamCredentialStatus.as_str (UpstreamCredentialRecord.status x))
    (λ x, json_obj [
    ("provider_endpoint_id", json_str (UpstreamCredentialRecord.provider_endpoint_id x));
    ("credential_kind", json_str (UpstreamCredentialRecord.credential_kind x));
    ("secret_ref_id", json_str (mask_secret_ref_id (UpstreamCredentialRecord.secret_ref_id x)))])
    upstream_credential_resource_body.

Definition create_upstream_credential_json (request : AdminCreateUpstreamCredentialRequest.t) : V :=
  json_obj [
    ("idempotency_key", json_str (AdminCreateUpstreamCredentialRequest.idempotency_key request));
    ("organization_id", json_option_str (AdminCreateUpstreamCredentialRequest.organization_id
      request));
    ("provider_endpoint_id", json_str (AdminCreateUpstreamCredentialRequest.provider_endpoint_id
      request));
    ("credential_kind", json_str (AdminCreateUpstreamCredentialRequest.credential_kind request));
    ("secret_ref_id", json_str (AdminCreateUpstreamCredentialRequest.secret_ref_id request))].

Definition list_upstream_credentials drawn actor now : Eff V :=
  list_resources upstream_credential_resource drawn actor "*" (AdminResource.get_path
    upstream_credential_resource) (mret tt)
    (upstream_credentials_for_tenant (AuthenticatedActor.tenant_id actor))
      UpstreamCredentialRecord.upstream_credential_id now.

Definition validate_upstream_credential drawn actor (request :
    AdminCreateUpstreamCredentialRequest.t) now : Eff V :=
  validate_resource upstream_credential_resource drawn actor "*" "tenant"
    (AuthenticatedActor.tenant_id actor)
    (upstream_credential_validation_errors actor request) now.

Definition create_upstream_credential drawn actor (request :
    AdminCreateUpstreamCredentialRequest.t) now : Eff V :=
  create_resource upstream_credential_resource drawn actor "*" "upstream_credentials:create"
    (AdminCreateUpstreamCredentialRequest.idempotency_key request) (create_upstream_credential_json
      request) true
    (upstream_credential_validation_errors actor request)
    (DraftCatalog.create_upstream_credential (Drawn.resource drawn)
       (CreateUpstreamCredentialRequest.mk (AuthenticatedActor.tenant_id actor)
          (AdminCreateUpstreamCredentialRequest.organization_id request)
          (AdminCreateUpstreamCredentialRequest.provider_endpoint_id request)
          (AdminCreateUpstreamCredentialRequest.credential_kind request)
          (AdminCreateUpstreamCredentialRequest.secret_ref_id request)
          (actor_principal_or_actor_id actor)) now) now.

Definition get_upstream_credential drawn actor (upstream_credential_id : string) now : Eff V :=
  get_resource upstream_credential_resource drawn actor upstream_credential_id
    (upstream_credential_for_actor actor upstream_credential_id) now.

Definition update_upstream_credential drawn actor (upstream_credential_id : string) (request :
    AdminUpdateUpstreamCredentialRequest.t) now
    : Eff V :=
  update_resource upstream_credential_resource drawn actor upstream_credential_id
    (upstream_credential_for_actor actor upstream_credential_id)
    (λ _, Ok tt)
    (update_upstream_credential_status upstream_credential_id
      (AdminUpdateUpstreamCredentialRequest.expected_version request)
       (AdminUpdateUpstreamCredentialRequest.status request) now)
    (status_update_diff upstream_credential_resource (AdminUpdateUpstreamCredentialRequest.reason
      request)) now.

(** ** Model targets *)

Definition model_target_resource_body (x : ModelTargetRecord.t) : V :=
  json_obj [
    ("kind", json_str "model_target");
    ("id", json_str (ModelTargetRecord.model_target_id x));
    ("tenant_id", json_str (ModelTargetRecord.tenant_id x));
    ("organization_id", json_option_str (ModelTargetRecord.organization_id x));
    ("provider_endpoint_id", json_str (ModelTargetRecord.provider_endpoint_id x));
    ("upstream_credential_id", json_option_str (ModelTargetRecord.upstream_credential_id x));
    ("protocol_family", json_str (ProtocolFamily.as_str (ModelTargetRecord.protocol_family x)));
    ("upstream_model_id", json_str (ModelTargetRecord.upstream_model_id x));
    ("pricing_sku_id", json_option_str (ModelTargetRecord.pricing_sku_id x));
    ("supports_streaming", json_bool (ModelTargetRecord.supports_streaming x));
    ("version", json_int (ModelTargetRecord.resource_version x));
    ("status", json_str (ResourceStatus.as_str (ModelTargetRecord.status x)));
    ("created_by", json_str (ModelTargetRecord.created_by x));
    ("created_at", json_datetime (ModelTargetRecord.created_at x));
    ("updated_at", json_datetime (ModelTargetRecord.updated_at x))].

Definition model_target_resource : AdminResource.t V ModelTargetRecord.t :=
  AdminResource.mk "model_target" "ModelTarget" "/admin/v1/model-targets"
    "/admin/v1/model-targets:validate"
    "/admin/v1/model-targets/{model_target_id}" ModelTargetRecord.model_target_id
      ModelTargetRecord.resource_version (λ x, ResourceStatus.as_str (ModelTargetRecord.status x))
    (λ x, json_obj [
    ("provider_endpoint_id", json_str (ModelTargetRecord.provider_endpoint_id x));
    ("upstream_credential_id", json_option_str (ModelTargetRecord.upstream_credential_id x));
    ("protocol_family", json_str (ProtocolFamily.as_str (ModelTargetRecord.protocol_family x)));
    ("upstream_model_id", json_str (ModelTargetRecord.upstream_model_id x));
    ("pricing_sku_id", json_option_str (ModelTargetRecord.pricing_sku_id x))])
    model_target_resource_body.

Definition create_model_target_json (request : AdminCreateModelTargetRequest.t) : V :=
  json_obj [
    ("idempotency_key", json_str (AdminCreateModelTargetRequest.idempotency_key request));
    ("organization_id", json_option_str (AdminCreateModelTargetRequest.organization_id request));
    ("provider_endpoint_id", json_str (AdminCreateModelTargetRequest.provider_endpoint_id request));
    ("upstream_credential_id", json_option_str
      (AdminCreateModelTargetRequest.upstream_credential_id request));
    ("protocol_family", json_str (ProtocolFamily.as_str
      (AdminCreateModelTargetRequest.protocol_family request)));
    ("upstream_model_id", json_str (AdminCreateModelTargetRequest.upstream_model_id request));
    ("pricing_sku_id", json_option_str (AdminCreateModelTargetRequest.pricing_sku_id request));
    ("supports_streaming", json_bool (AdminCreateModelTargetRequest.supports_streaming request))].

Definition list_model_targets drawn actor now : Eff V :=
  list_resources model_target_resource drawn actor "*" (AdminResource.get_path
    model_target_resource) (mret tt)
    (model_targets_for_tenant (AuthenticatedActor.tenant_id actor))
      ModelTargetRecord.model_target_id now.

Definition validate_model_target drawn actor (request : AdminCreateModelTargetRequest.t) now : Eff
    V :=
  validate_resource model_target_resource drawn actor "*" "tenant" (AuthenticatedActor.tenant_id
    actor)
    (model_target_validation_errors actor request) now.

Definition create_model_target drawn actor (request : AdminCreateModelTargetRequest.t) now : Eff V
    :=
  create_resource model_target_resource drawn actor "*" "model_targets:create"
    (AdminCreateModelTargetRequest.idempotency_key request) (create_model_target_json request) true
    (model_target_validation_errors actor request)
    (DraftCatalog.create_model_target (Drawn.resource drawn)
       (CreateModelTargetRequest.mk (AuthenticatedActor.tenant_id actor)
          (AdminCreateModelTargetRequest.organization_id request)
          (AdminCreateModelTargetRequest.provider_endpoint_id request)
          (AdminCreateModelTargetRequest.upstream_credential_id request)
          (AdminCreateModelTargetRequest.protocol_family request)
          (AdminCreateModelTargetRequest.upstream_model_id request)
          (AdminCreateModelTargetRequest.pricing_sku_id request)
          (AdminCreateModelTargetRequest.supports_streaming request)
          (actor_principal_or_actor_id actor)) now) now.

Definition get_model_target drawn actor (model_target_id : string) now : Eff V :=
  get_resource model_target_resource drawn actor model_target_id (model_target_for_actor actor
    model_target_id) now.

Definition update_model_target drawn actor (model_target_id : string) (request :
    AdminUpdateStatusRequest.t) now
    : Eff V :=
  update_resource model_target_resource drawn actor model_target_id (model_target_for_actor actor
    model_target_id)
    (λ _, Ok tt)
    (update_model_target_status model_target_id (AdminUpdateStatusRequest.expected_version request)
       (AdminUpdateStatusRequest.status request) now)
    (status_update_diff model_target_resource (AdminUpdateStatusRequest.reason request)) now.

(** ** Model aliases *)

Definition model_alias_resource_body (x : ModelAliasRecord.t) : V :=
  json_obj [
    ("kind", json_str "model_alias");
    ("id", json_str (ModelAliasRecord.model_alias_id x));
    ("tenant_id", json_str (ModelAliasRecord.tenant_id x));
    ("organization_id", json_option_str (ModelAliasRecord.organization_id x));
    ("project_id", json_option_str (ModelAliasRecord.project_id x));
    ("alias_name", json_str (ModelAliasRecord.alias_name x));
    ("protocol_family", json_str (ProtocolFamily.as_str (ModelAliasRecord.protocol_family x)));
    ("route_policy_id", json_option_str (ModelAliasRecord.route_policy_id x));
    ("version", json_int (ModelAliasRecord.resource_version x));
    ("status", json_str (ResourceStatus.as_str (ModelAliasRecord.status x)));
    ("created_by", json_str (ModelAliasRecord.created_by x));
    ("created_at", json_datetime (ModelAliasRecord.created_at x));
    ("updated_at", json_datetime (ModelAliasRecord.updated_at x))].

Definition model_alias_resource : AdminResource.t V ModelAliasRecord.t :=
  AdminResource.mk "model_alias" "ModelAlias" "/admin/v1/model-aliases"
    "/admin/v1/model-aliases:validate"
    "/admin/v1/model-aliases/{model_alias_id}" ModelAliasRecord.model_alias_id
      ModelAliasRecord.resource_version (λ x, ResourceStatus.as_str (ModelAliasRecord.status x))
    (λ x, json_obj [
    ("organization_id", json_option_str (ModelAliasRecord.organization_id x));
    ("project_id", json_option_str (ModelAliasRecord.project_id x));
    ("alias_name", json_str (ModelAliasRecord.alias_name x));
    ("protocol_family", json_str (ProtocolFamily.as_str (ModelAliasRecord.protocol_family x)));
    ("route_policy_id", json_option_str (ModelAliasRecord.route_policy_id x))])
    model_alias_resource_body.

Definition create_model_alias_json (request : AdminCreateModelAliasRequest.t) : V :=
  json_obj [
    ("idempotency_key", json_str (AdminCreateModelAliasRequest.idempotency_key request));
    ("organization_id", json_option_str (AdminCreateModelAliasRequest.organization_id request));
    ("project_id", json_option_str (AdminCreateModelAliasRequest.project_id request));
    ("alias_name", json_str (AdminCreateModelAliasRequest.alias_name request));
    ("protocol_family", json_str (ProtocolFamily.as_str
      (AdminCreateModelAliasRequest.protocol_family request)));
    ("route_policy_id", json_option_str (AdminCreateModelAliasRequest.route_policy_id request))].

Definition list_model_aliases drawn actor now : Eff V :=
  list_resources model_alias_resource drawn actor "*" (AdminResource.get_path model_alias_resource)
    (mret tt)
    (model_aliases_for_tenant (AuthenticatedActor.tenant_id actor)) ModelAliasRecord.model_alias_id
      now.

Definition validate_model_alias drawn actor (request : AdminCreateModelAliasRequest.t) now : Eff V
    :=
  validate_resource model_alias_resource drawn actor "*" "tenant" (AuthenticatedActor.tenant_id
    actor)
    (model_alias_validation_errors actor request) now.

Definition create_model_alias drawn actor (request : AdminCreateModelAliasRequest.t) now : Eff V :=
  create_resource model_alias_resource drawn actor "*" "model_aliases:create"
    (AdminCreateModelAliasRequest.idempotency_key request) (create_model_alias_json request) false
    (model_alias_validation_errors actor request)
    (DraftCatalog.create_model_alias (Drawn.resource drawn)
       (CreateModelAliasRequest.mk (AuthenticatedActor.tenant_id actor)
          (AdminCreateModelAliasRequest.organization_id request)
          (AdminCreateModelAliasRequest.project_id request)
          (AdminCreateModelAliasRequest.alias_name request)
          (AdminCreateModelAliasRequest.protocol_family request)
          (AdminCreateModelAliasRequest.route_policy_id request)
          (actor_principal_or_actor_id actor)) now) now.

Definition get_model_alias drawn actor (model_alias_id : string) now : Eff V :=
  get_resource model_alias_resource drawn actor model_alias_id (model_alias_for_actor actor
    model_alias_id) now.

Definition update_model_alias drawn actor (model_alias_id : string)
    (request : AdminUpdateModelAliasRequest.t) now : Eff V :=
  update_resource model_alias_resource drawn actor model_alias_id
    (model_alias_for_actor actor model_alias_id)
    (λ d, reject_validation_errors
            (model_alias_update_validation_errors actor model_alias_id request d))
    (DraftCatalog.update_model_alias model_alias_id
       (UpdateModelAliasRequest.mk (AdminUpdateModelAliasRequest.expected_version request)
          (AdminUpdateModelAliasRequest.status request)
          (AdminUpdateModelAliasRequest.route_policy_id request)) now)
    (λ before after, json_obj [
      ("status", status_diff (ResourceStatus.as_str (ModelAliasRecord.status before))
                   (ResourceStatus.as_str (ModelAliasRecord.status after)));
      ("route_policy_id", json_obj [
        ("before", json_option_str (ModelAliasRecord.route_policy_id before));
        ("after", json_option_str (ModelAliasRecord.route_policy_id after))]);
      ("reason", json_option_str (AdminUpdateModelAliasRequest.reason request))]) now.

(** ** Route policies *)

Definition route_policy_resource_body (x : RoutePolicyRecord.t) : V :=
  json_obj [
    ("kind", json_str "route_policy");
    ("id", json_str (RoutePolicyRecord.route_policy_id x));
    ("tenant_id", json_str (RoutePolicyRecord.tenant_id x));
    ("organization_id", json_option_str (RoutePolicyRecord.organization_id x));
    ("name", json_str (RoutePolicyRecord.name x));
    ("protocol_family", json_str (ProtocolFamily.as_str (RoutePolicyRecord.protocol_family x)));
    ("model_alias_id", json_str (RoutePolicyRecord.model_alias_id x));
    ("routing_group_id", json_str (RoutePolicyRecord.routing_group_id x));
    ("version", json_int (RoutePolicyRecord.resource_version x));
    ("status", json_str (ResourceStatus.as_str (RoutePolicyRecord.status x)));
    ("created_by", json_str (RoutePolicyRecord.created_by x));
    ("created_at", json_datetime (RoutePolicyRecord.created_at x));
    ("updated_at", json_datetime (RoutePolicyRecord.updated_at x))].

Definition route_policy_resource : AdminResource.t V RoutePolicyRecord.t :=
  AdminResource.mk "route_policy" "RoutePolicy" "/admin/v1/route-policies"
    "/admin/v1/route-policies:validate"
    "/admin/v1/route-policies/{route_policy_id}" RoutePolicyRecord.route_policy_id
      RoutePolicyRecord.resource_version (λ x, ResourceStatus.as_str (RoutePolicyRecord.status x))
    (λ x, json_obj [
    ("organization_id", json_option_str (RoutePolicyRecord.organization_id x));
    ("name", json_str (RoutePolicyRecord.name x));
    ("protocol_family", json_str (ProtocolFamily.as_str (RoutePolicyRecord.protocol_family x)));
    ("model_alias_id", json_str (RoutePolicyRecord.model_alias_id x));
    ("routing_group_id", json_str (RoutePolicyRecord.routing_group_id x))])
    route_policy_resource_body.

Definition create_route_policy_json (request : AdminCreateRoutePolicyRequest.t) : V :=
  json_obj [
    ("idempotency_key", json_str (AdminCreateRoutePolicyRequest.idempotency_key request));
    ("name", json_str (AdminCreateRoutePolicyRequest.name request));
    ("model_alias_id", json_str (AdminCreateRoutePolicyRequest.model_alias_id request));
    ("routing_group_id", json_str (AdminCreateRoutePolicyRequest.routing_group_id request))].

Definition list_route_policies drawn actor now : Eff V :=
  list_resources route_policy_resource drawn actor "*" (AdminResource.get_path
    route_policy_resource) (mret tt)
    (route_policies_for_tenant (AuthenticatedActor.tenant_id actor))
      RoutePolicyRecord.route_policy_id now.

Definition validate_route_policy drawn actor (request : AdminCreateRoutePolicyRequest.t) now : Eff
    V :=
  validate_resource route_policy_resource drawn actor "*" "tenant" (AuthenticatedActor.tenant_id
    actor)
    (route_policy_validation_errors actor request) now.

Definition create_route_policy drawn actor (request : AdminCreateRoutePolicyRequest.t) now : Eff V
    :=
  create_resource route_policy_resource drawn actor "*" "route_policies:create"
    (AdminCreateRoutePolicyRequest.idempotency_key request) (create_route_policy_json request) false
    (route_policy_validation_errors actor request)
    (DraftCatalog.create_route_policy (Drawn.resource drawn)
       (CreateRoutePolicyRequest.mk (AuthenticatedActor.tenant_id actor)
          (AdminCreateRoutePolicyRequest.name request)
          (AdminCreateRoutePolicyRequest.model_alias_id request)
          (AdminCreateRoutePolicyRequest.routing_group_id request)
          (actor_principal_or_actor_id actor)) now) now.

Definition get_route_policy drawn actor (route_policy_id : string) now : Eff V :=
  get_resource route_policy_resource drawn actor route_policy_id (route_policy_for_actor actor
    route_policy_id) now.

Definition update_route_policy drawn actor (route_policy_id : string) (request :
    AdminUpdateStatusRequest.t) now
    : Eff V :=
  update_resource route_policy_resource drawn actor route_policy_id (route_policy_for_actor actor
    route_policy_id)
    (λ _, Ok tt)
    (update_route_policy_status route_policy_id (AdminUpdateStatusRequest.expected_version request)
       (AdminUpdateStatusRequest.status request) now)
    (status_update_diff route_policy_resource (AdminUpdateStatusRequest.reason request)) now.

(** ** Provider grants *)

Definition provider_grant_resource_body (x : ProviderGrantRecord.t) : V :=
  json_obj [
    ("kind", json_str "provider_grant");
    ("id", json_str (ProviderGrantRecord.provider_grant_id x));
    ("tenant_id", json_str (ProviderGrantRecord.tenant_id x));
    ("scope_kind", json_str (ProviderGrantRecord.scope_kind x));
    ("scope_id", json_str (ProviderGrantRecord.scope_id x));
    ("organization_id", json_option_str (ProviderGrantRecord.organization_id x));
    ("project_id", json_option_str (ProviderGrantRecord.project_id x));
    ("resource_kind", json_str (ProviderGrantRecord.resource_kind x));
    ("resource_id", json_str (ProviderGrantRecord.resource_id x));
    ("effect", json_str (ProviderGrantRecord.effect x));
    ("closure_mode", json_str (ProviderGrantRecord.closure_mode x));
    ("version", json_int (ProviderGrantRecord.resource_version x));
    ("status", json_str (ResourceStatus.as_str (ProviderGrantRecord.status x)));
    ("created_by", json_str (ProviderGrantRecord.created_by x));
    ("created_at", json_datetime (ProviderGrantRecord.created_at x));
    ("updated_at", json_datetime (ProviderGrantRecord.updated_at x))].

Definition provider_grant_resource : AdminResource.t V ProviderGrantRecord.t :=
  AdminResource.mk "provider_grant" "ProviderGrant" "/admin/v1/provider-grants"
    "/admin/v1/provider-grants:validate"
    "/admin/v1/provider-grants/{provider_grant_id}" ProviderGrantRecord.provider_grant_id
      ProviderGrantRecord.resource_version (λ x, ResourceStatus.as_str (ProviderGrantRecord.status
        x))
    (λ x, json_obj [
    ("scope_kind", json_str (ProviderGrantRecord.scope_kind x));
    ("scope_id", json_str (ProviderGrantRecord.scope_id x));
    ("resource_kind", json_str (ProviderGrantRecord.resource_kind x));
    ("resource_id", json_str (ProviderGrantRecord.resource_id x));
    ("effect", json_str (ProviderGrantRecord.effect x));
    ("closure_mode", json_str (ProviderGrantRecord.closure_mode x))])
    provider_grant_resource_body.

Definition create_provider_grant_json (request : AdminCreateProviderGrantRequest.t) : V :=
  json_obj [
    ("idempotency_key", json_str (AdminCreateProviderGrantRequest.idempotency_key request));
    ("scope_kind", json_str (AdminCreateProviderGrantRequest.scope_kind request));
    ("scope_id", json_str (AdminCreateProviderGrantRequest.scope_id request));
    ("resource_kind", json_str (AdminCreateProviderGrantRequest.resource_kind request));
    ("resource_id", json_str (AdminCreateProviderGrantRequest.resource_id request));
    ("effect", json_str (AdminCreateProviderGrantRequest.effect request));
    ("closure_mode", json_str (AdminCreateProviderGrantRequest.closure_mode request))].

Definition list_provider_grants drawn actor now : Eff V :=
  list_resources provider_grant_resource drawn actor "*" (AdminResource.get_path
    provider_grant_resource) (mret tt)
    (provider_grants_for_tenant (AuthenticatedActor.tenant_id actor))
      ProviderGrantRecord.provider_grant_id now.

Definition validate_provider_grant drawn actor (request : AdminCreateProviderGrantRequest.t) now :
    Eff V :=
  validate_resource provider_grant_resource drawn actor "*" "tenant" (AuthenticatedActor.tenant_id
    actor)
    (provider_grant_validation_errors actor request) now.

Definition create_provider_grant drawn actor (request : AdminCreateProviderGrantRequest.t) now :
    Eff V :=
  create_resource provider_grant_resource drawn actor "*" "provider_grants:create"
    (AdminCreateProviderGrantRequest.idempotency_key request) (create_provider_grant_json request)
      false
    (provider_grant_validation_errors actor request)
    (DraftCatalog.create_provider_grant (Drawn.resource drawn)
       (CreateProviderGrantRequest.mk (AuthenticatedActor.tenant_id actor)
          (AdminCreateProviderGrantRequest.scope_kind request)
          (AdminCreateProviderGrantRequest.scope_id request)
          (AdminCreateProviderGrantRequest.resource_kind request)
          (AdminCreateProviderGrantRequest.resource_id request)
          (AdminCreateProviderGrantRequest.effect request)
          (AdminCreateProviderGrantRequest.closure_mode request)
          (actor_principal_or_actor_id actor)) now) now.

Definition get_provider_grant drawn actor (provider_grant_id : string) now : Eff V :=
  get_resource provider_grant_resource drawn actor provider_grant_id (provider_grant_for_actor
    actor provider_grant_id) now.

Definition update_provider_grant drawn actor (provider_grant_id : string) (request :
    AdminUpdateStatusRequest.t) now
    : Eff V :=
  update_resource provider_grant_resource drawn actor provider_grant_id (provider_grant_for_actor
    actor provider_grant_id)
    (λ _, Ok tt)
    (update_provider_grant_status provider_grant_id (AdminUpdateStatusRequest.expected_version
      request)
       (AdminUpdateStatusRequest.status request) now)
    (status_update_diff provider_grant_resource (AdminUpdateStatusRequest.reason request)) now.

(** ** Routing groups *)

Definition routing_group_resource_body (x : RoutingGroupRecord.t) : V :=
  json_obj [
    ("kind", json_str "routing_group");
    ("id", json_str (RoutingGroupRecord.routing_group_id x));
    ("tenant_id", json_str (RoutingGroupRecord.tenant_id x));
    ("organization_id", json_option_str (RoutingGroupRecord.organization_id x));
    ("name", json_str (RoutingGroupRecord.name x));
    ("protocol_family", json_str (ProtocolFamily.as_str (RoutingGroupRecord.protocol_family x)));
    ("purpose", json_option_str (RoutingGroupRecord.purpose x));
    ("version", json_int (RoutingGroupRecord.resource_version x));
    ("status", json_str (ResourceStatus.as_str (RoutingGroupRecord.status x)));
    ("created_by", json_str (RoutingGroupRecord.created_by x));
    ("created_at", json_datetime (RoutingGroupRecord.created_at x));
    ("updated_at", json_datetime (RoutingGroupRecord.updated_at x))].

Definition routing_group_resource : AdminResource.t V RoutingGroupRecord.t :=
  AdminResource.mk "routing_group" "RoutingGroup" "/admin/v1/routing-groups"
    "/admin/v1/routing-groups:validate"
    "/admin/v1/routing-groups/{routing_group_id}" RoutingGroupRecord.routing_group_id
      RoutingGroupRecord.resource_version (λ x, ResourceStatus.as_str (RoutingGroupRecord.status x))
    (λ x, json_obj [
    ("organization_id", json_option_str (RoutingGroupRecord.organization_id x));
    ("name", json_str (RoutingGroupRecord.name x));
    ("protocol_family", json_str (ProtocolFamily.as_str (RoutingGroupRecord.protocol_family x)));
    ("purpose", json_option_str (RoutingGroupRecord.purpose x))])
    routing_group_resource_body.

Definition create_routing_group_json (request : AdminCreateRoutingGroupRequest.t) : V :=
  json_obj [
    ("idempotency_key", json_str (AdminCreateRoutingGroupRequest.idempotency_key request));
    ("organization_id", json_option_str (AdminCreateRoutingGroupRequest.organization_id request));
    ("name", json_str (AdminCreateRoutingGroupRequest.name request));
    ("protocol_family", json_str (ProtocolFamily.as_str
      (AdminCreateRoutingGroupRequest.protocol_family request)));
    ("purpose", json_option_str (AdminCreateRoutingGroupRequest.purpose request))].

Definition list_routing_groups drawn actor now : Eff V :=
  list_resources routing_group_resource drawn actor "*" (AdminResource.get_path
    routing_group_resource) (mret tt)
    (routing_groups_for_tenant (AuthenticatedActor.tenant_id actor))
      RoutingGroupRecord.routing_group_id now.

Definition validate_routing_group drawn actor (request : AdminCreateRoutingGroupRequest.t) now :
    Eff V :=
  validate_resource routing_group_resource drawn actor "*" "tenant" (AuthenticatedActor.tenant_id
    actor)
    (routing_group_validation_errors actor request) now.

Definition create_routing_group drawn actor (request : AdminCreateRoutingGroupRequest.t) now : Eff
    V :=
  create_resource routing_group_resource drawn actor "*" "routing_groups:create"
    (AdminCreateRoutingGroupRequest.idempotency_key request) (create_routing_group_json request)
      false
    (routing_group_validation_errors actor request)
    (DraftCatalog.create_routing_group (Drawn.resource drawn)
       (CreateRoutingGroupRequest.mk (AuthenticatedActor.tenant_id actor)
          (AdminCreateRoutingGroupRequest.organization_id request)
          (AdminCreateRoutingGroupRequest.name request)
          (AdminCreateRoutingGroupRequest.protocol_family request)
          (AdminCreateRoutingGroupRequest.purpose request)
          (actor_principal_or_actor_id actor)) now) now.

Definition get_routing_group drawn actor (routing_group_id : string) now : Eff V :=
  get_resource routing_group_resource drawn actor routing_group_id (routing_group_for_actor actor
    routing_group_id) now.

Definition update_routing_group drawn actor (routing_group_id : string) (request :
    AdminUpdateStatusRequest.t) now
    : Eff V :=
  update_resource routing_group_resource drawn actor routing_group_id (routing_group_for_actor
    actor routing_group_id)
    (λ _, Ok tt)
    (update_routing_group_status routing_group_id (AdminUpdateStatusRequest.expected_version
      request)
       (AdminUpdateStatusRequest.status request) now)
    (status_update_diff routing_group_resource (AdminUpdateStatusRequest.reason request)) now.

(** ** Targets of routing groups

    These routes are authorized on the group. *)

Definition routing_group_target_resource_body (x : RoutingGroupTargetRecord.t) : V :=
  json_obj [
    ("kind", json_str "routing_group_target");
    ("id", json_str (RoutingGroupTargetRecord.routing_group_target_id x));
    ("tenant_id", json_str (RoutingGroupTargetRecord.tenant_id x));
    ("routing_group_id", json_str (RoutingGroupTargetRecord.routing_group_id x));
    ("model_target_id", json_str (RoutingGroupTargetRecord.model_target_id x));
    ("weight", json_int (RoutingGroupTargetRecord.weight x));
    ("priority", json_int (RoutingGroupTargetRecord.priority x));
    ("version", json_int (RoutingGroupTargetRecord.resource_version x));
    ("status", json_str (ResourceStatus.as_str (RoutingGroupTargetRecord.status x)));
    ("created_by", json_str (RoutingGroupTargetRecord.created_by x));
    ("created_at", json_datetime (RoutingGroupTargetRecord.created_at x));
    ("updated_at", json_datetime (RoutingGroupTargetRecord.updated_at x))].

Definition routing_group_target_resource : AdminResource.t V RoutingGroupTargetRecord.t :=
  AdminResource.mk "routing_group_target" "RoutingGroupTarget"
    "/admin/v1/routing-groups/{routing_group_id}/targets"
      "/admin/v1/routing-groups/{routing_group_id}/targets:validate"
    "/admin/v1/routing-groups/{routing_group_id}/targets/{routing_group_target_id}"
      RoutingGroupTargetRecord.routing_group_target_id RoutingGroupTargetRecord.resource_version (λ
        x, ResourceStatus.as_str (RoutingGroupTargetRecord.status x))
    (λ x, json_obj [
    ("routing_group_target_id", json_str (RoutingGroupTargetRecord.routing_group_target_id x));
    ("model_target_id", json_str (RoutingGroupTargetRecord.model_target_id x));
    ("weight", json_int (RoutingGroupTargetRecord.weight x));
    ("priority", json_int (RoutingGroupTargetRecord.priority x))])
    routing_group_target_resource_body.

Definition create_routing_group_target_json (request : AdminCreateRoutingGroupTargetRequest.t)
    : V :=
  json_obj [
    ("idempotency_key", json_str (AdminCreateRoutingGroupTargetRequest.idempotency_key request));
    ("model_target_id", json_str (AdminCreateRoutingGroupTargetRequest.model_target_id request));
    ("weight", json_int (AdminCreateRoutingGroupTargetRequest.weight request));
    ("priority", json_int (AdminCreateRoutingGroupTargetRequest.priority request))].

Definition list_routing_group_targets drawn actor (routing_group_id : string) now : Eff V :=
  list_resources routing_group_target_resource drawn actor routing_group_id
    (AdminResource.list_path routing_group_target_resource)
    (reads_draft (routing_group_for_actor actor routing_group_id);; mret tt)
    (routing_group_targets_for_group (AuthenticatedActor.tenant_id actor) routing_group_id)
    RoutingGroupTargetRecord.routing_group_id now.

Definition validate_routing_group_target drawn actor (routing_group_id : string)
    (request : AdminCreateRoutingGroupTargetRequest.t) now : Eff V :=
  validate_resource routing_group_target_resource drawn actor routing_group_id "routing_group"
    routing_group_id (routing_group_target_validation_errors actor routing_group_id request) now.

Definition create_routing_group_target drawn actor (routing_group_id : string)
    (request : AdminCreateRoutingGroupTargetRequest.t) now : Eff V :=
  create_resource routing_group_target_resource drawn actor routing_group_id
    ("routing_group_targets:" +:+ routing_group_id +:+ ":create")
    (AdminCreateRoutingGroupTargetRequest.idempotency_key request)
    (create_routing_group_target_json request) false
    (routing_group_target_validation_errors actor routing_group_id request)
    (DraftCatalog.create_routing_group_target (Drawn.resource drawn)
       (CreateRoutingGroupTargetRequest.mk (AuthenticatedActor.tenant_id actor) routing_group_id
          (AdminCreateRoutingGroupTargetRequest.model_target_id request)
          (AdminCreateRoutingGroupTargetRequest.weight request)
          (AdminCreateRoutingGroupTargetRequest.priority request)
          (actor_principal_or_actor_id actor)) now) now.

Definition get_routing_group_target drawn actor (routing_group_id routing_group_target_id : string)
    now : Eff V :=
  get_resource routing_group_target_resource drawn actor routing_group_id
    (routing_group_target_for_actor actor routing_group_id routing_group_target_id) now.

Definition update_routing_group_target drawn actor (routing_group_id routing_group_target_id :
    string)
    (request : AdminUpdateStatusRequest.t) now : Eff V :=
  update_resource routing_group_target_resource drawn actor routing_group_id
    (routing_group_target_for_actor actor routing_group_id routing_group_target_id)
    (λ _, Ok tt)
    (update_routing_group_target_status routing_group_target_id
       (AdminUpdateStatusRequest.expected_version request)
       (AdminUpdateStatusRequest.status request) now)
    (λ before after, json_obj [
      ("routing_group_target_id",
        json_str (RoutingGroupTargetRecord.routing_group_target_id after));
      ("status", status_diff (ResourceStatus.as_str (RoutingGroupTargetRecord.status before))
                   (ResourceStatus.as_str (RoutingGroupTargetRecord.status after)));
      ("reason", json_option_str (AdminUpdateStatusRequest.reason request))]) now.
End handlers.
