(* ===== verification/AdminEmergency.v ===== *)
(** * Publication and emergency handlers

    The admin handlers of [service.rs] that publish, roll back and validate
    configuration snapshots, and those of the emergency operations: disabling a
    credential or an endpoint, draining a group, freezing the configuration,
    rolling it back and blocking a budget. *)

From Stdlib Require Import Ascii.
From S2P Require Import Prelude Order Text Domain Action HotState Json Pricing RuntimePolicy Reconciler Delivery CedarPolicy Publication GwRoute AdminRecords DraftCatalog DraftFacts AdminState AdminValidation AdminHandlers.

Section handlers.
Context {V : Type} `{JsonLibrary V} `{JsonText V} `{Sha256Library} `{CedarParser} `{ChronoDisplay}.
Abbreviation Store := (GatewayStore.t V).
Abbreviation Eff := (M Store GatewayError.t).
Implicit Types (s : Store) (actor : AuthenticatedActor.t) (now : DateTime) (drawn : Drawn.t).

(** ** Documents *)

(** [ConfigSnapshot] and [PublishedConfigSnapshot] as [serde] writes them. *)
Definition snapshot_metadata_json (m : ConfigSnapshot.t) : V :=
  json_obj [
    ("snapshot_id", json_str (ConfigSnapshot.snapshot_id m));
    ("tenant_id", json_str (ConfigSnapshot.tenant_id m));
    ("version", json_int (ConfigSnapshot.version m));
    ("checksum", json_str (ConfigSnapshot.checksum m));
    ("status", json_str (ConfigSnapshotStatus.as_str (ConfigSnapshot.status m)));
    ("compiled_at", json_datetime (ConfigSnapshot.compiled_at m))].
Definition published_snapshot_json (snapshot : PublishedConfigSnapshot.t V) : V :=
  json_obj [
    ("metadata", snapshot_metadata_json (PublishedConfigSnapshot.metadata snapshot));
    ("document", document_json (PublishedConfigSnapshot.document snapshot));
    ("created_by", json_str (PublishedConfigSnapshot.created_by snapshot));
    ("published_at", json_datetime (PublishedConfigSnapshot.published_at snapshot))].

Definition publish_request_json (request : AdminPublishConfigSnapshotRequest.t V) : V :=
  json_obj [
    ("idempotency_key", json_str (AdminPublishConfigSnapshotRequest.idempotency_key request));
    ("resource_versions", json_arr ((λ r, json_obj [
       ("resource_kind", json_str (ResourceVersion.resource_kind r));
       ("resource_id", json_str (ResourceVersion.resource_id r));
       ("version", json_int (ResourceVersion.version r))])
       <$> AdminPublishConfigSnapshotRequest.resource_versions request));
    ("payload", AdminPublishConfigSnapshotRequest.payload request)].
Definition rollback_request_json (request : AdminRollbackConfigSnapshotRequest.t) : V :=
  json_obj [
    ("idempotency_key", json_str (AdminRollbackConfigSnapshotRequest.idempotency_key request));
    ("source_snapshot_id",
      json_str (AdminRollbackConfigSnapshotRequest.source_snapshot_id request));
    ("reason", json_str (AdminRollbackConfigSnapshotRequest.reason request))].

Definition snapshot_mutation_response (snapshot : PublishedConfigSnapshot.t V)
    (audit_event_id : string) : V :=
  json_obj [
    ("schema", json_str "gateway.admin.config_snapshot_mutation.v1");
    ("snapshot", published_snapshot_json snapshot);
    ("audit_event_id", json_str audit_event_id);
    ("idempotency_replayed", json_bool false)].

Definition emergency_operation_resource_body (operation : EmergencyOperationRecord.t V) : V :=
  json_obj [
    ("kind", json_str "emergency_operation");
    ("id", json_str (EmergencyOperationRecord.emergency_operation_id operation));
    ("emergency_operation_id",
      json_str (EmergencyOperationRecord.emergency_operation_id operation));
    ("tenant_id", json_str (EmergencyOperationRecord.tenant_id operation));
    ("organization_id", json_option_str (EmergencyOperationRecord.organization_id operation));
    ("project_id", json_option_str (EmergencyOperationRecord.project_id operation));
    ("operation_kind", json_str (EmergencyOperationRecord.operation_kind operation));
    ("target_resource_kind", json_str (EmergencyOperationRecord.target_resource_kind operation));
    ("target_resource_id", json_str (EmergencyOperationRecord.target_resource_id operation));
    ("requested_by", json_str (EmergencyOperationRecord.requested_by operation));
    ("reason", json_str (EmergencyOperationRecord.reason operation));
    ("status", json_str (EmergencyOperationRecord.status operation));
    ("operator_alert", EmergencyOperationRecord.operator_alert_document operation);
    ("version", json_int (EmergencyOperationRecord.resource_version operation));
    ("schema_version", json_int (EmergencyOperationRecord.schema_version operation));
    ("created_at", json_datetime (EmergencyOperationRecord.created_at operation));
    ("updated_at", json_datetime (EmergencyOperationRecord.updated_at operation));
    ("expires_at", json_datetime (EmergencyOperationRecord.expires_at operation))].

Definition emergency_operation_mutation_response (operation : EmergencyOperationRecord.t V)
    (affected_resource : V) (audit_event_id : string) : V :=
  json_obj [
    ("schema", json_str "gateway.admin.emergency_operation_mutation.v1");
    ("resource", emergency_operation_resource_body operation);
    ("affected_resource", affected_resource);
    ("audit_event_id", json_str audit_event_id);
    ("idempotency_replayed", json_bool false)].

Definition budget_policy_resource_body (policy : BudgetPolicyRecord.t) : V :=
  json_obj [
    ("kind", json_str "budget_policy");
    ("id", json_str (BudgetPolicyRecord.budget_policy_id policy));
    ("tenant_id", json_str (BudgetPolicyRecord.tenant_id policy));
    ("scope_kind", json_str (BudgetPolicyRecord.scope_kind policy));
    ("scope_id", json_str (BudgetPolicyRecord.scope_id policy));
    ("organization_id", json_option_str (BudgetPolicyRecord.organization_id policy));
    ("project_id", json_option_str (BudgetPolicyRecord.project_id policy));
    ("currency", json_option_str (BudgetPolicyRecord.currency policy));
    ("period", json_str (BudgetPolicyRecord.period policy));
    ("limit_kind", json_str (BudgetPolicyRecord.limit_kind policy));
    ("hard_limit", json_option json_int (BudgetPolicyRecord.hard_limit policy));
    ("soft_limit", json_option json_int (BudgetPolicyRecord.soft_limit policy));
    ("thresholds", json_arr (json_int <$> BudgetPolicyRecord.thresholds policy));
    ("reset_policy", json_str (BudgetPolicyRecord.reset_policy policy));
    ("overage_mode", json_str (BudgetPolicyRecord.overage_mode policy));
    ("consistency_mode", json_str (BudgetPolicyRecord.consistency_mode policy));
    ("version", json_int (BudgetPolicyRecord.resource_version policy));
    ("status", json_str (ResourceStatus.as_str (BudgetPolicyRecord.status policy)));
    ("created_by", json_str (BudgetPolicyRecord.created_by policy));
    ("created_at", json_datetime (BudgetPolicyRecord.created_at policy));
    ("updated_at", json_datetime (BudgetPolicyRecord.updated_at policy))].

(** ** Configuration snapshots *)

Definition validate_config_snapshot drawn actor (request : AdminValidateConfigSnapshotRequest.t V) now
    : Eff V :=
  authorize_admin_route (Drawn.decision drawn) actor "POST" "/admin/v1/config/snapshots:validate"
    (AuthenticatedActor.tenant_id actor) now;;
  let errors :=
    match validate_config_snapshot_payload (AdminValidateConfigSnapshotRequest.payload request) with
    | Ok _ => []
    | Err error => [json_obj [("reason", json_str (GatewayError.code error));
                              ("message", json_str (GatewayError.to_string error))]]
    end in
  validation_response (Drawn.validation drawn) actor
    (validation_input "gateway.admin.config_snapshot_validation.v1" "ConfigSnapshot" "tenant"
       (AuthenticatedActor.tenant_id actor) errors now).

(** The version that was current before the operation. *)
Definition current_version actor : Eff (option Z) :=
  gets (λ s, ConfigSnapshot.version
    <$> ConfigStore.latest_published_snapshot_for_tenant (AuthenticatedActor.tenant_id actor)
          (GatewayStore.config s)).

Definition publish_config_snapshot drawn actor (request : AdminPublishConfigSnapshotRequest.t V) now
    : Eff V :=
  lift (validate_idempotency_key (AdminPublishConfigSnapshotRequest.idempotency_key request));;
  authorize_admin_route (Drawn.decision drawn) actor "POST" "/admin/v1/config/snapshots:publish"
    (AuthenticatedActor.tenant_id actor) now;;
  idempotently actor
    (idempotency_scope_key "config_snapshots:publish"
       (AdminPublishConfigSnapshotRequest.idempotency_key request))
    (stable_request_hash (publish_request_json request)) now
    (before_version ← current_version actor;
     snapshot ← on_config (Publication.publish_config_snapshot (Drawn.resource drawn)
                  (Drawn.invalidation drawn)
                  (PublishConfigSnapshotRequest.mk (AuthenticatedActor.tenant_id actor)
                     (AdminPublishConfigSnapshotRequest.resource_versions request)
                     (AdminPublishConfigSnapshotRequest.payload request)
                     (actor_principal_or_actor_id actor)) now);
     audit_event_id ← record_config_snapshot_audit (Drawn.audit drawn) actor
       (ConfigSnapshotAuditInput.mk "gateway.config.publish"
          (PublishedConfigSnapshot.snapshot_id snapshot) before_version
          (Some (PublishedConfigSnapshot.version snapshot))
          (json_obj [
            ("published_snapshot_id", json_str (PublishedConfigSnapshot.snapshot_id snapshot));
            ("checksum",
              json_str (ConfigSnapshot.checksum (PublishedConfigSnapshot.metadata snapshot)))])
          now);
     mret (snapshot_mutation_response snapshot audit_event_id)).

Definition rollback_config_snapshot drawn actor (request : AdminRollbackConfigSnapshotRequest.t) now
    : Eff V :=
  let source_snapshot_id := AdminRollbackConfigSnapshotRequest.source_snapshot_id request in
  lift (validate_idempotency_key (AdminRollbackConfigSnapshotRequest.idempotency_key request));;
  lift (validate_required_reason (AdminRollbackConfigSnapshotRequest.reason request));;
  authorize_admin_route (Drawn.decision drawn) actor "POST" "/admin/v1/config/snapshots:rollback"
    source_snapshot_id now;;
  idempotently actor
    (idempotency_scope_key "config_snapshots:rollback"
       (AdminRollbackConfigSnapshotRequest.idempotency_key request))
    (stable_request_hash (rollback_request_json request)) now
    (before_version ← current_version actor;
     snapshot ← on_config (Publication.rollback_config_snapshot (Drawn.resource drawn)
                  (Drawn.invalidation drawn) (AuthenticatedActor.tenant_id actor)
                  source_snapshot_id (actor_principal_or_actor_id actor) now);
     audit_event_id ← record_config_snapshot_audit (Drawn.audit drawn) actor
       (ConfigSnapshotAuditInput.mk "gateway.config.rollback"
          (PublishedConfigSnapshot.snapshot_id snapshot) before_version
          (Some (PublishedConfigSnapshot.version snapshot))
          (json_obj [
            ("rollback_of", json_str source_snapshot_id);
            ("reason", json_str (AdminRollbackConfigSnapshotRequest.reason request))]) now);
     mret (snapshot_mutation_response snapshot audit_event_id)).

(** ** Emergency operations *)

(** The frame of an emergency handler: checks, authorization of the path on the
    target, idempotency. *)
Definition emergency drawn actor (operation_kind path target : string)
    (request : AdminEmergencyOperationRequest.t) now (operation : Eff V) : Eff V :=
  lift (validate_emergency_operation_request request now);;
  authorize_admin_route (Drawn.decision drawn) actor "POST" path target now;;
  idempotently actor
    (emergency_idempotency_scope_key operation_kind target
       (AdminEmergencyOperationRequest.idempotency_key request))
    (emergency_request_hash target request) now operation.

(** Record the operation and its audit event; the answer. *)
Definition emergency_done drawn actor (operation_kind target_resource_kind target : string)
    (organization_id project_id : option string) (request : AdminEmergencyOperationRequest.t)
    (before_version : option Z) (after_version : EmergencyOperationRecord.t V → option Z)
    (target_diff affected_resource : V) now : Eff V :=
  operation ← create_emergency_operation_record (Drawn.operation drawn) actor
    (EmergencyOperationInput.mk operation_kind target_resource_kind target organization_id project_id
       (AdminEmergencyOperationRequest.reason request)
       (AdminEmergencyOperationRequest.expires_at request)) now;
  audit_event_id ← record_emergency_operation_audit (Drawn.audit drawn) actor operation
    before_version (after_version operation) target_diff now;
  mret (emergency_operation_mutation_response operation affected_resource audit_event_id).

Definition target_status_diff (before after : string) : list (string * V) :=
  [("target_status", status_diff before after)].

Definition emergency_disable_upstream_credential drawn actor (upstream_credential_id : string)
    (request : AdminEmergencyOperationRequest.t) now : Eff V :=
  emergency drawn actor "disable_upstream_credential"
    "/admin/v1/emergency/upstream-credentials/{upstream_credential_id}/disable"
    upstream_credential_id request now
    (before ← reads_draft (upstream_credential_for_actor actor upstream_credential_id);
     expected_version ← lift (required_emergency_expected_version request);
     updated ← on_draft (update_upstream_credential_status upstream_credential_id expected_version
                 UpstreamCredentialStatus.Disabled now);
     emergency_done drawn actor "disable_upstream_credential" "UpstreamCredential"
       (UpstreamCredentialRecord.upstream_credential_id updated)
       (UpstreamCredentialRecord.organization_id updated) None request
       (Some (UpstreamCredentialRecord.resource_version before))
       (λ _, Some (UpstreamCredentialRecord.resource_version updated))
       (json_obj (target_status_diff
          (UpstreamCredentialStatus.as_str (UpstreamCredentialRecord.status before))
          (UpstreamCredentialStatus.as_str (UpstreamCredentialRecord.status updated))))
       (upstream_credential_resource_body updated) now).

Definition emergency_disable_provider_endpoint drawn actor (provider_endpoint_id : string)
    (request : AdminEmergencyOperationRequest.t) now : Eff V :=
  emergency drawn actor "disable_provider_endpoint"
    "/admin/v1/emergency/provider-endpoints/{provider_endpoint_id}/disable"
    provider_endpoint_id request now
    (before ← reads_draft (provider_endpoint_for_actor actor provider_endpoint_id);
     expected_version ← lift (required_emergency_expected_version request);
     updated ← on_draft (update_provider_endpoint_status provider_endpoint_id expected_version
                 ResourceStatus.Disabled now);
     set_endpoint_emergency_drain updated (AdminEmergencyOperationRequest.reason request)
       (AdminEmergencyOperationRequest.expires_at request) now;;
     emergency_done drawn actor "disable_provider_endpoint" "ProviderEndpoint"
       (ProviderEndpointRecord.provider_endpoint_id updated)
       (ProviderEndpointRecord.organization_id updated) None request
       (Some (ProviderEndpointRecord.resource_version before))
       (λ _, Some (ProviderEndpointRecord.resource_version updated))
       (json_obj (target_status_diff
          (ResourceStatus.as_str (ProviderEndpointRecord.status before))
          (ResourceStatus.as_str (ProviderEndpointRecord.status updated))
          ++ [("hot_state_drain_written", json_bool true)]))
       (provider_endpoint_resource_body updated) now).

Definition emergency_drain_routing_group drawn actor (routing_group_id : string)
    (request : AdminEmergencyOperationRequest.t) now : Eff V :=
  emergency drawn actor "drain_routing_group"
    "/admin/v1/emergency/routing-groups/{routing_group_id}/drain"
    routing_group_id request now
    (before ← reads_draft (routing_group_for_actor actor routing_group_id);
     expected_version ← lift (required_emergency_expected_version request);
     updated ← on_draft (update_routing_group_status routing_group_id expected_version
                 ResourceStatus.Draining now);
     emergency_done drawn actor "drain_routing_group" "RoutingGroup"
       (RoutingGroupRecord.routing_group_id updated)
       (RoutingGroupRecord.organization_id updated) None request
       (Some (RoutingGroupRecord.resource_version before))
       (λ _, Some (RoutingGroupRecord.resource_version updated))
       (json_obj (target_status_diff
          (ResourceStatus.as_str (RoutingGroupRecord.status before))
          (ResourceStatus.as_str (RoutingGroupRecord.status updated))))
       (routing_group_resource_body updated) now).

Definition emergency_freeze_config drawn actor (request : AdminEmergencyOperationRequest.t) now
    : Eff V :=
  let tenant_id := AuthenticatedActor.tenant_id actor in
  emergency drawn actor "freeze_config" "/admin/v1/emergency/config/freeze" tenant_id request now
    (emergency_done drawn actor "freeze_config" "Config" tenant_id None None request None
       (λ operation, Some (EmergencyOperationRecord.resource_version operation))
       (json_obj [("config_mutation_gate", json_str "frozen")])
       (json_obj [
         ("kind", json_str "config");
         ("id", json_str tenant_id);
         ("tenant_id", json_str tenant_id);
         ("status", json_str "frozen");
         ("expires_at", json_datetime (AdminEmergencyOperationRequest.expires_at request))]) now).

Definition emergency_rollback_config_snapshot drawn actor (source_snapshot_id : string)
    (request : AdminEmergencyOperationRequest.t) now : Eff V :=
  emergency drawn actor "rollback_config_snapshot"
    "/admin/v1/emergency/config/snapshots/{source_snapshot_id}/rollback"
    source_snapshot_id request now
    (before_version ← current_version actor;
     snapshot ← on_config (Publication.rollback_config_snapshot (Drawn.resource drawn)
                  (Drawn.invalidation drawn) (AuthenticatedActor.tenant_id actor)
                  source_snapshot_id (actor_principal_or_actor_id actor) now);
     let metadata := PublishedConfigSnapshot.metadata snapshot in
     emergency_done drawn actor "rollback_config_snapshot" "ConfigSnapshot" source_snapshot_id
       None None request before_version (λ _, Some (ConfigSnapshot.version metadata))
       (json_obj [
         ("rollback_of", json_str source_snapshot_id);
         ("created_snapshot_id", json_str (ConfigSnapshot.snapshot_id metadata));
         ("created_snapshot_version", json_int (ConfigSnapshot.version metadata))])
       (json_obj [
         ("kind", json_str "config_snapshot");
         ("id", json_str (ConfigSnapshot.snapshot_id metadata));
         ("snapshot_id", json_str (ConfigSnapshot.snapshot_id metadata));
         ("tenant_id", json_str (ConfigSnapshot.tenant_id metadata));
         ("version", json_int (ConfigSnapshot.version metadata));
         ("checksum", json_str (ConfigSnapshot.checksum metadata));
         ("status", json_str (ConfigSnapshotStatus.as_str (ConfigSnapshot.status metadata)));
         ("rollback_of", json_option_str (ConfigSnapshotDocument.rollback_of
            (PublishedConfigSnapshot.document snapshot)));
         ("published_at", json_datetime (PublishedConfigSnapshot.published_at snapshot))]) now).

Definition budget_policy_for_actor actor (id : string) : Eff BudgetPolicyRecord.t := λ s,
  (for_actor "budget policy" (GatewayStore.budget_policies s) BudgetPolicyRecord.tenant_id actor id, s).

Definition emergency_force_budget_block drawn actor (budget_policy_id : string)
    (request : AdminEmergencyOperationRequest.t) now : Eff V :=
  emergency drawn actor "force_budget_block"
    "/admin/v1/emergency/budget-policies/{budget_policy_id}/force-block"
    budget_policy_id request now
    (policy ← budget_policy_for_actor actor budget_policy_id;
     expected_version ← lift (required_emergency_expected_version request);
     lift (ensure_emergency_expected_version expected_version
             (BudgetPolicyRecord.resource_version policy));;
     emergency_done drawn actor "force_budget_block" "BudgetPolicy"
       (BudgetPolicyRecord.budget_policy_id policy) (BudgetPolicyRecord.organization_id policy)
       (BudgetPolicyRecord.project_id policy) request
       (Some (BudgetPolicyRecord.resource_version policy))
       (λ _, Some (BudgetPolicyRecord.resource_version policy))
       (json_obj [
         ("force_block", json_bool true);
         ("policy_scope", json_obj [
            ("kind", json_str (BudgetPolicyRecord.scope_kind policy));
            ("id", json_str (BudgetPolicyRecord.scope_id policy))]);
         ("policy_limit_kind", json_str (BudgetPolicyRecord.limit_kind policy));
         ("policy_overage_mode", json_str (BudgetPolicyRecord.overage_mode policy))])
       (json_obj [
         ("kind", json_str "budget_policy_force_block");
         ("id", json_str (BudgetPolicyRecord.budget_policy_id policy));
         ("tenant_id", json_str (BudgetPolicyRecord.tenant_id policy));
         ("status", json_str "forced_block");
         ("expires_at", json_datetime (AdminEmergencyOperationRequest.expires_at request));
         ("budget_policy", budget_policy_resource_body policy)]) now).
End handlers.
