(* ===== verification/AdminFacts.v ===== *)
(** * What the admin handlers guarantee

    The mutating admin requests as data, and for every one of them: a refused
    request changes nothing, a successful one is audited exactly once, only the
    tenant of the caller is touched, a retried creation is answered from the
    stored response, and a frozen configuration stays as it is. *)

From S2P Require Import Prelude Order Text Domain Action HotState Json Pricing RuntimePolicy Reconciler Delivery CedarPolicy Publication GwRoute AdminRecords DraftCatalog DraftFacts AdminState AdminValidation AdminHandlers AdminEmergency.

Inductive CreateRequest : Set :=
| NewProviderEndpoint (request : AdminCreateProviderEndpointRequest.t)
| NewUpstreamCredential (request : AdminCreateUpstreamCredentialRequest.t)
| NewModelTarget (request : AdminCreateModelTargetRequest.t)
| NewModelAlias (request : AdminCreateModelAliasRequest.t)
| NewRoutePolicy (request : AdminCreateRoutePolicyRequest.t)
| NewProviderGrant (request : AdminCreateProviderGrantRequest.t)
| NewRoutingGroup (request : AdminCreateRoutingGroupRequest.t)
| NewRoutingGroupTarget (routing_group_id : string)
    (request : AdminCreateRoutingGroupTargetRequest.t).

Inductive UpdateRequest : Set :=
| ChangeProviderEndpoint (id : string) (request : AdminUpdateStatusRequest.t)
| ChangeUpstreamCredential (id : string) (request : AdminUpdateUpstreamCredentialRequest.t)
| ChangeModelTarget (id : string) (request : AdminUpdateStatusRequest.t)
| ChangeModelAlias (id : string) (request : AdminUpdateModelAliasRequest.t)
| ChangeRoutePolicy (id : string) (request : AdminUpdateStatusRequest.t)
| ChangeProviderGrant (id : string) (request : AdminUpdateStatusRequest.t)
| ChangeRoutingGroup (id : string) (request : AdminUpdateStatusRequest.t)
| ChangeRoutingGroupTarget (routing_group_id id : string) (request : AdminUpdateStatusRequest.t).

Inductive EmergencyRequest : Set :=
| DisableUpstreamCredential (id : string) (request : AdminEmergencyOperationRequest.t)
| DisableProviderEndpoint (id : string) (request : AdminEmergencyOperationRequest.t)
| DrainRoutingGroup (id : string) (request : AdminEmergencyOperationRequest.t)
| FreezeConfig (request : AdminEmergencyOperationRequest.t)
| EmergencyRollback (source_snapshot_id : string) (request : AdminEmergencyOperationRequest.t)
| ForceBudgetBlock (id : string) (request : AdminEmergencyOperationRequest.t).

Inductive AdminRequest (V : Type) : Type :=
| Create (request : CreateRequest)
| Update (request : UpdateRequest)
| Publish (request : AdminPublishConfigSnapshotRequest.t V)
| Rollback (request : AdminRollbackConfigSnapshotRequest.t)
| Emergency (request : EmergencyRequest).
Arguments Create {V}.
Arguments Update {V}.
Arguments Publish {V}.
Arguments Rollback {V}.
Arguments Emergency {V}.

Section serve.
Context {V : Type} `{JsonLibrary V} `{JsonText V} `{Sha256Library} `{CedarParser} `{ChronoDisplay}.
Abbreviation Store := (GatewayStore.t V).
Abbreviation Eff := (M Store GatewayError.t).
Implicit Types (s : Store) (actor : AuthenticatedActor.t) (now : DateTime) (drawn : Drawn.t).

Definition serve_create drawn actor (request : CreateRequest) now : Eff V :=
  match request with
  | NewProviderEndpoint r => create_provider_endpoint drawn actor r now
  | NewUpstreamCredential r => create_upstream_credential drawn actor r now
  | NewModelTarget r => create_model_target drawn actor r now
  | NewModelAlias r => create_model_alias drawn actor r now
  | NewRoutePolicy r => create_route_policy drawn actor r now
  | NewProviderGrant r => create_provider_grant drawn actor r now
  | NewRoutingGroup r => create_routing_group drawn actor r now
  | NewRoutingGroupTarget g r => create_routing_group_target drawn actor g r now
  end.

Definition serve_update drawn actor (request : UpdateRequest) now : Eff V :=
  match request with
  | ChangeProviderEndpoint i r => update_provider_endpoint drawn actor i r now
  | ChangeUpstreamCredential i r => update_upstream_credential drawn actor i r now
  | ChangeModelTarget i r => update_model_target drawn actor i r now
  | ChangeModelAlias i r => update_model_alias drawn actor i r now
  | ChangeRoutePolicy i r => update_route_policy drawn actor i r now
  | ChangeProviderGrant i r => update_provider_grant drawn actor i r now
  | ChangeRoutingGroup i r => update_routing_group drawn actor i r now
  | ChangeRoutingGroupTarget g i r => update_routing_group_target drawn actor g i r now
  end.

Definition serve_emergency drawn actor (request : EmergencyRequest) now : Eff V :=
  match request with
  | DisableUpstreamCredential i r => emergency_disable_upstream_credential drawn actor i r now
  | DisableProviderEndpoint i r => emergency_disable_provider_endpoint drawn actor i r now
  | DrainRoutingGroup i r => emergency_drain_routing_group drawn actor i r now
  | FreezeConfig r => emergency_freeze_config drawn actor r now
  | EmergencyRollback i r => emergency_rollback_config_snapshot drawn actor i r now
  | ForceBudgetBlock i r => emergency_force_budget_block drawn actor i r now
  end.

(** The handler of each request. *)
Definition serve_admin drawn actor (request : AdminRequest V) now : Eff V :=
  match request with
  | Create r => serve_create drawn actor r now
  | Update r => serve_update drawn actor r now
  | Publish r => AdminEmergency.publish_config_snapshot drawn actor r now
  | Rollback r => AdminEmergency.rollback_config_snapshot drawn actor r now
  | Emergency r => serve_emergency drawn actor r now
  end.

(** ** Steps that only leave evidence *)

(** The two states agree but for recorded decisions, and idempotency records
    that were dropped because they had expired. *)
Record unchanged s s' : Prop := {
  same_draft : GatewayStore.draft s' = GatewayStore.draft s;
  same_config : GatewayStore.config s' = GatewayStore.config s;
  same_budgets : GatewayStore.budget_policies s' = GatewayStore.budget_policies s;
  same_action_grants : GatewayStore.action_grants s' = GatewayStore.action_grants s;
  same_audit : GatewayStore.audit_events s' = GatewayStore.audit_events s;
  same_diagnostics :
    GatewayStore.validation_diagnostics s' = GatewayStore.validation_diagnostics s;
  same_operations : GatewayStore.emergency_operations s' = GatewayStore.emergency_operations s;
  same_hot : GatewayStore.hot_state s' = GatewayStore.hot_state s;
  fewer_records : GatewayStore.idempotency_records s' ⊆ GatewayStore.idempotency_records s;
}.

#[global] Instance unchanged_preorder : PreOrder unchanged.
Proof.
  split.
  - intros s. by split.
  - intros s1 s2 s3 [] []. split; congruence || (by etrans).
Qed.

Lemma authorize_admin_route_result uuid actor method path id now s r s' :
  authorize_admin_route uuid actor method path id now s = (r, s') →
  ∃ decisions, s' = GatewayStore.set_authz_decisions s decisions.
Proof.
  unfold authorize_admin_route.
  destruct (_ ≫= _) as [[route [engine snapshot]]|e].
  - destruct (authorize_route_with_evidence _ _ _ _ _ _ _ _) as [decision decisions].
    case_match; intros [= <- <-]; eauto.
  - intros [= <- <-]. exists (GatewayStore.authz_decisions s). by destruct s.
Qed.

Lemma authorize_admin_route_unchanged uuid actor method path id now s r s' :
  authorize_admin_route uuid actor method path id now s = (r, s') → unchanged s s'.
Proof. intros [decisions ->]%authorize_admin_route_result. by split. Qed.

Lemma idempotency_response_unchanged tenant key hash now s r s' :
  idempotency_response tenant key hash now s = (r, s') → unchanged s s'.
Proof.
  unfold idempotency_response. repeat case_match; intros [= <- <-]; [..|done]; try done.
  split; try done. simpl. apply delete_subseteq.
Qed.

(** ** What a request may change *)

(** The draft operation is on behalf of the tenant: it creates a resource of
    the tenant under the drawn id, or updates one the tenant has. *)
Definition acts_for drawn (tenant : string) (op : DraftOperation) (d : DraftCatalog.t V) : Prop :=
  let creates (uuid request_tenant : string) :=
    uuid = Drawn.resource drawn ∧ request_tenant = tenant in
  let owns {R} (m : gmap string R) (get : R → string) (id : string) :=
    refers m id (λ x, get x = tenant) in
  match op with
  | CreateProviderEndpoint u r _ => creates u (CreateProviderEndpointRequest.tenant_id r)
  | CreateUpstreamCredential u r _ => creates u (CreateUpstreamCredentialRequest.tenant_id r)
  | CreateModelTarget u r _ => creates u (CreateModelTargetRequest.tenant_id r)
  | CreateRoutingGroup u r _ => creates u (CreateRoutingGroupRequest.tenant_id r)
  | CreateRoutingGroupTarget u r _ => creates u (CreateRoutingGroupTargetRequest.tenant_id r)
  | CreateModelAlias u r _ => creates u (CreateModelAliasRequest.tenant_id r)
  | CreateRoutePolicy u r _ => creates u (CreateRoutePolicyRequest.tenant_id r)
  | CreateProviderGrant u r _ => creates u (CreateProviderGrantRequest.tenant_id r)
  | UpdateProviderEndpoint i _ _ _ =>
      owns (DraftCatalog.provider_endpoints d) ProviderEndpointRecord.tenant_id i
  | UpdateUpstreamCredential i _ _ _ =>
      owns (DraftCatalog.upstream_credentials d) UpstreamCredentialRecord.tenant_id i
  | UpdateModelTarget i _ _ _ =>
      owns (DraftCatalog.model_targets d) ModelTargetRecord.tenant_id i
  | UpdateRoutingGroup i _ _ _ =>
      owns (DraftCatalog.routing_groups d) RoutingGroupRecord.tenant_id i
  | UpdateRoutingGroupTarget i _ _ _ =>
      owns (DraftCatalog.routing_group_targets d) RoutingGroupTargetRecord.tenant_id i
  | UpdateModelAlias i _ _ => owns (DraftCatalog.model_aliases d) ModelAliasRecord.tenant_id i
  | UpdateRoutePolicy i _ _ _ =>
      owns (DraftCatalog.route_policies d) RoutePolicyRecord.tenant_id i
  | UpdateProviderGrant i _ _ _ =>
      owns (DraftCatalog.provider_grants d) ProviderGrantRecord.tenant_id i
  end.

(** The configuration store after a publication or a rollback of the tenant. *)
Definition publishes_for drawn (tenant : string) (c c' : ConfigStore.t V) : Prop :=
  ∃ snapshot,
    PublishedConfigSnapshot.tenant_id snapshot = tenant
    ∧ ((∃ request now, PublishConfigSnapshotRequest.tenant_id request = tenant
          ∧ Publication.publish_config_snapshot (Drawn.resource drawn) (Drawn.invalidation drawn)
              request now c = (Ok snapshot, c'))
       ∨ ∃ source by_ now, Publication.rollback_config_snapshot (Drawn.resource drawn)
           (Drawn.invalidation drawn) tenant source by_ now c = (Ok snapshot, c')).

(** What one performed request does: at most one draft operation, one
    publication, one drain and one emergency operation, all of the tenant, and
    exactly one audit event. *)
Record performed drawn actor s s' : Prop := {
  draft_effect : GatewayStore.draft s' = GatewayStore.draft s
    ∨ ∃ op, acts_for drawn (AuthenticatedActor.tenant_id actor) op (GatewayStore.draft s)
            ∧ GatewayStore.draft s' = perform op (GatewayStore.draft s);
  config_effect : GatewayStore.config s' = GatewayStore.config s
    ∨ publishes_for drawn (AuthenticatedActor.tenant_id actor) (GatewayStore.config s)
        (GatewayStore.config s');
  hot_effect : GatewayStore.hot_state s' = GatewayStore.hot_state s
    ∨ ∃ drain, EndpointDrainRecord.tenant_id drain = AuthenticatedActor.tenant_id actor
        ∧ GatewayStore.hot_state s' = HotStore.set_endpoint_drain drain (GatewayStore.hot_state s);
  operations_effect : GatewayStore.emergency_operations s' = GatewayStore.emergency_operations s
    ∨ ∃ o, EmergencyOperationRecord.tenant_id o = AuthenticatedActor.tenant_id actor
        ∧ EmergencyOperationRecord.emergency_operation_id o
          = new_prefixed_id "emop" (Drawn.operation drawn)
        ∧ GatewayStore.emergency_operations s'
          = <[EmergencyOperationRecord.emergency_operation_id o := o]>
              (GatewayStore.emergency_operations s);
  audit_effect : ∃ event,
    AuditEventRecord.tenant_id event = AuthenticatedActor.tenant_id actor
    ∧ AuditEventRecord.actor_id event = AuthenticatedActor.actor_id actor
    ∧ AuditEventRecord.audit_event_id event = new_prefixed_id "aud" (Drawn.audit drawn)
    ∧ GatewayStore.audit_events s' = GatewayStore.audit_events s ++ [event];
  budgets_kept : GatewayStore.budget_policies s' = GatewayStore.budget_policies s;
  grants_kept : GatewayStore.action_grants s' = GatewayStore.action_grants s;
  diagnostics_kept :
    GatewayStore.validation_diagnostics s' = GatewayStore.validation_diagnostics s;
  records_kept : ∀ key, key.1 ≠ AuthenticatedActor.tenant_id actor →
    GatewayStore.idempotency_records s' !! key = GatewayStore.idempotency_records s !! key
    ∨ GatewayStore.idempotency_records s' !! key = None;
}.

(** The state after an operation that answered [r]. *)
Definition outcome drawn actor s (r : result GatewayError.t V) s' : Prop :=
  match r with
  | Err _ => unchanged s s'
  | Ok _ => performed drawn actor s s'
  end.

Lemma performed_after drawn actor s s0 s' :
  unchanged s s0 → performed drawn actor s0 s' → performed drawn actor s s'.
Proof.
  intros [E1 E2 E3 E4 E5 E6 E7 E8 Hr] [].
  rewrite E1, E2, E3, E4, E5, E6, E7, E8 in *. split; try done.
  intros key Hk. destruct (records_kept0 key Hk) as [-> | ->]; [|by right].
  destruct (GatewayStore.idempotency_records s0 !! key) as [x|] eqn:Ex; [|by right].
  left. symmetry. eapply lookup_weaken; done.
Qed.

Lemma outcome_after drawn actor s s0 r s' :
  unchanged s s0 → outcome drawn actor s0 r s' → outcome drawn actor s r s'.
Proof. intros Hs. destruct r; simpl; [by apply performed_after|by etrans]. Qed.

(** A step that only leaves evidence, followed by an operation. *)
Lemma outcome_bind {A} drawn actor (m : Eff A) (f : A → Eff V) s r s' :
  (∀ r s1, m s = (r, s1) → unchanged s s1) →
  (∀ a s1, m s = (Ok a, s1) → ∀ r s', f a s1 = (r, s') → outcome drawn actor s1 r s') →
  (m ≫= f) s = (r, s') → outcome drawn actor s r s'.
Proof.
  intros Hm Hf. unfold mbind, M_bind. destruct (m s) as [[a|e] s1] eqn:E.
  - intros Hrun. eapply outcome_after; [by eapply Hm|by eapply Hf].
  - intros [= <- <-]. by eapply Hm.
Qed.

(** A step that reads, checks or fails. *)
Lemma reads_unchanged {A} (m : Eff A) s :
  (m s).2 = s → ∀ r s1, m s = (r, s1) → unchanged s s1.
Proof. intros Hm r s1 E. rewrite E in Hm. by simpl in Hm; subst. Qed.

Hint Resolve authorize_admin_route_unchanged idempotency_response_unchanged : core.

(** A stored response of the tenant that is still valid. *)
Definition replays actor now s (v : V) : Prop :=
  ∃ key record,
    GatewayStore.idempotency_records s !! (AuthenticatedActor.tenant_id actor, key) = Some record
    ∧ (now < IdempotencyRecord.expires_at record)%Z
    ∧ v = response_with_replay_flag (IdempotencyRecord.response_record record) true.

(** The answer of a handler. *)
Definition served drawn actor now s (r : result GatewayError.t V) s' : Prop :=
  match r with
  | Err _ => unchanged s s'
  | Ok v => performed drawn actor s s' ∨ (unchanged s s' ∧ replays actor now s v)
  end.

Lemma outcome_served drawn actor now s r s' :
  outcome drawn actor s r s' → served drawn actor now s r s'.
Proof. destruct r; simpl; auto. Qed.

Lemma served_bind {A} drawn actor now (m : Eff A) (f : A → Eff V) s r s' :
  (∀ r s1, m s = (r, s1) → unchanged s s1
     ∧ GatewayStore.idempotency_records s1 = GatewayStore.idempotency_records s) →
  (∀ a s1, m s = (Ok a, s1) → ∀ r s', f a s1 = (r, s') → served drawn actor now s1 r s') →
  (m ≫= f) s = (r, s') → served drawn actor now s r s'.
Proof.
  intros Hm Hf. unfold mbind, M_bind. destruct (m s) as [[a|e] s1] eqn:E.
  - destruct (Hm _ _ eq_refl) as [Hu Hi]. intros Hrun. specialize (Hf a s1 eq_refl _ _ Hrun).
    destruct r as [v|e]; simpl in *; [|by etrans]. destruct Hf as [Hp|[Hu' Hr]].
    + left. by eapply performed_after.
    + right. split; [by etrans|]. unfold replays in *. by rewrite <-Hi.
  - intros [= <- <-]. by destruct (Hm _ _ eq_refl).
Qed.

Lemma authorize_keeps_records uuid actor method path id now s r s' :
  authorize_admin_route uuid actor method path id now s = (r, s') →
  unchanged s s' ∧ GatewayStore.idempotency_records s' = GatewayStore.idempotency_records s.
Proof.
  intros Hrun. split; [by eapply authorize_admin_route_unchanged|].
  apply authorize_admin_route_result in Hrun as [decisions ->]. done.
Qed.

Lemma performed_record drawn actor s s' record :
  IdempotencyRecord.tenant_id record = AuthenticatedActor.tenant_id actor →
  performed drawn actor s s' →
  performed drawn actor s (GatewayStore.set_idempotency_records s'
    (<[(IdempotencyRecord.tenant_id record, IdempotencyRecord.scope_key record) := record]>
       (GatewayStore.idempotency_records s'))).
Proof.
  intros Ht []. split; try done. intros key Hk. simpl.
  rewrite lookup_insert_ne; [by apply records_kept0|]. intros <-. by simpl in Hk.
Qed.

Lemma idempotently_served drawn actor scope_key hash now (op : Eff V) s r s' :
  (∀ s r s', op s = (r, s') → outcome drawn actor s r s') →
  idempotently actor scope_key hash now op s = (r, s') → served drawn actor now s r s'.
Proof.
  intros Hop. unfold idempotently, mbind, M_bind.
  destruct (idempotency_response _ _ _ _ s) as [[[v|]|e] s0] eqn:E.
  - intros [= <- <-]. right. split; [by eapply idempotency_response_unchanged|].
    unfold idempotency_response in E.
    destruct (_ !! _) as [record|] eqn:Er; [|done].
    destruct (IdempotencyRecord.expires_at record <=? now)%Z eqn:Ex; [done|].
    destruct (_ !=? hash); [done|]. injection E as <- <-. btrue. by exists scope_key, record.
  - destruct (op s0) as [[v|e] s1] eqn:Eop; intros [= <- <-].
    + left. eapply performed_after; [by eapply idempotency_response_unchanged|].
      apply Hop in Eop. by apply performed_record.
    + apply Hop in Eop. simpl in *. etrans; [by eapply idempotency_response_unchanged|done].
  - intros [= <- <-]. by eapply idempotency_response_unchanged.
Qed.

(** ** Operations of the draft catalog *)

(** The operation leaves the catalog alone when it fails. *)
Definition fails_clean {R} (m : M (DraftCatalog.t V) GatewayError.t R) : Prop :=
  ∀ d e d', m d = (Err e, d') → d' = d.

Lemma on_table_clean {R A} (get : DraftCatalog.t V → gmap string R) set
    (op : gmap string R → result GatewayError.t (A * gmap string R)) :
  fails_clean (on_table get set op).
Proof.
  intros d e d'. unfold on_table. destruct (op (get d)) as [[? ?]|]; by intros [= <- <-].
Qed.

Lemma check_clean {C R} (check : DraftCatalog.t V → result GatewayError.t C)
    (create : C → M (DraftCatalog.t V) GatewayError.t R) :
  (∀ c, fails_clean (create c)) →
  fails_clean (λ d, match check d with Ok c => create c d | Err e => (Err e, d) end).
Proof.
  intros Hc d e d'. destruct (check d); [apply Hc|by intros [= <- <-]].
Qed.

Lemma insert_new_clean {R} (get : DraftCatalog.t V → gmap string R) set id (record : R) :
  fails_clean (insert_new get set id record).
Proof. by intros d e d'. Qed.

(** Do the draft operation, audit it, answer. *)
Lemma draft_change_outcome {R} drawn actor (m : M (DraftCatalog.t V) GatewayError.t R)
    (op : DraftOperation) (input : R → AdminResourceAuditInput.t V) (answer : R → string → V) s r s' :
  fails_clean m → (m (GatewayStore.draft s)).2 = perform op (GatewayStore.draft s) →
  acts_for drawn (AuthenticatedActor.tenant_id actor) op (GatewayStore.draft s) →
  (record ← on_draft m;
   audit_event_id ← record_admin_resource_audit (Drawn.audit drawn) actor (input record);
   mret (answer record audit_event_id)) s = (r, s') →
  outcome drawn actor s r s'.
Proof.
  intros Hclean Hop Hacts. unfold mbind, M_bind, on_draft.
  destruct (m (GatewayStore.draft s)) as [[x|e] d] eqn:E; simpl in *; intros [= <- <-].
  - subst d. split; simpl; try done; try (by left); [by right; exists op|].
    eexists. split_and!; [..|reflexivity]; done.
  - apply Hclean in E as ->. by split.
Qed.

Lemma lift_keeps {A} (x : result GatewayError.t A) s r s1 :
  lift x s = (r, s1) →
  unchanged s s1 ∧ GatewayStore.idempotency_records s1 = GatewayStore.idempotency_records s.
Proof. by intros [= <- <-]. Qed.

Lemma reads_draft_keeps {A} (f : DraftCatalog.t V → result GatewayError.t A) s r s1 :
  reads_draft f s = (r, s1) →
  unchanged s s1 ∧ GatewayStore.idempotency_records s1 = GatewayStore.idempotency_records s.
Proof. by intros [= <- <-]. Qed.

Lemma create_resource_served {R} (res : AdminResource.t V R) drawn actor id operation key request
    errors_first errors (m : M (DraftCatalog.t V) GatewayError.t R) (op : DraftOperation) now s r s' :
  fails_clean m → (∀ d, (m d).2 = perform op d) →
  (∀ d, acts_for drawn (AuthenticatedActor.tenant_id actor) op d) →
  create_resource res drawn actor id operation key request errors_first errors m now s = (r, s') →
  served drawn actor now s r s'.
Proof.
  intros Hclean Hop Hacts. unfold create_resource. cbv zeta.
  apply served_bind; [apply lift_keeps|intros _ s1 _ ? ?].
  apply served_bind; [apply authorize_keeps_records|intros _ s2 _ ? ?].
  apply served_bind; [destruct errors_first; [apply reads_draft_keeps|by intros ? ? [= <- <-]]|].
  intros _ s3 _ ? ?. apply idempotently_served. clear -Hclean Hop Hacts. intros s r s'.
  apply outcome_bind.
  { destruct errors_first; [by intros ? ? [= <- <-]|by intros ? ? [= <- <-]]. }
  intros _ s1 _ ? ?. by eapply draft_change_outcome.
Qed.

Lemma update_resource_served {R} (res : AdminResource.t V R) drawn actor id find check
    (m : M (DraftCatalog.t V) GatewayError.t R) diff (op : DraftOperation) now s r s' :
  fails_clean m → (∀ d, (m d).2 = perform op d) →
  (∀ d x, find d = Ok x → acts_for drawn (AuthenticatedActor.tenant_id actor) op d) →
  update_resource res drawn actor id find check m diff now s = (r, s') →
  served drawn actor now s r s'.
Proof.
  intros Hclean Hop Hacts. unfold update_resource.
  apply served_bind; [apply authorize_keeps_records|intros _ s1 _ ? ?].
  apply served_bind; [apply reads_draft_keeps|intros x s2 [= Hx <-] ? ?].
  apply served_bind; [apply reads_draft_keeps|intros [] s3 [= _ <-] ? ?].
  intros Hrun. eapply outcome_served, draft_change_outcome;
    [exact Hclean|apply Hop|by eapply Hacts|exact Hrun].
Qed.

Lemma for_actor_found {R} noun (m : gmap string R) tenant actor id x :
  for_actor noun m tenant actor id = Ok x ↔
  m !! id = Some x ∧ tenant x = AuthenticatedActor.tenant_id actor.
Proof.
  unfold for_actor. destruct (m !! id) as [y|]; simpl; [|naive_solver].
  case_bool_decide; simpl; naive_solver.
Qed.

Lemma for_actor_owns {R} noun (m : gmap string R) tenant actor id x :
  for_actor noun m tenant actor id = Ok x →
  refers m id (λ y, tenant y = AuthenticatedActor.tenant_id actor).
Proof. intros [Hx Ht]%for_actor_found. by exists x. Qed.

(** Creations fail cleanly. *)
#[local] Tactic Notation "creates" open_constr(o) reference(f) :=
  eapply create_resource_served with (op := o); [|by intros..];
  intros d e d'; simpl;
  unfold f; match goal with |- context [match ?c with Ok _ => _ | Err _ => _ end] => destruct c end;
  repeat match goal with x : (_ * _)%type |- _ => destruct x end; by intros [= <- <-].

Lemma serve_create_served drawn actor request now s r s' :
  serve_create drawn actor request now s = (r, s') → served drawn actor now s r s'.
Proof.
  destruct request as [q|q|q|q|q|q|q|g q]; simpl.
  - creates (CreateProviderEndpoint _ _ _) DraftCatalog.create_provider_endpoint.
  - creates (CreateUpstreamCredential _ _ _) DraftCatalog.create_upstream_credential.
  - creates (CreateModelTarget _ _ _) DraftCatalog.create_model_target.
  - creates (CreateModelAlias _ _ _) DraftCatalog.create_model_alias.
  - creates (CreateRoutePolicy _ _ _) DraftCatalog.create_route_policy.
  - creates (CreateProviderGrant _ _ _) DraftCatalog.create_provider_grant.
  - creates (CreateRoutingGroup _ _ _) DraftCatalog.create_routing_group.
  - creates (CreateRoutingGroupTarget _ _ _) DraftCatalog.create_routing_group_target.
Qed.

#[local] Tactic Notation "updates" open_constr(o) :=
  eapply update_resource_served with (op := o);
  [apply on_table_clean|by intros|intros d x Hx; by eapply for_actor_owns].

Lemma update_model_alias_clean i request now :
  fails_clean (DraftCatalog.update_model_alias i request now).
Proof.
  intros d e d'. unfold DraftCatalog.update_model_alias. destruct (_ && _); [by intros [= <- <-]|].
  match goal with |- context [match ?c with Ok _ => _ | Err _ => _ end] => destruct c end;
    [apply on_table_clean|by intros [= <- <-]].
Qed.

Lemma serve_update_served drawn actor request now s r s' :
  serve_update drawn actor request now s = (r, s') → served drawn actor now s r s'.
Proof.
  destruct request as [i q|i q|i q|i q|i q|i q|i q|g i q]; simpl.
  - updates (UpdateProviderEndpoint _ _ _ _).
  - updates (UpdateUpstreamCredential _ _ _ _).
  - updates (UpdateModelTarget _ _ _ _).
  - eapply update_resource_served with (op := UpdateModelAlias _ _ _);
      [apply update_model_alias_clean|by intros|intros d x Hx; by eapply for_actor_owns].
  - updates (UpdateRoutePolicy _ _ _ _).
  - updates (UpdateProviderGrant _ _ _ _).
  - updates (UpdateRoutingGroup _ _ _ _).
  - eapply update_resource_served with (op := UpdateRoutingGroupTarget _ _ _ _);
      [apply on_table_clean|by intros|].
    intros d x. unfold routing_group_target_for_actor, routing_group_target.
    destruct (routing_group_for_actor actor g d); simpl; [|done].
    destruct (_ !! i) as [y|] eqn:E; [|done]. destruct (_ && _) eqn:Et; [|done]. btrue.
    intros _. by exists y.
Qed.

(** ** Publication *)

Lemma publish_for drawn actor request now c r c' :
  PublishConfigSnapshotRequest.tenant_id request = AuthenticatedActor.tenant_id actor →
  Publication.publish_config_snapshot (Drawn.resource drawn) (Drawn.invalidation drawn) request now c
    = (r, c') →
  match r with
  | Ok _ => publishes_for drawn (AuthenticatedActor.tenant_id actor) c c'
  | Err _ => c' = c
  end.
Proof.
  intros Ht Hrun. pose proof Hrun as Hsave. revert Hrun.
  unfold Publication.publish_config_snapshot, lift, mbind, M_bind.
  destruct (validate_config_snapshot_payload _); intros [= <- <-]; [|done].
  eexists. split; [|left; by exists request, now]. done.
Qed.

Lemma rollback_for drawn tenant source by_ now c r c' :
  Publication.rollback_config_snapshot (Drawn.resource drawn) (Drawn.invalidation drawn) tenant
    source by_ now c = (r, c') →
  match r with Ok _ => publishes_for drawn tenant c c' | Err _ => c' = c end.
Proof.
  intros Hrun. pose proof Hrun as Hsave. revert Hrun. unfold Publication.rollback_config_snapshot.
  repeat case_match; intros [= <- <-]; try done.
  eexists. split; [|right; by exists source, by_, now]. done.
Qed.

(** Publish, audit, answer. *)
Lemma config_change_outcome drawn actor (m : M (ConfigStore.t V) GatewayError.t _)
    (input : option Z → PublishedConfigSnapshot.t V → ConfigSnapshotAuditInput.t V) s r s' :
  (∀ r c', m (GatewayStore.config s) = (r, c') →
     match r with
     | Ok _ => publishes_for drawn (AuthenticatedActor.tenant_id actor) (GatewayStore.config s) c'
     | Err _ => c' = GatewayStore.config s
     end) →
  (before ← current_version actor;
   snapshot ← on_config m;
   audit_event_id ← record_config_snapshot_audit (Drawn.audit drawn) actor (input before snapshot);
   mret (snapshot_mutation_response snapshot audit_event_id)) s = (r, s') →
  outcome drawn actor s r s'.
Proof.
  intros Hm. unfold mbind, M_bind, current_version, gets, on_config.
  destruct (m (GatewayStore.config s)) as [[x|e] c] eqn:E; specialize (Hm _ _ eq_refl);
    simpl in *; intros [= <- <-].
  - split; simpl; try done; try (by left); [by right|].
    eexists. split_and!; [..|reflexivity]; done.
  - subst c. by split.
Qed.

Lemma publish_served drawn actor request now s r s' :
  AdminEmergency.publish_config_snapshot drawn actor request now s = (r, s') →
  served drawn actor now s r s'.
Proof.
  unfold AdminEmergency.publish_config_snapshot.
  apply served_bind; [apply lift_keeps|intros _ s1 _ ? ?].
  apply served_bind; [apply authorize_keeps_records|intros _ s2 _ ? ?].
  apply idempotently_served. intros s3 ? ?. apply config_change_outcome. intros ? ?.
  by apply publish_for.
Qed.

Lemma rollback_served drawn actor request now s r s' :
  AdminEmergency.rollback_config_snapshot drawn actor request now s = (r, s') →
  served drawn actor now s r s'.
Proof.
  unfold AdminEmergency.rollback_config_snapshot. cbv zeta.
  apply served_bind; [apply lift_keeps|intros _ s1 _ ? ?].
  apply served_bind; [apply lift_keeps|intros _ s2 _ ? ?].
  apply served_bind; [apply authorize_keeps_records|intros _ s3 _ ? ?].
  apply idempotently_served. intros s4 ? ?. apply config_change_outcome. intros ? ?.
  by apply rollback_for.
Qed.

(** ** Emergency operations *)

(** What the checks at the start of the handler ensure: recording the operation
    cannot fail. *)
Definition recordable (request : AdminEmergencyOperationRequest.t) now : Prop :=
  trim (AdminEmergencyOperationRequest.reason request) ≠ ""
  ∧ (now < AdminEmergencyOperationRequest.expires_at request)%Z.

Lemma emergency_request_recordable request now u :
  validate_emergency_operation_request request now = Ok u → recordable request now.
Proof.
  unfold validate_emergency_operation_request, validate_required_reason. intros Hv. passed Hv.
  btrue. split; [|done]. case_bool_decide; done.
Qed.

(** The state after the operation and its audit event. *)
Lemma emergency_done_run drawn actor kind rkind target o p request before after diff affected now s :
  recordable request now →
  ∃ v operation event,
    EmergencyOperationRecord.tenant_id operation = AuthenticatedActor.tenant_id actor
    ∧ EmergencyOperationRecord.emergency_operation_id operation
      = new_prefixed_id "emop" (Drawn.operation drawn)
    ∧ EmergencyOperationRecord.operation_kind operation = kind
    ∧ EmergencyOperationRecord.status operation = "applied"
    ∧ EmergencyOperationRecord.expires_at operation
      = AdminEmergencyOperationRequest.expires_at request
    ∧ EmergencyOperationRecord.target_resource_kind operation = rkind
    ∧ EmergencyOperationRecord.target_resource_id operation = target
    ∧ AuditEventRecord.tenant_id event = AuthenticatedActor.tenant_id actor
    ∧ AuditEventRecord.actor_id event = AuthenticatedActor.actor_id actor
    ∧ AuditEventRecord.audit_event_id event = new_prefixed_id "aud" (Drawn.audit drawn)
    ∧ emergency_done drawn actor kind rkind target o p request before after diff affected now s
      = (Ok v, GatewayStore.set_audit_events
           (GatewayStore.set_emergency_operations s
              (<[EmergencyOperationRecord.emergency_operation_id operation := operation]>
                 (GatewayStore.emergency_operations s)))
           (GatewayStore.audit_events s ++ [event])).
Proof.
  intros [Hr Hx]. unfold emergency_done, create_emergency_operation_record,
    create_emergency_operation, record_emergency_operation_audit, mbind, M_bind. simpl.
  rewrite bool_decide_false by done.
  replace (_ <=? now)%Z with false by (symmetry; by apply Z.leb_gt). simpl.
  eexists _, (EmergencyOperationRecord.mk _ _ _ _ _ _ _ _ _ _ _ _ _ _ _ _), _. simpl.
  split_and!; [..|reflexivity]; done.
Qed.

Lemma emergency_served drawn actor kind path target request now op s r s' :
  (recordable request now → ∀ s r s', op s = (r, s') → outcome drawn actor s r s') →
  emergency drawn actor kind path target request now op s = (r, s') →
  served drawn actor now s r s'.
Proof.
  intros Hop. unfold emergency.
  apply served_bind; [apply lift_keeps|intros u s1 [= Hv _] ? ?].
  apply emergency_request_recordable in Hv.
  apply served_bind; [apply authorize_keeps_records|intros _ s2 _ ? ?].
  by apply idempotently_served, Hop.
Qed.

(** The end of an emergency handler, after a change [s0] of the state [s] that
    is not yet audited. *)
Lemma emergency_done_outcome drawn actor kind rkind target o p request before after diff affected now
    s s0 r s' :
  recordable request now →
  (GatewayStore.draft s0 = GatewayStore.draft s
   ∨ ∃ op, acts_for drawn (AuthenticatedActor.tenant_id actor) op (GatewayStore.draft s)
           ∧ GatewayStore.draft s0 = perform op (GatewayStore.draft s)) →
  (GatewayStore.config s0 = GatewayStore.config s
   ∨ publishes_for drawn (AuthenticatedActor.tenant_id actor) (GatewayStore.config s)
       (GatewayStore.config s0)) →
  (GatewayStore.hot_state s0 = GatewayStore.hot_state s
   ∨ ∃ drain, EndpointDrainRecord.tenant_id drain = AuthenticatedActor.tenant_id actor
       ∧ GatewayStore.hot_state s0 = HotStore.set_endpoint_drain drain (GatewayStore.hot_state s)) →
  s0 = GatewayStore.mk (GatewayStore.draft s0) (GatewayStore.config s0)
         (GatewayStore.budget_policies s) (GatewayStore.action_grants s)
         (GatewayStore.authz_decisions s) (GatewayStore.audit_events s)
         (GatewayStore.validation_diagnostics s) (GatewayStore.idempotency_records s)
         (GatewayStore.emergency_operations s) (GatewayStore.hot_state s0) →
  emergency_done drawn actor kind rkind target o p request before after diff affected now s0
    = (r, s') →
  outcome drawn actor s r s'.
Proof.
  intros Hrec Hd Hc Hh Hs0.
  destruct (emergency_done_run drawn actor kind rkind target o p request before after diff affected
              now s0 Hrec) as (v & operation & event & ? & ? & _ & _ & _ & _ & _ & ? & ? & ? & ->).
  intros [= <- <-]. rewrite Hs0. split; simpl; try done; [|by eexists|by left].
  right. by exists operation.
Qed.

(** The frame of the operations that change the status of a draft resource. *)
Lemma emergency_update_outcome {R} drawn actor (find : DraftCatalog.t V → result GatewayError.t R)
    (request : AdminEmergencyOperationRequest.t)
    (update : Z → M (DraftCatalog.t V) GatewayError.t R) (op : Z → DraftOperation)
    (rest : R → R → Eff V) s r s' :
  (∀ v, fails_clean (update v)) → (∀ v d, (update v d).2 = perform (op v) d) →
  (∀ v d x, find d = Ok x → acts_for drawn (AuthenticatedActor.tenant_id actor) (op v) d) →
  (∀ v x u r s', find (GatewayStore.draft s) = Ok x →
     update v (GatewayStore.draft s) = (Ok u, perform (op v) (GatewayStore.draft s)) →
     acts_for drawn (AuthenticatedActor.tenant_id actor) (op v) (GatewayStore.draft s) →
     rest x u (GatewayStore.set_draft s (perform (op v) (GatewayStore.draft s))) = (r, s') →
     outcome drawn actor s r s') →
  (before ← reads_draft find;
   expected_version ← lift (required_emergency_expected_version request);
   updated ← on_draft (update expected_version);
   rest before updated) s = (r, s') →
  outcome drawn actor s r s'.
Proof.
  intros Hclean Hop Hacts Hrest.
  apply outcome_bind; [by intros ? ? [= <- <-]|intros x s1 [= Hx <-] ? ?].
  apply outcome_bind; [by intros ? ? [= <- <-]|intros v s2 [= Hv <-] ? ?].
  unfold mbind, M_bind, on_draft. specialize (Hop v (GatewayStore.draft s)).
  destruct (update v (GatewayStore.draft s)) as [[u|e] d] eqn:E; simpl in *.
  - subst d. exact (Hrest v x u _ _ Hx E (Hacts _ _ _ Hx)).
  - apply Hclean in E as ->. intros [= <- <-]. by split.
Qed.

Lemma updated_endpoint_tenant i v st now (d d' : DraftCatalog.t V) x u actor :
  provider_endpoint_for_actor actor i d = Ok x →
  update_provider_endpoint_status i v st now d = (Ok u, d') →
  ProviderEndpointRecord.tenant_id u = AuthenticatedActor.tenant_id actor.
Proof.
  intros (y & Hy & Ht)%for_actor_owns. unfold update_provider_endpoint_status, on_table,
    update_versioned. rewrite Hy. destruct (_ !=? _); simpl; [done|]. by intros [= <- <-].
Qed.

Lemma serve_emergency_served drawn actor request now s r s' :
  serve_emergency drawn actor request now s = (r, s') → served drawn actor now s r s'.
Proof.
  destruct request as [i q|i q|i q|q|i q|i q]; simpl; apply emergency_served; intros Hrec s0 ? ?.
  - eapply emergency_update_outcome with
      (op := λ v, UpdateUpstreamCredential i v UpstreamCredentialStatus.Disabled now);
      [intros; apply on_table_clean|by intros|intros ? ? ? Hx; by eapply for_actor_owns|].
    intros v x u r1 s1 _ _ Ha. apply emergency_done_outcome; simpl; try done; try (by left).
    right. by eexists.
  - eapply emergency_update_outcome with
      (op := λ v, UpdateProviderEndpoint i v ResourceStatus.Disabled now);
      [intros; apply on_table_clean|by intros|intros ? ? ? Hx; by eapply for_actor_owns|].
    intros v x u r1 s1 Hx Hu Ha. pose proof (updated_endpoint_tenant _ _ _ _ _ _ _ _ _ Hx Hu).
    unfold mbind at 1, M_bind at 1, set_endpoint_emergency_drain.
    destruct (ConfigStore.config_publication _ _) as [publication|];
      apply emergency_done_outcome; simpl; try done; try (by left); try (right; by eexists).
    right. eexists. split; [|reflexivity]. done.
  - eapply emergency_update_outcome with
      (op := λ v, UpdateRoutingGroup i v ResourceStatus.Draining now);
      [intros; apply on_table_clean|by intros|intros ? ? ? Hx; by eapply for_actor_owns|].
    intros v x u r1 s1 _ _ Ha. apply emergency_done_outcome; simpl; try done; try (by left).
    right. by eexists.
  - apply emergency_done_outcome; try done; try (by left). by destruct s0.
  - unfold mbind, M_bind, current_version, gets, on_config.
    destruct (Publication.rollback_config_snapshot _ _ _ _ _ _ _) as [[x|e] c] eqn:E;
      apply rollback_for in E.
    + apply emergency_done_outcome; simpl; try done; try (by left). by right.
    + subst c. intros [= <- <-]. by split.
  - apply outcome_bind; [by intros ? ? [= <- <-]|intros x s1 [= Hx <-] ? ?].
    apply outcome_bind; [by intros ? ? [= <- <-]|intros v s2 [= Hv <-] ? ?].
    apply outcome_bind; [by intros ? ? [= <- <-]|intros ? s3 [= ? <-] ? ?].
    apply emergency_done_outcome; try done; try (by left). by destruct s0.
Qed.

Lemma serve_admin_served drawn actor request now s r s' :
  serve_admin drawn actor request now s = (r, s') → served drawn actor now s r s'.
Proof.
  destruct request; simpl; eauto using serve_create_served, serve_update_served, publish_served,
    rollback_served, serve_emergency_served.
Qed.

(** C11. A mutating admin request (creating or updating a draft resource,
    publishing, rolling back, any emergency operation) is all or nothing: when it
    is refused, nothing changes but the recorded authorization decisions and
    expired idempotency records; when it succeeds, either it was performed and
    audited by exactly one event of the caller, with at most one draft operation,
    publication, drain and emergency operation, all of the caller's tenant, or
    nothing changed and the answer is a stored response that has not expired. *)
Theorem admin_requests_atomic drawn actor request now s r s' :
  serve_admin drawn actor request now s = (r, s') →
  match r with
  | Err _ => unchanged s s'
  | Ok v => performed drawn actor s s' ∨ (unchanged s s' ∧ replays actor now s v)
  end.
Proof. apply serve_admin_served. Qed.

(** ** Tenants *)

(** The drawn ids are not in use. *)
Record fresh_draws drawn s : Prop := {
  fresh_endpoint : DraftCatalog.provider_endpoints (GatewayStore.draft s)
    !! new_prefixed_id "pep" (Drawn.resource drawn) = None;
  fresh_credential : DraftCatalog.upstream_credentials (GatewayStore.draft s)
    !! new_prefixed_id "upc" (Drawn.resource drawn) = None;
  fresh_target : DraftCatalog.model_targets (GatewayStore.draft s)
    !! new_prefixed_id "mt" (Drawn.resource drawn) = None;
  fresh_group : DraftCatalog.routing_groups (GatewayStore.draft s)
    !! new_prefixed_id "rg" (Drawn.resource drawn) = None;
  fresh_member : DraftCatalog.routing_group_targets (GatewayStore.draft s)
    !! new_prefixed_id "rgt" (Drawn.resource drawn) = None;
  fresh_alias : DraftCatalog.model_aliases (GatewayStore.draft s)
    !! new_prefixed_id "ma" (Drawn.resource drawn) = None;
  fresh_policy : DraftCatalog.route_policies (GatewayStore.draft s)
    !! new_prefixed_id "rp" (Drawn.resource drawn) = None;
  fresh_grant : DraftCatalog.provider_grants (GatewayStore.draft s)
    !! new_prefixed_id "pg" (Drawn.resource drawn) = None;
  fresh_operation : GatewayStore.emergency_operations s
    !! new_prefixed_id "emop" (Drawn.operation drawn) = None;
}.

(** The two tables have the same records of the tenants with [P]. *)
Definition agree {R} (tenant : R → string) (P : string → Prop) (m m' : gmap string R) : Prop :=
  ∀ id x, P (tenant x) → m !! id = Some x ↔ m' !! id = Some x.

(** All tenants but one. *)
Definition others (mine tenant : string) : Prop := tenant ≠ mine.

Lemma agree_refl {R} (tenant : R → string) P m : agree tenant P m m.
Proof. done. Qed.

Lemma agree_trans {R} (tenant : R → string) P m1 m2 m3 :
  agree tenant P m1 m2 → agree tenant P m2 m3 → agree tenant P m1 m3.
Proof. intros H12 H23 id x Hx. etrans; [by apply H12|by apply H23]. Qed.

Lemma agree_weaken {R} (tenant : R → string) (P Q : string → Prop) m m' :
  (∀ t, Q t → P t) → agree tenant P m m' → agree tenant Q m m'.
Proof. intros HQ Hm id x Hx. by apply Hm, HQ. Qed.

Lemma foreign_insert {R} (tenant : R → string) mine (m : gmap string R) id x :
  (∀ y, m !! id = Some y → tenant y = mine) → tenant x = mine →
  agree tenant (others mine) m (<[id := x]> m).
Proof.
  intros Hold Hx id' y Hy. destruct (decide (id = id')) as [<-|Hne].
  - rewrite lookup_insert_eq. split; [intros E; by apply Hold in E|intros [= <-]; by destruct Hy].
  - by rewrite lookup_insert_ne.
Qed.

Lemma foreign_create {R} (tenant : R → string) mine (m : gmap string R) id x :
  m !! id = None → tenant x = mine → agree tenant (others mine) m (<[id := x]> m).
Proof. intros Hm. apply foreign_insert. intros y. by rewrite Hm. Qed.

Record draft_agree (P : string → Prop) (d d' : DraftCatalog.t V) : Prop := {
  foreign_endpoints : agree ProviderEndpointRecord.tenant_id P
    (DraftCatalog.provider_endpoints d) (DraftCatalog.provider_endpoints d');
  foreign_credentials : agree UpstreamCredentialRecord.tenant_id P
    (DraftCatalog.upstream_credentials d) (DraftCatalog.upstream_credentials d');
  foreign_targets : agree ModelTargetRecord.tenant_id P
    (DraftCatalog.model_targets d) (DraftCatalog.model_targets d');
  foreign_groups : agree RoutingGroupRecord.tenant_id P
    (DraftCatalog.routing_groups d) (DraftCatalog.routing_groups d');
  foreign_members : agree RoutingGroupTargetRecord.tenant_id P
    (DraftCatalog.routing_group_targets d) (DraftCatalog.routing_group_targets d');
  foreign_aliases : agree ModelAliasRecord.tenant_id P
    (DraftCatalog.model_aliases d) (DraftCatalog.model_aliases d');
  foreign_policies : agree RoutePolicyRecord.tenant_id P
    (DraftCatalog.route_policies d) (DraftCatalog.route_policies d');
  foreign_grants : agree ProviderGrantRecord.tenant_id P
    (DraftCatalog.provider_grants d) (DraftCatalog.provider_grants d');
}.

Lemma draft_agree_refl P d : draft_agree P d d.
Proof. by split. Qed.

Lemma draft_agree_trans P d1 d2 d3 :
  draft_agree P d1 d2 → draft_agree P d2 d3 → draft_agree P d1 d3.
Proof. intros [] []. split; by eapply agree_trans. Qed.

Lemma draft_agree_weaken (P Q : string → Prop) d d' :
  (∀ t, Q t → P t) → draft_agree P d d' → draft_agree Q d d'.
Proof. intros HQ []. split; by eapply agree_weaken. Qed.

Lemma update_foreign {R} (get : DraftCatalog.t V → gmap string R) set (tenant : R → string) mine noun
    version change id expected d :
  (∀ m, agree tenant (others mine) (get d) m → draft_agree (others mine) d (set d m)) →
  (∀ x, tenant (change x) = tenant x) →
  refers (get d) id (λ x, tenant x = mine) →
  draft_agree (others mine) d (on_table get set (update_versioned noun version change id expected) d).2.
Proof.
  intros Hset Hch (x & Hx & Ht). unfold on_table, update_versioned. rewrite Hx.
  destruct (_ !=? _); simpl; [apply draft_agree_refl|].
  apply Hset, foreign_insert; [intros y Hy; congruence|by rewrite Hch].
Qed.

#[local] Ltac foreign_table := intros m Hm; split; simpl; try apply agree_refl; exact Hm.
#[local] Ltac foreign_new :=
  match goal with |- draft_agree _ _ (match ?c with Ok _ => _ | Err _ => _ end).2 =>
    destruct c; [|apply draft_agree_refl] end;
  repeat match goal with x : (_ * _)%type |- _ => destruct x end;
  split; simpl; try apply agree_refl; by apply foreign_create.

Lemma perform_foreign drawn mine op s :
  fresh_draws drawn s → acts_for drawn mine op (GatewayStore.draft s) →
  draft_agree (others mine) (GatewayStore.draft s) (perform op (GatewayStore.draft s)).
Proof.
  intros Hf Ha. destruct Hf, op; simpl in Ha.
  all: try (destruct Ha as [-> Ht]).
  all: try (eapply update_foreign; [foreign_table|done|exact Ha]).
  - unfold perform, DraftCatalog.create_provider_endpoint. foreign_new.
  - unfold perform, DraftCatalog.create_upstream_credential. foreign_new.
  - unfold perform, DraftCatalog.create_model_target. foreign_new.
  - unfold perform, DraftCatalog.create_routing_group. foreign_new.
  - unfold perform, DraftCatalog.create_routing_group_target. foreign_new.
  - unfold perform, DraftCatalog.create_model_alias. foreign_new.
  - unfold perform, DraftCatalog.update_model_alias. destruct (_ && _); [apply draft_agree_refl|].
    match goal with |- draft_agree _ _ (match ?c with Ok _ => _ | Err _ => _ end).2 =>
      destruct c; [|apply draft_agree_refl] end.
    eapply update_foreign; [foreign_table|done|exact Ha].
  - unfold perform, DraftCatalog.create_route_policy. foreign_new.
  - unfold perform, DraftCatalog.create_provider_grant. foreign_new.
Qed.

(** What another tenant sees of the configuration store. *)
Record config_foreign (other : string) (c c' : ConfigStore.t V) : Prop := {
  foreign_snapshots :
    List.filter (λ x, PublishedConfigSnapshot.tenant_id x ==? other) (ConfigStore.config_snapshots c')
    = List.filter (λ x, PublishedConfigSnapshot.tenant_id x ==? other)
        (ConfigStore.config_snapshots c);
  foreign_publication :
    ConfigStore.config_publication other c' = ConfigStore.config_publication other c;
  foreign_invalidations :
    ConfigStore.config_invalidation_events_for_tenant other c'
    = ConfigStore.config_invalidation_events_for_tenant other c;
}.

Lemma insert_snapshot_foreign other uuid snapshot (c : ConfigStore.t V) :
  PublishedConfigSnapshot.tenant_id snapshot ≠ other →
  config_foreign other c (ConfigStore.insert_config_snapshot uuid snapshot c).
Proof.
  intros Hne. unfold PublishedConfigSnapshot.tenant_id in Hne. split.
  - simpl. rewrite List.filter_app. simpl. unfold PublishedConfigSnapshot.tenant_id at 2.
    by rewrite bool_decide_false, app_nil_r.
  - unfold ConfigStore.config_publication. simpl. by rewrite lookup_insert_ne.
  - unfold ConfigStore.config_invalidation_events_for_tenant. simpl.
    rewrite List.filter_app. simpl. by rewrite bool_decide_false, app_nil_r.
Qed.

Lemma publishes_foreign drawn mine other c c' :
  publishes_for drawn mine c c' → other ≠ mine → config_foreign other c c'.
Proof.
  intros (snapshot & Ht & Hrun) Hne.
  assert (c' = ConfigStore.insert_config_snapshot (Drawn.invalidation drawn) snapshot c) as ->.
  { destruct Hrun as [(request & now & _ & Hrun)|(source & by_ & now & Hrun)]; revert Hrun.
    - unfold Publication.publish_config_snapshot, lift, mbind, M_bind.
      destruct (validate_config_snapshot_payload _); by intros [= <- <-].
    - unfold Publication.rollback_config_snapshot. repeat case_match; by intros [= <- <-]. }
  apply insert_snapshot_foreign. congruence.
Qed.
End serve.
