(* ===== verification/AdminGuards.v ===== *)
(** * Freezes and retries of admin requests

    A frozen configuration stays as it is until the freeze expires: what a freeze
    refuses, what it lets through, and what a tenant can still publish while it
    is in force.  Creations, publications, rollbacks and emergency operations
    carry an idempotency key: however often such a request is sent, and whatever
    happens in between, it is performed at most once within a day. *)

From S2P Require Import Prelude Order Text Domain Action HotState Json Pricing RuntimePolicy Reconciler Delivery CedarPolicy Publication PublicationFacts GwRoute AdminRecords DraftCatalog DraftFacts AdminState AdminValidation AdminHandlers AdminEmergency AdminFacts.

Section laws.
Context {V : Type} `{JsonLibrary V} `{JsonText V} `{Sha256Library} `{CedarParser} `{ChronoDisplay}.
Abbreviation Store := (GatewayStore.t V).
Abbreviation Eff := (M Store GatewayError.t).
Implicit Types (s : Store) (actor : AuthenticatedActor.t) (now until : DateTime) (drawn : Drawn.t).

(** ** The freeze *)

(** A freeze of the tenant is recorded that expires at [until]. *)
Definition frozen_until (tenant : string) until s : Prop :=
  ∃ id o, GatewayStore.emergency_operations s !! id = Some o
    ∧ EmergencyOperationRecord.tenant_id o = tenant
    ∧ EmergencyOperationRecord.operation_kind o = "freeze_config"
    ∧ EmergencyOperationRecord.status o = "applied"
    ∧ EmergencyOperationRecord.expires_at o = until.

Lemma operation_listed (operations : gmap string (EmergencyOperationRecord.t V)) id o :
  operations !! id = Some o →
  o ∈ emergency_operations_for_tenant operations (EmergencyOperationRecord.tenant_id o).
Proof.
  intros Ho. unfold emergency_operations_for_tenant. apply sort_by_elem, filter_iff. split.
  - apply list_elem_of_fmap. exists (id, o). split; [done|]. by apply elem_of_map_to_list.
  - by apply bool_decide_eq_true.
Qed.

Lemma frozen_active tenant until now s :
  frozen_until tenant until s → (now < until)%Z →
  ∃ o, active_emergency_operation tenant "freeze_config" now s = Some o.
Proof.
  intros (id & o & Ho & <- & Hk & Hst & Hx) Hnow. unfold active_emergency_operation.
  destruct (List.find _ _) as [o'|] eqn:Ef; [by exists o'|exfalso].
  rewrite find_None_iff in Ef. apply operation_listed, Ef in Ho.
  rewrite Hk, Hst, !bool_decide_true in Ho by done. simpl in Ho.
  apply Z.ltb_ge in Ho. lia.
Qed.

(** A route that is not exempt from freezes. *)
Definition freezable (method path : string) : bool :=
  match route_metadata method path with
  | Ok route => admin_route_mutates method && negb (route_allowed_during_config_freeze route)
  | Err _ => false
  end.

Lemma frozen_refuses uuid actor method path id now until s :
  freezable method path = true →
  frozen_until (AuthenticatedActor.tenant_id actor) until s → (now < until)%Z →
  ∃ m, authorize_admin_route uuid actor method path id now s = (Err (GatewayError.BadRequest m), s).
Proof.
  unfold freezable, authorize_admin_route. intros Hf Hfr Hnow.
  destruct (frozen_active _ _ _ _ Hfr Hnow) as [o Ho].
  destruct (route_metadata method path) as [route|]; [|done]. apply andb_prop in Hf as [Hm Hr].
  unfold reject_frozen_config_mutation. simpl. rewrite Hm, Ho.
  destruct (route_allowed_during_config_freeze route); [done|]. simpl. by eexists.
Qed.

(** What a freeze stops: everything but rollbacks and emergency operations. *)
Definition stopped_by_freeze (request : AdminRequest V) : bool :=
  match request with Create _ | Update _ | Publish _ => true | Rollback _ | Emergency _ => false end.

Lemma refused_after_check {A B} (x : result GatewayError.t A) (m : Eff B) (f : B → Eff V) s :
  (∃ msg, m s = (Err (GatewayError.BadRequest msg), s)) →
  (∀ e, x = Err e → ∃ msg, e = GatewayError.BadRequest msg) →
  ∃ msg, (lift x;; m ≫= f) s = (Err (GatewayError.BadRequest msg), s).
Proof.
  intros [msg Hm] Hx. unfold mbind, M_bind, lift. destruct x as [a|e].
  - rewrite Hm. by exists msg.
  - destruct (Hx e eq_refl) as [msg' ->]. by exists msg'.
Qed.

Lemma idempotency_key_bad_request key e :
  validate_idempotency_key key = Err e → ∃ msg, e = GatewayError.BadRequest msg.
Proof. unfold validate_idempotency_key. case_match; intros [= <-]. by eexists. Qed.

Lemma frozen_create {R} (res : AdminResource.t V R) drawn actor id operation key request errors_first
    errors m now until s :
  freezable "POST" (AdminResource.list_path res) = true →
  frozen_until (AuthenticatedActor.tenant_id actor) until s → (now < until)%Z →
  ∃ msg, create_resource res drawn actor id operation key request errors_first errors m now s
         = (Err (GatewayError.BadRequest msg), s).
Proof.
  intros. unfold create_resource. cbv zeta.
  apply refused_after_check; [by eapply frozen_refuses|apply idempotency_key_bad_request].
Qed.

Lemma frozen_update {R} (res : AdminResource.t V R) drawn actor id find check m diff now until s :
  freezable "PATCH" (AdminResource.get_path res) = true →
  frozen_until (AuthenticatedActor.tenant_id actor) until s → (now < until)%Z →
  ∃ msg, update_resource res drawn actor id find check m diff now s
         = (Err (GatewayError.BadRequest msg), s).
Proof.
  intros Hf Hfr Hnow. unfold update_resource, mbind, M_bind.
  destruct (frozen_refuses (Drawn.decision drawn) actor _ _ id now until s Hf Hfr Hnow) as [msg ->].
  by exists msg.
Qed.

(** Every request of a frozen tenant that changes the configuration is refused,
    and the state stays exactly as it is. *)
Lemma frozen_request drawn actor request now until s :
  stopped_by_freeze request = true →
  frozen_until (AuthenticatedActor.tenant_id actor) until s → (now < until)%Z →
  ∃ msg, serve_admin drawn actor request now s = (Err (GatewayError.BadRequest msg), s).
Proof.
  intros Hr Hf Hnow. destruct request as [[]|[]|request| |]; try done; simpl.
  all: try (eapply frozen_create; [by vm_compute|done..]).
  all: try (eapply frozen_update; [by vm_compute|done..]).
  unfold AdminEmergency.publish_config_snapshot.
  apply refused_after_check; [|apply idempotency_key_bad_request].
  eapply frozen_refuses; [by vm_compute|done..].
Qed.

(** Recorded operations outlive every request: operations are only added. *)
Lemma operation_persists drawn actor request now id o s :
  fresh_draws drawn s → GatewayStore.emergency_operations s !! id = Some o →
  GatewayStore.emergency_operations (serve_admin drawn actor request now s).2 !! id = Some o.
Proof.
  intros Hf Ho. destruct (serve_admin drawn actor request now s) as [r s'] eqn:E.
  apply serve_admin_served in E. simpl.
  assert (unchanged s s' ∨ performed drawn actor s s') as [Hu|Hp].
  { destruct r as [v|e]; simpl in E; [destruct E as [?|[? _]]|]; auto. }
  - by rewrite (same_operations _ _ Hu).
  - destruct (operations_effect _ _ _ _ Hp) as [-> |(o' & _ & Eid & ->)]; [done|].
    rewrite lookup_insert_ne; [done|]. rewrite Eid. intros <-.
    by rewrite (fresh_operation _ _ Hf) in Ho.
Qed.

Lemma frozen_persists drawn actor request now tenant until s :
  fresh_draws drawn s → frozen_until tenant until s →
  frozen_until tenant until (serve_admin drawn actor request now s).2.
Proof.
  intros Hf (id & o & Ho & Hrest). exists id, o. split; [|done]. by apply operation_persists.
Qed.

(** Requests one after the other, of any tenants, all before [until], each
    drawing fresh ids. *)
Inductive admin_history until : Store → Store → Prop :=
| history_start s : admin_history until s s
| history_step s s' drawn actor request now :
    admin_history until s s' → fresh_draws drawn s' → (now < until)%Z →
    admin_history until s (serve_admin drawn actor request now s').2.

(** ** What is published during a freeze *)

(** The tenant's snapshots have only grown, and only by restoring old ones. *)
Definition rolls_only (tenant : string) (c c' : ConfigStore.t V) : Prop :=
  ∃ l, tenant_snapshots tenant c' = tenant_snapshots tenant c ++ l
    ∧ ∀ x, x ∈ l →
      ConfigSnapshotDocument.rollback_of (PublishedConfigSnapshot.document x) ≠ None
      ∧ ∃ y, y ∈ tenant_snapshots tenant c
        ∧ ConfigSnapshotDocument.payload (PublishedConfigSnapshot.document x)
          = ConfigSnapshotDocument.payload (PublishedConfigSnapshot.document y).

#[global] Instance rolls_only_preorder tenant : PreOrder (rolls_only tenant).
Proof.
  split.
  - intros c. exists []. rewrite app_nil_r. split; [done|]. by intros x ?%elem_of_nil.
  - intros c1 c2 c3 (l1 & E1 & H1') (l2 & E2 & H2'). exists (l1 ++ l2). rewrite app_assoc, <-E1.
    split; [done|]. intros x [Hx|Hx]%elem_of_app; [by apply H1'|].
    destruct (H2' x Hx) as (Hr & y & Hy & Ey). split; [done|]. rewrite E1 in Hy.
    apply elem_of_app in Hy as [Hy|Hy]; [by exists y|].
    destruct (H1' y Hy) as (_ & z & Hz & Ez). exists z. split; [done|]. congruence.
Qed.

Lemma rollback_rolls_only u1 u2 mine source by_ now tenant (c : ConfigStore.t V) :
  rolls_only tenant c (Publication.rollback_config_snapshot u1 u2 mine source by_ now c).2.
Proof.
  unfold Publication.rollback_config_snapshot.
  destruct (ConfigStore.config_snapshot source c) as [x|] eqn:Ex; [|done].
  destruct (_ !=? mine) eqn:Et; [done|]. btrue. unfold publish_document. simpl.
  unfold rolls_only. rewrite tenant_snapshots_insert. eexists. split; [reflexivity|].
  intros y Hy. case_bool_decide as Em; [|by apply elem_of_nil in Hy].
  apply list_elem_of_singleton in Hy as ->. simpl. split; [done|]. exists x.
  rewrite tenant_snapshots_in. split; [|done]. unfold ConfigStore.config_snapshot in Ex.
  apply find_Some_in in Ex as [? _]. split; [done|].
  unfold PublishedConfigSnapshot.tenant_id in Em at 1. simpl in Em. congruence.
Qed.

(** Operations that publish nothing but rollbacks. *)
Definition rolls {A} (tenant : string) (m : Eff A) : Prop :=
  ∀ s, rolls_only tenant (GatewayStore.config s) (GatewayStore.config (m s).2).

Lemma rolls_bind {A B} tenant (m : Eff A) (f : A → Eff B) :
  rolls tenant m → (∀ a, rolls tenant (f a)) → rolls tenant (m ≫= f).
Proof.
  intros Hm Hf s. unfold mbind, M_bind. specialize (Hm s).
  destruct (m s) as [[a|e] s1]; [|done]. simpl in Hm. etrans; [exact Hm|apply Hf].
Qed.

Lemma rolls_keeps {A} tenant (m : Eff A) :
  (∀ s, GatewayStore.config (m s).2 = GatewayStore.config s) → rolls tenant m.
Proof. intros Hm s. by rewrite Hm. Qed.

Lemma rolls_authorize tenant uuid actor method path id now :
  rolls tenant (authorize_admin_route uuid actor method path id now).
Proof.
  apply rolls_keeps. intros s. destruct (authorize_admin_route _ _ _ _ _ _ s) eqn:E.
  by apply authorize_admin_route_result in E as [? ->].
Qed.

Lemma rolls_idempotently tenant actor key hash now (op : Eff V) :
  rolls tenant op → rolls tenant (idempotently actor key hash now op).
Proof.
  intros Hop. apply rolls_bind.
  - apply rolls_keeps. intros s. unfold idempotency_response. by repeat case_match.
  - intros [v|]; [by apply rolls_keeps|]. apply rolls_bind; [done|]. intros v.
    by apply rolls_bind; [apply rolls_keeps|intros; apply rolls_keeps].
Qed.

Lemma rolls_rollback tenant u1 u2 mine source by_ now :
  rolls tenant (on_config (Publication.rollback_config_snapshot u1 u2 mine source by_ now)).
Proof.
  intros s. unfold on_config.
  pose proof (rollback_rolls_only u1 u2 mine source by_ now tenant (GatewayStore.config s)) as Hr.
  by destruct (Publication.rollback_config_snapshot _ _ _ _ _ _ _).
Qed.

Lemma rolls_done tenant drawn actor kind rkind target o p request before after diff affected now :
  rolls tenant (emergency_done drawn actor kind rkind target o p request before after diff affected now).
Proof.
  apply rolls_bind.
  - apply rolls_keeps. intros s. unfold create_emergency_operation_record, create_emergency_operation.
    by repeat case_match.
  - intros op. by apply rolls_bind; [apply rolls_keeps|intros; apply rolls_keeps].
Qed.

Lemma rolls_on_draft {R} tenant (m : M (DraftCatalog.t V) GatewayError.t R) :
  rolls tenant (on_draft m).
Proof. apply rolls_keeps. intros s. unfold on_draft. by destruct (m _). Qed.

Lemma rolls_drain tenant endpoint reason expires now :
  rolls tenant (set_endpoint_emergency_drain endpoint reason expires now).
Proof. apply rolls_keeps. intros s. unfold set_endpoint_emergency_drain. by case_match. Qed.

#[local] Ltac rolling :=
  repeat first [(simple apply rolls_bind; [|intros ?]) | simple apply rolls_authorize
    | simple apply rolls_idempotently | simple apply rolls_rollback | simple apply rolls_done
    | simple apply rolls_on_draft | simple apply rolls_drain | (apply rolls_keeps; by intros)].

Lemma exempt_rolls tenant drawn actor request now :
  stopped_by_freeze request = false → rolls tenant (serve_admin drawn actor request now).
Proof.
  destruct request as [| | |request|[]]; try done; intros _; simpl.
  - unfold AdminEmergency.rollback_config_snapshot. cbv zeta. rolling.
  - unfold emergency_disable_upstream_credential, emergency. rolling.
  - unfold emergency_disable_provider_endpoint, emergency. rolling.
  - unfold emergency_drain_routing_group, emergency. rolling.
  - unfold emergency_freeze_config, emergency. rolling.
  - unfold emergency_rollback_config_snapshot, emergency. rolling.
  - unfold emergency_force_budget_block, emergency. rolling.
Qed.

(** Other tenants do not touch the tenant's snapshots. *)
Lemma foreign_request_rolls drawn actor request now tenant s :
  tenant ≠ AuthenticatedActor.tenant_id actor →
  rolls_only tenant (GatewayStore.config s)
    (GatewayStore.config (serve_admin drawn actor request now s).2).
Proof.
  intros Hne. destruct (serve_admin drawn actor request now s) as [r s'] eqn:E.
  apply serve_admin_served in E. simpl.
  assert (unchanged s s' ∨ performed drawn actor s s') as [Hu|Hp].
  { destruct r as [v|e]; simpl in E; [destruct E as [?|[? _]]|]; auto. }
  - by rewrite (same_config _ _ Hu).
  - destruct (config_effect _ _ _ _ Hp) as [-> |Hc]; [done|].
    destruct (publishes_foreign _ _ _ _ _ Hc Hne) as [Hs _ _]. exists [].
    rewrite app_nil_r. split; [exact Hs|]. by intros x ?%elem_of_nil.
Qed.

Lemma frozen_history tenant until s s' :
  frozen_until tenant until s → admin_history until s s' →
  frozen_until tenant until s' ∧ rolls_only tenant (GatewayStore.config s) (GatewayStore.config s').
Proof.
  intros Hf Hh. induction Hh as [s|s s' drawn actor request now Hh IH Hd Hnow]; [by split|].
  destruct (IH Hf) as [Hf' Hr]. split; [by apply frozen_persists|]. etrans; [exact Hr|].
  destruct (decide (tenant = AuthenticatedActor.tenant_id actor)) as [-> |Hne];
    [|by apply foreign_request_rolls].
  destruct (stopped_by_freeze request) eqn:Est; [|by apply exempt_rolls].
  destruct (frozen_request drawn actor request now until s' Est Hf' Hnow) as [msg ->]. done.
Qed.

(** An emergency operation under a new key is performed. *)
Lemma emergency_performed drawn actor kind path target request now op s v s' :
  emergency drawn actor kind path target request now op s = (Ok v, s') →
  GatewayStore.idempotency_records s
    !! (AuthenticatedActor.tenant_id actor,
        emergency_idempotency_scope_key kind target
          (AdminEmergencyOperationRequest.idempotency_key request)) = None →
  recordable request now
  ∧ ∃ decisions s1 records,
      op (GatewayStore.set_authz_decisions s decisions) = (Ok v, s1)
      ∧ s' = GatewayStore.set_idempotency_records s1 records.
Proof.
  unfold emergency, mbind, M_bind, lift.
  destruct (validate_emergency_operation_request request now) as [u|] eqn:Hv; [|done].
  apply emergency_request_recordable in Hv.
  destruct (authorize_admin_route _ _ _ _ _ _ s) as [[[]|] s1] eqn:Ea; [|done].
  apply authorize_admin_route_result in Ea as [ds ->]. intros Hrun Hnew. split; [done|]. revert Hrun.
  unfold idempotently, mbind, M_bind, idempotency_response. simpl. rewrite Hnew.
  destruct (op _) as [[v'|e] s1] eqn:Eop; [|done]. intros [= <- <-]. by eexists ds, s1, _.
Qed.

(** A freeze that is performed puts the freeze in force. *)
Lemma freeze_starts drawn actor request now s v s' :
  serve_admin drawn actor (Emergency (FreezeConfig request)) now s = (Ok v, s') →
  GatewayStore.idempotency_records s
    !! (AuthenticatedActor.tenant_id actor,
        emergency_idempotency_scope_key "freeze_config" (AuthenticatedActor.tenant_id actor)
          (AdminEmergencyOperationRequest.idempotency_key request)) = None →
  frozen_until (AuthenticatedActor.tenant_id actor)
    (AdminEmergencyOperationRequest.expires_at request) s'.
Proof.
  simpl. intros Hrun Hnew. unfold emergency_freeze_config in Hrun.
  destruct (emergency_performed _ _ _ _ _ _ _ _ _ _ _ Hrun Hnew)
    as (Hrec & ds & s1 & records & Hop & ->). revert Hop.
  edestruct (emergency_done_run drawn actor) as (v' & o & e & Ht & Hi & Hk & Hst & Hx & _ & _ & _ & _ & _ & ->);
    [exact Hrec|].
  intros [= _ <-]. exists (EmergencyOperationRecord.emergency_operation_id o), o. simpl.
  by rewrite lookup_insert_eq.
Qed.

(** ** What a freeze leaves alone *)

(** What the operation answers, and what it does but for recording operations,
    does not depend on the recorded operations. *)
Definition ignores_operations {A} (m : Eff A) : Prop :=
  ∀ s operations, ∃ operations',
    m (GatewayStore.set_emergency_operations s operations)
    = ((m s).1, GatewayStore.set_emergency_operations (m s).2 operations').

Lemma ignores_bind {A B} (m : Eff A) (f : A → Eff B) :
  ignores_operations m → (∀ a, ignores_operations (f a)) → ignores_operations (m ≫= f).
Proof.
  intros Hm Hf s ops. unfold mbind, M_bind. destruct (Hm s ops) as [ops1 ->].
  destruct (m s) as [[a|e] s1]; simpl; [apply Hf|by exists ops1].
Qed.

Lemma ignores_same {A} (m : Eff A) :
  (∀ s operations, m (GatewayStore.set_emergency_operations s operations)
     = ((m s).1, GatewayStore.set_emergency_operations (m s).2 operations)) →
  ignores_operations m.
Proof. intros Hm s ops. by exists ops. Qed.

Lemma ignores_authorize uuid actor method path id now :
  freezable method path = false → ignores_operations (authorize_admin_route uuid actor method path id now).
Proof.
  unfold freezable. intros Hr. apply ignores_same. intros s ops. unfold authorize_admin_route.
  destruct (route_metadata method path) as [route|e]; [|done]. simpl.
  unfold reject_frozen_config_mutation.
  destruct (admin_route_mutates method), (route_allowed_during_config_freeze route); try done; simpl.
  all: unfold authorization_engine_for_actor, latest_snapshot_for_actor_in_memory; simpl.
  all: destruct (_ ≫= _) as [[route' [engine snapshot]]|e]; simpl; [|done].
  all: unfold authorize_route_with_evidence; simpl; by case_match.
Qed.

Lemma ignores_idempotently actor key hash now (op : Eff V) :
  ignores_operations op → ignores_operations (idempotently actor key hash now op).
Proof.
  intros Hop. apply ignores_bind.
  - apply ignores_same. intros s ops. unfold idempotency_response. simpl. by repeat case_match.
  - intros [v|]; [by apply ignores_same|]. apply ignores_bind; [done|]. intros v.
    by apply ignores_bind; [apply ignores_same|intros; apply ignores_same].
Qed.

Lemma ignores_on_draft {R} (m : M (DraftCatalog.t V) GatewayError.t R) :
  ignores_operations (on_draft m).
Proof. apply ignores_same. intros s ops. unfold on_draft. simpl. by destruct (m _). Qed.

Lemma ignores_on_config {R} (m : M (ConfigStore.t V) GatewayError.t R) :
  ignores_operations (on_config m).
Proof. apply ignores_same. intros s ops. unfold on_config. simpl. by destruct (m _). Qed.

Lemma ignores_drain endpoint reason expires now :
  ignores_operations (set_endpoint_emergency_drain endpoint reason expires now).
Proof.
  apply ignores_same. intros s ops. unfold set_endpoint_emergency_drain. simpl. by case_match.
Qed.

Lemma ignores_done drawn actor kind rkind target o p request before after diff affected now :
  ignores_operations
    (emergency_done drawn actor kind rkind target o p request before after diff affected now).
Proof.
  apply ignores_bind.
  - intros s ops. unfold create_emergency_operation_record, create_emergency_operation. simpl.
    repeat case_match; simpl; by eexists.
  - intros op. by apply ignores_bind; [apply ignores_same|intros; apply ignores_same].
Qed.

#[local] Ltac ignoring :=
  repeat first [(simple apply ignores_bind; [|intros ?])
    | (simple apply ignores_authorize; by vm_compute) | simple apply ignores_idempotently
    | simple apply ignores_on_config | simple apply ignores_on_draft | simple apply ignores_done
    | simple apply ignores_drain | (apply ignores_same; by intros)].

(** Rollbacks and emergency operations go through a freeze. *)
Lemma exempt_ignores_freeze drawn actor request now :
  stopped_by_freeze request = false → ignores_operations (serve_admin drawn actor request now).
Proof.
  destruct request as [| | |request|[]]; try done; intros _; simpl.
  - unfold AdminEmergency.rollback_config_snapshot. cbv zeta. ignoring.
  - unfold emergency_disable_upstream_credential, emergency. ignoring.
  - unfold emergency_disable_provider_endpoint, emergency. ignoring.
  - unfold emergency_drain_routing_group, emergency. ignoring.
  - unfold emergency_freeze_config, emergency. ignoring.
  - unfold emergency_rollback_config_snapshot, emergency. ignoring.
  - unfold emergency_force_budget_block, emergency. ignoring.
Qed.

(** C14. A freeze holds until it expires: after a freeze of the configuration has
    been performed, and after any further requests of any tenants before it
    expires, with any outcome, every creation, update and publication of the
    tenant is refused with a bad request and leaves the state exactly as it is.
    The snapshots the tenant has published since are rollbacks that restore the
    payload of one published before, and rollbacks and emergency operations are
    answered as if nothing were frozen. *)
Theorem frozen_config_changes_only_by_rollback drawn actor freeze now s v s0 s1 :
  serve_admin drawn actor (Emergency (FreezeConfig freeze)) now s = (Ok v, s0) →
  GatewayStore.idempotency_records s
    !! (AuthenticatedActor.tenant_id actor,
        emergency_idempotency_scope_key "freeze_config" (AuthenticatedActor.tenant_id actor)
          (AdminEmergencyOperationRequest.idempotency_key freeze)) = None →
  admin_history (AdminEmergencyOperationRequest.expires_at freeze) s0 s1 →
  rolls_only (AuthenticatedActor.tenant_id actor) (GatewayStore.config s0) (GatewayStore.config s1)
  ∧ ∀ drawn' actor' request later,
      AuthenticatedActor.tenant_id actor' = AuthenticatedActor.tenant_id actor →
      (later < AdminEmergencyOperationRequest.expires_at freeze)%Z →
      match request with
      | Create _ | Update _ | Publish _ =>
          ∃ msg, serve_admin drawn' actor' request later s1 = (Err (GatewayError.BadRequest msg), s1)
      | Rollback _ | Emergency _ =>
          (serve_admin drawn' actor' request later s1).1
          = (serve_admin drawn' actor' request later (GatewayStore.set_emergency_operations s1 ∅)).1
      end.
Proof.
  intros Hrun Hnew Hh. pose proof (freeze_starts _ _ _ _ _ _ _ Hrun Hnew) as Hf.
  destruct (frozen_history _ _ _ _ Hf Hh) as [Hf1 Hr]. split; [exact Hr|].
  intros drawn' actor' request later Et Hl. rewrite <-Et in Hf1.
  pose proof (λ H, frozen_request drawn' actor' request later _ s1 H Hf1 Hl) as Hstop.
  pose proof (exempt_ignores_freeze drawn' actor' request later) as Hgo.
  destruct request; try (by apply Hstop); by destruct (Hgo eq_refl s1 ∅) as [ops ->].
Qed.
End laws.

(** ** Retried requests *)

Section retry.
Context {V : Type} `{JsonLibrary V} `{JsonText V} `{Sha256Library} `{CedarParser} `{ChronoDisplay}.
Abbreviation Store := (GatewayStore.t V).
Abbreviation Eff := (M Store GatewayError.t).
Implicit Types (s : Store) (actor : AuthenticatedActor.t) (now until : DateTime) (drawn : Drawn.t).

(** ** Keys and hashes *)

(** The scope key and the request hash of a creation. *)
Definition creation_scope (request : CreateRequest) : string * string :=
  let scope operation key body := (idempotency_scope_key operation key, stable_request_hash body) in
  match request with
  | NewProviderEndpoint r => scope "provider_endpoints:create"
      (AdminCreateProviderEndpointRequest.idempotency_key r) (create_provider_endpoint_json r)
  | NewUpstreamCredential r => scope "upstream_credentials:create"
      (AdminCreateUpstreamCredentialRequest.idempotency_key r) (create_upstream_credential_json r)
  | NewModelTarget r => scope "model_targets:create"
      (AdminCreateModelTargetRequest.idempotency_key r) (create_model_target_json r)
  | NewModelAlias r => scope "model_aliases:create"
      (AdminCreateModelAliasRequest.idempotency_key r) (create_model_alias_json r)
  | NewRoutePolicy r => scope "route_policies:create"
      (AdminCreateRoutePolicyRequest.idempotency_key r) (create_route_policy_json r)
  | NewProviderGrant r => scope "provider_grants:create"
      (AdminCreateProviderGrantRequest.idempotency_key r) (create_provider_grant_json r)
  | NewRoutingGroup r => scope "routing_groups:create"
      (AdminCreateRoutingGroupRequest.idempotency_key r) (create_routing_group_json r)
  | NewRoutingGroupTarget g r => scope ("routing_group_targets:" +:+ g +:+ ":create")
      (AdminCreateRoutingGroupTargetRequest.idempotency_key r) (create_routing_group_target_json r)
  end.

Definition emergency_scope (tenant : string) (request : EmergencyRequest) : string * string :=
  let scope kind target (r : AdminEmergencyOperationRequest.t) :=
    (emergency_idempotency_scope_key kind target (AdminEmergencyOperationRequest.idempotency_key r),
     emergency_request_hash target r) in
  match request with
  | DisableUpstreamCredential i r => scope "disable_upstream_credential" i r
  | DisableProviderEndpoint i r => scope "disable_provider_endpoint" i r
  | DrainRoutingGroup i r => scope "drain_routing_group" i r
  | FreezeConfig r => scope "freeze_config" tenant r
  | EmergencyRollback i r => scope "rollback_config_snapshot" i r
  | ForceBudgetBlock i r => scope "force_budget_block" i r
  end.

(** Updates have no idempotency key: they carry the expected version. *)
Definition idempotency_scope (tenant : string) (request : AdminRequest V) : option (string * string) :=
  match request with
  | Create r => Some (creation_scope r)
  | Update _ => None
  | Publish r => Some
      (idempotency_scope_key "config_snapshots:publish" (AdminPublishConfigSnapshotRequest.idempotency_key r),
       stable_request_hash (publish_request_json r))
  | Rollback r => Some
      (idempotency_scope_key "config_snapshots:rollback" (AdminRollbackConfigSnapshotRequest.idempotency_key r),
       stable_request_hash (rollback_request_json r))
  | Emergency r => Some (emergency_scope tenant r)
  end.

(** ** The shape of a handler with a key *)

(** A check before the stored response is looked up: it leaves only evidence,
    and neither reads nor writes stored responses. *)
Record guard {A} (g : Eff A) : Prop := {
  guard_unchanged s r s1 : g s = (r, s1) → unchanged s s1;
  guard_blind s records :
    g (GatewayStore.set_idempotency_records s records)
    = ((g s).1, GatewayStore.set_idempotency_records (g s).2 records);
  guard_records s : GatewayStore.idempotency_records (g s).2 = GatewayStore.idempotency_records s;
}.

(** The operation itself does not touch stored responses. *)
Definition keeps_records {A} (op : Eff A) : Prop :=
  ∀ s, GatewayStore.idempotency_records (op s).2 = GatewayStore.idempotency_records s.

Inductive keyed actor (key hash : string) now : Eff V → Prop :=
| keyed_here op : keeps_records op → keyed actor key hash now (idempotently actor key hash now op)
| keyed_after {A} (g : Eff A) f :
    guard g → (∀ a, keyed actor key hash now (f a)) → keyed actor key hash now (g ≫= f).

Lemma keeps_records_bind {A B} (m : Eff A) (f : A → Eff B) :
  keeps_records m → (∀ a, keeps_records (f a)) → keeps_records (m ≫= f).
Proof.
  intros Hm Hf s. unfold mbind, M_bind. specialize (Hm s). destruct (m s) as [[a|e] s1]; [|done].
  rewrite Hf. exact Hm.
Qed.

Lemma guard_lift {A} (x : result GatewayError.t A) : guard (lift x).
Proof. split; try done. by intros s r s1 [= <- <-]. Qed.

Lemma guard_reads_draft {A} (f : DraftCatalog.t V → result GatewayError.t A) : guard (reads_draft f).
Proof. split; try done. by intros s r s1 [= <- <-]. Qed.

Lemma guard_ret {A} (a : A) : guard (mret a).
Proof. split; try done. by intros s r s1 [= <- <-]. Qed.

Lemma guard_authorize uuid actor method path id now :
  guard (authorize_admin_route uuid actor method path id now).
Proof.
  split.
  - intros s r s1. apply authorize_admin_route_unchanged.
  - intros s records. unfold authorize_admin_route, reject_frozen_config_mutation,
      authorization_engine_for_actor, latest_snapshot_for_actor_in_memory, active_emergency_operation.
    simpl. destruct (_ ≫= _) as [[route [engine snapshot]]|e]; [|done].
    unfold authorize_route_with_evidence. simpl. by case_match.
  - intros s. destruct (authorize_admin_route _ _ _ _ _ _ s) eqn:E.
    by apply authorize_admin_route_result in E as [? ->].
Qed.

Lemma keeps_on_draft {A} (m : M (DraftCatalog.t V) GatewayError.t A) : keeps_records (on_draft m).
Proof. intros s. unfold on_draft. by destruct (m _). Qed.

Lemma keeps_on_config {A} (m : M (ConfigStore.t V) GatewayError.t A) : keeps_records (on_config m).
Proof. intros s. unfold on_config. by destruct (m _). Qed.

Lemma keeps_drain endpoint reason expires now :
  keeps_records (set_endpoint_emergency_drain endpoint reason expires now).
Proof. intros s. unfold set_endpoint_emergency_drain. by case_match. Qed.

Lemma keeps_done drawn actor kind rkind target o p request before after diff affected now :
  keeps_records
    (emergency_done drawn actor kind rkind target o p request before after diff affected now).
Proof.
  apply keeps_records_bind.
  - intros s. unfold create_emergency_operation_record, create_emergency_operation. by repeat case_match.
  - intros op. by apply keeps_records_bind.
Qed.

#[local] Ltac keeping :=
  repeat first [(simple apply keeps_records_bind; [|intros ?]) | simple apply keeps_on_draft
    | simple apply keeps_on_config | simple apply keeps_drain | simple apply keeps_done
    | by (intros ?)].
#[local] Ltac keying :=
  repeat first [(simple apply keyed_here; keeping) | (simple apply keyed_after; [|intros ?])
    | simple apply guard_lift | simple apply guard_authorize | simple apply guard_reads_draft
    | simple apply guard_ret].

Lemma keyed_create {R} (res : AdminResource.t V R) drawn actor id operation key request errors_first
    errors m now :
  keyed actor (idempotency_scope_key operation key) (stable_request_hash request) now
    (create_resource res drawn actor id operation key request errors_first errors m now).
Proof. unfold create_resource. cbv zeta. destruct errors_first; keying. Qed.

Lemma keyed_emergency drawn actor kind path target request now op :
  keeps_records op →
  keyed actor
    (emergency_idempotency_scope_key kind target (AdminEmergencyOperationRequest.idempotency_key request))
    (emergency_request_hash target request) now
    (emergency drawn actor kind path target request now op).
Proof. intros Hop. unfold emergency. keying. Qed.

Lemma keyed_request drawn actor request now key hash :
  idempotency_scope (AuthenticatedActor.tenant_id actor) request = Some (key, hash) →
  keyed actor key hash now (serve_admin drawn actor request now).
Proof.
  destruct request as [[]|[]|request|request|[]]; try done; intros [= <- <-]; simpl.
  all: try apply keyed_create.
  all: try (apply keyed_emergency; keeping).
  - unfold AdminEmergency.publish_config_snapshot. keying.
  - unfold AdminEmergency.rollback_config_snapshot. cbv zeta. keying.
Qed.

(** ** What the shape ensures *)

Lemma keyed_stores actor key hash now m : keyed actor key hash now m → ∀ s v s',
  m s = (Ok v, s') →
  GatewayStore.idempotency_records s !! (AuthenticatedActor.tenant_id actor, key) = None →
  GatewayStore.idempotency_records s' !! (AuthenticatedActor.tenant_id actor, key)
  = Some (IdempotencyRecord.mk (AuthenticatedActor.tenant_id actor) key hash v
            (now + duration_hours IDEMPOTENCY_TTL_HOURS) now).
Proof.
  induction 1 as [op Hop|A g f Hg Hf IH]; intros s v s' Hrun Hnew; revert Hrun.
  - unfold idempotently, mbind, M_bind, idempotency_response. rewrite Hnew.
    destruct (op s) as [[v'|e] s1]; [|done]. intros [= -> <-]. simpl. by rewrite lookup_insert_eq.
  - unfold mbind, M_bind. pose proof (guard_records _ Hg s) as Er.
    destruct (g s) as [[a|e] s1]; [|done]. simpl in Er. rewrite <-Er in Hnew.
    intros Hrun. by eapply IH.
Qed.

(** A lookup that finds nothing leaves the responses under other keys. *)
Lemma lookup_elsewhere tenant key hash now s r s1 k :
  idempotency_response tenant key hash now s = (r, s1) → k ≠ (tenant, key) →
  GatewayStore.idempotency_records s1 !! k = GatewayStore.idempotency_records s !! k.
Proof.
  unfold idempotency_response. intros Hrun Hne. repeat case_match; simplify_eq/=; try done.
  by rewrite lookup_delete_ne.
Qed.

(** What a lookup of a response that has not expired gives. *)
Lemma lookup_stored tenant key hash now s record :
  GatewayStore.idempotency_records s !! (tenant, key) = Some record →
  (now < IdempotencyRecord.expires_at record)%Z →
  idempotency_response tenant key hash now s
  = (if IdempotencyRecord.request_hash record ==? hash
     then Ok (Some (IdempotencyRecord.response_record record))
     else bad_request "idempotency_key_conflict", s).
Proof.
  intros Hk Hx. unfold idempotency_response. rewrite Hk.
  replace (_ <=? now)%Z with false by (symmetry; by apply Z.leb_gt).
  by destruct (_ ==? hash).
Qed.

(** A stored response that has not expired stays. *)
Lemma keyed_persists actor key hash now m : keyed actor key hash now m → ∀ s k record,
  GatewayStore.idempotency_records s !! k = Some record →
  (now < IdempotencyRecord.expires_at record)%Z →
  GatewayStore.idempotency_records (m s).2 !! k = Some record.
Proof.
  induction 1 as [op Hop|A g f Hg Hf IH]; intros s k record Hk Hx.
  - unfold idempotently, mbind, M_bind.
    destruct (decide (k = (AuthenticatedActor.tenant_id actor, key))) as [->|Hne].
    { rewrite (lookup_stored _ _ hash _ _ _ Hk Hx). by case_bool_decide. }
    destruct (idempotency_response _ _ _ _ s) as [r s1] eqn:E.
    rewrite <-(lookup_elsewhere _ _ _ _ _ _ _ _ E Hne) in Hk.
    destruct r as [[v|]|e]; try exact Hk. specialize (Hop s1).
    destruct (op s1) as [[v|e] s2]; simpl in *; [rewrite lookup_insert_ne by done|]; by rewrite Hop.
  - unfold mbind, M_bind. pose proof (guard_records _ Hg s) as Er.
    destruct (g s) as [[a|e] s1]; simpl in *; [|by rewrite Er].
    apply IH; [by rewrite Er|done].
Qed.

Lemma update_keeps {R} (res : AdminResource.t V R) drawn actor id find check m diff now :
  keeps_records (update_resource res drawn actor id find check m diff now).
Proof.
  unfold update_resource. apply keeps_records_bind; [intros s; apply (guard_records _ (guard_authorize _ _ _ _ _ _))|].
  intros. keeping.
Qed.

Lemma record_persists drawn actor request now s k record :
  GatewayStore.idempotency_records s !! k = Some record →
  (now < IdempotencyRecord.expires_at record)%Z →
  GatewayStore.idempotency_records (serve_admin drawn actor request now s).2 !! k = Some record.
Proof.
  intros Hk Hx. destruct (idempotency_scope (AuthenticatedActor.tenant_id actor) request)
    as [[key hash]|] eqn:Es.
  { eapply keyed_persists; [by apply keyed_request|done|done]. }
  assert (keeps_records (serve_admin drawn actor request now)) as Hu.
  { destruct request as [|[]| | |]; try done; apply update_keeps. }
  by rewrite Hu.
Qed.

Lemma history_record until s s' k record :
  admin_history until s s' → GatewayStore.idempotency_records s !! k = Some record →
  (until ≤ IdempotencyRecord.expires_at record)%Z →
  GatewayStore.idempotency_records s' !! k = Some record.
Proof.
  intros Hh Hk Hu. induction Hh as [s|s s' drawn actor request now Hh IH Hd Hnow]; [done|].
  apply record_persists; [by apply IH|lia].
Qed.

(** The responses of other tenants are not touched. *)
Lemma keyed_elsewhere actor key hash now m : keyed actor key hash now m → ∀ s k,
  k.1 ≠ AuthenticatedActor.tenant_id actor →
  GatewayStore.idempotency_records (m s).2 !! k = GatewayStore.idempotency_records s !! k.
Proof.
  induction 1 as [op Hop|A g f Hg Hf IH]; intros s k Hk.
  - assert (k ≠ (AuthenticatedActor.tenant_id actor, key)) as Hne by (by intros ->).
    unfold idempotently, mbind, M_bind.
    destruct (idempotency_response _ _ _ _ s) as [r s1] eqn:E.
    rewrite <-(lookup_elsewhere _ _ _ _ _ _ _ _ E Hne).
    destruct r as [[v|]|e]; [done| |done]. specialize (Hop s1).
    destruct (op s1) as [[v|e] s2]; simpl in *; [rewrite lookup_insert_ne by done|]; by rewrite Hop.
  - unfold mbind, M_bind. pose proof (guard_records _ Hg s) as Er.
    destruct (g s) as [[a|e] s1]; simpl in *; [by rewrite IH, Er|by rewrite Er].
Qed.

Lemma foreign_records drawn actor request now s k :
  k.1 ≠ AuthenticatedActor.tenant_id actor →
  GatewayStore.idempotency_records (serve_admin drawn actor request now s).2 !! k
  = GatewayStore.idempotency_records s !! k.
Proof.
  intros Hk. destruct (idempotency_scope (AuthenticatedActor.tenant_id actor) request)
    as [[key hash]|] eqn:Es; [by eapply keyed_elsewhere; [apply keyed_request|]|].
  assert (keeps_records (serve_admin drawn actor request now)) as Hu; [|by rewrite Hu].
  destruct request as [|[]| | |]; try done; apply update_keeps.
Qed.

(** C28. An admin request of one tenant leaves every other tenant alone: when it
    draws ids that are not in use, the draft resources, snapshots, publication,
    invalidations, endpoint drains, emergency operations, audit trail and idempotency
    records of the other tenant are the same after the request, whatever its
    outcome. *)
Theorem admin_requests_stay_in_tenant drawn actor request now other s r s' :
  serve_admin drawn actor request now s = (r, s') →
  fresh_draws drawn s →
  other ≠ AuthenticatedActor.tenant_id actor →
  draft_agree (others (AuthenticatedActor.tenant_id actor)) (GatewayStore.draft s) (GatewayStore.draft s')
  ∧ config_foreign other (GatewayStore.config s) (GatewayStore.config s')
  ∧ (∀ endpoint version at_,
       HotStore.endpoint_is_drained (GatewayStore.hot_state s') other endpoint version at_
       = HotStore.endpoint_is_drained (GatewayStore.hot_state s) other endpoint version at_)
  ∧ agree EmergencyOperationRecord.tenant_id (others (AuthenticatedActor.tenant_id actor))
      (GatewayStore.emergency_operations s) (GatewayStore.emergency_operations s')
  ∧ List.filter (λ e, AuditEventRecord.tenant_id e ==? other) (GatewayStore.audit_events s')
    = List.filter (λ e, AuditEventRecord.tenant_id e ==? other) (GatewayStore.audit_events s)
  ∧ (∀ key, GatewayStore.idempotency_records s' !! (other, key)
            = GatewayStore.idempotency_records s !! (other, key)).
Proof.
  intros Hrun Hf Hne.
  assert (∀ key, GatewayStore.idempotency_records s' !! (other, key)
    = GatewayStore.idempotency_records s !! (other, key)) as Hkeys.
  { intros key. pose proof (foreign_records drawn actor request now s (other, key) Hne) as Hk.
    by rewrite Hrun in Hk. }
  apply serve_admin_served in Hrun.
  assert (unchanged s s' ∨ performed drawn actor s s') as [[-> -> _ _ -> _ -> -> _]|Hp].
  { destruct r as [v|e]; simpl in Hrun; [destruct Hrun as [?|[? _]]; auto|auto]. }
  - split_and!; try done.
  - destruct Hp as [Hd Hc Hh Ho (event & Ht & _ & _ & ->) _ _ _ _]. split_and!.
    + destruct Hd as [-> |(op & Ha & ->)]; [apply draft_agree_refl|by eapply perform_foreign].
    + destruct Hc as [-> |Hc]; [done|by eapply publishes_foreign].
    + intros. destruct Hh as [-> |(drain & Ed & ->)]; [done|].
      unfold HotStore.endpoint_is_drained. simpl. rewrite lookup_insert_ne; [done|]. congruence.
    + destruct Ho as [-> |(o & Et & Eo & ->)]; [done|]. apply foreign_create; [|done].
      rewrite Eo. apply Hf.
    + rewrite List.filter_app. simpl. rewrite bool_decide_false by congruence. by rewrite app_nil_r.
    + done.
Qed.

(** A second request under a key whose response has not expired. *)
Lemma keyed_replays actor key hash now m : keyed actor key hash now m → ∀ s record r s',
  GatewayStore.idempotency_records s !! (AuthenticatedActor.tenant_id actor, key) = Some record →
  (now < IdempotencyRecord.expires_at record)%Z →
  m s = (r, s') →
  unchanged s s'
  ∧ GatewayStore.idempotency_records s' = GatewayStore.idempotency_records s
  ∧ match r with
    | Ok v => v = response_with_replay_flag (IdempotencyRecord.response_record record) true
              ∧ IdempotencyRecord.request_hash record = hash
    | Err e =>
        (e = GatewayError.BadRequest "idempotency_key_conflict"
         ∧ IdempotencyRecord.request_hash record ≠ hash)
        ∨ (m (GatewayStore.set_idempotency_records s ∅)).1 = Err e
    end.
Proof.
  induction 1 as [op Hop|A g f Hg Hf IH]; intros s record r s' Hk Hx Hrun; revert Hrun.
  - unfold idempotently, mbind, M_bind at 1. rewrite (lookup_stored _ _ hash _ _ _ Hk Hx).
    case_bool_decide; intros [= <- <-]; [done|]. split_and!; try done. by left.
  - unfold mbind, M_bind. rewrite (guard_blind _ Hg). pose proof (guard_records _ Hg s) as Er.
    pose proof (guard_unchanged _ Hg s) as Hu.
    destruct (g s) as [[a|e] s1]; simpl in *.
    + rewrite <-Er in Hk. intros Hrun. destruct (IH a s1 record r s' Hk Hx Hrun) as (H1' & H2' & H3').
      split; [etrans; [by eapply Hu|done]|]. split; [congruence|done].
    + intros [= <- <-]. split; [by eapply Hu|]. split; [done|]. by right.
Qed.

(** C15. Requests with an idempotency key are done once: when a creation,
    publication, rollback or emergency operation under a new key has succeeded,
    then within the next 24 hours, after any further requests of any tenants, a
    request of the tenant under the same key changes nothing but evidence.  If it
    is answered with success, it is the same request and gets the first answer,
    marked as replayed; if not, it is another request and gets a conflict, or it
    is refused by a check that refuses it without the stored response, too. *)
Theorem keyed_request_done_once drawn actor request now s v s0 s1 drawn' actor' request' later
    key hash hash' r s' :
  idempotency_scope (AuthenticatedActor.tenant_id actor) request = Some (key, hash) →
  GatewayStore.idempotency_records s !! (AuthenticatedActor.tenant_id actor, key) = None →
  serve_admin drawn actor request now s = (Ok v, s0) →
  admin_history (now + duration_hours IDEMPOTENCY_TTL_HOURS) s0 s1 →
  AuthenticatedActor.tenant_id actor' = AuthenticatedActor.tenant_id actor →
  idempotency_scope (AuthenticatedActor.tenant_id actor') request' = Some (key, hash') →
  (later < now + duration_hours IDEMPOTENCY_TTL_HOURS)%Z →
  serve_admin drawn' actor' request' later s1 = (r, s') →
  unchanged s1 s'
  ∧ GatewayStore.idempotency_records s' = GatewayStore.idempotency_records s1
  ∧ match r with
    | Ok v' => v' = response_with_replay_flag v true ∧ hash' = hash
    | Err e =>
        (e = GatewayError.BadRequest "idempotency_key_conflict" ∧ hash' ≠ hash)
        ∨ (serve_admin drawn' actor' request' later
             (GatewayStore.set_idempotency_records s1 ∅)).1 = Err e
    end.
Proof.
  intros Hs Hnew Hrun Hh Et Hs' Hl Hrun'.
  pose proof (keyed_stores _ _ _ _ _ (keyed_request drawn actor request now _ _ Hs) _ _ _ Hrun Hnew)
    as Hk.
  pose proof (history_record _ _ _ _ _ Hh Hk (Z.le_refl _)) as Hk1. rewrite <-Et in Hk1.
  destruct (keyed_replays _ _ _ _ _ (keyed_request drawn' actor' request' later _ _ Hs') _ _ _ _ Hk1 Hl
    Hrun') as (? & ? & Hr). split_and!; [done..|]. destruct r; naive_solver.
Qed.
End retry.
