(* ===== verification/AdminOutcomes.v ===== *)
(** * What dry runs predict and emergency operations do

    Every kind of draft resource has a [:validate] route that reports what is wrong
    with a request; the checks of the service and those of the store are written
    separately.  A request without errors is shown to be one the store accepts, so
    that the answer of a dry run tells how the creation will end.

    The second part is how an emergency operation reaches the planner: disabling an
    endpoint writes a drain that the planner honours at once, blocking a budget
    refuses the requests it covers before anything is reserved, while disabling a
    credential and draining a group leave the published configuration and the hot
    state, and with them every route, as they are. *)

From S2P Require Import Prelude Order Text Domain Action HotState Routing Catalog Grants RoutePlan Json Usage Pricing PolicyStore RuntimePolicy Reconciler Delivery CedarPolicy Publication GwRoute AdminRecords DraftCatalog DraftFacts AdminState AdminValidation AdminHandlers AdminEmergency AdminFacts AdminGuards.

(** ** The checks of the store follow from those of the service *)

Section checks.
Context {V : Type} `{JsonLibrary V}.
Implicit Types (d : DraftCatalog.t V) (actor : AuthenticatedActor.t).

Lemma push_if_nil test field reason : push_if (V:=V) test field reason = [] ↔ test = false.
Proof. by destruct test. Qed.

Lemma refuse_if_false test error : test = false → refuse_if test error = Ok tt.
Proof. by intros ->. Qed.

(** The records of one tenant, sorted, against the whole table. *)
Lemma exists_in_tenant {R} (order : R → R → comparison) (p : R → bool) (q : R → bool) (l : list R)
    (tenant : R → bool) :
  (∀ x, q x = tenant x && p x) →
  existsb q l = existsb p (sort_by order (List.filter tenant l)).
Proof.
  intros Hq. apply eq_iff_eq_true. rewrite !existsb_iff. setoid_rewrite sort_by_elem.
  setoid_rewrite filter_iff. setoid_rewrite Hq. setoid_rewrite andb_true_iff. naive_solver.
Qed.

Lemma organization_scope_accepted actor o d :
  unknown_organization actor o d = [] →
  validate_optional_organization_scope (AuthenticatedActor.tenant_id actor) o d = Ok tt.
Proof.
  unfold unknown_organization, validate_optional_organization_scope.
  destruct o as [o|]; [|done]. rewrite push_if_nil, negb_false_iff. unfold organization_for_actor.
  destruct (for_actor _ _ _ _ _) as [x|] eqn:E; [|done]. intros _.
  apply for_actor_found in E as [-> Et]. simpl. apply refuse_if_false.
  by rewrite bool_decide_true.
Qed.

#[local] Ltac no_errors :=
  repeat match goal with
  | H : _ ++ _ = [] |- _ => apply app_eq_nil in H as [? ?]
  | H : push_if _ _ _ = [] |- _ => apply push_if_nil in H
  | H : [_] = [] |- _ => discriminate H
  | H : negb _ = false |- _ => apply negb_false_iff in H
  | H : is_ok ?x = true |- _ =>
      let y := fresh "y" in let E := fresh "E" in destruct x as [y|] eqn:E; [clear H|discriminate H]
  | H : match ?x with Ok _ => _ | Err _ => [_] end = [] |- _ =>
      let y := fresh "y" in let E := fresh "E" in destruct x as [y|] eqn:E; [|discriminate H]
  | H : for_actor _ _ _ _ _ = Ok _ |- _ => apply for_actor_found in H as [? ?]
  end.
#[local] Ltac accepted :=
  repeat first
    [ rewrite organization_scope_accepted by done
    | match goal with Hl : ?m !! ?k = Some _ |- context[?m !! ?k] => rewrite Hl end
    | rewrite refuse_if_false
        by (done || (by rewrite bool_decide_true) || (apply negb_false_iff; assumption))
    | progress simpl ].

Lemma credential_accepted actor (request : AdminCreateUpstreamCredentialRequest.t) by_ d :
  upstream_credential_validation_errors actor request d = [] →
  validate_upstream_credential_endpoint (CreateUpstreamCredentialRequest.mk
    (AuthenticatedActor.tenant_id actor)
    (AdminCreateUpstreamCredentialRequest.organization_id request)
    (AdminCreateUpstreamCredentialRequest.provider_endpoint_id request)
    (AdminCreateUpstreamCredentialRequest.credential_kind request)
    (AdminCreateUpstreamCredentialRequest.secret_ref_id request) by_) d = Ok tt.
Proof.
  unfold upstream_credential_validation_errors, provider_endpoint_for_actor. intros He. no_errors.
  destruct (valid_secret_ref_id _) eqn:Ev; [|done]. unfold validate_secret_ref_scope_fields in *.
  destruct (DraftCatalog.secret_refs d !! _) as [secret|] eqn:Es; [|done].
  destruct (SecretRefRecord.tenant_id secret !=? _) eqn:Et; [done|]. no_errors.
  unfold validate_upstream_credential_endpoint. accepted.
  unfold ensure_secret_ref_usable. rewrite Ev. by accepted.
Qed.

Lemma target_accepted actor (request : AdminCreateModelTargetRequest.t) by_ d :
  model_target_validation_errors actor request d = [] →
  validate_model_target_refs (CreateModelTargetRequest.mk (AuthenticatedActor.tenant_id actor)
    (AdminCreateModelTargetRequest.organization_id request)
    (AdminCreateModelTargetRequest.provider_endpoint_id request)
    (AdminCreateModelTargetRequest.upstream_credential_id request)
    (AdminCreateModelTargetRequest.protocol_family request)
    (AdminCreateModelTargetRequest.upstream_model_id request)
    (AdminCreateModelTargetRequest.pricing_sku_id request)
    (AdminCreateModelTargetRequest.supports_streaming request) by_) d = Ok tt.
Proof.
  unfold model_target_validation_errors, model_target_endpoint_errors, model_target_pricing_errors,
    provider_endpoint_for_actor, upstream_credential_for_actor. intros He. no_errors.
  unfold validate_model_target_refs. accepted.
  assert (∀ r, CreateModelTargetRequest.upstream_credential_id r
               = AdminCreateModelTargetRequest.upstream_credential_id request →
             CreateModelTargetRequest.tenant_id r = AuthenticatedActor.tenant_id actor →
             CreateModelTargetRequest.provider_endpoint_id r
               = AdminCreateModelTargetRequest.provider_endpoint_id request →
             validate_model_target_credential r d = Ok tt) as Hc.
  { intros r E1 E2 E3. unfold validate_model_target_credential. rewrite E1, E2, E3.
    destruct (AdminCreateModelTargetRequest.upstream_credential_id request); [|done].
    no_errors. by accepted. }
  rewrite Hc by done. simpl. unfold validate_model_target_pricing. simpl.
  destruct (AdminCreateModelTargetRequest.pricing_sku_id request) as [sku|]; [|done].
  destruct (DraftCatalog.pricing_skus d !! sku) as [x|]; [|done]. simpl.
  destruct (PricingSkuRecord.tenant_id x ==? _) eqn:Et; [|done]. no_errors. by accepted.
Qed.

Lemma group_accepted actor (request : AdminCreateRoutingGroupRequest.t) by_ d :
  routing_group_validation_errors actor request d = [] →
  validate_routing_group_request (CreateRoutingGroupRequest.mk (AuthenticatedActor.tenant_id actor)
    (AdminCreateRoutingGroupRequest.organization_id request)
    (AdminCreateRoutingGroupRequest.name request)
    (AdminCreateRoutingGroupRequest.protocol_family request)
    (AdminCreateRoutingGroupRequest.purpose request) by_) d = Ok tt.
Proof.
  unfold routing_group_validation_errors, routing_groups_for_tenant. intros He. no_errors.
  unfold validate_routing_group_request. accepted.
  erewrite exists_in_tenant; [by accepted|]. intros x. simpl. by rewrite !andb_assoc.
Qed.

Lemma member_accepted actor group_id (request : AdminCreateRoutingGroupTargetRequest.t) by_ d :
  routing_group_target_validation_errors actor group_id request d = [] →
  validate_routing_group_target_refs (CreateRoutingGroupTargetRequest.mk
    (AuthenticatedActor.tenant_id actor) group_id
    (AdminCreateRoutingGroupTargetRequest.model_target_id request)
    (AdminCreateRoutingGroupTargetRequest.weight request)
    (AdminCreateRoutingGroupTargetRequest.priority request) by_) d = Ok tt.
Proof.
  unfold routing_group_target_validation_errors, routing_group_targets_for_group,
    routing_group_for_actor, model_target_for_actor. intros He. no_errors.
  unfold validate_routing_group_target_refs. accepted.
  erewrite exists_in_tenant; [by accepted|]. intros x. simpl. by rewrite !andb_assoc.
Qed.

Lemma alias_accepted actor (request : AdminCreateModelAliasRequest.t) by_ d :
  model_alias_validation_errors actor request d = [] →
  validate_model_alias_request (CreateModelAliasRequest.mk (AuthenticatedActor.tenant_id actor)
    (AdminCreateModelAliasRequest.organization_id request)
    (AdminCreateModelAliasRequest.project_id request)
    (AdminCreateModelAliasRequest.alias_name request)
    (AdminCreateModelAliasRequest.protocol_family request)
    (AdminCreateModelAliasRequest.route_policy_id request) by_) d = Ok tt.
Proof.
  unfold model_alias_validation_errors, model_aliases_for_tenant, project_for_actor. intros He.
  no_errors. unfold validate_model_alias_request, validate_optional_project_scope. accepted.
  assert (match AdminCreateModelAliasRequest.project_id request with
          | None => Ok tt
          | Some project_id =>
              project ← ok_or (DraftCatalog.projects d !! project_id)
                          (GatewayError.NotFound ("project " +:+ project_id));
              refuse_if (ProjectRecord.tenant_id project !=? AuthenticatedActor.tenant_id actor)
                (GatewayError.Authorization "project_tenant_mismatch");;
              match AdminCreateModelAliasRequest.organization_id request with
              | Some organization_id =>
                  refuse_if (ProjectRecord.organization_id project !=? organization_id)
                    (GatewayError.BadRequest "project_organization_mismatch")
              | None => Ok tt
              end
          end = Ok tt) as ->.
  { destruct (AdminCreateModelAliasRequest.project_id request) as [p|]; [|done]. no_errors. accepted.
    destruct (AdminCreateModelAliasRequest.organization_id request) as [o|]; [|done]. simpl in *.
    apply refuse_if_false. apply negb_false_iff. btrue. apply bool_decide_eq_true. congruence. }
  simpl. accepted. erewrite exists_in_tenant; [by accepted|]. intros x. simpl. by rewrite !andb_assoc.
Qed.

Lemma policy_accepted actor (request : AdminCreateRoutePolicyRequest.t) by_ d :
  route_policy_validation_errors actor request d = [] →
  ∃ c, validate_route_policy_request (CreateRoutePolicyRequest.mk
    (AuthenticatedActor.tenant_id actor) (AdminCreateRoutePolicyRequest.name request)
    (AdminCreateRoutePolicyRequest.model_alias_id request)
    (AdminCreateRoutePolicyRequest.routing_group_id request) by_) d = Ok c.
Proof.
  unfold route_policy_validation_errors, route_policies_for_tenant, model_alias_for_actor,
    routing_group_for_actor. intros He. no_errors.
  unfold validate_route_policy_request. accepted.
  erewrite exists_in_tenant; [accepted; by eexists|]. intros x. simpl. by rewrite !andb_assoc.
Qed.

Lemma grant_accepted actor (request : AdminCreateProviderGrantRequest.t) by_ d :
  provider_grant_validation_errors actor request d = [] →
  ∃ c, validate_provider_grant_request (CreateProviderGrantRequest.mk
    (AuthenticatedActor.tenant_id actor) (AdminCreateProviderGrantRequest.scope_kind request)
    (AdminCreateProviderGrantRequest.scope_id request)
    (AdminCreateProviderGrantRequest.resource_kind request)
    (AdminCreateProviderGrantRequest.resource_id request)
    (AdminCreateProviderGrantRequest.effect request)
    (AdminCreateProviderGrantRequest.closure_mode request) by_) d = Ok c.
Proof.
  unfold provider_grant_validation_errors, validate_provider_grant_scope_fields,
    validate_provider_grant_resource_fields, validate_provider_grant_effect_fields,
    provider_grants_for_tenant, organization_for_actor, project_for_actor. intros He. no_errors.
  unfold validate_provider_grant_request. simpl.
  match goal with |- ∃ c, (validate_provider_grant_scope ?t ?r d ≫= _) = _ =>
    assert (∃ c, validate_provider_grant_scope t r d = Ok c) as [scope ->] end.
  { unfold validate_provider_grant_scope. simpl.
    repeat case_bool_decide; no_errors; accepted; by eexists. }
  simpl. unfold validate_provider_grant_resource. simpl.
  destruct (granted_resource_exists _ _ _ _) as [[]|]; [|done..]. simpl.
  unfold validate_provider_grant_effect. accepted.
  erewrite exists_in_tenant; [accepted; by eexists|]. intros x. simpl. by rewrite !andb_assoc.
Qed.
End checks.

(** ** Dry run, then creation *)

Section dry_run.
Context {V : Type} `{JsonLibrary V} `{JsonText V} `{Sha256Library} `{CedarParser} `{ChronoDisplay}.
Abbreviation Store := (GatewayStore.t V).
Abbreviation Eff := (M Store GatewayError.t).
Implicit Types (s : Store) (actor : AuthenticatedActor.t) (now later : DateTime) (drawn : Drawn.t).

(** The [:validate] route of each kind of resource. *)
Definition serve_validate drawn actor (request : CreateRequest) now : Eff V :=
  match request with
  | NewProviderEndpoint r => validate_provider_endpoint drawn actor r now
  | NewUpstreamCredential r => validate_upstream_credential drawn actor r now
  | NewModelTarget r => validate_model_target drawn actor r now
  | NewModelAlias r => validate_model_alias drawn actor r now
  | NewRoutePolicy r => validate_route_policy drawn actor r now
  | NewProviderGrant r => validate_provider_grant drawn actor r now
  | NewRoutingGroup r => validate_routing_group drawn actor r now
  | NewRoutingGroupTarget g r => validate_routing_group_target drawn actor g r now
  end.

(** The idempotency key of a creation, and the route and resource it is
    authorized for. *)
Definition creation_key (request : CreateRequest) : string :=
  match request with
  | NewProviderEndpoint r => AdminCreateProviderEndpointRequest.idempotency_key r
  | NewUpstreamCredential r => AdminCreateUpstreamCredentialRequest.idempotency_key r
  | NewModelTarget r => AdminCreateModelTargetRequest.idempotency_key r
  | NewModelAlias r => AdminCreateModelAliasRequest.idempotency_key r
  | NewRoutePolicy r => AdminCreateRoutePolicyRequest.idempotency_key r
  | NewProviderGrant r => AdminCreateProviderGrantRequest.idempotency_key r
  | NewRoutingGroup r => AdminCreateRoutingGroupRequest.idempotency_key r
  | NewRoutingGroupTarget _ r => AdminCreateRoutingGroupTargetRequest.idempotency_key r
  end.

Definition creation_route (request : CreateRequest) : string * string :=
  match request with
  | NewProviderEndpoint _ => ("/admin/v1/provider-endpoints", "*")
  | NewUpstreamCredential _ => ("/admin/v1/upstream-credentials", "*")
  | NewModelTarget _ => ("/admin/v1/model-targets", "*")
  | NewModelAlias _ => ("/admin/v1/model-aliases", "*")
  | NewRoutePolicy _ => ("/admin/v1/route-policies", "*")
  | NewProviderGrant _ => ("/admin/v1/provider-grants", "*")
  | NewRoutingGroup _ => ("/admin/v1/routing-groups", "*")
  | NewRoutingGroupTarget g _ => ("/admin/v1/routing-groups/{routing_group_id}/targets", g)
  end.

(** The answer of a dry run carries its verdict. *)
Definition says_valid (verdict : bool) (answer : V) : Prop :=
  ∃ fields, answer = json_obj fields ∧ ("valid", json_bool verdict) ∈ fields.

(** What a dry run leaves: one diagnostic that says whether there were errors. *)
Lemma validate_resource_run {R} (res : AdminResource.t V R) drawn actor id kind scope errors now s v s0 :
  validate_resource res drawn actor id kind scope errors now s = (Ok v, s0) →
  GatewayStore.draft s0 = GatewayStore.draft s
  ∧ ∃ diagnostic,
      GatewayStore.validation_diagnostics s0
      = GatewayStore.validation_diagnostics s ++ [diagnostic]
      ∧ says_valid (ValidationDiagnosticRecord.valid diagnostic) v
      ∧ (ValidationDiagnosticRecord.valid diagnostic = true ↔ errors (GatewayStore.draft s0) = []).
Proof.
  unfold validate_resource. unfold mbind, M_bind.
  destruct (authorize_admin_route _ _ _ _ _ _ s) as [[[]|e] s1] eqn:Ea; [|done].
  apply authorize_admin_route_result in Ea as [ds ->]. simpl. intros [= <- <-]. simpl.
  split; [done|]. eexists. split_and!; [reflexivity| |by destruct (errors _)].
  eexists. split; [reflexivity|]. do 2 right. left.
Qed.

(** A creation that passes the key and authorization checks, under a new key. *)
Lemma create_resource_run {R} (res : AdminResource.t V R) drawn actor id operation key request
    errors_first errors (m : M (DraftCatalog.t V) GatewayError.t R) now s :
  validate_idempotency_key key = Ok tt →
  (authorize_admin_route (Drawn.decision drawn) actor "POST" (AdminResource.list_path res) id now s).1
    = Ok tt →
  GatewayStore.idempotency_records s
    !! (AuthenticatedActor.tenant_id actor, idempotency_scope_key operation key) = None →
  (errors (GatewayStore.draft s) = [] → ∃ x d, m (GatewayStore.draft s) = (Ok x, d)) →
  let r := (create_resource res drawn actor id operation key request errors_first errors m now s).1 in
  (errors (GatewayStore.draft s) = [] → ∃ v, r = Ok v)
  ∧ (errors (GatewayStore.draft s) ≠ [] → r = Err (GatewayError.BadRequest "validation_failed")).
Proof.
  intros Hk Ha Hnew Hm. unfold create_resource, idempotently, mbind, M_bind, lift. rewrite Hk.
  destruct (authorize_admin_route _ _ _ _ _ _ s) as [r s1] eqn:E. simpl in Ha. subst r.
  apply authorize_admin_route_result in E as [ds ->].
  unfold reads_draft, idempotency_response, on_draft. simpl.
  destruct (errors (GatewayStore.draft s)) as [|e l] eqn:Ee.
  - destruct (Hm eq_refl) as (x & d & Em). split; [intros _|done].
    destruct errors_first; simpl; rewrite ?Ee; simpl; rewrite Hnew; simpl; rewrite ?Ee; simpl;
      rewrite Em; eexists; reflexivity.
  - split; [done|intros _].
    destruct errors_first; simpl; [by rewrite Ee|]. rewrite Hnew. simpl. by rewrite Ee.
Qed.

(** Both, one after the other. *)
Lemma validate_then_create {R} (res : AdminResource.t V R) drawn actor id kind scope errors now s v s0
    drawn' id' operation key request errors_first (m : M (DraftCatalog.t V) GatewayError.t R) later :
  validate_resource res drawn actor id kind scope errors now s = (Ok v, s0) →
  validate_idempotency_key key = Ok tt →
  (authorize_admin_route (Drawn.decision drawn') actor "POST" (AdminResource.list_path res) id' later
     s0).1 = Ok tt →
  GatewayStore.idempotency_records s0
    !! (AuthenticatedActor.tenant_id actor, idempotency_scope_key operation key) = None →
  (errors (GatewayStore.draft s0) = [] → ∃ x d, m (GatewayStore.draft s0) = (Ok x, d)) →
  let r := (create_resource res drawn' actor id' operation key request errors_first errors m later
              s0).1 in
  GatewayStore.draft s0 = GatewayStore.draft s
  ∧ ∃ diagnostic,
      GatewayStore.validation_diagnostics s0
      = GatewayStore.validation_diagnostics s ++ [diagnostic]
      ∧ says_valid (ValidationDiagnosticRecord.valid diagnostic) v
      ∧ if ValidationDiagnosticRecord.valid diagnostic then ∃ v', r = Ok v'
        else r = Err (GatewayError.BadRequest "validation_failed").
Proof.
  intros (Hd & diagnostic & Hdiag & Hsays & Hvalid)%validate_resource_run Hk Ha Hnew Hm. simpl.
  destruct (create_resource_run res drawn' actor id' operation key request errors_first errors m later
    s0 Hk Ha Hnew Hm) as [Hok Hbad].
  split; [done|]. exists diagnostic. split; [done|]. split; [done|].
  destruct (ValidationDiagnosticRecord.valid diagnostic); [by apply Hok, Hvalid|].
  apply Hbad. intros ?%Hvalid. done.
Qed.

(** C16. A dry run predicts the creation: when the [:validate] route of any kind of
    draft resource answers, it has recorded exactly one diagnostic, whose verdict the
    answer carries, and changed nothing in the catalog; and a creation with the same
    request in that state, with a well-formed new key by a caller who may create,
    succeeds if the verdict is valid and is refused with [validation_failed] if it
    is not: the checks of the store never reject what the service has validated. *)
Theorem dry_run_predicts_creation drawn actor request now s v s0 drawn' later :
  serve_validate drawn actor request now s = (Ok v, s0) →
  validate_idempotency_key (creation_key request) = Ok tt →
  GatewayStore.idempotency_records s0
    !! (AuthenticatedActor.tenant_id actor, (creation_scope request).1) = None →
  (authorize_admin_route (Drawn.decision drawn') actor "POST" (creation_route request).1
     (creation_route request).2 later s0).1 = Ok tt →
  GatewayStore.draft s0 = GatewayStore.draft s
  ∧ ∃ diagnostic,
      GatewayStore.validation_diagnostics s0
      = GatewayStore.validation_diagnostics s ++ [diagnostic]
      ∧ says_valid (ValidationDiagnosticRecord.valid diagnostic) v
      ∧ if ValidationDiagnosticRecord.valid diagnostic
        then ∃ v', (serve_create drawn' actor request later s0).1 = Ok v'
        else (serve_create drawn' actor request later s0).1
             = Err (GatewayError.BadRequest "validation_failed").
Proof.
  intros Hv Hk Hnew Ha. destruct request; simpl in *.
  all: eapply validate_then_create; [exact Hv|exact Hk|exact Ha|exact Hnew|intros He].
  - unfold provider_endpoint_validation_errors in He. unfold DraftCatalog.create_provider_endpoint.
    repeat apply app_eq_nil in He as [_ He]. simpl.
    rewrite organization_scope_accepted by done. by eexists _, _.
  - unfold DraftCatalog.create_upstream_credential. rewrite credential_accepted by done. by eexists _, _.
  - unfold DraftCatalog.create_model_target. rewrite target_accepted by done. by eexists _, _.
  - unfold DraftCatalog.create_model_alias. rewrite alias_accepted by done. by eexists _, _.
  - unfold DraftCatalog.create_route_policy.
    edestruct (policy_accepted actor) as [[[? ?] ?] ->]; [exact He|]. by eexists _, _.
  - unfold DraftCatalog.create_provider_grant.
    edestruct (grant_accepted actor) as [[? ?] ->]; [exact He|]. by eexists _, _.
  - unfold DraftCatalog.create_routing_group. rewrite group_accepted by done. by eexists _, _.
  - unfold DraftCatalog.create_routing_group_target. rewrite member_accepted by done. by eexists _, _.
Qed.
End dry_run.

(** ** Emergency operations and routing *)

(** A plan never selects a drained endpoint. *)
Lemma selected_not_drained catalog request plan selection :
  plan_runtime_route_with_hot_state catalog request = Ok plan →
  RoutePlan.outcome plan = RoutePlanOutcome.Selected selection →
  RouteHotState.endpoint_is_drained (RoutePlanRequest.hot_state request)
    (ProviderEndpoint.tenant_id (RouteSelection.provider_endpoint selection))
    (ProviderEndpoint.provider_endpoint_id (RouteSelection.provider_endpoint selection))
    (RoutePlanRequest.config_version request) (RoutePlanRequest.now request) = false.
Proof.
  intros Hplan Hsel.
  assert (∃ context, request_context catalog request = Ok context
    ∧ RouteCandidateContext.hot_state context = RoutePlanRequest.hot_state request
    ∧ RouteCandidateContext.config_version context = RoutePlanRequest.config_version request
    ∧ RouteCandidateContext.now context = RoutePlanRequest.now request)
    as (context & Hctx & E1 & E2 & E3).
  { revert Hplan. unfold plan_runtime_route_with_hot_state, request_context.
    destruct (resolve_route_binding catalog request) as [[[alias policy] group]|]; [simpl|done].
    destruct (index_endpoints _); [simpl|done]. destruct (index_credentials _); [simpl|done].
    destruct (index_targets _); [simpl|done]. intros _. by eexists. }
  rewrite <-E1, <-E2, <-E3.
  destruct (plan_cases catalog request context Hctx)
    as [(t & e & Hst & Hp)|[_ [(pre & c & post & t & e & miss & Hc & _ & Hel & Hp)|[Hall Hp]]]];
    rewrite Hplan in Hp; injection Hp as ->; simpl in Hsel.
  - injection Hsel as <-. simpl.
    apply sticky_reusable_eligible in Hst as (c & _ & Hel). exact (el_not_drained _ _ _ _ _ Hel).
  - injection Hsel as <-. simpl. exact (el_not_drained _ _ _ _ _ Hel).
  - by case_match.
Qed.

Section routing.
Context {V : Type} `{JsonLibrary V} `{JsonText V} `{Sha256Library} `{CedarParser} `{ChronoDisplay}.
Abbreviation Store := (GatewayStore.t V).
Abbreviation Eff := (M Store GatewayError.t).
Implicit Types (s : Store) (actor : AuthenticatedActor.t) (now later : DateTime) (drawn : Drawn.t).

(** ** Disabling an endpoint *)

Definition endpoints_keyed (d : DraftCatalog.t V) : Prop :=
  ∀ id r, DraftCatalog.provider_endpoints d !! id = Some r →
    ProviderEndpointRecord.provider_endpoint_id r = id.

(** The endpoints are under their ids and one of them is drained this way. *)
Definition drained_so (key : string * string) (drain : EndpointDrainRecord.t) s : Prop :=
  endpoints_keyed (GatewayStore.draft s)
  ∧ HotStore.endpoint_drains (GatewayStore.hot_state s) !! key = Some drain.

Lemma endpoint_update_keyed i v st now d :
  endpoints_keyed d → endpoints_keyed (update_provider_endpoint_status i v st now d).2.
Proof.
  intros Hd. unfold update_provider_endpoint_status, on_table, update_versioned.
  destruct (DraftCatalog.provider_endpoints d !! i) as [r|] eqn:E; [|done]. destruct (_ !=? _); [done|].
  intros id x. simpl. intros [[<- <-]|[_ Hx]]%lookup_insert_Some; [by apply Hd in E|by apply Hd].
Qed.

(** The drain that disabling an endpoint writes, for the published version. *)
Lemma disable_endpoint_drains drawn actor id request now s v s0 publication :
  serve_admin drawn actor (Emergency (DisableProviderEndpoint id request)) now s = (Ok v, s0) →
  GatewayStore.idempotency_records s
    !! (AuthenticatedActor.tenant_id actor,
        emergency_idempotency_scope_key "disable_provider_endpoint" id
          (AdminEmergencyOperationRequest.idempotency_key request)) = None →
  ConfigStore.config_publication (AuthenticatedActor.tenant_id actor) (GatewayStore.config s)
    = Some publication →
  endpoints_keyed (GatewayStore.draft s) →
  ∃ endpoint,
    DraftCatalog.provider_endpoints (GatewayStore.draft s0) !! id = Some endpoint
    ∧ ProviderEndpointRecord.status endpoint = ResourceStatus.Disabled
    ∧ endpoints_keyed (GatewayStore.draft s0)
    ∧ HotStore.endpoint_drains (GatewayStore.hot_state s0) !! (AuthenticatedActor.tenant_id actor, id)
      = Some (EndpointDrainRecord.mk (AuthenticatedActor.tenant_id actor) id
                (ConfigPublicationPointerRecord.version publication)
                (trim (AdminEmergencyOperationRequest.reason request)) now
                (AdminEmergencyOperationRequest.expires_at request)).
Proof.
  simpl. intros Hrun Hnew Hpub Hkeyed. unfold emergency_disable_provider_endpoint in Hrun.
  destruct (emergency_performed _ _ _ _ _ _ _ _ _ _ _ Hrun Hnew)
    as (Hrec & ds & s1 & records & Hop & ->). revert Hop.
  unfold mbind at 1, M_bind at 1, reads_draft. simpl.
  destruct (provider_endpoint_for_actor actor id _) as [before|] eqn:Ef; [|done].
  unfold mbind at 1, M_bind at 1, lift.
  destruct (required_emergency_expected_version request) as [expected|]; [|done].
  unfold mbind at 1, M_bind at 1, on_draft. simpl.
  pose proof (endpoint_update_keyed id expected ResourceStatus.Disabled now _ Hkeyed) as Hk.
  destruct (update_provider_endpoint_status _ _ _ _ _) as [[u|] d] eqn:Eu; [|done].
  pose proof (updated_endpoint_tenant _ _ _ _ _ _ _ _ _ Ef Eu) as Et.
  unfold mbind at 1, M_bind at 1, set_endpoint_emergency_drain. simpl. rewrite Et, Hpub.
  edestruct (emergency_done_run drawn actor) as (v' & o & e & _ & _ & _ & _ & _ & _ & _ & _ & _ & _ & ->);
    [exact Hrec|].
  intros [= _ <-]. simpl. exists u.
  assert (DraftCatalog.provider_endpoints d !! id = Some u
    ∧ ProviderEndpointRecord.status u = ResourceStatus.Disabled) as [Hu Hst].
  { revert Eu. unfold update_provider_endpoint_status, on_table, update_versioned.
    destruct (DraftCatalog.provider_endpoints (GatewayStore.draft s) !! id); [|done].
    destruct (_ !=? _); [done|]. intros [= <- <-]. simpl. by rewrite lookup_insert_eq. }
  split_and!; [done..|]. rewrite (Hk _ _ Hu). by rewrite lookup_insert_eq.
Qed.

(** *** What other requests leave of a drain *)

(** Another table, or a new endpoint under the id drawn. *)
Lemma other_table_keyed op d :
  match op with UpdateProviderEndpoint _ _ _ _ => False | _ => True end →
  endpoints_keyed d → endpoints_keyed (perform op d).
Proof.
  intros Hop Hd. destruct op; try done; unfold perform.
  all: unfold DraftCatalog.create_provider_endpoint, DraftCatalog.create_upstream_credential,
    update_upstream_credential_status, DraftCatalog.create_model_target, update_model_target_status,
    DraftCatalog.create_routing_group, update_routing_group_status,
    DraftCatalog.create_routing_group_target, update_routing_group_target_status,
    DraftCatalog.create_model_alias, DraftCatalog.update_model_alias, DraftCatalog.create_route_policy,
    update_route_policy_status, DraftCatalog.create_provider_grant, update_provider_grant_status, on_table.
  all: repeat case_match; simplify_eq/=; try done.
  all: by intros id r; simpl; intros [[<- <-]|[_ Hr]]%lookup_insert_Some; [|apply Hd].
Qed.
Lemma perform_endpoints_keyed op d : endpoints_keyed d → endpoints_keyed (perform op d).
Proof.
  intros Hd. destruct op; try (by apply other_table_keyed). by apply endpoint_update_keyed.
Qed.

Create HintDb drained.
Section drained.
Context (key : string * string) (drain : EndpointDrainRecord.t).
Abbreviation kept := (keeps (drained_so key drain)).

Lemma drained_authorize uuid actor method path id now :
  kept (authorize_admin_route uuid actor method path id now).
Proof.
  intros s Hs. destruct (authorize_admin_route _ _ _ _ _ _ s) as [r s'] eqn:E.
  by apply authorize_admin_route_result in E as [ds ->].
Qed.
Lemma drained_idempotently actor scope hash now op : kept op → kept (idempotently actor scope hash now op).
Proof.
  intros Hop. unfold idempotently. apply kept_bind.
  - intros s Hs. unfold idempotency_response. by repeat case_match.
  - intros [v|]; [apply kept_ret|]. apply kept_bind; [done|intros v].
    apply kept_bind; [by intros s|intros _; apply kept_ret].
Qed.
Lemma drained_done drawn actor kind rkind target o p request before after diff affected now :
  kept (emergency_done drawn actor kind rkind target o p request before after diff affected now).
Proof.
  apply kept_bind.
  - intros s Hs. unfold create_emergency_operation_record, create_emergency_operation. by repeat case_match.
  - intros op. apply kept_bind; [by intros s|intros ?; apply kept_ret].
Qed.
Lemma drained_reads {A} (f : DraftCatalog.t V → result GatewayError.t A) : kept (reads_draft f).
Proof. by intros s. Qed.
Lemma drained_on_config {A} (m : M (ConfigStore.t V) GatewayError.t A) : kept (on_config m).
Proof. intros s Hs. unfold on_config. by destruct (m _). Qed.
Lemma drained_on_draft {A} (m : M (DraftCatalog.t V) GatewayError.t A) :
  (∀ d, endpoints_keyed d → endpoints_keyed (m d).2) → kept (on_draft m).
Proof.
  intros Hm s [Hk Hd]. unfold on_draft. specialize (Hm _ Hk). by destruct (m _).
Qed.

Lemma drained_perform {A} (m : M (DraftCatalog.t V) GatewayError.t A) (op : DraftOperation) :
  (∀ d, (m d).2 = perform op d) → kept (on_draft m).
Proof. intros Hm. apply drained_on_draft. intros d Hd. rewrite Hm. by apply perform_endpoints_keyed. Qed.

#[local] Hint Resolve kept_ret kept_lift kept_gets drained_reads drained_on_config drained_authorize
  drained_done : drained.
#[local] Ltac undrained :=
  repeat match goal with
    | |- forall _, _ => intros
    | |- keeps _ (idempotently _ _ _ _ _) => apply drained_idempotently
    | |- keeps _ (if ?x then _ else _) => destruct x
    | |- keeps _ (_ ≫= _) => apply kept_bind
    | |- keeps _ _ => solve [auto with drained nocore | by intros s]
    end.

Lemma drained_create {R} (res : AdminResource.t V R) drawn actor id operation k request errors_first
    errors (m : M (DraftCatalog.t V) GatewayError.t R) (op : DraftOperation) now :
  (∀ d, (m d).2 = perform op d) →
  kept (create_resource res drawn actor id operation k request errors_first errors m now).
Proof. intros Hm. unfold create_resource. undrained; by eapply drained_perform. Qed.

Lemma drained_update {R} (res : AdminResource.t V R) drawn actor id find check
    (m : M (DraftCatalog.t V) GatewayError.t R) diff (op : DraftOperation) now :
  (∀ d, (m d).2 = perform op d) →
  kept (update_resource res drawn actor id find check m diff now).
Proof. intros Hm. unfold update_resource. undrained. by eapply drained_perform. Qed.

Lemma drained_publish drawn actor request now :
  kept (AdminEmergency.publish_config_snapshot drawn actor request now).
Proof. unfold AdminEmergency.publish_config_snapshot, current_version. undrained. Qed.
Lemma drained_rollback drawn actor request now :
  kept (AdminEmergency.rollback_config_snapshot drawn actor request now).
Proof. unfold AdminEmergency.rollback_config_snapshot, current_version. undrained. Qed.

(** Disabling another endpoint writes the drain of that endpoint. *)
Lemma drained_other drawn actor id request now :
  id ≠ key.2 → kept (emergency_disable_provider_endpoint drawn actor id request now).
Proof.
  intros Hne. unfold emergency_disable_provider_endpoint, emergency.
  do 2 (apply kept_bind; [auto with drained nocore|intros ?]). apply drained_idempotently.
  do 2 (apply kept_bind; [auto with drained nocore|intros ?]).
  apply (kept_bind_post _ (λ u, ProviderEndpointRecord.provider_endpoint_id u = id)).
  - apply drained_on_draft. intros d. apply endpoint_update_keyed.
  - intros s u s' [Hk _]. unfold on_draft, update_provider_endpoint_status, on_table, update_versioned.
    destruct (DraftCatalog.provider_endpoints (GatewayStore.draft s) !! id) as [r|] eqn:E; [|done].
    destruct (_ !=? _); [done|]. intros [= <- _]. by apply Hk in E.
  - intros u Hu. apply kept_bind; [|auto with drained nocore].
    intros s [Hk Hd]. unfold set_endpoint_emergency_drain. case_match; [|done].
    split; [done|]. simpl. rewrite lookup_insert_ne; [done|]. intros E. apply Hne. by rewrite <- E, <- Hu.
Qed.

Lemma drained_emergency drawn actor request now :
  (∀ q, request ≠ DisableProviderEndpoint key.2 q) → kept (serve_emergency drawn actor request now).
Proof.
  intros Hne. destruct request as [i q|i q|i q|q|i q|i q]; simpl.
  2: { apply drained_other. intros ->. by eapply Hne. }
  all: unfold emergency_disable_upstream_credential, emergency_drain_routing_group,
    emergency_freeze_config, emergency_rollback_config_snapshot, emergency_force_budget_block,
    emergency, current_version; undrained.
  - by eapply drained_perform with (op := UpdateUpstreamCredential _ _ _ _).
  - by eapply drained_perform with (op := UpdateRoutingGroup _ _ _ _).
Qed.

(** Every request but the disabling of that endpoint leaves its drain. *)
Lemma drained_serve drawn actor request now :
  (∀ q, request ≠ Emergency (DisableProviderEndpoint key.2 q)) →
  kept (serve_admin drawn actor request now).
Proof.
  intros Hne. destruct request as [r|r|r|r|r]; simpl.
  - destruct r; simpl.
    + by eapply drained_create with (op := CreateProviderEndpoint _ _ _).
    + by eapply drained_create with (op := CreateUpstreamCredential _ _ _).
    + by eapply drained_create with (op := CreateModelTarget _ _ _).
    + by eapply drained_create with (op := CreateModelAlias _ _ _).
    + by eapply drained_create with (op := CreateRoutePolicy _ _ _).
    + by eapply drained_create with (op := CreateProviderGrant _ _ _).
    + by eapply drained_create with (op := CreateRoutingGroup _ _ _).
    + by eapply drained_create with (op := CreateRoutingGroupTarget _ _ _).
  - destruct r; simpl.
    + by eapply drained_update with (op := UpdateProviderEndpoint _ _ _ _).
    + by eapply drained_update with (op := UpdateUpstreamCredential _ _ _ _).
    + by eapply drained_update with (op := UpdateModelTarget _ _ _ _).
    + by eapply drained_update with (op := UpdateModelAlias _ _ _).
    + by eapply drained_update with (op := UpdateRoutePolicy _ _ _ _).
    + by eapply drained_update with (op := UpdateProviderGrant _ _ _ _).
    + by eapply drained_update with (op := UpdateRoutingGroup _ _ _ _).
    + by eapply drained_update with (op := UpdateRoutingGroupTarget _ _ _ _).
  - apply drained_publish.
  - apply drained_rollback.
  - apply drained_emergency. intros q E. by eapply Hne; f_equal.
Qed.
End drained.

(** A sequence of admin requests of any tenants, served one after the other. *)
Definition AdminRun : Type := list (Drawn.t * AuthenticatedActor.t * AdminRequest V * DateTime).
Definition serve_run (run : AdminRun) s : Store :=
  foldl (λ s '(drawn, actor, request, now), (serve_admin drawn actor request now s).2) s run.

(** None of them is the emergency operation that disables this endpoint. *)
Definition spares_endpoint id (run : AdminRun) : bool :=
  forallb (λ '(_, _, request, _),
    match request with Emergency (DisableProviderEndpoint i _) => negb (i ==? id) | _ => true end) run.

Lemma drained_run key drain run s :
  spares_endpoint key.2 run = true → drained_so key drain s → drained_so key drain (serve_run run s).
Proof.
  revert s. induction run as [|[[[drawn actor] request] now] run IH]; intros s; simpl; [done|].
  rewrite andb_true_iff. intros [Hr Hrun] Hs. apply IH; [done|]. apply drained_serve; [|done].
  intros q ->. by rewrite bool_decide_true in Hr.
Qed.

(** C27. Disabling an endpoint takes it out of routing: once the emergency operation
    has been performed, the endpoint is disabled in the draft, and after any further
    admin requests of any tenants that do not disable the same endpoint again, no
    plan made with the configuration version published at that moment selects the
    endpoint until the operation expires, whatever the catalog, the request and
    the caller are. *)
Theorem disabled_endpoint_leaves_routing drawn actor id request now s v s0 publication run :
  endpoints_keyed (GatewayStore.draft s) →
  serve_admin drawn actor (Emergency (DisableProviderEndpoint id request)) now s = (Ok v, s0) →
  GatewayStore.idempotency_records s
    !! (AuthenticatedActor.tenant_id actor,
        emergency_idempotency_scope_key "disable_provider_endpoint" id
          (AdminEmergencyOperationRequest.idempotency_key request)) = None →
  ConfigStore.config_publication (AuthenticatedActor.tenant_id actor) (GatewayStore.config s)
    = Some publication →
  spares_endpoint id run = true →
  (∃ endpoint,
    DraftCatalog.provider_endpoints (GatewayStore.draft s0) !! id = Some endpoint
    ∧ ProviderEndpointRecord.status endpoint = ResourceStatus.Disabled)
  ∧ ∀ catalog plan_request plan selection,
      RoutePlanRequest.hot_state plan_request
        = HotStore.reader (GatewayStore.hot_state (serve_run run s0)) →
      RoutePlanRequest.config_version plan_request
        = Some (ConfigPublicationPointerRecord.version publication) →
      (RoutePlanRequest.now plan_request < AdminEmergencyOperationRequest.expires_at request)%Z →
      plan_runtime_route_with_hot_state catalog plan_request = Ok plan →
      RoutePlan.outcome plan = RoutePlanOutcome.Selected selection →
      ProviderEndpoint.tenant_id (RouteSelection.provider_endpoint selection)
        = AuthenticatedActor.tenant_id actor →
      ProviderEndpoint.provider_endpoint_id (RouteSelection.provider_endpoint selection) ≠ id.
Proof.
  intros Hkeyed Hrun Hnew Hpub Hspare.
  destruct (disable_endpoint_drains _ _ _ _ _ _ _ _ _ Hrun Hnew Hpub Hkeyed)
    as (endpoint & He & Hst & Hk0 & Hhot).
  split; [by exists endpoint|]. intros catalog q plan selection Eh Ecv Hnow Hplan Hsel Et Eid.
  destruct (drained_run (AuthenticatedActor.tenant_id actor, id) _ run s0 Hspare (conj Hk0 Hhot))
    as [_ Hd0].
  pose proof (selected_not_drained _ _ _ _ Hplan Hsel) as Hd.
  rewrite Eh, Et, Eid, Ecv in Hd. simpl in Hd. unfold HotStore.endpoint_is_drained in Hd.
  rewrite Hd0 in Hd. unfold EndpointDrainRecord.is_fresh_for in Hd. simpl in Hd.
  rewrite (proj2 (fresh_for_iff _ _ _ _)) in Hd by done. done.
Qed.

(** ** Blocking a budget *)

Lemma head_omap {A B} (f : A → option B) l x y :
  x ∈ l → f x = Some y → ∃ z, head (omap f l) = Some z.
Proof.
  intros Hx Hf. induction l as [|a l IH]; [by apply elem_of_nil in Hx|]. simpl.
  destruct (f a) eqn:Ea; simpl; [by eexists|]. apply elem_of_cons in Hx as [-> |Hx]; [congruence|auto].
Qed.

Lemma history_keeps until s s' :
  admin_history until s s' →
  GatewayStore.budget_policies s' = GatewayStore.budget_policies s
  ∧ ∀ id o, GatewayStore.emergency_operations s !! id = Some o →
      GatewayStore.emergency_operations s' !! id = Some o.
Proof.
  induction 1 as [s|s s' drawn actor request now Hh [IHb IHo] Hd Hnow]; [done|]. split.
  - destruct (serve_admin drawn actor request now s') as [r s2] eqn:E.
    apply serve_admin_served in E. simpl. rewrite <-IHb.
    destruct r as [v|e]; simpl in E; [destruct E as [Hp|[Hu _]]|];
      [apply Hp|apply Hu|apply E].
  - intros id o Ho. apply operation_persists; auto.
Qed.

(** The block that is recorded. *)
Lemma force_block_recorded drawn actor id request now s v s0 :
  serve_admin drawn actor (Emergency (ForceBudgetBlock id request)) now s = (Ok v, s0) →
  GatewayStore.idempotency_records s
    !! (AuthenticatedActor.tenant_id actor,
        emergency_idempotency_scope_key "force_budget_block" id
          (AdminEmergencyOperationRequest.idempotency_key request)) = None →
  ∃ policy key o,
    GatewayStore.budget_policies s0 !! id = Some policy
    ∧ BudgetPolicyRecord.tenant_id policy = AuthenticatedActor.tenant_id actor
    ∧ GatewayStore.emergency_operations s0 !! key = Some o
    ∧ EmergencyOperationRecord.tenant_id o = AuthenticatedActor.tenant_id actor
    ∧ EmergencyOperationRecord.operation_kind o = "force_budget_block"
    ∧ EmergencyOperationRecord.target_resource_kind o = "BudgetPolicy"
    ∧ EmergencyOperationRecord.target_resource_id o = BudgetPolicyRecord.budget_policy_id policy
    ∧ EmergencyOperationRecord.status o = "applied"
    ∧ EmergencyOperationRecord.expires_at o = AdminEmergencyOperationRequest.expires_at request.
Proof.
  simpl. intros Hrun Hnew. unfold emergency_force_budget_block in Hrun.
  destruct (emergency_performed _ _ _ _ _ _ _ _ _ _ _ Hrun Hnew)
    as (Hrec & ds & s1 & records & Hop & ->). revert Hop.
  unfold mbind at 1, M_bind at 1, budget_policy_for_actor. simpl.
  destruct (for_actor _ _ _ _ _) as [policy|] eqn:Ef; [|done].
  apply for_actor_found in Ef as [Hp Ht].
  unfold mbind at 1, M_bind at 1, lift.
  destruct (required_emergency_expected_version request) as [expected|]; [|done].
  unfold mbind at 1, M_bind at 1, lift. destruct (ensure_emergency_expected_version _ _); [|done].
  edestruct (emergency_done_run drawn actor)
    as (v' & o & e & Eo & _ & Hk & Hst & Hx & Hrk & Hri & _ & _ & _ & ->); [exact Hrec|].
  intros [= _ <-]. simpl. exists policy, (EmergencyOperationRecord.emergency_operation_id o), o.
  by rewrite lookup_insert_eq.
Qed.

(** Blocking a budget stops what it covers: after the emergency operation has
    been performed on a policy that is stored under its id and not deleted, and
    after any further requests of any tenants, the budget preflight of every
    request of the tenant that the policy matches is refused with the emergency
    reason until the operation expires, and reserves nothing, whatever the limits
    and the ledger say. *)
Theorem forced_block_refuses_requests `{ChronoCalendar} {S : Type} `{RuntimePolicyRepository S}
    drawn actor id request now s v s0 s1 policy :
  serve_admin drawn actor (Emergency (ForceBudgetBlock id request)) now s = (Ok v, s0) →
  GatewayStore.idempotency_records s
    !! (AuthenticatedActor.tenant_id actor,
        emergency_idempotency_scope_key "force_budget_block" id
          (AdminEmergencyOperationRequest.idempotency_key request)) = None →
  GatewayStore.budget_policies s !! id = Some policy →
  BudgetPolicyRecord.budget_policy_id policy = id →
  BudgetPolicyRecord.status policy ≠ ResourceStatus.Deleted →
  admin_history (AdminEmergencyOperationRequest.expires_at request) s0 s1 →
  ∀ quotas usage uuid release_now caller selected later (st : S),
    AuthenticatedActor.tenant_id caller = AuthenticatedActor.tenant_id actor →
    runtime_budget_policy_matches_request policy caller selected = true →
    (later < AdminEmergencyOperationRequest.expires_at request)%Z →
    enforce_runtime_budget_preflight
      (PolicyData.mk (GatewayStore.budget_policies s1) quotas (GatewayStore.emergency_operations s1)
         usage) uuid release_now caller selected later st
    = (Err (GatewayError.BudgetExceeded "emergency_force_budget_block"), st).
Proof.
  intros Hrun Hnew Hp Hid Hst Hh quotas usage uuid release_now caller selected later st Et Hm Hl.
  destruct (force_block_recorded _ _ _ _ _ _ _ _ Hrun Hnew)
    as (policy' & key & o & Hp0 & Htp & Ho & Hto & Hk & Hrk & Hri & Hso & Hx).
  assert (GatewayStore.budget_policies s0 = GatewayStore.budget_policies s) as Eb.
  { apply serve_admin_served in Hrun as [Hpf|[Hu _]]; [apply Hpf|apply Hu]. }
  rewrite Eb, Hp in Hp0. injection Hp0 as <-.
  destruct (history_keeps _ _ _ Hh) as [Eb1 Ho1]. apply Ho1, operation_listed in Ho.
  unfold enforce_runtime_budget_preflight.
  assert (∃ y, active_force_budget_block_policy (PolicyData.mk (GatewayStore.budget_policies s1)
    quotas (GatewayStore.emergency_operations s1) usage) caller selected later = Some y) as [y ->];
    [|done].
  apply head_omap with o policy; simpl.
  - apply filter_iff. rewrite Et, <-Hto. split; [done|].
    rewrite Hk, Hrk, Hso, Hx, !bool_decide_true by done. by apply Z.ltb_lt.
  - rewrite Hri, Hid, Eb1, Eb, Hp. simpl. rewrite Hm, Et.
    rewrite bool_decide_true, bool_decide_false by done. done.
Qed.

(** ** What the planner does not see *)

(** What routing is planned from: the published configurations and the hot
    state. *)
Definition same_routing s s' : Prop :=
  GatewayStore.config s' = GatewayStore.config s
  ∧ GatewayStore.hot_state s' = GatewayStore.hot_state s.

Definition keeps_routing {A} (m : Eff A) : Prop := ∀ s, same_routing s (m s).2.

Lemma keeps_routing_bind {A B} (m : Eff A) (f : A → Eff B) :
  keeps_routing m → (∀ a, keeps_routing (f a)) → keeps_routing (m ≫= f).
Proof.
  intros Hm Hf s. unfold mbind, M_bind. destruct (Hm s) as [E1 E2].
  destruct (m s) as [[a|e] s1]; [|done]. destruct (Hf a s1) as [E3 E4]. simpl in *.
  split; congruence.
Qed.

Lemma keeps_routing_done drawn actor kind rkind target o p request before after diff affected now :
  keeps_routing
    (emergency_done drawn actor kind rkind target o p request before after diff affected now).
Proof.
  apply keeps_routing_bind.
  - intros s. unfold create_emergency_operation_record, create_emergency_operation. by repeat case_match.
  - intros op. by apply keeps_routing_bind.
Qed.

Lemma keeps_routing_emergency drawn actor kind path target request now (op : Eff V) :
  keeps_routing op → keeps_routing (emergency drawn actor kind path target request now op).
Proof.
  intros Hop. apply keeps_routing_bind; [done|intros _]. apply keeps_routing_bind.
  { intros s. destruct (authorize_admin_route _ _ _ _ _ _ s) eqn:E.
    by apply authorize_admin_route_result in E as [? ->]. }
  intros _. apply keeps_routing_bind.
  { intros s. unfold idempotency_response. by repeat case_match. }
  intros [v|]; [done|]. apply keeps_routing_bind; [done|]. intros v. by apply keeps_routing_bind.
Qed.

Lemma keeps_routing_on_draft {R} (m : M (DraftCatalog.t V) GatewayError.t R) :
  keeps_routing (on_draft m).
Proof. intros s. unfold on_draft. by destruct (m _). Qed.

(** Disabling a credential and draining a group change neither, so every plan is
    the same before and after. *)
Lemma credential_and_group_operations_keep_routing drawn actor id request now s :
  same_routing s
    (serve_admin drawn actor (Emergency (DisableUpstreamCredential id request)) now s).2
  ∧ same_routing s (serve_admin drawn actor (Emergency (DrainRoutingGroup id request)) now s).2.
Proof.
  split; apply keeps_routing_emergency; apply keeps_routing_bind; try done; intros ?;
    apply keeps_routing_bind; try done; intros ?;
    (apply keeps_routing_bind; [apply keeps_routing_on_draft|intros ?; apply keeps_routing_done]).
Qed.
End routing.
