(* ===== verification/AdminScenarios.v ===== *)
(** * Concrete runs of the admin handlers

    A store with one tenant administrator, small instances of the libraries the
    handlers call, and runs of requests on it: the inputs at which the theorems of
    the admin files are applied, and the runs that show where the emergency
    operations and retries fall short of their documentation. *)

From stdpp Require Import pretty.
From S2P Require Import Prelude Order Text Domain Action HotState Routing Catalog Grants RoutePlan Json Usage Pricing PolicyStore RuntimePolicy Reconciler Delivery CedarPolicy Publication PublicationFacts GwRoute AdminRecords DraftCatalog DraftFacts AdminState AdminValidation AdminHandlers AdminEmergency AdminFacts AdminGuards AdminOutcomes.

(** ** Instances *)

(** The text of a document, enough to tell requests apart. *)
Fixpoint tree_text (v : Tree.t) : string :=
  match v with
  | Tree.Null => "null"
  | Tree.Int z => pretty z
  | Tree.Str s => s
  | Tree.Bool b => if b then "true" else "false"
  | Tree.Time t => pretty t
  | Tree.Arr l => "[" +:+ String.concat "," (map tree_text l) +:+ "]"
  | Tree.Obj l => "{" +:+ String.concat "," (map (λ '(k, x), k +:+ ":" +:+ tree_text x) l) +:+ "}"
  end.

#[local] Instance sample_text : JsonText Tree.t := tree_text.
#[local] Instance sample_sha256 : Sha256Library :=
  λ text, (Z.of_nat (String.length text) mod 256)%Z :: repeat 7%Z 31.
#[local] Instance sample_chrono : ChronoDisplay := λ t, pretty t.
#[local] Instance sample_cedar : CedarParser := {
  Schema := unit; PolicySet := string;
  schema_from_str _ := Ok tt;
  policy_set_from_str source := if source ==? "" then Err "empty" else Ok source;
  validate_strict _ _ := ([], 0);
  evaluator _ _ := CedarLibrary.mk string unit unit Some (λ _ _, true) (λ _ _ _, Some tt)
    (λ _, Some tt) (λ _ _, (false, true));
}.

(** ** The store *)

Definition admin : AuthenticatedActor.t :=
  AuthenticatedActor.mk "usr_a" ActorKind.User "ten_t" None None (Some "usr_a") None
    CredentialKind.Session 100 None [] [] "req" "trace".

Definition tenant_grant (action : GatewayAction.t) (kind : string) : ActionGrant.t :=
  ActionGrant.mk "ten_t" None None "usr_a" action kind "*".

Definition granted : list ActionGrant.t := [
  tenant_grant GatewayAction.ProviderEndpointRead "ProviderEndpoint";
  tenant_grant GatewayAction.ProviderEndpointWrite "ProviderEndpoint";
  tenant_grant GatewayAction.RoutingGroupWrite "RoutingGroup";
  tenant_grant GatewayAction.UpstreamCredentialWrite "UpstreamCredential";
  tenant_grant GatewayAction.ConfigPublish "ConfigSnapshot";
  tenant_grant GatewayAction.ConfigRollback "ConfigSnapshot";
  tenant_grant GatewayAction.EmergencyDisable "EmergencyOperation"].

(** A budget that nothing has been spent of. *)
Definition budget : BudgetPolicyRecord.t :=
  BudgetPolicyRecord.mk "bp_1" "ten_t" "tenant" "ten_t" None None None "all_time" "requests"
    (Some 9%Z) None [] "none" "block_new_requests" "strong" ResourceStatus.Active 1 1 "usr_a" 0 0.

Definition start : GatewayStore.t Tree.t :=
  GatewayStore.mk (DraftCatalog.mk ∅ ∅ ∅ ∅ ∅ ∅ ∅ ∅ ∅ ∅ ∅ ∅) ConfigStore.empty {["bp_1" := budget]} granted [] [] [] ∅ ∅
    HotStore.empty.

(** The ids drawn for the [n]-th request. *)
Definition draws (n : string) : Drawn.t := Drawn.mk n n n n n n.

Definition new_endpoint : AdminRequest Tree.t :=
  Create (NewProviderEndpoint (AdminCreateProviderEndpointRequest.mk "key-1" None "openai" "OpenAI"
    [ProtocolFamily.OpenAiResponses] "https://api.example.com")).

Definition after_endpoint : GatewayStore.t Tree.t := (serve_admin (draws "1") admin new_endpoint 1000 start).2.

Lemma endpoint_run :
  ∃ v, serve_admin (draws "1") admin new_endpoint 1000 start = (Ok v, after_endpoint).
Proof. eexists. vm_compute. reflexivity. Qed.

Example endpoint_created :
  ProviderEndpointRecord.display_name
      <$> DraftCatalog.provider_endpoints (GatewayStore.draft after_endpoint) !! "pep_1" = Some "OpenAI".
Proof. by vm_compute. Qed.

(** ** All or nothing, and only in the tenant *)

Lemma start_replays_nothing v : ¬ replays admin 1000 start v.
Proof. intros (key & record & Hr & _). simpl in Hr. by rewrite lookup_empty in Hr. Qed.

Lemma admin_requests_atomic_witness :
  ∃ v, serve_admin (draws "1") admin new_endpoint 1000 start = (Ok v, after_endpoint)
    ∧ performed (draws "1") admin start after_endpoint.
Proof.
  destruct endpoint_run as [v Hrun].
  exists v. split; [exact Hrun|].
  destruct (admin_requests_atomic _ _ _ _ _ _ _ Hrun) as [Hp|[_ Hr]]; [exact Hp|].
  exact (False_ind _ (start_replays_nothing _ Hr)).
Defined.

Lemma start_fresh n : fresh_draws (draws n) start.
Proof. by split; simpl; rewrite lookup_empty. Qed.

Lemma admin_requests_stay_in_tenant_witness :
  ∃ v, serve_admin (draws "1") admin new_endpoint 1000 start = (Ok v, after_endpoint)
    ∧ config_foreign "ten_u" (GatewayStore.config start) (GatewayStore.config after_endpoint)
    ∧ draft_agree (others "ten_t") (GatewayStore.draft start) (GatewayStore.draft after_endpoint).
Proof.
  destruct endpoint_run as [v Hrun].
  exists v. split; [exact Hrun|].
  destruct (admin_requests_stay_in_tenant _ _ _ _ "ten_u" _ _ _ Hrun (start_fresh "1")
    ltac:(by vm_compute)) as (Hd & Hc & _). by split.
Defined.

(** ** The freeze *)

Definition emergency_request (key : string) (version : option Z) : AdminEmergencyOperationRequest.t :=
  AdminEmergencyOperationRequest.mk key version "incident" 9000.
Definition freeze : AdminRequest Tree.t := Emergency (FreezeConfig (emergency_request "key-2" None)).
Definition after_freeze : GatewayStore.t Tree.t := (serve_admin (draws "2") admin freeze 1000 start).2.
Definition still_frozen : GatewayStore.t Tree.t :=
  (serve_admin (draws "3") admin new_endpoint 2000 after_freeze).2.

Lemma freeze_run : ∃ v, serve_admin (draws "2") admin freeze 1000 start = (Ok v, after_freeze).
Proof. eexists. vm_compute. reflexivity. Qed.

Lemma frozen_config_changes_only_by_rollback_witness :
  ∃ v, serve_admin (draws "2") admin freeze 1000 start = (Ok v, after_freeze)
    ∧ ∃ msg, serve_admin (draws "4") admin new_endpoint 3000 still_frozen
             = (Err (GatewayError.BadRequest msg), still_frozen).
Proof.
  destruct freeze_run as [v Hrun]. exists v. split; [exact Hrun|].
  assert (admin_history 9000 after_freeze still_frozen) as Hh.
  { apply (history_step _ _ _ (draws "3") admin new_endpoint 2000); [apply history_start|by split; vm_compute|done]. }
  destruct (frozen_config_changes_only_by_rollback _ _ _ _ _ _ _ _ Hrun ltac:(by vm_compute) Hh)
    as [_ Hstop].
  exact (Hstop (draws "4") admin new_endpoint 3000%Z eq_refl eq_refl).
Defined.

(** ** Retries *)

Lemma keyed_request_done_once_witness :
  ∃ v s', serve_admin (draws "1") admin new_endpoint 1000 start = (Ok v, after_endpoint)
    ∧ serve_admin (draws "5") admin new_endpoint 2000 after_endpoint
      = (Ok (response_with_replay_flag v true), s')
    ∧ unchanged after_endpoint s'.
Proof.
  destruct endpoint_run as [v Hrun].
  assert (∃ v' s', serve_admin (draws "5") admin new_endpoint 2000 after_endpoint = (Ok v', s'))
    as (v' & s' & Hrun') by (do 2 eexists; vm_compute; reflexivity).
  destruct (keyed_request_done_once (draws "1") admin new_endpoint 1000 start v after_endpoint
    after_endpoint (draws "5") admin new_endpoint 2000 _ _ _ _ _ eq_refl ltac:(by vm_compute) Hrun (history_start _ _) eq_refl eq_refl ltac:(by vm_compute) Hrun') as (Hu & _ & [-> _]).
  exists v, s'. split; [exact Hrun|]. split; [exact Hrun'|exact Hu].
Defined.

(** ** Dry runs *)

Definition endpoint_request : CreateRequest :=
  NewProviderEndpoint (AdminCreateProviderEndpointRequest.mk "key-1" None "openai" "OpenAI"
    [ProtocolFamily.OpenAiResponses] "https://api.example.com").
Definition after_dry_run : GatewayStore.t Tree.t :=
  (serve_validate (draws "1") admin endpoint_request 1000 start).2.

Lemma dry_run_predicts_creation_witness :
  ∃ v diagnostic,
    serve_validate (draws "1") admin endpoint_request 1000 start = (Ok v, after_dry_run)
    ∧ GatewayStore.validation_diagnostics after_dry_run = [diagnostic]
    ∧ says_valid (ValidationDiagnosticRecord.valid diagnostic) v
    ∧ if ValidationDiagnosticRecord.valid diagnostic
      then ∃ v', (serve_create (draws "2") admin endpoint_request 2000 after_dry_run).1 = Ok v'
      else (serve_create (draws "2") admin endpoint_request 2000 after_dry_run).1
           = Err (GatewayError.BadRequest "validation_failed").
Proof.
  assert (∃ v, serve_validate (draws "1") admin endpoint_request 1000 start = (Ok v, after_dry_run))
    as [v Hrun] by (eexists; vm_compute; reflexivity).
  destruct (dry_run_predicts_creation _ _ _ _ _ _ _ (draws "2") 2000 Hrun ltac:(by vm_compute)
    ltac:(by vm_compute) ltac:(by vm_compute)) as (_ & diagnostic & Hd & Hc).
  exists v, diagnostic. split; [exact Hrun|]. split; [exact Hd|exact Hc].
Defined.

(** ** Emergencies and the runtime *)

Definition publish : AdminRequest Tree.t :=
  Publish (AdminPublishConfigSnapshotRequest.mk "key-3" []
    (Tree.Obj [("cedar_policy_bundle", Tree.Str "permit")])).
Definition published : GatewayStore.t Tree.t :=
  (serve_admin (draws "6") admin publish 2000 after_endpoint).2.
Definition disable : AdminRequest Tree.t :=
  Emergency (DisableProviderEndpoint "pep_1" (emergency_request "key-4" (Some 1%Z))).
Definition disabled : GatewayStore.t Tree.t :=
  (serve_admin (draws "7") admin disable 3000 published).2.

(** Two endpoints of the tenant serve the model; the first is preferred. *)
Definition serving (id : string) : ProviderEndpoint.t :=
  ProviderEndpoint.mk id "ten_t" id "openai" [ProtocolFamily.OpenAiChat] "https://api.example.com/v1"
    ResourceStatus.Active.
Definition served_by (id endpoint_id : string) : ModelTargetConfig.t :=
  ModelTargetConfig.mk id "ten_t" endpoint_id None ProtocolFamily.OpenAiChat "gpt" None
    ResourceStatus.Active true.
Definition two_endpoints : GatewayCatalogSnapshot.t :=
  GatewayCatalogSnapshot.mk [serving "pep_1"; serving "pep_2"] []
    [served_by "t1" "pep_1"; served_by "t2" "pep_2"]
    [ModelAliasConfig.mk "alias1" "ten_t" None None "fast" ProtocolFamily.OpenAiChat "policy1"
       ResourceStatus.Active]
    [RoutingGroupConfig.mk "group1" "ten_t" ResourceStatus.Active]
    [RoutingGroupTargetConfig.mk "gt1" "group1" "t1" 1 0 ResourceStatus.Active;
     RoutingGroupTargetConfig.mk "gt2" "group1" "t2" 1 1 ResourceStatus.Active]
    [RoutePolicyConfig.mk "policy1" "ten_t" "alias1" "group1" ResourceStatus.Active None]
    [ProviderGrantConfig.mk "grant1" "ten_t" (Some ProviderGrantScopeKind.Organization) (Some "org")
       None None None (Some ProviderGrantResourceKind.ModelAlias) (Some "alias1")
       ProviderGrantEffect.Allow ProviderGrantClosureMode.IncludeDescendants None None
       ResourceStatus.Active].
Definition plan_request (s : GatewayStore.t Tree.t) : RoutePlanRequest.t :=
  RoutePlanRequest.mk
    (AuthenticatedActor.for_user_session (ActorScope.mk "ten_t" (Some "org") (Some "proj"))
       "usr_b" "sess1" "req1" "trace1" None)
    ProtocolFamily.OpenAiChat "fast" false (HotStore.reader (GatewayStore.hot_state s)) (Some 1%Z)
    5000 None.
Definition plan_on (s : GatewayStore.t Tree.t) : result GatewayError.t RoutePlan.t :=
  plan_runtime_route_with_hot_state two_endpoints (plan_request s).
Definition planned (s : GatewayStore.t Tree.t) : option string :=
  match plan_on s with
  | Ok plan => match RoutePlan.outcome plan with
               | RoutePlanOutcome.Selected selection =>
                   Some (ProviderEndpoint.provider_endpoint_id
                           (RouteSelection.provider_endpoint selection))
               | _ => None
               end
  | Err _ => None
  end.

(** The endpoint created above is disabled, then another one is created and a
    group is drained: before the operation a request goes to the endpoint, after
    all of it another one is selected. *)
Definition later_requests : AdminRun (V:=Tree.t) :=
  [(draws "9", admin, Create (NewProviderEndpoint (AdminCreateProviderEndpointRequest.mk "key-8" None
      "openai" "Other" [ProtocolFamily.OpenAiChat] "https://api.example.com")), 4000%Z);
   (draws "10", admin, Emergency (DrainRoutingGroup "rg_1" (emergency_request "key-9" (Some 1%Z))),
      4500%Z)].

Lemma published_keyed : endpoints_keyed (GatewayStore.draft published).
Proof.
  assert (map_Forall (λ id r, ProviderEndpointRecord.provider_endpoint_id r = id)
    (DraftCatalog.provider_endpoints (GatewayStore.draft published))) as Hk
    by (apply (bool_decide_unpack _); by vm_compute).
  exact Hk.
Qed.

Lemma disabled_endpoint_leaves_routing_witness :
  ∃ v, serve_admin (draws "7") admin disable 3000 published = (Ok v, disabled)
    ∧ planned published = Some "pep_1"
    ∧ planned (serve_run later_requests disabled) = Some "pep_2"
    ∧ ∀ plan selection,
        plan_on (serve_run later_requests disabled) = Ok plan →
        RoutePlan.outcome plan = RoutePlanOutcome.Selected selection →
        ProviderEndpoint.tenant_id (RouteSelection.provider_endpoint selection) = "ten_t" →
        ProviderEndpoint.provider_endpoint_id (RouteSelection.provider_endpoint selection) ≠ "pep_1".
Proof.
  assert (∃ v, serve_admin (draws "7") admin disable 3000 published = (Ok v, disabled))
    as [v Hrun] by (eexists; vm_compute; reflexivity).
  assert (∃ publication, ConfigStore.config_publication "ten_t" (GatewayStore.config published)
            = Some publication ∧ ConfigPublicationPointerRecord.version publication = 1%Z)
    as (publication & Hp & Hv) by (eexists; split; vm_compute; reflexivity).
  exists v. split; [exact Hrun|]. split; [vm_compute; reflexivity|]. split; [vm_compute; reflexivity|].
  intros plan selection Hplan Hsel Et.
  apply (proj2 (disabled_endpoint_leaves_routing _ _ _ _ _ _ _ _ _ later_requests published_keyed Hrun
    ltac:(by vm_compute) Hp eq_refl) two_endpoints (plan_request (serve_run later_requests disabled))
    plan selection eq_refl (f_equal Some (eq_sym Hv)) eq_refl Hplan Hsel Et).
Defined.

Definition block : AdminRequest Tree.t :=
  Emergency (ForceBudgetBlock "bp_1" (emergency_request "key-5" (Some 1%Z))).
Definition blocked : GatewayStore.t Tree.t := (serve_admin (draws "8") admin block 1000 start).2.

Lemma forced_block_refuses_requests_witness :
  ∃ v, serve_admin (draws "8") admin block 1000 start = (Ok v, blocked)
    ∧ enforce_runtime_budget_preflight
        (PolicyData.mk (GatewayStore.budget_policies blocked) ∅
           (GatewayStore.emergency_operations blocked) UsageSample.store)
        (λ _, "u") 7 admin None 2000 InMemoryPolicyStore.empty
      = (Err (GatewayError.BudgetExceeded "emergency_force_budget_block"),
         InMemoryPolicyStore.empty).
Proof.
  assert (∃ v, serve_admin (draws "8") admin block 1000 start = (Ok v, blocked))
    as [v Hrun] by (eexists; vm_compute; reflexivity).
  exists v. split; [exact Hrun|].
  apply (forced_block_refuses_requests _ _ _ _ _ _ _ _ _ budget Hrun ltac:(by vm_compute)
    eq_refl eq_refl ltac:(done) (history_start _ _)); [reflexivity|reflexivity|reflexivity].
Defined.

(** ** Where the emergency operations fall short *)

(** Publishing again lifts the drain of a disabled endpoint before the operation
    expires: the drain is written for one configuration version. *)
Example publication_lifts_drain :
  let republished := (serve_admin (draws "9") admin
    (Publish (AdminPublishConfigSnapshotRequest.mk "key-6" []
       (Tree.Obj [("cedar_policy_bundle", Tree.Str "permit")]))) 4000 disabled).2 in
  ConfigPublicationPointerRecord.version
    <$> ConfigStore.config_publication "ten_t" (GatewayStore.config republished) = Some 2%Z
  ∧ HotStore.endpoint_is_drained (GatewayStore.hot_state republished) "ten_t" "pep_1" (Some 1%Z) 5000
    = true
  ∧ HotStore.endpoint_is_drained (GatewayStore.hot_state republished) "ten_t" "pep_1" (Some 2%Z) 5000
    = false.
Proof. by vm_compute. Qed.

(** Before the first publication, disabling an endpoint succeeds, and its audit
    event says that a drain was written, but none was. *)
Example unpublished_disable_writes_no_drain :
  let '(r, s') := serve_admin (draws "7") admin disable 3000 after_endpoint in
  is_ok r = true
  ∧ GatewayStore.hot_state s' = GatewayStore.hot_state after_endpoint
  ∧ (e ← last (GatewayStore.audit_events s');
     diff ← Tree.get (AuditEventRecord.redacted_diff e) "target_diff";
     Tree.get diff "hot_state_drain_written") = Some (Tree.Bool true).
Proof. by vm_compute. Qed.

(** ** Where a retry is not a replay *)

Definition with_secret (status : SecretRefStatus.t) (s : GatewayStore.t Tree.t) : GatewayStore.t Tree.t :=
  let d := GatewayStore.draft s in
  GatewayStore.set_draft s (DraftCatalog.mk (DraftCatalog.organizations d) (DraftCatalog.projects d)
    {["sec_1" := SecretRefRecord.mk "sec_1" "ten_t" None None "upstream" "env" "KEY" "****" "f" status
                   1 1 "usr_a" 0 0]}
    (DraftCatalog.pricing_skus d) (DraftCatalog.provider_endpoints d)
    (DraftCatalog.upstream_credentials d) (DraftCatalog.model_targets d)
    (DraftCatalog.routing_groups d) (DraftCatalog.routing_group_targets d)
    (DraftCatalog.model_aliases d) (DraftCatalog.route_policies d) (DraftCatalog.provider_grants d)).
Definition new_credential : AdminRequest Tree.t :=
  Create (NewUpstreamCredential (AdminCreateUpstreamCredentialRequest.mk "key-7" None "pep_1" "api_key"
    "sec_1")).

(** A credential is created; once its secret is disabled, the same request under
    the same key is refused by the validation that comes before the lookup of the
    stored response. *)
Example retried_credential_refused :
  let s := with_secret SecretRefStatus.Active after_endpoint in
  let '(r, s') := serve_admin (draws "2") admin new_credential 2000 s in
  is_ok r = true
  ∧ is_ok (serve_admin (draws "3") admin new_credential 3000 s').1 = true
  ∧ (serve_admin (draws "3") admin new_credential 3000 (with_secret SecretRefStatus.Disabled s')).1
    = Err (GatewayError.BadRequest "validation_failed").
Proof. by vm_compute. Qed.
