(* ===== verification/Provider.v ===== *)
(** * Provider requests and the fake provider

    [runtime.rs]: the request the gateway sends to a provider (URL, headers,
    rewritten body, metadata that may be logged), the authorization of a model
    request before anything is sent, and the deterministic provider that stands in
    for a real one. *)

From Stdlib Require Import Ascii.
From stdpp Require Import pretty.
From S2P Require Import Prelude Order Text Domain Action Routing Json Usage Pricing PolicyStore RuntimePolicy Outbox Delivery Terminal GwRoute.

(** ** Parameters *)

(** What the gateway uses of the [url] crate. *)
Class UrlLibrary : Type := {
  Url : Type;
  url_parse : string → result string Url;
  url_join : Url → string → result string Url;
  url_set_path : Url → string → Url;
  url_path : Url → string;
  url_scheme : Url → string;
  url_host_str : Url → option string;
  url_port : Url → option Z;
  url_to_string : Url → string;
}.

(** [Value::is_object] of [serde_json]. *)
Class JsonShape (V : Type) : Type := value_is_object : V → bool.

(** ** Records *)

Module FakeProviderReplayTarget.
Record t : Set := mk { alias_resource_id : string; upstream_model_id : string }.
End FakeProviderReplayTarget.

Module FakeProviderReplayEvidence.
Record t : Set := mk { policy_snapshot_id : option string; occurred_at : DateTime }.
End FakeProviderReplayEvidence.

Module ProviderAdapterCredential.
Record t : Set := mk {
  upstream_credential_id : string;
  credential_kind : string;
  secret_value : string;
}.
End ProviderAdapterCredential.

Module ProviderAdapterTarget.
Record t : Set := mk {
  protocol_family : ProtocolFamily.t;
  provider_endpoint : ProviderEndpoint.t;
  upstream_model_id : string;
  upstream_credential : option ProviderAdapterCredential.t;
}.
End ProviderAdapterTarget.

Module ProviderAdapterHeader.
Record t : Set := mk { name : string; value : string }.
End ProviderAdapterHeader.

Module ProviderAdapterRequestMetadata.
Record t : Set := mk {
  protocol_family : ProtocolFamily.t;
  provider_endpoint_id : string;
  provider_kind : string;
  upstream_model_id : string;
  upstream_credential_id : option string;
  credential_kind : option string;
  url_origin : string;
  url_path : string;
}.
End ProviderAdapterRequestMetadata.

Module ProviderAdapterRequest.
Record t {V : Type} : Type := mk {
  protocol_family : ProtocolFamily.t;
  method : string;
  url : string;
  headers : list ProviderAdapterHeader.t;
  body : V;
  safe_metadata : ProviderAdapterRequestMetadata.t;
}.
Arguments t V : clear implicits.
Arguments mk {V}.
End ProviderAdapterRequest.

Module FakeProviderReplayOutcome.
Inductive t : Set :=
| Success | ProviderError | Throttled | Timeout | MalformedStream | ClientDisconnected.
#[global] Instance eq_dec : EqDecision t.
Proof. solve_decision. Defined.
Definition as_str (x : t) : string :=
  match x with
  | Success => "success"
  | ProviderError => "provider_error"
  | Throttled => "throttled"
  | Timeout => "timeout"
  | MalformedStream => "malformed_stream"
  | ClientDisconnected => "client_disconnected"
  end.
Definition retryable (x : t) : bool :=
  match x with Throttled | Timeout | MalformedStream => true | _ => false end.
End FakeProviderReplayOutcome.

Module FakeProviderAuthorization.
Record t : Set := mk {
  protocol_family : ProtocolFamily.t;
  authorization : AuthorizationDecision.t;
  streaming : bool;
}.
End FakeProviderAuthorization.

(** ** URLs *)

Definition upper_hex_digit (value : N) : ascii :=
  Ascii.ascii_of_N (if (value <=? 9)%N then 48 + value else 65 + (value - 10))%N.

Definition is_unreserved (c : ascii) : bool :=
  is_ascii_alphanumeric c || bool_decide (c ∈ ["-"; "_"; "."; "~"]%char).

Fixpoint percent_encode_path_segment (value : string) : string :=
  match value with
  | EmptyString => EmptyString
  | String c rest =>
      if is_unreserved c then String c (percent_encode_path_segment rest)
      else
        let byte := Ascii.N_of_ascii c in
        String "%" (String (upper_hex_digit (N.shiftr byte 4))
          (String (upper_hex_digit (N.land byte 15)) (percent_encode_path_segment rest)))
  end.

Definition provider_request_path (protocol_family : ProtocolFamily.t) (upstream_model_id : string)
    : string :=
  match protocol_family with
  | ProtocolFamily.OpenAiResponses => "responses"
  | ProtocolFamily.OpenAiChat => "chat/completions"
  | ProtocolFamily.AnthropicMessages => "messages"
  | ProtocolFamily.GeminiGenerateContent =>
      "models/" +:+ percent_encode_path_segment upstream_model_id +:+ ":generateContent"
  | ProtocolFamily.BedrockConverse => "model/invoke"
  | ProtocolFamily.ProviderNative => "native/invoke"
  end.

Section provider.
Context {V : Type} `{JsonLibrary V} `{JsonShape V} `{UrlLibrary}.

Definition provider_base_dir (base : Url) : Url :=
  if ends_with "/" (url_path base) then base else url_set_path base (url_path base +:+ "/").

Definition provider_request_url (upstream_base_url : string) (protocol_family : ProtocolFamily.t)
    (upstream_model_id : string) : Result Url :=
  match url_parse upstream_base_url with
  | Err error => Err (GatewayError.BadRequest ("invalid upstream_base_url: " +:+ error))
  | Ok base =>
      match url_join (provider_base_dir base)
              (provider_request_path protocol_family upstream_model_id) with
      | Err error => Err (GatewayError.BadRequest ("invalid provider request path: " +:+ error))
      | Ok url => Ok url
      end
  end.

Definition url_origin (url : Url) : string :=
  match url_host_str url with
  | None => url_scheme url
  | Some host =>
      match url_port url with
      | None => url_scheme url +:+ "://" +:+ host
      | Some port => url_scheme url +:+ "://" +:+ host +:+ ":" +:+ pretty port
      end
  end.

(** ** The request *)

Definition rewrite_provider_model (body : V) (protocol_family : ProtocolFamily.t)
    (upstream_model_id : string) : V :=
  match protocol_family with
  | ProtocolFamily.OpenAiResponses | ProtocolFamily.OpenAiChat | ProtocolFamily.AnthropicMessages
  | ProtocolFamily.ProviderNative =>
      if value_is_object body then json_set "model" (json_str upstream_model_id) body else body
  | ProtocolFamily.GeminiGenerateContent | ProtocolFamily.BedrockConverse => body
  end.

Definition provider_adapter_headers (target : ProviderAdapterTarget.t)
    : list ProviderAdapterHeader.t :=
  match ProviderAdapterTarget.upstream_credential target with
  | None => []
  | Some credential =>
      if bool_decide (ProviderAdapterCredential.credential_kind credential
                      ∈ ["api_key"; "bearer_token"; "upstream_api_key"; "codex_oauth"])
      then [ProviderAdapterHeader.mk "authorization"
              ("Bearer " +:+ ProviderAdapterCredential.secret_value credential)]
      else []
  end.

Definition build_provider_adapter_request (target : ProviderAdapterTarget.t) (body : V)
    : Result (ProviderAdapterRequest.t V) :=
  let family := ProviderAdapterTarget.protocol_family target in
  let endpoint := ProviderAdapterTarget.provider_endpoint target in
  let model := ProviderAdapterTarget.upstream_model_id target in
  let credential := ProviderAdapterTarget.upstream_credential target in
  let upstream_body := rewrite_provider_model body family model in
  url ← provider_request_url (ProviderEndpoint.upstream_base_url endpoint) family model;
  Ok (ProviderAdapterRequest.mk family "POST" (url_to_string url) (provider_adapter_headers target)
    upstream_body
    (ProviderAdapterRequestMetadata.mk family (ProviderEndpoint.provider_endpoint_id endpoint)
       (ProviderEndpoint.provider_kind endpoint) model
       (ProviderAdapterCredential.upstream_credential_id <$> credential)
       (ProviderAdapterCredential.credential_kind <$> credential)
       (url_origin url) (url_path url))).

(** ** The fake provider *)

Definition fake_usage : V :=
  json_obj [("input_tokens", json_int 1); ("output_tokens", json_int 2);
            ("total_tokens", json_int 3)].

Definition fake_provider_body (protocol_family : ProtocolFamily.t) (resource_id : string)
    (request_body : V) (streaming : bool) : V :=
  match protocol_family with
  | ProtocolFamily.OpenAiResponses =>
      json_obj [
        ("id", json_str "resp_fake"); ("object", json_str "response");
        ("model", json_str resource_id);
        ("output", json_arr [json_obj [
           ("type", json_str "message"); ("role", json_str "assistant");
           ("content", json_arr [json_obj [("type", json_str "output_text");
                                           ("text", json_str "fake response")]])]]);
        ("usage", fake_usage)]
  | ProtocolFamily.OpenAiChat =>
      if streaming then
        json_obj [
          ("object", json_str "chat.completion.chunk"); ("model", json_str resource_id);
          ("choices", json_arr [json_obj [
             ("index", json_int 0); ("delta", json_obj [("content", json_str "fake stream")]);
             ("finish_reason", json_null)]])]
      else
        json_obj [
          ("object", json_str "chat.completion"); ("model", json_str resource_id);
          ("choices", json_arr [json_obj [
             ("index", json_int 0);
             ("message", json_obj [("role", json_str "assistant");
                                   ("content", json_str "fake chat")]);
             ("finish_reason", json_str "stop")]]);
          ("usage", fake_usage)]
  | ProtocolFamily.AnthropicMessages =>
      json_obj [
        ("id", json_str "msg_fake"); ("type", json_str "message");
        ("role", json_str "assistant"); ("model", json_str resource_id);
        ("content", json_arr [json_obj [("type", json_str "text");
                                        ("text", json_str "fake anthropic message")]]);
        ("usage", json_obj [("input_tokens", json_int 1); ("output_tokens", json_int 2)])]
  | ProtocolFamily.GeminiGenerateContent =>
      json_obj [
        ("modelVersion", json_str resource_id);
        ("candidates", json_arr [json_obj [
           ("content", json_obj [("role", json_str "model");
              ("parts", json_arr [json_obj [("text", json_str "fake gemini content")]])]);
           ("finishReason", json_str "STOP")]]);
        ("usageMetadata", json_obj [("promptTokenCount", json_int 1);
           ("candidatesTokenCount", json_int 2); ("totalTokenCount", json_int 3)])]
  | ProtocolFamily.BedrockConverse =>
      json_obj [
        ("output", json_obj [("message", json_obj [("role", json_str "assistant");
           ("content", json_arr [json_obj [("text", json_str "fake bedrock converse")]])])]);
        ("usage", json_obj [("inputTokens", json_int 1); ("outputTokens", json_int 2);
                            ("totalTokens", json_int 3)])]
  | ProtocolFamily.ProviderNative =>
      json_obj [("provider_native", json_bool true); ("model", json_str resource_id);
                ("echo", request_body)]
  end.

Definition fake_provider_error_body (outcome : FakeProviderReplayOutcome.t) (streaming : bool) : V :=
  json_obj [("error", json_obj [
    ("code", json_str ("gateway.fake_provider." +:+ FakeProviderReplayOutcome.as_str outcome));
    ("outcome", json_str (FakeProviderReplayOutcome.as_str outcome));
    ("retryable", json_bool (FakeProviderReplayOutcome.retryable outcome));
    ("streaming", json_bool streaming)])].

Definition fake_provider_response_for_authorization_with_outcome
    (authorization : FakeProviderAuthorization.t) (target : FakeProviderReplayTarget.t) (body : V)
    (outcome : FakeProviderReplayOutcome.t) : RuntimeIngressResponse.t V :=
  let respond body := RuntimeIngressResponse.mk
    (FakeProviderAuthorization.protocol_family authorization)
    (FakeProviderAuthorization.authorization authorization) body
    (FakeProviderAuthorization.streaming authorization) in
  let decision := FakeProviderAuthorization.authorization authorization in
  if negb (AuthorizationDecision.allowed decision) then
    respond (json_obj [("error", json_obj [
      ("code", json_str "gateway.auth.authorization_denied");
      ("reason", json_str (AuthorizationDecision.reason decision))])])
  else if outcome !=? FakeProviderReplayOutcome.Success then
    respond (fake_provider_error_body outcome (FakeProviderAuthorization.streaming authorization))
  else
    respond (fake_provider_body (FakeProviderAuthorization.protocol_family authorization)
      (FakeProviderReplayTarget.upstream_model_id target) body
      (FakeProviderAuthorization.streaming authorization)).

Definition fake_provider_response_for_authorization (authorization : FakeProviderAuthorization.t)
    (target : FakeProviderReplayTarget.t) (body : V) : RuntimeIngressResponse.t V :=
  fake_provider_response_for_authorization_with_outcome authorization target body
    FakeProviderReplayOutcome.Success.

(** ** Authorization *)

Definition route_for_replay (replay_case : GatewayReplayCase.t) (protocol_family : ProtocolFamily.t)
    : Result RouteMetadata.t :=
  ok_or (List.find (λ route,
           (RouteMetadata.protocol_family route ==? Some protocol_family)
           && (RouteMetadata.action route ==? GatewayReplayCase.action replay_case))
           foundation_routes)
    (GatewayError.Internal ("missing route metadata for replay case "
                            +:+ GatewayReplayCase.name replay_case)).

(** The decision is appended to the sink. *)
Definition authorize_fake_provider_replay_target {E} `{!AuthorizationEngine E}
    (replay_case : GatewayReplayCase.t) (engine : E) (uuid : string)
    (actor : AuthenticatedActor.t) (target : FakeProviderReplayTarget.t)
    (evidence : FakeProviderReplayEvidence.t)
    : M (list AuthorizationDecisionRecord.t) GatewayError.t FakeProviderAuthorization.t := λ sink,
  match
    family ← ok_or (classify_ingress (GatewayReplayCase.method replay_case)
                      (GatewayReplayCase.ingress_path replay_case))
               (GatewayError.BadRequest ("unsupported replay route: "
                                         +:+ GatewayReplayCase.ingress_path replay_case));
    route ← route_for_replay replay_case family;
    Ok (family, route)
  with
  | Err e => (Err e, sink)
  | Ok (family, route) =>
      let '(decision, sink) := authorize_route_with_evidence route engine uuid actor
        (FakeProviderReplayTarget.alias_resource_id target)
        (FakeProviderReplayEvidence.policy_snapshot_id evidence)
        (FakeProviderReplayEvidence.occurred_at evidence) sink in
      (Ok (FakeProviderAuthorization.mk family decision (GatewayReplayCase.streaming replay_case)),
       sink)
  end.

Definition run_fake_provider_replay_for_target_with_outcome {E} `{!AuthorizationEngine E}
    (replay_case : GatewayReplayCase.t) (engine : E) (uuid : string)
    (actor : AuthenticatedActor.t) (target : FakeProviderReplayTarget.t) (body : V)
    (evidence : FakeProviderReplayEvidence.t) (outcome : FakeProviderReplayOutcome.t)
    : M (list AuthorizationDecisionRecord.t) GatewayError.t (RuntimeIngressResponse.t V) :=
  authorization ← authorize_fake_provider_replay_target replay_case engine uuid actor target evidence;
  mret (fake_provider_response_for_authorization_with_outcome authorization target body outcome).

Definition run_fake_provider_replay_for_target {E} `{!AuthorizationEngine E}
    (replay_case : GatewayReplayCase.t) (engine : E) (uuid : string)
    (actor : AuthenticatedActor.t) (target : FakeProviderReplayTarget.t) (body : V)
    (evidence : FakeProviderReplayEvidence.t)
    : M (list AuthorizationDecisionRecord.t) GatewayError.t (RuntimeIngressResponse.t V) :=
  run_fake_provider_replay_for_target_with_outcome replay_case engine uuid actor target body evidence
    FakeProviderReplayOutcome.Success.

Definition run_fake_provider_replay {E} `{!AuthorizationEngine E}
    (replay_case : GatewayReplayCase.t) (engine : E) (uuid : string)
    (actor : AuthenticatedActor.t) (resource_id : string) (body : V) (now : DateTime)
    : M (list AuthorizationDecisionRecord.t) GatewayError.t (RuntimeIngressResponse.t V) :=
  run_fake_provider_replay_for_target replay_case engine uuid actor
    (FakeProviderReplayTarget.mk resource_id resource_id) body
    (FakeProviderReplayEvidence.mk None now).
End provider.

(** ** Percent encoding *)

(** The value of an upper-case hexadecimal digit. *)
Definition hex_value (c : ascii) : option N :=
  let n := Ascii.N_of_ascii c in
  if (48 <=? n)%N && (n <=? 57)%N then Some (n - 48)%N
  else if (65 <=? n)%N && (n <=? 70)%N then Some (n - 55)%N else None.

(** Decoding as RFC 3986 has it. *)
Fixpoint percent_decode (s : string) : option string :=
  match s with
  | EmptyString => Some EmptyString
  | String "%" rest =>
      match rest with
      | String a (String b rest) =>
          match hex_value a, hex_value b, percent_decode rest with
          | Some x, Some y, Some t => Some (String (Ascii.ascii_of_N (x * 16 + y)) t)
          | _, _, _ => None
          end
      | _ => None
      end
  | String c rest => String c <$> percent_decode rest
  end.

Lemma encoded_byte c :
  hex_value (upper_hex_digit (N.shiftr (Ascii.N_of_ascii c) 4)) = Some (N.shiftr (Ascii.N_of_ascii c) 4)
  ∧ hex_value (upper_hex_digit (N.land (Ascii.N_of_ascii c) 15)) = Some (N.land (Ascii.N_of_ascii c) 15)
  ∧ Ascii.ascii_of_N (N.shiftr (Ascii.N_of_ascii c) 4 * 16 + N.land (Ascii.N_of_ascii c) 15) = c
  ∧ is_unreserved (upper_hex_digit (N.shiftr (Ascii.N_of_ascii c) 4)) = true
  ∧ is_unreserved (upper_hex_digit (N.land (Ascii.N_of_ascii c) 15)) = true.
Proof. destruct c as [[] [] [] [] [] [] [] []]; vm_compute; by split_and!. Qed.

Lemma unreserved_decode c s t :
  is_unreserved c = true → percent_decode s = Some t → percent_decode (String c s) = Some (String c t).
Proof.
  intros Hc Hs. destruct c as [[] [] [] [] [] [] [] []]; try (vm_compute in Hc; discriminate Hc).
  all: cbn [percent_decode]; by rewrite Hs.
Qed.

(** A model id cannot change the path it is put in: encoding is inverted by
    decoding, and what it writes has no character that separates segments, starts
    a query or a fragment. *)
Lemma percent_encoding_roundtrip value :
  percent_decode (percent_encode_path_segment value) = Some value
  ∧ all_chars (λ c, is_unreserved c || bool_decide (c = "%"%char)) (percent_encode_path_segment value)
    = true.
Proof.
  induction value as [|c value [IHd IHa]]; [done|]. cbn [percent_encode_path_segment].
  destruct (is_unreserved c) eqn:Ec.
  - split; [by apply unreserved_decode|]. cbn [all_chars]. by rewrite Ec, IHa.
  - destruct (encoded_byte c) as (E1 & E2 & E3 & U1 & U2). split.
    + cbn [percent_decode]. by rewrite E1, E2, IHd, E3.
    + cbn [all_chars]. by rewrite U1, U2, IHa.
Qed.

(** ** Secrets stay in the header *)

Section secrets.
Context {V : Type} `{JsonLibrary V} `{JsonShape V} `{UrlLibrary}.

Definition with_secret_value (secret : string) (target : ProviderAdapterTarget.t)
    : ProviderAdapterTarget.t :=
  ProviderAdapterTarget.mk (ProviderAdapterTarget.protocol_family target)
    (ProviderAdapterTarget.provider_endpoint target)
    (ProviderAdapterTarget.upstream_model_id target)
    ((λ c, ProviderAdapterCredential.mk (ProviderAdapterCredential.upstream_credential_id c)
             (ProviderAdapterCredential.credential_kind c) secret)
       <$> ProviderAdapterTarget.upstream_credential target).

(** The secret of a credential reaches the provider in the authorization header
    and nowhere else: a request built with another secret differs in the value of
    that header only; in particular URL, body and the metadata for the logs are
    the same. *)
Lemma secret_only_in_header target secret body :
  match build_provider_adapter_request target body with
  | Err e => build_provider_adapter_request (with_secret_value secret target) body = Err e
  | Ok request =>
      ∃ headers,
        build_provider_adapter_request (with_secret_value secret target) body
        = Ok (ProviderAdapterRequest.mk (ProviderAdapterRequest.protocol_family request)
                (ProviderAdapterRequest.method request) (ProviderAdapterRequest.url request) headers
                (ProviderAdapterRequest.body request) (ProviderAdapterRequest.safe_metadata request))
        ∧ ProviderAdapterHeader.name <$> headers
          = ProviderAdapterHeader.name <$> ProviderAdapterRequest.headers request
        ∧ ∀ header, header ∈ headers →
            header = ProviderAdapterHeader.mk "authorization" ("Bearer " +:+ secret)
  end.
Proof.
  unfold build_provider_adapter_request. simpl.
  destruct (provider_request_url _ _ _) as [url|e]; simpl; [|done].
  exists (provider_adapter_headers (with_secret_value secret target)).
  unfold provider_adapter_headers. simpl.
  destruct (ProviderAdapterTarget.upstream_credential target) as [c|]; simpl;
    [case_bool_decide; simpl|]; split_and!; (done || set_solver).
Qed.
End secrets.
