(* ===== verification/GwRequest.v ===== *)
(** * Requests to the gateway

    What [service.rs] reads from a request before a handler runs: the request and
    trace ids, the bearer token, the affinity key, and the actor, resolved from
    the process memory or, when one is configured, from PostgreSQL. *)

From Stdlib Require Import Ascii.
From S2P Require Import Prelude Order Text Domain Action Routing Json Usage Auth Publication.

(** ** Headers

    [HeaderMap::get] answers the bytes of the first value of a name;
    [HeaderValue::to_str] accepts visible ASCII, spaces and tabs. *)

Abbreviation HeaderMap := (string → option string).

Definition is_visible_ascii (c : ascii) : bool :=
  in_range 32 126 c || bool_decide (c = Ascii.ascii_of_nat 9).

Definition to_str (value : string) : option string :=
  if all_chars is_visible_ascii value then Some value else None.

Definition header_str (headers : HeaderMap) (name : string) : option string :=
  headers name ≫= to_str.

Definition REQUEST_ID_HEADER : string := "x-gateway-request-id".
Definition TRACE_ID_HEADER : string := "x-gateway-trace-id".
Definition TRACEPARENT_HEADER : string := "traceparent".
Definition PROJECT_ID_HEADER : string := "x-gateway-project-id".
Definition GATEWAY_SESSION_ID_HEADER : string := "x-gateway-session-id".
Definition SESSION_ID_HEADER : string := "x-session-id".
Definition SESSION_TOKEN_PREFIX : string := "sws_".

(** [Option::filter]. *)
Definition keep {A} (p : A → bool) (o : option A) : option A :=
  x ← o; if p x then Some x else None.

Definition is_safe_char (c : ascii) : bool :=
  is_ascii_alphanumeric c || bool_decide (c ∈ ["_"; "-"; "."]%char).

Definition is_safe_request_id (value : string) : bool :=
  (value !=? "") && (String.length value <=? 128)%nat && all_chars is_safe_char value.

Definition is_safe_trace_id (value : string) : bool :=
  (value !=? "") && (String.length value <=? 128)%nat && all_chars is_safe_char value.

Definition is_safe_route_affinity_key (value : string) : bool :=
  (value !=? "") && (String.length value <=? 256)%nat && all_chars is_safe_char value.

Definition is_ascii_hexdigit (c : ascii) : bool :=
  is_ascii_digit c || in_range 97 102 c || in_range 65 70 c.

Definition trace_id_from_traceparent (value : string) : option string :=
  match split_char "-" value with
  | [version; trace_id; parent_id; flags] =>
      if negb (String.length version =? 2)%nat
         || negb (String.length trace_id =? 32)%nat
         || negb (String.length parent_id =? 16)%nat
         || negb (String.length flags =? 2)%nat
         || all_chars (λ c, bool_decide (c = "0"%char)) trace_id
         || negb (all_chars is_ascii_hexdigit trace_id)
         || negb (all_chars is_ascii_hexdigit version)
         || negb (all_chars is_ascii_hexdigit parent_id)
         || negb (all_chars is_ascii_hexdigit flags)
      then None
      else Some (to_ascii_lowercase trace_id)
  | _ => None
  end.

Definition trace_id_from_headers (uuid : string) (headers : HeaderMap) : string :=
  match keep is_safe_trace_id (header_str headers TRACE_ID_HEADER) with
  | Some value => value
  | None =>
      default (new_prefixed_id "tr" uuid)
        (header_str headers TRACEPARENT_HEADER ≫= trace_id_from_traceparent)
  end.

Definition request_id_from_headers (uuid : string) (headers : HeaderMap) : string :=
  default (new_prefixed_id "req" uuid) (keep is_safe_request_id (header_str headers REQUEST_ID_HEADER)).

(** [HeaderValue::from_str]: no control characters but the tab. *)
Definition is_header_byte (c : ascii) : bool :=
  let n := Ascii.nat_of_ascii c in ((32 <=? n)%nat && negb (n =? 127)%nat) || (n =? 9)%nat.

(** [HeaderMap::insert] of a value that parses; [http] keeps the map as it is otherwise. *)
Definition insert_header (name value : string) (headers : HeaderMap) : HeaderMap :=
  if all_chars is_header_byte value
  then λ other, if other ==? name then Some value else headers other
  else headers.

(** [request_id_middleware]: the headers the handlers see. *)
Definition request_id_middleware (request_uuid trace_uuid : string) (headers : HeaderMap) : HeaderMap :=
  let request_id := request_id_from_headers request_uuid headers in
  let trace_id := trace_id_from_headers trace_uuid headers in
  insert_header TRACE_ID_HEADER trace_id (insert_header REQUEST_ID_HEADER request_id headers).

Definition bearer_token (headers : HeaderMap) : Result string :=
  match headers "authorization" with
  | None => Err GatewayError.Authentication
  | Some value =>
      match to_str value with
      | None => Err GatewayError.Authentication
      | Some value =>
          match split_once " " value with
          | None => Err GatewayError.Authentication
          | Some (scheme, token) =>
              let token := trim token in
              if (to_ascii_lowercase scheme !=? "bearer") || (token ==? "")
              then Err GatewayError.Authentication
              else Ok token
          end
      end
  end.

Definition optional_header (headers : HeaderMap) (name : string) : Result (option string) :=
  match headers name with
  | None => Ok None
  | Some value =>
      match to_str value with
      | None => Err (GatewayError.BadRequest ("invalid header " +:+ name))
      | Some value => Ok (keep (λ value, value !=? "") (Some (trim value)))
      end
  end.

(** ** Sticky routing *)

Definition route_affinity_hash `{AuthLibrary} (value : string) : string :=
  "sha256:" +:+ sha256_hexdigest value.

(** The second header is read only when the first is absent. *)
Definition route_affinity_hash_from_headers `{AuthLibrary} (headers : HeaderMap) : option string :=
  let value := match headers GATEWAY_SESSION_ID_HEADER with
               | Some value => Some value
               | None => headers SESSION_ID_HEADER
               end in
  route_affinity_hash <$> keep is_safe_route_affinity_key (value ≫= to_str).

(** ** PostgreSQL

    The answers of the durable store to one request: rows that were read, and
    whether a write was accepted. *)
Module PostgresGatewayStore.
Record t {V : Type} : Type := mk {
  auth_session_by_hash : string → Result (option AuthSessionRecord.t);
  project_membership_for_principal : string → string → Result (option ProjectMembershipRecord.t);
  api_key_candidates_by_prefix : string → Result (list ApiKeyRecord.t);
  flush_api_key_last_used_updates : list ApiKeyLastUsedUpdate.t → Result unit;
  latest_published_snapshot_for_tenant : string → Result (option ConfigSnapshot.t);
  config_snapshot_by_id : string → Result (option (PublishedConfigSnapshot.t V));
  insert_route_decision : RouteDecisionRecord.t → Result unit;
  insert_route_attempt : RouteAttemptRecord.t → Result unit;
  insert_usage_event : UsageEventRecord.t V → Result unit;
}.
Arguments t V : clear implicits.
Arguments mk {V}.
End PostgresGatewayStore.

(** ** The actor *)

Section actor.
Context {V : Type} `{AuthLibrary}.
Abbreviation Eff := (M AuthStore.t GatewayError.t).
Implicit Types (store : PostgresGatewayStore.t V) (now : DateTime).

Definition verify_session_token_with_postgres store (presented_token : string) now
    : Result AuthSessionRecord.t :=
  if negb (is_ascii presented_token) || negb (starts_with SESSION_TOKEN_PREFIX presented_token)
  then Err GatewayError.Authentication
  else
    let presented_hash := session_token_hash presented_token in
    session ← PostgresGatewayStore.auth_session_by_hash store presented_hash;
    match session with
    | None => Err GatewayError.Authentication
    | Some session =>
        if negb (constant_time_eq (AuthSessionRecord.session_hash session) presented_hash)
           || negb (AuthSessionRecord.can_authenticate_at session now)
        then Err GatewayError.Authentication
        else Ok session
    end.

Definition resolve_user_session_actor_with_postgres store (request : ResolveUserSessionRequest.t)
    : Result AuthenticatedActor.t :=
  membership ← PostgresGatewayStore.project_membership_for_principal store
    (ResolveUserSessionRequest.principal_id request) (ResolveUserSessionRequest.project_id request);
  match membership with
  | None => Err (GatewayError.Authorization "user_project_membership_required")
  | Some membership =>
      if negb (ProjectMembershipRecord.accepts_access membership)
      then Err (GatewayError.Authorization "project_membership_inactive")
      else
        Ok (AuthenticatedActor.for_user_session (ActorScope.from_project_membership membership)
          (ResolveUserSessionRequest.principal_id request)
          (ResolveUserSessionRequest.session_id request)
          (ResolveUserSessionRequest.request_id request)
          (ResolveUserSessionRequest.trace_id request)
          (ResolveUserSessionRequest.expires_at request))
  end.

(** The candidates come from PostgreSQL, the limit on failures from memory; the
    first live candidate whose secret verifies is dated in both. *)
Definition verify_api_key_with_postgres store (presented_key request_id trace_id : string) now
    : Eff AuthenticatedActor.t := λ s,
  match key_prefix presented_key with
  | Err e => (Err e, s)
  | Ok prefix =>
      let '(allowed, s1) := api_key_failed_auth_allowed prefix now s in
      if negb allowed then (Err GatewayError.Authentication, s1)
      else
        match
          candidates ← PostgresGatewayStore.api_key_candidates_by_prefix store prefix;
          verify_candidates presented_key prefix now candidates
        with
        | Err e => (Err e, s1)
        | Ok None => (Err GatewayError.Authentication, record_api_key_failed_auth prefix now s1)
        | Ok (Some candidate) =>
            let update :=
              ApiKeyLastUsedUpdate.mk (ApiKeyRecord.tenant_id candidate)
                (ApiKeyRecord.api_key_id candidate) prefix request_id now in
            match PostgresGatewayStore.flush_api_key_last_used_updates store [update] with
            | Err e => (Err e, s1)
            | Ok _ =>
                (Ok (AuthenticatedActor.for_api_key candidate request_id trace_id),
                 record_api_key_last_used update s1)
            end
        end
  end.

(** The project a session acts in: the header, else the session's own. *)
Definition session_project (headers : HeaderMap) (session : AuthSessionRecord.t) : Result string :=
  header ← optional_header headers PROJECT_ID_HEADER;
  ok_or (match header with
         | Some project_id => Some project_id
         | None => AuthSessionRecord.active_project_id session
         end) GatewayError.Authentication.

Definition session_request (session : AuthSessionRecord.t) (project_id request_id trace_id : string)
    : ResolveUserSessionRequest.t :=
  ResolveUserSessionRequest.mk (AuthSessionRecord.principal_id session)
    (AuthSessionRecord.auth_session_id session) project_id request_id trace_id
    (Some (AuthSessionRecord.expires_at session)).

Definition authenticate_request_with_postgres store (headers : HeaderMap)
    (presented_key request_id trace_id : string) now : Eff AuthenticatedActor.t :=
  if starts_with SESSION_TOKEN_PREFIX presented_key then
    lift (session ← verify_session_token_with_postgres store presented_key now;
          project_id ← session_project headers session;
          resolve_user_session_actor_with_postgres store
            (session_request session project_id request_id trace_id))
  else verify_api_key_with_postgres store presented_key request_id trace_id now.

(** [request_uuid] and [trace_uuid] are drawn when the headers carry no id. *)
Definition authenticate_request (postgres : option (PostgresGatewayStore.t V))
    (request_uuid trace_uuid : string) (headers : HeaderMap) now : Eff AuthenticatedActor.t := λ s,
  let request_id := request_id_from_headers request_uuid headers in
  let trace_id := trace_id_from_headers trace_uuid headers in
  match bearer_token headers with
  | Err e => (Err e, s)
  | Ok presented_key =>
      match postgres with
      | Some store =>
          authenticate_request_with_postgres store headers presented_key request_id trace_id now s
      | None =>
          if starts_with SESSION_TOKEN_PREFIX presented_key then
            (session ← verify_session_token presented_key now s;
             project_id ← session_project headers session;
             resolve_user_session_actor (session_request session project_id request_id trace_id) s,
             s)
          else verify_api_key presented_key request_id trace_id now s
      end
  end.
End actor.

(** ** The request id *)

Lemma all_chars_mono (p q : ascii → bool) s :
  (∀ c, p c = true → q c = true) → all_chars p s = true → all_chars q s = true.
Proof.
  intros Hpq. induction s as [|c s IH]; [done|]. simpl. rewrite !andb_true_iff. naive_solver.
Qed.

Lemma safe_char_header c : is_safe_char c = true → is_visible_ascii c && is_header_byte c = true.
Proof. destruct c as [[] [] [] [] [] [] [] []]; by vm_compute. Qed.

Lemma safe_request_id_text value :
  is_safe_request_id value = true → to_str value = Some value ∧ all_chars is_header_byte value = true.
Proof.
  intros [_ Hs]%andb_true_iff. unfold to_str.
  rewrite (all_chars_mono _ _ _ (λ c Hc, proj1 (andb_prop _ _ (safe_char_header c Hc))) Hs).
  by rewrite (all_chars_mono _ _ _ (λ c Hc, proj2 (andb_prop _ _ (safe_char_header c Hc))) Hs).
Qed.

Lemma request_id_safe uuid headers :
  is_safe_request_id (new_prefixed_id "req" uuid) = true →
  is_safe_request_id (request_id_from_headers uuid headers) = true.
Proof.
  intros Hs. unfold request_id_from_headers, keep.
  destruct (header_str headers REQUEST_ID_HEADER) as [value|]; [|done]. simpl.
  by destruct (is_safe_request_id value) eqn:E.
Qed.

(** Behind the middleware every reading of the request id gives the same. *)
Lemma middleware_fixes_request_id request_uuid trace_uuid headers uuid :
  is_safe_request_id (new_prefixed_id "req" request_uuid) = true →
  request_id_from_headers uuid (request_id_middleware request_uuid trace_uuid headers)
  = request_id_from_headers request_uuid headers.
Proof.
  intros Hs%(request_id_safe _ headers). apply safe_request_id_text in Hs as Ht.
  destruct Ht as [Ht Hh]. unfold request_id_middleware.
  assert (∀ value h, insert_header TRACE_ID_HEADER value h REQUEST_ID_HEADER = h REQUEST_ID_HEADER)
    as Hother by (intros value h; unfold insert_header; by case_match).
  unfold request_id_from_headers at 1, header_str. rewrite Hother. unfold insert_header.
  rewrite Hh, bool_decide_true by done. simpl. rewrite Ht. simpl. unfold keep. simpl. by rewrite Hs.
Qed.

Lemma authenticated_request_id {V : Type} `{AuthLibrary} (postgres : option (PostgresGatewayStore.t V))
    request_uuid trace_uuid headers now s actor s' :
  authenticate_request postgres request_uuid trace_uuid headers now s = (Ok actor, s') →
  AuthenticatedActor.request_id actor = request_id_from_headers request_uuid headers.
Proof.
  unfold authenticate_request, authenticate_request_with_postgres, lift.
  destruct (bearer_token headers) as [key|]; [|done].
  destruct postgres as [store|].
  - destruct (starts_with SESSION_TOKEN_PREFIX key).
    + destruct (verify_session_token_with_postgres _ _ _) as [session|]; [|done]. simpl.
      destruct (session_project _ _); [|done]. simpl. unfold resolve_user_session_actor_with_postgres.
      destruct (PostgresGatewayStore.project_membership_for_principal _ _ _) as [[membership|]|];
        [|done..]. simpl. destruct (ProjectMembershipRecord.accepts_access membership); [|done].
      by intros [= <- _].
    + unfold verify_api_key_with_postgres. intros Hr.
      repeat (case_match; simplify_eq/=; try done).
  - destruct (starts_with SESSION_TOKEN_PREFIX key).
    + destruct (verify_session_token _ _ _) as [session|]; [|done]. simpl.
      destruct (session_project _ _); [|done]. simpl. unfold resolve_user_session_actor.
      destruct (active_project_membership _ _ _ _); [|done]. by intros [= <- _].
    + unfold verify_api_key. intros Hr. repeat (case_match; simplify_eq/=; try done).
Qed.
