(* ===== verification/Ingress.v ===== *)
(** * Model ingress

    The request path of [service.rs]: route the request over the published
    catalog, authorize it, enforce the runtime policies, call the provider and
    account for the answer.  [model_ingress] is the handler; its steps are
    composed in the order of the code, each with the state it writes. *)

From Stdlib Require Import Ascii.
From S2P Require Import Prelude Order Text Domain Action HotState Routing Catalog Grants RoutePlan.
From S2P Require Import Json Usage Pricing PolicyStore RuntimePolicy Outbox Delivery Terminal.
From S2P Require Import Auth CedarPolicy Publication GwRoute AdminRecords DraftCatalog AdminState.
From S2P Require Import Provider GwRequest.

(** ** Configuration and parameters *)

Module ProviderTransportMode.
Inductive t : Set := Fake | Http.
#[global] Instance eq_dec : EqDecision t.
Proof. solve_decision. Defined.
End ProviderTransportMode.

Module GatewayConfig.
Record t : Set := mk {
  max_body_bytes : Z;
  provider_transport_mode : ProviderTransportMode.t;
  request_timeout_ms : Z;
}.
End GatewayConfig.

Definition MIN_REQUEST_TIMEOUT_MS : Z := 100.
Definition MAX_REQUEST_TIMEOUT_MS : Z := 300000.

(** The request a [reqwest] client is asked to send. *)
Module LiveRequest.
Record t : Set := mk {
  url : string;
  timeout_ms : Z;
  headers : list (string * string);
  body : string;
}.
End LiveRequest.

(** What came back: nothing, or a status with a body that could be read or not. *)
Module LiveResponse.
Record t : Set := mk { status : Z; text : option string }.
Definition is_success (r : t) : bool := (200 <=? status r)%Z && (status r <? 300)%Z.
End LiveResponse.

Abbreviation HttpClient := (LiveRequest.t → option LiveResponse.t).

(** [serde_json::from_slice] and [from_str] to a [Value]. *)
Class JsonParse (V : Type) : Type := json_from_str : string → result string V.

(** ** The state *)

Module GatewayState.
Record t {V S : Type} : Type := mk {
  store : GatewayStore.t V;
  auth : AuthStore.t;
  quota_policies : gmap string QuotaPolicyRecord.t;
  secret_values : gmap string string;
  read_to_string : string → option string;
  usage : UsageStore V;
  policy : S;
  outbox : OutboxStore.t V;
  route_decisions : list RouteDecisionRecord.t;
  route_attempts : list RouteAttemptRecord.t;
}.
Arguments t V S : clear implicits.
Arguments mk {V S}.

Section setters.
Context {V S : Type} (s : t V S).
Definition set_store x : t V S :=
  mk x (auth s) (quota_policies s) (secret_values s) (read_to_string s) (usage s) (policy s) (outbox s)
    (route_decisions s) (route_attempts s).
Definition set_auth x : t V S :=
  mk (store s) x (quota_policies s) (secret_values s) (read_to_string s) (usage s) (policy s) (outbox s)
    (route_decisions s) (route_attempts s).
Definition set_policy x : t V S :=
  mk (store s) (auth s) (quota_policies s) (secret_values s) (read_to_string s) (usage s) x (outbox s)
    (route_decisions s) (route_attempts s).
Definition set_outbox x : t V S :=
  mk (store s) (auth s) (quota_policies s) (secret_values s) (read_to_string s) (usage s) (policy s) x
    (route_decisions s) (route_attempts s).
Definition set_route_decisions x : t V S :=
  mk (store s) (auth s) (quota_policies s) (secret_values s) (read_to_string s) (usage s) (policy s)
    (outbox s) x (route_attempts s).
Definition set_route_attempts x : t V S :=
  mk (store s) (auth s) (quota_policies s) (secret_values s) (read_to_string s) (usage s) (policy s)
    (outbox s) (route_decisions s) x.
Definition set_accounts u p o : t V S :=
  mk (store s) (auth s) (quota_policies s) (secret_values s) (read_to_string s) u p o
    (route_decisions s) (route_attempts s).

Definition pricing_skus : gmap string (PricingSkuRecord.t V) :=
  DraftCatalog.pricing_skus (GatewayStore.draft (store s)).
Definition secrets : SecretStore.t :=
  SecretStore.mk (DraftCatalog.secret_refs (GatewayStore.draft (store s))) (secret_values s)
    (read_to_string s).

(** What policy enforcement reads. *)
Definition policy_data : PolicyData.t V :=
  PolicyData.mk (GatewayStore.budget_policies (store s)) (quota_policies s)
    (GatewayStore.emergency_operations (store s)) (usage s).
End setters.
End GatewayState.

(** The clock readings of one request, in the order they are taken. *)
Module IngressClock.
Record t : Set := mk {
  planned_at : DateTime;
  decided_at : DateTime;
  mapped_at : DateTime;
  started_at : DateTime;
  authorized_at : DateTime;
  checked_at : DateTime;
  unwound_at : DateTime;
  blocked_at : DateTime;
  ended_at : DateTime;
  released_at : DateTime;
}.
End IngressClock.

(** The UUIDs one request draws. *)
Module IngressDraws.
Record t : Set := mk {
  decision : string;
  authorization : string;
  leases : nat → string;
  block : string;
  attempt : string;
  usage_event : string;
  derived : string → string;
}.
End IngressDraws.

(** ** The route of a request *)

Module RuntimeCredentialSnapshot.
Record t : Set := mk { credential_kind : string; secret_ref_id : string }.
End RuntimeCredentialSnapshot.

Module RuntimeRouteTarget.
Record t : Set := mk {
  authorization_resource_id : string;
  upstream_model_id : string;
  provider_endpoint : option ProviderEndpoint.t;
  upstream_credential_id : option string;
  upstream_credential_snapshot : option RuntimeCredentialSnapshot.t;
  pricing_sku_id : option string;
  route_decision_id : option string;
  selected_route : option SelectedRouteEvidence.t;
  decision_request : option RouteDecisionRequest.t;
}.
End RuntimeRouteTarget.

Module LoadedCatalog.
Record t : Set := mk { catalog : GatewayCatalogSnapshot.t; snapshot_id : string; version : Z }.
End LoadedCatalog.

Definition canonical_gateway_api_path (path : string) : string :=
  match Text.strip_prefix "/api" path with
  | Some stripped => if starts_with "/" stripped then stripped else path
  | None => path
  end.

(** [split(sep).next()]: the text before the first separator. *)
Definition first_part (sep : ascii) (s : string) : string := default "" (head (split_char sep s)).

Fixpoint replace_char (from to : ascii) (s : string) : string :=
  match s with
  | EmptyString => EmptyString
  | String c rest => String (if bool_decide (c = from) then to else c) (replace_char from to rest)
  end.

Definition nonempty_or (fallback s : string) : string := if s ==? "" then fallback else s.

Definition resource_id_from_path (path : string) : string :=
  match Text.strip_prefix "/v1beta/models/" path with
  | Some rest => nonempty_or "unknown" (first_part ":" rest)
  | None =>
      match Text.strip_prefix "/model/" path with
      | Some rest => nonempty_or "unknown" (first_part "/" rest)
      | None =>
          match Text.strip_prefix "/native/" path with
          | Some rest => replace_char "/" ":" rest
          | None => "unknown"
          end
      end
  end.

Definition runtime_credential_snapshot (catalog : GatewayCatalogSnapshot.t)
    (selection : RouteSelection.t) : option RuntimeCredentialSnapshot.t :=
  id ← RouteSelection.upstream_credential_id selection;
  credential ← List.find (λ c, UpstreamCredentialConfig.upstream_credential_id c ==? id)
                 (GatewayCatalogSnapshot.upstream_credentials catalog);
  Some (RuntimeCredentialSnapshot.mk (UpstreamCredentialConfig.credential_kind credential)
          (UpstreamCredentialConfig.secret_ref_id credential)).

Definition selected_evidence (selection : RouteSelection.t) : SelectedRouteEvidence.t :=
  SelectedRouteEvidence.mk (RouteSelection.model_alias_id selection)
    (RouteSelection.route_policy_id selection) (RouteSelection.routing_group_id selection)
    (RouteSelection.model_target_id selection)
    (ProviderEndpoint.provider_endpoint_id (RouteSelection.provider_endpoint selection))
    (RouteSelection.upstream_credential_id selection) (RouteSelection.filtered_summary selection)
    (RouteSelection.sticky_hit selection) (RouteSelection.sticky_miss_reason selection).

(** A snapshot without a catalog routes the requested name as it is. *)
Definition unrouted_target (requested_model : string) : RuntimeRouteTarget.t :=
  RuntimeRouteTarget.mk requested_model requested_model None None None None None None None.

Section routing.
Context {V : Type} `{JsonLibrary V} `{!CatalogJson V} `{UriLibrary} `{CedarParser} {S : Type}.
Context (postgres : option (PostgresGatewayStore.t V)).
Abbreviation State := (GatewayState.t V S).
Abbreviation Eff := (M State GatewayError.t).
Implicit Types (s : State) (actor : AuthenticatedActor.t) (clock : IngressClock.t).

Definition requested_resource_id (body : V) (path : string) : string :=
  match keep (λ model, trim model !=? "") (get_str body "model") with
  | Some model => model
  | None => resource_id_from_path path
  end.

Definition latest_snapshot_for_actor actor s : Result (option (PublishedConfigSnapshot.t V)) :=
  match postgres with
  | Some store =>
      metadata ← PostgresGatewayStore.latest_published_snapshot_for_tenant store
                   (AuthenticatedActor.tenant_id actor);
      match metadata with
      | None => Ok None
      | Some metadata =>
          snapshot ← PostgresGatewayStore.config_snapshot_by_id store
                       (ConfigSnapshot.snapshot_id metadata);
          match snapshot with
          | Some snapshot => Ok (Some snapshot)
          | None => Err (GatewayError.Internal ("latest config snapshot "
                      +:+ ConfigSnapshot.snapshot_id metadata +:+ " is missing from PostgreSQL"))
          end
      end
  | None => latest_snapshot_for_actor_in_memory actor (GatewayState.store s)
  end.

Definition latest_catalog_for_actor actor s : Result (option LoadedCatalog.t) :=
  snapshot ← latest_snapshot_for_actor actor s;
  match snapshot with
  | None => Ok None
  | Some snapshot =>
      match from_payload
              (ConfigSnapshotDocument.payload (PublishedConfigSnapshot.document snapshot)) with
      | Err e => Err e
      | Ok None => Ok None
      | Ok (Some catalog) =>
          Ok (Some (LoadedCatalog.mk catalog (PublishedConfigSnapshot.snapshot_id snapshot)
                      (PublishedConfigSnapshot.version snapshot)))
      end
  end.

(** Evidence is kept in memory before the durable store is asked. *)
Definition durable {A} (insert : PostgresGatewayStore.t V → A → Result unit) (record : A)
    : Result unit :=
  match postgres with None => Ok tt | Some store => insert store record end.

Definition record_route_decision_evidence (record : RouteDecisionRecord.t) : Eff unit := λ s,
  (durable PostgresGatewayStore.insert_route_decision record,
   GatewayState.set_route_decisions s (GatewayState.route_decisions s ++ [record])).

Definition record_route_attempt_evidence (record : RouteAttemptRecord.t) : Eff unit := λ s,
  (durable PostgresGatewayStore.insert_route_attempt record,
   GatewayState.set_route_attempts s (GatewayState.route_attempts s ++ [record])).

Definition record_sticky_route_mapping (now : DateTime) actor (selection : RouteSelection.t)
    (config_version : Z) (route_affinity_hash : option string) : Eff unit := λ s,
  match route_affinity_hash, RouteSelection.sticky_ttl_seconds selection with
  | Some affinity_hash, Some ttl_seconds =>
      let record :=
        StickyRouteRecord.mk (AuthenticatedActor.tenant_id actor)
          (AuthenticatedActor.project_id actor) (RouteSelection.model_alias_id selection)
          affinity_hash (RouteSelection.routing_group_id selection)
          (RouteSelection.model_target_id selection)
          (ProviderEndpoint.provider_endpoint_id (RouteSelection.provider_endpoint selection))
          config_version now (now + duration_seconds ttl_seconds)%Z in
      let store := GatewayState.store s in
      (Ok tt, GatewayState.set_store s
                (GatewayStore.set_hot_state store
                   (HotStore.set_sticky_route record (GatewayStore.hot_state store))))
  | _, _ => (Ok tt, s)
  end.

Definition selected_runtime_route_target (uuid : string) clock actor
    (decision_request : RouteDecisionRequest.t) (selection : RouteSelection.t)
    (upstream_credential_snapshot : option RuntimeCredentialSnapshot.t) (config_version : Z)
    (route_affinity_hash : option string) : Eff RuntimeRouteTarget.t :=
  let evidence := selected_evidence selection in
  let decision := RouteDecisionRecord.selected uuid actor decision_request evidence
                    (IngressClock.decided_at clock) in
  record_route_decision_evidence decision;;
  record_sticky_route_mapping (IngressClock.mapped_at clock) actor selection config_version
    route_affinity_hash;;
  mret (RuntimeRouteTarget.mk (RouteSelection.model_alias_id selection)
    (RouteSelection.upstream_model_id selection) (Some (RouteSelection.provider_endpoint selection))
    (RouteSelection.upstream_credential_id selection) upstream_credential_snapshot
    (RouteSelection.pricing_sku_id selection)
    (Some (RouteDecisionRecord.route_decision_id decision)) (Some evidence) (Some decision_request)).

Definition route_plan_request clock actor (replay_case : GatewayReplayCase.t)
    (requested_model : string) (version : Z) (route_affinity_hash : option string) s
    : RoutePlanRequest.t :=
  RoutePlanRequest.mk actor (GatewayReplayCase.protocol_family replay_case) requested_model
    (GatewayReplayCase.streaming replay_case)
    (HotStore.reader (GatewayStore.hot_state (GatewayState.store s))) (Some version)
    (IngressClock.planned_at clock) route_affinity_hash.

Definition runtime_route_target (uuid : string) clock actor (replay_case : GatewayReplayCase.t)
    (requested_model : string) (route_affinity_hash : option string)
    : Eff RuntimeRouteTarget.t := λ s,
  match latest_catalog_for_actor actor s with
  | Err e => (Err e, s)
  | Ok None => (Ok (unrouted_target requested_model), s)
  | Ok (Some loaded) =>
      let decision_request :=
        RouteDecisionRequest.mk (GatewayReplayCase.protocol_family replay_case) requested_model
          (Some (LoadedCatalog.snapshot_id loaded)) (Some (LoadedCatalog.version loaded)) in
      let terminal status reason summary :=
        RouteDecisionRecord.terminal uuid actor decision_request status reason summary
          (IngressClock.decided_at clock) in
      match plan_runtime_route_with_hot_state (LoadedCatalog.catalog loaded)
              (route_plan_request clock actor replay_case requested_model
                 (LoadedCatalog.version loaded) route_affinity_hash s) with
      | Err e => (Err e, s)
      | Ok plan =>
          match RoutePlan.outcome plan with
          | RoutePlanOutcome.Selected selection =>
              selected_runtime_route_target uuid clock actor decision_request selection
                (runtime_credential_snapshot (LoadedCatalog.catalog loaded) selection)
                (LoadedCatalog.version loaded) route_affinity_hash s
          | RoutePlanOutcome.ProviderGrantDenied =>
              (record_route_decision_evidence
                 (terminal RouteDecisionStatus.Blocked "provider_grant_denied"
                    (RoutePlan.filtered_summary plan));;
               throw (GatewayError.Authorization "provider_grant_denied")) s
          | RoutePlanOutcome.NoRoute =>
              (record_route_decision_evidence
                 (terminal RouteDecisionStatus.NoRoute "no_eligible_model_target"
                    (RoutePlan.filtered_summary plan));;
               throw (GatewayError.NoRoute "no_eligible_model_target")) s
          end
      end
  end.

(** ** Authorization *)

Definition runtime_authorization_engine_for_actor actor s : Result (AnyEngine * option string) :=
  let foundation :=
    Ok (Foundation (FoundationAuthorizationEngine.mk
          (GatewayStore.action_grants (GatewayState.store s))), None) in
  snapshot ← latest_snapshot_for_actor actor s;
  match snapshot with
  | None => foundation
  | Some snapshot =>
      match get_str (ConfigSnapshotDocument.payload (PublishedConfigSnapshot.document snapshot))
              "cedar_policy_bundle" with
      | None => foundation
      | Some policy_bundle =>
          engine ← from_policy_source policy_bundle;
          Ok (Cedar engine, Some (PublishedConfigSnapshot.snapshot_id snapshot))
      end
  end.

Definition authorize_runtime_provider_target (uuid : string) clock actor
    (replay_case : GatewayReplayCase.t) (provider_target : FakeProviderReplayTarget.t)
    : Eff FakeProviderAuthorization.t := λ s,
  match runtime_authorization_engine_for_actor actor s with
  | Err e => (Err e, s)
  | Ok (engine, policy_snapshot_id) =>
      let store := GatewayState.store s in
      let '(r, decisions) :=
        authorize_fake_provider_replay_target replay_case engine uuid actor provider_target
          (FakeProviderReplayEvidence.mk policy_snapshot_id (IngressClock.authorized_at clock))
          (GatewayStore.authz_decisions store) in
      (r, GatewayState.set_store s (GatewayStore.set_authz_decisions store decisions))
  end.
End routing.

(** ** The provider call *)

Section provider_call.
Context {V : Type} `{JsonLibrary V} `{!JsonShape V} `{!JsonText V} `{!JsonParse V} `{UrlLibrary}.
Context {S : Type} (config : GatewayConfig.t) (client : HttpClient).
Implicit Types (s : GatewayState.t V S).

Definition adapter_credential (id kind : string) (secret_ref_id : string) s
    : option ProviderAdapterCredential.t :=
  ProviderAdapterCredential.mk id kind <$> secret_value (GatewayState.secrets s) secret_ref_id.

(** The stored credential when it has a usable secret, else the published one. *)
Definition runtime_provider_adapter_credential (route_target : RuntimeRouteTarget.t) s
    : option ProviderAdapterCredential.t :=
  let credentials := DraftCatalog.upstream_credentials (GatewayStore.draft (GatewayState.store s)) in
  let stored :=
    id ← RuntimeRouteTarget.upstream_credential_id route_target;
    credential ← credentials !! id;
    adapter_credential (UpstreamCredentialRecord.upstream_credential_id credential)
      (UpstreamCredentialRecord.credential_kind credential)
      (UpstreamCredentialRecord.secret_ref_id credential) s in
  match stored with
  | Some credential => Some credential
  | None =>
      id ← RuntimeRouteTarget.upstream_credential_id route_target;
      snapshot ← RuntimeRouteTarget.upstream_credential_snapshot route_target;
      adapter_credential id (RuntimeCredentialSnapshot.credential_kind snapshot)
        (RuntimeCredentialSnapshot.secret_ref_id snapshot) s
  end.

Definition runtime_provider_adapter_request (replay_case : GatewayReplayCase.t)
    (route_target : RuntimeRouteTarget.t) (body : V) s
    : Result (option (ProviderAdapterRequest.t V)) :=
  match RuntimeRouteTarget.provider_endpoint route_target with
  | None => Ok None
  | Some provider_endpoint =>
      request ← build_provider_adapter_request
        (ProviderAdapterTarget.mk (GatewayReplayCase.protocol_family replay_case) provider_endpoint
           (RuntimeRouteTarget.upstream_model_id route_target)
           (runtime_provider_adapter_credential route_target s)) body;
      Ok (Some request)
  end.

Definition clamped_timeout : Z :=
  Z.max MIN_REQUEST_TIMEOUT_MS
    (Z.min MAX_REQUEST_TIMEOUT_MS (GatewayConfig.request_timeout_ms config)).

Definition live_request (provider_request : ProviderAdapterRequest.t V) : LiveRequest.t :=
  LiveRequest.mk (ProviderAdapterRequest.url provider_request) clamped_timeout
    ([("content-type", "application/json"); ("accept", "application/json");
      ("user-agent", "starweaver-gateway")]
     ++ ((λ header, (ProviderAdapterHeader.name header, ProviderAdapterHeader.value header))
           <$> ProviderAdapterRequest.headers provider_request))
    (json_to_vec (ProviderAdapterRequest.body provider_request)).

Definition execute_live_provider_request (authorization : FakeProviderAuthorization.t)
    (provider_request : ProviderAdapterRequest.t V) : Result (RuntimeIngressResponse.t V) :=
  let family := ProviderAdapterRequest.protocol_family provider_request in
  if FakeProviderAuthorization.streaming authorization
  then Err (GatewayError.Upstream "live_streaming_not_supported")
  else if ProviderAdapterRequest.method provider_request !=? "POST"
  then Err (GatewayError.Internal "provider adapter request method is unsupported")
  else if ProviderAdapterRequestMetadata.protocol_family
            (ProviderAdapterRequest.safe_metadata provider_request) !=? family
  then Err (GatewayError.Internal "provider adapter request metadata is inconsistent")
  else
    match client (live_request provider_request) with
    | None => Err (GatewayError.Upstream "provider_unavailable")
    | Some response =>
        if negb (LiveResponse.is_success response)
        then Err (GatewayError.Upstream "provider_rejected_request")
        else
          match LiveResponse.text response with
          | None => Err (GatewayError.Upstream "provider_body_read_failed")
          | Some upstream_text =>
              match json_from_str upstream_text with
              | Err _ => Err (GatewayError.Upstream "provider_json_decode_failed")
              | Ok upstream_body =>
                  Ok (RuntimeIngressResponse.mk family
                        (FakeProviderAuthorization.authorization authorization) upstream_body false)
              end
          end
    end.

Definition runtime_provider_response (authorization : FakeProviderAuthorization.t)
    (provider_target : FakeProviderReplayTarget.t)
    (provider_request : option (ProviderAdapterRequest.t V)) (body : V)
    : Result (RuntimeIngressResponse.t V) :=
  match GatewayConfig.provider_transport_mode config with
  | ProviderTransportMode.Fake =>
      Ok (fake_provider_response_for_authorization authorization provider_target body)
  | ProviderTransportMode.Http =>
      match provider_request with
      | None => Err (GatewayError.NoRoute "provider_route_required")
      | Some provider_request => execute_live_provider_request authorization provider_request
      end
  end.
End provider_call.

(** ** Accounting *)

Section accounting.
Context {V : Type} `{JsonLibrary V} `{ChronoCalendar} {S : Type} `{RuntimePolicyRepository S}.
Context (postgres : option (PostgresGatewayStore.t V)).
Abbreviation State := (GatewayState.t V S).
Abbreviation Eff := (M State GatewayError.t).
Implicit Types (s : State) (actor : AuthenticatedActor.t) (clock : IngressClock.t)
  (draws : IngressDraws.t).

(** An operation of the policy store. *)
Definition on_policy {A} (op : M S GatewayError.t A) : Eff A := λ s,
  let '(r, p) := op (GatewayState.policy s) in (r, GatewayState.set_policy s p).

Definition record_failed_route_attempt_evidence (uuid route_decision_id : string)
    (selected : SelectedRouteEvidence.t) (attempt_started_at attempt_ended_at : DateTime) : Eff unit :=
  record_route_attempt_evidence postgres
    (RouteAttemptRecord.failed uuid route_decision_id 0 selected attempt_started_at attempt_ended_at).

Definition record_completed_route_attempt_evidence (uuid route_decision_id : string)
    (selected : SelectedRouteEvidence.t) (attempt_started_at attempt_ended_at : DateTime) : Eff unit :=
  record_route_attempt_evidence postgres
    (RouteAttemptRecord.completed uuid route_decision_id selected attempt_started_at
       attempt_ended_at).

Definition record_failed_route_attempt_for_target (uuid : string)
    (route_target : RuntimeRouteTarget.t) (attempt_started_at attempt_ended_at : DateTime)
    : Eff unit :=
  match RuntimeRouteTarget.route_decision_id route_target,
        RuntimeRouteTarget.selected_route route_target with
  | Some route_decision_id, Some selected =>
      record_failed_route_attempt_evidence uuid route_decision_id selected attempt_started_at
        attempt_ended_at
  | _, _ => mret tt
  end.

Definition terminal_usage_step draws actor (input : TerminalUsageInput.t V) : Eff unit := λ s,
  let '(r, st) :=
    record_terminal_usage_event (AuthStore.project_memberships (GatewayState.auth s))
      (GatewayState.pricing_skus s) (GatewayState.policy_data s)
      (PostgresGatewayStore.insert_usage_event <$> postgres) (IngressDraws.usage_event draws)
      (IngressDraws.derived draws) actor input
      (mk_stores (GatewayState.usage s) (GatewayState.policy s) (GatewayState.outbox s)) in
  (r, GatewayState.set_accounts s (st_usage st) (st_policy st) (st_outbox st)).

Definition record_successful_runtime_attempt draws clock actor (replay_case : GatewayReplayCase.t)
    (requested_model : string) (route_target : RuntimeRouteTarget.t)
    (response : RuntimeIngressResponse.t V) : Eff unit :=
  match RuntimeRouteTarget.route_decision_id route_target,
        RuntimeRouteTarget.selected_route route_target with
  | Some route_decision_id, Some selected =>
      record_completed_route_attempt_evidence (IngressDraws.attempt draws) route_decision_id selected
        (IngressClock.started_at clock) (IngressClock.ended_at clock);;
      terminal_usage_step draws actor
        (TerminalUsageInput.mk replay_case route_decision_id selected requested_model
           (RuntimeRouteTarget.upstream_model_id route_target)
           (RuntimeRouteTarget.pricing_sku_id route_target) response
           (IngressClock.started_at clock) (IngressClock.ended_at clock))
  | _, _ => mret tt
  end.

(** ** Refusals *)

Definition runtime_policy_notification_kind (error : GatewayError.t)
    : option (string * string * string) :=
  match error with
  | GatewayError.BudgetExceeded reason => Some ("budget", "gateway.budget.hard_block", reason)
  | GatewayError.QuotaExceeded reason => Some ("quota", "gateway.quota.limit_exceeded", reason)
  | _ => None
  end.

Definition runtime_notification_scope actor : string * string :=
  match AuthenticatedActor.project_id actor with
  | Some project_id => ("project", project_id)
  | None =>
      match AuthenticatedActor.organization_id actor with
      | Some organization_id => ("organization", organization_id)
      | None => ("tenant", AuthenticatedActor.tenant_id actor)
      end
  end.

Definition block_payload actor (replay_case : GatewayReplayCase.t) (requested_model : string)
    (selected : option SelectedRouteEvidence.t)
    (event_family event_kind reason scope_kind scope_id : string) (now : DateTime) : V :=
  json_obj [
    ("schema", json_str "gateway.notification.runtime_policy_block.v1");
    ("event_type", json_str event_kind); ("event_family", json_str event_family);
    ("tenant_id", json_str (AuthenticatedActor.tenant_id actor));
    ("organization_id", json_optional_str (AuthenticatedActor.organization_id actor));
    ("project_id", json_optional_str (AuthenticatedActor.project_id actor));
    ("scope", json_obj [("kind", json_str scope_kind); ("id", json_str scope_id)]);
    ("request", json_obj [("request_id", json_str (AuthenticatedActor.request_id actor));
       ("protocol_family",
          json_str (ProtocolFamily.as_str (GatewayReplayCase.protocol_family replay_case)));
       ("requested_model", json_str requested_model)]);
    ("actor", json_obj [
       ("actor_kind", json_str (ActorKind.as_str (AuthenticatedActor.actor_kind actor)));
       ("actor_id", json_str (AuthenticatedActor.actor_id actor))]);
    ("route", json_obj [
       ("model_alias_id", json_optional_str (SelectedRouteEvidence.model_alias_id <$> selected));
       ("model_target_id", json_optional_str (SelectedRouteEvidence.model_target_id <$> selected));
       ("routing_group_id", json_optional_str (SelectedRouteEvidence.routing_group_id <$> selected));
       ("provider_endpoint_id",
          json_optional_str (SelectedRouteEvidence.provider_endpoint_id <$> selected));
       ("upstream_credential_id",
          json_optional_str (selected ≫= SelectedRouteEvidence.upstream_credential_id))]);
    ("policy", json_obj [("reason", json_str reason)]);
    ("redaction", json_obj [("request_body_included", json_bool false);
       ("provider_body_included", json_bool false); ("secret_material_included", json_bool false)]);
    ("occurred_at", json_datetime now)].

Definition block_dedupe_key actor (subscription_id event_kind : string) : string :=
  "runtime-policy-block:" +:+ AuthenticatedActor.request_id actor +:+ ":" +:+ subscription_id
  +:+ ":" +:+ event_kind.

(** One matching subscription; a missing or inactive sink is skipped. *)
Definition enqueue_block_event draws actor (event_kind : string) (payload : V) (now : DateTime)
    (outbox : OutboxStore.t V) (subscription : NotificationSubscriptionRecord.t V)
    : OutboxStore.t V :=
  match notification_sink (NotificationSubscriptionRecord.notification_sink_id subscription) outbox with
  | None => outbox
  | Some sink =>
      if NotificationSinkRecord.status sink !=? ResourceStatus.Active then outbox
      else
        let id := NotificationSubscriptionRecord.notification_subscription_id subscription in
        let key := block_dedupe_key actor id event_kind in
        (append_notification_outbox_event (IngressDraws.derived draws key)
           (CreateNotificationOutboxEventRequest.mk (AuthenticatedActor.tenant_id actor)
              (AuthenticatedActor.organization_id actor) (AuthenticatedActor.project_id actor)
              (Some id) (Some (NotificationSinkRecord.notification_sink_id sink)) event_kind key
              payload (Some now)) now outbox).2
  end.

Definition enqueue_runtime_policy_notification_events draws actor
    (replay_case : GatewayReplayCase.t) (requested_model : string)
    (route_target : RuntimeRouteTarget.t) (error : GatewayError.t) (now : DateTime) : Eff unit := λ s,
  match runtime_policy_notification_kind error with
  | None => (Ok tt, s)
  | Some (event_family, event_kind, reason) =>
      let '(scope_kind, scope_id) := runtime_notification_scope actor in
      let payload :=
        block_payload actor replay_case requested_model
          (RuntimeRouteTarget.selected_route route_target) event_family event_kind reason
          scope_kind scope_id now in
      let subscriptions :=
        List.filter (λ subscription,
          (NotificationSubscriptionRecord.status subscription ==? ResourceStatus.Active)
          && (NotificationSubscriptionRecord.event_family subscription ==? event_family)
          && notification_subscription_filter_matches
               (NotificationSubscriptionRecord.filter_document subscription) event_kind scope_kind
               scope_id)
          (notification_subscriptions_for_tenant (AuthenticatedActor.tenant_id actor)
             (GatewayState.outbox s)) in
      (Ok tt, GatewayState.set_outbox s
                (fold_left (enqueue_block_event draws actor event_kind payload now) subscriptions
                   (GatewayState.outbox s)))
  end.

Definition record_runtime_policy_block_decision draws clock actor
    (replay_case : GatewayReplayCase.t) (requested_model : string)
    (route_target : RuntimeRouteTarget.t) (error : GatewayError.t) : Eff unit :=
  let now := IngressClock.blocked_at clock in
  let record reason :=
    let decision_request :=
      default (RouteDecisionRequest.mk (GatewayReplayCase.protocol_family replay_case)
                 requested_model None None) (RuntimeRouteTarget.decision_request route_target) in
    let filtered_summary :=
      match RuntimeRouteTarget.selected_route route_target with
      | Some route => SelectedRouteEvidence.filtered_summary route
      | None => []
      end in
    record_route_decision_evidence postgres
      (RouteDecisionRecord.terminal (IngressDraws.block draws) actor decision_request
         RouteDecisionStatus.Blocked reason filtered_summary now);;
    enqueue_runtime_policy_notification_events draws actor replay_case requested_model route_target
      error now in
  match error with
  | GatewayError.BudgetExceeded _ => record "budget_exceeded"
  | GatewayError.QuotaExceeded _ => record "quota_exceeded"
  | _ => mret tt
  end.
End accounting.

(** ** The handler *)

(** A request as the router passes it on: [body] is what the connection
    delivered, or its error; [extensions] holds the actor. *)
Module IngressRequest.
Record t : Set := mk {
  method : Method.t;
  path : string;
  body : result string string;
  extensions : option AuthenticatedActor.t;
}.
End IngressRequest.

(** [axum::body::to_bytes]. *)
Definition to_bytes (body : result string string) (limit : Z) : result string string :=
  match body with
  | Err error => Err error
  | Ok bytes =>
      if (limit <? Z.of_nat (String.length bytes))%Z then Err "length limit exceeded" else Ok bytes
  end.

Definition authenticated_actor_from_extensions (extensions : option AuthenticatedActor.t)
    : Result AuthenticatedActor.t :=
  ok_or extensions (GatewayError.Internal "authenticated actor missing from request context").

(** What is known of a request when its provider is called. *)
Module Prepared.
Record t {V : Type} : Type := mk {
  replay_case : GatewayReplayCase.t;
  actor : AuthenticatedActor.t;
  body : V;
  requested_model : string;
  route_target : RuntimeRouteTarget.t;
  provider_target : FakeProviderReplayTarget.t;
  authorization : FakeProviderAuthorization.t;
  preflight : RuntimePolicyPreflight.t;
}.
Arguments t V : clear implicits.
Arguments mk {V}.
End Prepared.

(** Parts of a request that need nothing of the state. *)
Module Parsed.
Record t {V : Type} : Type := mk {
  replay_case : GatewayReplayCase.t;
  actor : AuthenticatedActor.t;
  request_body_bytes : Z;
  body : V;
  requested_model : string;
}.
Arguments t V : clear implicits.
Arguments mk {V}.
End Parsed.

Section handler.
Context {V : Type} `{JsonLibrary V} `{!JsonShape V} `{!JsonText V} `{!JsonParse V} `{!CatalogJson V}.
Context `{UriLibrary} `{UrlLibrary} `{CedarParser} `{ChronoCalendar} `{AuthLibrary}.
Context {S : Type} `{RuntimePolicyRepository S}.
Context (config : GatewayConfig.t) (postgres : option (PostgresGatewayStore.t V)).
Context (draws : IngressDraws.t) (clock : IngressClock.t).
Abbreviation State := (GatewayState.t V S).
Abbreviation Eff := (M State GatewayError.t).
Implicit Types (s : State).

Definition request_body_from_bytes (bytes : string) : Result V :=
  if bytes ==? "" then Ok (json_obj [])
  else
    match json_from_str bytes with
    | Ok value => Ok value
    | Err error => Err (GatewayError.BadRequest ("request body must be JSON: " +:+ error))
    end.

Definition runtime_request_body (body : result string string) : Result (Z * V) :=
  match to_bytes body (GatewayConfig.max_body_bytes config) with
  | Err error => Err (GatewayError.BadRequest ("failed to read request body: " +:+ error))
  | Ok bytes =>
      body ← request_body_from_bytes bytes;
      Ok (Z.of_nat (String.length bytes), body)
  end.

Definition parse_ingress (request : IngressRequest.t) : Result (Parsed.t V) :=
  let path := canonical_gateway_api_path (IngressRequest.path request) in
  replay_case ← replay_case_for_request (IngressRequest.method request) path;
  actor ← authenticated_actor_from_extensions (IngressRequest.extensions request);
  bytes_body ← runtime_request_body (IngressRequest.body request);
  let '(request_body_bytes, body) := bytes_body in
  Ok (Parsed.mk replay_case actor request_body_bytes body (requested_resource_id body path)).

Definition provider_target_of (route_target : RuntimeRouteTarget.t) : FakeProviderReplayTarget.t :=
  FakeProviderReplayTarget.mk (RuntimeRouteTarget.authorization_resource_id route_target)
    (RuntimeRouteTarget.upstream_model_id route_target).

(** The policies; a refusal is recorded before it is answered. *)
Definition preflight_or_block (parsed : Parsed.t V) (route_target : RuntimeRouteTarget.t)
    : Eff RuntimePolicyPreflight.t := λ s,
  match on_policy (enforce_runtime_policy_preflight (GatewayState.policy_data s)
          (IngressDraws.leases draws) (IngressClock.unwound_at clock) (Parsed.actor parsed)
          (Parsed.replay_case parsed) (RuntimeRouteTarget.selected_route route_target)
          (Parsed.request_body_bytes parsed) (IngressClock.checked_at clock)) s with
  | (Ok preflight, s') => (Ok preflight, s')
  | (Err error, s') =>
      (record_runtime_policy_block_decision postgres draws clock (Parsed.actor parsed)
         (Parsed.replay_case parsed) (Parsed.requested_model parsed) route_target error;;
       throw error) s'
  end.

(** Everything before the provider is called. *)
Definition prepare_ingress (headers : HeaderMap) (request : IngressRequest.t) : Eff (Prepared.t V) :=
  parsed ← lift (parse_ingress request);
  let actor := Parsed.actor parsed in
  let replay_case := Parsed.replay_case parsed in
  route_target ← runtime_route_target postgres (IngressDraws.decision draws) clock actor replay_case
    (Parsed.requested_model parsed) (route_affinity_hash_from_headers headers);
  let provider_target := provider_target_of route_target in
  authorization ← authorize_runtime_provider_target postgres (IngressDraws.authorization draws)
    clock actor replay_case provider_target;
  let decision := FakeProviderAuthorization.authorization authorization in
  if negb (AuthorizationDecision.allowed decision)
  then throw (GatewayError.Authorization (AuthorizationDecision.reason decision))
  else
    preflight ← preflight_or_block parsed route_target;
    mret (Prepared.mk replay_case actor (Parsed.body parsed) (Parsed.requested_model parsed)
      route_target provider_target authorization preflight).

Section call.
Context (client : HttpClient).

Definition execute_runtime_provider_or_record_failure (p : Prepared.t V)
    : Eff (RuntimeIngressResponse.t V) := λ s,
  let response :=
    provider_request ← runtime_provider_adapter_request (Prepared.replay_case p)
      (Prepared.route_target p) (Prepared.body p) s;
    runtime_provider_response config client (Prepared.authorization p) (Prepared.provider_target p)
      provider_request (Prepared.body p) in
  match response with
  | Ok response => (Ok response, s)
  | Err error =>
      (record_failed_route_attempt_for_target postgres (IngressDraws.attempt draws)
         (Prepared.route_target p) (IngressClock.started_at clock) (IngressClock.ended_at clock);;
       throw error) s
  end.

Definition release_preflight (p : Prepared.t V) : Eff unit :=
  on_policy (release_runtime_policy_reservations (IngressClock.released_at clock)
               (Prepared.preflight p)).

(** From the provider call to the answer. *)
Definition complete_ingress (p : Prepared.t V) : Eff (RuntimeIngressResponse.t V) := λ s,
  match execute_runtime_provider_or_record_failure p s with
  | (Err error, s') => (release_preflight p;; throw error) s'
  | (Ok response, s') =>
      (record_successful_runtime_attempt postgres draws clock (Prepared.actor p)
         (Prepared.replay_case p) (Prepared.requested_model p) (Prepared.route_target p) response;;
       release_preflight p;;
       mret response) s'
  end.

Definition model_ingress (headers : HeaderMap) (request : IngressRequest.t)
    : Eff (RuntimeIngressResponse.t V) :=
  p ← prepare_ingress headers request;
  complete_ingress p.

(** The handler waits for a provider: a live request was built and is sent. *)
Definition waits_for_provider (p : Prepared.t V) s : bool :=
  (GatewayConfig.provider_transport_mode config ==? ProviderTransportMode.Http)
  && negb (FakeProviderAuthorization.streaming (Prepared.authorization p))
  && match runtime_provider_adapter_request (Prepared.replay_case p) (Prepared.route_target p)
             (Prepared.body p) s with
     | Ok (Some _) => true
     | _ => false
     end.

(** [request_timeout_middleware] around the handler, for a provider that takes
    [provider_ms]: at the limit the handler is dropped where it waits, and what it
    has written stays. *)
Definition timed_model_ingress (provider_ms : Z) (headers : HeaderMap) (request : IngressRequest.t)
    : Eff (RuntimeIngressResponse.t V) := λ s,
  match prepare_ingress headers request s with
  | (Err e, s1) => (Err e, s1)
  | (Ok p, s1) =>
      if waits_for_provider p s1 && (GatewayConfig.request_timeout_ms config <=? provider_ms)%Z
      then (Err GatewayError.RequestTimeout, s1)
      else complete_ingress p s1
  end.

(** The route behind [auth_context_middleware]. *)
Definition serve_model_request (request_uuid trace_uuid : string) (now : DateTime)
    (headers : HeaderMap) (method : Method.t) (path : string) (body : result string string)
    : Eff (RuntimeIngressResponse.t V) := λ s,
  match authenticate_request postgres request_uuid trace_uuid headers now (GatewayState.auth s) with
  | (Err e, a) => (Err e, GatewayState.set_auth s a)
  | (Ok actor, a) =>
      model_ingress headers (IngressRequest.mk method path body (Some actor))
        (GatewayState.set_auth s a)
  end.
End call.
End handler.
