(* ===== verification/IngressFacts.v ===== *)
(** * Facts about model ingress

    What a request leaves behind on every path of [model_ingress]: an answer was
    admitted by every gate, a route attempt and a bill go together, reservations
    are given back, and a provider sees the one request that was admitted. *)

From Stdlib Require Import Ascii.
From S2P Require Import Prelude Order Text Domain Action HotState Routing Catalog Grants RoutePlan.
From S2P Require Import Json Usage Pricing PolicyStore RuntimePolicy PolicyFacts Outbox Delivery.
From S2P Require Import Terminal Auth CedarPolicy Publication GwRoute AdminRecords DraftCatalog.
From S2P Require Import AdminState Provider GwRequest Ingress.

(** ** The monad, inverted *)

Lemma bind_fails {St A B} (m : M St GatewayError.t A) (k : A → M St GatewayError.t B) (s : St) e s' :
  (m ≫= k) s = (Err e, s') →
  m s = (Err e, s') ∨ ∃ a s1, m s = (Ok a, s1) ∧ k a s1 = (Err e, s').
Proof. unfold mbind, M_bind. destruct (m s) as [[a|] s1]; [eauto|]. intros [= -> ->]. by left. Qed.

Section facts.
Context {V : Type} `{JsonLibrary V} `{!JsonShape V} `{!JsonText V} `{!JsonParse V} `{!CatalogJson V}.
Context `{UriLibrary} `{UrlLibrary} `{CedarParser} `{ChronoCalendar} `{AuthLibrary}.
Context {S : Type} `{RuntimePolicyRepository S}.
Context (config : GatewayConfig.t) (postgres : option (PostgresGatewayStore.t V)).
Context (draws : IngressDraws.t) (clock : IngressClock.t).
Abbreviation State := (GatewayState.t V S).
Implicit Types (s : State) (headers : HeaderMap) (request : IngressRequest.t) (client : HttpClient).

(** ** The steps, inverted *)

(** [s'] differs from [s] in the evidence and the hot state only. *)
Record only_evidence s s' : Prop := {
  oe_auth : GatewayState.auth s' = GatewayState.auth s;
  oe_quotas : GatewayState.quota_policies s' = GatewayState.quota_policies s;
  oe_skus : GatewayState.pricing_skus s' = GatewayState.pricing_skus s;
  oe_secrets : GatewayState.secrets s' = GatewayState.secrets s;
  oe_usage : GatewayState.usage s' = GatewayState.usage s;
  oe_policy : GatewayState.policy s' = GatewayState.policy s;
  oe_outbox : GatewayState.outbox s' = GatewayState.outbox s;
  oe_config : GatewayStore.config (GatewayState.store s') = GatewayStore.config (GatewayState.store s);
  oe_draft : GatewayStore.draft (GatewayState.store s') = GatewayStore.draft (GatewayState.store s);
  oe_grants :
    GatewayStore.action_grants (GatewayState.store s')
    = GatewayStore.action_grants (GatewayState.store s);
  oe_data : GatewayState.policy_data s' = GatewayState.policy_data s;
  oe_attempts : GatewayState.route_attempts s' = GatewayState.route_attempts s;
}.

Lemma only_evidence_refl s : only_evidence s s.
Proof. by constructor. Qed.

Lemma only_evidence_trans s s' s'' :
  only_evidence s s' → only_evidence s' s'' → only_evidence s s''.
Proof. intros [] []. constructor; congruence. Qed.

(** The decision recorded for a selected route. *)
Definition selected_decision (actor : AuthenticatedActor.t) (replay_case : GatewayReplayCase.t)
    (requested_model : string) (loaded : LoadedCatalog.t) (selection : RouteSelection.t)
    : RouteDecisionRecord.t :=
  RouteDecisionRecord.selected (IngressDraws.decision draws) actor
    (RouteDecisionRequest.mk (GatewayReplayCase.protocol_family replay_case) requested_model
       (Some (LoadedCatalog.snapshot_id loaded)) (Some (LoadedCatalog.version loaded)))
    (selected_evidence selection) (IngressClock.decided_at clock).

(** The target of a selected route. *)
Definition routed_target (actor : AuthenticatedActor.t) (replay_case : GatewayReplayCase.t)
    (requested_model : string) (loaded : LoadedCatalog.t) (selection : RouteSelection.t)
    : RuntimeRouteTarget.t :=
  RuntimeRouteTarget.mk (RouteSelection.model_alias_id selection)
    (RouteSelection.upstream_model_id selection) (Some (RouteSelection.provider_endpoint selection))
    (RouteSelection.upstream_credential_id selection)
    (runtime_credential_snapshot (LoadedCatalog.catalog loaded) selection)
    (RouteSelection.pricing_sku_id selection)
    (Some (RouteDecisionRecord.route_decision_id
             (selected_decision actor replay_case requested_model loaded selection)))
    (Some (selected_evidence selection))
    (Some (RouteDecisionRequest.mk (GatewayReplayCase.protocol_family replay_case) requested_model
       (Some (LoadedCatalog.snapshot_id loaded)) (Some (LoadedCatalog.version loaded)))).

(** The plan of a request selected a route of the published catalog. *)
Definition plan_selects (actor : AuthenticatedActor.t) (replay_case : GatewayReplayCase.t)
    (requested_model : string) (hash : option string) s (loaded : LoadedCatalog.t)
    (selection : RouteSelection.t) : Prop :=
  latest_catalog_for_actor postgres actor s = Ok (Some loaded)
  ∧ ∃ plan,
      plan_runtime_route_with_hot_state (LoadedCatalog.catalog loaded)
        (route_plan_request clock actor replay_case requested_model (LoadedCatalog.version loaded)
           hash s) = Ok plan
      ∧ RoutePlan.outcome plan = RoutePlanOutcome.Selected selection.

Lemma record_decision_run record s r s' :
  record_route_decision_evidence postgres record s = (r, s') →
  only_evidence s s' ∧ GatewayState.route_decisions s' = GatewayState.route_decisions s ++ [record].
Proof. unfold record_route_decision_evidence. intros [= _ <-]. split; [by constructor|done]. Qed.

Lemma record_sticky_run now actor selection version hash s :
  ∃ s', record_sticky_route_mapping now actor selection version hash s = (Ok tt, s')
    ∧ only_evidence s s' ∧ GatewayState.route_decisions s' = GatewayState.route_decisions s.
Proof.
  unfold record_sticky_route_mapping.
  destruct hash; [destruct (RouteSelection.sticky_ttl_seconds selection)|]; eexists;
    (split; [reflexivity|]); (split; [by constructor|done]).
Qed.

(** A request is routed as it is named, or to a selected route that is recorded. *)
Lemma route_target_run actor replay_case model hash s rt s' :
  runtime_route_target postgres (IngressDraws.decision draws) clock actor replay_case model hash s
    = (Ok rt, s') →
  (latest_catalog_for_actor postgres actor s = Ok None ∧ rt = unrouted_target model ∧ s' = s)
  ∨ ∃ loaded selection,
      plan_selects actor replay_case model hash s loaded selection
      ∧ rt = routed_target actor replay_case model loaded selection
      ∧ only_evidence s s'
      ∧ GatewayState.route_decisions s'
        = GatewayState.route_decisions s
          ++ [selected_decision actor replay_case model loaded selection].
Proof.
  unfold runtime_route_target.
  destruct (latest_catalog_for_actor postgres actor s) as [[loaded|]|] eqn:Ec; [|intros [= <- <-]; auto|done].
  destruct (plan_runtime_route_with_hot_state _ _) as [plan|] eqn:Ep; [|done].
  destruct (RoutePlan.outcome plan) as [selection| |] eqn:Eo.
  - intros Hrun. right. exists loaded, selection.
    apply bind_run in Hrun as ([] & s1 & Hdec & Hrun).
    apply bind_run in Hrun as ([] & s2 & Hmap & [= <- <-]).
    apply record_decision_run in Hdec as [F1 D1].
    edestruct (record_sticky_run (IngressClock.mapped_at clock) actor selection
      (LoadedCatalog.version loaded) hash s1) as (s3 & E3 & F2 & D2).
    rewrite E3 in Hmap. injection Hmap as ->. split_and!.
    + split; [done|]. by exists plan.
    + done.
    + by eapply only_evidence_trans.
    + by rewrite D2, D1.
  - by intros ([] & s1 & _ & [=])%bind_run.
  - by intros ([] & s1 & _ & [=])%bind_run.
Qed.

(** A refused route changes nothing but the evidence. *)
Lemma route_target_fails actor replay_case model hash s e s' :
  runtime_route_target postgres (IngressDraws.decision draws) clock actor replay_case model hash s
    = (Err e, s') → only_evidence s s'.
Proof.
  unfold runtime_route_target.
  destruct (latest_catalog_for_actor postgres actor s) as [[loaded|]|] eqn:Ec;
    [|done|intros [= _ <-]; apply only_evidence_refl].
  destruct (plan_runtime_route_with_hot_state _ _) as [plan|] eqn:Ep;
    [|intros [= _ <-]; apply only_evidence_refl].
  destruct (RoutePlan.outcome plan) as [selection| |] eqn:Eo.
  - intros [Hdec|([] & s1 & Hdec & Hrun)]%bind_fails; apply record_decision_run in Hdec as [F1 _]; [done|].
    apply bind_fails in Hrun as [Hmap|([] & s2 & Hmap & [=])].
    edestruct (record_sticky_run (IngressClock.mapped_at clock) actor selection
      (LoadedCatalog.version loaded) hash s1) as (s3 & E3 & _). congruence.
  - intros [Hdec|([] & s1 & Hdec & [= _ <-])]%bind_fails; by apply record_decision_run in Hdec as [F1 _].
  - intros [Hdec|([] & s1 & Hdec & [= _ <-])]%bind_fails; by apply record_decision_run in Hdec as [F1 _].
Qed.

(** *** Authorization *)

Lemma engine_frame actor s s' :
  only_evidence s s' →
  runtime_authorization_engine_for_actor postgres actor s'
  = runtime_authorization_engine_for_actor postgres actor s.
Proof.
  intros F. unfold runtime_authorization_engine_for_actor, latest_snapshot_for_actor,
    latest_snapshot_for_actor_in_memory. by rewrite (oe_config _ _ F), (oe_grants _ _ F).
Qed.

(** The published policy of the actor's tenant, or its action grants, allow the
    action of the request on the resource. *)
Definition policy_allows (actor : AuthenticatedActor.t) (replay_case : GatewayReplayCase.t)
    (resource_id : string) s : Prop :=
  ∃ engine policy_snapshot_id route,
    runtime_authorization_engine_for_actor postgres actor s = Ok (engine, policy_snapshot_id)
    ∧ route ∈ foundation_routes
    ∧ RouteMetadata.action route = GatewayReplayCase.action replay_case
    ∧ RouteMetadata.actor_constraint_denial route actor = None
    ∧ AuthorizationDecision.allowed
        (authorize engine (AuthorizationRequest.mk actor (GatewayReplayCase.action replay_case)
           (RouteMetadata.resource route resource_id))) = true.

Lemma route_for_replay_found replay_case family route :
  route_for_replay replay_case family = Ok route →
  route ∈ foundation_routes ∧ RouteMetadata.action route = GatewayReplayCase.action replay_case.
Proof.
  unfold route_for_replay. destruct (List.find _ _) eqn:E; [|done]. intros [= <-].
  apply find_some in E as [Hin Hb]. btrue. split; [by apply list_elem_of_In|done].
Qed.

Lemma authorize_target_run uuid actor replay_case target s r s' :
  authorize_runtime_provider_target postgres uuid clock actor replay_case target s = (r, s') →
  only_evidence s s' ∧ GatewayState.route_decisions s' = GatewayState.route_decisions s
  ∧ ∀ a, r = Ok a →
      FakeProviderAuthorization.streaming a = GatewayReplayCase.streaming replay_case
      ∧ (AuthorizationDecision.allowed (FakeProviderAuthorization.authorization a) = true →
         policy_allows actor replay_case (FakeProviderReplayTarget.alias_resource_id target) s).
Proof.
  unfold authorize_runtime_provider_target.
  destruct (runtime_authorization_engine_for_actor _ _ _) as [[engine pid]|] eqn:Ee; last first.
  { intros [= <- <-]. split_and!; [apply only_evidence_refl|done|done]. }
  unfold authorize_fake_provider_replay_target.
  destruct (ok_or (classify_ingress _ _) _) as [family|]; [simpl|]; last first.
  { simpl. intros [= <- <-]. split_and!; [by constructor|done|done]. }
  destruct (route_for_replay replay_case family) as [route|] eqn:Er; simpl; last first.
  { intros [= <- <-]. split_and!; [by constructor|done|done]. }
  intros [= <- <-]. split_and!; [by constructor|done|]. intros a [= <-]. split; [done|]. simpl.
  apply route_for_replay_found in Er as [Hin Ea].
  destruct (RouteMetadata.actor_constraint_denial route actor) eqn:Ed; [done|].
  rewrite Ea. intros Hal. by exists engine, pid, route.
Qed.

(** *** Policies *)

Definition preflight_run (parsed : Parsed.t V) (rt : RuntimeRouteTarget.t) (data : PolicyData.t V)
    : M S GatewayError.t RuntimePolicyPreflight.t :=
  enforce_runtime_policy_preflight data (IngressDraws.leases draws) (IngressClock.unwound_at clock)
    (Parsed.actor parsed) (Parsed.replay_case parsed) (RuntimeRouteTarget.selected_route rt)
    (Parsed.request_body_bytes parsed) (IngressClock.checked_at clock).

Lemma preflight_passed parsed rt s pf s' :
  preflight_or_block postgres draws clock parsed rt s = (Ok pf, s') →
  ∃ p', preflight_run parsed rt (GatewayState.policy_data s) (GatewayState.policy s) = (Ok pf, p')
    ∧ s' = GatewayState.set_policy s p'.
Proof.
  unfold preflight_or_block, on_policy. fold (preflight_run parsed rt (GatewayState.policy_data s)).
  destruct (preflight_run parsed rt _ _) as [[pf'|e] p'].
  - intros [= <- <-]. by exists p'.
  - by intros ([] & s1 & _ & [=])%bind_run.
Qed.

(** ** A prepared request *)

(** What holds of a request that reaches its provider. *)
Record admitted headers request s (p : Prepared.t V) s1 : Prop := {
  ad_parsed : ∃ n, parse_ingress config request
    = Ok (Parsed.mk (Prepared.replay_case p) (Prepared.actor p) n (Prepared.body p)
            (Prepared.requested_model p))
    ∧ ∃ s0 p', only_evidence s s0
      ∧ preflight_run (Parsed.mk (Prepared.replay_case p) (Prepared.actor p) n (Prepared.body p)
            (Prepared.requested_model p)) (Prepared.route_target p)
          (GatewayState.policy_data s) (GatewayState.policy s) = (Ok (Prepared.preflight p), p')
      ∧ s1 = GatewayState.set_policy s0 p';
  ad_provider : Prepared.provider_target p = provider_target_of (Prepared.route_target p);
  ad_allowed :
    AuthorizationDecision.allowed
      (FakeProviderAuthorization.authorization (Prepared.authorization p)) = true;
  ad_streaming :
    FakeProviderAuthorization.streaming (Prepared.authorization p)
    = GatewayReplayCase.streaming (Prepared.replay_case p);
  ad_policy : policy_allows (Prepared.actor p) (Prepared.replay_case p)
    (RuntimeRouteTarget.authorization_resource_id (Prepared.route_target p)) s;
  ad_route :
    (latest_catalog_for_actor postgres (Prepared.actor p) s = Ok None
     ∧ Prepared.route_target p = unrouted_target (Prepared.requested_model p)
     ∧ GatewayState.route_decisions s1 = GatewayState.route_decisions s)
    ∨ ∃ loaded selection,
        plan_selects (Prepared.actor p) (Prepared.replay_case p) (Prepared.requested_model p)
          (route_affinity_hash_from_headers headers) s loaded selection
        ∧ Prepared.route_target p
          = routed_target (Prepared.actor p) (Prepared.replay_case p) (Prepared.requested_model p)
              loaded selection
        ∧ GatewayState.route_decisions s1
          = GatewayState.route_decisions s
            ++ [selected_decision (Prepared.actor p) (Prepared.replay_case p)
                  (Prepared.requested_model p) loaded selection];
}.

Lemma prepared_admitted headers request s p s1 :
  prepare_ingress config postgres draws clock headers request s = (Ok p, s1) →
  admitted headers request s p s1.
Proof.
  unfold prepare_ingress. intros Hrun.
  apply bind_run in Hrun as (parsed & sx & [= Hparse <-] & Hrun).
  apply bind_run in Hrun as (rt & sr & Hroute & Hrun).
  apply bind_run in Hrun as (a & sa & Hauth & Hrun).
  destruct (AuthorizationDecision.allowed (FakeProviderAuthorization.authorization a)) eqn:Eal;
    [simpl in Hrun|done].
  apply bind_run in Hrun as (pf & sp & Hpf & [= <- <-]).
  apply authorize_target_run in Hauth as (Fa & Da & Ha). destruct (Ha a eq_refl) as [Hstr Hpol].
  apply preflight_passed in Hpf as (p' & Hpf & ->).
  apply route_target_run in Hroute.
  assert (only_evidence s sr) as Fr.
  { destruct Hroute as [(_ & _ & ->)|(? & ? & _ & _ & F & _)]; [apply only_evidence_refl|done]. }
  pose proof (only_evidence_trans _ _ _ Fr Fa) as F.
  constructor; simpl; try done.
  - exists (Parsed.request_body_bytes parsed). split; [by rewrite Hparse; destruct parsed|].
    exists sa, p'. split_and!; [done| |done].
    rewrite (oe_data _ _ F), (oe_policy _ _ F) in Hpf. by destruct parsed.
  - destruct (Hpol Eal) as (engine & pid & route & He & Hrest).
    exists engine, pid, route. by rewrite <- (engine_frame _ _ _ Fr).
  - destruct Hroute as [(Hc & -> & ->)|(loaded & selection & Hp & -> & _ & Hd)].
    + left. by rewrite Da.
    + right. exists loaded, selection. by rewrite Da.
Qed.

(** ** Completing a request *)

Lemma release_budget_total now rs (x : S) :
  ∃ x', release_runtime_budget_reservations now rs x = (Ok tt, x').
Proof.
  revert x. induction rs as [|r rs IH]; intros x; simpl; [by eexists|].
  unfold mbind at 1, M_bind at 1, act at 1.
  destruct (release_runtime_budget_lease _ _ x) as [[l|] x1]; simpl; [|apply IH].
  unfold mbind, M_bind, act. destruct (adjust_runtime_policy_counter _ _ x1). apply IH.
Qed.

Lemma release_quota_total rs (x : S) :
  ∃ x', release_runtime_quota_reservations rs x = (Ok tt, x').
Proof.
  revert x. induction rs as [|r rs IH]; intros x; simpl; [by eexists|].
  destruct (RuntimeQuotaReservation.counter_backend r); unfold mbind, M_bind, act.
  - destruct (adjust_runtime_policy_counter _ _ x). apply IH.
  - destruct (adjust_runtime_policy_loss_allowance_counter _ _ x). apply IH.
Qed.

(** Releasing cannot fail, and touches the policy store only. *)
Lemma release_preflight_run (p : Prepared.t V) s :
  ∃ x, release_runtime_policy_reservations (IngressClock.released_at clock) (Prepared.preflight p)
         (GatewayState.policy s) = (Ok tt, x)
    ∧ release_preflight clock p s = (Ok tt, GatewayState.set_policy s x).
Proof.
  unfold release_preflight, on_policy, release_runtime_policy_reservations.
  destruct (release_budget_total (IngressClock.released_at clock)
    (RuntimePolicyPreflight.budget_reservations (Prepared.preflight p)) (GatewayState.policy s))
    as [x1 E1].
  destruct (release_quota_total (RuntimePolicyPreflight.quota_reservations (Prepared.preflight p)) x1)
    as [x2 E2].
  exists x2. unfold mbind, M_bind. by rewrite E1, E2.
Qed.

(** The provider's answer, from the state it is asked in. *)
Definition provider_answer client (p : Prepared.t V) s : Result (RuntimeIngressResponse.t V) :=
  provider_request ← runtime_provider_adapter_request (Prepared.replay_case p)
    (Prepared.route_target p) (Prepared.body p) s;
  runtime_provider_response config client (Prepared.authorization p) (Prepared.provider_target p)
    provider_request (Prepared.body p).

(** An answer is recorded, then the reservations are released. *)
Lemma complete_answered client p s response s' :
  complete_ingress config postgres draws clock client p s = (Ok response, s') →
  provider_answer client p s = Ok response
  ∧ ∃ s2 x,
      record_successful_runtime_attempt postgres draws clock (Prepared.actor p)
        (Prepared.replay_case p) (Prepared.requested_model p) (Prepared.route_target p) response s
        = (Ok tt, s2)
      ∧ release_runtime_policy_reservations (IngressClock.released_at clock) (Prepared.preflight p)
          (GatewayState.policy s2) = (Ok tt, x)
      ∧ s' = GatewayState.set_policy s2 x.
Proof.
  unfold complete_ingress, execute_runtime_provider_or_record_failure.
  fold (provider_answer client p s).
  destruct (provider_answer client p s) as [response'|e].
  - intros Hrun. apply bind_run in Hrun as ([] & s2 & Hrec & Hrun).
    apply bind_run in Hrun as ([] & s3 & Hrel & [= <- <-]).
    destruct (release_preflight_run p s2) as (x & Ex & Er). rewrite Er in Hrel. injection Hrel as <-.
    split; [done|]. by exists s2, x.
  - destruct ((record_failed_route_attempt_for_target postgres _ _ _ _;; throw e) s) as [[r|e'] s2] eqn:E.
    + by apply bind_run in E as (? & ? & _ & [=]).
    + by intros ([] & ? & _ & [=])%bind_run.
Qed.

(** A refused answer is recorded as a failed attempt, then the reservations are
    released, also when the record could not be made durable. *)
Lemma complete_upstream_failed client p s e :
  provider_answer client p s = Err e →
  ∃ r s2 x e',
    record_failed_route_attempt_for_target postgres (IngressDraws.attempt draws)
      (Prepared.route_target p) (IngressClock.started_at clock) (IngressClock.ended_at clock) s
      = (r, s2)
    ∧ release_runtime_policy_reservations (IngressClock.released_at clock) (Prepared.preflight p)
        (GatewayState.policy s2) = (Ok tt, x)
    ∧ complete_ingress config postgres draws clock client p s
      = (Err e', GatewayState.set_policy s2 x).
Proof.
  intros Ha. unfold complete_ingress, execute_runtime_provider_or_record_failure.
  fold (provider_answer client p s). rewrite Ha.
  destruct (record_failed_route_attempt_for_target postgres _ _ _ _ s) as [r s2] eqn:E.
  destruct (release_preflight_run p s2) as (x & Ex & Er).
  exists r, s2, x. unfold mbind, M_bind. rewrite E.
  destruct r as [[]|e']; simpl; rewrite Er; simpl; eauto.
Qed.

(** ** Booking *)

(** What terminal accounting is told of an answered request. *)
Definition terminal_input (actor : AuthenticatedActor.t) (replay_case : GatewayReplayCase.t)
    (model : string) (loaded : LoadedCatalog.t) (selection : RouteSelection.t)
    (response : RuntimeIngressResponse.t V) : TerminalUsageInput.t V :=
  TerminalUsageInput.mk replay_case
    (RouteDecisionRecord.route_decision_id (selected_decision actor replay_case model loaded selection))
    (selected_evidence selection) model (RouteSelection.upstream_model_id selection)
    (RouteSelection.pricing_sku_id selection) response (IngressClock.started_at clock)
    (IngressClock.ended_at clock).

(** The usage event of an answered request. *)
Definition bill (actor : AuthenticatedActor.t) (replay_case : GatewayReplayCase.t)
    (model : string) (loaded : LoadedCatalog.t) (selection : RouteSelection.t)
    (response : RuntimeIngressResponse.t V) s : UsageEventRecord.t V :=
  terminal_usage_event (AuthStore.project_memberships (GatewayState.auth s))
    (GatewayState.pricing_skus s) (IngressDraws.usage_event draws) actor
    (terminal_input actor replay_case model loaded selection response).

Definition attempt_of (status : RouteAttemptStatus.t) (actor : AuthenticatedActor.t)
    (replay_case : GatewayReplayCase.t) (model : string) (loaded : LoadedCatalog.t)
    (selection : RouteSelection.t) : RouteAttemptRecord.t :=
  RouteAttemptRecord.terminal (IngressDraws.attempt draws)
    (RouteDecisionRecord.route_decision_id (selected_decision actor replay_case model loaded selection))
    0 (selected_evidence selection) status (IngressClock.started_at clock)
    (IngressClock.ended_at clock).

Lemma record_successful_run actor replay_case model loaded selection response s r s' :
  record_successful_runtime_attempt postgres draws clock actor replay_case model
    (routed_target actor replay_case model loaded selection) response s = (r, s') →
  let input := terminal_input actor replay_case model loaded selection response in
  let event := bill actor replay_case model loaded selection response s in
  GatewayState.route_attempts s' = GatewayState.route_attempts s
    ++ [attempt_of RouteAttemptStatus.Completed actor replay_case model loaded selection]
  ∧ GatewayState.route_decisions s' = GatewayState.route_decisions s
  ∧ (r = Ok tt →
       GatewayState.usage s'
         = record_usage_event (IngressDraws.derived draws) event (GatewayState.usage s)
       ∧ ∃ data, PolicyData.quota_policies data = GatewayState.quota_policies s
           ∧ GatewayState.policy s' = finalize_runtime_quota_terminal data actor input
               (UsageEventRecord.usage_payload event) (GatewayState.policy s)).
Proof.
  unfold record_successful_runtime_attempt. simpl.
  unfold mbind, M_bind, record_completed_route_attempt_evidence, record_route_attempt_evidence.
  destruct (durable postgres _ _) as [[]|e]; [|by intros [= <- <-]].
  unfold terminal_usage_step, record_terminal_usage_event. simpl.
  destruct (match PostgresGatewayStore.insert_usage_event <$> postgres with
            | Some f => _ | None => _ end) as [[]|e]; simpl.
  - intros [= <- <-]. split_and!; [done..|]. intros _. split; [done|]. eexists.
    split; [|reflexivity]. done.
  - intros [= <- <-]. by split_and!.
Qed.

(** ** Answered requests *)

Lemma selected_eligible catalog plan_request plan selection :
  plan_runtime_route_with_hot_state catalog plan_request = Ok plan →
  RoutePlan.outcome plan = RoutePlanOutcome.Selected selection →
  ∃ context candidate target,
    request_context catalog plan_request = Ok context
    ∧ candidate ∈ GatewayCatalogSnapshot.routing_group_targets catalog
    ∧ RoutingGroupTargetConfig.routing_group_id candidate
      = RoutingGroupConfig.routing_group_id (RouteCandidateContext.group context)
    ∧ eligible (GatewayCatalogSnapshot.provider_grants catalog) context candidate target
        (RouteSelection.provider_endpoint selection)
    ∧ RouteSelection.model_target_id selection = ModelTargetConfig.model_target_id target
    ∧ RouteSelection.model_alias_id selection
      = ModelAliasConfig.model_alias_id (RouteCandidateContext.alias context).
Proof.
  intros Hplan Hsel.
  assert (∃ context, request_context catalog plan_request = Ok context) as [context Hctx].
  { revert Hplan. unfold plan_runtime_route_with_hot_state, request_context.
    destruct (resolve_route_binding catalog plan_request) as [[[alias policy] group]|]; [simpl|done].
    destruct (index_endpoints _); [simpl|done]. destruct (index_credentials _); [simpl|done].
    destruct (index_targets _); [simpl|done]. intros _. by eexists. }
  exists context.
  destruct (plan_cases catalog plan_request context Hctx)
    as [(t & e & Hst & Hp)|[_ [(pre & c & post & t & e & miss & Hc & _ & Hel & Hp)|[Hall Hp]]]];
    rewrite Hplan in Hp; injection Hp as ->; simpl in Hsel.
  - injection Hsel as <-. apply sticky_reusable_eligible in Hst as (c & Hin & Hel). exists c, t.
    apply sorted_candidates_elem in Hin as [? ?]. by split_and!.
  - injection Hsel as <-. exists c, t.
    assert (c ∈ sorted_candidates catalog (RouteCandidateContext.group context)) as Hin
      by (rewrite Hc; set_solver).
    apply sorted_candidates_elem in Hin as [? ?]. by split_and!.
  - by case_match.
Qed.

(** A request that reaches a provider was parsed, is allowed by the published
    policy on its alias and passed the runtime policies. *)
Definition request_admitted (actor : AuthenticatedActor.t) (replay_case : GatewayReplayCase.t)
    (model resource_id : string) (selected : option SelectedRouteEvidence.t) request s : Prop :=
  ∃ n body,
    parse_ingress config request = Ok (Parsed.mk replay_case actor n body model)
    ∧ policy_allows actor replay_case resource_id s
    ∧ ∃ preflight policy',
        enforce_runtime_policy_preflight (GatewayState.policy_data s) (IngressDraws.leases draws)
          (IngressClock.unwound_at clock) actor replay_case selected n
          (IngressClock.checked_at clock) (GatewayState.policy s) = (Ok preflight, policy').

Lemma admitted_request headers request s p s1 :
  admitted headers request s p s1 →
  request_admitted (Prepared.actor p) (Prepared.replay_case p) (Prepared.requested_model p)
    (RuntimeRouteTarget.authorization_resource_id (Prepared.route_target p))
    (RuntimeRouteTarget.selected_route (Prepared.route_target p)) request s.
Proof.
  intros [(n & Hparse & s0 & p' & _ & Hpf & _) _ _ _ Hpol _].
  exists n, (Prepared.body p). split_and!; [done..|]. by eexists _, _.
Qed.

Lemma answer_authorization client p s response :
  provider_answer client p s = Ok response →
  RuntimeIngressResponse.authorization response
  = FakeProviderAuthorization.authorization (Prepared.authorization p).
Proof.
  unfold provider_answer. destruct (runtime_provider_adapter_request _ _ _ _) as [pr|]; [simpl|done].
  unfold runtime_provider_response. destruct (GatewayConfig.provider_transport_mode config).
  - intros [= <-]. unfold fake_provider_response_for_authorization,
      fake_provider_response_for_authorization_with_outcome. by repeat case_match.
  - destruct pr; [|done]. unfold execute_live_provider_request. intros. repeat case_match; by simplify_eq.
Qed.

(** C4. An answered request passed every gate and is accounted for once: it was
    parsed and authenticated, the published policy of its tenant allows its action
    on the model alias, and the budgets and quotas admitted it.  When the tenant has
    a published catalog, the request was routed to a target of the alias's group
    that passes every routing gate, and the state gains exactly one selected route
    decision, one completed attempt for that decision and one usage event, priced
    for the same route, unless the store already has an event of that id, or of
    the same tenant and request id, and then the usage is as it was; without a
    catalog no evidence is written. *)
Theorem answered_request_admitted_and_booked client headers request s response s' :
  model_ingress config postgres draws clock client headers request s = (Ok response, s') →
  AuthorizationDecision.allowed (RuntimeIngressResponse.authorization response) = true
  ∧ ∃ actor replay_case model,
      (latest_catalog_for_actor postgres actor s = Ok None
       ∧ request_admitted actor replay_case model model None request s
       ∧ GatewayState.route_decisions s' = GatewayState.route_decisions s
       ∧ GatewayState.route_attempts s' = GatewayState.route_attempts s
       ∧ GatewayState.usage s' = GatewayState.usage s)
      ∨ ∃ loaded selection context candidate target,
          latest_catalog_for_actor postgres actor s = Ok (Some loaded)
          ∧ request_admitted actor replay_case model (RouteSelection.model_alias_id selection)
              (Some (selected_evidence selection)) request s
          ∧ request_context (LoadedCatalog.catalog loaded)
              (route_plan_request clock actor replay_case model (LoadedCatalog.version loaded)
                 (route_affinity_hash_from_headers headers) s) = Ok context
          ∧ candidate ∈ GatewayCatalogSnapshot.routing_group_targets (LoadedCatalog.catalog loaded)
          ∧ RoutingGroupTargetConfig.routing_group_id candidate
            = RoutingGroupConfig.routing_group_id (RouteCandidateContext.group context)
          ∧ eligible (GatewayCatalogSnapshot.provider_grants (LoadedCatalog.catalog loaded)) context
              candidate target (RouteSelection.provider_endpoint selection)
          ∧ GatewayState.route_decisions s' = GatewayState.route_decisions s
              ++ [selected_decision actor replay_case model loaded selection]
          ∧ GatewayState.route_attempts s' = GatewayState.route_attempts s
              ++ [attempt_of RouteAttemptStatus.Completed actor replay_case model loaded selection]
          ∧ GatewayState.usage s'
            = record_usage_event (IngressDraws.derived draws)
                (bill actor replay_case model loaded selection response s) (GatewayState.usage s)
          ∧ let event := bill actor replay_case model loaded selection response s in
            if existsb (λ existing, same_event existing event) (usage_events (GatewayState.usage s))
            then GatewayState.usage s' = GatewayState.usage s
            else usage_events (GatewayState.usage s') = usage_events (GatewayState.usage s) ++ [event].
Proof.
  intros (p & s1 & Hprep & Hc)%bind_run.
  apply prepared_admitted in Hprep as Had.
  apply complete_answered in Hc as (Hans & s2 & x & Hrec & Hrel & ->).
  split; [rewrite (answer_authorization _ _ _ _ Hans); apply Had|].
  pose proof (admitted_request _ _ _ _ _ Had) as Hadm.
  destruct Had as [(n & _ & s0 & p' & F & _ & Es1) _ _ _ _ Hroute].
  exists (Prepared.actor p), (Prepared.replay_case p), (Prepared.requested_model p).
  destruct Hroute as [(Hcat & Ert & Hd)|(loaded & selection & [Hcat (plan & Hplan & Hsel)] & Ert & Hd)];
    rewrite Ert in Hrec, Hadm.
  - left. injection Hrec as <-. split_and!; [done..| |]; subst s1; simpl; apply F.
  - right. destruct (selected_eligible _ _ _ _ Hplan Hsel)
      as (context & c & t & Hctx & Hin & Hg & Hel & _ & _).
    destruct (record_successful_run _ _ _ _ _ _ _ _ _ Hrec) as (Ha & Hdec & Hu).
    destruct (Hu eq_refl) as [Hus _].
    assert (GatewayState.usage (GatewayState.set_policy s2 x) = record_usage_event
      (IngressDraws.derived draws) (bill (Prepared.actor p) (Prepared.replay_case p)
        (Prepared.requested_model p) loaded selection response s) (GatewayState.usage s)) as Hbooked.
    { simpl. rewrite Hus. subst s1. unfold bill.
      change (GatewayState.pricing_skus (GatewayState.set_policy s0 p')) with (GatewayState.pricing_skus s0).
      simpl. by rewrite (oe_usage _ _ F), (oe_auth _ _ F), (oe_skus _ _ F). }
    exists loaded, selection, context, c, t. split_and!; try done.
    + simpl. by rewrite Hdec.
    + simpl. rewrite Ha. subst s1. simpl. by rewrite (oe_attempts _ _ F).
    + rewrite Hbooked. unfold record_usage_event. by destruct (existsb _ _).
Qed.

(** ** Refused requests *)

(** The durable store accepts the evidence of attempts and usage. *)
Definition durable_accepts : Prop :=
  match postgres with
  | None => True
  | Some store =>
      (∀ record, PostgresGatewayStore.insert_route_attempt store record = Ok tt)
      ∧ ∀ record, PostgresGatewayStore.insert_usage_event store record = Ok tt
  end.

(** Neither attempts nor usage were written. *)
Definition unbooked s s' : Prop :=
  GatewayState.usage s' = GatewayState.usage s
  ∧ GatewayState.route_attempts s' = GatewayState.route_attempts s.

Lemma only_evidence_unbooked s s' : only_evidence s s' → unbooked s s'.
Proof. intros []. by split. Qed.

Lemma record_block_unbooked actor replay_case model rt error s r s' :
  record_runtime_policy_block_decision postgres draws clock actor replay_case model rt error s
    = (r, s') → unbooked s s'.
Proof.
  unfold record_runtime_policy_block_decision.
  assert (∀ m k s r s', (record_route_decision_evidence postgres m;;
    enqueue_runtime_policy_notification_events draws actor replay_case model rt error k) s = (r, s') →
    unbooked s s') as Hb.
  { clear s r s'. intros m k s r s'. unfold mbind, M_bind, record_route_decision_evidence.
    destruct (durable postgres _ _) as [[]|]; [|by intros [= _ <-]].
    unfold enqueue_runtime_policy_notification_events.
    destruct (runtime_policy_notification_kind error) as [[[fam kind] reason]|]; [|by intros [= _ <-]].
    destruct (runtime_notification_scope actor). by intros [= _ <-]. }
  destruct error; try (by intros [= _ <-]); intros Hrun; exact (Hb _ _ _ _ _ Hrun).
Qed.

Lemma prepare_refused headers request s e s' :
  prepare_ingress config postgres draws clock headers request s = (Err e, s') → unbooked s s'.
Proof.
  unfold prepare_ingress. intros Hrun.
  apply bind_fails in Hrun as [[= _ <-]|(parsed & sx & [= Hparse <-] & Hrun)]; [done|].
  apply bind_fails in Hrun as [Hr%route_target_fails|(rt & sr & Hroute & Hrun)];
    [by apply only_evidence_unbooked|].
  apply route_target_run in Hroute.
  assert (only_evidence s sr) as Fr.
  { destruct Hroute as [(_ & _ & ->)|(? & ? & _ & _ & F & _)]; [apply only_evidence_refl|done]. }
  apply bind_fails in Hrun as [(Fa & _)%authorize_target_run|(a & sa & Hauth & Hrun)].
  { apply only_evidence_unbooked. by eapply only_evidence_trans. }
  apply authorize_target_run in Hauth as (Fa & _ & _).
  apply (only_evidence_trans _ _ _ Fr), only_evidence_unbooked in Fa as [Hu Ha].
  destruct (AuthorizationDecision.allowed _); simpl in Hrun; [|by injection Hrun as _ <-].
  apply bind_fails in Hrun as [Hrun|(? & ? & _ & [=])]. revert Hrun.
  unfold preflight_or_block, on_policy.
  destruct (enforce_runtime_policy_preflight _ _ _ _ _ _ _ _ _) as [[pf|error] x]; [done|].
  intros [Hb|([] & s3 & Hb & [= _ <-])]%bind_fails; apply record_block_unbooked in Hb as [Hb1 Hb2];
    (split; [by rewrite Hb1|by rewrite Hb2]).
Qed.

Lemma record_successful_accepted (p : Prepared.t V) response s :
  durable_accepts →
  (record_successful_runtime_attempt postgres draws clock (Prepared.actor p)
    (Prepared.replay_case p) (Prepared.requested_model p) (Prepared.route_target p) response s).1
  = Ok tt.
Proof.
  unfold durable_accepts, record_successful_runtime_attempt. intros Hd.
  destruct (RuntimeRouteTarget.route_decision_id _); [|done].
  destruct (RuntimeRouteTarget.selected_route _); [|done].
  unfold mbind, M_bind, record_completed_route_attempt_evidence, record_route_attempt_evidence,
    terminal_usage_step, record_terminal_usage_event, durable.
  destruct postgres as [store|]; simpl; [|done].
  destruct Hd as [Ha Hu]. by rewrite Ha, Hu.
Qed.

(** C7. A refused request is never billed: when the durable store accepts what it
    is given, a request that ends in an error has written no usage event, and
    either no route attempt at all or, when the provider was asked and failed,
    exactly one failed attempt for the one route decision it selected. *)
Theorem refused_request_not_billed client headers request s e s' :
  durable_accepts →
  model_ingress config postgres draws clock client headers request s = (Err e, s') →
  GatewayState.usage s' = GatewayState.usage s
  ∧ (GatewayState.route_attempts s' = GatewayState.route_attempts s
     ∨ ∃ actor replay_case model loaded selection,
         plan_selects actor replay_case model (route_affinity_hash_from_headers headers) s
           loaded selection
         ∧ GatewayState.route_decisions s' = GatewayState.route_decisions s
             ++ [selected_decision actor replay_case model loaded selection]
         ∧ GatewayState.route_attempts s' = GatewayState.route_attempts s
             ++ [attempt_of RouteAttemptStatus.Failed actor replay_case model loaded selection]).
Proof.
  intros Hd [[Hu Ha]%prepare_refused|(p & s1 & Hprep & Hrun)]%bind_fails; [by auto|].
  apply prepared_admitted in Hprep as [(n & _ & s0 & p' & F & _ & Es1) _ _ _ _ Hroute].
  destruct (provider_answer client p s1) as [response|e0] eqn:Ea.
  { pose proof (record_successful_accepted p response s1 Hd) as Hok. revert Hrun.
    unfold complete_ingress, execute_runtime_provider_or_record_failure.
    fold (provider_answer client p s1). rewrite Ea. unfold mbind, M_bind.
    destruct (record_successful_runtime_attempt _ _ _ _ _ _ _ _ s1) as [r s2]. simpl in Hok.
    subst r. destruct (release_preflight_run p s2) as (x & _ & ->). done. }
  destruct (complete_upstream_failed client p s1 e0 Ea) as (r & s2 & x & e' & Hrec & _ & Hc).
  rewrite Hc in Hrun. injection Hrun as _ <-. simpl.
  destruct Hroute as [(_ & Ert & _)|(loaded & selection & Hsel & Ert & Hdec)]; rewrite Ert in Hrec.
  - injection Hrec as _ <-. subst s1. simpl. rewrite (oe_usage _ _ F), (oe_attempts _ _ F). auto.
  - injection Hrec as _ <-. simpl. rewrite Hdec. subst s1. simpl.
    rewrite (oe_usage _ _ F), (oe_attempts _ _ F). split; [done|]. right.
    by exists (Prepared.actor p), (Prepared.replay_case p), (Prepared.requested_model p), loaded, selection.
Qed.

(** ** What a provider sees *)

Lemma credential_frame rt s0 x s :
  only_evidence s s0 →
  runtime_provider_adapter_credential rt (GatewayState.set_policy s0 x)
  = runtime_provider_adapter_credential rt s.
Proof.
  intros F. unfold runtime_provider_adapter_credential, adapter_credential.
  change (GatewayState.secrets (GatewayState.set_policy s0 x)) with (GatewayState.secrets s0).
  simpl. by rewrite (oe_draft _ _ F), (oe_secrets _ _ F).
Qed.

(** The request for the provider of a selected route. *)
Definition admitted_provider_request (p : Prepared.t V) (selection : RouteSelection.t) s
    : Result (ProviderAdapterRequest.t V) :=
  build_provider_adapter_request
    (ProviderAdapterTarget.mk (GatewayReplayCase.protocol_family (Prepared.replay_case p))
       (RouteSelection.provider_endpoint selection) (RouteSelection.upstream_model_id selection)
       (runtime_provider_adapter_credential (Prepared.route_target p) s)) (Prepared.body p).

(** C6. A provider sees one request, and only after admission: the outcome of a
    request depends on the outside world through the answer to a single HTTP request
    only, the one built for the endpoint and the upstream model the planner selected,
    after the policy and the runtime limits admitted it, and not at all when the
    transport is the built-in one.  Two providers that answer that request alike
    cannot be told apart; a refused request asks nobody. *)
Theorem provider_sees_only_admitted_request client client' headers request s :
  (∀ p s1 loaded selection provider_request,
     GatewayConfig.provider_transport_mode config = ProviderTransportMode.Http →
     prepare_ingress config postgres draws clock headers request s = (Ok p, s1) →
     policy_allows (Prepared.actor p) (Prepared.replay_case p)
       (RouteSelection.model_alias_id selection) s →
     plan_selects (Prepared.actor p) (Prepared.replay_case p) (Prepared.requested_model p)
       (route_affinity_hash_from_headers headers) s loaded selection →
     admitted_provider_request p selection s = Ok provider_request →
     client (live_request config provider_request) = client' (live_request config provider_request)) →
  model_ingress config postgres draws clock client headers request s
  = model_ingress config postgres draws clock client' headers request s.
Proof.
  intros Hagree. unfold model_ingress. unfold mbind, M_bind.
  destruct (prepare_ingress config postgres draws clock headers request s) as [[p|e] s1] eqn:Hprep;
    [|done].
  apply prepared_admitted in Hprep as [(n & _ & s0 & p' & F & _ & Es1) _ _ _ Hpol Hroute].
  assert (provider_answer client p s1 = provider_answer client' p s1) as Ha; last first.
  { unfold complete_ingress, execute_runtime_provider_or_record_failure.
    fold (provider_answer client p s1) (provider_answer client' p s1). by rewrite Ha. }
  unfold provider_answer, runtime_provider_adapter_request.
  destruct Hroute as [(_ & Ert & _)|(loaded & selection & Hsel & Ert & _)].
  { rewrite Ert. simpl. unfold runtime_provider_response.
    by destruct (GatewayConfig.provider_transport_mode config). }
  assert (runtime_provider_adapter_credential (Prepared.route_target p) s1
    = runtime_provider_adapter_credential (Prepared.route_target p) s) as Ecred
    by (rewrite Es1; by apply credential_frame).
  rewrite Ecred. specialize (Hagree p s1 loaded selection). unfold admitted_provider_request in Hagree.
  rewrite Ert in Hagree, Hpol |- *. simpl.
  destruct (build_provider_adapter_request _ _) as [pr|] eqn:Eb; [simpl|done].
  unfold runtime_provider_response.
  destruct (GatewayConfig.provider_transport_mode config); [done|].
  unfold execute_live_provider_request.
  by rewrite (Hagree pr eq_refl eq_refl Hpol Hsel eq_refl).
Qed.
End facts.

(** ** Reservations *)

Section reservations.
Context {V : Type} `{JsonLibrary V} `{!JsonShape V} `{!JsonText V} `{!JsonParse V} `{!CatalogJson V}.
Context `{UriLibrary} `{UrlLibrary} `{CedarParser} `{ChronoCalendar} `{AuthLibrary}.
Context {S : Type} `{RuntimePolicyRepository S} `{!PolicyRepositoryLaws S}.
Context (config : GatewayConfig.t) (postgres : option (PostgresGatewayStore.t V)).
Context (draws : IngressDraws.t) (clock : IngressClock.t).
Abbreviation State := (GatewayState.t V S).
Implicit Types (s : State) (headers : HeaderMap) (request : IngressRequest.t) (client : HttpClient)
  (p : Prepared.t V).

(** The policies that apply to a prepared request. *)
Definition request_budgets p s : list BudgetPolicyRecord.t :=
  budget_policies_for_tenant (GatewayStore.budget_policies (GatewayState.store s))
    (AuthenticatedActor.tenant_id (Prepared.actor p)).
Definition tenant_quotas p s : list QuotaPolicyRecord.t :=
  quota_policies_for_tenant (GatewayState.quota_policies s)
    (AuthenticatedActor.tenant_id (Prepared.actor p)).
Definition request_quotas p s : list QuotaPolicyRecord.t :=
  List.filter (λ policy,
    (QuotaPolicyRecord.status policy ==? ResourceStatus.Active)
    && runtime_quota_policy_matches_request policy (Prepared.actor p) (Prepared.replay_case p)
         (RuntimeRouteTarget.selected_route (Prepared.route_target p))) (tenant_quotas p s).

(** What the request-rate policies count, whatever happens afterwards. *)
Definition rate_counts p s (k : string) : Z :=
  rate_hits (RuntimeQuotaPreflightInput.mk (Prepared.replay_case p) 0 (IngressClock.checked_at clock)
               true) k (request_quotas p s).

(** What an answer adds to the token and stream counters. *)
Definition answer_counts p s (response : RuntimeIngressResponse.t V) (k : string) : Z :=
  match RuntimeRouteTarget.selected_route (Prepared.route_target p) with
  | None => 0
  | Some selected =>
      let input :=
        TerminalUsageInput.mk (Prepared.replay_case p)
          (default "" (RuntimeRouteTarget.route_decision_id (Prepared.route_target p))) selected
          (Prepared.requested_model p) (RuntimeRouteTarget.upstream_model_id (Prepared.route_target p))
          (RuntimeRouteTarget.pricing_sku_id (Prepared.route_target p)) response
          (IngressClock.started_at clock) (IngressClock.ended_at clock) in
      let payload := (normalized_usage_payload (RuntimeIngressResponse.protocol_family response)
                        (RuntimeIngressResponse.body response)).1 in
      let seconds := if GatewayReplayCase.streaming (Prepared.replay_case p)
                     then runtime_stream_duration_seconds input else 0%Z in
      (Z.max 0 (terminal_usage_token_count payload)
         * terminal_hits (Prepared.actor p) input "token_actual_rate" "terminal_usage_event" k
             (tenant_quotas p s)
       + seconds * terminal_hits (Prepared.actor p) input "stream_duration" "stream_start" k
             (tenant_quotas p s))%Z
  end.

Lemma answer_counts_nonneg p s response k : (0 ≤ answer_counts p s response k)%Z.
Proof.
  unfold answer_counts. destruct (RuntimeRouteTarget.selected_route _) as [selected|]; [|done].
  cbv zeta. set (input := TerminalUsageInput.mk _ _ _ _ _ _ _ _ _).
  pose proof (terminal_hits_nonneg (Prepared.actor p) input "token_actual_rate"
    "terminal_usage_event" k (tenant_quotas p s)).
  pose proof (terminal_hits_nonneg (Prepared.actor p) input "stream_duration" "stream_start" k
    (tenant_quotas p s)).
  assert (0 ≤ (if GatewayReplayCase.streaming (Prepared.replay_case p)
    then runtime_stream_duration_seconds input else 0))%Z.
  { destruct (GatewayReplayCase.streaming _); [|done]. unfold runtime_stream_duration_seconds. lia. }
  nia.
Qed.

(** At most once per policy of the tenant. *)
Lemma answer_counts_le p s response k :
  GatewayReplayCase.streaming (Prepared.replay_case p) = false →
  (answer_counts p s response k
   ≤ Z.max 0 (terminal_usage_token_count
       (normalized_usage_payload (RuntimeIngressResponse.protocol_family response)
          (RuntimeIngressResponse.body response)).1) * Z.of_nat (length (tenant_quotas p s)))%Z.
Proof.
  intros Hs. unfold answer_counts. destruct (RuntimeRouteTarget.selected_route _) as [selected|]; [|lia].
  cbv zeta. rewrite Hs. set (input := TerminalUsageInput.mk _ _ _ _ _ _ _ _ _).
  pose proof (terminal_hits_length (Prepared.actor p) input "token_actual_rate"
    "terminal_usage_event" k (tenant_quotas p s)). nia.
Qed.

(** The policy store after a successful attempt was recorded. *)
Lemma answered_counters headers request s p s1 response s2 :
  admitted config postgres draws clock headers request s p s1 →
  PolicyView.available (view (GatewayState.policy s1)) = true →
  (∀ k, 0 ≤ PolicyView.counter (view (GatewayState.policy s1)) k
        ∧ PolicyView.counter (view (GatewayState.policy s1)) k + answer_counts p s response k
          ≤ i64_max)%Z →
  record_successful_runtime_attempt postgres draws clock (Prepared.actor p)
    (Prepared.replay_case p) (Prepared.requested_model p) (Prepared.route_target p) response s1
    = (Ok tt, s2) →
  counters_moved (GatewayState.policy s1) (GatewayState.policy s2) (answer_counts p s response).
Proof.
  intros [(n & _ & s0 & p' & F & _ & Es1) _ _ _ _ Hroute] Hav Hfit Hrec.
  destruct Hroute as [(_ & Ert & _)|(loaded & selection & _ & Ert & _)]; rewrite Ert in Hrec.
  - injection Hrec as <-. unfold answer_counts. rewrite Ert. simpl.
    eapply moved_ext; [|apply moved_refl]. done.
  - destruct (record_successful_run _ _ _ _ _ _ _ _ _ _ _ _ Hrec) as (_ & _ & Hu).
    destruct (Hu eq_refl) as (_ & data & Hq & Hpol). rewrite Hpol.
    set (payload := UsageEventRecord.usage_payload _).
    assert (payload = (normalized_usage_payload (RuntimeIngressResponse.protocol_family response)
      (RuntimeIngressResponse.body response)).1) as Hpay.
    { unfold payload, bill, terminal_usage_event. simpl. by destruct (normalized_usage_payload _ _). }
    pose proof (terminal_quota_counts (Prepared.actor p)
      (terminal_input draws clock (Prepared.actor p) (Prepared.replay_case p)
         (Prepared.requested_model p) loaded selection response) data payload
      (GatewayState.policy s1)) as Ht.
    cbv zeta in Ht. rewrite Hav, Hq, Hpay in Ht. rewrite Hpay.
    assert (GatewayState.quota_policies s1 = GatewayState.quota_policies s) as Eq
      by (subst s1; apply F).
    rewrite Eq in Ht. unfold answer_counts in Hfit |- *. rewrite Ert in Hfit |- *. simpl in Hfit |- *.
    exact (Ht Hfit).
Qed.

(** C5. A request gives back what it reserved: with the hot state up, counters
    below saturation, fresh lease ids and a durable store that accepts its evidence,
    every counter after a request that was admitted is what it was before,
    plus one for each request-rate policy it counts on and, when it was answered,
    plus the tokens and seconds of the answer on the matching terminal counters.
    Budget units and concurrency slots are back whether the provider answered or
    not. *)
Theorem request_settles_reservations client headers request s p s1 r s' :
  durable_accepts postgres →
  (∀ j j', IngressDraws.leases draws j = IngressDraws.leases draws j' → j = j') →
  (∀ j, PolicyView.lease (view (GatewayState.policy s))
          (new_prefixed_id "bls" (IngressDraws.leases draws j)) = None) →
  PolicyView.available (view (GatewayState.policy s)) = true →
  prepare_ingress config postgres draws clock headers request s = (Ok p, s1) →
  model_ingress config postgres draws clock client headers request s = (r, s') →
  let answered k := match r with Ok response => answer_counts p s response k | Err _ => 0%Z end in
  (∀ k, 0 ≤ PolicyView.counter (view (GatewayState.policy s)) k
        ∧ PolicyView.counter (view (GatewayState.policy s)) k
          + Z.of_nat (length (request_budgets p s) + length (request_quotas p s)) + answered k
          ≤ i64_max)%Z →
  ∀ k, PolicyView.counter (view (GatewayState.policy s')) k
       = (PolicyView.counter (view (GatewayState.policy s)) k + rate_counts p s k + answered k)%Z.
Proof.
  intros Hd Hinj Hfresh Hav Hprep Hrun answered Hfit.
  unfold model_ingress, mbind, M_bind in Hrun. rewrite Hprep in Hrun.
  apply prepared_admitted in Hprep as Had.
  assert (∀ k, 0 ≤ answered k)%Z as Hpos.
  { intros k. unfold answered. destruct r; [apply answer_counts_nonneg|done]. }
  destruct (ad_parsed _ _ _ _ _ _ _ _ _ Had) as (n & _ & s0 & x & F & Hpf & Es1).
  unfold preflight_run in Hpf. simpl in Hpf.
  apply preflight_taken in Hpf as (bs & qs & x1 & Epf & Ht & Hu & Hm & Hheld & Hle); [|done..|]; last first.
  { intros k. specialize (Hfit k). specialize (Hpos k). unfold request_budgets, request_quotas,
      tenant_quotas in Hfit. simpl. lia. }
  change (counters_moved x1 x (λ k, qheld k qs + rate_counts p s k)%Z) in Hm.
  change (∀ k, 0 ≤ held k bs ≤ Z.of_nat (length (request_budgets p s)))%Z in Hheld.
  change (∀ k, qheld k qs + rate_counts p s k ≤ Z.of_nat (length (request_quotas p s)))%Z in Hle.
  assert (∀ k, 0 ≤ rate_counts p s k)%Z as Hrate by (intros k; apply rate_hits_range).
  assert (∀ k, PolicyView.counter (view x) k = PolicyView.counter (view (GatewayState.policy s)) k
    + held k bs + qheld k qs + rate_counts p s k)%Z as Hx.
  { intros k. rewrite (moved_counter _ _ _ Hm), (took_counter _ _ _ Ht). lia. }
  assert (∀ y z, counters_moved x y answered →
    release_runtime_policy_reservations (IngressClock.released_at clock) (Prepared.preflight p) y
      = (Ok tt, z) →
    ∀ k, PolicyView.counter (view z) k
       = (PolicyView.counter (view (GatewayState.policy s)) k + rate_counts p s k + answered k)%Z)
    as Hend.
  { intros y z Hy Hz k. rewrite Epf in Hz.
    edestruct (release_preflight_spec (IngressClock.released_at clock) bs qs
      (λ k, rate_counts p s k + answered k)%Z _ _ y Ht Hu) as (z' & Hz' & Hc).
    - eapply moved_ext; [|eapply moved_trans; [exact Hm|exact Hy]]. intros k'. cbn beta. lia.
    - intros k'. specialize (Hfit k'). specialize (Hpos k'). specialize (Hheld k').
      specialize (Hle k'). specialize (Hrate k'). cbn beta. lia.
    - rewrite Hz in Hz'. injection Hz' as <-. rewrite Hc. lia. }
  destruct (provider_answer config client p s1) as [response|e] eqn:Ea.
  - pose proof (record_successful_accepted postgres draws clock p response s1 Hd) as Hok. revert Hrun.
    unfold complete_ingress, execute_runtime_provider_or_record_failure.
    fold (provider_answer config client p s1). rewrite Ea. unfold mbind, M_bind.
    destruct (record_successful_runtime_attempt _ _ _ _ _ _ _ _ s1) as [r' s2] eqn:Hrec. simpl in Hok.
    subst r'. destruct (release_preflight_run clock p s2) as (y & Hy & ->). intros [= <- <-]. simpl.
    apply (Hend (GatewayState.policy s2)); [|done].
    assert (GatewayState.policy s1 = x) as Ex by by rewrite Es1.
    rewrite <- Ex. eapply answered_counters; [exact Had|..|exact Hrec].
    + by rewrite Ex, (moved_available _ _ _ Hm), (took_available _ _ _ Ht).
    + intros k. rewrite Ex, Hx. specialize (Hfit k). specialize (Hheld k). specialize (Hle k).
      specialize (Hrate k). pose proof (qheld_nonneg k qs Hu). unfold answered in Hfit. lia.
  - destruct (complete_upstream_failed config postgres draws clock client p s1 e Ea)
      as (r' & s2 & y & e' & Hrec & Hrel & Hc).
    rewrite Hc in Hrun. injection Hrun as <- <-. simpl. apply (Hend (GatewayState.policy s2)); [|done].
    assert (GatewayState.policy s2 = x) as ->.
    { revert Hrec. unfold record_failed_route_attempt_for_target. rewrite Es1.
      repeat case_match; by intros [= _ <-]. }
    eapply moved_ext; [|apply moved_refl]. done.
Qed.
End reservations.
