(* ===== verification/IngressScenarios.v ===== *)
(** * Concrete model requests

    A tenant with a published catalog, one provider endpoint with a credential, a
    request budget, a concurrency quota and a token quota; requests on it, at which
    the theorems of the ingress are applied, and the runs that show where
    reservations and credentials outlive a request. *)

From stdpp Require Import pretty.
From S2P Require Import Prelude Order Text Domain Action HotState Routing Catalog Grants RoutePlan.
From S2P Require Import Json Usage Pricing PolicyStore RuntimePolicy PolicyFacts Outbox Delivery.
From S2P Require Import Terminal Auth CedarPolicy Publication GwRoute AdminRecords DraftCatalog.
From S2P Require Import AdminState Provider GwRequest Ingress IngressFacts.

Module IngressSample.
#[local] Open Scope Z_scope.

(** ** Instances *)

Definition catalog : GatewayCatalogSnapshot.t :=
  GatewayCatalogSnapshot.mk
    [ProviderEndpoint.mk "ep1" "ten" "ep1" "openai" [ProtocolFamily.OpenAiResponses]
       "https://api.example.com/v1" ResourceStatus.Active]
    [UpstreamCredentialConfig.mk "upc_1" "ten" "ep1" "upstream_api_key" "sec_1"
       CredentialStatus.Active]
    [ModelTargetConfig.mk "t1" "ten" "ep1" (Some "upc_1") ProtocolFamily.OpenAiResponses "gpt-up"
       None ResourceStatus.Active false]
    [ModelAliasConfig.mk "alias1" "ten" None None "fast" ProtocolFamily.OpenAiResponses "policy1"
       ResourceStatus.Active]
    [RoutingGroupConfig.mk "group1" "ten" ResourceStatus.Active]
    [RoutingGroupTargetConfig.mk "gt1" "group1" "t1" 1 0 ResourceStatus.Active]
    [RoutePolicyConfig.mk "policy1" "ten" "alias1" "group1" ResourceStatus.Active (Some 600)]
    [Sample.org_grant].

#[export] Instance uri : UriLibrary := Sample.uri_library.
#[export] Instance shape : JsonShape Tree.t := λ v, match v with Tree.Obj _ => true | _ => false end.
#[export] Instance text : JsonText Tree.t := λ _, "{}".
#[export] Instance catalog_json : CatalogJson Tree.t := {
  Catalog.json_get := Tree.get;
  snapshot_from_value _ := Ok catalog;
}.

(** The two documents of the sample. *)
Definition asked : Tree.t := Tree.Obj [("model", Tree.Str "fast")].
Definition told : Tree.t :=
  Tree.Obj [("usage", Tree.Obj [("input_tokens", Tree.Int 5); ("output_tokens", Tree.Int 2)])].
#[export] Instance parse : JsonParse Tree.t := λ s,
  if s ==? "ask" then Ok asked else if s ==? "tell" then Ok told else Err "expected value".

(** URLs as text. *)
#[export] Instance urls : UrlLibrary := {
  Url := string;
  url_parse s := Ok s;
  url_join base path := Ok (base +:+ path);
  url_set_path _ path := "https://api.example.com" +:+ path;
  url_path _ := "/v1";
  url_scheme _ := "https";
  url_host_str _ := Some "api.example.com";
  url_port _ := None;
  url_to_string s := s;
}.
#[export] Instance cedar : CedarParser := {
  Schema := unit; PolicySet := string;
  schema_from_str _ := Ok tt;
  policy_set_from_str source := if source ==? "" then Err "empty" else Ok source;
  validate_strict _ _ := ([], 0%nat);
  evaluator _ _ := CedarLibrary.mk string unit unit Some (λ _ _, true) (λ _ _ _, Some tt)
    (λ _, Some tt) (λ _ _, (false, true));
}.

(** ** The tenant *)

Definition snapshot : PublishedConfigSnapshot.t Tree.t :=
  PublishedConfigSnapshot.mk (ConfigSnapshot.mk "cfg_1" "ten" 7 "hash" ConfigSnapshotStatus.Published 0)
    (ConfigSnapshotDocument.mk "schema" [] (Tree.Obj [("model_aliases", Tree.Arr [])]) None)
    "admin" 0.

(** A durable store that answers inserts of attempts with [attempts]. *)
Definition postgres (attempts : Result unit) : option (PostgresGatewayStore.t Tree.t) :=
  Some (PostgresGatewayStore.mk (λ _, Ok None) (λ _ _, Ok None) (λ _, Ok []) (λ _, Ok tt)
    (λ _, Ok (Some (PublishedConfigSnapshot.metadata snapshot))) (λ _, Ok (Some snapshot))
    (λ _, Ok tt) (λ _, attempts) (λ _, Ok tt)).

Definition actor : AuthenticatedActor.t := GrantSample.actor.
Definition slots : QuotaPolicyRecord.t :=
  QuotaPolicyRecord.mk "qp1" "ten" "tenant" "ten" None None "concurrent_request" 1 None
    "request_lifetime" "preflight_acquire" "fail_closed" ResourceStatus.Active 1 1 "admin" 0 0.

Definition credential (status : UpstreamCredentialStatus.t) : UpstreamCredentialRecord.t :=
  UpstreamCredentialRecord.mk "upc_1" "ten" None "ep1" "upstream_api_key" "sec_1" status 1 1 "admin"
    0 0.
Definition secret : SecretRefRecord.t :=
  SecretRefRecord.mk "sec_1" "ten" None None "upstream" "memory" "" "***" "fp"
    SecretRefStatus.Active 1 1 "admin" 0 0.

Definition state (status : UpstreamCredentialStatus.t) : GatewayState.t Tree.t InMemoryPolicyStore.t :=
  GatewayState.mk
    (GatewayStore.mk (DraftCatalog.mk ∅ ∅ {["sec_1" := secret]} ∅ ∅ {["upc_1" := credential status]} ∅ ∅ ∅ ∅ ∅ ∅)
       ConfigStore.empty {["bp1" := PreflightSample.budget "bp1" 9]}
       [ActionGrant.mk "ten" (Some "org") (Some "proj") "user1" GatewayAction.ModelInvoke "ModelAlias" "*"]
       [] [] [] ∅ ∅ HotStore.empty)
    AuthSample.empty (<["qp1" := slots]> {["qp2" := TerminalSample.quota]})
    {["sec_1" := "s3cret"]} (λ _, None)
    (mk_usage_store [] ∅) InMemoryPolicyStore.empty (OutboxStore.mk ∅ ∅ ∅ []) [] [].

Definition config : GatewayConfig.t := GatewayConfig.mk 1024 ProviderTransportMode.Http 30000.
Definition clock : IngressClock.t := IngressClock.mk 1 2 3 4 5 6 7 8 9 10.
Definition draws : IngressDraws.t :=
  IngressDraws.mk "1" "1" PreflightSample.uuid "1" "1" "1" (λ k, k).
Definition headers : HeaderMap := λ _, None.
Definition request : IngressRequest.t :=
  IngressRequest.mk Method.POST "/api/v1/responses" (Ok "ask") (Some actor).

(** A provider that answers those who present the secret. *)
Definition provider : HttpClient := λ r,
  if bool_decide (("authorization", "Bearer s3cret") ∈ LiveRequest.headers r)
  then Some (LiveResponse.mk 200 (Some "tell")) else Some (LiveResponse.mk 401 None).

Definition run (client : HttpClient) (attempts : Result unit)
    (s : GatewayState.t Tree.t InMemoryPolicyStore.t) :=
  model_ingress config (postgres attempts) draws clock client headers request s.
Definition active : GatewayState.t Tree.t InMemoryPolicyStore.t := state UpstreamCredentialStatus.Active.

Definition slot_key : string := runtime_quota_counter_key slots 6.
Definition token_key : string := runtime_quota_counter_key TerminalSample.quota 9.
Definition counter (s : GatewayState.t Tree.t InMemoryPolicyStore.t) (k : string) : Z :=
  PolicyView.counter (view (GatewayState.policy s)) k.
End IngressSample.
Import (hints) IngressSample.


(** ** An answered request *)

(** What is checked of a run, as a test on its result. *)
Definition passes {E A St} (test : A → St → bool) (run : result E A * St) : bool :=
  match run with (Ok a, s) => test a s | (Err _, _) => false end.

Lemma passes_run {E A St} (test : A → St → bool) (run : result E A * St) :
  passes test run = true → ∃ a s, run = (Ok a, s) ∧ test a s = true.
Proof. destruct run as [[a|] s]; [|done]. by exists a, s. Qed.

Definition tokens_of (response : RuntimeIngressResponse.t Tree.t) : Z :=
  terminal_usage_token_count (normalized_usage_payload
    (RuntimeIngressResponse.protocol_family response) (RuntimeIngressResponse.body response)).1.

Lemma sample_answered :
  ∃ response s',
    IngressSample.run IngressSample.provider (Ok tt) IngressSample.active = (Ok response, s')
    ∧ bool_decide (tokens_of response = 7%Z
        ∧ IngressSample.counter s' IngressSample.slot_key = 0%Z
        ∧ IngressSample.counter s' IngressSample.token_key = 7%Z
        ∧ RouteAttemptRecord.status <$> GatewayState.route_attempts s' = [RouteAttemptStatus.Completed]
        ∧ length (usage_events (GatewayState.usage s')) = 1) = true.
Proof. apply (passes_run (λ response s', bool_decide _)). vm_compute. reflexivity. Qed.

Lemma answered_request_admitted_and_booked_witness :
  ∃ response s',
    IngressSample.run IngressSample.provider (Ok tt) IngressSample.active = (Ok response, s')
    ∧ AuthorizationDecision.allowed (RuntimeIngressResponse.authorization response) = true.
Proof.
  destruct sample_answered as (response & s' & Hrun & _). exists response, s'. split; [exact Hrun|].
  destruct (answered_request_admitted_and_booked _ _ _ _ _ _ _ _ _ _ Hrun) as [Hal _]. exact Hal.
Defined.

(** ** A request the provider refuses *)

(** A provider that cannot be reached. *)
Definition unreachable : HttpClient := λ _, None.

Lemma sample_failed :
  ∃ s', IngressSample.run unreachable (Ok tt) IngressSample.active
        = (Err (GatewayError.Upstream "provider_unavailable"), s').
Proof.
  assert ((IngressSample.run unreachable (Ok tt) IngressSample.active).1
    = Err (GatewayError.Upstream "provider_unavailable")) as Hr by (vm_compute; reflexivity).
  destruct (IngressSample.run unreachable (Ok tt) IngressSample.active) as [r s']. exists s'.
  simpl in Hr. by subst.
Qed.

Lemma refused_request_not_billed_witness :
  ∃ s', IngressSample.run unreachable (Ok tt) IngressSample.active
        = (Err (GatewayError.Upstream "provider_unavailable"), s')
    ∧ GatewayState.usage s' = mk_usage_store [] ∅.
Proof.
  destruct sample_failed as [s' Hrun]. exists s'. split; [exact Hrun|].
  assert (durable_accepts (IngressSample.postgres (Ok tt))) as Hd by (split; intros; reflexivity).
  destruct (refused_request_not_billed _ _ _ _ _ _ _ _ _ _ Hd Hrun) as [Hu _]. exact Hu.
Defined.

(** ** Reservations of the answered request *)

Lemma sample_prepared :
  ∃ p s1,
    prepare_ingress IngressSample.config (IngressSample.postgres (Ok tt)) IngressSample.draws
      IngressSample.clock IngressSample.headers IngressSample.request IngressSample.active = (Ok p, s1)
    ∧ bool_decide (GatewayReplayCase.streaming (Prepared.replay_case p) = false
        ∧ length (tenant_quotas p IngressSample.active) = 2
        ∧ length (request_budgets p IngressSample.active) = 1
        ∧ length (request_quotas p IngressSample.active) = 2) = true.
Proof. apply (passes_run (λ p s1, bool_decide _)). vm_compute. reflexivity. Qed.

Lemma request_settles_reservations_witness :
  ∃ response s',
    IngressSample.run IngressSample.provider (Ok tt) IngressSample.active = (Ok response, s')
    ∧ ∃ p, ∀ k, IngressSample.counter s' k
        = (IngressSample.counter IngressSample.active k
           + rate_counts IngressSample.clock p IngressSample.active k
           + answer_counts IngressSample.clock p IngressSample.active response k)%Z.
Proof.
  destruct sample_prepared as (p & s1 & Hp & Hb).
  apply bool_decide_eq_true in Hb as (Hs & Hq & Hb & Hr).
  destruct sample_answered as (response & s' & Hrun & Ht).
  apply bool_decide_eq_true in Ht as [Ht _]. unfold tokens_of in Ht.
  exists response, s'. split; [exact Hrun|]. exists p.
  assert (durable_accepts (IngressSample.postgres (Ok tt))) as Hd by (split; intros; reflexivity).
  assert (∀ j, PolicyView.lease (view (GatewayState.policy IngressSample.active))
    (new_prefixed_id "bls" (IngressDraws.leases IngressSample.draws j)) = None) as Hfresh
    by (intros j; reflexivity).
  assert (PolicyView.available (view (GatewayState.policy IngressSample.active)) = true) as Hav
    by reflexivity.
  apply (request_settles_reservations IngressSample.config (IngressSample.postgres (Ok tt))
    IngressSample.draws IngressSample.clock IngressSample.provider IngressSample.headers
    IngressSample.request IngressSample.active p s1 (Ok response) s' Hd PreflightSample.uuid_inj
    Hfresh Hav Hp Hrun).
  intros k. rewrite Hb, Hr.
  pose proof (answer_counts_le IngressSample.clock p IngressSample.active response k Hs) as Hle.
  rewrite Ht, Hq in Hle.
  change (PolicyView.counter (view (GatewayState.policy IngressSample.active)) k) with 0%Z.
  unfold i64_max. split; lia.
Defined.

(** ** What the provider of the sample sees *)

(** The provider, reachable under the address of the selected endpoint only. *)
Definition at_endpoint : HttpClient := λ r,
  if LiveRequest.url r ==? "https://api.example.com/v1/responses"
  then IngressSample.provider r else None.

Lemma provider_sees_only_admitted_request_witness :
  IngressSample.run IngressSample.provider (Ok tt) IngressSample.active
  = IngressSample.run at_endpoint (Ok tt) IngressSample.active.
Proof.
  apply provider_sees_only_admitted_request.
  intros p s1 loaded selection provider_request _ Hp _ [Hc (plan & Hplan & Hsel)] Hb.
  destruct (prepared_admitted _ _ _ _ _ _ _ _ _ Hp) as [(n & Hparse & _) _ _ _ _ _].
  destruct p as [replay_case actor body model rt target authorization preflight].
  vm_compute in Hparse. injection Hparse as <- <- _ <- <-. simpl in Hc, Hplan, Hb.
  assert (loaded = LoadedCatalog.mk IngressSample.catalog "cfg_1" 7) as ->.
  { vm_compute in Hc. injection Hc as <-. reflexivity. }
  assert (ProviderEndpoint.upstream_base_url (RouteSelection.provider_endpoint selection)
    = "https://api.example.com/v1") as Hurl.
  { vm_compute in Hplan. injection Hplan as <-. simpl in Hsel. injection Hsel as <-. reflexivity. }
  unfold admitted_provider_request, build_provider_adapter_request in Hb. simpl in Hb.
  rewrite Hurl in Hb. simpl in Hb. injection Hb as <-. reflexivity.
Defined.

(** ** Where reservations and credentials outlive a request *)

(** A provider that answers later than the service waits: the handler is dropped
    while it holds its concurrency slot.  No attempt is recorded, the slot is never
    given back, and with a limit of one every later request is refused. *)
Example timed_out_request_keeps_slot :
  let timed := timed_model_ingress IngressSample.config (IngressSample.postgres (Ok tt))
    IngressSample.draws IngressSample.clock IngressSample.provider 30000 IngressSample.headers
    IngressSample.request in
  let '(r, s1) := timed IngressSample.active in
  r = Err GatewayError.RequestTimeout
  ∧ GatewayState.route_attempts s1 = []
  ∧ IngressSample.counter s1 IngressSample.slot_key = 1%Z
  ∧ (IngressSample.run IngressSample.provider (Ok tt) s1).1
    = Err (GatewayError.QuotaExceeded "concurrent_request_limit_reached").
Proof. by vm_compute. Qed.

(** The provider gets as long as the whole request, so a slow provider is always
    cut off from outside. *)
Lemma timeouts_coincide config :
  (MIN_REQUEST_TIMEOUT_MS ≤ GatewayConfig.request_timeout_ms config
   ≤ MAX_REQUEST_TIMEOUT_MS)%Z →
  clamped_timeout config = GatewayConfig.request_timeout_ms config.
Proof. unfold clamped_timeout. lia. Qed.

(** A durable store that refuses the evidence of an answer: the client gets an
    error for a request the provider served, nothing is billed, and the slot and the
    budget unit stay reserved. *)
Example undurable_answer_keeps_reservations :
  let '(r, s1) := IngressSample.run IngressSample.provider
    (Err (GatewayError.Internal "database error")) IngressSample.active in
  r = Err (GatewayError.Internal "database error")
  ∧ usage_events (GatewayState.usage s1) = []
  ∧ RouteAttemptRecord.status <$> GatewayState.route_attempts s1 = [RouteAttemptStatus.Completed]
  ∧ IngressSample.counter s1 IngressSample.slot_key = 1%Z
  ∧ IngressSample.counter s1 (runtime_budget_reservation_key (PreflightSample.budget "bp1" 9) 6) = 1%Z.
Proof. by vm_compute. Qed.

(** A stored credential is used whatever its status: disabled, its secret is still
    sent to the provider. *)
Example disabled_credential_still_sent :
  is_ok (IngressSample.run IngressSample.provider (Ok tt)
           (IngressSample.state UpstreamCredentialStatus.Disabled)).1 = true.
Proof. by vm_compute. Qed.
