(* ===== verification/WebSocket.v ===== *)
(** * The Responses WebSocket

    [responses_websocket.rs] and the WebSocket half of the ingress of [service.rs]:
    a session authenticates, authorizes and charges every [response.create] frame,
    is pinned to the route and the upstream connection of the first one, and relays
    what the provider sends until the turn ends. *)

From Stdlib Require Import Ascii.
From S2P Require Import Prelude Order Text Domain Action HotState Routing Catalog Grants RoutePlan.
From S2P Require Import Json Usage Pricing PolicyStore RuntimePolicy Outbox Delivery Terminal.
From S2P Require Import Auth CedarPolicy Publication GwRoute AdminRecords DraftCatalog AdminState.
From S2P Require Import Provider GwRequest Ingress.

(** ** Messages *)

(** A message of the client ([axum::extract::ws::Message]). *)
Module Message.
Inductive t : Set :=
| Text (text : string) | Ping (payload : string) | Pong (payload : string)
| Binary (payload : string) | Close.
End Message.

(** A message of the provider, as [tungstenite] delivers it, or a receive error. *)
Module UpstreamFrame.
Inductive t : Set :=
| Text (text : string) | Ping (pong_sent : bool) | Pong | Frame | Close | Binary | Failed | Ended.
End UpstreamFrame.

(** What the loop of a turn wakes up for, in the order it does; a list that ends is
    a provider that stays silent until the timeout. *)
Module TurnEvent.
Inductive t : Set :=
| Upstream (frame : UpstreamFrame.t)
| Downstream (message : option (option Message.t)).
End TurnEvent.

(** The outcome of a connection attempt to the provider. *)
Module ConnectOutcome.
Inductive t : Set := Connected | InvalidRequest (error : string) | TimedOut | Refused.
End ConnectOutcome.

(** ** The upstream connection *)

Module UpstreamResponsesWebSocket.
Record t : Set := mk { url : string; headers : list (string * string) }.
End UpstreamResponsesWebSocket.

Definition http_url_to_ws_url (url : string) : Result string :=
  match Text.strip_prefix "https://" url with
  | Some rest => Ok ("wss://" +:+ rest)
  | None =>
      match Text.strip_prefix "http://" url with
      | Some rest => Ok ("ws://" +:+ rest)
      | None =>
          Err (GatewayError.BadRequest
            ("responses websocket upstream URL must use http or https: " +:+ url))
      end
  end.

Definition websocket_handshake_header_is_gateway_owned (name : string) : bool :=
  bool_decide (to_ascii_lowercase name ∈ ["host"; "connection"; "upgrade"; "sec-websocket-accept";
    "sec-websocket-key"; "sec-websocket-protocol"; "sec-websocket-version"]).

Definition handshake_headers (headers : list (string * string)) : list (string * string) :=
  List.filter (λ '(name, _), negb (websocket_handshake_header_is_gateway_owned name
    || (name ==? "content-type") || (name ==? "content-length"))) headers.

Definition connect (outcome : ConnectOutcome.t) (url : string) (headers : list (string * string))
    : Result UpstreamResponsesWebSocket.t :=
  match outcome with
  | ConnectOutcome.InvalidRequest error =>
      Err (GatewayError.BadRequest ("invalid upstream websocket request: " +:+ error))
  | ConnectOutcome.TimedOut => Err (GatewayError.Upstream "responses_websocket_connect_timeout")
  | ConnectOutcome.Refused => Err (GatewayError.Upstream "responses_websocket_connect_failed")
  | ConnectOutcome.Connected =>
      Ok (UpstreamResponsesWebSocket.mk url (handshake_headers headers))
  end.

(** ** Sessions *)

Module PinnedResponsesWebSocketState.
Record t : Set := mk {
  model_alias : string;
  route_target : RuntimeRouteTarget.t;
  upstream : option UpstreamResponsesWebSocket.t;
}.
End PinnedResponsesWebSocketState.

Module ResponsesWebSocketSession.
Record t : Type := mk {
  headers : HeaderMap;
  actor : AuthenticatedActor.t;
  pinned : option PinnedResponsesWebSocketState.t;
}.
Definition new (headers : HeaderMap) (actor : AuthenticatedActor.t) : t := mk headers actor None.
End ResponsesWebSocketSession.

Module ResponseCreateFrame.
Record t {V : Type} : Type := mk { raw_body : V; model_alias : string }.
Arguments t V : clear implicits.
Arguments mk {V}.
End ResponseCreateFrame.

Module ResponsesWebSocketTurnOutcome.
Record t {V : Type} : Type := mk {
  response : option (RuntimeIngressResponse.t V);
  success : bool;
  client_disconnected : bool;
  close_connection : bool;
}.
Arguments t V : clear implicits.
Arguments mk {V}.
Section outcomes.
Context {V : Type}.
Definition continue_without_accounting : t V := mk None false false false.
Definition failed_continue : t V := mk None false false false.
Definition failed_and_close : t V := mk None false false true.
Definition disconnected : t V := mk None false true true.
End outcomes.
End ResponsesWebSocketTurnOutcome.

(** What was sent to the client. *)
Module Sent.
Inductive t : Set := Text (text : string) | Pong (payload : string).
End Sent.

(** The state of a connection: the gateway, the session, whether the next sends to
    the client succeed (none does when the list ends), and what was sent. *)
Module Conn.
Record t {V S : Type} : Type := mk {
  gateway : GatewayState.t V S;
  session : ResponsesWebSocketSession.t;
  sends : list bool;
  sent : list Sent.t;
}.
Arguments t V S : clear implicits.
Arguments mk {V S}.
Section setters.
Context {V S : Type} (c : t V S).
Definition set_gateway g : t V S := mk g (session c) (sends c) (sent c).
Definition set_session x : t V S := mk (gateway c) x (sends c) (sent c).
Definition set_actor a : t V S :=
  set_session (ResponsesWebSocketSession.mk (ResponsesWebSocketSession.headers (session c)) a
    (ResponsesWebSocketSession.pinned (session c))).
Definition set_pinned p : t V S :=
  set_session (ResponsesWebSocketSession.mk (ResponsesWebSocketSession.headers (session c))
    (ResponsesWebSocketSession.actor (session c)) p).
Definition set_wire x y : t V S := mk (gateway c) (session c) x y.
End setters.
End Conn.

(** What the world answers during one turn. *)
Module TurnScript.
Record t : Set := mk {
  request_uuid : string;
  trace_uuid : string;
  authenticated_at : DateTime;
  draws : IngressDraws.t;
  clock : IngressClock.t;
  connection : ConnectOutcome.t;
  upstream_send : bool;
  events : list TurnEvent.t;
}.
End TurnScript.

(** ** Frames *)

Section frames.
Context {V : Type} `{JsonLibrary V} `{!JsonShape V} `{!JsonText V} `{!JsonParse V}.
Context {S : Type}.
Abbreviation Ws := (M (Conn.t V S) GatewayError.t).

Definition parse_response_create_frame (text : string)
    : result (string * string) (ResponseCreateFrame.t V) :=
  match json_from_str text with
  | Err _ => Err ("invalid_json", "Text frame is not valid JSON.")
  | Ok value =>
      if negb (value_is_object value)
      then Err ("invalid_json", "Text frame must be a JSON object.")
      else if get_str value "type" !=? Some "response.create"
      then Err ("unsupported_event_type",
                "Only response.create frames are supported by Responses WebSocket proxy.")
      else
        match keep (λ model, model !=? "") (get_str value "model") with
        | None => Err ("missing_model", "response.create.model is required.")
        | Some model_alias => Ok (ResponseCreateFrame.mk value model_alias)
        end
  end.

Definition parsed_text (text : string) : option V :=
  match json_from_str text with Ok value => Some value | Err _ => None end.

Definition responses_websocket_completed_response_body (text : string) : option V :=
  value ← parsed_text text;
  if get_str value "type" ==? Some "response.completed"
  then Some (default value (json_get value "response")) else None.

Definition responses_websocket_terminal_error (text : string) : bool :=
  bool_decide ((value ← parsed_text text; get_str value "type")
               ∈ [Some "response.failed"; Some "response.incomplete"; Some "error"]).

(** ** Sending to the client *)

(** [downstream_tx.send(..).await.is_ok()]. *)
Definition try_send (message : Sent.t) : Ws bool := λ c,
  match Conn.sends c with
  | true :: sends => (Ok true, Conn.set_wire c sends (Conn.sent c ++ [message]))
  | false :: sends => (Ok false, Conn.set_wire c sends (Conn.sent c))
  | [] => (Ok false, c)
  end.

Definition send_or_fail (message : Sent.t) : Ws unit :=
  ok ← try_send message;
  if (ok : bool) then mret tt
  else throw (GatewayError.Upstream "responses_websocket_downstream_send_failed").

Definition responses_websocket_error_text (code message : string) : string :=
  json_to_vec (json_obj [("type", json_str "error");
    ("error", json_obj [("type", json_str "invalid_request_error"); ("code", json_str code);
                        ("message", json_str message)])]).

Definition send_responses_websocket_error (code message : string) : Ws unit :=
  send_or_fail (Sent.Text (responses_websocket_error_text code message)).

Definition gateway_error_code (error : GatewayError.t) : string :=
  match error with
  | GatewayError.Authentication => "authentication_failed"
  | GatewayError.Authorization _ => "authorization_denied"
  | GatewayError.BadRequest _ => "invalid_request"
  | GatewayError.NoRoute _ => "no_route"
  | GatewayError.BudgetExceeded _ => "budget_exceeded"
  | GatewayError.QuotaExceeded _ => "quota_exceeded"
  | GatewayError.Upstream _ => "upstream_error"
  | GatewayError.NotFound _ => "not_found"
  | GatewayError.RequestTimeout => "request_timeout"
  | GatewayError.NotReady => "not_ready"
  | GatewayError.Internal _ => "internal_error"
  end.

Definition send_responses_websocket_gateway_error (error : GatewayError.t) : Ws unit :=
  send_responses_websocket_error (gateway_error_code error) (GatewayError.to_string error).
End frames.

(** ** The provider request of a session *)

Definition responses_websocket_replay_case : Result GatewayReplayCase.t :=
  ok_or (List.find (λ case,
           (GatewayReplayCase.protocol_family case ==? ProtocolFamily.OpenAiResponses)
           && (GatewayReplayCase.ingress_path case ==? "/v1/responses"))
           foundation_route_replay_cases)
    (GatewayError.Internal "openai responses replay case missing").

(** The key id of the actor, else its own id. *)
Definition key_or_actor_id (actor : AuthenticatedActor.t) : string :=
  default (AuthenticatedActor.actor_id actor) (AuthenticatedActor.api_key_id actor).

Definition responses_websocket_route_affinity_hash `{AuthLibrary} (headers : HeaderMap)
    (actor : AuthenticatedActor.t) : option string :=
  match route_affinity_hash_from_headers headers with
  | Some hash => Some hash
  | None => Some (route_affinity_hash (key_or_actor_id actor))
  end.

Definition responses_websocket_session_id (headers : HeaderMap) (actor : AuthenticatedActor.t)
    : string :=
  let value := match headers GATEWAY_SESSION_ID_HEADER with
               | Some value => Some value
               | None => headers SESSION_ID_HEADER
               end in
  default (key_or_actor_id actor) (keep is_safe_route_affinity_key (value ≫= to_str)).

Definition header_value (what value : string) : Result string :=
  if all_chars is_header_byte value then Ok value
  else Err (GatewayError.Internal (what +:+ "failed to parse header value")).

(** [HeaderMap::insert]: the last value of a name. *)
Definition header_insert (name value : string) (headers : list (string * string))
    : list (string * string) :=
  List.filter (λ '(other, _), other !=? name) headers ++ [(name, value)].

Section provider_request.
Context {V : Type} `{JsonLibrary V} `{!JsonShape V} `{UrlLibrary} {S : Type}.
Implicit Types (s : GatewayState.t V S) (headers : HeaderMap) (actor : AuthenticatedActor.t).

Definition inject_responses_websocket_prompt_cache_key (body : V) (session_id : string) : V :=
  if value_is_object body then json_set "prompt_cache_key" (json_str session_id) body else body.

Definition responses_websocket_provider_request headers actor (route_target : RuntimeRouteTarget.t)
    (raw_body : V) s : Result (ProviderAdapterRequest.t V) :=
  match RuntimeRouteTarget.provider_endpoint route_target with
  | None => Err (GatewayError.NoRoute "provider_route_required")
  | Some endpoint =>
      if negb (bool_decide (ProviderEndpoint.provider_kind endpoint ∈ ["openai"; "codex"]))
      then Err (GatewayError.NoRoute "responses_websocket_provider_unsupported")
      else
        let body := inject_responses_websocket_prompt_cache_key raw_body
                      (responses_websocket_session_id headers actor) in
        replay_case ← responses_websocket_replay_case;
        provider_request ← runtime_provider_adapter_request replay_case route_target body s;
        ok_or provider_request (GatewayError.NoRoute "provider_route_required")
  end.

Fixpoint provider_headers (headers : list ProviderAdapterHeader.t) (acc : list (string * string))
    : Result (list (string * string)) :=
  match headers with
  | [] => Ok acc
  | header :: headers' =>
      value ← header_value "invalid provider header value: " (ProviderAdapterHeader.value header);
      provider_headers headers' (header_insert (ProviderAdapterHeader.name header) value acc)
  end.

Definition provider_request_header_map (provider_request : ProviderAdapterRequest.t V) actor headers
    : Result (list (string * string)) :=
  header_map ← provider_headers (ProviderAdapterRequest.headers provider_request) [];
  if ProviderAdapterRequestMetadata.provider_kind
       (ProviderAdapterRequest.safe_metadata provider_request) ==? "codex"
  then
    session_value ← header_value "invalid responses websocket session header: "
      (responses_websocket_session_id headers actor);
    Ok (header_insert "x-client-request-id" session_value
          (header_insert "session_id" session_value header_map))
  else Ok header_map.

Definition connect_responses_websocket_upstream (outcome : ConnectOutcome.t) headers actor
    (route_target : RuntimeRouteTarget.t) (raw_body : V) s : Result UpstreamResponsesWebSocket.t :=
  provider_request ← responses_websocket_provider_request headers actor route_target raw_body s;
  ws_url ← http_url_to_ws_url (ProviderAdapterRequest.url provider_request);
  header_map ← provider_request_header_map provider_request actor headers;
  connect outcome ws_url header_map.
End provider_request.

(** ** A turn *)

Section turn.
Context {V : Type} `{JsonLibrary V} `{!JsonShape V} `{!JsonText V} `{!JsonParse V} `{!CatalogJson V}.
Context `{UriLibrary} `{UrlLibrary} `{CedarParser} `{ChronoCalendar} `{AuthLibrary}.
Context {S : Type} `{RuntimePolicyRepository S}.
Context (config : GatewayConfig.t) (postgres : option (PostgresGatewayStore.t V)).
Abbreviation Ws := (M (Conn.t V S) GatewayError.t).
Abbreviation Outcome := (ResponsesWebSocketTurnOutcome.t V).

Definition on_gateway {A} (op : M (GatewayState.t V S) GatewayError.t A) : Ws A := λ c,
  let '(r, g) := op (Conn.gateway c) in (r, Conn.set_gateway c g).

(** The body of the relay loop, [tokio::select!]: one event, or the timeout. *)
Fixpoint relay (authorization : FakeProviderAuthorization.t) (events : list TurnEvent.t)
    : Ws Outcome :=
  match events with
  | [] =>
      send_responses_websocket_error "upstream_timeout"
        "Timed out waiting for upstream Responses WebSocket event.";;
      mret ResponsesWebSocketTurnOutcome.failed_and_close
  | TurnEvent.Upstream frame :: events' =>
      match frame with
      | UpstreamFrame.Text text =>
          ok ← try_send (Sent.Text text);
          if negb ok then mret ResponsesWebSocketTurnOutcome.disconnected
          else
            match responses_websocket_completed_response_body text with
            | Some body =>
                mret (ResponsesWebSocketTurnOutcome.mk
                  (Some (RuntimeIngressResponse.mk ProtocolFamily.OpenAiResponses
                     (FakeProviderAuthorization.authorization authorization) body true))
                  true false false)
            | None =>
                if responses_websocket_terminal_error (V := V) text
                then mret ResponsesWebSocketTurnOutcome.failed_continue
                else relay authorization events'
            end
      | UpstreamFrame.Ping true => relay authorization events'
      | UpstreamFrame.Ping false =>
          throw (GatewayError.Upstream "responses_websocket_pong_failed")
      | UpstreamFrame.Pong | UpstreamFrame.Frame => relay authorization events'
      | UpstreamFrame.Close | UpstreamFrame.Ended =>
          mret ResponsesWebSocketTurnOutcome.failed_and_close
      | UpstreamFrame.Binary => throw (GatewayError.Upstream "responses_websocket_binary_frame")
      | UpstreamFrame.Failed => throw (GatewayError.Upstream "responses_websocket_receive_failed")
      end
  | TurnEvent.Downstream message :: events' =>
      match message with
      | Some (Some (Message.Ping payload)) =>
          ok ← try_send (Sent.Pong payload);
          if negb ok then mret ResponsesWebSocketTurnOutcome.disconnected
          else relay authorization events'
      | Some (Some (Message.Pong _)) => relay authorization events'
      | Some (Some Message.Close) | Some None | None =>
          mret ResponsesWebSocketTurnOutcome.disconnected
      | Some (Some (Message.Text _)) =>
          send_responses_websocket_error "concurrent_turn_not_supported"
            "Responses WebSocket does not support concurrent response.create frames. Wait for the current turn to finish before sending another frame.";;
          relay authorization events'
      | Some (Some (Message.Binary _)) =>
          send_responses_websocket_error "unsupported_frame_type"
            "Responses WebSocket only supports JSON text frames.";;
          relay authorization events'
      end
  end.

Definition proxy_live_responses_websocket_turn (script : TurnScript.t)
    (authorization : FakeProviderAuthorization.t) (route_target : RuntimeRouteTarget.t)
    (raw_body : V) : Ws Outcome := λ c,
  let session := Conn.session c in
  match
    provider_request ← responses_websocket_provider_request
      (ResponsesWebSocketSession.headers session) (ResponsesWebSocketSession.actor session)
      route_target raw_body (Conn.gateway c);
    match ResponsesWebSocketSession.pinned session
            ≫= PinnedResponsesWebSocketState.upstream with
    | None => Err (GatewayError.Upstream "responses_websocket_upstream_missing")
    | Some _ =>
        if TurnScript.upstream_send script then Ok tt
        else Err (GatewayError.Upstream "responses_websocket_send_failed")
    end
  with
  | Err e => (Err e, c)
  | Ok _ => relay authorization (TurnScript.events script) c
  end.

Definition run_fake_responses_websocket_turn (authorization : FakeProviderAuthorization.t)
    (provider_target : FakeProviderReplayTarget.t) (raw_body : V) : Ws Outcome :=
  let response := fake_provider_response_for_authorization authorization provider_target raw_body in
  send_or_fail (Sent.Text (json_to_vec (json_obj [
    ("type", json_str "response.completed");
    ("response", RuntimeIngressResponse.body response)])));;
  mret (ResponsesWebSocketTurnOutcome.mk (Some response) true false false).

Definition record_client_disconnected_route_attempt_for_target (uuid : string)
    (route_target : RuntimeRouteTarget.t) (attempt_started_at attempt_ended_at : DateTime)
    : M (GatewayState.t V S) GatewayError.t unit :=
  match RuntimeRouteTarget.route_decision_id route_target,
        RuntimeRouteTarget.selected_route route_target with
  | Some route_decision_id, Some selected =>
      record_route_attempt_evidence postgres
        (RouteAttemptRecord.client_disconnected uuid route_decision_id 0 selected
           attempt_started_at attempt_ended_at)
  | _, _ => mret tt
  end.

Definition release_turn (script : TurnScript.t) (preflight : RuntimePolicyPreflight.t) : Ws unit :=
  on_gateway (on_policy (release_runtime_policy_reservations
    (IngressClock.released_at (TurnScript.clock script)) preflight)).

(** The route of a turn: the pinned one, else a new one. *)
Definition turn_route_target (script : TurnScript.t) (replay_case : GatewayReplayCase.t)
    (model_alias : string) : Ws RuntimeRouteTarget.t := λ c,
  let session := Conn.session c in
  match ResponsesWebSocketSession.pinned session with
  | Some pinned => (Ok (PinnedResponsesWebSocketState.route_target pinned), c)
  | None =>
      on_gateway (runtime_route_target postgres (IngressDraws.decision (TurnScript.draws script))
        (TurnScript.clock script) (ResponsesWebSocketSession.actor session) replay_case model_alias
        (responses_websocket_route_affinity_hash (ResponsesWebSocketSession.headers session)
           (ResponsesWebSocketSession.actor session))) c
  end.

(** The evidence of a turn. *)
Definition account_for_turn (script : TurnScript.t) (replay_case : GatewayReplayCase.t)
    (frame : ResponseCreateFrame.t V) (route_target : RuntimeRouteTarget.t)
    (outcome : Result Outcome) : Ws unit := λ c,
  let clock := TurnScript.clock script in
  let draws := TurnScript.draws script in
  let failed :=
    on_gateway (record_failed_route_attempt_for_target postgres (IngressDraws.attempt draws)
      route_target (IngressClock.started_at clock) (IngressClock.ended_at clock)) in
  match outcome with
  | Ok turn =>
      if ResponsesWebSocketTurnOutcome.success turn then
        match ResponsesWebSocketTurnOutcome.response turn with
        | Some response =>
            on_gateway (record_successful_runtime_attempt postgres draws clock
              (ResponsesWebSocketSession.actor (Conn.session c)) replay_case
              (ResponseCreateFrame.model_alias frame) route_target response) c
        | None => (Ok tt, c)
        end
      else if ResponsesWebSocketTurnOutcome.client_disconnected turn then
        on_gateway (record_client_disconnected_route_attempt_for_target (IngressDraws.attempt draws)
          route_target (IngressClock.started_at clock) (IngressClock.ended_at clock)) c
      else failed c
  | Err _ => failed c
  end.

(** The turn proper, once the policies admitted it and a route is pinned. *)
Definition run_turn (script : TurnScript.t) (replay_case : GatewayReplayCase.t)
    (frame : ResponseCreateFrame.t V) (route_target : RuntimeRouteTarget.t)
    (authorization : FakeProviderAuthorization.t) (preflight : RuntimePolicyPreflight.t)
    : Ws Outcome := λ c,
  let '(outcome, c1) :=
    match GatewayConfig.provider_transport_mode config with
    | ProviderTransportMode.Fake =>
        run_fake_responses_websocket_turn authorization (provider_target_of route_target)
          (ResponseCreateFrame.raw_body frame) c
    | ProviderTransportMode.Http =>
        proxy_live_responses_websocket_turn script authorization route_target
          (ResponseCreateFrame.raw_body frame) c
    end in
  (account_for_turn script replay_case frame route_target outcome;;
   release_turn script preflight;;
   lift outcome) c1.

Definition pin (frame : ResponseCreateFrame.t V) (route_target : RuntimeRouteTarget.t)
    (upstream : option UpstreamResponsesWebSocket.t) (c : Conn.t V S) : Conn.t V S :=
  Conn.set_pinned c (Some (PinnedResponsesWebSocketState.mk
    (ResponseCreateFrame.model_alias frame) route_target upstream)).

(** Connect and pin if this is the first turn; a failed connection ends the turn. *)
Definition pin_or_fail (script : TurnScript.t) (frame : ResponseCreateFrame.t V)
    (route_target : RuntimeRouteTarget.t) (preflight : RuntimePolicyPreflight.t)
    (next : Ws Outcome) : Ws Outcome := λ c,
  let session := Conn.session c in
  match ResponsesWebSocketSession.pinned session with
  | Some _ => next c
  | None =>
      match GatewayConfig.provider_transport_mode config with
      | ProviderTransportMode.Fake => next (pin frame route_target None c)
      | ProviderTransportMode.Http =>
          match connect_responses_websocket_upstream (TurnScript.connection script)
                  (ResponsesWebSocketSession.headers session)
                  (ResponsesWebSocketSession.actor session) route_target
                  (ResponseCreateFrame.raw_body frame) (Conn.gateway c) with
          | Ok upstream => next (pin frame route_target (Some upstream) c)
          | Err error =>
              (on_gateway (record_failed_route_attempt_for_target postgres
                 (IngressDraws.attempt (TurnScript.draws script)) route_target
                 (IngressClock.started_at (TurnScript.clock script))
                 (IngressClock.ended_at (TurnScript.clock script)));;
               release_turn script preflight;;
               send_responses_websocket_gateway_error error;;
               mret ResponsesWebSocketTurnOutcome.continue_without_accounting) c
          end
      end
  end.

(** From authorization on; the actor of the session was refreshed. *)
Definition admit_turn (script : TurnScript.t) (replay_case : GatewayReplayCase.t)
    (frame : ResponseCreateFrame.t V) (route_target : RuntimeRouteTarget.t) : Ws Outcome := λ c,
  let actor := ResponsesWebSocketSession.actor (Conn.session c) in
  let draws := TurnScript.draws script in
  let clock := TurnScript.clock script in
  let body := ResponseCreateFrame.raw_body frame in
  let admitted (authorization : FakeProviderAuthorization.t) : Ws Outcome := λ c,
    match on_gateway (on_policy (enforce_runtime_policy_preflight
            (GatewayState.policy_data (Conn.gateway c)) (IngressDraws.leases draws)
            (IngressClock.unwound_at clock) actor replay_case
            (RuntimeRouteTarget.selected_route route_target)
            (Z.of_nat (String.length (json_to_vec body))) (IngressClock.checked_at clock))) c with
    | (Ok preflight, c1) =>
        pin_or_fail script frame route_target preflight
          (run_turn script replay_case frame route_target authorization preflight) c1
    | (Err error, c1) =>
        (on_gateway (record_runtime_policy_block_decision postgres draws clock actor replay_case
           (ResponseCreateFrame.model_alias frame) route_target error);;
         send_responses_websocket_gateway_error error;;
         mret ResponsesWebSocketTurnOutcome.continue_without_accounting) c1
    end in
  (authorization ← on_gateway (authorize_runtime_provider_target postgres
     (IngressDraws.authorization draws) clock actor replay_case (provider_target_of route_target));
   if negb (AuthorizationDecision.allowed (FakeProviderAuthorization.authorization authorization))
   then
     send_responses_websocket_error "authorization_denied"
       "Responses WebSocket model authorization denied.";;
     mret ResponsesWebSocketTurnOutcome.continue_without_accounting
   else admitted authorization) c.

(** The actor of a turn, authenticated again from the headers of the session. *)
Definition refresh_actor (script : TurnScript.t) : M (Conn.t V S) GatewayError.t (Result unit) := λ c,
  let g := Conn.gateway c in
  match authenticate_request postgres (TurnScript.request_uuid script) (TurnScript.trace_uuid script)
          (ResponsesWebSocketSession.headers (Conn.session c)) (TurnScript.authenticated_at script)
          (GatewayState.auth g) with
  | (Err error, a) => (Ok (Err error), Conn.set_gateway c (GatewayState.set_auth g a))
  | (Ok actor, a) =>
      (Ok (Ok tt), Conn.set_actor (Conn.set_gateway c (GatewayState.set_auth g a)) actor)
  end.

Definition handle_response_create (script : TurnScript.t) (frame : ResponseCreateFrame.t V)
    : Ws Outcome := λ c,
  let switches := match ResponsesWebSocketSession.pinned (Conn.session c) with
                  | Some pinned => PinnedResponsesWebSocketState.model_alias pinned
                                   !=? ResponseCreateFrame.model_alias frame
                  | None => false
                  end in
  if switches then
    (send_responses_websocket_error "model_switch_not_supported"
       "Responses WebSocket connection is pinned to the first model alias. Open a new WebSocket connection to use another model.";;
     mret ResponsesWebSocketTurnOutcome.continue_without_accounting) c
  else
    (replay_case ← lift responses_websocket_replay_case;
     authenticated ← refresh_actor script;
     match authenticated with
     | Err error =>
         send_responses_websocket_gateway_error error;;
         mret (ResponsesWebSocketTurnOutcome.mk None false false
                 (match error with GatewayError.Authentication => true | _ => false end))
     | Ok _ =>
         route_target ← turn_route_target script replay_case (ResponseCreateFrame.model_alias frame);
         admit_turn script replay_case frame route_target
     end) c.

(** ** The session *)

(** What waiting for the next message of the client gives. *)
Definition SessionInput : Type := bool * option (option (option Message.t)) * TurnScript.t.

Definition close_session (c : Conn.t V S) : Conn.t V S := Conn.set_pinned c None.

(** One input per round: whether the connection is still young enough, the message
    ([None] is the idle timeout), and the script of the turn it may start.  Errors of
    sends are ignored where the code ignores them. *)
Fixpoint run (inputs : list SessionInput) (c : Conn.t V S) : Conn.t V S :=
  match inputs with
  | [] => close_session c
  | (young, next, script) :: inputs' =>
      if negb young then close_session c
      else
        match next with
        | None =>
            close_session (send_responses_websocket_error "idle_timeout"
              "Responses WebSocket idle timeout exceeded." c).2
        | Some None | Some (Some None) | Some (Some (Some Message.Close)) => close_session c
        | Some (Some (Some (Message.Text text))) =>
            match parse_response_create_frame text with
            | Err (code, message) =>
                run inputs' (send_responses_websocket_error code message c).2
            | Ok frame =>
                match handle_response_create script frame c with
                | (Ok outcome, c1) =>
                    if ResponsesWebSocketTurnOutcome.close_connection outcome
                    then close_session c1 else run inputs' c1
                | (Err error, c1) =>
                    close_session (send_responses_websocket_gateway_error error c1).2
                end
            end
        | Some (Some (Some (Message.Ping payload))) =>
            match try_send (Sent.Pong payload) c with
            | (Ok true, c1) => run inputs' c1
            | (_, c1) => close_session c1
            end
        | Some (Some (Some (Message.Pong _))) => run inputs' c
        | Some (Some (Some (Message.Binary _))) =>
            run inputs' (send_responses_websocket_error "unsupported_frame_type"
              "Responses WebSocket only supports JSON text frames." c).2
        end
  end.
End turn.
