(* ===== verification/WebSocketFacts.v ===== *)
(** * Facts about WebSocket sessions

    What a client receives during a turn, and what a session leaves in the evidence:
    the relay sends the transcript of its events up to the first send that fails, and
    everything a session answers goes over the one route it is pinned to. *)

From Stdlib Require Import Ascii.
From S2P Require Import Prelude Order Text Domain Action HotState Routing Catalog Grants RoutePlan.
From S2P Require Import Json Usage Pricing PolicyStore RuntimePolicy PolicyFacts Outbox Delivery.
From S2P Require Import Terminal Auth CedarPolicy Publication GwRoute AdminRecords DraftCatalog.
From S2P Require Import AdminState Provider GwRequest Ingress IngressFacts WebSocket.

(** ** The relay *)

Section relay.
Context {V : Type} `{JsonLibrary V} `{!JsonShape V} `{!JsonText V} `{!JsonParse V}.
Context {S : Type}.
Implicit Types (c : Conn.t V S).

Definition error_sent (code message : string) : Sent.t :=
  Sent.Text (responses_websocket_error_text code message).

Definition timeout_sent : Sent.t :=
  error_sent "upstream_timeout" "Timed out waiting for upstream Responses WebSocket event.".

(** What one event is answered with. *)
Definition reply (event : TurnEvent.t) : list Sent.t :=
  match event with
  | TurnEvent.Upstream (UpstreamFrame.Text text) => [Sent.Text text]
  | TurnEvent.Downstream (Some (Some (Message.Ping payload))) => [Sent.Pong payload]
  | TurnEvent.Downstream (Some (Some (Message.Text _))) =>
      [error_sent "concurrent_turn_not_supported"
         "Responses WebSocket does not support concurrent response.create frames. Wait for the current turn to finish before sending another frame."]
  | TurnEvent.Downstream (Some (Some (Message.Binary _))) =>
      [error_sent "unsupported_frame_type" "Responses WebSocket only supports JSON text frames."]
  | _ => []
  end.

(** The events after which a turn is over. *)
Definition ends_turn (event : TurnEvent.t) : bool :=
  match event with
  | TurnEvent.Upstream (UpstreamFrame.Text text) =>
      bool_decide (is_Some (responses_websocket_completed_response_body (V := V) text))
      || responses_websocket_terminal_error (V := V) text
  | TurnEvent.Upstream (UpstreamFrame.Ping true | UpstreamFrame.Pong | UpstreamFrame.Frame) => false
  | TurnEvent.Upstream _ => true
  | TurnEvent.Downstream (Some (Some Message.Close) | Some None | None) => true
  | TurnEvent.Downstream _ => false
  end.

(** The events of a turn, and everything a client that stays connected receives. *)
Fixpoint transcript (events : list TurnEvent.t) : list Sent.t :=
  match events with
  | [] => [timeout_sent]
  | event :: events' => reply event ++ if ends_turn event then [] else transcript events'
  end.

(** How many sends succeed before one fails. *)
Fixpoint reachable_for (sends : list bool) : nat :=
  match sends with true :: sends' => Datatypes.S (reachable_for sends') | _ => 0 end.

(** A message is sent, or nothing more can be. *)
Lemma try_send_cases message c :
  (∃ sends, Conn.sends c = true :: sends
     ∧ try_send message c = (Ok true, Conn.set_wire c sends (Conn.sent c ++ [message])))
  ∨ (∃ sends, reachable_for (Conn.sends c) = 0
     ∧ try_send message c = (Ok false, Conn.set_wire c sends (Conn.sent c))).
Proof.
  unfold try_send. destruct (Conn.sends c) as [|[] sends] eqn:E; [right|left|right].
  - exists []. split; [done|]. by destruct c; simpl in *; subst.
  - by exists sends.
  - by exists sends.
Qed.

Lemma try_send_then {A} message (stop : A) (k : M (Conn.t V S) GatewayError.t A) c r c' :
  (ok ← try_send message; if negb ok then mret stop else k) c = (r, c') →
  (∃ sends, Conn.sends c = true :: sends
     ∧ k (Conn.set_wire c sends (Conn.sent c ++ [message])) = (r, c'))
  ∨ (∃ sends, reachable_for (Conn.sends c) = 0 ∧ r = Ok stop
     ∧ c' = Conn.set_wire c sends (Conn.sent c)).
Proof.
  unfold mbind, M_bind.
  destruct (try_send_cases message c) as [(x & Es & ->)|(x & Es & ->)]; simpl; [eauto|].
  intros [= <- <-]. right. by exists x.
Qed.

Lemma send_then {A} message (k : M (Conn.t V S) GatewayError.t A) c r c' :
  (send_or_fail message;; k) c = (r, c') →
  (∃ sends, Conn.sends c = true :: sends
     ∧ k (Conn.set_wire c sends (Conn.sent c ++ [message])) = (r, c'))
  ∨ (∃ sends e, reachable_for (Conn.sends c) = 0 ∧ r = Err e
     ∧ c' = Conn.set_wire c sends (Conn.sent c)).
Proof.
  unfold send_or_fail, mbind, M_bind.
  destruct (try_send_cases message c) as [(x & Es & ->)|(x & Es & ->)]; simpl; [eauto|].
  intros [= <- <-]. right. by exists x, (GatewayError.Upstream "responses_websocket_downstream_send_failed").
Qed.

(** What the relay changes and when it succeeds. *)
Record relayed (authorization : FakeProviderAuthorization.t) (events : list TurnEvent.t) c
    (r : Result (ResponsesWebSocketTurnOutcome.t V)) c' : Prop := {
  rl_gateway : Conn.gateway c' = Conn.gateway c;
  rl_session : Conn.session c' = Conn.session c;
  rl_sent : Conn.sent c' = Conn.sent c ++ take (reachable_for (Conn.sends c)) (transcript events);
  rl_success : ∀ outcome, r = Ok outcome →
    ResponsesWebSocketTurnOutcome.success outcome = true →
    ∃ before text body,
      Conn.sent c' = before ++ [Sent.Text text]
      ∧ responses_websocket_completed_response_body text = Some body
      ∧ ResponsesWebSocketTurnOutcome.response outcome
        = Some (RuntimeIngressResponse.mk ProtocolFamily.OpenAiResponses
                  (FakeProviderAuthorization.authorization authorization) body true);
}.

(** A turn that ends without a word. *)
Lemma relayed_end authorization event events c r :
  reply event = [] → ends_turn event = true →
  (∀ outcome, r = Ok outcome → ResponsesWebSocketTurnOutcome.success outcome = false) →
  relayed authorization (event :: events) c r c.
Proof.
  intros Hr He Hf. constructor; [done..| |].
  - simpl. rewrite Hr, He. simpl. by rewrite take_nil, app_nil_r.
  - intros outcome E Hs. rewrite (Hf outcome E) in Hs. done.
Qed.

(** An event that is passed over. *)
Lemma relayed_skip authorization event events c r c' :
  reply event = [] → ends_turn event = false →
  relayed authorization events c r c' → relayed authorization (event :: events) c r c'.
Proof. intros Hr He [Hg Hs Ht Hok]. constructor; try done. simpl. by rewrite Hr, He. Qed.

(** A reply that could not be sent. *)
Lemma relayed_cut authorization event events c r message sends :
  reply event = [message] → reachable_for (Conn.sends c) = 0 →
  (∀ outcome, r = Ok outcome → ResponsesWebSocketTurnOutcome.success outcome = false) →
  relayed authorization (event :: events) c r (Conn.set_wire c sends (Conn.sent c)).
Proof.
  intros Hr Hz Hf. constructor; [done..| |].
  - simpl. by rewrite Hz, take_0, app_nil_r.
  - intros outcome E Hs. rewrite (Hf outcome E) in Hs. done.
Qed.

(** A reply that was sent, and the rest. *)
Lemma relayed_step authorization event events c r c' message sends :
  Conn.sends c = true :: sends → reply event = [message] → ends_turn event = false →
  relayed authorization events (Conn.set_wire c sends (Conn.sent c ++ [message])) r c' →
  relayed authorization (event :: events) c r c'.
Proof.
  intros Hsend Hr He [Hg Hs Ht Hok]. constructor; try done.
  simpl. rewrite Ht, Hr, He, Hsend. simpl. by rewrite <- app_assoc.
Qed.

Lemma relay_relayed authorization events c r c' :
  relay authorization events c = (r, c') → relayed authorization events c r c'.
Proof.
  revert c. induction events as [|event events IH]; intros c; cbn [relay].
  { intros [(x & Es & [= <- <-])|(x & e & Es & -> & ->)]%send_then; constructor; simpl; try done.
    - rewrite Es. simpl. by rewrite take_nil.
    - by intros ? [= <-].
    - by rewrite Es, take_0, app_nil_r. }
  destruct event as [frame|message].
  - destruct frame as [text|[]| | | | | |];
      try (intros Hrun; apply relayed_skip; [done..|]; by apply IH);
      try (intros [= <- <-]; apply relayed_end; [done..|]; by intros ? [= <-]).
    intros [(x & Es & Hrun)|(x & Es & -> & ->)]%try_send_then; last first.
    { eapply relayed_cut; [done..|]. by intros ? [= <-]. }
    destruct (responses_websocket_completed_response_body text) as [body|] eqn:Eb.
    + injection Hrun as <- <-. constructor; simpl; try done.
      * rewrite Es, Eb. simpl. by rewrite take_nil.
      * intros outcome [= <-] _. by eexists _, text, body.
    + destruct (responses_websocket_terminal_error text) eqn:Et.
      * injection Hrun as <- <-. constructor; simpl; try done.
        -- rewrite Es, Eb, Et. simpl. by rewrite take_nil.
        -- by intros outcome [= <-].
      * eapply relayed_step; [done..| |by apply IH]. simpl. by rewrite Eb, Et.
  - destruct message as [[[text|payload|payload|payload|]|]|];
      try (intros [= <- <-]; apply relayed_end; [done..|]; by intros ? [= <-]).
    + intros [(x & Es & Hrun)|(x & e & Es & -> & ->)]%send_then.
      * eapply relayed_step; [done..|by apply IH].
      * eapply relayed_cut; [done..|]. by intros ? [=].
    + intros [(x & Es & Hrun)|(x & Es & -> & ->)]%try_send_then.
      * eapply relayed_step; [done..|by apply IH].
      * eapply relayed_cut; [done..|]. by intros ? [= <-].
    + intros Hrun. apply relayed_skip; [done..|]. by apply IH.
    + intros [(x & Es & Hrun)|(x & e & Es & -> & ->)]%send_then.
      * eapply relayed_step; [done..|by apply IH].
      * eapply relayed_cut; [done..|]. by intros ? [=].
Qed.

(** C8. The relay is faithful: during a turn the client receives, in order, every
    text frame of the provider as it came, an answer to each of its own pings and
    stray frames, and the timeout notice if the provider falls silent, up to the end
    of the turn or to the first send that fails, and nothing else; the evidence and
    the session are untouched; and the turn counts as answered only if the frame that
    completes the response is the last one that reached the client. *)
Theorem relay_sends_transcript authorization events c :
  let '(r, c') := relay authorization events c in
  Conn.gateway c' = Conn.gateway c
  ∧ Conn.session c' = Conn.session c
  ∧ Conn.sent c' = Conn.sent c ++ take (reachable_for (Conn.sends c)) (transcript events)
  ∧ ∀ outcome, r = Ok outcome → ResponsesWebSocketTurnOutcome.success outcome = true →
      ∃ before text body,
        Conn.sent c' = before ++ [Sent.Text text]
        ∧ responses_websocket_completed_response_body text = Some body
        ∧ ResponsesWebSocketTurnOutcome.response outcome
          = Some (RuntimeIngressResponse.mk ProtocolFamily.OpenAiResponses
                    (FakeProviderAuthorization.authorization authorization) body true).
Proof.
  destruct (relay authorization events c) as [r c'] eqn:E.
  apply relay_relayed in E as [Hg Hs Ht Hok]. by split_and!.
Qed.
End relay.

(** ** Sessions *)

Section sessions.
Context {V : Type} `{JsonLibrary V} `{!JsonShape V} `{!JsonText V} `{!JsonParse V} `{!CatalogJson V}.
Context `{UriLibrary} `{UrlLibrary} `{CedarParser} `{ChronoCalendar} `{AuthLibrary}.
Context {S : Type} `{RuntimePolicyRepository S}.
Context (config : GatewayConfig.t) (postgres : option (PostgresGatewayStore.t V)).
Abbreviation Ws := (M (Conn.t V S) GatewayError.t).
Implicit Types (c : Conn.t V S) (script : TurnScript.t) (rt : RuntimeRouteTarget.t)
  (frame : ResponseCreateFrame.t V).

Definition pinned_of c : option PinnedResponsesWebSocketState.t :=
  ResponsesWebSocketSession.pinned (Conn.session c).
Definition attempts_of c : list RouteAttemptRecord.t :=
  GatewayState.route_attempts (Conn.gateway c).
Definition bills_of c : list (UsageEventRecord.t V) :=
  usage_events (GatewayState.usage (Conn.gateway c)).

(** An attempt on a route. *)
Definition on_route rt (a : RouteAttemptRecord.t) : Prop :=
  ∃ selected,
    RuntimeRouteTarget.selected_route rt = Some selected
    ∧ RuntimeRouteTarget.route_decision_id rt = Some (RouteAttemptRecord.route_decision_id a)
    ∧ RouteAttemptRecord.routing_group_id a = SelectedRouteEvidence.routing_group_id selected
    ∧ RouteAttemptRecord.model_target_id a = SelectedRouteEvidence.model_target_id selected
    ∧ RouteAttemptRecord.provider_endpoint_id a
      = SelectedRouteEvidence.provider_endpoint_id selected.

Definition completed_count (l : list RouteAttemptRecord.t) : nat :=
  length (List.filter (λ a, RouteAttemptRecord.status a ==? RouteAttemptStatus.Completed) l).

(** Every reading of the headers of a session gives the request id [id], and its
    actor carries it. *)
Definition named (id : string) c : Prop :=
  (∀ uuid, request_id_from_headers uuid (ResponsesWebSocketSession.headers (Conn.session c)) = id)
  ∧ AuthenticatedActor.request_id (ResponsesWebSocketSession.actor (Conn.session c)) = id.

(** The usage events of a tenant under a request id. *)
Definition under (tenant id : string) (events : list (UsageEventRecord.t V)) : nat :=
  length (List.filter (λ b, (UsageEventRecord.tenant_id b ==? tenant)
                            && (UsageEventRecord.request_id b ==? id)) events).

(** New usage events are under one request id, and a tenant has one at most. *)
Definition booked_once (id : string) (events events' : list (UsageEventRecord.t V)) : Prop :=
  (∀ b, b ∈ events' → b ∈ events ∨ UsageEventRecord.request_id b = id)
  ∧ ∀ tenant, under tenant id events' ≤ Nat.max 1 (under tenant id events).

(** The pin, the request id, the attempts and the bills are as they were. *)
Definition quiet c c' : Prop :=
  pinned_of c' = pinned_of c ∧ unbooked (Conn.gateway c) (Conn.gateway c')
  ∧ ∀ id, named id c → named id c'.

(** A pin is kept, what is recorded is failed or on the pinned route, and what is
    booked is booked under the request id of the session. *)
Record turn_effect c c' : Prop := {
  te_pin p : pinned_of c = Some p → pinned_of c' = Some p;
  te_named id : named id c → named id c' ∧ booked_once id (bills_of c) (bills_of c');
  te_attempts : ∃ new, attempts_of c' = attempts_of c ++ new
    ∧ length (bills_of c') ≤ length (bills_of c) + completed_count new
    ∧ ∀ a, a ∈ new → RouteAttemptRecord.status a ≠ RouteAttemptStatus.Failed →
        ∃ p, pinned_of c' = Some p ∧ on_route (PinnedResponsesWebSocketState.route_target p) a;
}.

Lemma booked_once_refl id events : booked_once id events events.
Proof. split; [by left|]. lia. Qed.

Lemma booked_once_trans id events events1 events2 :
  booked_once id events events1 → booked_once id events1 events2 → booked_once id events events2.
Proof.
  intros [I M] [I' M']. split.
  - intros b [Hb|Hb]%I'; [by apply I|by right].
  - intros tenant. specialize (M tenant). specialize (M' tenant). lia.
Qed.

Lemma quiet_refl c : quiet c c.
Proof. by split_and!. Qed.

Lemma quiet_trans c c1 c2 : quiet c c1 → quiet c1 c2 → quiet c c2.
Proof.
  intros (P & [U A] & N) (P' & [U' A'] & N'). split_and!; [congruence|split; congruence|eauto].
Qed.

Lemma quiet_effect c c' : quiet c c' → turn_effect c c'.
Proof.
  intros (P & [U A] & N). constructor; [by rewrite P| |].
  { intros id Hn. split; [eauto|]. unfold bills_of. rewrite U. apply booked_once_refl. }
  exists []. unfold attempts_of, bills_of.
  rewrite A, U. split_and!; [by rewrite app_nil_r|simpl; lia|set_solver].
Qed.

Lemma effect_trans c c1 c2 : turn_effect c c1 → turn_effect c1 c2 → turn_effect c c2.
Proof.
  intros [P N (l & A & B & R)] [P' N' (l' & A' & B' & R')]. constructor; [eauto| |].
  { intros id [Hn Hb]%N. apply N' in Hn as [Hn Hb']. split; [done|]. by eapply booked_once_trans. }
  exists (l ++ l'). rewrite A', A, app_assoc. split_and!; [done| |].
  - unfold completed_count in *. rewrite List.filter_app, length_app. lia.
  - intros a [Ha|Ha]%elem_of_app Hs; [|eauto]. destruct (R a Ha Hs) as (p & Hp & Hon). eauto.
Qed.

(** *** Steps that record nothing *)

Lemma wire_quiet c x y : quiet c (Conn.set_wire c x y).
Proof. by split_and!. Qed.

Lemma try_send_quiet message c r c' : try_send message c = (r, c') → quiet c c'.
Proof.
  destruct (try_send_cases message c) as [(x & _ & ->)|(x & _ & ->)]; intros [= _ <-]; apply wire_quiet.
Qed.

Lemma send_quiet message c r c' : send_or_fail message c = (r, c') → quiet c c'.
Proof.
  unfold send_or_fail, mbind, M_bind. destruct (try_send message c) as [[ok|] c1] eqn:E;
    apply try_send_quiet in E; [destruct ok|]; by intros [= _ <-].
Qed.

Lemma send_error_quiet code message c r c' :
  send_responses_websocket_error code message c = (r, c') → quiet c c'.
Proof. apply send_quiet. Qed.

Lemma send_gateway_error_quiet error c r c' :
  send_responses_websocket_gateway_error error c = (r, c') → quiet c c'.
Proof. apply send_quiet. Qed.

(** A step that is quiet, then a constant. *)
Lemma quiet_then {A B} (m : Ws A) (k : A → Ws B) c r c' :
  (∀ r1 c1, m c = (r1, c1) → quiet c c1) →
  (∀ a c1 r2 c2, k a c1 = (r2, c2) → quiet c1 c2) →
  (m ≫= k) c = (r, c') → quiet c c'.
Proof.
  intros Hm Hk. unfold mbind, M_bind. destruct (m c) as [[a|e] c1] eqn:E.
  - intros Hrun. eapply quiet_trans; eauto.
  - intros [= _ <-]. eauto.
Qed.

Lemma on_gateway_quiet {A} (op : M (GatewayState.t V S) GatewayError.t A) c r c' :
  (∀ r1 g, op (Conn.gateway c) = (r1, g) → unbooked (Conn.gateway c) g) →
  on_gateway op c = (r, c') → quiet c c'.
Proof.
  intros Hop. unfold on_gateway. destruct (op (Conn.gateway c)) as [r1 g] eqn:E.
  intros [= _ <-]. split_and!; [done|by eauto|done].
Qed.

Lemma on_policy_unbooked {A} (op : M S GatewayError.t A) (g : GatewayState.t V S) r g' :
  on_policy op g = (r, g') → unbooked g g'.
Proof. unfold on_policy. destruct (op _). by intros [= _ <-]. Qed.

Lemma release_turn_quiet script preflight c r c' :
  release_turn script preflight c = (r, c') → quiet c c'.
Proof. apply on_gateway_quiet. intros r1 g. apply on_policy_unbooked. Qed.

(** *** Steps that record an attempt *)

(** What recording an attempt does to the usage: nothing, or one usage event of a
    completed turn, under the request id of the actor. *)
Definition books c (status : RouteAttemptStatus.t) (g : GatewayState.t V S) : Prop :=
  GatewayState.usage g = GatewayState.usage (Conn.gateway c)
  ∨ status = RouteAttemptStatus.Completed
    ∧ ∃ uuid record,
        GatewayState.usage g = record_usage_event uuid record (GatewayState.usage (Conn.gateway c))
        ∧ UsageEventRecord.request_id record
          = AuthenticatedActor.request_id (ResponsesWebSocketSession.actor (Conn.session c)).

Lemma record_usage_length (uuid : string → string) (record : UsageEventRecord.t V) (u : UsageStore V) :
  length (usage_events (record_usage_event uuid record u)) ≤ length (usage_events u) + 1.
Proof. unfold record_usage_event. destruct (existsb _ _); simpl; [lia|]. rewrite length_app. simpl. lia. Qed.

Lemma under_absent (record : UsageEventRecord.t V) events tenant :
  existsb (λ existing, same_event existing record) events = false →
  UsageEventRecord.tenant_id record = tenant →
  under tenant (UsageEventRecord.request_id record) events = 0.
Proof.
  intros Hno <-. unfold under. induction events as [|b events IH]; [done|]. simpl in *.
  apply orb_false_iff in Hno as [Hb Hno]. unfold same_event in Hb.
  apply orb_false_iff in Hb as [_ Hb]. rewrite Hb. by apply IH.
Qed.

Lemma record_usage_once (uuid : string → string) (record : UsageEventRecord.t V) (u : UsageStore V) :
  booked_once (UsageEventRecord.request_id record) (usage_events u)
    (usage_events (record_usage_event uuid record u)).
Proof.
  unfold record_usage_event. destruct (existsb _ _) eqn:E; [apply booked_once_refl|]. simpl. split.
  - intros b [?| ->%list_elem_of_singleton]%elem_of_app; [by left|by right].
  - intros tenant. unfold under. rewrite List.filter_app, length_app. simpl.
    rewrite (bool_decide_true (UsageEventRecord.request_id record = _)), andb_true_r by done.
    case_bool_decide as Ht; simpl; [|lia].
    fold (under tenant (UsageEventRecord.request_id record) (usage_events u)).
    rewrite (under_absent record) by done. lia.
Qed.

(** A step that records one attempt, unless the target has no route. *)
Lemma record_effect (status : RouteAttemptStatus.t) (op : M (GatewayState.t V S) GatewayError.t unit)
    rt c r c' :
  (∀ p, pinned_of c = Some p → PinnedResponsesWebSocketState.route_target p = rt) →
  (status = RouteAttemptStatus.Failed ∨ ∃ p, pinned_of c = Some p) →
  (∀ r1 g, op (Conn.gateway c) = (r1, g) →
     unbooked (Conn.gateway c) g
     ∨ ∃ a, GatewayState.route_attempts g = GatewayState.route_attempts (Conn.gateway c) ++ [a]
         ∧ RouteAttemptRecord.status a = status ∧ on_route rt a ∧ books c status g) →
  on_gateway op c = (r, c') → turn_effect c c'.
Proof.
  intros Hrt Hst Hop. unfold on_gateway. destruct (op (Conn.gateway c)) as [r1 g] eqn:E.
  intros [= _ <-]. destruct (Hop _ _ eq_refl) as [Hu|(a & Ha & Hs & Hon & Hb)].
  { apply quiet_effect. by split_and!. }
  constructor; [done| |].
  { intros id [Hh Hi]. split; [done|]. unfold bills_of. simpl.
    destruct Hb as [->|(_ & uuid & record & -> & Hr)]; [apply booked_once_refl|].
    rewrite <- Hi, <- Hr. apply record_usage_once. }
  exists [a]. unfold attempts_of, bills_of, completed_count. simpl. rewrite Ha, Hs. split_and!; [done| |].
  - destruct Hb as [->|(-> & uuid & record & -> & _)]; [lia|]. apply record_usage_length.
  - intros b ->%list_elem_of_singleton Hf. rewrite Hs in Hf. destruct Hst as [?|[p Hp]]; [done|].
    exists p. split; [done|]. by rewrite (Hrt p Hp).
Qed.

Lemma terminal_on_route uuid id index selected status started ended rt :
  RuntimeRouteTarget.route_decision_id rt = Some id →
  RuntimeRouteTarget.selected_route rt = Some selected →
  on_route rt (RouteAttemptRecord.terminal uuid id index selected status started ended).
Proof. intros Hid Hsel. by exists selected. Qed.

Lemma record_failed_effect uuid rt started ended c r c' :
  (∀ p, pinned_of c = Some p → PinnedResponsesWebSocketState.route_target p = rt) →
  on_gateway (record_failed_route_attempt_for_target postgres uuid rt started ended) c = (r, c') →
  turn_effect c c'.
Proof.
  intros Hrt. apply (record_effect RouteAttemptStatus.Failed _ rt); [done|by left|].
  intros r1 g. unfold record_failed_route_attempt_for_target.
  destruct (RuntimeRouteTarget.route_decision_id rt) eqn:E1; [|intros [= _ <-]; by left].
  destruct (RuntimeRouteTarget.selected_route rt) eqn:E2; [|intros [= _ <-]; by left].
  intros [= _ <-]. right. eexists. split; [reflexivity|]. split_and!; [done| |by left].
  by apply terminal_on_route.
Qed.

Lemma record_disconnected_effect uuid rt started ended c r c' p :
  pinned_of c = Some p → PinnedResponsesWebSocketState.route_target p = rt →
  on_gateway (record_client_disconnected_route_attempt_for_target postgres uuid rt started ended) c
    = (r, c') → turn_effect c c'.
Proof.
  intros Hp Hrt. apply (record_effect RouteAttemptStatus.ClientDisconnected _ rt);
    [congruence|right; by exists p|].
  intros r1 g. unfold record_client_disconnected_route_attempt_for_target.
  destruct (RuntimeRouteTarget.route_decision_id rt) eqn:E1; [|intros [= _ <-]; by left].
  destruct (RuntimeRouteTarget.selected_route rt) eqn:E2; [|intros [= _ <-]; by left].
  intros [= _ <-]. right. eexists. split; [reflexivity|]. split_and!; [done| |by left].
  by apply terminal_on_route.
Qed.

Lemma record_successful_effect draws clock replay_case model rt response c r c' p :
  pinned_of c = Some p → PinnedResponsesWebSocketState.route_target p = rt →
  on_gateway (record_successful_runtime_attempt postgres draws clock
    (ResponsesWebSocketSession.actor (Conn.session c)) replay_case model rt response) c = (r, c') →
  turn_effect c c'.
Proof.
  intros Hp Hrt. apply (record_effect RouteAttemptStatus.Completed _ rt);
    [congruence|right; by exists p|].
  intros r1 g. unfold record_successful_runtime_attempt.
  destruct (RuntimeRouteTarget.route_decision_id rt) as [id|] eqn:E1; [|intros [= _ <-]; by left].
  destruct (RuntimeRouteTarget.selected_route rt) as [selected|] eqn:E2; [|intros [= _ <-]; by left].
  unfold mbind, M_bind, record_completed_route_attempt_evidence, record_route_attempt_evidence.
  intros Hrun. right. exists (RouteAttemptRecord.completed (IngressDraws.attempt draws) id selected
    (IngressClock.started_at clock) (IngressClock.ended_at clock)). revert Hrun.
  destruct (durable postgres _ _) as [[]|e]; last first.
  { intros [= _ <-]. split_and!; [done..|by exists selected|by left]. }
  unfold terminal_usage_step, record_terminal_usage_event. simpl.
  destruct (match PostgresGatewayStore.insert_usage_event <$> postgres with
            | Some f => _ | None => _ end) as [[]|e]; simpl; intros [= _ <-];
    (split_and!; [done..|by exists selected|]); right; (split; [done|]);
    eexists _, _; (split; [reflexivity|]); unfold terminal_usage_event; by case_match.
Qed.

(** *** A turn *)

Lemma effect_then {A B} (m : Ws A) (k : A → Ws B) c r c' :
  (∀ r1 c1, m c = (r1, c1) → turn_effect c c1) →
  (∀ a c1 r2 c2, m c = (Ok a, c1) → k a c1 = (r2, c2) → turn_effect c1 c2) →
  (m ≫= k) c = (r, c') → turn_effect c c'.
Proof.
  intros Hm Hk. unfold mbind, M_bind. destruct (m c) as [[a|e] c1] eqn:E.
  - intros Hrun. eapply effect_trans; [by eapply Hm|by eapply Hk].
  - intros [= _ <-]. eauto.
Qed.

Lemma account_effect script replay_case frame rt outcome c r c' p :
  pinned_of c = Some p → PinnedResponsesWebSocketState.route_target p = rt →
  account_for_turn postgres script replay_case frame rt outcome c = (r, c') → turn_effect c c'.
Proof.
  intros Hp Hrt. unfold account_for_turn. destruct outcome as [turn|e].
  - destruct (ResponsesWebSocketTurnOutcome.success turn).
    + destruct (ResponsesWebSocketTurnOutcome.response turn).
      * by eapply record_successful_effect.
      * intros [= _ <-]. apply quiet_effect, quiet_refl.
    + destruct (ResponsesWebSocketTurnOutcome.client_disconnected turn).
      * by eapply record_disconnected_effect.
      * apply record_failed_effect. congruence.
  - apply record_failed_effect. congruence.
Qed.

Lemma run_turn_effect script replay_case frame rt authorization preflight c r c' p :
  pinned_of c = Some p → PinnedResponsesWebSocketState.route_target p = rt →
  run_turn config postgres script replay_case frame rt authorization preflight c = (r, c') →
  turn_effect c c'.
Proof.
  intros Hp Hrt. unfold run_turn.
  destruct (match GatewayConfig.provider_transport_mode config with
            | ProviderTransportMode.Fake => _ | ProviderTransportMode.Http => _ end)
    as [outcome c1] eqn:Eo.
  assert (quiet c c1) as Hq.
  { destruct (GatewayConfig.provider_transport_mode config).
    - revert Eo. apply quiet_then; [apply send_quiet|]. intros [] c2 r2 c3 [= _ <-]. apply quiet_refl.
    - revert Eo. unfold proxy_live_responses_websocket_turn.
      destruct (responses_websocket_provider_request _ _ _ _ _); simpl;
        [|intros [= _ <-]; apply quiet_refl].
      destruct (ResponsesWebSocketSession.pinned _ ≫= _); simpl; [|intros [= _ <-]; apply quiet_refl].
      destruct (TurnScript.upstream_send script); simpl; [|intros [= _ <-]; apply quiet_refl].
      intros [Hg Hs _ _]%relay_relayed. unfold quiet, pinned_of, named. by rewrite Hs, Hg. }
  intros Hrun. eapply effect_trans; [by apply quiet_effect|]. revert Hrun. apply effect_then.
  - intros r1 c2. eapply account_effect; [|done]. by rewrite (proj1 Hq).
  - intros [] c2 r2 c3 _ Hrun. apply quiet_effect. revert Hrun.
    apply quiet_then; [apply release_turn_quiet|]. intros [] c4 r4 c5 [= _ <-]. apply quiet_refl.
Qed.

Lemma pin_effect frame rt upstream c :
  pinned_of c = None → turn_effect c (pin frame rt upstream c).
Proof.
  intros Hp. constructor; [by rewrite Hp| |].
  { intros id Hn. split; [exact Hn|apply booked_once_refl]. }
  exists []. unfold attempts_of, bills_of. simpl.
  split_and!; [by rewrite app_nil_r|lia|set_solver].
Qed.

Lemma pin_or_fail_effect script replay_case frame rt authorization preflight c r c' :
  (∀ p, pinned_of c = Some p → PinnedResponsesWebSocketState.route_target p = rt) →
  pin_or_fail config postgres script frame rt preflight
    (run_turn config postgres script replay_case frame rt authorization preflight) c = (r, c') →
  turn_effect c c'.
Proof.
  intros Hrt. unfold pin_or_fail. fold (pinned_of c).
  destruct (pinned_of c) as [p|] eqn:Hp; [|].
  { intros Hrun. eapply run_turn_effect; [exact Hp|by apply Hrt|exact Hrun]. }
  assert (∀ upstream, run_turn config postgres script replay_case frame rt authorization preflight
    (pin frame rt upstream c) = (r, c') → turn_effect c c') as Hnext.
  { intros upstream Hrun. eapply effect_trans; [by apply (pin_effect frame rt upstream)|].
    eapply run_turn_effect; [reflexivity|reflexivity|exact Hrun]. }
  destruct (GatewayConfig.provider_transport_mode config); [apply Hnext|].
  destruct (connect_responses_websocket_upstream _ _ _ _ _ _); [apply Hnext|].
  apply effect_then; [intros r1 c1; apply record_failed_effect; congruence|].
  intros [] c1 r1 c2 _ Hrun. apply quiet_effect. revert Hrun.
  apply quiet_then; [apply release_turn_quiet|]. intros [] c3 r3 c4.
  apply quiet_then; [apply send_gateway_error_quiet|]. intros [] c5 r5 c6 [= _ <-]. apply quiet_refl.
Qed.

Lemma admit_turn_effect script replay_case frame rt c r c' :
  (∀ p, pinned_of c = Some p → PinnedResponsesWebSocketState.route_target p = rt) →
  admit_turn config postgres script replay_case frame rt c = (r, c') → turn_effect c c'.
Proof.
  intros Hrt. unfold admit_turn. unfold mbind at 1, M_bind at 1.
  destruct (on_gateway (authorize_runtime_provider_target _ _ _ _ _ _) c) as [[a|e] c1] eqn:Ea;
    apply on_gateway_quiet in Ea as Hq;
    [|by intros r1 g [F _]%authorize_target_run; apply only_evidence_unbooked
     |intros [= _ <-]; by apply quiet_effect
     |by intros r1 g [F _]%authorize_target_run; apply only_evidence_unbooked].
  intros Hrun. apply (effect_trans _ c1); [by apply quiet_effect|]. revert Hrun.
  destruct (AuthorizationDecision.allowed _); simpl; last first.
  { intros Hrun. apply quiet_effect. revert Hrun. apply quiet_then; [apply send_error_quiet|].
    intros [] c5 r5 c6 [= _ <-]. apply quiet_refl. }
  destruct (on_gateway (on_policy _) c1) as [[pf|error] c2] eqn:Ep;
    apply on_gateway_quiet in Ep as Hq2; [|intros r1 g; apply on_policy_unbooked| |
      intros r1 g; apply on_policy_unbooked]; intros Hrun;
    apply (effect_trans _ c2); [by apply quiet_effect| |by apply quiet_effect|].
  - eapply pin_or_fail_effect; [|exact Hrun]. intros p Hp. apply Hrt.
    destruct Hq as [Hq _], Hq2 as [Hq2 _]. congruence.
  - apply quiet_effect. revert Hrun. apply quiet_then.
    { intros r1 c3. apply on_gateway_quiet. intros r2 g. apply record_block_unbooked. }
    intros [] c3 r3 c4. apply quiet_then; [apply send_gateway_error_quiet|].
    intros [] c5 r5 c6 [= _ <-]. apply quiet_refl.
Qed.

Lemma refresh_quiet script c r c' : refresh_actor postgres script c = (r, c') → quiet c c'.
Proof.
  unfold refresh_actor. destruct (authenticate_request _ _ _ _ _ _) as [[actor|e] a] eqn:E;
    intros [= _ <-]; split_and!; [done..| |done|done|by intros id [? ?]].
  apply authenticated_request_id in E. intros id [Hh _]. split; [exact Hh|]. simpl. by rewrite E.
Qed.

Lemma turn_route_quiet script replay_case model c r c' :
  turn_route_target postgres script replay_case model c = (r, c') →
  quiet c c' ∧ ∀ rt p, r = Ok rt → pinned_of c = Some p →
    PinnedResponsesWebSocketState.route_target p = rt.
Proof.
  unfold turn_route_target. fold (pinned_of c). destruct (pinned_of c) as [p|] eqn:Hp.
  - intros [= <- <-]. split; [apply quiet_refl|]. by intros rt p' [= <-] [= <-].
  - intros Hrun. split; [|done]. revert Hrun. apply on_gateway_quiet.
    intros [rt|e] g Hr; apply only_evidence_unbooked.
    + apply route_target_run in Hr as [(_ & _ & ->)|(? & ? & _ & _ & F & _)];
        [apply only_evidence_refl|done].
    + by eapply route_target_fails.
Qed.

Lemma handle_effect script frame c r c' :
  handle_response_create config postgres script frame c = (r, c') → turn_effect c c'.
Proof.
  unfold handle_response_create.
  destruct (match ResponsesWebSocketSession.pinned (Conn.session c) with Some _ => _ | None => _ end).
  { intros Hrun. apply quiet_effect. revert Hrun. apply quiet_then; [apply send_error_quiet|].
    intros [] c5 r5 c6 [= _ <-]. apply quiet_refl. }
  apply effect_then; [intros r1 c1 [= _ <-]; apply quiet_effect, quiet_refl|].
  intros rc c0 r0 c0' [= _ <-]. apply effect_then; [intros r1 c1 Hr; by eapply quiet_effect, refresh_quiet|].
  intros [[]|error] c1 r1 c2 _.
  - apply effect_then; [intros r2 c3 Hr; by eapply quiet_effect, turn_route_quiet|].
    intros rt c3 r3 c4 [Hq Hrt]%turn_route_quiet. apply admit_turn_effect.
    destruct Hq as [Hq _]. intros p Hp. apply Hrt; congruence.
  - intros Hrun. apply quiet_effect. revert Hrun. apply quiet_then; [apply send_gateway_error_quiet|].
    intros [] c5 r5 c6 [= _ <-]. apply quiet_refl.
Qed.

(** *** A whole session *)

(** [turn_effect] across rounds; closing drops the pin, so it is named. *)
Definition session_effect (pin : option PinnedResponsesWebSocketState.t) c c' : Prop :=
  (∀ p, pinned_of c = Some p → pin = Some p)
  ∧ (∀ id, named id c → booked_once id (bills_of c) (bills_of c'))
  ∧ ∃ new, attempts_of c' = attempts_of c ++ new
    ∧ length (bills_of c') ≤ length (bills_of c) + completed_count new
    ∧ ∀ a, a ∈ new → RouteAttemptRecord.status a ≠ RouteAttemptStatus.Failed →
        ∃ p, pin = Some p ∧ on_route (PinnedResponsesWebSocketState.route_target p) a.

Lemma effect_closes c c1 : turn_effect c c1 → ∃ pin, session_effect pin c (close_session c1).
Proof. intros [P N A]. exists (pinned_of c1). split_and!; [done|by intros id [_ ?]%N|done]. Qed.

Lemma effect_goes_on c c1 c2 :
  turn_effect c c1 → (∃ pin, session_effect pin c1 c2) → ∃ pin, session_effect pin c c2.
Proof.
  intros [P N (l & A & B & R)] (pin & P' & N' & l' & A' & B' & R'). exists pin. split_and!; [eauto| |].
  { intros id [Hn Hb]%N. eapply booked_once_trans; [exact Hb|by apply N']. }
  exists (l ++ l'). rewrite A', A, app_assoc. split_and!; [done| |].
  - unfold completed_count in *. rewrite List.filter_app, length_app. lia.
  - intros a [Ha|Ha]%elem_of_app Hs; [|eauto]. destruct (R a Ha Hs) as (p & Hp & Hon). eauto.
Qed.

Lemma send_error_effect code message c :
  turn_effect c (send_responses_websocket_error code message c).2.
Proof. destruct (send_responses_websocket_error _ _ _) eqn:E. by eapply quiet_effect, send_error_quiet. Qed.

Lemma run_effect inputs c : ∃ pin, session_effect pin c (run config postgres inputs c).
Proof.
  pose proof (λ c, quiet_effect c c (quiet_refl c)) as Hsame.
  revert c. induction inputs as [|[[young next] script] inputs IH]; intros c; cbn [run];
    [by apply effect_closes|].
  destruct young; cbn [negb]; [|by apply effect_closes].
  destruct next as [[[[text|payload|payload|payload|]|]|]|]; try by apply effect_closes.
  - destruct (parse_response_create_frame text) as [frame|[code message]].
    + destruct (handle_response_create _ _ _ _ _) as [[outcome|error] c1] eqn:E;
        apply handle_effect in E.
      * destruct (ResponsesWebSocketTurnOutcome.close_connection outcome);
          [by apply effect_closes|by eapply effect_goes_on].
      * apply effect_closes. eapply effect_trans; [exact E|].
        destruct (send_responses_websocket_gateway_error error c1) eqn:Es.
        by eapply quiet_effect, send_gateway_error_quiet.
    + eapply effect_goes_on; [apply send_error_effect|done].
  - destruct (try_send _ _) as [[[]|e] c1] eqn:E; apply try_send_quiet, quiet_effect in E;
      [by eapply effect_goes_on|by apply effect_closes..].
  - apply IH.
  - eapply effect_goes_on; [apply send_error_effect|done].
  - apply effect_closes, send_error_effect.
Qed.

(** C9. A WebSocket session answers on one route: whatever the client and the
    providers send, the attempts a session records are appended to the evidence, all
    those that were not plain failures, completed turns and turns the client cut
    short, are on one and the same route decision, model target and provider
    endpoint, the one already pinned if there is one, and no usage event is booked
    but for a completed turn. *)
Theorem session_answers_on_one_route inputs c :
  ∃ route new,
    attempts_of (run config postgres inputs c) = attempts_of c ++ new
    ∧ (∀ p, pinned_of c = Some p → route = Some (PinnedResponsesWebSocketState.route_target p))
    ∧ (∀ a, a ∈ new → RouteAttemptRecord.status a ≠ RouteAttemptStatus.Failed →
         ∃ rt, route = Some rt ∧ on_route rt a)
    ∧ length (bills_of (run config postgres inputs c))
      ≤ length (bills_of c) + completed_count new.
Proof.
  destruct (run_effect inputs c) as (pin & Hpin & _ & new & Ha & Hb & Hr).
  exists (PinnedResponsesWebSocketState.route_target <$> pin), new. split_and!; [done| | |done].
  - intros p Hp. by rewrite (Hpin p Hp).
  - intros a Hin Hs. destruct (Hr a Hin Hs) as (p & -> & Hon). by eexists.
Qed.
(** C10. A session is billed for one turn: behind the middleware that gives every
    request an id, a connection, however many turns it completes, books usage under
    that one id only, and a tenant has at most one usage event under it, so the
    usage of every completed turn after the first is dropped. *)
Theorem session_books_one_usage_event headers request_uuid trace_uuid actor inputs c :
  is_safe_request_id (new_prefixed_id "req" request_uuid) = true →
  AuthenticatedActor.request_id actor = request_id_from_headers request_uuid headers →
  Conn.session c
  = ResponsesWebSocketSession.new (request_id_middleware request_uuid trace_uuid headers) actor →
  let id := request_id_from_headers request_uuid headers in
  let c' := run config postgres inputs c in
  (∀ b, b ∈ bills_of c' → b ∈ bills_of c ∨ UsageEventRecord.request_id b = id)
  ∧ ∀ tenant, under tenant id (bills_of c') ≤ Nat.max 1 (under tenant id (bills_of c)).
Proof.
  intros Hs Ha Hc id c'. destruct (run_effect inputs c) as (_ & _ & Hn & _). apply Hn.
  split; rewrite Hc; [|exact Ha]. intros uuid. by apply middleware_fixes_request_id.
Qed.
End sessions.
