(* ===== verification/SessionScenarios.v ===== *)
(** * Concrete runs of WebSocket sessions and of the Redis backend

    The tenant of the model requests, reached over a WebSocket: a session of two turns
    against a provider that streams its answer, and a tenant that allows no streams at
    all.  Then a Redis server, an encoding of records and a scripting engine to run the
    backend on; what a failed command means to a budget; and what two gateways that
    share a server do to one lease. *)

From Stdlib Require Import Ascii.
From S2P Require Import Prelude Order Text Domain Action HotState Routing Catalog Grants RoutePlan.
From S2P Require Import Json Usage Pricing PolicyStore RuntimePolicy PolicyFacts Outbox Delivery.
From S2P Require Import Terminal Auth CedarPolicy Publication GwRoute AdminRecords DraftCatalog.
From S2P Require Import AdminState Provider GwRequest Ingress IngressFacts IngressScenarios.
From S2P Require Import WebSocket WebSocketFacts.
From S2P Require Import Redis RedisFacts.
Import (hints) IngressSample.

Module SessionSample.
#[local] Open Scope Z_scope.

(** The frames of the sample: two requests of the client, two events of the provider. *)
#[export] Instance frames : JsonParse Tree.t := λ s,
  if s ==? "create" then
    Ok (Tree.Obj [("type", Tree.Str "response.create"); ("model", Tree.Str "fast")])
  else if s ==? "create other" then
    Ok (Tree.Obj [("type", Tree.Str "response.create"); ("model", Tree.Str "slow")])
  else if s ==? "delta" then Ok (Tree.Obj [("type", Tree.Str "response.output_text.delta")])
  else if s ==? "completed" then
    Ok (Tree.Obj [("type", Tree.Str "response.completed"); ("response", IngressSample.told)])
  else Err "expected value".

Definition key : ApiKeyRecord.t :=
  ApiKeyRecord.mk "ak_1" "ten" (Some "org") (Some "proj") "user1" "ci" "swg_abababababab"
    ("h:" +:+ generate_raw_key AuthSample.bytes) 1 ApiKeyStatus.Active [] [] None None None "user1" 5 5.
Definition headers : HeaderMap := λ name,
  if name ==? "authorization" then Some ("Bearer " +:+ generate_raw_key AuthSample.bytes) else None.

(** The durable store of the model requests, with the key. *)
Definition postgres : option (PostgresGatewayStore.t Tree.t) :=
  Some (PostgresGatewayStore.mk (λ _, Ok None) (λ _ _, Ok None) (λ _, Ok [key]) (λ _, Ok tt)
    (λ _, Ok (Some (PublishedConfigSnapshot.metadata IngressSample.snapshot)))
    (λ _, Ok (Some IngressSample.snapshot)) (λ _, Ok tt) (λ _, Ok tt) (λ _, Ok tt)).

(** A tenant that allows [limit] streams at a time. *)
Definition streams (limit : Z) : QuotaPolicyRecord.t :=
  QuotaPolicyRecord.mk "qp3" "ten" "tenant" "ten" None None "concurrent_stream" limit None
    "stream_lifetime" "stream_start" "fail_closed" ResourceStatus.Active 1 1 "admin" 0 0.

Definition gateway (limit : Z) : GatewayState.t Tree.t InMemoryPolicyStore.t :=
  let g := IngressSample.active in
  GatewayState.mk (GatewayState.store g) (GatewayState.auth g) {["qp3" := streams limit]}
    (GatewayState.secret_values g) (GatewayState.read_to_string g) (GatewayState.usage g)
    (GatewayState.policy g) (GatewayState.outbox g) [] [].

Definition actor : AuthenticatedActor.t := AuthenticatedActor.for_api_key key "req_1" "tr_1".
Definition start (limit : Z) : Conn.t Tree.t InMemoryPolicyStore.t :=
  Conn.mk (gateway limit)
    (ResponsesWebSocketSession.new (request_id_middleware "1" "1" headers) actor)
    (replicate 9 true) [].

(** The turn number [n], with ids of its own. *)
Definition script (n : string) : TurnScript.t :=
  TurnScript.mk n n 10
    (IngressDraws.mk n n (λ k, PreflightSample.uuid k +:+ n) n n n (λ k, k +:+ n))
    IngressSample.clock ConnectOutcome.Connected true
    [TurnEvent.Upstream (UpstreamFrame.Text "delta");
     TurnEvent.Downstream (Some (Some (Message.Ping "p")));
     TurnEvent.Upstream (UpstreamFrame.Text "completed")].
Definition turn (frame n : string) : SessionInput :=
  (true, Some (Some (Some (Message.Text frame))), script n).

(** Two turns, and between them a frame for another model. *)
Definition inputs : list SessionInput :=
  [turn "create" "1"; turn "create other" "2"; turn "create" "3"].
Definition ended (limit : Z) : Conn.t Tree.t InMemoryPolicyStore.t :=
  run IngressSample.config postgres inputs (start limit).
End SessionSample.
Import (hints) SessionSample.

(** The client gets both answers as the provider streamed them, an answer to its
    pings, and one error, for the frame that asks for another model; both turns are
    completed attempts of one route decision. *)
Example two_turns_relayed :
  let c := SessionSample.ended 1 in
  Conn.sent c
  = [Sent.Text "delta"; Sent.Pong "p"; Sent.Text "completed";
     error_sent "model_switch_not_supported"
       "Responses WebSocket connection is pinned to the first model alias. Open a new WebSocket connection to use another model.";
     Sent.Text "delta"; Sent.Pong "p"; Sent.Text "completed"]
  ∧ (λ a, (RouteAttemptRecord.status a, RouteAttemptRecord.route_decision_id a)) <$> attempts_of c
    = [(RouteAttemptStatus.Completed, "rd_1"); (RouteAttemptStatus.Completed, "rd_1")].
Proof. by vm_compute. Qed.

(** Both turns ran to their end, with ids of their own, and one is booked: the
    second carries the request id of the connection and counts as a repetition. *)
Example second_turn_not_booked :
  let c := SessionSample.ended 1 in
  completed_count (attempts_of c) = 2
  ∧ UsageEventRecord.request_id <$> bills_of c = ["req_1"].
Proof. by vm_compute. Qed.

Lemma session_books_one_usage_event_witness :
  under "ten" "req_1" (bills_of (SessionSample.ended 1)) ≤ 1.
Proof.
  destruct (session_books_one_usage_event IngressSample.config SessionSample.postgres
    SessionSample.headers "1" "1" SessionSample.actor SessionSample.inputs (SessionSample.start 1)
    eq_refl eq_refl eq_refl) as [_ Hone].
  exact (Hone "ten").
Defined.

(** A tenant that allows no stream: a request that streams is refused, a turn that
    streams over a WebSocket is admitted as if it did not. *)
Example websocket_turn_escapes_stream_quota :
  (enforce_runtime_policy_preflight (GatewayState.policy_data (SessionSample.gateway 0))
     PreflightSample.uuid 6 SessionSample.actor
     (GatewayReplayCase.mk "openai_chat_stream" ProtocolFamily.OpenAiChat Method.POST
        "/v1/chat/completions" GatewayAction.ModelStream true false)
     None 10 6 InMemoryPolicyStore.empty).1
  = Err (GatewayError.QuotaExceeded "concurrent_stream_limit_reached")
  ∧ RouteAttemptRecord.status <$> attempts_of (SessionSample.ended 0)
    = [RouteAttemptStatus.Completed; RouteAttemptStatus.Completed].
Proof. by vm_compute. Qed.

Module RedisSample.
#[local] Open Scope Z_scope.

(** Records as their binary code. *)
Fixpoint bits (p : positive) : string :=
  match p with
  | xH => EmptyString
  | xO p => String "0" (bits p)
  | xI p => String "1" (bits p)
  end.
Fixpoint of_bits (s : string) : positive :=
  match s with
  | EmptyString => xH
  | String c s => if bool_decide (c = "1"%char) then xI (of_bits s) else xO (of_bits s)
  end.
Lemma of_bits_bits p : of_bits (bits p) = p.
Proof. induction p as [p IH|p IH|]; simpl; by rewrite ?IH. Qed.

#[export] Instance lease_eq_dec : EqDecision RuntimeBudgetLeaseRecord.t.
Proof. solve_decision. Defined.
#[export] Instance drain_eq_dec : EqDecision EndpointDrainRecord.t.
Proof. solve_decision. Defined.
#[export] Instance lease_countable : Countable RuntimeBudgetLeaseRecord.t :=
  inj_countable'
    (λ l, (RuntimeBudgetLeaseRecord.lease_id l, RuntimeBudgetLeaseRecord.tenant_id l,
           RuntimeBudgetLeaseRecord.budget_policy_id l, RuntimeBudgetLeaseRecord.counter_key l,
           RuntimeBudgetLeaseRecord.request_id l, RuntimeBudgetLeaseRecord.amount l,
           RuntimeBudgetLeaseRecord.status l, RuntimeBudgetLeaseRecord.expires_at l,
           RuntimeBudgetLeaseRecord.created_at l, RuntimeBudgetLeaseRecord.updated_at l))
    (λ '(a, b, c, d, e, f, g, h, i, j), RuntimeBudgetLeaseRecord.mk a b c d e f g h i j)
    (λ l, match l with RuntimeBudgetLeaseRecord.mk _ _ _ _ _ _ _ _ _ _ => eq_refl end).
#[export] Instance drain_countable : Countable EndpointDrainRecord.t :=
  inj_countable'
    (λ r, (EndpointDrainRecord.tenant_id r, EndpointDrainRecord.provider_endpoint_id r,
           EndpointDrainRecord.config_version r, EndpointDrainRecord.reason r,
           EndpointDrainRecord.created_at r, EndpointDrainRecord.expires_at r))
    (λ '(a, b, c, d, e, f), EndpointDrainRecord.mk a b c d e f)
    (λ r, match r with EndpointDrainRecord.mk _ _ _ _ _ _ => eq_refl end).

#[export] Instance serde {T} `{Countable T} : SerdeJson T := {
  to_string record := Ok (bits (encode record));
  from_str text := ok_or (countable.decode (of_bits text)) "invalid record";
}.
#[export] Instance serde_laws {T} `{Countable T} : SerdeJsonLaws T.
Proof.
  split; [by eexists|]. intros record text [= <-]. simpl. by rewrite of_bits_bits, decode_encode.
Qed.

(** An engine that writes numbers out in full. *)
#[export] Instance scripting : RedisScripting := {
  lua_tonumber _ := None;
  lua_tostring z := RedisValue.Int z;
  lua_reply z := z;
}.
#[export] Instance scripting_laws : RedisScriptingLaws.
Proof. by split. Qed.

Definition server : RedisServer.t := RedisServer.mk 0 ∅.
Definition fresh (deliveries : list Delivery.t) : RedisRuntimePolicyRepository.t :=
  RedisRuntimePolicyRepository.opened server deliveries.

Definition lease (id : string) (expires_at : DateTime) : RuntimeBudgetLeaseRecord.t :=
  RuntimeBudgetLeaseRecord.mk id "ten" "bp1" "counter" "req1" 1 "reserved" expires_at 1 1.
Definition drain : EndpointDrainRecord.t :=
  EndpointDrainRecord.mk "ten" "ep1" 7 "maintenance" 0 2500000000.

(** A day in the life of a repository. *)
Definition calls : list RepositoryCall.t :=
  [RepositoryCall.Increment "rate" 1 2; RepositoryCall.Increment "rate" 2 2;
   RepositoryCall.Counter "rate"; RepositoryCall.Adjust "slots" 3; RepositoryCall.Adjust "slots" (-5);
   RepositoryCall.IncrementAllowance "loss" 1 1; RepositoryCall.Allowance "loss";
   RepositoryCall.RecordLease (lease "b" 10); RepositoryCall.RecordLease (lease "a" 20);
   RepositoryCall.Leases "ten"; RepositoryCall.ReleaseLease "b" 5; RepositoryCall.ReleaseLease "b" 6;
   RepositoryCall.ExpireLeases "ten" 30; RepositoryCall.Leases "ten"; RepositoryCall.Available].
End RedisSample.
Import (hints) RedisSample.

Lemma redis_answers_like_memory_witness :
  (perform_all RedisSample.calls (RedisSample.fresh [])).1
  = (perform_all RedisSample.calls InMemoryPolicyStore.empty).1.
Proof.
  assert (all_fit InMemoryPolicyStore.empty RedisSample.calls = true) as Hf
    by (vm_compute; reflexivity).
  destruct (redis_answers_like_memory RedisSample.calls InMemoryPolicyStore.empty
    (RedisSample.fresh []) (fresh_stands_for (Ok tt) (Some (Ok tt)) 0 _ eq_refl) Hf) as [Ha _].
  exact Ha.
Defined.

(** Three increments of two on a limit of five, the second answered by nobody: the
    first is allowed, the second counts without being allowed, the third is refused. *)
Lemma redis_quota_never_over_admits_witness :
  let s := RedisSample.fresh [Delivery.Answered; Delivery.AnswerLost; Delivery.Answered] in
  let total := admitted_total "rate" (replicate 3 ("rate", 2%Z, 5%Z)) s in
  total = 2%Z ∧ (total = 0%Z ∨ (0 + total ≤ 5)%Z).
Proof.
  split; [vm_compute; reflexivity|].
  apply (redis_quota_never_over_admits "rate" 5 (replicate 3 ("rate", 2%Z, 5%Z))
    (RedisSample.fresh [Delivery.Answered; Delivery.AnswerLost; Delivery.Answered])).
  repeat constructor; lia.
Defined.

Lemma redis_drain_honoured_witness :
  (RedisRuntimePolicyRepository.endpoint_is_drained "ten" "ep1" (Some 7%Z) 1500000000
     (later 1500000000
        (RedisRuntimePolicyRepository.set_endpoint_drain 0 RedisSample.drain
           (answering RedisSample.server InMemoryPolicyStore.empty)).2)).1 = true.
Proof.
  apply (redis_drain_honoured RedisSample.server InMemoryPolicyStore.empty RedisSample.drain
    (Some 7%Z) 1500000000); [done|reflexivity|done].
Defined.

(** In its last second, and a drain of less than one, is not kept. *)
Example drain_lost_in_last_second :
  let drained now expires_at later_now :=
    (RedisRuntimePolicyRepository.endpoint_is_drained "ten" "ep1" (Some 7%Z) later_now
       (later later_now
          (RedisRuntimePolicyRepository.set_endpoint_drain now
             (EndpointDrainRecord.mk "ten" "ep1" 7 "maintenance" 0 expires_at)
             (answering RedisSample.server InMemoryPolicyStore.empty)).2)).1 in
  drained 0%Z 2500000000%Z 2100000000%Z = false ∧ drained 0%Z 900000000%Z 1%Z = false.
Proof. by vm_compute. Qed.

(** ** A reservation whose command fails *)

(** A budget is reserved by adjusting its counter, and an adjustment that fails reads
    as zero: the request is admitted whatever the counter holds, as long as the
    ledger alone is within the limit. *)
Theorem failed_reservation_admits uuid actor policy ledger limit now
    (s : RedisRuntimePolicyRepository.t) deliveries :
  RedisRuntimePolicyRepository.runtime_policy_hot_state_available s = true →
  RedisRuntimePolicyRepository.deliveries s = Delivery.NotSent :: deliveries →
  in_i64 ledger → (ledger ≤ limit)%Z →
  ∃ reservation s',
    reserve_runtime_request_budget uuid actor policy ledger limit now s = (Ok reservation, s').
Proof.
  intros Hav Hd Hi Hle. unfold reserve_runtime_request_budget, mbind, M_bind, gets, act. simpl.
  rewrite Hav. simpl. unfold RedisRuntimePolicyRepository.adjust_runtime_policy_counter,
    RedisRuntimePolicyRepository.settle at 1, RedisRuntimePolicyRepository.call at 1. rewrite Hd. simpl.
  rewrite (proj2 (Z.ltb_ge _ _)); last first.
  { unfold saturating_add, clamp_i64, in_i64 in *. lia. }
  destruct (RedisRuntimePolicyRepository.record_runtime_budget_lease _ _) as [[] s']. eauto.
Qed.

Module OutageSample.
#[local] Open Scope Z_scope.
Definition data : PolicyData.t Tree.t :=
  PolicyData.mk {["bp1" := PreflightSample.budget "bp1" 1]} ∅ ∅ (mk_usage_store [] ∅).
Definition preflight (s : RedisRuntimePolicyRepository.t) :=
  enforce_runtime_policy_preflight data PreflightSample.uuid 7 PreflightSample.actor
    PreflightSample.case None 10 5 s.
Definition key : string := runtime_budget_reservation_key (PreflightSample.budget "bp1" 1) 5.
(** The one request the budget allows is under way. *)
Definition full : RedisRuntimePolicyRepository.t :=
  (adjust_runtime_policy_counter key 1 (RedisSample.fresh [])).2.
End OutageSample.

(** A budget of one request that is taken: the next request is refused while the
    server answers, and admitted, with nothing reserved, when the one command that
    would count it is lost. *)
Example outage_admits_over_hard_limit :
  (OutageSample.preflight OutageSample.full).1
  = Err (GatewayError.BudgetExceeded "hard_limit_reserved")
  ∧ (let '(r, s') := OutageSample.preflight
       (RedisRuntimePolicyRepository.set_deliveries [Delivery.NotSent] OutageSample.full) in
     is_ok r = true
     ∧ stored_number OutageSample.key (RedisRuntimePolicyRepository.server s') = 1%Z).
Proof. by vm_compute. Qed.

(** ** Two gateways on one server *)

(** The release of a lease reads it and writes it back.  Two gateways, here the
    request that ends and the sweep of another replica, that both read the lease
    before either writes it both take it: each of them lowers the counter of the
    budget for the one reservation. *)
Example lease_ends_twice :
  let '(_, s0) := record_runtime_budget_lease (RedisSample.lease "a" 10) (RedisSample.fresh []) in
  let '(seen, s1) := RedisRuntimePolicyRepository.release_read "a" s0 in
  let '(expired, s2) := expire_runtime_budget_leases "ten" 30 s1 in
  let '(released, s3) := RedisRuntimePolicyRepository.release_write 30 seen s2 in
  length expired = 1
  ∧ RuntimeBudgetLeaseRecord.lease_id <$> released = Some "a"
  ∧ RuntimeBudgetLeaseRecord.status <$> released = Some "released".
Proof. by vm_compute. Qed.
