(* ===== verification/PolicyAdmin.v ===== *)
(** * Prices, budgets and quotas: the store and the dry runs

    Pricing SKUs, budget policies and quota policies: their requests, the checks and
    operations of the in-memory store of [storage.rs] and the dry-run validation of
    [service.rs], which checks the same requests with code of its own. *)

From Stdlib Require Import Ascii.
From S2P Require Import Prelude Order Text Domain Action HotState Routing Catalog Json Usage Pricing.
From S2P Require Import PolicyStore RuntimePolicy Reconciler Outbox Delivery Auth CedarPolicy.
From S2P Require Import Publication GwRoute AdminRecords DraftCatalog AdminState AdminValidation.
From S2P Require Import AdminHandlers Provider Ingress.

(** ** Requests *)

Module CreatePricingSkuRequest.
Record t {V : Type} : Type := mk {
  tenant_id : string;
  organization_id : option string;
  name : string;
  currency : string;
  unit_name : string;
  model_id_patterns : list string;
  provider_endpoint_patterns : list string;
  pricing_document : V;
  effective_from : DateTime;
  effective_until : option DateTime;
  is_preset : bool;
  created_by : string;
}.
Arguments t V : clear implicits.
Arguments mk {V}.
End CreatePricingSkuRequest.

Module CreateBudgetPolicyRequest.
Record t : Type := mk {
  tenant_id : string;
  scope_kind : string;
  scope_id : string;
  currency : option string;
  period : string;
  limit_kind : string;
  hard_limit : option Z;
  soft_limit : option Z;
  thresholds : list Z;
  reset_policy : string;
  overage_mode : string;
  consistency_mode : string;
  created_by : string;
}.
End CreateBudgetPolicyRequest.

Module CreateQuotaPolicyRequest.
Record t : Type := mk {
  tenant_id : string;
  scope_kind : string;
  scope_id : string;
  counter_kind : string;
  limit : Z;
  burst_limit : option Z;
  window : string;
  increment_source : string;
  loss_behavior : string;
  created_by : string;
}.
End CreateQuotaPolicyRequest.

Module AdminCreatePricingSkuRequest.
Record t {V : Type} : Type := mk {
  idempotency_key : string;
  organization_id : option string;
  name : string;
  currency : string;
  unit_name : string;
  model_id_patterns : list string;
  provider_endpoint_patterns : list string;
  pricing_document : V;
  effective_from : option DateTime;
  effective_until : option DateTime;
  is_preset : bool;
}.
Arguments t V : clear implicits.
Arguments mk {V}.
End AdminCreatePricingSkuRequest.

Module AdminCreateBudgetPolicyRequest.
Record t : Type := mk {
  idempotency_key : string;
  scope_kind : string;
  scope_id : string;
  currency : option string;
  period : string;
  limit_kind : string;
  hard_limit : option Z;
  soft_limit : option Z;
  thresholds : list Z;
  reset_policy : string;
  overage_mode : string;
  consistency_mode : string;
}.
End AdminCreateBudgetPolicyRequest.

Module AdminCreateQuotaPolicyRequest.
Record t : Type := mk {
  idempotency_key : string;
  scope_kind : string;
  scope_id : string;
  counter_kind : string;
  limit : Z;
  burst_limit : option Z;
  window : string;
  increment_source : string;
  loss_behavior : string;
}.
End AdminCreateQuotaPolicyRequest.

(** ** Changes of status *)

Definition pricing_sku_with_status {V} (r : PricingSkuRecord.t V) (status : ResourceStatus.t)
    (now : DateTime)
    : PricingSkuRecord.t V :=
  PricingSkuRecord.mk
    (PricingSkuRecord.pricing_sku_id r) (PricingSkuRecord.tenant_id r)
    (PricingSkuRecord.organization_id r) (PricingSkuRecord.name r) (PricingSkuRecord.currency r)
    (PricingSkuRecord.unit_name r) (PricingSkuRecord.model_id_patterns r)
    (PricingSkuRecord.provider_endpoint_patterns r) (PricingSkuRecord.pricing_document r)
    (PricingSkuRecord.pricing_version r) (PricingSkuRecord.effective_from r)
    (PricingSkuRecord.effective_until r) (PricingSkuRecord.is_preset r) status
    (wrap_i64 (PricingSkuRecord.resource_version r + 1)) (PricingSkuRecord.schema_version r)
    (PricingSkuRecord.created_by r) (PricingSkuRecord.created_at r) now.

Definition budget_policy_with_status (r : BudgetPolicyRecord.t) (status : ResourceStatus.t)
    (now : DateTime)
    : BudgetPolicyRecord.t :=
  BudgetPolicyRecord.mk
    (BudgetPolicyRecord.budget_policy_id r) (BudgetPolicyRecord.tenant_id r)
    (BudgetPolicyRecord.scope_kind r) (BudgetPolicyRecord.scope_id r)
    (BudgetPolicyRecord.organization_id r) (BudgetPolicyRecord.project_id r)
    (BudgetPolicyRecord.currency r) (BudgetPolicyRecord.period r)
    (BudgetPolicyRecord.limit_kind r) (BudgetPolicyRecord.hard_limit r)
    (BudgetPolicyRecord.soft_limit r) (BudgetPolicyRecord.thresholds r)
    (BudgetPolicyRecord.reset_policy r) (BudgetPolicyRecord.overage_mode r)
    (BudgetPolicyRecord.consistency_mode r) status
    (wrap_i64 (BudgetPolicyRecord.resource_version r + 1)) (BudgetPolicyRecord.schema_version r)
    (BudgetPolicyRecord.created_by r) (BudgetPolicyRecord.created_at r) now.

Definition quota_policy_with_status (r : QuotaPolicyRecord.t) (status : ResourceStatus.t)
    (now : DateTime)
    : QuotaPolicyRecord.t :=
  QuotaPolicyRecord.mk
    (QuotaPolicyRecord.quota_policy_id r) (QuotaPolicyRecord.tenant_id r)
    (QuotaPolicyRecord.scope_kind r) (QuotaPolicyRecord.scope_id r)
    (QuotaPolicyRecord.organization_id r) (QuotaPolicyRecord.project_id r)
    (QuotaPolicyRecord.counter_kind r) (QuotaPolicyRecord.limit r)
    (QuotaPolicyRecord.burst_limit r) (QuotaPolicyRecord.window r)
    (QuotaPolicyRecord.increment_source r) (QuotaPolicyRecord.loss_behavior r) status
    (wrap_i64 (QuotaPolicyRecord.resource_version r + 1)) (QuotaPolicyRecord.schema_version r)
    (QuotaPolicyRecord.created_by r) (QuotaPolicyRecord.created_at r) now.

(** ** The tables *)

Section tables.
Context {V S : Type}.
Abbreviation State := (GatewayState.t V S).
Implicit Types (s : State).

Definition draft_of s : DraftCatalog.t V := GatewayStore.draft (GatewayState.store s).
Definition pricing_skus_of s : gmap string (PricingSkuRecord.t V) :=
  DraftCatalog.pricing_skus (draft_of s).
Definition budget_policies_of s : gmap string BudgetPolicyRecord.t :=
  GatewayStore.budget_policies (GatewayState.store s).

Definition set_pricing_skus s (table : gmap string (PricingSkuRecord.t V)) : State :=
  let d := draft_of s in
  GatewayState.set_store s (GatewayStore.set_draft (GatewayState.store s)
    (DraftCatalog.mk (DraftCatalog.organizations d) (DraftCatalog.projects d)
       (DraftCatalog.secret_refs d) table (DraftCatalog.provider_endpoints d)
       (DraftCatalog.upstream_credentials d) (DraftCatalog.model_targets d)
       (DraftCatalog.routing_groups d) (DraftCatalog.routing_group_targets d)
       (DraftCatalog.model_aliases d) (DraftCatalog.route_policies d)
       (DraftCatalog.provider_grants d))).

Definition set_budget_policies s (table : gmap string BudgetPolicyRecord.t) : State :=
  let g := GatewayState.store s in
  GatewayState.set_store s
    (GatewayStore.mk (GatewayStore.draft g) (GatewayStore.config g) table
       (GatewayStore.action_grants g) (GatewayStore.authz_decisions g)
       (GatewayStore.audit_events g) (GatewayStore.validation_diagnostics g)
       (GatewayStore.idempotency_records g) (GatewayStore.emergency_operations g)
       (GatewayStore.hot_state g)).

Definition set_quota_policies s (table : gmap string QuotaPolicyRecord.t) : State :=
  GatewayState.mk (GatewayState.store s) (GatewayState.auth s) table (GatewayState.secret_values s)
    (GatewayState.read_to_string s) (GatewayState.usage s) (GatewayState.policy s)
    (GatewayState.outbox s) (GatewayState.route_decisions s) (GatewayState.route_attempts s).
End tables.

(** ** Checks of the store *)

Definition valid_currency_code (value : string) : bool :=
  (String.length value =? 3)%nat && all_chars is_ascii_uppercase value.

Definition is_one_of (value : string) (allowed : list string) : bool := bool_decide (value ∈ allowed).

Definition quota_counter_kinds : list string :=
  ["request_rate"; "token_estimate_rate"; "token_actual_rate"; "concurrent_request";
   "concurrent_stream"; "stream_duration"; "request_body_bytes"].

Definition quota_counter_scope_supported (counter_kind scope_kind : string) : bool :=
  if is_one_of counter_kind ["request_rate"; "token_estimate_rate"; "token_actual_rate"]
  then is_one_of scope_kind ["tenant"; "organization"; "project"; "credential"; "alias"]
  else if is_one_of counter_kind ["concurrent_request"; "concurrent_stream"]
  then is_one_of scope_kind ["tenant"; "organization"; "project"; "credential"]
  else if counter_kind ==? "stream_duration"
  then is_one_of scope_kind ["credential"; "alias"; "endpoint"]
  else if counter_kind ==? "request_body_bytes"
  then is_one_of scope_kind ["credential"; "alias"; "protocol_family"]
  else false.

Definition quota_counter_window_supported (counter_kind window : string) : bool :=
  if is_one_of counter_kind ["request_rate"; "token_estimate_rate"; "request_body_bytes"]
  then is_one_of window ["fixed"; "sliding"]
  else if counter_kind ==? "token_actual_rate" then is_one_of window ["fixed"; "ledger_bucket"]
  else if counter_kind ==? "concurrent_request" then window ==? "request_lifetime"
  else if counter_kind ==? "concurrent_stream" then window ==? "stream_lifetime"
  else if counter_kind ==? "stream_duration"
  then is_one_of window ["fixed"; "sliding"; "stream_lifetime"]
  else false.

Definition quota_counter_increment_source_supported (counter_kind increment_source : string) : bool :=
  if counter_kind ==? "request_rate" then increment_source ==? "accepted_preflight_request"
  else if counter_kind ==? "token_estimate_rate" then increment_source ==? "request_estimate"
  else if counter_kind ==? "token_actual_rate" then increment_source ==? "terminal_usage_event"
  else if counter_kind ==? "concurrent_request" then increment_source ==? "preflight_acquire"
  else if is_one_of counter_kind ["concurrent_stream"; "stream_duration"]
  then increment_source ==? "stream_start"
  else if counter_kind ==? "request_body_bytes" then increment_source ==? "request_body_bytes"
  else false.

Definition protocol_family_scope_exists (scope_id : string) : bool :=
  existsb (λ family, ProtocolFamily.as_str family ==? scope_id) ProtocolFamily.all.

(** The organization and the project a policy belongs to. *)
Abbreviation Scope := (option string * option string)%type.

Section checks.
Context {V S : Type} `{JsonLibrary V} `{!JsonShape V}.
Abbreviation State := (GatewayState.t V S).
Implicit Types (s : State) (d : DraftCatalog.t V).

Definition validate_pricing_document (document : V) (currency unit_name : string)
    : Result unit :=
  refuse_if (negb (value_is_object document)) (GatewayError.BadRequest "pricing_document_invalid");;
  refuse_if (get_str document "schema" !=? Some "gateway.pricing.v1")
    (GatewayError.BadRequest "pricing_document_schema_invalid");;
  refuse_if (get_str document "currency" !=? Some currency)
    (GatewayError.BadRequest "pricing_document_currency_mismatch");;
  refuse_if (get_str document "unit" !=? Some unit_name)
    (GatewayError.BadRequest "pricing_document_unit_mismatch");;
  refuse_if (negb (is_some (json_get document "tokens"))
             && negb (is_some (json_get document "flat_request_cost")))
    (GatewayError.BadRequest "pricing_document_missing_price_components").

Definition blank (value : string) : bool := trim value ==? "".

Definition no_patterns (patterns : list string) : bool :=
  match patterns with [] => true | _ => existsb blank patterns end.

Definition validate_pricing_sku_request (request : CreatePricingSkuRequest.t V) s
    : Result unit :=
  validate_optional_organization_scope (CreatePricingSkuRequest.tenant_id request)
    (CreatePricingSkuRequest.organization_id request) (draft_of s);;
  refuse_if (blank (CreatePricingSkuRequest.name request))
    (GatewayError.BadRequest "pricing_sku_name_required");;
  refuse_if (negb (valid_currency_code (CreatePricingSkuRequest.currency request)))
    (GatewayError.BadRequest "pricing_sku_currency_invalid");;
  refuse_if (CreatePricingSkuRequest.unit_name request !=? "micro_usd")
    (GatewayError.BadRequest "pricing_sku_unit_invalid");;
  refuse_if (no_patterns (CreatePricingSkuRequest.model_id_patterns request))
    (GatewayError.BadRequest "pricing_sku_model_patterns_required");;
  refuse_if (existsb blank (CreatePricingSkuRequest.provider_endpoint_patterns request))
    (GatewayError.BadRequest "pricing_sku_provider_patterns_invalid");;
  refuse_if (is_some_and (CreatePricingSkuRequest.effective_until request)
               (λ until, (until <=? CreatePricingSkuRequest.effective_from request)%Z))
    (GatewayError.BadRequest "pricing_sku_effective_window_invalid");;
  validate_pricing_document (CreatePricingSkuRequest.pricing_document request)
    (CreatePricingSkuRequest.currency request) (CreatePricingSkuRequest.unit_name request);;
  refuse_if (existsb (λ sku,
      (PricingSkuRecord.tenant_id sku ==? CreatePricingSkuRequest.tenant_id request)
      && (PricingSkuRecord.organization_id sku ==? CreatePricingSkuRequest.organization_id request)
      && (PricingSkuRecord.name sku ==? trim (CreatePricingSkuRequest.name request))
      && (PricingSkuRecord.status sku !=? ResourceStatus.Deleted)) (values (pricing_skus_of s)))
    (GatewayError.BadRequest "pricing_sku_name_conflict").

(** A scope given by a resource of the tenant. *)
Definition resource_scope {R} (mismatch noun : string) (table : gmap string R) (tenant : R → string)
    (scope : R → Scope) (tenant_id id : string) : Result Scope :=
  record ← ok_or (table !! id) (GatewayError.NotFound (noun +:+ " " +:+ id));
  refuse_if (tenant record !=? tenant_id) (GatewayError.Authorization mismatch);;
  Ok (scope record).

Section scopes.
Context (mismatch : string).
Definition organization_scope (tenant_id id : string) d : Result Scope :=
  resource_scope mismatch "organization" (DraftCatalog.organizations d) OrganizationRecord.tenant_id
    (λ r, (Some (OrganizationRecord.organization_id r), None)) tenant_id id.
Definition project_scope (tenant_id id : string) d : Result Scope :=
  resource_scope mismatch "project" (DraftCatalog.projects d) ProjectRecord.tenant_id
    (λ r, (Some (ProjectRecord.organization_id r), Some (ProjectRecord.project_id r))) tenant_id id.
Definition credential_scope (tenant_id id : string) d : Result Scope :=
  resource_scope mismatch "upstream credential" (DraftCatalog.upstream_credentials d)
    UpstreamCredentialRecord.tenant_id (λ r, (UpstreamCredentialRecord.organization_id r, None))
    tenant_id id.
Definition alias_scope (tenant_id id : string) d : Result Scope :=
  resource_scope mismatch "model alias" (DraftCatalog.model_aliases d) ModelAliasRecord.tenant_id
    (λ r, (ModelAliasRecord.organization_id r, ModelAliasRecord.project_id r)) tenant_id id.
Definition group_scope (tenant_id id : string) d : Result Scope :=
  resource_scope mismatch "routing group" (DraftCatalog.routing_groups d) RoutingGroupRecord.tenant_id
    (λ r, (RoutingGroupRecord.organization_id r, None)) tenant_id id.
Definition endpoint_scope (tenant_id id : string) d : Result Scope :=
  resource_scope mismatch "provider endpoint" (DraftCatalog.provider_endpoints d)
    ProviderEndpointRecord.tenant_id (λ r, (ProviderEndpointRecord.organization_id r, None))
    tenant_id id.
Definition target_scope (tenant_id id : string) d : Result Scope :=
  resource_scope mismatch "model target" (DraftCatalog.model_targets d) ModelTargetRecord.tenant_id
    (λ r, (ModelTargetRecord.organization_id r, None)) tenant_id id.
End scopes.

Definition validate_budget_policy_scope (tenant_id : string) (request : CreateBudgetPolicyRequest.t) d
    : Result Scope :=
  let kind := CreateBudgetPolicyRequest.scope_kind request in
  let id := CreateBudgetPolicyRequest.scope_id request in
  let mismatch := "budget_scope_tenant_mismatch" in
  if kind ==? "tenant" then
    if id ==? tenant_id then Ok (None, None) else Err (GatewayError.Authorization mismatch)
  else if kind ==? "organization" then organization_scope mismatch tenant_id id d
  else if kind ==? "project" then project_scope mismatch tenant_id id d
  else if kind ==? "credential" then credential_scope mismatch tenant_id id d
  else if kind ==? "alias" then alias_scope mismatch tenant_id id d
  else if kind ==? "group" then group_scope mismatch tenant_id id d
  else if kind ==? "endpoint" then endpoint_scope mismatch tenant_id id d
  else if kind ==? "target" then target_scope mismatch tenant_id id d
  else Err (GatewayError.BadRequest "budget_policy_scope_kind_invalid").

Definition budget_periods : list string :=
  ["rolling"; "calendar_day"; "calendar_month"; "lifetime"; "custom_window"].
Definition budget_limit_kinds : list string :=
  ["cost"; "tokens"; "requests"; "concurrency"; "stream_seconds"].
Definition budget_overage_modes : list string :=
  ["notify_only"; "block_new_requests"; "prefer_low_cost_route"; "fallback_low_cost_route";
   "require_exact_usage"].
Definition budget_consistency_modes : list string := ["eventual"; "strong_terminal"; "manual_review"].

Definition validate_budget_policy_enums (request : CreateBudgetPolicyRequest.t) : Result unit :=
  refuse_if (negb (is_one_of (CreateBudgetPolicyRequest.period request) budget_periods))
    (GatewayError.BadRequest "budget_policy_period_invalid");;
  refuse_if (negb (is_one_of (CreateBudgetPolicyRequest.limit_kind request) budget_limit_kinds))
    (GatewayError.BadRequest "budget_policy_limit_kind_invalid");;
  refuse_if (negb (is_one_of (CreateBudgetPolicyRequest.overage_mode request) budget_overage_modes))
    (GatewayError.BadRequest "budget_policy_overage_mode_invalid");;
  refuse_if (negb (is_one_of (CreateBudgetPolicyRequest.consistency_mode request)
                     budget_consistency_modes))
    (GatewayError.BadRequest "budget_policy_consistency_mode_invalid");;
  refuse_if (blank (CreateBudgetPolicyRequest.reset_policy request))
    (GatewayError.BadRequest "budget_policy_reset_policy_required").

(** [Some(limit)] that is not positive. *)
Definition not_positive (limit : option Z) : bool := is_some_and limit (λ limit, (limit <=? 0)%Z).
Definition no_limits (hard_limit soft_limit : option Z) (thresholds : list Z) : bool :=
  negb (is_some hard_limit) && negb (is_some soft_limit)
  && match thresholds with [] => true | _ => false end.
Definition limits_not_positive (hard_limit soft_limit : option Z) (thresholds : list Z) : bool :=
  not_positive hard_limit || not_positive soft_limit
  || existsb (λ threshold, (threshold <=? 0)%Z) thresholds.
Definition soft_exceeds_hard (hard_limit soft_limit : option Z) : bool :=
  match soft_limit, hard_limit with
  | Some soft_limit, Some hard_limit => (hard_limit <? soft_limit)%Z
  | _, _ => false
  end.
Definition hard_limit_only_notifies (hard_limit : option Z) (overage_mode consistency_mode : string)
    : bool :=
  is_some hard_limit && (overage_mode ==? "notify_only") && (consistency_mode !=? "manual_review").

Definition validate_budget_policy_limits (request : CreateBudgetPolicyRequest.t) : Result unit :=
  let hard_limit := CreateBudgetPolicyRequest.hard_limit request in
  let soft_limit := CreateBudgetPolicyRequest.soft_limit request in
  let thresholds := CreateBudgetPolicyRequest.thresholds request in
  (if CreateBudgetPolicyRequest.limit_kind request ==? "cost" then
     match CreateBudgetPolicyRequest.currency request with
     | None => Err (GatewayError.BadRequest "budget_policy_currency_required")
     | Some currency =>
         refuse_if (negb (valid_currency_code currency))
           (GatewayError.BadRequest "budget_policy_currency_invalid")
     end
   else refuse_if (is_some (CreateBudgetPolicyRequest.currency request))
          (GatewayError.BadRequest "budget_policy_currency_for_non_cost"));;
  refuse_if (no_limits hard_limit soft_limit thresholds)
    (GatewayError.BadRequest "budget_policy_limit_required");;
  refuse_if (limits_not_positive hard_limit soft_limit thresholds)
    (GatewayError.BadRequest "budget_policy_limit_positive_required");;
  refuse_if (soft_exceeds_hard hard_limit soft_limit)
    (GatewayError.BadRequest "budget_policy_soft_limit_exceeds_hard_limit");;
  refuse_if (hard_limit_only_notifies hard_limit (CreateBudgetPolicyRequest.overage_mode request)
               (CreateBudgetPolicyRequest.consistency_mode request))
    (GatewayError.BadRequest "budget_policy_hard_limit_notify_only_invalid").

Definition validate_budget_policy_request (request : CreateBudgetPolicyRequest.t) s : Result Scope :=
  scope ← validate_budget_policy_scope (CreateBudgetPolicyRequest.tenant_id request) request
            (draft_of s);
  validate_budget_policy_enums request;;
  validate_budget_policy_limits request;;
  refuse_if (existsb (λ policy,
      (BudgetPolicyRecord.tenant_id policy ==? CreateBudgetPolicyRequest.tenant_id request)
      && (BudgetPolicyRecord.scope_kind policy ==? CreateBudgetPolicyRequest.scope_kind request)
      && (BudgetPolicyRecord.scope_id policy ==? CreateBudgetPolicyRequest.scope_id request)
      && (BudgetPolicyRecord.limit_kind policy ==? CreateBudgetPolicyRequest.limit_kind request)
      && (BudgetPolicyRecord.period policy ==? CreateBudgetPolicyRequest.period request)
      && (BudgetPolicyRecord.status policy !=? ResourceStatus.Deleted)) (values (budget_policies_of s)))
    (GatewayError.BadRequest "budget_policy_conflict");;
  Ok scope.

Definition quota_protocol_family_scope (scope_id : string) : Result Scope :=
  if protocol_family_scope_exists scope_id then Ok (None, None)
  else Err (GatewayError.BadRequest "quota_policy_protocol_family_invalid").

Definition validate_quota_policy_scope (tenant_id : string) (request : CreateQuotaPolicyRequest.t) d
    : Result Scope :=
  let kind := CreateQuotaPolicyRequest.scope_kind request in
  let id := CreateQuotaPolicyRequest.scope_id request in
  let mismatch := "quota_scope_tenant_mismatch" in
  if kind ==? "tenant" then
    if id ==? tenant_id then Ok (None, None) else Err (GatewayError.Authorization mismatch)
  else if kind ==? "organization" then organization_scope mismatch tenant_id id d
  else if kind ==? "project" then project_scope mismatch tenant_id id d
  else if kind ==? "credential" then credential_scope mismatch tenant_id id d
  else if kind ==? "alias" then alias_scope mismatch tenant_id id d
  else if kind ==? "endpoint" then endpoint_scope mismatch tenant_id id d
  else if kind ==? "protocol_family" then quota_protocol_family_scope id
  else Err (GatewayError.BadRequest "quota_policy_scope_kind_invalid").

Definition quota_loss_behaviors : list string := ["fail_open"; "fail_limited"; "fail_closed"].

Definition validate_quota_policy_shape (request : CreateQuotaPolicyRequest.t) : Result unit :=
  let counter_kind := CreateQuotaPolicyRequest.counter_kind request in
  refuse_if (negb (is_one_of counter_kind quota_counter_kinds))
    (GatewayError.BadRequest "quota_policy_counter_kind_invalid");;
  refuse_if (CreateQuotaPolicyRequest.limit request <=? 0)%Z
    (GatewayError.BadRequest "quota_policy_limit_positive_required");;
  refuse_if (not_positive (CreateQuotaPolicyRequest.burst_limit request))
    (GatewayError.BadRequest "quota_policy_burst_limit_positive_required");;
  refuse_if (negb (is_one_of (CreateQuotaPolicyRequest.loss_behavior request) quota_loss_behaviors))
    (GatewayError.BadRequest "quota_policy_loss_behavior_invalid");;
  refuse_if ((CreateQuotaPolicyRequest.loss_behavior request ==? "fail_limited")
             && negb (is_some (CreateQuotaPolicyRequest.burst_limit request)))
    (GatewayError.BadRequest "quota_policy_fail_limited_burst_required");;
  refuse_if (negb (quota_counter_scope_supported counter_kind
                     (CreateQuotaPolicyRequest.scope_kind request)))
    (GatewayError.BadRequest "quota_policy_counter_scope_invalid");;
  refuse_if (negb (quota_counter_window_supported counter_kind
                     (CreateQuotaPolicyRequest.window request)))
    (GatewayError.BadRequest "quota_policy_window_invalid");;
  refuse_if (negb (quota_counter_increment_source_supported counter_kind
                     (CreateQuotaPolicyRequest.increment_source request)))
    (GatewayError.BadRequest "quota_policy_increment_source_invalid").

Definition validate_quota_policy_request (request : CreateQuotaPolicyRequest.t) s : Result Scope :=
  scope ← validate_quota_policy_scope (CreateQuotaPolicyRequest.tenant_id request) request
            (draft_of s);
  validate_quota_policy_shape request;;
  refuse_if (existsb (λ policy,
      (QuotaPolicyRecord.tenant_id policy ==? CreateQuotaPolicyRequest.tenant_id request)
      && (QuotaPolicyRecord.scope_kind policy ==? CreateQuotaPolicyRequest.scope_kind request)
      && (QuotaPolicyRecord.scope_id policy ==? CreateQuotaPolicyRequest.scope_id request)
      && (QuotaPolicyRecord.counter_kind policy ==? CreateQuotaPolicyRequest.counter_kind request)
      && (QuotaPolicyRecord.window policy ==? CreateQuotaPolicyRequest.window request)
      && (QuotaPolicyRecord.status policy !=? ResourceStatus.Deleted))
      (values (GatewayState.quota_policies s)))
    (GatewayError.BadRequest "quota_policy_conflict");;
  Ok scope.
End checks.

(** ** Operations of the store *)

Section operations.
Context {V S : Type} `{JsonLibrary V} `{!JsonShape V}.
Abbreviation State := (GatewayState.t V S).
Abbreviation Eff := (M State GatewayError.t).

(** Update one table of the state. *)
Definition on_policies {R A} (get : State → gmap string R) (set : State → gmap string R → State)
    (op : gmap string R → Result (A * gmap string R)) : Eff A := λ s,
  match op (get s) with
  | Ok (a, table) => (Ok a, set s table)
  | Err e => (Err e, s)
  end.

Definition create_pricing_sku (uuid : string) (request : CreatePricingSkuRequest.t V)
    (now : DateTime) : Eff (PricingSkuRecord.t V) := λ s,
  match validate_pricing_sku_request request s with
  | Err e => (Err e, s)
  | Ok _ =>
      let record := PricingSkuRecord.mk (new_prefixed_id "sku" uuid)
        (CreatePricingSkuRequest.tenant_id request)
        (CreatePricingSkuRequest.organization_id request)
        (trim (CreatePricingSkuRequest.name request)) (CreatePricingSkuRequest.currency request)
        (CreatePricingSkuRequest.unit_name request)
        (CreatePricingSkuRequest.model_id_patterns request)
        (CreatePricingSkuRequest.provider_endpoint_patterns request)
        (CreatePricingSkuRequest.pricing_document request) 1
        (CreatePricingSkuRequest.effective_from request)
        (CreatePricingSkuRequest.effective_until request)
        (CreatePricingSkuRequest.is_preset request) ResourceStatus.Active 1 1
        (CreatePricingSkuRequest.created_by request) now now in
      (Ok record, set_pricing_skus s
         (<[PricingSkuRecord.pricing_sku_id record := record]> (pricing_skus_of s)))
  end.

Definition update_pricing_sku_status (id : string) (expected : Z) (status : ResourceStatus.t)
    (now : DateTime) : Eff (PricingSkuRecord.t V) :=
  on_policies pricing_skus_of set_pricing_skus
    (update_versioned "pricing SKU" PricingSkuRecord.resource_version
       (λ r, pricing_sku_with_status r status now) id expected).

Definition create_budget_policy (uuid : string) (request : CreateBudgetPolicyRequest.t) (now : DateTime)
    : Eff BudgetPolicyRecord.t := λ s,
  match validate_budget_policy_request request s with
  | Err e => (Err e, s)
  | Ok (organization_id, project_id) =>
      let record := BudgetPolicyRecord.mk (new_prefixed_id "bp" uuid)
        (CreateBudgetPolicyRequest.tenant_id request)
        (CreateBudgetPolicyRequest.scope_kind request)
        (CreateBudgetPolicyRequest.scope_id request) organization_id project_id
        (CreateBudgetPolicyRequest.currency request) (CreateBudgetPolicyRequest.period request)
        (CreateBudgetPolicyRequest.limit_kind request)
        (CreateBudgetPolicyRequest.hard_limit request)
        (CreateBudgetPolicyRequest.soft_limit request)
        (CreateBudgetPolicyRequest.thresholds request)
        (CreateBudgetPolicyRequest.reset_policy request)
        (CreateBudgetPolicyRequest.overage_mode request)
        (CreateBudgetPolicyRequest.consistency_mode request) ResourceStatus.Active 1 1
        (CreateBudgetPolicyRequest.created_by request) now now in
      (Ok record, set_budget_policies s
         (<[BudgetPolicyRecord.budget_policy_id record := record]> (budget_policies_of s)))
  end.

Definition update_budget_policy_status (id : string) (expected : Z) (status : ResourceStatus.t)
    (now : DateTime) : Eff BudgetPolicyRecord.t :=
  on_policies budget_policies_of set_budget_policies
    (update_versioned "budget policy" BudgetPolicyRecord.resource_version
       (λ r, budget_policy_with_status r status now) id expected).

Definition create_quota_policy (uuid : string) (request : CreateQuotaPolicyRequest.t) (now : DateTime)
    : Eff QuotaPolicyRecord.t := λ s,
  match validate_quota_policy_request request s with
  | Err e => (Err e, s)
  | Ok (organization_id, project_id) =>
      let record := QuotaPolicyRecord.mk (new_prefixed_id "qp" uuid)
        (CreateQuotaPolicyRequest.tenant_id request) (CreateQuotaPolicyRequest.scope_kind request)
        (CreateQuotaPolicyRequest.scope_id request) organization_id project_id
        (CreateQuotaPolicyRequest.counter_kind request) (CreateQuotaPolicyRequest.limit request)
        (CreateQuotaPolicyRequest.burst_limit request) (CreateQuotaPolicyRequest.window request)
        (CreateQuotaPolicyRequest.increment_source request)
        (CreateQuotaPolicyRequest.loss_behavior request) ResourceStatus.Active 1 1
        (CreateQuotaPolicyRequest.created_by request) now now in
      (Ok record, set_quota_policies s
         (<[QuotaPolicyRecord.quota_policy_id record := record]> (GatewayState.quota_policies s)))
  end.

Definition update_quota_policy_status (id : string) (expected : Z) (status : ResourceStatus.t)
    (now : DateTime) : Eff QuotaPolicyRecord.t :=
  on_policies GatewayState.quota_policies set_quota_policies
    (update_versioned "quota policy" QuotaPolicyRecord.resource_version
       (λ r, quota_policy_with_status r status now) id expected).

End operations.

(** ** Dry-run validation *)

Section validation.
Context {V S : Type} `{JsonLibrary V} `{!JsonShape V}.
Abbreviation State := (GatewayState.t V S).
Implicit Types (s : State) (d : DraftCatalog.t V) (actor : AuthenticatedActor.t).

Definition pricing_document_validation_errors (document : V) (currency unit_name : string) : list V :=
  if negb (value_is_object document) then [validation_error "pricing_document" "invalid_document"]
  else
    push_if (get_str document "schema" !=? Some "gateway.pricing.v1") "pricing_document.schema"
      "invalid_schema"
    ++ push_if (get_str document "currency" !=? Some currency) "pricing_document.currency"
         "currency_mismatch"
    ++ push_if (get_str document "unit" !=? Some unit_name) "pricing_document.unit" "unit_mismatch"
    ++ push_if (negb (is_some (json_get document "tokens"))
                && negb (is_some (json_get document "flat_request_cost")))
         "pricing_document" "missing_price_components".

Definition pricing_sku_validation_errors actor (request : AdminCreatePricingSkuRequest.t V)
    (now : DateTime) s : list V :=
  let effective_from := default now (AdminCreatePricingSkuRequest.effective_from request) in
  push_if (blank (AdminCreatePricingSkuRequest.name request)) "name" "required"
  ++ push_if (negb (valid_currency_code (AdminCreatePricingSkuRequest.currency request))) "currency"
       "invalid_currency"
  ++ push_if (AdminCreatePricingSkuRequest.unit_name request !=? "micro_usd") "unit" "invalid_unit"
  ++ push_if (no_patterns (AdminCreatePricingSkuRequest.model_id_patterns request))
       "model_id_patterns" "required"
  ++ push_if (existsb blank (AdminCreatePricingSkuRequest.provider_endpoint_patterns request))
       "provider_endpoint_patterns" "empty_pattern"
  ++ push_if (is_some_and (AdminCreatePricingSkuRequest.effective_until request)
                (λ until, (until <=? effective_from)%Z)) "effective_until" "invalid_window"
  ++ pricing_document_validation_errors (AdminCreatePricingSkuRequest.pricing_document request)
       (AdminCreatePricingSkuRequest.currency request)
       (AdminCreatePricingSkuRequest.unit_name request)
  ++ unknown_organization actor (AdminCreatePricingSkuRequest.organization_id request) (draft_of s)
  ++ push_if (existsb (λ sku,
         (PricingSkuRecord.organization_id sku
          ==? AdminCreatePricingSkuRequest.organization_id request)
         && (PricingSkuRecord.name sku ==? trim (AdminCreatePricingSkuRequest.name request))
         && (PricingSkuRecord.status sku !=? ResourceStatus.Deleted))
         (pricing_skus_for_tenant (pricing_skus_of s) (AuthenticatedActor.tenant_id actor))) "name" "duplicate_name".

(** [is_none_or(|resource| resource.tenant_id != actor.tenant_id)]. *)
Definition foreign {R} (table : gmap string R) (tenant : R → string) actor (id : string) : bool :=
  match table !! id with
  | Some r => tenant r !=? AuthenticatedActor.tenant_id actor
  | None => true
  end.

Definition tenant_scope_errors actor (scope_id : string) : list V :=
  push_if (scope_id !=? AuthenticatedActor.tenant_id actor) "scope_id" "tenant_mismatch".
Definition organization_scope_errors actor (scope_id : string) d : list V :=
  push_if (negb (is_ok (organization_for_actor actor scope_id d))) "scope_id" "unknown_organization".
Definition project_scope_errors actor (scope_id : string) d : list V :=
  push_if (negb (is_ok (project_for_actor actor scope_id d))) "scope_id" "unknown_project".
Definition credential_scope_errors actor (scope_id : string) d : list V :=
  push_if (foreign (DraftCatalog.upstream_credentials d) UpstreamCredentialRecord.tenant_id actor
             scope_id) "scope_id" "unknown_credential".
Definition alias_scope_errors actor (scope_id : string) d : list V :=
  push_if (foreign (DraftCatalog.model_aliases d) ModelAliasRecord.tenant_id actor scope_id)
    "scope_id" "unknown_alias".
Definition endpoint_scope_errors actor (scope_id : string) d : list V :=
  push_if (foreign (DraftCatalog.provider_endpoints d) ProviderEndpointRecord.tenant_id actor scope_id)
    "scope_id" "unknown_endpoint".

Definition validate_budget_scope_fields actor (request : AdminCreateBudgetPolicyRequest.t) d
    : list V :=
  let kind := AdminCreateBudgetPolicyRequest.scope_kind request in
  let id := AdminCreateBudgetPolicyRequest.scope_id request in
  if kind ==? "tenant" then tenant_scope_errors actor id
  else if kind ==? "organization" then organization_scope_errors actor id d
  else if kind ==? "project" then project_scope_errors actor id d
  else if kind ==? "credential" then credential_scope_errors actor id d
  else if kind ==? "alias" then alias_scope_errors actor id d
  else if kind ==? "group" then
    push_if (foreign (DraftCatalog.routing_groups d) RoutingGroupRecord.tenant_id actor id)
      "scope_id" "unknown_group"
  else if kind ==? "endpoint" then endpoint_scope_errors actor id d
  else if kind ==? "target" then
    push_if (foreign (DraftCatalog.model_targets d) ModelTargetRecord.tenant_id actor id)
      "scope_id" "unknown_target"
  else [validation_error "scope_kind" "invalid_scope_kind"].

Definition validate_budget_enum_fields (request : AdminCreateBudgetPolicyRequest.t) : list V :=
  push_if (negb (is_one_of (AdminCreateBudgetPolicyRequest.period request) budget_periods))
    "period" "invalid_period"
  ++ push_if (negb (is_one_of (AdminCreateBudgetPolicyRequest.limit_kind request) budget_limit_kinds))
       "limit_kind" "invalid_limit_kind"
  ++ push_if (negb (is_one_of (AdminCreateBudgetPolicyRequest.overage_mode request)
                      budget_overage_modes)) "overage_mode" "invalid_overage_mode"
  ++ push_if (negb (is_one_of (AdminCreateBudgetPolicyRequest.consistency_mode request)
                      budget_consistency_modes)) "consistency_mode" "invalid_consistency_mode"
  ++ push_if (blank (AdminCreateBudgetPolicyRequest.reset_policy request)) "reset_policy" "required".

Definition validate_budget_limit_fields (request : AdminCreateBudgetPolicyRequest.t) : list V :=
  let hard_limit := AdminCreateBudgetPolicyRequest.hard_limit request in
  let soft_limit := AdminCreateBudgetPolicyRequest.soft_limit request in
  let thresholds := AdminCreateBudgetPolicyRequest.thresholds request in
  (if AdminCreateBudgetPolicyRequest.limit_kind request ==? "cost" then
     match AdminCreateBudgetPolicyRequest.currency request with
     | Some currency => push_if (negb (valid_currency_code currency)) "currency" "invalid_currency"
     | None => [validation_error "currency" "required"]
     end
   else push_if (is_some (AdminCreateBudgetPolicyRequest.currency request)) "currency"
          "non_cost_currency")
  ++ push_if (no_limits hard_limit soft_limit thresholds) "limit" "required"
  ++ push_if (limits_not_positive hard_limit soft_limit thresholds) "limit" "positive_required"
  ++ push_if (soft_exceeds_hard hard_limit soft_limit) "soft_limit" "exceeds_hard_limit"
  ++ push_if (hard_limit_only_notifies hard_limit
                (AdminCreateBudgetPolicyRequest.overage_mode request)
                (AdminCreateBudgetPolicyRequest.consistency_mode request))
       "overage_mode" "hard_limit_notify_only_invalid".

Definition budget_policy_validation_errors actor (request : AdminCreateBudgetPolicyRequest.t) s
    : list V :=
  validate_budget_scope_fields actor request (draft_of s)
  ++ validate_budget_enum_fields request
  ++ validate_budget_limit_fields request
  ++ push_if (existsb (λ policy,
         (BudgetPolicyRecord.scope_kind policy ==? AdminCreateBudgetPolicyRequest.scope_kind request)
         && (BudgetPolicyRecord.scope_id policy ==? AdminCreateBudgetPolicyRequest.scope_id request)
         && (BudgetPolicyRecord.limit_kind policy
             ==? AdminCreateBudgetPolicyRequest.limit_kind request)
         && (BudgetPolicyRecord.period policy ==? AdminCreateBudgetPolicyRequest.period request)
         && (BudgetPolicyRecord.status policy !=? ResourceStatus.Deleted))
         (budget_policies_for_tenant (budget_policies_of s) (AuthenticatedActor.tenant_id actor)))
       "scope_id" "duplicate_policy".

Definition validate_quota_scope_fields actor (request : AdminCreateQuotaPolicyRequest.t) d : list V :=
  let kind := AdminCreateQuotaPolicyRequest.scope_kind request in
  let id := AdminCreateQuotaPolicyRequest.scope_id request in
  if kind ==? "tenant" then tenant_scope_errors actor id
  else if kind ==? "organization" then organization_scope_errors actor id d
  else if kind ==? "project" then project_scope_errors actor id d
  else if kind ==? "credential" then credential_scope_errors actor id d
  else if kind ==? "alias" then alias_scope_errors actor id d
  else if kind ==? "endpoint" then endpoint_scope_errors actor id d
  else if kind ==? "protocol_family" then
    push_if (negb (protocol_family_scope_exists id)) "scope_id" "unknown_protocol_family"
  else [validation_error "scope_kind" "invalid_scope_kind"].

Definition validate_quota_shape_fields (request : AdminCreateQuotaPolicyRequest.t) : list V :=
  let counter_kind := AdminCreateQuotaPolicyRequest.counter_kind request in
  let counter_valid := is_one_of counter_kind quota_counter_kinds in
  push_if (negb counter_valid) "counter_kind" "invalid_counter_kind"
  ++ push_if (AdminCreateQuotaPolicyRequest.limit request <=? 0)%Z "limit" "positive_required"
  ++ push_if (not_positive (AdminCreateQuotaPolicyRequest.burst_limit request)) "burst_limit"
       "positive_required"
  ++ push_if (negb (is_one_of (AdminCreateQuotaPolicyRequest.loss_behavior request)
                      quota_loss_behaviors)) "loss_behavior" "invalid_loss_behavior"
  ++ push_if ((AdminCreateQuotaPolicyRequest.loss_behavior request ==? "fail_limited")
              && negb (is_some (AdminCreateQuotaPolicyRequest.burst_limit request))) "burst_limit"
       "required_for_fail_limited"
  ++ (if counter_valid then
        push_if (negb (quota_counter_scope_supported counter_kind
                         (AdminCreateQuotaPolicyRequest.scope_kind request)))
          "scope_kind" "unsupported_counter_scope"
        ++ push_if (negb (quota_counter_window_supported counter_kind
                            (AdminCreateQuotaPolicyRequest.window request)))
             "window" "unsupported_counter_window"
        ++ push_if (negb (quota_counter_increment_source_supported counter_kind
                            (AdminCreateQuotaPolicyRequest.increment_source request)))
             "increment_source" "unsupported_increment_source"
      else []).

Definition quota_policy_validation_errors actor (request : AdminCreateQuotaPolicyRequest.t) s
    : list V :=
  validate_quota_scope_fields actor request (draft_of s)
  ++ validate_quota_shape_fields request
  ++ push_if (existsb (λ policy,
         (QuotaPolicyRecord.scope_kind policy ==? AdminCreateQuotaPolicyRequest.scope_kind request)
         && (QuotaPolicyRecord.scope_id policy ==? AdminCreateQuotaPolicyRequest.scope_id request)
         && (QuotaPolicyRecord.counter_kind policy
             ==? AdminCreateQuotaPolicyRequest.counter_kind request)
         && (QuotaPolicyRecord.window policy ==? AdminCreateQuotaPolicyRequest.window request)
         && (QuotaPolicyRecord.status policy !=? ResourceStatus.Deleted))
         (quota_policies_for_tenant (GatewayState.quota_policies s)
            (AuthenticatedActor.tenant_id actor)))
       "scope_id" "duplicate_policy".
End validation.
