(* ===== verification/PolicyHandlers.v ===== *)
(** * The admin handlers of prices, budgets and quotas

    The handlers of [service.rs] for pricing SKUs, budget policies and quota policies:
    list, validate, create, get and update.  They have the shape of the handlers of the
    draft catalog ([AdminHandlers.v]) and share their descriptions of a resource, but run
    on the whole gateway state, where the quota policies live; what only touches the admin
    store is run there by [on_store]. *)

From S2P Require Import Prelude Order Text Domain Action HotState Routing Catalog Json Usage.
From S2P Require Import Pricing PolicyStore RuntimePolicy Reconciler Outbox Delivery Auth.
From S2P Require Import CedarPolicy Publication GwRoute AdminRecords DraftCatalog AdminState AdminValidation.
From S2P Require Import AdminHandlers AdminEmergency Provider Ingress PolicyAdmin.

Section handlers.
Context {V S : Type} `{JsonLibrary V} `{JsonText V} `{!JsonShape V} `{Sha256Library} `{CedarParser}
  `{ChronoDisplay}.
Abbreviation State := (GatewayState.t V S).
Abbreviation Eff := (M State GatewayError.t).
Implicit Types (s : State) (actor : AuthenticatedActor.t) (now : DateTime) (drawn : Drawn.t).

(** Run an operation of the admin store. *)
Definition on_store {A} (op : M (GatewayStore.t V) GatewayError.t A) : Eff A := λ s,
  let '(r, g) := op (GatewayState.store s) in (r, GatewayState.set_store s g).

Definition reads {A} (f : State → result GatewayError.t A) : Eff A := λ s, (f s, s).

Section common.
Context {R : Type} (r : AdminResource.t V R) (drawn : Drawn.t) (actor : AuthenticatedActor.t).

Definition list_policies (items : State → list R) now : Eff V :=
  on_store (authorize_admin_route (Drawn.decision drawn) actor "GET" (AdminResource.list_path r) "*"
    now);;
  route ← lift (route_metadata "GET" (AdminResource.get_path r));
  engine ← reads (λ s, authorization_engine_for_actor actor (GatewayState.store s));
  items ← gets items;
  let authorized := authorize_item_list (fst engine) actor (RouteMetadata.action route)
    ((λ item, AuthorizableItem.mk
                (RouteMetadata.resource route (AdminResource.record_id r item)) item) <$> items) in
  mret (json_obj [
    ("schema", json_str ("gateway.admin." +:+ AdminResource.kind r +:+ "_list.v1"));
    ("resources", json_arr (resource_envelope r <$> AuthorizedItemList.items authorized));
    ("filtered_count", json_int (Z.of_nat (AuthorizedItemList.filtered_count authorized)));
    ("next_cursor", json_null)]).

Definition validate_policy (errors : State → list V) now : Eff V :=
  on_store (authorize_admin_route (Drawn.decision drawn) actor "POST" (AdminResource.validate_path
    r)
    "*" now);;
  errors ← gets errors;
  on_store (validation_response (Drawn.validation drawn) actor
    (validation_input ("gateway.admin." +:+ AdminResource.kind r +:+ "_validation.v1")
       (AdminResource.resource_kind r) "tenant" (AuthenticatedActor.tenant_id actor) errors now)).

(** The body of a creation under its idempotency key. *)
Definition create_and_audit (errors : State → list V) (create : Eff R) now : Eff V :=
  reads (λ s, reject_validation_errors (errors s));;
  record ← create;
  audit_event_id ← on_store (audit_resource r drawn actor "create" None record
                               (AdminResource.create_diff r record) now);
  mret (mutation_response r record audit_event_id [("idempotency_replayed", json_bool false)]).

Definition create_policy (operation idempotency_key : string) (request : V) (errors : State → list
  V)
    (create : Eff R) now : Eff V :=
  let scope_key := idempotency_scope_key operation idempotency_key in
  let request_hash := stable_request_hash request in
  let tenant_id := AuthenticatedActor.tenant_id actor in
  lift (validate_idempotency_key idempotency_key);;
  on_store (authorize_admin_route (Drawn.decision drawn) actor "POST" (AdminResource.list_path r)
    "*"
    now);;
  replay ← on_store (idempotency_response tenant_id scope_key request_hash now);
  match replay with
  | Some response => mret (response_with_replay_flag response true)
  | None =>
      response ← create_and_audit errors create now;
      on_store (record_idempotent_admin_response tenant_id scope_key request_hash response now);;
      mret response
  end.

Definition get_policy (resource_id : string) (find : State → result GatewayError.t R) now : Eff V :=
  on_store (authorize_admin_route (Drawn.decision drawn) actor "GET" (AdminResource.get_path r)
    resource_id now);;
  record ← reads find;
  mret (json_obj [
    ("schema", json_str ("gateway.admin." +:+ AdminResource.kind r +:+ ".v1"));
    ("resource", AdminResource.body r record)]).

Definition update_policy (resource_id : string) (find : State → result GatewayError.t R)
    (update : Eff R) (reason : option string) now : Eff V :=
  on_store (authorize_admin_route (Drawn.decision drawn) actor "PATCH" (AdminResource.get_path r)
    resource_id now);;
  before ← reads find;
  updated ← update;
  audit_event_id ← on_store (audit_resource r drawn actor "update"
                               (Some (AdminResource.version r before)) updated
                               (status_update_diff r reason before updated) now);
  mret (mutation_response r updated audit_event_id []).
End common.

(** ** Pricing SKUs *)

Definition pricing_sku_resource_body (x : PricingSkuRecord.t V) : V :=
  json_obj [
    ("kind", json_str "pricing_sku");
    ("id", json_str (PricingSkuRecord.pricing_sku_id x));
    ("tenant_id", json_str (PricingSkuRecord.tenant_id x));
    ("organization_id", json_option_str (PricingSkuRecord.organization_id x));
    ("name", json_str (PricingSkuRecord.name x));
    ("currency", json_str (PricingSkuRecord.currency x));
    ("unit", json_str (PricingSkuRecord.unit_name x));
    ("model_id_patterns", json_arr (json_str <$> PricingSkuRecord.model_id_patterns x));
    ("provider_endpoint_patterns", json_arr (json_str <$>
      PricingSkuRecord.provider_endpoint_patterns x));
    ("pricing_document", PricingSkuRecord.pricing_document x);
    ("pricing_version", json_int (PricingSkuRecord.pricing_version x));
    ("effective_from", json_datetime (PricingSkuRecord.effective_from x));
    ("effective_until", json_option json_datetime (PricingSkuRecord.effective_until x));
    ("is_preset", json_bool (PricingSkuRecord.is_preset x));
    ("version", json_int (PricingSkuRecord.resource_version x));
    ("status", json_str (ResourceStatus.as_str (PricingSkuRecord.status x)));
    ("created_by", json_str (PricingSkuRecord.created_by x));
    ("created_at", json_datetime (PricingSkuRecord.created_at x));
    ("updated_at", json_datetime (PricingSkuRecord.updated_at x))].

Definition pricing_sku_resource : AdminResource.t V (PricingSkuRecord.t V) :=
  AdminResource.mk "pricing_sku" "PricingSku" "/admin/v1/pricing-skus"
    "/admin/v1/pricing-skus:validate"
    "/admin/v1/pricing-skus/{pricing_sku_id}" PricingSkuRecord.pricing_sku_id
      PricingSkuRecord.resource_version
    (λ x, ResourceStatus.as_str (PricingSkuRecord.status x))
    (λ x, json_obj [
    ("organization_id", json_option_str (PricingSkuRecord.organization_id x));
    ("name", json_str (PricingSkuRecord.name x));
    ("currency", json_str (PricingSkuRecord.currency x));
    ("unit", json_str (PricingSkuRecord.unit_name x));
    ("pricing_version", json_int (PricingSkuRecord.pricing_version x));
    ("model_id_patterns", json_arr (json_str <$> PricingSkuRecord.model_id_patterns x));
    ("provider_endpoint_patterns", json_arr (json_str <$>
      PricingSkuRecord.provider_endpoint_patterns x));
    ("effective_from", json_datetime (PricingSkuRecord.effective_from x));
    ("effective_until", json_option json_datetime (PricingSkuRecord.effective_until x));
    ("is_preset", json_bool (PricingSkuRecord.is_preset x))])
    pricing_sku_resource_body.

Definition create_pricing_sku_json (request : AdminCreatePricingSkuRequest.t V) : V :=
  json_obj [
    ("idempotency_key", json_str (AdminCreatePricingSkuRequest.idempotency_key request));
    ("organization_id", json_option_str (AdminCreatePricingSkuRequest.organization_id request));
    ("name", json_str (AdminCreatePricingSkuRequest.name request));
    ("currency", json_str (AdminCreatePricingSkuRequest.currency request));
    ("unit", json_str (AdminCreatePricingSkuRequest.unit_name request));
    ("model_id_patterns", json_arr (json_str <$> AdminCreatePricingSkuRequest.model_id_patterns
      request));
    ("provider_endpoint_patterns", json_arr (json_str <$>
      AdminCreatePricingSkuRequest.provider_endpoint_patterns request));
    ("pricing_document", AdminCreatePricingSkuRequest.pricing_document request);
    ("effective_from", json_option json_datetime (AdminCreatePricingSkuRequest.effective_from
      request));
    ("effective_until", json_option json_datetime (AdminCreatePricingSkuRequest.effective_until
      request));
    ("is_preset", json_bool (AdminCreatePricingSkuRequest.is_preset request))].

Definition pricing_sku_for_actor actor (id : string) s : result GatewayError.t (PricingSkuRecord.t
  V) :=
  for_actor "pricing SKU" (pricing_skus_of s) PricingSkuRecord.tenant_id actor id.

Definition list_pricing_skus drawn actor now : Eff V :=
  list_policies pricing_sku_resource drawn actor
    (λ s, pricing_skus_for_tenant (pricing_skus_of s) (AuthenticatedActor.tenant_id actor)) now.

Definition validate_pricing_sku drawn actor (request : AdminCreatePricingSkuRequest.t V) now : Eff
  V :=
  validate_policy pricing_sku_resource drawn actor (pricing_sku_validation_errors actor request
    now) now.

(** What the handler asks of the store. *)
Definition new_pricing_sku actor (request : AdminCreatePricingSkuRequest.t V) now :
  CreatePricingSkuRequest.t V :=
  CreatePricingSkuRequest.mk (AuthenticatedActor.tenant_id actor)
    (AdminCreatePricingSkuRequest.organization_id request)
    (AdminCreatePricingSkuRequest.name request)
    (AdminCreatePricingSkuRequest.currency request)
    (AdminCreatePricingSkuRequest.unit_name request)
    (AdminCreatePricingSkuRequest.model_id_patterns request)
    (AdminCreatePricingSkuRequest.provider_endpoint_patterns request)
    (AdminCreatePricingSkuRequest.pricing_document request)
    (default now (AdminCreatePricingSkuRequest.effective_from request))
    (AdminCreatePricingSkuRequest.effective_until request)
    (AdminCreatePricingSkuRequest.is_preset request)
    (actor_principal_or_actor_id actor).

Definition create_pricing_sku drawn actor (request : AdminCreatePricingSkuRequest.t V) now : Eff V
  :=
  create_policy pricing_sku_resource drawn actor "pricing_skus:create"
    (AdminCreatePricingSkuRequest.idempotency_key request)
    (create_pricing_sku_json request) (pricing_sku_validation_errors actor request now)
    (PolicyAdmin.create_pricing_sku (Drawn.resource drawn) (new_pricing_sku actor request now)
      now) now.

Definition get_pricing_sku drawn actor (pricing_sku_id : string) now : Eff V :=
  get_policy pricing_sku_resource drawn actor pricing_sku_id (pricing_sku_for_actor actor
    pricing_sku_id) now.

Definition update_pricing_sku drawn actor (pricing_sku_id : string) (request :
  AdminUpdateStatusRequest.t) now : Eff V :=
  update_policy pricing_sku_resource drawn actor pricing_sku_id (pricing_sku_for_actor actor
    pricing_sku_id)
    (update_pricing_sku_status pricing_sku_id (AdminUpdateStatusRequest.expected_version request)
       (AdminUpdateStatusRequest.status request) now)
    (AdminUpdateStatusRequest.reason request) now.

(** ** Budget policies *)

Definition budget_policy_resource : AdminResource.t V BudgetPolicyRecord.t :=
  AdminResource.mk "budget_policy" "BudgetPolicy" "/admin/v1/budget-policies"
    "/admin/v1/budget-policies:validate"
    "/admin/v1/budget-policies/{budget_policy_id}" BudgetPolicyRecord.budget_policy_id
      BudgetPolicyRecord.resource_version
    (λ x, ResourceStatus.as_str (BudgetPolicyRecord.status x))
    (λ x, json_obj [
    ("scope_kind", json_str (BudgetPolicyRecord.scope_kind x));
    ("scope_id", json_str (BudgetPolicyRecord.scope_id x));
    ("currency", json_option_str (BudgetPolicyRecord.currency x));
    ("period", json_str (BudgetPolicyRecord.period x));
    ("limit_kind", json_str (BudgetPolicyRecord.limit_kind x));
    ("hard_limit", json_option json_int (BudgetPolicyRecord.hard_limit x));
    ("soft_limit", json_option json_int (BudgetPolicyRecord.soft_limit x));
    ("thresholds", json_arr (json_int <$> BudgetPolicyRecord.thresholds x));
    ("reset_policy", json_str (BudgetPolicyRecord.reset_policy x));
    ("overage_mode", json_str (BudgetPolicyRecord.overage_mode x));
    ("consistency_mode", json_str (BudgetPolicyRecord.consistency_mode x))])
    budget_policy_resource_body.

Definition create_budget_policy_json (request : AdminCreateBudgetPolicyRequest.t) : V :=
  json_obj [
    ("idempotency_key", json_str (AdminCreateBudgetPolicyRequest.idempotency_key request));
    ("scope_kind", json_str (AdminCreateBudgetPolicyRequest.scope_kind request));
    ("scope_id", json_str (AdminCreateBudgetPolicyRequest.scope_id request));
    ("currency", json_option_str (AdminCreateBudgetPolicyRequest.currency request));
    ("period", json_str (AdminCreateBudgetPolicyRequest.period request));
    ("limit_kind", json_str (AdminCreateBudgetPolicyRequest.limit_kind request));
    ("hard_limit", json_option json_int (AdminCreateBudgetPolicyRequest.hard_limit request));
    ("soft_limit", json_option json_int (AdminCreateBudgetPolicyRequest.soft_limit request));
    ("thresholds", json_arr (json_int <$> AdminCreateBudgetPolicyRequest.thresholds request));
    ("reset_policy", json_str (AdminCreateBudgetPolicyRequest.reset_policy request));
    ("overage_mode", json_str (AdminCreateBudgetPolicyRequest.overage_mode request));
    ("consistency_mode", json_str (AdminCreateBudgetPolicyRequest.consistency_mode request))].

Definition budget_policy_for_actor actor (id : string) s : result GatewayError.t
  BudgetPolicyRecord.t :=
  for_actor "budget policy" (budget_policies_of s) BudgetPolicyRecord.tenant_id actor id.

Definition list_budget_policies drawn actor now : Eff V :=
  list_policies budget_policy_resource drawn actor
    (λ s, budget_policies_for_tenant (budget_policies_of s)
    (AuthenticatedActor.tenant_id actor)) now.

Definition validate_budget_policy drawn actor (request : AdminCreateBudgetPolicyRequest.t) now :
  Eff V :=
  validate_policy budget_policy_resource drawn actor (budget_policy_validation_errors actor
    request) now.

(** What the handler asks of the store. *)
Definition new_budget_policy actor (request : AdminCreateBudgetPolicyRequest.t) :
  CreateBudgetPolicyRequest.t :=
  CreateBudgetPolicyRequest.mk (AuthenticatedActor.tenant_id actor)
    (AdminCreateBudgetPolicyRequest.scope_kind request)
    (AdminCreateBudgetPolicyRequest.scope_id request)
    (AdminCreateBudgetPolicyRequest.currency request)
    (AdminCreateBudgetPolicyRequest.period request)
    (AdminCreateBudgetPolicyRequest.limit_kind request)
    (AdminCreateBudgetPolicyRequest.hard_limit request)
    (AdminCreateBudgetPolicyRequest.soft_limit request)
    (AdminCreateBudgetPolicyRequest.thresholds request)
    (AdminCreateBudgetPolicyRequest.reset_policy request)
    (AdminCreateBudgetPolicyRequest.overage_mode request)
    (AdminCreateBudgetPolicyRequest.consistency_mode request)
    (actor_principal_or_actor_id actor).

Definition create_budget_policy drawn actor (request : AdminCreateBudgetPolicyRequest.t) now : Eff
  V :=
  create_policy budget_policy_resource drawn actor "budget_policies:create"
    (AdminCreateBudgetPolicyRequest.idempotency_key request)
    (create_budget_policy_json request) (budget_policy_validation_errors actor request)
    (PolicyAdmin.create_budget_policy (Drawn.resource drawn) (new_budget_policy actor request)
      now) now.

Definition get_budget_policy drawn actor (budget_policy_id : string) now : Eff V :=
  get_policy budget_policy_resource drawn actor budget_policy_id (budget_policy_for_actor actor
    budget_policy_id) now.

Definition update_budget_policy drawn actor (budget_policy_id : string) (request :
  AdminUpdateStatusRequest.t) now : Eff V :=
  update_policy budget_policy_resource drawn actor budget_policy_id (budget_policy_for_actor actor
    budget_policy_id)
    (update_budget_policy_status budget_policy_id (AdminUpdateStatusRequest.expected_version
      request)
       (AdminUpdateStatusRequest.status request) now)
    (AdminUpdateStatusRequest.reason request) now.

(** ** Quota policies *)

Definition quota_policy_resource_body (x : QuotaPolicyRecord.t) : V :=
  json_obj [
    ("kind", json_str "quota_policy");
    ("id", json_str (QuotaPolicyRecord.quota_policy_id x));
    ("tenant_id", json_str (QuotaPolicyRecord.tenant_id x));
    ("scope_kind", json_str (QuotaPolicyRecord.scope_kind x));
    ("scope_id", json_str (QuotaPolicyRecord.scope_id x));
    ("organization_id", json_option_str (QuotaPolicyRecord.organization_id x));
    ("project_id", json_option_str (QuotaPolicyRecord.project_id x));
    ("counter_kind", json_str (QuotaPolicyRecord.counter_kind x));
    ("limit", json_int (QuotaPolicyRecord.limit x));
    ("burst_limit", json_option json_int (QuotaPolicyRecord.burst_limit x));
    ("window", json_str (QuotaPolicyRecord.window x));
    ("increment_source", json_str (QuotaPolicyRecord.increment_source x));
    ("loss_behavior", json_str (QuotaPolicyRecord.loss_behavior x));
    ("version", json_int (QuotaPolicyRecord.resource_version x));
    ("status", json_str (ResourceStatus.as_str (QuotaPolicyRecord.status x)));
    ("created_by", json_str (QuotaPolicyRecord.created_by x));
    ("created_at", json_datetime (QuotaPolicyRecord.created_at x));
    ("updated_at", json_datetime (QuotaPolicyRecord.updated_at x))].

Definition quota_policy_resource : AdminResource.t V QuotaPolicyRecord.t :=
  AdminResource.mk "quota_policy" "QuotaPolicy" "/admin/v1/quota-policies"
    "/admin/v1/quota-policies:validate"
    "/admin/v1/quota-policies/{quota_policy_id}" QuotaPolicyRecord.quota_policy_id
      QuotaPolicyRecord.resource_version
    (λ x, ResourceStatus.as_str (QuotaPolicyRecord.status x))
    (λ x, json_obj [
    ("scope_kind", json_str (QuotaPolicyRecord.scope_kind x));
    ("scope_id", json_str (QuotaPolicyRecord.scope_id x));
    ("counter_kind", json_str (QuotaPolicyRecord.counter_kind x));
    ("limit", json_int (QuotaPolicyRecord.limit x));
    ("burst_limit", json_option json_int (QuotaPolicyRecord.burst_limit x));
    ("window", json_str (QuotaPolicyRecord.window x));
    ("increment_source", json_str (QuotaPolicyRecord.increment_source x));
    ("loss_behavior", json_str (QuotaPolicyRecord.loss_behavior x))])
    quota_policy_resource_body.

Definition create_quota_policy_json (request : AdminCreateQuotaPolicyRequest.t) : V :=
  json_obj [
    ("idempotency_key", json_str (AdminCreateQuotaPolicyRequest.idempotency_key request));
    ("scope_kind", json_str (AdminCreateQuotaPolicyRequest.scope_kind request));
    ("scope_id", json_str (AdminCreateQuotaPolicyRequest.scope_id request));
    ("counter_kind", json_str (AdminCreateQuotaPolicyRequest.counter_kind request));
    ("limit", json_int (AdminCreateQuotaPolicyRequest.limit request));
    ("burst_limit", json_option json_int (AdminCreateQuotaPolicyRequest.burst_limit request));
    ("window", json_str (AdminCreateQuotaPolicyRequest.window request));
    ("increment_source", json_str (AdminCreateQuotaPolicyRequest.increment_source request));
    ("loss_behavior", json_str (AdminCreateQuotaPolicyRequest.loss_behavior request))].

Definition quota_policy_for_actor actor (id : string) s : result GatewayError.t
  QuotaPolicyRecord.t :=
  for_actor "quota policy" (GatewayState.quota_policies s) QuotaPolicyRecord.tenant_id actor id.

Definition list_quota_policies drawn actor now : Eff V :=
  list_policies quota_policy_resource drawn actor
    (λ s, quota_policies_for_tenant (GatewayState.quota_policies s)
    (AuthenticatedActor.tenant_id actor)) now.

Definition validate_quota_policy drawn actor (request : AdminCreateQuotaPolicyRequest.t) now : Eff
  V :=
  validate_policy quota_policy_resource drawn actor (quota_policy_validation_errors actor request)
    now.

(** What the handler asks of the store. *)
Definition new_quota_policy actor (request : AdminCreateQuotaPolicyRequest.t) :
  CreateQuotaPolicyRequest.t :=
  CreateQuotaPolicyRequest.mk (AuthenticatedActor.tenant_id actor)
    (AdminCreateQuotaPolicyRequest.scope_kind request)
    (AdminCreateQuotaPolicyRequest.scope_id request)
    (AdminCreateQuotaPolicyRequest.counter_kind request)
    (AdminCreateQuotaPolicyRequest.limit request)
    (AdminCreateQuotaPolicyRequest.burst_limit request)
    (AdminCreateQuotaPolicyRequest.window request)
    (AdminCreateQuotaPolicyRequest.increment_source request)
    (AdminCreateQuotaPolicyRequest.loss_behavior request)
    (actor_principal_or_actor_id actor).

Definition create_quota_policy drawn actor (request : AdminCreateQuotaPolicyRequest.t) now : Eff V
  :=
  create_policy quota_policy_resource drawn actor "quota_policies:create"
    (AdminCreateQuotaPolicyRequest.idempotency_key request)
    (create_quota_policy_json request) (quota_policy_validation_errors actor request)
    (PolicyAdmin.create_quota_policy (Drawn.resource drawn) (new_quota_policy actor request) now)
      now.

Definition get_quota_policy drawn actor (quota_policy_id : string) now : Eff V :=
  get_policy quota_policy_resource drawn actor quota_policy_id (quota_policy_for_actor actor
    quota_policy_id) now.

Definition update_quota_policy drawn actor (quota_policy_id : string) (request :
  AdminUpdateStatusRequest.t) now : Eff V :=
  update_policy quota_policy_resource drawn actor quota_policy_id (quota_policy_for_actor actor
    quota_policy_id)
    (update_quota_policy_status quota_policy_id (AdminUpdateStatusRequest.expected_version request)
       (AdminUpdateStatusRequest.status request) now)
    (AdminUpdateStatusRequest.reason request) now.
End handlers.
