(* ===== verification/PolicyAdminFacts.v ===== *)
(** * Prices, budgets and quotas: dry runs, and how quotas bind requests

    The [:validate] routes of pricing SKUs, budget policies and quota policies check a
    request with code of their own; the store checks it again when it is created.  The
    first part shows that the two always agree, and what a dry run followed by a creation
    does.

    The second part follows a created quota policy into the policy preflight of later
    requests: while the counter of an active quota stands at its limit, no request the
    quota covers passes the preflight, whatever other budgets and quotas there are; and
    the quotas the admin interface accepts are of the kinds for which this holds, except
    one kind that the preflight never looks at. *)

From S2P Require Import Prelude Order Text Domain Action HotState Routing Catalog Json Usage Pricing.
From S2P Require Import PolicyStore RuntimePolicy PolicyFacts Reconciler Outbox Delivery Auth.
From S2P Require Import CedarPolicy Publication GwRoute AdminRecords DraftCatalog AdminState.
From S2P Require Import AdminValidation AdminHandlers AdminEmergency AdminFacts AdminGuards AdminOutcomes.
From S2P Require Import Provider GwRequest Ingress IngressFacts IngressScenarios.
From S2P Require Import PolicyAdmin PolicyHandlers.

(** ** The service and the store check alike *)

Section checks.
Context {V S : Type} `{JsonLibrary V} `{!JsonShape V}.
Abbreviation State := (GatewayState.t V S).
Implicit Types (s : State) (d : DraftCatalog.t V) (actor : AuthenticatedActor.t).

Lemma ok_then {E A B} (x : result E A) (k : result E B) : is_ok (x ≫= λ _, k) = is_ok x && is_ok k.
Proof. by destruct x. Qed.

Lemma ok_refuse test error : is_ok (refuse_if test error) = negb test.
Proof. by destruct test. Qed.

Lemma for_actor_ok {R} noun (table : gmap string R) tenant actor id :
  is_ok (for_actor noun table tenant actor id) = negb (foreign table tenant actor id).
Proof.
  unfold for_actor, foreign. destruct (table !! id) as [r|]; simpl; [|done]. by case_bool_decide.
Qed.

Lemma resource_scope_ok {R} mismatch noun (table : gmap string R) tenant scope actor id :
  is_ok (resource_scope mismatch noun table tenant scope (AuthenticatedActor.tenant_id actor) id)
  = negb (foreign table tenant actor id).
Proof.
  unfold resource_scope, foreign. destruct (table !! id) as [r|]; simpl; [|done]. by case_bool_decide.
Qed.

Lemma organization_ok actor o d :
  unknown_organization (V:=V) actor o d = []
  ↔ is_ok (validate_optional_organization_scope (AuthenticatedActor.tenant_id actor) o d) = true.
Proof.
  destruct o as [o|]; simpl; [|done]. unfold organization_for_actor. rewrite push_if_nil, for_actor_ok.
  unfold foreign. destruct (DraftCatalog.organizations d !! o); simpl; [|done]. by case_bool_decide.
Qed.

(** Both sides of a check as conjunctions of the same tests. *)
#[local] Ltac tests :=
  repeat first [rewrite app_nil | rewrite push_if_nil | rewrite ok_then | rewrite ok_refuse
    | rewrite andb_true_iff | rewrite negb_true_iff | rewrite negb_false_iff].

(** The store looks at all records, the service at those of the tenant. *)
#[local] Ltac one_tenant table :=
  match goal with
  | |- context [existsb ?p (sort_by ?o (List.filter ?t _))] =>
      match goal with
      | |- context [existsb ?q table] =>
          rewrite (exists_in_tenant o p q table t)
            by (intros ?; cbv beta; rewrite !andb_assoc; reflexivity)
      end
  end.

Lemma existsb_values {R} (p : R → bool) (table : gmap string R) :
  existsb p (values table) = existsb p (map_to_list table).*2.
Proof.
  apply eq_iff_eq_true. rewrite !existsb_iff. unfold values, entries.
  setoid_rewrite list_elem_of_fmap. setoid_rewrite sort_by_elem. done.
Qed.

Lemma document_checked document currency unit_name :
  pricing_document_validation_errors (V:=V) document currency unit_name = []
  ↔ is_ok (validate_pricing_document document currency unit_name) = true.
Proof.
  unfold pricing_document_validation_errors, validate_pricing_document.
  destruct (value_is_object document); simpl; [|naive_solver]. tests. tauto.
Qed.

Lemma sku_checked actor request now s :
  pricing_sku_validation_errors actor request now s = []
  ↔ is_ok (validate_pricing_sku_request (new_pricing_sku actor request now) s) = true.
Proof.
  unfold pricing_sku_validation_errors, validate_pricing_sku_request, pricing_skus_for_tenant. simpl.
  rewrite existsb_values. one_tenant ((map_to_list (pricing_skus_of s)).*2). tests.
  rewrite organization_ok, document_checked. tauto.
Qed.

#[local] Ltac scopes :=
  unfold tenant_scope_errors, organization_scope_errors, project_scope_errors,
    credential_scope_errors, alias_scope_errors, endpoint_scope_errors, organization_for_actor,
    project_for_actor, organization_scope, project_scope, credential_scope, alias_scope, group_scope,
    endpoint_scope, target_scope, quota_protocol_family_scope;
  simpl; repeat case_match; rewrite ?push_if_nil, ?for_actor_ok, ?resource_scope_ok, ?negb_involutive,
    ?negb_true_iff; naive_solver.

Lemma budget_scope_checked actor request d :
  validate_budget_scope_fields (V:=V) actor request d = []
  ↔ is_ok (validate_budget_policy_scope (AuthenticatedActor.tenant_id actor)
             (new_budget_policy actor request) d) = true.
Proof. unfold validate_budget_scope_fields, validate_budget_policy_scope. scopes. Qed.

Lemma quota_scope_checked actor request d :
  validate_quota_scope_fields (V:=V) actor request d = []
  ↔ is_ok (validate_quota_policy_scope (AuthenticatedActor.tenant_id actor)
             (new_quota_policy actor request) d) = true.
Proof. unfold validate_quota_scope_fields, validate_quota_policy_scope. scopes. Qed.

Lemma budget_limits_checked actor request :
  validate_budget_limit_fields (V:=V) request = []
  ↔ is_ok (validate_budget_policy_limits (new_budget_policy actor request)) = true.
Proof.
  unfold validate_budget_limit_fields, validate_budget_policy_limits. simpl. tests.
  destruct (_ ==? "cost"); [destruct (AdminCreateBudgetPolicyRequest.currency request)|].
  all: tests; naive_solver.
Qed.

Lemma budget_checked actor request s :
  budget_policy_validation_errors actor request s = []
  ↔ is_ok (validate_budget_policy_request (new_budget_policy actor request) s) = true.
Proof.
  unfold budget_policy_validation_errors, validate_budget_policy_request, budget_policies_for_tenant.
  simpl. rewrite existsb_values. one_tenant ((map_to_list (budget_policies_of s)).*2).
  rewrite !app_nil, budget_scope_checked, (budget_limits_checked actor).
  destruct (validate_budget_policy_scope _ _ _); simpl; [|naive_solver].
  unfold validate_budget_enum_fields, validate_budget_policy_enums. tests. simpl. tauto.
Qed.

Lemma quota_shape_checked actor request :
  validate_quota_shape_fields (V:=V) request = []
  ↔ is_ok (validate_quota_policy_shape (new_quota_policy actor request)) = true.
Proof.
  unfold validate_quota_shape_fields, validate_quota_policy_shape. simpl.
  destruct (is_one_of _ quota_counter_kinds); simpl; [tests; tauto|naive_solver].
Qed.

Lemma quota_checked actor request s :
  quota_policy_validation_errors actor request s = []
  ↔ is_ok (validate_quota_policy_request (new_quota_policy actor request) s) = true.
Proof.
  unfold quota_policy_validation_errors, validate_quota_policy_request, quota_policies_for_tenant.
  simpl. rewrite existsb_values. one_tenant ((map_to_list (GatewayState.quota_policies s)).*2).
  rewrite !app_nil, quota_scope_checked, (quota_shape_checked actor).
  destruct (validate_quota_policy_scope _ _ _); simpl; [|naive_solver]. tests. tauto.
Qed.
End checks.

(** ** Dry runs *)

Section dry_run.
Context {V S : Type} `{JsonLibrary V} `{JsonText V} `{!JsonShape V} `{Sha256Library} `{CedarParser}
  `{ChronoDisplay}.
Abbreviation State := (GatewayState.t V S).
Implicit Types (s : State) (actor : AuthenticatedActor.t) (now later : DateTime) (drawn : Drawn.t).

(** A request for a new resource. *)
Inductive PolicyRequest : Type :=
| NewPricingSku (request : AdminCreatePricingSkuRequest.t V)
| NewBudgetPolicy (request : AdminCreateBudgetPolicyRequest.t)
| NewQuotaPolicy (request : AdminCreateQuotaPolicyRequest.t).

Definition serve_validate_policy drawn actor (request : PolicyRequest) now : M State GatewayError.t V :=
  match request with
  | NewPricingSku r => validate_pricing_sku drawn actor r now
  | NewBudgetPolicy r => validate_budget_policy drawn actor r now
  | NewQuotaPolicy r => validate_quota_policy drawn actor r now
  end.

Definition serve_create_policy drawn actor (request : PolicyRequest) now : M State GatewayError.t V :=
  match request with
  | NewPricingSku r => create_pricing_sku drawn actor r now
  | NewBudgetPolicy r => create_budget_policy drawn actor r now
  | NewQuotaPolicy r => create_quota_policy drawn actor r now
  end.

(** The key of a request, its operation and its route. *)
Definition policy_request_key (request : PolicyRequest) : string :=
  match request with
  | NewPricingSku r => AdminCreatePricingSkuRequest.idempotency_key r
  | NewBudgetPolicy r => AdminCreateBudgetPolicyRequest.idempotency_key r
  | NewQuotaPolicy r => AdminCreateQuotaPolicyRequest.idempotency_key r
  end.
Definition policy_request_operation (request : PolicyRequest) : string :=
  match request with
  | NewPricingSku _ => "pricing_skus:create"
  | NewBudgetPolicy _ => "budget_policies:create"
  | NewQuotaPolicy _ => "quota_policies:create"
  end.
Definition policy_request_path (request : PolicyRequest) : string :=
  match request with
  | NewPricingSku _ => "/admin/v1/pricing-skus"
  | NewBudgetPolicy _ => "/admin/v1/budget-policies"
  | NewQuotaPolicy _ => "/admin/v1/quota-policies"
  end.

(** A SKU without a start takes the clock for it: then the dry run and the creation only
    agree when they read the same time. *)
Definition same_start (request : PolicyRequest) now later : Prop :=
  match request with
  | NewPricingSku r => AdminCreatePricingSkuRequest.effective_from r = None → later = now
  | _ => True
  end.

(** What the checks read. *)
Definition config_of s := (draft_of s, budget_policies_of s, GatewayState.quota_policies s).
Definition reads_config {A} (f : State → A) : Prop :=
  ∀ s s', config_of s = config_of s' → f s = f s'.

Lemma pricing_errors_read actor r now : reads_config (pricing_sku_validation_errors actor r now).
Proof.
  intros s s' [= Hd Hb Hq]. unfold pricing_sku_validation_errors, pricing_skus_for_tenant,
    pricing_skus_of. by rewrite Hd.
Qed.
Lemma budget_errors_read actor r : reads_config (budget_policy_validation_errors (V:=V) actor r).
Proof. intros s s' [= Hd Hb Hq]. unfold budget_policy_validation_errors. by rewrite Hd, Hb. Qed.
Lemma quota_errors_read actor r : reads_config (quota_policy_validation_errors (V:=V) actor r).
Proof. intros s s' [= Hd Hb Hq]. unfold quota_policy_validation_errors. by rewrite Hd, Hq. Qed.

Lemma validate_policy_run {R} (res : AdminResource.t V R) drawn actor errors now s v s0 :
  reads_config errors →
  validate_policy res drawn actor errors now s = (Ok v, s0) →
  config_of s0 = config_of s
  ∧ ∃ diagnostic,
      GatewayStore.validation_diagnostics (GatewayState.store s0)
      = GatewayStore.validation_diagnostics (GatewayState.store s) ++ [diagnostic]
      ∧ says_valid (ValidationDiagnosticRecord.valid diagnostic) v
      ∧ (ValidationDiagnosticRecord.valid diagnostic = true ↔ errors s = []).
Proof.
  intros Hr. unfold validate_policy, on_store. unfold mbind, M_bind.
  destruct (authorize_admin_route _ _ _ _ _ _ _) as [[[]|e] g] eqn:Ea; [|done].
  apply authorize_admin_route_result in Ea as [ds ->]. simpl. intros [= <- <-]. simpl.
  split; [done|]. eexists. split_and!; [reflexivity| |].
  - eexists. split; [reflexivity|]. do 2 right. left.
  - simpl. rewrite (Hr _ s) by done. by destruct (errors s).
Qed.

Lemma create_policy_run {R} (res : AdminResource.t V R) drawn actor operation key request errors
    (create : M State GatewayError.t R) now s :
  reads_config errors →
  validate_idempotency_key key = Ok tt →
  (authorize_admin_route (Drawn.decision drawn) actor "POST" (AdminResource.list_path res) "*" now
     (GatewayState.store s)).1 = Ok tt →
  GatewayStore.idempotency_records (GatewayState.store s)
    !! (AuthenticatedActor.tenant_id actor, idempotency_scope_key operation key) = None →
  (∀ s', errors s' = [] → ∃ x s'', create s' = (Ok x, s'')) →
  let r := (create_policy res drawn actor operation key request errors create now s).1 in
  (errors s = [] → ∃ v, r = Ok v)
  ∧ (errors s ≠ [] → r = Err (GatewayError.BadRequest "validation_failed")).
Proof.
  intros Hr Hk Ha Hnew Hm. unfold create_policy, create_and_audit, mbind, M_bind, lift, on_store, reads.
  rewrite Hk. destruct (authorize_admin_route _ _ _ _ _ _ _) as [r g] eqn:E. simpl in Ha. subst r.
  apply authorize_admin_route_result in E as [ds ->].
  unfold idempotency_response. simpl. rewrite Hnew.
  rewrite (Hr (GatewayState.set_store _ _) s) by done. destruct (errors s) as [|e l] eqn:Ee; simpl.
  - split; [intros _|done].
    destruct (Hm (GatewayState.set_store (GatewayState.set_store s
      (GatewayStore.set_authz_decisions (GatewayState.store s) ds))
      (GatewayStore.set_authz_decisions (GatewayState.store s) ds))) as (x & s'' & ->);
      [by rewrite (Hr _ s)|]. eexists; reflexivity.
  - by split.
Qed.
(** Both, one after the other; [errors'] are those at the time of the creation. *)
Lemma validate_then_create_policy {R} (res : AdminResource.t V R) drawn actor errors errors' now s v s0
    drawn' operation key request (create : M State GatewayError.t R) later :
  reads_config errors → reads_config errors' → errors' s0 = errors s0 →
  (∀ s', errors' s' = [] → ∃ x s'', create s' = (Ok x, s'')) →
  validate_policy res drawn actor errors now s = (Ok v, s0) →
  validate_idempotency_key key = Ok tt →
  GatewayStore.idempotency_records (GatewayState.store s0)
    !! (AuthenticatedActor.tenant_id actor, idempotency_scope_key operation key) = None →
  (authorize_admin_route (Drawn.decision drawn') actor "POST" (AdminResource.list_path res) "*" later
     (GatewayState.store s0)).1 = Ok tt →
  let r := (create_policy res drawn' actor operation key request errors' create later s0).1 in
  config_of s0 = config_of s
  ∧ ∃ diagnostic,
      GatewayStore.validation_diagnostics (GatewayState.store s0)
      = GatewayStore.validation_diagnostics (GatewayState.store s) ++ [diagnostic]
      ∧ says_valid (ValidationDiagnosticRecord.valid diagnostic) v
      ∧ (ValidationDiagnosticRecord.valid diagnostic = true ↔ errors' s0 = [])
      ∧ if ValidationDiagnosticRecord.valid diagnostic then ∃ v', r = Ok v'
        else r = Err (GatewayError.BadRequest "validation_failed").
Proof.
  intros Hr Hr' He Hm Hv Hk Hnew Ha.
  apply validate_policy_run in Hv as (Hc & diagnostic & Hd & Hsays & Hvalid); [|done].
  destruct (create_policy_run res drawn' actor operation key request errors' create later s0
              Hr' Hk Ha Hnew Hm) as [Hok Hbad].
  split; [done|]. exists diagnostic. split; [done|]. split; [done|].
  rewrite He, (Hr _ _ Hc) in Hok, Hbad. rewrite He, (Hr _ _ Hc). split; [done|].
  destruct (ValidationDiagnosticRecord.valid diagnostic); [by apply Hok, Hvalid|].
  apply Hbad. by intros ?%Hvalid.
Qed.

(** What passes the dry run is created. *)
Lemma validated_sku_created uuid actor r now s :
  pricing_sku_validation_errors actor r now s = [] →
  ∃ x s', PolicyAdmin.create_pricing_sku uuid (new_pricing_sku actor r now) now s = (Ok x, s').
Proof.
  rewrite sku_checked. unfold PolicyAdmin.create_pricing_sku.
  destruct (validate_pricing_sku_request _ _); [|done]. by eexists _, _.
Qed.
Lemma validated_budget_created uuid actor r now s :
  budget_policy_validation_errors actor r s = [] →
  ∃ x s', PolicyAdmin.create_budget_policy uuid (new_budget_policy actor r) now s = (Ok x, s').
Proof.
  rewrite budget_checked. unfold PolicyAdmin.create_budget_policy.
  destruct (validate_budget_policy_request _ _) as [[]|]; [|done]. by eexists _, _.
Qed.
Lemma validated_quota_created uuid actor r now s :
  quota_policy_validation_errors actor r s = [] →
  ∃ x s', PolicyAdmin.create_quota_policy uuid (new_quota_policy actor r) now s = (Ok x, s').
Proof.
  rewrite quota_checked. unfold PolicyAdmin.create_quota_policy.
  destruct (validate_quota_policy_request _ _) as [[]|]; [|done]. by eexists _, _.
Qed.

Lemma start_read actor r now later s :
  same_start (NewPricingSku r) now later →
  pricing_sku_validation_errors actor r later s = pricing_sku_validation_errors actor r now s.
Proof.
  unfold same_start, pricing_sku_validation_errors.
  destruct (AdminCreatePricingSkuRequest.effective_from r); [done|]. by intros ->.
Qed.

(** The store, asked on its own. *)
Definition store_accepts (uuid : string) actor (request : PolicyRequest) now s : bool :=
  match request with
  | NewPricingSku r => is_ok (PolicyAdmin.create_pricing_sku uuid (new_pricing_sku actor r now) now s).1
  | NewBudgetPolicy r => is_ok (PolicyAdmin.create_budget_policy uuid (new_budget_policy actor r) now s).1
  | NewQuotaPolicy r => is_ok (PolicyAdmin.create_quota_policy uuid (new_quota_policy actor r) now s).1
  end.

Definition policy_errors actor (request : PolicyRequest) now s : list V :=
  match request with
  | NewPricingSku r => pricing_sku_validation_errors actor r now s
  | NewBudgetPolicy r => budget_policy_validation_errors actor r s
  | NewQuotaPolicy r => quota_policy_validation_errors actor r s
  end.

(** The two sets of checks agree. *)
Lemma store_accepts_iff uuid actor request now s :
  policy_errors actor request now s = [] ↔ store_accepts uuid actor request now s = true.
Proof.
  destruct request as [r|r|r]; simpl; [rewrite sku_checked|rewrite budget_checked|rewrite quota_checked].
  - unfold PolicyAdmin.create_pricing_sku. by destruct (validate_pricing_sku_request _ _).
  - unfold PolicyAdmin.create_budget_policy. by destruct (validate_budget_policy_request _ _) as [[]|].
  - unfold PolicyAdmin.create_quota_policy. by destruct (validate_quota_policy_request _ _) as [[]|].
Qed.

(** C17. The dry run of a price, a budget or a quota decides its creation: when the
    [:validate] route answers, it has recorded exactly one diagnostic, whose verdict
    the answer carries, and changed neither the catalog nor a policy; and a creation
    with the same request in that state, with a well-formed new key by a caller who
    may create, succeeds if the verdict is valid and is refused with
    [validation_failed] if it is not.  The verdict is valid exactly when the store,
    asked on its own, accepts the request.  (A SKU without a start takes the clock
    for it, so there the two must read the same time.) *)
Theorem policy_dry_run_decides_creation drawn actor request now s v s0 drawn' later :
  serve_validate_policy drawn actor request now s = (Ok v, s0) →
  same_start request now later →
  validate_idempotency_key (policy_request_key request) = Ok tt →
  GatewayStore.idempotency_records (GatewayState.store s0)
    !! (AuthenticatedActor.tenant_id actor,
        idempotency_scope_key (policy_request_operation request) (policy_request_key request)) = None →
  (authorize_admin_route (Drawn.decision drawn') actor "POST" (policy_request_path request) "*" later
     (GatewayState.store s0)).1 = Ok tt →
  config_of s0 = config_of s
  ∧ ∃ diagnostic,
      GatewayStore.validation_diagnostics (GatewayState.store s0)
      = GatewayStore.validation_diagnostics (GatewayState.store s) ++ [diagnostic]
      ∧ says_valid (ValidationDiagnosticRecord.valid diagnostic) v
      ∧ (ValidationDiagnosticRecord.valid diagnostic = true
         ↔ store_accepts (Drawn.resource drawn') actor request later s0 = true)
      ∧ if ValidationDiagnosticRecord.valid diagnostic
        then ∃ v', (serve_create_policy drawn' actor request later s0).1 = Ok v'
        else (serve_create_policy drawn' actor request later s0).1
             = Err (GatewayError.BadRequest "validation_failed").
Proof.
  intros Hv Hstart Hk Hnew Ha. setoid_rewrite <- store_accepts_iff.
  destruct request as [r|r|r]; simpl in *.
  - eapply validate_then_create_policy;
      [apply pricing_errors_read|apply pricing_errors_read|by apply start_read| |exact Hv|done..].
    intros s'. apply validated_sku_created.
  - eapply validate_then_create_policy; [apply budget_errors_read|apply budget_errors_read|done| |exact Hv|done..].
    intros s'. apply validated_budget_created.
  - eapply validate_then_create_policy; [apply quota_errors_read|apply quota_errors_read|done| |exact Hv|done..].
    intros s'. apply validated_quota_created.
Qed.
End dry_run.

(** ** Which quotas, and when they are reached *)

(** The kinds the preflight acts on. *)
Definition quota_counts_requests (p : QuotaPolicyRecord.t) : bool :=
  quota_is p "request_rate" "accepted_preflight_request"
  || quota_is p "concurrent_request" "preflight_acquire"
  || quota_is p "concurrent_stream" "stream_start".
Definition quota_reads_counter (p : QuotaPolicyRecord.t) : bool :=
  quota_is p "token_actual_rate" "terminal_usage_event" || quota_is p "stream_duration" "stream_start".
Definition quota_limits_body (p : QuotaPolicyRecord.t) : bool :=
  quota_is p "request_body_bytes" "request_body_bytes".
Definition quota_enforced (p : QuotaPolicyRecord.t) : bool :=
  quota_counts_requests p || quota_reads_counter p || quota_limits_body p.

Section binding.
Context `{ChronoCalendar} {S : Type} `{RuntimePolicyRepository S} `{!PolicyRepositoryLaws S}.
Implicit Types (s : S) (p : QuotaPolicyRecord.t).

(** A body over the limit, or a counter at it. *)
Definition quota_reached p (bytes : Z) (now : DateTime) s : Prop :=
  if quota_limits_body p then (QuotaPolicyRecord.limit p < usize_to_i64 bytes)%Z
  else (QuotaPolicyRecord.limit p ≤ PolicyView.counter (view s) (runtime_quota_counter_key p now))%Z.

Definition refused {A} (r : result GatewayError.t A * S) : Prop :=
  ∃ reason, r.1 = Err (GatewayError.QuotaExceeded reason).

(** ** Quotas checked before anything is counted *)

Lemma current_limit_run p now s :
  (enforce_runtime_quota_current_limit p now s = (Ok tt, s)
   ∧ (quota_reads_counter p = true →
      PolicyView.counter (view s) (runtime_quota_counter_key p now) < QuotaPolicyRecord.limit p)%Z)
  ∨ refused (enforce_runtime_quota_current_limit p now s).
Proof.
  unfold enforce_runtime_quota_current_limit, runtime_quota_current_value, quota_reads_counter, refused,
    mbind, M_bind, act.
  destruct (quota_is p "token_actual_rate" _), (quota_is p "stream_duration" _); simpl;
    repeat (rewrite counter_law; simpl; destruct (_ <=? _)%Z eqn:?; simpl); btrue;
    first [by right; eexists | left; split; [done|intros ?; first [done|lia]]].
Qed.

Lemma limits_refuse input policies p s :
  RuntimeQuotaPreflightInput.hot_state_available input = true →
  p ∈ policies →
  runtime_quota_policy_skips_request p (RuntimeQuotaPreflightInput.replay_case input) = false →
  quota_reads_counter p || quota_limits_body p = true →
  quota_reached p (RuntimeQuotaPreflightInput.request_body_bytes input)
    (RuntimeQuotaPreflightInput.now input) s →
  refused (enforce_runtime_quota_preflight_limits input policies s).
Proof.
  intros Hav Hin Hskip Hkind Hat. unfold refused.
  induction policies as [|q qs IH]; [by apply not_elem_of_nil in Hin|].
  cbn [enforce_runtime_quota_preflight_limits]. rewrite Hav.
  destruct (runtime_quota_policy_skips_request q _) eqn:Eskip.
  { apply elem_of_cons in Hin as [->|Hin]; [congruence|by apply IH]. }
  unfold mbind, M_bind, lift.
  destruct (enforce_runtime_quota_body_limit q _) as [[]|e] eqn:Eb.
  2: { unfold enforce_runtime_quota_body_limit in Eb. case_match; simplify_eq. by eexists. }
  destruct (current_limit_run q (RuntimeQuotaPreflightInput.now input) s) as [[-> Hlt]|[reason Hr]].
  2: { destruct (enforce_runtime_quota_current_limit q _ s) as [r s']. simpl in Hr. subst r. by eexists. }
  apply elem_of_cons in Hin as [->|Hin]; [exfalso|by apply IH].
  unfold quota_reached in Hat. unfold enforce_runtime_quota_body_limit in Eb.
  fold (quota_limits_body q) in Eb. destruct (quota_limits_body q); simpl in *.
  - destruct (_ <? _)%Z eqn:E; btrue; [done|lia].
  - rewrite orb_false_r in Hkind. specialize (Hlt Hkind). lia.
Qed.

Lemma limits_errors input policies s :
  is_ok (enforce_runtime_quota_preflight_limits input policies s).1 = false →
  refused (enforce_runtime_quota_preflight_limits input policies s).
Proof.
  unfold refused. induction policies as [|q qs IH]; [done|].
  cbn [enforce_runtime_quota_preflight_limits].
  destruct (runtime_quota_policy_skips_request q _); [done|]. unfold mbind, M_bind, lift.
  destruct (enforce_runtime_quota_body_limit q _) as [[]|e] eqn:Eb.
  2: { unfold enforce_runtime_quota_body_limit in Eb. case_match; simplify_eq. by eexists. }
  destruct (RuntimeQuotaPreflightInput.hot_state_available input); [|done].
  destruct (current_limit_run q (RuntimeQuotaPreflightInput.now input) s) as [[-> _]|[reason Hr]]; [done|].
  destruct (enforce_runtime_quota_current_limit q _ s) as [r s']. simpl in Hr. subst r. by eexists.
Qed.

(** ** Quotas that count the request *)

(** A counter that one more unit moves up never moves below a bound it has passed. *)
Lemma adjust_raises key k bound s :
  (bound ≤ i64_max)%Z → (0 ≤ bound ≤ PolicyView.counter (view s) k)%Z →
  (bound ≤ PolicyView.counter (view (adjust_runtime_policy_counter key 1 s).2) k)%Z.
Proof.
  intros Hb Hk. pose proof (adjust_law key 1 s) as [_ (_ & Hc & _)]. rewrite Hc. simpl.
  case_bool_decide; [subst|lia]. unfold adjusted, saturating_add, clamp_i64, i64_min in *. lia.
Qed.

Lemma increment_raises key limit k bound s :
  (bound ≤ i64_max)%Z → (0 ≤ bound ≤ PolicyView.counter (view s) k)%Z →
  (bound ≤ PolicyView.counter (view (increment_runtime_quota_counter key 1 limit s).2) k)%Z.
Proof.
  intros Hb Hk. pose proof (increment_law key 1 limit s) as [_ (_ & Hc & _)]. rewrite Hc. simpl.
  case_bool_decide; [subst|lia]. unfold saturating_add, clamp_i64, i64_min in *. lia.
Qed.

(** A slot beyond the limit is refused; any other leaves the counters no lower. *)
Lemma slot_run p reason now s :
  match reserve_runtime_quota_counter p 1 reason now s with
  | (Err e, _) => e = GatewayError.QuotaExceeded reason
  | (Ok _, s') => s' = (adjust_runtime_policy_counter (runtime_quota_counter_key p now) 1 s).2
      ∧ (adjusted (PolicyView.counter (view s) (runtime_quota_counter_key p now)) 1
         ≤ QuotaPolicyRecord.limit p)%Z
  end.
Proof.
  unfold reserve_runtime_quota_counter. cbv zeta. rewrite run_act.
  pose proof (adjust_law (runtime_quota_counter_key p now) 1 s) as [-> _].
  destruct (_ <? _)%Z eqn:E; btrue; [by rewrite run_act|]. split; [done|lia].
Qed.

Lemma released_refused rs reason s :
  refused ((release_runtime_quota_reservations rs ≫= λ _, throw (A:=list RuntimeQuotaReservation.t)
              (GatewayError.QuotaExceeded reason)) s).
Proof.
  unfold mbind, M_bind. destruct (release_quota_total rs s) as [s' ->]. by eexists.
Qed.

Lemma reserve_refuses input policies p rs s :
  RuntimeQuotaPreflightInput.hot_state_available input = true →
  p ∈ policies →
  runtime_quota_policy_skips_request p (RuntimeQuotaPreflightInput.replay_case input) = false →
  quota_counts_requests p = true →
  (0 ≤ QuotaPolicyRecord.limit p < i64_max)%Z →
  (QuotaPolicyRecord.limit p
   ≤ PolicyView.counter (view s) (runtime_quota_counter_key p (RuntimeQuotaPreflightInput.now input)))%Z →
  refused (reserve_runtime_quota_preflight input policies rs s).
Proof.
  intros Hav Hin Hskip Hkind Hlim. set (now := RuntimeQuotaPreflightInput.now input).
  set (key := runtime_quota_counter_key p now).
  revert rs s. induction policies as [|q qs IH]; intros rs s Hat; [by apply not_elem_of_nil in Hin|].
  apply elem_of_cons in Hin.
  assert (∀ reason, refused (or_release (reserve_runtime_quota_counter q 1 reason now) rs
      (λ r, reserve_runtime_quota_preflight input qs (rs ++ [r])) s)) as Hslot.
  { intros reason. unfold or_release. pose proof (slot_run q reason now s) as Hrun.
    destruct (reserve_runtime_quota_counter q 1 reason now s) as [[r|e] s'].
    - destruct Hrun as [-> Hle]. destruct Hin as [<-|Hin].
      + exfalso. fold key in Hle. unfold adjusted, saturating_add, clamp_i64, i64_min in Hle. lia.
      + apply IH; [done|]. apply adjust_raises; lia.
    - subst e. apply released_refused. }
  cbn [reserve_runtime_quota_preflight]. fold now. rewrite Hav, andb_false_r.
  destruct (runtime_quota_policy_skips_request q _) eqn:Eskip;
    [destruct Hin as [<-|Hin]; [congruence|by apply IH]|].
  destruct (quota_is q "request_rate" _) eqn:Erate.
  { rewrite run_act.
    pose proof (increment_law (runtime_quota_counter_key q now) 1 (QuotaPolicyRecord.limit q) s)
      as [-> _]. simpl.
    destruct (_ <=? _)%Z eqn:E; btrue; simpl; [|apply released_refused].
    destruct Hin as [<-|Hin].
    - exfalso. fold key in E. unfold saturating_add, clamp_i64, i64_min in E. lia.
    - apply IH; [done|]. apply increment_raises; lia. }
  destruct (quota_is q "concurrent_request" _) eqn:Ereq; [apply Hslot|].
  destruct (quota_is q "concurrent_stream" _) eqn:Estr; [apply Hslot|].
  destruct Hin as [<-|Hin]; [|by apply IH]. unfold quota_counts_requests in Hkind.
  by rewrite Erate, Ereq, Estr in Hkind.
Qed.

(** ** The whole preflight *)

Lemma quota_preflight_refuses {V} (data : PolicyData.t V) actor replay_case selected bytes now id p s :
  PolicyData.quota_policies data !! id = Some p →
  QuotaPolicyRecord.tenant_id p = AuthenticatedActor.tenant_id actor →
  QuotaPolicyRecord.status p = ResourceStatus.Active →
  runtime_quota_policy_matches_request p actor replay_case selected = true →
  runtime_quota_policy_skips_request p replay_case = false →
  quota_enforced p = true →
  (0 ≤ QuotaPolicyRecord.limit p < i64_max)%Z →
  PolicyView.available (view s) = true →
  quota_reached p bytes now s →
  refused (enforce_runtime_quota_preflight data actor replay_case selected bytes now s).
Proof.
  intros Hp Ht Hst Hm Hskip Hkind Hlim Hav Hat. unfold enforce_runtime_quota_preflight.
  set (policies := List.filter _ _). rewrite run_gets, available_law, Hav.
  assert (p ∈ policies) as Hin.
  { apply filter_iff. split; [|by rewrite Hm, Hst].
    apply sort_by_elem, filter_iff. split; [|by rewrite Ht, bool_decide_true].
    apply list_elem_of_fmap. exists (id, p). split; [done|]. by apply elem_of_map_to_list. }
  set (input := RuntimeQuotaPreflightInput.mk _ _ _ _). unfold mbind, M_bind.
  pose proof (quota_limits_pure input policies s) as Hpure.
  destruct (quota_reads_counter p || quota_limits_body p) eqn:Ek.
  - destruct (limits_refuse input policies p s) as [reason Hr]; [done..|].
    destruct (enforce_runtime_quota_preflight_limits input policies s) as [r s']. simpl in Hr. subst r.
    by eexists.
  - destruct (enforce_runtime_quota_preflight_limits input policies s) as [[[]|e] s'] eqn:El;
      simpl in Hpure; subst s'.
    + apply orb_false_iff in Ek as [E1 E2]. apply (reserve_refuses input policies p); try done.
      * unfold quota_enforced in Hkind. by rewrite E1, E2, !orb_false_r in Hkind.
      * unfold quota_reached in Hat. by rewrite E2 in Hat.
    + destruct (limits_errors input policies s) as [reason Hr]; [by rewrite El|].
      rewrite El in Hr. injection Hr as ->. by eexists.
Qed.

(** Still available, and no counter below a bound it had passed. *)
Definition no_lower s s' : Prop :=
  PolicyView.available (view s) = true →
  PolicyView.available (view s') = true
  ∧ ∀ k bound, (bound ≤ i64_max)%Z → (0 ≤ bound ≤ PolicyView.counter (view s) k)%Z →
      (bound ≤ PolicyView.counter (view s') k)%Z.

Lemma no_lower_refl s : no_lower s s.
Proof. intros ?. split; [done|]. intros. lia. Qed.
Lemma no_lower_trans s s1 s2 : no_lower s s1 → no_lower s1 s2 → no_lower s s2.
Proof.
  intros N1 N2 Hav. destruct (N1 Hav) as [Hav1 C1]. destruct (N2 Hav1) as [Hav2 C2].
  split; [done|]. intros k bound Hb Hk. apply C2; [done|]. split; [lia|]. by apply C1.
Qed.

(** Budgets that admit a request lower no counter. *)
Lemma reserve_budget_raises uuid actor policy current limit now r s s' :
  reserve_runtime_request_budget uuid actor policy current limit now s = (Ok r, s') → no_lower s s'.
Proof.
  unfold reserve_runtime_request_budget, no_lower. rewrite run_gets, available_law.
  intros Hrun Hav. rewrite Hav in Hrun. simpl in Hrun.
  rewrite run_act in Hrun. set (key := runtime_budget_reservation_key policy now) in *.
  pose proof (adjust_law key 1 s) as [_ (Ha & _)].
  destruct (_ <? _)%Z; rewrite run_act in Hrun; [done|]. injection Hrun as _ <-.
  pose proof (record_law (RuntimeBudgetLeaseRecord.mk (new_prefixed_id "bls" uuid)
    (BudgetPolicyRecord.tenant_id policy) (BudgetPolicyRecord.budget_policy_id policy) key
    (AuthenticatedActor.request_id actor) 1 "reserved"
    (now + duration_seconds RUNTIME_BUDGET_LEASE_TTL_SECONDS)%Z now now)
    (adjust_runtime_policy_counter key 1 s).2) as (Ha' & Hc' & _).
  rewrite Ha'. simpl. rewrite Ha. split; [done|]. intros k bound Hb Hk. rewrite Hc'. simpl.
  by apply adjust_raises.
Qed.

Lemma budget_loop_raises uuid i release_now actor selected now buckets policies rs rs' s s' :
  budget_preflight_loop uuid i release_now actor selected now buckets policies rs s = (Ok rs', s') →
  no_lower s s'.
Proof.
  revert i rs s. induction policies as [|p ps IH]; intros i rs s.
  { intros [= _ <-]. apply no_lower_refl. }
  cbn [budget_preflight_loop]. destruct (BudgetPolicyRecord.hard_limit p) as [limit|]; [|by apply IH].
  destruct (_ || _); [by apply IH|]. cbv zeta. destruct (if _ ==? "requests" then _ else _).
  { unfold mbind, M_bind. destruct (release_budget_total release_now rs s) as [? ->]. done. }
  destruct (_ ==? "requests"); [|by apply IH].
  intros (r & s1 & Hr%reserve_budget_raises & Hrun)%bind_run.
  eapply no_lower_trans; [exact Hr|by eapply IH].
Qed.

(** A reached quota stops the request it covers. *)
Lemma reached_quota_stops {V} (data : PolicyData.t V) uuid release_now actor replay_case selected bytes
    now id p s preflight s' :
  PolicyData.quota_policies data !! id = Some p →
  QuotaPolicyRecord.tenant_id p = AuthenticatedActor.tenant_id actor →
  QuotaPolicyRecord.status p = ResourceStatus.Active →
  runtime_quota_policy_matches_request p actor replay_case selected = true →
  runtime_quota_policy_skips_request p replay_case = false →
  quota_enforced p = true →
  (0 ≤ QuotaPolicyRecord.limit p < i64_max)%Z →
  PolicyView.available (view s) = true →
  enforce_runtime_policy_preflight data uuid release_now actor replay_case selected bytes now s
    = (Ok preflight, s') →
  ¬ quota_reached p bytes now s.
Proof.
  intros Hp Ht Hst Hm Hskip Hkind Hlim Hav Hrun Hat. unfold enforce_runtime_policy_preflight in Hrun.
  destruct (enforce_runtime_budget_preflight data uuid release_now actor selected now s)
    as [[bs|e] s1] eqn:Eb; [|done].
  assert (PolicyView.available (view s1) = true ∧ quota_reached p bytes now s1) as [Hav1 Hat1].
  { unfold enforce_runtime_budget_preflight in Eb.
    destruct (active_force_budget_block_policy data actor selected now); [done|].
    destruct (budget_loop_raises _ _ _ _ _ _ _ _ _ _ _ _ Eb Hav) as [Hav1 Hraise].
    split; [done|]. unfold quota_reached in *. destruct (quota_limits_body p); [done|].
    apply Hraise; lia. }
  destruct (quota_preflight_refuses data actor replay_case selected bytes now id p s1)
    as [reason Hr]; [done..|].
  destruct (enforce_runtime_quota_preflight data actor replay_case selected bytes now s1) as [r s2].
  simpl in Hr. subst r. unfold mbind, M_bind in Hrun.
  by destruct (release_budget_total release_now bs s2) as [? E]; rewrite E in Hrun.
Qed.
End binding.

(** ** From the admin handler to the requests *)

(** Every kind the admin interface accepts is enforced, but for estimates. *)
Lemma supported_source_enforced kind source p :
  quota_counter_increment_source_supported kind source = true →
  QuotaPolicyRecord.counter_kind p = kind → QuotaPolicyRecord.increment_source p = source →
  kind ≠ "token_estimate_rate" → quota_enforced p = true.
Proof.
  unfold quota_counter_increment_source_supported, is_one_of, quota_enforced, quota_counts_requests,
    quota_reads_counter, quota_limits_body, quota_is. intros Hs -> -> Hne.
  repeat match type of Hs with
  | (if bool_decide ?P then _ else _) = true =>
      destruct (decide P) as [E|];
      [rewrite (bool_decide_true P) in Hs by done; clear -Hs Hne E
      |rewrite (bool_decide_false P) in Hs by done]
  end; [..|done]; apply bool_decide_eq_true in Hs as ->.
  all: try (subst kind; done).
  apply elem_of_cons in E as [->|E%list_elem_of_singleton]; [|subst kind]; done.
Qed.

Lemma accepted_quota_enforced request :
  is_ok (validate_quota_policy_shape request) = true →
  (0 < CreateQuotaPolicyRequest.limit request)%Z
  ∧ quota_counter_increment_source_supported (CreateQuotaPolicyRequest.counter_kind request)
      (CreateQuotaPolicyRequest.increment_source request) = true.
Proof.
  unfold validate_quota_policy_shape. rewrite !ok_then, !ok_refuse. intros Hok.
  repeat (apply andb_true_iff in Hok as [? Hok]). btrue. split; [lia|done].
Qed.

Section created.
Context {V : Type} `{JsonLibrary V} `{!JsonShape V} `{!JsonText V} `{!JsonParse V} `{!CatalogJson V}.
Context `{UriLibrary} `{UrlLibrary} `{CedarParser} `{ChronoCalendar} `{AuthLibrary} `{ChronoDisplay}
  `{Sha256Library}.
Context {S : Type} `{RuntimePolicyRepository S} `{!PolicyRepositoryLaws S}.
Context (config : GatewayConfig.t) (postgres : option (PostgresGatewayStore.t V)).
Context (draws : IngressDraws.t) (clock : IngressClock.t).
Abbreviation State := (GatewayState.t V S).
Implicit Types (s : State) (actor : AuthenticatedActor.t) (now : DateTime) (drawn : Drawn.t).

(** The record a creation stores. *)
Definition stored_quota drawn actor (request : AdminCreateQuotaPolicyRequest.t) (scope : Scope) now
    : QuotaPolicyRecord.t :=
  QuotaPolicyRecord.mk (new_prefixed_id "qp" (Drawn.resource drawn))
    (AuthenticatedActor.tenant_id actor) (AdminCreateQuotaPolicyRequest.scope_kind request)
    (AdminCreateQuotaPolicyRequest.scope_id request) scope.1 scope.2
    (AdminCreateQuotaPolicyRequest.counter_kind request) (AdminCreateQuotaPolicyRequest.limit request)
    (AdminCreateQuotaPolicyRequest.burst_limit request) (AdminCreateQuotaPolicyRequest.window request)
    (AdminCreateQuotaPolicyRequest.increment_source request)
    (AdminCreateQuotaPolicyRequest.loss_behavior request) ResourceStatus.Active 1 1
    (actor_principal_or_actor_id actor) now now.

(** A creation under a new key stores a policy the store has checked. *)
Lemma quota_created drawn actor request now s answer s1 :
  create_quota_policy drawn actor request now s = (Ok answer, s1) →
  GatewayStore.idempotency_records (GatewayState.store s)
    !! (AuthenticatedActor.tenant_id actor, idempotency_scope_key "quota_policies:create"
          (AdminCreateQuotaPolicyRequest.idempotency_key request)) = None →
  ∃ scope,
    validate_quota_policy_scope (AuthenticatedActor.tenant_id actor) (new_quota_policy actor request)
      (draft_of s) = Ok scope
    ∧ is_ok (validate_quota_policy_shape (new_quota_policy actor request)) = true
    ∧ GatewayState.quota_policies s1
      = <[new_prefixed_id "qp" (Drawn.resource drawn) := stored_quota drawn actor request scope now]>
          (GatewayState.quota_policies s).
Proof.
  intros Hrun Hnew. unfold create_quota_policy, create_policy in Hrun.
  apply bind_run in Hrun as ([] & sa & [= _ <-] & Hrun).
  apply bind_run in Hrun as ([] & sb & Ha & Hrun). unfold on_store in Ha.
  destruct (authorize_admin_route _ _ _ _ _ _ _) as [ra ga] eqn:E.
  apply authorize_admin_route_result in E as [ds ->]. injection Ha as -> <-.
  apply bind_run in Hrun as (replay & sc & Hr & Hrun). unfold on_store, idempotency_response in Hr.
  simpl in Hr. rewrite Hnew in Hr. injection Hr as <- <-.
  apply bind_run in Hrun as (response & sd & Hc & Hrun). unfold create_and_audit in Hc.
  apply bind_run in Hc as ([] & se & [= _ <-] & Hc).
  apply bind_run in Hc as (record & sf & Hcreate & Hc).
  assert (GatewayState.quota_policies s1 = GatewayState.quota_policies sf) as ->.
  { apply bind_run in Hc as (id & sg & [= _ <-] & [= _ <-]).
    by apply bind_run in Hrun as ([] & sh & [= <-] & [= _ <-]). }
  clear Hc Hrun. unfold PolicyAdmin.create_quota_policy, validate_quota_policy_request in Hcreate.
  simpl in Hcreate. unfold draft_of in *. simpl in Hcreate.
  destruct (validate_quota_policy_scope _ _ _) as [scope|]; [|done]. simpl in Hcreate.
  destruct (validate_quota_policy_shape _) as [[]|]; [|done]. simpl in Hcreate.
  destruct (existsb _ _); [done|]. simpl in Hcreate. destruct scope as [o pr]. injection Hcreate as _ <-.
  exists (o, pr). by split_and!.
Qed.

(** C18. A quota created through the admin interface binds the requests it covers.  A
    creation under a new key that answers has stored an active policy with the fields of
    the request, and from then on (as long as that policy stays as it is and the counters
    are available) a request of the tenant that the policy's scope covers is only sent on
    to a provider while the policy is not used up: its counter below the limit, or for
    body quotas its body within the limit; no matter which other budgets and quotas there
    are, and in which order they are tried.  Excepted are quotas on estimated tokens,
    limits at the largest integer and, for the quotas on streams, requests that do not
    stream. *)
Theorem created_quota_binds_requests drawn actor request now s answer s1 :
  create_quota_policy drawn actor request now s = (Ok answer, s1) →
  GatewayStore.idempotency_records (GatewayState.store s)
    !! (AuthenticatedActor.tenant_id actor, idempotency_scope_key "quota_policies:create"
          (AdminCreateQuotaPolicyRequest.idempotency_key request)) = None →
  let id := new_prefixed_id "qp" (Drawn.resource drawn) in
  ∃ scope, let policy := stored_quota drawn actor request scope now in
    GatewayState.quota_policies s1 !! id = Some policy
    ∧ (QuotaPolicyRecord.counter_kind policy ≠ "token_estimate_rate" →
       (QuotaPolicyRecord.limit policy < i64_max)%Z →
       ∀ headers ingress parsed s2 p s3,
         GatewayState.quota_policies s2 !! id = Some policy →
         PolicyView.available (view (GatewayState.policy s2)) = true →
         parse_ingress config ingress = Ok parsed →
         AuthenticatedActor.tenant_id (Parsed.actor parsed) = AuthenticatedActor.tenant_id actor →
         prepare_ingress config postgres draws clock headers ingress s2 = (Ok p, s3) →
         runtime_quota_policy_matches_request policy (Parsed.actor parsed)
           (Parsed.replay_case parsed) (RuntimeRouteTarget.selected_route (Prepared.route_target p))
           = true →
         runtime_quota_policy_skips_request policy (Parsed.replay_case parsed) = false →
         ¬ quota_reached policy (Parsed.request_body_bytes parsed) (IngressClock.checked_at clock)
             (GatewayState.policy s2)).
Proof.
  intros Hrun Hnew id.
  destruct (quota_created _ _ _ _ _ _ _ Hrun Hnew) as (scope & _ & Hshape & Hq).
  exists scope. intros policy. split; [rewrite Hq; apply lookup_insert_eq|].
  intros Hne Hlim headers ingress parsed s2 p s3 Hp Hav Hparse Ht Hprep Hm Hskip.
  apply prepared_admitted in Hprep as [(n & Hparse' & s0 & p' & _ & Hpf & _) _ _ _ _ _].
  rewrite Hparse in Hparse'. injection Hparse' as ->. unfold preflight_run in Hpf. simpl in *.
  destruct (accepted_quota_enforced _ Hshape) as [Hpos Hsup].
  eapply (reached_quota_stops (GatewayState.policy_data s2)); try done.
  - by eapply supported_source_enforced.
  - simpl in *. lia.
Qed.
End created.

(** ** A quota of the sample tenant *)

Import (hints) IngressSample.

Module QuotaSample.
#[export] Instance sha : Sha256Library := λ text, (Z.of_nat (String.length text) mod 256)%Z :: repeat 7%Z 31.
#[export] Instance chrono : ChronoDisplay := λ _, "".

(** The tenant of the ingress samples, whose user may also write quotas. *)
Definition grant (action : GatewayAction.t) (kind : string) : ActionGrant.t :=
  ActionGrant.mk "ten" (Some "org") (Some "proj") "user1" action kind "*".
Definition start : GatewayState.t Tree.t InMemoryPolicyStore.t :=
  let s := IngressSample.active in
  let g := GatewayState.store s in
  GatewayState.set_store s
    (GatewayStore.mk (GatewayStore.draft g) (GatewayStore.config g) (GatewayStore.budget_policies g)
       (grant GatewayAction.QuotaPolicyWrite "QuotaPolicy" :: grant GatewayAction.QuotaPolicyRead "QuotaPolicy"
        :: grant GatewayAction.BudgetPolicyWrite "BudgetPolicy" :: GatewayStore.action_grants g)
       [] [] [] ∅ ∅ (GatewayStore.hot_state g)).
Definition drawn (n : string) : Drawn.t := Drawn.mk n n n n n n.
Definition request (kind window source : string) : AdminCreateQuotaPolicyRequest.t :=
  AdminCreateQuotaPolicyRequest.mk "key-1" "tenant" "ten" kind 1 None window source "fail_closed".
Definition rate : AdminCreateQuotaPolicyRequest.t :=
  request "request_rate" "fixed" "accepted_preflight_request".
Definition created : GatewayState.t Tree.t InMemoryPolicyStore.t :=
  (create_quota_policy (drawn "1") IngressSample.actor rate 5 start).2.
End QuotaSample.
Import (hints) QuotaSample.

Definition prepare s :=
  prepare_ingress IngressSample.config (IngressSample.postgres (Ok tt)) IngressSample.draws
    IngressSample.clock IngressSample.headers IngressSample.request s.

Lemma created_run :
  ∃ answer, create_quota_policy (QuotaSample.drawn "1") IngressSample.actor QuotaSample.rate 5
              QuotaSample.start = (Ok answer, QuotaSample.created).
Proof. eexists. vm_compute. reflexivity. Qed.

Lemma created_quota_binds_requests_witness :
  ∃ p s3 policy, prepare QuotaSample.created = (Ok p, s3)
    ∧ GatewayState.quota_policies QuotaSample.created !! "qp_1" = Some policy
    ∧ ¬ (QuotaPolicyRecord.limit policy
         ≤ IngressSample.counter QuotaSample.created (runtime_quota_counter_key policy 6))%Z.
Proof.
  destruct created_run as [answer Hrun].
  destruct (created_quota_binds_requests IngressSample.config (IngressSample.postgres (Ok tt))
    IngressSample.draws IngressSample.clock _ _ _ _ _ _ _ Hrun ltac:(by vm_compute))
    as (scope & Hq & Hbind).
  assert (∃ p s3, prepare QuotaSample.created = (Ok p, s3) ∧ true = true) as (p & s3 & Hp & _)
    by (apply (passes_run (λ p s3, true)); vm_compute; reflexivity).
  assert (∃ parsed, parse_ingress IngressSample.config IngressSample.request = Ok parsed
    ∧ AuthenticatedActor.tenant_id (Parsed.actor parsed) = "ten")
    as (parsed & Hparse & Ht) by (eexists; split; vm_compute; reflexivity).
  exists p, s3. eexists. split; [exact Hp|]. split; [exact Hq|].
  assert (runtime_quota_policy_matches_request
    (stored_quota (QuotaSample.drawn "1") IngressSample.actor QuotaSample.rate scope 5)
    (Parsed.actor parsed) (Parsed.replay_case parsed)
    (RuntimeRouteTarget.selected_route (Prepared.route_target p)) = true) as Hm.
  { unfold runtime_quota_policy_matches_request. simpl. by rewrite Ht. }
  exact (Hbind ltac:(done) ltac:(done) IngressSample.headers IngressSample.request parsed
    QuotaSample.created p s3 Hq eq_refl Hparse Ht Hp Hm eq_refl).
Defined.

(** ** Policies that are accepted and not enforced *)

Section ignored.
Context `{ChronoCalendar} {S : Type} `{RuntimePolicyRepository S}.

(** Quotas on estimated tokens play no part in the preflight. *)
Theorem estimate_quotas_ignored input policies rs (s : S) :
  let counted := List.filter (λ p, QuotaPolicyRecord.counter_kind p !=? "token_estimate_rate") policies in
  enforce_runtime_quota_preflight_limits input policies s
    = enforce_runtime_quota_preflight_limits input counted s
  ∧ reserve_runtime_quota_preflight input policies rs s
    = reserve_runtime_quota_preflight input counted rs s.
Proof.
  cbv zeta. split.
  - revert s. induction policies as [|p ps IH]; intros s; [done|].
    cbn [List.filter enforce_runtime_quota_preflight_limits]. case_bool_decide as E; simpl negb; cbv iota.
    + rewrite <- IH. unfold runtime_quota_policy_skips_request, runtime_quota_policy_requires_stream,
        enforce_runtime_quota_body_limit, enforce_runtime_quota_current_limit, quota_is. rewrite E. simpl.
      by destruct (RuntimeQuotaPreflightInput.hot_state_available input).
    + cbn [enforce_runtime_quota_preflight_limits].
      destruct (runtime_quota_policy_skips_request _ _); [done|]. unfold mbind, M_bind, lift.
      destruct (enforce_runtime_quota_body_limit _ _) as [[]|]; [|done].
      destruct (RuntimeQuotaPreflightInput.hot_state_available input); [|apply IH].
      destruct (enforce_runtime_quota_current_limit _ _ s) as [[[]|] s']; [apply IH|done].
  - revert rs s. induction policies as [|p ps IH]; intros rs s; [done|].
    cbn [List.filter reserve_runtime_quota_preflight]. case_bool_decide as E; simpl negb; cbv iota.
    + rewrite <- IH. unfold runtime_quota_policy_skips_request, runtime_quota_policy_requires_stream,
        runtime_quota_policy_needs_hot_state, quota_is. by rewrite E.
    + cbn [reserve_runtime_quota_preflight].
      destruct (runtime_quota_policy_skips_request _ _); [apply IH|].
      destruct (runtime_quota_policy_needs_hot_state _ && _).
      { unfold mbind, M_bind. destruct (handle_runtime_quota_hot_state_loss _ _ s) as [[]]; [apply IH|done]. }
      destruct (quota_is p "request_rate" _).
      { unfold mbind, M_bind, act. destruct (increment_runtime_quota_counter _ _ _ s) as [d s'].
        destruct (negb _); [done|apply IH]. }
      destruct (quota_is p "concurrent_request" _).
      { unfold or_release. destruct (reserve_runtime_quota_counter _ _ _ _ s) as [[]]; [apply IH|done]. }
      destruct (quota_is p "concurrent_stream" _); [|apply IH].
      unfold or_release. destruct (reserve_runtime_quota_counter _ _ _ _ s) as [[]]; [apply IH|done].
Qed.

(** Budgets of other kinds and with other overage modes than those the preflight knows
    never refuse a request. *)
Theorem unenforced_budgets_admit uuid i release_now actor selected now buckets policies rs (s : S) :
  (∀ p, p ∈ policies → runtime_budget_policy_is_preflight_enforced p = false) →
  budget_preflight_loop uuid i release_now actor selected now buckets policies rs s = (Ok rs, s).
Proof.
  revert i. induction policies as [|p ps IH]; intros i Hp; [done|]. cbn [budget_preflight_loop].
  rewrite (Hp p) by set_solver. cbv zeta.
  destruct (BudgetPolicyRecord.hard_limit p); apply IH; set_solver.
Qed.
End ignored.

(** A quota of one estimated token is accepted; requests that use seven tokens each go on
    being answered, and nothing is counted. *)
Example estimate_quota_never_counts :
  let '(created, s) := create_quota_policy (QuotaSample.drawn "1") IngressSample.actor
    (QuotaSample.request "token_estimate_rate" "fixed" "request_estimate") 5 QuotaSample.start in
  let key := from_option (λ p, runtime_quota_counter_key p 6) ""
               (GatewayState.quota_policies s !! "qp_1") in
  let '(first, s1) := IngressSample.run IngressSample.provider (Ok tt) s in
  let '(second, s2) := IngressSample.run IngressSample.provider (Ok tt) s1 in
  is_ok created = true ∧ is_ok first = true ∧ is_ok second = true
  ∧ IngressSample.counter s2 key = 0%Z.
Proof. vm_compute. repeat split. Qed.

(** A budget of one concurrent request that is to block new requests is accepted, and so
    is one of one request per rolling window; the first is not enforced, the second counts
    every request there ever was. *)
Example budgets_accepted_and_not_enforced :
  let budget key kind period := AdminCreateBudgetPolicyRequest.mk key "tenant" "ten" None period kind
    (Some 1%Z) None [] "none" "block_new_requests" "strong_terminal" in
  let create n request := create_budget_policy (QuotaSample.drawn n) IngressSample.actor request 5 in
  let '(r1, s1) := create "1" (budget "key-1" "concurrency" "lifetime") QuotaSample.start in
  let '(r2, s2) := create "2" (budget "key-2" "requests" "rolling") s1 in
  is_ok r1 = true ∧ is_ok r2 = true
  ∧ runtime_budget_policy_is_preflight_enforced <$> budget_policies_of s2 !! "bp_1" = Some false
  ∧ (λ p, runtime_budget_period_matches p 0 (10 ^ 20)) <$> budget_policies_of s2 !! "bp_2" = Some true.
Proof. vm_compute. repeat split. Qed.

(** ** A dry run of the sample tenant *)

Definition rate_request : PolicyRequest (V:=Tree.t) := NewQuotaPolicy QuotaSample.rate.
Definition dry_run : GatewayState.t Tree.t InMemoryPolicyStore.t :=
  (serve_validate_policy (QuotaSample.drawn "3") IngressSample.actor rate_request 4 QuotaSample.start).2.

Lemma policy_dry_run_decides_creation_witness :
  ∃ v diagnostic,
    serve_validate_policy (QuotaSample.drawn "3") IngressSample.actor rate_request 4 QuotaSample.start
      = (Ok v, dry_run)
    ∧ GatewayStore.validation_diagnostics (GatewayState.store dry_run) = [diagnostic]
    ∧ says_valid (ValidationDiagnosticRecord.valid diagnostic) v
    ∧ if ValidationDiagnosticRecord.valid diagnostic
      then ∃ v', (serve_create_policy (QuotaSample.drawn "4") IngressSample.actor rate_request 5
                    dry_run).1 = Ok v'
      else (serve_create_policy (QuotaSample.drawn "4") IngressSample.actor rate_request 5 dry_run).1
           = Err (GatewayError.BadRequest "validation_failed").
Proof.
  assert (∃ v, serve_validate_policy (QuotaSample.drawn "3") IngressSample.actor rate_request 4
    QuotaSample.start = (Ok v, dry_run)) as [v Hrun] by (eexists; vm_compute; reflexivity).
  destruct (policy_dry_run_decides_creation _ _ _ _ _ _ _ (QuotaSample.drawn "4") 5 Hrun
    I ltac:(by vm_compute) ltac:(by vm_compute) ltac:(by vm_compute))
    as (_ & diagnostic & Hd & Hs & _ & Hc).
  exists v, diagnostic. split; [exact Hrun|]. split; [exact Hd|]. split; [exact Hs|exact Hc].
Defined.
