(* ===== verification/Directory.v ===== *)
(** * The tenancy directory of the gateway

    Users, organizations, projects, memberships, service accounts, API keys,
    sessions, external identities and invitations: the records of [domain.rs]
    and the operations of the in-memory store of [storage.rs] on them, with the
    checks the store makes. *)

From S2P Require Import Prelude Order Text Domain Action HotState Routing Json Pricing RuntimePolicy.
From S2P Require Import Reconciler Delivery Auth CedarPolicy Publication GwRoute AdminRecords.
From S2P Require Import DraftCatalog AdminState AdminValidation.

(** ** Records *)

Module TenantRecord.
Record t : Set := mk {
  tenant_id : string;
  display_name : string;
  status : DirectoryStatus.t;
  resource_version : Z;
  schema_version : Z;
  created_at : DateTime;
  updated_at : DateTime;
}.
End TenantRecord.

Module UserRecord.
Record t : Set := mk {
  user_id : string;
  tenant_id : string;
  default_organization_id : option string;
  default_project_id : option string;
  primary_email : option string;
  display_name : string;
  status : DirectoryStatus.t;
  resource_version : Z;
  schema_version : Z;
  created_at : DateTime;
  updated_at : DateTime;
}.
End UserRecord.

Module ServiceAccountRecord.
Record t : Set := mk {
  service_account_id : string;
  tenant_id : string;
  organization_id : option string;
  project_id : option string;
  display_name : string;
  status : DirectoryStatus.t;
  resource_version : Z;
  schema_version : Z;
  created_by : string;
  created_at : DateTime;
  updated_at : DateTime;
}.
End ServiceAccountRecord.

Module OrganizationMembershipRecord.
Record t : Set := mk {
  organization_member_id : string;
  tenant_id : string;
  organization_id : string;
  principal_id : string;
  status : MembershipStatus.t;
  resource_version : Z;
}.
End OrganizationMembershipRecord.

Module ExternalIdentityRecord.
Record t : Set := mk {
  external_identity_id : string;
  tenant_id : string;
  principal_id : string;
  login_provider_id : option string;
  provider_kind : string;
  provider_subject : string;
  email : option string;
  email_verified : bool;
  status : ResourceStatus.t;
  created_at : DateTime;
  updated_at : DateTime;
}.
End ExternalIdentityRecord.

Module OrganizationInvitationRecord.
Record t : Set := mk {
  invitation_id : string;
  tenant_id : string;
  organization_id : string;
  project_id : option string;
  invited_email : option string;
  invited_principal_id : option string;
  invitation_token_hash : string;
  role_id : string;
  status : InvitationStatus.t;
  expires_at : DateTime;
  accepted_at : option DateTime;
  created_by : string;
  resource_version : Z;
  created_at : DateTime;
  updated_at : DateTime;
}.
End OrganizationInvitationRecord.

(** ** Requests of the store *)

Module CreateServiceAccountRequest.
Record t : Set := mk {
  tenant_id : string;
  organization_id : option string;
  project_id : option string;
  display_name : string;
  created_by : string;
}.
End CreateServiceAccountRequest.

Module CreateProjectMembershipRequest.
Record t : Set := mk {
  tenant_id : string;
  organization_id : string;
  project_id : string;
  principal_id : string;
  organization_member_id : string;
}.
End CreateProjectMembershipRequest.

Module CreateOrganizationInvitationRequest.
Record t : Set := mk {
  tenant_id : string;
  organization_id : string;
  project_id : option string;
  invited_email : option string;
  invited_principal_id : option string;
  invitation_token_hash : string;
  role_id : string;
  expires_at : DateTime;
  created_by : string;
}.
End CreateOrganizationInvitationRequest.

(** ** The store

    The tables of [InMemoryGatewayStore] the directory uses: organizations and
    projects are in the draft catalog of the admin store, sessions, API keys and
    project memberships in the authentication store. *)
Module Directory.
Record t {V : Type} : Type := mk {
  store : GatewayStore.t V;
  auth : AuthStore.t;
  tenants : gmap string TenantRecord.t;
  users : gmap string UserRecord.t;
  service_accounts : gmap string ServiceAccountRecord.t;
  organization_memberships : gmap (string * string) OrganizationMembershipRecord.t;
  external_identities : gmap string ExternalIdentityRecord.t;
  organization_invitations : gmap string OrganizationInvitationRecord.t;
}.
Arguments t V : clear implicits.
Arguments mk {V}.

Section setters.
Context {V : Type} (s : t V).
Definition set_store x : t V :=
  mk x (auth s) (tenants s) (users s) (service_accounts s) (organization_memberships s)
    (external_identities s) (organization_invitations s).
Definition set_auth x : t V :=
  mk (store s) x (tenants s) (users s) (service_accounts s) (organization_memberships s)
    (external_identities s) (organization_invitations s).
Definition set_users x : t V :=
  mk (store s) (auth s) (tenants s) x (service_accounts s) (organization_memberships s)
    (external_identities s) (organization_invitations s).
Definition set_service_accounts x : t V :=
  mk (store s) (auth s) (tenants s) (users s) x (organization_memberships s)
    (external_identities s) (organization_invitations s).
Definition set_organization_memberships x : t V :=
  mk (store s) (auth s) (tenants s) (users s) (service_accounts s) x
    (external_identities s) (organization_invitations s).
Definition set_external_identities x : t V :=
  mk (store s) (auth s) (tenants s) (users s) (service_accounts s) (organization_memberships s)
    x (organization_invitations s).
Definition set_organization_invitations x : t V :=
  mk (store s) (auth s) (tenants s) (users s) (service_accounts s) (organization_memberships s)
    (external_identities s) x.

Definition draft : DraftCatalog.t V := GatewayStore.draft (store s).
Definition set_draft d : t V := set_store (GatewayStore.set_draft (store s) d).
Definition organizations : gmap string OrganizationRecord.t := DraftCatalog.organizations draft.
Definition projects : gmap string ProjectRecord.t := DraftCatalog.projects draft.
Definition set_organizations m : t V :=
  set_draft (DraftCatalog.mk m (DraftCatalog.projects draft) (DraftCatalog.secret_refs draft)
    (DraftCatalog.pricing_skus draft) (DraftCatalog.provider_endpoints draft)
    (DraftCatalog.upstream_credentials draft) (DraftCatalog.model_targets draft)
    (DraftCatalog.routing_groups draft) (DraftCatalog.routing_group_targets draft)
    (DraftCatalog.model_aliases draft) (DraftCatalog.route_policies draft)
    (DraftCatalog.provider_grants draft)).
Definition set_projects m : t V :=
  set_draft (DraftCatalog.mk (DraftCatalog.organizations draft) m (DraftCatalog.secret_refs draft)
    (DraftCatalog.pricing_skus draft) (DraftCatalog.provider_endpoints draft)
    (DraftCatalog.upstream_credentials draft) (DraftCatalog.model_targets draft)
    (DraftCatalog.routing_groups draft) (DraftCatalog.routing_group_targets draft)
    (DraftCatalog.model_aliases draft) (DraftCatalog.route_policies draft)
    (DraftCatalog.provider_grants draft)).
Definition project_memberships : gmap (string * string) ProjectMembershipRecord.t :=
  AuthStore.project_memberships (auth s).
Definition set_project_memberships m : t V :=
  set_auth (AuthStore.mk (AuthStore.api_keys (auth s)) (AuthStore.api_key_failed_auth (auth s))
    (AuthStore.api_key_last_used_updates (auth s)) (AuthStore.auth_sessions (auth s)) m).
Definition auth_sessions : gmap string AuthSessionRecord.t := AuthStore.auth_sessions (auth s).
Definition set_auth_sessions m : t V := set_auth (AuthStore.with_sessions m (auth s)).
End setters.
End Directory.

(** ** Changes of status

    Each advances the version and, where the record has one, the time. *)

Definition organization_with_status (r : OrganizationRecord.t) (status : DirectoryStatus.t)
    (now : DateTime) : OrganizationRecord.t :=
  OrganizationRecord.mk (OrganizationRecord.organization_id r) (OrganizationRecord.tenant_id r)
    (OrganizationRecord.display_name r) status
    (wrap_i64 (OrganizationRecord.resource_version r + 1)) (OrganizationRecord.schema_version r)
    (OrganizationRecord.created_at r) now.

Definition project_with_status (r : ProjectRecord.t) (status : DirectoryStatus.t) (now : DateTime)
    : ProjectRecord.t :=
  ProjectRecord.mk (ProjectRecord.project_id r) (ProjectRecord.tenant_id r)
    (ProjectRecord.organization_id r) (ProjectRecord.display_name r) status
    (wrap_i64 (ProjectRecord.resource_version r + 1)) (ProjectRecord.schema_version r)
    (ProjectRecord.created_at r) now.

Definition user_with_status (r : UserRecord.t) (status : DirectoryStatus.t) (now : DateTime)
    : UserRecord.t :=
  UserRecord.mk (UserRecord.user_id r) (UserRecord.tenant_id r)
    (UserRecord.default_organization_id r) (UserRecord.default_project_id r)
    (UserRecord.primary_email r) (UserRecord.display_name r) status
    (wrap_i64 (UserRecord.resource_version r + 1)) (UserRecord.schema_version r)
    (UserRecord.created_at r) now.

Definition user_with_defaults (r : UserRecord.t) (organization_id project_id : option string)
    (now : DateTime) : UserRecord.t :=
  UserRecord.mk (UserRecord.user_id r) (UserRecord.tenant_id r) organization_id project_id
    (UserRecord.primary_email r) (UserRecord.display_name r) (UserRecord.status r)
    (wrap_i64 (UserRecord.resource_version r + 1)) (UserRecord.schema_version r)
    (UserRecord.created_at r) now.

Definition service_account_with_status (r : ServiceAccountRecord.t) (status : DirectoryStatus.t)
    (now : DateTime) : ServiceAccountRecord.t :=
  ServiceAccountRecord.mk (ServiceAccountRecord.service_account_id r)
    (ServiceAccountRecord.tenant_id r) (ServiceAccountRecord.organization_id r)
    (ServiceAccountRecord.project_id r) (ServiceAccountRecord.display_name r) status
    (wrap_i64 (ServiceAccountRecord.resource_version r + 1)) (ServiceAccountRecord.schema_version r)
    (ServiceAccountRecord.created_by r) (ServiceAccountRecord.created_at r) now.

Definition organization_member_with_status (r : OrganizationMembershipRecord.t)
    (status : MembershipStatus.t) : OrganizationMembershipRecord.t :=
  OrganizationMembershipRecord.mk (OrganizationMembershipRecord.organization_member_id r)
    (OrganizationMembershipRecord.tenant_id r) (OrganizationMembershipRecord.organization_id r)
    (OrganizationMembershipRecord.principal_id r) status
    (wrap_i64 (OrganizationMembershipRecord.resource_version r + 1)).

Definition project_member_with (r : ProjectMembershipRecord.t)
    (organization_member_id : option string) (status : MembershipStatus.t)
    : ProjectMembershipRecord.t :=
  ProjectMembershipRecord.mk (ProjectMembershipRecord.project_member_id r)
    (ProjectMembershipRecord.tenant_id r) (ProjectMembershipRecord.organization_id r)
    (ProjectMembershipRecord.project_id r) (ProjectMembershipRecord.principal_id r)
    organization_member_id status (wrap_i64 (ProjectMembershipRecord.resource_version r + 1)).
Definition project_member_with_status (r : ProjectMembershipRecord.t) (status : MembershipStatus.t)
    : ProjectMembershipRecord.t :=
  project_member_with r (ProjectMembershipRecord.organization_member_id r) status.

Definition identity_with_status (r : ExternalIdentityRecord.t) (status : ResourceStatus.t)
    (now : DateTime) : ExternalIdentityRecord.t :=
  ExternalIdentityRecord.mk (ExternalIdentityRecord.external_identity_id r)
    (ExternalIdentityRecord.tenant_id r) (ExternalIdentityRecord.principal_id r)
    (ExternalIdentityRecord.login_provider_id r) (ExternalIdentityRecord.provider_kind r)
    (ExternalIdentityRecord.provider_subject r) (ExternalIdentityRecord.email r)
    (ExternalIdentityRecord.email_verified r) status (ExternalIdentityRecord.created_at r) now.

Definition invitation_with (r : OrganizationInvitationRecord.t) (status : InvitationStatus.t)
    (accepted_at : option DateTime) (now : DateTime) : OrganizationInvitationRecord.t :=
  OrganizationInvitationRecord.mk (OrganizationInvitationRecord.invitation_id r)
    (OrganizationInvitationRecord.tenant_id r) (OrganizationInvitationRecord.organization_id r)
    (OrganizationInvitationRecord.project_id r) (OrganizationInvitationRecord.invited_email r)
    (OrganizationInvitationRecord.invited_principal_id r)
    (OrganizationInvitationRecord.invitation_token_hash r) (OrganizationInvitationRecord.role_id r)
    status (OrganizationInvitationRecord.expires_at r) accepted_at
    (OrganizationInvitationRecord.created_by r)
    (wrap_i64 (OrganizationInvitationRecord.resource_version r + 1))
    (OrganizationInvitationRecord.created_at r) now.

Definition api_key_with_status (r : ApiKeyRecord.t) (status : ApiKeyStatus.t) (now : DateTime)
    : ApiKeyRecord.t :=
  ApiKeyRecord.mk (ApiKeyRecord.api_key_id r) (ApiKeyRecord.tenant_id r)
    (ApiKeyRecord.organization_id r) (ApiKeyRecord.project_id r)
    (ApiKeyRecord.owner_principal_id r) (ApiKeyRecord.name r) (ApiKeyRecord.key_prefix r)
    (ApiKeyRecord.secret_hash r) (ApiKeyRecord.hash_version r) status
    (ApiKeyRecord.allowed_actions r) (ApiKeyRecord.allowed_resources r) (ApiKeyRecord.expires_at r)
    (ApiKeyRecord.last_used_at r) (ApiKeyRecord.last_used_request_id r) (ApiKeyRecord.created_by r)
    (ApiKeyRecord.created_at r) now.

(** ** Iteration

    The iteration order of a [HashMap] is unspecified; the model takes that of
    the finite map.  Lists are sorted before they are returned, and the ids
    searched for by [find] are drawn at random. *)

Definition rows {K A} `{Countable K} (m : gmap K A) : list A := (map_to_list m).*2.

(** [values().find(p)], with the key. *)
Definition find_row {K A} `{Countable K} (p : A → bool) (m : gmap K A) : option (K * A) :=
  List.find (λ e, p e.2) (map_to_list m).

(** [iter_mut().find(p)] on a vector, changing the element found. *)
Fixpoint update_first {A} (p : A → bool) (f : A → A) (l : list A) : option (A * list A) :=
  match l with
  | [] => None
  | x :: l' =>
      if p x then Some (f x, f x :: l')
      else match update_first p f l' with
           | Some (y, l'') => Some (y, x :: l'')
           | None => None
           end
  end.

(** [Option<String>::cmp]. *)
Definition option_compare (x y : option string) : comparison :=
  match x, y with
  | None, None => Eq
  | None, Some _ => Lt
  | Some _, None => Gt
  | Some a, Some b => String.compare a b
  end.

Section store.
Context {V : Type}.
Abbreviation State := (Directory.t V).
Abbreviation Eff := (M State GatewayError.t).
Implicit Types (s : State) (now : DateTime).

(** Change one table by an operation that may fail. *)
Definition on_rows {K R A} `{Countable K} (get : State → gmap K R) (set : State → gmap K R → State)
    (op : gmap K R → result GatewayError.t (A * gmap K R)) : Eff A := λ s,
  match op (get s) with
  | Ok (a, m) => (Ok a, set s m)
  | Err e => (Err e, s)
  end.

(** ** Organizations, projects and users *)

Definition organizations_for_tenant (tenant_id : string) s : list OrganizationRecord.t :=
  sort_by (cmp_on OrganizationRecord.organization_id String.compare)
    (List.filter (λ r, OrganizationRecord.tenant_id r ==? tenant_id) (rows (Directory.organizations s))).
Definition projects_for_tenant (tenant_id : string) s : list ProjectRecord.t :=
  sort_by (cmp_on ProjectRecord.project_id String.compare)
    (List.filter (λ r, ProjectRecord.tenant_id r ==? tenant_id) (rows (Directory.projects s))).
Definition users_for_tenant (tenant_id : string) s : list UserRecord.t :=
  sort_by (cmp_on UserRecord.user_id String.compare)
    (List.filter (λ r, UserRecord.tenant_id r ==? tenant_id) (rows (Directory.users s))).

Definition update_organization_status (id : string) (expected : Z) (status : DirectoryStatus.t) now
    : Eff OrganizationRecord.t :=
  on_rows Directory.organizations Directory.set_organizations
    (update_versioned "organization" OrganizationRecord.resource_version
       (λ r, organization_with_status r status now) id expected).
Definition update_project_status (id : string) (expected : Z) (status : DirectoryStatus.t) now
    : Eff ProjectRecord.t :=
  on_rows Directory.projects Directory.set_projects
    (update_versioned "project" ProjectRecord.resource_version
       (λ r, project_with_status r status now) id expected).
Definition update_user_status (id : string) (expected : Z) (status : DirectoryStatus.t) now
    : Eff UserRecord.t :=
  on_rows Directory.users Directory.set_users
    (update_versioned "user" UserRecord.resource_version
       (λ r, user_with_status r status now) id expected).

Definition update_user_default_context (user_id : string)
    (organization_id project_id : option string) now : Eff UserRecord.t :=
  on_rows Directory.users Directory.set_users (λ users,
    match users !! user_id with
    | None => not_found ("user " +:+ user_id)
    | Some user =>
        let updated := user_with_defaults user organization_id project_id now in
        Ok (updated, <[user_id := updated]> users)
    end).

(** ** Memberships *)

Definition organization_members_for_organization (organization_id : string) s
    : list OrganizationMembershipRecord.t :=
  sort_by (cmp_on OrganizationMembershipRecord.organization_member_id String.compare)
    (List.filter (λ r, OrganizationMembershipRecord.organization_id r ==? organization_id)
       (rows (Directory.organization_memberships s))).
Definition project_members_for_project (project_id : string) s : list ProjectMembershipRecord.t :=
  sort_by (cmp_on ProjectMembershipRecord.project_member_id String.compare)
    (List.filter (λ r, ProjectMembershipRecord.project_id r ==? project_id)
       (rows (Directory.project_memberships s))).

Definition organization_memberships_for_principal (principal_id : string) s
    : list OrganizationMembershipRecord.t :=
  sort_by (cmp_then (cmp_on OrganizationMembershipRecord.organization_id String.compare)
             (cmp_on OrganizationMembershipRecord.organization_member_id String.compare))
    (List.filter (λ r, OrganizationMembershipRecord.principal_id r ==? principal_id)
       (rows (Directory.organization_memberships s))).
Definition project_memberships_for_principal (principal_id : string) s
    : list ProjectMembershipRecord.t :=
  sort_by (cmp_then (cmp_on ProjectMembershipRecord.organization_id String.compare)
             (cmp_then (cmp_on ProjectMembershipRecord.project_id String.compare)
                (cmp_on ProjectMembershipRecord.project_member_id String.compare)))
    (List.filter (λ r, ProjectMembershipRecord.principal_id r ==? principal_id)
       (rows (Directory.project_memberships s))).

Definition organization_member (id : string) s : option OrganizationMembershipRecord.t :=
  snd <$> find_row (λ r, OrganizationMembershipRecord.organization_member_id r ==? id)
            (Directory.organization_memberships s).
Definition project_member (id : string) s : option ProjectMembershipRecord.t :=
  snd <$> find_row (λ r, ProjectMembershipRecord.project_member_id r ==? id)
            (Directory.project_memberships s).

(** An update of the member found by its id. *)
Definition update_member {R} (noun : string) (id_of : R → string) (version : R → Z) (change : R → R)
    (id : string) (expected_resource_version : Z) (table : gmap (string * string) R)
    : result GatewayError.t (R * gmap (string * string) R) :=
  match find_row (λ r, id_of r ==? id) table with
  | None => not_found (noun +:+ " " +:+ id)
  | Some (key, member) =>
      if version member !=? expected_resource_version then bad_request "stale_resource_version"
      else Ok (change member, <[key := change member]> table)
  end.

Definition update_organization_member_status (id : string) (expected : Z)
    (status : MembershipStatus.t) : Eff OrganizationMembershipRecord.t :=
  on_rows Directory.organization_memberships Directory.set_organization_memberships
    (update_member "organization member" OrganizationMembershipRecord.organization_member_id
       OrganizationMembershipRecord.resource_version
       (λ r, organization_member_with_status r status) id expected).
Definition update_project_member_status (id : string) (expected : Z) (status : MembershipStatus.t)
    : Eff ProjectMembershipRecord.t :=
  on_rows Directory.project_memberships Directory.set_project_memberships
    (update_member "project member" ProjectMembershipRecord.project_member_id
       ProjectMembershipRecord.resource_version
       (λ r, project_member_with_status r status) id expected).

Definition create_project_membership (uuid : string) (request : CreateProjectMembershipRequest.t)
    : Eff ProjectMembershipRecord.t := λ s,
  let key := (CreateProjectMembershipRequest.principal_id request,
              CreateProjectMembershipRequest.project_id request) in
  let memberships := Directory.project_memberships s in
  let parent := Some (CreateProjectMembershipRequest.organization_member_id request) in
  let member := default
    (ProjectMembershipRecord.mk (new_prefixed_id "pm" uuid)
       (CreateProjectMembershipRequest.tenant_id request)
       (CreateProjectMembershipRequest.organization_id request)
       (CreateProjectMembershipRequest.project_id request)
       (CreateProjectMembershipRequest.principal_id request) parent MembershipStatus.Active 1)
    (memberships !! key) in
  if (ProjectMembershipRecord.tenant_id member !=? CreateProjectMembershipRequest.tenant_id request)
     || (ProjectMembershipRecord.organization_id member
         !=? CreateProjectMembershipRequest.organization_id request)
     || (ProjectMembershipRecord.project_id member
         !=? CreateProjectMembershipRequest.project_id request)
     || (ProjectMembershipRecord.principal_id member
         !=? CreateProjectMembershipRequest.principal_id request)
  then (bad_request "project_membership_scope_conflict",
        Directory.set_project_memberships s (<[key := member]> memberships))
  else
    let created :=
      if (ProjectMembershipRecord.organization_member_id member !=? parent)
         || (ProjectMembershipRecord.status member !=? MembershipStatus.Active)
      then project_member_with member parent MembershipStatus.Active
      else member in
    (Ok created, Directory.set_project_memberships s (<[key := created]> memberships)).

(** The members an inactive organization membership takes along. *)
Definition cascades (organization_member : OrganizationMembershipRecord.t)
    (status : MembershipStatus.t) (member : ProjectMembershipRecord.t) : bool :=
  (ProjectMembershipRecord.tenant_id member
     ==? OrganizationMembershipRecord.tenant_id organization_member)
  && (ProjectMembershipRecord.organization_id member
        ==? OrganizationMembershipRecord.organization_id organization_member)
  && (ProjectMembershipRecord.principal_id member
        ==? OrganizationMembershipRecord.principal_id organization_member)
  && match status with
     | MembershipStatus.Active => false
     | MembershipStatus.Suspended => ProjectMembershipRecord.status member ==? MembershipStatus.Active
     | MembershipStatus.Removed => ProjectMembershipRecord.status member !=? MembershipStatus.Removed
     end.

Definition cascade_project_memberships_for_organization_member
    (organization_member : OrganizationMembershipRecord.t) (status : MembershipStatus.t)
    : Eff nat := λ s,
  let memberships := Directory.project_memberships s in
  (Ok (length (List.filter (cascades organization_member status) (rows memberships))),
   Directory.set_project_memberships s
     ((λ member, if cascades organization_member status member
                 then project_member_with_status member status else member) <$> memberships)).
End store.

(** ** Service accounts and API keys *)

Section credentials.
Context {V : Type}.
Abbreviation State := (Directory.t V).
Abbreviation Eff := (M State GatewayError.t).
Implicit Types (s : State) (now : DateTime).

(** The project a request names, in the tenant. *)
Definition scope_project (mismatch tenant_id : string) (project_id : option string) s
    : Result (option ProjectRecord.t) :=
  match project_id with
  | None => Ok None
  | Some project_id =>
      project ← ok_or (Directory.projects s !! project_id)
                  (GatewayError.NotFound ("project " +:+ project_id));
      refuse_if (ProjectRecord.tenant_id project !=? tenant_id) (GatewayError.Authorization mismatch);;
      Ok (Some project)
  end.

(** The organization given, or that of the project; both must agree. *)
Definition scope_organization (required mismatch conflict tenant_id : string)
    (organization_id : option string) (project : option ProjectRecord.t) s
    : Result OrganizationRecord.t :=
  organization_id ← ok_or (match organization_id with
                           | Some organization_id => Some organization_id
                           | None => ProjectRecord.organization_id <$> project
                           end) (GatewayError.BadRequest required);
  organization ← ok_or (Directory.organizations s !! organization_id)
                   (GatewayError.NotFound ("organization " +:+ organization_id));
  refuse_if (OrganizationRecord.tenant_id organization !=? tenant_id)
    (GatewayError.Authorization mismatch);;
  refuse_if (is_some_and project (λ project,
      ProjectRecord.organization_id project !=? OrganizationRecord.organization_id organization))
    (GatewayError.BadRequest conflict);;
  Ok organization.

Definition validate_service_account_request (request : CreateServiceAccountRequest.t) s
    : Result (option string * option string) :=
  let tenant_id := CreateServiceAccountRequest.tenant_id request in
  refuse_if (trim (CreateServiceAccountRequest.display_name request) ==? "")
    (GatewayError.BadRequest "service_account_display_name_required");;
  refuse_if (negb (is_some (CreateServiceAccountRequest.organization_id request))
             && negb (is_some (CreateServiceAccountRequest.project_id request)))
    (GatewayError.BadRequest "service_account_scope_required");;
  project ← scope_project "project_tenant_mismatch" tenant_id
              (CreateServiceAccountRequest.project_id request) s;
  organization ← scope_organization "service_account_scope_required" "organization_tenant_mismatch"
                   "service_account_project_organization_mismatch" tenant_id
                   (CreateServiceAccountRequest.organization_id request) project s;
  Ok (Some (OrganizationRecord.organization_id organization), ProjectRecord.project_id <$> project).

Definition create_service_account (uuid : string) (request : CreateServiceAccountRequest.t) now
    : Eff ServiceAccountRecord.t := λ s,
  match validate_service_account_request request s with
  | Err e => (Err e, s)
  | Ok (organization_id, project_id) =>
      let record := ServiceAccountRecord.mk (new_prefixed_id "svc" uuid)
        (CreateServiceAccountRequest.tenant_id request) organization_id project_id
        (CreateServiceAccountRequest.display_name request) DirectoryStatus.Active 1 1
        (CreateServiceAccountRequest.created_by request) now now in
      (Ok record, Directory.set_service_accounts s
         (<[ServiceAccountRecord.service_account_id record := record]>
            (Directory.service_accounts s)))
  end.

Definition service_accounts_for_tenant (tenant_id : string) s : list ServiceAccountRecord.t :=
  sort_by (cmp_then (cmp_on ServiceAccountRecord.organization_id option_compare)
             (cmp_then (cmp_on ServiceAccountRecord.project_id option_compare)
                (cmp_on ServiceAccountRecord.service_account_id String.compare)))
    (List.filter (λ r, ServiceAccountRecord.tenant_id r ==? tenant_id)
       (rows (Directory.service_accounts s))).

Definition service_account_status_supported (status : DirectoryStatus.t) : bool :=
  match status with
  | DirectoryStatus.Active | DirectoryStatus.Disabled | DirectoryStatus.Deleted => true
  | DirectoryStatus.Suspended => false
  end.

Definition update_service_account_status (id : string) (expected : Z) (status : DirectoryStatus.t)
    now : Eff ServiceAccountRecord.t :=
  if negb (service_account_status_supported status)
  then throw (GatewayError.BadRequest "unsupported_service_account_status")
  else on_rows Directory.service_accounts Directory.set_service_accounts
         (update_versioned "service account" ServiceAccountRecord.resource_version
            (λ r, service_account_with_status r status now) id expected).

(** *** API keys *)

Definition is_api_key (api_key_id : string) (r : ApiKeyRecord.t) : bool :=
  ApiKeyRecord.api_key_id r ==? api_key_id.

Definition validate_api_key_owner (record : ApiKeyRecord.t) s : Result unit :=
  let owner := ApiKeyRecord.owner_principal_id record in
  let mismatch := GatewayError.Authorization "api_key_owner_tenant_mismatch" in
  match Directory.users s !! owner with
  | Some user => refuse_if (UserRecord.tenant_id user !=? ApiKeyRecord.tenant_id record) mismatch
  | None =>
      match Directory.service_accounts s !! owner with
      | Some account =>
          refuse_if (ServiceAccountRecord.tenant_id account !=? ApiKeyRecord.tenant_id record) mismatch
      | None => not_found ("principal " +:+ owner)
      end
  end.

Definition validate_api_key_scope (record : ApiKeyRecord.t) s : Result unit :=
  let tenant_id := ApiKeyRecord.tenant_id record in
  project ← scope_project "api_key_project_tenant_mismatch" tenant_id
              (ApiKeyRecord.project_id record) s;
  scope_organization "api_key_scope_required" "api_key_organization_tenant_mismatch"
    "api_key_project_organization_mismatch" tenant_id (ApiKeyRecord.organization_id record) project s;;
  Ok tt.

Fixpoint validate_action_ids (action_ids : list string) : Result unit :=
  match action_ids with
  | [] => Ok tt
  | action_id :: rest =>
      match GatewayAction.from_action_id action_id with
      | None => bad_request ("unknown_api_key_action:" +:+ action_id)
      | Some _ => validate_action_ids rest
      end
  end.
Definition validate_api_key_action_allowlist (record : ApiKeyRecord.t) : Result unit :=
  validate_action_ids (ApiKeyRecord.allowed_actions record).

Definition validate_api_key_admin_record (record : ApiKeyRecord.t) s : Result unit :=
  refuse_if (trim (ApiKeyRecord.name record) ==? "") (GatewayError.BadRequest "api_key_name_required");;
  refuse_if (negb (is_some (ApiKeyRecord.organization_id record))
             && negb (is_some (ApiKeyRecord.project_id record)))
    (GatewayError.BadRequest "api_key_scope_required");;
  refuse_if (negb (is_some (Directory.tenants s !! ApiKeyRecord.tenant_id record)))
    (GatewayError.NotFound ("tenant " +:+ ApiKeyRecord.tenant_id record));;
  validate_api_key_owner record s;;
  validate_api_key_scope record s;;
  validate_api_key_action_allowlist record.

Definition put_api_key (record : ApiKeyRecord.t) : Eff unit := λ s,
  (Ok tt, Directory.set_auth s (insert_api_key record (Directory.auth s))).

Definition create_api_key_record (record : ApiKeyRecord.t) : Eff ApiKeyRecord.t := λ s,
  match validate_api_key_admin_record record s with
  | Err e => (Err e, s)
  | Ok _ => (put_api_key record;; mret record) s
  end.

(** All keys, bucket by bucket. *)
Definition stored_api_keys s : list ApiKeyRecord.t := concat (rows (AuthStore.api_keys (Directory.auth s))).

Definition api_keys_for_tenant (tenant_id : string) s : list ApiKeyRecord.t :=
  sort_by (cmp_then (cmp_on ApiKeyRecord.organization_id option_compare)
             (cmp_then (cmp_on ApiKeyRecord.project_id option_compare)
                (cmp_on ApiKeyRecord.api_key_id String.compare)))
    (List.filter (λ r, ApiKeyRecord.tenant_id r ==? tenant_id) (stored_api_keys s)).

Definition api_key (api_key_id : string) s : option ApiKeyRecord.t :=
  List.find (is_api_key api_key_id) (stored_api_keys s).

Definition api_key_status_supported_for_admin (status : ApiKeyStatus.t) : bool :=
  match status with ApiKeyStatus.Active | ApiKeyStatus.Disabled => true | _ => false end.

(** The first bucket that has the key; in it, the first record of the key. *)
Definition update_api_key_status (api_key_id : string) (status : ApiKeyStatus.t) now
    : Eff ApiKeyRecord.t := λ s,
  let missing := not_found ("API key " +:+ api_key_id) in
  let keys := AuthStore.api_keys (Directory.auth s) in
  if negb (api_key_status_supported_for_admin status)
  then (bad_request "unsupported_api_key_status", s)
  else
    match find_row (existsb (is_api_key api_key_id)) keys with
    | None => (missing, s)
    | Some (prefix, records) =>
        match update_first (is_api_key api_key_id) (λ r, api_key_with_status r status now) records with
        | None => (missing, s)
        | Some (updated, records') =>
            (Ok updated, Directory.set_auth s
               (AuthStore.with_api_keys (<[prefix := records']> keys) (Directory.auth s)))
        end
    end.

Definition replace_api_key_secret (record : ApiKeyRecord.t) : Eff ApiKeyRecord.t := λ s,
  match
    validate_api_key_admin_record record s;;
    existing ← ok_or (api_key (ApiKeyRecord.api_key_id record) s)
                 (GatewayError.NotFound ("API key " +:+ ApiKeyRecord.api_key_id record));
    refuse_if (ApiKeyRecord.tenant_id existing !=? ApiKeyRecord.tenant_id record)
      (GatewayError.Authorization "api_key_tenant_mismatch")
  with
  | Err e => (Err e, s)
  | Ok _ => (put_api_key record;; mret record) s
  end.

(** ** Sessions and external identities *)

Definition of_principal (tenant_id principal_id : string) (r : AuthSessionRecord.t) : bool :=
  (AuthSessionRecord.tenant_id r ==? tenant_id) && (AuthSessionRecord.principal_id r ==? principal_id).

Definition sessions_for_principal (tenant_id principal_id : string) s : list AuthSessionRecord.t :=
  sort_by (cmp_then (cmp_rev (cmp_on AuthSessionRecord.created_at Z.compare))
             (cmp_on AuthSessionRecord.auth_session_id String.compare))
    (List.filter (of_principal tenant_id principal_id) (rows (Directory.auth_sessions s))).

Definition is_session (tenant_id principal_id auth_session_id : string) (r : AuthSessionRecord.t)
    : bool :=
  of_principal tenant_id principal_id r && (AuthSessionRecord.auth_session_id r ==? auth_session_id).

Definition session_for_principal (tenant_id principal_id auth_session_id : string) s
    : option AuthSessionRecord.t :=
  snd <$> find_row (is_session tenant_id principal_id auth_session_id) (Directory.auth_sessions s).

Definition revoke_session_for_principal (tenant_id principal_id auth_session_id : string) now
    : Eff AuthSessionRecord.t :=
  on_rows Directory.auth_sessions Directory.set_auth_sessions (λ sessions,
    match find_row (is_session tenant_id principal_id auth_session_id) sessions with
    | None => not_found ("auth session " +:+ auth_session_id)
    | Some (session_hash, session) =>
        let revoked := set_session_status AuthSessionStatus.Revoked now session in
        Ok (revoked, <[session_hash := revoked]> sessions)
    end).

Definition identity_of (tenant_id principal_id : string) (r : ExternalIdentityRecord.t) : bool :=
  (ExternalIdentityRecord.tenant_id r ==? tenant_id)
  && (ExternalIdentityRecord.principal_id r ==? principal_id).

Definition external_identities_for_principal (tenant_id principal_id : string) s
    : list ExternalIdentityRecord.t :=
  sort_by (cmp_on ExternalIdentityRecord.external_identity_id String.compare)
    (List.filter (identity_of tenant_id principal_id) (rows (Directory.external_identities s))).

Definition external_identity_for_principal (tenant_id principal_id external_identity_id : string) s
    : option ExternalIdentityRecord.t :=
  match Directory.external_identities s !! external_identity_id with
  | Some identity => if identity_of tenant_id principal_id identity then Some identity else None
  | None => None
  end.

Definition unlink_external_identity (tenant_id principal_id external_identity_id : string) now
    : Eff ExternalIdentityRecord.t := λ s,
  match external_identity_for_principal tenant_id principal_id external_identity_id s with
  | None => (not_found ("external identity " +:+ external_identity_id), s)
  | Some identity =>
      let unlinked := identity_with_status identity ResourceStatus.Deleted now in
      (Ok unlinked, Directory.set_external_identities s
         (<[external_identity_id := unlinked]> (Directory.external_identities s)))
  end.
End credentials.

(** ** Invitations *)

Section invitations.
Context {V : Type}.
Abbreviation State := (Directory.t V).
Abbreviation Eff := (M State GatewayError.t).
Implicit Types (s : State) (now : DateTime).

Definition create_organization_invitation (uuid : string)
    (request : CreateOrganizationInvitationRequest.t) now : Eff OrganizationInvitationRecord.t := λ s,
  let invitation := OrganizationInvitationRecord.mk (new_prefixed_id "inv" uuid)
    (CreateOrganizationInvitationRequest.tenant_id request)
    (CreateOrganizationInvitationRequest.organization_id request)
    (CreateOrganizationInvitationRequest.project_id request)
    (CreateOrganizationInvitationRequest.invited_email request)
    (CreateOrganizationInvitationRequest.invited_principal_id request)
    (CreateOrganizationInvitationRequest.invitation_token_hash request)
    (CreateOrganizationInvitationRequest.role_id request) InvitationStatus.Pending
    (CreateOrganizationInvitationRequest.expires_at request) None
    (CreateOrganizationInvitationRequest.created_by request) 1 now now in
  (Ok invitation, Directory.set_organization_invitations s
     (<[OrganizationInvitationRecord.invitation_id invitation := invitation]>
        (Directory.organization_invitations s))).

Definition organization_invitations (tenant_id organization_id : string) s
    : list OrganizationInvitationRecord.t :=
  sort_by (cmp_then (cmp_rev (cmp_on OrganizationInvitationRecord.created_at Z.compare))
             (cmp_on OrganizationInvitationRecord.invitation_id String.compare))
    (List.filter (λ r, (OrganizationInvitationRecord.tenant_id r ==? tenant_id)
                       && (OrganizationInvitationRecord.organization_id r ==? organization_id))
       (rows (Directory.organization_invitations s))).

Definition organization_invitation_by_token_hash (token_hash : string) s
    : option OrganizationInvitationRecord.t :=
  snd <$> find_row (λ r, OrganizationInvitationRecord.invitation_token_hash r ==? token_hash)
            (Directory.organization_invitations s).

Definition invitation_missing {A} (id : string) : result GatewayError.t A :=
  not_found ("organization invitation " +:+ id).

Definition revoke_invitation (id : string) (expected : Z) now : Eff OrganizationInvitationRecord.t :=
  on_rows Directory.organization_invitations Directory.set_organization_invitations (λ invitations,
    match invitations !! id with
    | None => invitation_missing id
    | Some invitation =>
        refuse_if (OrganizationInvitationRecord.resource_version invitation !=? expected)
          (GatewayError.BadRequest "stale_resource_version");;
        refuse_if (OrganizationInvitationRecord.status invitation !=? InvitationStatus.Pending)
          (GatewayError.BadRequest "invitation_not_pending");;
        let revoked := invitation_with invitation InvitationStatus.Revoked
                         (OrganizationInvitationRecord.accepted_at invitation) now in
        Ok (revoked, <[id := revoked]> invitations)
    end).

Definition upsert_invited_organization_membership (uuid : string)
    (invitation : OrganizationInvitationRecord.t) (principal_id : string)
    : Eff OrganizationMembershipRecord.t := λ s,
  let key := (principal_id, OrganizationInvitationRecord.organization_id invitation) in
  let memberships := Directory.organization_memberships s in
  let membership := default
    (OrganizationMembershipRecord.mk (new_prefixed_id "om" uuid)
       (OrganizationInvitationRecord.tenant_id invitation)
       (OrganizationInvitationRecord.organization_id invitation) principal_id
       MembershipStatus.Active 1) (memberships !! key) in
  let updated :=
    if OrganizationMembershipRecord.status membership !=? MembershipStatus.Active
    then organization_member_with_status membership MembershipStatus.Active else membership in
  (Ok updated, Directory.set_organization_memberships s (<[key := updated]> memberships)).

Definition upsert_invited_project_membership (uuid : string)
    (invitation : OrganizationInvitationRecord.t)
    (principal_id project_id organization_member_id : string) : Eff ProjectMembershipRecord.t := λ s,
  let key := (principal_id, project_id) in
  let memberships := Directory.project_memberships s in
  let membership := default
    (ProjectMembershipRecord.mk (new_prefixed_id "pm" uuid)
       (OrganizationInvitationRecord.tenant_id invitation)
       (OrganizationInvitationRecord.organization_id invitation) project_id principal_id
       (Some organization_member_id) MembershipStatus.Active 1) (memberships !! key) in
  let activated :=
    if ProjectMembershipRecord.status membership !=? MembershipStatus.Active
    then project_member_with_status membership MembershipStatus.Active else membership in
  let updated :=
    match ProjectMembershipRecord.organization_member_id activated with
    | None => project_member_with activated (Some organization_member_id)
                (ProjectMembershipRecord.status activated)
    | Some _ => activated
    end in
  (Ok updated, Directory.set_project_memberships s (<[key := updated]> memberships)).

Definition repair_user_defaults_after_invite_accept (invitation : OrganizationInvitationRecord.t)
    (principal_id : string) now : Eff unit := λ s,
  match Directory.users s !! principal_id with
  | None => (Ok tt, s)
  | Some user =>
      let organization_updated := negb (is_some (UserRecord.default_organization_id user)) in
      let project_updated :=
        negb (is_some (UserRecord.default_project_id user))
        && is_some (OrganizationInvitationRecord.project_id invitation) in
      if organization_updated || project_updated
      then (Ok tt, Directory.set_users s (<[principal_id := user_with_defaults user
              (if organization_updated
               then Some (OrganizationInvitationRecord.organization_id invitation)
               else UserRecord.default_organization_id user)
              (if project_updated then OrganizationInvitationRecord.project_id invitation
               else UserRecord.default_project_id user) now]> (Directory.users s)))
      else (Ok tt, s)
  end.

(** The invitation itself, closed by the acceptance. *)
Definition mark_accepted (id : string) now : Eff OrganizationInvitationRecord.t :=
  on_rows Directory.organization_invitations Directory.set_organization_invitations (λ invitations,
    match invitations !! id with
    | None => invitation_missing id
    | Some invitation =>
        refuse_if (negb (InvitationStatus.accepts_at
                           (OrganizationInvitationRecord.status invitation)
                           (OrganizationInvitationRecord.expires_at invitation) now))
          (GatewayError.BadRequest "invitation_not_accepting");;
        let accepted := invitation_with invitation InvitationStatus.Accepted (Some now) now in
        Ok (accepted, <[id := accepted]> invitations)
    end).

Definition accept_organization_invitation (member_uuid project_uuid id principal_id : string) now
    : Eff OrganizationInvitationRecord.t :=
  accepted ← mark_accepted id now;
  membership ← upsert_invited_organization_membership member_uuid accepted principal_id;
  match OrganizationInvitationRecord.project_id accepted with
  | Some project_id =>
      upsert_invited_project_membership project_uuid accepted principal_id project_id
        (OrganizationMembershipRecord.organization_member_id membership);;
      mret tt
  | None => mret tt
  end;;
  repair_user_defaults_after_invite_accept accepted principal_id now;;
  mret accepted.
End invitations.
