(* ===== verification/DirectoryHandlers.v ===== *)
(** * The handlers of the tenancy directory

    The admin handlers of [service.rs] for organizations, projects, users, their
    sessions and external identities, memberships, service accounts, API keys and
    invitations, and the session handlers by which a signed-in user accepts an
    invitation, changes context and signs out. *)

From S2P Require Import Prelude Order Text Domain Action HotState Routing Json Pricing RuntimePolicy.
From S2P Require Import Reconciler Delivery Auth CedarPolicy Publication GwRoute AdminRecords.
From S2P Require Import DraftCatalog AdminState AdminValidation AdminHandlers GwRequest Directory.

(** ** Requests *)

Module AdminUpdateDirectoryStatusRequest.
Record t : Set := mk { expected_version : Z; status : DirectoryStatus.t; reason : option string }.
End AdminUpdateDirectoryStatusRequest.

Module AdminUpdateUserRequest.
Record t : Set := mk { expected_version : Z; status : DirectoryStatus.t; reason : option string }.
End AdminUpdateUserRequest.

Module AdminUpdateMembershipRequest.
Record t : Set := mk { expected_version : Z; status : MembershipStatus.t; reason : option string }.
End AdminUpdateMembershipRequest.

Module AdminCreateProjectMemberRequest.
Record t : Set := mk {
  idempotency_key : string;
  principal_id : string;
  organization_member_id : option string;
}.
End AdminCreateProjectMemberRequest.

Module AdminCreateServiceAccountRequest.
Record t : Set := mk {
  idempotency_key : string;
  organization_id : option string;
  project_id : option string;
  display_name : string;
}.
End AdminCreateServiceAccountRequest.

Module AdminCreateApiKeyRequest.
Record t : Set := mk {
  idempotency_key : string;
  organization_id : option string;
  project_id : option string;
  owner_principal_id : option string;
  name : string;
  expires_at : option DateTime;
  allowed_actions : list string;
  allowed_resources : list string;
}.
End AdminCreateApiKeyRequest.

Module AdminRotateApiKeyRequest.
Record t : Set := mk { idempotency_key : string; reason : option string }.
End AdminRotateApiKeyRequest.

Module AdminDisableApiKeyRequest.
Record t : Set := mk { idempotency_key : string; reason : option string }.
End AdminDisableApiKeyRequest.

Module AdminCreateOrganizationInvitationRequest.
Record t : Set := mk {
  idempotency_key : string;
  invited_email : option string;
  invited_principal_id : option string;
  project_id : option string;
  role_id : option string;
  expires_at : option DateTime;
}.
End AdminCreateOrganizationInvitationRequest.

Module SessionOrganizationRequest.
Record t : Set := mk { organization_id : string; project_id : option string }.
End SessionOrganizationRequest.

(** What the routes of one kind of record share. *)
Module DirectoryResource.
Record t {V R : Type} : Type := mk {
  kind : string;
  list_path : string;
  item_path : string;
  get_path : string;
  record_id : R → string;
  body : R → V;
}.
Arguments t V R : clear implicits.
Arguments mk {V R}.
End DirectoryResource.

(** ** Checks on text *)

Definition normalized_email (value : string) : option string :=
  let email := to_ascii_lowercase (trim value) in
  if (String.length email <=? 320)%nat && contains "@" email
     && negb (existsb (λ w, contains w email) whitespace)
     && negb (starts_with "@" email) && negb (ends_with "@" email)
  then Some email else None.

Definition validate_user_status (status : DirectoryStatus.t) : Result unit :=
  match status with
  | DirectoryStatus.Active | DirectoryStatus.Disabled | DirectoryStatus.Deleted => Ok tt
  | DirectoryStatus.Suspended => bad_request "user_status_invalid"
  end.

(** A byte of a slice, zero beyond its end. *)
Definition byte_at (bytes : list Z) (index : nat) : Z := default 0%Z (bytes !! index).

Definition constant_time_bytes_eq (left right : list Z) : bool :=
  let diff := Z.lxor (Z.of_nat (length left)) (Z.of_nat (length right)) in
  let diff := fold_left (λ diff index, Z.lor diff (Z.lxor (byte_at left index) (byte_at right index)))
                (seq 0 (Nat.max (length left) (length right))) diff in
  (diff =? 0)%Z.

Definition ApiKeyStatus_name (status : ApiKeyStatus.t) : string :=
  match status with
  | ApiKeyStatus.Active => "active" | ApiKeyStatus.Disabled => "disabled"
  | ApiKeyStatus.Expired => "expired" | ApiKeyStatus.Rotating => "rotating"
  | ApiKeyStatus.Deleted => "deleted"
  end.
Definition AuthSessionStatus_name (status : AuthSessionStatus.t) : string :=
  match status with
  | AuthSessionStatus.Active => "active" | AuthSessionStatus.Revoked => "revoked"
  | AuthSessionStatus.Expired => "expired"
  end.

(** ** Documents *)

Section bodies.
Context {V : Type} `{JsonLibrary V} `{Sha256Library}.

Definition organization_resource_body (x : OrganizationRecord.t) : V :=
  json_obj [
    ("kind", json_str "organization");
    ("id", json_str (OrganizationRecord.organization_id x));
    ("tenant_id", json_str (OrganizationRecord.tenant_id x));
    ("version", json_int (OrganizationRecord.resource_version x));
    ("status", json_str (DirectoryStatus.as_str (OrganizationRecord.status x)));
    ("display_name", json_str (OrganizationRecord.display_name x));
    ("created_at", json_datetime (OrganizationRecord.created_at x));
    ("updated_at", json_datetime (OrganizationRecord.updated_at x))].

Definition project_resource_body (x : ProjectRecord.t) : V :=
  json_obj [
    ("kind", json_str "project");
    ("id", json_str (ProjectRecord.project_id x));
    ("tenant_id", json_str (ProjectRecord.tenant_id x));
    ("organization_id", json_str (ProjectRecord.organization_id x));
    ("version", json_int (ProjectRecord.resource_version x));
    ("status", json_str (DirectoryStatus.as_str (ProjectRecord.status x)));
    ("display_name", json_str (ProjectRecord.display_name x));
    ("created_at", json_datetime (ProjectRecord.created_at x));
    ("updated_at", json_datetime (ProjectRecord.updated_at x))].

Definition organization_member_resource_body (x : OrganizationMembershipRecord.t) : V :=
  json_obj [
    ("kind", json_str "organization_member");
    ("id", json_str (OrganizationMembershipRecord.organization_member_id x));
    ("tenant_id", json_str (OrganizationMembershipRecord.tenant_id x));
    ("organization_id", json_str (OrganizationMembershipRecord.organization_id x));
    ("principal_id", json_str (OrganizationMembershipRecord.principal_id x));
    ("version", json_int (OrganizationMembershipRecord.resource_version x));
    ("status", json_str (MembershipStatus.as_str (OrganizationMembershipRecord.status x)))].

Definition project_member_resource_body (x : ProjectMembershipRecord.t) : V :=
  json_obj [
    ("kind", json_str "project_member");
    ("id", json_str (ProjectMembershipRecord.project_member_id x));
    ("tenant_id", json_str (ProjectMembershipRecord.tenant_id x));
    ("organization_id", json_str (ProjectMembershipRecord.organization_id x));
    ("project_id", json_str (ProjectMembershipRecord.project_id x));
    ("principal_id", json_str (ProjectMembershipRecord.principal_id x));
    ("organization_member_id", json_option_str (ProjectMembershipRecord.organization_member_id x));
    ("version", json_int (ProjectMembershipRecord.resource_version x));
    ("status", json_str (MembershipStatus.as_str (ProjectMembershipRecord.status x)))].

Definition safe_auth_session_body (x : AuthSessionRecord.t) : V :=
  json_obj [
    ("kind", json_str "auth_session");
    ("id", json_str (AuthSessionRecord.auth_session_id x));
    ("tenant_id", json_str (AuthSessionRecord.tenant_id x));
    ("principal_id", json_str (AuthSessionRecord.principal_id x));
    ("active_organization_id", json_option_str (AuthSessionRecord.active_organization_id x));
    ("active_project_id", json_option_str (AuthSessionRecord.active_project_id x));
    ("status", json_str (AuthSessionStatus_name (AuthSessionRecord.status x)));
    ("expires_at", json_datetime (AuthSessionRecord.expires_at x));
    ("created_at", json_datetime (AuthSessionRecord.created_at x));
    ("updated_at", json_datetime (AuthSessionRecord.updated_at x))].

(** [login_secret_hash], and the hash of service.rs with the same text. *)
Definition login_secret_hash (raw_value : string) : string := "sha256:" +:+ lower_hex (sha256 raw_value).

Definition external_identity_email_hash (email : string) : option string :=
  login_secret_hash <$> normalized_email email.

Definition external_identity_resource_body (x : ExternalIdentityRecord.t) : V :=
  json_obj [
    ("kind", json_str "external_identity");
    ("id", json_str (ExternalIdentityRecord.external_identity_id x));
    ("tenant_id", json_str (ExternalIdentityRecord.tenant_id x));
    ("principal_id", json_str (ExternalIdentityRecord.principal_id x));
    ("login_provider_id", json_option_str (ExternalIdentityRecord.login_provider_id x));
    ("provider_kind", json_str (ExternalIdentityRecord.provider_kind x));
    ("provider_subject", json_str (ExternalIdentityRecord.provider_subject x));
    ("email_hash",
      json_option_str (ExternalIdentityRecord.email x ≫= external_identity_email_hash));
    ("email_verified", json_bool (ExternalIdentityRecord.email_verified x));
    ("status", json_str (ResourceStatus.as_str (ExternalIdentityRecord.status x)));
    ("created_at", json_datetime (ExternalIdentityRecord.created_at x));
    ("updated_at", json_datetime (ExternalIdentityRecord.updated_at x))].

Definition user_resource_body (x : UserRecord.t) : V :=
  json_obj [
    ("kind", json_str "user");
    ("id", json_str (UserRecord.user_id x));
    ("tenant_id", json_str (UserRecord.tenant_id x));
    ("display_name", json_str (UserRecord.display_name x));
    ("primary_email", json_option_str (UserRecord.primary_email x));
    ("default_organization_id", json_option_str (UserRecord.default_organization_id x));
    ("default_project_id", json_option_str (UserRecord.default_project_id x));
    ("status", json_str (DirectoryStatus.as_str (UserRecord.status x)));
    ("version", json_int (UserRecord.resource_version x));
    ("created_at", json_datetime (UserRecord.created_at x));
    ("updated_at", json_datetime (UserRecord.updated_at x))].

Definition user_session_resource_body (x : UserRecord.t) : V :=
  json_obj [
    ("kind", json_str "user");
    ("id", json_str (UserRecord.user_id x));
    ("tenant_id", json_str (UserRecord.tenant_id x));
    ("display_name", json_str (UserRecord.display_name x));
    ("email_hash", json_option_str (UserRecord.primary_email x ≫= external_identity_email_hash));
    ("default_organization_id", json_option_str (UserRecord.default_organization_id x));
    ("default_project_id", json_option_str (UserRecord.default_project_id x));
    ("status", json_str (DirectoryStatus.as_str (UserRecord.status x)));
    ("version", json_int (UserRecord.resource_version x));
    ("created_at", json_datetime (UserRecord.created_at x));
    ("updated_at", json_datetime (UserRecord.updated_at x))].

Definition service_account_resource_body (x : ServiceAccountRecord.t) : V :=
  json_obj [
    ("kind", json_str "service_account");
    ("id", json_str (ServiceAccountRecord.service_account_id x));
    ("tenant_id", json_str (ServiceAccountRecord.tenant_id x));
    ("organization_id", json_option_str (ServiceAccountRecord.organization_id x));
    ("project_id", json_option_str (ServiceAccountRecord.project_id x));
    ("version", json_int (ServiceAccountRecord.resource_version x));
    ("status", json_str (DirectoryStatus.as_str (ServiceAccountRecord.status x)));
    ("display_name", json_str (ServiceAccountRecord.display_name x));
    ("created_by", json_str (ServiceAccountRecord.created_by x));
    ("created_at", json_datetime (ServiceAccountRecord.created_at x));
    ("updated_at", json_datetime (ServiceAccountRecord.updated_at x))].

Definition api_key_resource_body (x : ApiKeyRecord.t) : V :=
  json_obj [
    ("kind", json_str "api_key");
    ("id", json_str (ApiKeyRecord.api_key_id x));
    ("tenant_id", json_str (ApiKeyRecord.tenant_id x));
    ("organization_id", json_option_str (ApiKeyRecord.organization_id x));
    ("project_id", json_option_str (ApiKeyRecord.project_id x));
    ("owner_principal_id", json_str (ApiKeyRecord.owner_principal_id x));
    ("name", json_str (ApiKeyRecord.name x));
    ("key_prefix", json_str (ApiKeyRecord.key_prefix x));
    ("hash_version", json_int (ApiKeyRecord.hash_version x));
    ("status", json_str (ApiKeyStatus_name (ApiKeyRecord.status x)));
    ("allowed_actions", json_arr (json_str <$> ApiKeyRecord.allowed_actions x));
    ("allowed_resources", json_arr (json_str <$> ApiKeyRecord.allowed_resources x));
    ("expires_at", json_option json_datetime (ApiKeyRecord.expires_at x));
    ("last_used_at", json_option json_datetime (ApiKeyRecord.last_used_at x));
    ("last_used_request_id", json_option_str (ApiKeyRecord.last_used_request_id x));
    ("created_by", json_str (ApiKeyRecord.created_by x));
    ("created_at", json_datetime (ApiKeyRecord.created_at x));
    ("updated_at", json_datetime (ApiKeyRecord.updated_at x))].

Definition api_key_mutation_response (api_key : ApiKeyRecord.t) (audit_event_id : string)
    (raw_key : option string) (one_time_secret_available idempotency_replayed : bool) : V :=
  json_obj [
    ("schema", json_str "gateway.admin.api_key_mutation.v1");
    ("resource", api_key_resource_body api_key);
    ("raw_key", json_option_str raw_key);
    ("one_time_secret_available", json_bool one_time_secret_available);
    ("audit_event_id", json_str audit_event_id);
    ("idempotency_replayed", json_bool idempotency_replayed)].

Definition organization_invitation_resource_body (x : OrganizationInvitationRecord.t) : V :=
  json_obj [
    ("kind", json_str "organization_invitation");
    ("id", json_str (OrganizationInvitationRecord.invitation_id x));
    ("tenant_id", json_str (OrganizationInvitationRecord.tenant_id x));
    ("organization_id", json_str (OrganizationInvitationRecord.organization_id x));
    ("project_id", json_option_str (OrganizationInvitationRecord.project_id x));
    ("invited_email", json_option_str (OrganizationInvitationRecord.invited_email x));
    ("invited_principal_id", json_option_str (OrganizationInvitationRecord.invited_principal_id x));
    ("role_id", json_str (OrganizationInvitationRecord.role_id x));
    ("status", json_str (InvitationStatus.as_str (OrganizationInvitationRecord.status x)));
    ("expires_at", json_datetime (OrganizationInvitationRecord.expires_at x));
    ("accepted_at", json_option json_datetime (OrganizationInvitationRecord.accepted_at x));
    ("created_by", json_str (OrganizationInvitationRecord.created_by x));
    ("version", json_int (OrganizationInvitationRecord.resource_version x));
    ("created_at", json_datetime (OrganizationInvitationRecord.created_at x));
    ("updated_at", json_datetime (OrganizationInvitationRecord.updated_at x))].

Definition invitation_effective_status (invitation : OrganizationInvitationRecord.t) (now : DateTime)
    : string :=
  if InvitationStatus.accepts_at (OrganizationInvitationRecord.status invitation)
       (OrganizationInvitationRecord.expires_at invitation) now then "pending"
  else if OrganizationInvitationRecord.status invitation ==? InvitationStatus.Pending then "expired"
  else InvitationStatus.as_str (OrganizationInvitationRecord.status invitation).

Definition organization_invitation_preview_body (organization : OrganizationRecord.t)
    (project : option ProjectRecord.t) (invitation : OrganizationInvitationRecord.t) (now : DateTime)
    : V :=
  json_obj [
    ("kind", json_str "organization_invitation_preview");
    ("id", json_str (OrganizationInvitationRecord.invitation_id invitation));
    ("tenant_id", json_str (OrganizationInvitationRecord.tenant_id invitation));
    ("organization", json_obj [
       ("id", json_str (OrganizationRecord.organization_id organization));
       ("display_name", json_str (OrganizationRecord.display_name organization))]);
    ("project", json_option (λ project, json_obj [
       ("id", json_str (ProjectRecord.project_id project));
       ("display_name", json_str (ProjectRecord.display_name project))]) project);
    ("invited_email", json_option_str (OrganizationInvitationRecord.invited_email invitation));
    ("role_id", json_str (OrganizationInvitationRecord.role_id invitation));
    ("status", json_str (invitation_effective_status invitation now));
    ("expires_at", json_datetime (OrganizationInvitationRecord.expires_at invitation))].

Definition organization_invitation_create_diff (x : OrganizationInvitationRecord.t) : V :=
  json_obj [
    ("organization_id", json_str (OrganizationInvitationRecord.organization_id x));
    ("project_id", json_option_str (OrganizationInvitationRecord.project_id x));
    ("invited_email", json_option_str (OrganizationInvitationRecord.invited_email x));
    ("invited_principal_id", json_option_str (OrganizationInvitationRecord.invited_principal_id x));
    ("role_id", json_str (OrganizationInvitationRecord.role_id x));
    ("status", json_str (InvitationStatus.as_str (OrganizationInvitationRecord.status x)));
    ("expires_at", json_datetime (OrganizationInvitationRecord.expires_at x))].

(** [response_without_invitation_token], on the fields of the response. *)
Definition response_without_invitation_token (fields : list (string * V)) : V :=
  json_obj (List.filter (λ field, fst field !=? "invitation_token") fields).
End bodies.

(** ** What the handlers share *)

Section handlers.
Context {V : Type} `{JsonLibrary V} `{JsonText V} `{Sha256Library} `{CedarParser} `{ChronoDisplay}
  `{AuthLibrary}.
Abbreviation State := (Directory.t V).
Abbreviation Eff := (M State GatewayError.t).
Implicit Types (s : State) (actor : AuthenticatedActor.t) (now : DateTime) (drawn : Drawn.t).

(** Run an operation of the admin store, or of the authentication store. *)
Definition on_admin {A} (op : M (GatewayStore.t V) GatewayError.t A) : Eff A := λ s,
  let '(r, g) := op (Directory.store s) in (r, Directory.set_store s g).
Definition on_auth {A} (op : AuthStore.t → result GatewayError.t A * AuthStore.t) : Eff A := λ s,
  let '(r, a) := op (Directory.auth s) in (r, Directory.set_auth s a).

Definition authorize drawn actor (method path resource_id : string) now : Eff unit :=
  on_admin (authorize_admin_route (Drawn.decision drawn) actor method path resource_id now).

Definition audit drawn actor (event_type scope_kind scope_id resource_kind resource_id : string)
    (before after : option Z) (diff : V) now : Eff string :=
  on_admin (record_admin_resource_audit (Drawn.audit drawn) actor
    (AdminResourceAuditInput.mk event_type scope_kind scope_id resource_kind resource_id before after
       diff now)).

Definition record_project_audit drawn actor (project_id : string) (before after : option Z)
    (redacted_diff : V) now : Eff string :=
  let audit_event_id := new_prefixed_id "aud" (Drawn.audit drawn) in
  on_admin (record_audit_event (AuditEventRecord.mk audit_event_id "gateway.project.update"
    (AuthenticatedActor.tenant_id actor) (AuthenticatedActor.organization_id actor) (Some project_id)
    "project" project_id "Project" project_id before after (AuthenticatedActor.actor_id actor)
    (AuthenticatedActor.actor_kind actor) (AuthenticatedActor.principal_id actor)
    (AuthenticatedActor.request_id actor) (AuthenticatedActor.trace_id actor) redacted_diff now));;
  mret audit_event_id.

Definition status_and_reason (before after : string) (reason : option string) : V :=
  json_obj [("status", status_diff before after); ("reason", json_option_str reason)].

(** The block around an operation with an idempotency key.  The operation
    returns its response and what is stored of it. *)
Definition keyed actor (scope_key request_hash : string) now (operation : Eff (V * V)) : Eff V :=
  let tenant_id := AuthenticatedActor.tenant_id actor in
  replay ← on_admin (idempotency_response tenant_id scope_key request_hash now);
  match replay with
  | Some response => mret (response_with_replay_flag response true)
  | None =>
      answer ← operation;
      on_admin (record_idempotent_admin_response tenant_id scope_key request_hash (snd answer) now);;
      mret (fst answer)
  end.

Section common.
Context {R : Type} (r : DirectoryResource.t V R) (drawn : Drawn.t) (actor : AuthenticatedActor.t).

Definition directory_envelope (record : R) : V :=
  json_obj [("schema", json_str "gateway.admin.resource.v1");
            ("resource", DirectoryResource.body r record)].

(** [check] is the lookup of the parent a nested list begins with. *)
Definition list_directory {P} (check : State → result GatewayError.t P)
    (items : P → State → list R) now : Eff V :=
  parent ← reading check;
  authorize drawn actor "GET" (DirectoryResource.list_path r) "*" now;;
  route ← lift (route_metadata "GET" (DirectoryResource.item_path r));
  engine ← reading (λ s, authorization_engine_for_actor actor (Directory.store s));
  items ← gets (items parent);
  let authorized := authorize_item_list (fst engine) actor (RouteMetadata.action route)
    ((λ item, AuthorizableItem.mk
                (RouteMetadata.resource route (DirectoryResource.record_id r item)) item) <$> items) in
  mret (json_obj [
    ("schema", json_str ("gateway.admin." +:+ DirectoryResource.kind r +:+ "_list.v1"));
    ("resources", json_arr (directory_envelope <$> AuthorizedItemList.items authorized));
    ("filtered_count", json_int (Z.of_nat (AuthorizedItemList.filtered_count authorized)));
    ("next_cursor", json_null)]).

Definition get_response (record : R) : V :=
  json_obj [
    ("schema", json_str ("gateway.admin." +:+ DirectoryResource.kind r +:+ ".v1"));
    ("resource", DirectoryResource.body r record)].

Definition get_directory (resource_id : string) (find : State → result GatewayError.t R) now : Eff V :=
  authorize drawn actor "GET" (DirectoryResource.get_path r) resource_id now;;
  record ← reading find;
  mret (get_response record).

Definition directory_mutation (record : R) (rest : list (string * V)) : V :=
  json_obj ([
    ("schema", json_str ("gateway.admin." +:+ DirectoryResource.kind r +:+ "_mutation.v1"));
    ("resource", DirectoryResource.body r record)] ++ rest).
End common.

Definition no_parent s : result GatewayError.t unit := Ok tt.
Definition audited (audit_event_id : string) : list (string * V) :=
  [("audit_event_id", json_str audit_event_id)].

(** ** Looking up a record of the actor's tenant *)

Definition filtered {R} (resource : string) (found : option R) (test : R → bool)
    : result GatewayError.t R :=
  ok_or (match found with Some r => if test r then Some r else None | None => None end)
    (GatewayError.NotFound resource).

Definition organization_of actor (id : string) s := organization_for_actor actor id (Directory.draft s).
Definition project_of actor (id : string) s := project_for_actor actor id (Directory.draft s).

Definition active_organization_for_actor actor (id : string) s : Result OrganizationRecord.t :=
  organization ← organization_of actor id s;
  refuse_if (negb (DirectoryStatus.accepts_access (OrganizationRecord.status organization)))
    (GatewayError.Authorization "organization_inactive");;
  Ok organization.

Definition user_for_actor actor (user_id : string) s : Result UserRecord.t :=
  filtered ("user " +:+ user_id) (Directory.users s !! user_id)
    (λ user, UserRecord.tenant_id user ==? AuthenticatedActor.tenant_id actor).

Definition auth_session_for_actor actor (user_id auth_session_id : string) s
    : Result AuthSessionRecord.t :=
  ok_or (session_for_principal (AuthenticatedActor.tenant_id actor) user_id auth_session_id s)
    (GatewayError.NotFound ("auth session " +:+ auth_session_id)).

Definition external_identity_for_actor actor (user_id external_identity_id : string) s
    : Result ExternalIdentityRecord.t :=
  ok_or (external_identity_for_principal (AuthenticatedActor.tenant_id actor) user_id
           external_identity_id s)
    (GatewayError.NotFound ("external identity " +:+ external_identity_id)).

Definition organization_member_for_actor actor (organization_id id : string) s
    : Result OrganizationMembershipRecord.t :=
  organization_of actor organization_id s;;
  filtered ("organization member " +:+ id) (organization_member id s) (λ member,
    (OrganizationMembershipRecord.tenant_id member ==? AuthenticatedActor.tenant_id actor)
    && (OrganizationMembershipRecord.organization_id member ==? organization_id)).

Definition project_member_for_actor actor (project_id id : string) s
    : Result ProjectMembershipRecord.t :=
  project_of actor project_id s;;
  filtered ("project member " +:+ id) (project_member id s) (λ member,
    (ProjectMembershipRecord.tenant_id member ==? AuthenticatedActor.tenant_id actor)
    && (ProjectMembershipRecord.project_id member ==? project_id)).

Definition active_organization_member_for_project_assignment actor
    (organization_id principal_id : string) (organization_member_id : option string) s
    : Result OrganizationMembershipRecord.t :=
  let required := GatewayError.Authorization "active_organization_membership_required" in
  let active member :=
    MembershipStatus.accepts_access (OrganizationMembershipRecord.status member) in
  match organization_member_id with
  | Some id =>
      member ← organization_member_for_actor actor organization_id id s;
      if (OrganizationMembershipRecord.principal_id member ==? principal_id) && active member
      then Ok member else Err required
  | None =>
      ok_or (List.find (λ member,
               (OrganizationMembershipRecord.tenant_id member ==? AuthenticatedActor.tenant_id actor)
               && (OrganizationMembershipRecord.organization_id member ==? organization_id)
               && active member)
               (organization_memberships_for_principal principal_id s)) required
  end.

Definition service_account_for_actor actor (id : string) s : Result ServiceAccountRecord.t :=
  filtered ("service account " +:+ id) (Directory.service_accounts s !! id)
    (λ account, ServiceAccountRecord.tenant_id account ==? AuthenticatedActor.tenant_id actor).

Definition api_key_for_actor actor (api_key_id : string) s : Result ApiKeyRecord.t :=
  filtered ("API key " +:+ api_key_id) (api_key api_key_id s)
    (λ key, ApiKeyRecord.tenant_id key ==? AuthenticatedActor.tenant_id actor).

Definition organization_invitation_for_actor actor (organization_id id : string) s
    : Result OrganizationInvitationRecord.t :=
  filtered ("organization invitation " +:+ id) (Directory.organization_invitations s !! id)
    (λ invitation,
       (OrganizationInvitationRecord.tenant_id invitation ==? AuthenticatedActor.tenant_id actor)
       && (OrganizationInvitationRecord.organization_id invitation ==? organization_id)).

(** [update_api_key_status_for_state], without a PostgreSQL store. *)
Definition update_api_key_status_for_state actor (api_key_id : string) (status : ApiKeyStatus.t) now
    : Eff ApiKeyRecord.t :=
  updated ← update_api_key_status api_key_id status now;
  lift (refuse_if (ApiKeyRecord.tenant_id updated !=? AuthenticatedActor.tenant_id actor)
          (GatewayError.NotFound ("API key " +:+ api_key_id)));;
  put_api_key updated;;
  mret updated.

(** ** Organizations and projects *)

Definition organization_resource : DirectoryResource.t V OrganizationRecord.t :=
  DirectoryResource.mk "organization" "/admin/v1/organizations"
    "/admin/v1/organizations/{organization_id}" "/admin/v1/organizations/{organization_id}"
    OrganizationRecord.organization_id organization_resource_body.

Definition list_organizations drawn actor now : Eff V :=
  list_directory organization_resource drawn actor no_parent
    (λ _, organizations_for_tenant (AuthenticatedActor.tenant_id actor)) now.
Definition get_organization drawn actor (organization_id : string) now : Eff V :=
  get_directory organization_resource drawn actor organization_id (organization_of actor organization_id)
    now.

Definition update_organization drawn actor (organization_id : string)
    (request : AdminUpdateDirectoryStatusRequest.t) now : Eff V :=
  authorize drawn actor "PATCH" "/admin/v1/organizations/{organization_id}" organization_id now;;
  before ← reading (organization_of actor organization_id);
  updated ← update_organization_status organization_id
              (AdminUpdateDirectoryStatusRequest.expected_version request)
              (AdminUpdateDirectoryStatusRequest.status request) now;
  audit_event_id ← audit drawn actor "gateway.organization.update" "organization"
    (OrganizationRecord.organization_id updated) "Organization"
    (OrganizationRecord.organization_id updated) (Some (OrganizationRecord.resource_version before))
    (Some (OrganizationRecord.resource_version updated))
    (status_and_reason (DirectoryStatus.as_str (OrganizationRecord.status before))
       (DirectoryStatus.as_str (OrganizationRecord.status updated))
       (AdminUpdateDirectoryStatusRequest.reason request)) now;
  mret (directory_mutation organization_resource updated (audited audit_event_id)).

Definition project_resource : DirectoryResource.t V ProjectRecord.t :=
  DirectoryResource.mk "project" "/admin/v1/projects" "/admin/v1/projects/{project_id}"
    "/admin/v1/projects/{project_id}" ProjectRecord.project_id project_resource_body.

Definition list_projects drawn actor now : Eff V :=
  list_directory project_resource drawn actor no_parent
    (λ _, projects_for_tenant (AuthenticatedActor.tenant_id actor)) now.
Definition get_project drawn actor (project_id : string) now : Eff V :=
  get_directory project_resource drawn actor project_id (project_of actor project_id) now.

Definition update_project drawn actor (project_id : string)
    (request : AdminUpdateDirectoryStatusRequest.t) now : Eff V :=
  authorize drawn actor "PATCH" "/admin/v1/projects/{project_id}" project_id now;;
  before ← reading (project_of actor project_id);
  updated ← update_project_status project_id
              (AdminUpdateDirectoryStatusRequest.expected_version request)
              (AdminUpdateDirectoryStatusRequest.status request) now;
  audit_event_id ← record_project_audit drawn actor (ProjectRecord.project_id updated)
    (Some (ProjectRecord.resource_version before)) (Some (ProjectRecord.resource_version updated))
    (status_and_reason (DirectoryStatus.as_str (ProjectRecord.status before))
       (DirectoryStatus.as_str (ProjectRecord.status updated))
       (AdminUpdateDirectoryStatusRequest.reason request)) now;
  mret (directory_mutation project_resource updated (audited audit_event_id)).

(** ** Users, their sessions and their external identities *)

Definition user_resource : DirectoryResource.t V UserRecord.t :=
  DirectoryResource.mk "user" "/admin/v1/users" "/admin/v1/users/{user_id}"
    "/admin/v1/users/{user_id}" UserRecord.user_id user_resource_body.

Definition list_users drawn actor now : Eff V :=
  list_directory user_resource drawn actor no_parent
    (λ _, users_for_tenant (AuthenticatedActor.tenant_id actor)) now.
Definition get_user drawn actor (user_id : string) now : Eff V :=
  get_directory user_resource drawn actor user_id (user_for_actor actor user_id) now.

(** A user that may no longer sign in loses its sessions. *)
Definition revoke_if_inactive actor (user : UserRecord.t) now : Eff nat :=
  if DirectoryStatus.accepts_access (UserRecord.status user) then mret 0
  else on_auth (λ a, let '(n, a') := revoke_sessions_for_principal (AuthenticatedActor.tenant_id actor)
                                       (UserRecord.user_id user) now a in (Ok n, a')).

Definition update_user drawn actor (user_id : string) (request : AdminUpdateUserRequest.t) now
    : Eff V :=
  lift (validate_user_status (AdminUpdateUserRequest.status request));;
  authorize drawn actor "PATCH" "/admin/v1/users/{user_id}" user_id now;;
  before ← reading (user_for_actor actor user_id);
  updated ← update_user_status user_id (AdminUpdateUserRequest.expected_version request)
              (AdminUpdateUserRequest.status request) now;
  revoked_session_count ← revoke_if_inactive actor updated now;
  let count := ("revoked_session_count", json_int (Z.of_nat revoked_session_count)) in
  audit_event_id ← audit drawn actor "gateway.user.disable" "tenant"
    (AuthenticatedActor.tenant_id actor) "UserPrincipal" (UserRecord.user_id updated)
    (Some (UserRecord.resource_version before)) (Some (UserRecord.resource_version updated))
    (json_obj [
       ("status", status_diff (DirectoryStatus.as_str (UserRecord.status before))
                    (DirectoryStatus.as_str (UserRecord.status updated)));
       count;
       ("reason", json_option_str (AdminUpdateUserRequest.reason request))]) now;
  mret (directory_mutation user_resource updated (count :: audited audit_event_id)).

Definition auth_session_resource : DirectoryResource.t V AuthSessionRecord.t :=
  DirectoryResource.mk "auth_session" "/admin/v1/users/{user_id}/sessions"
    "/admin/v1/users/{user_id}/sessions" "/admin/v1/users/{user_id}/sessions"
    AuthSessionRecord.auth_session_id safe_auth_session_body.

Definition list_user_sessions drawn actor (user_id : string) now : Eff V :=
  list_directory auth_session_resource drawn actor (user_for_actor actor user_id)
    (λ user, sessions_for_principal (AuthenticatedActor.tenant_id actor) (UserRecord.user_id user)) now.

Definition revoke_user_session drawn actor (user_id auth_session_id : string) (reason : option string)
    now : Eff V :=
  user ← reading (user_for_actor actor user_id);
  authorize drawn actor "POST" "/admin/v1/users/{user_id}/sessions/{auth_session_id}/revoke"
    auth_session_id now;;
  before ← reading (auth_session_for_actor actor (UserRecord.user_id user) auth_session_id);
  revoked ← revoke_session_for_principal (AuthenticatedActor.tenant_id actor)
              (UserRecord.user_id user) auth_session_id now;
  audit_event_id ← audit drawn actor "gateway.session.revoke" "tenant"
    (AuthenticatedActor.tenant_id actor) "AuthSession" (AuthSessionRecord.auth_session_id revoked)
    None None
    (json_obj [
       ("principal_id", json_str (AuthSessionRecord.principal_id revoked));
       ("status", status_diff (AuthSessionStatus_name (AuthSessionRecord.status before))
                    (AuthSessionStatus_name (AuthSessionRecord.status revoked)));
       ("reason", json_option_str reason)]) now;
  mret (directory_mutation auth_session_resource revoked (audited audit_event_id)).

Definition external_identity_resource : DirectoryResource.t V ExternalIdentityRecord.t :=
  DirectoryResource.mk "external_identity"
    "/admin/v1/users/{user_id}/external-identities" "/admin/v1/users/{user_id}/external-identities"
    "/admin/v1/users/{user_id}/external-identities/{external_identity_id}"
    ExternalIdentityRecord.external_identity_id external_identity_resource_body.

Definition list_user_external_identities drawn actor (user_id : string) now : Eff V :=
  list_directory external_identity_resource drawn actor (user_for_actor actor user_id)
    (λ user, external_identities_for_principal (AuthenticatedActor.tenant_id actor)
               (UserRecord.user_id user)) now.

Definition get_user_external_identity drawn actor (user_id external_identity_id : string) now
    : Eff V :=
  user ← reading (user_for_actor actor user_id);
  get_directory external_identity_resource drawn actor external_identity_id
    (external_identity_for_actor actor (UserRecord.user_id user) external_identity_id) now.

Definition unlink_user_external_identity drawn actor (user_id external_identity_id : string)
    (reason : option string) now : Eff V :=
  user ← reading (user_for_actor actor user_id);
  authorize drawn actor "POST"
    "/admin/v1/users/{user_id}/external-identities/{external_identity_id}/unlink"
    external_identity_id now;;
  before ← reading (external_identity_for_actor actor (UserRecord.user_id user) external_identity_id);
  unlinked ← unlink_external_identity (AuthenticatedActor.tenant_id actor) (UserRecord.user_id user)
               external_identity_id now;
  audit_event_id ← audit drawn actor "gateway.external_identity.unlink" "tenant"
    (AuthenticatedActor.tenant_id actor) "ExternalIdentity"
    (ExternalIdentityRecord.external_identity_id unlinked) None None
    (json_obj [
       ("principal_id", json_str (ExternalIdentityRecord.principal_id unlinked));
       ("provider_kind", json_str (ExternalIdentityRecord.provider_kind unlinked));
       ("status", status_diff (ResourceStatus.as_str (ExternalIdentityRecord.status before))
                    (ResourceStatus.as_str (ExternalIdentityRecord.status unlinked)));
       ("reason", json_option_str reason)]) now;
  mret (directory_mutation external_identity_resource unlinked (audited audit_event_id)).

(** ** Memberships *)

Definition organization_member_resource : DirectoryResource.t V OrganizationMembershipRecord.t :=
  DirectoryResource.mk "organization_member"
    "/admin/v1/organizations/{organization_id}/members"
    "/admin/v1/organizations/{organization_id}/members/{organization_member_id}"
    "/admin/v1/organizations/{organization_id}/members/{organization_member_id}"
    OrganizationMembershipRecord.organization_member_id organization_member_resource_body.

Definition list_organization_members drawn actor (organization_id : string) now : Eff V :=
  list_directory organization_member_resource drawn actor (organization_of actor organization_id)
    (λ _, organization_members_for_organization organization_id) now.
Definition get_organization_member drawn actor (organization_id organization_member_id : string) now
    : Eff V :=
  get_directory organization_member_resource drawn actor organization_member_id
    (organization_member_for_actor actor organization_id organization_member_id) now.

Definition update_organization_member drawn actor (organization_id organization_member_id : string)
    (request : AdminUpdateMembershipRequest.t) now : Eff V :=
  authorize drawn actor "PATCH"
    "/admin/v1/organizations/{organization_id}/members/{organization_member_id}"
    organization_member_id now;;
  before ← reading (organization_member_for_actor actor organization_id organization_member_id);
  updated ← update_organization_member_status organization_member_id
              (AdminUpdateMembershipRequest.expected_version request)
              (AdminUpdateMembershipRequest.status request);
  cascaded ← cascade_project_memberships_for_organization_member updated
               (OrganizationMembershipRecord.status updated);
  let count := ("cascaded_project_member_count", json_int (Z.of_nat cascaded)) in
  audit_event_id ← audit drawn actor "gateway.organization_member.update" "organization"
    (OrganizationMembershipRecord.organization_id updated) "OrganizationMember"
    (OrganizationMembershipRecord.organization_member_id updated)
    (Some (OrganizationMembershipRecord.resource_version before))
    (Some (OrganizationMembershipRecord.resource_version updated))
    (json_obj [
       ("status", status_diff (MembershipStatus.as_str (OrganizationMembershipRecord.status before))
                    (MembershipStatus.as_str (OrganizationMembershipRecord.status updated)));
       count;
       ("reason", json_option_str (AdminUpdateMembershipRequest.reason request))]) now;
  mret (directory_mutation organization_member_resource updated (count :: audited audit_event_id)).

Definition project_member_resource : DirectoryResource.t V ProjectMembershipRecord.t :=
  DirectoryResource.mk "project_member" "/admin/v1/projects/{project_id}/members"
    "/admin/v1/projects/{project_id}/members/{project_member_id}"
    "/admin/v1/projects/{project_id}/members/{project_member_id}"
    ProjectMembershipRecord.project_member_id project_member_resource_body.

Definition list_project_members drawn actor (project_id : string) now : Eff V :=
  list_directory project_member_resource drawn actor (project_of actor project_id)
    (λ _, project_members_for_project project_id) now.
Definition get_project_member drawn actor (project_id project_member_id : string) now : Eff V :=
  get_directory project_member_resource drawn actor project_member_id
    (project_member_for_actor actor project_id project_member_id) now.

Definition update_project_member drawn actor (project_id project_member_id : string)
    (request : AdminUpdateMembershipRequest.t) now : Eff V :=
  authorize drawn actor "PATCH" "/admin/v1/projects/{project_id}/members/{project_member_id}"
    project_member_id now;;
  before ← reading (project_member_for_actor actor project_id project_member_id);
  updated ← update_project_member_status project_member_id
              (AdminUpdateMembershipRequest.expected_version request)
              (AdminUpdateMembershipRequest.status request);
  audit_event_id ← audit drawn actor "gateway.project_member.update" "project"
    (ProjectMembershipRecord.project_id updated) "ProjectMember"
    (ProjectMembershipRecord.project_member_id updated)
    (Some (ProjectMembershipRecord.resource_version before))
    (Some (ProjectMembershipRecord.resource_version updated))
    (status_and_reason (MembershipStatus.as_str (ProjectMembershipRecord.status before))
       (MembershipStatus.as_str (ProjectMembershipRecord.status updated))
       (AdminUpdateMembershipRequest.reason request)) now;
  mret (directory_mutation project_member_resource updated (audited audit_event_id)).

Definition create_project_member_json (request : AdminCreateProjectMemberRequest.t) : V :=
  json_obj [
    ("idempotency_key", json_str (AdminCreateProjectMemberRequest.idempotency_key request));
    ("principal_id", json_str (AdminCreateProjectMemberRequest.principal_id request));
    ("organization_member_id",
      json_option_str (AdminCreateProjectMemberRequest.organization_member_id request))].

(** The checks made before the route is authorized. *)
Definition project_assignment actor (project_id : string) (request : AdminCreateProjectMemberRequest.t)
    s : Result CreateProjectMembershipRequest.t :=
  project ← project_of actor project_id s;
  refuse_if (negb (DirectoryStatus.accepts_access (ProjectRecord.status project)))
    (GatewayError.BadRequest "project_not_active");;
  user ← user_for_actor actor (AdminCreateProjectMemberRequest.principal_id request) s;
  refuse_if (negb (DirectoryStatus.accepts_access (UserRecord.status user)))
    (GatewayError.BadRequest "project_member_principal_inactive");;
  member ← active_organization_member_for_project_assignment actor
             (ProjectRecord.organization_id project) (UserRecord.user_id user)
             (AdminCreateProjectMemberRequest.organization_member_id request) s;
  Ok (CreateProjectMembershipRequest.mk (AuthenticatedActor.tenant_id actor)
        (ProjectRecord.organization_id project) (ProjectRecord.project_id project)
        (UserRecord.user_id user) (OrganizationMembershipRecord.organization_member_id member)).

Definition create_project_member drawn actor (project_id : string)
    (request : AdminCreateProjectMemberRequest.t) now : Eff V :=
  assignment ← reading (project_assignment actor project_id request);
  authorize drawn actor "POST" "/admin/v1/projects/{project_id}/members" "*" now;;
  keyed actor
    (idempotency_scope_key "project_members:create"
       (CreateProjectMembershipRequest.project_id assignment +:+ ":"
        +:+ AdminCreateProjectMemberRequest.idempotency_key request))
    (stable_request_hash (create_project_member_json request)) now
    (member ← create_project_membership (Drawn.resource drawn) assignment;
     audit_event_id ← audit drawn actor "gateway.project_member.create" "project"
       (ProjectMembershipRecord.project_id member) "ProjectMember"
       (ProjectMembershipRecord.project_member_id member) None
       (Some (ProjectMembershipRecord.resource_version member))
       (json_obj [
          ("principal_id", json_str (ProjectMembershipRecord.principal_id member));
          ("organization_id", json_str (ProjectMembershipRecord.organization_id member));
          ("organization_member_id",
            json_option_str (ProjectMembershipRecord.organization_member_id member));
          ("status", json_str (MembershipStatus.as_str (ProjectMembershipRecord.status member)))]) now;
     let response := directory_mutation project_member_resource member
       (audited audit_event_id ++ [("idempotency_replayed", json_bool false)]) in
     mret (response, response)).
End handlers.

(** ** Service accounts and API keys *)

Section credentials.
Context {V : Type} `{JsonLibrary V} `{JsonText V} `{Sha256Library} `{CedarParser} `{ChronoDisplay}
  `{AuthLibrary}.
Abbreviation State := (Directory.t V).
Abbreviation Eff := (M State GatewayError.t).
Implicit Types (s : State) (actor : AuthenticatedActor.t) (now : DateTime) (drawn : Drawn.t).

Definition service_account_resource : DirectoryResource.t V ServiceAccountRecord.t :=
  DirectoryResource.mk "service_account" "/admin/v1/service-accounts"
    "/admin/v1/service-accounts/{service_account_id}"
    "/admin/v1/service-accounts/{service_account_id}" ServiceAccountRecord.service_account_id
    service_account_resource_body.

Definition list_service_accounts drawn actor now : Eff V :=
  list_directory service_account_resource drawn actor no_parent
    (λ _, service_accounts_for_tenant (AuthenticatedActor.tenant_id actor)) now.
Definition get_service_account drawn actor (id : string) now : Eff V :=
  get_directory service_account_resource drawn actor id (service_account_for_actor actor id) now.

Definition create_service_account_json (request : AdminCreateServiceAccountRequest.t) : V :=
  json_obj [
    ("idempotency_key", json_str (AdminCreateServiceAccountRequest.idempotency_key request));
    ("organization_id", json_option_str (AdminCreateServiceAccountRequest.organization_id request));
    ("project_id", json_option_str (AdminCreateServiceAccountRequest.project_id request));
    ("display_name", json_str (AdminCreateServiceAccountRequest.display_name request))].

Definition create_service_account_admin drawn actor (request : AdminCreateServiceAccountRequest.t) now
    : Eff V :=
  authorize drawn actor "POST" "/admin/v1/service-accounts" "*" now;;
  keyed actor
    (idempotency_scope_key "service_accounts:create"
       (AdminCreateServiceAccountRequest.idempotency_key request))
    (stable_request_hash (create_service_account_json request)) now
    (account ← create_service_account (Drawn.resource drawn)
       (CreateServiceAccountRequest.mk (AuthenticatedActor.tenant_id actor)
          (AdminCreateServiceAccountRequest.organization_id request)
          (AdminCreateServiceAccountRequest.project_id request)
          (trim (AdminCreateServiceAccountRequest.display_name request))
          (AuthenticatedActor.actor_id actor)) now;
     audit_event_id ← audit drawn actor "gateway.service_account.create" "service_account"
       (ServiceAccountRecord.service_account_id account) "ServiceAccount"
       (ServiceAccountRecord.service_account_id account) None
       (Some (ServiceAccountRecord.resource_version account))
       (json_obj [
          ("created", json_bool true);
          ("organization_id", json_option_str (ServiceAccountRecord.organization_id account));
          ("project_id", json_option_str (ServiceAccountRecord.project_id account));
          ("display_name", json_str (ServiceAccountRecord.display_name account))]) now;
     let response := directory_mutation service_account_resource account
       (audited audit_event_id ++ [("idempotency_replayed", json_bool false)]) in
     mret (response, response)).

Definition update_service_account drawn actor (id : string)
    (request : AdminUpdateDirectoryStatusRequest.t) now : Eff V :=
  authorize drawn actor "PATCH" "/admin/v1/service-accounts/{service_account_id}" id now;;
  before ← reading (service_account_for_actor actor id);
  updated ← update_service_account_status id
              (AdminUpdateDirectoryStatusRequest.expected_version request)
              (AdminUpdateDirectoryStatusRequest.status request) now;
  audit_event_id ← audit drawn actor "gateway.service_account.update" "service_account"
    (ServiceAccountRecord.service_account_id updated) "ServiceAccount"
    (ServiceAccountRecord.service_account_id updated)
    (Some (ServiceAccountRecord.resource_version before))
    (Some (ServiceAccountRecord.resource_version updated))
    (status_and_reason (DirectoryStatus.as_str (ServiceAccountRecord.status before))
       (DirectoryStatus.as_str (ServiceAccountRecord.status updated))
       (AdminUpdateDirectoryStatusRequest.reason request)) now;
  mret (directory_mutation service_account_resource updated (audited audit_event_id)).

Definition api_key_resource : DirectoryResource.t V ApiKeyRecord.t :=
  DirectoryResource.mk "api_key" "/admin/v1/api-keys" "/admin/v1/api-keys/{api_key_id}"
    "/admin/v1/api-keys/{api_key_id}" ApiKeyRecord.api_key_id api_key_resource_body.

Definition list_api_keys drawn actor now : Eff V :=
  list_directory api_key_resource drawn actor no_parent
    (λ _, api_keys_for_tenant (AuthenticatedActor.tenant_id actor)) now.
Definition get_api_key_admin drawn actor (api_key_id : string) now : Eff V :=
  get_directory api_key_resource drawn actor api_key_id (api_key_for_actor actor api_key_id) now.

(** The audit event of a key carries no versions. *)
Definition audit_api_key drawn actor (event_type : string) (key : ApiKeyRecord.t) (diff : V) now
    : Eff string :=
  audit drawn actor event_type "api_key" (ApiKeyRecord.api_key_id key) "ApiKey"
    (ApiKeyRecord.api_key_id key) None None diff now.

(** The response with the raw key, and the one stored, without it. *)
Definition one_time_response (key : ApiKeyRecord.t) (audit_event_id raw_key : string) : V * V :=
  (api_key_mutation_response key audit_event_id (Some raw_key) true false,
   api_key_mutation_response key audit_event_id None false false).

Definition create_api_key_json (request : AdminCreateApiKeyRequest.t) : V :=
  json_obj [
    ("idempotency_key", json_str (AdminCreateApiKeyRequest.idempotency_key request));
    ("organization_id", json_option_str (AdminCreateApiKeyRequest.organization_id request));
    ("project_id", json_option_str (AdminCreateApiKeyRequest.project_id request));
    ("owner_principal_id", json_option_str (AdminCreateApiKeyRequest.owner_principal_id request));
    ("name", json_str (AdminCreateApiKeyRequest.name request));
    ("expires_at", json_option json_datetime (AdminCreateApiKeyRequest.expires_at request));
    ("allowed_actions", json_arr (json_str <$> AdminCreateApiKeyRequest.allowed_actions request));
    ("allowed_resources", json_arr (json_str <$> AdminCreateApiKeyRequest.allowed_resources request))].

Definition new_api_key actor (request : AdminCreateApiKeyRequest.t) : CreateApiKeyRequest.t :=
  CreateApiKeyRequest.mk (AuthenticatedActor.tenant_id actor)
    (AdminCreateApiKeyRequest.organization_id request) (AdminCreateApiKeyRequest.project_id request)
    (default (actor_principal_or_actor_id actor) (AdminCreateApiKeyRequest.owner_principal_id request))
    (trim (AdminCreateApiKeyRequest.name request)) (actor_principal_or_actor_id actor)
    (AdminCreateApiKeyRequest.expires_at request) (AdminCreateApiKeyRequest.allowed_actions request)
    (AdminCreateApiKeyRequest.allowed_resources request).

(** [salt] and [bytes] are drawn for the key. *)
Definition create_api_key_admin drawn (salt : string) (bytes : list Z) actor
    (request : AdminCreateApiKeyRequest.t) now : Eff V :=
  authorize drawn actor "POST" "/admin/v1/api-keys" "*" now;;
  keyed actor
    (idempotency_scope_key "api_keys:create" (AdminCreateApiKeyRequest.idempotency_key request))
    (stable_request_hash (create_api_key_json request)) now
    ('(record, raw_key) ← lift (create_api_key (Drawn.resource drawn) salt bytes
                                  (new_api_key actor request) now);
     key ← create_api_key_record record;
     audit_event_id ← audit_api_key drawn actor "gateway.api_key.create" key
       (json_obj [
          ("created", json_bool true);
          ("organization_id", json_option_str (ApiKeyRecord.organization_id key));
          ("project_id", json_option_str (ApiKeyRecord.project_id key));
          ("owner_principal_id", json_str (ApiKeyRecord.owner_principal_id key));
          ("name", json_str (ApiKeyRecord.name key));
          ("allowed_actions", json_arr (json_str <$> ApiKeyRecord.allowed_actions key));
          ("allowed_resources", json_arr (json_str <$> ApiKeyRecord.allowed_resources key));
          ("expires_at", json_option json_datetime (ApiKeyRecord.expires_at key))]) now;
     mret (one_time_response key audit_event_id raw_key)).

Definition rotate_api_key_json (request : AdminRotateApiKeyRequest.t) : V :=
  json_obj [
    ("idempotency_key", json_str (AdminRotateApiKeyRequest.idempotency_key request));
    ("reason", json_option_str (AdminRotateApiKeyRequest.reason request))].

Definition rotate_api_key_admin drawn (salt : string) (bytes : list Z) actor (api_key_id : string)
    (request : AdminRotateApiKeyRequest.t) now : Eff V :=
  authorize drawn actor "POST" "/admin/v1/api-keys/{api_key_id}/rotate" api_key_id now;;
  keyed actor
    (idempotency_scope_key "api_keys:rotate" (AdminRotateApiKeyRequest.idempotency_key request))
    (stable_request_hash (rotate_api_key_json request)) now
    (before ← reading (api_key_for_actor actor api_key_id);
     '(record, raw_key) ← lift (rotate_api_key_secret salt bytes before now);
     key ← replace_api_key_secret record;
     audit_event_id ← audit_api_key drawn actor "gateway.api_key.rotate" key
       (json_obj [
          ("rotated", json_bool true);
          ("key_prefix", status_diff (ApiKeyRecord.key_prefix before) (ApiKeyRecord.key_prefix key));
          ("reason", json_option_str (AdminRotateApiKeyRequest.reason request))]) now;
     mret (one_time_response key audit_event_id raw_key)).

Definition disable_api_key_json (request : AdminDisableApiKeyRequest.t) : V :=
  json_obj [
    ("idempotency_key", json_str (AdminDisableApiKeyRequest.idempotency_key request));
    ("reason", json_option_str (AdminDisableApiKeyRequest.reason request))].

Definition disable_api_key_admin drawn actor (api_key_id : string)
    (request : AdminDisableApiKeyRequest.t) now : Eff V :=
  authorize drawn actor "POST" "/admin/v1/api-keys/{api_key_id}/disable" api_key_id now;;
  keyed actor
    (idempotency_scope_key "api_keys:disable" (AdminDisableApiKeyRequest.idempotency_key request))
    (stable_request_hash (disable_api_key_json request)) now
    (before ← reading (api_key_for_actor actor api_key_id);
     key ← update_api_key_status_for_state actor api_key_id ApiKeyStatus.Disabled now;
     audit_event_id ← audit_api_key drawn actor "gateway.api_key.disable" key
       (status_and_reason (ApiKeyStatus_name (ApiKeyRecord.status before))
          (ApiKeyStatus_name (ApiKeyRecord.status key)) (AdminDisableApiKeyRequest.reason request)) now;
     let response := api_key_mutation_response key audit_event_id None false false in
     mret (response, response)).
End credentials.

(** ** Invitations and sessions *)

Section accounts.
Context {V : Type} `{JsonLibrary V} `{JsonText V} `{Sha256Library} `{CedarParser} `{ChronoDisplay}
  `{AuthLibrary}.
Abbreviation State := (Directory.t V).
Abbreviation Eff := (M State GatewayError.t).
Implicit Types (s : State) (actor : AuthenticatedActor.t) (now : DateTime) (drawn : Drawn.t).
Implicit Types (session : AuthSessionRecord.t) (invitation : OrganizationInvitationRecord.t).

Definition random_login_token (prefix : string) (bytes : list Z) : string :=
  prefix +:+ "_" +:+ base64_url_no_pad bytes.
Definition generate_invitation_token (bytes : list Z) : string := random_login_token "gwinv" bytes.
Definition invitation_token_hash (raw_token : string) : string := login_secret_hash raw_token.

Definition duration_days (d : Z) : Z := duration_seconds (d * 86400).

Definition organization_invitation_validation_errors actor (organization : OrganizationRecord.t)
    (request : AdminCreateOrganizationInvitationRequest.t) now s : list V :=
  push_if
    (negb (is_some (AdminCreateOrganizationInvitationRequest.invited_email request ≫= normalized_email))
     && match AdminCreateOrganizationInvitationRequest.invited_principal_id request with
        | Some principal_id => trim principal_id ==? ""
        | None => true
        end) "invited_target" "required"
  ++ push_if
       (is_some (AdminCreateOrganizationInvitationRequest.invited_email request)
        && is_some (AdminCreateOrganizationInvitationRequest.invited_principal_id request))
       "invited_target" "ambiguous"
  ++ push_if
       (is_some_and (AdminCreateOrganizationInvitationRequest.role_id request)
          (λ role_id, (trim role_id ==? "") || (80 <? String.length role_id)%nat))
       "role_id" "invalid_role_id"
  ++ push_if
       (is_some_and (AdminCreateOrganizationInvitationRequest.expires_at request)
          (λ expires_at, (expires_at <=? now)%Z || (now + duration_days 30 <? expires_at)%Z))
       "expires_at" "invalid_expiry"
  ++ match AdminCreateOrganizationInvitationRequest.project_id request with
     | None => []
     | Some project_id =>
         push_if
           (negb (is_some_and (Directory.projects s !! project_id) (λ project,
              (ProjectRecord.tenant_id project ==? AuthenticatedActor.tenant_id actor)
              && (ProjectRecord.organization_id project
                    ==? OrganizationRecord.organization_id organization)
              && DirectoryStatus.accepts_access (ProjectRecord.status project))))
           "project_id" "invalid_project"
     end.

Definition invitation_envelope invitation : V :=
  json_obj [("schema", json_str "gateway.admin.resource.v1");
            ("resource", organization_invitation_resource_body invitation)].

Definition list_organization_invitations drawn actor (organization_id : string) now : Eff V :=
  authorize drawn actor "GET" "/admin/v1/organizations/{organization_id}/invitations"
    organization_id now;;
  organization ← reading (organization_of actor organization_id);
  items ← gets (organization_invitations (AuthenticatedActor.tenant_id actor)
                  (OrganizationRecord.organization_id organization));
  mret (json_obj [
    ("schema", json_str "gateway.admin.organization_invitation_list.v1");
    ("resources", json_arr (invitation_envelope <$> items));
    ("next_cursor", json_null)]).

Definition create_invitation_json (request : AdminCreateOrganizationInvitationRequest.t) : V :=
  json_obj [
    ("idempotency_key", json_str (AdminCreateOrganizationInvitationRequest.idempotency_key request));
    ("invited_email",
      json_option_str (AdminCreateOrganizationInvitationRequest.invited_email request));
    ("invited_principal_id",
      json_option_str (AdminCreateOrganizationInvitationRequest.invited_principal_id request));
    ("project_id", json_option_str (AdminCreateOrganizationInvitationRequest.project_id request));
    ("role_id", json_option_str (AdminCreateOrganizationInvitationRequest.role_id request));
    ("expires_at",
      json_option json_datetime (AdminCreateOrganizationInvitationRequest.expires_at request))].

Definition new_invitation actor (organization : OrganizationRecord.t)
    (request : AdminCreateOrganizationInvitationRequest.t) (raw_token : string) now
    : CreateOrganizationInvitationRequest.t :=
  CreateOrganizationInvitationRequest.mk (AuthenticatedActor.tenant_id actor)
    (OrganizationRecord.organization_id organization)
    (AdminCreateOrganizationInvitationRequest.project_id request)
    (AdminCreateOrganizationInvitationRequest.invited_email request ≫= normalized_email)
    (trimmed (AdminCreateOrganizationInvitationRequest.invited_principal_id request))
    (invitation_token_hash raw_token)
    (default "organization_member" (trimmed (AdminCreateOrganizationInvitationRequest.role_id request)))
    (default (now + duration_days 7)%Z (AdminCreateOrganizationInvitationRequest.expires_at request))
    (actor_principal_or_actor_id actor).

(** [bytes] are drawn for the token. *)
Definition create_organization_invitation_admin drawn (bytes : list Z) actor (organization_id : string)
    (request : AdminCreateOrganizationInvitationRequest.t) now : Eff V :=
  lift (validate_idempotency_key (AdminCreateOrganizationInvitationRequest.idempotency_key request));;
  authorize drawn actor "POST" "/admin/v1/organizations/{organization_id}/invitations"
    organization_id now;;
  organization ← reading (active_organization_for_actor actor organization_id);
  keyed actor
    (idempotency_scope_key ("organization_invitations:create:" +:+ organization_id)
       (AdminCreateOrganizationInvitationRequest.idempotency_key request))
    (stable_request_hash (create_invitation_json request)) now
    (reading (λ s, reject_validation_errors
                     (organization_invitation_validation_errors actor organization request now s));;
     let raw_token := generate_invitation_token bytes in
     invitation ← create_organization_invitation (Drawn.resource drawn)
                    (new_invitation actor organization request raw_token now) now;
     audit_event_id ← audit drawn actor "gateway.organization_invite.create" "organization"
       (OrganizationRecord.organization_id organization) "OrganizationInvite"
       (OrganizationInvitationRecord.invitation_id invitation) None
       (Some (OrganizationInvitationRecord.resource_version invitation))
       (organization_invitation_create_diff invitation) now;
     let fields := [
       ("schema", json_str "gateway.admin.organization_invitation_mutation.v1");
       ("resource", organization_invitation_resource_body invitation);
       ("invitation_token", json_str raw_token);
       ("audit_event_id", json_str audit_event_id);
       ("idempotency_replayed", json_bool false)] in
     mret (json_obj fields, response_without_invitation_token fields)).

Definition get_organization_invitation drawn actor (organization_id invitation_id : string) now
    : Eff V :=
  authorize drawn actor "GET"
    "/admin/v1/organizations/{organization_id}/invitations/{invitation_id}" invitation_id now;;
  reading (organization_of actor organization_id);;
  invitation ← reading (organization_invitation_for_actor actor organization_id invitation_id);
  mret (json_obj [
    ("schema", json_str "gateway.admin.organization_invitation.v1");
    ("resource", organization_invitation_resource_body invitation)]).

Definition revoke_organization_invitation drawn actor (organization_id invitation_id : string)
    (expected_version : Z) (reason : option string) now : Eff V :=
  authorize drawn actor "POST"
    "/admin/v1/organizations/{organization_id}/invitations/{invitation_id}/revoke" invitation_id now;;
  reading (organization_of actor organization_id);;
  before ← reading (organization_invitation_for_actor actor organization_id invitation_id);
  revoked ← revoke_invitation invitation_id expected_version now;
  audit_event_id ← audit drawn actor "gateway.organization_invite.revoke" "organization"
    organization_id "OrganizationInvite" (OrganizationInvitationRecord.invitation_id revoked)
    (Some (OrganizationInvitationRecord.resource_version before))
    (Some (OrganizationInvitationRecord.resource_version revoked))
    (status_and_reason (InvitationStatus.as_str (OrganizationInvitationRecord.status before))
       (InvitationStatus.as_str (OrganizationInvitationRecord.status revoked)) reason) now;
  mret (json_obj ([
    ("schema", json_str "gateway.admin.organization_invitation_mutation.v1");
    ("resource", organization_invitation_resource_body revoked)] ++ audited audit_event_id)).

(** *** The session of a signed-in user *)

Definition CSRF_TOKEN_HEADER : string := "x-gateway-csrf-token".

Definition auth_session_csrf_token session : string :=
  login_secret_hash ("gateway-csrf-v1:" +:+ AuthSessionRecord.auth_session_id session +:+ ":"
                     +:+ AuthSessionRecord.session_hash session).
Definition auth_session_csrf_body session : V :=
  json_obj [("header", json_str CSRF_TOKEN_HEADER);
            ("token", json_str (auth_session_csrf_token session))].

Definition verify_auth_session_from_headers (headers : HeaderMap) now s
    : Result AuthSessionRecord.t :=
  presented_token ← bearer_token headers;
  refuse_if (negb (starts_with SESSION_TOKEN_PREFIX presented_token)) GatewayError.Authentication;;
  session ← verify_session_token presented_token now (Directory.auth s);
  user ← ok_or (Directory.users s !! AuthSessionRecord.principal_id session)
           GatewayError.Authentication;
  refuse_if (negb (DirectoryStatus.accepts_access (UserRecord.status user)))
    GatewayError.Authentication;;
  Ok session.

Definition verify_auth_session_csrf (headers : HeaderMap) session : Result unit :=
  presented_token ← ok_or (header_str headers CSRF_TOKEN_HEADER) GatewayError.Authentication;
  refuse_if (negb (constant_time_bytes_eq (bytes_of presented_token)
                     (bytes_of (auth_session_csrf_token session)))) GatewayError.Authentication.

Definition verify_mutating_auth_session_from_headers (headers : HeaderMap) now s
    : Result AuthSessionRecord.t :=
  session ← verify_auth_session_from_headers headers now s;
  verify_auth_session_csrf headers session;;
  Ok session.

Definition auth_session_response_body session s : V :=
  json_obj [
    ("schema", json_str "gateway.auth.session.v1");
    ("session", safe_auth_session_body session);
    ("csrf", auth_session_csrf_body session);
    ("user", json_option user_session_resource_body
               (Directory.users s !! AuthSessionRecord.principal_id session));
    ("organization_memberships", json_arr (organization_member_resource_body <$>
       List.filter (λ m, OrganizationMembershipRecord.tenant_id m ==? AuthSessionRecord.tenant_id session)
         (organization_memberships_for_principal (AuthSessionRecord.principal_id session) s)));
    ("project_memberships", json_arr (project_member_resource_body <$>
       List.filter (λ m, ProjectMembershipRecord.tenant_id m ==? AuthSessionRecord.tenant_id session)
         (project_memberships_for_principal (AuthSessionRecord.principal_id session) s)))].

Definition get_current_auth_session (headers : HeaderMap) now : Eff V :=
  session ← reading (verify_auth_session_from_headers headers now);
  gets (auth_session_response_body session).

Definition logout_current_auth_session (headers : HeaderMap) now : Eff V :=
  session ← reading (verify_mutating_auth_session_from_headers headers now);
  revoked ← on_auth (revoke_session_by_hash (AuthSessionRecord.session_hash session) now);
  mret (json_obj [
    ("schema", json_str "gateway.auth.logout.v1");
    ("session", safe_auth_session_body revoked)]).

Definition normalized_auth_context_id (value field_name : string) : Result string :=
  refuse_if (trim value ==? "") (GatewayError.BadRequest (field_name +:+ "_required"));;
  Ok (trim value).

Definition active_organization_for_session session (organization_id : string) s
    : Result OrganizationRecord.t :=
  organization ← filtered ("organization " +:+ organization_id)
    (Directory.organizations s !! organization_id)
    (λ o, OrganizationRecord.tenant_id o ==? AuthSessionRecord.tenant_id session);
  refuse_if (negb (DirectoryStatus.accepts_access (OrganizationRecord.status organization)))
    (GatewayError.Authorization "organization_inactive");;
  refuse_if (negb (existsb (λ m,
      (OrganizationMembershipRecord.tenant_id m ==? AuthSessionRecord.tenant_id session)
      && (OrganizationMembershipRecord.organization_id m ==? organization_id)
      && MembershipStatus.accepts_access (OrganizationMembershipRecord.status m))
      (organization_memberships_for_principal (AuthSessionRecord.principal_id session) s)))
    (GatewayError.Authorization "organization_membership_required");;
  Ok organization.

Definition active_project_for_session session (project_id : string)
    (required_organization_id : option string) s : Result ProjectRecord.t :=
  project ← filtered ("project " +:+ project_id) (Directory.projects s !! project_id)
    (λ p, ProjectRecord.tenant_id p ==? AuthSessionRecord.tenant_id session);
  refuse_if (is_some_and required_organization_id
               (λ organization_id, organization_id !=? ProjectRecord.organization_id project))
    (GatewayError.Authorization "project_organization_mismatch");;
  refuse_if (negb (DirectoryStatus.accepts_access (ProjectRecord.status project)))
    (GatewayError.Authorization "project_inactive");;
  active_organization_for_session session (ProjectRecord.organization_id project) s;;
  membership ← ok_or (project_membership (AuthSessionRecord.principal_id session) project_id
                        (Directory.auth s)) (GatewayError.Authorization "project_membership_required");
  refuse_if (negb (ProjectMembershipRecord.accepts_access membership))
    (GatewayError.Authorization "project_membership_inactive");;
  Ok project.

(** A candidate is added unless it is there already. *)
Definition push_new (candidates : list string) (id : string) : list string :=
  if existsb (λ candidate, candidate ==? id) candidates then candidates else candidates ++ [id].

(** The projects tried in turn: the user's default, the session's own, then the
    user's active memberships in the organization. *)
Definition project_candidates session (organization_id : string) s : list string :=
  let default_project := Directory.users s !! AuthSessionRecord.principal_id session
                           ≫= UserRecord.default_project_id in
  let candidates := match default_project with Some id => [id] | None => [] end in
  let candidates := match AuthSessionRecord.active_project_id session with
                    | Some id => push_new candidates id
                    | None => candidates
                    end in
  fold_left (λ candidates m, push_new candidates (ProjectMembershipRecord.project_id m))
    (List.filter (λ m,
       (ProjectMembershipRecord.tenant_id m ==? AuthSessionRecord.tenant_id session)
       && (ProjectMembershipRecord.organization_id m ==? organization_id)
       && ProjectMembershipRecord.accepts_access m)
       (project_memberships_for_principal (AuthSessionRecord.principal_id session) s)) candidates.

Definition select_session_project_for_organization session (organization_id : string)
    (requested_project_id : option string) s : Result (option ProjectMembershipRecord.t) :=
  let membership id := project_membership (AuthSessionRecord.principal_id session) id
                         (Directory.auth s) in
  match requested_project_id with
  | Some project_id =>
      project_id ← normalized_auth_context_id project_id "project_id";
      project ← active_project_for_session session project_id (Some organization_id) s;
      Ok (membership (ProjectRecord.project_id project))
  | None =>
      Ok (List.find (λ id, is_ok (active_project_for_session session id (Some organization_id) s))
            (project_candidates session organization_id s) ≫= membership)
  end.

Definition update_context session (organization_id project_id : option string) now
    : Eff AuthSessionRecord.t :=
  on_auth (update_session_active_context_by_hash (AuthSessionRecord.session_hash session)
             organization_id project_id now).

Definition update_session_default_organization (headers : HeaderMap)
    (request : SessionOrganizationRequest.t) now : Eff V :=
  session ← reading (verify_mutating_auth_session_from_headers headers now);
  organization_id ← lift (normalized_auth_context_id
                            (SessionOrganizationRequest.organization_id request) "organization_id");
  organization ← reading (active_organization_for_session session organization_id);
  project ← reading (select_session_project_for_organization session organization_id
                       (SessionOrganizationRequest.project_id request));
  let active_project_id := ProjectMembershipRecord.project_id <$> project in
  update_user_default_context (AuthSessionRecord.principal_id session)
    (Some (OrganizationRecord.organization_id organization)) active_project_id now;;
  updated ← update_context session (Some (OrganizationRecord.organization_id organization))
              active_project_id now;
  gets (auth_session_response_body updated).

Definition update_session_active_organization (headers : HeaderMap)
    (request : SessionOrganizationRequest.t) now : Eff V :=
  session ← reading (verify_mutating_auth_session_from_headers headers now);
  organization_id ← lift (normalized_auth_context_id
                            (SessionOrganizationRequest.organization_id request) "organization_id");
  organization ← reading (active_organization_for_session session organization_id);
  project ← reading (select_session_project_for_organization session organization_id
                       (SessionOrganizationRequest.project_id request));
  updated ← update_context session (Some (OrganizationRecord.organization_id organization))
              (ProjectMembershipRecord.project_id <$> project) now;
  gets (auth_session_response_body updated).

Definition update_session_active_project (headers : HeaderMap) (project_id : string) now : Eff V :=
  session ← reading (verify_mutating_auth_session_from_headers headers now);
  project_id ← lift (normalized_auth_context_id project_id "project_id");
  project ← reading (active_project_for_session session project_id None);
  updated ← update_context session (Some (ProjectRecord.organization_id project))
              (Some (ProjectRecord.project_id project)) now;
  gets (auth_session_response_body updated).

(** *** Accepting an invitation *)

Definition invitation_by_raw_token (raw_token : string) s : Result OrganizationInvitationRecord.t :=
  let missing := GatewayError.NotFound "organization invitation" in
  refuse_if ((trim raw_token ==? "") || negb (starts_with "gwinv_" raw_token)) missing;;
  ok_or (organization_invitation_by_token_hash (invitation_token_hash raw_token) s) missing.

Definition verify_session_matches_invitation session invitation s : Result unit :=
  refuse_if (AuthSessionRecord.tenant_id session
             !=? OrganizationInvitationRecord.tenant_id invitation)
    (GatewayError.Authorization "invitation_tenant_mismatch");;
  if is_some_and (OrganizationInvitationRecord.invited_principal_id invitation)
       (λ principal_id, principal_id ==? AuthSessionRecord.principal_id session)
  then Ok tt
  else
    match OrganizationInvitationRecord.invited_email invitation with
    | None => forbidden "invitation_principal_mismatch"
    | Some invited_email =>
        user ← ok_or (Directory.users s !! AuthSessionRecord.principal_id session)
                 GatewayError.Authentication;
        refuse_if ((UserRecord.primary_email user ≫= normalized_email) !=? Some invited_email)
          (GatewayError.Authorization "invitation_email_mismatch")
    end.

Definition preview_auth_invitation (token : string) now s : Result V :=
  invitation ← invitation_by_raw_token token s;
  organization ← filtered "organization invitation"
    (Directory.organizations s !! OrganizationInvitationRecord.organization_id invitation)
    (λ o, OrganizationRecord.tenant_id o ==? OrganizationInvitationRecord.tenant_id invitation);
  let project :=
    match OrganizationInvitationRecord.project_id invitation ≫= λ id, Directory.projects s !! id with
    | Some p => if ProjectRecord.tenant_id p ==? OrganizationInvitationRecord.tenant_id invitation
                then Some p else None
    | None => None
    end in
  Ok (json_obj [
    ("schema", json_str "gateway.auth.invitation_preview.v1");
    ("resource", organization_invitation_preview_body organization project invitation now)]).

(** [member_uuid] and [project_uuid] are drawn for the memberships. *)
Definition accept_auth_invitation drawn (member_uuid project_uuid request_uuid trace_uuid : string)
    (headers : HeaderMap) (token : string) now : Eff V :=
  session ← reading (verify_mutating_auth_session_from_headers headers now);
  invitation ← reading (invitation_by_raw_token token);
  reading (verify_session_matches_invitation session invitation);;
  accepted ← accept_organization_invitation member_uuid project_uuid
               (OrganizationInvitationRecord.invitation_id invitation)
               (AuthSessionRecord.principal_id session) now;
  updated_session ← update_context session
    (Some (OrganizationInvitationRecord.organization_id accepted))
    (OrganizationInvitationRecord.project_id accepted) now;
  let actor := AuthenticatedActor.for_user_session
    (ActorScope.mk (OrganizationInvitationRecord.tenant_id accepted)
       (Some (OrganizationInvitationRecord.organization_id accepted))
       (OrganizationInvitationRecord.project_id accepted))
    (AuthSessionRecord.principal_id session) (AuthSessionRecord.auth_session_id session)
    (request_id_from_headers request_uuid headers) (trace_id_from_headers trace_uuid headers)
    (Some (AuthSessionRecord.expires_at session)) in
  audit_event_id ← audit drawn actor "gateway.organization_invite.accept" "organization"
    (OrganizationInvitationRecord.organization_id accepted) "OrganizationInvite"
    (OrganizationInvitationRecord.invitation_id accepted)
    (Some (OrganizationInvitationRecord.resource_version invitation))
    (Some (OrganizationInvitationRecord.resource_version accepted))
    (json_obj [
       ("accepted_principal_id", json_str (AuthSessionRecord.principal_id session));
       ("organization_id", json_str (OrganizationInvitationRecord.organization_id accepted));
       ("project_id", json_option_str (OrganizationInvitationRecord.project_id accepted));
       ("role_id", json_str (OrganizationInvitationRecord.role_id accepted));
       ("status", status_diff
          (InvitationStatus.as_str (OrganizationInvitationRecord.status invitation))
          (InvitationStatus.as_str (OrganizationInvitationRecord.status accepted)))]) now;
  session_body ← gets (auth_session_response_body updated_session);
  mret (json_obj [
    ("schema", json_str "gateway.auth.invitation_accept.v1");
    ("resource", organization_invitation_resource_body accepted);
    ("session", session_body);
    ("audit_event_id", json_str audit_event_id)]).
End accounts.
