(* ===== verification/DirectoryFacts.v ===== *)
(** * What the directory guarantees

    A run of the directory is any sequence of its requests, with API keys and
    session tokens presented in between.  Shown here over all runs: rows stay
    under their own keys; a disabled API key, the sessions of a disabled user and
    the project memberships behind a suspended organization membership stay out
    until someone puts them back; closed invitations stay closed. *)

From S2P Require Import Prelude Order Text Domain Action HotState Routing Json Pricing RuntimePolicy.
From S2P Require Import Reconciler Delivery Auth CedarPolicy Publication GwRoute AdminRecords.
From S2P Require Import DraftCatalog AdminState AdminValidation AdminHandlers AdminEmergency AdminFacts.
From S2P Require Import GwRequest AdminScenarios Directory DirectoryHandlers.

(** ** Requests and runs *)

Section runs.
Context {V : Type} `{JsonLibrary V} `{JsonText V} `{Sha256Library} `{CedarParser} `{ChronoDisplay}
  `{AuthLibrary}.
Abbreviation State := (Directory.t V).
Abbreviation Eff := (M State GatewayError.t).
Implicit Types (s : State).

(** Everything the directory serves; [Present] is a request to any other route,
    which is authenticated from its headers. *)
Inductive DirectoryRequest : Type :=
| ListOrganizations (drawn : Drawn.t) (actor : AuthenticatedActor.t) (now : DateTime)
| GetOrganization (drawn : Drawn.t) (actor : AuthenticatedActor.t) (id : string) (now : DateTime)
| UpdateOrganization (drawn : Drawn.t) (actor : AuthenticatedActor.t) (id : string)
    (request : AdminUpdateDirectoryStatusRequest.t) (now : DateTime)
| ListProjects (drawn : Drawn.t) (actor : AuthenticatedActor.t) (now : DateTime)
| GetProject (drawn : Drawn.t) (actor : AuthenticatedActor.t) (id : string) (now : DateTime)
| UpdateProject (drawn : Drawn.t) (actor : AuthenticatedActor.t) (id : string)
    (request : AdminUpdateDirectoryStatusRequest.t) (now : DateTime)
| ListUsers (drawn : Drawn.t) (actor : AuthenticatedActor.t) (now : DateTime)
| GetUser (drawn : Drawn.t) (actor : AuthenticatedActor.t) (id : string) (now : DateTime)
| UpdateUser (drawn : Drawn.t) (actor : AuthenticatedActor.t) (id : string)
    (request : AdminUpdateUserRequest.t) (now : DateTime)
| ListUserSessions (drawn : Drawn.t) (actor : AuthenticatedActor.t) (user_id : string) (now : DateTime)
| RevokeUserSession (drawn : Drawn.t) (actor : AuthenticatedActor.t) (user_id id : string)
    (reason : option string) (now : DateTime)
| ListIdentities (drawn : Drawn.t) (actor : AuthenticatedActor.t) (user_id : string) (now : DateTime)
| GetIdentity (drawn : Drawn.t) (actor : AuthenticatedActor.t) (user_id id : string) (now : DateTime)
| UnlinkIdentity (drawn : Drawn.t) (actor : AuthenticatedActor.t) (user_id id : string)
    (reason : option string) (now : DateTime)
| ListOrganizationMembers (drawn : Drawn.t) (actor : AuthenticatedActor.t) (organization_id : string)
    (now : DateTime)
| GetOrganizationMember (drawn : Drawn.t) (actor : AuthenticatedActor.t) (organization_id id : string)
    (now : DateTime)
| UpdateOrganizationMember (drawn : Drawn.t) (actor : AuthenticatedActor.t)
    (organization_id id : string) (request : AdminUpdateMembershipRequest.t) (now : DateTime)
| ListProjectMembers (drawn : Drawn.t) (actor : AuthenticatedActor.t) (project_id : string)
    (now : DateTime)
| GetProjectMember (drawn : Drawn.t) (actor : AuthenticatedActor.t) (project_id id : string)
    (now : DateTime)
| CreateProjectMember (drawn : Drawn.t) (actor : AuthenticatedActor.t) (project_id : string)
    (request : AdminCreateProjectMemberRequest.t) (now : DateTime)
| UpdateProjectMember (drawn : Drawn.t) (actor : AuthenticatedActor.t) (project_id id : string)
    (request : AdminUpdateMembershipRequest.t) (now : DateTime)
| ListServiceAccounts (drawn : Drawn.t) (actor : AuthenticatedActor.t) (now : DateTime)
| GetServiceAccount (drawn : Drawn.t) (actor : AuthenticatedActor.t) (id : string) (now : DateTime)
| CreateServiceAccount (drawn : Drawn.t) (actor : AuthenticatedActor.t)
    (request : AdminCreateServiceAccountRequest.t) (now : DateTime)
| UpdateServiceAccount (drawn : Drawn.t) (actor : AuthenticatedActor.t) (id : string)
    (request : AdminUpdateDirectoryStatusRequest.t) (now : DateTime)
| ListApiKeys (drawn : Drawn.t) (actor : AuthenticatedActor.t) (now : DateTime)
| GetApiKey (drawn : Drawn.t) (actor : AuthenticatedActor.t) (id : string) (now : DateTime)
| CreateApiKey (drawn : Drawn.t) (salt : string) (bytes : list Z) (actor : AuthenticatedActor.t)
    (request : AdminCreateApiKeyRequest.t) (now : DateTime)
| RotateApiKey (drawn : Drawn.t) (salt : string) (bytes : list Z) (actor : AuthenticatedActor.t)
    (id : string) (request : AdminRotateApiKeyRequest.t) (now : DateTime)
| DisableApiKey (drawn : Drawn.t) (actor : AuthenticatedActor.t) (id : string)
    (request : AdminDisableApiKeyRequest.t) (now : DateTime)
| ListInvitations (drawn : Drawn.t) (actor : AuthenticatedActor.t) (organization_id : string)
    (now : DateTime)
| CreateInvitation (drawn : Drawn.t) (bytes : list Z) (actor : AuthenticatedActor.t)
    (organization_id : string) (request : AdminCreateOrganizationInvitationRequest.t) (now : DateTime)
| GetInvitation (drawn : Drawn.t) (actor : AuthenticatedActor.t) (organization_id id : string)
    (now : DateTime)
| RevokeInvitation (drawn : Drawn.t) (actor : AuthenticatedActor.t) (organization_id id : string)
    (expected_version : Z) (reason : option string) (now : DateTime)
| PreviewInvitation (token : string) (now : DateTime)
| AcceptInvitation (drawn : Drawn.t) (member_uuid project_uuid request_uuid trace_uuid : string)
    (headers : HeaderMap) (token : string) (now : DateTime)
| CurrentSession (headers : HeaderMap) (now : DateTime)
| DefaultOrganization (headers : HeaderMap) (request : SessionOrganizationRequest.t) (now : DateTime)
| ActiveOrganization (headers : HeaderMap) (request : SessionOrganizationRequest.t) (now : DateTime)
| ActiveProject (headers : HeaderMap) (project_id : string) (now : DateTime)
| Logout (headers : HeaderMap) (now : DateTime)
| Present (request_uuid trace_uuid : string) (headers : HeaderMap) (now : DateTime).

Definition present (request_uuid trace_uuid : string) (headers : HeaderMap) (now : DateTime)
    : Eff AuthenticatedActor.t :=
  on_auth (authenticate_request (V:=V) None request_uuid trace_uuid headers now).

Definition serve (request : DirectoryRequest) (s : State) : State :=
  match request with
  | ListOrganizations drawn actor now => (list_organizations drawn actor now s).2
  | GetOrganization drawn actor id now => (get_organization drawn actor id now s).2
  | UpdateOrganization drawn actor id request now => (update_organization drawn actor id request now s).2
  | ListProjects drawn actor now => (list_projects drawn actor now s).2
  | GetProject drawn actor id now => (get_project drawn actor id now s).2
  | UpdateProject drawn actor id request now => (update_project drawn actor id request now s).2
  | ListUsers drawn actor now => (list_users drawn actor now s).2
  | GetUser drawn actor id now => (get_user drawn actor id now s).2
  | UpdateUser drawn actor id request now => (update_user drawn actor id request now s).2
  | ListUserSessions drawn actor user_id now => (list_user_sessions drawn actor user_id now s).2
  | RevokeUserSession drawn actor user_id id reason now =>
      (revoke_user_session drawn actor user_id id reason now s).2
  | ListIdentities drawn actor user_id now => (list_user_external_identities drawn actor user_id now s).2
  | GetIdentity drawn actor user_id id now => (get_user_external_identity drawn actor user_id id now s).2
  | UnlinkIdentity drawn actor user_id id reason now =>
      (unlink_user_external_identity drawn actor user_id id reason now s).2
  | ListOrganizationMembers drawn actor organization_id now =>
      (list_organization_members drawn actor organization_id now s).2
  | GetOrganizationMember drawn actor organization_id id now =>
      (get_organization_member drawn actor organization_id id now s).2
  | UpdateOrganizationMember drawn actor organization_id id request now =>
      (update_organization_member drawn actor organization_id id request now s).2
  | ListProjectMembers drawn actor project_id now =>
      (list_project_members drawn actor project_id now s).2
  | GetProjectMember drawn actor project_id id now =>
      (get_project_member drawn actor project_id id now s).2
  | CreateProjectMember drawn actor project_id request now =>
      (create_project_member drawn actor project_id request now s).2
  | UpdateProjectMember drawn actor project_id id request now =>
      (update_project_member drawn actor project_id id request now s).2
  | ListServiceAccounts drawn actor now => (list_service_accounts drawn actor now s).2
  | GetServiceAccount drawn actor id now => (get_service_account drawn actor id now s).2
  | CreateServiceAccount drawn actor request now =>
      (create_service_account_admin drawn actor request now s).2
  | UpdateServiceAccount drawn actor id request now =>
      (update_service_account drawn actor id request now s).2
  | ListApiKeys drawn actor now => (list_api_keys drawn actor now s).2
  | GetApiKey drawn actor id now => (get_api_key_admin drawn actor id now s).2
  | CreateApiKey drawn salt bytes actor request now =>
      (create_api_key_admin drawn salt bytes actor request now s).2
  | RotateApiKey drawn salt bytes actor id request now =>
      (rotate_api_key_admin drawn salt bytes actor id request now s).2
  | DisableApiKey drawn actor id request now => (disable_api_key_admin drawn actor id request now s).2
  | ListInvitations drawn actor organization_id now =>
      (list_organization_invitations drawn actor organization_id now s).2
  | CreateInvitation drawn bytes actor organization_id request now =>
      (create_organization_invitation_admin drawn bytes actor organization_id request now s).2
  | GetInvitation drawn actor organization_id id now =>
      (get_organization_invitation drawn actor organization_id id now s).2
  | RevokeInvitation drawn actor organization_id id expected_version reason now =>
      (revoke_organization_invitation drawn actor organization_id id expected_version reason now s).2
  | PreviewInvitation token now => (reading (preview_auth_invitation token now) s).2
  | AcceptInvitation drawn member_uuid project_uuid request_uuid trace_uuid headers token now =>
      (accept_auth_invitation drawn member_uuid project_uuid request_uuid trace_uuid headers token
         now s).2
  | CurrentSession headers now => (get_current_auth_session headers now s).2
  | DefaultOrganization headers request now =>
      (update_session_default_organization headers request now s).2
  | ActiveOrganization headers request now =>
      (update_session_active_organization headers request now s).2
  | ActiveProject headers project_id now => (update_session_active_project headers project_id now s).2
  | Logout headers now => (logout_current_auth_session headers now s).2
  | Present request_uuid trace_uuid headers now => (present request_uuid trace_uuid headers now s).2
  end.

Definition serve_all (requests : list DirectoryRequest) (s : State) : State :=
  fold_left (λ s request, serve request s) requests s.

(** ** Operations that keep a property of the state *)

Section keeps.
Context (P : State → Prop).

(** An operation of the authentication store that changes nothing [P] mentions. *)
Lemma kept_auth {A} (op : AuthStore.t → result GatewayError.t A * AuthStore.t) :
  (∀ s, P s → P (Directory.set_auth s (op (Directory.auth s)).2)) → keeps P (on_auth op).
Proof.
  intros Hop s Hs. unfold on_auth. specialize (Hop s Hs). by destruct (op (Directory.auth s)).
Qed.

Context (store_free : ∀ s g, P s → P (Directory.set_store s g)).

Lemma kept_admin {A} (op : M (GatewayStore.t V) GatewayError.t A) : keeps P (on_admin op).
Proof. intros s Hs. unfold on_admin. destruct (op (Directory.store s)). by apply store_free. Qed.

Lemma kept_authorize drawn actor method path id now : keeps P (authorize drawn actor method path id now).
Proof. apply kept_admin. Qed.
Lemma kept_audit drawn actor a b c d e before after diff now :
  keeps P (audit drawn actor a b c d e before after diff now).
Proof. apply kept_admin. Qed.
Lemma kept_project_audit drawn actor id before after diff now :
  keeps P (record_project_audit drawn actor id before after diff now).
Proof. apply kept_bind; [apply kept_admin|intros; apply kept_ret]. Qed.

Lemma kept_keyed actor scope hash now operation :
  keeps P operation → keeps P (keyed actor scope hash now operation).
Proof.
  intros Hop. unfold keyed. apply kept_bind; [apply kept_admin|]. intros [response|]; [apply kept_ret|].
  apply kept_bind; [done|]. intros answer. apply kept_bind; [apply kept_admin|intros; apply kept_ret].
Qed.

Lemma kept_list {R Q} (r : DirectoryResource.t V R) drawn actor (check : State → result GatewayError.t Q)
    items now : keeps P (list_directory r drawn actor check items now).
Proof.
  unfold list_directory. apply kept_bind; [apply kept_reading|]. intros p.
  apply kept_bind; [apply kept_admin|]. intros _. apply kept_bind; [apply kept_lift|]. intros route.
  apply kept_bind; [apply kept_reading|]. intros engine. apply kept_bind; [apply kept_gets|].
  intros l. apply kept_ret.
Qed.
Lemma kept_get {R} (r : DirectoryResource.t V R) drawn actor id find now :
  keeps P (get_directory r drawn actor id find now).
Proof.
  unfold get_directory. apply kept_bind; [apply kept_admin|]. intros _.
  apply kept_bind; [apply kept_reading|intros; apply kept_ret].
Qed.
End keeps.
End runs.

(** Take a handler apart, down to the operations of the store. *)
Ltac keep free :=
  repeat match goal with
    | |- forall _, _ => intros
    | |- keeps _ (mret _) => apply kept_ret
    | |- keeps _ (reading _) => apply kept_reading
    | |- keeps _ (gets _) => apply kept_gets
    | |- keeps _ (lift _) => apply kept_lift
    | |- keeps _ (throw _) => apply kept_throw
    | |- keeps _ (on_admin _) => apply (kept_admin _ free)
    | |- keeps _ (authorize _ _ _ _ _ _) => apply (kept_authorize _ free)
    | |- keeps _ (audit _ _ _ _ _ _ _ _ _ _ _) => apply (kept_audit _ free)
    | |- keeps _ (record_project_audit _ _ _ _ _ _ _) => apply (kept_project_audit _ free)
    | |- keeps _ (keyed _ _ _ _ _) => apply (kept_keyed _ free)
    | |- keeps _ (list_directory _ _ _ _ _ _) => apply (kept_list _ free)
    | |- keeps _ (get_directory _ _ _ _ _ _) => apply (kept_get _ free)
    | |- keeps _ (let '(_, _) := ?x in _) => destruct x
    | |- keeps _ (match ?x with Some _ => _ | None => _ end) => destruct x
    | |- keeps _ (if ?x then _ else _) => destruct x
    | |- keeps _ (reading _ ≫= _) => apply kept_bind_reading
    | |- keeps _ (lift _ ≫= _) => apply kept_bind_lift
    | |- keeps _ (_ ≫= _) => apply kept_bind
    end.

(** An operation of the store on tables the property does not mention. *)
Ltac quiet_leaf :=
  intros ? ?;
  unfold update_organization_status, update_project_status, update_user_status,
    update_user_default_context, update_organization_member_status, update_project_member_status,
    create_project_membership, cascade_project_memberships_for_organization_member,
    create_service_account, update_service_account_status, create_api_key_record,
    replace_api_key_secret, update_api_key_status_for_state, update_api_key_status, put_api_key,
    revoke_if_inactive, revoke_session_for_principal, unlink_external_identity,
    create_organization_invitation, revoke_invitation, mark_accepted, upsert_invited_organization_membership,
    upsert_invited_project_membership, repair_user_defaults_after_invite_accept, update_context,
    on_rows, on_auth, throw, revoke_sessions_for_principal, revoke_session_by_hash,
    update_session_active_context_by_hash, mbind, M_bind, lift;
  repeat case_match; simplify_eq; assumption.

Ltac handlers :=
  unfold list_organizations, get_organization, update_organization, list_projects, get_project,
    update_project, list_users, get_user, update_user, list_user_sessions, revoke_user_session,
    list_user_external_identities, get_user_external_identity, unlink_user_external_identity,
    list_organization_members, get_organization_member, update_organization_member,
    list_project_members, get_project_member, create_project_member, update_project_member,
    list_service_accounts, get_service_account, create_service_account_admin, update_service_account,
    list_api_keys, get_api_key_admin, create_api_key_admin, rotate_api_key_admin,
    disable_api_key_admin, list_organization_invitations, create_organization_invitation_admin,
    get_organization_invitation, revoke_organization_invitation, accept_auth_invitation,
    get_current_auth_session, update_session_default_organization,
    update_session_active_organization, update_session_active_project, logout_current_auth_session,
    audit_api_key, accept_organization_invitation.

Ltac as_keeps :=
  match goal with
  | |- ?P (?op _).2 => cut (keeps P op); [let K := fresh in intros K; by apply K|]
  end.

Ltac serve_cases request free leaf :=
  destruct request;
  cbn [serve]; as_keeps; handlers; keep free; try solve [leaf].

Create HintDb keyed_rows discriminated.

Section properties.
Context {V : Type} `{JsonLibrary V} `{JsonText V} `{Sha256Library} `{CedarParser} `{ChronoDisplay}
  `{AuthLibrary}.
Abbreviation State := (Directory.t V).
Abbreviation Eff := (M State GatewayError.t).
Implicit Types (s : State) (actor : AuthenticatedActor.t) (now : DateTime).

(** Authentication leaves keys, sessions and memberships as they are. *)
Lemma authenticate_frames request_uuid trace_uuid headers now (a : AuthStore.t) :
  let a' := (authenticate_request (V:=V) None request_uuid trace_uuid headers now a).2 in
  AuthStore.api_keys a' = AuthStore.api_keys a
  ∧ AuthStore.auth_sessions a' = AuthStore.auth_sessions a
  ∧ AuthStore.project_memberships a' = AuthStore.project_memberships a.
Proof.
  unfold authenticate_request, verify_api_key, api_key_failed_auth_allowed, failed_api_key_auth_count.
  cbv zeta. repeat case_match; simplify_eq; done.
Qed.

(** ** API keys *)

Definition keys_of s : gmap string (list ApiKeyRecord.t) := AuthStore.api_keys (Directory.auth s).

(** Every record of the key is one that no longer authenticates. *)
Definition key_blocked (k : string) s : Prop :=
  ∀ prefix records r, keys_of s !! prefix = Some records → r ∈ records →
    ApiKeyRecord.api_key_id r = k → ApiKeyStatus.accepts_authentication (ApiKeyRecord.status r) = false.

Lemma key_blocked_store k s g : key_blocked k s → key_blocked k (Directory.set_store s g).
Proof. done. Qed.

(** The request neither rotates the key nor draws its id again. *)
Definition leaves_key (k : string) (request : DirectoryRequest) : Prop :=
  match request with
  | RotateApiKey _ _ _ _ id _ _ => id ≠ k
  | CreateApiKey drawn _ _ _ _ _ => new_prefixed_id "ak" (Drawn.resource drawn) ≠ k
  | _ => True
  end.

(** Which keys an insertion leaves in the store. *)
Lemma insert_api_key_elem record a prefix records r :
  AuthStore.api_keys (insert_api_key record a) !! prefix = Some records → r ∈ records →
  r = record
  ∨ ApiKeyRecord.api_key_id r ≠ ApiKeyRecord.api_key_id record
    ∧ ∃ records', AuthStore.api_keys a !! prefix = Some records' ∧ r ∈ records'.
Proof.
  intros Hl Hr. destruct (decide (ApiKeyRecord.api_key_id r = ApiKeyRecord.api_key_id record)) as [E|E].
  { left. by destruct (insert_api_key_stored _ _ _ _ _ Hl Hr E). }
  right. split; [done|]. revert Hl. unfold insert_api_key. cbv zeta. simpl.
  intros [[<- <-]|[_ Hl]]%lookup_insert_Some.
  - rewrite lookup_fmap in Hr. apply elem_of_app in Hr as [Hr|Hr]; [|set_solver].
    destruct (AuthStore.api_keys a !! ApiKeyRecord.key_prefix record) as [l|]; simpl in Hr; [|set_solver].
    apply filter_iff in Hr as [Hr _]. by exists l.
  - rewrite lookup_fmap in Hl. apply fmap_Some in Hl as (l & Hl & ->). apply filter_iff in Hr as [Hr _].
    by exists l.
Qed.

Lemma blocked_put k record :
  (ApiKeyRecord.api_key_id record = k →
   ApiKeyStatus.accepts_authentication (ApiKeyRecord.status record) = false) →
  keeps (key_blocked k) (put_api_key (V:=V) record).
Proof.
  intros Hr s Hs prefix records r Hl Hin Hid.
  destruct (insert_api_key_elem _ _ _ _ _ Hl Hin) as [->|[_ (l & Hl' & Hin')]]; [auto|].
  by eapply Hs.
Qed.

Lemma update_first_elem {A} (p : A → bool) f l y l' :
  update_first p f l = Some (y, l') →
  (∃ x, x ∈ l ∧ p x = true ∧ y = f x) ∧ ∀ z, z ∈ l' → z = y ∨ z ∈ l.
Proof.
  revert l'. induction l as [|x l IH]; intros l'; simpl; [done|]. destruct (p x) eqn:Ep.
  - intros [= <- <-]. split; [exists x; set_solver|set_solver].
  - destruct (update_first p f l) as [[y' l'']|] eqn:E; [|done]. intros [= <- <-].
    destruct (IH _ eq_refl) as [(x' & ? & ? & ?) Hz]. split; [exists x'; set_solver|].
    intros z [->|Hz']%elem_of_cons; [set_solver|]. destruct (Hz z Hz'); set_solver.
Qed.

(** The update changes one stored record of the key, to the status given. *)
Lemma update_status_run id status now s r s' :
  update_api_key_status id status now s = (Ok r, s') →
  ApiKeyRecord.api_key_id r = id ∧ ApiKeyRecord.status r = status
  ∧ ∃ prefix records records', keys_of s !! prefix = Some records
      ∧ update_first (is_api_key id) (λ r, api_key_with_status r status now) records = Some (r, records')
      ∧ s' = Directory.set_auth s
               (AuthStore.with_api_keys (<[prefix := records']> (keys_of s)) (Directory.auth s)).
Proof.
  unfold update_api_key_status. destruct (negb _); [done|].
  destruct (find_row _ _) as [[prefix records]|] eqn:Ef; [|done].
  destruct (update_first _ _ records) as [[r' records']|] eqn:Eu; [|done]. intros [= <- <-].
  destruct (update_first_elem _ _ _ _ _ Eu) as [(x & _ & Hx & ->) _]. unfold is_api_key in Hx. btrue.
  split_and!; [done|done|]. exists prefix, records, records'. split_and!; [|done|done].
  unfold find_row in Ef. apply find_Some_in in Ef as [Hin _]. by apply elem_of_map_to_list in Hin.
Qed.

Lemma blocked_disable k actor id now :
  keeps (key_blocked k) (update_api_key_status_for_state (V:=V) actor id ApiKeyStatus.Disabled now).
Proof.
  intros s Hs. unfold update_api_key_status_for_state, mbind, M_bind.
  destruct (update_api_key_status id _ now s) as [[r|e] s'] eqn:E.
  2: { revert E. unfold update_api_key_status. repeat case_match; by intros [= <- <-]. }
  apply update_status_run in E as (Hid & Hst & prefix & records & records' & Hl & Hu & ->).
  apply update_first_elem in Hu as [(x & Hx & _ & _) Hz].
  assert (key_blocked k (Directory.set_auth s (AuthStore.with_api_keys (<[prefix := records']>
    (keys_of s)) (Directory.auth s)))) as Hb.
  { intros p l z. unfold keys_of. simpl. intros [[<- <-]|[_ Hp]]%lookup_insert_Some Hin Hk.
    - destruct (Hz z Hin) as [->|Hin']; [by rewrite Hst|by eapply Hs].
    - by eapply Hs. }
  unfold lift. destruct (refuse_if _ _); [|done]. apply (blocked_put k r); [by rewrite Hst|done].
Qed.

Lemma created_key uuid salt bytes request now r raw :
  create_api_key uuid salt bytes request now = Ok (r, raw) →
  ApiKeyRecord.api_key_id r = new_prefixed_id "ak" uuid.
Proof. unfold create_api_key. cbv zeta. intros ([prefix hash] & _ & Hr)%bind_ok. by injection Hr as <- _. Qed.
Lemma rotated_key salt bytes old now r raw :
  rotate_api_key_secret salt bytes old now = Ok (r, raw) →
  ApiKeyRecord.api_key_id r = ApiKeyRecord.api_key_id old
  ∧ ApiKeyRecord.tenant_id r = ApiKeyRecord.tenant_id old.
Proof.
  unfold rotate_api_key_secret. cbv zeta. intros ([prefix hash] & _ & Hr)%bind_ok. by injection Hr as <- _.
Qed.
Lemma filtered_ok {R} resource (found : option R) test r :
  filtered resource found test = Ok r ↔ found = Some r ∧ test r = true.
Proof.
  unfold filtered. destruct found as [x|]; [destruct (test x) eqn:E|]; simpl; split; try done.
  - by intros [= <-].
  - by intros [[= <-] _].
  - intros [[= <-] ?]. congruence.
  - by intros [? _].
Qed.
Lemma found_key actor id s r : api_key_for_actor actor id s = Ok r → ApiKeyRecord.api_key_id r = id.
Proof.
  intros [Hf _]%filtered_ok. unfold api_key in Hf. apply find_Some_in in Hf as [_ Hid].
  unfold is_api_key in Hid. by btrue.
Qed.

Lemma blocked_serve k request s :
  leaves_key k request → key_blocked k s → key_blocked k (serve request s).
Proof.
  intros Hl Hs. pose proof (key_blocked_store k) as free. serve_cases request free quiet_leaf.
  - intros st Hst. unfold create_api_key_record. case_match; [|done].
    eapply kept_bind; [apply blocked_put|intros; apply kept_ret|done].
    match goal with E : create_api_key _ _ _ _ _ = _ |- _ => apply created_key in E as -> end. by intros ?.
  - intros st Hst. unfold replace_api_key_secret. case_match; [|done].
    eapply kept_bind; [apply blocked_put|intros; apply kept_ret|done].
    match goal with E : rotate_api_key_secret _ _ _ _ = _ |- _ => apply rotated_key in E as [-> _] end.
    match goal with E : api_key_for_actor _ _ _ = _ |- _ => apply found_key in E as -> end. by intros ?.
  - apply blocked_disable.
  - apply kept_auth. intros st Hst. unfold key_blocked, keys_of. cbn [Directory.auth Directory.set_auth].
    rewrite (proj1 (authenticate_frames _ _ _ _ _)). exact Hst.
Qed.

Lemma blocked_serve_all k requests s :
  Forall (leaves_key k) requests → key_blocked k s → key_blocked k (serve_all requests s).
Proof.
  intros Hl. revert s. induction Hl as [|request requests Hr _ IH]; intros s Hs; [done|].
  simpl. apply IH. by apply blocked_serve.
Qed.
(** A presented key that is accepted is stored and live. *)
Lemma verified_key presented request_id trace_id now (a : AuthStore.t) caller :
  (verify_api_key presented request_id trace_id now a).1 = Ok caller →
  ∃ prefix records r, AuthStore.api_keys a !! prefix = Some records ∧ r ∈ records
    ∧ ApiKeyRecord.can_authenticate_at r now = true
    ∧ caller = AuthenticatedActor.for_api_key r request_id trace_id.
Proof.
  unfold verify_api_key, api_key_failed_auth_allowed, failed_api_key_auth_count. cbv zeta.
  destruct (key_prefix presented) as [prefix|]; [|done]. destruct (negb _); [done|].
  rewrite candidates_with_failed.
  pose proof (verify_candidates_spec presented prefix now (candidates_by_prefix prefix a)) as Hv.
  destruct (verify_candidates _ _ _ _) as [[r|]|]; [|done..]. destruct Hv as (Hin & _ & Hc & _).
  cbn [fst]. intros [= <-]. apply candidate_stored in Hin as (l & Hl & Hin). by exists prefix, l, r.
Qed.

Lemma presented_key_live request_uuid trace_uuid headers now s actor k :
  (present (V:=V) request_uuid trace_uuid headers now s).1 = Ok actor →
  AuthenticatedActor.api_key_id actor = Some k →
  ∃ prefix records r, keys_of s !! prefix = Some records ∧ r ∈ records
    ∧ ApiKeyRecord.api_key_id r = k ∧ ApiKeyRecord.can_authenticate_at r now = true.
Proof.
  unfold present, on_auth, authenticate_request. cbv zeta.
  destruct (bearer_token headers) as [token|]; [|done].
  destruct (starts_with _ token).
  { cbn [fst]. intros (session & _ & (project & _ & (member & _ & Hr)%bind_ok)%bind_ok)%bind_ok.
    by injection Hr as <-. }
  destruct (verify_api_key _ _ _ _ _) as [r a] eqn:E. cbn [fst]. intros ->.
  destruct (verified_key _ _ _ _ _ _ (f_equal fst E)) as (prefix & l & x & Hl & Hin & Hc & ->).
  intros [= <-]. by exists prefix, l, x.
Qed.

(** ** Idempotency keys *)

(** No answer is stored for this request. *)
Definition unseen actor (scope_key request_hash : string) now s : Prop :=
  (idempotency_response (AuthenticatedActor.tenant_id actor) scope_key request_hash now
     (Directory.store s)).1 = Ok None.

Definition answers_of s := GatewayStore.idempotency_records (Directory.store s).

(** Authorization only adds to the decisions. *)
Lemma authorize_reads drawn actor method path id now s r s' :
  authorize drawn actor method path id now s = (r, s') →
  ∃ g, s' = Directory.set_store s g ∧ GatewayStore.idempotency_records g = answers_of s
    ∧ GatewayStore.draft g = Directory.draft s.
Proof.
  unfold authorize, on_admin. destruct (authorize_admin_route _ _ _ _ _ _ _) as [r' g] eqn:E.
  apply authorize_admin_route_result in E as [decisions ->]. intros [= <- <-]. by eexists.
Qed.

Lemma keyed_run actor scope hash now operation s response s' :
  keyed actor scope hash now operation s = (Ok response, s') →
  unseen actor scope hash now s →
  ∃ g stored s1, GatewayStore.draft g = Directory.draft s
    ∧ operation (Directory.set_store s g) = (Ok (response, stored), s1)
    ∧ s' = Directory.set_store s1 (GatewayStore.set_idempotency_records (Directory.store s1)
             (<[(AuthenticatedActor.tenant_id actor, scope) :=
                  IdempotencyRecord.mk (AuthenticatedActor.tenant_id actor) scope hash stored
                    (now + duration_hours IDEMPOTENCY_TTL_HOURS)%Z now]> (answers_of s1))).
Proof.
  unfold keyed, unseen, on_admin, mbind, M_bind. cbv zeta.
  destruct (idempotency_response _ _ _ _ _) as [o g] eqn:Ei. intros Hk [= ->].
  assert (GatewayStore.draft g = Directory.draft s) as Hd.
  { revert Ei. unfold idempotency_response. repeat case_match; by intros [= <-]. }
  destruct (operation _) as [[[r stored]|e] s1] eqn:Eo; [|done].
  unfold record_idempotent_admin_response, record_idempotency_response in Hk. cbn in Hk.
  injection Hk as <- <-. by exists g, stored, s1.
Qed.

(** The same request again, within a day, changes nothing. *)
Lemma keyed_again actor actor' scope hash now later operation s stored :
  answers_of s !! (AuthenticatedActor.tenant_id actor, scope)
    = Some (IdempotencyRecord.mk (AuthenticatedActor.tenant_id actor) scope hash stored
              (now + duration_hours IDEMPOTENCY_TTL_HOURS)%Z now) →
  AuthenticatedActor.tenant_id actor' = AuthenticatedActor.tenant_id actor →
  (later < now + duration_hours IDEMPOTENCY_TTL_HOURS)%Z →
  keyed actor' scope hash later operation s = (Ok (response_with_replay_flag stored true), s).
Proof.
  intros Hs Ht Hl. unfold keyed, on_admin, idempotency_response, mbind, M_bind. cbv zeta.
  rewrite Ht. fold (answers_of s). rewrite Hs. cbn [IdempotencyRecord.expires_at IdempotencyRecord.request_hash].
  rewrite (proj2 (Z.leb_gt _ _)) by done. rewrite bool_decide_true by done. by destruct s.
Qed.
(** A keyed handler whose request is new: authorization, then the operation. *)
Lemma authorized_keyed_run {drawn actor method path id scope hash now operation s response s'} :
  (authorize drawn actor method path id now ≫= λ _, keyed actor scope hash now operation) s
    = (Ok response, s') →
  unseen actor scope hash now s →
  ∃ g stored s1, GatewayStore.draft g = Directory.draft s
    ∧ operation (Directory.set_store s g) = (Ok (response, stored), s1)
    ∧ s' = Directory.set_store s1 (GatewayStore.set_idempotency_records (Directory.store s1)
             (<[(AuthenticatedActor.tenant_id actor, scope) :=
                  IdempotencyRecord.mk (AuthenticatedActor.tenant_id actor) scope hash stored
                    (now + duration_hours IDEMPOTENCY_TTL_HOURS)%Z now]> (answers_of s1))).
Proof.
  unfold mbind at 1, M_bind at 1. destruct (authorize _ _ _ _ _ _ s) as [[[]|e] s0] eqn:Ea; [|done].
  apply authorize_reads in Ea as (g & -> & Hg & Hd). intros Hk Hu.
  apply keyed_run in Hk as (g' & stored & s1 & Hd' & Ho & ->).
  - exists g', stored, s1. by rewrite Hd'.
  - unfold unseen, idempotency_response in *. cbn [Directory.store Directory.set_store].
    rewrite Hg. unfold answers_of. destruct (_ !! _) as [record|]; [|done].
    destruct (_ <=? _)%Z; [done|]. by destruct (_ !=? _).
Qed.

Lemma authorized_keyed_again {drawn actor' method path id actor scope hash now later operation s stored} :
  answers_of s !! (AuthenticatedActor.tenant_id actor, scope)
    = Some (IdempotencyRecord.mk (AuthenticatedActor.tenant_id actor) scope hash stored
              (now + duration_hours IDEMPOTENCY_TTL_HOURS)%Z now) →
  AuthenticatedActor.tenant_id actor' = AuthenticatedActor.tenant_id actor →
  (later < now + duration_hours IDEMPOTENCY_TTL_HOURS)%Z →
  let '(r, s') := (authorize drawn actor' method path id later
                     ≫= λ _, keyed actor' scope hash later operation) s in
  (∀ answer, r = Ok answer → answer = response_with_replay_flag stored true)
  ∧ Directory.auth s' = Directory.auth s.
Proof.
  intros Hs Ht Hl. unfold mbind at 1, M_bind at 1.
  destruct (authorize _ _ _ _ _ _ s) as [[[]|e] s0] eqn:Ea; apply authorize_reads in Ea as (g & -> & Hg & _);
    [|done].
  rewrite (keyed_again actor actor' scope hash now later operation _ stored); [|by rewrite <- Hs, <- Hg|done..].
  split; [by intros answer [= <-]|done].
Qed.

(** ** Disabling *)

Definition disable_scope (request : AdminDisableApiKeyRequest.t) : string :=
  idempotency_scope_key "api_keys:disable" (AdminDisableApiKeyRequest.idempotency_key request).
Definition disable_hash (request : AdminDisableApiKeyRequest.t) : string :=
  stable_request_hash (disable_api_key_json (V:=V) request).

Lemma disable_blocks drawn actor k request now s response s' :
  disable_api_key_admin drawn actor k request now s = (Ok response, s') →
  unseen actor (disable_scope request) (disable_hash request) now s →
  key_blocked k s'.
Proof.
  intros Hd Hu. destruct (authorized_keyed_run Hd Hu) as (g & stored & s1 & _ & Ho & ->).
  apply key_blocked_store. revert Ho. unfold reading, mbind at 1, M_bind at 1.
  destruct (api_key_for_actor _ _ _) as [before|]; [|done].
  unfold mbind at 1, M_bind at 1.
  destruct (update_api_key_status_for_state _ _ _ _ _) as [[key|] s2] eqn:E; [|done].
  unfold mbind, M_bind, audit_api_key, audit, on_admin. destruct (record_admin_resource_audit _ _ _ _) as [[id|] g2]; [|done].
  intros [= _ _ <-]. apply key_blocked_store. revert E. unfold update_api_key_status_for_state, mbind, M_bind.
  destruct (update_api_key_status _ _ _ _) as [[r|] s3] eqn:E; [|done].
  apply update_status_run in E as (Hid & Hst & _). unfold lift. destruct (refuse_if _ _); [|done].
  unfold put_api_key. intros [= <- <-] prefix records x Hl Hin Hx.
  rewrite <- Hid in Hx. by destruct (insert_api_key_stored _ _ _ _ _ Hl Hin Hx) as [-> _]; rewrite Hst.
Qed.

(** C19. A disabled API key stays out.  Once a disable request for the key has
    been performed, no request presented with any credential authenticates as
    that key, whatever the directory serves in between, until the key is
    rotated. *)
Theorem disabled_key_stays_out drawn actor k request now (s : State) response s' requests
    request_uuid trace_uuid headers later caller :
  disable_api_key_admin drawn actor k request now s = (Ok response, s') →
  unseen actor (disable_scope request) (disable_hash request) now s →
  Forall (leaves_key k) requests →
  (present request_uuid trace_uuid headers later (serve_all requests s')).1 = Ok caller →
  AuthenticatedActor.api_key_id caller ≠ Some k.
Proof.
  intros Hd Hu Hr Hp Hk. destruct (presented_key_live _ _ _ _ _ _ _ Hp Hk)
    as (prefix & records & r & Hl & Hin & Hid & Hc).
  pose proof (blocked_serve_all _ _ _ Hr (disable_blocks _ _ _ _ _ _ _ _ Hd Hu) _ _ _ Hl Hin Hid) as Hb.
  unfold ApiKeyRecord.can_authenticate_at in Hc. by rewrite Hb in Hc.
Qed.

(** Neither the scope nor the hash of a disable request names the key: within a
    day, the same request for any other key is answered with the first answer,
    and no key changes. *)
Theorem second_disable_is_replayed drawn actor k request now (s : State) response s' drawn' actor' k'
    later :
  disable_api_key_admin drawn actor k request now s = (Ok response, s') →
  unseen actor (disable_scope request) (disable_hash request) now s →
  AuthenticatedActor.tenant_id actor' = AuthenticatedActor.tenant_id actor →
  (later < now + duration_hours IDEMPOTENCY_TTL_HOURS)%Z →
  let '(r, s'') := disable_api_key_admin drawn' actor' k' request later s' in
  (∀ answer, r = Ok answer → answer = response_with_replay_flag response true)
  ∧ Directory.auth s'' = Directory.auth s'.
Proof.
  intros Hd Hu Ht Hl. destruct (authorized_keyed_run Hd Hu) as (g & stored & s1 & _ & Ho & ->).
  assert (stored = response) as ->.
  { revert Ho. unfold reading, mbind, M_bind. destruct (api_key_for_actor _ _ _); [|done].
    destruct (update_api_key_status_for_state _ _ _ _ _) as [[key|] s2]; [|done].
    destruct (audit_api_key _ _ _ _ _ _ _) as [[id|] s3]; [|done]. by intros [= <- <- _]. }
  eapply (authorized_keyed_again (actor := actor)); [|done|exact Hl].
  unfold answers_of. cbn. apply lookup_insert_eq.
Qed.
(** ** Rows stay under their own keys *)

Definition keyed_by {K R} `{Countable K} (key : R → K) (m : gmap K R) : Prop :=
  ∀ k r, m !! k = Some r → key r = k.

Definition organization_member_key (r : OrganizationMembershipRecord.t) : string * string :=
  (OrganizationMembershipRecord.principal_id r, OrganizationMembershipRecord.organization_id r).
Definition project_member_key (r : ProjectMembershipRecord.t) : string * string :=
  (ProjectMembershipRecord.principal_id r, ProjectMembershipRecord.project_id r).

(** API keys are in the bucket of their prefix, each id at most once. *)
Record keys_filed (keys : gmap string (list ApiKeyRecord.t)) : Prop := {
  filed_prefix : ∀ prefix records r, keys !! prefix = Some records → r ∈ records →
    ApiKeyRecord.key_prefix r = prefix;
  filed_once : ∀ prefix records, keys !! prefix = Some records →
    NoDup (ApiKeyRecord.api_key_id <$> records);
  filed_apart : ∀ p l r p' l' r', keys !! p = Some l → r ∈ l → keys !! p' = Some l' → r' ∈ l' →
    ApiKeyRecord.api_key_id r = ApiKeyRecord.api_key_id r' → p = p';
}.

Record rows_keyed s : Prop := {
  keyed_users : keyed_by UserRecord.user_id (Directory.users s);
  keyed_accounts : keyed_by ServiceAccountRecord.service_account_id (Directory.service_accounts s);
  keyed_members : keyed_by organization_member_key (Directory.organization_memberships s);
  keyed_project_members : keyed_by project_member_key (Directory.project_memberships s);
  keyed_identities :
    keyed_by ExternalIdentityRecord.external_identity_id (Directory.external_identities s);
  keyed_invitations :
    keyed_by OrganizationInvitationRecord.invitation_id (Directory.organization_invitations s);
  keyed_sessions : keyed_by AuthSessionRecord.session_hash (Directory.auth_sessions s);
  keyed_keys : keys_filed (keys_of s);
}.

Lemma keyed_insert {K R} `{Countable K} (key : R → K) m k r :
  keyed_by key m → key r = k → keyed_by key (<[k := r]> m).
Proof. intros Hm Hr k' r' [[<- <-]|[_ Hl]]%lookup_insert_Some; [done|by apply Hm]. Qed.
Lemma keyed_fmap {K R} `{Countable K} (key : R → K) m f :
  keyed_by key m → (∀ r, key (f r) = key r) → keyed_by key (f <$> m).
Proof. intros Hm Hf k r. rewrite lookup_fmap. intros (x & Hx & ->)%fmap_Some. rewrite Hf. by apply Hm. Qed.

(** The shapes of the updates. *)
Lemma versioned_keyed {R} noun version change id expected (m : gmap string R) a m' (key : R → string) :
  update_versioned noun version change id expected m = Ok (a, m') →
  keyed_by key m → (∀ r, key (change r) = key r) → keyed_by key m'.
Proof.
  unfold update_versioned. destruct (m !! id) as [r|] eqn:E; [|done]. destruct (_ !=? _); [done|].
  intros [= <- <-] Hm Hc. apply keyed_insert; [done|]. rewrite Hc. by apply Hm.
Qed.
Lemma find_row_lookup {K R} `{Countable K} p (m : gmap K R) k r :
  find_row p m = Some (k, r) → m !! k = Some r ∧ p r = true.
Proof.
  unfold find_row. intros [Hin Hp]%find_Some_in. split; [by apply elem_of_map_to_list|done].
Qed.
Lemma member_keyed {R} noun id_of version change id expected m a m' (key : R → string * string) :
  update_member noun id_of version change id expected m = Ok (a, m') →
  keyed_by key m → (∀ r, key (change r) = key r) → keyed_by key m'.
Proof.
  unfold update_member. destruct (find_row _ m) as [[k r]|] eqn:E; [|done]. destruct (_ !=? _); [done|].
  apply find_row_lookup in E as [E _].
  intros [= <- <-] Hm Hc. apply keyed_insert; [done|]. rewrite Hc. by apply Hm.
Qed.

Lemma on_rows_keyed {K R A} `{Countable K} (get : State → gmap K R) set
    (op : gmap K R → result GatewayError.t (A * gmap K R)) :
  (∀ s a m, rows_keyed s → op (get s) = Ok (a, m) → rows_keyed (set s m)) →
  keeps rows_keyed (on_rows get set op).
Proof.
  intros Hop s Hs. unfold on_rows. destruct (op (get s)) as [[a m]|] eqn:E; [by eapply Hop|done].
Qed.

(** *** API keys *)

Lemma filed_insert record a :
  keys_filed (AuthStore.api_keys a) → keys_filed (AuthStore.api_keys (insert_api_key record a)).
Proof.
  intros Ha. split.
  - intros prefix records r Hl Hr. destruct (insert_api_key_elem _ _ _ _ _ Hl Hr) as [->|[_ (l & Hl' & Hr')]].
    + by destruct (insert_api_key_stored _ _ _ _ _ Hl Hr eq_refl) as [_ ->].
    + by eapply filed_prefix.
  - intros prefix records. unfold insert_api_key. cbv zeta. simpl.
    assert (∀ p l, (List.filter (λ c, ApiKeyRecord.api_key_id c !=? ApiKeyRecord.api_key_id record)
      <$> AuthStore.api_keys a) !! p = Some l → NoDup (ApiKeyRecord.api_key_id <$> l)
      ∧ ApiKeyRecord.api_key_id record ∉ ApiKeyRecord.api_key_id <$> l) as Hf.
    { intros p l. rewrite lookup_fmap. intros (l0 & Hl0 & ->)%fmap_Some. split.
      - pose proof (filed_once _ Ha _ _ Hl0) as Hn. clear Hl0. induction l0 as [|x l0 IH]; simpl; [constructor|].
        csimpl in Hn. apply NoDup_cons in Hn as [Hx Hn]. destruct (_ !=? _); [|by apply IH].
        csimpl. apply NoDup_cons. split; [|by apply IH].
        intros (y & E & [Hy _]%filter_iff)%list_elem_of_fmap. apply Hx. rewrite E. by apply list_elem_of_fmap_2.
      - intros (y & Hy & [_ Hne]%filter_iff)%list_elem_of_fmap. btrue. done. }
    intros [[<- <-]|[_ Hl]]%lookup_insert_Some; [|by apply (Hf prefix)].
    rewrite fmap_app. apply NoDup_app.
    destruct ((_ <$> _) !! ApiKeyRecord.key_prefix record) as [l|] eqn:E.
    + destruct (Hf _ _ E). split_and!; [done|set_solver|apply NoDup_singleton].
    + simpl. split_and!; [constructor|set_solver|apply NoDup_singleton].
  - intros p l r p' l' r' Hl Hr Hl' Hr' E.
    destruct (insert_api_key_elem _ _ _ _ _ Hl Hr) as [->|[Hne (m & Hm & Hrm)]].
    + destruct (insert_api_key_stored _ _ _ _ _ Hl Hr eq_refl) as [_ ->].
      by destruct (insert_api_key_stored _ _ _ _ _ Hl' Hr' (eq_sym E)) as [_ ->].
    + destruct (insert_api_key_elem _ _ _ _ _ Hl' Hr') as [->|[_ (m' & Hm' & Hrm')]]; [done|].
      by eapply (filed_apart _ Ha p m r p' m' r').
Qed.

Lemma keyed_put record : keeps rows_keyed (put_api_key (V:=V) record).
Proof. intros s []. split; try done. by apply filed_insert. Qed.

Lemma update_first_map {A B} (g : A → B) (p : A → bool) f l y l' :
  (∀ x, g (f x) = g x) → update_first p f l = Some (y, l') → g <$> l' = g <$> l.
Proof.
  intros Hg. revert l'. induction l as [|x l IH]; intros l'; simpl; [done|]. destruct (p x).
  - intros [= <- <-]. simpl. by rewrite Hg.
  - destruct (update_first p f l) as [[y' l'']|]; [|done]. intros [= <- <-].
    rewrite !fmap_cons. f_equal. by apply IH.
Qed.

(** Records of a bucket whose names stay the same. *)
Lemma filed_rename keys prefix records records' :
  keys_filed keys → keys !! prefix = Some records →
  (λ r, (ApiKeyRecord.api_key_id r, ApiKeyRecord.key_prefix r)) <$> records'
    = (λ r, (ApiKeyRecord.api_key_id r, ApiKeyRecord.key_prefix r)) <$> records →
  keys_filed (<[prefix := records']> keys).
Proof.
  intros Hk Hp E.
  assert (∀ r', r' ∈ records' → ∃ r, r ∈ records ∧ ApiKeyRecord.api_key_id r = ApiKeyRecord.api_key_id r'
    ∧ ApiKeyRecord.key_prefix r = ApiKeyRecord.key_prefix r') as Hold.
  { intros r' Hr'. apply (list_elem_of_fmap_2 (λ r, (ApiKeyRecord.api_key_id r, ApiKeyRecord.key_prefix r))) in Hr'.
    rewrite E in Hr'. apply list_elem_of_fmap in Hr' as (r & [= ? ?] & Hr). eauto. }
  assert (∀ p l r', <[prefix := records']> keys !! p = Some l → r' ∈ l →
    ∃ l0 r, keys !! p = Some l0 ∧ r ∈ l0 ∧ ApiKeyRecord.api_key_id r = ApiKeyRecord.api_key_id r'
    ∧ ApiKeyRecord.key_prefix r = ApiKeyRecord.key_prefix r') as Hany.
  { intros p l r' [[<- <-]|[_ Hl]]%lookup_insert_Some Hr'; [|by exists l, r'].
    destruct (Hold r' Hr') as (r & ? & ? & ?). by exists records, r. }
  split.
  - intros p l r' Hl Hr'. destruct (Hany _ _ _ Hl Hr') as (l0 & r & Hl0 & Hr & _ & <-). by eapply filed_prefix.
  - intros p l [[<- <-]|[_ Hl]]%lookup_insert_Some; [|by eapply filed_once].
    apply (f_equal (fmap fst)) in E. rewrite <- !list_fmap_compose in E.
    change (ApiKeyRecord.api_key_id <$> records' = ApiKeyRecord.api_key_id <$> records) in E.
    rewrite E. by eapply filed_once.
  - intros p l r p' l' r' Hl Hr Hl' Hr' Eid.
    destruct (Hany _ _ _ Hl Hr) as (m & x & Hm & Hx & Ex & _), (Hany _ _ _ Hl' Hr') as (m' & x' & Hm' & Hx' & Ex' & _).
    eapply (filed_apart _ Hk p m x p' m' x'); [done..|congruence].
Qed.

Lemma keyed_update_status id status now : keeps rows_keyed (update_api_key_status (V:=V) id status now).
Proof.
  intros s Hs. destruct (update_api_key_status id status now s) as [[r|e] s'] eqn:E.
  - apply update_status_run in E as (_ & _ & prefix & records & records' & Hp & Hu & ->).
    destruct Hs. split; try done. eapply filed_rename; [done|exact Hp|].
    eapply (update_first_map _ (is_api_key id) _ _ r _); [|exact Hu]. done.
  - revert E. unfold update_api_key_status. repeat case_match; by intros [= <- <-].
Qed.

(** *** The other tables *)

#[local] Ltac keyed_table :=
  apply on_rows_keyed; intros s a m [] Hop; split; try done.

Lemma keyed_organization_status id expected status now :
  keeps rows_keyed (update_organization_status (V:=V) id expected status now).
Proof. keyed_table. Qed.
Lemma keyed_project_status id expected status now :
  keeps rows_keyed (update_project_status (V:=V) id expected status now).
Proof. keyed_table. Qed.
Lemma keyed_user_status id expected status now :
  keeps rows_keyed (update_user_status (V:=V) id expected status now).
Proof. keyed_table. by eapply versioned_keyed. Qed.
Lemma keyed_user_default id organization project now :
  keeps rows_keyed (update_user_default_context (V:=V) id organization project now).
Proof.
  keyed_table. destruct (Directory.users s !! id) as [user|] eqn:E; [|done].
  injection Hop as _ <-. apply keyed_insert; [done|]. by apply (keyed_users0 id user).
Qed.
Lemma keyed_user_repair invitation principal now :
  keeps rows_keyed (repair_user_defaults_after_invite_accept (V:=V) invitation principal now).
Proof.
  intros s []. unfold repair_user_defaults_after_invite_accept.
  destruct (Directory.users s !! principal) as [user|] eqn:E; [|by split]. destruct (_ || _); [|by split].
  split; try done. apply keyed_insert; [done|]. by apply (keyed_users0 principal user).
Qed.
Lemma keyed_account_create uuid request now :
  keeps rows_keyed (create_service_account (V:=V) uuid request now).
Proof.
  intros s []. unfold create_service_account.
  destruct (validate_service_account_request request s) as [[organization project]|]; [|by split].
  split; try done. by apply keyed_insert.
Qed.
Lemma keyed_account_status id expected status now :
  keeps rows_keyed (update_service_account_status (V:=V) id expected status now).
Proof.
  unfold update_service_account_status. destruct (negb _); [apply kept_throw|].
  keyed_table. by eapply versioned_keyed.
Qed.
Lemma keyed_member_status id expected status :
  keeps rows_keyed (update_organization_member_status (V:=V) id expected status).
Proof. keyed_table. by eapply member_keyed. Qed.
Lemma keyed_member_upsert uuid invitation principal :
  keeps rows_keyed (upsert_invited_organization_membership (V:=V) uuid invitation principal).
Proof.
  intros s []. split; try done. simpl. apply keyed_insert; [done|].
  destruct (Directory.organization_memberships s !! _) as [member|] eqn:E; simpl.
  - apply keyed_members0 in E. by case_match.
  - done.
Qed.
Lemma keyed_project_member_status id expected status :
  keeps rows_keyed (update_project_member_status (V:=V) id expected status).
Proof. keyed_table. by eapply member_keyed. Qed.
Lemma keyed_project_member_create uuid request :
  keeps rows_keyed (create_project_membership (V:=V) uuid request).
Proof.
  intros s []. unfold create_project_membership. cbv zeta.
  set (member := default _ _). assert (project_member_key member
    = (CreateProjectMembershipRequest.principal_id request, CreateProjectMembershipRequest.project_id request))
    as Hk.
  { unfold member. destruct (Directory.project_memberships s !! _) as [x|] eqn:E; [|done].
    by apply keyed_project_members0 in E. }
  destruct (_ || _); split; try done; simpl; apply keyed_insert; try done. by case_match.
Qed.
Lemma keyed_project_member_upsert uuid invitation principal project member :
  keeps rows_keyed (upsert_invited_project_membership (V:=V) uuid invitation principal project member).
Proof.
  intros s []. split; try done. simpl. apply keyed_insert; [done|].
  destruct (Directory.project_memberships s !! _) as [x|] eqn:E; simpl.
  - apply keyed_project_members0 in E. by repeat case_match.
  - done.
Qed.
Lemma keyed_cascade member status :
  keeps rows_keyed (cascade_project_memberships_for_organization_member (V:=V) member status).
Proof.
  intros s []. split; try done. simpl. apply keyed_fmap; [done|]. intros r. by case_match.
Qed.
Lemma keyed_unlink tenant principal id now :
  keeps rows_keyed (unlink_external_identity (V:=V) tenant principal id now).
Proof.
  intros s []. unfold unlink_external_identity, external_identity_for_principal.
  destruct (Directory.external_identities s !! id) as [x|] eqn:E; [|by split].
  destruct (identity_of _ _ x); [|by split]. split; try done. apply keyed_insert; [done|].
  by apply (keyed_identities0 id x).
Qed.
Lemma keyed_invitation_create uuid request now :
  keeps rows_keyed (create_organization_invitation (V:=V) uuid request now).
Proof. intros s []. split; try done. by apply keyed_insert. Qed.
Lemma keyed_invitation_revoke id expected now :
  keeps rows_keyed (revoke_invitation (V:=V) id expected now).
Proof.
  keyed_table. destruct (Directory.organization_invitations s !! id) as [x|] eqn:E; [|done].
  apply bind_ok in Hop as (_ & _ & (_ & _ & [= _ <-])%bind_ok).
  apply keyed_insert; [done|]. by apply (keyed_invitations0 id x).
Qed.
Lemma keyed_invitation_accept id now : keeps rows_keyed (mark_accepted (V:=V) id now).
Proof.
  keyed_table. destruct (Directory.organization_invitations s !! id) as [x|] eqn:E; [|done].
  apply bind_ok in Hop as (_ & _ & [= _ <-]).
  apply keyed_insert; [done|]. by apply (keyed_invitations0 id x).
Qed.

(** *** Sessions *)

Lemma keyed_session_revoke tenant principal id now :
  keeps rows_keyed (revoke_session_for_principal (V:=V) tenant principal id now).
Proof.
  keyed_table. destruct (find_row _ _) as [[h x]|] eqn:E; [|done]. apply find_row_lookup in E as [E _].
  injection Hop as _ <-. simpl. apply keyed_insert; [done|]. by apply (keyed_sessions0 h x).
Qed.
Lemma keyed_revoke_inactive actor user now :
  keeps rows_keyed (revoke_if_inactive (V:=V) actor user now).
Proof.
  unfold revoke_if_inactive. destruct (DirectoryStatus.accepts_access _); [apply kept_ret|].
  apply kept_auth. intros s []. split; try done. unfold Directory.auth_sessions. simpl.
  apply keyed_fmap; [done|]. intros r. by case_match.
Qed.
Lemma keyed_context session organization project now :
  keeps rows_keyed (update_context (V:=V) session organization project now).
Proof.
  apply kept_auth. intros s []. unfold update_session_active_context_by_hash.
  destruct (AuthStore.auth_sessions (Directory.auth s) !! _) as [r|] eqn:E; [|by split].
  destruct (negb _); [by split|]. split; try done. unfold Directory.auth_sessions. simpl.
  apply keyed_insert; [done|]. by apply (keyed_sessions0 _ r).
Qed.
Lemma keyed_logout hash now :
  keeps rows_keyed (on_auth (V:=V) (revoke_session_by_hash hash now)).
Proof.
  apply kept_auth. intros s []. unfold revoke_session_by_hash.
  destruct (AuthStore.auth_sessions (Directory.auth s) !! _) as [r|] eqn:E; [|by split].
  split; try done. unfold Directory.auth_sessions. simpl.
  apply keyed_insert; [done|]. by apply (keyed_sessions0 _ r).
Qed.
Lemma keyed_present request_uuid trace_uuid headers now :
  keeps rows_keyed (present (V:=V) request_uuid trace_uuid headers now).
Proof.
  apply kept_auth. intros s [].
  destruct (authenticate_frames request_uuid trace_uuid headers now (Directory.auth s)) as (E1 & E2 & E3).
  split; try done.
  - unfold Directory.project_memberships. simpl. by rewrite E3.
  - unfold Directory.auth_sessions. simpl. by rewrite E2.
  - unfold keys_of. simpl. by rewrite E1.
Qed.
Lemma keyed_create_key record : keeps rows_keyed (create_api_key_record (V:=V) record).
Proof.
  intros s Hs. unfold create_api_key_record. case_match; [|done].
  eapply kept_bind; [apply keyed_put|intros; apply kept_ret|done].
Qed.
Lemma keyed_replace_key record : keeps rows_keyed (replace_api_key_secret (V:=V) record).
Proof.
  intros s Hs. unfold replace_api_key_secret. case_match; [|done].
  eapply kept_bind; [apply keyed_put|intros; apply kept_ret|done].
Qed.
Lemma keyed_status_for_state actor id status now :
  keeps rows_keyed (update_api_key_status_for_state (V:=V) actor id status now).
Proof.
  unfold update_api_key_status_for_state. apply kept_bind; [apply keyed_update_status|]. intros r.
  apply kept_bind_lift. intros _ _. apply kept_bind; [apply keyed_put|intros; apply kept_ret].
Qed.

#[local] Hint Resolve keyed_organization_status keyed_project_status keyed_user_status
  keyed_user_default keyed_user_repair keyed_account_create keyed_account_status keyed_member_status
  keyed_member_upsert keyed_project_member_status keyed_project_member_create
  keyed_project_member_upsert keyed_cascade keyed_unlink keyed_invitation_create
  keyed_invitation_revoke keyed_invitation_accept keyed_session_revoke keyed_revoke_inactive
  keyed_context keyed_logout keyed_present keyed_create_key keyed_replace_key
  keyed_status_for_state : keyed_rows.

Lemma keyed_store s g : rows_keyed s → rows_keyed (Directory.set_store s g).
Proof. intros []. by split. Qed.

Lemma keyed_serve request s : rows_keyed s → rows_keyed (serve request s).
Proof.
  intros Hs. pose proof keyed_store as free. serve_cases request free ltac:(auto with keyed_rows nocore).
Qed.

Lemma keyed_serve_all requests s : rows_keyed s → rows_keyed (serve_all requests s).
Proof.
  revert s. induction requests as [|request requests IH]; intros s Hs; [done|].
  simpl. apply IH. by apply keyed_serve.
Qed.

(** ** Sessions of a user that was switched off *)

Definition sessions_out (tenant_id principal_id : string) s : Prop :=
  ∀ h r, Directory.auth_sessions s !! h = Some r → of_principal tenant_id principal_id r = true →
    AuthSessionRecord.status r ≠ AuthSessionStatus.Active.

Lemma sessions_out_store t u s g : sessions_out t u s → sessions_out t u (Directory.set_store s g).
Proof. done. Qed.

(** Put back a session that keeps its owner and is not active unless it was. *)
Lemma sessions_out_insert t u s h r r' :
  sessions_out t u s → Directory.auth_sessions s !! h = Some r →
  of_principal t u r' = of_principal t u r →
  (AuthSessionRecord.status r' = AuthSessionStatus.Active →
   AuthSessionRecord.status r = AuthSessionStatus.Active) →
  sessions_out t u (Directory.set_auth_sessions s (<[h := r']> (Directory.auth_sessions s))).
Proof.
  intros Hs Hh Hp Hst h' x. unfold Directory.auth_sessions. simpl.
  intros [[<- <-]|[_ Hx]]%lookup_insert_Some Ho; [|by eapply Hs].
  rewrite Hp in Ho. intros E. by apply (Hs _ _ Hh Ho), Hst.
Qed.

Lemma sessions_out_revoke_inactive t u actor user now :
  keeps (sessions_out t u) (revoke_if_inactive (V:=V) actor user now).
Proof.
  unfold revoke_if_inactive. destruct (DirectoryStatus.accepts_access _); [apply kept_ret|].
  apply kept_auth. intros s Hs h r. unfold Directory.auth_sessions. simpl. rewrite lookup_fmap.
  intros (x & Hx & ->)%fmap_Some. destruct (principal_active _ _ x); [done|]. by eapply Hs.
Qed.

Lemma sessions_out_revoke t u tenant principal id now :
  keeps (sessions_out t u) (revoke_session_for_principal (V:=V) tenant principal id now).
Proof.
  intros s Hs. unfold revoke_session_for_principal, on_rows.
  destruct (find_row _ _) as [[h r]|] eqn:E; [|done]. apply find_row_lookup in E as [E _].
  by eapply sessions_out_insert.
Qed.
Lemma sessions_out_context t u session organization project now :
  keeps (sessions_out t u) (update_context (V:=V) session organization project now).
Proof.
  apply kept_auth. intros s Hs. unfold update_session_active_context_by_hash.
  destruct (AuthStore.auth_sessions (Directory.auth s) !! _) as [r|] eqn:E; [|done].
  destruct (negb _); [done|]. by eapply (sessions_out_insert _ _ s _ r).
Qed.
Lemma sessions_out_logout t u hash now :
  keeps (sessions_out t u) (on_auth (V:=V) (revoke_session_by_hash hash now)).
Proof.
  apply kept_auth. intros s Hs. unfold revoke_session_by_hash.
  destruct (AuthStore.auth_sessions (Directory.auth s) !! _) as [r|] eqn:E; [|done].
  by eapply (sessions_out_insert _ _ s _ r).
Qed.
Lemma sessions_out_present t u request_uuid trace_uuid headers now :
  keeps (sessions_out t u) (present (V:=V) request_uuid trace_uuid headers now).
Proof.
  apply kept_auth. intros s Hs. unfold sessions_out, Directory.auth_sessions.
  cbn [Directory.auth Directory.set_auth]. rewrite (proj1 (proj2 (authenticate_frames _ _ _ _ _))).
  exact Hs.
Qed.

Lemma sessions_out_serve_all t u requests s :
  sessions_out t u s → sessions_out t u (serve_all requests s).
Proof.
  revert s. induction requests as [|request requests IH]; intros s Hs; [done|]. simpl. apply IH.
  pose proof (sessions_out_store t u) as free. serve_cases request free quiet_leaf.
  all: auto using sessions_out_revoke_inactive, sessions_out_revoke, sessions_out_context,
    sessions_out_logout, sessions_out_present.
Qed.

(** Updating the user and revoking its sessions. *)
Lemma update_user_ends_sessions drawn actor user_id request now s response s' :
  update_user drawn actor user_id request now s = (Ok response, s') →
  DirectoryStatus.accepts_access (AdminUpdateUserRequest.status request) = false →
  rows_keyed s →
  sessions_out (AuthenticatedActor.tenant_id actor) user_id s'.
Proof.
  intros Hu Hst Hk. apply bind_run in Hu as (u & s0 & [_ ->]%lift_run & Hu).
  apply bind_run in Hu as (u' & s1 & (g & -> & _ & _)%authorize_reads & Hu).
  apply bind_run in Hu as (before & s2 & [_ ->]%reading_run & Hu).
  apply bind_run in Hu as (updated & s3 & Hupd & Hu). apply bind_run in Hu as (n & s4 & Hrev & Hu).
  cbv zeta in Hu. apply bind_run in Hu as (aid & s5 & Haud & [= _ <-]).
  unfold audit, on_admin in Haud. destruct (record_admin_resource_audit _ _ _ _) as [r2 g2].
  injection Haud as _ <-. apply sessions_out_store.
  unfold update_user_status, on_rows, update_versioned in Hupd.
  cbn [Directory.users Directory.set_store] in Hupd.
  destruct (Directory.users s !! user_id) as [user|] eqn:E; [|done]. destruct (_ !=? _); [done|].
  injection Hupd as <- <-. unfold revoke_if_inactive, on_auth in Hrev. cbn in Hrev. rewrite Hst in Hrev.
  injection Hrev as _ <-. intros h r. unfold Directory.auth_sessions. cbn. rewrite lookup_fmap.
  intros (x & Hx & ->)%fmap_Some. rewrite (keyed_users _ Hk _ _ E).
  destruct (principal_active _ _ x) eqn:Ep; [done|]. intros Ho Hact.
  unfold principal_active in Ep. unfold of_principal in Ho. rewrite Ho in Ep.
  rewrite bool_decide_true in Ep by done. done.
Qed.

(** Switching a user off signs it out.  Once an update has given the user a
    status other than active, no session token is accepted for it, whatever the
    directory serves afterwards: none of its requests brings a session back. *)
Theorem disabled_user_signed_out drawn actor user_id request now (s : State) response s' requests
    token later session :
  update_user drawn actor user_id request now s = (Ok response, s') →
  DirectoryStatus.accepts_access (AdminUpdateUserRequest.status request) = false →
  rows_keyed s →
  verify_session_token token later (Directory.auth (serve_all requests s')) = Ok session →
  (AuthSessionRecord.tenant_id session, AuthSessionRecord.principal_id session)
    ≠ (AuthenticatedActor.tenant_id actor, user_id).
Proof.
  intros Hu Hst Hk Hv [= Ht Hp]. apply verify_session_stored in Hv as (Hl & Hact & _).
  eapply (sessions_out_serve_all _ _ requests s'
            (update_user_ends_sessions _ _ _ _ _ _ _ _ Hu Hst Hk)); [exact Hl| |done].
  unfold of_principal. rewrite Ht, Hp, !bool_decide_true by done. done.
Qed.

(** ** Members of an organization that were suspended or removed *)

Definition organization_triple (m : OrganizationMembershipRecord.t) : string * string * string :=
  (OrganizationMembershipRecord.tenant_id m, OrganizationMembershipRecord.organization_id m,
   OrganizationMembershipRecord.principal_id m).
Definition project_triple (m : ProjectMembershipRecord.t) : string * string * string :=
  (ProjectMembershipRecord.tenant_id m, ProjectMembershipRecord.organization_id m,
   ProjectMembershipRecord.principal_id m).

(** Neither the organization nor any of its projects accepts the principal. *)
Definition member_out (t : string * string * string) s : Prop :=
  (∀ k m, Directory.organization_memberships s !! k = Some m → organization_triple m = t →
     MembershipStatus.accepts_access (OrganizationMembershipRecord.status m) = false)
  ∧ (∀ k m, Directory.project_memberships s !! k = Some m → project_triple m = t →
     ProjectMembershipRecord.accepts_access m = false).

(** Requests that do not put a membership back. *)
Definition leaves_members (request : DirectoryRequest) : Prop :=
  match request with
  | UpdateOrganizationMember _ _ _ _ request _ | UpdateProjectMember _ _ _ _ request _ =>
      AdminUpdateMembershipRequest.status request ≠ MembershipStatus.Active
  | AcceptInvitation _ _ _ _ _ _ _ _ => False
  | _ => True
  end.

Lemma member_out_store t s g : member_out t s → member_out t (Directory.set_store s g).
Proof. done. Qed.

Lemma inactive status : status ≠ MembershipStatus.Active → MembershipStatus.accepts_access status = false.
Proof. by destruct status. Qed.

Lemma member_out_status t id expected status :
  status ≠ MembershipStatus.Active →
  keeps (member_out t) (update_organization_member_status (V:=V) id expected status).
Proof.
  intros Hst s [Ho Hp]. unfold update_organization_member_status, on_rows, update_member.
  destruct (find_row _ _) as [[k m]|]; [|by split]. destruct (_ !=? _); [by split|].
  split; [|done]. intros k' m'. simpl. intros [[<- <-]|[_ Hm]]%lookup_insert_Some Ht; [by apply inactive|eauto].
Qed.
Lemma member_out_project_status t id expected status :
  status ≠ MembershipStatus.Active →
  keeps (member_out t) (update_project_member_status (V:=V) id expected status).
Proof.
  intros Hst s [Ho Hp]. unfold update_project_member_status, on_rows, update_member.
  destruct (find_row _ _) as [[k m]|]; [|by split]. destruct (_ !=? _); [by split|].
  split; [done|]. intros k' m'. unfold Directory.project_memberships. simpl.
  intros [[<- <-]|[_ Hm]]%lookup_insert_Some Ht; [by apply inactive|eauto].
Qed.
Lemma member_out_cascade t member status :
  keeps (member_out t) (cascade_project_memberships_for_organization_member (V:=V) member status).
Proof.
  intros s [Ho Hp]. split; [done|]. intros k m. unfold Directory.project_memberships. simpl. rewrite lookup_fmap.
  intros (x & Hx & ->)%fmap_Some. destruct (cascades member status x) eqn:Ec; [|by eauto].
  intros _. apply inactive. simpl. unfold cascades in Ec. destruct status; btrue; done.
Qed.

(** An assignment is made only through an active organization membership. *)
Lemma assignment_active actor project_id request s a :
  project_assignment actor project_id request s = Ok a →
  ∃ k m, Directory.organization_memberships s !! k = Some m
    ∧ organization_triple m = (CreateProjectMembershipRequest.tenant_id a,
        CreateProjectMembershipRequest.organization_id a, CreateProjectMembershipRequest.principal_id a)
    ∧ MembershipStatus.accepts_access (OrganizationMembershipRecord.status m) = true.
Proof.
  unfold project_assignment. intros (project & _ & Hr)%bind_ok. apply bind_ok in Hr as (_ & _ & Hr).
  apply bind_ok in Hr as (user & _ & Hr). apply bind_ok in Hr as (_ & _ & Hr).
  apply bind_ok in Hr as (m & Hm & [= <-]). unfold organization_triple. simpl.
  unfold active_organization_member_for_project_assignment in Hm. cbv zeta in Hm.
  destruct (AdminCreateProjectMemberRequest.organization_member_id request) as [id|].
  - apply bind_ok in Hm as (m' & Hf & Hm). destruct (_ && _) eqn:E; [|done]. injection Hm as <-.
    apply bind_ok in Hf as (_ & _ & [Hf Ht]%filtered_ok). btrue. unfold organization_member in Hf.
    destruct (find_row _ _) as [[k x]|] eqn:Er; [|done]. injection Hf as <-.
    apply find_row_lookup in Er as [Er _]. exists k, x. split_and!; [done|congruence|done].
  - destruct (List.find _ _) as [m'|] eqn:Ef; [|done]. injection Hm as <-.
    apply find_Some_in in Ef as [Hin Hp]. btrue. unfold organization_memberships_for_principal in Hin.
    apply sort_by_elem, filter_iff in Hin as [Hin Hpr]. btrue. unfold rows in Hin.
    apply list_elem_of_fmap in Hin as ([k x] & -> & Hx). apply elem_of_map_to_list in Hx.
    exists k, x. split_and!; [done|simpl in *; congruence|done].
Qed.

Lemma member_out_create t uuid a :
  (CreateProjectMembershipRequest.tenant_id a, CreateProjectMembershipRequest.organization_id a,
   CreateProjectMembershipRequest.principal_id a) ≠ t →
  keeps (member_out t) (create_project_membership (V:=V) uuid a).
Proof.
  intros Ht s [Ho Hp]. unfold create_project_membership. cbv zeta. set (member := default _ _).
  destruct (_ || _) eqn:Es.
  - split; [done|]. intros k m. unfold Directory.project_memberships. simpl.
    intros [[<- <-]|[_ Hm]]%lookup_insert_Some Htm; [|eauto].
    unfold member in *. destruct (Directory.project_memberships s !! _) as [x|] eqn:E; simpl in *; [eauto|].
    rewrite !bool_decide_true in Es by done. done.
  - split; [done|]. intros k m. unfold Directory.project_memberships. simpl.
    intros [[<- <-]|[_ Hm]]%lookup_insert_Some Htm; [|eauto]. exfalso. apply Ht. rewrite <- Htm.
    btrue. trans (project_triple member); [unfold project_triple; congruence|by destruct (_ || _)].
Qed.

Lemma member_out_present t request_uuid trace_uuid headers now :
  keeps (member_out t) (present (V:=V) request_uuid trace_uuid headers now).
Proof.
  apply kept_auth. intros s Hs. unfold member_out, Directory.project_memberships.
  cbn [Directory.auth Directory.set_auth]. rewrite (proj2 (proj2 (authenticate_frames _ _ _ _ _))).
  exact Hs.
Qed.

Lemma member_out_serve t request s :
  leaves_members request → member_out t s → member_out t (serve request s).
Proof.
  intros Hl Hs. pose proof (member_out_store t) as free.
  destruct request; try (exfalso; exact Hl); cbn [serve]; as_keeps; handlers; keep free;
    try solve [quiet_leaf].
  - by apply member_out_status.
  - apply member_out_cascade.
  - apply member_out_create.
    match goal with E : project_assignment _ _ _ _ = Ok _, Hst : member_out _ ?st |- _ =>
      apply assignment_active in E as (k & m & Hm & Htm & Hact); destruct Hst as [Ho _] end.
    intros E. rewrite (Ho k m) in Hact; [done..|congruence].
  - by apply member_out_project_status.
  - apply member_out_present.
Qed.

Lemma member_out_serve_all t requests s :
  Forall leaves_members requests → member_out t s → member_out t (serve_all requests s).
Proof.
  intros Hl. revert s. induction Hl as [|request requests Hr _ IH]; intros s Hs; [done|].
  simpl. apply IH. by apply member_out_serve.
Qed.

(** The update reaches the membership and, through the cascade, the projects. *)
Lemma update_member_puts_out drawn actor organization_id id request now s response s' :
  update_organization_member drawn actor organization_id id request now s = (Ok response, s') →
  AdminUpdateMembershipRequest.status request ≠ MembershipStatus.Active →
  rows_keyed s →
  ∃ k m, Directory.organization_memberships s !! k = Some m
    ∧ OrganizationMembershipRecord.organization_member_id m = id
    ∧ OrganizationMembershipRecord.tenant_id m = AuthenticatedActor.tenant_id actor
    ∧ OrganizationMembershipRecord.organization_id m = organization_id
    ∧ member_out (organization_triple m) s'.
Proof.
  intros Hu Hst Hk. apply bind_run in Hu as (u & s1 & (g & -> & _ & _)%authorize_reads & Hu).
  apply bind_run in Hu as (before & s2 & [Eb ->]%reading_run & Hu).
  apply bind_run in Hu as (updated & s3 & Hupd & Hu). apply bind_run in Hu as (n & s4 & Hcas & Hu).
  cbv zeta in Hu. apply bind_run in Hu as (aid & s5 & Haud & [= _ <-]).
  unfold audit, on_admin in Haud. destruct (record_admin_resource_audit _ _ _ _) as [r2 g2].
  injection Haud as _ <-. injection Hcas as _ <-.
  apply bind_ok in Eb as (_ & _ & [Hb Ht]%filtered_ok). unfold organization_member in Hb.
  cbn [Directory.organization_memberships Directory.set_store] in Hb.
  unfold update_organization_member_status, on_rows, update_member in Hupd.
  cbn [Directory.organization_memberships Directory.set_store] in Hupd.
  destruct (find_row _ _) as [[k m]|] eqn:E; [|done]. injection Hb as ->.
  apply find_row_lookup in E as [E Hid]. btrue. destruct (_ !=? _); [done|]. injection Hupd as <- <-.
  set (m' := organization_member_with_status before _).
  exists k, before. split_and!; [done..|]. split.
  - intros k' x. cbn. intros [[<- <-]|[Hne Hx]]%lookup_insert_Some Htx; [by apply inactive|].
    exfalso. apply Hne. rewrite <- (keyed_members _ Hk _ _ E), <- (keyed_members _ Hk _ _ Hx).
    unfold organization_member_key, organization_triple in *. congruence.
  - intros k' x. unfold Directory.project_memberships. cbn. rewrite lookup_fmap.
    intros (y & Hy & ->)%fmap_Some. destruct (cascades m' _ y) eqn:Ec.
    { intros _. by apply inactive. }
    intros Hty. unfold cascades in Ec. unfold project_triple, organization_triple in Hty.
    injection Hty as H1' H2' H3'. simpl in Ec. rewrite H1', H2', H3', !bool_decide_true in Ec by done.
    simpl in Ec. unfold ProjectMembershipRecord.accepts_access. apply inactive. intros Ey. rewrite Ey in Ec.
    by destruct (AdminUpdateMembershipRequest.status request).
Qed.

(** C20. Suspending or removing a member of an organization closes its projects.
    Once the update has been made, no session of the principal acts in the
    organization, whatever is requested afterwards, until a membership is set
    active again or an invitation is accepted. *)
Theorem suspended_member_loses_projects drawn actor organization_id id request now (s : State)
    response s' :
  update_organization_member drawn actor organization_id id request now s = (Ok response, s') →
  AdminUpdateMembershipRequest.status request ≠ MembershipStatus.Active →
  rows_keyed s →
  ∃ k m, Directory.organization_memberships s !! k = Some m
    ∧ OrganizationMembershipRecord.organization_member_id m = id
    ∧ ∀ requests request_uuid trace_uuid headers later caller,
        Forall leaves_members requests →
        (present request_uuid trace_uuid headers later (serve_all requests s')).1 = Ok caller →
        AuthenticatedActor.credential_kind caller = CredentialKind.Session →
        AuthenticatedActor.principal_id caller
          = Some (OrganizationMembershipRecord.principal_id m) →
        (AuthenticatedActor.tenant_id caller, AuthenticatedActor.organization_id caller)
          ≠ (AuthenticatedActor.tenant_id actor, Some organization_id).
Proof.
  intros Hu Hst Hk.
  destruct (update_member_puts_out _ _ _ _ _ _ _ _ _ Hu Hst Hk) as (k & m & Hm & Hid & Ht & Ho & Hout).
  exists k, m. split_and!; [done..|]. intros requests request_uuid trace_uuid headers later caller Hr Hp Hc Hpr [= Htc Hoc].
  assert (rows_keyed (serve_all requests s')) as Hk'.
  { apply keyed_serve_all. assert (s' = serve (UpdateOrganizationMember drawn actor organization_id id request now) s) as ->
      by (simpl; by rewrite Hu). by apply keyed_serve. }
  destruct (member_out_serve_all _ _ _ Hr Hout) as [_ Hproj]. revert Hp Hc Hpr Htc Hoc.
  unfold present, on_auth, authenticate_request. cbv zeta.
  destruct (bearer_token headers) as [token|]; [|done]. destruct (starts_with _ token).
  - cbn [fst]. intros (session & _ & (project & _ & (member & Hact & Hcaller)%bind_ok)%bind_ok)%bind_ok.
    injection Hcaller as <-. simpl. intros _ [= Hp'] Hten [= Horg].
    unfold active_project_membership, project_membership in Hact. simpl in Hact.
    destruct (AuthStore.project_memberships _ !! _) as [x|] eqn:Ex; [|done].
    destruct (negb _) eqn:En; [done|]. injection Hact as ->. btrue.
    rewrite (Hproj _ member Ex) in En; [done|].
    apply (keyed_project_members _ Hk') in Ex. unfold project_member_key in Ex. injection Ex as Ex _.
    unfold project_triple, organization_triple. congruence.
  - destruct (verify_api_key _ _ _ _ _) as [r a] eqn:E. cbn [fst]. intros ->.
    by destruct (verified_key _ _ _ _ _ _ (f_equal fst E)) as (? & ? & ? & _ & _ & _ & ->).
Qed.

(** ** A new key is shown once *)

Definition create_scope (request : AdminCreateApiKeyRequest.t) : string :=
  idempotency_scope_key "api_keys:create" (AdminCreateApiKeyRequest.idempotency_key request).
Definition create_hash (request : AdminCreateApiKeyRequest.t) : string :=
  stable_request_hash (create_api_key_json (V:=V) request).

Lemma validate_key_draft record s g :
  GatewayStore.draft g = Directory.draft s →
  validate_api_key_admin_record record (Directory.set_store s g) = validate_api_key_admin_record record s.
Proof.
  intros Hd. unfold validate_api_key_admin_record, validate_api_key_owner, validate_api_key_scope,
    scope_project, scope_organization, Directory.projects, Directory.organizations, Directory.draft.
  cbn [Directory.store Directory.set_store Directory.tenants Directory.users Directory.service_accounts].
  by rewrite Hd.
Qed.

(** C21. A created API key is shown once and works.  The response to a creation
    under a new idempotency key carries the raw key; presented in the state the
    creation leaves, until the key expires, it authenticates as that key, with
    the tenant, scope and restrictions that were asked for, if no other key has
    its prefix and the prefix is not throttled.  A repetition of the request
    within 24 hours is answered, if at all, without the raw key and creates
    nothing. *)
Theorem created_key_shown_once `{!AuthLaws} drawn salt bytes actor request now (s : State) response s' :
  create_api_key_admin drawn salt bytes actor request now s = (Ok response, s') →
  unseen actor (create_scope request) (create_hash request) now s →
  ∃ record raw_key,
    let audit_event_id := new_prefixed_id "aud" (Drawn.audit drawn) in
    response = api_key_mutation_response record audit_event_id (Some raw_key) true false
    ∧ create_api_key (Drawn.resource drawn) salt bytes (new_api_key actor request) now
        = Ok (record, raw_key)
    ∧ validate_api_key_admin_record record s = Ok tt
    ∧ (∀ request_id trace_id later,
         keys_of s !! ApiKeyRecord.key_prefix record = None →
         length (recent_failures (ApiKeyRecord.key_prefix record) later (Directory.auth s))
           < API_KEY_FAILED_AUTH_MAX_ATTEMPTS →
         match AdminCreateApiKeyRequest.expires_at request with
         | None => True | Some e => (later < e)%Z end →
         (verify_api_key raw_key request_id trace_id later (Directory.auth s')).1
           = Ok (AuthenticatedActor.for_api_key record request_id trace_id))
    ∧ (∀ drawn' salt' bytes' actor' later,
         AuthenticatedActor.tenant_id actor' = AuthenticatedActor.tenant_id actor →
         (later < now + duration_hours IDEMPOTENCY_TTL_HOURS)%Z →
         let '(r, s'') := create_api_key_admin drawn' salt' bytes' actor' request later s' in
         (∀ answer, r = Ok answer →
            answer = response_with_replay_flag
                       (api_key_mutation_response record audit_event_id None false false) true)
         ∧ Directory.auth s'' = Directory.auth s').
Proof.
  intros Hc Hu. destruct (authorized_keyed_run Hc Hu) as (g & stored & s1 & Hd & Ho & Hs'). clear Hc.
  revert Ho. unfold lift, mbind, M_bind at 1 2.
  destruct (create_api_key _ _ _ _ _) as [[record raw]|] eqn:Ek; [|done].
  unfold create_api_key_record at 1. destruct (validate_api_key_admin_record _ _) as [[]|] eqn:Ev; [|done].
  cbn. intros [= <- <- <-].
  assert (Directory.auth s' = insert_api_key record (Directory.auth s)) as Ha by (by rewrite Hs').
  eassert (answers_of s' !! (AuthenticatedActor.tenant_id actor, create_scope request) = Some _) as Hans.
  { rewrite Hs'. unfold answers_of. cbn. apply lookup_insert_eq. }
  clear Hs'. exists record, raw. cbv zeta. split_and!; [done|done|by rewrite <- (validate_key_draft _ _ g)| |].
  - intros request_id trace_id later Hp Hf He. rewrite Ha.
    by apply (created_key_authenticates (Drawn.resource drawn) salt bytes (new_api_key actor request) now).
  - intros drawn' salt' bytes' actor' later Ht Hl. unfold create_api_key_admin.
    exact (authorized_keyed_again Hans Ht Hl).
Qed.

(** ** Invitations *)

Definition invitation_closed (id : string) s : Prop :=
  ∃ r, Directory.organization_invitations s !! id = Some r
    ∧ OrganizationInvitationRecord.status r ≠ InvitationStatus.Pending.

(** The request does not draw the id of the invitation again. *)
Definition leaves_invitation (id : string) (request : DirectoryRequest) : Prop :=
  match request with
  | CreateInvitation drawn _ _ _ _ _ => new_prefixed_id "inv" (Drawn.resource drawn) ≠ id
  | _ => True
  end.

Lemma closed_store id s g : invitation_closed id s → invitation_closed id (Directory.set_store s g).
Proof. done. Qed.

Lemma closed_insert id s id' r :
  invitation_closed id s →
  (id' = id → OrganizationInvitationRecord.status r ≠ InvitationStatus.Pending) →
  invitation_closed id
    (Directory.set_organization_invitations s (<[id' := r]> (Directory.organization_invitations s))).
Proof.
  intros (x & Hx & Hst) Hr. unfold invitation_closed. simpl. destruct (decide (id' = id)) as [->|Hne].
  - exists r. rewrite lookup_insert_eq. auto.
  - exists x. by rewrite lookup_insert_ne.
Qed.

Lemma closed_create id uuid request now :
  new_prefixed_id "inv" uuid ≠ id →
  keeps (invitation_closed id) (create_organization_invitation (V:=V) uuid request now).
Proof. intros Hne s Hs. by apply closed_insert. Qed.
Lemma closed_revoke id id' expected now :
  keeps (invitation_closed id) (revoke_invitation (V:=V) id' expected now).
Proof.
  intros s Hs. unfold revoke_invitation, on_rows.
  destruct (Directory.organization_invitations s !! id') as [r|]; [|done].
  destruct (_ ≫= _) as [[a m]|] eqn:E; [|done].
  apply bind_ok in E as (_ & _ & (_ & _ & [= _ <-])%bind_ok). by apply closed_insert.
Qed.
Lemma closed_accept id id' now : keeps (invitation_closed id) (mark_accepted (V:=V) id' now).
Proof.
  intros s Hs. unfold mark_accepted, on_rows.
  destruct (Directory.organization_invitations s !! id') as [r|]; [|done].
  destruct (_ ≫= _) as [[a m]|] eqn:E; [|done].
  apply bind_ok in E as (_ & _ & [= _ <-]). by apply closed_insert.
Qed.

Lemma closed_serve_all id requests s :
  Forall (leaves_invitation id) requests → invitation_closed id s →
  invitation_closed id (serve_all requests s).
Proof.
  intros Hl. revert s. induction Hl as [|request requests Hr _ IH]; intros s Hs; [done|].
  simpl. apply IH. pose proof (closed_store id) as free. serve_cases request free quiet_leaf.
  - by apply closed_create.
  - apply closed_revoke.
  - apply closed_accept.
  - intros st Hst. unfold present, on_auth. by destruct (authenticate_request _ _ _ _ _ _).
Qed.

(** Whom an invitation is for: a principal, or the owner of an address. *)
Definition invited (session : AuthSessionRecord.t) (invitation : OrganizationInvitationRecord.t) s
    : Prop :=
  AuthSessionRecord.tenant_id session = OrganizationInvitationRecord.tenant_id invitation
  ∧ (OrganizationInvitationRecord.invited_principal_id invitation
       = Some (AuthSessionRecord.principal_id session)
     ∨ ∃ user email, Directory.users s !! AuthSessionRecord.principal_id session = Some user
         ∧ OrganizationInvitationRecord.invited_email invitation = Some email
         ∧ UserRecord.primary_email user ≫= normalized_email = Some email).

Lemma matches_invited session invitation s :
  verify_session_matches_invitation session invitation s = Ok tt → invited session invitation s.
Proof.
  unfold verify_session_matches_invitation. intros (u & Ht & Hm)%bind_ok.
  unfold refuse_if in Ht. destruct (_ !=? _) eqn:E; [done|]. btrue. split; [done|].
  destruct (OrganizationInvitationRecord.invited_principal_id invitation) as [p|]; simpl in Hm.
  - destruct (decide (p = AuthSessionRecord.principal_id session)) as [->|Hne]; [by left|].
    rewrite bool_decide_false in Hm by done. right.
    destruct (OrganizationInvitationRecord.invited_email invitation) as [email|]; [|done].
    apply bind_ok in Hm as (user & Hu & Hm). destruct (Directory.users s !! _) as [x|] eqn:Eu; [|done].
    injection Hu as ->. unfold refuse_if in Hm. destruct (_ !=? _) eqn:Ee; [done|]. btrue. by exists user, email.
  - right. destruct (OrganizationInvitationRecord.invited_email invitation) as [email|]; [|done].
    apply bind_ok in Hm as (user & Hu & Hm). destruct (Directory.users s !! _) as [x|] eqn:Eu; [|done].
    injection Hu as ->. unfold refuse_if in Hm. destruct (_ !=? _) eqn:Ee; [done|]. btrue. by exists user, email.
Qed.

(** The steps of an acceptance that succeeds. *)
Lemma accept_run {drawn mu pu ru tu headers token now s response s'} :
  accept_auth_invitation drawn mu pu ru tu headers token now s = (Ok response, s') →
  ∃ session invitation accepted s1 s2 updated,
    verify_mutating_auth_session_from_headers headers now s = Ok session
    ∧ invitation_by_raw_token token s = Ok invitation
    ∧ verify_session_matches_invitation session invitation s = Ok tt
    ∧ accept_organization_invitation mu pu (OrganizationInvitationRecord.invitation_id invitation)
        (AuthSessionRecord.principal_id session) now s = (Ok accepted, s1)
    ∧ update_context session (Some (OrganizationInvitationRecord.organization_id accepted))
        (OrganizationInvitationRecord.project_id accepted) now s1 = (Ok updated, s2)
    ∧ ∃ g, s' = Directory.set_store s2 g.
Proof.
  intros Hr. apply bind_run in Hr as (session & s0 & [Hv ->]%reading_run & Hr).
  apply bind_run in Hr as (invitation & s0 & [Ht ->]%reading_run & Hr).
  apply bind_run in Hr as ([] & s0 & [Hm ->]%reading_run & Hr).
  apply bind_run in Hr as (accepted & s1 & Ha & Hr). apply bind_run in Hr as (updated & s2 & Hu & Hr).
  apply bind_run in Hr as (aid & s3 & Hg & Hr). unfold audit, on_admin in Hg.
  destruct (record_admin_resource_audit _ _ _ _) as [r g]. injection Hg as _ <-. injection Hr as _ <-.
  exists session, invitation, accepted, s1, s2, updated. split_and!; try done. by exists g.
Qed.

Lemma token_row token s invitation :
  rows_keyed s → invitation_by_raw_token token s = Ok invitation →
  Directory.organization_invitations s !! OrganizationInvitationRecord.invitation_id invitation
    = Some invitation.
Proof.
  intros Hk (_ & _ & Hf)%bind_ok. unfold organization_invitation_by_token_hash in Hf.
  destruct (find_row _ _) as [[k r]|] eqn:E; [|done]. injection Hf as <-.
  apply find_row_lookup in E as [E _]. by rewrite (keyed_invitations _ Hk _ _ E).
Qed.

(** The memberships an acceptance leaves are active. *)
Lemma upserted_member uuid invitation principal s :
  ∃ m, upsert_invited_organization_membership (V:=V) uuid invitation principal s
       = (Ok m, Directory.set_organization_memberships s
            (<[(principal, OrganizationInvitationRecord.organization_id invitation) := m]>
               (Directory.organization_memberships s)))
    ∧ OrganizationMembershipRecord.status m = MembershipStatus.Active.
Proof.
  eexists. split; [reflexivity|]. set (x := default _ _).
  destruct (decide (OrganizationMembershipRecord.status x = MembershipStatus.Active)) as [E|E].
  - by rewrite bool_decide_true.
  - by rewrite bool_decide_false.
Qed.
Lemma upserted_project_member uuid invitation principal project parent s :
  ∃ m, upsert_invited_project_membership (V:=V) uuid invitation principal project parent s
       = (Ok m, Directory.set_project_memberships s
            (<[(principal, project) := m]> (Directory.project_memberships s)))
    ∧ ProjectMembershipRecord.status m = MembershipStatus.Active.
Proof.
  eexists. split; [reflexivity|]. set (x := default _ _).
  assert (ProjectMembershipRecord.status (if ProjectMembershipRecord.status x !=? MembershipStatus.Active
    then project_member_with_status x MembershipStatus.Active else x) = MembershipStatus.Active) as E.
  { destruct (decide (ProjectMembershipRecord.status x = MembershipStatus.Active)) as [E|E].
    - by rewrite bool_decide_true.
    - by rewrite bool_decide_false. }
  destruct (ProjectMembershipRecord.organization_member_id _); exact E.
Qed.
Lemma repaired_defaults invitation principal now s :
  ∃ users, repair_user_defaults_after_invite_accept (V:=V) invitation principal now s
    = (Ok tt, Directory.set_users s users).
Proof.
  unfold repair_user_defaults_after_invite_accept.
  destruct (Directory.users s !! principal) as [user|]; [destruct (_ || _)|].
  all: first [by eexists | exists (Directory.users s); by destruct s].
Qed.

(** What accepting does to the invitation and to the memberships. *)
Lemma accept_effect mu pu id principal now s accepted s' :
  accept_organization_invitation (V:=V) mu pu id principal now s = (Ok accepted, s') →
  ∃ invitation, Directory.organization_invitations s !! id = Some invitation
    ∧ OrganizationInvitationRecord.status invitation = InvitationStatus.Pending
    ∧ (now < OrganizationInvitationRecord.expires_at invitation)%Z
    ∧ accepted = invitation_with invitation InvitationStatus.Accepted (Some now) now
    ∧ invitation_closed id s'
    ∧ (∃ m, Directory.organization_memberships s'
          !! (principal, OrganizationInvitationRecord.organization_id invitation) = Some m
        ∧ OrganizationMembershipRecord.status m = MembershipStatus.Active)
    ∧ (∀ project, OrganizationInvitationRecord.project_id invitation = Some project →
        ∃ m, Directory.project_memberships s' !! (principal, project) = Some m
          ∧ ProjectMembershipRecord.status m = MembershipStatus.Active).
Proof.
  unfold accept_organization_invitation, mbind. unfold M_bind at 1.
  unfold mark_accepted, on_rows. destruct (Directory.organization_invitations s !! id) as [inv|] eqn:Ei; [|done].
  destruct (InvitationStatus.accepts_at _ _ now) eqn:Ea; [|done]. cbn [negb refuse_if mbind result_bind].
  unfold InvitationStatus.accepts_at in Ea.
  destruct (OrganizationInvitationRecord.status inv) eqn:Est; try done. apply Z.ltb_lt in Ea. cbv zeta.
  set (acc := invitation_with inv InvitationStatus.Accepted (Some now) now).
  set (s1 := Directory.set_organization_invitations s _).
  assert (invitation_closed id s1) as Hc by (exists acc; split; [apply lookup_insert_eq|done]).
  clearbody s1. unfold M_bind at 1.
  destruct (upserted_member mu acc principal s1) as (m & -> & Hm). unfold M_bind at 1.
  change (OrganizationInvitationRecord.project_id acc) with (OrganizationInvitationRecord.project_id inv).
  destruct (OrganizationInvitationRecord.project_id inv) as [project|] eqn:Ep.
  - unfold M_bind at 1 2.
    edestruct (upserted_project_member pu acc principal project) as (pm & -> & Hpm). cbn [mret M_ret].
    edestruct (repaired_defaults acc principal now) as (users & Hr). unfold M_bind. rewrite Hr.
    intros [= <- <-]. exists inv. split_and!; [done..|exact Hc| |].
    + exists m. split; [apply lookup_insert_eq|done].
    + intros p. rewrite Ep. intros [= <-]. exists pm. split; [apply lookup_insert_eq|done].
  - edestruct (repaired_defaults acc principal now) as (users & Hr). unfold M_bind. cbn [mret M_ret]. rewrite Hr.
    intros [= <- <-]. exists inv. split_and!; [done..|exact Hc| |by rewrite Ep].
    exists m. split; [apply lookup_insert_eq|done].
Qed.

(** C22. An invitation admits the person it is for, once.  A request to accept
    succeeds only for a signed-in user the invitation names, by principal or by
    the user's own address, in the same tenant, while the invitation is pending
    and not expired; then the memberships are active, and no later request to
    accept it succeeds. *)
Theorem invitation_accepted_once drawn mu pu ru tu headers token now (s : State) response s' :
  accept_auth_invitation drawn mu pu ru tu headers token now s = (Ok response, s') →
  rows_keyed s →
  ∃ session invitation,
    verify_mutating_auth_session_from_headers headers now s = Ok session
    ∧ invitation_by_raw_token token s = Ok invitation
    ∧ invited session invitation s
    ∧ OrganizationInvitationRecord.status invitation = InvitationStatus.Pending
    ∧ (now < OrganizationInvitationRecord.expires_at invitation)%Z
    ∧ (∃ m, Directory.organization_memberships s'
          !! (AuthSessionRecord.principal_id session,
              OrganizationInvitationRecord.organization_id invitation) = Some m
        ∧ OrganizationMembershipRecord.status m = MembershipStatus.Active)
    ∧ (∀ project, OrganizationInvitationRecord.project_id invitation = Some project →
        ∃ m, Directory.project_memberships s' !! (AuthSessionRecord.principal_id session, project)
             = Some m ∧ ProjectMembershipRecord.status m = MembershipStatus.Active)
    ∧ ∀ requests drawn' mu' pu' ru' tu' headers' token' later again,
        Forall (leaves_invitation (OrganizationInvitationRecord.invitation_id invitation)) requests →
        invitation_by_raw_token token' (serve_all requests s') = Ok again →
        OrganizationInvitationRecord.invitation_id again
          = OrganizationInvitationRecord.invitation_id invitation →
        is_ok (accept_auth_invitation drawn' mu' pu' ru' tu' headers' token' later
                 (serve_all requests s')).1 = false.
Proof.
  intros Ha Hk. destruct (accept_run Ha)
    as (session & inv & accepted & s1 & s2 & updated & Hv & Ht & Hm & Hacc & Hctx & g & ->).
  destruct (accept_effect _ _ _ _ _ _ _ _ Hacc) as (row & Hrow & Hp & He & -> & Hcl & Hom & Hpm).
  rewrite (token_row _ _ _ Hk Ht) in Hrow. injection Hrow as <-.
  assert (Directory.organization_memberships s2 = Directory.organization_memberships s1
    ∧ Directory.project_memberships s2 = Directory.project_memberships s1
    ∧ Directory.organization_invitations s2 = Directory.organization_invitations s1) as (E1 & E2 & E3).
  { revert Hctx. unfold update_context, on_auth, update_session_active_context_by_hash.
    destruct (AuthStore.auth_sessions _ !! _); [|done]. destruct (negb _); [done|]. by intros [= _ <-]. }
  exists session, inv. split_and!; [done|done|by apply matches_invited|done|done| | |].
  - change (Directory.organization_memberships (Directory.set_store s2 g))
      with (Directory.organization_memberships s2). by rewrite E1.
  - change (Directory.project_memberships (Directory.set_store s2 g))
      with (Directory.project_memberships s2). by rewrite E2.
  - intros requests drawn' mu' pu' ru' tu' headers' token' later again Hr Hag Hid.
    destruct (accept_auth_invitation drawn' _ _ _ _ _ _ _ _) as [[r|] sx] eqn:Ex; [|done]. exfalso.
    destruct (accept_run Ex) as (session' & inv' & acc' & t1 & t2 & up' & _ & Ht' & _ & Hacc' & _ & _).
    rewrite Hag in Ht'. injection Ht' as <-. rewrite Hid in Hacc'.
    destruct (accept_effect _ _ _ _ _ _ _ _ Hacc') as (row & Hrow & Hp' & _).
    destruct (closed_serve_all _ requests (Directory.set_store s2 g) Hr) as (x & Hx & Hnp).
    { unfold invitation_closed. cbn [Directory.organization_invitations Directory.set_store]. by rewrite E3. }
    congruence.
Qed.

(** ** The context of a session *)

Definition member_of_organization (session : AuthSessionRecord.t) (o : string) s : Prop :=
  (∃ organization, Directory.organizations s !! o = Some organization
     ∧ OrganizationRecord.tenant_id organization = AuthSessionRecord.tenant_id session
     ∧ DirectoryStatus.accepts_access (OrganizationRecord.status organization) = true)
  ∧ (∃ k m, Directory.organization_memberships s !! k = Some m
     ∧ organization_triple m
         = (AuthSessionRecord.tenant_id session, o, AuthSessionRecord.principal_id session)
     ∧ MembershipStatus.accepts_access (OrganizationMembershipRecord.status m) = true).

Definition member_of_project (session : AuthSessionRecord.t) (p o : string) s : Prop :=
  (∃ project, Directory.projects s !! p = Some project
     ∧ ProjectRecord.tenant_id project = AuthSessionRecord.tenant_id session
     ∧ ProjectRecord.organization_id project = o
     ∧ DirectoryStatus.accepts_access (ProjectRecord.status project) = true)
  ∧ (∃ m, Directory.project_memberships s !! (AuthSessionRecord.principal_id session, p) = Some m
     ∧ ProjectMembershipRecord.accepts_access m = true).

Lemma not_refused test error u : refuse_if test error = Ok u → test = false.
Proof. by destruct test. Qed.

Lemma organization_entitled session o s organization :
  active_organization_for_session session o s = Ok organization →
  Directory.organizations s !! o = Some organization ∧ member_of_organization session o s.
Proof.
  unfold active_organization_for_session. intros (x & [Hx Ht]%filtered_ok & Hr)%bind_ok.
  apply bind_ok in Hr as (u & Ha%not_refused & Hr). apply bind_ok in Hr as (u' & Hm%not_refused & [= <-]).
  btrue. split; [done|]. split; [by exists x|].
  match goal with E : existsb _ _ = true |- _ => apply existsb_iff in E as (m & Hin & Hp) end.
  btrue. unfold organization_memberships_for_principal in Hin.
  apply sort_by_elem, filter_iff in Hin as [Hin Hpr]. btrue. unfold rows in Hin.
  apply list_elem_of_fmap in Hin as ([k y] & -> & Hy). apply elem_of_map_to_list in Hy.
  exists k, y. unfold organization_triple. simpl in *. split_and!; [done|congruence|done].
Qed.

Lemma project_entitled session p required s project :
  active_project_for_session session p required s = Ok project →
  Directory.projects s !! p = Some project
  ∧ member_of_project session p (ProjectRecord.organization_id project) s
  ∧ member_of_organization session (ProjectRecord.organization_id project) s
  ∧ match required with Some o => ProjectRecord.organization_id project = o | None => True end.
Proof.
  unfold active_project_for_session. intros (x & [Hx Ht]%filtered_ok & Hr)%bind_ok.
  apply bind_ok in Hr as (u1 & Hq%not_refused & Hr). apply bind_ok in Hr as (u2 & Ha%not_refused & Hr).
  apply bind_ok in Hr as (organization & Ho & Hr). apply bind_ok in Hr as (m & Hm & Hr).
  apply bind_ok in Hr as (u3 & Hacc%not_refused & [= <-]). btrue.
  apply organization_entitled in Ho as [_ Ho]. split_and!; [done| |done|].
  - split; [by exists x|]. unfold project_membership in Hm. exists m.
    destruct (AuthStore.project_memberships (Directory.auth s) !! _) as [y|] eqn:E; [|done].
    injection Hm as ->. done.
  - destruct required as [o|]; [|done]. simpl in Hq. btrue. done.
Qed.

(** Organizations and projects under their own ids. *)
Definition scopes_keyed s : Prop :=
  keyed_by OrganizationRecord.organization_id (Directory.organizations s)
  ∧ keyed_by ProjectRecord.project_id (Directory.projects s).

(** The project chosen for an organization, if any, is one the user may act in. *)
Lemma selected_entitled session o requested s m :
  rows_keyed s → scopes_keyed s →
  select_session_project_for_organization session o requested s = Ok (Some m) →
  member_of_project session (ProjectMembershipRecord.project_id m) o s.
Proof.
  intros Hk [_ Hpk]. unfold select_session_project_for_organization. cbv zeta.
  assert (∀ id, is_ok (active_project_for_session session id (Some o) s) = true →
    project_membership (AuthSessionRecord.principal_id session) id (Directory.auth s) = Some m →
    member_of_project session (ProjectMembershipRecord.project_id m) o s) as Hgo.
  { intros id Hok Hm. destruct (active_project_for_session session id (Some o) s) as [project|] eqn:E; [|done].
    apply project_entitled in E as (_ & Hp & _ & <-).
    apply (keyed_project_members _ Hk) in Hm. unfold project_member_key in Hm. by injection Hm as _ ->. }
  destruct requested as [p|].
  - intros (p' & _ & (project & Hp & [= Hm])%bind_ok)%bind_ok. apply (Hgo p'); [by rewrite Hp|].
    apply project_entitled in Hp as (Hp & _). by rewrite (Hpk _ _ Hp) in Hm.
  - destruct (List.find _ _) as [id|] eqn:E; [|done]. apply find_Some_in in E as [_ E].
    intros [= Hm]. by apply (Hgo id).
Qed.

(** The three ways a user changes the context of its session. *)
Inductive ContextChange : Type :=
| ToDefaultOrganization (request : SessionOrganizationRequest.t)
| ToOrganization (request : SessionOrganizationRequest.t)
| ToProject (project_id : string).
Definition change_context (c : ContextChange) (headers : HeaderMap) now : Eff V :=
  match c with
  | ToDefaultOrganization request => update_session_default_organization headers request now
  | ToOrganization request => update_session_active_organization headers request now
  | ToProject project_id => update_session_active_project headers project_id now
  end.

(** The session under its hash, after its context was set. *)
Lemma context_set session o p now s r s' :
  update_context (V:=V) session o p now s = (Ok r, s') →
  Directory.auth_sessions s' !! AuthSessionRecord.session_hash session = Some r
  ∧ AuthSessionRecord.active_organization_id r = o ∧ AuthSessionRecord.active_project_id r = p.
Proof.
  unfold update_context, on_auth, update_session_active_context_by_hash.
  destruct (AuthStore.auth_sessions _ !! _) as [x|]; [|done]. destruct (negb _); [done|].
  intros [= <- <-]. split_and!; [|done..]. apply lookup_insert_eq.
Qed.

(** What a successful change read and wrote. *)
Lemma change_run c headers now s response s' :
  change_context c headers now s = (Ok response, s') → rows_keyed s → scopes_keyed s →
  ∃ session o p r, verify_mutating_auth_session_from_headers headers now s = Ok session
    ∧ member_of_organization session o s
    ∧ (∀ id, p = Some id → member_of_project session id o s)
    ∧ Directory.auth_sessions s' !! AuthSessionRecord.session_hash session = Some r
    ∧ AuthSessionRecord.active_organization_id r = Some o ∧ AuthSessionRecord.active_project_id r = p.
Proof.
  intros Hc Hk Hsk. revert Hc. unfold change_context.
  assert (∀ session o organization requested chosen,
    active_organization_for_session session o s = Ok organization →
    select_session_project_for_organization session o requested s = Ok chosen →
    OrganizationRecord.organization_id organization = o ∧ member_of_organization session o s
    ∧ ∀ id, ProjectMembershipRecord.project_id <$> chosen = Some id → member_of_project session id o s)
    as Hsel.
  { intros session o organization requested chosen [Ho Hm]%organization_entitled Hch.
    split_and!; [by apply Hsk|done|]. intros id (m & -> & ->)%fmap_Some. by eapply selected_entitled. }
  destruct c as [request|request|project_id]; intros Hr;
    apply bind_run in Hr as (session & s0 & [Hv ->]%reading_run & Hr);
    apply bind_run in Hr as (o & s0 & [_ ->]%lift_run & Hr).
  - apply bind_run in Hr as (organization & s0 & [Eo ->]%reading_run & Hr).
    apply bind_run in Hr as (chosen & s0 & [Ec ->]%reading_run & Hr). cbv zeta in Hr.
    apply bind_run in Hr as (user & s1 & _ & Hr). apply bind_run in Hr as (r & s2 & Eu & [= _ <-]).
    destruct (Hsel _ _ _ _ _ Eo Ec) as (Hid & Hmo & Hmp).
    apply context_set in Eu as (? & Hor & ?). rewrite Hid in Hor. by eexists session, o, _, r.
  - apply bind_run in Hr as (organization & s0 & [Eo ->]%reading_run & Hr).
    apply bind_run in Hr as (chosen & s0 & [Ec ->]%reading_run & Hr).
    apply bind_run in Hr as (r & s2 & Eu & [= _ <-]).
    destruct (Hsel _ _ _ _ _ Eo Ec) as (Hid & Hmo & Hmp).
    apply context_set in Eu as (? & Hor & ?). rewrite Hid in Hor. by eexists session, o, _, r.
  - apply bind_run in Hr as (project & s0 & [Ep ->]%reading_run & Hr).
    apply bind_run in Hr as (r & s2 & Eu & [= _ <-]).
    apply project_entitled in Ep as (Hp & Hmp & Hmo & _). rewrite (proj2 Hsk _ _ Hp) in Eu.
    apply context_set in Eu as (? & Hor & ?).
    eexists session, _, _, r. split_and!; [done..| |done|done|done]. by intros id [= <-].
Qed.

(** The token of the session, in the header of a request that changes something. *)
Lemma mutating_session headers now s session :
  verify_mutating_auth_session_from_headers headers now s = Ok session →
  header_str headers CSRF_TOKEN_HEADER = Some (auth_session_csrf_token session)
  ∧ ∃ token user, bearer_token headers = Ok token
      ∧ verify_session_token token now (Directory.auth s) = Ok session
      ∧ Directory.users s !! AuthSessionRecord.principal_id session = Some user
      ∧ DirectoryStatus.accepts_access (UserRecord.status user) = true.
Proof.
  intros (x & Hx & (u & Hc & [= ->])%bind_ok)%bind_ok. split.
  - apply bind_ok in Hc as (presented & Hp & Hr%not_refused). btrue.
    destruct (header_str headers CSRF_TOKEN_HEADER) as [h|]; [|done]. injection Hp as ->. f_equal.
    unfold constant_time_bytes_eq in Hr. by apply Z.eqb_eq, folded_strings_eq in Hr.
  - apply bind_ok in Hx as (token & Ht & Hx). apply bind_ok in Hx as (u1 & _ & Hx).
    apply bind_ok in Hx as (y & Hy & Hx). apply bind_ok in Hx as (user & Hu & Hx).
    apply bind_ok in Hx as (u2 & Hact%not_refused & [= ->]). btrue. exists token, user.
    destruct (Directory.users s !! _); [|done]. injection Hu as ->. done.
Qed.

(** C26. A session acts only where its user is a member.  A change of context
    succeeds only with the live session of an active user and that session's own
    CSRF token; it then leaves the session in an active organization in which
    the user has an active membership, and in no project or in an active project
    of that organization of which the user is an active member. *)
Theorem session_context_entitled c headers now (s : State) response s' :
  change_context c headers now s = (Ok response, s') → rows_keyed s → scopes_keyed s →
  ∃ token session o p r,
    bearer_token headers = Ok token
    ∧ verify_session_token token now (Directory.auth s) = Ok session
    ∧ (∃ user, Directory.users s !! AuthSessionRecord.principal_id session = Some user
        ∧ DirectoryStatus.accepts_access (UserRecord.status user) = true)
    ∧ header_str headers CSRF_TOKEN_HEADER = Some (auth_session_csrf_token session)
    ∧ member_of_organization session o s
    ∧ (∀ id, p = Some id → member_of_project session id o s)
    ∧ Directory.auth_sessions s' !! AuthSessionRecord.session_hash session = Some r
    ∧ AuthSessionRecord.active_organization_id r = Some o
    ∧ AuthSessionRecord.active_project_id r = p.
Proof.
  intros Hc Hk Hsk. destruct (change_run _ _ _ _ _ _ Hc Hk Hsk) as (session & o & p & r & Hv & Hrest).
  apply mutating_session in Hv as (Hh & token & user & Hb & Ht & Hu & Ha).
  exists token, session, o, p, r. destruct Hrest as (Ho & Hp & Hl & Hr1 & Hr2).
  split_and!; [done|done|by exists user|done..].
Qed.

(** ** What a change of status does not reach *)

(** The requests that change the status of a record credentials depend on. *)
Definition changes_status (request : DirectoryRequest) : bool :=
  match request with
  | UpdateOrganization _ _ _ _ _ | UpdateProject _ _ _ _ _ | UpdateServiceAccount _ _ _ _ _
  | UpdateUser _ _ _ _ _ => true
  | _ => false
  end.

(** Only sessions have changed. *)
Definition only_sessions (a : AuthStore.t) s : Prop :=
  ∃ sessions, Directory.auth s = AuthStore.with_sessions sessions a.

Lemma only_sessions_revoked a actor user now :
  keeps (only_sessions a) (revoke_if_inactive (V:=V) actor user now).
Proof.
  intros s [m Hm]. unfold revoke_if_inactive, on_auth. destruct (DirectoryStatus.accepts_access _); [by exists m|].
  unfold revoke_sessions_for_principal. eexists. cbn. rewrite Hm. reflexivity.
Qed.

Lemma sessions_spare_keys presented request_id trace_id now m a :
  (verify_api_key presented request_id trace_id now (AuthStore.with_sessions m a)).1
    = (verify_api_key presented request_id trace_id now a).1.
Proof.
  unfold verify_api_key, api_key_failed_auth_allowed, failed_api_key_auth_count. cbv zeta.
  destruct (key_prefix presented) as [prefix|]; [|done]. destruct a. simpl. destruct (negb _); [done|].
  unfold candidates_by_prefix. simpl. by destruct (verify_candidates _ _ _ _) as [[]|].
Qed.

(** Disabling or deleting an organization, a project, a service account or a
    user reaches no API key: every key authenticates afterwards exactly as it
    did before, including those of the record that was switched off. *)
Theorem status_change_spares_api_keys request (s : State) presented request_id trace_id now :
  changes_status request = true →
  (verify_api_key presented request_id trace_id now (Directory.auth (serve request s))).1
    = (verify_api_key presented request_id trace_id now (Directory.auth s)).1.
Proof.
  intros Hr. assert (only_sessions (Directory.auth s) (serve request s)) as [m ->];
    [|apply sessions_spare_keys].
  assert (only_sessions (Directory.auth s) s) as Hs.
  { exists (AuthStore.auth_sessions (Directory.auth s)). by destruct (Directory.auth s). }
  assert (∀ st g, only_sessions (Directory.auth s) st → only_sessions (Directory.auth s) (Directory.set_store st g))
    as free by (by intros st g [m Hm]; exists m).
  destruct request; try done; clear Hr; cbn [serve]; as_keeps; handlers; keep free; try solve [quiet_leaf].
  apply only_sessions_revoked.
Qed.
End properties.

(** ** Witnesses *)

Module DirectorySample.
#[local] Open Scope Z_scope.

#[export] Instance text : JsonText Tree.t := tree_text.
#[export] Instance sha : Sha256Library :=
  λ text, Z.of_nat (String.length text) mod 256 :: repeat 7 31.
#[export] Instance chrono : ChronoDisplay := λ _, "1970-01-01".
#[export] Instance cedar : CedarParser := {
  Schema := unit; PolicySet := string;
  schema_from_str _ := Ok tt;
  policy_set_from_str source := if source ==? "" then Err "empty" else Ok source;
  validate_strict _ _ := ([], 0%nat);
  evaluator _ _ := CedarLibrary.mk string unit unit Some (λ _ _, true) (λ _ _ _, Some tt)
    (λ _, Some tt) (λ _ _, (false, true));
}.

(** One organization with one project; one user, a member of both, with a
    session and an API key; an invitation for that user. *)
Definition grants : list ActionGrant.t := [
  tenant_grant GatewayAction.ApiKeyCreate "ApiKey"; tenant_grant GatewayAction.ApiKeyDisable "ApiKey";
  tenant_grant GatewayAction.UserDisable "UserPrincipal";
  tenant_grant GatewayAction.OrganizationMemberWrite "OrganizationMember";
  tenant_grant GatewayAction.ProjectMemberWrite "ProjectMember";
  tenant_grant GatewayAction.OrganizationWrite "Organization"].
Definition organization : OrganizationRecord.t :=
  OrganizationRecord.mk "org_1" "ten_t" "Org" DirectoryStatus.Active 1 1 0 0.
Definition project : ProjectRecord.t :=
  ProjectRecord.mk "prj_1" "ten_t" "org_1" "Project" DirectoryStatus.Active 1 1 0 0.
Definition store : GatewayStore.t Tree.t :=
  GatewayStore.mk (DraftCatalog.mk {["org_1" := organization]} {["prj_1" := project]} ∅ ∅ ∅ ∅ ∅ ∅ ∅ ∅ ∅ ∅)
    ConfigStore.empty ∅ grants [] [] [] ∅ ∅ HotStore.empty.
Definition key : ApiKeyRecord.t :=
  ApiKeyRecord.mk "ak_1" "ten_t" None (Some "prj_1") "usr_1" "ci" "swg_abababababab"
    ("h:" +:+ generate_raw_key AuthSample.bytes) 1 ApiKeyStatus.Active [] [] None None None "usr_1" 5 5.
Definition session : AuthSessionRecord.t :=
  AuthSessionRecord.mk "sess_1" "ten_t" "usr_1" (Some "org_1") (Some "prj_1") "sha256:sws_1"
    AuthSessionStatus.Active 9999 0 0.
Definition project_member : ProjectMembershipRecord.t :=
  ProjectMembershipRecord.mk "pm_1" "ten_t" "org_1" "prj_1" "usr_1" (Some "om_1")
    MembershipStatus.Active 1.
Definition member : OrganizationMembershipRecord.t :=
  OrganizationMembershipRecord.mk "om_1" "ten_t" "org_1" "usr_1" MembershipStatus.Active 1.
Definition user : UserRecord.t :=
  UserRecord.mk "usr_1" "ten_t" (Some "org_1") (Some "prj_1") (Some "one@example.com") "One"
    DirectoryStatus.Active 1 1 0 0.
Definition invitation : OrganizationInvitationRecord.t :=
  OrganizationInvitationRecord.mk "inv_1" "ten_t" "org_1" (Some "prj_1") (Some "one@example.com") None
    (invitation_token_hash "gwinv_1") "organization_member" InvitationStatus.Pending 9999 None "usr_a" 1
    0 0.

Definition directory : Directory.t Tree.t :=
  Directory.mk store
    (AuthStore.mk {["swg_abababababab" := [key]]} ∅ [] {["sha256:sws_1" := session]}
       {[("usr_1", "prj_1") := project_member]})
    {["ten_t" := TenantRecord.mk "ten_t" "Tenant" DirectoryStatus.Active 1 1 0 0]}
    {["usr_1" := user]} ∅ {[("usr_1", "org_1") := member]} ∅ {["inv_1" := invitation]}.

(** The headers of the API key and of the session, with its CSRF token. *)
Definition key_headers : HeaderMap := λ name,
  if name ==? "authorization" then Some ("Bearer " +:+ generate_raw_key AuthSample.bytes) else None.
Definition session_headers : HeaderMap := λ name,
  if name ==? "authorization" then Some "Bearer sws_1"
  else if name ==? CSRF_TOKEN_HEADER then Some (auth_session_csrf_token session) else None.

Definition disable : AdminDisableApiKeyRequest.t := AdminDisableApiKeyRequest.mk "key-1" None.
Definition suspend : AdminUpdateMembershipRequest.t :=
  AdminUpdateMembershipRequest.mk 1 MembershipStatus.Suspended None.
End DirectorySample.
Import (hints) DirectorySample.

Lemma keyed_singleton {K R} `{Countable K} (key : R → K) k r : key r = k → keyed_by key {[k := r]}.
Proof. intros Hr k' r' [<- <-]%lookup_singleton_Some. done. Qed.
Lemma keyed_empty {K R} `{Countable K} (key : R → K) : keyed_by key ∅.
Proof. by intros k r Hr. Qed.

Lemma sample_keyed : rows_keyed DirectorySample.directory.
Proof.
  constructor; try by (apply keyed_singleton || apply keyed_empty).
  constructor; unfold keys_of; cbn [DirectorySample.directory Directory.auth AuthStore.api_keys].
  - intros prefix records r [<- <-]%lookup_singleton_Some ->%list_elem_of_singleton. done.
  - intros prefix records [<- <-]%lookup_singleton_Some. apply NoDup_singleton.
  - intros p l r p' l' r' [<- <-]%lookup_singleton_Some _ [<- <-]%lookup_singleton_Some _ _. done.
Qed.

(** A run that succeeded, with its answer. *)
Lemma answered {A} (r : result GatewayError.t A * Directory.t Tree.t) :
  is_ok r.1 = true → ∃ a, r = (Ok a, r.2).
Proof. destruct r as [[a|e] s]; [by exists a|done]. Qed.
Lemma succeeded {A} (r : result GatewayError.t A) : is_ok r = true → ∃ a, r = Ok a.
Proof. destruct r as [a|e]; [by exists a|done]. Qed.

Lemma disabled_key_stays_out_witness :
  let run := disable_api_key_admin (draws "1") admin "ak_1" DirectorySample.disable 50
               DirectorySample.directory in
  is_ok run.1 = true
  ∧ ∃ caller,
      (present "r" "t" DirectorySample.session_headers 60
         (serve_all [CurrentSession DirectorySample.session_headers 55] run.2)).1 = Ok caller
      ∧ AuthenticatedActor.api_key_id caller ≠ Some "ak_1".
Proof.
  intros run. destruct (answered run) as [response Hr]; [vm_compute; reflexivity|]. split; [rewrite Hr; reflexivity|].
  destruct (succeeded (present "r" "t" DirectorySample.session_headers 60
    (serve_all [CurrentSession DirectorySample.session_headers 55] run.2)).1) as [caller Hc];
    [vm_compute; reflexivity|].
  exists caller. split; [exact Hc|].
  eapply (disabled_key_stays_out (draws "1") admin "ak_1" DirectorySample.disable 50
            DirectorySample.directory response run.2 _ _ _ _ _ caller Hr); [| |exact Hc].
  - vm_compute. reflexivity.
  - by repeat constructor.
Defined.

Lemma suspended_member_loses_projects_witness :
  let run := update_organization_member (draws "1") admin "org_1" "om_1" DirectorySample.suspend 50
               DirectorySample.directory in
  is_ok run.1 = true
  ∧ ∃ k m, Directory.organization_memberships DirectorySample.directory !! k = Some m
      ∧ OrganizationMembershipRecord.organization_member_id m = "om_1".
Proof.
  intros run. destruct (answered run) as [response Hr]; [vm_compute; reflexivity|]. split; [rewrite Hr; reflexivity|].
  destruct (suspended_member_loses_projects (draws "1") admin "org_1" "om_1" DirectorySample.suspend 50
    DirectorySample.directory response run.2 Hr) as (k & m & Hm & Hid & _);
    [intros E; discriminate E|exact sample_keyed|].
  exists k, m. exact (conj Hm Hid).
Defined.

Lemma created_key_shown_once_witness :
  let request := AdminCreateApiKeyRequest.mk "key-1" None (Some "prj_1") (Some "usr_1") "ci" None [] [] in
  let run := create_api_key_admin (draws "2") "salt" (replicate 32 5%Z) admin request 50
               DirectorySample.directory in
  is_ok run.1 = true
  ∧ ∃ record raw_key, (verify_api_key raw_key "r" "t" 60 (Directory.auth run.2)).1
      = Ok (AuthenticatedActor.for_api_key record "r" "t").
Proof.
  intros request run. destruct (answered run) as [response Hr]; [vm_compute; reflexivity|].
  split; [rewrite Hr; reflexivity|].
  destruct (created_key_shown_once (draws "2") "salt" (replicate 32 5%Z) admin request 50
    DirectorySample.directory response run.2 Hr) as (record & raw & _ & Hc & _ & Hv & _);
    [vm_compute; reflexivity|].
  exists record, raw. apply Hv; [| |exact I].
  - injection Hc as <- _. vm_compute. reflexivity.
  - injection Hc as <- _. vm_compute. lia.
Defined.

Lemma invitation_accepted_once_witness :
  let run := accept_auth_invitation (draws "1") "m" "p" "r" "t" DirectorySample.session_headers "gwinv_1"
               50 DirectorySample.directory in
  is_ok run.1 = true
  ∧ ∃ session invitation, invited session invitation DirectorySample.directory
      ∧ OrganizationInvitationRecord.status invitation = InvitationStatus.Pending.
Proof.
  intros run. destruct (answered run) as [response Hr]; [vm_compute; reflexivity|]. split; [rewrite Hr; reflexivity|].
  destruct (invitation_accepted_once (draws "1") "m" "p" "r" "t" DirectorySample.session_headers "gwinv_1"
    50 DirectorySample.directory response run.2 Hr sample_keyed)
    as (session & invitation & _ & _ & Hi & Hp & _).
  exists session, invitation. exact (conj Hi Hp).
Defined.

Lemma disabled_user_signed_out_witness :
  let request := AdminUpdateUserRequest.mk 1 DirectoryStatus.Disabled None in
  let run := update_user (draws "1") admin "usr_1" request 50
    (Directory.set_auth_sessions DirectorySample.directory
       (<["sha256:sws_2" := AuthSessionRecord.mk "sess_2" "ten_t" "usr_2" None None "sha256:sws_2"
            AuthSessionStatus.Active 9999 0 0]> (Directory.auth_sessions DirectorySample.directory))) in
  is_ok run.1 = true
  ∧ ∃ session, verify_session_token "sws_2" 60 (Directory.auth (serve_all [] run.2)) = Ok session
      ∧ (AuthSessionRecord.tenant_id session, AuthSessionRecord.principal_id session)
          ≠ ("ten_t", "usr_1").
Proof.
  intros request run. destruct (answered run) as [response Hr]; [vm_compute; reflexivity|].
  split; [rewrite Hr; reflexivity|].
  destruct (succeeded (verify_session_token "sws_2" 60 (Directory.auth (serve_all [] run.2))))
    as [session Hs]; [vm_compute; reflexivity|].
  exists session. split; [exact Hs|].
  eapply (disabled_user_signed_out (draws "1") admin "usr_1" request 50 _ response run.2 [] "sws_2" 60
            session Hr); [reflexivity| |exact Hs].
  destruct sample_keyed as [K1 K2 K3 K4 K5 K6 K7 K8].
  constructor; [exact K1|exact K2|exact K3|exact K4|exact K5|exact K6| |exact K8].
  by apply keyed_insert.
Defined.

Lemma session_context_entitled_witness :
  let run := change_context (ToProject "prj_1") DirectorySample.session_headers 60
               DirectorySample.directory in
  is_ok run.1 = true
  ∧ ∃ session o, member_of_organization session o DirectorySample.directory.
Proof.
  intros run. destruct (answered run) as [response Hr]; [vm_compute; reflexivity|]. split; [rewrite Hr; reflexivity|].
  destruct (session_context_entitled (ToProject "prj_1") DirectorySample.session_headers 60
    DirectorySample.directory response run.2 Hr sample_keyed)
    as (token & session & o & p & r & _ & _ & _ & _ & Ho & _).
  - split; by apply keyed_singleton.
  - exists session, o. exact Ho.
Defined.

(** ** A suspended member, put back through a project

    The update of a project membership does not look at the organization: after
    a member was suspended, setting its project membership active lets its
    session act in the organization again. *)
Theorem project_update_ignores_suspension :
  let s := serve_all
    [UpdateOrganizationMember (draws "1") admin "org_1" "om_1" DirectorySample.suspend 50;
     UpdateProjectMember (draws "2") admin "prj_1" "pm_1"
       (AdminUpdateMembershipRequest.mk 2 MembershipStatus.Active None) 55]
    DirectorySample.directory in
  (OrganizationMembershipRecord.status <$> Directory.organization_memberships s !! ("usr_1", "org_1"))
    = Some MembershipStatus.Suspended
  ∧ match (present "r" "t" DirectorySample.session_headers 60 s).1 with
    | Ok caller => AuthenticatedActor.principal_id caller = Some "usr_1"
        ∧ AuthenticatedActor.organization_id caller = Some "org_1"
    | Err _ => False
    end.
Proof. vm_compute. repeat split. Qed.

(** The API key of a user that was switched off still authenticates. *)
Theorem disabled_owner_key_works :
  let s := serve (UpdateUser (draws "1") admin "usr_1"
             (AdminUpdateUserRequest.mk 1 DirectoryStatus.Disabled None) 50) DirectorySample.directory in
  (UserRecord.status <$> Directory.users s !! "usr_1") = Some DirectoryStatus.Disabled
  ∧ match (present "r" "t" DirectorySample.key_headers 60 s).1 with
    | Ok caller => AuthenticatedActor.principal_id caller = Some "usr_1"
    | Err _ => False
    end.
Proof. vm_compute. repeat split. Qed.
