(* ===== verification/GwLogin.v ===== *)
(** * Signing in to the gateway

    The login providers of a tenant, the one-time attempts of an external login,
    the callback that verifies an ID token and opens a session, and the password
    of the single configured user: [service.rs], with the tables of [storage.rs].
    HTTP, JSON decoding and [jsonwebtoken] are parameters; random bytes, ids and
    the clock are arguments. *)

From Stdlib Require Import Ascii.
From S2P Require Import Prelude Order Text Domain Action HotState Routing Catalog Json Pricing.
From S2P Require Import RuntimePolicy Reconciler Delivery Auth CedarPolicy Publication GwRoute.
From S2P Require Import AdminRecords DraftCatalog AdminState AdminValidation AdminHandlers.
From S2P Require Import Provider GwRequest Directory DirectoryHandlers.

(** ** Records *)

Module LoginProviderRecord.
Record t {V : Type} : Type := mk {
  login_provider_id : string;
  tenant_id : string;
  provider_kind : string;
  display_name : string;
  config_document : V;
  status : ResourceStatus.t;
  resource_version : Z;
  schema_version : Z;
  created_by : string;
  created_at : DateTime;
  updated_at : DateTime;
}.
Arguments t V : clear implicits.
Arguments mk {V}.
End LoginProviderRecord.

Module LoginAttemptRecord.
Record t : Set := mk {
  login_attempt_id : string;
  tenant_id : string;
  login_provider_id : string;
  provider_kind : string;
  state_hash : string;
  nonce_hash : option string;
  code_verifier_hash : string;
  code_challenge : string;
  redirect_uri : string;
  status : string;
  expires_at : DateTime;
  consumed_at : option DateTime;
  created_at : DateTime;
  updated_at : DateTime;
}.
Definition consumed (r : t) (now : DateTime) : t :=
  mk (login_attempt_id r) (tenant_id r) (login_provider_id r) (provider_kind r) (state_hash r)
    (nonce_hash r) (code_verifier_hash r) (code_challenge r) (redirect_uri r) "consumed"
    (expires_at r) (Some now) (created_at r) now.
End LoginAttemptRecord.

Module ConsumedLoginAttempt.
Record t : Set := mk { record : LoginAttemptRecord.t; code_verifier : string }.
End ConsumedLoginAttempt.

Module CreateLoginProviderRequest.
Record t {V : Type} : Type := mk {
  tenant_id : string;
  provider_kind : string;
  display_name : string;
  config_document : V;
  created_by : string;
}.
Arguments t V : clear implicits.
Arguments mk {V}.
End CreateLoginProviderRequest.

Module CreateLoginAttemptRequest.
Record t : Set := mk {
  tenant_id : string;
  login_provider_id : string;
  provider_kind : string;
  state_hash : string;
  nonce_hash : option string;
  code_verifier_hash : string;
  code_verifier : string;
  code_challenge : string;
  redirect_uri : string;
  expires_at : DateTime;
}.
End CreateLoginAttemptRequest.

Module UpsertExternalLoginIdentityRequest.
Record t : Set := mk {
  tenant_id : string;
  login_provider_id : string;
  provider_kind : string;
  provider_subject : string;
  email : option string;
  email_verified : bool;
  display_name : string;
}.
End UpsertExternalLoginIdentityRequest.

Module BootstrapDefaultProjectRequest.
Record t : Set := mk {
  tenant_id : string;
  tenant_display_name : string;
  organization_id : string;
  organization_display_name : string;
  project_id : string;
  project_display_name : string;
  user_id : string;
  user_display_name : string;
  user_primary_email : option string;
  organization_member_id : string;
  project_member_id : string;
  created_by : string;
}.
End BootstrapDefaultProjectRequest.

Module TenancySeed.
Record t : Set := mk {
  tenant : TenantRecord.t;
  organization : OrganizationRecord.t;
  project : ProjectRecord.t;
  user : UserRecord.t;
  organization_membership : OrganizationMembershipRecord.t;
  project_membership : ProjectMembershipRecord.t;
}.
End TenancySeed.

Module SingleUserAuthConfig.
Record t : Set := mk {
  username : string;
  password : string;
  tenant_id : string;
  tenant_display_name : string;
  organization_id : string;
  organization_display_name : string;
  project_id : string;
  project_display_name : string;
  user_id : string;
  user_display_name : string;
  user_primary_email : option string;
  session_ttl_seconds : Z;
}.
End SingleUserAuthConfig.

(** What signing in reads of [GatewayConfig]. *)
Module LoginConfig.
Record t : Set := mk {
  environment : string;
  single_user_auth : option SingleUserAuthConfig.t;
}.
End LoginConfig.

(** ** Requests and claims *)

Module AdminCreateLoginProviderRequest.
Record t {V : Type} : Type := mk {
  idempotency_key : string;
  provider_kind : string;
  display_name : string;
  config_document : V;
}.
Arguments t V : clear implicits.
Arguments mk {V}.
End AdminCreateLoginProviderRequest.

Module AdminUpdateLoginProviderRequest.
Record t : Set := mk { expected_version : Z; status : ResourceStatus.t; reason : option string }.
End AdminUpdateLoginProviderRequest.

Module SingleUserLoginRequest.
Record t : Set := mk { username : string; password : string }.
End SingleUserLoginRequest.

Module ExternalLoginVerifiedClaims.
Record t : Set := mk {
  subject : string;
  email : option string;
  email_verified : bool;
  display_name : option string;
  nonce : option string;
  issuer : option string;
  audience : option string;
  expires_at : option DateTime;
}.
End ExternalLoginVerifiedClaims.

Module ExternalLoginCallbackRequest.
Record t : Set := mk {
  state : string;
  code : string;
  verified_claims : option ExternalLoginVerifiedClaims.t;
}.
End ExternalLoginCallbackRequest.

Module OidcDiscoveryDocument.
Record t : Set := mk {
  issuer : string;
  authorization_endpoint : string;
  token_endpoint : string;
  jwks_uri : string;
  id_token_signing_alg_values_supported : list string;
}.
End OidcDiscoveryDocument.

(** The algorithms of [jsonwebtoken]. *)
Module Algorithm.
Inductive t : Set :=
  | HS256 | HS384 | HS512 | ES256 | ES384 | RS256 | RS384 | RS512 | PS256 | PS384 | PS512 | EdDSA.
#[global] Instance eq_dec : EqDecision t.
Proof. solve_decision. Defined.
End Algorithm.

Module OidcProviderMetadata.
Record t : Set := mk {
  issuer : string;
  authorization_endpoint : string;
  token_endpoint : string;
  jwks_uri : string;
  supported_algs : list Algorithm.t;
}.
End OidcProviderMetadata.

Module OidcAudience.
Inductive t : Set := Single (audience : string) | Multiple (audiences : list string).
Definition contains (self : t) (value : string) : bool :=
  match self with
  | Single audience => audience ==? value
  | Multiple audiences => existsb (λ audience, audience ==? value) audiences
  end.
End OidcAudience.

Module OidcIdTokenClaims.
Record t : Set := mk {
  iss : string;
  sub : string;
  aud : OidcAudience.t;
  exp : Z;
  nonce : option string;
  email : option string;
  email_verified : bool;
  name : option string;
  preferred_username : option string;
}.
End OidcIdTokenClaims.

(** The request for a token: address, form and basic credentials. *)
Module TokenRequest.
Record t : Set := mk {
  url : string;
  form : list (string * string);
  basic_auth : option (string * string);
}.
End TokenRequest.

Module HttpResponse.
Record t : Set := mk { is_success : bool; text : option string }.
End HttpResponse.

(** What signing in uses of [reqwest], [serde_json], [jsonwebtoken] and chrono:
    a request answered or not, the decoding of three kinds of bodies, the public
    parameters of a key, and the decoding of a token with a key, an algorithm, an
    issuer and an audience, which checks the signature and the time. *)
Class LoginLibrary : Type := {
  http_get : string → option HttpResponse.t;
  http_token : TokenRequest.t → option HttpResponse.t;
  Jwk : Type;
  discovery_from_str : string → option OidcDiscoveryDocument.t;
  jwks_from_str : string → option (list Jwk);
  id_token_from_str : string → option string;
  key_id : Jwk → option string;
  for_signatures : Jwk → option bool;
  key_algorithm : Jwk → option string;
  decode_header : string → option (Algorithm.t * option string);
  decode_token : Jwk → Algorithm.t → string → string → string → option OidcIdTokenClaims.t;
  from_timestamp : Z → option DateTime;
}.

(** [Value::as_object], the entries in order. *)
Class JsonObject (V : Type) : Type := as_object : V → option (list (string * V)).

(** ** The state *)

Module LoginState.
Record t {V : Type} : Type := mk {
  directory : Directory.t V;
  login_providers : gmap string (LoginProviderRecord.t V);
  login_attempts : gmap string LoginAttemptRecord.t;
  login_attempt_code_verifiers : gmap string string;
  secret_values : gmap string string;
  read_to_string : string → option string;
}.
Arguments t V : clear implicits.
Arguments mk {V}.

Section setters.
Context {V : Type} (s : t V).
Definition set_directory x : t V :=
  mk x (login_providers s) (login_attempts s) (login_attempt_code_verifiers s) (secret_values s)
    (read_to_string s).
Definition set_login_providers x : t V :=
  mk (directory s) x (login_attempts s) (login_attempt_code_verifiers s) (secret_values s)
    (read_to_string s).
Definition set_attempts x y : t V :=
  mk (directory s) (login_providers s) x y (secret_values s) (read_to_string s).
Definition secrets : SecretStore.t :=
  SecretStore.mk (DraftCatalog.secret_refs (Directory.draft (directory s))) (secret_values s)
    (read_to_string s).
End setters.
End LoginState.

(** ** The configuration of a provider *)

Definition NESTING_LIMIT : nat := 128.

Definition sensitive_key (key : string) : bool :=
  existsb (λ word, to_ascii_lowercase key ==? word)
    ["access_token"; "client_secret"; "client_secret_value"; "id_token"; "password"; "raw_secret";
     "refresh_token"].

Definition url_is_safe `{UriLibrary} (value : string) (allow_loopback_http : bool) : bool :=
  match parse_uri value with
  | Err _ => false
  | Ok uri =>
      if is_some (Uri.query uri) || existsb (λ w, contains w value) whitespace then false
      else
        match Uri.authority uri with
        | None => false
        | Some authority =>
            if contains "@" authority then false
            else
              match Uri.scheme_str uri with
              | Some scheme =>
                  (scheme ==? "https")
                  || ((scheme ==? "http") && allow_loopback_http && is_loopback_host (Uri.host uri))
              | None => false
              end
        end
  end.
Definition login_provider_url_is_safe_with_policy `{UriLibrary} := url_is_safe.
(** The check of the store, which allows loopback addresses always. *)
Definition login_provider_url_is_safe `{UriLibrary} (url : string) : bool := url_is_safe url true.

Section configuration.
Context {V : Type} `{JsonLibrary V} `{JsonObject V} `{UriLibrary}.

Definition login_config_string (config : V) (field : string) : option string :=
  json_get config field ≫= as_str.

(** Documents are nested at most [NESTING_LIMIT] deep, or they do not parse. *)
Fixpoint contains_sensitive (fuel : nat) (value : V) : bool :=
  match fuel with
  | O => false
  | S fuel' =>
      match as_object value with
      | Some entries => existsb (λ '(key, x), sensitive_key key || contains_sensitive fuel' x) entries
      | None =>
          match as_array value with
          | Some values => existsb (contains_sensitive fuel') values
          | None => false
          end
      end
  end.
Definition login_provider_config_contains_sensitive_material (value : V) : bool :=
  contains_sensitive NESTING_LIMIT value.

Definition scope_is_valid (scope : V) : bool :=
  is_some_and (as_str scope) (λ value, trim value !=? "").
Definition login_provider_scopes_are_valid (value : V) : bool :=
  is_some_and (as_array value) (forallb scope_is_valid).

Definition login_provider_url_is_safe_for_config (environment value : string) : bool :=
  login_provider_url_is_safe_with_policy value (allows_local_callback_adapter environment).

Definition endpoint_fields : list string :=
  ["authorization_url"; "token_url"; "jwks_url"; "discovery_url"; "user_api_url"; "emails_api_url"].

Definition local_claims (config : V) : bool :=
  login_config_string config "callback_mode" ==? Some "local_verified_claims".

Definition same_provider (kind name : string) (provider : LoginProviderRecord.t V) : bool :=
  (LoginProviderRecord.provider_kind provider ==? kind)
  && (LoginProviderRecord.display_name provider ==? trim name)
  && (LoginProviderRecord.status provider !=? ResourceStatus.Deleted).

(** *** What the service checks *)

Definition provider_config_errors (environment kind : string) (config : V) : list V :=
  let safe := login_provider_url_is_safe_for_config environment in
  push_if (local_claims config && negb (allows_local_callback_adapter environment))
    "config_document.callback_mode" "local_verified_claims_requires_local_or_test_profile"
  ++ push_if (negb (is_some_and (login_config_string config "client_id") (λ value,
                (trim value !=? "") && (String.length value <=? 256)%nat)))
       "config_document.client_id" "invalid_client_id"
  ++ push_if (negb (is_some_and (login_config_string config "client_secret_ref") valid_secret_ref_id))
       "config_document.client_secret_ref" "invalid_secret_ref"
  ++ push_if (negb (is_some_and (login_config_string config "redirect_uri") safe))
       "config_document.redirect_uri" "invalid_redirect_uri"
  ++ push_if ((kind ==? "oidc") && negb (is_some_and (login_config_string config "issuer") safe))
       "config_document.issuer" "invalid_issuer"
  ++ concat (map (λ field,
       push_if (is_some_and (login_config_string config field) (λ url, negb (safe url)))
         ("config_document." +:+ field) "invalid_url") endpoint_fields)
  ++ push_if (is_some_and (json_get config "scopes") (λ scopes,
                negb (login_provider_scopes_are_valid scopes)))
       "config_document.scopes" "invalid_scopes".

Definition login_provider_validation_errors (environment : string)
    (request : AdminCreateLoginProviderRequest.t V) (providers : list (LoginProviderRecord.t V))
    : list V :=
  let kind := AdminCreateLoginProviderRequest.provider_kind request in
  let name := AdminCreateLoginProviderRequest.display_name request in
  let config := AdminCreateLoginProviderRequest.config_document request in
  push_if (kind !=? "oidc") "provider_kind" "invalid_provider_kind"
  ++ push_if ((trim name ==? "") || (120 <? String.length name)%nat)
       "display_name" "invalid_display_name"
  ++ if negb (is_some (as_object config)) || login_provider_config_contains_sensitive_material config
     then [validation_error "config_document" "invalid_config"]
     else provider_config_errors environment kind config
          ++ push_if (existsb (same_provider kind name) providers) "display_name" "duplicate_provider".

(** *** What the store checks *)

Definition validate_https_url_field (url field : string) : Result unit :=
  refuse_if (negb (login_provider_url_is_safe url))
    (GatewayError.BadRequest ("login_provider_" +:+ field +:+ "_invalid")).

Definition invalid_provider (what : string) : GatewayError.t :=
  GatewayError.BadRequest ("login_provider_" +:+ what).

Definition validate_login_provider_shape (request : CreateLoginProviderRequest.t V) : Result unit :=
  let config := CreateLoginProviderRequest.config_document request in
  let name := CreateLoginProviderRequest.display_name request in
  let text field := default "" (login_config_string config field) in
  refuse_if (CreateLoginProviderRequest.provider_kind request !=? "oidc")
    (invalid_provider "kind_invalid");;
  refuse_if ((trim name ==? "") || (120 <? String.length name)%nat)
    (invalid_provider "display_name_invalid");;
  refuse_if (negb (is_some (as_object config))
             || login_provider_config_contains_sensitive_material config)
    (invalid_provider "config_invalid");;
  refuse_if ((trim (text "client_id") ==? "") || (256 <? String.length (text "client_id"))%nat)
    (invalid_provider "client_id_invalid");;
  refuse_if (negb (valid_secret_ref_id (text "client_secret_ref")))
    (invalid_provider "client_secret_ref_invalid");;
  for_each (λ field,
    match login_config_string config field with
    | Some url => validate_https_url_field url field
    | None => Ok tt
    end) ("redirect_uri" :: endpoint_fields);;
  refuse_if (negb (is_some (login_config_string config "redirect_uri")))
    (invalid_provider "redirect_uri_required");;
  (if CreateLoginProviderRequest.provider_kind request ==? "oidc"
   then validate_https_url_field (text "issuer") "issuer" else Ok tt);;
  match json_get config "scopes" with
  | None => Ok tt
  | Some scopes =>
      scopes ← ok_or (as_array scopes) (invalid_provider "scopes_invalid");
      refuse_if (existsb (λ scope, negb (scope_is_valid scope)) scopes)
        (invalid_provider "scopes_invalid")
  end.

Definition validate_login_provider_request (request : CreateLoginProviderRequest.t V)
    (providers : gmap string (LoginProviderRecord.t V)) : Result unit :=
  validate_login_provider_shape request;;
  refuse_if (existsb (λ provider,
      (LoginProviderRecord.tenant_id provider ==? CreateLoginProviderRequest.tenant_id request)
      && same_provider (CreateLoginProviderRequest.provider_kind request)
           (CreateLoginProviderRequest.display_name request) provider) (rows providers))
    (GatewayError.BadRequest "login_provider_conflict").
End configuration.

(** ** The tables of the store *)

Section store.
Context {V : Type} `{JsonLibrary V} `{JsonObject V} `{UriLibrary}.
Abbreviation State := (LoginState.t V).
Abbreviation Eff := (M State GatewayError.t).
Implicit Types (s : State) (now : DateTime).

Definition provider_with_status (r : LoginProviderRecord.t V) (status : ResourceStatus.t) now
    : LoginProviderRecord.t V :=
  LoginProviderRecord.mk (LoginProviderRecord.login_provider_id r) (LoginProviderRecord.tenant_id r)
    (LoginProviderRecord.provider_kind r) (LoginProviderRecord.display_name r)
    (LoginProviderRecord.config_document r) status
    (wrap_i64 (LoginProviderRecord.resource_version r + 1)) (LoginProviderRecord.schema_version r)
    (LoginProviderRecord.created_by r) (LoginProviderRecord.created_at r) now.

Definition insert_login_provider (uuid : string) (request : CreateLoginProviderRequest.t V) now
    : Eff (LoginProviderRecord.t V) := λ s,
  match validate_login_provider_request request (LoginState.login_providers s) with
  | Err e => (Err e, s)
  | Ok _ =>
      let record := LoginProviderRecord.mk (new_prefixed_id "lp" uuid)
        (CreateLoginProviderRequest.tenant_id request)
        (CreateLoginProviderRequest.provider_kind request)
        (trim (CreateLoginProviderRequest.display_name request))
        (CreateLoginProviderRequest.config_document request) ResourceStatus.Active 1 1
        (CreateLoginProviderRequest.created_by request) now now in
      (Ok record, LoginState.set_login_providers s
         (<[LoginProviderRecord.login_provider_id record := record]> (LoginState.login_providers s)))
  end.

Definition login_providers_for_tenant (tenant_id : string) s : list (LoginProviderRecord.t V) :=
  sort_by (cmp_then (cmp_on LoginProviderRecord.provider_kind String.compare)
             (cmp_then (cmp_on LoginProviderRecord.display_name String.compare)
                (cmp_on LoginProviderRecord.login_provider_id String.compare)))
    (List.filter (λ r, LoginProviderRecord.tenant_id r ==? tenant_id)
       (rows (LoginState.login_providers s))).

Definition update_login_provider_status (id : string) (expected : Z) (status : ResourceStatus.t) now
    : Eff (LoginProviderRecord.t V) := λ s,
  match update_versioned "login provider" LoginProviderRecord.resource_version
          (λ r, provider_with_status r status now) id expected (LoginState.login_providers s) with
  | Ok (updated, table) => (Ok updated, LoginState.set_login_providers s table)
  | Err e => (Err e, s)
  end.

Definition create_login_attempt (uuid : string) (request : CreateLoginAttemptRequest.t) now
    : Eff LoginAttemptRecord.t := λ s,
  let state_hash := CreateLoginAttemptRequest.state_hash request in
  let record := LoginAttemptRecord.mk (new_prefixed_id "lat" uuid)
    (CreateLoginAttemptRequest.tenant_id request)
    (CreateLoginAttemptRequest.login_provider_id request)
    (CreateLoginAttemptRequest.provider_kind request) state_hash
    (CreateLoginAttemptRequest.nonce_hash request)
    (CreateLoginAttemptRequest.code_verifier_hash request)
    (CreateLoginAttemptRequest.code_challenge request)
    (CreateLoginAttemptRequest.redirect_uri request) "pending"
    (CreateLoginAttemptRequest.expires_at request) None now now in
  if is_some (LoginState.login_attempts s !! state_hash)
  then (bad_request "login_attempt_state_conflict", s)
  else (Ok record, LoginState.set_attempts s
          (<[state_hash := record]> (LoginState.login_attempts s))
          (<[state_hash := CreateLoginAttemptRequest.code_verifier request]>
             (LoginState.login_attempt_code_verifiers s))).

(** The attempt is marked before the verifier is looked for. *)
Definition consume_login_attempt (state_hash login_provider_id : string) now
    : Eff ConsumedLoginAttempt.t := λ s,
  match LoginState.login_attempts s !! state_hash with
  | None => (Err GatewayError.Authentication, s)
  | Some attempt =>
      if (LoginAttemptRecord.login_provider_id attempt !=? login_provider_id)
         || (LoginAttemptRecord.status attempt !=? "pending")
         || (LoginAttemptRecord.expires_at attempt <=? now)%Z
      then (Err GatewayError.Authentication, s)
      else
        let consumed := LoginAttemptRecord.consumed attempt now in
        let verifiers := LoginState.login_attempt_code_verifiers s in
        let s' := LoginState.set_attempts s
          (<[state_hash := consumed]> (LoginState.login_attempts s)) (delete state_hash verifiers) in
        match verifiers !! state_hash with
        | None => (Err GatewayError.Authentication, s')
        | Some code_verifier => (Ok (ConsumedLoginAttempt.mk consumed code_verifier), s')
        end
  end.

(** Run an operation of the directory. *)
Definition on_directory {A} (op : M (Directory.t V) GatewayError.t A) : Eff A := λ s,
  let '(r, d) := op (LoginState.directory s) in (r, LoginState.set_directory s d).

Definition identity_matches (request : UpsertExternalLoginIdentityRequest.t)
    (identity : ExternalIdentityRecord.t) : bool :=
  (ExternalIdentityRecord.tenant_id identity ==? UpsertExternalLoginIdentityRequest.tenant_id request)
  && (ExternalIdentityRecord.login_provider_id identity
        ==? Some (UpsertExternalLoginIdentityRequest.login_provider_id request))
  && (ExternalIdentityRecord.provider_kind identity
        ==? UpsertExternalLoginIdentityRequest.provider_kind request)
  && (ExternalIdentityRecord.provider_subject identity
        ==? UpsertExternalLoginIdentityRequest.provider_subject request).

Definition identity_seen (r : ExternalIdentityRecord.t) (email : option string)
    (email_verified : bool) now : ExternalIdentityRecord.t :=
  ExternalIdentityRecord.mk (ExternalIdentityRecord.external_identity_id r)
    (ExternalIdentityRecord.tenant_id r) (ExternalIdentityRecord.principal_id r)
    (ExternalIdentityRecord.login_provider_id r) (ExternalIdentityRecord.provider_kind r)
    (ExternalIdentityRecord.provider_subject r) email email_verified
    (ExternalIdentityRecord.status r) (ExternalIdentityRecord.created_at r) now.

Definition update_existing_external_identity (request : UpsertExternalLoginIdentityRequest.t) now
    : M (Directory.t V) GatewayError.t (option (UserRecord.t * ExternalIdentityRecord.t)) := λ d,
  match find_row (identity_matches request) (Directory.external_identities d) with
  | None => (Ok None, d)
  | Some (key, identity) =>
      if ExternalIdentityRecord.status identity !=? ResourceStatus.Active
      then (Err GatewayError.Authentication, d)
      else
        match Directory.users d !! ExternalIdentityRecord.principal_id identity with
        | None => (Err (GatewayError.Internal "external identity principal is missing"), d)
        | Some user =>
            if negb (DirectoryStatus.accepts_access (UserRecord.status user))
            then (Err GatewayError.Authentication, d)
            else
              let updated := identity_seen identity (UpsertExternalLoginIdentityRequest.email request)
                (UpsertExternalLoginIdentityRequest.email_verified request) now in
              (Ok (Some (user, updated)), Directory.set_external_identities d
                 (<[key := updated]> (Directory.external_identities d)))
        end
  end.

(** A new user and identity, under the ids drawn. *)
Definition insert_external_login_identity (user_uuid identity_uuid : string)
    (request : UpsertExternalLoginIdentityRequest.t) now
    : M (Directory.t V) GatewayError.t (UserRecord.t * ExternalIdentityRecord.t) := λ d,
  let user := UserRecord.mk (new_prefixed_id "usr" user_uuid)
    (UpsertExternalLoginIdentityRequest.tenant_id request) None None
    (UpsertExternalLoginIdentityRequest.email request)
    (trim (UpsertExternalLoginIdentityRequest.display_name request)) DirectoryStatus.Active 1 1 now
    now in
  let identity := ExternalIdentityRecord.mk (new_prefixed_id "xid" identity_uuid)
    (UpsertExternalLoginIdentityRequest.tenant_id request) (UserRecord.user_id user)
    (Some (UpsertExternalLoginIdentityRequest.login_provider_id request))
    (UpsertExternalLoginIdentityRequest.provider_kind request)
    (UpsertExternalLoginIdentityRequest.provider_subject request)
    (UpsertExternalLoginIdentityRequest.email request)
    (UpsertExternalLoginIdentityRequest.email_verified request) ResourceStatus.Active now now in
  let d := Directory.set_users d (<[UserRecord.user_id user := user]> (Directory.users d)) in
  (Ok (user, identity), Directory.set_external_identities d
     (<[ExternalIdentityRecord.external_identity_id identity := identity]>
        (Directory.external_identities d))).

Definition upsert_external_login_identity (user_uuid identity_uuid : string)
    (request : UpsertExternalLoginIdentityRequest.t) now
    : M (Directory.t V) GatewayError.t (UserRecord.t * ExternalIdentityRecord.t * bool) :=
  lift (refuse_if ((trim (UpsertExternalLoginIdentityRequest.provider_subject request) ==? "")
                   || (trim (UpsertExternalLoginIdentityRequest.display_name request) ==? ""))
          (GatewayError.BadRequest "external_login_claims_invalid"));;
  existing ← update_existing_external_identity request now;
  match existing with
  | Some (user, identity) => mret (user, identity, false)
  | None =>
      '(user, identity) ← insert_external_login_identity user_uuid identity_uuid request now;
      mret (user, identity, true)
  end.
End store.

(** ** The tenancy of the single user *)

Section bootstrap.
Context {V : Type}.
Abbreviation State := (Directory.t V).
Implicit Types (d : State) (now : DateTime).

Definition tenancy_seed_from_request (request : BootstrapDefaultProjectRequest.t) now
    : TenancySeed.t :=
  let tenant_id := BootstrapDefaultProjectRequest.tenant_id request in
  let organization_id := BootstrapDefaultProjectRequest.organization_id request in
  let project_id := BootstrapDefaultProjectRequest.project_id request in
  let user_id := BootstrapDefaultProjectRequest.user_id request in
  let member_id := BootstrapDefaultProjectRequest.organization_member_id request in
  TenancySeed.mk
    (TenantRecord.mk tenant_id (BootstrapDefaultProjectRequest.tenant_display_name request)
       DirectoryStatus.Active 1 1 now now)
    (OrganizationRecord.mk organization_id tenant_id
       (BootstrapDefaultProjectRequest.organization_display_name request) DirectoryStatus.Active 1 1
       now now)
    (ProjectRecord.mk project_id tenant_id organization_id
       (BootstrapDefaultProjectRequest.project_display_name request) DirectoryStatus.Active 1 1 now
       now)
    (UserRecord.mk user_id tenant_id (Some organization_id) (Some project_id)
       (BootstrapDefaultProjectRequest.user_primary_email request)
       (BootstrapDefaultProjectRequest.user_display_name request) DirectoryStatus.Active 1 1 now now)
    (OrganizationMembershipRecord.mk member_id tenant_id organization_id user_id
       MembershipStatus.Active 1)
    (ProjectMembershipRecord.mk (BootstrapDefaultProjectRequest.project_member_id request) tenant_id
       organization_id project_id user_id (Some member_id) MembershipStatus.Active 1).

Definition tenant_seed_matches (existing value : TenantRecord.t) : bool :=
  (TenantRecord.tenant_id existing ==? TenantRecord.tenant_id value)
  && (TenantRecord.display_name existing ==? TenantRecord.display_name value).
Definition organization_seed_matches (existing value : OrganizationRecord.t) : bool :=
  (OrganizationRecord.organization_id existing ==? OrganizationRecord.organization_id value)
  && (OrganizationRecord.tenant_id existing ==? OrganizationRecord.tenant_id value)
  && (OrganizationRecord.display_name existing ==? OrganizationRecord.display_name value).
Definition project_seed_matches (existing value : ProjectRecord.t) : bool :=
  (ProjectRecord.project_id existing ==? ProjectRecord.project_id value)
  && (ProjectRecord.tenant_id existing ==? ProjectRecord.tenant_id value)
  && (ProjectRecord.organization_id existing ==? ProjectRecord.organization_id value)
  && (ProjectRecord.display_name existing ==? ProjectRecord.display_name value).
Definition user_seed_matches (existing value : UserRecord.t) : bool :=
  (UserRecord.user_id existing ==? UserRecord.user_id value)
  && (UserRecord.tenant_id existing ==? UserRecord.tenant_id value)
  && (UserRecord.default_organization_id existing ==? UserRecord.default_organization_id value)
  && (UserRecord.default_project_id existing ==? UserRecord.default_project_id value)
  && (UserRecord.primary_email existing ==? UserRecord.primary_email value)
  && (UserRecord.display_name existing ==? UserRecord.display_name value).
Definition organization_membership_seed_matches (existing value : OrganizationMembershipRecord.t)
    : bool :=
  (OrganizationMembershipRecord.organization_member_id existing
     ==? OrganizationMembershipRecord.organization_member_id value)
  && (OrganizationMembershipRecord.tenant_id existing
        ==? OrganizationMembershipRecord.tenant_id value)
  && (OrganizationMembershipRecord.organization_id existing
        ==? OrganizationMembershipRecord.organization_id value)
  && (OrganizationMembershipRecord.principal_id existing
        ==? OrganizationMembershipRecord.principal_id value).
Definition project_membership_seed_matches (existing value : ProjectMembershipRecord.t) : bool :=
  (ProjectMembershipRecord.project_member_id existing
     ==? ProjectMembershipRecord.project_member_id value)
  && (ProjectMembershipRecord.tenant_id existing ==? ProjectMembershipRecord.tenant_id value)
  && (ProjectMembershipRecord.organization_id existing
        ==? ProjectMembershipRecord.organization_id value)
  && (ProjectMembershipRecord.project_id existing ==? ProjectMembershipRecord.project_id value)
  && (ProjectMembershipRecord.principal_id existing ==? ProjectMembershipRecord.principal_id value)
  && (ProjectMembershipRecord.organization_member_id existing
        ==? ProjectMembershipRecord.organization_member_id value).

Definition organization_membership_key (seed : TenancySeed.t) : string * string :=
  (OrganizationMembershipRecord.principal_id (TenancySeed.organization_membership seed),
   OrganizationMembershipRecord.organization_id (TenancySeed.organization_membership seed)).
Definition project_membership_key (seed : TenancySeed.t) : string * string :=
  (ProjectMembershipRecord.principal_id (TenancySeed.project_membership seed),
   ProjectMembershipRecord.project_id (TenancySeed.project_membership seed)).

Definition validate_entry {K R} `{Countable K} (m : gmap K R) (key : K) (value : R)
    (is_match : R → R → bool) (reason : string) : Result unit :=
  match m !! key with
  | Some existing => refuse_if (negb (is_match existing value)) (GatewayError.BadRequest reason)
  | None => Ok tt
  end.

Definition validate_seed_memberships (seed : TenancySeed.t) d : Result unit :=
  validate_entry (Directory.organization_memberships d) (organization_membership_key seed)
    (TenancySeed.organization_membership seed) organization_membership_seed_matches
    "organization_membership_seed_conflict";;
  validate_entry (Directory.project_memberships d) (project_membership_key seed)
    (TenancySeed.project_membership seed) project_membership_seed_matches
    "project_membership_seed_conflict".

Definition validate_tenancy_seed (seed : TenancySeed.t) d : Result unit :=
  validate_entry (Directory.tenants d) (TenantRecord.tenant_id (TenancySeed.tenant seed))
    (TenancySeed.tenant seed) tenant_seed_matches "tenant_seed_conflict";;
  validate_entry (Directory.organizations d)
    (OrganizationRecord.organization_id (TenancySeed.organization seed))
    (TenancySeed.organization seed) organization_seed_matches "organization_seed_conflict";;
  validate_entry (Directory.projects d) (ProjectRecord.project_id (TenancySeed.project seed))
    (TenancySeed.project seed) project_seed_matches "project_seed_conflict";;
  validate_entry (Directory.users d) (UserRecord.user_id (TenancySeed.user seed))
    (TenancySeed.user seed) user_seed_matches "user_seed_conflict";;
  validate_seed_memberships seed d.

(** [entry(key).or_insert_with(..)]. *)
Definition or_insert {K R} `{Countable K} (m : gmap K R) (key : K) (value : R) : gmap K R :=
  match m !! key with Some _ => m | None => <[key := value]> m end.

Definition set_tenants d x : State :=
  Directory.mk (Directory.store d) (Directory.auth d) x (Directory.users d)
    (Directory.service_accounts d) (Directory.organization_memberships d)
    (Directory.external_identities d) (Directory.organization_invitations d).

Definition insert_tenancy_seed (seed : TenancySeed.t) d : State :=
  let d := set_tenants d (or_insert (Directory.tenants d)
             (TenantRecord.tenant_id (TenancySeed.tenant seed)) (TenancySeed.tenant seed)) in
  let d := Directory.set_organizations d (or_insert (Directory.organizations d)
             (OrganizationRecord.organization_id (TenancySeed.organization seed))
             (TenancySeed.organization seed)) in
  let d := Directory.set_projects d (or_insert (Directory.projects d)
             (ProjectRecord.project_id (TenancySeed.project seed)) (TenancySeed.project seed)) in
  let d := Directory.set_users d (or_insert (Directory.users d)
             (UserRecord.user_id (TenancySeed.user seed)) (TenancySeed.user seed)) in
  let d := Directory.set_organization_memberships d (or_insert (Directory.organization_memberships d)
             (organization_membership_key seed) (TenancySeed.organization_membership seed)) in
  Directory.set_project_memberships d (or_insert (Directory.project_memberships d)
    (project_membership_key seed) (TenancySeed.project_membership seed)).

Definition load_tenancy_seed (request : BootstrapDefaultProjectRequest.t) d : Result TenancySeed.t :=
  let user_id := BootstrapDefaultProjectRequest.user_id request in
  let organization_id := BootstrapDefaultProjectRequest.organization_id request in
  let project_id := BootstrapDefaultProjectRequest.project_id request in
  let missing what := GatewayError.Internal ("bootstrapped " +:+ what +:+ " is missing") in
  tenant ← ok_or (Directory.tenants d !! BootstrapDefaultProjectRequest.tenant_id request)
             (missing "tenant");
  organization ← ok_or (Directory.organizations d !! organization_id) (missing "organization");
  project ← ok_or (Directory.projects d !! project_id) (missing "project");
  user ← ok_or (Directory.users d !! user_id) (missing "user");
  organization_membership ← ok_or (Directory.organization_memberships d !! (user_id, organization_id))
                              (missing "organization membership");
  membership ← ok_or (project_membership user_id project_id (Directory.auth d))
                 (missing "project membership");
  Ok (TenancySeed.mk tenant organization project user organization_membership membership).

Definition bootstrap_default_project (request : BootstrapDefaultProjectRequest.t) now
    : M State GatewayError.t TenancySeed.t := λ d,
  let seed := tenancy_seed_from_request request now in
  match validate_tenancy_seed seed d with
  | Err e => (Err e, d)
  | Ok _ => let d' := insert_tenancy_seed seed d in (load_tenancy_seed request d', d')
  end.

Definition SINGLE_USER_PROVIDER_ID : string := "local_single_user".
Definition SINGLE_USER_ORGANIZATION_MEMBER_ID : string := "om_single_user".
Definition SINGLE_USER_PROJECT_MEMBER_ID : string := "pm_single_user".

Definition single_user_bootstrap_request (config : SingleUserAuthConfig.t)
    : BootstrapDefaultProjectRequest.t :=
  BootstrapDefaultProjectRequest.mk (SingleUserAuthConfig.tenant_id config)
    (SingleUserAuthConfig.tenant_display_name config) (SingleUserAuthConfig.organization_id config)
    (SingleUserAuthConfig.organization_display_name config) (SingleUserAuthConfig.project_id config)
    (SingleUserAuthConfig.project_display_name config) (SingleUserAuthConfig.user_id config)
    (SingleUserAuthConfig.user_display_name config) (SingleUserAuthConfig.user_primary_email config)
    SINGLE_USER_ORGANIZATION_MEMBER_ID SINGLE_USER_PROJECT_MEMBER_ID
    (SingleUserAuthConfig.user_id config).

Definition add_action_grants (grants : list ActionGrant.t) (g : GatewayStore.t V) : GatewayStore.t V :=
  GatewayStore.mk (GatewayStore.draft g) (GatewayStore.config g) (GatewayStore.budget_policies g)
    (GatewayStore.action_grants g ++ grants) (GatewayStore.authz_decisions g)
    (GatewayStore.audit_events g) (GatewayStore.validation_diagnostics g)
    (GatewayStore.idempotency_records g) (GatewayStore.emergency_operations g)
    (GatewayStore.hot_state g).

Definition seed_single_user_action_grants_if_needed (config : SingleUserAuthConfig.t)
    : M State GatewayError.t unit := λ d,
  let tenant_id := SingleUserAuthConfig.tenant_id config in
  let user_id := SingleUserAuthConfig.user_id config in
  if existsb (λ grant, (ActionGrant.tenant_id grant ==? tenant_id)
                       && (ActionGrant.principal_id grant ==? user_id))
       (GatewayStore.action_grants (Directory.store d))
  then (Ok tt, d)
  else (Ok tt, Directory.set_store d (add_action_grants
          (ActionGrant.for_builtin_role tenant_id None None user_id BuiltInRole.TenantOwner)
          (Directory.store d))).

Definition bootstrap_single_user_if_configured (config : LoginConfig.t) now
    : M State GatewayError.t unit :=
  match LoginConfig.single_user_auth config with
  | None => mret tt
  | Some single_user =>
      bootstrap_default_project (single_user_bootstrap_request single_user) now;;
      seed_single_user_action_grants_if_needed single_user
  end.
End bootstrap.

(** ** OpenID Connect *)

Definition oidc_algorithm_from_str (value : string) : option Algorithm.t :=
  if value ==? "RS256" then Some Algorithm.RS256
  else if value ==? "RS384" then Some Algorithm.RS384
  else if value ==? "RS512" then Some Algorithm.RS512
  else if value ==? "PS256" then Some Algorithm.PS256
  else if value ==? "PS384" then Some Algorithm.PS384
  else if value ==? "PS512" then Some Algorithm.PS512
  else if value ==? "ES256" then Some Algorithm.ES256
  else if value ==? "ES384" then Some Algorithm.ES384
  else if value ==? "EdDSA" then Some Algorithm.EdDSA
  else None.

Definition oidc_algorithm_is_asymmetric (alg : Algorithm.t) : bool :=
  match alg with
  | Algorithm.HS256 | Algorithm.HS384 | Algorithm.HS512 => false
  | _ => true
  end.

(** [filter_map] by name, keeping the asymmetric ones. *)
Definition asymmetric_algorithms (names : list string) : list Algorithm.t :=
  List.filter oidc_algorithm_is_asymmetric (omap oidc_algorithm_from_str names).

Definition unique_algorithms (algorithms : list Algorithm.t) : list Algorithm.t :=
  fold_left (λ unique algorithm,
    if existsb (λ a, a ==? algorithm) unique then unique else unique ++ [algorithm]) algorithms [].

Definition trim_end_slashes (value : string) : string :=
  rev_string (strip_words (String.length value) ["/"] (rev_string value)).
Definition oidc_discovery_url (issuer : string) : string :=
  trim_end_slashes issuer +:+ "/.well-known/openid-configuration".

Section oidc.
Context {V : Type} `{JsonLibrary V} `{JsonObject V} `{UriLibrary} `{Sha256Library} `{LoginLibrary}.
Context (config : LoginConfig.t).
Abbreviation State := (LoginState.t V).
Implicit Types (s : State) (now : DateTime) (provider : LoginProviderRecord.t V).

Definition provider_text provider (field : string) : option string :=
  login_config_string (LoginProviderRecord.config_document provider) field.

Definition required_login_config_string provider (field : string) : Result string :=
  match provider_text provider field with
  | Some value =>
      if trim value ==? "" then Err (invalid_provider (field +:+ "_missing")) else Ok value
  | None => Err (invalid_provider (field +:+ "_missing"))
  end.

Definition response_json_body {A} (from_str : string → option A) (response : HttpResponse.t)
    : Result A :=
  body ← ok_or (HttpResponse.text response) (invalid_provider "response_read_failed");
  ok_or (from_str body) (invalid_provider "response_json_invalid").

Definition fetch_json {A} (from_str : string → option A) (url : string) : Result A :=
  response ← ok_or (http_get url) (invalid_provider "http_request_failed");
  refuse_if (negb (HttpResponse.is_success response)) (invalid_provider "http_request_failed");;
  response_json_body from_str response.

Definition oidc_metadata_needs_discovery provider : bool :=
  existsb (λ field, negb (is_some (provider_text provider field)))
    ["authorization_url"; "token_url"; "jwks_url"].

Definition oidc_metadata_field provider (discovery : option OidcDiscoveryDocument.t)
    (config_field : string) (discovery_field : OidcDiscoveryDocument.t → string) : Result string :=
  let value := match provider_text provider config_field with
               | Some value => Some value
               | None => discovery_field <$> discovery
               end in
  match value with
  | Some value =>
      if trim value ==? "" then Err (invalid_provider (config_field +:+ "_missing")) else Ok value
  | None => Err (invalid_provider (config_field +:+ "_missing"))
  end.

Definition oidc_supported_algorithms provider (discovery : option OidcDiscoveryDocument.t)
    : list Algorithm.t :=
  let configured :=
    match json_get (LoginProviderRecord.config_document provider) "id_token_signing_algs"
            ≫= as_array with
    | Some values => asymmetric_algorithms (omap as_str values)
    | None => []
    end in
  let algorithms :=
    match configured, discovery with
    | [], Some document =>
        asymmetric_algorithms (OidcDiscoveryDocument.id_token_signing_alg_values_supported document)
    | _, _ => configured
    end in
  match unique_algorithms algorithms with
  | [] => [Algorithm.RS256]
  | unique => unique
  end.

Definition discovery_document provider (issuer : string) : Result (option OidcDiscoveryDocument.t) :=
  if oidc_metadata_needs_discovery provider then
    let discovery_url := default (oidc_discovery_url issuer) (provider_text provider "discovery_url") in
    refuse_if (negb (login_provider_url_is_safe_for_config (LoginConfig.environment config)
                       discovery_url)) (invalid_provider "discovery_url_invalid");;
    Some <$> fetch_json discovery_from_str discovery_url
  else Ok None.

Definition resolve_oidc_provider_metadata provider : Result OidcProviderMetadata.t :=
  issuer ← required_login_config_string provider "issuer";
  discovery ← discovery_document provider issuer;
  refuse_if (is_some_and discovery (λ document, OidcDiscoveryDocument.issuer document !=? issuer))
    (invalid_provider "issuer_mismatch");;
  authorization_endpoint ← oidc_metadata_field provider discovery "authorization_url"
                             OidcDiscoveryDocument.authorization_endpoint;
  token_endpoint ← oidc_metadata_field provider discovery "token_url"
                     OidcDiscoveryDocument.token_endpoint;
  jwks_uri ← oidc_metadata_field provider discovery "jwks_url" OidcDiscoveryDocument.jwks_uri;
  for_each (λ url, refuse_if (negb (login_provider_url_is_safe_for_config
                                      (LoginConfig.environment config) url))
                     (invalid_provider "oidc_endpoint_invalid"))
    [authorization_endpoint; token_endpoint; jwks_uri];;
  Ok (OidcProviderMetadata.mk issuer authorization_endpoint token_endpoint jwks_uri
        (oidc_supported_algorithms provider discovery)).

Definition exchange_oidc_authorization_code provider (attempt : ConsumedLoginAttempt.t)
    (request : ExternalLoginCallbackRequest.t) (metadata : OidcProviderMetadata.t) s
    : Result string :=
  let failed := GatewayError.Authentication in
  client_id ← required_login_config_string provider "client_id";
  client_secret_ref ← required_login_config_string provider "client_secret_ref";
  client_secret ← ok_or (secret_value (LoginState.secrets s) client_secret_ref) failed;
  let auth_method := default "client_secret_basic"
    (provider_text provider "token_endpoint_auth_method") in
  let form := [
    ("grant_type", "authorization_code");
    ("code", trim (ExternalLoginCallbackRequest.code request));
    ("redirect_uri", LoginAttemptRecord.redirect_uri (ConsumedLoginAttempt.record attempt));
    ("code_verifier", ConsumedLoginAttempt.code_verifier attempt)]
    ++ (if auth_method ==? "client_secret_post"
        then [("client_id", client_id); ("client_secret", client_secret)] else []) in
  refuse_if ((auth_method !=? "client_secret_basic") && (auth_method !=? "client_secret_post")) failed;;
  response ← ok_or (http_token (TokenRequest.mk (OidcProviderMetadata.token_endpoint metadata) form
                      (if auth_method ==? "client_secret_basic"
                       then Some (client_id, client_secret) else None))) failed;
  refuse_if (negb (HttpResponse.is_success response)) failed;;
  match response_json_body id_token_from_str response with
  | Err _ => Err failed
  | Ok id_token => refuse_if (trim id_token ==? "") failed;; Ok id_token
  end.

Definition oidc_jwk_is_usable (kid : option string) (alg : Algorithm.t) (jwk : Jwk) : bool :=
  if is_some_and (for_signatures jwk) negb then false
  else if is_some kid && (key_id jwk !=? kid) then false
  else match key_algorithm jwk with
       | None => true
       | Some key_alg => oidc_algorithm_from_str key_alg ==? Some alg
       end.

Definition select_oidc_jwk (jwks : list Jwk) (kid : option string) (alg : Algorithm.t) : Result Jwk :=
  let candidates := List.filter (oidc_jwk_is_usable kid alg) jwks in
  match kid with
  | Some kid => ok_or (List.find (λ jwk, key_id jwk ==? Some kid) candidates) GatewayError.Authentication
  | None =>
      match candidates with
      | [jwk] => Ok jwk
      | _ => Err GatewayError.Authentication
      end
  end.

(** The token signed by a key of the provider, for this client and attempt. *)
Definition validate_oidc_id_token provider (attempt : ConsumedLoginAttempt.t)
    (metadata : OidcProviderMetadata.t) (id_token : string) : Result ExternalLoginVerifiedClaims.t :=
  let failed := GatewayError.Authentication in
  client_id ← required_login_config_string provider "client_id";
  '(alg, kid) ← ok_or (decode_header id_token) failed;
  refuse_if (negb (existsb (λ a, a ==? alg) (OidcProviderMetadata.supported_algs metadata))
             || negb (oidc_algorithm_is_asymmetric alg)) failed;;
  jwks ← match fetch_json jwks_from_str (OidcProviderMetadata.jwks_uri metadata) with
         | Ok jwks => Ok jwks
         | Err _ => Err failed
         end;
  jwk ← select_oidc_jwk jwks kid alg;
  token ← ok_or (decode_token jwk alg (OidcProviderMetadata.issuer metadata) client_id id_token) failed;
  refuse_if (negb (OidcAudience.contains (OidcIdTokenClaims.aud token) client_id)) failed;;
  nonce ← ok_or (OidcIdTokenClaims.nonce token) failed;
  refuse_if (LoginAttemptRecord.nonce_hash (ConsumedLoginAttempt.record attempt)
             !=? Some (login_secret_hash nonce)) failed;;
  expires_at ← ok_or (from_timestamp (OidcIdTokenClaims.exp token)) failed;
  Ok (ExternalLoginVerifiedClaims.mk (OidcIdTokenClaims.sub token) (OidcIdTokenClaims.email token)
        (OidcIdTokenClaims.email_verified token)
        (match OidcIdTokenClaims.name token with
         | Some name => Some name
         | None => OidcIdTokenClaims.preferred_username token
         end) (Some nonce) (Some (OidcIdTokenClaims.iss token)) (Some client_id) (Some expires_at)).

(** ** Claims *)

Definition validate_oidc_verified_claims provider (claims : ExternalLoginVerifiedClaims.t) now
    : Result unit :=
  let failed := GatewayError.Authentication in
  refuse_if (ExternalLoginVerifiedClaims.issuer claims !=? provider_text provider "issuer") failed;;
  refuse_if (ExternalLoginVerifiedClaims.audience claims !=? provider_text provider "client_id") failed;;
  refuse_if (negb (is_some_and (ExternalLoginVerifiedClaims.expires_at claims)
                     (λ expires_at, negb (expires_at <=? now)%Z))) failed;;
  refuse_if (negb (is_some_and (ExternalLoginVerifiedClaims.nonce claims) (starts_with "gwnc_"))) failed.

Definition validate_external_login_claims provider (claims : ExternalLoginVerifiedClaims.t) now
    : Result unit :=
  refuse_if (trim (ExternalLoginVerifiedClaims.subject claims) ==? "") GatewayError.Authentication;;
  refuse_if (is_some_and (ExternalLoginVerifiedClaims.email claims) (λ email,
               negb (is_some (normalized_email email))
               || negb (ExternalLoginVerifiedClaims.email_verified claims)))
    GatewayError.Authentication;;
  if LoginProviderRecord.provider_kind provider ==? "oidc"
  then validate_oidc_verified_claims provider claims now else Ok tt.

Definition validate_external_login_claims_against_attempt provider (attempt : LoginAttemptRecord.t)
    (claims : ExternalLoginVerifiedClaims.t) : Result unit :=
  let failed := GatewayError.Authentication in
  refuse_if ((LoginAttemptRecord.tenant_id attempt !=? LoginProviderRecord.tenant_id provider)
             || (LoginAttemptRecord.login_provider_id attempt
                 !=? LoginProviderRecord.login_provider_id provider)
             || (LoginAttemptRecord.provider_kind attempt
                 !=? LoginProviderRecord.provider_kind provider)) failed;;
  refuse_if ((LoginProviderRecord.provider_kind provider ==? "oidc")
             && (LoginAttemptRecord.nonce_hash attempt
                 !=? (login_secret_hash <$> ExternalLoginVerifiedClaims.nonce claims))) failed.

Definition external_login_display_name (claims : ExternalLoginVerifiedClaims.t) : string :=
  match trimmed (ExternalLoginVerifiedClaims.display_name claims) with
  | Some name => name
  | None => default (ExternalLoginVerifiedClaims.subject claims)
              (ExternalLoginVerifiedClaims.email claims)
  end.

Definition ensure_external_login_callback_adapter_available provider
    (request : ExternalLoginCallbackRequest.t) : Result unit :=
  if local_claims (LoginProviderRecord.config_document provider) then
    refuse_if (negb (allows_local_callback_adapter (LoginConfig.environment config)))
      (GatewayError.BadRequest "local_verified_claims_callback_requires_local_or_test_profile")
  else if LoginProviderRecord.provider_kind provider ==? "oidc" then
    refuse_if (is_some (ExternalLoginCallbackRequest.verified_claims request))
      (GatewayError.BadRequest "verified_claims_not_accepted_for_oidc_callback")
  else Err (invalid_provider "callback_adapter_unavailable").

Definition validate_external_login_callback_request_shape (request : ExternalLoginCallbackRequest.t)
    : Result unit :=
  refuse_if (negb (starts_with "gwst_" (ExternalLoginCallbackRequest.state request))
             || (trim (ExternalLoginCallbackRequest.code request) ==? ""))
    GatewayError.Authentication.

Definition resolve_oidc_callback_claims provider (attempt : ConsumedLoginAttempt.t)
    (request : ExternalLoginCallbackRequest.t) now s : Result ExternalLoginVerifiedClaims.t :=
  metadata ← resolve_oidc_provider_metadata provider;
  id_token ← exchange_oidc_authorization_code provider attempt request metadata s;
  claims ← validate_oidc_id_token provider attempt metadata id_token;
  validate_external_login_claims provider claims now;;
  Ok claims.

Definition external_login_callback_claims provider (attempt : ConsumedLoginAttempt.t)
    (request : ExternalLoginCallbackRequest.t) now s : Result ExternalLoginVerifiedClaims.t :=
  if local_claims (LoginProviderRecord.config_document provider) then
    claims ← ok_or (ExternalLoginCallbackRequest.verified_claims request) GatewayError.Authentication;
    validate_external_login_claims provider claims now;;
    Ok claims
  else if LoginProviderRecord.provider_kind provider ==? "oidc" then
    resolve_oidc_callback_claims provider attempt request now s
  else Err (invalid_provider "callback_adapter_unavailable").

(** ** Starting a login *)

Definition login_provider_scope_values provider : list string :=
  let configured :=
    match json_get (LoginProviderRecord.config_document provider) "scopes" ≫= as_array with
    | Some scopes => List.filter (λ scope, scope !=? "") (trim <$> omap as_str scopes)
    | None => []
    end in
  match configured with [] => ["openid"; "email"; "profile"] | _ => configured end.

Definition login_provider_authorization_endpoint provider : Result string :=
  match provider_text provider "authorization_url" with
  | Some endpoint => Ok endpoint
  | None =>
      if LoginProviderRecord.provider_kind provider ==? "oidc"
      then OidcProviderMetadata.authorization_endpoint <$> resolve_oidc_provider_metadata provider
      else Err (invalid_provider "authorization_url_missing")
  end.

Definition percent_encode (value : string) : string := percent_encode_path_segment value.
Definition oauth_query_string (params : list (string * string)) : string :=
  join "&" ((λ '(key, value), percent_encode key +:+ "=" +:+ percent_encode value) <$> params).
Definition pkce_s256_challenge (code_verifier : string) : string :=
  base64_url_no_pad (sha256 code_verifier).
Definition random_pkce_code_verifier (bytes : list Z) : string := base64_url_no_pad bytes.
End oidc.

(** ** Handlers *)

(** The ids and bytes drawn for a login that is started, and for a callback. *)
Module StartDraws.
Record t : Set := mk {
  attempt : string;
  state_bytes : list Z;
  nonce_bytes : list Z;
  verifier_bytes : list Z;
}.
End StartDraws.

Module LoginDraws.
Record t : Set := mk {
  user : string;
  identity : string;
  session : string;
  token_bytes : list Z;
  audit : string;
  request : string;
  trace : string;
}.
End LoginDraws.

Definition DEFAULT_AUTH_SESSION_TTL_SECONDS : Z := 43200.

Section handlers.
Context {V : Type} `{JsonLibrary V} `{JsonText V} `{JsonObject V} `{UriLibrary} `{Sha256Library}
  `{CedarParser} `{ChronoDisplay} `{AuthLibrary} `{LoginLibrary}.
Context (config : LoginConfig.t).
Abbreviation State := (LoginState.t V).
Abbreviation Eff := (M State GatewayError.t).
Implicit Types (s : State) (actor : AuthenticatedActor.t) (now : DateTime) (drawn : Drawn.t).
Implicit Types (provider : LoginProviderRecord.t V).

Definition on_store {A} (op : M (GatewayStore.t V) GatewayError.t A) : Eff A :=
  on_directory (on_admin op).

(** *** Documents *)

Definition redacted_login_provider_config provider : V :=
  match as_object (LoginProviderRecord.config_document provider) with
  | None => json_obj []
  | Some entries =>
      json_obj ((λ '(key, value),
        if key ==? "client_secret_ref"
        then (key, json_option_str (mask_secret_ref_id <$> as_str value)) else (key, value)) <$> entries)
  end.

Definition login_provider_resource_body provider : V :=
  json_obj [
    ("kind", json_str "identity_provider");
    ("id", json_str (LoginProviderRecord.login_provider_id provider));
    ("tenant_id", json_str (LoginProviderRecord.tenant_id provider));
    ("provider_kind", json_str (LoginProviderRecord.provider_kind provider));
    ("display_name", json_str (LoginProviderRecord.display_name provider));
    ("config_document", redacted_login_provider_config provider);
    ("version", json_int (LoginProviderRecord.resource_version provider));
    ("status", json_str (ResourceStatus.as_str (LoginProviderRecord.status provider)));
    ("created_by", json_str (LoginProviderRecord.created_by provider));
    ("created_at", json_datetime (LoginProviderRecord.created_at provider));
    ("updated_at", json_datetime (LoginProviderRecord.updated_at provider))].

Definition login_provider_resource_envelope provider : V :=
  json_obj [("schema", json_str "gateway.admin.resource.v1");
            ("resource", login_provider_resource_body provider)].

Definition login_provider_create_diff provider : V :=
  json_obj [
    ("provider_kind", json_str (LoginProviderRecord.provider_kind provider));
    ("display_name", json_str (LoginProviderRecord.display_name provider));
    ("config_document", redacted_login_provider_config provider);
    ("status", json_str (ResourceStatus.as_str (LoginProviderRecord.status provider)))].

Definition auth_login_provider_resource_body provider : V :=
  json_obj [
    ("kind", json_str "auth_provider");
    ("id", json_str (LoginProviderRecord.login_provider_id provider));
    ("tenant_id", json_str (LoginProviderRecord.tenant_id provider));
    ("provider_kind", json_str (LoginProviderRecord.provider_kind provider));
    ("display_name", json_str (LoginProviderRecord.display_name provider));
    ("client_id", json_option_str (provider_text provider "client_id"));
    ("scopes", json_arr (json_str <$> login_provider_scope_values provider));
    ("login_url", json_str ("/auth/v1/providers/" +:+ LoginProviderRecord.login_provider_id provider
                            +:+ "/login"));
    ("status", json_str (ResourceStatus.as_str (LoginProviderRecord.status provider)))].

Definition single_user_auth_provider_resource_body (single_user : SingleUserAuthConfig.t) : V :=
  json_obj [
    ("kind", json_str "auth_provider");
    ("id", json_str SINGLE_USER_PROVIDER_ID);
    ("tenant_id", json_str (SingleUserAuthConfig.tenant_id single_user));
    ("provider_kind", json_str "single_user_password");
    ("display_name", json_str "Single User");
    ("auth_mode", json_str "password");
    ("requires_username", json_bool true);
    ("login_url", json_str "/auth/v1/single-user/login");
    ("status", json_str "active")].

(** *** Providers, as an administrator sees them *)

Definition login_provider_for_actor actor (id : string) s : Result (LoginProviderRecord.t V) :=
  filtered ("login provider " +:+ id) (LoginState.login_providers s !! id)
    (λ provider, LoginProviderRecord.tenant_id provider ==? AuthenticatedActor.tenant_id actor).

Definition active_login_provider (id : string) s : Result (LoginProviderRecord.t V) :=
  filtered ("login provider " +:+ id) (LoginState.login_providers s !! id)
    (λ provider, LoginProviderRecord.status provider ==? ResourceStatus.Active).

Definition authorize_login drawn actor (method path resource_id : string) now : Eff unit :=
  on_directory (authorize drawn actor method path resource_id now).

Definition audit_login_provider drawn actor (event_type : string) provider (before : option Z)
    (diff : V) now : Eff string :=
  on_directory (audit drawn actor event_type "tenant" (AuthenticatedActor.tenant_id actor)
    "IdentityProvider" (LoginProviderRecord.login_provider_id provider) before
    (Some (LoginProviderRecord.resource_version provider)) diff now).

Definition list_login_providers drawn actor now : Eff V :=
  authorize_login drawn actor "GET" "/admin/v1/identity-providers"
    (AuthenticatedActor.tenant_id actor) now;;
  providers ← gets (login_providers_for_tenant (AuthenticatedActor.tenant_id actor));
  mret (json_obj [
    ("schema", json_str "gateway.admin.identity_provider_list.v1");
    ("resources", json_arr (login_provider_resource_envelope <$> providers));
    ("next_cursor", json_null)]).

Definition provider_errors actor (request : AdminCreateLoginProviderRequest.t V) s : list V :=
  login_provider_validation_errors (LoginConfig.environment config) request
    (login_providers_for_tenant (AuthenticatedActor.tenant_id actor) s).

Definition validate_login_provider drawn actor (request : AdminCreateLoginProviderRequest.t V) now
    : Eff V :=
  authorize_login drawn actor "POST" "/admin/v1/identity-providers:validate"
    (AuthenticatedActor.tenant_id actor) now;;
  errors ← gets (provider_errors actor request);
  on_store (validation_response (Drawn.validation drawn) actor
    (validation_input "gateway.admin.identity_provider_validation.v1" "IdentityProvider" "tenant"
       (AuthenticatedActor.tenant_id actor) errors now)).

Definition create_login_provider_json (request : AdminCreateLoginProviderRequest.t V) : V :=
  json_obj [
    ("idempotency_key", json_str (AdminCreateLoginProviderRequest.idempotency_key request));
    ("provider_kind", json_str (AdminCreateLoginProviderRequest.provider_kind request));
    ("display_name", json_str (AdminCreateLoginProviderRequest.display_name request));
    ("config_document", AdminCreateLoginProviderRequest.config_document request)].

(** The operation performed once per idempotency key. *)
Definition create_and_audit_provider drawn actor (request : AdminCreateLoginProviderRequest.t V) now
    : Eff V :=
  reading (λ s, reject_validation_errors (provider_errors actor request s));;
  provider ← insert_login_provider (Drawn.resource drawn)
    (CreateLoginProviderRequest.mk (AuthenticatedActor.tenant_id actor)
       (AdminCreateLoginProviderRequest.provider_kind request)
       (AdminCreateLoginProviderRequest.display_name request)
       (AdminCreateLoginProviderRequest.config_document request)
       (actor_principal_or_actor_id actor)) now;
  audit_event_id ← audit_login_provider drawn actor "gateway.identity_provider.create" provider None
    (login_provider_create_diff provider) now;
  mret (json_obj [
    ("schema", json_str "gateway.admin.identity_provider_mutation.v1");
    ("resource", login_provider_resource_body provider);
    ("audit_event_id", json_str audit_event_id);
    ("idempotency_replayed", json_bool false)]).

Definition create_login_provider drawn actor (request : AdminCreateLoginProviderRequest.t V) now
    : Eff V :=
  let tenant_id := AuthenticatedActor.tenant_id actor in
  lift (validate_idempotency_key (AdminCreateLoginProviderRequest.idempotency_key request));;
  authorize_login drawn actor "POST" "/admin/v1/identity-providers" tenant_id now;;
  let request_hash := stable_request_hash (create_login_provider_json request) in
  let scope_key := idempotency_scope_key "identity_providers:create"
    (AdminCreateLoginProviderRequest.idempotency_key request) in
  replay ← on_store (idempotency_response tenant_id scope_key request_hash now);
  match replay with
  | Some response => mret (response_with_replay_flag response true)
  | None =>
      response ← create_and_audit_provider drawn actor request now;
      on_store (record_idempotent_admin_response tenant_id scope_key request_hash response now);;
      mret response
  end.

Definition get_login_provider drawn actor (id : string) now : Eff V :=
  authorize_login drawn actor "GET" "/admin/v1/identity-providers/{login_provider_id}" id now;;
  provider ← reading (login_provider_for_actor actor id);
  mret (json_obj [
    ("schema", json_str "gateway.admin.identity_provider.v1");
    ("resource", login_provider_resource_body provider)]).

Definition validate_login_provider_status (status : ResourceStatus.t) : Result unit :=
  match status with
  | ResourceStatus.Active | ResourceStatus.Disabled | ResourceStatus.Deleted => Ok tt
  | _ => bad_request "login_provider_status_invalid"
  end.

Definition update_login_provider drawn actor (id : string)
    (request : AdminUpdateLoginProviderRequest.t) now : Eff V :=
  lift (validate_login_provider_status (AdminUpdateLoginProviderRequest.status request));;
  authorize_login drawn actor "PATCH" "/admin/v1/identity-providers/{login_provider_id}" id now;;
  before ← reading (login_provider_for_actor actor id);
  updated ← update_login_provider_status id (AdminUpdateLoginProviderRequest.expected_version request)
              (AdminUpdateLoginProviderRequest.status request) now;
  audit_event_id ← audit_login_provider drawn actor "gateway.identity_provider.update" updated
    (Some (LoginProviderRecord.resource_version before))
    (status_and_reason (ResourceStatus.as_str (LoginProviderRecord.status before))
       (ResourceStatus.as_str (LoginProviderRecord.status updated))
       (AdminUpdateLoginProviderRequest.reason request)) now;
  mret (json_obj [
    ("schema", json_str "gateway.admin.identity_provider_mutation.v1");
    ("resource", login_provider_resource_body updated);
    ("audit_event_id", json_str audit_event_id)]).

(** *** Providers, as a visitor sees them *)

Definition list_auth_login_providers (tenant_id : option string) : Eff V :=
  providers ← gets (λ s, match tenant_id with
                         | Some tenant_id => login_providers_for_tenant tenant_id s
                         | None => []
                         end);
  let single_user :=
    match LoginConfig.single_user_auth config with
    | Some single_user =>
        if match tenant_id with
           | Some tenant_id => SingleUserAuthConfig.tenant_id single_user ==? tenant_id
           | None => true
           end
        then [single_user_auth_provider_resource_body single_user] else []
    | None => []
    end in
  mret (json_obj [
    ("schema", json_str "gateway.auth.provider_list.v1");
    ("resources", json_arr (single_user ++ (auth_login_provider_resource_body <$>
       List.filter (λ p, LoginProviderRecord.status p ==? ResourceStatus.Active) providers)));
    ("next_cursor", json_null)]).

Definition no_single_user {A} : Result A :=
  not_found ("login provider " +:+ SINGLE_USER_PROVIDER_ID).

Definition single_user_provider_response : Result V :=
  match LoginConfig.single_user_auth config with
  | None => no_single_user
  | Some single_user =>
      Ok (json_obj [
        ("schema", json_str "gateway.auth.provider.v1");
        ("resource", single_user_auth_provider_resource_body single_user)])
  end.

Definition get_auth_login_provider (id : string) : Eff V :=
  if id ==? SINGLE_USER_PROVIDER_ID then lift single_user_provider_response
  else
    provider ← reading (active_login_provider id);
    mret (json_obj [
      ("schema", json_str "gateway.auth.provider.v1");
      ("resource", auth_login_provider_resource_body provider)]).

(** *** Starting a login *)

Definition login_provider_start_response (draws : StartDraws.t) provider now : Eff V :=
  authorization_endpoint ← lift (login_provider_authorization_endpoint config provider);
  client_id ← lift (ok_or (provider_text provider "client_id") (invalid_provider "client_id_missing"));
  redirect_uri ← lift (ok_or (provider_text provider "redirect_uri")
                         (invalid_provider "redirect_uri_missing"));
  let state_token := random_login_token "gwst" (StartDraws.state_bytes draws) in
  let nonce := if LoginProviderRecord.provider_kind provider ==? "oidc"
               then Some (random_login_token "gwnc" (StartDraws.nonce_bytes draws)) else None in
  let code_verifier := random_pkce_code_verifier (StartDraws.verifier_bytes draws) in
  let code_challenge := pkce_s256_challenge code_verifier in
  create_login_attempt (StartDraws.attempt draws)
    (CreateLoginAttemptRequest.mk (LoginProviderRecord.tenant_id provider)
       (LoginProviderRecord.login_provider_id provider) (LoginProviderRecord.provider_kind provider)
       (login_secret_hash state_token) (login_secret_hash <$> nonce) (login_secret_hash code_verifier)
       code_verifier code_challenge redirect_uri (now + duration_seconds 600)%Z) now;;
  let params := [
    ("response_type", "code");
    ("client_id", client_id);
    ("redirect_uri", redirect_uri);
    ("scope", join " " (login_provider_scope_values provider));
    ("state", state_token);
    ("code_challenge", code_challenge);
    ("code_challenge_method", "S256")]
    ++ match nonce with Some nonce => [("nonce", nonce)] | None => [] end in
  mret (json_obj [
    ("authorization_url", json_str (authorization_endpoint +:+ "?" +:+ oauth_query_string params));
    ("state", json_str state_token);
    ("nonce", json_option_str nonce);
    ("pkce", json_obj [
       ("code_challenge", json_str code_challenge);
       ("code_challenge_method", json_str "S256")]);
    ("expires_in_seconds", json_int 600)]).

Definition start_auth_login_provider (draws : StartDraws.t) (id : string) now : Eff V :=
  if id ==? SINGLE_USER_PROVIDER_ID then
    match LoginConfig.single_user_auth config with
    | None => lift no_single_user
    | Some _ => lift (bad_request "single_user_provider_uses_password_login")
    end
  else
    provider ← reading (active_login_provider id);
    start ← login_provider_start_response draws provider now;
    mret (json_obj [
      ("schema", json_str "gateway.auth.login_start.v1");
      ("provider", auth_login_provider_resource_body provider);
      ("authorization", start)]).

(** *** Completing a login *)

Definition persist_auth_session (record : AuthSessionRecord.t) : Eff unit :=
  on_directory (on_auth (λ a, (Ok tt, insert_auth_session record a))).

Definition record_external_login_audit (draws : LoginDraws.t) provider (user : UserRecord.t)
    (identity : ExternalIdentityRecord.t) (created_user : bool) now : Eff unit :=
  on_store (record_audit_event (AuditEventRecord.mk (new_prefixed_id "aud" (LoginDraws.audit draws))
    "gateway.auth.external_login" (UserRecord.tenant_id user)
    (UserRecord.default_organization_id user) (UserRecord.default_project_id user) "tenant"
    (UserRecord.tenant_id user) "User" (UserRecord.user_id user) None
    (Some (UserRecord.resource_version user)) (UserRecord.user_id user) ActorKind.User
    (Some (UserRecord.user_id user)) (new_prefixed_id "req" (LoginDraws.request draws))
    (new_prefixed_id "tr" (LoginDraws.trace draws))
    (json_obj [
       ("login_provider_id", json_str (LoginProviderRecord.login_provider_id provider));
       ("provider_kind", json_str (LoginProviderRecord.provider_kind provider));
       ("external_identity_id", json_str (ExternalIdentityRecord.external_identity_id identity));
       ("created_user", json_bool created_user);
       ("email_hash", json_option_str (ExternalIdentityRecord.email identity
                        ≫= external_identity_email_hash));
       ("raw_tokens_included", json_bool false);
       ("authorization_code_included", json_bool false)]) now)).

(** The session of a login: its record, the raw token and the part of the
    response that carries it. *)
Definition session_document (record : AuthSessionRecord.t) (raw_token : string) : V :=
  json_obj [
    ("token_type", json_str "Bearer");
    ("session_token", json_str raw_token);
    ("expires_at", json_datetime (AuthSessionRecord.expires_at record))].

Definition upsert_request provider (claims : ExternalLoginVerifiedClaims.t)
    : UpsertExternalLoginIdentityRequest.t :=
  UpsertExternalLoginIdentityRequest.mk (LoginProviderRecord.tenant_id provider)
    (LoginProviderRecord.login_provider_id provider) (LoginProviderRecord.provider_kind provider)
    (trim (ExternalLoginVerifiedClaims.subject claims))
    (ExternalLoginVerifiedClaims.email claims ≫= normalized_email)
    (ExternalLoginVerifiedClaims.email_verified claims) (external_login_display_name claims).

Definition login_session (draws : LoginDraws.t) (user : UserRecord.t) now
    : AuthSessionRecord.t * string :=
  create_auth_session (LoginDraws.session draws) (LoginDraws.token_bytes draws)
    (CreateAuthSessionRequest.mk (UserRecord.tenant_id user) (UserRecord.user_id user)
       (UserRecord.default_organization_id user) (UserRecord.default_project_id user)
       (now + duration_seconds DEFAULT_AUTH_SESSION_TTL_SECONDS)%Z) now.

(** A login from the moment its attempt was consumed. *)
Definition complete_consumed_login (draws : LoginDraws.t) provider
    (attempt : ConsumedLoginAttempt.t) (request : ExternalLoginCallbackRequest.t) now : Eff V :=
  claims ← reading (external_login_callback_claims config provider attempt request now);
  lift (validate_external_login_claims_against_attempt provider (ConsumedLoginAttempt.record attempt)
          claims);;
  '(user, identity, created_user) ← on_directory
     (upsert_external_login_identity (LoginDraws.user draws) (LoginDraws.identity draws)
        (upsert_request provider claims) now);
  lift (refuse_if (negb (DirectoryStatus.accepts_access (UserRecord.status user)))
          GatewayError.Authentication);;
  let '(session, raw_token) := login_session draws user now in
  session_body ← gets (λ s, auth_session_response_body session (LoginState.directory s));
  persist_auth_session session;;
  record_external_login_audit draws provider user identity created_user now;;
  mret (json_obj [
    ("schema", json_str "gateway.auth.external_login_callback.v1");
    ("provider", auth_login_provider_resource_body provider);
    ("session", session_document session raw_token);
    ("csrf", auth_session_csrf_body session);
    ("user", user_session_resource_body user);
    ("external_identity", external_identity_resource_body identity);
    ("auth_context", session_body);
    ("created_user", json_bool created_user)]).

Definition complete_auth_login_provider_callback (draws : LoginDraws.t) (id : string)
    (request : ExternalLoginCallbackRequest.t) now : Eff V :=
  provider ← reading (active_login_provider id);
  lift (validate_external_login_callback_request_shape request);;
  lift (ensure_external_login_callback_adapter_available config provider request);;
  attempt ← consume_login_attempt (login_secret_hash (ExternalLoginCallbackRequest.state request)) id
              now;
  complete_consumed_login draws provider attempt request now.

(** *** The single user *)

Definition single_user_credentials_match (single_user : SingleUserAuthConfig.t)
    (request : SingleUserLoginRequest.t) : bool :=
  constant_time_bytes_eq (bytes_of (SingleUserAuthConfig.username single_user))
    (bytes_of (SingleUserLoginRequest.username request))
  && constant_time_bytes_eq (bytes_of (SingleUserAuthConfig.password single_user))
       (bytes_of (SingleUserLoginRequest.password request)).

Definition single_user_session (draws : LoginDraws.t) (single_user : SingleUserAuthConfig.t) now
    : AuthSessionRecord.t * string :=
  create_auth_session (LoginDraws.session draws) (LoginDraws.token_bytes draws)
    (CreateAuthSessionRequest.mk (SingleUserAuthConfig.tenant_id single_user)
       (SingleUserAuthConfig.user_id single_user)
       (Some (SingleUserAuthConfig.organization_id single_user))
       (Some (SingleUserAuthConfig.project_id single_user))
       (now + duration_seconds (SingleUserAuthConfig.session_ttl_seconds single_user))%Z) now.

Definition named (id display_name : string) : V :=
  json_obj [("id", json_str id); ("display_name", json_str display_name)].

Definition single_user_login (draws : LoginDraws.t) (request : SingleUserLoginRequest.t) now : Eff V :=
  single_user ← lift (ok_or (LoginConfig.single_user_auth config) GatewayError.NotReady);
  lift (refuse_if (negb (single_user_credentials_match single_user request))
          GatewayError.Authentication);;
  on_directory (bootstrap_single_user_if_configured config now);;
  let '(session, raw_token) := single_user_session draws single_user now in
  persist_auth_session session;;
  mret (json_obj [
    ("schema", json_str "gateway.auth.single_user_login.v1");
    ("session", session_document session raw_token);
    ("csrf", auth_session_csrf_body session);
    ("user", json_obj [
       ("id", json_str (SingleUserAuthConfig.user_id single_user));
       ("display_name", json_str (SingleUserAuthConfig.user_display_name single_user));
       ("primary_email", json_option_str (SingleUserAuthConfig.user_primary_email single_user))]);
    ("tenant", named (SingleUserAuthConfig.tenant_id single_user)
                 (SingleUserAuthConfig.tenant_display_name single_user));
    ("organization", named (SingleUserAuthConfig.organization_id single_user)
                       (SingleUserAuthConfig.organization_display_name single_user));
    ("project", named (SingleUserAuthConfig.project_id single_user)
                  (SingleUserAuthConfig.project_display_name single_user))]).
End handlers.
