(* ===== verification/GwLoginFacts.v ===== *)
(** * What signing in guarantees

    Runs of the directory and of the login handlers together.  A login that
    succeeds was verified against an attempt that it consumes; a user that was
    switched off gets no session by any of them, apart from the single configured
    user; the service and the store agree on what a provider may look like. *)

From S2P Require Import Prelude Order Text Domain Action HotState Routing Catalog Json Pricing.
From S2P Require Import RuntimePolicy Reconciler Delivery Auth CedarPolicy Publication GwRoute.
From S2P Require Import AdminRecords DraftCatalog AdminState AdminValidation AdminHandlers.
From S2P Require Import AdminEmergency AdminFacts DraftFacts AdminGuards AdminOutcomes AdminScenarios.
From S2P Require Import Provider GwRequest Directory DirectoryHandlers DirectoryFacts GwLogin.

(** ** Requests and runs *)

Section runs.
Context {V : Type} `{JsonLibrary V} `{JsonText V} `{JsonObject V} `{UriLibrary} `{Sha256Library}
  `{CedarParser} `{ChronoDisplay} `{AuthLibrary} `{LoginLibrary}.
Context (config : LoginConfig.t).
Abbreviation State := (LoginState.t V).
Abbreviation Eff := (M State GatewayError.t).

Inductive LoginRequest : Type :=
| InDirectory (request : DirectoryRequest)
| ListLoginProviders (drawn : Drawn.t) (actor : AuthenticatedActor.t) (now : DateTime)
| ValidateLoginProvider (drawn : Drawn.t) (actor : AuthenticatedActor.t)
    (request : AdminCreateLoginProviderRequest.t V) (now : DateTime)
| CreateLoginProvider (drawn : Drawn.t) (actor : AuthenticatedActor.t)
    (request : AdminCreateLoginProviderRequest.t V) (now : DateTime)
| GetLoginProvider (drawn : Drawn.t) (actor : AuthenticatedActor.t) (id : string) (now : DateTime)
| UpdateLoginProvider (drawn : Drawn.t) (actor : AuthenticatedActor.t) (id : string)
    (request : AdminUpdateLoginProviderRequest.t) (now : DateTime)
| ListAuthProviders (tenant_id : option string)
| GetAuthProvider (id : string)
| StartLogin (draws : StartDraws.t) (id : string) (now : DateTime)
| CompleteLogin (draws : LoginDraws.t) (id : string) (request : ExternalLoginCallbackRequest.t)
    (now : DateTime)
| SingleUserLogin (draws : LoginDraws.t) (request : SingleUserLoginRequest.t) (now : DateTime).

Definition serve_login (request : LoginRequest) (s : State) : State :=
  match request with
  | InDirectory request => LoginState.set_directory s (serve request (LoginState.directory s))
  | ListLoginProviders drawn actor now => (list_login_providers drawn actor now s).2
  | ValidateLoginProvider drawn actor request now =>
      (validate_login_provider config drawn actor request now s).2
  | CreateLoginProvider drawn actor request now =>
      (create_login_provider config drawn actor request now s).2
  | GetLoginProvider drawn actor id now => (get_login_provider drawn actor id now s).2
  | UpdateLoginProvider drawn actor id request now =>
      (update_login_provider drawn actor id request now s).2
  | ListAuthProviders tenant_id => (list_auth_login_providers config tenant_id s).2
  | GetAuthProvider id => (get_auth_login_provider config id s).2
  | StartLogin draws id now => (start_auth_login_provider config draws id now s).2
  | CompleteLogin draws id request now =>
      (complete_auth_login_provider_callback config draws id request now s).2
  | SingleUserLogin draws request now => (single_user_login config draws request now s).2
  end.

Definition serve_logins (requests : list LoginRequest) (s : State) : State :=
  fold_left (λ s request, serve_login request s) requests s.

(** A property each of some requests keeps holds after all of them. *)
Lemma runs_keep (P : State → Prop) (ok : LoginRequest → Prop) requests s :
  (∀ request s, ok request → P s → P (serve_login request s)) →
  Forall ok requests → P s → P (serve_logins requests s).
Proof.
  intros Hstep Hl. revert s. induction Hl as [|request requests Hr _ IH]; intros s Hs; [done|].
  simpl. apply IH. by apply Hstep.
Qed.

(** Operations of the directory, of a property of the directory. *)
Lemma kept_on_directory {A} (R : Directory.t V → Prop) (op : M (Directory.t V) GatewayError.t A) :
  keeps R op → keeps (λ s, R (LoginState.directory s)) (on_directory op).
Proof. intros Hop s Hs. unfold on_directory. specialize (Hop _ Hs). by destruct (op _). Qed.
Lemma kept_directory {A} (P : State → Prop) (op : M (Directory.t V) GatewayError.t A) :
  (∀ s d, P s → P (LoginState.set_directory s d)) → keeps P (on_directory op).
Proof. intros Hf s Hs. unfold on_directory. destruct (op _). by apply Hf. Qed.
End runs.

(** Take a login handler apart, down to the operations on the tables; [dir] is
    tried on the operations of the directory. *)
Ltac login_keep dir :=
  repeat match goal with
    | |- forall _, _ => intros
    | |- keeps _ (mret _) => apply kept_ret
    | |- keeps _ (reading _) => apply kept_reading
    | |- keeps _ (gets _) => apply kept_gets
    | |- keeps _ (lift _) => apply kept_lift
    | |- keeps _ (on_directory _) => solve [dir]
    | |- keeps _ (on_store _) => solve [dir]
    | |- keeps _ (authorize_login _ _ _ _ _ _) => solve [dir]
    | |- keeps _ (audit_login_provider _ _ _ _ _ _ _) => solve [dir]
    | |- keeps _ (let '(_, _) := ?x in _) => destruct x
    | |- keeps _ (match ?x with Some _ => _ | None => _ end) => destruct x
    | |- keeps _ (if ?x then _ else _) => destruct x
    | |- keeps _ (reading _ ≫= _) => apply kept_bind_reading
    | |- keeps _ (lift _ ≫= _) => apply kept_bind_lift
    | |- keeps _ (_ ≫= _) => apply kept_bind
    end.

Ltac login_handlers :=
  unfold list_login_providers, validate_login_provider, create_login_provider,
    create_and_audit_provider, get_login_provider, update_login_provider,
    list_auth_login_providers, get_auth_login_provider, start_auth_login_provider,
    login_provider_start_response, complete_auth_login_provider_callback, complete_consumed_login,
    single_user_login,
    persist_auth_session, record_external_login_audit.

Section properties.
Context {V : Type} `{JsonLibrary V} `{JsonText V} `{JsonObject V} `{UriLibrary} `{Sha256Library}
  `{CedarParser} `{ChronoDisplay} `{AuthLibrary} `{LoginLibrary}.
Context (config : LoginConfig.t).
Abbreviation State := (LoginState.t V).
Abbreviation Eff := (M State GatewayError.t).
Implicit Types (s : State) (now : DateTime) (d : Directory.t V).

(** Providers stay under their ids. *)
Definition providers_keyed s : Prop :=
  keyed_by LoginProviderRecord.login_provider_id (LoginState.login_providers s).

Lemma providers_keyed_serve request s : providers_keyed s → providers_keyed (serve_login config request s).
Proof.
  destruct request; intros Hs; [done|..]; cbn [serve_login]; as_keeps; login_handlers;
    login_keep ltac:(by apply kept_directory).
  - intros st Hst. unfold insert_login_provider. destruct (validate_login_provider_request _ _); [|done].
    by apply keyed_insert.
  - intros st Hst. unfold update_login_provider_status.
    destruct (update_versioned _ _ _ _ _ _) as [[r m]|] eqn:E; [|done]. by eapply versioned_keyed.
  - intros st Hst. unfold create_login_attempt. cbv zeta. by destruct (is_some _).
  - intros st Hst. unfold consume_login_attempt. repeat case_match; done.
Qed.

(** ** Attempts are used once *)

Definition attempt_spent (state_hash : string) s : Prop :=
  ∃ attempt, LoginState.login_attempts s !! state_hash = Some attempt
    ∧ LoginAttemptRecord.status attempt ≠ "pending".

Lemma spent_create h uuid request now : keeps (attempt_spent h) (create_login_attempt (V:=V) uuid request now).
Proof.
  intros s (a & Ha & Hp). unfold create_login_attempt. cbv zeta. destruct (is_some _) eqn:E; [by exists a|].
  exists a. split; [|done]. cbn. rewrite lookup_insert_ne; [done|]. intros <-. by rewrite Ha in E.
Qed.
Lemma spent_consume h state_hash id now : keeps (attempt_spent h) (consume_login_attempt (V:=V) state_hash id now).
Proof.
  intros s (a & Ha & Hp). unfold consume_login_attempt.
  destruct (LoginState.login_attempts s !! state_hash) as [b|] eqn:E; [|by exists a].
  destruct (_ || _); [by exists a|]. cbv zeta.
  assert (attempt_spent h (LoginState.set_attempts s
    (<[state_hash := LoginAttemptRecord.consumed b now]> (LoginState.login_attempts s))
    (delete state_hash (LoginState.login_attempt_code_verifiers s)))) as Hs.
  { destruct (decide (h = state_hash)) as [->|Hne].
    - eexists. split; [apply lookup_insert_eq|done].
    - exists a. split; [|done]. cbn. by rewrite lookup_insert_ne. }
  by destruct (LoginState.login_attempt_code_verifiers s !! state_hash).
Qed.

(** A property of the attempts that starting and completing a login keep. *)
Lemma attempts_serve (P : State → Prop) request s :
  (∀ s d, P s → P (LoginState.set_directory s d)) →
  (∀ s x, P s → P (LoginState.set_login_providers s x)) →
  (∀ uuid start now, keeps P (create_login_attempt (V:=V) uuid start now)) →
  (∀ draws id callback now, request = CompleteLogin draws id callback now →
     keeps P (consume_login_attempt (V:=V)
       (login_secret_hash (ExternalLoginCallbackRequest.state callback)) id now)) →
  P s → P (serve_login config request s).
Proof.
  intros Hd Hp Hcreate Hconsume Hs.
  destruct request; [by apply Hd|..]; cbn [serve_login]; as_keeps; login_handlers;
    login_keep ltac:(by apply kept_directory).
  - intros st Hst. unfold insert_login_provider. destruct (validate_login_provider_request _ _); [by apply Hp|done].
  - intros st Hst. unfold update_login_provider_status.
    destruct (update_versioned _ _ _ _ _ _) as [[]|]; [by apply Hp|done].
  - apply Hcreate.
  - by eapply Hconsume.
Qed.

Lemma spent_serve h request s : attempt_spent h s → attempt_spent h (serve_login config request s).
Proof. apply attempts_serve; auto using spent_create, spent_consume. Qed.

(** A login that was started and not completed. *)
Definition attempt_open (h : string) (attempt : LoginAttemptRecord.t) (verifier : string) s : Prop :=
  LoginState.login_attempts s !! h = Some attempt
  ∧ LoginState.login_attempt_code_verifiers s !! h = Some verifier.

(** The request is not a callback for this attempt. *)
Definition leaves_attempt (h : string) (request : LoginRequest (V:=V)) : Prop :=
  match request with
  | CompleteLogin _ _ callback _ => login_secret_hash (ExternalLoginCallbackRequest.state callback) ≠ h
  | _ => True
  end.

Lemma open_serve h attempt verifier request s :
  leaves_attempt h request → attempt_open h attempt verifier s →
  attempt_open h attempt verifier (serve_login config request s).
Proof.
  intros Hl. apply attempts_serve; [done|done|..].
  - intros uuid start now st [Ha Hv]. unfold create_login_attempt. cbv zeta.
    destruct (is_some _) eqn:E; [done|]. split; cbn; (rewrite lookup_insert_ne; [done|]); intros <-;
      by rewrite Ha in E.
  - intros draws id callback now -> st [Ha Hv]. simpl in Hl. unfold consume_login_attempt.
    set (k := login_secret_hash _) in *.
    destruct (LoginState.login_attempts st !! k) as [b|]; [|done]. destruct (_ || _); [done|]. cbv zeta.
    destruct (LoginState.login_attempt_code_verifiers st !! k);
      (split; cbn; [by rewrite lookup_insert_ne|by rewrite lookup_delete_ne]).
Qed.

Lemma open_redeemed h attempt verifier later s :
  attempt_open h attempt verifier s → LoginAttemptRecord.status attempt = "pending" →
  (later < LoginAttemptRecord.expires_at attempt)%Z →
  consume_login_attempt (V:=V) h (LoginAttemptRecord.login_provider_id attempt) later s
  = (Ok (ConsumedLoginAttempt.mk (LoginAttemptRecord.consumed attempt later) verifier),
     LoginState.set_attempts s
       (<[h := LoginAttemptRecord.consumed attempt later]> (LoginState.login_attempts s))
       (delete h (LoginState.login_attempt_code_verifiers s))).
Proof.
  intros [Ha Hv] Hp Hl. unfold consume_login_attempt. rewrite Ha, Hv.
  by rewrite !bool_decide_true, (proj2 (Z.leb_gt _ _) Hl).
Qed.

(** C24. A login that was started can be completed.  The answer carries a state
    and the S256 challenge of a code verifier.  For ten minutes, and whatever is
    served in between but callbacks with that state, the attempt is redeemed for
    that very verifier: a callback with the state and a code, to the provider that
    is still active under the id and takes such a callback, goes on with the
    verifier, the tenant of the provider and the nonce that was sent, in the
    state in which the attempt is consumed. *)
Theorem started_login_redeemable draws id now s response s' requests later code claims :
  start_auth_login_provider config draws id now s = (Ok response, s') →
  providers_keyed s →
  let token := random_login_token "gwst" (StartDraws.state_bytes draws) in
  let h := login_secret_hash token in
  let callback := ExternalLoginCallbackRequest.mk token code claims in
  let s1 := serve_logins config requests s' in
  Forall (leaves_attempt h) requests →
  (later < now + duration_seconds 600)%Z → trim code ≠ "" →
  ∃ provider attempt verifier fields authorization,
    LoginState.login_providers s !! id = Some provider
    ∧ response = json_obj fields ∧ ("authorization", json_obj authorization) ∈ fields
    ∧ ("state", json_str token) ∈ authorization
    ∧ ("pkce", json_obj [("code_challenge", json_str (pkce_s256_challenge verifier));
                         ("code_challenge_method", json_str "S256")]) ∈ authorization
    ∧ validate_external_login_callback_request_shape callback = Ok tt
    ∧ (consume_login_attempt h id later s1).1 = Ok (ConsumedLoginAttempt.mk attempt verifier)
    ∧ (∀ login_draws current,
         active_login_provider id s1 = Ok current →
         ensure_external_login_callback_adapter_available config current callback = Ok tt →
         complete_auth_login_provider_callback config login_draws id callback later s1
         = complete_consumed_login config login_draws current
             (ConsumedLoginAttempt.mk attempt verifier) callback later
             (LoginState.set_attempts s1 (<[h := attempt]> (LoginState.login_attempts s1))
                (delete h (LoginState.login_attempt_code_verifiers s1))))
    ∧ LoginAttemptRecord.status attempt = "consumed"
    ∧ LoginAttemptRecord.tenant_id attempt = LoginProviderRecord.tenant_id provider
    ∧ (LoginProviderRecord.provider_kind provider = "oidc" → ∃ nonce,
        ("nonce", json_str nonce) ∈ authorization
        ∧ LoginAttemptRecord.nonce_hash attempt = Some (login_secret_hash nonce)).
Proof.
  intros E Hk token h callback s1 Hr Hlater Hcode. unfold start_auth_login_provider in E.
  destruct (id ==? _); [by destruct (LoginConfig.single_user_auth config)|].
  apply bind_run in E as (provider & s0 & [Hp ->]%reading_run & E). apply filtered_ok in Hp as [Hp _].
  apply bind_run in E as (start & s0 & Hs & [= <- <-]).
  apply bind_run in Hs as (endpoint & s2 & [_ ->]%lift_run & Hs).
  apply bind_run in Hs as (client & s2 & [_ ->]%lift_run & Hs).
  apply bind_run in Hs as (redirect & s2 & [_ ->]%lift_run & Hs). cbv zeta in Hs.
  apply bind_run in Hs as (attempt & s2 & Hc & [= <- <-]).
  unfold create_login_attempt in Hc. cbv zeta in Hc. destruct (is_some _); [done|]. injection Hc as Hat Hs'.
  assert (attempt_open h attempt (random_pkce_code_verifier (StartDraws.verifier_bytes draws))
    (serve_logins config requests s2)) as Hopen.
  { apply (runs_keep config (attempt_open h attempt _) (leaves_attempt h)); [|done|].
    - intros; by apply open_serve.
    - subst s2 attempt. split; apply lookup_insert_eq. }
  assert (validate_external_login_callback_request_shape callback = Ok tt) as Hshape.
  { unfold validate_external_login_callback_request_shape. apply refuse_if_false.
    cbn [callback ExternalLoginCallbackRequest.state ExternalLoginCallbackRequest.code].
    rewrite (proj2 (starts_with_app "gwst_" token)), bool_decide_false; [done|done|].
    unfold token, random_login_token. by eexists. }
  assert (LoginAttemptRecord.login_provider_id attempt = id) as Eid by (subst attempt; exact (Hk _ _ Hp)).
  pose proof (open_redeemed h attempt _ later s1 Hopen) as Hredeem. rewrite Eid in Hredeem.
  specialize (Hredeem ltac:(by subst attempt) ltac:(by subst attempt)).
  eexists provider, (LoginAttemptRecord.consumed attempt later), _, _, _.
  split_and!; [exact Hp|reflexivity|do 2 right; left|right; left|do 3 right; left|done|..].
  - by rewrite Hredeem.
  - intros login_draws current Hcur Had. unfold complete_auth_login_provider_callback.
    unfold mbind at 1, M_bind at 1, reading at 1. rewrite Hcur.
    unfold mbind at 1, M_bind at 1, lift at 1. rewrite Hshape.
    unfold mbind at 1, M_bind at 1, lift at 1. rewrite Had.
    unfold mbind at 1, M_bind at 1. change (ExternalLoginCallbackRequest.state callback) with token.
    fold h. by rewrite Hredeem.
  - done.
  - by subst attempt.
  - intros Ekind. exists (random_login_token "gwnc" (StartDraws.nonce_bytes draws)).
    split; [do 2 right; rewrite (bool_decide_true _ Ekind); left|]. subst attempt.
    cbn [LoginAttemptRecord.nonce_hash LoginAttemptRecord.consumed].
    rewrite (bool_decide_true _ Ekind). reflexivity.
Qed.

(** ** A session that was opened is accepted until it expires *)

Lemma is_ascii_app a b : is_ascii (a +:+ b) = is_ascii a && is_ascii b.
Proof. induction a as [|c a IH]; [done|]. simpl. by rewrite <- andb_assoc, <- IH. Qed.
Lemma substring_ascii n m a : is_ascii a = true → is_ascii (String.substring n m a) = true.
Proof.
  revert n m. induction a as [|c a IH]; intros [|n] [|m]; simpl; try done; intros [Hc Ha]%andb_prop.
  - by rewrite Hc, IH.
  - by apply IH.
  - by apply IH.
Qed.
Lemma hex_char_ascii i : is_ascii (hex_char i) = true.
Proof. by apply substring_ascii. Qed.
Lemma session_token_shape bytes :
  is_ascii (generate_raw_session_token bytes) = true
  ∧ starts_with "sws_" (generate_raw_session_token bytes) = true.
Proof.
  unfold generate_raw_session_token, generate_raw_prefixed_token. split.
  - rewrite is_ascii_app. induction bytes as [|b bytes IH]; [done|]. simpl foldr.
    by rewrite !is_ascii_app, !hex_char_ascii.
  - apply starts_with_app. eauto.
Qed.

Lemma opened_session_accepted uuid bytes request now later a :
  (later < CreateAuthSessionRequest.expires_at request)%Z →
  let '(session, token) := create_auth_session uuid bytes request now in
  verify_session_token token later (insert_auth_session session a) = Ok session.
Proof.
  intros Hl. unfold create_auth_session, verify_session_token. cbv zeta.
  destruct (session_token_shape bytes) as [-> ->]. simpl negb. cbn [orb].
  unfold session_by_hash, insert_auth_session. cbn. rewrite lookup_insert_eq.
  unfold constant_time_eq. rewrite bool_decide_true by done. unfold AuthSessionRecord.can_authenticate_at. cbn.
  by rewrite (proj2 (Z.ltb_lt _ _) Hl).
Qed.

(** ** What a completed login was checked against *)

(** The claims are those the caller gave, which only a provider in the mode
    [local_verified_claims] takes, and only in a local or test environment. *)
Definition given_locally (provider : LoginProviderRecord.t V)
    (request : ExternalLoginCallbackRequest.t) (claims : ExternalLoginVerifiedClaims.t) : Prop :=
  local_claims (LoginProviderRecord.config_document provider) = true
  ∧ allows_local_callback_adapter (LoginConfig.environment config) = true
  ∧ ExternalLoginCallbackRequest.verified_claims request = Some claims.

(** The provider vouches for the claims: the caller gave none, and they come from
    a token that answers this client's request for the code and the attempt's
    verifier, was signed with a key of the provider's key set and an asymmetric
    algorithm it supports, and bears the attempt's nonce. *)
Definition vouched (provider : LoginProviderRecord.t V) (attempt : ConsumedLoginAttempt.t)
    (request : ExternalLoginCallbackRequest.t) s (claims : ExternalLoginVerifiedClaims.t) : Prop :=
  LoginProviderRecord.provider_kind provider = "oidc"
  ∧ ExternalLoginCallbackRequest.verified_claims request = None
  ∧ ∃ metadata id_token alg kid jwks jwk token client_id nonce,
      resolve_oidc_provider_metadata config provider = Ok metadata
      ∧ exchange_oidc_authorization_code provider attempt request metadata s = Ok id_token
      ∧ decode_header id_token = Some (alg, kid)
      ∧ alg ∈ OidcProviderMetadata.supported_algs metadata
      ∧ oidc_algorithm_is_asymmetric alg = true
      ∧ fetch_json jwks_from_str (OidcProviderMetadata.jwks_uri metadata) = Ok jwks
      ∧ jwk ∈ jwks ∧ (∀ k, kid = Some k → key_id jwk = Some k)
      ∧ decode_token jwk alg (OidcProviderMetadata.issuer metadata) client_id id_token = Some token
      ∧ provider_text provider "client_id" = Some client_id
      ∧ OidcAudience.contains (OidcIdTokenClaims.aud token) client_id = true
      ∧ OidcIdTokenClaims.nonce token = Some nonce
      ∧ LoginAttemptRecord.nonce_hash (ConsumedLoginAttempt.record attempt)
          = Some (login_secret_hash nonce)
      ∧ ExternalLoginVerifiedClaims.subject claims = OidcIdTokenClaims.sub token.

Lemma selected_jwk jwks kid alg jwk :
  select_oidc_jwk jwks kid alg = Ok jwk → jwk ∈ jwks ∧ ∀ k, kid = Some k → key_id jwk = Some k.
Proof.
  unfold select_oidc_jwk. destruct kid as [k|].
  - intros [Hin Hk]%or_not_found_ok%find_Some_in. apply filter_iff in Hin as [Hin _]. btrue.
    split; [done|]. by intros ? [= <-].
  - destruct (List.filter _ _) as [|x [|y l]] eqn:E; [done| |done]. intros [= <-].
    split; [|done]. apply (filter_iff (oidc_jwk_is_usable None alg)). rewrite E. set_solver.
Qed.

Lemma required_text (provider : LoginProviderRecord.t V) field value :
  required_login_config_string provider field = Ok value → provider_text provider field = Some value.
Proof.
  unfold required_login_config_string. destruct (provider_text provider field); [|done].
  destruct (_ ==? _); [done|]. by intros [= ->].
Qed.

Lemma claims_vouched provider attempt request now s claims :
  ensure_external_login_callback_adapter_available config provider request = Ok tt →
  external_login_callback_claims config provider attempt request now s = Ok claims →
  (given_locally provider request claims ∨ vouched provider attempt request s claims)
  ∧ validate_external_login_claims provider claims now = Ok tt.
Proof.
  unfold ensure_external_login_callback_adapter_available, external_login_callback_claims.
  destruct (local_claims _) eqn:El.
  { intros Ha%not_refused (x & Hx%or_not_found_ok & ([] & Hv & [= ->])%bind_ok)%bind_ok. btrue.
    split; [|done]. left. done. }
  destruct (LoginProviderRecord.provider_kind provider ==? "oidc") eqn:Ek; [|done]. btrue.
  intros Hn%not_refused (metadata & Hm & (id_token & Hx & Hr)%bind_ok)%bind_ok.
  apply bind_ok in Hr as (x & Ht & ([] & Hv & [= ->])%bind_ok). split; [|done]. right.
  split; [done|]. split; [by destruct (ExternalLoginCallbackRequest.verified_claims request)|].
  unfold validate_oidc_id_token in Ht. cbv zeta in Ht.
  apply bind_ok in Ht as (client_id & Hc%required_text & Ht).
  apply bind_ok in Ht as ([alg kid] & Hh%or_not_found_ok & Ht).
  apply bind_ok in Ht as (u1 & Halg%not_refused & Ht). apply bind_ok in Ht as (jwks & Hj & Ht).
  apply bind_ok in Ht as (jwk & Hsel%selected_jwk & Ht).
  apply bind_ok in Ht as (token & Hd%or_not_found_ok & Ht).
  apply bind_ok in Ht as (u2 & Haud%not_refused & Ht).
  apply bind_ok in Ht as (nonce & Hnonce%or_not_found_ok & Ht).
  apply bind_ok in Ht as (u3 & Hhash%not_refused & Ht).
  apply bind_ok in Ht as (expires & _ & [= <-]). btrue.
  exists metadata, id_token, alg, kid, jwks, jwk, token, client_id, nonce. split_and!; try done.
  - apply existsb_exists in H8 as (a & Ha & Hb). btrue. subst. by apply list_elem_of_In.
  - by destruct (fetch_json _ _).
  - apply Hsel.
  - apply Hsel.
Qed.

Lemma consume_run h id now s attempt s' :
  consume_login_attempt h id now s = (Ok attempt, s') →
  ∃ pending verifier, LoginState.login_attempts s !! h = Some pending
    ∧ LoginAttemptRecord.login_provider_id pending = id
    ∧ LoginAttemptRecord.status pending = "pending"
    ∧ (now < LoginAttemptRecord.expires_at pending)%Z
    ∧ LoginState.login_attempt_code_verifiers s !! h = Some verifier
    ∧ attempt = ConsumedLoginAttempt.mk (LoginAttemptRecord.consumed pending now) verifier
    ∧ s' = LoginState.set_attempts s
             (<[h := LoginAttemptRecord.consumed pending now]> (LoginState.login_attempts s))
             (delete h (LoginState.login_attempt_code_verifiers s)).
Proof.
  unfold consume_login_attempt. destruct (LoginState.login_attempts s !! h) as [pending|]; [|done].
  destruct (_ || _) eqn:E; [done|]. btrue. cbv zeta.
  destruct (LoginState.login_attempt_code_verifiers s !! h) as [v|]; [|done]. intros [= <- <-].
  by exists pending, v.
Qed.

(** The identity of the claims, and the active user it stands for. *)
Definition stands_for (request : UpsertExternalLoginIdentityRequest.t) (user : UserRecord.t) d : Prop :=
  ∃ key identity, Directory.external_identities d !! key = Some identity
    ∧ identity_matches request identity = true
    ∧ ExternalIdentityRecord.status identity = ResourceStatus.Active
    ∧ Directory.users d !! ExternalIdentityRecord.principal_id identity = Some user.

Lemma upsert_run user_uuid identity_uuid request now d user identity created d' :
  upsert_external_login_identity user_uuid identity_uuid request now d
    = (Ok (user, identity, created), d') →
  stands_for request user d' ∧ DirectoryStatus.accepts_access (UserRecord.status user) = true.
Proof.
  intros (u & d0 & [_ ->]%lift_run & Hr)%bind_run. apply bind_run in Hr as (existing & d1 & He & Hr).
  unfold update_existing_external_identity in He.
  destruct (find_row _ _) as [[key x]|] eqn:Ef.
  - apply find_row_lookup in Ef as [Hx Hm]. destruct (_ !=? _) eqn:Es; [done|]. btrue.
    destruct (Directory.users d !! _) as [stored|] eqn:Eu; [|done].
    destruct (DirectoryStatus.accepts_access (UserRecord.status stored)) eqn:Ea; [|done].
    cbn in He. injection He as <- <-. injection Hr as <- <- <- <-. split; [|done].
    eexists key, _. split_and!; [apply lookup_insert_eq|done|done|done].
  - injection He as <- <-. apply bind_run in Hr as ([y z] & d2 & [= <- <- <-] & [= <- <- <- <-]).
    split; [|done]. eexists _, _. split; [apply lookup_insert_eq|].
    split_and!; [|done|apply lookup_insert_eq].
    unfold identity_matches. cbn. by rewrite !bool_decide_true.
Qed.

(** What the claims say, as the configuration of the provider wants it. *)
Record login_fits (provider : LoginProviderRecord.t V) (claims : ExternalLoginVerifiedClaims.t)
    (attempt : LoginAttemptRecord.t) now : Prop := {
  fit_subject : trim (ExternalLoginVerifiedClaims.subject claims) ≠ "";
  fit_email : ∀ email, ExternalLoginVerifiedClaims.email claims = Some email →
    is_some (normalized_email email) = true ∧ ExternalLoginVerifiedClaims.email_verified claims = true;
  fit_tenant : LoginAttemptRecord.tenant_id attempt = LoginProviderRecord.tenant_id provider;
  fit_provider :
    LoginAttemptRecord.login_provider_id attempt = LoginProviderRecord.login_provider_id provider;
  fit_issuer : LoginProviderRecord.provider_kind provider = "oidc" →
    ExternalLoginVerifiedClaims.issuer claims = provider_text provider "issuer"
    ∧ ExternalLoginVerifiedClaims.audience claims = provider_text provider "client_id";
  fit_nonce : LoginProviderRecord.provider_kind provider = "oidc" →
    ∃ nonce, ExternalLoginVerifiedClaims.nonce claims = Some nonce
      ∧ LoginAttemptRecord.nonce_hash attempt = Some (login_secret_hash nonce);
  fit_time : LoginProviderRecord.provider_kind provider = "oidc" →
    ∃ expires_at, ExternalLoginVerifiedClaims.expires_at claims = Some expires_at
      ∧ (now < expires_at)%Z;
}.

Lemma claims_checked provider claims attempt now :
  validate_external_login_claims provider claims now = Ok tt →
  validate_external_login_claims_against_attempt provider attempt claims = Ok tt →
  login_fits provider claims attempt now.
Proof.
  unfold validate_external_login_claims, validate_external_login_claims_against_attempt. cbv zeta.
  intros (u1 & Hs%not_refused & (u2 & He%not_refused & Hk)%bind_ok)%bind_ok.
  intros (u3 & Ht%not_refused & Hn%not_refused)%bind_ok. btrue.
  assert (LoginProviderRecord.provider_kind provider = "oidc" →
    validate_oidc_verified_claims provider claims now = Ok tt) as Ho.
  { intros E. by rewrite bool_decide_true in Hk. }
  split; try done.
  - intros email E. rewrite E in He. simpl in He. by btrue.
  - intros E. apply Ho in E. unfold validate_oidc_verified_claims in E. cbv zeta in E.
    apply bind_ok in E as (v1 & E1%not_refused & E). apply bind_ok in E as (v2 & E2%not_refused & E).
    by btrue.
  - intros E. specialize (Ho E). unfold validate_oidc_verified_claims in Ho. cbv zeta in Ho.
    apply bind_ok in Ho as (v1 & _ & Ho). apply bind_ok in Ho as (v2 & _ & Ho).
    apply bind_ok in Ho as (v3 & _ & Ho%not_refused). rewrite bool_decide_true in Hn by done. cbn in Hn.
    btrue. destruct (ExternalLoginVerifiedClaims.nonce claims) as [nonce|]; [|done]. by exists nonce.
  - intros E. specialize (Ho E). unfold validate_oidc_verified_claims in Ho. cbv zeta in Ho.
    apply bind_ok in Ho as (v1 & _ & Ho). apply bind_ok in Ho as (v2 & _ & Ho).
    apply bind_ok in Ho as (v3 & Hx%not_refused & _). btrue.
    destruct (ExternalLoginVerifiedClaims.expires_at claims) as [e|]; [|done]. exists e. split; [done|].
    simpl in Hx. by btrue.
Qed.

(** A spent attempt completes no login. *)
Lemma spent_refused draws id request now s :
  attempt_spent (login_secret_hash (ExternalLoginCallbackRequest.state request)) s →
  ∃ e, (complete_auth_login_provider_callback config draws id request now s).1 = Err e.
Proof.
  intros (a & Ha & Hp).
  destruct (complete_auth_login_provider_callback _ _ _ _ _ s) as [[response|e] s'] eqn:E; [|by exists e].
  apply bind_run in E as (provider & s0 & [_ ->]%reading_run & E).
  apply bind_run in E as (u & s0 & [_ ->]%lift_run & E). apply bind_run in E as (u' & s0 & [_ ->]%lift_run & E).
  apply bind_run in E as (attempt & s0 & Hc & _).
  apply consume_run in Hc as (pending & v & Hl & _ & Hst & _). congruence.
Qed.

(** The steps of a callback that succeeds. *)
Lemma callback_run draws id request now s response s' :
  complete_auth_login_provider_callback config draws id request now s = (Ok response, s') →
  let h := login_secret_hash (ExternalLoginCallbackRequest.state request) in
  ∃ provider pending verifier claims user d g,
    active_login_provider id s = Ok provider
    ∧ ensure_external_login_callback_adapter_available config provider request = Ok tt
    ∧ LoginState.login_attempts s !! h = Some pending
    ∧ LoginAttemptRecord.login_provider_id pending = id
    ∧ LoginAttemptRecord.status pending = "pending"
    ∧ (now < LoginAttemptRecord.expires_at pending)%Z
    ∧ LoginState.login_attempt_code_verifiers s !! h = Some verifier
    ∧ external_login_callback_claims config provider
        (ConsumedLoginAttempt.mk (LoginAttemptRecord.consumed pending now) verifier) request now s
      = Ok claims
    ∧ validate_external_login_claims_against_attempt provider
        (LoginAttemptRecord.consumed pending now) claims = Ok tt
    ∧ stands_for (upsert_request provider claims) user d
    ∧ DirectoryStatus.accepts_access (UserRecord.status user) = true
    ∧ (∃ fields, response = json_obj fields
         ∧ ("session", uncurry session_document (login_session draws user now)) ∈ fields)
    ∧ s' = LoginState.set_directory (LoginState.set_attempts s
             (<[h := LoginAttemptRecord.consumed pending now]> (LoginState.login_attempts s))
             (delete h (LoginState.login_attempt_code_verifiers s)))
             (Directory.set_store (Directory.set_auth d
                (insert_auth_session (login_session draws user now).1 (Directory.auth d))) g).
Proof.
  intros E h. apply bind_run in E as (provider & s0 & [Hp ->]%reading_run & E).
  apply bind_run in E as (u & s0 & [_ ->]%lift_run & E).
  apply bind_run in E as ([] & s0 & [Had ->]%lift_run & E).
  apply bind_run in E as (attempt & s1 & Hc & E).
  apply consume_run in Hc as (pending & v & Hl & Hlid & Hpend & Hexp & Hv & -> & ->).
  apply bind_run in E as (claims & s2 & [Hcl ->]%reading_run & E).
  apply bind_run in E as ([] & s2 & [Hat ->]%lift_run & E).
  apply bind_run in E as ([[user identity] created] & s3 & Hup & E).
  unfold on_directory in Hup.
  destruct (upsert_external_login_identity _ _ _ _ _) as [r d] eqn:Eu. injection Hup as -> <-.
  apply upsert_run in Eu as [Hid Hact]. cbn beta iota in E.
  apply bind_run in E as (u' & s4 & [_ ->]%lift_run & E). cbn beta iota zeta in E.
  apply bind_run in E as (body & s5 & [= _ <-] & E). apply bind_run in E as (u2 & s6 & [= _ <-] & E).
  apply bind_run in E as (u3 & s7 & Haud & E). injection E as <- <-.
  unfold record_external_login_audit, on_store, on_directory, on_admin in Haud.
  destruct (record_audit_event _ _) as [r' g] eqn:Ea. injection Haud as _ <-.
  exists provider, pending, v, claims, user, d, g. split_and!; try done.
  eexists. split; [done|]. set_solver.
Qed.

(** C23. An external login is verified, opens one session and cannot be repeated.
    A callback that succeeds names an active provider and the state of a pending
    attempt of that provider that has not expired; its claims fit the configuration
    of the provider, which vouches for them under the attempt's code verifier and
    nonce, unless it is in the mode [local_verified_claims] and the environment is
    local or test, where they are those of the caller; the session of the answer
    belongs to the active user the claimed subject stands for and is accepted in
    the state the login leaves at any time in the next twelve hours; and whatever
    is served afterwards, no callback with the same state succeeds again. *)
Theorem external_login_verified_once draws id request now s response s' :
  complete_auth_login_provider_callback config draws id request now s = (Ok response, s') →
  let h := login_secret_hash (ExternalLoginCallbackRequest.state request) in
  ∃ provider pending verifier claims user session token,
    LoginState.login_providers s !! id = Some provider
    ∧ LoginProviderRecord.status provider = ResourceStatus.Active
    ∧ LoginState.login_attempts s !! h = Some pending
    ∧ LoginAttemptRecord.login_provider_id pending = id
    ∧ LoginAttemptRecord.status pending = "pending"
    ∧ (now < LoginAttemptRecord.expires_at pending)%Z
    ∧ LoginState.login_attempt_code_verifiers s !! h = Some verifier
    ∧ (given_locally provider request claims
       ∨ vouched provider (ConsumedLoginAttempt.mk (LoginAttemptRecord.consumed pending now) verifier)
           request s claims)
    ∧ login_fits provider claims pending now
    ∧ stands_for (upsert_request provider claims) user (LoginState.directory s')
    ∧ DirectoryStatus.accepts_access (UserRecord.status user) = true
    ∧ AuthSessionRecord.principal_id session = UserRecord.user_id user
    ∧ (∃ fields, response = json_obj fields ∧ ("session", session_document session token) ∈ fields)
    ∧ (∀ later, (later < now + duration_seconds 43200)%Z →
         verify_session_token token later (Directory.auth (LoginState.directory s')) = Ok session)
    ∧ ∀ requests draws' id' request' later,
        ExternalLoginCallbackRequest.state request' = ExternalLoginCallbackRequest.state request →
        ∃ e, (complete_auth_login_provider_callback config draws' id' request' later
                (serve_logins config requests s')).1 = Err e.
Proof.
  intros E h. destruct (callback_run _ _ _ _ _ _ _ E) as (provider & pending & v & claims & user & d & g & Hp
    & Had & Hl & Hlid & Hpend & Hexp & Hv & Hcl & Hat & Hid & Hact & Hr & Hs').
  apply filtered_ok in Hp as [Hp Hps]. btrue.
  destruct (claims_vouched _ _ _ _ _ _ Had Hcl) as [Hvouch Hval].
  pose proof (claims_checked _ _ _ _ Hval Hat) as Hfit.
  destruct (login_session draws user now) as [session token] eqn:El.
  exists provider, pending, v, claims, user, session, token. split_and!; try done.
  - by destruct Hfit.
  - by rewrite Hs'.
  - by injection El as <- _.
  - intros later Hlater. rewrite Hs'. cbn.
    pose proof (opened_session_accepted (LoginDraws.session draws) (LoginDraws.token_bytes draws)
      (CreateAuthSessionRequest.mk (UserRecord.tenant_id user) (UserRecord.user_id user)
        (UserRecord.default_organization_id user) (UserRecord.default_project_id user)
        (now + duration_seconds DEFAULT_AUTH_SESSION_TTL_SECONDS)%Z) now later (Directory.auth d) Hlater) as Ho.
    unfold login_session in El. rewrite El in Ho. exact Ho.
  - intros requests draws' id' request' later Hst. apply spent_refused. rewrite Hst. fold h.
    apply (runs_keep config (attempt_spent h) (λ _, True)).
    + intros; by apply spent_serve.
    + by apply Forall_true.
    + rewrite Hs'. eexists. split; [apply lookup_insert_eq|done].
Qed.

(** ** A user that was switched off gets no session *)

Definition user_off (u : string) d : Prop :=
  ∃ user, Directory.users d !! u = Some user
    ∧ DirectoryStatus.accepts_access (UserRecord.status user) = false.

Definition kept_out (tenant_id u : string) d : Prop :=
  rows_keyed d ∧ user_off u d ∧ sessions_out tenant_id u d.

(** The request does not switch the user on, draw its id for a new user, or sign
    it in as the configured user. *)
Definition leaves_user (u : string) (request : LoginRequest (V:=V)) : Prop :=
  match request with
  | InDirectory (UpdateUser _ _ id request _) =>
      id = u → DirectoryStatus.accepts_access (AdminUpdateUserRequest.status request) = false
  | CompleteLogin draws _ _ _ => new_prefixed_id "usr" (LoginDraws.user draws) ≠ u
  | SingleUserLogin _ _ _ => ∀ single_user, LoginConfig.single_user_auth config = Some single_user →
      SingleUserAuthConfig.user_id single_user ≠ u
  | _ => True
  end.

Lemma user_off_insert u d id user :
  user_off u d →
  (id = u → DirectoryStatus.accepts_access (UserRecord.status user) = false) →
  user_off u (Directory.set_users d (<[id := user]> (Directory.users d))).
Proof.
  intros (x & Hx & Ha) Hid. destruct (decide (id = u)) as [<-|Hne].
  - exists user. split; [apply lookup_insert_eq|auto].
  - exists x. split; [|done]. simpl. by rewrite lookup_insert_ne.
Qed.

Lemma user_off_status u id expected status now :
  (id = u → DirectoryStatus.accepts_access status = false) →
  keeps (user_off u) (update_user_status (V:=V) id expected status now).
Proof.
  intros Hid d Hd. unfold update_user_status, on_rows, update_versioned.
  destruct (Directory.users d !! id) as [user|]; [|done]. destruct (_ !=? _); [done|].
  by apply user_off_insert.
Qed.
Lemma user_off_default u id organization project now :
  keeps (user_off u) (update_user_default_context (V:=V) id organization project now).
Proof.
  intros d Hd. unfold update_user_default_context, on_rows.
  destruct (Directory.users d !! id) as [user|] eqn:E; [|done].
  apply user_off_insert; [done|]. intros ->. destruct Hd as (x & Hx & Ha). simpl. congruence.
Qed.
Lemma user_off_repair u invitation principal now :
  keeps (user_off u) (repair_user_defaults_after_invite_accept (V:=V) invitation principal now).
Proof.
  intros d Hd. unfold repair_user_defaults_after_invite_accept.
  destruct (Directory.users d !! principal) as [user|] eqn:E; [|done]. destruct (_ || _); [|done].
  apply user_off_insert; [done|]. intros ->. destruct Hd as (x & Hx & Ha). simpl. congruence.
Qed.

Lemma user_off_store u d g : user_off u d → user_off u (Directory.set_store d g).
Proof. done. Qed.

Lemma user_off_serve u request d :
  leaves_user u (InDirectory request) → user_off u d → user_off u (serve request d).
Proof.
  intros Hl Hs. pose proof (user_off_store u) as free. serve_cases request free quiet_leaf.
  all: auto using user_off_status, user_off_default, user_off_repair.
  by apply kept_auth.
Qed.

Lemma kept_out_serve t u request d :
  leaves_user u (InDirectory request) → kept_out t u d → kept_out t u (serve request d).
Proof.
  intros Hl (Hk & Ho & Hs). split_and!; [by apply keyed_serve|by apply user_off_serve|].
  by apply (sessions_out_serve_all t u [request]).
Qed.
Lemma kept_out_store t u d g : kept_out t u d → kept_out t u (Directory.set_store d g).
Proof. intros (Hk & Ho & Hs). split_and!; [by apply keyed_store|done|done]. Qed.

(** Rows stay under their keys when identities, tenancies and sessions are added. *)
Lemma keyed_upsert user_uuid identity_uuid request now :
  keeps rows_keyed (upsert_external_login_identity (V:=V) user_uuid identity_uuid request now).
Proof.
  unfold upsert_external_login_identity. apply kept_bind_lift. intros _ _.
  apply kept_bind; [|intros [[user identity]|]; [apply kept_ret|]].
  - intros d [? ? ? ? Hi ? ? ?]. unfold update_existing_external_identity.
    destruct (find_row _ _) as [[key x]|] eqn:Ef; [|by split].
    apply find_row_lookup in Ef as [Hx _]. destruct (_ !=? _); [by split|].
    destruct (Directory.users d !! _) as [user|]; [|by split]. destruct (negb _); [by split|].
    split; try done. cbn. apply keyed_insert; [done|]. by apply (Hi _ x).
  - apply kept_bind; [|intros []; apply kept_ret]. intros d []. split; try done; cbn; by apply keyed_insert.
Qed.

Lemma or_insert_keyed {K R} `{Countable K} (key : R → K) m k r :
  keyed_by key m → key r = k → keyed_by key (or_insert m k r).
Proof. intros Hm Hr. unfold or_insert. destruct (m !! k); [done|]. by apply keyed_insert. Qed.

Lemma keyed_bootstrap now : keeps rows_keyed (bootstrap_single_user_if_configured (V:=V) config now).
Proof.
  unfold bootstrap_single_user_if_configured.
  destruct (LoginConfig.single_user_auth config) as [su|]; [|apply kept_ret].
  apply kept_bind; [|intros _].
  - intros d Hk. unfold bootstrap_default_project. cbv zeta. destruct (validate_tenancy_seed _ d); [|done].
    destruct Hk. split; try done; cbn; by apply or_insert_keyed.
  - intros d Hd. unfold seed_single_user_action_grants_if_needed. cbv zeta.
    destruct (existsb _ _); [done|]. by apply keyed_store.
Qed.

Abbreviation rows_fine := (λ s, rows_keyed (LoginState.directory s)).

Lemma keyed_open session : keeps rows_fine (persist_auth_session (V:=V) session).
Proof.
  apply kept_on_directory, kept_auth. intros d []. split; try done.
  unfold Directory.auth_sessions. cbn. by apply keyed_insert.
Qed.

Lemma keyed_login request s : rows_fine s → rows_fine (serve_login config request s).
Proof.
  destruct request; intros Hs; cbn [serve_login]; [by apply keyed_serve|..].
  all: match goal with |- rows_keyed (LoginState.directory (?op _).2) =>
    cut (keeps rows_fine op); [by intros K; apply K|] end.
  all: login_handlers; login_keep ltac:(first
    [ apply kept_on_directory, kept_admin, keyed_store | apply kept_on_directory, keyed_upsert
    | apply kept_on_directory, keyed_bootstrap | apply keyed_open ]).
  - intros st Hst. unfold insert_login_provider. by destruct (validate_login_provider_request _ _).
  - intros st Hst. unfold update_login_provider_status. by destruct (update_versioned _ _ _ _ _ _) as [[]|].
  - intros st Hst. unfold create_login_attempt. cbv zeta. by destruct (is_some _).
  - intros st Hst. unfold consume_login_attempt. repeat case_match; done.
Qed.

(** Identities: a user that is off stays off, and no session is opened. *)
Lemma kept_out_upsert t u user_uuid identity_uuid request now :
  new_prefixed_id "usr" user_uuid ≠ u →
  keeps (kept_out t u) (upsert_external_login_identity (V:=V) user_uuid identity_uuid request now).
Proof.
  intros Hne d (Hk & Ho & Hs). split; [by apply keyed_upsert|]. revert d Hk Ho Hs.
  assert (keeps (λ d, user_off u d ∧ sessions_out t u d)
    (upsert_external_login_identity (V:=V) user_uuid identity_uuid request now)) as K; [|by intros; apply K].
  unfold upsert_external_login_identity. apply kept_bind_lift. intros _ _.
  apply kept_bind; [|intros [[user identity]|]; [apply kept_ret|]].
  - intros d Hd. unfold update_existing_external_identity. repeat case_match; simplify_eq; assumption.
  - apply kept_bind; [|intros []; apply kept_ret]. intros d [Ho Hs]. split; [|done].
    by apply (user_off_insert u d).
Qed.

Lemma kept_out_not t u d request user :
  kept_out t u d → stands_for request user d →
  DirectoryStatus.accepts_access (UserRecord.status user) = true → UserRecord.user_id user ≠ u.
Proof.
  intros (Hk & (x & Hx & Hxa) & _) (key & identity & _ & _ & _ & Hu) Ha E.
  rewrite (keyed_users _ Hk _ _ Hu) in E. congruence.
Qed.

(** The tenancy of another user. *)
Lemma kept_out_bootstrap t u now :
  (∀ single_user, LoginConfig.single_user_auth config = Some single_user →
     SingleUserAuthConfig.user_id single_user ≠ u) →
  keeps (kept_out t u) (bootstrap_single_user_if_configured (V:=V) config now).
Proof.
  intros Hne d (Hk & Ho & Hs). split; [by apply keyed_bootstrap|]. revert d Hk Ho Hs.
  assert (keeps (λ d, user_off u d ∧ sessions_out t u d)
    (bootstrap_single_user_if_configured (V:=V) config now)) as K; [|by intros; apply K].
  unfold bootstrap_single_user_if_configured.
  destruct (LoginConfig.single_user_auth config) as [su|]; [|apply kept_ret].
  apply kept_bind; [|intros _].
  - intros d [(x & Hx & Ha) Hs]. unfold bootstrap_default_project. cbv zeta.
    destruct (validate_tenancy_seed _ d); [|by split; [exists x|]]. split; [|done].
    exists x. split; [|done]. cbn. unfold or_insert.
    destruct (Directory.users d !! SingleUserAuthConfig.user_id su) eqn:E; [done|].
    rewrite lookup_insert_ne; [done|]. by apply Hne.
  - intros d Hd. unfold seed_single_user_action_grants_if_needed. cbv zeta. by destruct (existsb _ _).
Qed.

Lemma kept_out_session t u session :
  AuthSessionRecord.principal_id session ≠ u →
  keeps (λ s, kept_out t u (LoginState.directory s)) (persist_auth_session (V:=V) session).
Proof.
  intros Hne s (Hk & Ho & Hs). split_and!; [by apply keyed_open|done|].
  intros h r. unfold Directory.auth_sessions. cbn.
  intros [[<- <-]|[_ Hr]]%lookup_insert_Some Hp; [|by eapply Hs].
  unfold of_principal in Hp. by btrue.
Qed.

Abbreviation out t u := (λ s, kept_out t u (LoginState.directory s)).

Lemma kept_out_on_store {A} t u (op : M (GatewayStore.t V) GatewayError.t A) :
  keeps (out t u) (on_store op).
Proof. apply kept_on_directory, kept_admin. apply kept_out_store. Qed.

Lemma kept_out_callback t u draws id request now :
  new_prefixed_id "usr" (LoginDraws.user draws) ≠ u →
  keeps (out t u) (complete_auth_login_provider_callback config draws id request now).
Proof.
  intros Hne. unfold complete_auth_login_provider_callback.
  apply kept_bind_reading. intros provider _ _ _. apply kept_bind_lift. intros _ _.
  apply kept_bind_lift. intros _ _. apply kept_bind.
  { intros s Hs. unfold consume_login_attempt. repeat case_match; done. }
  intros attempt. unfold complete_consumed_login.
  apply kept_bind_reading. intros claims _ _ _. apply kept_bind_lift. intros _ _.
  apply (kept_bind_post _ (λ '(user, _, _), UserRecord.user_id user ≠ u)).
  - by apply kept_on_directory, kept_out_upsert.
  - intros s [[user identity] created] s' Hs. unfold on_directory.
    pose proof (kept_out_upsert t u _ (LoginDraws.identity draws) (upsert_request provider claims) now Hne _ Hs)
      as Hk.
    destruct (upsert_external_login_identity _ _ _ _ _) as [r d] eqn:E. intros [= -> _].
    apply upsert_run in E as [Hid Hact]. by eapply kept_out_not.
  - intros [[user identity] created] Hu. apply kept_bind_lift. intros _ _. cbn beta iota zeta.
    apply kept_bind; [apply kept_gets|intros body]. apply kept_bind; [by apply kept_out_session|intros _].
    apply kept_bind; [apply kept_out_on_store|intros _; apply kept_ret].
Qed.

Lemma kept_out_single_user t u draws request now :
  (∀ single_user, LoginConfig.single_user_auth config = Some single_user →
     SingleUserAuthConfig.user_id single_user ≠ u) →
  keeps (out t u) (single_user_login config draws request now).
Proof.
  intros Hne. unfold single_user_login. apply kept_bind_lift. intros su Hsu%or_not_found_ok.
  apply kept_bind_lift. intros _ _. apply kept_bind; [by apply kept_on_directory, kept_out_bootstrap|].
  intros _. cbn beta iota zeta. apply kept_bind; [|intros _; apply kept_ret].
  by apply kept_out_session, Hne.
Qed.

Lemma kept_out_login t u request s :
  leaves_user u request → out t u s → out t u (serve_login config request s).
Proof.
  destruct request; intros Hl Hs; cbn [serve_login]; [by apply kept_out_serve|..].
  all: match goal with |- kept_out _ _ (LoginState.directory (?op _).2) =>
    cut (keeps (out t u) op); [by intros K; apply K|] end.
  all: try (by apply kept_out_callback); try (by apply kept_out_single_user).
  all: login_handlers; login_keep ltac:(apply kept_on_directory, kept_admin, kept_out_store).
  - intros st Hst. unfold insert_login_provider. by destruct (validate_login_provider_request _ _).
  - intros st Hst. unfold update_login_provider_status. by destruct (update_versioned _ _ _ _ _ _) as [[]|].
  - intros st Hst. unfold create_login_attempt. cbv zeta. by destruct (is_some _).
Qed.

(** The update itself. *)
Lemma update_user_keeps_out drawn actor u request now d response d' :
  update_user drawn actor u request now d = (Ok response, d') →
  DirectoryStatus.accepts_access (AdminUpdateUserRequest.status request) = false →
  rows_keyed d → kept_out (AuthenticatedActor.tenant_id actor) u d'.
Proof.
  intros Hu Hst Hk. split_and!.
  - change d' with ((Ok (E := GatewayError.t) response, d').2). rewrite <- Hu.
    by apply (keyed_serve (UpdateUser drawn actor u request now)).
  - clear Hk. apply bind_run in Hu as (x1 & d0 & [_ ->]%lift_run & Hu).
    apply bind_run in Hu as (x2 & d1 & (g & -> & _ & _)%authorize_reads & Hu).
    apply bind_run in Hu as (before & d2 & [_ ->]%reading_run & Hu).
    apply bind_run in Hu as (updated & d3 & Hupd & Hu). apply bind_run in Hu as (n & d4 & Hrev & Hu).
    cbv zeta in Hu. apply bind_run in Hu as (aid & d5 & Haud & [= _ <-]).
    unfold audit, on_admin in Haud. destruct (record_admin_resource_audit _ _ _ _) as [r2 g2].
    injection Haud as _ <-. apply user_off_store.
    cut (user_off u d3).
    { unfold revoke_if_inactive, on_auth in Hrev. destruct (DirectoryStatus.accepts_access _);
        injection Hrev as _ <-; done. }
    unfold update_user_status, on_rows, update_versioned in Hupd. cbn in Hupd.
    destruct (Directory.users d !! u) as [user|]; [|done]. destruct (_ !=? _); [done|].
    injection Hupd as <- <-. eexists. split; [apply lookup_insert_eq|done].
  - by eapply update_user_ends_sessions.
Qed.

(** C25. A user that was switched off gets no session.  Once an update has given
    the user a status other than active, no session token is accepted for it,
    whatever the directory and the login routes serve afterwards, external logins
    of its own identities included, as long as no one switches it on again and it
    is not the configured single user. *)
Theorem disabled_user_kept_out drawn actor u request now s response s' requests token later session :
  on_directory (update_user drawn actor u request now) s = (Ok response, s') →
  DirectoryStatus.accepts_access (AdminUpdateUserRequest.status request) = false →
  rows_keyed (LoginState.directory s) →
  Forall (leaves_user u) requests →
  verify_session_token token later
    (Directory.auth (LoginState.directory (serve_logins config requests s'))) = Ok session →
  (AuthSessionRecord.tenant_id session, AuthSessionRecord.principal_id session)
    ≠ (AuthenticatedActor.tenant_id actor, u).
Proof.
  unfold on_directory. intros Hu Hst Hk Hr Hv [= Ht Hp].
  destruct (update_user _ _ _ _ _ _) as [r d'] eqn:E. injection Hu as -> <-.
  apply verify_session_stored in Hv as (Hl & Hact & _).
  assert (out (AuthenticatedActor.tenant_id actor) u
    (serve_logins config requests (LoginState.set_directory s d'))) as (_ & _ & Hs).
  { apply (runs_keep config (out (AuthenticatedActor.tenant_id actor) u) (leaves_user u));
      [intros; by apply kept_out_login|done|by eapply update_user_keeps_out]. }
  eapply Hs; [exact Hl| |done]. unfold of_principal. rewrite Ht, Hp, !bool_decide_true by done. done.
Qed.

(** ** What the service accepts the store accepts *)

(** The value is nested less than [n] deep. *)
Fixpoint nested_within (n : nat) (value : V) : Prop :=
  match n with
  | O => False
  | S n' =>
      (∀ entries key x, as_object value = Some entries → (key, x) ∈ entries → nested_within n' x)
      ∧ (∀ values x, as_array value = Some values → x ∈ values → nested_within n' x)
  end.

Lemma existsb_same {A} (p q : A → bool) l : (∀ x, x ∈ l → p x = q x) → existsb p l = existsb q l.
Proof. induction l as [|x l IH]; simpl; intros Hl; [done|]. rewrite Hl, IH; set_solver. Qed.

(** Fuel beyond the depth of a value changes nothing. *)
Lemma sensitive_fuel_enough n m value :
  nested_within n value → (n ≤ m)%nat → contains_sensitive m value = contains_sensitive n value.
Proof.
  revert m value. induction n as [|n IH]; intros [|m] value; simpl; [done|done|lia|].
  intros [Ho Ha] Hm. destruct (as_object value) as [entries|].
  - apply existsb_same. intros [key x] Hx. f_equal. apply IH; [by eapply Ho|lia].
  - destruct (as_array value) as [values|]; [|done]. apply existsb_same. intros x Hx.
    apply IH; [by eapply Ha|lia].
Qed.

Definition store_request actor (request : AdminCreateLoginProviderRequest.t V)
    : CreateLoginProviderRequest.t V :=
  CreateLoginProviderRequest.mk (AuthenticatedActor.tenant_id actor)
    (AdminCreateLoginProviderRequest.provider_kind request)
    (AdminCreateLoginProviderRequest.display_name request)
    (AdminCreateLoginProviderRequest.config_document request)
    (actor_principal_or_actor_id actor).

Lemma url_safe_everywhere url policy : url_is_safe url policy = true → login_provider_url_is_safe url = true.
Proof.
  unfold login_provider_url_is_safe, url_is_safe. destruct (parse_uri url) as [uri|]; [|done].
  destruct (_ || _); [done|]. destruct (Uri.authority uri) as [authority|]; [|done].
  destruct (contains _ _); [done|]. destruct (Uri.scheme_str uri) as [scheme|]; [|done].
  destruct (_ ==? _); [done|]. by destruct (scheme ==? "http"), policy.
Qed.

Lemma nil_app {A} (l k : list A) : l ++ k = [] ↔ l = [] ∧ k = [].
Proof. split; [apply app_eq_nil|by intros [-> ->]]. Qed.

(** The checks of a configuration, one by one. *)
Record config_fits (environment kind : string) (document : V) : Prop := {
  fits_mode : local_claims document = true → allows_local_callback_adapter environment = true;
  fits_client : ∃ id, login_config_string document "client_id" = Some id
    ∧ trim id ≠ "" ∧ (String.length id ≤ 256)%nat;
  fits_secret : ∃ id, login_config_string document "client_secret_ref" = Some id
    ∧ valid_secret_ref_id id = true;
  fits_redirect : ∃ url, login_config_string document "redirect_uri" = Some url
    ∧ login_provider_url_is_safe_for_config environment url = true;
  fits_kind : kind = "oidc" → ∃ url, login_config_string document "issuer" = Some url
    ∧ login_provider_url_is_safe_for_config environment url = true;
  fits_urls : ∀ field url, field ∈ endpoint_fields → login_config_string document field = Some url →
    login_provider_url_is_safe_for_config environment url = true;
  fits_scopes : ∀ scopes, json_get document "scopes" = Some scopes →
    login_provider_scopes_are_valid scopes = true;
}.

Lemma is_some_and_true {A} (o : option A) p : is_some_and o p = true ↔ ∃ a, o = Some a ∧ p a = true.
Proof. destruct o as [a|]; simpl; naive_solver. Qed.
Lemma is_some_and_negb {A} (o : option A) p :
  is_some_and o (λ a, negb (p a)) = false ↔ ∀ a, o = Some a → p a = true.
Proof. destruct o as [a|]; simpl; [rewrite negb_false_iff|]; naive_solver. Qed.

Lemma concat_map_nil {A B} (f : A → list B) l : concat (map f l) = [] ↔ ∀ x, x ∈ l → f x = [].
Proof. induction l as [|a l IH]; simpl; [set_solver|]. rewrite nil_app, IH. set_solver. Qed.

Lemma client_id_fits (o : option string) :
  is_some_and o (λ value, (trim value !=? "") && (String.length value <=? 256)%nat) = true
  ↔ ∃ id, o = Some id ∧ trim id ≠ "" ∧ (String.length id ≤ 256)%nat.
Proof.
  rewrite is_some_and_true. setoid_rewrite andb_true_iff. setoid_rewrite negb_true_iff.
  setoid_rewrite bool_decide_eq_false. by setoid_rewrite Nat.leb_le.
Qed.

Lemma no_config_errors environment kind document :
  provider_config_errors environment kind document = [] ↔ config_fits environment kind document.
Proof.
  unfold provider_config_errors. cbv zeta. rewrite !nil_app, concat_map_nil, !push_if_nil, !negb_false_iff.
  rewrite client_id_fits, !is_some_and_true, !andb_false_iff, !negb_false_iff, is_some_and_negb.
  setoid_rewrite push_if_nil. setoid_rewrite is_some_and_negb. rewrite is_some_and_true. split.
  - intros (Hm & Hc & Hs & Hr & Hk & Hu & Hsc). split; try done.
    + intros E. by destruct Hm as [Hm|]; [rewrite E in Hm|].
    + intros ->. by destruct Hk.
    + intros field url Hin. by apply Hu.
  - intros [? ? ? ? ? Hu ?]. split_and!; try done.
    + destruct (local_claims document); auto.
    + destruct (decide (kind = "oidc")); [right|left; by apply bool_decide_eq_false]; auto.
    + intros field Hin url. by apply Hu.
Qed.

(** A stricter environment accepts less. *)
Lemma fits_locally environment kind document :
  config_fits environment kind document → config_fits "local" kind document.
Proof.
  assert (∀ url, login_provider_url_is_safe_for_config environment url = true →
    login_provider_url_is_safe_for_config "local" url = true) as Hurl.
  { intros url. apply url_safe_everywhere. }
  intros [Hm Hc Hs (uri & E & Hu) Hk Hurls Hsc]. split; eauto 10.
  intros [url []]%Hk. eauto.
Qed.

(** A chain of checks passes when each does. *)
Lemma checks_ok (r k : result GatewayError.t unit) : r ≫= (λ _, k) = Ok tt ↔ r = Ok tt ∧ k = Ok tt.
Proof. destruct r as [[]|]; simpl; naive_solver. Qed.

Lemma endpoints_checked document :
  for_each (λ field, match login_config_string document field with
                     | Some url => validate_https_url_field url field
                     | None => Ok tt
                     end) ("redirect_uri" :: endpoint_fields) = Ok tt
  ↔ (∀ url, login_config_string document "redirect_uri" = Some url →
       login_provider_url_is_safe url = true)
    ∧ ∀ field url, field ∈ endpoint_fields → login_config_string document field = Some url →
       login_provider_url_is_safe url = true.
Proof.
  assert (∀ field, match login_config_string document field with
    | Some url => validate_https_url_field url field | None => Ok tt end = Ok tt
    ↔ ∀ url, login_config_string document field = Some url → login_provider_url_is_safe url = true) as Hf.
  { intros field. destruct (login_config_string document field) as [url|]; [|naive_solver].
    unfold validate_https_url_field. rewrite refuse_if_ok, negb_false_iff. naive_solver. }
  rewrite for_each_ok. setoid_rewrite Hf. split.
  - intros Hall. split; [apply Hall; left|]. intros field url Hin. apply Hall. by right.
  - intros [Hr He] field [->|Hin]%elem_of_cons; [done|]. intros url. by apply He.
Qed.

Lemma none_fails {A} (p : A → bool) l : existsb (λ x, negb (p x)) l = false ↔ forallb p l = true.
Proof. induction l as [|x l IH]; simpl; [done|]. by destruct (p x). Qed.

Lemma scopes_checked document :
  match json_get document "scopes" with
  | None => Ok tt
  | Some scopes =>
      scopes ← ok_or (as_array scopes) (invalid_provider "scopes_invalid");
      refuse_if (existsb (λ scope, negb (scope_is_valid scope)) scopes)
        (invalid_provider "scopes_invalid")
  end = Ok tt
  ↔ ∀ scopes, json_get document "scopes" = Some scopes → login_provider_scopes_are_valid scopes = true.
Proof.
  unfold login_provider_scopes_are_valid. destruct (json_get document "scopes") as [scopes|]; [|naive_solver].
  destruct (as_array scopes) as [l|] eqn:E.
  - transitivity (existsb (λ scope, negb (scope_is_valid scope)) l = false); [apply refuse_if_ok|].
    rewrite none_fails. split; [intros Hl ? [= <-]|intros Hl; specialize (Hl _ eq_refl); revert Hl];
      by rewrite E.
  - split; [done|]. intros Hf. specialize (Hf _ eq_refl). by rewrite E in Hf.
Qed.

(** The checks of the store are those of the service in a local environment. *)
Definition request_fits (environment : string) (request : AdminCreateLoginProviderRequest.t V) : Prop :=
  let kind := AdminCreateLoginProviderRequest.provider_kind request in
  let name := AdminCreateLoginProviderRequest.display_name request in
  let document := AdminCreateLoginProviderRequest.config_document request in
  kind = "oidc" ∧ ((trim name ==? "") || (120 <? String.length name)%nat) = false
  ∧ (negb (is_some (as_object document))
     || login_provider_config_contains_sensitive_material document) = false
  ∧ config_fits environment kind document.

Lemma service_checks environment request providers :
  login_provider_validation_errors environment request providers = []
  ↔ request_fits environment request
    ∧ existsb (same_provider (AdminCreateLoginProviderRequest.provider_kind request)
        (AdminCreateLoginProviderRequest.display_name request)) providers = false.
Proof.
  unfold login_provider_validation_errors, request_fits. cbv zeta.
  rewrite !nil_app, !push_if_nil, <- no_config_errors, negb_false_iff, bool_decide_eq_true.
  destruct (negb (is_some _) || _); [naive_solver|]. rewrite nil_app, push_if_nil. naive_solver.
Qed.

(** The empty text is no address. *)
Definition empty_is_no_uri : Prop := ∀ uri, parse_uri "" ≠ Ok uri.

Lemma text_or_empty (o : option string) (p : string → Prop) :
  ¬ p "" → p (default "" o) ↔ ∃ value, o = Some value ∧ p value.
Proof. intros Hp. destruct o as [value|]; simpl; naive_solver. Qed.

Lemma store_checks actor request :
  empty_is_no_uri →
  validate_login_provider_shape (store_request actor request) = Ok tt ↔ request_fits "local" request.
Proof.
  intros Hempty. unfold validate_login_provider_shape, request_fits. cbv zeta.
  cbn [store_request CreateLoginProviderRequest.provider_kind CreateLoginProviderRequest.display_name
    CreateLoginProviderRequest.config_document].
  set (kind := AdminCreateLoginProviderRequest.provider_kind request).
  set (document := AdminCreateLoginProviderRequest.config_document request).
  rewrite !checks_ok, !refuse_if_ok, scopes_checked, endpoints_checked, !negb_false_iff, bool_decide_eq_true.
  assert (¬ ((trim "" ==? "") || (256 <? String.length "")%nat) = false) as Hc by done.
  rewrite (text_or_empty _ (λ t, ((trim t ==? "") || (256 <? String.length t)%nat) = false) Hc).
  rewrite (text_or_empty _ (λ t, valid_secret_ref_id t = true)) by done.
  assert (¬ login_provider_url_is_safe "" = true) as Hi.
  { unfold login_provider_url_is_safe, url_is_safe. by destruct (parse_uri "") as [uri|] eqn:E; [destruct (Hempty uri)|]. }
  split.
  - intros (Hk & Hn & Ho & (client & Ec & Hcl) & Hs & (Hr & Hu) & Hsome & Hiss & Hsc).
    rewrite bool_decide_true in Hiss by done. apply refuse_if_ok, negb_false_iff in Hiss.
    rewrite (text_or_empty _ (λ t, login_provider_url_is_safe t = true)) in Hiss by done.
    apply orb_false_iff in Hcl as [Hcl%bool_decide_eq_false Hlen%Nat.ltb_ge].
    destruct (login_config_string document "redirect_uri") as [uri|] eqn:Er; [|done].
    split_and!; [done..|]. split; eauto.
  - intros (Hk & Hn & Ho & [_ (client & Ec & Hid & Hlen) Hs (uri & Er & Hr) Hiss Hurls Hsc]).
    rewrite Er. split_and!; try done.
    + exists client. by rewrite bool_decide_false, (proj2 (Nat.ltb_ge _ _) Hlen).
    + by intros url [= <-].
    + rewrite bool_decide_true by done. apply refuse_if_ok, negb_false_iff.
      apply (text_or_empty _ (λ t, login_provider_url_is_safe t = true)); auto.
Qed.

(** A provider is created exactly when its validation finds nothing, in every
    environment; the store then never refuses it.  In a local or test
    environment the store, asked alone, accepts exactly the same requests. *)
Theorem provider_created_iff_valid drawn actor request now s :
  empty_is_no_uri →
  ((∃ response, (create_and_audit_provider config drawn actor request now s).1 = Ok response)
   ↔ provider_errors config actor request s = [])
  ∧ (allows_local_callback_adapter (LoginConfig.environment config) = true →
     validate_login_provider_request (store_request actor request) (LoginState.login_providers s) = Ok tt
     ↔ provider_errors config actor request s = []).
Proof.
  intros Hempty.
  assert (∀ environment, request_fits environment request → request_fits "local" request) as Hlocal.
  { intros environment (? & ? & ? & Hf). split_and!; try done. by eapply fits_locally. }
  assert (validate_login_provider_request (store_request actor request) (LoginState.login_providers s) = Ok tt
    ↔ request_fits "local" request
      ∧ existsb (same_provider (AdminCreateLoginProviderRequest.provider_kind request)
          (AdminCreateLoginProviderRequest.display_name request))
          (login_providers_for_tenant (AuthenticatedActor.tenant_id actor) s) = false) as Hstore.
  { unfold validate_login_provider_request, login_providers_for_tenant.
    rewrite checks_ok, refuse_if_ok, store_checks by done.
    by erewrite exists_in_tenant. }
  unfold provider_errors. rewrite service_checks. split.
  - unfold create_and_audit_provider, mbind, M_bind, reading, provider_errors.
    destruct (login_provider_validation_errors _ _ _) as [|e l] eqn:E.
    + apply service_checks in E as [Hf He]. split; [done|]. intros _. cbn [reject_validation_errors].
      unfold insert_login_provider. fold (store_request actor request).
      rewrite (proj2 Hstore) by (split; [by eapply Hlocal|done]). cbv zeta.
      unfold audit_login_provider, on_directory, audit, on_admin. by eexists.
    + split; [by intros [? ?]|]. intros Hf. exfalso. apply service_checks in Hf. congruence.
  - intros Hallowed. rewrite Hstore. apply and_iff_compat_r.
    split; [|apply Hlocal]. intros (? & ? & ? & [Hm Hc Hs Hr Hi Hu Hsc]).
    assert (∀ url, login_provider_url_is_safe_for_config (LoginConfig.environment config) url
      = login_provider_url_is_safe_for_config "local" url) as Heq.
    { intros url. unfold login_provider_url_is_safe_for_config. by rewrite Hallowed. }
    split_and!; try done. split; try done; by setoid_rewrite Heq.
Qed.
End properties.

(** ** Witnesses *)

Import (hints) DirectorySample.

Module LoginSample.
#[local] Open Scope Z_scope.

#[export] Instance uri : UriLibrary := λ value,
  if value ==? "" then Err "empty"
  else Ok (Uri.mk (Some "https") (Some "id.example") "id.example" None "/").
#[export] Instance objects : JsonObject Tree.t := λ v,
  match v with Tree.Obj l => Some l | _ => None end.

(** A provider whose token is the credential that was presented for it. *)
#[export] Instance library : LoginLibrary := {
  http_get _ := Some (HttpResponse.mk true (Some "keys"));
  http_token request := Some (HttpResponse.mk true (snd <$> TokenRequest.basic_auth request));
  Jwk := string;
  discovery_from_str _ := None;
  jwks_from_str _ := Some ["k1"];
  id_token_from_str := Some;
  key_id := Some;
  for_signatures _ := Some true;
  key_algorithm _ := None;
  decode_header _ := Some (Algorithm.RS256, Some "k1");
  decode_token _ _ issuer audience _ :=
    Some (OidcIdTokenClaims.mk issuer "subject" (OidcAudience.Single audience) 9000000000 (Some "gwnc_AAAA")
            (Some "two@example.com") true (Some "Two") None);
  from_timestamp := Some;
}.

Definition document (secret : string) : Tree.t := Tree.Obj [
  ("client_id", Tree.Str "client"); ("client_secret_ref", Tree.Str secret);
  ("redirect_uri", Tree.Str "https://gateway.example/callback");
  ("issuer", Tree.Str "https://id.example");
  ("authorization_url", Tree.Str "https://id.example/authorize");
  ("token_url", Tree.Str "https://id.example/token");
  ("jwks_url", Tree.Str "https://id.example/keys")].
Definition new_provider (secret : string) : AdminCreateLoginProviderRequest.t Tree.t :=
  AdminCreateLoginProviderRequest.mk "key-1" "oidc" "Example" (document secret).

Definition secret_ref (id tenant_id : string) : SecretRefRecord.t :=
  SecretRefRecord.mk id tenant_id None None "oidc" "memory" "" "***" "fp" SecretRefStatus.Active 1 1
    "admin" 0 0.
Definition store : GatewayStore.t Tree.t :=
  GatewayStore.mk (DraftCatalog.mk ∅ ∅
      {["sec_1" := secret_ref "sec_1" "ten_t"; "sec_2" := secret_ref "sec_2" "ten_other"]}
      ∅ ∅ ∅ ∅ ∅ ∅ ∅ ∅ ∅)
    ConfigStore.empty ∅ (tenant_grant GatewayAction.IdentityProviderWrite "IdentityProvider"
                         :: DirectorySample.grants) [] [] [] ∅ ∅ HotStore.empty.
Definition state : LoginState.t Tree.t :=
  LoginState.mk (Directory.mk store (AuthStore.mk ∅ ∅ [] ∅ ∅) ∅ ∅ ∅ ∅ ∅ ∅) ∅ ∅ ∅
    {["sec_1" := "ours"; "sec_2" := "theirs"]} (λ _, None).

Definition single_user : SingleUserAuthConfig.t :=
  SingleUserAuthConfig.mk "root" "secret" "ten_t" "Tenant" "org_1" "Organization" "prj_1" "Project"
    "usr_1" "Root" None 3600.
Definition config : LoginConfig.t := LoginConfig.mk "production" (Some single_user).

Definition start : StartDraws.t := StartDraws.mk "1" [0; 0; 0] [0; 0; 0] [0; 0; 0].
Definition login (n : string) (byte : Z) : LoginDraws.t :=
  LoginDraws.mk n n n (replicate 4 byte) n n n.
Definition callback : ExternalLoginCallbackRequest.t :=
  ExternalLoginCallbackRequest.mk "gwst_AAAA" "code" None.

Definition with_provider (secret : string) : LoginState.t Tree.t :=
  serve_login config (CreateLoginProvider (draws "1") admin (new_provider secret) 50) state.
Definition started (secret : string) : LoginState.t Tree.t :=
  serve_login config (StartLogin start "lp_1" 60) (with_provider secret).

Definition signed_in : LoginState.t Tree.t :=
  serve_login config (SingleUserLogin (login "1" 17) (SingleUserLoginRequest.mk "root" "secret") 50) state.
Definition disable_user : AdminUpdateUserRequest.t :=
  AdminUpdateUserRequest.mk 1 DirectoryStatus.Disabled None.
End LoginSample.
Import (hints) LoginSample.

(** A run that succeeded, with its answer. *)
Lemma login_answered {A} (r : result GatewayError.t A * LoginState.t Tree.t) :
  is_ok r.1 = true → ∃ a, r = (Ok a, r.2).
Proof. destruct r as [[a|e] s]; [by exists a|done]. Qed.

Lemma external_login_verified_once_witness :
  let run := complete_auth_login_provider_callback LoginSample.config (LoginSample.login "2" 33) "lp_1"
               LoginSample.callback 70 (LoginSample.started "sec_1") in
  is_ok run.1 = true
  ∧ ∃ session token, verify_session_token token 80 (Directory.auth (LoginState.directory run.2)) = Ok session.
Proof.
  intros run. destruct (login_answered run) as [response Hr]; [vm_compute; reflexivity|].
  split; [rewrite Hr; reflexivity|].
  destruct (external_login_verified_once LoginSample.config (LoginSample.login "2" 33) "lp_1"
    LoginSample.callback 70 (LoginSample.started "sec_1") response run.2 Hr)
    as (provider & pending & v & claims & user & session & token & H1 & H2 & H3 & H4 & H5 & H6 & H7 & H8
        & H9 & H10 & H11 & H12 & H13 & Hv & H15).
  exists session, token. apply Hv. reflexivity.
Defined.

Lemma started_login_redeemable_witness :
  let run := start_auth_login_provider LoginSample.config LoginSample.start "lp_1" 60
               (LoginSample.with_provider "sec_1") in
  let requests := [SingleUserLogin (LoginSample.login "1" 17) (SingleUserLoginRequest.mk "root" "secret") 65] in
  let s1 := serve_logins LoginSample.config requests run.2 in
  let login := complete_auth_login_provider_callback LoginSample.config (LoginSample.login "2" 33) "lp_1"
                 LoginSample.callback 70 s1 in
  is_ok run.1 = true ∧ is_ok login.1 = true
  ∧ ∃ current attempt verifier s2,
      active_login_provider "lp_1" s1 = Ok current
      ∧ login = complete_consumed_login LoginSample.config (LoginSample.login "2" 33) current
                  (ConsumedLoginAttempt.mk attempt verifier) LoginSample.callback 70 s2.
Proof.
  intros run requests s1 login. destruct (login_answered run) as [response Hr]; [vm_compute; reflexivity|].
  split; [rewrite Hr; reflexivity|]. split; [vm_compute; reflexivity|].
  assert (∃ current, active_login_provider "lp_1" s1 = Ok current
    ∧ ensure_external_login_callback_adapter_available LoginSample.config current LoginSample.callback
      = Ok tt) as (current & Hcur & Had) by (eexists; split; vm_compute; reflexivity).
  destruct (started_login_redeemable LoginSample.config LoginSample.start "lp_1" 60
    (LoginSample.with_provider "sec_1") response run.2 requests 70 "code" None Hr)
    as (provider & attempt & v & fields & authorization & H1 & H2 & H3 & H4 & H5 & H6 & H7 & Hcb & H8).
  - apply providers_keyed_serve, keyed_empty.
  - repeat constructor.
  - reflexivity.
  - discriminate.
  - exists current, attempt, v. eexists. split; [exact Hcur|]. exact (Hcb _ _ Hcur Had).
Defined.

Lemma disabled_user_kept_out_witness :
  let run := on_directory (update_user (draws "1") admin "usr_1" LoginSample.disable_user 60)
               LoginSample.signed_in in
  let requests := [CreateLoginProvider (draws "1") admin (LoginSample.new_provider "sec_1") 70;
                   StartLogin LoginSample.start "lp_1" 80;
                   CompleteLogin (LoginSample.login "2" 33) "lp_1" LoginSample.callback 90] in
  is_ok run.1 = true
  ∧ ∃ session, verify_session_token "sws_21212121" 99
        (Directory.auth (LoginState.directory (serve_logins LoginSample.config requests run.2))) = Ok session
      ∧ (AuthSessionRecord.tenant_id session, AuthSessionRecord.principal_id session) ≠ ("ten_t", "usr_1").
Proof.
  intros run requests. destruct (login_answered run) as [response Hr]; [vm_compute; reflexivity|].
  split; [rewrite Hr; reflexivity|].
  destruct (succeeded (verify_session_token "sws_21212121" 99
    (Directory.auth (LoginState.directory (serve_logins LoginSample.config requests run.2)))))
    as [session Hs]; [vm_compute; reflexivity|].
  exists session. split; [exact Hs|].
  eapply (disabled_user_kept_out LoginSample.config (draws "1") admin "usr_1" LoginSample.disable_user 60
            LoginSample.signed_in response run.2 requests "sws_21212121" 99 session Hr);
    [reflexivity| | |exact Hs].
  - apply keyed_login. constructor; try apply keyed_empty. constructor; unfold keys_of; intros;
      match goal with E : _ !! _ = Some _ |- _ => discriminate E end.
  - repeat constructor. discriminate.
Defined.

Lemma provider_created_iff_valid_witness :
  (∃ response, (create_and_audit_provider LoginSample.config (draws "1") admin
     (LoginSample.new_provider "sec_1") 50 LoginSample.state).1 = Ok response)
  ∧ provider_errors LoginSample.config admin (LoginSample.new_provider "sec_1") LoginSample.state = [].
Proof.
  assert (provider_errors LoginSample.config admin (LoginSample.new_provider "sec_1") LoginSample.state = [])
    as He by (vm_compute; reflexivity).
  destruct (provider_created_iff_valid LoginSample.config (draws "1") admin
    (LoginSample.new_provider "sec_1") 50 LoginSample.state) as [Hc _]; [intros uri; discriminate|].
  split; [exact (proj2 Hc He)|exact He].
Defined.

(** ** What signing in leaves open *)

(** The configured single user signs in whatever its status: after it was
    disabled its password opens a session, which authenticates requests. *)
Theorem single_user_login_ignores_status :
  let s := serve_login LoginSample.config
             (InDirectory (UpdateUser (draws "1") admin "usr_1" LoginSample.disable_user 60))
             LoginSample.signed_in in
  let run := single_user_login LoginSample.config (LoginSample.login "2" 34)
               (SingleUserLoginRequest.mk "root" "secret") 70 s in
  (UserRecord.status <$> Directory.users (LoginState.directory s) !! "usr_1")
    = Some DirectoryStatus.Disabled
  ∧ is_ok run.1 = true
  ∧ match (present "r" "t" (λ name, if name ==? "authorization" then Some "Bearer sws_22222222" else None) 80
           (LoginState.directory run.2)).1 with
    | Ok caller => AuthenticatedActor.principal_id caller = Some "usr_1"
    | Err _ => False
    end.
Proof. vm_compute. repeat split. Qed.

(** The single user locks itself out: once its default project is no longer the
    configured one, here because the default organization was chosen while the
    project was disabled, the right password is refused, the project being active
    again. *)
Theorem changed_default_locks_single_user_out :
  let owner := AuthenticatedActor.mk "usr_1" ActorKind.User "ten_t" (Some "org_1") (Some "prj_1")
    (Some "usr_1") None CredentialKind.Session 100 None [] [] "req" "trace" in
  let session := (single_user_session (LoginSample.login "1" 17) LoginSample.single_user 50).1 in
  let headers name := if name ==? "authorization" then Some "Bearer sws_11111111"
    else if name ==? CSRF_TOKEN_HEADER then Some (auth_session_csrf_token session) else None in
  let s := serve_logins LoginSample.config [
    InDirectory (UpdateProject (draws "1") owner "prj_1"
      (AdminUpdateDirectoryStatusRequest.mk 1 DirectoryStatus.Disabled None) 60);
    InDirectory (DefaultOrganization headers (SessionOrganizationRequest.mk "org_1" None) 70);
    InDirectory (UpdateProject (draws "2") owner "prj_1"
      (AdminUpdateDirectoryStatusRequest.mk 2 DirectoryStatus.Active None) 80)] LoginSample.signed_in in
  (ProjectRecord.status <$> Directory.projects (LoginState.directory s) !! "prj_1")
    = Some DirectoryStatus.Active
  ∧ (single_user_login LoginSample.config (LoginSample.login "2" 34)
       (SingleUserLoginRequest.mk "root" "secret") 90 s).1
    = Err (GatewayError.BadRequest "user_seed_conflict").
Proof. vm_compute. repeat split. Qed.

(** A login provider may name the secret of another tenant, which is then sent to
    the token endpoint the provider names. *)
Theorem provider_sends_foreign_secret :
  match LoginState.login_providers (LoginSample.with_provider "sec_2") !! "lp_1" with
  | None => False
  | Some provider =>
      LoginProviderRecord.tenant_id provider = "ten_t"
      ∧ (SecretRefRecord.tenant_id <$> DraftCatalog.secret_refs
           (Directory.draft (LoginState.directory LoginSample.state)) !! "sec_2") = Some "ten_other"
      ∧ match (consume_login_attempt (login_secret_hash "gwst_AAAA") "lp_1" 70
                 (LoginSample.started "sec_2")).1, resolve_oidc_provider_metadata LoginSample.config provider with
        | Ok attempt, Ok metadata =>
            exchange_oidc_authorization_code provider attempt LoginSample.callback metadata
              (LoginSample.started "sec_2") = Ok "theirs"
        | _, _ => False
        end
  end.
Proof. vm_compute. repeat split. Qed.
