(* ===== verification/PlatAction.v ===== *)
(** * Platform actions, roles and authorization

    [action.rs] of the platform crate: the canonical action registry, the
    built-in roles, grants with a role scope, and the foundation engine that
    decides a request from the grants of its principal. *)

From S2P Require Import Prelude Order Text.

Module PlatformAction.
Inductive t : Set :=
  | ConversationCreate | ConversationRead | ConversationUpdate | SessionCreate | SessionRead |
    RunCreate | RunRead | RunCancel | RunSteer | RunEventRead | ApprovalRead | ApprovalDecide
    | DeferredToolRead | DeferredToolResume | EnvironmentAttachmentCreate |
    EnvironmentAttachmentRead | EnvironmentAttachmentRelease | EnvironmentAttachmentHealthRead
    | EvidenceArchiveRead | EvidenceArchiveDebugRead | IdentityProviderRead |
    IdentityProviderWrite | UserRead | UserWrite | ExternalIdentityRead |
    ExternalIdentityUnlink | RoleBindingRead | RoleBindingWrite | AuthSessionCreate |
    AuthSessionRead | AuthSessionUpdate | AuthSessionRevoke | AuditEventRead |
    OrganizationMemberRead | OrganizationMemberWrite | OrganizationInvitationRead |
    OrganizationInvitationCreate | OrganizationInvitationManage | OrganizationInvitationAccept
    | ProjectMemberRead | ProjectMemberWrite | SecretRefRead | SecretRefWrite.

Definition as_str (self : t) : string :=
  match self with
  | ConversationCreate => "platform.conversation.create"
  | ConversationRead => "platform.conversation.read"
  | ConversationUpdate => "platform.conversation.update"
  | SessionCreate => "platform.session.create"
  | SessionRead => "platform.session.read"
  | RunCreate => "platform.run.create"
  | RunRead => "platform.run.read"
  | RunCancel => "platform.run.cancel"
  | RunSteer => "platform.run.steer"
  | RunEventRead => "platform.run_event.read"
  | ApprovalRead => "platform.approval.read"
  | ApprovalDecide => "platform.approval.decide"
  | DeferredToolRead => "platform.deferred_tool.read"
  | DeferredToolResume => "platform.deferred_tool.resume"
  | EnvironmentAttachmentCreate => "platform.environment_attachment.create"
  | EnvironmentAttachmentRead => "platform.environment_attachment.read"
  | EnvironmentAttachmentRelease => "platform.environment_attachment.release"
  | EnvironmentAttachmentHealthRead => "platform.environment_attachment.health.read"
  | EvidenceArchiveRead => "platform.evidence_archive.read"
  | EvidenceArchiveDebugRead => "platform.evidence_archive.debug.read"
  | IdentityProviderRead => "platform.identity_provider.read"
  | IdentityProviderWrite => "platform.identity_provider.write"
  | UserRead => "platform.user.read"
  | UserWrite => "platform.user.write"
  | ExternalIdentityRead => "platform.external_identity.read"
  | ExternalIdentityUnlink => "platform.external_identity.unlink"
  | RoleBindingRead => "platform.role_binding.read"
  | RoleBindingWrite => "platform.role_binding.write"
  | AuthSessionCreate => "platform.auth_session.create"
  | AuthSessionRead => "platform.auth_session.read"
  | AuthSessionUpdate => "platform.auth_session.update"
  | AuthSessionRevoke => "platform.auth_session.revoke"
  | AuditEventRead => "platform.audit_event.read"
  | OrganizationMemberRead => "platform.organization_member.read"
  | OrganizationMemberWrite => "platform.organization_member.write"
  | OrganizationInvitationRead => "platform.organization_invitation.read"
  | OrganizationInvitationCreate => "platform.organization_invitation.create"
  | OrganizationInvitationManage => "platform.organization_invitation.manage"
  | OrganizationInvitationAccept => "platform.organization_invitation.accept"
  | ProjectMemberRead => "platform.project_member.read"
  | ProjectMemberWrite => "platform.project_member.write"
  | SecretRefRead => "platform.secret_ref.read"
  | SecretRefWrite => "platform.secret_ref.write"
  end.

Definition resource_kind (self : t) : string :=
  match self with
  | ConversationCreate | ConversationRead | ConversationUpdate => "Conversation"
  | SessionCreate | SessionRead => "AgentSession"
  | RunCreate | RunRead | RunCancel | RunSteer => "Run"
  | RunEventRead => "RunEvent"
  | ApprovalRead | ApprovalDecide => "Approval"
  | DeferredToolRead | DeferredToolResume => "DeferredTool"
  | EnvironmentAttachmentCreate | EnvironmentAttachmentRead | EnvironmentAttachmentRelease |
    EnvironmentAttachmentHealthRead => "EnvironmentAttachment"
  | EvidenceArchiveRead | EvidenceArchiveDebugRead => "EvidenceArchive"
  | IdentityProviderRead | IdentityProviderWrite => "IdentityProvider"
  | UserRead | UserWrite => "User"
  | ExternalIdentityRead | ExternalIdentityUnlink => "ExternalIdentity"
  | RoleBindingRead | RoleBindingWrite => "RoleBinding"
  | AuthSessionCreate | AuthSessionRead | AuthSessionUpdate | AuthSessionRevoke => "AuthSession"
  | AuditEventRead => "AuditEvent"
  | OrganizationMemberRead | OrganizationMemberWrite => "OrganizationMember"
  | OrganizationInvitationRead | OrganizationInvitationCreate | OrganizationInvitationManage |
    OrganizationInvitationAccept => "OrganizationInvitation"
  | ProjectMemberRead | ProjectMemberWrite => "ProjectMember"
  | SecretRefRead | SecretRefWrite => "SecretRef"
  end.

Definition requires_user_actor (self : t) : bool :=
  match self with
  | ConversationUpdate | RunCancel | RunSteer | ApprovalRead | ApprovalDecide |
    DeferredToolResume | EnvironmentAttachmentRelease | EvidenceArchiveDebugRead |
    IdentityProviderWrite | UserWrite | ExternalIdentityUnlink | RoleBindingWrite |
    AuthSessionRead | AuthSessionUpdate | AuthSessionRevoke | AuditEventRead |
    OrganizationMemberWrite | OrganizationInvitationCreate | OrganizationInvitationManage |
    OrganizationInvitationAccept | ProjectMemberWrite | SecretRefWrite => true
  | ConversationCreate | ConversationRead | SessionCreate | SessionRead | RunCreate | RunRead |
    RunEventRead | DeferredToolRead | EnvironmentAttachmentCreate | EnvironmentAttachmentRead |
    EnvironmentAttachmentHealthRead | EvidenceArchiveRead | IdentityProviderRead | UserRead |
    ExternalIdentityRead | RoleBindingRead | AuthSessionCreate | OrganizationMemberRead |
    OrganizationInvitationRead | ProjectMemberRead | SecretRefRead => false
  end.

Definition canonical_actions : list t :=
  [ConversationCreate; ConversationRead; ConversationUpdate; SessionCreate; SessionRead;
   RunCreate; RunRead; RunCancel; RunSteer; RunEventRead; ApprovalRead; ApprovalDecide;
   DeferredToolRead; DeferredToolResume; EnvironmentAttachmentCreate; EnvironmentAttachmentRead;
   EnvironmentAttachmentRelease; EnvironmentAttachmentHealthRead; EvidenceArchiveRead;
   EvidenceArchiveDebugRead; IdentityProviderRead; IdentityProviderWrite; UserRead; UserWrite;
   ExternalIdentityRead; ExternalIdentityUnlink; RoleBindingRead; RoleBindingWrite;
   AuthSessionCreate; AuthSessionRead; AuthSessionUpdate; AuthSessionRevoke; AuditEventRead;
   OrganizationMemberRead; OrganizationMemberWrite; OrganizationInvitationRead;
   OrganizationInvitationCreate; OrganizationInvitationManage; OrganizationInvitationAccept;
   ProjectMemberRead; ProjectMemberWrite; SecretRefRead; SecretRefWrite].

Record ActionDefinition : Set := mk_definition {
  action : t;
  action_id : string;
  definition_resource_kind : string;
}.

Definition canonical_definitions : list ActionDefinition :=
  (λ a, mk_definition a (as_str a) (resource_kind a)) <$> canonical_actions.

(** The [match] on the action id tries the arms in the order of the table. *)
Definition from_action_id (value : string) : option t :=
  action <$> List.find (λ d, action_id d ==? value) canonical_definitions.

Lemma platform_from_action_id a : from_action_id (as_str a) = Some a.
Proof. by destruct a; vm_compute. Qed.

#[global] Instance as_str_inj : Inj (=) (=) as_str.
Proof.
  intros a b H. apply (inj Some). by rewrite <- (platform_from_action_id a), H, platform_from_action_id.
Qed.

#[global] Instance eq_dec : EqDecision t.
Proof. apply (inj_eq_dec as_str). Defined.

Lemma platform_actions_complete a : a ∈ canonical_actions.
Proof. apply (bool_decide_unpack _). by destruct a; vm_compute. Qed.
End PlatformAction.

(** ** Built-in roles *)

Module RoleScopeKind.
Inductive t : Set := Tenant | Organization | Project | Any.
#[global] Instance eq_dec : EqDecision t.
Proof. solve_decision. Defined.

Definition as_str (self : t) : string :=
  match self with
  | Tenant => "tenant" | Organization => "organization" | Project => "project" | Any => "any"
  end.
End RoleScopeKind.

Definition PLATFORM_OPERATOR_ACTIONS : list PlatformAction.t :=
  [PlatformAction.ConversationRead; PlatformAction.SessionRead; PlatformAction.RunRead;
    PlatformAction.RunEventRead; PlatformAction.EnvironmentAttachmentRead;
    PlatformAction.EnvironmentAttachmentHealthRead; PlatformAction.EvidenceArchiveRead;
    PlatformAction.IdentityProviderRead; PlatformAction.UserRead;
    PlatformAction.ExternalIdentityRead; PlatformAction.RoleBindingRead;
    PlatformAction.AuthSessionRead; PlatformAction.AuditEventRead;
    PlatformAction.OrganizationMemberRead; PlatformAction.OrganizationInvitationRead;
    PlatformAction.ProjectMemberRead; PlatformAction.SecretRefRead].

Definition ORGANIZATION_ADMIN_ACTIONS : list PlatformAction.t :=
  [PlatformAction.ConversationCreate; PlatformAction.ConversationRead;
    PlatformAction.ConversationUpdate; PlatformAction.SessionCreate; PlatformAction.SessionRead;
    PlatformAction.RunCreate; PlatformAction.RunRead; PlatformAction.RunCancel;
    PlatformAction.RunEventRead; PlatformAction.ApprovalRead; PlatformAction.ApprovalDecide;
    PlatformAction.DeferredToolRead; PlatformAction.DeferredToolResume;
    PlatformAction.EnvironmentAttachmentCreate; PlatformAction.EnvironmentAttachmentRead;
    PlatformAction.EnvironmentAttachmentRelease; PlatformAction.EnvironmentAttachmentHealthRead;
    PlatformAction.EvidenceArchiveRead; PlatformAction.AuthSessionRead;
    PlatformAction.AuthSessionUpdate; PlatformAction.AuthSessionRevoke;
    PlatformAction.RoleBindingRead; PlatformAction.RoleBindingWrite;
    PlatformAction.AuditEventRead; PlatformAction.OrganizationMemberRead;
    PlatformAction.OrganizationMemberWrite; PlatformAction.OrganizationInvitationRead;
    PlatformAction.OrganizationInvitationCreate; PlatformAction.OrganizationInvitationManage;
    PlatformAction.OrganizationInvitationAccept; PlatformAction.ProjectMemberRead;
    PlatformAction.ProjectMemberWrite; PlatformAction.AuditEventRead].

Definition PROJECT_ADMIN_ACTIONS : list PlatformAction.t :=
  [PlatformAction.AuthSessionRead; PlatformAction.AuthSessionUpdate;
    PlatformAction.AuthSessionRevoke; PlatformAction.RoleBindingRead;
    PlatformAction.RoleBindingWrite; PlatformAction.ConversationCreate;
    PlatformAction.ConversationRead; PlatformAction.ConversationUpdate;
    PlatformAction.SessionCreate; PlatformAction.SessionRead; PlatformAction.RunCreate;
    PlatformAction.RunRead; PlatformAction.RunCancel; PlatformAction.RunEventRead;
    PlatformAction.ApprovalRead; PlatformAction.ApprovalDecide; PlatformAction.DeferredToolRead;
    PlatformAction.DeferredToolResume; PlatformAction.EnvironmentAttachmentCreate;
    PlatformAction.EnvironmentAttachmentRead; PlatformAction.EnvironmentAttachmentRelease;
    PlatformAction.EnvironmentAttachmentHealthRead; PlatformAction.EvidenceArchiveRead;
    PlatformAction.ProjectMemberRead; PlatformAction.ProjectMemberWrite].

Definition PROJECT_DEVELOPER_ACTIONS : list PlatformAction.t :=
  [PlatformAction.AuthSessionRead; PlatformAction.AuthSessionUpdate;
    PlatformAction.AuthSessionRevoke; PlatformAction.ConversationCreate;
    PlatformAction.ConversationRead; PlatformAction.SessionCreate; PlatformAction.SessionRead;
    PlatformAction.RunCreate; PlatformAction.RunRead; PlatformAction.RunCancel;
    PlatformAction.RunSteer; PlatformAction.RunEventRead; PlatformAction.ApprovalRead;
    PlatformAction.ApprovalDecide; PlatformAction.DeferredToolRead;
    PlatformAction.DeferredToolResume; PlatformAction.EnvironmentAttachmentCreate;
    PlatformAction.EnvironmentAttachmentRead; PlatformAction.EnvironmentAttachmentRelease;
    PlatformAction.EnvironmentAttachmentHealthRead; PlatformAction.EvidenceArchiveRead].

Definition PROJECT_VIEWER_ACTIONS : list PlatformAction.t :=
  [PlatformAction.AuthSessionRead; PlatformAction.AuthSessionUpdate;
    PlatformAction.AuthSessionRevoke; PlatformAction.ConversationRead;
    PlatformAction.SessionRead; PlatformAction.RunRead; PlatformAction.RunEventRead;
    PlatformAction.ApprovalRead; PlatformAction.DeferredToolRead;
    PlatformAction.EnvironmentAttachmentRead; PlatformAction.EnvironmentAttachmentHealthRead;
    PlatformAction.EvidenceArchiveRead].

Definition AUDITOR_ACTIONS : list PlatformAction.t :=
  [PlatformAction.AuthSessionRead; PlatformAction.AuthSessionUpdate;
    PlatformAction.AuthSessionRevoke; PlatformAction.RunRead; PlatformAction.RunEventRead;
    PlatformAction.EvidenceArchiveRead; PlatformAction.EvidenceArchiveDebugRead;
    PlatformAction.RoleBindingRead; PlatformAction.AuditEventRead].

Module BuiltInRole.
Inductive t : Set :=
  | TenantOwner | PlatformOperator | OrganizationAdmin | ProjectAdmin | ProjectDeveloper
  | ProjectViewer | Auditor.
#[global] Instance eq_dec : EqDecision t.
Proof. solve_decision. Defined.

Definition built_ins : list t :=
  [TenantOwner; PlatformOperator; OrganizationAdmin; ProjectAdmin; ProjectDeveloper;
   ProjectViewer; Auditor].

Definition as_str (self : t) : string :=
  match self with
  | TenantOwner => "tenant_owner"
  | PlatformOperator => "platform_operator"
  | OrganizationAdmin => "organization_admin"
  | ProjectAdmin => "project_admin"
  | ProjectDeveloper => "project_developer"
  | ProjectViewer => "project_viewer"
  | Auditor => "auditor"
  end.

Definition from_id (value : string) : option t :=
  if value ==? "tenant_owner" then Some TenantOwner
  else if value ==? "platform_operator" then Some PlatformOperator
  else if value ==? "organization_admin" then Some OrganizationAdmin
  else if value ==? "project_admin" then Some ProjectAdmin
  else if value ==? "project_developer" then Some ProjectDeveloper
  else if value ==? "project_viewer" then Some ProjectViewer
  else if value ==? "auditor" then Some Auditor
  else None.

Definition scope_kind (self : t) : RoleScopeKind.t :=
  match self with
  | TenantOwner | PlatformOperator => RoleScopeKind.Tenant
  | OrganizationAdmin => RoleScopeKind.Organization
  | ProjectAdmin | ProjectDeveloper | ProjectViewer => RoleScopeKind.Project
  | Auditor => RoleScopeKind.Any
  end.

Definition actions (self : t) : list PlatformAction.t :=
  match self with
  | TenantOwner => PlatformAction.canonical_actions
  | PlatformOperator => PLATFORM_OPERATOR_ACTIONS
  | OrganizationAdmin => ORGANIZATION_ADMIN_ACTIONS
  | ProjectAdmin => PROJECT_ADMIN_ACTIONS
  | ProjectDeveloper => PROJECT_DEVELOPER_ACTIONS
  | ProjectViewer => PROJECT_VIEWER_ACTIONS
  | Auditor => AUDITOR_ACTIONS
  end.
End BuiltInRole.

(** ** Actors and resources *)

Module ActorKind.
Inductive t : Set := User | ServiceAccount | System.
#[global] Instance eq_dec : EqDecision t.
Proof. solve_decision. Defined.
End ActorKind.

Module AuthenticatedActor.
Record t : Set := mk {
  tenant_id : string;
  organization_id : option string;
  project_id : option string;
  principal_id : string;
  actor_kind : ActorKind.t;
}.

Definition project_user (tenant_id organization_id project_id principal_id : string) : t :=
  mk tenant_id (Some organization_id) (Some project_id) principal_id ActorKind.User.
Definition project_service_account (tenant_id organization_id project_id principal_id : string)
    : t :=
  mk tenant_id (Some organization_id) (Some project_id) principal_id ActorKind.ServiceAccount.
End AuthenticatedActor.

Module ResourceRef.
Record t : Set := mk {
  kind : string;
  tenant_id : string;
  organization_id : option string;
  project_id : option string;
  resource_id : string;
}.

Definition project (kind tenant_id organization_id project_id resource_id : string) : t :=
  mk kind tenant_id (Some organization_id) (Some project_id) resource_id.
Definition tenant (kind tenant_id resource_id : string) : t :=
  mk kind tenant_id None None resource_id.
End ResourceRef.

(** ** Grants *)

Module ActionGrant.
Record t : Set := mk {
  tenant_id : string;
  principal_id : string;
  action : PlatformAction.t;
  resource_kind : string;
  scope_kind : RoleScopeKind.t;
  scope_id : string;
}.

Definition project (tenant_id project_id principal_id : string) (action : PlatformAction.t) : t :=
  mk tenant_id principal_id action (PlatformAction.resource_kind action) RoleScopeKind.Project
    project_id.

Definition for_builtin_role (tenant_id scope_id principal_id : string) (role : BuiltInRole.t)
    : list t :=
  (λ action, mk tenant_id principal_id action (PlatformAction.resource_kind action)
     (BuiltInRole.scope_kind role) scope_id) <$> BuiltInRole.actions role.
End ActionGrant.

(** ** Requests and the engine *)

Module AuthorizationRequest.
Record t : Set := mk {
  actor : AuthenticatedActor.t;
  action : PlatformAction.t;
  resource : ResourceRef.t;
}.
End AuthorizationRequest.

Module AuthorizationDecision.
Record t : Set := mk { allowed : bool; reason : string }.
Definition allow : t := mk true "allow".
Definition deny (reason : string) : t := mk false reason.
End AuthorizationDecision.

Definition grant_scope_matches (grant : ActionGrant.t) (resource : ResourceRef.t) : bool :=
  let id := ActionGrant.scope_id grant in
  match ActionGrant.scope_kind grant with
  | RoleScopeKind.Tenant => id ==? ResourceRef.tenant_id resource
  | RoleScopeKind.Organization => ResourceRef.organization_id resource ==? Some id
  | RoleScopeKind.Project => ResourceRef.project_id resource ==? Some id
  | RoleScopeKind.Any =>
      (id ==? ResourceRef.tenant_id resource)
      || (ResourceRef.organization_id resource ==? Some id)
      || (ResourceRef.project_id resource ==? Some id)
  end.

Definition grant_allows (grant : ActionGrant.t) (request : AuthorizationRequest.t) : bool :=
  let actor := AuthorizationRequest.actor request in
  let resource := AuthorizationRequest.resource request in
  (ActionGrant.tenant_id grant ==? AuthenticatedActor.tenant_id actor)
  && (ActionGrant.principal_id grant ==? AuthenticatedActor.principal_id actor)
  && (ActionGrant.action grant ==? AuthorizationRequest.action request)
  && (ActionGrant.resource_kind grant ==? ResourceRef.kind resource)
  && grant_scope_matches grant resource.

(** The trait, and the engine over explicit grants. *)
Class AuthorizationEngine (E : Type) : Type :=
  authorize : E → AuthorizationRequest.t → AuthorizationDecision.t.

Module FoundationAuthorizationEngine.
Record t : Set := new { grants : list ActionGrant.t }.

#[global] Instance engine : AuthorizationEngine t := λ self request,
  let actor := AuthorizationRequest.actor request in
  let resource := AuthorizationRequest.resource request in
  let action := AuthorizationRequest.action request in
  if ResourceRef.tenant_id resource !=? AuthenticatedActor.tenant_id actor then
    AuthorizationDecision.deny "tenant_mismatch"
  else if ResourceRef.kind resource !=? PlatformAction.resource_kind action then
    AuthorizationDecision.deny "resource_kind_mismatch"
  else if PlatformAction.requires_user_actor action
          && (AuthenticatedActor.actor_kind actor !=? ActorKind.User) then
    AuthorizationDecision.deny "user_actor_required"
  else if existsb (λ grant, grant_allows grant request) (grants self) then
    AuthorizationDecision.allow
  else AuthorizationDecision.deny "missing_action_grant".
End FoundationAuthorizationEngine.

Module AuthorizableItem.
Record t {A : Type} : Type := mk { value : A; resource : ResourceRef.t }.
Arguments t A : clear implicits.
Arguments mk {A}.
End AuthorizableItem.

Definition authorize_item_list {E A} `{AuthorizationEngine E} (engine : E)
    (actor : AuthenticatedActor.t) (action : PlatformAction.t)
    (items : list (AuthorizableItem.t A)) : list A :=
  omap (λ item,
    let decision := authorize engine
      (AuthorizationRequest.mk actor action (AuthorizableItem.resource item)) in
    if AuthorizationDecision.allowed decision then Some (AuthorizableItem.value item) else None)
    items.

(** ** Lemmas *)

(** The scope of a grant covers a resource. *)
Definition scope_covers (kind : RoleScopeKind.t) (id : string) (resource : ResourceRef.t) : Prop :=
  match kind with
  | RoleScopeKind.Tenant => ResourceRef.tenant_id resource = id
  | RoleScopeKind.Organization => ResourceRef.organization_id resource = Some id
  | RoleScopeKind.Project => ResourceRef.project_id resource = Some id
  | RoleScopeKind.Any =>
      ResourceRef.tenant_id resource = id ∨ ResourceRef.organization_id resource = Some id ∨
      ResourceRef.project_id resource = Some id
  end.

Lemma grant_scope_matches_iff grant resource :
  grant_scope_matches grant resource = true ↔
  scope_covers (ActionGrant.scope_kind grant) (ActionGrant.scope_id grant) resource.
Proof.
  unfold grant_scope_matches, scope_covers.
  destruct (ActionGrant.scope_kind grant); rewrite ?orb_true_iff, ?bool_decide_eq_true; naive_solver.
Qed.

(** What a request must satisfy before any grant is looked at. *)
Record admissible (request : AuthorizationRequest.t) : Prop := {
  admissible_tenant : ResourceRef.tenant_id (AuthorizationRequest.resource request)
    = AuthenticatedActor.tenant_id (AuthorizationRequest.actor request);
  admissible_kind : ResourceRef.kind (AuthorizationRequest.resource request)
    = PlatformAction.resource_kind (AuthorizationRequest.action request);
  admissible_user :
    PlatformAction.requires_user_actor (AuthorizationRequest.action request) = true →
    AuthenticatedActor.actor_kind (AuthorizationRequest.actor request) = ActorKind.User;
}.

Lemma platform_authorize_iff gs request :
  AuthorizationDecision.allowed (authorize (FoundationAuthorizationEngine.new gs) request) = true ↔
  admissible request ∧ ∃ g, g ∈ gs ∧ grant_allows g request = true.
Proof.
  unfold authorize, FoundationAuthorizationEngine.engine. cbv zeta.
  case_bool_decide as H1; simpl; [|split; [done|intros [[] _]; done]].
  case_bool_decide as H2; simpl; [|split; [done|intros [[] _]; done]].
  destruct (_ && _) eqn:H3; simpl.
  { btrue. split; [done|]. intros [[_ _ Hu] _]. naive_solver. }
  assert (admissible request) as Ha.
  { split; [done..|]. intros Hr. rewrite Hr in H3. simpl in H3. by btrue. }
  destruct (existsb _ _) eqn:E; simpl.
  - apply existsb_iff in E. naive_solver.
  - rewrite existsb_false_iff in E. split; [done|]. intros [_ (g & Hg & Hga)].
    rewrite (E g Hg) in Hga. done.
Qed.

(** The grants of a built-in role, seen from a request. *)
Lemma role_grants_allow tenant scope principal role request :
  (∃ g, g ∈ ActionGrant.for_builtin_role tenant scope principal role ∧
        grant_allows g request = true) ∧ admissible request ↔
  tenant = AuthenticatedActor.tenant_id (AuthorizationRequest.actor request) ∧
  principal = AuthenticatedActor.principal_id (AuthorizationRequest.actor request) ∧
  AuthorizationRequest.action request ∈ BuiltInRole.actions role ∧
  scope_covers (BuiltInRole.scope_kind role) scope (AuthorizationRequest.resource request) ∧
  admissible request.
Proof.
  split.
  - intros [(g & Hg & Ha) Hadm]. apply list_elem_of_fmap in Hg as (a & -> & Hin).
    unfold grant_allows in Ha. simpl in Ha. btrue.
    match goal with H : grant_scope_matches _ _ = true |- _ => apply grant_scope_matches_iff in H end.
    naive_solver.
  - intros (-> & -> & Hin & Hs & Hadm). split; [|done].
    eexists. split; [apply list_elem_of_fmap; by eexists|]. unfold grant_allows. simpl.
    rewrite !bool_decide_eq_true_2 by (done || (symmetry; apply Hadm)).
    by apply grant_scope_matches_iff.
Qed.
