(* ===== verification/PlatUser.v ===== *)
(** * Platform users

    [user.rs]: the user record, its validation and the in-memory store.  A
    status change carries the version it was based on; a deleted user is gone
    for every read but the login check. *)

From S2P Require Import Prelude Order Text.

Module PlatformUserStatus.
Inductive t : Set := Active | Disabled | Deleted.
#[global] Instance eq_dec : EqDecision t.
Proof. solve_decision. Defined.

Definition as_str (self : t) : string :=
  match self with Active => "active" | Disabled => "disabled" | Deleted => "deleted" end.
Definition from_id (value : string) : option t :=
  if value ==? "active" then Some Active
  else if value ==? "disabled" then Some Disabled
  else if value ==? "deleted" then Some Deleted
  else None.
Definition accepts_access (self : t) : bool := match self with Active => true | _ => false end.
End PlatformUserStatus.

Module PlatformUserError.
Inductive t : Set :=
  | InvalidUserId | InvalidTenantId | InvalidOrganizationId | InvalidProjectId | InvalidEmail
  | InvalidDisplayName | InvalidStatus | InvalidResourceVersion | StaleResourceVersion
  | UnknownUser.

Definition as_str (self : t) : string :=
  match self with
  | InvalidUserId => "user_id_invalid"
  | InvalidTenantId => "tenant_id_invalid"
  | InvalidOrganizationId => "organization_id_invalid"
  | InvalidProjectId => "project_id_invalid"
  | InvalidEmail => "user_email_invalid"
  | InvalidDisplayName => "user_display_name_invalid"
  | InvalidStatus => "user_status_invalid"
  | InvalidResourceVersion => "resource_version_invalid"
  | StaleResourceVersion => "stale_resource_version"
  | UnknownUser => "user_not_found"
  end.
End PlatformUserError.

Module PlatformUserRecord.
Record t : Set := mk {
  user_id : string;
  tenant_id : string;
  default_organization_id : option string;
  default_project_id : option string;
  primary_email : option string;
  display_name : string;
  status : PlatformUserStatus.t;
  resource_version : Z;
}.

(** [user.status = status; user.resource_version += 1]. *)
Definition with_status (r : t) (status : PlatformUserStatus.t) : t :=
  mk (user_id r) (tenant_id r) (default_organization_id r) (default_project_id r)
    (primary_email r) (display_name r) status (wrap_i64 (resource_version r + 1)).
End PlatformUserRecord.

Definition validate_prefixed_id (value prefix : string) (error : PlatformUserError.t)
    : result PlatformUserError.t unit :=
  let value := trim value in
  if (String.length value <=? String.length prefix)%nat || negb (starts_with prefix value)
  then Err error else Ok tt.

Definition valid_email (value : string) : bool :=
  let value := trim value in
  contains "@" value && negb (starts_with "@" value) && negb (ends_with "@" value).

Definition validate_platform_user_record (record : PlatformUserRecord.t)
    : result PlatformUserError.t unit :=
  validate_prefixed_id (PlatformUserRecord.user_id record) "usr_" PlatformUserError.InvalidUserId;;
  validate_prefixed_id (PlatformUserRecord.tenant_id record) "ten_"
    PlatformUserError.InvalidTenantId;;
  match PlatformUserRecord.default_organization_id record with
  | Some organization_id =>
      validate_prefixed_id organization_id "org_" PlatformUserError.InvalidOrganizationId
  | None => Ok tt
  end;;
  match PlatformUserRecord.default_project_id record with
  | Some project_id => validate_prefixed_id project_id "prj_" PlatformUserError.InvalidProjectId
  | None => Ok tt
  end;;
  if match PlatformUserRecord.primary_email record with
     | Some email => negb (valid_email email)
     | None => false
     end
  then Err PlatformUserError.InvalidEmail
  else if trim (PlatformUserRecord.display_name record) ==? ""
  then Err PlatformUserError.InvalidDisplayName
  else if (PlatformUserRecord.resource_version record <? 1)%Z
  then Err PlatformUserError.InvalidResourceVersion
  else Ok tt.

(** ** The store *)

Module InMemoryPlatformUserStore.
Record t : Set := mk { users : gmap string PlatformUserRecord.t }.
Definition new : t := mk ∅.

Definition record_user (record : PlatformUserRecord.t) : M t PlatformUserError.t unit := λ s,
  match validate_platform_user_record record with
  | Err e => (Err e, s)
  | Ok _ => (Ok tt, mk (<[PlatformUserRecord.user_id record := record]> (users s)))
  end.

Definition not_deleted (user : PlatformUserRecord.t) : bool :=
  PlatformUserRecord.status user !=? PlatformUserStatus.Deleted.

Definition users_for_tenant (tenant_id : string) (s : t) : list PlatformUserRecord.t :=
  List.filter (λ user, (PlatformUserRecord.tenant_id user ==? tenant_id) && not_deleted user)
    (values (users s)).

Definition user (user_id : string) (s : t) : option PlatformUserRecord.t :=
  match users s !! user_id with
  | Some u => if not_deleted u then Some u else None
  | None => None
  end.

Definition user_including_deleted (user_id : string) (s : t) : option PlatformUserRecord.t :=
  users s !! user_id.

(** The record is changed in place before it is validated again. *)
Definition update_user_status (user_id : string) (expected_version : Z)
    (status : PlatformUserStatus.t) : M t PlatformUserError.t PlatformUserRecord.t := λ s,
  if (expected_version <? 1)%Z then (Err PlatformUserError.InvalidResourceVersion, s)
  else match users s !! user_id with
  | None => (Err PlatformUserError.UnknownUser, s)
  | Some u =>
      if PlatformUserRecord.status u ==? PlatformUserStatus.Deleted
      then (Err PlatformUserError.UnknownUser, s)
      else if PlatformUserRecord.resource_version u !=? expected_version
      then (Err PlatformUserError.StaleResourceVersion, s)
      else
        let u' := PlatformUserRecord.with_status u status in
        let s' := mk (<[user_id := u']> (users s)) in
        match validate_platform_user_record u' with
        | Err e => (Err e, s')
        | Ok _ => (Ok u', s')
        end
  end.
End InMemoryPlatformUserStore.
