(* ===== verification/PlatRole.v ===== *)
(** * Platform role bindings

    [role.rs]: a binding gives a principal a built-in role at the tenant, an
    organization or a project.  The store keeps one binding per principal,
    role and scope; deleted bindings stay for the record and can be revived. *)

From S2P Require Import Prelude Order Text PlatAction.

Module PlatformRoleBindingStatus.
Inductive t : Set := Active | Disabled | Deleted.
#[global] Instance eq_dec : EqDecision t.
Proof. solve_decision. Defined.

Definition as_str (self : t) : string :=
  match self with Active => "active" | Disabled => "disabled" | Deleted => "deleted" end.
Definition from_id (value : string) : option t :=
  if value ==? "active" then Some Active
  else if value ==? "disabled" then Some Disabled
  else if value ==? "deleted" then Some Deleted
  else None.
End PlatformRoleBindingStatus.

Module PlatformRoleBindingRecord.
Record t : Set := mk {
  role_binding_id : string;
  tenant_id : string;
  organization_id : option string;
  project_id : option string;
  principal_id : string;
  role_id : string;
  status : PlatformRoleBindingStatus.t;
  resource_version : Z;
}.

Definition built_in_role (self : t) : option BuiltInRole.t := BuiltInRole.from_id (role_id self).

(** [record.status = status; record.resource_version += 1]. *)
Definition with_status (r : t) (status : PlatformRoleBindingStatus.t) : t :=
  mk (role_binding_id r) (tenant_id r) (organization_id r) (project_id r) (principal_id r)
    (role_id r) status (wrap_i64 (resource_version r + 1)).
End PlatformRoleBindingRecord.

Module PlatformRoleBindingError.
Inductive t : Set :=
  | InvalidRoleBindingId | InvalidTenantId | InvalidOrganizationId | InvalidProjectId
  | InvalidPrincipalId | InvalidRoleId | InvalidScope | InvalidStatus | StaleResourceVersion.

Definition as_str (self : t) : string :=
  match self with
  | InvalidRoleBindingId => "role_binding_id_invalid"
  | InvalidTenantId => "tenant_id_invalid"
  | InvalidOrganizationId => "organization_id_invalid"
  | InvalidProjectId => "project_id_invalid"
  | InvalidPrincipalId => "principal_id_invalid"
  | InvalidRoleId => "role_id_invalid"
  | InvalidScope => "role_binding_scope_invalid"
  | InvalidStatus => "role_binding_status_invalid"
  | StaleResourceVersion => "stale_resource_version"
  end.
End PlatformRoleBindingError.

Module PlatformRoleBindingUpsert.
Record t : Set := mk {
  role_binding_id : string;
  tenant_id : string;
  organization_id : option string;
  project_id : option string;
  principal_id : string;
  role_id : string;
}.
End PlatformRoleBindingUpsert.

(** ** Validation *)

Definition validate_prefixed (value prefix : string) (error : PlatformRoleBindingError.t)
    : result PlatformRoleBindingError.t unit :=
  if starts_with prefix value && (String.length prefix <? String.length value)%nat
  then Ok tt else Err error.

Definition validate_principal_id (value : string) : result PlatformRoleBindingError.t unit :=
  if starts_with "usr_" value || starts_with "svc_" value
  then Ok tt else Err PlatformRoleBindingError.InvalidPrincipalId.

Definition validate_scope_shape (role : BuiltInRole.t) (organization_id project_id : option string)
    : result PlatformRoleBindingError.t unit :=
  match BuiltInRole.scope_kind role, organization_id, project_id with
  | RoleScopeKind.Tenant, None, None => Ok tt
  | RoleScopeKind.Organization, Some _, None => Ok tt
  | RoleScopeKind.Project, Some _, Some _ => Ok tt
  | RoleScopeKind.Any, None, Some _ => Err PlatformRoleBindingError.InvalidScope
  | RoleScopeKind.Any, _, _ => Ok tt
  | _, _, _ => Err PlatformRoleBindingError.InvalidScope
  end.

Definition validate_role_binding (record : PlatformRoleBindingRecord.t)
    : result PlatformRoleBindingError.t unit :=
  validate_prefixed (PlatformRoleBindingRecord.role_binding_id record) "rb_"
    PlatformRoleBindingError.InvalidRoleBindingId;;
  validate_prefixed (PlatformRoleBindingRecord.tenant_id record) "ten_"
    PlatformRoleBindingError.InvalidTenantId;;
  validate_principal_id (PlatformRoleBindingRecord.principal_id record);;
  match PlatformRoleBindingRecord.organization_id record with
  | Some organization_id =>
      validate_prefixed organization_id "org_" PlatformRoleBindingError.InvalidOrganizationId
  | None => Ok tt
  end;;
  match PlatformRoleBindingRecord.project_id record with
  | Some project_id =>
      validate_prefixed project_id "prj_" PlatformRoleBindingError.InvalidProjectId
  | None => Ok tt
  end;;
  match PlatformRoleBindingRecord.built_in_role record with
  | None => Err PlatformRoleBindingError.InvalidRoleId
  | Some role =>
      validate_scope_shape role (PlatformRoleBindingRecord.organization_id record)
        (PlatformRoleBindingRecord.project_id record);;
      if (PlatformRoleBindingRecord.resource_version record <=? 0)%Z
      then Err PlatformRoleBindingError.StaleResourceVersion else Ok tt
  end.

(** ** The store *)

Module InMemoryPlatformRoleBindingStore.
Record t : Set := mk { role_bindings : gmap string PlatformRoleBindingRecord.t }.
Definition new : t := mk ∅.
Abbreviation Eff := (M t PlatformRoleBindingError.t).

Definition record_role_binding (record : PlatformRoleBindingRecord.t) : Eff unit := λ s,
  match validate_role_binding record with
  | Err e => (Err e, s)
  | Ok _ =>
      (Ok tt, mk (<[PlatformRoleBindingRecord.role_binding_id record := record]> (role_bindings s)))
  end.

Definition by_id : PlatformRoleBindingRecord.t → PlatformRoleBindingRecord.t → comparison :=
  cmp_on PlatformRoleBindingRecord.role_binding_id String.compare.

Definition role_bindings_for_tenant (tenant_id : string) (s : t)
    : list PlatformRoleBindingRecord.t :=
  sort_by by_id (List.filter (λ r, (PlatformRoleBindingRecord.tenant_id r ==? tenant_id)
      && (PlatformRoleBindingRecord.status r !=? PlatformRoleBindingStatus.Deleted))
    (values (role_bindings s))).

Definition active_role_bindings_for_principal (tenant_id principal_id : string) (s : t)
    : list PlatformRoleBindingRecord.t :=
  sort_by by_id (List.filter (λ r, (PlatformRoleBindingRecord.tenant_id r ==? tenant_id)
      && (PlatformRoleBindingRecord.principal_id r ==? principal_id)
      && (PlatformRoleBindingRecord.status r ==? PlatformRoleBindingStatus.Active))
    (values (role_bindings s))).

Definition role_binding (role_binding_id : string) (s : t) : option PlatformRoleBindingRecord.t :=
  role_bindings s !! role_binding_id.

Definition equivalent (request : PlatformRoleBindingUpsert.t) (r : PlatformRoleBindingRecord.t)
    : bool :=
  (PlatformRoleBindingRecord.tenant_id r ==? PlatformRoleBindingUpsert.tenant_id request)
  && (PlatformRoleBindingRecord.organization_id r
      ==? PlatformRoleBindingUpsert.organization_id request)
  && (PlatformRoleBindingRecord.project_id r ==? PlatformRoleBindingUpsert.project_id request)
  && (PlatformRoleBindingRecord.principal_id r ==? PlatformRoleBindingUpsert.principal_id request)
  && (PlatformRoleBindingRecord.role_id r ==? PlatformRoleBindingUpsert.role_id request).

(** The trailing validation runs after the change. *)
Definition upsert_role_binding (request : PlatformRoleBindingUpsert.t)
    : Eff PlatformRoleBindingRecord.t := λ s,
  let finish record s' :=
    match validate_role_binding record with Ok _ => (Ok record, s') | Err e => (Err e, s') end in
  match List.find (equivalent request) (values (role_bindings s)) with
  | Some existing =>
      let existing_id := PlatformRoleBindingRecord.role_binding_id existing in
      match role_bindings s !! existing_id with
      | None => (Err PlatformRoleBindingError.InvalidRoleBindingId, s)
      | Some record =>
          if PlatformRoleBindingRecord.status record !=? PlatformRoleBindingStatus.Active then
            let record :=
              PlatformRoleBindingRecord.with_status record PlatformRoleBindingStatus.Active in
            finish record (mk (<[existing_id := record]> (role_bindings s)))
          else finish record s
      end
  | None =>
      let record := PlatformRoleBindingRecord.mk
        (PlatformRoleBindingUpsert.role_binding_id request)
        (PlatformRoleBindingUpsert.tenant_id request)
        (PlatformRoleBindingUpsert.organization_id request)
        (PlatformRoleBindingUpsert.project_id request)
        (PlatformRoleBindingUpsert.principal_id request)
        (PlatformRoleBindingUpsert.role_id request) PlatformRoleBindingStatus.Active 1 in
      match validate_role_binding record with
      | Err e => (Err e, s)
      | Ok _ => finish record
          (mk (<[PlatformRoleBindingRecord.role_binding_id record := record]> (role_bindings s)))
      end
  end.

Definition update_role_binding_status (role_binding_id : string) (expected_resource_version : Z)
    (status : PlatformRoleBindingStatus.t) : Eff PlatformRoleBindingRecord.t := λ s,
  match role_bindings s !! role_binding_id with
  | None => (Err PlatformRoleBindingError.InvalidRoleBindingId, s)
  | Some record =>
      if PlatformRoleBindingRecord.resource_version record !=? expected_resource_version
      then (Err PlatformRoleBindingError.StaleResourceVersion, s)
      else
        let updated := PlatformRoleBindingRecord.with_status record status in
        let s' := mk (<[role_binding_id := updated]> (role_bindings s)) in
        match validate_role_binding updated with
        | Ok _ => (Ok updated, s')
        | Err e => (Err e, s')
        end
  end.

Definition delete_where (p : PlatformRoleBindingRecord.t → bool) (s : t) : nat * t :=
  (count_where p (role_bindings s),
   mk (update_where p (λ r, PlatformRoleBindingRecord.with_status r PlatformRoleBindingStatus.Deleted)
         (role_bindings s))).

Definition delete_role_bindings_for_organization_principal
    (tenant_id organization_id principal_id : string) : t → nat * t :=
  delete_where (λ r, (PlatformRoleBindingRecord.tenant_id r ==? tenant_id)
    && (PlatformRoleBindingRecord.organization_id r ==? Some organization_id)
    && (PlatformRoleBindingRecord.principal_id r ==? principal_id)
    && (PlatformRoleBindingRecord.status r ==? PlatformRoleBindingStatus.Active)).

Definition delete_role_bindings_for_project_principal
    (tenant_id project_id principal_id : string) : t → nat * t :=
  delete_where (λ r, (PlatformRoleBindingRecord.tenant_id r ==? tenant_id)
    && (PlatformRoleBindingRecord.project_id r ==? Some project_id)
    && (PlatformRoleBindingRecord.principal_id r ==? principal_id)
    && (PlatformRoleBindingRecord.status r ==? PlatformRoleBindingStatus.Active)).
End InMemoryPlatformRoleBindingStore.
