(* ===== verification/PlatMembership.v ===== *)
(** * Platform memberships

    [membership.rs]: who belongs to an organization and to its projects.  A
    project membership names the organization membership it was made from;
    suspending or removing the latter carries over to the former. *)

From S2P Require Import Prelude Order Text.

Module PlatformMembershipStatus.
Inductive t : Set := Active | Suspended | Removed.
#[global] Instance eq_dec : EqDecision t.
Proof. solve_decision. Defined.

Definition as_str (self : t) : string :=
  match self with Active => "active" | Suspended => "suspended" | Removed => "removed" end.
Definition from_id (value : string) : option t :=
  if value ==? "active" then Some Active
  else if value ==? "suspended" then Some Suspended
  else if value ==? "removed" then Some Removed
  else None.
Definition accepts_access (self : t) : bool := match self with Active => true | _ => false end.
End PlatformMembershipStatus.

Module PlatformOrganizationMembershipRecord.
Record t : Set := mk {
  organization_member_id : string;
  tenant_id : string;
  organization_id : string;
  principal_id : string;
  membership_kind : string;
  status : PlatformMembershipStatus.t;
  resource_version : Z;
}.

(** Change status and kind, and advance the version. *)
Definition changed (r : t) (status : PlatformMembershipStatus.t) (kind : string) : t :=
  mk (organization_member_id r) (tenant_id r) (organization_id r) (principal_id r) kind status
    (wrap_i64 (resource_version r + 1)).
End PlatformOrganizationMembershipRecord.

Module PlatformProjectMembershipRecord.
Record t : Set := mk {
  project_member_id : string;
  tenant_id : string;
  organization_id : string;
  project_id : string;
  principal_id : string;
  organization_member_id : option string;
  membership_kind : string;
  status : PlatformMembershipStatus.t;
  resource_version : Z;
}.

Definition accepts_access (self : t) : bool :=
  PlatformMembershipStatus.accepts_access (status self).

(** Change status, parent and kind, and advance the version. *)
Definition changed (r : t) (status : PlatformMembershipStatus.t) (parent : option string)
    (kind : string) : t :=
  mk (project_member_id r) (tenant_id r) (organization_id r) (project_id r) (principal_id r)
    parent kind status (wrap_i64 (resource_version r + 1)).
Definition with_status (r : t) (status : PlatformMembershipStatus.t) : t :=
  changed r status (organization_member_id r) (membership_kind r).
End PlatformProjectMembershipRecord.

Module PlatformOrganizationMembershipUpsert.
Record t : Set := mk {
  organization_member_id : string;
  tenant_id : string;
  organization_id : string;
  principal_id : string;
  membership_kind : string;
  created_by : string;
}.
End PlatformOrganizationMembershipUpsert.

Module PlatformInvitedProjectMembershipUpsert.
Record t : Set := mk {
  project_member_id : string;
  tenant_id : string;
  organization_id : string;
  project_id : string;
  principal_id : string;
  organization_member_id : string;
  membership_kind : string;
}.
End PlatformInvitedProjectMembershipUpsert.

Module PlatformProjectMembershipUpsert.
Record t : Set := mk {
  project_member_id : string;
  tenant_id : string;
  organization_id : string;
  project_id : string;
  principal_id : string;
  organization_member_id : string;
  membership_kind : string;
  created_by : string;
}.
End PlatformProjectMembershipUpsert.

Module PlatformMembershipError.
Inductive t : Set :=
  | InvalidMembershipId | InvalidTenantId | InvalidOrganizationId | InvalidProjectId
  | InvalidPrincipalId | InvalidMembershipKind | InvalidStatus | StaleResourceVersion.

Definition as_str (self : t) : string :=
  match self with
  | InvalidMembershipId => "membership_id_invalid"
  | InvalidTenantId => "tenant_id_invalid"
  | InvalidOrganizationId => "organization_id_invalid"
  | InvalidProjectId => "project_id_invalid"
  | InvalidPrincipalId => "principal_id_invalid"
  | InvalidMembershipKind => "membership_kind_invalid"
  | InvalidStatus => "membership_status_invalid"
  | StaleResourceVersion => "stale_resource_version"
  end.
End PlatformMembershipError.

(** ** Validation *)

Definition validate_prefixed (value prefix : string) (error : PlatformMembershipError.t)
    : result PlatformMembershipError.t unit :=
  if starts_with prefix value then Ok tt else Err error.

Definition validate_principal_id (value : string) : result PlatformMembershipError.t unit :=
  if starts_with "usr_" value || starts_with "svc_" value
  then Ok tt else Err PlatformMembershipError.InvalidPrincipalId.

Definition validate_membership_kind (value : string) : result PlatformMembershipError.t unit :=
  if (value ==? "user") || (value ==? "service_account")
  then Ok tt else Err PlatformMembershipError.InvalidMembershipKind.

Definition validate_organization_member (record : PlatformOrganizationMembershipRecord.t)
    : result PlatformMembershipError.t unit :=
  validate_prefixed (PlatformOrganizationMembershipRecord.organization_member_id record) "om_"
    PlatformMembershipError.InvalidMembershipId;;
  validate_prefixed (PlatformOrganizationMembershipRecord.tenant_id record) "ten_"
    PlatformMembershipError.InvalidTenantId;;
  validate_prefixed (PlatformOrganizationMembershipRecord.organization_id record) "org_"
    PlatformMembershipError.InvalidOrganizationId;;
  validate_principal_id (PlatformOrganizationMembershipRecord.principal_id record);;
  validate_membership_kind (PlatformOrganizationMembershipRecord.membership_kind record);;
  if (PlatformOrganizationMembershipRecord.resource_version record <=? 0)%Z
  then Err PlatformMembershipError.StaleResourceVersion else Ok tt.

Definition validate_project_member (record : PlatformProjectMembershipRecord.t)
    : result PlatformMembershipError.t unit :=
  validate_prefixed (PlatformProjectMembershipRecord.project_member_id record) "pm_"
    PlatformMembershipError.InvalidMembershipId;;
  validate_prefixed (PlatformProjectMembershipRecord.tenant_id record) "ten_"
    PlatformMembershipError.InvalidTenantId;;
  validate_prefixed (PlatformProjectMembershipRecord.organization_id record) "org_"
    PlatformMembershipError.InvalidOrganizationId;;
  validate_prefixed (PlatformProjectMembershipRecord.project_id record) "prj_"
    PlatformMembershipError.InvalidProjectId;;
  validate_principal_id (PlatformProjectMembershipRecord.principal_id record);;
  match PlatformProjectMembershipRecord.organization_member_id record with
  | Some organization_member_id =>
      validate_prefixed organization_member_id "om_" PlatformMembershipError.InvalidMembershipId
  | None => Ok tt
  end;;
  validate_membership_kind (PlatformProjectMembershipRecord.membership_kind record);;
  if (PlatformProjectMembershipRecord.resource_version record <=? 0)%Z
  then Err PlatformMembershipError.StaleResourceVersion else Ok tt.

(** ** The store *)

Module InMemoryPlatformMembershipStore.
Record t : Set := mk {
  organization_members : gmap string PlatformOrganizationMembershipRecord.t;
  project_members : gmap string PlatformProjectMembershipRecord.t;
}.
Definition new : t := mk ∅ ∅.
Abbreviation Eff := (M t PlatformMembershipError.t).

Definition with_organization_members (s : t) m : t := mk m (project_members s).
Definition with_project_members (s : t) m : t := mk (organization_members s) m.

Definition record_organization_member (record : PlatformOrganizationMembershipRecord.t)
    : Eff unit := λ s,
  match validate_organization_member record with
  | Err e => (Err e, s)
  | Ok _ => (Ok tt, with_organization_members s
      (<[PlatformOrganizationMembershipRecord.organization_member_id record := record]>
         (organization_members s)))
  end.

Definition record_project_member (record : PlatformProjectMembershipRecord.t) : Eff unit := λ s,
  match validate_project_member record with
  | Err e => (Err e, s)
  | Ok _ => (Ok tt, with_project_members s
      (<[PlatformProjectMembershipRecord.project_member_id record := record]> (project_members s)))
  end.

Definition organization_members_for_organization (organization_id : string) (s : t)
    : list PlatformOrganizationMembershipRecord.t :=
  sort_by (cmp_on PlatformOrganizationMembershipRecord.organization_member_id String.compare)
    (List.filter (λ r, PlatformOrganizationMembershipRecord.organization_id r ==? organization_id)
       (values (organization_members s))).

Definition organization_member (organization_member_id : string) (s : t)
    : option PlatformOrganizationMembershipRecord.t :=
  organization_members s !! organization_member_id.

Definition project_members_for_project (project_id : string) (s : t)
    : list PlatformProjectMembershipRecord.t :=
  sort_by (cmp_on PlatformProjectMembershipRecord.project_member_id String.compare)
    (List.filter (λ r, PlatformProjectMembershipRecord.project_id r ==? project_id)
       (values (project_members s))).

Definition project_member (project_member_id : string) (s : t)
    : option PlatformProjectMembershipRecord.t :=
  project_members s !! project_member_id.

Definition update_organization_member_status (organization_member_id : string)
    (expected_resource_version : Z) (status : PlatformMembershipStatus.t)
    : Eff PlatformOrganizationMembershipRecord.t := λ s,
  match organization_members s !! organization_member_id with
  | None => (Err PlatformMembershipError.InvalidMembershipId, s)
  | Some record =>
      if PlatformOrganizationMembershipRecord.resource_version record
         !=? expected_resource_version
      then (Err PlatformMembershipError.StaleResourceVersion, s)
      else
        let updated := PlatformOrganizationMembershipRecord.changed record status
          (PlatformOrganizationMembershipRecord.membership_kind record) in
        (Ok updated, with_organization_members s
           (<[organization_member_id := updated]> (organization_members s)))
  end.

Definition update_project_member_status (project_member_id : string)
    (expected_resource_version : Z) (status : PlatformMembershipStatus.t)
    : Eff PlatformProjectMembershipRecord.t := λ s,
  match project_members s !! project_member_id with
  | None => (Err PlatformMembershipError.InvalidMembershipId, s)
  | Some record =>
      if PlatformProjectMembershipRecord.resource_version record !=? expected_resource_version
      then (Err PlatformMembershipError.StaleResourceVersion, s)
      else
        let updated := PlatformProjectMembershipRecord.with_status record status in
        (Ok updated, with_project_members s
           (<[project_member_id := updated]> (project_members s)))
  end.

Definition same_organization_member (request : PlatformOrganizationMembershipUpsert.t)
    (r : PlatformOrganizationMembershipRecord.t) : bool :=
  (PlatformOrganizationMembershipRecord.tenant_id r
   ==? PlatformOrganizationMembershipUpsert.tenant_id request)
  && (PlatformOrganizationMembershipRecord.organization_id r
      ==? PlatformOrganizationMembershipUpsert.organization_id request)
  && (PlatformOrganizationMembershipRecord.principal_id r
      ==? PlatformOrganizationMembershipUpsert.principal_id request).

(** The trailing validation runs after the change. *)
Definition upsert_organization_member (request : PlatformOrganizationMembershipUpsert.t)
    : Eff PlatformOrganizationMembershipRecord.t := λ s,
  let finish record s' :=
    match validate_organization_member record with
    | Ok _ => (Ok record, s')
    | Err e => (Err e, s')
    end in
  match List.find (same_organization_member request) (values (organization_members s)) with
  | Some existing =>
      let existing_id := PlatformOrganizationMembershipRecord.organization_member_id existing in
      match organization_members s !! existing_id with
      | None => (Err PlatformMembershipError.InvalidMembershipId, s)
      | Some record =>
          if (PlatformOrganizationMembershipRecord.status record
              !=? PlatformMembershipStatus.Active)
             || (PlatformOrganizationMembershipRecord.membership_kind record
                 !=? PlatformOrganizationMembershipUpsert.membership_kind request)
          then
            let record := PlatformOrganizationMembershipRecord.changed record
              PlatformMembershipStatus.Active
              (PlatformOrganizationMembershipUpsert.membership_kind request) in
            finish record (with_organization_members s
              (<[existing_id := record]> (organization_members s)))
          else finish record s
      end
  | None =>
      let record := PlatformOrganizationMembershipRecord.mk
        (PlatformOrganizationMembershipUpsert.organization_member_id request)
        (PlatformOrganizationMembershipUpsert.tenant_id request)
        (PlatformOrganizationMembershipUpsert.organization_id request)
        (PlatformOrganizationMembershipUpsert.principal_id request)
        (PlatformOrganizationMembershipUpsert.membership_kind request)
        PlatformMembershipStatus.Active 1 in
      match validate_organization_member record with
      | Err e => (Err e, s)
      | Ok _ => finish record (with_organization_members s
          (<[PlatformOrganizationMembershipRecord.organization_member_id record := record]>
             (organization_members s)))
      end
  end.

Definition upsert_invited_organization_member
    (organization_member_id tenant_id organization_id principal_id membership_kind : string)
    : Eff PlatformOrganizationMembershipRecord.t :=
  upsert_organization_member (PlatformOrganizationMembershipUpsert.mk organization_member_id
    tenant_id organization_id principal_id membership_kind principal_id).

Definition same_project_member (request : PlatformProjectMembershipUpsert.t)
    (r : PlatformProjectMembershipRecord.t) : bool :=
  (PlatformProjectMembershipRecord.project_id r
   ==? PlatformProjectMembershipUpsert.project_id request)
  && (PlatformProjectMembershipRecord.principal_id r
      ==? PlatformProjectMembershipUpsert.principal_id request).

Definition upsert_project_member (request : PlatformProjectMembershipUpsert.t)
    : Eff PlatformProjectMembershipRecord.t := λ s,
  let finish record s' :=
    match validate_project_member record with Ok _ => (Ok record, s') | Err e => (Err e, s') end in
  match List.find (same_project_member request) (values (project_members s)) with
  | Some existing =>
      let existing_id := PlatformProjectMembershipRecord.project_member_id existing in
      match project_members s !! existing_id with
      | None => (Err PlatformMembershipError.InvalidMembershipId, s)
      | Some record =>
          let status_changed :=
            PlatformProjectMembershipRecord.status record !=? PlatformMembershipStatus.Active in
          let kind_changed := PlatformProjectMembershipRecord.membership_kind record
            !=? PlatformProjectMembershipUpsert.membership_kind request in
          let organization_member_changed :=
            PlatformProjectMembershipRecord.organization_member_id record
            !=? Some (PlatformProjectMembershipUpsert.organization_member_id request) in
          if status_changed || kind_changed || organization_member_changed then
            let record := PlatformProjectMembershipRecord.changed record
              PlatformMembershipStatus.Active
              (Some (PlatformProjectMembershipUpsert.organization_member_id request))
              (PlatformProjectMembershipUpsert.membership_kind request) in
            finish record (with_project_members s
              (<[existing_id := record]> (project_members s)))
          else finish record s
      end
  | None =>
      let record := PlatformProjectMembershipRecord.mk
        (PlatformProjectMembershipUpsert.project_member_id request)
        (PlatformProjectMembershipUpsert.tenant_id request)
        (PlatformProjectMembershipUpsert.organization_id request)
        (PlatformProjectMembershipUpsert.project_id request)
        (PlatformProjectMembershipUpsert.principal_id request)
        (Some (PlatformProjectMembershipUpsert.organization_member_id request))
        (PlatformProjectMembershipUpsert.membership_kind request)
        PlatformMembershipStatus.Active 1 in
      match validate_project_member record with
      | Err e => (Err e, s)
      | Ok _ => finish record (with_project_members s
          (<[PlatformProjectMembershipRecord.project_member_id record := record]>
             (project_members s)))
      end
  end.

Definition upsert_invited_project_member (request : PlatformInvitedProjectMembershipUpsert.t)
    : Eff PlatformProjectMembershipRecord.t :=
  upsert_project_member (PlatformProjectMembershipUpsert.mk
    (PlatformInvitedProjectMembershipUpsert.project_member_id request)
    (PlatformInvitedProjectMembershipUpsert.tenant_id request)
    (PlatformInvitedProjectMembershipUpsert.organization_id request)
    (PlatformInvitedProjectMembershipUpsert.project_id request)
    (PlatformInvitedProjectMembershipUpsert.principal_id request)
    (PlatformInvitedProjectMembershipUpsert.organization_member_id request)
    (PlatformInvitedProjectMembershipUpsert.membership_kind request)
    (PlatformInvitedProjectMembershipUpsert.principal_id request)).

(** Whether a project membership follows an organization membership, and
    whether the new status changes it. *)
Definition follows (organization_member : PlatformOrganizationMembershipRecord.t)
    (r : PlatformProjectMembershipRecord.t) : bool :=
  (PlatformProjectMembershipRecord.tenant_id r
   ==? PlatformOrganizationMembershipRecord.tenant_id organization_member)
  && (PlatformProjectMembershipRecord.organization_id r
      ==? PlatformOrganizationMembershipRecord.organization_id organization_member)
  && (PlatformProjectMembershipRecord.principal_id r
      ==? PlatformOrganizationMembershipRecord.principal_id organization_member).
Definition should_update (status : PlatformMembershipStatus.t)
    (r : PlatformProjectMembershipRecord.t) : bool :=
  match status with
  | PlatformMembershipStatus.Active => false
  | PlatformMembershipStatus.Suspended =>
      PlatformProjectMembershipRecord.status r ==? PlatformMembershipStatus.Active
  | PlatformMembershipStatus.Removed =>
      PlatformProjectMembershipRecord.status r !=? PlatformMembershipStatus.Removed
  end.

Definition cascade_project_memberships_for_organization_member
    (organization_member : PlatformOrganizationMembershipRecord.t)
    (status : PlatformMembershipStatus.t) (s : t) : nat * t :=
  if status ==? PlatformMembershipStatus.Active then (0, s)
  else
    let p r := follows organization_member r && should_update status r in
    (count_where p (project_members s),
     with_project_members s (update_where p
       (λ r, PlatformProjectMembershipRecord.with_status r status) (project_members s))).
End InMemoryPlatformMembershipStore.
