(* ===== verification/PlatInvitation.v ===== *)
(** * Organization invitations

    [invitation.rs]: an invitation names an email or a principal, is found by
    the hash of its token, and leaves [Pending] once: accepted by its principal
    before it expires, or revoked.  SHA-256 is a parameter. *)

From Stdlib Require Import Ascii.
From S2P Require Import Prelude Order Text.

Definition PLATFORM_INVITATION_TOKEN_PREFIX : string := "swp_inv_".

Module PlatformInvitationStatus.
Inductive t : Set := Pending | Accepted | Revoked | Expired.
#[global] Instance eq_dec : EqDecision t.
Proof. solve_decision. Defined.

Definition as_str (self : t) : string :=
  match self with
  | Pending => "pending" | Accepted => "accepted" | Revoked => "revoked" | Expired => "expired"
  end.
Definition from_id (value : string) : option t :=
  if value ==? "pending" then Some Pending
  else if value ==? "accepted" then Some Accepted
  else if value ==? "revoked" then Some Revoked
  else if value ==? "expired" then Some Expired
  else None.
Definition accepts_at (self : t) (expires_at_unix now_unix : Z) : bool :=
  match self with Pending => true | _ => false end && (now_unix <? expires_at_unix)%Z.
End PlatformInvitationStatus.

Module PlatformOrganizationInvitationRecord.
Record t : Set := mk {
  invitation_id : string;
  tenant_id : string;
  organization_id : string;
  project_id : option string;
  invited_email : option string;
  invited_principal_id : option string;
  invitation_token_hash : string;
  role_id : string;
  status : PlatformInvitationStatus.t;
  expires_at_unix : Z;
  accepted_at_unix : option Z;
  created_by : string;
  resource_version : Z;
  created_at_unix : Z;
  updated_at_unix : Z;
}.

(** Leave [Pending]: new status, acceptance time, next version, update time. *)
Definition closed (r : t) (status : PlatformInvitationStatus.t) (accepted_at : option Z)
    (now_unix : Z) : t :=
  mk (invitation_id r) (tenant_id r) (organization_id r) (project_id r) (invited_email r)
    (invited_principal_id r) (invitation_token_hash r) (role_id r) status (expires_at_unix r)
    accepted_at (created_by r) (wrap_i64 (resource_version r + 1)) (created_at_unix r) now_unix.
End PlatformOrganizationInvitationRecord.

Module AcceptPlatformOrganizationInvitationRequest.
Record t : Set := mk {
  invitation_id : string;
  principal_id : string;
  organization_member_id : string;
  project_member_id : option string;
  accepted_at_unix : Z;
}.
End AcceptPlatformOrganizationInvitationRequest.

Module PlatformInvitationError.
Inductive t : Set :=
  | InvalidInvitationId | InvalidTenantId | InvalidOrganizationId | InvalidProjectId
  | InvalidPrincipalId | InvalidCreatedBy | InvalidTokenHash | InvalidEmail | InvalidRoleId
  | InvalidStatus | InvalidTimestamp | InvalidTarget | StaleResourceVersion
  | InvitationNotPending | InvitationNotAccepting | InvitationPrincipalMismatch.

Definition as_str (self : t) : string :=
  match self with
  | InvalidInvitationId => "invitation_id_invalid"
  | InvalidTenantId => "tenant_id_invalid"
  | InvalidOrganizationId => "organization_id_invalid"
  | InvalidProjectId => "project_id_invalid"
  | InvalidPrincipalId => "principal_id_invalid"
  | InvalidCreatedBy => "created_by_invalid"
  | InvalidTokenHash => "invitation_token_hash_invalid"
  | InvalidEmail => "invitation_email_invalid"
  | InvalidRoleId => "invitation_role_invalid"
  | InvalidStatus => "invitation_status_invalid"
  | InvalidTimestamp => "invitation_timestamp_invalid"
  | InvalidTarget => "invitation_target_invalid"
  | StaleResourceVersion => "stale_resource_version"
  | InvitationNotPending => "invitation_not_pending"
  | InvitationNotAccepting => "invitation_not_accepting"
  | InvitationPrincipalMismatch => "invitation_principal_mismatch"
  end.
End PlatformInvitationError.

(** ** Validation *)

Definition validate_prefixed_id (value prefix : string) (error : PlatformInvitationError.t)
    : result PlatformInvitationError.t unit :=
  if starts_with prefix value then Ok tt else Err error.

Definition validate_actor_id (value : string) : result PlatformInvitationError.t unit :=
  if starts_with "usr_" value || starts_with "svc_" value || starts_with "sys_" value
  then Ok tt else Err PlatformInvitationError.InvalidCreatedBy.

Definition hash_platform_invitation_token `{Sha256Library} (raw_token : string) : string :=
  lower_hex (sha256 ("starweaver-platform-organization-invitation-v1" +:+ nul +:+ trim raw_token)).

Definition validate_organization_invitation (invitation : PlatformOrganizationInvitationRecord.t)
    : result PlatformInvitationError.t unit :=
  validate_prefixed_id (PlatformOrganizationInvitationRecord.invitation_id invitation) "inv_"
    PlatformInvitationError.InvalidInvitationId;;
  validate_prefixed_id (PlatformOrganizationInvitationRecord.tenant_id invitation) "ten_"
    PlatformInvitationError.InvalidTenantId;;
  validate_prefixed_id (PlatformOrganizationInvitationRecord.organization_id invitation) "org_"
    PlatformInvitationError.InvalidOrganizationId;;
  match PlatformOrganizationInvitationRecord.project_id invitation with
  | Some project_id => validate_prefixed_id project_id "prj_" PlatformInvitationError.InvalidProjectId
  | None => Ok tt
  end;;
  let has_email :=
    match PlatformOrganizationInvitationRecord.invited_email invitation with
    | Some value => (trim value !=? "") && contains "@" (trim value)
    | None => false
    end in
  let has_principal :=
    match PlatformOrganizationInvitationRecord.invited_principal_id invitation with
    | Some _ => true | None => false
    end in
  (if has_principal
   then validate_prefixed_id
          (default "" (PlatformOrganizationInvitationRecord.invited_principal_id invitation))
          "usr_" PlatformInvitationError.InvalidPrincipalId
   else Ok tt);;
  match has_email, has_principal with
  | true, false | false, true =>
      let hash := PlatformOrganizationInvitationRecord.invitation_token_hash invitation in
      if negb (String.length hash =? 64)%nat || negb (all_chars is_lower_hex hash)
      then Err PlatformInvitationError.InvalidTokenHash
      else if trim (PlatformOrganizationInvitationRecord.role_id invitation) ==? ""
      then Err PlatformInvitationError.InvalidRoleId
      else
        validate_actor_id (PlatformOrganizationInvitationRecord.created_by invitation);;
        if (PlatformOrganizationInvitationRecord.expires_at_unix invitation <=? 0)%Z
           || (PlatformOrganizationInvitationRecord.created_at_unix invitation <=? 0)%Z
           || (PlatformOrganizationInvitationRecord.updated_at_unix invitation <=? 0)%Z
           || (PlatformOrganizationInvitationRecord.resource_version invitation <=? 0)%Z
        then Err PlatformInvitationError.InvalidTimestamp
        else if (PlatformOrganizationInvitationRecord.status invitation
                 ==? PlatformInvitationStatus.Accepted)
                && (PlatformOrganizationInvitationRecord.accepted_at_unix invitation ==? None)
        then Err PlatformInvitationError.InvalidStatus
        else Ok tt
  | _, _ => Err PlatformInvitationError.InvalidTarget
  end.

(** ** The store *)

Module InMemoryPlatformInvitationStore.
Record t : Set := mk { invitations : gmap string PlatformOrganizationInvitationRecord.t }.
Definition new : t := mk ∅.
Abbreviation Eff := (M t PlatformInvitationError.t).

Definition create_organization_invitation (record : PlatformOrganizationInvitationRecord.t)
    : Eff PlatformOrganizationInvitationRecord.t := λ s,
  match validate_organization_invitation record with
  | Err e => (Err e, s)
  | Ok _ => (Ok record,
      mk (<[PlatformOrganizationInvitationRecord.invitation_id record := record]> (invitations s)))
  end.

Definition organization_invitations (tenant_id organization_id : string) (s : t)
    : list PlatformOrganizationInvitationRecord.t :=
  sort_by (cmp_then
      (cmp_rev (cmp_on PlatformOrganizationInvitationRecord.created_at_unix Z.compare))
      (cmp_on PlatformOrganizationInvitationRecord.invitation_id String.compare))
    (List.filter (λ i,
       (PlatformOrganizationInvitationRecord.tenant_id i ==? tenant_id)
       && (PlatformOrganizationInvitationRecord.organization_id i ==? organization_id))
       (values (invitations s))).

Definition organization_invitation (invitation_id : string) (s : t)
    : option PlatformOrganizationInvitationRecord.t := invitations s !! invitation_id.

Definition organization_invitation_by_token_hash (token_hash : string) (s : t)
    : option PlatformOrganizationInvitationRecord.t :=
  List.find (λ i, PlatformOrganizationInvitationRecord.invitation_token_hash i ==? token_hash)
    (values (invitations s)).

Definition revoke_organization_invitation (invitation_id : string)
    (expected_resource_version now_unix : Z) : Eff PlatformOrganizationInvitationRecord.t := λ s,
  match invitations s !! invitation_id with
  | None => (Err PlatformInvitationError.InvalidInvitationId, s)
  | Some invitation =>
      if PlatformOrganizationInvitationRecord.resource_version invitation
         !=? expected_resource_version
      then (Err PlatformInvitationError.StaleResourceVersion, s)
      else if PlatformOrganizationInvitationRecord.status invitation
              !=? PlatformInvitationStatus.Pending
      then (Err PlatformInvitationError.InvitationNotPending, s)
      else
        let revoked := PlatformOrganizationInvitationRecord.closed invitation
          PlatformInvitationStatus.Revoked
          (PlatformOrganizationInvitationRecord.accepted_at_unix invitation) now_unix in
        (Ok revoked, mk (<[invitation_id := revoked]> (invitations s)))
  end.

Definition validate_accept (request : AcceptPlatformOrganizationInvitationRequest.t)
    : result PlatformInvitationError.t unit :=
  validate_prefixed_id (AcceptPlatformOrganizationInvitationRequest.invitation_id request) "inv_"
    PlatformInvitationError.InvalidInvitationId;;
  validate_prefixed_id (AcceptPlatformOrganizationInvitationRequest.principal_id request) "usr_"
    PlatformInvitationError.InvalidPrincipalId;;
  validate_prefixed_id
    (AcceptPlatformOrganizationInvitationRequest.organization_member_id request) "om_"
    PlatformInvitationError.InvalidInvitationId;;
  match AcceptPlatformOrganizationInvitationRequest.project_member_id request with
  | Some project_member_id =>
      validate_prefixed_id project_member_id "pm_" PlatformInvitationError.InvalidInvitationId
  | None => Ok tt
  end;;
  if (AcceptPlatformOrganizationInvitationRequest.accepted_at_unix request <=? 0)%Z
  then Err PlatformInvitationError.InvalidTimestamp else Ok tt.

Definition accept_organization_invitation (request : AcceptPlatformOrganizationInvitationRequest.t)
    : Eff PlatformOrganizationInvitationRecord.t := λ s,
  let id := AcceptPlatformOrganizationInvitationRequest.invitation_id request in
  let now := AcceptPlatformOrganizationInvitationRequest.accepted_at_unix request in
  match validate_accept request with
  | Err e => (Err e, s)
  | Ok _ =>
      match invitations s !! id with
      | None => (Err PlatformInvitationError.InvalidInvitationId, s)
      | Some invitation =>
          if negb (PlatformInvitationStatus.accepts_at
                     (PlatformOrganizationInvitationRecord.status invitation)
                     (PlatformOrganizationInvitationRecord.expires_at_unix invitation) now)
          then (Err PlatformInvitationError.InvitationNotAccepting, s)
          else if PlatformOrganizationInvitationRecord.invited_principal_id invitation
                  !=? Some (AcceptPlatformOrganizationInvitationRequest.principal_id request)
          then (Err PlatformInvitationError.InvitationPrincipalMismatch, s)
          else
            let accepted := PlatformOrganizationInvitationRecord.closed invitation
              PlatformInvitationStatus.Accepted (Some now) now in
            (Ok accepted, mk (<[id := accepted]> (invitations s)))
      end
  end.
End InMemoryPlatformInvitationStore.
