(* ===== verification/PlatAudit.v ===== *)
(** * Platform audit events

    [audit.rs]: the audit record, its validation and the in-memory store. *)

From S2P Require Import Prelude Order Text PlatAction.

Definition PLATFORM_AUDIT_REDACTION_PROFILE : string := "platform.audit.redaction.v1".

Module PlatformAuditError.
Inductive t : Set :=
  | InvalidAuditEventId | InvalidTenantId | InvalidOrganizationId | InvalidProjectId
  | InvalidPrincipalId | InvalidActionId | InvalidResourceKind | InvalidResourceId
  | InvalidEventType | InvalidReason | InvalidRedaction | InvalidTimestamp.

Definition as_str (self : t) : string :=
  match self with
  | InvalidAuditEventId => "audit_event_id_invalid"
  | InvalidTenantId => "tenant_id_invalid"
  | InvalidOrganizationId => "organization_id_invalid"
  | InvalidProjectId => "project_id_invalid"
  | InvalidPrincipalId => "principal_id_invalid"
  | InvalidActionId => "audit_action_id_invalid"
  | InvalidResourceKind => "audit_resource_kind_invalid"
  | InvalidResourceId => "audit_resource_id_invalid"
  | InvalidEventType => "audit_event_type_invalid"
  | InvalidReason => "audit_reason_invalid"
  | InvalidRedaction => "audit_redaction_invalid"
  | InvalidTimestamp => "audit_timestamp_invalid"
  end.
End PlatformAuditError.

Module PlatformAuditEventRecord.
Record t : Set := mk {
  audit_event_id : string;
  tenant_id : string;
  organization_id : option string;
  project_id : option string;
  actor_principal_id : string;
  actor_kind : ActorKind.t;
  action_id : string;
  resource_kind : string;
  resource_id : string;
  event_type : string;
  reason : option string;
  redaction : string;
  created_at_unix : Z;
}.
End PlatformAuditEventRecord.

Definition validate_prefixed_id (value prefix : string) (error : PlatformAuditError.t)
    : result PlatformAuditError.t unit :=
  let value := trim value in
  if (String.length value <=? String.length prefix)%nat || negb (starts_with prefix value)
  then Err error else Ok tt.

Definition validate_principal_id (value : string) : result PlatformAuditError.t unit :=
  let value := trim value in
  if (String.length value <=? 4)%nat
     || negb (starts_with "usr_" value || starts_with "svc_" value || starts_with "sys_" value)
  then Err PlatformAuditError.InvalidPrincipalId else Ok tt.

Definition validate_non_empty (value : string) (error : PlatformAuditError.t)
    : result PlatformAuditError.t unit :=
  if trim value ==? "" then Err error else Ok tt.

Definition validate_platform_audit_event_record (record : PlatformAuditEventRecord.t)
    : result PlatformAuditError.t unit :=
  validate_prefixed_id (PlatformAuditEventRecord.audit_event_id record) "audit_"
    PlatformAuditError.InvalidAuditEventId;;
  validate_prefixed_id (PlatformAuditEventRecord.tenant_id record) "ten_"
    PlatformAuditError.InvalidTenantId;;
  match PlatformAuditEventRecord.organization_id record with
  | Some organization_id =>
      validate_prefixed_id organization_id "org_" PlatformAuditError.InvalidOrganizationId
  | None => Ok tt
  end;;
  match PlatformAuditEventRecord.project_id record with
  | Some project_id =>
      validate_prefixed_id project_id "prj_" PlatformAuditError.InvalidProjectId;;
      if PlatformAuditEventRecord.organization_id record ==? None
      then Err PlatformAuditError.InvalidProjectId else Ok tt
  | None => Ok tt
  end;;
  validate_principal_id (PlatformAuditEventRecord.actor_principal_id record);;
  validate_non_empty (PlatformAuditEventRecord.action_id record) PlatformAuditError.InvalidActionId;;
  validate_non_empty (PlatformAuditEventRecord.resource_kind record)
    PlatformAuditError.InvalidResourceKind;;
  validate_non_empty (PlatformAuditEventRecord.resource_id record)
    PlatformAuditError.InvalidResourceId;;
  validate_non_empty (PlatformAuditEventRecord.event_type record)
    PlatformAuditError.InvalidEventType;;
  match PlatformAuditEventRecord.reason record with
  | Some reason => validate_non_empty reason PlatformAuditError.InvalidReason
  | None => Ok tt
  end;;
  validate_non_empty (PlatformAuditEventRecord.redaction record)
    PlatformAuditError.InvalidRedaction;;
  if (PlatformAuditEventRecord.created_at_unix record <=? 0)%Z
  then Err PlatformAuditError.InvalidTimestamp else Ok tt.

Module InMemoryPlatformAuditStore.
Record t : Set := mk { events : gmap string PlatformAuditEventRecord.t }.
Definition new : t := mk ∅.

Definition record_audit_event (record : PlatformAuditEventRecord.t)
    : M t PlatformAuditError.t unit := λ s,
  match validate_platform_audit_event_record record with
  | Err e => (Err e, s)
  | Ok _ =>
      (Ok tt, mk (<[PlatformAuditEventRecord.audit_event_id record := record]> (events s)))
  end.

Definition audit_events_for_tenant (tenant_id : string) (s : t)
    : list PlatformAuditEventRecord.t :=
  List.filter (λ event, PlatformAuditEventRecord.tenant_id event ==? tenant_id)
    (values (events s)).
End InMemoryPlatformAuditStore.
