(* ===== verification/PlatSession.v ===== *)
(** * Platform credentials

    [auth.rs]: login sessions, API keys and service tokens found by the hash of
    the bearer token, and mTLS identities found by subject.  Each resolves to
    an actor while its status is active. *)

From S2P Require Import Prelude Order Text PlatAction.

Module AuthError.
Inductive t : Set :=
  | EmptySessionId | EmptyTokenHash | EmptyCredentialId | EmptyCredentialTokenHash
  | EmptyBearerToken | EmptyMtlsIdentityId | EmptyMtlsSubject | SessionNotFound
  | CredentialNotFound | MtlsIdentityNotFound | SessionRevoked | CredentialRevoked
  | MtlsIdentityRevoked | SessionExpired | CredentialExpired | MtlsIdentityExpired
  | CredentialDisabled | MtlsIdentityDisabled | PrincipalDisabled.

Definition as_str (self : t) : string :=
  match self with
  | EmptySessionId => "session_id_empty"
  | EmptyTokenHash => "session_token_hash_empty"
  | EmptyCredentialId => "credential_id_empty"
  | EmptyCredentialTokenHash => "credential_token_hash_empty"
  | EmptyBearerToken => "bearer_token_empty"
  | EmptyMtlsIdentityId => "mtls_identity_id_empty"
  | EmptyMtlsSubject => "mtls_subject_empty"
  | SessionNotFound => "auth_session_not_found"
  | CredentialNotFound => "bearer_credential_not_found"
  | MtlsIdentityNotFound => "mtls_identity_not_found"
  | SessionRevoked => "auth_session_revoked"
  | CredentialRevoked => "bearer_credential_revoked"
  | MtlsIdentityRevoked => "mtls_identity_revoked"
  | SessionExpired => "auth_session_expired"
  | CredentialExpired => "bearer_credential_expired"
  | MtlsIdentityExpired => "mtls_identity_expired"
  | CredentialDisabled => "bearer_credential_disabled"
  | MtlsIdentityDisabled => "mtls_identity_disabled"
  | PrincipalDisabled => "principal_disabled"
  end.
End AuthError.

Abbreviation AuthResult := (result AuthError.t).

Module PlatformAuthSessionStatus.
Inductive t : Set := Active | Revoked | Expired | PrincipalDisabled.
#[global] Instance eq_dec : EqDecision t.
Proof. solve_decision. Defined.
Definition as_str (self : t) : string :=
  match self with
  | Active => "active" | Revoked => "revoked" | Expired => "expired"
  | PrincipalDisabled => "principal_disabled"
  end.
End PlatformAuthSessionStatus.

Module PlatformBearerCredentialKind.
Inductive t : Set := ApiKey | ServiceToken.
Definition as_str (self : t) : string :=
  match self with ApiKey => "api_key" | ServiceToken => "service_token" end.
End PlatformBearerCredentialKind.

Module PlatformBearerCredentialStatus.
Inductive t : Set := Active | Disabled | Revoked | Expired | PrincipalDisabled.
Definition as_str (self : t) : string :=
  match self with
  | Active => "active" | Disabled => "disabled" | Revoked => "revoked" | Expired => "expired"
  | PrincipalDisabled => "principal_disabled"
  end.
End PlatformBearerCredentialStatus.

Module PlatformMtlsIdentityStatus.
Inductive t : Set := Active | Disabled | Revoked | Expired | PrincipalDisabled.
Definition as_str (self : t) : string :=
  match self with
  | Active => "active" | Disabled => "disabled" | Revoked => "revoked" | Expired => "expired"
  | PrincipalDisabled => "principal_disabled"
  end.
End PlatformMtlsIdentityStatus.

(** ** Token hashes *)

Definition hash_session_token `{Sha256Library} (raw_token : string) : string :=
  lower_hex (sha256 ("starweaver-platform-session-v1" +:+ nul +:+ raw_token)).
Definition hash_bearer_credential_token `{Sha256Library} (raw_token : string) : string :=
  lower_hex (sha256 ("starweaver-platform-bearer-credential-v1" +:+ nul +:+ raw_token)).

(** ** Records *)

Module PlatformBearerCredentialRecord.
Record t : Set := mk {
  credential_id : string;
  credential_kind : PlatformBearerCredentialKind.t;
  token_hash : string;
  actor : AuthenticatedActor.t;
  status : PlatformBearerCredentialStatus.t;
}.

Definition active `{Sha256Library} (credential_id : string)
    (credential_kind : PlatformBearerCredentialKind.t) (raw_token : string)
    (actor : AuthenticatedActor.t) : t :=
  mk credential_id credential_kind (hash_bearer_credential_token raw_token) actor
    PlatformBearerCredentialStatus.Active.
Definition active_api_key `{Sha256Library} (credential_id raw_token : string)
    (actor : AuthenticatedActor.t) : t :=
  active credential_id PlatformBearerCredentialKind.ApiKey raw_token actor.
Definition active_service_token `{Sha256Library} (credential_id raw_token : string)
    (actor : AuthenticatedActor.t) : t :=
  active credential_id PlatformBearerCredentialKind.ServiceToken raw_token actor.
Definition with_status (self : t) (status : PlatformBearerCredentialStatus.t) : t :=
  mk (credential_id self) (credential_kind self) (token_hash self) (actor self) status.
End PlatformBearerCredentialRecord.

Module PlatformAuthSessionRecord.
Record t : Set := mk {
  session_id : string;
  token_hash : string;
  actor : AuthenticatedActor.t;
  status : PlatformAuthSessionStatus.t;
}.

Definition active `{Sha256Library} (session_id raw_token : string) (actor : AuthenticatedActor.t)
    : t :=
  mk session_id (hash_session_token raw_token) actor PlatformAuthSessionStatus.Active.
Definition with_status (self : t) (status : PlatformAuthSessionStatus.t) : t :=
  mk (session_id self) (token_hash self) (actor self) status.
End PlatformAuthSessionRecord.

Module PlatformMtlsIdentityRecord.
Record t : Set := mk {
  identity_id : string;
  subject : string;
  actor : AuthenticatedActor.t;
  status : PlatformMtlsIdentityStatus.t;
}.

Definition active (identity_id subject : string) (actor : AuthenticatedActor.t) : t :=
  mk identity_id subject actor PlatformMtlsIdentityStatus.Active.
Definition with_status (self : t) (status : PlatformMtlsIdentityStatus.t) : t :=
  mk (identity_id self) (subject self) (actor self) status.
End PlatformMtlsIdentityRecord.

Definition validate_session_record (record : PlatformAuthSessionRecord.t) : AuthResult unit :=
  if trim (PlatformAuthSessionRecord.session_id record) ==? "" then Err AuthError.EmptySessionId
  else if trim (PlatformAuthSessionRecord.token_hash record) ==? ""
  then Err AuthError.EmptyTokenHash
  else Ok tt.

Definition validate_bearer_credential_record (record : PlatformBearerCredentialRecord.t)
    : AuthResult unit :=
  if trim (PlatformBearerCredentialRecord.credential_id record) ==? ""
  then Err AuthError.EmptyCredentialId
  else if trim (PlatformBearerCredentialRecord.token_hash record) ==? ""
  then Err AuthError.EmptyCredentialTokenHash
  else Ok tt.

Definition validate_mtls_identity_record (record : PlatformMtlsIdentityRecord.t)
    : AuthResult unit :=
  if trim (PlatformMtlsIdentityRecord.identity_id record) ==? ""
  then Err AuthError.EmptyMtlsIdentityId
  else if trim (PlatformMtlsIdentityRecord.subject record) ==? ""
  then Err AuthError.EmptyMtlsSubject
  else Ok tt.

(** What a session status answers: the record itself, or why not. *)
Definition active_session_record (record : PlatformAuthSessionRecord.t)
    : AuthResult PlatformAuthSessionRecord.t :=
  match PlatformAuthSessionRecord.status record with
  | PlatformAuthSessionStatus.Active => Ok record
  | PlatformAuthSessionStatus.Revoked => Err AuthError.SessionRevoked
  | PlatformAuthSessionStatus.Expired => Err AuthError.SessionExpired
  | PlatformAuthSessionStatus.PrincipalDisabled => Err AuthError.PrincipalDisabled
  end.

(** ** Sessions, keyed by token hash *)

Module InMemoryPlatformAuthSessionStore.
Record t : Set := mk { sessions : gmap string PlatformAuthSessionRecord.t }.
Definition new : t := mk ∅.
Abbreviation Eff := (M t AuthError.t).

Section store.
Context `{Sha256Library}.

Definition auth_sessions (s : t) : list PlatformAuthSessionRecord.t := values (sessions s).

Definition of_principal (tenant_id principal_id : string) (r : PlatformAuthSessionRecord.t)
    : bool :=
  (AuthenticatedActor.tenant_id (PlatformAuthSessionRecord.actor r) ==? tenant_id)
  && (AuthenticatedActor.principal_id (PlatformAuthSessionRecord.actor r) ==? principal_id).

Definition auth_sessions_for_principal (tenant_id principal_id : string) (s : t)
    : list PlatformAuthSessionRecord.t :=
  List.filter (of_principal tenant_id principal_id) (values (sessions s)).

Definition auth_session (session_id : string) (s : t) : option PlatformAuthSessionRecord.t :=
  List.find (λ r, PlatformAuthSessionRecord.session_id r ==? session_id) (values (sessions s)).

Definition auth_session_for_bearer (raw_bearer : string) (s : t)
    : AuthResult PlatformAuthSessionRecord.t :=
  let raw_bearer := trim raw_bearer in
  if raw_bearer ==? "" then Err AuthError.EmptyBearerToken
  else match sessions s !! hash_session_token raw_bearer with
  | None => Err AuthError.SessionNotFound
  | Some record => active_session_record record
  end.

(** Change the session of a bearer, if it is active. *)
Definition change_by_bearer (f : PlatformAuthSessionRecord.t → PlatformAuthSessionRecord.t)
    (raw_bearer : string) : Eff PlatformAuthSessionRecord.t := λ s,
  let raw_bearer := trim raw_bearer in
  if raw_bearer ==? "" then (Err AuthError.EmptyBearerToken, s)
  else
    let token_hash := hash_session_token raw_bearer in
    match sessions s !! token_hash with
    | None => (Err AuthError.SessionNotFound, s)
    | Some record =>
        match active_session_record record with
        | Ok record => (Ok (f record), mk (<[token_hash := f record]> (sessions s)))
        | Err e => (Err e, s)
        end
    end.

Definition revoke_auth_session_by_bearer : string → Eff PlatformAuthSessionRecord.t :=
  change_by_bearer
    (λ r, PlatformAuthSessionRecord.with_status r PlatformAuthSessionStatus.Revoked).

Definition revoke_auth_session_by_id (session_id : string)
    : Eff PlatformAuthSessionRecord.t := λ s,
  let session_id := trim session_id in
  if session_id ==? "" then (Err AuthError.EmptySessionId, s)
  else match List.find (λ kr, PlatformAuthSessionRecord.session_id kr.2 ==? session_id)
               (entries (sessions s)) with
  | None => (Err AuthError.SessionNotFound, s)
  | Some (key, record) =>
      match active_session_record record with
      | Ok record =>
          let revoked :=
            PlatformAuthSessionRecord.with_status record PlatformAuthSessionStatus.Revoked in
          (Ok revoked, mk (<[key := revoked]> (sessions s)))
      | Err e => (Err e, s)
      end
  end.

Definition disable_auth_sessions_for_principal (tenant_id principal_id : string) (s : t)
    : nat * t :=
  let p r := of_principal tenant_id principal_id r
    && (PlatformAuthSessionRecord.status r ==? PlatformAuthSessionStatus.Active) in
  (count_where p (sessions s),
   mk (update_where p
         (λ r, PlatformAuthSessionRecord.with_status r PlatformAuthSessionStatus.PrincipalDisabled)
         (sessions s))).

Definition update_auth_session_context_by_bearer (raw_bearer : string)
    (organization_id project_id : option string) : Eff PlatformAuthSessionRecord.t :=
  change_by_bearer (λ r,
    let a := PlatformAuthSessionRecord.actor r in
    PlatformAuthSessionRecord.mk (PlatformAuthSessionRecord.session_id r)
      (PlatformAuthSessionRecord.token_hash r)
      (AuthenticatedActor.mk (AuthenticatedActor.tenant_id a) organization_id project_id
         (AuthenticatedActor.principal_id a) (AuthenticatedActor.actor_kind a))
      (PlatformAuthSessionRecord.status r)) raw_bearer.

Definition record_auth_session (record : PlatformAuthSessionRecord.t) : Eff unit := λ s,
  match validate_session_record record with
  | Err e => (Err e, s)
  | Ok _ =>
      (Ok tt, mk (<[PlatformAuthSessionRecord.token_hash record := record]> (sessions s)))
  end.

Definition authenticated_actor_for_bearer (raw_bearer : string) (s : t)
    : AuthResult AuthenticatedActor.t :=
  PlatformAuthSessionRecord.actor <$> auth_session_for_bearer raw_bearer s.
End store.
End InMemoryPlatformAuthSessionStore.

(** ** API keys and service tokens, keyed by token hash *)

Module InMemoryPlatformBearerCredentialStore.
Record t : Set := mk { credentials : gmap string PlatformBearerCredentialRecord.t }.
Definition new : t := mk ∅.

Definition bearer_credentials (s : t) : list PlatformBearerCredentialRecord.t :=
  values (credentials s).

Definition record_bearer_credential (record : PlatformBearerCredentialRecord.t)
    : M t AuthError.t unit := λ s,
  match validate_bearer_credential_record record with
  | Err e => (Err e, s)
  | Ok _ =>
      (Ok tt, mk (<[PlatformBearerCredentialRecord.token_hash record := record]> (credentials s)))
  end.

Definition authenticated_actor_for_bearer_credential `{Sha256Library} (raw_bearer : string)
    (s : t) : AuthResult AuthenticatedActor.t :=
  let raw_bearer := trim raw_bearer in
  if raw_bearer ==? "" then Err AuthError.EmptyBearerToken
  else match credentials s !! hash_bearer_credential_token raw_bearer with
  | None => Err AuthError.CredentialNotFound
  | Some record =>
      match PlatformBearerCredentialRecord.status record with
      | PlatformBearerCredentialStatus.Active => Ok (PlatformBearerCredentialRecord.actor record)
      | PlatformBearerCredentialStatus.Disabled => Err AuthError.CredentialDisabled
      | PlatformBearerCredentialStatus.Revoked => Err AuthError.CredentialRevoked
      | PlatformBearerCredentialStatus.Expired => Err AuthError.CredentialExpired
      | PlatformBearerCredentialStatus.PrincipalDisabled => Err AuthError.PrincipalDisabled
      end
  end.
End InMemoryPlatformBearerCredentialStore.

(** ** mTLS identities, keyed by subject *)

Module InMemoryPlatformMtlsIdentityStore.
Record t : Set := mk { identities : gmap string PlatformMtlsIdentityRecord.t }.
Definition new : t := mk ∅.

Definition mtls_identities (s : t) : list PlatformMtlsIdentityRecord.t := values (identities s).

Definition record_mtls_identity (record : PlatformMtlsIdentityRecord.t)
    : M t AuthError.t unit := λ s,
  match validate_mtls_identity_record record with
  | Err e => (Err e, s)
  | Ok _ => (Ok tt, mk (<[PlatformMtlsIdentityRecord.subject record := record]> (identities s)))
  end.

Definition authenticated_actor_for_mtls_subject (subject : string) (s : t)
    : AuthResult AuthenticatedActor.t :=
  let subject := trim subject in
  if subject ==? "" then Err AuthError.EmptyMtlsSubject
  else match identities s !! subject with
  | None => Err AuthError.MtlsIdentityNotFound
  | Some record =>
      match PlatformMtlsIdentityRecord.status record with
      | PlatformMtlsIdentityStatus.Active => Ok (PlatformMtlsIdentityRecord.actor record)
      | PlatformMtlsIdentityStatus.Disabled => Err AuthError.MtlsIdentityDisabled
      | PlatformMtlsIdentityStatus.Revoked => Err AuthError.MtlsIdentityRevoked
      | PlatformMtlsIdentityStatus.Expired => Err AuthError.MtlsIdentityExpired
      | PlatformMtlsIdentityStatus.PrincipalDisabled => Err AuthError.PrincipalDisabled
      end
  end.
End InMemoryPlatformMtlsIdentityStore.
