(* ===== verification/PlatResource.v ===== *)
(** * Platform resources and their owners

    [storage.rs] and [resource.rs]: who owns a resource, which authorization
    reads, and the business record that is returned once a request is
    authorized.  Both stores are keyed by kind and id. *)

From S2P Require Import Prelude Order Text Json PlatAction.

(** ** Owners *)

Module StoreError.
Inductive t : Set :=
  | EmptyResourceKind | EmptyResourceId | EmptyTenantId | ProjectWithoutOrganization.
Definition as_str (self : t) : string :=
  match self with
  | EmptyResourceKind => "resource_kind_empty"
  | EmptyResourceId => "resource_id_empty"
  | EmptyTenantId => "tenant_id_empty"
  | ProjectWithoutOrganization => "project_without_organization"
  end.
End StoreError.

Module ResourceOwnerRecord.
Record t : Set := mk {
  resource_kind : string;
  resource_id : string;
  tenant_id : string;
  organization_id : option string;
  project_id : option string;
}.

Definition project (resource_kind resource_id tenant_id organization_id project_id : string) : t :=
  mk resource_kind resource_id tenant_id (Some organization_id) (Some project_id).
Definition tenant (resource_kind resource_id tenant_id : string) : t :=
  mk resource_kind resource_id tenant_id None None.
Definition to_resource_ref (self : t) : ResourceRef.t :=
  ResourceRef.mk (resource_kind self) (tenant_id self) (organization_id self) (project_id self)
    (resource_id self).
End ResourceOwnerRecord.

Definition validate_owner_record (record : ResourceOwnerRecord.t) : result StoreError.t unit :=
  if trim (ResourceOwnerRecord.resource_kind record) ==? "" then Err StoreError.EmptyResourceKind
  else if trim (ResourceOwnerRecord.resource_id record) ==? ""
  then Err StoreError.EmptyResourceId
  else if trim (ResourceOwnerRecord.tenant_id record) ==? "" then Err StoreError.EmptyTenantId
  else if (ResourceOwnerRecord.project_id record !=? None)
          && (ResourceOwnerRecord.organization_id record ==? None)
  then Err StoreError.ProjectWithoutOrganization
  else Ok tt.

Module InMemoryResourceOwnerStore.
Record t : Set := mk { owners : gmap (string * string) ResourceOwnerRecord.t }.
Definition new : t := mk ∅.

Definition record_resource_owner (record : ResourceOwnerRecord.t)
    : M t StoreError.t unit := λ s,
  match validate_owner_record record with
  | Err e => (Err e, s)
  | Ok _ =>
      (Ok tt, mk (<[(ResourceOwnerRecord.resource_kind record,
                     ResourceOwnerRecord.resource_id record) := record]> (owners s)))
  end.

Definition resource_owner (resource_kind resource_id : string) (s : t)
    : option ResourceOwnerRecord.t := owners s !! (resource_kind, resource_id).
End InMemoryResourceOwnerStore.

(** ** Business records *)

Module ConversationRecord.
Record t : Set := mk { title : string; status : string }.
Definition to_safe_json {V} `{JsonLibrary V} (self : t) : V :=
  json_obj [("title", json_str (title self)); ("status", json_str (status self))].
End ConversationRecord.

Module RunRecord.
Record t : Set := mk { conversation_id : string; status : string; model_alias : string }.
Definition to_safe_json {V} `{JsonLibrary V} (self : t) : V :=
  json_obj [("conversation_id", json_str (conversation_id self));
            ("status", json_str (status self));
            ("model_alias", json_str (model_alias self))].
End RunRecord.

Module ApprovalRecord.
Record t : Set := mk { run_id : string; status : string; requested_action : string }.
Definition to_safe_json {V} `{JsonLibrary V} (self : t) : V :=
  json_obj [("run_id", json_str (run_id self));
            ("status", json_str (status self));
            ("requested_action", json_str (requested_action self))].
End ApprovalRecord.

Module DeferredToolRecord.
Record t : Set := mk { run_id : string; tool_name : string; status : string }.
Definition to_safe_json {V} `{JsonLibrary V} (self : t) : V :=
  json_obj [("run_id", json_str (run_id self));
            ("tool_name", json_str (tool_name self));
            ("status", json_str (status self))].
End DeferredToolRecord.

Module EnvironmentAttachmentRecord.
Record t : Set := mk { lease_id : string; status : string; readiness : string }.
Definition to_safe_json {V} `{JsonLibrary V} (self : t) : V :=
  json_obj [("lease_id", json_str (lease_id self));
            ("status", json_str (status self));
            ("readiness", json_str (readiness self))].
End EnvironmentAttachmentRecord.

Module EvidenceArchiveRecord.
Record t : Set := mk { manifest_uri : string; retention_class : string; debug_available : bool }.
Definition to_safe_json {V} `{JsonLibrary V} (self : t) : V :=
  json_obj [("manifest_uri", json_str (manifest_uri self));
            ("retention_class", json_str (retention_class self));
            ("debug_available", json_bool (debug_available self))].
End EvidenceArchiveRecord.

Module PlatformResourceData.
Inductive t : Set :=
  | Conversation (record : ConversationRecord.t)
  | Run (record : RunRecord.t)
  | Approval (record : ApprovalRecord.t)
  | DeferredTool (record : DeferredToolRecord.t)
  | EnvironmentAttachment (record : EnvironmentAttachmentRecord.t)
  | EvidenceArchive (record : EvidenceArchiveRecord.t).

Definition resource_kind (self : t) : string :=
  match self with
  | Conversation _ => "Conversation"
  | Run _ => "Run"
  | Approval _ => "Approval"
  | DeferredTool _ => "DeferredTool"
  | EnvironmentAttachment _ => "EnvironmentAttachment"
  | EvidenceArchive _ => "EvidenceArchive"
  end.

Definition to_safe_json {V} `{JsonLibrary V} (self : t) : V :=
  match self with
  | Conversation record => ConversationRecord.to_safe_json record
  | Run record => RunRecord.to_safe_json record
  | Approval record => ApprovalRecord.to_safe_json record
  | DeferredTool record => DeferredToolRecord.to_safe_json record
  | EnvironmentAttachment record => EnvironmentAttachmentRecord.to_safe_json record
  | EvidenceArchive record => EvidenceArchiveRecord.to_safe_json record
  end.
End PlatformResourceData.

Module PlatformResourceError.
Inductive t : Set := ResourceKindMismatch | EmptyResourceId | EmptyResourceKind.
Definition as_str (self : t) : string :=
  match self with
  | ResourceKindMismatch => "resource_kind_mismatch"
  | EmptyResourceId => "resource_id_empty"
  | EmptyResourceKind => "resource_kind_empty"
  end.
End PlatformResourceError.

(** An optional string of a [json!] literal: [null] when absent. *)
Definition json_opt_str {V} `{JsonLibrary V} (o : option string) : V :=
  match o with Some s => json_str s | None => json_null end.

Module PlatformResourceRecord.
Record t : Set := mk { owner : ResourceOwnerRecord.t; data : PlatformResourceData.t }.

Definition to_safe_json {V} `{JsonLibrary V} (self : t) : V :=
  json_obj [("kind", json_str (ResourceOwnerRecord.resource_kind (owner self)));
            ("resource_id", json_str (ResourceOwnerRecord.resource_id (owner self)));
            ("tenant_id", json_str (ResourceOwnerRecord.tenant_id (owner self)));
            ("organization_id", json_opt_str (ResourceOwnerRecord.organization_id (owner self)));
            ("project_id", json_opt_str (ResourceOwnerRecord.project_id (owner self)));
            ("data", PlatformResourceData.to_safe_json (data self))].
End PlatformResourceRecord.

Definition validate_resource_record (record : PlatformResourceRecord.t)
    : result PlatformResourceError.t unit :=
  let owner := PlatformResourceRecord.owner record in
  if trim (ResourceOwnerRecord.resource_kind owner) ==? ""
  then Err PlatformResourceError.EmptyResourceKind
  else if trim (ResourceOwnerRecord.resource_id owner) ==? ""
  then Err PlatformResourceError.EmptyResourceId
  else if ResourceOwnerRecord.resource_kind owner
          !=? PlatformResourceData.resource_kind (PlatformResourceRecord.data record)
  then Err PlatformResourceError.ResourceKindMismatch
  else Ok tt.

(** [PlatformResourceRecord::new]. *)
Definition new_resource_record (owner : ResourceOwnerRecord.t) (data : PlatformResourceData.t)
    : result PlatformResourceError.t PlatformResourceRecord.t :=
  let record := PlatformResourceRecord.mk owner data in
  validate_resource_record record;;
  Ok record.

Module InMemoryPlatformResourceStore.
Record t : Set := mk { resources : gmap (string * string) PlatformResourceRecord.t }.
Definition new : t := mk ∅.

Definition record_platform_resource (record : PlatformResourceRecord.t)
    : M t PlatformResourceError.t unit := λ s,
  match validate_resource_record record with
  | Err e => (Err e, s)
  | Ok _ =>
      let owner := PlatformResourceRecord.owner record in
      (Ok tt, mk (<[(ResourceOwnerRecord.resource_kind owner,
                     ResourceOwnerRecord.resource_id owner) := record]> (resources s)))
  end.

Definition platform_resource (resource_kind resource_id : string) (s : t)
    : option PlatformResourceRecord.t := resources s !! (resource_kind, resource_id).
End InMemoryPlatformResourceStore.
