(* ===== verification/PlatRoute.v ===== *)
(** * Platform routes

    [route.rs] of the platform crate, the table of routes with the action each
    one is authorized as, and the matcher of [service.rs] that resolves a
    method and a path against it.  The table is unambiguous, so the order in
    which [match_route] tries it does not matter, and matching inverts filling
    in a pattern. *)

From Stdlib Require Import Ascii.
From S2P Require Import Prelude Order Text PlatAction.

Module HttpMethod.
Inductive t : Set := Delete | Get | Post.
#[global] Instance eq_dec : EqDecision t.
Proof. solve_decision. Defined.

Definition as_str (self : t) : string :=
  match self with Delete => "DELETE" | Get => "GET" | Post => "POST" end.
End HttpMethod.

Module RouteAccess.
Inductive t : Set := Public | Session | Authorized.
#[global] Instance eq_dec : EqDecision t.
Proof. solve_decision. Defined.

Definition as_str (self : t) : string :=
  match self with Public => "public" | Session => "session" | Authorized => "authorized" end.
End RouteAccess.

Module RouteMetadata.
Record t : Set := mk {
  method : HttpMethod.t;
  path_pattern : string;
  action : PlatformAction.t;
  resource_kind : string;
  resource_id_path_param : option string;
  scope_path_params : list string;
  access : RouteAccess.t;
  user_actor_required : bool;
}.
#[global] Instance eq_dec : EqDecision t.
Proof. solve_decision. Defined.

Definition with_access (method : HttpMethod.t) (path_pattern : string) (action : PlatformAction.t)
    (resource_id_path_param : option string) (scope_path_params : list string)
    (access : RouteAccess.t) : t :=
  mk method path_pattern action (PlatformAction.resource_kind action) resource_id_path_param
    scope_path_params access (PlatformAction.requires_user_actor action).

Definition new (method : HttpMethod.t) (path_pattern : string) (action : PlatformAction.t)
    (resource_id_path_param : option string) (scope_path_params : list string) : t :=
  mk method path_pattern action (PlatformAction.resource_kind action) resource_id_path_param
    scope_path_params RouteAccess.Authorized (PlatformAction.requires_user_actor action).
End RouteMetadata.

Definition PLATFORM_ROUTES : list RouteMetadata.t :=
  [
   RouteMetadata.new HttpMethod.Post "/v1/conversations" PlatformAction.ConversationCreate
     None [];
   RouteMetadata.new HttpMethod.Get "/v1/conversations/{conversation_id}"
     PlatformAction.ConversationRead (Some "conversation_id") ["conversation_id"];
   RouteMetadata.new HttpMethod.Get "/v1/conversations/{conversation_id}/sessions"
     PlatformAction.SessionRead (Some "conversation_id") ["conversation_id"];
   RouteMetadata.new HttpMethod.Post "/v1/runs" PlatformAction.RunCreate None [];
   RouteMetadata.new HttpMethod.Get "/v1/runs/{run_id}" PlatformAction.RunRead
     (Some "run_id") ["run_id"];
   RouteMetadata.new HttpMethod.Post "/v1/runs/{run_id}:cancel" PlatformAction.RunCancel
     (Some "run_id") ["run_id"];
   RouteMetadata.new HttpMethod.Post "/v1/runs/{run_id}:steer" PlatformAction.RunSteer
     (Some "run_id") ["run_id"];
   RouteMetadata.new HttpMethod.Get "/v1/runs/{run_id}/events" PlatformAction.RunEventRead
     (Some "run_id") ["run_id"];
   RouteMetadata.new HttpMethod.Post "/v1/approvals/{approval_id}:decide"
     PlatformAction.ApprovalDecide (Some "approval_id") ["approval_id"];
   RouteMetadata.new HttpMethod.Get "/v1/deferred-tools" PlatformAction.DeferredToolRead
     None [];
   RouteMetadata.new HttpMethod.Post "/v1/deferred-tools/{deferred_tool_id}:resume"
     PlatformAction.DeferredToolResume (Some "deferred_tool_id") ["deferred_tool_id"];
   RouteMetadata.new HttpMethod.Post "/v1/environment-attachments"
     PlatformAction.EnvironmentAttachmentCreate None [];
   RouteMetadata.new HttpMethod.Get "/v1/environment-attachments"
     PlatformAction.EnvironmentAttachmentRead None [];
   RouteMetadata.new HttpMethod.Get
     "/v1/environment-attachments/{attachment_lease_id}/health"
     PlatformAction.EnvironmentAttachmentHealthRead (Some "attachment_lease_id")
     ["attachment_lease_id"];
   RouteMetadata.new HttpMethod.Delete "/v1/environment-attachments/{attachment_lease_id}"
     PlatformAction.EnvironmentAttachmentRelease (Some "attachment_lease_id")
     ["attachment_lease_id"];
   RouteMetadata.new HttpMethod.Get "/v1/evidence-archives/{evidence_archive_id}"
     PlatformAction.EvidenceArchiveRead (Some "evidence_archive_id") ["evidence_archive_id"];
   RouteMetadata.new HttpMethod.Get "/v1/evidence-archives/{evidence_archive_id}/debug"
     PlatformAction.EvidenceArchiveDebugRead (Some "evidence_archive_id")
     ["evidence_archive_id"];
   RouteMetadata.new HttpMethod.Post "/admin/v1/identity-providers"
     PlatformAction.IdentityProviderWrite None [];
   RouteMetadata.new HttpMethod.Get "/admin/v1/identity-providers"
     PlatformAction.IdentityProviderRead None [];
   RouteMetadata.new HttpMethod.Get "/admin/v1/identity-providers/{identity_provider_id}"
     PlatformAction.IdentityProviderRead (Some "identity_provider_id")
     ["identity_provider_id"];
   RouteMetadata.new HttpMethod.Get "/admin/v1/users" PlatformAction.UserRead None [];
   RouteMetadata.new HttpMethod.Get "/admin/v1/users/{user_id}" PlatformAction.UserRead
     (Some "user_id") ["user_id"];
   RouteMetadata.new HttpMethod.Post "/admin/v1/users/{user_id}/status"
     PlatformAction.UserWrite (Some "user_id") ["user_id"];
   RouteMetadata.new HttpMethod.Get "/admin/v1/users/{user_id}/sessions"
     PlatformAction.AuthSessionRead None ["user_id"];
   RouteMetadata.new HttpMethod.Post
     "/admin/v1/users/{user_id}/sessions/{auth_session_id}/revoke"
     PlatformAction.AuthSessionRevoke (Some "auth_session_id") ["user_id";
     "auth_session_id"];
   RouteMetadata.new HttpMethod.Get "/admin/v1/users/{user_id}/external-identities"
     PlatformAction.ExternalIdentityRead None ["user_id"];
   RouteMetadata.new HttpMethod.Get
     "/admin/v1/users/{user_id}/external-identities/{external_identity_id}"
     PlatformAction.ExternalIdentityRead (Some "external_identity_id") ["user_id";
     "external_identity_id"];
   RouteMetadata.new HttpMethod.Post
     "/admin/v1/users/{user_id}/external-identities/{external_identity_id}/unlink"
     PlatformAction.ExternalIdentityUnlink (Some "external_identity_id") ["user_id";
     "external_identity_id"];
   RouteMetadata.new HttpMethod.Get "/admin/v1/role-bindings" PlatformAction.RoleBindingRead
     None [];
   RouteMetadata.new HttpMethod.Post "/admin/v1/role-bindings"
     PlatformAction.RoleBindingWrite None [];
   RouteMetadata.new HttpMethod.Get "/admin/v1/role-bindings/{role_binding_id}"
     PlatformAction.RoleBindingRead (Some "role_binding_id") ["role_binding_id"];
   RouteMetadata.new HttpMethod.Post "/admin/v1/role-bindings/{role_binding_id}/status"
     PlatformAction.RoleBindingWrite (Some "role_binding_id") ["role_binding_id"];
   RouteMetadata.new HttpMethod.Get "/admin/v1/audit-events" PlatformAction.AuditEventRead
     None [];
   RouteMetadata.new HttpMethod.Get "/admin/v1/organizations/{organization_id}/members"
     PlatformAction.OrganizationMemberRead None ["organization_id"];
   RouteMetadata.new HttpMethod.Post "/admin/v1/organizations/{organization_id}/members"
     PlatformAction.OrganizationMemberWrite None ["organization_id"];
   RouteMetadata.new HttpMethod.Get
     "/admin/v1/organizations/{organization_id}/members/{organization_member_id}"
     PlatformAction.OrganizationMemberRead (Some "organization_member_id")
     ["organization_id"; "organization_member_id"];
   RouteMetadata.new HttpMethod.Post
     "/admin/v1/organizations/{organization_id}/members/{organization_member_id}/status"
     PlatformAction.OrganizationMemberWrite (Some "organization_member_id")
     ["organization_id"; "organization_member_id"];
   RouteMetadata.new HttpMethod.Post
     "/admin/v1/organizations/{organization_id}/members/{organization_member_id}/remove"
     PlatformAction.OrganizationMemberWrite (Some "organization_member_id")
     ["organization_id"; "organization_member_id"];
   RouteMetadata.new HttpMethod.Get "/admin/v1/organizations/{organization_id}/invitations"
     PlatformAction.OrganizationInvitationRead None ["organization_id"];
   RouteMetadata.new HttpMethod.Post "/admin/v1/organizations/{organization_id}/invitations"
     PlatformAction.OrganizationInvitationCreate None ["organization_id"];
   RouteMetadata.new HttpMethod.Get
     "/admin/v1/organizations/{organization_id}/invitations/{invitation_id}"
     PlatformAction.OrganizationInvitationRead (Some "invitation_id") ["organization_id";
     "invitation_id"];
   RouteMetadata.new HttpMethod.Post
     "/admin/v1/organizations/{organization_id}/invitations/{invitation_id}/revoke"
     PlatformAction.OrganizationInvitationManage (Some "invitation_id") ["organization_id";
     "invitation_id"];
   RouteMetadata.new HttpMethod.Get "/admin/v1/projects/{project_id}/members"
     PlatformAction.ProjectMemberRead None ["project_id"];
   RouteMetadata.new HttpMethod.Post "/admin/v1/projects/{project_id}/members"
     PlatformAction.ProjectMemberWrite None ["project_id"];
   RouteMetadata.new HttpMethod.Get
     "/admin/v1/projects/{project_id}/members/{project_member_id}"
     PlatformAction.ProjectMemberRead (Some "project_member_id") ["project_id";
     "project_member_id"];
   RouteMetadata.new HttpMethod.Post
     "/admin/v1/projects/{project_id}/members/{project_member_id}/status"
     PlatformAction.ProjectMemberWrite (Some "project_member_id") ["project_id";
     "project_member_id"];
   RouteMetadata.new HttpMethod.Post "/admin/v1/secret-refs" PlatformAction.SecretRefWrite
     None [];
   RouteMetadata.new HttpMethod.Get "/admin/v1/secret-refs" PlatformAction.SecretRefRead
     None [];
   RouteMetadata.new HttpMethod.Get "/admin/v1/secret-refs/{secret_ref_id}"
     PlatformAction.SecretRefRead (Some "secret_ref_id") ["secret_ref_id"];
   RouteMetadata.with_access HttpMethod.Get "/auth/v1/providers"
     PlatformAction.IdentityProviderRead None [] RouteAccess.Public;
   RouteMetadata.with_access HttpMethod.Post
     "/auth/v1/providers/{identity_provider_id}/start" PlatformAction.IdentityProviderRead
     None ["identity_provider_id"] RouteAccess.Public;
   RouteMetadata.with_access HttpMethod.Get
     "/auth/v1/providers/{identity_provider_id}/login" PlatformAction.IdentityProviderRead
     None ["identity_provider_id"] RouteAccess.Public;
   RouteMetadata.with_access HttpMethod.Post
     "/auth/v1/providers/{identity_provider_id}/callback" PlatformAction.AuthSessionCreate
     None ["identity_provider_id"] RouteAccess.Public;
   RouteMetadata.with_access HttpMethod.Post "/auth/v1/single-user/login"
     PlatformAction.AuthSessionCreate None [] RouteAccess.Public;
   RouteMetadata.with_access HttpMethod.Get
     "/auth/v1/invitations/{invitation_token}/preview"
     PlatformAction.OrganizationInvitationRead (Some "invitation_token")
     ["invitation_token"] RouteAccess.Public;
   RouteMetadata.with_access HttpMethod.Post
     "/auth/v1/invitations/{invitation_token}/accept"
     PlatformAction.OrganizationInvitationAccept (Some "invitation_token")
     ["invitation_token"] RouteAccess.Session;
   RouteMetadata.with_access HttpMethod.Get "/auth/v1/session"
     PlatformAction.AuthSessionRead None [] RouteAccess.Session;
   RouteMetadata.with_access HttpMethod.Post "/auth/v1/session/active-organization"
     PlatformAction.AuthSessionUpdate None [] RouteAccess.Session;
   RouteMetadata.with_access HttpMethod.Post "/auth/v1/session/active-project"
     PlatformAction.AuthSessionUpdate None [] RouteAccess.Session;
   RouteMetadata.with_access HttpMethod.Post "/auth/v1/logout"
     PlatformAction.AuthSessionRevoke None [] RouteAccess.Session].

Definition foundation_routes : list RouteMetadata.t := PLATFORM_ROUTES.

Definition route_metadata (method : HttpMethod.t) (path_pattern : string)
    : option RouteMetadata.t :=
  List.find (λ route, (RouteMetadata.method route ==? method)
                      && (RouteMetadata.path_pattern route ==? path_pattern)) foundation_routes.

(** ** Matching a request *)

(** [http::Method] by its name. *)
Definition platform_method (method : string) : option HttpMethod.t :=
  if method ==? "DELETE" then Some HttpMethod.Delete
  else if method ==? "GET" then Some HttpMethod.Get
  else if method ==? "POST" then Some HttpMethod.Post
  else None.

(** [str::trim_matches] on one character. *)
Fixpoint trim_start_char (c : ascii) (s : string) : string :=
  match s with
  | EmptyString => EmptyString
  | String a s' => if a ==? c then trim_start_char c s' else s
  end.
Fixpoint trim_end_char (c : ascii) (s : string) : string :=
  match s with
  | EmptyString => EmptyString
  | String a s' =>
      match trim_end_char c s' with
      | EmptyString => if a ==? c then EmptyString else String a EmptyString
      | r => String a r
      end
  end.
Definition trim_matches (c : ascii) (s : string) : string := trim_end_char c (trim_start_char c s).

Definition path_segments (path : string) : list string :=
  List.filter (λ segment, segment !=? "") (split_char "/" (trim_matches "/" path)).

Definition match_segment (pattern_segment path_segment : string) (params : gmap string string)
    : option (gmap string string) :=
  match split_once "{" pattern_segment with
  | None => if pattern_segment ==? path_segment then Some params else None
  | Some (prefix, rest) =>
      match split_once "}" rest with
      | None => None
      | Some (name, suffix) =>
          if (name ==? "")
             || negb (starts_with prefix path_segment)
             || negb (ends_with suffix path_segment)
             || (String.length path_segment <? String.length prefix + String.length suffix)%nat
          then None
          else
            let value_end := (String.length path_segment - String.length suffix)%nat in
            let value := String.substring (String.length prefix)
              (value_end - String.length prefix) path_segment in
            if value ==? "" then None else Some (<[name := value]> params)
      end
  end.

(** The loop over the zipped segments. *)
Fixpoint match_segments (patterns paths : list string) (params : gmap string string)
    : option (gmap string string) :=
  match patterns, paths with
  | pattern :: patterns', path :: paths' =>
      match match_segment pattern path params with
      | Some params' => match_segments patterns' paths' params'
      | None => None
      end
  | _, _ => Some params
  end.

Definition match_path_pattern (pattern path : string) : option (gmap string string) :=
  let pattern_segments := path_segments pattern in
  let path_segments := path_segments path in
  if length pattern_segments !=? length path_segments then None
  else match_segments pattern_segments path_segments ∅.

Module MatchedRoute.
Record t : Set := mk { route : RouteMetadata.t; params : gmap string string }.
End MatchedRoute.

(** [Iterator::find_map]. *)
Fixpoint find_map {A B} (f : A → option B) (l : list A) : option B :=
  match l with
  | [] => None
  | x :: l' => match f x with Some y => Some y | None => find_map f l' end
  end.

Definition match_route (method path : string) : option MatchedRoute.t :=
  match platform_method method with
  | None => None
  | Some platform_method =>
      find_map (λ route,
          match match_path_pattern (RouteMetadata.path_pattern route) path with
          | Some params => Some (MatchedRoute.mk route params)
          | None => None
          end)
        (List.filter (λ route, RouteMetadata.method route ==? platform_method) foundation_routes)
  end.

(** ** Reading a pattern *)

(** A literal segment, or a parameter between a prefix and a suffix. *)
Inductive segment : Set :=
  | Literal (text : string)
  | Param (prefix name suffix : string)
  | Malformed.

Definition read_segment (s : string) : segment :=
  match split_once "{" s with
  | None => Literal s
  | Some (prefix, rest) =>
      match split_once "}" rest with
      | None => Malformed
      | Some (name, suffix) => if name ==? "" then Malformed else Param prefix name suffix
      end
  end.

(** What a segment of a path has to look like, and what is bound. *)
Definition segment_accepts (p : segment) (path : string) (bound : option (string * string)) : Prop :=
  match p with
  | Literal text => path = text ∧ bound = None
  | Param prefix name suffix =>
      ∃ value, value ≠ "" ∧ path = prefix +:+ value +:+ suffix ∧ bound = Some (name, value)
  | Malformed => False
  end.

(** No segment of a path is accepted by both. *)
Definition segments_disjoint (p q : segment) : bool :=
  match p, q with
  | Malformed, _ | _, Malformed => true
  | Literal a, Literal b => a !=? b
  | Literal a, Param prefix _ suffix | Param prefix _ suffix, Literal a =>
      negb (starts_with prefix a && ends_with suffix a)
  | Param p1 _ s1, Param p2 _ s2 => negb (ends_with s1 s2) && negb (ends_with s2 s1)
  end.

Definition patterns_disjoint (p q : string) : bool :=
  let ps := read_segment <$> path_segments p in
  let qs := read_segment <$> path_segments q in
  (length ps !=? length qs)
  || existsb (λ pq, segments_disjoint pq.1 pq.2) (zip ps qs).

Definition routes_disjoint (r r' : RouteMetadata.t) : bool :=
  (RouteMetadata.method r !=? RouteMetadata.method r')
  || patterns_disjoint (RouteMetadata.path_pattern r) (RouteMetadata.path_pattern r').

Fixpoint pairwise {A} (d : A → A → bool) (l : list A) : bool :=
  match l with [] => true | x :: l' => forallb (d x) l' && pairwise d l' end.

(** Filling in a pattern. *)
Definition fill_segment (values : string → string) (s : string) : string :=
  match read_segment s with
  | Param prefix name suffix => prefix +:+ values name +:+ suffix
  | _ => s
  end.
Definition fill_pattern (values : string → string) (pattern : string) : string :=
  foldr (λ s rest, "/" +:+ fill_segment values s +:+ rest) "" (path_segments pattern).
Definition pattern_params (pattern : string) : list string :=
  omap (λ s, match read_segment s with Param _ name _ => Some name | _ => None end)
    (path_segments pattern).

(** A value that fits in one path segment. *)
Definition segment_value (v : string) : bool := (v !=? "") && negb (contains "/" v).

(** ** Lemmas on strings *)

Lemma app_nil_string (s : string) : s +:+ "" = s.
Proof. induction s as [|a s IH]; [done|]. change (String a (s +:+ "") = String a s). by f_equal. Qed.

Lemma app_cons_string (a : ascii) (s r : string) : String a s +:+ r = String a (s +:+ r).
Proof. done. Qed.

Lemma app_assoc_string (a b c : string) : (a +:+ b) +:+ c = a +:+ (b +:+ c).
Proof. induction a as [|x a IH]; [done|]. rewrite !app_cons_string. by f_equal. Qed.

Lemma length_app_string (a b : string) :
  String.length (a +:+ b) = (String.length a + String.length b)%nat.
Proof. induction a as [|x a IH]; [done|]. rewrite app_cons_string. cbn [String.length]. lia. Qed.

Lemma ends_with_app suf s : ends_with suf s = true ↔ ∃ r, s = r +:+ suf.
Proof.
  induction s as [|a s IH]; cbn [ends_with].
  - rewrite orb_false_r, bool_decide_eq_true. split; [intros ->; by exists ""|].
    intros [[|x r] Hr]; [done|]. by rewrite app_cons_string in Hr.
  - rewrite orb_true_iff, bool_decide_eq_true, IH. split.
    + intros [<-|[r ->]]; [by exists ""|by exists (String a r)].
    + intros [[|x r] Hr]; [by left|]. rewrite app_cons_string in Hr. injection Hr as -> ->.
      right. by exists r.
Qed.

(** Two suffixes of one string: one is a suffix of the other. *)
Lemma ends_with_chain r1 s1 r2 s2 :
  r1 +:+ s1 = r2 +:+ s2 → ends_with s1 s2 = true ∨ ends_with s2 s1 = true.
Proof.
  revert r2. induction r1 as [|a r1 IH]; intros r2.
  { change ("" +:+ s1) with s1. intros ->. right. apply ends_with_app. eauto. }
  destruct r2 as [|b r2].
  { change ("" +:+ s2) with s2. intros <-. left. apply ends_with_app. eauto. }
  rewrite !app_cons_string. intros [= -> H]. eauto.
Qed.

Lemma substring_middle p v s :
  String.substring (String.length p) (String.length v) (p +:+ v +:+ s) = v.
Proof.
  induction p as [|a p IH]; [|done].
  change ("" +:+ v +:+ s) with (v +:+ s). cbn [String.length].
  induction v as [|b v IHv]; [by destruct s|]. rewrite app_cons_string. cbn [String.length String.substring].
  by f_equal.
Qed.

(** The middle of a string between a prefix and a suffix that do not overlap. *)
Lemma split_middle p s x : (String.length p + String.length s ≤ String.length x)%nat →
  starts_with p x = true → ends_with s x = true → ∃ v, x = p +:+ v +:+ s.
Proof.
  intros Hl [y ->]%starts_with_app [r Hr]%ends_with_app.
  rewrite length_app_string in Hl. revert r Hr. induction p as [|a p IH]; intros r Hr.
  - exists r. by rewrite Hr.
  - destruct r as [|b r].
    { apply (f_equal String.length) in Hr. revert Hr. change ("" +:+ s) with s.
      rewrite length_app_string. cbn [String.length] in *. lia. }
    rewrite !app_cons_string in Hr. injection Hr as -> Hr.
    destruct (IH ltac:(cbn [String.length] in Hl; lia) r Hr) as [v Hv].
    exists v. by rewrite !app_cons_string, Hv.
Qed.

(** ** Matching one segment *)

Definition bind_param (bound : option (string * string)) (params : gmap string string) :=
  match bound with Some (n, v) => <[n := v]> params | None => params end.

Lemma match_segment_iff pattern path params params' :
  match_segment pattern path params = Some params' ↔
  ∃ bound, segment_accepts (read_segment pattern) path bound ∧ params' = bind_param bound params.
Proof.
  unfold match_segment, read_segment, segment_accepts.
  destruct (split_once "{" pattern) as [[prefix rest]|]; last first.
  { case_bool_decide as E; [subst; naive_solver|]. split; [done|]. naive_solver. }
  destruct (split_once "}" rest) as [[name suffix]|]; [|naive_solver].
  case_bool_decide as En; [naive_solver|]. simpl.
  destruct (negb _ || negb _ || _) eqn:Eg.
  - split; [done|]. intros (b & (v & Hv & -> & ->) & _). exfalso.
    rewrite (proj2 (starts_with_app prefix _)) in Eg by eauto.
    rewrite (proj2 (ends_with_app suffix _)) in Eg by (exists (prefix +:+ v); by rewrite app_assoc_string).
    simpl in Eg. apply Nat.ltb_lt in Eg. rewrite !length_app_string in Eg. lia.
  - btrue. apply Nat.ltb_ge in H0.
    destruct (split_middle prefix suffix path) as [v ->]; [done..|].
    rewrite !length_app_string.
    replace (_ + (_ + _) - _ - _)%nat with (String.length v) by lia. rewrite substring_middle.
    case_bool_decide as Ev.
    + split; [done|]. intros (b & (v' & Hv' & He & _) & _). destruct Hv'.
      apply (f_equal String.length) in He. rewrite !length_app_string, Ev in He. cbn [String.length] in He.
      destruct v'; [done|]. cbn [String.length] in He. lia.
    + split; [intros [= <-]; exists (Some (name, v)); naive_solver|].
      intros (b & (v' & Hv' & He & ->) & ->). simpl. do 2 f_equal.
      pose proof (f_equal String.length He) as Hl. rewrite !length_app_string in Hl.
      rewrite <- (substring_middle prefix v' suffix), <- He.
      replace (String.length v') with (String.length v) by lia. by rewrite substring_middle.
Qed.

Lemma segments_disjoint_sound p q path b c :
  segments_disjoint p q = true → segment_accepts p path b → ¬ segment_accepts q path c.
Proof.
  unfold segment_accepts, segments_disjoint.
  assert (∀ pre v suf, starts_with pre (pre +:+ v +:+ suf) && ends_with suf (pre +:+ v +:+ suf) = true)
    as Hpv.
  { intros. apply andb_true_intro. split; [apply starts_with_app; eauto|].
    apply ends_with_app. exists (pre +:+ v). by rewrite app_assoc_string. }
  destruct p, q; intros Hd; try naive_solver; btrue.
  - naive_solver.
  - intros [-> _] (v & _ & -> & _). by rewrite Hpv in Hd.
  - intros (v & _ & -> & _) [<- _]. by rewrite Hpv in Hd.
  - intros (v & _ & -> & _) (v' & _ & He & _). rewrite <- !app_assoc_string in He.
    destruct (ends_with_chain _ _ _ _ He); congruence.
Qed.

(** ** Matching a pattern *)

Lemma match_segments_all ps xs params params' :
  length ps = length xs → match_segments ps xs params = Some params' →
  Forall2 (λ p x, ∃ b, segment_accepts (read_segment p) x b) ps xs.
Proof.
  revert xs params. induction ps as [|p ps IH]; intros [|x xs] params Hl H; try done.
  simpl in H. destruct (match_segment p x params) eqn:E; [|done].
  apply match_segment_iff in E as (b & Hb & _). constructor; [eauto|]. eapply IH; [|done]. by injection Hl.
Qed.

Lemma match_pattern_segments pattern path params :
  match_path_pattern pattern path = Some params →
  Forall2 (λ p x, ∃ b, segment_accepts (read_segment p) x b) (path_segments pattern) (path_segments path).
Proof.
  unfold match_path_pattern. case_bool_decide as E; [|done]. simpl. by apply match_segments_all.
Qed.

Lemma patterns_disjoint_sound p q path :
  patterns_disjoint p q = true → is_Some (match_path_pattern p path) →
  match_path_pattern q path = None.
Proof.
  intros Hd [a Ha]. destruct (match_path_pattern q path) as [b|] eqn:Hb; [|done]. exfalso.
  apply match_pattern_segments in Ha, Hb. revert Hd. unfold patterns_disjoint.
  revert Ha Hb. generalize (path_segments p) (path_segments q) (path_segments path).
  intros ps qs xs Hp Hq. apply not_true_iff_false, orb_false_iff. split.
  { rewrite !length_fmap, (Forall2_length _ _ _ Hp), (Forall2_length _ _ _ Hq).
    by rewrite bool_decide_eq_true_2. }
  apply existsb_false_iff. revert qs Hq. induction Hp as [|p0 x ps xs [b0 Hb0] Hp IH]; intros qs Hq.
  { intros y Hy. by apply elem_of_nil in Hy. }
  inversion Hq as [|q0 x' qs' xs' [c0 Hc0] Hq']; subst. intros y [->|Hy]%elem_of_cons; [|by eapply IH].
  destruct (segments_disjoint _ _) eqn:E; [|done]. by destruct (segments_disjoint_sound _ _ _ _ _ E Hb0 Hc0).
Qed.

(** ** The table is unambiguous *)

Lemma find_map_some {A B} (f : A → option B) l y :
  find_map f l = Some y → ∃ x, x ∈ l ∧ f x = Some y.
Proof. induction l as [|x l IH]; simpl; [done|]. destruct (f x) eqn:E; set_solver. Qed.

Lemma find_map_exclusive {A B} (d : A → A → bool) (f : A → option B) l x y :
  (∀ a b, a ∈ l → b ∈ l → d a b = true → is_Some (f a) → f b = None) →
  pairwise d l = true → x ∈ l → f x = Some y → find_map f l = Some y.
Proof.
  induction l as [|a l IH]; simpl; intros Hd; [set_solver|]. intros [Ha Hl]%andb_prop Hx Hf.
  rewrite forallb_iff in Ha. apply elem_of_cons in Hx as [->|Hx]; [by rewrite Hf|].
  destruct (f a) eqn:E; [|apply IH; set_solver].
  rewrite (Hd a x) in Hf; [done|set_solver|set_solver|by apply Ha|by eexists].
Qed.

Lemma pairwise_filter {A} (d : A → A → bool) p l :
  pairwise d l = true → pairwise d (List.filter p l) = true.
Proof.
  induction l as [|a l IH]; simpl; [done|]. intros [Ha Hl]%andb_prop.
  destruct (p a); [|auto]. simpl. rewrite IH by done. rewrite andb_true_r.
  apply forallb_iff. intros x [Hx _]%filter_iff. rewrite forallb_iff in Ha. auto.
Qed.

Lemma platform_routes_disjoint : pairwise routes_disjoint PLATFORM_ROUTES = true.
Proof. by vm_compute. Qed.

(** Which route answers does not depend on the order of the table. *)
Lemma match_route_iff method path m :
  match_route method path = Some m ↔
  MatchedRoute.route m ∈ foundation_routes ∧
  platform_method method = Some (RouteMetadata.method (MatchedRoute.route m)) ∧
  match_path_pattern (RouteMetadata.path_pattern (MatchedRoute.route m)) path
    = Some (MatchedRoute.params m).
Proof.
  unfold match_route. destruct (platform_method method) as [hm|]; [|naive_solver]. split.
  - intros (r & [Hr Hm]%filter_iff & He)%find_map_some. btrue.
    destruct (match_path_pattern _ _) eqn:E; [|done]. injection He as <-. simpl. subst hm. done.
  - intros (Hr & [= ->] & Hp). eapply (find_map_exclusive routes_disjoint).
    + intros a b [_ Ha]%filter_iff [_ Hb]%filter_iff Hd [y Hy]. btrue.
      unfold routes_disjoint in Hd. rewrite bool_decide_eq_true_2 in Hd by congruence.
      destruct (match_path_pattern _ path) eqn:Hm in Hy; [|done].
      by rewrite (patterns_disjoint_sound _ _ _ Hd) by (by rewrite Hm).
    + apply pairwise_filter, platform_routes_disjoint.
    + apply filter_iff. by rewrite bool_decide_eq_true.
    + rewrite Hp. by destruct m.
Qed.

(** ** Filling in a pattern and matching it again *)

Lemma contains_char_app c s r :
  contains (String c "") (s +:+ r) = contains (String c "") s || contains (String c "") r.
Proof.
  induction s as [|a s IH]; [by destruct r|]. rewrite app_cons_string. cbn [contains].
  rewrite IH, orb_assoc. f_equal. cbn [String.prefix]. destruct (ascii_dec c a); [|done]. by destruct s, r.
Qed.

Lemma contains_char_cons c a s :
  contains (String c "") (String a s) = (a ==? c) || contains (String c "") s.
Proof.
  cbn [contains String.prefix]. destruct (ascii_dec c a) as [->|Hne].
  - rewrite bool_decide_eq_true_2 by done. by destruct s.
  - by rewrite bool_decide_eq_false_2 by congruence.
Qed.

(** The pieces of a split do not hold the separator. *)
Lemma split_char_pieces c s x : x ∈ split_char c s → contains (String c "") x = false.
Proof.
  revert x. induction s as [|a s IH]; intros x; cbn [split_char].
  { by intros ->%list_elem_of_singleton. }
  case_bool_decide as E.
  - intros [->|Hx]%elem_of_cons; [done|auto].
  - destruct (split_char c s) as [|p ps].
    { intros ->%list_elem_of_singleton. rewrite contains_char_cons. by rewrite bool_decide_eq_false_2. }
    intros [->|Hx]%elem_of_cons; [|apply IH; set_solver].
    rewrite contains_char_cons, bool_decide_eq_false_2 by done. apply IH. set_solver.
Qed.

Lemma split_char_ne c s : split_char c s ≠ [].
Proof. destruct s; simpl; [done|]. case_bool_decide; [done|]. by destruct (split_char c s). Qed.

(** A piece without separator in front. *)
Lemma split_char_app c x s : contains (String c "") x = false →
  split_char c (x +:+ String c s) = x :: split_char c s.
Proof.
  induction x as [|a x IH]; intros Hx.
  - change ("" +:+ String c s) with (String c s). cbn [split_char]. by rewrite bool_decide_eq_true_2.
  - rewrite contains_char_cons in Hx. btrue. rewrite app_cons_string. cbn [split_char].
    rewrite bool_decide_eq_false_2 by done. by rewrite IH.
Qed.

Lemma split_char_single c x : contains (String c "") x = false → split_char c x = [x].
Proof.
  induction x as [|a x IH]; intros Hx; [done|]. rewrite contains_char_cons in Hx. btrue.
  cbn [split_char]. rewrite bool_decide_eq_false_2 by done. by rewrite IH.
Qed.

Definition non_empty (s : string) : bool := s !=? "".

Lemma split_trim_end c s :
  head (split_char c (trim_end_char c s)) = head (split_char c s) ∧
  List.filter non_empty (tail (split_char c (trim_end_char c s)))
    = List.filter non_empty (tail (split_char c s)).
Proof.
  induction s as [|a s [IHh IHt]]; [done|]. cbn [trim_end_char].
  destruct (trim_end_char c s) as [|b r] eqn:E.
  - cbn [split_char]. case_bool_decide as Ea.
    + simpl. split; [done|]. destruct (split_char c s) as [|p ps] eqn:Es; [by destruct (split_char_ne c s)|].
      simpl in *. injection IHh as <-. simpl. done.
    + simpl. rewrite bool_decide_eq_false_2 by done.
      destruct (split_char c s) as [|p ps] eqn:Es; [by destruct (split_char_ne c s)|].
      simpl in *. injection IHh as <-. done.
  - remember (String b r) as t eqn:Et. cbn [split_char].
    destruct (split_char c t) as [|p ps] eqn:E1; [by destruct (split_char_ne c t)|].
    destruct (split_char c s) as [|q qs] eqn:E2; [by destruct (split_char_ne c s)|].
    simpl in IHh, IHt. injection IHh as ->. case_bool_decide; simpl; [|done].
    split; [done|]. by rewrite IHt.
Qed.

Lemma split_trim_start c s :
  List.filter non_empty (split_char c (trim_start_char c s)) = List.filter non_empty (split_char c s).
Proof.
  induction s as [|a s IH]; [done|]. cbn [trim_start_char]. case_bool_decide as E; [|done].
  rewrite IH. cbn [split_char]. by rewrite bool_decide_eq_true_2.
Qed.

Lemma path_segments_split path :
  path_segments path = List.filter non_empty (split_char "/" path).
Proof.
  unfold path_segments, trim_matches. rewrite <- (split_trim_start "/" path).
  generalize (trim_start_char "/" path). intros s. destruct (split_trim_end "/" s) as [Hh Ht].
  fold non_empty. destruct (split_char "/" s) as [|q qs] eqn:E2; [by destruct (split_char_ne "/" s)|].
  destruct (split_char "/" (trim_end_char "/" s)) as [|p ps] eqn:E1;
    [by destruct (split_char_ne "/" (trim_end_char "/" s))|].
  simpl in Hh, Ht. injection Hh as ->. change (List.filter non_empty (q :: ps)
    = List.filter non_empty (q :: qs)). simpl. by rewrite Ht.
Qed.

(** A path put together from segments splits into them. *)
Lemma path_segments_join l :
  (∀ x, x ∈ l → segment_value x = true) →
  path_segments (foldr (λ s rest, "/" +:+ s +:+ rest) "" l) = l.
Proof.
  intros Hl. rewrite path_segments_split. destruct l as [|x l]; [done|].
  cbn [foldr]. change ("/" +:+ x +:+ ?r) with (String "/" (x +:+ r)).
  cbn [split_char]. rewrite bool_decide_eq_true_2 by done. simpl.
  revert x Hl. induction l as [|y l IH]; intros x Hl.
  - cbn [foldr]. rewrite app_nil_string. destruct (andb_prop _ _ (Hl x ltac:(set_solver))) as [H1 H2].
    btrue. rewrite split_char_single by done. simpl. unfold non_empty. by rewrite bool_decide_eq_false_2.
  - cbn [foldr]. change ("/" +:+ y +:+ ?r) with (String "/" (y +:+ r)).
    destruct (andb_prop _ _ (Hl x ltac:(set_solver))) as [H1 H2]. btrue.
    rewrite split_char_app by done. simpl. unfold non_empty at 1.
    rewrite bool_decide_eq_false_2 by done. simpl. f_equal. apply IH. set_solver.
Qed.

(** What the table promises of each route: every segment reads, its resource
    parameter and its scope parameters occur in the pattern, and kind and actor
    requirement are those of its action. *)
Definition route_well_formed (r : RouteMetadata.t) : bool :=
  let pattern := RouteMetadata.path_pattern r in
  forallb (λ s, match read_segment s with Malformed => false | _ => true end)
    (path_segments pattern)
  && match RouteMetadata.resource_id_path_param r with
     | Some p => bool_decide (p ∈ RouteMetadata.scope_path_params r)
     | None => true
     end
  && forallb (λ p, bool_decide (p ∈ pattern_params pattern)) (RouteMetadata.scope_path_params r)
  && (RouteMetadata.resource_kind r ==? PlatformAction.resource_kind (RouteMetadata.action r))
  && bool_decide (RouteMetadata.user_actor_required r
                  = PlatformAction.requires_user_actor (RouteMetadata.action r)).

Lemma platform_routes_well_formed r : r ∈ foundation_routes → route_well_formed r = true.
Proof.
  revert r. apply forallb_iff. by vm_compute.
Qed.

Lemma route_segments_read r s : r ∈ foundation_routes →
  s ∈ path_segments (RouteMetadata.path_pattern r) → read_segment s ≠ Malformed.
Proof.
  intros Hr%platform_routes_well_formed Hs E. unfold route_well_formed in Hr. btrue.
  match goal with H : forallb _ (path_segments _) = true |- _ =>
    rewrite forallb_iff in H; specialize (H s Hs) end.
  by rewrite E in *.
Qed.

Lemma route_resource_param r p : r ∈ foundation_routes →
  RouteMetadata.resource_id_path_param r = Some p → p ∈ pattern_params (RouteMetadata.path_pattern r).
Proof.
  intros Hr%platform_routes_well_formed Hp. unfold route_well_formed in Hr. rewrite Hp in Hr. btrue.
  match goal with H : forallb _ (RouteMetadata.scope_path_params _) = true |- _ =>
    rewrite forallb_iff in H; specialize (H p ltac:(done)) end. by btrue.
Qed.

Definition bindings (values : string → string) (names : list string) : gmap string string :=
  list_to_map ((λ n, (n, values n)) <$> names).

Lemma bindings_lookup values names n x : bindings values names !! n = Some x → x = values n.
Proof.
  intros (m & Hm & _)%elem_of_list_to_map_2%list_elem_of_fmap. by injection Hm as -> ->.
Qed.

Lemma segment_accepts_fill values s :
  read_segment s ≠ Malformed →
  (∀ n, n ∈ (match read_segment s with Param _ name _ => [name] | _ => [] end) → values n ≠ "") →
  segment_accepts (read_segment s) (fill_segment values s)
    (match read_segment s with Param _ name _ => Some (name, values name) | _ => None end).
Proof.
  unfold fill_segment. destruct (read_segment s) eqn:E; simpl; [|set_solver|done].
  intros _ _. split; [|done]. unfold read_segment in E. step_matches. done.
Qed.

Lemma match_segments_fill values ps params :
  (∀ s, s ∈ ps → read_segment s ≠ Malformed) →
  (∀ n, n ∈ omap (λ s, match read_segment s with Param _ name _ => Some name | _ => None end) ps →
        values n ≠ "") →
  match_segments ps (fill_segment values <$> ps) params
  = Some (bindings values
      (omap (λ s, match read_segment s with Param _ name _ => Some name | _ => None end) ps) ∪ params).
Proof.
  revert params. induction ps as [|p ps IH]; intros params Hm Hv.
  { simpl. unfold bindings. simpl. by rewrite map_empty_union. }
  cbn [fmap list_fmap match_segments].
  assert (match_segment p (fill_segment values p) params = Some (bind_param
    (match read_segment p with Param _ name _ => Some (name, values name) | _ => None end) params)) as ->.
  { apply match_segment_iff. eexists. split; [|done]. apply segment_accepts_fill; [apply Hm; set_solver|].
    intros n Hn. apply Hv. simpl. destruct (read_segment p); set_solver. }
  rewrite IH; [|set_solver|]; last first.
  { intros n Hn. apply Hv. simpl. destruct (read_segment p); set_solver. }
  f_equal. simpl. destruct (read_segment p) as [|prefix name suffix|]; simpl; [done| |done].
  unfold bindings. simpl. apply map_eq. intros i. rewrite !lookup_union.
  destruct (decide (i = name)) as [->|Hne]; [|by rewrite !lookup_insert_ne].
  rewrite !lookup_insert_eq. fold (bindings values (omap (λ s, match read_segment s with Param _ name _ => Some name | _ => None end) ps)).
  destruct (bindings _ _ !! name) eqn:E; [apply bindings_lookup in E as ->|]; simpl; by destruct (params !! name).
Qed.

Lemma contains_split_once c d s pre post : split_once c s = Some (pre, post) →
  contains (String d "") s = contains (String d "") pre || (c ==? d) || contains (String d "") post.
Proof.
  revert pre. induction s as [|a s IH]; intros pre; cbn [split_once]; [done|].
  destruct (a ==? c) eqn:Ea; btrue.
  - intros H. simplify_eq. by rewrite contains_char_cons.
  - destruct (split_once c s) as [[p q]|] eqn:E; [|done]. intros H. simplify_eq.
    rewrite !contains_char_cons, (IH p) by done. by rewrite !orb_assoc.
Qed.

(** A filled segment of a pattern is a segment of a path. *)
Lemma fill_segment_value values pattern s :
  s ∈ path_segments pattern →
  (∀ n, n ∈ pattern_params pattern → segment_value (values n) = true) →
  segment_value (fill_segment values s) = true.
Proof.
  intros Hs Hv. assert (Hs' := Hs). rewrite path_segments_split in Hs'.
  apply filter_iff in Hs' as [Hc%split_char_pieces Hne].
  unfold non_empty in Hne. unfold fill_segment.
  destruct (read_segment s) as [|prefix name suffix|] eqn:E;
    [unfold segment_value; rewrite Hc; by rewrite Hne| |unfold segment_value; rewrite Hc; by rewrite Hne].
  assert (name ∈ pattern_params pattern) as Hn.
  { apply list_elem_of_omap. exists s. by rewrite E. }
  specialize (Hv name Hn). unfold segment_value in *. btrue. rewrite !contains_char_app.
  unfold read_segment in E. destruct (split_once "{" s) as [[pre rest]|] eqn:E1; [|done].
  destruct (split_once "}" rest) as [[nm suf]|] eqn:E2; [|done].
  case_bool_decide; [done|]. injection E as -> -> ->.
  rewrite (contains_split_once _ _ _ _ _ E1), (contains_split_once _ _ _ _ _ E2) in Hc. btrue.
  apply andb_true_intro. split.
  - apply negb_true_iff, bool_decide_eq_false. intros Hz. apply (f_equal String.length) in Hz.
    rewrite !length_app_string in Hz. cbn [String.length] in Hz. destruct (values name); [done|].
    cbn [String.length] in Hz. lia.
  - apply negb_true_iff, orb_false_iff. split; [done|]. apply orb_false_iff. done.
Qed.

Lemma match_fill_pattern values r : r ∈ foundation_routes →
  (∀ n, n ∈ pattern_params (RouteMetadata.path_pattern r) → segment_value (values n) = true) →
  match_path_pattern (RouteMetadata.path_pattern r)
    (fill_pattern values (RouteMetadata.path_pattern r))
  = Some (bindings values (pattern_params (RouteMetadata.path_pattern r))).
Proof.
  intros Hr Hv. set (pattern := RouteMetadata.path_pattern r) in *.
  assert (path_segments (fill_pattern values pattern) = fill_segment values <$> path_segments pattern) as E.
  { unfold fill_pattern. rewrite <- (path_segments_join (fill_segment values <$> path_segments pattern)) at 1.
    - f_equal. by rewrite foldr_fmap.
    - intros x (s & -> & Hs)%list_elem_of_fmap. by eapply fill_segment_value. }
  unfold match_path_pattern. rewrite E, length_fmap, bool_decide_eq_true_2 by done. simpl.
  rewrite match_segments_fill.
  - by rewrite map_union_empty.
  - intros s Hs. by eapply route_segments_read.
  - intros n Hn. specialize (Hv n Hn). unfold segment_value in Hv. by btrue.
Qed.

(** ** Theorems *)

(** C40. Filling the parameters of any route of the table with values that fit
    in a path segment and matching the resulting path gives back that very
    route with exactly those parameters, for every route: no other route of
    the table shadows it and no parameter is cut or extended. *)
Theorem platform_route_roundtrip (r : RouteMetadata.t) (values : string → string)
    (Hr : r ∈ foundation_routes)
    (Hv : ∀ n, n ∈ pattern_params (RouteMetadata.path_pattern r) → segment_value (values n) = true) :
  match_route (HttpMethod.as_str (RouteMetadata.method r))
    (fill_pattern values (RouteMetadata.path_pattern r))
  = Some (MatchedRoute.mk r (bindings values (pattern_params (RouteMetadata.path_pattern r)))).
Proof.
  apply match_route_iff. simpl. split_and!; [done|by destruct (RouteMetadata.method r)|].
  by apply match_fill_pattern.
Qed.

Lemma platform_route_roundtrip_witness :
  match_route "POST" "/v1/runs/run_1:cancel"
  = Some (MatchedRoute.mk (RouteMetadata.new HttpMethod.Post "/v1/runs/{run_id}:cancel"
      PlatformAction.RunCancel (Some "run_id") ["run_id"]) {["run_id" := "run_1"]}).
Proof.
  apply (platform_route_roundtrip (RouteMetadata.new HttpMethod.Post "/v1/runs/{run_id}:cancel"
      PlatformAction.RunCancel (Some "run_id") ["run_id"]) (λ _, "run_1")).
  - apply (bool_decide_unpack _). by vm_compute.
  - intros n _. by vm_compute.
Defined.
