(* ===== verification/PlatIdentity.v ===== *)
(** * Platform identities

    [identity.rs] of the platform crate: OIDC login providers, the resolution
    of their metadata, login attempts (which store only hashes of their
    secrets), the checks on an ID token, and the external identities that link
    a provider subject to a principal.  Decoding and verifying a JWT is the
    [jsonwebtoken] library's, a parameter. *)

From Stdlib Require Import Ascii.
From S2P Require Import Prelude Order Text PlatRoute.

(** ** Statuses and methods *)

Module OidcLoginProviderStatus.
Inductive t : Set := Active | Disabled | Deleted.
#[global] Instance eq_dec : EqDecision t.
Proof. solve_decision. Defined.
Definition as_str (self : t) : string :=
  match self with Active => "active" | Disabled => "disabled" | Deleted => "deleted" end.
End OidcLoginProviderStatus.

Module OidcLoginAttemptStatus.
Inductive t : Set := Active | Consumed | Expired | Abandoned.
#[global] Instance eq_dec : EqDecision t.
Proof. solve_decision. Defined.
Definition as_str (self : t) : string :=
  match self with
  | Active => "active" | Consumed => "consumed" | Expired => "expired" | Abandoned => "abandoned"
  end.
End OidcLoginAttemptStatus.

Module OidcTokenEndpointAuthMethod.
Inductive t : Set := NoSecret | ClientSecretBasic | ClientSecretPost.
#[global] Instance eq_dec : EqDecision t.
Proof. solve_decision. Defined.
Definition as_str (self : t) : string :=
  match self with
  | NoSecret => "none"
  | ClientSecretBasic => "client_secret_basic"
  | ClientSecretPost => "client_secret_post"
  end.
Definition from_id (value : string) : option t :=
  if value ==? "none" then Some NoSecret
  else if value ==? "client_secret_basic" then Some ClientSecretBasic
  else if value ==? "client_secret_post" then Some ClientSecretPost
  else None.
Definition requires_client_secret (self : t) : bool :=
  match self with ClientSecretBasic | ClientSecretPost => true | NoSecret => false end.
End OidcTokenEndpointAuthMethod.

Module PlatformExternalIdentityStatus.
Inductive t : Set := Active | Disabled | Deleted.
#[global] Instance eq_dec : EqDecision t.
Proof. solve_decision. Defined.
Definition as_str (self : t) : string :=
  match self with Active => "active" | Disabled => "disabled" | Deleted => "deleted" end.
Definition from_id (value : string) : option t :=
  if value ==? "active" then Some Active
  else if value ==? "disabled" then Some Disabled
  else if value ==? "deleted" then Some Deleted
  else None.
End PlatformExternalIdentityStatus.

(** ** Records *)

Module OidcLoginProviderRecord.
Record t : Set := mk {
  identity_provider_id : string;
  tenant_id : string;
  display_name : string;
  issuer_url : string;
  authorization_endpoint : string;
  token_endpoint : string;
  jwks_uri : string;
  client_id : string;
  client_secret_ref : option string;
  token_endpoint_auth_method : OidcTokenEndpointAuthMethod.t;
  redirect_uri : string;
  requested_scopes : list string;
  accepted_audiences : list string;
  status : OidcLoginProviderStatus.t;
}.
End OidcLoginProviderRecord.

Module OidcDiscoveryDocument.
Record t : Set := mk {
  issuer : string;
  authorization_endpoint : string;
  token_endpoint : string;
  jwks_uri : string;
  id_token_signing_alg_values_supported : list string;
}.
End OidcDiscoveryDocument.

Module OidcResolvedProviderMetadata.
Record t : Set := mk {
  identity_provider_id : string;
  tenant_id : string;
  issuer_url : string;
  authorization_endpoint : string;
  token_endpoint : string;
  jwks_uri : string;
  client_id : string;
  client_secret_ref : option string;
  token_endpoint_auth_method : OidcTokenEndpointAuthMethod.t;
  redirect_uri : string;
  accepted_audiences : list string;
  supported_id_token_algorithms : list string;
}.
End OidcResolvedProviderMetadata.

Module OidcLoginAttemptStart.
Record t : Set := mk {
  login_attempt_id : string;
  tenant_id : string;
  identity_provider_id : string;
  raw_state : string;
  raw_nonce : string;
  raw_pkce_verifier : string;
  redirect_uri : string;
  expires_at_unix : Z;
}.
End OidcLoginAttemptStart.

Module OidcLoginAttemptRecord.
Record t : Set := mk {
  login_attempt_id : string;
  tenant_id : string;
  identity_provider_id : string;
  state_hash : string;
  nonce_hash : string;
  pkce_verifier_hash : string;
  redirect_uri : string;
  status : OidcLoginAttemptStatus.t;
  expires_at_unix : Z;
  consumed_at_unix : option Z;
}.

Definition with_status (r : t) (status : OidcLoginAttemptStatus.t) : t :=
  mk (login_attempt_id r) (tenant_id r) (identity_provider_id r) (state_hash r) (nonce_hash r)
    (pkce_verifier_hash r) (redirect_uri r) status (expires_at_unix r) (consumed_at_unix r).
Definition consumed (r : t) (consumed_at_unix : Z) : t :=
  mk (login_attempt_id r) (tenant_id r) (identity_provider_id r) (state_hash r) (nonce_hash r)
    (pkce_verifier_hash r) (redirect_uri r) OidcLoginAttemptStatus.Consumed (expires_at_unix r)
    (Some consumed_at_unix).
End OidcLoginAttemptRecord.

Module OidcVerifiedClaims.
Record t : Set := mk {
  issuer : string;
  subject : string;
  audiences : list string;
  nonce : string;
  expires_at_unix : Z;
  email : option string;
  email_verified : bool;
  display_name : option string;
}.
End OidcVerifiedClaims.

Module PlatformExternalIdentityRecord.
Record t : Set := mk {
  external_identity_id : string;
  tenant_id : string;
  principal_id : string;
  identity_provider_id : string;
  provider_kind : string;
  provider_subject : string;
  email : option string;
  email_verified : bool;
  status : PlatformExternalIdentityStatus.t;
}.

Definition with_status (r : t) (status : PlatformExternalIdentityStatus.t) : t :=
  mk (external_identity_id r) (tenant_id r) (principal_id r) (identity_provider_id r)
    (provider_kind r) (provider_subject r) (email r) (email_verified r) status.
(** The refresh of a known subject: kind, email and an active status. *)
Definition refreshed (existing record : t) : t :=
  mk (external_identity_id existing) (tenant_id existing) (principal_id existing)
    (identity_provider_id existing) (provider_kind record) (provider_subject existing)
    (email record) (email_verified record) PlatformExternalIdentityStatus.Active.
End PlatformExternalIdentityRecord.

Module PlatformExternalIdentityError.
Inductive t : Set :=
  | InvalidExternalIdentityId | InvalidTenantId | InvalidPrincipalId | InvalidProviderId |
    InvalidProviderKind | SubjectRequired | InvalidEmail | InvalidStatus | PrincipalMismatch.

Definition as_str (self : t) : string :=
  match self with
  | InvalidExternalIdentityId => "external_identity_id_invalid"
  | InvalidTenantId => "tenant_id_invalid"
  | InvalidPrincipalId => "principal_id_invalid"
  | InvalidProviderId => "identity_provider_id_invalid"
  | InvalidProviderKind => "provider_kind_invalid"
  | SubjectRequired => "provider_subject_required"
  | InvalidEmail => "email_invalid"
  | InvalidStatus => "external_identity_status_invalid"
  | PrincipalMismatch => "external_identity_principal_mismatch"
  end.
End PlatformExternalIdentityError.

Module OidcValidationError.
Inductive t : Set :=
  | InvalidProviderId | InvalidTenantId | InvalidLoginAttemptId | InvalidOrganizationId |
    InvalidProjectId | InvalidUserId | InvalidExternalIdentityId | InvalidMembershipId |
    InvalidRoleBindingId | DisplayNameRequired | InvalidIssuerUrl | InvalidAuthorizationEndpoint
    | InvalidTokenEndpoint | InvalidJwksUri | DiscoveryIssuerMismatch |
    UnsupportedSigningAlgorithm | SigningKeyNotFound | InvalidIdToken | ClientIdRequired |
    InvalidClientSecretRef | InvalidTokenEndpointAuthMethod | InvalidRedirectUri |
    OpenIdScopeRequired | AudienceRequired | ProviderInactive | EmptyState | EmptyNonce |
    EmptyPkceVerifier | InvalidStateHash | InvalidNonceHash | InvalidPkceVerifierHash |
    InvalidAttemptExpiry | ConsumedAtRequired | ConsumedAtUnexpected | IssuerMismatch |
    SubjectRequired | AudienceMismatch | NonceMismatch | TokenExpired.

Definition as_str (self : t) : string :=
  match self with
  | InvalidProviderId => "oidc_provider_id_invalid"
  | InvalidTenantId => "oidc_tenant_id_invalid"
  | InvalidLoginAttemptId => "oidc_login_attempt_id_invalid"
  | InvalidOrganizationId => "oidc_organization_id_invalid"
  | InvalidProjectId => "oidc_project_id_invalid"
  | InvalidUserId => "oidc_user_id_invalid"
  | InvalidExternalIdentityId => "oidc_external_identity_id_invalid"
  | InvalidMembershipId => "oidc_membership_id_invalid"
  | InvalidRoleBindingId => "oidc_role_binding_id_invalid"
  | DisplayNameRequired => "oidc_display_name_required"
  | InvalidIssuerUrl => "oidc_issuer_url_invalid"
  | InvalidAuthorizationEndpoint => "oidc_authorization_endpoint_invalid"
  | InvalidTokenEndpoint => "oidc_token_endpoint_invalid"
  | InvalidJwksUri => "oidc_jwks_uri_invalid"
  | DiscoveryIssuerMismatch => "oidc_discovery_issuer_mismatch"
  | UnsupportedSigningAlgorithm => "oidc_signing_algorithm_unsupported"
  | SigningKeyNotFound => "oidc_signing_key_not_found"
  | InvalidIdToken => "oidc_id_token_invalid"
  | ClientIdRequired => "oidc_client_id_required"
  | InvalidClientSecretRef => "oidc_client_secret_ref_invalid"
  | InvalidTokenEndpointAuthMethod => "oidc_token_endpoint_auth_method_invalid"
  | InvalidRedirectUri => "oidc_redirect_uri_invalid"
  | OpenIdScopeRequired => "oidc_openid_scope_required"
  | AudienceRequired => "oidc_audience_required"
  | ProviderInactive => "oidc_provider_inactive"
  | EmptyState => "oidc_state_empty"
  | EmptyNonce => "oidc_nonce_empty"
  | EmptyPkceVerifier => "oidc_pkce_verifier_empty"
  | InvalidStateHash => "oidc_state_hash_invalid"
  | InvalidNonceHash => "oidc_nonce_hash_invalid"
  | InvalidPkceVerifierHash => "oidc_pkce_verifier_hash_invalid"
  | InvalidAttemptExpiry => "oidc_attempt_expiry_invalid"
  | ConsumedAtRequired => "oidc_consumed_at_required"
  | ConsumedAtUnexpected => "oidc_consumed_at_unexpected"
  | IssuerMismatch => "oidc_issuer_mismatch"
  | SubjectRequired => "oidc_subject_required"
  | AudienceMismatch => "oidc_audience_mismatch"
  | NonceMismatch => "oidc_nonce_mismatch"
  | TokenExpired => "oidc_token_expired"
  end.
End OidcValidationError.

Abbreviation OidcResult := (result OidcValidationError.t).

(** ** Field checks *)

Definition validate_https_url (value : string) (error : OidcValidationError.t) : OidcResult unit :=
  let value := trim value in
  if starts_with "https://" value && (String.length "https://" <? String.length value)%nat
  then Ok tt else Err error.

Definition validate_optional_client_secret_ref (client_secret_ref : option string)
    : OidcResult unit :=
  match client_secret_ref with
  | Some value =>
      let value := trim value in
      if (value ==? "") || negb (starts_with "sec_" value)
      then Err OidcValidationError.InvalidClientSecretRef else Ok tt
  | None => Ok tt
  end.

Definition validate_token_endpoint_auth_method (provider : OidcLoginProviderRecord.t)
    : OidcResult unit :=
  let has_secret_ref :=
    match OidcLoginProviderRecord.client_secret_ref provider with Some _ => true | None => false end in
  let required := OidcTokenEndpointAuthMethod.requires_client_secret
    (OidcLoginProviderRecord.token_endpoint_auth_method provider) in
  if required && negb has_secret_ref
  then Err OidcValidationError.InvalidTokenEndpointAuthMethod
  else if negb required && has_secret_ref
  then Err OidcValidationError.InvalidTokenEndpointAuthMethod
  else Ok tt.

Definition validate_raw_secret (value : string) (error : OidcValidationError.t) : OidcResult unit :=
  if trim value ==? "" then Err error else Ok tt.

Definition validate_hash (value : string) (error : OidcValidationError.t) : OidcResult unit :=
  if (String.length value =? 64)%nat && all_chars is_lower_hex value then Ok tt else Err error.

Definition validate_prefixed (value prefix : string) (error : PlatformExternalIdentityError.t)
    : result PlatformExternalIdentityError.t unit :=
  if starts_with prefix value && (String.length prefix <? String.length value)%nat
  then Ok tt else Err error.

(** ** Providers *)

(** A guard of the source: fail with the error when the test holds. *)
Definition reject_if {E} (test : bool) (error : E) : result E unit :=
  if test then Err error else Ok tt.

Definition validate_oidc_login_provider_base (provider : OidcLoginProviderRecord.t)
    : OidcResult unit :=
  reject_if (negb (starts_with "idp_" (OidcLoginProviderRecord.identity_provider_id provider)))
    OidcValidationError.InvalidProviderId;;
  reject_if (negb (starts_with "ten_" (OidcLoginProviderRecord.tenant_id provider)))
    OidcValidationError.InvalidTenantId;;
  reject_if (trim (OidcLoginProviderRecord.display_name provider) ==? "")
    OidcValidationError.DisplayNameRequired;;
  validate_https_url (OidcLoginProviderRecord.issuer_url provider)
    OidcValidationError.InvalidIssuerUrl;;
  reject_if (trim (OidcLoginProviderRecord.client_id provider) ==? "")
    OidcValidationError.ClientIdRequired;;
  validate_optional_client_secret_ref (OidcLoginProviderRecord.client_secret_ref provider);;
  validate_token_endpoint_auth_method provider;;
  validate_https_url (OidcLoginProviderRecord.redirect_uri provider)
    OidcValidationError.InvalidRedirectUri;;
  reject_if (negb (existsb (λ scope, scope ==? "openid")
                     (OidcLoginProviderRecord.requested_scopes provider)))
    OidcValidationError.OpenIdScopeRequired;;
  reject_if (forallb (λ audience, trim audience ==? "")
               (OidcLoginProviderRecord.accepted_audiences provider))
    OidcValidationError.AudienceRequired.

Definition validate_oidc_login_provider (provider : OidcLoginProviderRecord.t) : OidcResult unit :=
  reject_if (negb (starts_with "idp_" (OidcLoginProviderRecord.identity_provider_id provider)))
    OidcValidationError.InvalidProviderId;;
  reject_if (negb (starts_with "ten_" (OidcLoginProviderRecord.tenant_id provider)))
    OidcValidationError.InvalidTenantId;;
  reject_if (trim (OidcLoginProviderRecord.display_name provider) ==? "")
    OidcValidationError.DisplayNameRequired;;
  validate_https_url (OidcLoginProviderRecord.issuer_url provider)
    OidcValidationError.InvalidIssuerUrl;;
  validate_https_url (OidcLoginProviderRecord.authorization_endpoint provider)
    OidcValidationError.InvalidAuthorizationEndpoint;;
  validate_https_url (OidcLoginProviderRecord.token_endpoint provider)
    OidcValidationError.InvalidTokenEndpoint;;
  validate_https_url (OidcLoginProviderRecord.jwks_uri provider)
    OidcValidationError.InvalidJwksUri;;
  reject_if (trim (OidcLoginProviderRecord.client_id provider) ==? "")
    OidcValidationError.ClientIdRequired;;
  validate_optional_client_secret_ref (OidcLoginProviderRecord.client_secret_ref provider);;
  validate_token_endpoint_auth_method provider;;
  validate_https_url (OidcLoginProviderRecord.redirect_uri provider)
    OidcValidationError.InvalidRedirectUri;;
  reject_if (negb (existsb (λ scope, scope ==? "openid")
                     (OidcLoginProviderRecord.requested_scopes provider)))
    OidcValidationError.OpenIdScopeRequired;;
  reject_if (forallb (λ audience, trim audience ==? "")
               (OidcLoginProviderRecord.accepted_audiences provider))
    OidcValidationError.AudienceRequired;;
  reject_if (OidcLoginProviderRecord.status provider !=? OidcLoginProviderStatus.Active)
    OidcValidationError.ProviderInactive.

(** ** Signing algorithms *)

(** The algorithms [jsonwebtoken] knows. *)
Module Algorithm.
Inductive t : Set :=
  | HS256 | HS384 | HS512 | ES256 | ES384 | RS256 | RS384 | RS512 | PS256 | PS384 | PS512 | EdDSA.
#[global] Instance eq_dec : EqDecision t.
Proof. solve_decision. Defined.
End Algorithm.

Definition oidc_algorithm_from_str (value : string) : option Algorithm.t :=
  if value ==? "RS256" then Some Algorithm.RS256
  else if value ==? "RS384" then Some Algorithm.RS384
  else if value ==? "RS512" then Some Algorithm.RS512
  else if value ==? "PS256" then Some Algorithm.PS256
  else if value ==? "PS384" then Some Algorithm.PS384
  else if value ==? "PS512" then Some Algorithm.PS512
  else if value ==? "ES256" then Some Algorithm.ES256
  else if value ==? "ES384" then Some Algorithm.ES384
  else if value ==? "EdDSA" then Some Algorithm.EdDSA
  else None.

Definition oidc_algorithm_is_asymmetric (algorithm : Algorithm.t) : bool :=
  match algorithm with
  | Algorithm.RS256 | Algorithm.RS384 | Algorithm.RS512 | Algorithm.PS256 | Algorithm.PS384
  | Algorithm.PS512 | Algorithm.ES256 | Algorithm.ES384 | Algorithm.EdDSA => true
  | _ => false
  end.

Definition supported_oidc_algorithms (discovery : option OidcDiscoveryDocument.t)
    : OidcResult (list string) :=
  match discovery with
  | None => Ok ["RS256"]
  | Some discovery =>
      match OidcDiscoveryDocument.id_token_signing_alg_values_supported discovery with
      | [] => Ok ["RS256"]
      | values =>
          let algorithms := fold_left (λ algorithms value,
            match oidc_algorithm_from_str value with
            | Some algorithm =>
                if oidc_algorithm_is_asymmetric algorithm
                   && negb (existsb (λ a, a ==? value) algorithms)
                then algorithms ++ [value] else algorithms
            | None => algorithms
            end) values [] in
          match algorithms with
          | [] => Err OidcValidationError.UnsupportedSigningAlgorithm
          | _ => Ok algorithms
          end
      end
  end.

(** ** Metadata *)

Definition resolved_metadata_field (configured : string) (discovered : option string)
    (error : OidcValidationError.t) : OidcResult string :=
  let configured := trim configured in
  if configured !=? "" then Ok configured else ok_or (trimmed discovered) error.

Definition resolve_oidc_provider_metadata (provider : OidcLoginProviderRecord.t)
    (discovery : option OidcDiscoveryDocument.t) : OidcResult OidcResolvedProviderMetadata.t :=
  validate_oidc_login_provider_base provider;;
  reject_if match discovery with
            | Some document =>
                OidcDiscoveryDocument.issuer document !=? OidcLoginProviderRecord.issuer_url provider
            | None => false
            end OidcValidationError.DiscoveryIssuerMismatch;;
  authorization_endpoint ←
    resolved_metadata_field (OidcLoginProviderRecord.authorization_endpoint provider)
      (OidcDiscoveryDocument.authorization_endpoint <$> discovery)
      OidcValidationError.InvalidAuthorizationEndpoint;
  token_endpoint ←
    resolved_metadata_field (OidcLoginProviderRecord.token_endpoint provider)
      (OidcDiscoveryDocument.token_endpoint <$> discovery)
      OidcValidationError.InvalidTokenEndpoint;
  jwks_uri ←
    resolved_metadata_field (OidcLoginProviderRecord.jwks_uri provider)
      (OidcDiscoveryDocument.jwks_uri <$> discovery)
      OidcValidationError.InvalidJwksUri;
  validate_https_url authorization_endpoint OidcValidationError.InvalidAuthorizationEndpoint;;
  validate_https_url token_endpoint OidcValidationError.InvalidTokenEndpoint;;
  validate_https_url jwks_uri OidcValidationError.InvalidJwksUri;;
  supported_id_token_algorithms ← supported_oidc_algorithms discovery;
  Ok (OidcResolvedProviderMetadata.mk
    (OidcLoginProviderRecord.identity_provider_id provider)
    (OidcLoginProviderRecord.tenant_id provider)
    (OidcLoginProviderRecord.issuer_url provider)
    authorization_endpoint token_endpoint jwks_uri
    (OidcLoginProviderRecord.client_id provider)
    (OidcLoginProviderRecord.client_secret_ref provider)
    (OidcLoginProviderRecord.token_endpoint_auth_method provider)
    (OidcLoginProviderRecord.redirect_uri provider)
    (OidcLoginProviderRecord.accepted_audiences provider)
    supported_id_token_algorithms).

Definition oidc_discovery_url (issuer : string) : string :=
  trim_end_char "/" issuer +:+ "/.well-known/openid-configuration".

(** ** Login attempts *)

Definition hash_oidc_secret `{Sha256Library} (domain raw_value : string) : string :=
  lower_hex (sha256 (domain +:+ nul +:+ raw_value)).
Definition hash_oidc_login_state `{Sha256Library} : string → string :=
  hash_oidc_secret "starweaver-platform-oidc-state-v1".
Definition hash_oidc_login_nonce `{Sha256Library} : string → string :=
  hash_oidc_secret "starweaver-platform-oidc-nonce-v1".
Definition hash_oidc_pkce_verifier `{Sha256Library} : string → string :=
  hash_oidc_secret "starweaver-platform-oidc-pkce-verifier-v1".

Definition validate_oidc_login_attempt_record (record : OidcLoginAttemptRecord.t)
    : OidcResult unit :=
  reject_if (negb (starts_with "ola_" (OidcLoginAttemptRecord.login_attempt_id record)))
    OidcValidationError.InvalidLoginAttemptId;;
  reject_if (negb (starts_with "ten_" (OidcLoginAttemptRecord.tenant_id record)))
    OidcValidationError.InvalidTenantId;;
  reject_if (negb (starts_with "idp_" (OidcLoginAttemptRecord.identity_provider_id record)))
    OidcValidationError.InvalidProviderId;;
  validate_hash (OidcLoginAttemptRecord.state_hash record) OidcValidationError.InvalidStateHash;;
  validate_hash (OidcLoginAttemptRecord.nonce_hash record) OidcValidationError.InvalidNonceHash;;
  validate_hash (OidcLoginAttemptRecord.pkce_verifier_hash record)
    OidcValidationError.InvalidPkceVerifierHash;;
  validate_https_url (OidcLoginAttemptRecord.redirect_uri record)
    OidcValidationError.InvalidRedirectUri;;
  reject_if (OidcLoginAttemptRecord.expires_at_unix record <=? 0)%Z
    OidcValidationError.InvalidAttemptExpiry;;
  match OidcLoginAttemptRecord.status record, OidcLoginAttemptRecord.consumed_at_unix record with
  | OidcLoginAttemptStatus.Consumed, None => Err OidcValidationError.ConsumedAtRequired
  | OidcLoginAttemptStatus.Consumed, Some _ => Ok tt
  | _, None => Ok tt
  | _, Some _ => Err OidcValidationError.ConsumedAtUnexpected
  end.

(** [OidcLoginAttemptRecord::active]. *)
Definition active_attempt `{Sha256Library} (start : OidcLoginAttemptStart.t)
    : OidcResult OidcLoginAttemptRecord.t :=
  validate_raw_secret (OidcLoginAttemptStart.raw_state start) OidcValidationError.EmptyState;;
  validate_raw_secret (OidcLoginAttemptStart.raw_nonce start) OidcValidationError.EmptyNonce;;
  validate_raw_secret (OidcLoginAttemptStart.raw_pkce_verifier start)
    OidcValidationError.EmptyPkceVerifier;;
  let record := OidcLoginAttemptRecord.mk
    (OidcLoginAttemptStart.login_attempt_id start)
    (OidcLoginAttemptStart.tenant_id start)
    (OidcLoginAttemptStart.identity_provider_id start)
    (hash_oidc_login_state (OidcLoginAttemptStart.raw_state start))
    (hash_oidc_login_nonce (OidcLoginAttemptStart.raw_nonce start))
    (hash_oidc_pkce_verifier (OidcLoginAttemptStart.raw_pkce_verifier start))
    (OidcLoginAttemptStart.redirect_uri start)
    OidcLoginAttemptStatus.Active (OidcLoginAttemptStart.expires_at_unix start) None in
  validate_oidc_login_attempt_record record;;
  Ok record.

(** ** Claims and ID tokens *)

(** The claim checks, against an issuer and the accepted audiences. *)
Definition check_claims (issuer_url : string) (accepted_audiences : list string)
    (claims : OidcVerifiedClaims.t) (expected_nonce : string) (now_unix : Z) : OidcResult unit :=
  reject_if (OidcVerifiedClaims.issuer claims !=? issuer_url) OidcValidationError.IssuerMismatch;;
  reject_if (trim (OidcVerifiedClaims.subject claims) ==? "") OidcValidationError.SubjectRequired;;
  reject_if (negb (existsb (λ audience, existsb (λ accepted, accepted ==? audience)
                                          accepted_audiences)
                     (OidcVerifiedClaims.audiences claims)))
    OidcValidationError.AudienceMismatch;;
  reject_if (OidcVerifiedClaims.nonce claims !=? expected_nonce) OidcValidationError.NonceMismatch;;
  reject_if (OidcVerifiedClaims.expires_at_unix claims <=? now_unix)%Z
    OidcValidationError.TokenExpired.

Definition validate_oidc_verified_claims (provider : OidcLoginProviderRecord.t)
    (claims : OidcVerifiedClaims.t) (expected_nonce : string) (now_unix : Z) : OidcResult unit :=
  validate_oidc_login_provider provider;;
  check_claims (OidcLoginProviderRecord.issuer_url provider)
    (OidcLoginProviderRecord.accepted_audiences provider) claims expected_nonce now_unix.

Definition validate_oidc_claims_against_metadata (metadata : OidcResolvedProviderMetadata.t)
    (claims : OidcVerifiedClaims.t) (expected_nonce : string) (now_unix : Z) : OidcResult unit :=
  check_claims (OidcResolvedProviderMetadata.issuer_url metadata)
    (OidcResolvedProviderMetadata.accepted_audiences metadata) claims expected_nonce now_unix.

Module OidcAudience.
Inductive t : Set := Single (audience : string) | Multiple (audiences : list string).
Definition values (self : t) : list string :=
  match self with Single audience => [audience] | Multiple audiences => audiences end.
End OidcAudience.

Module OidcIdTokenClaims.
Record t : Set := mk {
  iss : string;
  sub : string;
  aud : OidcAudience.t;
  exp : Z;
  nonce : string;
  email : option string;
  email_verified : bool;
  name : option string;
  preferred_username : option string;
}.
End OidcIdTokenClaims.

(** What the platform uses of [jsonwebtoken]: the common parameters of a key,
    decoding a header to its algorithm and key id, and decoding a token with a
    key, an algorithm, an issuer and audiences, expiry left to the caller. *)
Class JwtLibrary : Type := {
  Jwk : Type;
  key_id : Jwk → option string;
  for_signatures : Jwk → option bool;
  key_algorithm : Jwk → option string;
  decode_header : string → option (Algorithm.t * option string);
  decode_token : Jwk → Algorithm.t → string → list string → string → option OidcIdTokenClaims.t;
}.

Section tokens.
Context `{JwtLibrary}.

Definition oidc_jwk_is_usable (kid : option string) (algorithm : Algorithm.t) (jwk : Jwk) : bool :=
  if match for_signatures jwk with Some signature => negb signature | None => false end then false
  else if match kid with Some _ => key_id jwk !=? kid | None => false end then false
  else match key_algorithm jwk with
       | None => true
       | Some name => oidc_algorithm_from_str name ==? Some algorithm
       end.

Definition select_oidc_jwk (jwks : list Jwk) (kid : option string) (algorithm : Algorithm.t)
    : OidcResult Jwk :=
  let candidates := List.filter (oidc_jwk_is_usable kid algorithm) jwks in
  match kid with
  | Some kid =>
      ok_or (List.find (λ jwk, key_id jwk ==? Some kid) candidates)
        OidcValidationError.SigningKeyNotFound
  | None =>
      match candidates with
      | [jwk] => Ok jwk
      | _ => Err OidcValidationError.SigningKeyNotFound
      end
  end.

Definition validate_oidc_id_token (metadata : OidcResolvedProviderMetadata.t) (jwks : list Jwk)
    (id_token expected_nonce : string) (now_unix : Z) : OidcResult OidcVerifiedClaims.t :=
  header ← ok_or (decode_header id_token) OidcValidationError.InvalidIdToken;
  let algorithm := header.1 in
  let supports_algorithm := existsb (λ value, oidc_algorithm_from_str value ==? Some algorithm)
    (OidcResolvedProviderMetadata.supported_id_token_algorithms metadata) in
  reject_if (negb supports_algorithm || negb (oidc_algorithm_is_asymmetric algorithm))
    OidcValidationError.UnsupportedSigningAlgorithm;;
  jwk ← select_oidc_jwk jwks header.2 algorithm;
  token ← ok_or (decode_token jwk algorithm (OidcResolvedProviderMetadata.issuer_url metadata)
                   (OidcResolvedProviderMetadata.accepted_audiences metadata) id_token)
            OidcValidationError.InvalidIdToken;
  let claims := OidcVerifiedClaims.mk (OidcIdTokenClaims.iss token) (OidcIdTokenClaims.sub token)
    (OidcAudience.values (OidcIdTokenClaims.aud token)) (OidcIdTokenClaims.nonce token)
    (OidcIdTokenClaims.exp token) (OidcIdTokenClaims.email token)
    (OidcIdTokenClaims.email_verified token)
    (match OidcIdTokenClaims.name token with
     | Some name => Some name
     | None => OidcIdTokenClaims.preferred_username token
     end) in
  validate_oidc_claims_against_metadata metadata claims expected_nonce now_unix;;
  Ok claims.
End tokens.

(** ** External identities *)

Definition validate_external_identity (record : PlatformExternalIdentityRecord.t)
    : result PlatformExternalIdentityError.t unit :=
  validate_prefixed (PlatformExternalIdentityRecord.external_identity_id record) "xid_"
    PlatformExternalIdentityError.InvalidExternalIdentityId;;
  validate_prefixed (PlatformExternalIdentityRecord.tenant_id record) "ten_"
    PlatformExternalIdentityError.InvalidTenantId;;
  validate_prefixed (PlatformExternalIdentityRecord.principal_id record) "usr_"
    PlatformExternalIdentityError.InvalidPrincipalId;;
  validate_prefixed (PlatformExternalIdentityRecord.identity_provider_id record) "idp_"
    PlatformExternalIdentityError.InvalidProviderId;;
  reject_if (negb ((PlatformExternalIdentityRecord.provider_kind record ==? "oidc")
                   || (PlatformExternalIdentityRecord.provider_kind record ==? "single_user")))
    PlatformExternalIdentityError.InvalidProviderKind;;
  reject_if (trim (PlatformExternalIdentityRecord.provider_subject record) ==? "")
    PlatformExternalIdentityError.SubjectRequired;;
  match PlatformExternalIdentityRecord.email record with
  | Some email =>
      let email := trim email in
      reject_if ((email ==? "") || negb (contains "@" email) || starts_with "@" email
                 || ends_with "@" email) PlatformExternalIdentityError.InvalidEmail
  | None => Ok tt
  end.

Module InMemoryPlatformExternalIdentityStore.
Record t : Set := mk { external_identities : gmap string PlatformExternalIdentityRecord.t }.
Definition new : t := mk ∅.
Abbreviation Eff := (M t PlatformExternalIdentityError.t).

Definition record_external_identity (record : PlatformExternalIdentityRecord.t) : Eff unit := λ s,
  match validate_external_identity record with
  | Err e => (Err e, s)
  | Ok _ => (Ok tt, mk (<[PlatformExternalIdentityRecord.external_identity_id record := record]>
                          (external_identities s)))
  end.

Definition same_subject (record existing : PlatformExternalIdentityRecord.t) : bool :=
  (PlatformExternalIdentityRecord.tenant_id existing
   ==? PlatformExternalIdentityRecord.tenant_id record)
  && (PlatformExternalIdentityRecord.identity_provider_id existing
      ==? PlatformExternalIdentityRecord.identity_provider_id record)
  && (PlatformExternalIdentityRecord.provider_subject existing
      ==? PlatformExternalIdentityRecord.provider_subject record).

(** The trailing validation runs after the change. *)
Definition upsert_external_identity (record : PlatformExternalIdentityRecord.t)
    : Eff PlatformExternalIdentityRecord.t := λ s,
  let finish r s' :=
    match validate_external_identity r with Ok _ => (Ok r, s') | Err e => (Err e, s') end in
  match validate_external_identity record with
  | Err e => (Err e, s)
  | Ok _ =>
      match List.find (same_subject record) (values (external_identities s)) with
      | Some found =>
          let existing_id := PlatformExternalIdentityRecord.external_identity_id found in
          match external_identities s !! existing_id with
          | None => (Err PlatformExternalIdentityError.InvalidExternalIdentityId, s)
          | Some existing =>
              if PlatformExternalIdentityRecord.principal_id existing
                 !=? PlatformExternalIdentityRecord.principal_id record
              then (Err PlatformExternalIdentityError.PrincipalMismatch, s)
              else
                let r := PlatformExternalIdentityRecord.refreshed existing record in
                finish r (mk (<[existing_id := r]> (external_identities s)))
          end
      | None =>
          finish record (mk (<[PlatformExternalIdentityRecord.external_identity_id record := record]>
                               (external_identities s)))
      end
  end.

Definition external_identities_for_principal (tenant_id principal_id : string) (s : t)
    : list PlatformExternalIdentityRecord.t :=
  sort_by (cmp_on PlatformExternalIdentityRecord.external_identity_id String.compare)
    (List.filter (λ r, (PlatformExternalIdentityRecord.tenant_id r ==? tenant_id)
        && (PlatformExternalIdentityRecord.principal_id r ==? principal_id)
        && (PlatformExternalIdentityRecord.status r !=? PlatformExternalIdentityStatus.Deleted))
       (values (external_identities s))).

Definition external_identity (external_identity_id : string) (s : t)
    : option PlatformExternalIdentityRecord.t := external_identities s !! external_identity_id.

Definition unlink_external_identity (external_identity_id : string)
    : Eff PlatformExternalIdentityRecord.t := λ s,
  match external_identities s !! external_identity_id with
  | None => (Err PlatformExternalIdentityError.InvalidExternalIdentityId, s)
  | Some record =>
      let unlinked :=
        PlatformExternalIdentityRecord.with_status record PlatformExternalIdentityStatus.Deleted in
      let s' := mk (<[external_identity_id := unlinked]> (external_identities s)) in
      match validate_external_identity unlinked with
      | Ok _ => (Ok unlinked, s')
      | Err e => (Err e, s')
      end
  end.
End InMemoryPlatformExternalIdentityStore.
