(* ===== verification/PlatSecret.v ===== *)
(** * Platform secret references

    [secret.rs]: metadata of a secret (a mask and a fingerprint, not the
    value), its validation, and the in-memory store that resolves a reference
    to its value.  The process environment is a parameter. *)

From Stdlib Require Import Ascii.
From S2P Require Import Prelude Order Text PlatIdentity.

Definition ENVIRONMENT_SECRET_BACKEND : string := "environment".
Definition IN_MEMORY_SECRET_BACKEND : string := "in_memory".

Module PlatformSecretRefStatus.
Inductive t : Set := Active | Rotating | Disabled | Deleted.
#[global] Instance eq_dec : EqDecision t.
Proof. solve_decision. Defined.
Definition as_str (self : t) : string :=
  match self with
  | Active => "active" | Rotating => "rotating" | Disabled => "disabled" | Deleted => "deleted"
  end.
Definition can_resolve (self : t) : bool :=
  match self with Active | Rotating => true | Disabled | Deleted => false end.
End PlatformSecretRefStatus.

Module PlatformSecretRefRecord.
Record t : Set := mk {
  secret_ref_id : string;
  tenant_id : string;
  organization_id : option string;
  project_id : option string;
  purpose : string;
  backend_kind : string;
  backend_locator : string;
  display_mask : string;
  fingerprint : string;
  status : PlatformSecretRefStatus.t;
}.
End PlatformSecretRefRecord.

Module CreatePlatformSecretRefRequest.
Record t : Set := mk {
  secret_ref_id : string;
  tenant_id : string;
  organization_id : option string;
  project_id : option string;
  purpose : string;
  backend_kind : string;
  backend_locator : string;
  in_memory_secret_value : option string;
  created_by : string;
}.
End CreatePlatformSecretRefRequest.

Module PlatformSecretValue.
Record t : Set := new { value : string }.
Definition expose (self : t) : string := value self.
End PlatformSecretValue.

Module PlatformSecretError.
Inductive t : Set :=
  | EmptySecretRefId | InvalidSecretRefId | EmptyTenantId | InvalidTenantId | EmptyPurpose
  | EmptyBackendKind | UnsupportedBackendKind | EmptyBackendLocator | InvalidEnvironmentVariable
  | EmptySecretValue | UnknownSecretRef | SecretRefInactive | EnvironmentSecretMissing
  | SecretFingerprintMismatch.

Definition as_str (self : t) : string :=
  match self with
  | EmptySecretRefId => "secret_ref_id_empty"
  | InvalidSecretRefId => "secret_ref_id_invalid"
  | EmptyTenantId => "tenant_id_empty"
  | InvalidTenantId => "tenant_id_invalid"
  | EmptyPurpose => "secret_purpose_empty"
  | EmptyBackendKind => "secret_backend_kind_empty"
  | UnsupportedBackendKind => "secret_backend_kind_unsupported"
  | EmptyBackendLocator => "secret_backend_locator_empty"
  | InvalidEnvironmentVariable => "secret_environment_variable_invalid"
  | EmptySecretValue => "secret_value_empty"
  | UnknownSecretRef => "secret_ref_unknown"
  | SecretRefInactive => "secret_ref_inactive"
  | EnvironmentSecretMissing => "secret_environment_value_missing"
  | SecretFingerprintMismatch => "secret_fingerprint_mismatch"
  end.
End PlatformSecretError.
Abbreviation SecretResult := (result PlatformSecretError.t).

(** ** Validation *)

Definition validate_secret_ref_id (secret_ref_id : string) : SecretResult unit :=
  let value := trim secret_ref_id in
  if value ==? "" then Err PlatformSecretError.EmptySecretRefId
  else if negb (starts_with "sec_" value) then Err PlatformSecretError.InvalidSecretRefId
  else Ok tt.

Definition validate_tenant_id (tenant_id : string) : SecretResult unit :=
  let value := trim tenant_id in
  if value ==? "" then Err PlatformSecretError.EmptyTenantId
  else if negb (starts_with "ten_" value) then Err PlatformSecretError.InvalidTenantId
  else Ok tt.

Definition validate_environment_variable_name (value : string) : SecretResult unit :=
  match trim value with
  | EmptyString => Err PlatformSecretError.EmptyBackendLocator
  | String first rest =>
      if negb ((first ==? "_"%char) || is_ascii_uppercase first || in_range 97 122 first)
      then Err PlatformSecretError.InvalidEnvironmentVariable
      else if negb (all_chars (λ c, (c ==? "_"%char) || is_ascii_alphanumeric c) rest)
      then Err PlatformSecretError.InvalidEnvironmentVariable
      else Ok tt
  end.

Definition validate_secret_backend (backend_kind backend_locator : string) : SecretResult unit :=
  if trim backend_kind ==? "" then Err PlatformSecretError.EmptyBackendKind
  else if trim backend_locator ==? "" then Err PlatformSecretError.EmptyBackendLocator
  else if backend_kind ==? ENVIRONMENT_SECRET_BACKEND
  then validate_environment_variable_name backend_locator
  else if backend_kind ==? IN_MEMORY_SECRET_BACKEND then Ok tt
  else Err PlatformSecretError.UnsupportedBackendKind.

Definition validate_secret_ref_record (record : PlatformSecretRefRecord.t) : SecretResult unit :=
  validate_secret_ref_id (PlatformSecretRefRecord.secret_ref_id record);;
  validate_tenant_id (PlatformSecretRefRecord.tenant_id record);;
  reject_if ((PlatformSecretRefRecord.project_id record !=? None)
             && (PlatformSecretRefRecord.organization_id record ==? None))
    PlatformSecretError.InvalidSecretRefId;;
  reject_if (trim (PlatformSecretRefRecord.purpose record) ==? "")
    PlatformSecretError.EmptyPurpose;;
  validate_secret_backend (PlatformSecretRefRecord.backend_kind record)
    (PlatformSecretRefRecord.backend_locator record);;
  reject_if ((trim (PlatformSecretRefRecord.display_mask record) ==? "")
             || (trim (PlatformSecretRefRecord.fingerprint record) ==? ""))
    PlatformSecretError.EmptySecretValue.

Definition validate_create_secret_ref_request (request : CreatePlatformSecretRefRequest.t)
    (expected_backend : string) : SecretResult unit :=
  validate_secret_ref_id (CreatePlatformSecretRefRequest.secret_ref_id request);;
  validate_tenant_id (CreatePlatformSecretRefRequest.tenant_id request);;
  reject_if ((CreatePlatformSecretRefRequest.project_id request !=? None)
             && (CreatePlatformSecretRefRequest.organization_id request ==? None))
    PlatformSecretError.InvalidSecretRefId;;
  reject_if (trim (CreatePlatformSecretRefRequest.purpose request) ==? "")
    PlatformSecretError.EmptyPurpose;;
  validate_secret_backend (CreatePlatformSecretRefRequest.backend_kind request)
    (CreatePlatformSecretRefRequest.backend_locator request);;
  reject_if (CreatePlatformSecretRefRequest.backend_kind request !=? expected_backend)
    PlatformSecretError.UnsupportedBackendKind;;
  reject_if (trim (CreatePlatformSecretRefRequest.created_by request) ==? "")
    PlatformSecretError.EmptyTenantId.

(** ** Masks and fingerprints *)

(** [chars().rev().take(n)] of a reversed UTF-8 string: continuation bytes
    (0x80 to 0xBF) come before the byte that starts their character. *)
Fixpoint take_chars (n : nat) (reversed : string) : string :=
  match n, reversed with
  | O, _ | _, EmptyString => EmptyString
  | S n', String c rest =>
      String c (take_chars (if in_range 128 191 c then n else n') rest)
  end.

Definition secret_display_mask (value : string) : string :=
  let value := trim value in
  "***" +:+ rev_string (take_chars 4 (rev_string value)).

Definition secret_fingerprint `{Sha256Library} (value : string) : string :=
  "sha256:" +:+ lower_hex (sha256 (trim value)).

Section secrets.
Context `{Sha256Library} (env : string → option string).

Definition secret_ref_record_from_value (request : CreatePlatformSecretRefRequest.t)
    (value : string) : PlatformSecretRefRecord.t :=
  PlatformSecretRefRecord.mk
    (trim (CreatePlatformSecretRefRequest.secret_ref_id request))
    (trim (CreatePlatformSecretRefRequest.tenant_id request))
    (trim <$> CreatePlatformSecretRefRequest.organization_id request)
    (trim <$> CreatePlatformSecretRefRequest.project_id request)
    (trim (CreatePlatformSecretRefRequest.purpose request))
    (trim (CreatePlatformSecretRefRequest.backend_kind request))
    (trim (CreatePlatformSecretRefRequest.backend_locator request))
    (secret_display_mask value) (secret_fingerprint value) PlatformSecretRefStatus.Active.

Definition environment_secret_ref_record (request : CreatePlatformSecretRefRequest.t)
    : SecretResult PlatformSecretRefRecord.t :=
  validate_create_secret_ref_request request ENVIRONMENT_SECRET_BACKEND;;
  value ← ok_or (env (trim (CreatePlatformSecretRefRequest.backend_locator request)))
            PlatformSecretError.EnvironmentSecretMissing;
  reject_if (trim value ==? "") PlatformSecretError.EmptySecretValue;;
  Ok (secret_ref_record_from_value request value).

Definition in_memory_secret_ref_record (request : CreatePlatformSecretRefRequest.t)
    : SecretResult (PlatformSecretRefRecord.t * PlatformSecretValue.t) :=
  validate_create_secret_ref_request request IN_MEMORY_SECRET_BACKEND;;
  value ← ok_or (CreatePlatformSecretRefRequest.in_memory_secret_value request)
            PlatformSecretError.EmptySecretValue;
  reject_if (trim value ==? "") PlatformSecretError.EmptySecretValue;;
  Ok (secret_ref_record_from_value request value, PlatformSecretValue.new value).

Definition resolve_environment_secret (record : PlatformSecretRefRecord.t)
    : SecretResult PlatformSecretValue.t :=
  validate_secret_ref_record record;;
  reject_if (negb (PlatformSecretRefStatus.can_resolve (PlatformSecretRefRecord.status record)))
    PlatformSecretError.SecretRefInactive;;
  reject_if (PlatformSecretRefRecord.backend_kind record !=? ENVIRONMENT_SECRET_BACKEND)
    PlatformSecretError.UnsupportedBackendKind;;
  value ← ok_or (env (trim (PlatformSecretRefRecord.backend_locator record)))
            PlatformSecretError.EnvironmentSecretMissing;
  reject_if (trim value ==? "") PlatformSecretError.EmptySecretValue;;
  reject_if (secret_fingerprint value !=? PlatformSecretRefRecord.fingerprint record)
    PlatformSecretError.SecretFingerprintMismatch;;
  Ok (PlatformSecretValue.new value).
End secrets.

(** ** The store *)

Module InMemorySecretEntry.
Record t : Set := mk { record : PlatformSecretRefRecord.t; value : PlatformSecretValue.t }.
End InMemorySecretEntry.

Module InMemoryPlatformSecretStore.
Record t : Set := mk { records : gmap string InMemorySecretEntry.t }.
Definition new : t := mk ∅.
Abbreviation Eff := (M t PlatformSecretError.t).

Section store.
Context `{Sha256Library} (env : string → option string).

Definition create_secret_ref (request : CreatePlatformSecretRefRequest.t)
    : Eff PlatformSecretRefRecord.t := λ s,
  match in_memory_secret_ref_record request with
  | Err e => (Err e, s)
  | Ok (record, value) =>
      (Ok record, mk (<[PlatformSecretRefRecord.secret_ref_id record :=
                        InMemorySecretEntry.mk record value]> (records s)))
  end.

Definition create_environment_secret_ref (request : CreatePlatformSecretRefRequest.t)
    : Eff PlatformSecretRefRecord.t := λ s,
  match environment_secret_ref_record env request with
  | Err e => (Err e, s)
  | Ok record =>
      (Ok record, mk (<[PlatformSecretRefRecord.secret_ref_id record :=
                        InMemorySecretEntry.mk record (PlatformSecretValue.new "")]> (records s)))
  end.

Definition secret_ref (secret_ref_id : string) (s : t) : option PlatformSecretRefRecord.t :=
  InMemorySecretEntry.record <$> records s !! secret_ref_id.

Definition secret_refs_for_tenant (tenant_id : string) (s : t) : list PlatformSecretRefRecord.t :=
  List.filter (λ r, PlatformSecretRefRecord.tenant_id r ==? tenant_id)
    (InMemorySecretEntry.record <$> values (records s)).

Definition resolve_secret (secret_ref_id : string) (s : t) : SecretResult PlatformSecretValue.t :=
  entry ← ok_or (records s !! secret_ref_id) PlatformSecretError.UnknownSecretRef;
  let record := InMemorySecretEntry.record entry in
  reject_if (negb (PlatformSecretRefStatus.can_resolve (PlatformSecretRefRecord.status record)))
    PlatformSecretError.SecretRefInactive;;
  if PlatformSecretRefRecord.backend_kind record ==? IN_MEMORY_SECRET_BACKEND
  then Ok (InMemorySecretEntry.value entry)
  else if PlatformSecretRefRecord.backend_kind record ==? ENVIRONMENT_SECRET_BACKEND
  then resolve_environment_secret env record
  else Err PlatformSecretError.UnsupportedBackendKind.
End store.
End InMemoryPlatformSecretStore.
