(* ===== verification/PlatConfig.v ===== *)
(** * Platform configuration

    [config.rs]: reading the startup configuration from the environment (a
    parameter), the startup diagnostics that guard production, and the
    single-user credentials with their constant-time comparison. *)

From Stdlib Require Import Ascii.
From S2P Require Import Prelude Order Text.

Module PlatformRepositoryBackendKind.
Inductive t : Set := InMemory | Postgres.
#[global] Instance eq_dec : EqDecision t.
Proof. solve_decision. Defined.
Definition as_str (self : t) : string :=
  match self with InMemory => "in_memory" | Postgres => "postgres" end.
End PlatformRepositoryBackendKind.

(** ** Constant-time comparison *)

(** [usize] exclusive or and the loop over the longer of the two; a missing
    byte counts as zero, and the lengths are compared first. *)
Definition constant_time_eq (left right : list Z) : bool :=
  let max_len := Nat.max (length left) (length right) in
  let byte l i := default 0%Z (l !! i) in
  let diff := fold_left (λ diff index, Z.lor diff (Z.lxor (byte left index) (byte right index)))
    (seq 0 max_len) (Z.lxor (Z.of_nat (length left)) (Z.of_nat (length right))) in
  (diff =? 0)%Z.

(** ** The single user *)

Module PlatformSingleUserConfig.
Record t : Set := mk {
  username : string;
  password : string;
  user_primary_email : option string;
  user_display_name : string;
}.

Definition new (username password : string) : t := mk username password None username.
Definition with_user_primary_email (self : t) (email : option string) : t :=
  mk (username self) (password self) email (user_display_name self).
Definition with_user_display_name (self : t) (name : string) : t :=
  mk (username self) (password self) (user_primary_email self) name.

Definition credentials_match (self : t) (username' password' : string) : bool :=
  constant_time_eq (bytes_of (username self)) (bytes_of username')
  && constant_time_eq (bytes_of (password self)) (bytes_of password').
End PlatformSingleUserConfig.

(** ** The configuration *)

Definition DEFAULT_PLATFORM_LISTEN_ADDR : string := "127.0.0.1:8090".
Definition DEFAULT_PLATFORM_ENVIRONMENT : string := "local".
Definition DEFAULT_PLATFORM_MAX_BODY_BYTES : N := 1048576.
Definition MAX_PLATFORM_MAX_BODY_BYTES : N := 16777216.
Definition DEFAULT_PLATFORM_REQUEST_TIMEOUT_MS : N := 30000.
Definition MIN_PLATFORM_REQUEST_TIMEOUT_MS : N := 100.
Definition MAX_PLATFORM_REQUEST_TIMEOUT_MS : N := 300000.

Module PlatformConfig.
Record t : Set := mk {
  listen_addr : string;
  environment : string;
  database_url : option string;
  repository_backend : PlatformRepositoryBackendKind.t;
  max_body_bytes : N;
  request_timeout_ms : N;
  single_user_auth : option PlatformSingleUserConfig.t;
}.

(** [Default::default]. *)
Definition default_config : t :=
  mk DEFAULT_PLATFORM_LISTEN_ADDR DEFAULT_PLATFORM_ENVIRONMENT None
    PlatformRepositoryBackendKind.InMemory DEFAULT_PLATFORM_MAX_BODY_BYTES
    DEFAULT_PLATFORM_REQUEST_TIMEOUT_MS None.
End PlatformConfig.

Definition non_empty_env (value : string) : option string :=
  let trimmed := trim value in
  if trimmed ==? "" then None else Some trimmed.

Definition is_platform_production_environment (environment : string) : bool :=
  let e := to_ascii_lowercase (trim environment) in
  (e ==? "prod") || (e ==? "production").

Definition parse_platform_repository_backend (value : string)
    : option PlatformRepositoryBackendKind.t :=
  let v := to_ascii_lowercase (trim value) in
  if (v ==? "in_memory") || (v ==? "in-memory") || (v ==? "memory") || (v ==? "mem")
  then Some PlatformRepositoryBackendKind.InMemory
  else if (v ==? "postgres") || (v ==? "postgresql") || (v ==? "pg")
  then Some PlatformRepositoryBackendKind.Postgres
  else None.

Definition timeout_in_range (ms : N) : bool :=
  (MIN_PLATFORM_REQUEST_TIMEOUT_MS <=? ms)%N && (ms <=? MAX_PLATFORM_REQUEST_TIMEOUT_MS)%N.

Section environment.
Context (env : string → option string).

Definition single_user_auth_from_env : option PlatformSingleUserConfig.t :=
  username ← env "STARWEAVER_PLATFORM_SINGLE_USER_USERNAME" ≫= non_empty_env;
  password ← env "STARWEAVER_PLATFORM_SINGLE_USER_PASSWORD" ≫= non_empty_env;
  let config := PlatformSingleUserConfig.new username password in
  let config :=
    match env "STARWEAVER_PLATFORM_SINGLE_USER_EMAIL" with
    | Some value => PlatformSingleUserConfig.with_user_primary_email config (non_empty_env value)
    | None => config
    end in
  let config :=
    match env "STARWEAVER_PLATFORM_SINGLE_USER_DISPLAY_NAME" ≫= non_empty_env with
    | Some value => PlatformSingleUserConfig.with_user_display_name config value
    | None => config
    end in
  Some config.

(** A variable that overrides a default when it is set and parses. *)
Definition override {A} (name : string) (parse : string → option A) (fallback : A) : A :=
  default fallback (env name ≫= parse).

Definition from_env : PlatformConfig.t :=
  let config := PlatformConfig.default_config in
  PlatformConfig.mk
    (override "STARWEAVER_PLATFORM_LISTEN_ADDR" non_empty_env (PlatformConfig.listen_addr config))
    (override "STARWEAVER_PLATFORM_ENV" (λ value, to_ascii_lowercase <$> non_empty_env value)
       (PlatformConfig.environment config))
    (match env "STARWEAVER_PLATFORM_DATABASE_URL" with
     | Some value => non_empty_env value
     | None => PlatformConfig.database_url config
     end)
    (override "STARWEAVER_PLATFORM_REPOSITORY_BACKEND" parse_platform_repository_backend
       (PlatformConfig.repository_backend config))
    (override "STARWEAVER_PLATFORM_MAX_BODY_BYTES" parse_usize (PlatformConfig.max_body_bytes config))
    (override "STARWEAVER_PLATFORM_REQUEST_TIMEOUT_MS"
       (λ value, match parse_usize value with
                 | Some ms => if timeout_in_range ms then Some ms else None
                 | None => None
                 end)
       (PlatformConfig.request_timeout_ms config))
    single_user_auth_from_env.
End environment.

(** ** Startup diagnostics *)

Module PlatformStartupDiagnostic.
Record t : Set := new { code : string; message : string }.
End PlatformStartupDiagnostic.

Definition push_repository_backend_diagnostics (config : PlatformConfig.t)
    : list PlatformStartupDiagnostic.t :=
  if (PlatformConfig.repository_backend config ==? PlatformRepositoryBackendKind.Postgres)
     && (PlatformConfig.database_url config ==? None)
     && negb (is_platform_production_environment (PlatformConfig.environment config))
  then [PlatformStartupDiagnostic.new "postgres_database_url_required"
          "postgres repository backend requires STARWEAVER_PLATFORM_DATABASE_URL"]
  else [].

Definition push_production_diagnostics (config : PlatformConfig.t)
    : list PlatformStartupDiagnostic.t :=
  (if PlatformConfig.repository_backend config ==? PlatformRepositoryBackendKind.InMemory
   then [PlatformStartupDiagnostic.new "durable_repository_backend_required"
           "production must not use the in-memory platform repository backend"] else []) ++
  (if PlatformConfig.database_url config ==? None
   then [PlatformStartupDiagnostic.new "database_url_required"
           "production requires STARWEAVER_PLATFORM_DATABASE_URL"] else []) ++
  (if (PlatformConfig.max_body_bytes config =? 0)%N
      || (MAX_PLATFORM_MAX_BODY_BYTES <? PlatformConfig.max_body_bytes config)%N
   then [PlatformStartupDiagnostic.new "body_limit_invalid"
           "production requires a positive request body limit no larger than 16 MiB"] else []) ++
  (if negb (timeout_in_range (PlatformConfig.request_timeout_ms config))
   then [PlatformStartupDiagnostic.new "request_timeout_invalid"
           "production requires an inbound request timeout between 100 ms and 300000 ms"] else []).

Definition platform_startup_diagnostics (config : PlatformConfig.t)
    : list PlatformStartupDiagnostic.t :=
  push_repository_backend_diagnostics config ++
  (if is_platform_production_environment (PlatformConfig.environment config)
   then push_production_diagnostics config else []).

(** The error carries the diagnostics, which are never empty. *)
Definition validate_platform_config (config : PlatformConfig.t)
    : result (list PlatformStartupDiagnostic.t) unit :=
  match platform_startup_diagnostics config with
  | [] => Ok tt
  | diagnostics => Err diagnostics
  end.

(** ** Lemmas *)

(** The comparison decides equality. *)
Lemma constant_time_eq_strings s r :
  constant_time_eq (bytes_of s) (bytes_of r) = true ↔ s = r.
Proof. unfold constant_time_eq. rewrite Z.eqb_eq. apply folded_strings_eq. Qed.
