(* ===== verification/PlatService.v ===== *)
(** * The platform service: state, errors and access to the stores

    [service.rs] of the platform crate.  The state is one record of the stores;
    a service computation is an [M] on it, and an operation of a store is run
    on its field with the store's error mapped to a [ServiceError].  Requests
    are handled on the in-memory backend; the arms for PostgreSQL, which run
    SQL, are not modelled.  Authorization is the static grants of the state,
    then the role bindings of the principal whose membership is active. *)

From Stdlib Require Import Ascii.
From stdpp Require Import pretty.
From S2P Require Import Prelude Order Text Json PlatAction PlatUser PlatRole PlatMembership.
From S2P Require Import PlatInvitation PlatAudit PlatSession PlatResource PlatRoute PlatIdentity.
From S2P Require Import PlatSecret PlatConfig.

(** ** Errors *)

Module ServiceError.
Inductive t : Set :=
  | AuthenticationRequired
  | AuthenticationFailed (code : string)
  | BadRequest (code : string)
  | Forbidden (code : string)
  | Internal (code : string)
  | RequestTimeout
  | ResourceNotFound
  | RouteNotFound.
#[global] Instance eq_dec : EqDecision t.
Proof. solve_decision. Defined.

(** The status and the code of [into_response]. *)
Definition status_and_code (self : t) : Z * string :=
  match self with
  | AuthenticationRequired => (401%Z, "authentication_required")
  | AuthenticationFailed code => (401%Z, code)
  | BadRequest code => (400%Z, code)
  | Forbidden code => (403%Z, code)
  | Internal code => (500%Z, code)
  | RequestTimeout => (408%Z, "platform.request.timeout")
  | ResourceNotFound => (404%Z, "resource_not_found")
  | RouteNotFound => (404%Z, "route_not_found")
  end.

Definition into_response {V} `{JsonLibrary V} (self : t) : Z * V :=
  let '(status, code) := status_and_code self in
  (status, json_obj [("schema", json_str "platform.error.v1");
                     ("error", json_obj [("code", json_str code); ("status", json_int status)])]).
End ServiceError.

Definition membership_error_to_service (error : PlatformMembershipError.t) : ServiceError.t :=
  match error with
  | PlatformMembershipError.StaleResourceVersion =>
      ServiceError.BadRequest "stale_resource_version"
  | PlatformMembershipError.InvalidMembershipId => ServiceError.ResourceNotFound
  | _ => ServiceError.BadRequest (PlatformMembershipError.as_str error)
  end.

Definition invitation_error_to_service (error : PlatformInvitationError.t) : ServiceError.t :=
  match error with
  | PlatformInvitationError.InvalidInvitationId => ServiceError.ResourceNotFound
  | PlatformInvitationError.InvitationPrincipalMismatch =>
      ServiceError.Forbidden "invitation_principal_mismatch"
  | _ => ServiceError.BadRequest (PlatformInvitationError.as_str error)
  end.

Definition secret_error_to_service (error : PlatformSecretError.t) : ServiceError.t :=
  let code := PlatformSecretError.as_str error in
  match error with
  | PlatformSecretError.UnknownSecretRef => ServiceError.ResourceNotFound
  | PlatformSecretError.SecretRefInactive | PlatformSecretError.EnvironmentSecretMissing
  | PlatformSecretError.SecretFingerprintMismatch => ServiceError.AuthenticationFailed code
  | _ => ServiceError.BadRequest code
  end.

Definition external_identity_error_to_service (error : PlatformExternalIdentityError.t)
    : ServiceError.t :=
  match error with
  | PlatformExternalIdentityError.InvalidExternalIdentityId => ServiceError.ResourceNotFound
  | PlatformExternalIdentityError.PrincipalMismatch =>
      ServiceError.Forbidden "external_identity_principal_mismatch"
  | _ => ServiceError.BadRequest (PlatformExternalIdentityError.as_str error)
  end.

Definition role_binding_error_to_service (error : PlatformRoleBindingError.t) : ServiceError.t :=
  match error with
  | PlatformRoleBindingError.StaleResourceVersion =>
      ServiceError.BadRequest "stale_resource_version"
  | _ => ServiceError.BadRequest (PlatformRoleBindingError.as_str error)
  end.

Definition user_error_to_service (error : PlatformUserError.t) : ServiceError.t :=
  match error with
  | PlatformUserError.UnknownUser => ServiceError.ResourceNotFound
  | PlatformUserError.StaleResourceVersion => ServiceError.BadRequest "stale_resource_version"
  | _ => ServiceError.BadRequest (PlatformUserError.as_str error)
  end.

Definition audit_error_to_service (error : PlatformAuditError.t) : ServiceError.t :=
  ServiceError.BadRequest (PlatformAuditError.as_str error).

Definition admin_auth_session_error (error : AuthError.t) : ServiceError.t :=
  match error with
  | AuthError.SessionNotFound | AuthError.EmptySessionId => ServiceError.ResourceNotFound
  | AuthError.SessionRevoked => ServiceError.BadRequest "auth_session_revoked"
  | AuthError.SessionExpired => ServiceError.BadRequest "auth_session_expired"
  | AuthError.PrincipalDisabled => ServiceError.BadRequest "principal_disabled"
  | _ => ServiceError.BadRequest (AuthError.as_str error)
  end.

Definition authentication_failed (error : AuthError.t) : ServiceError.t :=
  ServiceError.AuthenticationFailed (AuthError.as_str error).
Definition store_internal (error : StoreError.t) : ServiceError.t :=
  ServiceError.Internal (StoreError.as_str error).

(** ** Errors of the durable repository *)

Module PlatformRepositoryError.
Inductive t : Set :=
  | Auth (error : AuthError.t)
  | Identity (error : OidcValidationError.t)
  | Store (error : StoreError.t)
  | Resource (error : PlatformResourceError.t)
  | Membership (error : PlatformMembershipError.t)
  | Invitation (error : PlatformInvitationError.t)
  | Secret (error : PlatformSecretError.t)
  | ExternalIdentity (error : PlatformExternalIdentityError.t)
  | RoleBinding (error : PlatformRoleBindingError.t)
  | User (error : PlatformUserError.t)
  | Audit (error : PlatformAuditError.t)
  | Database (message : string)
  | UnknownActorKind (value : string)
  | UnknownSessionStatus (value : string)
  | UnknownCredentialStatus (value : string)
  | UnknownMtlsIdentityStatus (value : string)
  | UnknownOidcLoginProviderStatus (value : string)
  | UnknownOidcLoginAttemptStatus (value : string)
  | UnknownSecretRefStatus (value : string)
  | UnknownMembershipStatus (value : string)
  | UnknownInvitationStatus (value : string)
  | UnknownExternalIdentityStatus (value : string)
  | UnknownRoleBindingStatus (value : string)
  | UnknownUserStatus (value : string)
  | OidcLoginAttemptUnavailable (id : string)
  | OidcExternalIdentityPrincipalMismatch (id : string)
  | OidcSessionActorMismatch (id : string)
  | ProjectScopeRequired (id : string).
End PlatformRepositoryError.

Definition auth_repository_error (error : PlatformRepositoryError.t) : ServiceError.t :=
  match error with
  | PlatformRepositoryError.Auth error =>
      ServiceError.AuthenticationFailed (AuthError.as_str error)
  | PlatformRepositoryError.Identity error =>
      ServiceError.BadRequest (OidcValidationError.as_str error)
  | PlatformRepositoryError.ExternalIdentity error => external_identity_error_to_service error
  | PlatformRepositoryError.RoleBinding error => role_binding_error_to_service error
  | PlatformRepositoryError.User error => user_error_to_service error
  | PlatformRepositoryError.Audit error => audit_error_to_service error
  | PlatformRepositoryError.Membership error => membership_error_to_service error
  | PlatformRepositoryError.Invitation error => invitation_error_to_service error
  | PlatformRepositoryError.Secret error => secret_error_to_service error
  | PlatformRepositoryError.Database _ => ServiceError.Internal "database_error"
  | PlatformRepositoryError.UnknownActorKind _ => ServiceError.Internal "unknown_actor_kind"
  | PlatformRepositoryError.UnknownSessionStatus _ => ServiceError.Internal "unknown_session_status"
  | PlatformRepositoryError.UnknownCredentialStatus _ => ServiceError.Internal "unknown_credential_status"
  | PlatformRepositoryError.UnknownMtlsIdentityStatus _ => ServiceError.Internal "unknown_mtls_identity_status"
  | PlatformRepositoryError.UnknownOidcLoginProviderStatus _ => ServiceError.Internal "unknown_oidc_login_provider_status"
  | PlatformRepositoryError.UnknownOidcLoginAttemptStatus _ => ServiceError.Internal "unknown_oidc_login_attempt_status"
  | PlatformRepositoryError.UnknownSecretRefStatus _ => ServiceError.Internal "unknown_secret_ref_status"
  | PlatformRepositoryError.UnknownMembershipStatus _ => ServiceError.Internal "unknown_membership_status"
  | PlatformRepositoryError.UnknownInvitationStatus _ => ServiceError.Internal "unknown_invitation_status"
  | PlatformRepositoryError.UnknownExternalIdentityStatus _ => ServiceError.Internal "unknown_external_identity_status"
  | PlatformRepositoryError.UnknownRoleBindingStatus _ => ServiceError.Internal "unknown_role_binding_status"
  | PlatformRepositoryError.UnknownUserStatus _ => ServiceError.Internal "unknown_user_status"
  | PlatformRepositoryError.OidcLoginAttemptUnavailable _ =>
      ServiceError.AuthenticationFailed "oidc_login_attempt_unavailable"
  | PlatformRepositoryError.OidcExternalIdentityPrincipalMismatch _ =>
      ServiceError.Forbidden "oidc_external_identity_principal_mismatch"
  | PlatformRepositoryError.OidcSessionActorMismatch _ =>
      ServiceError.Internal "oidc_session_actor_mismatch"
  | PlatformRepositoryError.Store error => ServiceError.Internal (StoreError.as_str error)
  | PlatformRepositoryError.Resource error =>
      ServiceError.Internal (PlatformResourceError.as_str error)
  | PlatformRepositoryError.ProjectScopeRequired _ =>
      ServiceError.Internal "project_scope_required"
  end.

Definition data_repository_error (error : PlatformRepositoryError.t) : ServiceError.t :=
  match error with
  | PlatformRepositoryError.Auth error => ServiceError.Internal (AuthError.as_str error)
  | PlatformRepositoryError.Identity error =>
      ServiceError.BadRequest (OidcValidationError.as_str error)
  | PlatformRepositoryError.ExternalIdentity error => external_identity_error_to_service error
  | PlatformRepositoryError.RoleBinding error => role_binding_error_to_service error
  | PlatformRepositoryError.User error => user_error_to_service error
  | PlatformRepositoryError.Audit error => audit_error_to_service error
  | PlatformRepositoryError.Membership error => membership_error_to_service error
  | PlatformRepositoryError.Invitation error => invitation_error_to_service error
  | PlatformRepositoryError.Secret error => secret_error_to_service error
  | PlatformRepositoryError.Database _ => ServiceError.Internal "database_error"
  | PlatformRepositoryError.UnknownActorKind _ => ServiceError.Internal "unknown_actor_kind"
  | PlatformRepositoryError.UnknownSessionStatus _ => ServiceError.Internal "unknown_session_status"
  | PlatformRepositoryError.UnknownCredentialStatus _ => ServiceError.Internal "unknown_credential_status"
  | PlatformRepositoryError.UnknownMtlsIdentityStatus _ => ServiceError.Internal "unknown_mtls_identity_status"
  | PlatformRepositoryError.UnknownOidcLoginProviderStatus _ => ServiceError.Internal "unknown_oidc_login_provider_status"
  | PlatformRepositoryError.UnknownOidcLoginAttemptStatus _ => ServiceError.Internal "unknown_oidc_login_attempt_status"
  | PlatformRepositoryError.UnknownSecretRefStatus _ => ServiceError.Internal "unknown_secret_ref_status"
  | PlatformRepositoryError.UnknownMembershipStatus _ => ServiceError.Internal "unknown_membership_status"
  | PlatformRepositoryError.UnknownInvitationStatus _ => ServiceError.Internal "unknown_invitation_status"
  | PlatformRepositoryError.UnknownExternalIdentityStatus _ => ServiceError.Internal "unknown_external_identity_status"
  | PlatformRepositoryError.UnknownRoleBindingStatus _ => ServiceError.Internal "unknown_role_binding_status"
  | PlatformRepositoryError.UnknownUserStatus _ => ServiceError.Internal "unknown_user_status"
  | PlatformRepositoryError.OidcLoginAttemptUnavailable _ =>
      ServiceError.AuthenticationFailed "oidc_login_attempt_unavailable"
  | PlatformRepositoryError.OidcExternalIdentityPrincipalMismatch _ =>
      ServiceError.Forbidden "oidc_external_identity_principal_mismatch"
  | PlatformRepositoryError.OidcSessionActorMismatch _ =>
      ServiceError.Internal "oidc_session_actor_mismatch"
  | PlatformRepositoryError.Store error => ServiceError.Internal (StoreError.as_str error)
  | PlatformRepositoryError.Resource error =>
      ServiceError.Internal (PlatformResourceError.as_str error)
  | PlatformRepositoryError.ProjectScopeRequired _ =>
      ServiceError.Internal "project_scope_required"
  end.

Definition admin_auth_repository_error (error : PlatformRepositoryError.t) : ServiceError.t :=
  match error with
  | PlatformRepositoryError.Auth error => admin_auth_session_error error
  | other => auth_repository_error other
  end.

(** ** OIDC providers and login attempts, keyed by id and by state hash *)

Module OidcLoginCompletionRecord.
Record t : Set := mk {
  login_attempt_id : string;
  tenant_id : string;
  organization_id : string;
  project_id : string;
  user_id : string;
  identity_provider_id : string;
  external_identity_id : string;
  organization_member_id : string;
  project_member_id : string;
  organization_role_binding_id : string;
  provider_subject : string;
  email : option string;
  email_verified : bool;
  user_display_name : string;
  organization_display_name : string;
  project_display_name : string;
  session : PlatformAuthSessionRecord.t;
  consumed_at_unix : Z;
}.
End OidcLoginCompletionRecord.

Module InMemoryOidcLoginStore.
Record t : Set := mk {
  providers : gmap string OidcLoginProviderRecord.t;
  attempts : gmap string OidcLoginAttemptRecord.t;
}.
Definition new : t := mk ∅ ∅.

Definition upsert_provider (provider : OidcLoginProviderRecord.t) (s : t) : t :=
  mk (<[OidcLoginProviderRecord.identity_provider_id provider := provider]> (providers s))
    (attempts s).

Definition provider (identity_provider_id : string) (s : t) : option OidcLoginProviderRecord.t :=
  providers s !! identity_provider_id.

Definition providers_for_tenant (tenant_id : string) (s : t) : list OidcLoginProviderRecord.t :=
  List.filter (λ p, (OidcLoginProviderRecord.tenant_id p ==? tenant_id)
      && (OidcLoginProviderRecord.status p !=? OidcLoginProviderStatus.Deleted))
    (values (providers s)).

Definition record_attempt (attempt : OidcLoginAttemptRecord.t) (s : t) : t :=
  mk (providers s) (<[OidcLoginAttemptRecord.state_hash attempt := attempt]> (attempts s)).

Definition attempt_for_state `{Sha256Library} (raw_state : string) (s : t)
    : option OidcLoginAttemptRecord.t :=
  attempts s !! hash_oidc_login_state (trim raw_state).

Definition is_attempt_of (completion : OidcLoginCompletionRecord.t)
    (attempt : OidcLoginAttemptRecord.t) : bool :=
  (OidcLoginAttemptRecord.login_attempt_id attempt
   ==? OidcLoginCompletionRecord.login_attempt_id completion)
  && (OidcLoginAttemptRecord.tenant_id attempt ==? OidcLoginCompletionRecord.tenant_id completion)
  && (OidcLoginAttemptRecord.identity_provider_id attempt
      ==? OidcLoginCompletionRecord.identity_provider_id completion).

Definition consume_attempt (completion : OidcLoginCompletionRecord.t)
    : M t ServiceError.t unit := λ s,
  let unavailable := ServiceError.AuthenticationFailed "oidc_login_attempt_unavailable" in
  match List.find (λ ka, is_attempt_of completion ka.2) (entries (attempts s)) with
  | None => (Err unavailable, s)
  | Some (state_hash, _) =>
      match attempts s !! state_hash with
      | None => (Err unavailable, s)
      | Some attempt =>
          if (OidcLoginAttemptRecord.status attempt !=? OidcLoginAttemptStatus.Active)
             || (OidcLoginAttemptRecord.expires_at_unix attempt
                 <=? OidcLoginCompletionRecord.consumed_at_unix completion)%Z
             || negb (is_attempt_of completion attempt)
          then (Err unavailable, s)
          else (Ok tt, mk (providers s)
                 (<[state_hash := OidcLoginAttemptRecord.consumed attempt
                      (OidcLoginCompletionRecord.consumed_at_unix completion)]> (attempts s)))
      end
  end.
End InMemoryOidcLoginStore.

(** ** The state *)

Module PlatformServiceState.
Record t : Set := mk {
  owners : InMemoryResourceOwnerStore.t;
  auth_sessions : InMemoryPlatformAuthSessionStore.t;
  bearer_credentials : InMemoryPlatformBearerCredentialStore.t;
  mtls_identities : InMemoryPlatformMtlsIdentityStore.t;
  resources : InMemoryPlatformResourceStore.t;
  secrets : InMemoryPlatformSecretStore.t;
  memberships : InMemoryPlatformMembershipStore.t;
  invitations : InMemoryPlatformInvitationStore.t;
  external_identities : InMemoryPlatformExternalIdentityStore.t;
  role_bindings : InMemoryPlatformRoleBindingStore.t;
  users : InMemoryPlatformUserStore.t;
  audits : InMemoryPlatformAuditStore.t;
  oidc_logins : InMemoryOidcLoginStore.t;
  single_user_auth : option PlatformSingleUserConfig.t;
  max_body_bytes : N;
  request_timeout_ms : N;
  authorization : FoundationAuthorizationEngine.t;
}.

Definition set_owners (x : InMemoryResourceOwnerStore.t) (s : t) : t :=
  mk x (auth_sessions s) (bearer_credentials s) (mtls_identities s) (resources s) (secrets s)
    (memberships s) (invitations s) (external_identities s) (role_bindings s) (users s)
    (audits s) (oidc_logins s) (single_user_auth s) (max_body_bytes s) (request_timeout_ms s)
    (authorization s).
Definition set_auth_sessions (x : InMemoryPlatformAuthSessionStore.t) (s : t) : t :=
  mk (owners s) x (bearer_credentials s) (mtls_identities s) (resources s) (secrets s)
    (memberships s) (invitations s) (external_identities s) (role_bindings s) (users s)
    (audits s) (oidc_logins s) (single_user_auth s) (max_body_bytes s) (request_timeout_ms s)
    (authorization s).
Definition set_secrets (x : InMemoryPlatformSecretStore.t) (s : t) : t :=
  mk (owners s) (auth_sessions s) (bearer_credentials s) (mtls_identities s) (resources s) x
    (memberships s) (invitations s) (external_identities s) (role_bindings s) (users s)
    (audits s) (oidc_logins s) (single_user_auth s) (max_body_bytes s) (request_timeout_ms s)
    (authorization s).
Definition set_memberships (x : InMemoryPlatformMembershipStore.t) (s : t) : t :=
  mk (owners s) (auth_sessions s) (bearer_credentials s) (mtls_identities s) (resources s)
    (secrets s) x (invitations s) (external_identities s) (role_bindings s) (users s) (audits
    s) (oidc_logins s) (single_user_auth s) (max_body_bytes s) (request_timeout_ms s)
    (authorization s).
Definition set_invitations (x : InMemoryPlatformInvitationStore.t) (s : t) : t :=
  mk (owners s) (auth_sessions s) (bearer_credentials s) (mtls_identities s) (resources s)
    (secrets s) (memberships s) x (external_identities s) (role_bindings s) (users s) (audits
    s) (oidc_logins s) (single_user_auth s) (max_body_bytes s) (request_timeout_ms s)
    (authorization s).
Definition set_external_identities (x : InMemoryPlatformExternalIdentityStore.t) (s : t) : t :=
  mk (owners s) (auth_sessions s) (bearer_credentials s) (mtls_identities s) (resources s)
    (secrets s) (memberships s) (invitations s) x (role_bindings s) (users s) (audits s)
    (oidc_logins s) (single_user_auth s) (max_body_bytes s) (request_timeout_ms s)
    (authorization s).
Definition set_role_bindings (x : InMemoryPlatformRoleBindingStore.t) (s : t) : t :=
  mk (owners s) (auth_sessions s) (bearer_credentials s) (mtls_identities s) (resources s)
    (secrets s) (memberships s) (invitations s) (external_identities s) x (users s) (audits s)
    (oidc_logins s) (single_user_auth s) (max_body_bytes s) (request_timeout_ms s)
    (authorization s).
Definition set_users (x : InMemoryPlatformUserStore.t) (s : t) : t :=
  mk (owners s) (auth_sessions s) (bearer_credentials s) (mtls_identities s) (resources s)
    (secrets s) (memberships s) (invitations s) (external_identities s) (role_bindings s) x
    (audits s) (oidc_logins s) (single_user_auth s) (max_body_bytes s) (request_timeout_ms s)
    (authorization s).
Definition set_audits (x : InMemoryPlatformAuditStore.t) (s : t) : t :=
  mk (owners s) (auth_sessions s) (bearer_credentials s) (mtls_identities s) (resources s)
    (secrets s) (memberships s) (invitations s) (external_identities s) (role_bindings s)
    (users s) x (oidc_logins s) (single_user_auth s) (max_body_bytes s) (request_timeout_ms s)
    (authorization s).
Definition set_oidc_logins (x : InMemoryOidcLoginStore.t) (s : t) : t :=
  mk (owners s) (auth_sessions s) (bearer_credentials s) (mtls_identities s) (resources s)
    (secrets s) (memberships s) (invitations s) (external_identities s) (role_bindings s)
    (users s) (audits s) x (single_user_auth s) (max_body_bytes s) (request_timeout_ms s)
    (authorization s).
Definition set_single_user_auth (x : option PlatformSingleUserConfig.t) (s : t) : t :=
  mk (owners s) (auth_sessions s) (bearer_credentials s) (mtls_identities s) (resources s)
    (secrets s) (memberships s) (invitations s) (external_identities s) (role_bindings s)
    (users s) (audits s) (oidc_logins s) x (max_body_bytes s) (request_timeout_ms s)
    (authorization s).

(** [PlatformServiceState::new], and [with_resources_and_mtls] it ends in. *)
Definition with_resources_and_mtls (owners : InMemoryResourceOwnerStore.t)
    (auth_sessions : InMemoryPlatformAuthSessionStore.t)
    (bearer_credentials : InMemoryPlatformBearerCredentialStore.t)
    (mtls_identities : InMemoryPlatformMtlsIdentityStore.t)
    (resources : InMemoryPlatformResourceStore.t)
    (authorization : FoundationAuthorizationEngine.t) : t :=
  mk owners auth_sessions bearer_credentials mtls_identities resources
    InMemoryPlatformSecretStore.new InMemoryPlatformMembershipStore.new
    InMemoryPlatformInvitationStore.new InMemoryPlatformExternalIdentityStore.new
    InMemoryPlatformRoleBindingStore.new InMemoryPlatformUserStore.new
    InMemoryPlatformAuditStore.new InMemoryOidcLoginStore.new None 1048576 30000 authorization.
Definition new (owners : InMemoryResourceOwnerStore.t)
    (authorization : FoundationAuthorizationEngine.t) : t :=
  with_resources_and_mtls owners InMemoryPlatformAuthSessionStore.new
    InMemoryPlatformBearerCredentialStore.new InMemoryPlatformMtlsIdentityStore.new
    InMemoryPlatformResourceStore.new authorization.
End PlatformServiceState.

Abbreviation Svc := (M PlatformServiceState.t ServiceError.t).

(** Run an operation of one store, mapping its error; run one that cannot
    fail; read. *)
Definition zoom {S E A} (get : PlatformServiceState.t → S)
    (put : S → PlatformServiceState.t → PlatformServiceState.t) (err : E → ServiceError.t)
    (op : M S E A) : Svc A := λ s,
  match op (get s) with
  | (Ok a, x) => (Ok a, put x s)
  | (Err e, x) => (Err (err e), put x s)
  end.
Definition zoom_act {S A} (get : PlatformServiceState.t → S)
    (put : S → PlatformServiceState.t → PlatformServiceState.t) (op : S → A * S) : Svc A := λ s,
  let '(a, x) := op (get s) in (Ok a, put x s).
Definition reads {A} (f : PlatformServiceState.t → result ServiceError.t A) : Svc A := λ s, (f s, s).
Definition found {A} (f : PlatformServiceState.t → option A) : Svc A :=
  reads (λ s, ok_or (f s) ServiceError.ResourceNotFound).
Definition ensure (test : bool) (error : ServiceError.t) : result ServiceError.t unit :=
  if test then Ok tt else Err error.

(** ** Access to the stores, one function per function of the source *)

Definition oidc_login_providers_for_tenant (tenant_id : string)
    : Svc (list OidcLoginProviderRecord.t) :=
  gets (λ s, InMemoryOidcLoginStore.providers_for_tenant tenant_id
               (PlatformServiceState.oidc_logins s)).
Definition oidc_login_provider (identity_provider_id : string) : Svc OidcLoginProviderRecord.t :=
  found (λ s, InMemoryOidcLoginStore.provider identity_provider_id
                (PlatformServiceState.oidc_logins s)).
Definition record_oidc_login_attempt (attempt : OidcLoginAttemptRecord.t) : Svc unit :=
  zoom_act PlatformServiceState.oidc_logins PlatformServiceState.set_oidc_logins
    (λ x, (tt, InMemoryOidcLoginStore.record_attempt attempt x)).
Definition oidc_login_attempt_for_state `{Sha256Library} (raw_state : string)
    : Svc OidcLoginAttemptRecord.t :=
  reads (λ s, ok_or (InMemoryOidcLoginStore.attempt_for_state raw_state
                       (PlatformServiceState.oidc_logins s))
                (ServiceError.AuthenticationFailed "oidc_login_attempt_unavailable")).

Definition record_resource_owner (record : ResourceOwnerRecord.t) : Svc unit :=
  zoom PlatformServiceState.owners PlatformServiceState.set_owners store_internal
    (InMemoryResourceOwnerStore.record_resource_owner record).

Definition upsert_oidc_login_provider (provider : OidcLoginProviderRecord.t) : Svc unit :=
  zoom_act PlatformServiceState.oidc_logins PlatformServiceState.set_oidc_logins
    (λ x, (tt, InMemoryOidcLoginStore.upsert_provider provider x));;
  record_resource_owner (ResourceOwnerRecord.tenant "IdentityProvider"
    (OidcLoginProviderRecord.identity_provider_id provider)
    (OidcLoginProviderRecord.tenant_id provider)).

Definition role_bindings_for_tenant (tenant_id : string) : Svc (list PlatformRoleBindingRecord.t) :=
  gets (λ s, InMemoryPlatformRoleBindingStore.role_bindings_for_tenant tenant_id
               (PlatformServiceState.role_bindings s)).
Definition active_role_bindings_for_principal (tenant_id principal_id : string)
    : Svc (list PlatformRoleBindingRecord.t) :=
  gets (λ s, InMemoryPlatformRoleBindingStore.active_role_bindings_for_principal tenant_id
               principal_id (PlatformServiceState.role_bindings s)).
Definition role_binding_by_id (role_binding_id : string) : Svc PlatformRoleBindingRecord.t :=
  found (λ s,
    match InMemoryPlatformRoleBindingStore.role_binding role_binding_id
            (PlatformServiceState.role_bindings s) with
    | Some binding =>
        if PlatformRoleBindingRecord.status binding !=? PlatformRoleBindingStatus.Deleted
        then Some binding else None
    | None => None
    end).
Definition equivalent_role_binding (candidate : PlatformRoleBindingRecord.t)
    : Svc (option PlatformRoleBindingRecord.t) :=
  bindings ← role_bindings_for_tenant (PlatformRoleBindingRecord.tenant_id candidate);
  mret (List.find (λ binding,
    (PlatformRoleBindingRecord.organization_id binding
     ==? PlatformRoleBindingRecord.organization_id candidate)
    && (PlatformRoleBindingRecord.project_id binding
        ==? PlatformRoleBindingRecord.project_id candidate)
    && (PlatformRoleBindingRecord.principal_id binding
        ==? PlatformRoleBindingRecord.principal_id candidate)
    && (PlatformRoleBindingRecord.role_id binding
        ==? PlatformRoleBindingRecord.role_id candidate)) bindings).
Definition upsert_role_binding (record : PlatformRoleBindingRecord.t)
    : Svc PlatformRoleBindingRecord.t :=
  zoom PlatformServiceState.role_bindings PlatformServiceState.set_role_bindings
    role_binding_error_to_service
    (InMemoryPlatformRoleBindingStore.upsert_role_binding (PlatformRoleBindingUpsert.mk
       (PlatformRoleBindingRecord.role_binding_id record)
       (PlatformRoleBindingRecord.tenant_id record)
       (PlatformRoleBindingRecord.organization_id record)
       (PlatformRoleBindingRecord.project_id record)
       (PlatformRoleBindingRecord.principal_id record)
       (PlatformRoleBindingRecord.role_id record))).
Definition set_role_binding_status (role_binding_id : string) (expected_resource_version : Z)
    (status : PlatformRoleBindingStatus.t) : Svc PlatformRoleBindingRecord.t :=
  zoom PlatformServiceState.role_bindings PlatformServiceState.set_role_bindings
    role_binding_error_to_service
    (InMemoryPlatformRoleBindingStore.update_role_binding_status role_binding_id
       expected_resource_version status).

Definition organization_members_for_organization (organization_id : string)
    : Svc (list PlatformOrganizationMembershipRecord.t) :=
  gets (λ s, InMemoryPlatformMembershipStore.organization_members_for_organization
               organization_id (PlatformServiceState.memberships s)).
Definition organization_member_by_id (organization_member_id : string)
    : Svc PlatformOrganizationMembershipRecord.t :=
  found (λ s, InMemoryPlatformMembershipStore.organization_member organization_member_id
                (PlatformServiceState.memberships s)).
Definition on_memberships {A} (op : M InMemoryPlatformMembershipStore.t PlatformMembershipError.t A)
    : Svc A :=
  zoom PlatformServiceState.memberships PlatformServiceState.set_memberships
    membership_error_to_service op.
Definition upsert_organization_member
    (organization_member_id organization_id principal_id membership_kind : string)
    (actor : AuthenticatedActor.t) : Svc PlatformOrganizationMembershipRecord.t :=
  on_memberships (InMemoryPlatformMembershipStore.upsert_organization_member
    (PlatformOrganizationMembershipUpsert.mk organization_member_id
       (AuthenticatedActor.tenant_id actor) organization_id principal_id membership_kind
       (AuthenticatedActor.principal_id actor))).
Definition set_organization_member_status (organization_member_id : string)
    (expected_resource_version : Z) (status : PlatformMembershipStatus.t)
    : Svc PlatformOrganizationMembershipRecord.t :=
  on_memberships (InMemoryPlatformMembershipStore.update_organization_member_status
    organization_member_id expected_resource_version status).
Definition cascade_project_memberships_for_organization_member
    (organization_member : PlatformOrganizationMembershipRecord.t)
    (status : PlatformMembershipStatus.t) : Svc nat :=
  zoom_act PlatformServiceState.memberships PlatformServiceState.set_memberships
    (InMemoryPlatformMembershipStore.cascade_project_memberships_for_organization_member
       organization_member status).
Definition delete_role_bindings_for_organization_principal
    (organization_member : PlatformOrganizationMembershipRecord.t) : Svc nat :=
  zoom_act PlatformServiceState.role_bindings PlatformServiceState.set_role_bindings
    (InMemoryPlatformRoleBindingStore.delete_role_bindings_for_organization_principal
       (PlatformOrganizationMembershipRecord.tenant_id organization_member)
       (PlatformOrganizationMembershipRecord.organization_id organization_member)
       (PlatformOrganizationMembershipRecord.principal_id organization_member)).
Definition project_members_for_project (project_id : string)
    : Svc (list PlatformProjectMembershipRecord.t) :=
  gets (λ s, InMemoryPlatformMembershipStore.project_members_for_project project_id
               (PlatformServiceState.memberships s)).
Definition delete_role_bindings_for_project_principal
    (project_member : PlatformProjectMembershipRecord.t) : Svc nat :=
  zoom_act PlatformServiceState.role_bindings PlatformServiceState.set_role_bindings
    (InMemoryPlatformRoleBindingStore.delete_role_bindings_for_project_principal
       (PlatformProjectMembershipRecord.tenant_id project_member)
       (PlatformProjectMembershipRecord.project_id project_member)
       (PlatformProjectMembershipRecord.principal_id project_member)).
Definition project_member_by_id (project_member_id : string)
    : Svc PlatformProjectMembershipRecord.t :=
  found (λ s, InMemoryPlatformMembershipStore.project_member project_member_id
                (PlatformServiceState.memberships s)).
Definition set_project_member_status (project_member_id : string)
    (expected_resource_version : Z) (status : PlatformMembershipStatus.t)
    : Svc PlatformProjectMembershipRecord.t :=
  on_memberships (InMemoryPlatformMembershipStore.update_project_member_status
    project_member_id expected_resource_version status).
Definition upsert_project_member_from_organization_member (project_member_id project_id : string)
    (organization_member : PlatformOrganizationMembershipRecord.t) (actor : AuthenticatedActor.t)
    : Svc PlatformProjectMembershipRecord.t :=
  on_memberships (InMemoryPlatformMembershipStore.upsert_project_member
    (PlatformProjectMembershipUpsert.mk project_member_id
       (PlatformOrganizationMembershipRecord.tenant_id organization_member)
       (PlatformOrganizationMembershipRecord.organization_id organization_member) project_id
       (PlatformOrganizationMembershipRecord.principal_id organization_member)
       (PlatformOrganizationMembershipRecord.organization_member_id organization_member)
       (PlatformOrganizationMembershipRecord.membership_kind organization_member)
       (AuthenticatedActor.principal_id actor))).

Definition on_invitations {A}
    (op : M InMemoryPlatformInvitationStore.t PlatformInvitationError.t A) : Svc A :=
  zoom PlatformServiceState.invitations PlatformServiceState.set_invitations
    invitation_error_to_service op.
Definition insert_organization_invitation (invitation : PlatformOrganizationInvitationRecord.t)
    : Svc PlatformOrganizationInvitationRecord.t :=
  on_invitations (InMemoryPlatformInvitationStore.create_organization_invitation invitation).
Definition organization_invitations_for_organization (tenant_id organization_id : string)
    : Svc (list PlatformOrganizationInvitationRecord.t) :=
  gets (λ s, InMemoryPlatformInvitationStore.organization_invitations tenant_id organization_id
               (PlatformServiceState.invitations s)).
Definition organization_invitation_by_id (invitation_id : string)
    : Svc PlatformOrganizationInvitationRecord.t :=
  found (λ s, InMemoryPlatformInvitationStore.organization_invitation invitation_id
                (PlatformServiceState.invitations s)).
Definition organization_invitation_by_raw_token `{Sha256Library} (raw_token : string)
    : Svc PlatformOrganizationInvitationRecord.t :=
  if negb (starts_with PLATFORM_INVITATION_TOKEN_PREFIX (trim raw_token))
  then throw ServiceError.ResourceNotFound
  else found (λ s, InMemoryPlatformInvitationStore.organization_invitation_by_token_hash
                     (hash_platform_invitation_token (trim raw_token))
                     (PlatformServiceState.invitations s)).
Definition revoke_organization_invitation_by_id (invitation_id : string)
    (expected_resource_version now_unix : Z) : Svc PlatformOrganizationInvitationRecord.t :=
  on_invitations (InMemoryPlatformInvitationStore.revoke_organization_invitation invitation_id
    expected_resource_version now_unix).

Definition upsert_secret_ref (secret_ref : PlatformSecretRefRecord.t) : Svc unit :=
  record_resource_owner (ResourceOwnerRecord.tenant "SecretRef"
    (PlatformSecretRefRecord.secret_ref_id secret_ref)
    (PlatformSecretRefRecord.tenant_id secret_ref)).
Definition secret_ref_by_id (secret_ref_id : string) : Svc PlatformSecretRefRecord.t :=
  found (λ s, InMemoryPlatformSecretStore.secret_ref secret_ref_id (PlatformServiceState.secrets s)).
Definition secret_refs_for_tenant (tenant_id : string) : Svc (list PlatformSecretRefRecord.t) :=
  gets (λ s, InMemoryPlatformSecretStore.secret_refs_for_tenant tenant_id
               (PlatformServiceState.secrets s)).
Definition resolve_platform_secret `{Sha256Library} (env : string → option string)
    (secret_ref_id : string) : Svc PlatformSecretValue.t :=
  reads (λ s, match InMemoryPlatformSecretStore.resolve_secret env secret_ref_id
                      (PlatformServiceState.secrets s) with
              | Ok v => Ok v
              | Err e => Err (secret_error_to_service e)
              end).

Definition external_identities_for_principal (tenant_id principal_id : string)
    : Svc (list PlatformExternalIdentityRecord.t) :=
  gets (λ s, InMemoryPlatformExternalIdentityStore.external_identities_for_principal tenant_id
               principal_id (PlatformServiceState.external_identities s)).
Definition external_identity_by_id (external_identity_id : string)
    : Svc PlatformExternalIdentityRecord.t :=
  found (λ s, InMemoryPlatformExternalIdentityStore.external_identity external_identity_id
                (PlatformServiceState.external_identities s)).
Definition on_external_identities {A}
    (op : M InMemoryPlatformExternalIdentityStore.t PlatformExternalIdentityError.t A) : Svc A :=
  zoom PlatformServiceState.external_identities PlatformServiceState.set_external_identities
    external_identity_error_to_service op.
Definition unlink_external_identity (external_identity_id : string)
    : Svc PlatformExternalIdentityRecord.t :=
  on_external_identities
    (InMemoryPlatformExternalIdentityStore.unlink_external_identity external_identity_id).

Definition platform_users_for_tenant (tenant_id : string) : Svc (list PlatformUserRecord.t) :=
  gets (λ s, InMemoryPlatformUserStore.users_for_tenant tenant_id (PlatformServiceState.users s)).
Definition platform_user_by_id (user_id : string) : Svc PlatformUserRecord.t :=
  found (λ s, InMemoryPlatformUserStore.user user_id (PlatformServiceState.users s)).
Definition platform_user_by_id_including_deleted (user_id : string)
    : Svc (option PlatformUserRecord.t) :=
  gets (λ s, InMemoryPlatformUserStore.user_including_deleted user_id
               (PlatformServiceState.users s)).
Definition ensure_user_can_login (user_id : string) : Svc unit :=
  user ← platform_user_by_id_including_deleted user_id;
  match user with
  | None => mret tt
  | Some user =>
      if PlatformUserStatus.accepts_access (PlatformUserRecord.status user) then mret tt
      else throw (ServiceError.AuthenticationFailed "principal_disabled")
  end.
Definition set_platform_user_status (user_id : string) (expected_version : Z)
    (status : PlatformUserStatus.t) : Svc PlatformUserRecord.t :=
  zoom PlatformServiceState.users PlatformServiceState.set_users user_error_to_service
    (InMemoryPlatformUserStore.update_user_status user_id expected_version status).

Definition auth_sessions_for_principal (tenant_id principal_id : string)
    : Svc (list PlatformAuthSessionRecord.t) :=
  gets (λ s, InMemoryPlatformAuthSessionStore.auth_sessions_for_principal tenant_id principal_id
               (PlatformServiceState.auth_sessions s)).
Definition auth_session_by_id (auth_session_id : string) : Svc PlatformAuthSessionRecord.t :=
  found (λ s, InMemoryPlatformAuthSessionStore.auth_session auth_session_id
                (PlatformServiceState.auth_sessions s)).
Definition on_sessions {A} (err : AuthError.t → ServiceError.t)
    (op : M InMemoryPlatformAuthSessionStore.t AuthError.t A) : Svc A :=
  zoom PlatformServiceState.auth_sessions PlatformServiceState.set_auth_sessions err op.
Definition revoke_auth_session_by_id (auth_session_id : string) : Svc PlatformAuthSessionRecord.t :=
  on_sessions admin_auth_session_error
    (InMemoryPlatformAuthSessionStore.revoke_auth_session_by_id auth_session_id).
Definition disable_auth_sessions_for_principal (tenant_id principal_id : string) : Svc nat :=
  zoom_act PlatformServiceState.auth_sessions PlatformServiceState.set_auth_sessions
    (InMemoryPlatformAuthSessionStore.disable_auth_sessions_for_principal tenant_id principal_id).
Definition record_single_user_session (record : PlatformAuthSessionRecord.t) : Svc unit :=
  on_sessions authentication_failed (InMemoryPlatformAuthSessionStore.record_auth_session record).
Definition revoke_auth_session `{Sha256Library} (raw_bearer : string)
    : Svc PlatformAuthSessionRecord.t :=
  on_sessions authentication_failed
    (InMemoryPlatformAuthSessionStore.revoke_auth_session_by_bearer raw_bearer).
Definition update_auth_session_context `{Sha256Library} (raw_bearer : string)
    (organization_id project_id : option string) : Svc PlatformAuthSessionRecord.t :=
  on_sessions authentication_failed
    (InMemoryPlatformAuthSessionStore.update_auth_session_context_by_bearer raw_bearer
       organization_id project_id).

Definition platform_audit_events_for_tenant (tenant_id : string)
    : Svc (list PlatformAuditEventRecord.t) :=
  gets (λ s, InMemoryPlatformAuditStore.audit_events_for_tenant tenant_id
               (PlatformServiceState.audits s)).

(** ** Checks on requests *)

Definition validate_tenant_id (tenant_id : string) : result ServiceError.t unit :=
  ensure (starts_with "ten_" tenant_id) (ServiceError.BadRequest "tenant_id_invalid").
Definition validate_organization_id (organization_id : string) : result ServiceError.t unit :=
  ensure (starts_with "org_" organization_id) (ServiceError.BadRequest "organization_id_invalid").
Definition validate_user_id (user_id : string) : result ServiceError.t unit :=
  ensure (starts_with "usr_" user_id) (ServiceError.BadRequest "user_id_invalid").
Definition validate_principal_id (principal_id : string) : result ServiceError.t unit :=
  ensure (starts_with "usr_" principal_id || starts_with "svc_" principal_id
          || starts_with "sys_" principal_id) (ServiceError.BadRequest "principal_id_invalid").
Definition validate_project_id (project_id : string) : result ServiceError.t unit :=
  ensure (starts_with "prj_" project_id) (ServiceError.BadRequest "project_id_invalid").
Definition validate_optional_non_empty (value : option string) (code : string)
    : result ServiceError.t unit :=
  match value with
  | Some value => ensure (trim value !=? "") (ServiceError.BadRequest code)
  | None => Ok tt
  end.

Definition tenant_from_request_or_actor (requested_tenant_id : option string)
    (actor : AuthenticatedActor.t) : result ServiceError.t string :=
  match trimmed requested_tenant_id with
  | Some tenant_id =>
      if tenant_id ==? AuthenticatedActor.tenant_id actor then Ok tenant_id
      else Err (ServiceError.Forbidden "tenant_mismatch")
  | None => Ok (AuthenticatedActor.tenant_id actor)
  end.

Definition normalized_optional_string (value : option string) : option string := trimmed value.
Definition trimmed_optional (value : option string) : option string := trimmed value.

Definition normalized_email (value : string) : option string :=
  let email := to_ascii_lowercase (trim value) in
  if contains "@" email && negb (starts_with "@" email) && negb (ends_with "@" email)
  then Some email else None.
Definition normalized_string_vec (values : list string) : list string :=
  List.filter (λ value, value !=? "") (trim <$> values).

Definition membership_status_from_request (value : string)
    : result ServiceError.t PlatformMembershipStatus.t :=
  ok_or (PlatformMembershipStatus.from_id (trim value))
    (ServiceError.BadRequest "membership_status_invalid").
Definition platform_user_status_from_request (value : string)
    : result ServiceError.t PlatformUserStatus.t :=
  ok_or (PlatformUserStatus.from_id (trim value)) (ServiceError.BadRequest "user_status_invalid").
Definition role_binding_status_from_request (value : string)
    : result ServiceError.t PlatformRoleBindingStatus.t :=
  ok_or (PlatformRoleBindingStatus.from_id (trim value))
    (ServiceError.BadRequest "role_binding_status_invalid").
Definition normalized_membership_kind (value : option string) : result ServiceError.t string :=
  let membership_kind := default "user" (normalized_optional_string value) in
  if (membership_kind ==? "user") || (membership_kind ==? "service_account")
  then Ok membership_kind
  else Err (ServiceError.BadRequest "membership_kind_invalid").

Definition require_strong_auth_confirmation (value : option string) : result ServiceError.t unit :=
  ensure (match value with Some value => trim value ==? "confirm" | None => false end)
    (ServiceError.Forbidden "strong_auth_confirmation_required").

Definition ensure_actor_tenant (actor : AuthenticatedActor.t) (tenant_id : string)
    : result ServiceError.t unit :=
  ensure (AuthenticatedActor.tenant_id actor ==? tenant_id)
    (ServiceError.Forbidden "tenant_mismatch").
Definition ensure_auth_session_belongs_to_user (session : PlatformAuthSessionRecord.t)
    (user : PlatformUserRecord.t) : result ServiceError.t unit :=
  ensure ((AuthenticatedActor.tenant_id (PlatformAuthSessionRecord.actor session)
           ==? PlatformUserRecord.tenant_id user)
          && (AuthenticatedActor.principal_id (PlatformAuthSessionRecord.actor session)
              ==? PlatformUserRecord.user_id user)) ServiceError.ResourceNotFound.
Definition ensure_user_auth_session (session : PlatformAuthSessionRecord.t)
    : result ServiceError.t unit :=
  ensure (AuthenticatedActor.actor_kind (PlatformAuthSessionRecord.actor session)
          ==? ActorKind.User) (ServiceError.Forbidden "user_actor_required").
Definition ensure_actor_matches_invitation (actor : AuthenticatedActor.t)
    (invitation : PlatformOrganizationInvitationRecord.t) : result ServiceError.t unit :=
  if AuthenticatedActor.tenant_id actor
     !=? PlatformOrganizationInvitationRecord.tenant_id invitation
  then Err (ServiceError.Forbidden "tenant_mismatch")
  else ensure (PlatformOrganizationInvitationRecord.invited_principal_id invitation
               ==? Some (AuthenticatedActor.principal_id actor))
         (ServiceError.Forbidden "invitation_principal_mismatch").

(** ** Resources of requests *)

Definition organization_scope_resource (actor : AuthenticatedActor.t)
    (organization_id resource_kind : string) : result ServiceError.t ResourceRef.t :=
  validate_organization_id organization_id;;
  Ok (ResourceRef.mk resource_kind (AuthenticatedActor.tenant_id actor) (Some organization_id) None
        organization_id).

Definition project_scope_resource (actor : AuthenticatedActor.t)
    (project_id resource_kind : string) : result ServiceError.t ResourceRef.t :=
  validate_project_id project_id;;
  match AuthenticatedActor.organization_id actor with
  | None => Err (ServiceError.Forbidden "organization_scope_required")
  | Some organization_id =>
      Ok (ResourceRef.project resource_kind (AuthenticatedActor.tenant_id actor) organization_id
            project_id project_id)
  end.

Definition scope_resource (actor : AuthenticatedActor.t) (resource_kind : string) : ResourceRef.t :=
  match AuthenticatedActor.organization_id actor, AuthenticatedActor.project_id actor with
  | Some organization_id, Some project_id =>
      ResourceRef.project resource_kind (AuthenticatedActor.tenant_id actor) organization_id
        project_id "scope"
  | _, _ => ResourceRef.tenant resource_kind (AuthenticatedActor.tenant_id actor)
              (AuthenticatedActor.tenant_id actor)
  end.

Definition role_binding_collection_resource_for_actor (actor : AuthenticatedActor.t)
    : ResourceRef.t :=
  match AuthenticatedActor.organization_id actor, AuthenticatedActor.project_id actor with
  | Some organization_id, Some project_id =>
      ResourceRef.project "RoleBinding" (AuthenticatedActor.tenant_id actor) organization_id
        project_id project_id
  | Some organization_id, None =>
      ResourceRef.mk "RoleBinding" (AuthenticatedActor.tenant_id actor) (Some organization_id) None
        organization_id
  | None, _ => ResourceRef.tenant "RoleBinding" (AuthenticatedActor.tenant_id actor)
                 (AuthenticatedActor.tenant_id actor)
  end.

Definition role_binding_visible_in_collection (collection : ResourceRef.t)
    (binding : PlatformRoleBindingRecord.t) : bool :=
  if PlatformRoleBindingRecord.tenant_id binding !=? ResourceRef.tenant_id collection then false
  else match ResourceRef.project_id collection, ResourceRef.organization_id collection with
  | Some project_id, _ => PlatformRoleBindingRecord.project_id binding ==? Some project_id
  | None, Some organization_id =>
      PlatformRoleBindingRecord.organization_id binding ==? Some organization_id
  | None, None => true
  end.

Definition organization_member_resource (member : PlatformOrganizationMembershipRecord.t)
    : ResourceRef.t :=
  ResourceRef.mk "OrganizationMember" (PlatformOrganizationMembershipRecord.tenant_id member)
    (Some (PlatformOrganizationMembershipRecord.organization_id member)) None
    (PlatformOrganizationMembershipRecord.organization_member_id member).
Definition project_member_resource (member : PlatformProjectMembershipRecord.t) : ResourceRef.t :=
  ResourceRef.project "ProjectMember" (PlatformProjectMembershipRecord.tenant_id member)
    (PlatformProjectMembershipRecord.organization_id member)
    (PlatformProjectMembershipRecord.project_id member)
    (PlatformProjectMembershipRecord.project_member_id member).
Definition role_binding_resource (binding : PlatformRoleBindingRecord.t) : ResourceRef.t :=
  match PlatformRoleBindingRecord.project_id binding,
        PlatformRoleBindingRecord.organization_id binding with
  | Some project_id, organization_id =>
      ResourceRef.project "RoleBinding" (PlatformRoleBindingRecord.tenant_id binding)
        (default (PlatformRoleBindingRecord.tenant_id binding) organization_id) project_id
        (PlatformRoleBindingRecord.role_binding_id binding)
  | None, Some organization_id =>
      ResourceRef.mk "RoleBinding" (PlatformRoleBindingRecord.tenant_id binding)
        (Some organization_id) None (PlatformRoleBindingRecord.role_binding_id binding)
  | None, None =>
      ResourceRef.tenant "RoleBinding" (PlatformRoleBindingRecord.tenant_id binding)
        (PlatformRoleBindingRecord.role_binding_id binding)
  end.
Definition external_identity_resource (identity : PlatformExternalIdentityRecord.t)
    : ResourceRef.t :=
  ResourceRef.tenant "ExternalIdentity" (PlatformExternalIdentityRecord.tenant_id identity)
    (PlatformExternalIdentityRecord.external_identity_id identity).
Definition organization_invitation_resource
    (invitation : PlatformOrganizationInvitationRecord.t) : ResourceRef.t :=
  ResourceRef.mk "OrganizationInvitation"
    (PlatformOrganizationInvitationRecord.tenant_id invitation)
    (Some (PlatformOrganizationInvitationRecord.organization_id invitation))
    (PlatformOrganizationInvitationRecord.project_id invitation)
    (PlatformOrganizationInvitationRecord.invitation_id invitation).
Definition platform_user_resource (user : PlatformUserRecord.t) : ResourceRef.t :=
  ResourceRef.tenant "User" (PlatformUserRecord.tenant_id user) (PlatformUserRecord.user_id user).

(** ** Records looked up for an actor *)

Definition organization_member_for_actor (actor : AuthenticatedActor.t)
    (organization_id organization_member_id : string)
    : Svc PlatformOrganizationMembershipRecord.t :=
  member ← organization_member_by_id organization_member_id;
  if (PlatformOrganizationMembershipRecord.tenant_id member ==? AuthenticatedActor.tenant_id actor)
     && (PlatformOrganizationMembershipRecord.organization_id member ==? organization_id)
  then mret member else throw ServiceError.ResourceNotFound.

Definition project_member_for_actor (actor : AuthenticatedActor.t)
    (project_id project_member_id : string) : Svc PlatformProjectMembershipRecord.t :=
  member ← project_member_by_id project_member_id;
  if (PlatformProjectMembershipRecord.tenant_id member ==? AuthenticatedActor.tenant_id actor)
     && (PlatformProjectMembershipRecord.project_id member ==? project_id)
  then mret member else throw ServiceError.ResourceNotFound.

Definition external_identity_for_actor (actor : AuthenticatedActor.t)
    (user_id external_identity_id : string) : Svc PlatformExternalIdentityRecord.t :=
  identity ← external_identity_by_id external_identity_id;
  if (PlatformExternalIdentityRecord.tenant_id identity ==? AuthenticatedActor.tenant_id actor)
     && (PlatformExternalIdentityRecord.principal_id identity ==? user_id)
  then mret identity else throw ServiceError.ResourceNotFound.

Definition organization_invitation_for_actor (actor : AuthenticatedActor.t)
    (organization_id invitation_id : string) : Svc PlatformOrganizationInvitationRecord.t :=
  invitation ← organization_invitation_by_id invitation_id;
  if (PlatformOrganizationInvitationRecord.tenant_id invitation
      ==? AuthenticatedActor.tenant_id actor)
     && (PlatformOrganizationInvitationRecord.organization_id invitation ==? organization_id)
  then mret invitation else throw ServiceError.ResourceNotFound.

Definition active_organization_member_by_id_for_actor (actor : AuthenticatedActor.t)
    (organization_member_id : string) : Svc PlatformOrganizationMembershipRecord.t :=
  if negb (starts_with "om_" organization_member_id)
  then throw (ServiceError.BadRequest "membership_id_invalid")
  else
    member ← organization_member_by_id organization_member_id;
    if PlatformOrganizationMembershipRecord.tenant_id member
       !=? AuthenticatedActor.tenant_id actor
    then throw (ServiceError.Forbidden "tenant_mismatch")
    else if PlatformMembershipStatus.accepts_access
              (PlatformOrganizationMembershipRecord.status member)
    then mret member
    else throw (ServiceError.Forbidden "organization_membership_required").

Definition ensure_project_member_create_matches_project_organization
    (existing_members : list PlatformProjectMembershipRecord.t)
    (organization_member : PlatformOrganizationMembershipRecord.t) : result ServiceError.t unit :=
  match existing_members with
  | [] => Ok tt
  | existing_member :: _ =>
      if PlatformProjectMembershipRecord.tenant_id existing_member
         !=? PlatformOrganizationMembershipRecord.tenant_id organization_member
      then Err (ServiceError.Forbidden "tenant_mismatch")
      else ensure (PlatformProjectMembershipRecord.organization_id existing_member
                   ==? PlatformOrganizationMembershipRecord.organization_id organization_member)
             (ServiceError.Forbidden "project_organization_mismatch")
  end.

Definition active_organization_member_for_actor (actor : AuthenticatedActor.t)
    (organization_id : string) : Svc PlatformOrganizationMembershipRecord.t :=
  members ← organization_members_for_organization organization_id;
  match List.find (λ member,
          (PlatformOrganizationMembershipRecord.tenant_id member
           ==? AuthenticatedActor.tenant_id actor)
          && (PlatformOrganizationMembershipRecord.principal_id member
              ==? AuthenticatedActor.principal_id actor)
          && (PlatformOrganizationMembershipRecord.membership_kind member ==? "user")) members with
  | None => throw (ServiceError.Forbidden "organization_membership_required")
  | Some member =>
      if PlatformMembershipStatus.accepts_access
           (PlatformOrganizationMembershipRecord.status member)
      then mret member
      else throw (ServiceError.Forbidden "organization_membership_required")
  end.

Definition active_project_member_for_actor (actor : AuthenticatedActor.t) (project_id : string)
    : Svc PlatformProjectMembershipRecord.t :=
  members ← project_members_for_project project_id;
  match List.find (λ member,
          (PlatformProjectMembershipRecord.tenant_id member ==? AuthenticatedActor.tenant_id actor)
          && (PlatformProjectMembershipRecord.principal_id member
              ==? AuthenticatedActor.principal_id actor)
          && (PlatformProjectMembershipRecord.membership_kind member ==? "user")) members with
  | None => throw (ServiceError.Forbidden "project_membership_required")
  | Some member =>
      if negb (PlatformProjectMembershipRecord.accepts_access member)
      then throw (ServiceError.Forbidden "project_membership_required")
      else
        active_organization_member_for_actor actor
          (PlatformProjectMembershipRecord.organization_id member);;
        mret member
  end.

(** ** Authorization *)

Definition role_binding_scope_id (binding : PlatformRoleBindingRecord.t) : string :=
  match PlatformRoleBindingRecord.project_id binding with
  | Some project_id => project_id
  | None => default (PlatformRoleBindingRecord.tenant_id binding)
              (PlatformRoleBindingRecord.organization_id binding)
  end.

Definition role_binding_action_grants (binding : PlatformRoleBindingRecord.t)
    : list ActionGrant.t :=
  match PlatformRoleBindingRecord.built_in_role binding with
  | None => []
  | Some role =>
      ActionGrant.for_builtin_role (PlatformRoleBindingRecord.tenant_id binding)
        (role_binding_scope_id binding) (PlatformRoleBindingRecord.principal_id binding) role
  end.

Definition role_binding_membership_allows (binding : PlatformRoleBindingRecord.t) : Svc bool :=
  match PlatformRoleBindingRecord.project_id binding,
        PlatformRoleBindingRecord.organization_id binding with
  | Some project_id, _ =>
      project_members ← project_members_for_project project_id;
      mret (existsb (λ member,
        (PlatformProjectMembershipRecord.tenant_id member
         ==? PlatformRoleBindingRecord.tenant_id binding)
        && (PlatformProjectMembershipRecord.principal_id member
            ==? PlatformRoleBindingRecord.principal_id binding)
        && PlatformMembershipStatus.accepts_access
             (PlatformProjectMembershipRecord.status member)) project_members)
  | None, Some organization_id =>
      organization_members ← organization_members_for_organization organization_id;
      mret (existsb (λ member,
        (PlatformOrganizationMembershipRecord.tenant_id member
         ==? PlatformRoleBindingRecord.tenant_id binding)
        && (PlatformOrganizationMembershipRecord.principal_id member
            ==? PlatformRoleBindingRecord.principal_id binding)
        && PlatformMembershipStatus.accepts_access
             (PlatformOrganizationMembershipRecord.status member)) organization_members)
  | None, None => mret true
  end.

(** The loop that collects the grants of the bindings backed by a membership. *)
Fixpoint collect_grants (bindings : list PlatformRoleBindingRecord.t) (grants : list ActionGrant.t)
    : Svc (list ActionGrant.t) :=
  match bindings with
  | [] => mret grants
  | binding :: bindings =>
      allowed ← role_binding_membership_allows binding;
      collect_grants bindings
        (if (allowed : bool) then grants ++ role_binding_action_grants binding else grants)
  end.

Definition role_binding_authorization_allows (actor : AuthenticatedActor.t)
    (action : PlatformAction.t) (resource : ResourceRef.t) : Svc bool :=
  bindings ← active_role_bindings_for_principal (AuthenticatedActor.tenant_id actor)
               (AuthenticatedActor.principal_id actor);
  grants ← collect_grants bindings [];
  mret (AuthorizationDecision.allowed (authorize (FoundationAuthorizationEngine.new grants)
          (AuthorizationRequest.mk actor action resource))).

Definition authorize_service_action (actor : AuthenticatedActor.t) (action : PlatformAction.t)
    (resource : ResourceRef.t) : Svc unit :=
  engine ← gets PlatformServiceState.authorization;
  let decision := authorize engine (AuthorizationRequest.mk actor action resource) in
  if AuthorizationDecision.allowed decision then mret tt
  else
    allowed ← role_binding_authorization_allows actor action resource;
    if (allowed : bool) then mret tt
    else throw (ServiceError.Forbidden (AuthorizationDecision.reason decision)).
