(* ===== verification/PlatRequests.v ===== *)
(** * The platform service: requests, authentication and answers

    [service.rs] of the platform crate: the decoded requests, the actor and the
    session of a request's headers, the audit trail with its filters and pages,
    and the JSON bodies of the answers, which hold no token, hash or secret
    value.  Random bytes and the clock are arguments. *)

From Stdlib Require Import Ascii.
From stdpp Require Import pretty.
From S2P Require Import Prelude Order Text Json PlatAction PlatUser PlatRole PlatMembership.
From S2P Require Import PlatInvitation PlatAudit PlatSession PlatResource PlatRoute PlatIdentity.
From S2P Require Import PlatSecret PlatConfig PlatService.

Definition SINGLE_USER_TENANT_ID : string := "ten_single_user".
Definition SINGLE_USER_ORGANIZATION_ID : string := "org_single_user".
Definition SINGLE_USER_PROJECT_ID : string := "prj_single_user".
Definition SINGLE_USER_ID : string := "usr_single_user".
Definition SINGLE_USER_IDENTITY_PROVIDER_ID : string := "idp_single_user".
Definition SINGLE_USER_EXTERNAL_IDENTITY_ID : string := "xid_single_user".
Definition SINGLE_USER_ORGANIZATION_MEMBER_ID : string := "om_single_user".
Definition SINGLE_USER_PROJECT_MEMBER_ID : string := "pm_single_user".
Definition SINGLE_USER_ROLE_BINDING_ID : string := "rb_single_user_tenant_owner".
Definition SINGLE_USER_SESSION_TOKEN_PREFIX : string := "swp_sess_".
Definition OIDC_CALLBACK_SESSION_TOKEN_PREFIX : string := "swp_sess_".
Definition OIDC_LOGIN_ATTEMPT_TTL_SECONDS : Z := 600.
Definition ORGANIZATION_INVITATION_TTL_SECONDS : Z := 604800.
Definition AUTHORIZATION : string := "authorization".
Definition VERIFIED_MTLS_SUBJECT_HEADER : string := "x-starweaver-verified-client-cert-subject".
Definition PLATFORM_CSRF_TOKEN_HEADER : string := "x-starweaver-platform-csrf-token".

(** The value of a header that is present and readable as text. *)
Abbreviation HeaderMap := (string → option string).

(** ** Requests *)

Module OidcLoginCallbackRequest.
Record t : Set := mk { state : string; code : string; nonce : string; code_verifier : string }.
End OidcLoginCallbackRequest.

Module CreateOrganizationMemberRequest.
Record t : Set := mk {
  organization_member_id : option string;
  principal_id : string;
  membership_kind : option string;
}.
End CreateOrganizationMemberRequest.

Module UpdateMembershipStatusRequest.
Record t : Set := mk { expected_version : Z; status : string; reason : option string }.
End UpdateMembershipStatusRequest.

Module CreateRoleBindingRequest.
Record t : Set := mk {
  binding : option string;
  tenant : option string;
  organization : option string;
  project : option string;
  principal : string;
  role : string;
}.
End CreateRoleBindingRequest.

Module UpdateRoleBindingStatusRequest.
Record t : Set := mk { expected_version : Z; status : string; reason : option string }.
End UpdateRoleBindingStatusRequest.

Module UpdatePlatformUserStatusRequest.
Record t : Set := mk {
  expected_version : Z;
  status : string;
  reason : option string;
  strong_auth_confirmation : option string;
}.
End UpdatePlatformUserStatusRequest.

(** [RevokePlatformAuthSessionRequest] and [UnlinkPlatformExternalIdentityRequest]. *)
Module ConfirmedRequest.
Record t : Set := mk { reason : option string; strong_auth_confirmation : option string }.
End ConfirmedRequest.

Module ListPlatformAuditEventsQuery.
Record t : Set := mk {
  organization_id : option string;
  project_id : option string;
  event_type : option string;
  action_id : option string;
  resource_kind : option string;
  resource_id : option string;
  actor_principal_id : option string;
  limit : option N;
  cursor : option string;
  strong_auth_confirmation : option string;
}.
End ListPlatformAuditEventsQuery.

(** [RemoveOrganizationMemberRequest] and [RevokeOrganizationInvitationRequest]. *)
Module VersionedRequest.
Record t : Set := mk { expected_version : Z; reason : option string }.
End VersionedRequest.

Module CreateOrganizationInvitationRequest.
Record t : Set := mk {
  invitation_id : option string;
  project_id : option string;
  invited_email : option string;
  invited_principal_id : option string;
  role_id : option string;
  expires_at_unix : option Z;
}.
End CreateOrganizationInvitationRequest.

Module CreateProjectMemberRequest.
Record t : Set := mk { project_member_id : option string; organization_member_id : string }.
End CreateProjectMemberRequest.

Module CreateOidcIdentityProviderRequest.
Record t : Set := mk {
  identity_provider_id : option string;
  tenant_id : option string;
  display_name : string;
  issuer_url : string;
  authorization_endpoint : option string;
  token_endpoint : option string;
  jwks_uri : option string;
  client_id : string;
  client_secret_ref : option string;
  client_secret : option string;
  token_endpoint_auth_method : option string;
  redirect_uri : string;
  requested_scopes : list string;
  accepted_audiences : list string;
  status : option string;
}.
End CreateOidcIdentityProviderRequest.

Module CreateSecretRefHttpRequest.
Record t : Set := mk {
  secret_ref_id : option string;
  tenant_id : option string;
  purpose : string;
  backend_kind : option string;
  backend_locator : option string;
  environment_variable : option string;
  secret_value : option string;
}.
End CreateSecretRefHttpRequest.

(** ** Identifiers and tokens from random bytes *)

Definition new_prefixed_id (prefix : string) (bytes : list Z) : string :=
  prefix +:+ "_" +:+ lower_hex bytes.
Definition generate_session_token_with_prefix (prefix : string) (bytes : list Z) : string :=
  prefix +:+ lower_hex bytes.
Definition generate_session_token : list Z → string :=
  generate_session_token_with_prefix SINGLE_USER_SESSION_TOKEN_PREFIX.

(** ** Authentication of a request *)

Definition bearer_token (authorization : string) : option string :=
  match strip_prefix "Bearer " (trim authorization) with
  | None => None
  | Some token => if trim token ==? "" then None else Some (trim token)
  end.

Definition constant_time_bytes_eq (left right : list Z) : bool :=
  let max_len := Nat.max (length left) (length right) in
  let byte l i := default 0%Z (l !! i) in
  let diff := fold_left (λ diff index, Z.lor diff (Z.lxor (byte left index) (byte right index)))
    (seq 0 max_len) (Z.lxor (Z.of_nat (length left)) (Z.of_nat (length right))) in
  (diff =? 0)%Z.

Section authentication.
Context `{Sha256Library}.

Definition authenticated_actor_from_headers (headers : HeaderMap) : Svc AuthenticatedActor.t :=
  match headers AUTHORIZATION with
  | Some authorization =>
      match bearer_token authorization with
      | None => throw (ServiceError.AuthenticationFailed "invalid_bearer_authorization")
      | Some raw_token =>
          reads (λ s,
            match InMemoryPlatformAuthSessionStore.authenticated_actor_for_bearer raw_token
                    (PlatformServiceState.auth_sessions s) with
            | Ok actor => Ok actor
            | Err AuthError.SessionNotFound =>
                match InMemoryPlatformBearerCredentialStore.authenticated_actor_for_bearer_credential
                        raw_token (PlatformServiceState.bearer_credentials s) with
                | Ok actor => Ok actor
                | Err error => Err (authentication_failed error)
                end
            | Err error => Err (authentication_failed error)
            end)
      end
  | None =>
      match headers VERIFIED_MTLS_SUBJECT_HEADER with
      | Some subject =>
          reads (λ s,
            match InMemoryPlatformMtlsIdentityStore.authenticated_actor_for_mtls_subject subject
                    (PlatformServiceState.mtls_identities s) with
            | Ok actor => Ok actor
            | Err error => Err (authentication_failed error)
            end)
      | None => throw ServiceError.AuthenticationRequired
      end
  end.

Definition auth_session_from_headers (headers : HeaderMap)
    : Svc (string * PlatformAuthSessionRecord.t) :=
  authorization ← lift (ok_or (headers AUTHORIZATION) ServiceError.AuthenticationRequired);
  raw_bearer ← lift (ok_or (bearer_token authorization)
                       (ServiceError.AuthenticationFailed "invalid_bearer_authorization"));
  session ← reads (λ s,
    match InMemoryPlatformAuthSessionStore.auth_session_for_bearer raw_bearer
            (PlatformServiceState.auth_sessions s) with
    | Ok session => Ok session
    | Err error => Err (authentication_failed error)
    end);
  mret (raw_bearer, session).

Definition platform_csrf_token (session : PlatformAuthSessionRecord.t) : string :=
  "sha256:" +:+ lower_hex (sha256 ("starweaver-platform-csrf-v1" +:+ nul
    +:+ PlatformAuthSessionRecord.session_id session +:+ nul
    +:+ PlatformAuthSessionRecord.token_hash session)).

Definition mutating_auth_session_from_headers (headers : HeaderMap)
    : Svc (string * PlatformAuthSessionRecord.t) :=
  bs ← auth_session_from_headers headers;
  actual ← lift (ok_or (trimmed (headers PLATFORM_CSRF_TOKEN_HEADER))
                   (ServiceError.AuthenticationFailed "csrf_token_required"));
  let expected := platform_csrf_token bs.2 in
  if negb (constant_time_bytes_eq (bytes_of expected) (bytes_of actual))
  then throw (ServiceError.AuthenticationFailed "csrf_token_invalid")
  else mret bs.
End authentication.

(** ** Audit *)

Definition record_platform_audit_event (id_bytes : list Z) (now_unix : Z)
    (actor : AuthenticatedActor.t) (action : PlatformAction.t) (resource : ResourceRef.t)
    (event_type : string) (reason : option string) : Svc PlatformAuditEventRecord.t :=
  let record := PlatformAuditEventRecord.mk (new_prefixed_id "audit" id_bytes)
    (ResourceRef.tenant_id resource) (ResourceRef.organization_id resource)
    (ResourceRef.project_id resource) (AuthenticatedActor.principal_id actor)
    (AuthenticatedActor.actor_kind actor) (PlatformAction.as_str action)
    (ResourceRef.kind resource) (ResourceRef.resource_id resource) event_type
    (trimmed_optional reason) PLATFORM_AUDIT_REDACTION_PROFILE now_unix in
  zoom PlatformServiceState.audits PlatformServiceState.set_audits audit_error_to_service
    (InMemoryPlatformAuditStore.record_audit_event record);;
  mret record.

Definition validate_audit_event_list_query (query : ListPlatformAuditEventsQuery.t)
    : result ServiceError.t unit :=
  match ListPlatformAuditEventsQuery.organization_id query with
  | Some organization_id => validate_organization_id organization_id
  | None => Ok tt
  end;;
  match ListPlatformAuditEventsQuery.project_id query with
  | Some project_id =>
      validate_project_id project_id;;
      ensure (ListPlatformAuditEventsQuery.organization_id query !=? None)
        (ServiceError.BadRequest "organization_id_required")
  | None => Ok tt
  end;;
  match ListPlatformAuditEventsQuery.actor_principal_id query with
  | Some principal_id => validate_principal_id principal_id
  | None => Ok tt
  end;;
  match ListPlatformAuditEventsQuery.action_id query with
  | Some action_id =>
      let action_id := trim action_id in
      if (action_id ==? "")
         || match PlatformAction.from_action_id action_id with Some _ => false | None => true end
      then Err (ServiceError.BadRequest "audit_action_id_invalid") else Ok tt
  | None => Ok tt
  end;;
  validate_optional_non_empty (ListPlatformAuditEventsQuery.event_type query)
    "audit_event_type_invalid";;
  validate_optional_non_empty (ListPlatformAuditEventsQuery.resource_kind query)
    "audit_resource_kind_invalid";;
  validate_optional_non_empty (ListPlatformAuditEventsQuery.resource_id query)
    "audit_resource_id_invalid".

Definition audit_event_list_resource (actor : AuthenticatedActor.t)
    (query : ListPlatformAuditEventsQuery.t) : result ServiceError.t ResourceRef.t :=
  match ListPlatformAuditEventsQuery.project_id query with
  | Some project_id =>
      organization_id ← ok_or (ListPlatformAuditEventsQuery.organization_id query)
                          (ServiceError.BadRequest "organization_id_required");
      validate_project_id project_id;;
      Ok (ResourceRef.project "AuditEvent" (AuthenticatedActor.tenant_id actor) organization_id
            project_id project_id)
  | None =>
      match ListPlatformAuditEventsQuery.organization_id query with
      | Some organization_id => organization_scope_resource actor organization_id "AuditEvent"
      | None => Ok (ResourceRef.tenant "AuditEvent" (AuthenticatedActor.tenant_id actor)
                      (AuthenticatedActor.tenant_id actor))
      end
  end.

Definition matches_optional_filter (filter value : option string) : bool :=
  match filter with None => true | Some filter => value ==? Some filter end.

Definition audit_event_matches_query (query : ListPlatformAuditEventsQuery.t)
    (record : PlatformAuditEventRecord.t) : bool :=
  matches_optional_filter (ListPlatformAuditEventsQuery.organization_id query)
    (PlatformAuditEventRecord.organization_id record)
  && matches_optional_filter (ListPlatformAuditEventsQuery.project_id query)
       (PlatformAuditEventRecord.project_id record)
  && matches_optional_filter (ListPlatformAuditEventsQuery.event_type query)
       (Some (PlatformAuditEventRecord.event_type record))
  && matches_optional_filter (ListPlatformAuditEventsQuery.action_id query)
       (Some (PlatformAuditEventRecord.action_id record))
  && matches_optional_filter (ListPlatformAuditEventsQuery.resource_kind query)
       (Some (PlatformAuditEventRecord.resource_kind record))
  && matches_optional_filter (ListPlatformAuditEventsQuery.resource_id query)
       (Some (PlatformAuditEventRecord.resource_id record))
  && matches_optional_filter (ListPlatformAuditEventsQuery.actor_principal_id query)
       (Some (PlatformAuditEventRecord.actor_principal_id record)).

Definition audit_event_list_limit (limit : option N) : result ServiceError.t N :=
  let value := default 50%N limit in
  if (value =? 0)%N then Err (ServiceError.BadRequest "audit_event_limit_must_be_positive")
  else if (200 <? value)%N then Err (ServiceError.BadRequest "audit_event_limit_exceeds_maximum")
  else Ok value.

Definition audit_event_list_offset (cursor : option string) : result ServiceError.t N :=
  match cursor with
  | None => Ok 0%N
  | Some cursor =>
      if trim cursor ==? "" then Err (ServiceError.BadRequest "audit_event_cursor_invalid")
      else ok_or (parse_usize cursor) (ServiceError.BadRequest "audit_event_cursor_invalid")
  end.

(** Newest first, then by id. *)
Definition audit_order : PlatformAuditEventRecord.t → PlatformAuditEventRecord.t → comparison :=
  cmp_then (cmp_rev (cmp_on PlatformAuditEventRecord.created_at_unix Z.compare))
    (cmp_rev (cmp_on PlatformAuditEventRecord.audit_event_id String.compare)).

(** [usize] addition that saturates. *)
Definition saturating_add_usize (a b : N) : N := N.min usize_max (a + b).

(** A page of the sorted events, and the cursor of the next one. *)
Definition audit_page (events : list PlatformAuditEventRecord.t) (limit offset : N)
    : list PlatformAuditEventRecord.t * option string :=
  let page := take (N.to_nat limit) (drop (N.to_nat offset) events) in
  let next_offset := saturating_add_usize offset (N.of_nat (length page)) in
  (page, if (next_offset <? N.of_nat (length events))%N then Some (pretty next_offset) else None).

(** ** JSON bodies *)

Section json.
Context {V : Type} `{JsonLibrary V}.

Definition json_opt_int (o : option Z) : V :=
  match o with Some z => json_int z | None => json_null end.
Definition json_strs (l : list string) : V := json_arr (json_str <$> l).

Definition actor_kind_name (kind : ActorKind.t) : string :=
  match kind with
  | ActorKind.User => "user"
  | ActorKind.ServiceAccount => "service_account"
  | ActorKind.System => "system"
  end.

Definition actor_json (actor : AuthenticatedActor.t) : V :=
  json_obj [("tenant_id", json_str (AuthenticatedActor.tenant_id actor));
            ("organization_id", json_opt_str (AuthenticatedActor.organization_id actor));
            ("project_id", json_opt_str (AuthenticatedActor.project_id actor));
            ("principal_id", json_str (AuthenticatedActor.principal_id actor));
            ("actor_kind", json_str (actor_kind_name (AuthenticatedActor.actor_kind actor)))].

Definition auth_session_safe_json (session : PlatformAuthSessionRecord.t) : V :=
  json_obj [("kind", json_str "auth_session");
            ("id", json_str (PlatformAuthSessionRecord.session_id session));
            ("session_id", json_str (PlatformAuthSessionRecord.session_id session));
            ("status", json_str (PlatformAuthSessionStatus.as_str
                                   (PlatformAuthSessionRecord.status session)));
            ("actor", actor_json (PlatformAuthSessionRecord.actor session));
            ("session_token_hash_included", json_bool false);
            ("raw_session_token_included", json_bool false)].

Definition csrf_response_json `{Sha256Library} (session : PlatformAuthSessionRecord.t) : V :=
  json_obj [("header", json_str PLATFORM_CSRF_TOKEN_HEADER);
            ("token", json_str (platform_csrf_token session))].

Definition auth_session_response_json `{Sha256Library} (session : PlatformAuthSessionRecord.t)
    : V :=
  json_obj [("schema", json_str "platform.auth.session.v1");
            ("session", auth_session_safe_json session);
            ("csrf", csrf_response_json session);
            ("actor", actor_json (PlatformAuthSessionRecord.actor session));
            ("session_token_hash_included", json_bool false);
            ("raw_session_token_included", json_bool false)].

Definition organization_member_safe_json (member : PlatformOrganizationMembershipRecord.t) : V :=
  json_obj [("kind", json_str "organization_member");
            ("id", json_str (PlatformOrganizationMembershipRecord.organization_member_id member));
            ("organization_member_id",
             json_str (PlatformOrganizationMembershipRecord.organization_member_id member));
            ("tenant_id", json_str (PlatformOrganizationMembershipRecord.tenant_id member));
            ("organization_id",
             json_str (PlatformOrganizationMembershipRecord.organization_id member));
            ("principal_id", json_str (PlatformOrganizationMembershipRecord.principal_id member));
            ("membership_kind",
             json_str (PlatformOrganizationMembershipRecord.membership_kind member));
            ("status", json_str (PlatformMembershipStatus.as_str
                                   (PlatformOrganizationMembershipRecord.status member)));
            ("resource_version",
             json_int (PlatformOrganizationMembershipRecord.resource_version member))].

Definition project_member_safe_json (member : PlatformProjectMembershipRecord.t) : V :=
  json_obj [("kind", json_str "project_member");
            ("id", json_str (PlatformProjectMembershipRecord.project_member_id member));
            ("project_member_id",
             json_str (PlatformProjectMembershipRecord.project_member_id member));
            ("tenant_id", json_str (PlatformProjectMembershipRecord.tenant_id member));
            ("organization_id", json_str (PlatformProjectMembershipRecord.organization_id member));
            ("project_id", json_str (PlatformProjectMembershipRecord.project_id member));
            ("principal_id", json_str (PlatformProjectMembershipRecord.principal_id member));
            ("organization_member_id",
             json_opt_str (PlatformProjectMembershipRecord.organization_member_id member));
            ("membership_kind", json_str (PlatformProjectMembershipRecord.membership_kind member));
            ("status", json_str (PlatformMembershipStatus.as_str
                                   (PlatformProjectMembershipRecord.status member)));
            ("resource_version",
             json_int (PlatformProjectMembershipRecord.resource_version member))].

Definition role_binding_safe_json (binding : PlatformRoleBindingRecord.t) : V :=
  let scope_kind :=
    match PlatformRoleBindingRecord.project_id binding,
          PlatformRoleBindingRecord.organization_id binding with
    | Some _, _ => "project" | None, Some _ => "organization" | None, None => "tenant"
    end in
  json_obj [("kind", json_str "role_binding");
            ("id", json_str (PlatformRoleBindingRecord.role_binding_id binding));
            ("role_binding_id", json_str (PlatformRoleBindingRecord.role_binding_id binding));
            ("tenant_id", json_str (PlatformRoleBindingRecord.tenant_id binding));
            ("organization_id", json_opt_str (PlatformRoleBindingRecord.organization_id binding));
            ("project_id", json_opt_str (PlatformRoleBindingRecord.project_id binding));
            ("principal_id", json_str (PlatformRoleBindingRecord.principal_id binding));
            ("role_id", json_str (PlatformRoleBindingRecord.role_id binding));
            ("scope_kind", json_str scope_kind);
            ("scope_id", json_str (role_binding_scope_id binding));
            ("status", json_str (PlatformRoleBindingStatus.as_str
                                   (PlatformRoleBindingRecord.status binding)));
            ("resource_version", json_int (PlatformRoleBindingRecord.resource_version binding))].

Definition platform_user_safe_json (user : PlatformUserRecord.t) : V :=
  json_obj [("kind", json_str "user");
            ("id", json_str (PlatformUserRecord.user_id user));
            ("user_id", json_str (PlatformUserRecord.user_id user));
            ("tenant_id", json_str (PlatformUserRecord.tenant_id user));
            ("default_organization_id",
             json_opt_str (PlatformUserRecord.default_organization_id user));
            ("default_project_id", json_opt_str (PlatformUserRecord.default_project_id user));
            ("primary_email", json_opt_str (PlatformUserRecord.primary_email user));
            ("display_name", json_str (PlatformUserRecord.display_name user));
            ("status", json_str (PlatformUserStatus.as_str (PlatformUserRecord.status user)));
            ("resource_version", json_int (PlatformUserRecord.resource_version user))].

Definition organization_invitation_effective_status
    (invitation : PlatformOrganizationInvitationRecord.t) (now_unix : Z) : string :=
  if PlatformInvitationStatus.accepts_at (PlatformOrganizationInvitationRecord.status invitation)
       (PlatformOrganizationInvitationRecord.expires_at_unix invitation) now_unix
  then "pending"
  else if PlatformOrganizationInvitationRecord.status invitation ==? PlatformInvitationStatus.Pending
  then "expired"
  else PlatformInvitationStatus.as_str (PlatformOrganizationInvitationRecord.status invitation).

Definition organization_invitation_safe_json (now_unix : Z)
    (invitation : PlatformOrganizationInvitationRecord.t) : V :=
  json_obj [("kind", json_str "organization_invitation");
            ("id", json_str (PlatformOrganizationInvitationRecord.invitation_id invitation));
            ("invitation_id",
             json_str (PlatformOrganizationInvitationRecord.invitation_id invitation));
            ("tenant_id", json_str (PlatformOrganizationInvitationRecord.tenant_id invitation));
            ("organization_id",
             json_str (PlatformOrganizationInvitationRecord.organization_id invitation));
            ("project_id",
             json_opt_str (PlatformOrganizationInvitationRecord.project_id invitation));
            ("invited_email",
             json_opt_str (PlatformOrganizationInvitationRecord.invited_email invitation));
            ("invited_principal_id",
             json_opt_str (PlatformOrganizationInvitationRecord.invited_principal_id invitation));
            ("role_id", json_str (PlatformOrganizationInvitationRecord.role_id invitation));
            ("status", json_str (PlatformInvitationStatus.as_str
                                   (PlatformOrganizationInvitationRecord.status invitation)));
            ("effective_status",
             json_str (organization_invitation_effective_status invitation now_unix));
            ("expires_at_unix",
             json_int (PlatformOrganizationInvitationRecord.expires_at_unix invitation));
            ("accepted_at_unix",
             json_opt_int (PlatformOrganizationInvitationRecord.accepted_at_unix invitation));
            ("created_by", json_str (PlatformOrganizationInvitationRecord.created_by invitation));
            ("resource_version",
             json_int (PlatformOrganizationInvitationRecord.resource_version invitation));
            ("created_at_unix",
             json_int (PlatformOrganizationInvitationRecord.created_at_unix invitation));
            ("updated_at_unix",
             json_int (PlatformOrganizationInvitationRecord.updated_at_unix invitation));
            ("invitation_token_hash_included", json_bool false);
            ("raw_invitation_token_included", json_bool false)].

Definition organization_invitation_preview_json
    (invitation : PlatformOrganizationInvitationRecord.t) (now_unix : Z) : V :=
  json_obj [("kind", json_str "organization_invitation_preview");
            ("id", json_str (PlatformOrganizationInvitationRecord.invitation_id invitation));
            ("invitation_id",
             json_str (PlatformOrganizationInvitationRecord.invitation_id invitation));
            ("tenant_id", json_str (PlatformOrganizationInvitationRecord.tenant_id invitation));
            ("organization_id",
             json_str (PlatformOrganizationInvitationRecord.organization_id invitation));
            ("project_id",
             json_opt_str (PlatformOrganizationInvitationRecord.project_id invitation));
            ("invited_email",
             json_opt_str (PlatformOrganizationInvitationRecord.invited_email invitation));
            ("role_id", json_str (PlatformOrganizationInvitationRecord.role_id invitation));
            ("status", json_str (organization_invitation_effective_status invitation now_unix));
            ("expires_at_unix",
             json_int (PlatformOrganizationInvitationRecord.expires_at_unix invitation));
            ("invitation_token_hash_included", json_bool false);
            ("raw_invitation_token_included", json_bool false)].

Definition mask_secret_ref_id (secret_ref_id : string) : string :=
  if starts_with "sec_" secret_ref_id then "sec_***" else "***".

Definition oidc_provider_safe_json (provider : OidcLoginProviderRecord.t) : V :=
  json_obj [("identity_provider_id",
             json_str (OidcLoginProviderRecord.identity_provider_id provider));
            ("tenant_id", json_str (OidcLoginProviderRecord.tenant_id provider));
            ("provider_kind", json_str "oidc");
            ("display_name", json_str (OidcLoginProviderRecord.display_name provider));
            ("issuer_url", json_str (OidcLoginProviderRecord.issuer_url provider));
            ("authorization_endpoint",
             json_str (OidcLoginProviderRecord.authorization_endpoint provider));
            ("token_endpoint", json_str (OidcLoginProviderRecord.token_endpoint provider));
            ("jwks_uri", json_str (OidcLoginProviderRecord.jwks_uri provider));
            ("client_id", json_str (OidcLoginProviderRecord.client_id provider));
            ("client_secret_ref", json_opt_str
               (mask_secret_ref_id <$> OidcLoginProviderRecord.client_secret_ref provider));
            ("client_secret_ref_configured",
             json_bool (OidcLoginProviderRecord.client_secret_ref provider !=? None));
            ("token_endpoint_auth_method", json_str (OidcTokenEndpointAuthMethod.as_str
               (OidcLoginProviderRecord.token_endpoint_auth_method provider)));
            ("redirect_uri", json_str (OidcLoginProviderRecord.redirect_uri provider));
            ("requested_scopes", json_strs (OidcLoginProviderRecord.requested_scopes provider));
            ("accepted_audiences", json_strs (OidcLoginProviderRecord.accepted_audiences provider));
            ("status", json_str (OidcLoginProviderStatus.as_str
                                   (OidcLoginProviderRecord.status provider)));
            ("raw_secret_included", json_bool false)].

Definition single_user_provider_public_json : V :=
  json_obj [("identity_provider_id", json_str SINGLE_USER_IDENTITY_PROVIDER_ID);
            ("tenant_id", json_str SINGLE_USER_TENANT_ID);
            ("provider_kind", json_str "single_user_password");
            ("display_name", json_str "Single-user password");
            ("login_path", json_str "/auth/v1/single-user/login");
            ("status", json_str "active");
            ("provider_secret_material_included", json_bool false)].

Definition oidc_provider_public_json (provider : OidcLoginProviderRecord.t) : V :=
  let id := OidcLoginProviderRecord.identity_provider_id provider in
  json_obj [("identity_provider_id", json_str id);
            ("tenant_id", json_str (OidcLoginProviderRecord.tenant_id provider));
            ("provider_kind", json_str "oidc");
            ("display_name", json_str (OidcLoginProviderRecord.display_name provider));
            ("issuer_url", json_str (OidcLoginProviderRecord.issuer_url provider));
            ("login_path", json_str ("/auth/v1/providers/" +:+ id +:+ "/login"));
            ("start_path", json_str ("/auth/v1/providers/" +:+ id +:+ "/start"));
            ("requested_scopes", json_strs (OidcLoginProviderRecord.requested_scopes provider));
            ("status", json_str (OidcLoginProviderStatus.as_str
                                   (OidcLoginProviderRecord.status provider)));
            ("confidential_client",
             json_bool (OidcLoginProviderRecord.client_secret_ref provider !=? None));
            ("provider_secret_material_included", json_bool false)].

Definition secret_ref_safe_json (secret_ref : PlatformSecretRefRecord.t) : V :=
  json_obj [("secret_ref_id", json_str (PlatformSecretRefRecord.secret_ref_id secret_ref));
            ("tenant_id", json_str (PlatformSecretRefRecord.tenant_id secret_ref));
            ("organization_id", json_opt_str (PlatformSecretRefRecord.organization_id secret_ref));
            ("project_id", json_opt_str (PlatformSecretRefRecord.project_id secret_ref));
            ("purpose", json_str (PlatformSecretRefRecord.purpose secret_ref));
            ("backend_kind", json_str (PlatformSecretRefRecord.backend_kind secret_ref));
            ("backend_locator", json_str (PlatformSecretRefRecord.backend_locator secret_ref));
            ("display_mask", json_str (PlatformSecretRefRecord.display_mask secret_ref));
            ("fingerprint", json_str (PlatformSecretRefRecord.fingerprint secret_ref));
            ("status", json_str (PlatformSecretRefStatus.as_str
                                   (PlatformSecretRefRecord.status secret_ref)));
            ("raw_secret_included", json_bool false)].

Definition external_identity_safe_json (identity : PlatformExternalIdentityRecord.t) : V :=
  json_obj [("kind", json_str "external_identity");
            ("id", json_str (PlatformExternalIdentityRecord.external_identity_id identity));
            ("external_identity_id",
             json_str (PlatformExternalIdentityRecord.external_identity_id identity));
            ("tenant_id", json_str (PlatformExternalIdentityRecord.tenant_id identity));
            ("principal_id", json_str (PlatformExternalIdentityRecord.principal_id identity));
            ("identity_provider_id",
             json_str (PlatformExternalIdentityRecord.identity_provider_id identity));
            ("provider_kind", json_str (PlatformExternalIdentityRecord.provider_kind identity));
            ("provider_subject",
             json_str (PlatformExternalIdentityRecord.provider_subject identity));
            ("email", json_opt_str (PlatformExternalIdentityRecord.email identity));
            ("email_verified", json_bool (PlatformExternalIdentityRecord.email_verified identity));
            ("status", json_str (PlatformExternalIdentityStatus.as_str
                                   (PlatformExternalIdentityRecord.status identity)));
            ("raw_provider_token_included", json_bool false);
            ("access_token_included", json_bool false);
            ("refresh_token_included", json_bool false);
            ("client_secret_included", json_bool false)].

Definition audit_event_safe_json (record : PlatformAuditEventRecord.t) : V :=
  json_obj [("kind", json_str "audit_event");
            ("id", json_str (PlatformAuditEventRecord.audit_event_id record));
            ("audit_event_id", json_str (PlatformAuditEventRecord.audit_event_id record));
            ("tenant_id", json_str (PlatformAuditEventRecord.tenant_id record));
            ("organization_id", json_opt_str (PlatformAuditEventRecord.organization_id record));
            ("project_id", json_opt_str (PlatformAuditEventRecord.project_id record));
            ("actor_principal_id", json_str (PlatformAuditEventRecord.actor_principal_id record));
            ("actor_kind",
             json_str (actor_kind_name (PlatformAuditEventRecord.actor_kind record)));
            ("action_id", json_str (PlatformAuditEventRecord.action_id record));
            ("resource_kind", json_str (PlatformAuditEventRecord.resource_kind record));
            ("resource_id", json_str (PlatformAuditEventRecord.resource_id record));
            ("event_type", json_str (PlatformAuditEventRecord.event_type record));
            ("reason", json_opt_str (PlatformAuditEventRecord.reason record));
            ("redaction", json_str (PlatformAuditEventRecord.redaction record));
            ("created_at_unix", json_int (PlatformAuditEventRecord.created_at_unix record))].

(** [json!({"schema": ..., "resource": ...})] with further fields, and a list. *)
Definition resource_body (schema : string) (resource : V) (rest : list (string * V)) : V :=
  json_obj (("schema", json_str schema) :: ("resource", resource) :: rest).
Definition reason_recorded (reason : option string) : string * V :=
  ("reason_recorded", json_bool (match trimmed reason with Some _ => true | None => false end)).
Definition json_count (n : nat) : V := json_int (Z.of_nat n).
End json.
