(* ===== verification/PlatHandlers.v ===== *)
(** * The platform service: request handlers

    [service.rs] of the platform crate, one definition per handler: the
    administration of identity providers, users, sessions, audit events, role
    bindings, members, invitations and secrets; OIDC and single-user login;
    invitations, session context and logout; and the foundation routes.  Random
    bytes and the clock are arguments; the environment, the HTTP client, the
    URL and base64 libraries and [jsonwebtoken] are parameters.  A handler
    returns the JSON body of its answer. *)

From Stdlib Require Import Ascii.
From S2P Require Import Prelude Order Text Json PlatAction PlatUser PlatRole PlatMembership.
From S2P Require Import PlatInvitation PlatAudit PlatSession PlatResource PlatRoute PlatIdentity.
From S2P Require Import PlatSecret PlatConfig PlatService PlatRequests.

(** ** Records made from requests *)

Definition role_binding_record_from_create_request (id_bytes : list Z)
    (request : CreateRoleBindingRequest.t) (tenant_id : string)
    : result ServiceError.t PlatformRoleBindingRecord.t :=
  let record := PlatformRoleBindingRecord.mk
    (default (new_prefixed_id "rb" id_bytes)
       (normalized_optional_string (CreateRoleBindingRequest.binding request)))
    tenant_id
    (normalized_optional_string (CreateRoleBindingRequest.organization request))
    (normalized_optional_string (CreateRoleBindingRequest.project request))
    (trim (CreateRoleBindingRequest.principal request))
    (trim (CreateRoleBindingRequest.role request)) PlatformRoleBindingStatus.Active 1 in
  match validate_role_binding record with
  | Ok _ => Ok record
  | Err e => Err (role_binding_error_to_service e)
  end.

Definition organization_invitation_record_from_create_request `{Sha256Library}
    (id_bytes : list Z) (raw_token : string) (request : CreateOrganizationInvitationRequest.t)
    (actor : AuthenticatedActor.t) (organization_id : string) (now_unix : Z)
    : result ServiceError.t (PlatformOrganizationInvitationRecord.t * string) :=
  ensure (starts_with "org_" organization_id) (ServiceError.BadRequest "organization_id_invalid");;
  let invited_email :=
    CreateOrganizationInvitationRequest.invited_email request ≫= normalized_email in
  let invited_principal_id :=
    normalized_optional_string (CreateOrganizationInvitationRequest.invited_principal_id request) in
  match invited_email, invited_principal_id with
  | Some _, None | None, Some _ => Ok tt
  | _, _ => Err (ServiceError.BadRequest "invitation_target_invalid")
  end;;
  match invited_principal_id with
  | Some principal_id =>
      ensure (starts_with "usr_" principal_id) (ServiceError.BadRequest "principal_id_invalid")
  | None => Ok tt
  end;;
  let project_id :=
    normalized_optional_string (CreateOrganizationInvitationRequest.project_id request) in
  match project_id with
  | Some project_id =>
      ensure (starts_with "prj_" project_id) (ServiceError.BadRequest "project_id_invalid")
  | None => Ok tt
  end;;
  let expires_at_unix := default (wrap_i64 (now_unix + ORGANIZATION_INVITATION_TTL_SECONDS))
    (CreateOrganizationInvitationRequest.expires_at_unix request) in
  ensure (now_unix <? expires_at_unix)%Z (ServiceError.BadRequest "invitation_expiry_invalid");;
  let invitation := PlatformOrganizationInvitationRecord.mk
    (default (new_prefixed_id "inv" id_bytes)
       (normalized_optional_string (CreateOrganizationInvitationRequest.invitation_id request)))
    (AuthenticatedActor.tenant_id actor) organization_id project_id invited_email
    invited_principal_id (hash_platform_invitation_token raw_token)
    (default "organization_member"
       (normalized_optional_string (CreateOrganizationInvitationRequest.role_id request)))
    PlatformInvitationStatus.Pending expires_at_unix None (AuthenticatedActor.principal_id actor)
    1 now_unix now_unix in
  match validate_organization_invitation invitation with
  | Ok _ => Ok (invitation, raw_token)
  | Err e => Err (invitation_error_to_service e)
  end.

Definition token_endpoint_auth_method_from_request (requested : option string)
    (has_secret_ref : bool) : result ServiceError.t OidcTokenEndpointAuthMethod.t :=
  match trimmed requested with
  | Some value =>
      ok_or (OidcTokenEndpointAuthMethod.from_id value)
        (ServiceError.BadRequest "oidc_token_endpoint_auth_method_invalid")
  | None => Ok (if has_secret_ref then OidcTokenEndpointAuthMethod.ClientSecretBasic
                else OidcTokenEndpointAuthMethod.NoSecret)
  end.

Definition oidc_provider_status_from_request (status : option string)
    : result ServiceError.t OidcLoginProviderStatus.t :=
  let status := match status with Some status => trim status | None => "active" end in
  if status ==? "active" then Ok OidcLoginProviderStatus.Active
  else if status ==? "disabled" then Ok OidcLoginProviderStatus.Disabled
  else if status ==? "deleted" then Ok OidcLoginProviderStatus.Deleted
  else Err (ServiceError.BadRequest "oidc_provider_status_invalid").

Definition oidc_provider_record_from_create_request (id_bytes : list Z)
    (request : CreateOidcIdentityProviderRequest.t) (tenant_id : string)
    : result ServiceError.t OidcLoginProviderRecord.t :=
  let identity_provider_id := default (new_prefixed_id "idp" id_bytes)
    (trimmed (CreateOidcIdentityProviderRequest.identity_provider_id request)) in
  let client_secret_ref :=
    normalized_optional_string (CreateOidcIdentityProviderRequest.client_secret_ref request) in
  token_endpoint_auth_method ← token_endpoint_auth_method_from_request
    (CreateOidcIdentityProviderRequest.token_endpoint_auth_method request)
    (match client_secret_ref with Some _ => true | None => false end);
  status ← oidc_provider_status_from_request (CreateOidcIdentityProviderRequest.status request);
  let or_empty value := match value with Some value => trim value | None => "" end in
  let record := OidcLoginProviderRecord.mk identity_provider_id tenant_id
    (trim (CreateOidcIdentityProviderRequest.display_name request))
    (trim (CreateOidcIdentityProviderRequest.issuer_url request))
    (or_empty (CreateOidcIdentityProviderRequest.authorization_endpoint request))
    (or_empty (CreateOidcIdentityProviderRequest.token_endpoint request))
    (or_empty (CreateOidcIdentityProviderRequest.jwks_uri request))
    (trim (CreateOidcIdentityProviderRequest.client_id request))
    client_secret_ref token_endpoint_auth_method
    (trim (CreateOidcIdentityProviderRequest.redirect_uri request))
    (normalized_string_vec (CreateOidcIdentityProviderRequest.requested_scopes request))
    (normalized_string_vec (CreateOidcIdentityProviderRequest.accepted_audiences request))
    status in
  match validate_oidc_login_provider_base record with
  | Ok _ => Ok record
  | Err e => Err (ServiceError.BadRequest (OidcValidationError.as_str e))
  end.

(** ** Administration *)

Section admin.
Context {V : Type} `{JsonLibrary V} `{Sha256Library} (env : string → option string).

Definition secret_ref_record_from_create_request (id_bytes : list Z)
    (request : CreateSecretRefHttpRequest.t) (tenant_id : string) (actor : AuthenticatedActor.t)
    : Svc PlatformSecretRefRecord.t :=
  let backend_kind := default ENVIRONMENT_SECRET_BACKEND
    (trimmed (CreateSecretRefHttpRequest.backend_kind request)) in
  backend_locator ← lift (ok_or (trimmed
      (match CreateSecretRefHttpRequest.backend_locator request with
       | Some locator => Some locator
       | None => CreateSecretRefHttpRequest.environment_variable request
       end)) (ServiceError.BadRequest "secret_backend_locator_empty"));
  let create := CreatePlatformSecretRefRequest.mk
    (default (new_prefixed_id "sec" id_bytes)
       (trimmed (CreateSecretRefHttpRequest.secret_ref_id request)))
    tenant_id (AuthenticatedActor.organization_id actor) (AuthenticatedActor.project_id actor)
    (trim (CreateSecretRefHttpRequest.purpose request)) backend_kind backend_locator
    (CreateSecretRefHttpRequest.secret_value request) (AuthenticatedActor.principal_id actor) in
  if backend_kind ==? IN_MEMORY_SECRET_BACKEND then
    zoom PlatformServiceState.secrets PlatformServiceState.set_secrets secret_error_to_service
      (InMemoryPlatformSecretStore.create_secret_ref create)
  else if backend_kind ==? ENVIRONMENT_SECRET_BACKEND then
    zoom PlatformServiceState.secrets PlatformServiceState.set_secrets secret_error_to_service
      (InMemoryPlatformSecretStore.create_environment_secret_ref env create)
  else throw (ServiceError.BadRequest "secret_backend_kind_unsupported").

Definition create_oidc_identity_provider (headers : HeaderMap) (id_bytes : list Z)
    (request : CreateOidcIdentityProviderRequest.t) : Svc V :=
  lift (ensure (CreateOidcIdentityProviderRequest.client_secret request ==? None)
          (ServiceError.BadRequest "oidc_client_secret_raw_unsupported"));;
  actor ← authenticated_actor_from_headers headers;
  tenant_id ← lift (tenant_from_request_or_actor
                      (CreateOidcIdentityProviderRequest.tenant_id request) actor);
  let resource := ResourceRef.tenant "IdentityProvider" tenant_id tenant_id in
  authorize_service_action actor PlatformAction.IdentityProviderWrite resource;;
  provider ← lift (oidc_provider_record_from_create_request id_bytes request tenant_id);
  match OidcLoginProviderRecord.client_secret_ref provider with
  | Some secret_ref_id =>
      secret ← secret_ref_by_id secret_ref_id;
      lift (ensure (PlatformSecretRefRecord.tenant_id secret
                    ==? OidcLoginProviderRecord.tenant_id provider)
              (ServiceError.Forbidden "tenant_mismatch"))
  | None => mret tt
  end;;
  upsert_oidc_login_provider provider;;
  mret (resource_body "platform.admin.identity_provider.v1" (oidc_provider_safe_json provider) []).

Definition list_oidc_identity_providers (headers : HeaderMap) : Svc V :=
  actor ← authenticated_actor_from_headers headers;
  let tenant_id := AuthenticatedActor.tenant_id actor in
  authorize_service_action actor PlatformAction.IdentityProviderRead
    (ResourceRef.tenant "IdentityProvider" tenant_id tenant_id);;
  providers ← oidc_login_providers_for_tenant tenant_id;
  mret (json_obj [("schema", json_str "platform.admin.identity_provider.list.v1");
                  ("resources", json_arr (oidc_provider_safe_json <$> providers))]).

Definition get_oidc_identity_provider (headers : HeaderMap) (identity_provider_id : string)
    : Svc V :=
  actor ← authenticated_actor_from_headers headers;
  provider ← oidc_login_provider identity_provider_id;
  authorize_service_action actor PlatformAction.IdentityProviderRead
    (ResourceRef.tenant "IdentityProvider" (OidcLoginProviderRecord.tenant_id provider)
       (OidcLoginProviderRecord.identity_provider_id provider));;
  mret (resource_body "platform.admin.identity_provider.v1" (oidc_provider_safe_json provider) []).

Definition list_platform_users (headers : HeaderMap) : Svc V :=
  actor ← authenticated_actor_from_headers headers;
  let tenant_id := AuthenticatedActor.tenant_id actor in
  authorize_service_action actor PlatformAction.UserRead
    (ResourceRef.tenant "User" tenant_id tenant_id);;
  users ← platform_users_for_tenant tenant_id;
  mret (json_obj [("schema", json_str "platform.admin.user.list.v1");
                  ("resources", json_arr (platform_user_safe_json <$> users))]).

Definition get_platform_user (headers : HeaderMap) (user_id : string) : Svc V :=
  lift (validate_user_id user_id);;
  actor ← authenticated_actor_from_headers headers;
  user ← platform_user_by_id user_id;
  lift (ensure_actor_tenant actor (PlatformUserRecord.tenant_id user));;
  authorize_service_action actor PlatformAction.UserRead (platform_user_resource user);;
  mret (resource_body "platform.admin.user.v1" (platform_user_safe_json user) []).

Definition update_platform_user_status (headers : HeaderMap) (audit_bytes : list Z)
    (now_unix : Z) (user_id : string) (request : UpdatePlatformUserStatusRequest.t) : Svc V :=
  lift (validate_user_id user_id);;
  actor ← authenticated_actor_from_headers headers;
  before ← platform_user_by_id user_id;
  lift (ensure_actor_tenant actor (PlatformUserRecord.tenant_id before));;
  let resource := platform_user_resource before in
  authorize_service_action actor PlatformAction.UserWrite resource;;
  lift (require_strong_auth_confirmation
          (UpdatePlatformUserStatusRequest.strong_auth_confirmation request));;
  status ← lift (platform_user_status_from_request
                   (UpdatePlatformUserStatusRequest.status request));
  updated ← set_platform_user_status user_id
    (UpdatePlatformUserStatusRequest.expected_version request) status;
  disabled_session_count ←
    (if PlatformUserStatus.accepts_access (PlatformUserRecord.status updated) then mret 0
     else disable_auth_sessions_for_principal (PlatformUserRecord.tenant_id updated)
            (PlatformUserRecord.user_id updated));
  audit_event ← record_platform_audit_event audit_bytes now_unix actor PlatformAction.UserWrite
    resource "platform.user.status.update" (UpdatePlatformUserStatusRequest.reason request);
  mret (resource_body "platform.admin.user_mutation.v1" (platform_user_safe_json updated)
    [("previous_status",
      json_str (PlatformUserStatus.as_str (PlatformUserRecord.status before)));
     ("disabled_session_count", json_count disabled_session_count);
     reason_recorded (UpdatePlatformUserStatusRequest.reason request);
     ("strong_auth_confirmed", json_bool true);
     ("audit_event_id", json_str (PlatformAuditEventRecord.audit_event_id audit_event))]).

Definition list_user_auth_sessions (headers : HeaderMap) (user_id : string) : Svc V :=
  lift (validate_user_id user_id);;
  actor ← authenticated_actor_from_headers headers;
  user ← platform_user_by_id user_id;
  lift (ensure_actor_tenant actor (PlatformUserRecord.tenant_id user));;
  authorize_service_action actor PlatformAction.AuthSessionRead
    (ResourceRef.tenant "AuthSession" (PlatformUserRecord.tenant_id user)
       (PlatformUserRecord.user_id user));;
  sessions ← auth_sessions_for_principal (PlatformUserRecord.tenant_id user)
               (PlatformUserRecord.user_id user);
  mret (json_obj [("schema", json_str "platform.admin.user_auth_session.list.v1");
                  ("user_id", json_str (PlatformUserRecord.user_id user));
                  ("resources", json_arr (auth_session_safe_json <$> sessions))]).

Definition revoke_user_auth_session (headers : HeaderMap) (audit_bytes : list Z) (now_unix : Z)
    (user_id auth_session_id : string) (request : ConfirmedRequest.t) : Svc V :=
  lift (validate_user_id user_id);;
  actor ← authenticated_actor_from_headers headers;
  user ← platform_user_by_id user_id;
  lift (ensure_actor_tenant actor (PlatformUserRecord.tenant_id user));;
  let resource := ResourceRef.tenant "AuthSession" (PlatformUserRecord.tenant_id user)
    auth_session_id in
  authorize_service_action actor PlatformAction.AuthSessionRevoke resource;;
  lift (require_strong_auth_confirmation (ConfirmedRequest.strong_auth_confirmation request));;
  before ← auth_session_by_id auth_session_id;
  lift (ensure_auth_session_belongs_to_user before user);;
  revoked ← revoke_auth_session_by_id auth_session_id;
  audit_event ← record_platform_audit_event audit_bytes now_unix actor
    PlatformAction.AuthSessionRevoke resource "platform.auth_session.revoke"
    (ConfirmedRequest.reason request);
  mret (resource_body "platform.admin.user_auth_session_mutation.v1"
    (auth_session_safe_json revoked)
    [("previous_status",
      json_str (PlatformAuthSessionStatus.as_str (PlatformAuthSessionRecord.status before)));
     reason_recorded (ConfirmedRequest.reason request);
     ("strong_auth_confirmed", json_bool true);
     ("audit_event_id", json_str (PlatformAuditEventRecord.audit_event_id audit_event))]).

(** The sorted events of a query, once it is authorized, with limit and offset. *)
Definition audit_events_of_query (headers : HeaderMap) (query : ListPlatformAuditEventsQuery.t)
    : Svc (list PlatformAuditEventRecord.t * N * N) :=
  actor ← authenticated_actor_from_headers headers;
  lift (require_strong_auth_confirmation
          (ListPlatformAuditEventsQuery.strong_auth_confirmation query));;
  lift (validate_audit_event_list_query query);;
  resource ← lift (audit_event_list_resource actor query);
  authorize_service_action actor PlatformAction.AuditEventRead resource;;
  limit ← lift (audit_event_list_limit (ListPlatformAuditEventsQuery.limit query));
  offset ← lift (audit_event_list_offset (ListPlatformAuditEventsQuery.cursor query));
  events ← platform_audit_events_for_tenant (AuthenticatedActor.tenant_id actor);
  mret (sort_by audit_order (List.filter (audit_event_matches_query query) events), limit, offset).

Definition list_platform_audit_events (headers : HeaderMap)
    (query : ListPlatformAuditEventsQuery.t) : Svc V :=
  elo ← audit_events_of_query headers query;
  let '(events, limit, offset) := elo in
  let '(page, next_cursor) := audit_page events limit offset in
  mret (json_obj [("schema", json_str "platform.admin.audit_event.list.v1");
                  ("resources", json_arr (audit_event_safe_json <$> page));
                  ("limit", json_int (Z.of_N limit));
                  ("cursor", json_opt_str (ListPlatformAuditEventsQuery.cursor query));
                  ("next_cursor", json_opt_str next_cursor);
                  ("total_filtered_count", json_count (length events));
                  ("strong_auth_confirmed", json_bool true)]).

Definition list_user_external_identities (headers : HeaderMap) (user_id : string) : Svc V :=
  lift (validate_user_id user_id);;
  actor ← authenticated_actor_from_headers headers;
  authorize_service_action actor PlatformAction.ExternalIdentityRead
    (ResourceRef.tenant "ExternalIdentity" (AuthenticatedActor.tenant_id actor) user_id);;
  identities ← external_identities_for_principal (AuthenticatedActor.tenant_id actor) user_id;
  mret (json_obj [("schema", json_str "platform.admin.external_identity.list.v1");
                  ("user_id", json_str user_id);
                  ("resources", json_arr (external_identity_safe_json <$> identities))]).

Definition get_user_external_identity (headers : HeaderMap) (user_id external_identity_id : string)
    : Svc V :=
  lift (validate_user_id user_id);;
  actor ← authenticated_actor_from_headers headers;
  identity ← external_identity_for_actor actor user_id external_identity_id;
  authorize_service_action actor PlatformAction.ExternalIdentityRead
    (external_identity_resource identity);;
  mret (resource_body "platform.admin.external_identity.v1"
          (external_identity_safe_json identity) []).

Definition unlink_user_external_identity (headers : HeaderMap) (audit_bytes : list Z)
    (now_unix : Z) (user_id external_identity_id : string) (request : ConfirmedRequest.t)
    : Svc V :=
  lift (validate_user_id user_id);;
  actor ← authenticated_actor_from_headers headers;
  before ← external_identity_for_actor actor user_id external_identity_id;
  lift (ensure (PlatformExternalIdentityRecord.provider_kind before !=? "single_user")
          (ServiceError.BadRequest "single_user_identity_unlink_forbidden"));;
  let resource := external_identity_resource before in
  authorize_service_action actor PlatformAction.ExternalIdentityUnlink resource;;
  lift (require_strong_auth_confirmation (ConfirmedRequest.strong_auth_confirmation request));;
  unlinked ← unlink_external_identity external_identity_id;
  audit_event ← record_platform_audit_event audit_bytes now_unix actor
    PlatformAction.ExternalIdentityUnlink resource "platform.external_identity.unlink"
    (ConfirmedRequest.reason request);
  mret (resource_body "platform.admin.external_identity_mutation.v1"
    (external_identity_safe_json unlinked)
    [("previous_status", json_str (PlatformExternalIdentityStatus.as_str
        (PlatformExternalIdentityRecord.status before)));
     reason_recorded (ConfirmedRequest.reason request);
     ("strong_auth_confirmed", json_bool true);
     ("audit_event_id", json_str (PlatformAuditEventRecord.audit_event_id audit_event));
     ("unlinked", json_bool (PlatformExternalIdentityRecord.status unlinked
        ==? PlatformExternalIdentityStatus.Deleted));
     ("raw_tokens_included", json_bool false)]).

Definition list_role_bindings (headers : HeaderMap) : Svc V :=
  actor ← authenticated_actor_from_headers headers;
  let resource := role_binding_collection_resource_for_actor actor in
  authorize_service_action actor PlatformAction.RoleBindingRead resource;;
  bindings ← role_bindings_for_tenant (AuthenticatedActor.tenant_id actor);
  mret (json_obj [("schema", json_str "platform.admin.role_binding.list.v1");
                  ("resources", json_arr (role_binding_safe_json
                     <$> List.filter (role_binding_visible_in_collection resource) bindings))]).

Definition create_role_binding (headers : HeaderMap) (id_bytes : list Z)
    (request : CreateRoleBindingRequest.t) : Svc V :=
  actor ← authenticated_actor_from_headers headers;
  tenant_id ← lift (tenant_from_request_or_actor (CreateRoleBindingRequest.tenant request) actor);
  candidate ← lift (role_binding_record_from_create_request id_bytes request tenant_id);
  let resource := role_binding_resource candidate in
  authorize_service_action actor PlatformAction.RoleBindingWrite resource;;
  existing ← equivalent_role_binding candidate;
  let requested := default candidate existing in
  binding ← upsert_role_binding requested;
  mret (resource_body "platform.admin.role_binding_mutation.v1" (role_binding_safe_json binding)
    [("created", json_bool (match existing with Some _ => false | None => true end))]).

Definition get_role_binding (headers : HeaderMap) (role_binding_id : string) : Svc V :=
  actor ← authenticated_actor_from_headers headers;
  binding ← role_binding_by_id role_binding_id;
  authorize_service_action actor PlatformAction.RoleBindingRead (role_binding_resource binding);;
  mret (resource_body "platform.admin.role_binding.v1" (role_binding_safe_json binding) []).

Definition update_role_binding_status (headers : HeaderMap) (role_binding_id : string)
    (request : UpdateRoleBindingStatusRequest.t) : Svc V :=
  actor ← authenticated_actor_from_headers headers;
  before ← role_binding_by_id role_binding_id;
  let resource := role_binding_resource before in
  authorize_service_action actor PlatformAction.RoleBindingWrite resource;;
  status ← lift (role_binding_status_from_request (UpdateRoleBindingStatusRequest.status request));
  updated ← set_role_binding_status role_binding_id
    (UpdateRoleBindingStatusRequest.expected_version request) status;
  mret (resource_body "platform.admin.role_binding_mutation.v1" (role_binding_safe_json updated)
    [("previous_status", json_str (PlatformRoleBindingStatus.as_str
        (PlatformRoleBindingRecord.status before)));
     reason_recorded (UpdateRoleBindingStatusRequest.reason request)]).

Definition list_organization_members (headers : HeaderMap) (organization_id : string) : Svc V :=
  actor ← authenticated_actor_from_headers headers;
  resource ← lift (organization_scope_resource actor organization_id "OrganizationMember");
  authorize_service_action actor PlatformAction.OrganizationMemberRead resource;;
  members ← organization_members_for_organization organization_id;
  mret (json_obj [("schema", json_str "platform.admin.organization_member.list.v1");
                  ("organization_id", json_str organization_id);
                  ("resources", json_arr (organization_member_safe_json <$>
                     List.filter (λ member, PlatformOrganizationMembershipRecord.tenant_id member
                                            ==? AuthenticatedActor.tenant_id actor) members))]).

Definition create_organization_member (headers : HeaderMap) (id_bytes : list Z)
    (organization_id : string) (request : CreateOrganizationMemberRequest.t) : Svc V :=
  lift (validate_organization_id organization_id);;
  actor ← authenticated_actor_from_headers headers;
  resource ← lift (organization_scope_resource actor organization_id "OrganizationMember");
  authorize_service_action actor PlatformAction.OrganizationMemberWrite resource;;
  let principal_id := trim (CreateOrganizationMemberRequest.principal_id request) in
  membership_kind ← lift (normalized_membership_kind
    (CreateOrganizationMemberRequest.membership_kind request));
  existing_members ← organization_members_for_organization organization_id;
  let existing := List.find (λ member,
    (PlatformOrganizationMembershipRecord.tenant_id member ==? AuthenticatedActor.tenant_id actor)
    && (PlatformOrganizationMembershipRecord.organization_id member ==? organization_id)
    && (PlatformOrganizationMembershipRecord.principal_id member ==? principal_id))
    existing_members in
  let organization_member_id :=
    match normalized_optional_string
            (CreateOrganizationMemberRequest.organization_member_id request) with
    | Some id => id
    | None =>
        match existing with
        | Some member => PlatformOrganizationMembershipRecord.organization_member_id member
        | None => new_prefixed_id "om" id_bytes
        end
    end in
  member ← upsert_organization_member organization_member_id organization_id principal_id
    membership_kind actor;
  mret (resource_body "platform.admin.organization_member_mutation.v1"
    (organization_member_safe_json member)
    [("created", json_bool (match existing with Some _ => false | None => true end))]).

Definition get_organization_member (headers : HeaderMap)
    (organization_id organization_member_id : string) : Svc V :=
  actor ← authenticated_actor_from_headers headers;
  member ← organization_member_for_actor actor organization_id organization_member_id;
  authorize_service_action actor PlatformAction.OrganizationMemberRead
    (organization_member_resource member);;
  mret (resource_body "platform.admin.organization_member.v1"
          (organization_member_safe_json member) []).

(** The cascade of a new status of an organization member. *)
Definition apply_organization_member_status (organization_member_id : string)
    (expected_version : Z) (status : PlatformMembershipStatus.t)
    : Svc (PlatformOrganizationMembershipRecord.t * nat * nat) :=
  updated ← set_organization_member_status organization_member_id expected_version status;
  projects ← cascade_project_memberships_for_organization_member updated status;
  bindings ← (if status ==? PlatformMembershipStatus.Removed
              then delete_role_bindings_for_organization_principal updated else mret 0);
  mret (updated, projects, bindings).

Definition update_organization_member_status (headers : HeaderMap)
    (organization_id organization_member_id : string) (request : UpdateMembershipStatusRequest.t)
    : Svc V :=
  actor ← authenticated_actor_from_headers headers;
  before ← organization_member_for_actor actor organization_id organization_member_id;
  authorize_service_action actor PlatformAction.OrganizationMemberWrite
    (organization_member_resource before);;
  status ← lift (membership_status_from_request (UpdateMembershipStatusRequest.status request));
  ucc ← apply_organization_member_status organization_member_id
    (UpdateMembershipStatusRequest.expected_version request) status;
  let '(updated, projects, bindings) := ucc in
  mret (resource_body "platform.admin.organization_member_mutation.v1"
    (organization_member_safe_json updated)
    [("previous_status", json_str (PlatformMembershipStatus.as_str
        (PlatformOrganizationMembershipRecord.status before)));
     ("cascaded_project_member_count", json_count projects);
     ("cascaded_role_binding_count", json_count bindings);
     reason_recorded (UpdateMembershipStatusRequest.reason request)]).

Definition remove_organization_member (headers : HeaderMap)
    (organization_id organization_member_id : string) (request : VersionedRequest.t) : Svc V :=
  actor ← authenticated_actor_from_headers headers;
  before ← organization_member_for_actor actor organization_id organization_member_id;
  authorize_service_action actor PlatformAction.OrganizationMemberWrite
    (organization_member_resource before);;
  ucc ← apply_organization_member_status organization_member_id
    (VersionedRequest.expected_version request) PlatformMembershipStatus.Removed;
  let '(updated, projects, bindings) := ucc in
  mret (resource_body "platform.admin.organization_member_mutation.v1"
    (organization_member_safe_json updated)
    [("previous_status", json_str (PlatformMembershipStatus.as_str
        (PlatformOrganizationMembershipRecord.status before)));
     ("removed", json_bool (PlatformOrganizationMembershipRecord.status updated
        ==? PlatformMembershipStatus.Removed));
     ("cascaded_project_member_count", json_count projects);
     ("cascaded_role_binding_count", json_count bindings);
     reason_recorded (VersionedRequest.reason request)]).

Definition list_organization_invitations (headers : HeaderMap) (now_unix : Z)
    (organization_id : string) : Svc V :=
  actor ← authenticated_actor_from_headers headers;
  resource ← lift (organization_scope_resource actor organization_id "OrganizationInvitation");
  authorize_service_action actor PlatformAction.OrganizationInvitationRead resource;;
  invitations ← organization_invitations_for_organization (AuthenticatedActor.tenant_id actor)
    organization_id;
  mret (json_obj [("schema", json_str "platform.admin.organization_invitation.list.v1");
                  ("organization_id", json_str organization_id);
                  ("resources",
                   json_arr (organization_invitation_safe_json now_unix <$> invitations))]).

Definition create_organization_invitation (headers : HeaderMap) (id_bytes : list Z)
    (raw_token : string) (now_unix : Z) (organization_id : string)
    (request : CreateOrganizationInvitationRequest.t) : Svc V :=
  actor ← authenticated_actor_from_headers headers;
  resource ← lift (organization_scope_resource actor organization_id "OrganizationInvitation");
  authorize_service_action actor PlatformAction.OrganizationInvitationCreate resource;;
  it ← lift (organization_invitation_record_from_create_request id_bytes raw_token request actor
               organization_id now_unix);
  created ← insert_organization_invitation it.1;
  mret (resource_body "platform.admin.organization_invitation_mutation.v1"
    (organization_invitation_safe_json now_unix created)
    [("invitation_token", json_str it.2); ("invitation_token_returned_once", json_bool true)]).

Definition get_organization_invitation (headers : HeaderMap) (now_unix : Z)
    (organization_id invitation_id : string) : Svc V :=
  actor ← authenticated_actor_from_headers headers;
  invitation ← organization_invitation_for_actor actor organization_id invitation_id;
  authorize_service_action actor PlatformAction.OrganizationInvitationRead
    (organization_invitation_resource invitation);;
  mret (resource_body "platform.admin.organization_invitation.v1"
          (organization_invitation_safe_json now_unix invitation) []).

Definition revoke_organization_invitation (headers : HeaderMap) (now_unix : Z)
    (organization_id invitation_id : string) (request : VersionedRequest.t) : Svc V :=
  actor ← authenticated_actor_from_headers headers;
  before ← organization_invitation_for_actor actor organization_id invitation_id;
  authorize_service_action actor PlatformAction.OrganizationInvitationManage
    (organization_invitation_resource before);;
  revoked ← revoke_organization_invitation_by_id invitation_id
    (VersionedRequest.expected_version request) now_unix;
  mret (resource_body "platform.admin.organization_invitation_mutation.v1"
    (organization_invitation_safe_json now_unix revoked)
    [("previous_status", json_str (PlatformInvitationStatus.as_str
        (PlatformOrganizationInvitationRecord.status before)));
     reason_recorded (VersionedRequest.reason request)]).

Definition list_project_members (headers : HeaderMap) (project_id : string) : Svc V :=
  actor ← authenticated_actor_from_headers headers;
  members ← project_members_for_project project_id;
  resource ← lift
    (match members with
     | [] => project_scope_resource actor project_id "ProjectMember"
     | member :: _ =>
         Ok (ResourceRef.project "ProjectMember" (PlatformProjectMembershipRecord.tenant_id member)
               (PlatformProjectMembershipRecord.organization_id member)
               (PlatformProjectMembershipRecord.project_id member)
               (PlatformProjectMembershipRecord.project_id member))
     end);
  authorize_service_action actor PlatformAction.ProjectMemberRead resource;;
  mret (json_obj [("schema", json_str "platform.admin.project_member.list.v1");
                  ("project_id", json_str project_id);
                  ("resources", json_arr (project_member_safe_json <$>
                     List.filter (λ member, PlatformProjectMembershipRecord.tenant_id member
                                            ==? AuthenticatedActor.tenant_id actor) members))]).

Definition create_project_member (headers : HeaderMap) (id_bytes : list Z) (project_id : string)
    (request : CreateProjectMemberRequest.t) : Svc V :=
  lift (validate_project_id project_id);;
  actor ← authenticated_actor_from_headers headers;
  organization_member ← active_organization_member_by_id_for_actor actor
    (CreateProjectMemberRequest.organization_member_id request);
  existing_project_members ← project_members_for_project project_id;
  lift (ensure_project_member_create_matches_project_organization existing_project_members
          organization_member);;
  let tenant_id := PlatformOrganizationMembershipRecord.tenant_id organization_member in
  authorize_service_action actor PlatformAction.ProjectMemberWrite
    (ResourceRef.project "ProjectMember" tenant_id
       (PlatformOrganizationMembershipRecord.organization_id organization_member) project_id
       project_id);;
  let existing := List.find (λ member,
    (PlatformProjectMembershipRecord.tenant_id member ==? tenant_id)
    && (PlatformProjectMembershipRecord.project_id member ==? project_id)
    && (PlatformProjectMembershipRecord.principal_id member
        ==? PlatformOrganizationMembershipRecord.principal_id organization_member))
    existing_project_members in
  let project_member_id :=
    match normalized_optional_string (CreateProjectMemberRequest.project_member_id request) with
    | Some id => id
    | None =>
        match existing with
        | Some member => PlatformProjectMembershipRecord.project_member_id member
        | None => new_prefixed_id "pm" id_bytes
        end
    end in
  created ← upsert_project_member_from_organization_member project_member_id project_id
    organization_member actor;
  mret (resource_body "platform.admin.project_member_mutation.v1"
    (project_member_safe_json created)
    [("created", json_bool (match existing with Some _ => false | None => true end));
     ("organization_member_required", json_bool true)]).

Definition get_project_member (headers : HeaderMap) (project_id project_member_id : string)
    : Svc V :=
  actor ← authenticated_actor_from_headers headers;
  member ← project_member_for_actor actor project_id project_member_id;
  authorize_service_action actor PlatformAction.ProjectMemberRead
    (project_member_resource member);;
  mret (resource_body "platform.admin.project_member.v1" (project_member_safe_json member) []).

Definition update_project_member_status (headers : HeaderMap)
    (project_id project_member_id : string) (request : UpdateMembershipStatusRequest.t) : Svc V :=
  actor ← authenticated_actor_from_headers headers;
  before ← project_member_for_actor actor project_id project_member_id;
  authorize_service_action actor PlatformAction.ProjectMemberWrite
    (project_member_resource before);;
  status ← lift (membership_status_from_request (UpdateMembershipStatusRequest.status request));
  updated ← set_project_member_status project_member_id
    (UpdateMembershipStatusRequest.expected_version request) status;
  bindings ← (if status ==? PlatformMembershipStatus.Removed
              then delete_role_bindings_for_project_principal updated else mret 0);
  mret (resource_body "platform.admin.project_member_mutation.v1"
    (project_member_safe_json updated)
    [("previous_status", json_str (PlatformMembershipStatus.as_str
        (PlatformProjectMembershipRecord.status before)));
     ("cascaded_role_binding_count", json_count bindings);
     reason_recorded (UpdateMembershipStatusRequest.reason request)]).

Definition create_platform_secret_ref (headers : HeaderMap) (id_bytes : list Z)
    (request : CreateSecretRefHttpRequest.t) : Svc V :=
  actor ← authenticated_actor_from_headers headers;
  tenant_id ← lift (tenant_from_request_or_actor
                      (CreateSecretRefHttpRequest.tenant_id request) actor);
  authorize_service_action actor PlatformAction.SecretRefWrite
    (ResourceRef.tenant "SecretRef" tenant_id tenant_id);;
  secret_ref ← secret_ref_record_from_create_request id_bytes request tenant_id actor;
  upsert_secret_ref secret_ref;;
  mret (resource_body "platform.admin.secret_ref.v1" (secret_ref_safe_json secret_ref) []).

Definition list_platform_secret_refs (headers : HeaderMap) : Svc V :=
  actor ← authenticated_actor_from_headers headers;
  let tenant_id := AuthenticatedActor.tenant_id actor in
  authorize_service_action actor PlatformAction.SecretRefRead
    (ResourceRef.tenant "SecretRef" tenant_id tenant_id);;
  refs ← secret_refs_for_tenant tenant_id;
  mret (json_obj [("schema", json_str "platform.admin.secret_ref.list.v1");
                  ("resources", json_arr (secret_ref_safe_json <$> refs))]).

Definition get_platform_secret_ref (headers : HeaderMap) (secret_ref_id : string) : Svc V :=
  actor ← authenticated_actor_from_headers headers;
  secret_ref ← secret_ref_by_id secret_ref_id;
  authorize_service_action actor PlatformAction.SecretRefRead
    (ResourceRef.tenant "SecretRef" (PlatformSecretRefRecord.tenant_id secret_ref)
       (PlatformSecretRefRecord.secret_ref_id secret_ref));;
  mret (resource_body "platform.admin.secret_ref.v1" (secret_ref_safe_json secret_ref) []).
End admin.
