(* ===== verification/PlatLogin.v ===== *)
(** * The platform service: logins, sessions and foundation routes

    [service.rs] of the platform crate: OIDC and single-user login, accepting
    an invitation, the context of a session and logout, and the routes whose
    answer is the authorized business record.  The HTTP client, the URL and
    base64 libraries and [jsonwebtoken] are parameters; random bytes and the
    clock are arguments. *)

From Stdlib Require Import Ascii.
From S2P Require Import Prelude Order Text Json PlatAction PlatUser PlatRole PlatMembership.
From S2P Require Import PlatInvitation PlatAudit PlatSession PlatResource PlatRoute PlatIdentity.
From S2P Require Import PlatSecret PlatConfig PlatService PlatRequests.

(** What the login flow uses of the network and of two libraries: a discovery
    document and a key set fetched from a URL, a token request answered with an
    ID token, a URL with query pairs appended, and unpadded base64url. *)
Class OidcLibrary `{JwtLibrary} : Type := {
  http_discovery : string → result ServiceError.t OidcDiscoveryDocument.t;
  http_jwks : string → result ServiceError.t (list Jwk);
  http_token : string → list (string * string) → option (string * string) →
    result ServiceError.t string;
  url_with_pairs : string → list (string * string) → option string;
  base64url : list Z → string;
}.

(** ** Pure parts of the OIDC login *)

Definition validate_oidc_callback_request (request : OidcLoginCallbackRequest.t)
    : result ServiceError.t unit :=
  let failed := ServiceError.AuthenticationFailed in
  ensure (trim (OidcLoginCallbackRequest.state request) !=? "") (failed "oidc_state_empty");;
  ensure (trim (OidcLoginCallbackRequest.code request) !=? "")
    (failed "oidc_authorization_code_empty");;
  ensure (trim (OidcLoginCallbackRequest.nonce request) !=? "") (failed "oidc_nonce_empty");;
  ensure (trim (OidcLoginCallbackRequest.code_verifier request) !=? "")
    (failed "oidc_pkce_verifier_empty").

Definition oidc_metadata_needs_discovery (provider : OidcLoginProviderRecord.t) : bool :=
  (trim (OidcLoginProviderRecord.authorization_endpoint provider) ==? "")
  || (trim (OidcLoginProviderRecord.token_endpoint provider) ==? "")
  || (trim (OidcLoginProviderRecord.jwks_uri provider) ==? "").

Section oidc_checks.
Context `{Sha256Library}.

Definition validate_oidc_callback_attempt (provider : OidcLoginProviderRecord.t)
    (attempt : OidcLoginAttemptRecord.t) (request : OidcLoginCallbackRequest.t) (now_unix : Z)
    : result ServiceError.t unit :=
  let failed := ServiceError.AuthenticationFailed in
  ensure (OidcLoginProviderRecord.status provider ==? OidcLoginProviderStatus.Active)
    (failed "oidc_provider_inactive");;
  ensure (negb ((OidcLoginAttemptRecord.tenant_id attempt
                 !=? OidcLoginProviderRecord.tenant_id provider)
                || (OidcLoginAttemptRecord.identity_provider_id attempt
                    !=? OidcLoginProviderRecord.identity_provider_id provider)
                || (OidcLoginAttemptRecord.status attempt !=? OidcLoginAttemptStatus.Active)
                || (OidcLoginAttemptRecord.expires_at_unix attempt <=? now_unix)%Z))
    (failed "oidc_login_attempt_unavailable");;
  ensure (OidcLoginAttemptRecord.state_hash attempt
          ==? hash_oidc_login_state (trim (OidcLoginCallbackRequest.state request)))
    (failed "oidc_login_attempt_unavailable");;
  ensure (OidcLoginAttemptRecord.nonce_hash attempt
          ==? hash_oidc_login_nonce (trim (OidcLoginCallbackRequest.nonce request)))
    (failed "oidc_nonce_mismatch");;
  ensure (OidcLoginAttemptRecord.pkce_verifier_hash attempt
          ==? hash_oidc_pkce_verifier (trim (OidcLoginCallbackRequest.code_verifier request)))
    (failed "oidc_pkce_verifier_mismatch").

Definition stable_oidc_subject_suffix (tenant_id provider_id subject : string) : string :=
  lower_hex (take 20 (sha256 ("starweaver-platform-oidc-subject-id-v1" +:+ nul +:+ tenant_id
    +:+ nul +:+ provider_id +:+ nul +:+ trim subject))).

(** [&token[prefix.len()..prefix.len() + 16]]. *)
Definition session_token_id (prefix token : string) : string :=
  String.substring (String.length prefix) 16 token.

Definition oidc_login_completion_record (provider : OidcLoginProviderRecord.t)
    (attempt : OidcLoginAttemptRecord.t) (claims : OidcVerifiedClaims.t) (session_token : string)
    (now_unix : Z) : OidcLoginCompletionRecord.t :=
  let tenant_id := OidcLoginProviderRecord.tenant_id provider in
  let suffix := stable_oidc_subject_suffix tenant_id
    (OidcLoginProviderRecord.identity_provider_id provider) (OidcVerifiedClaims.subject claims) in
  let organization_id := "org_oidc_" +:+ suffix in
  let project_id := "prj_oidc_" +:+ suffix in
  let user_id := "usr_oidc_" +:+ suffix in
  let session_id :=
    "sess_oidc_" +:+ session_token_id OIDC_CALLBACK_SESSION_TOKEN_PREFIX session_token in
  let actor := AuthenticatedActor.project_user tenant_id organization_id project_id user_id in
  let display_name :=
    match trimmed (OidcVerifiedClaims.display_name claims) with
    | Some name => name
    | None => default (OidcVerifiedClaims.subject claims) (OidcVerifiedClaims.email claims)
    end in
  OidcLoginCompletionRecord.mk (OidcLoginAttemptRecord.login_attempt_id attempt) tenant_id
    organization_id project_id user_id (OidcLoginProviderRecord.identity_provider_id provider)
    ("xid_oidc_" +:+ suffix) ("om_oidc_" +:+ suffix) ("pm_oidc_" +:+ suffix)
    ("rb_oidc_org_admin_" +:+ suffix) (OidcVerifiedClaims.subject claims)
    (OidcVerifiedClaims.email claims) (OidcVerifiedClaims.email_verified claims) display_name
    (display_name +:+ " Organization") (display_name +:+ " Default Project")
    (PlatformAuthSessionRecord.active session_id session_token actor) now_unix.
End oidc_checks.

(** ** Completing a login on the stores *)

Definition on_users {A} (op : M InMemoryPlatformUserStore.t PlatformUserError.t A) : Svc A :=
  zoom PlatformServiceState.users PlatformServiceState.set_users user_error_to_service op.
Definition on_role_bindings {A}
    (op : M InMemoryPlatformRoleBindingStore.t PlatformRoleBindingError.t A) : Svc A :=
  zoom PlatformServiceState.role_bindings PlatformServiceState.set_role_bindings
    role_binding_error_to_service op.

Definition complete_oidc_login (completion : OidcLoginCompletionRecord.t) : Svc unit :=
  let tenant_id := OidcLoginCompletionRecord.tenant_id completion in
  let organization_id := OidcLoginCompletionRecord.organization_id completion in
  let project_id := OidcLoginCompletionRecord.project_id completion in
  let user_id := OidcLoginCompletionRecord.user_id completion in
  existing_user ← platform_user_by_id_including_deleted user_id;
  on_users (InMemoryPlatformUserStore.record_user (PlatformUserRecord.mk user_id tenant_id
    (Some organization_id) (Some project_id) (OidcLoginCompletionRecord.email completion)
    (OidcLoginCompletionRecord.user_display_name completion)
    (match existing_user with
     | Some user => PlatformUserRecord.status user
     | None => PlatformUserStatus.Active
     end)
    (match existing_user with
     | Some user => wrap_i64 (PlatformUserRecord.resource_version user + 1)
     | None => 1%Z
     end)));;
  on_external_identities (InMemoryPlatformExternalIdentityStore.upsert_external_identity
    (PlatformExternalIdentityRecord.mk
       (OidcLoginCompletionRecord.external_identity_id completion) tenant_id user_id
       (OidcLoginCompletionRecord.identity_provider_id completion) "oidc"
       (OidcLoginCompletionRecord.provider_subject completion)
       (OidcLoginCompletionRecord.email completion)
       (OidcLoginCompletionRecord.email_verified completion)
       PlatformExternalIdentityStatus.Active));;
  zoom PlatformServiceState.oidc_logins PlatformServiceState.set_oidc_logins id
    (InMemoryOidcLoginStore.consume_attempt completion);;
  on_sessions authentication_failed (InMemoryPlatformAuthSessionStore.record_auth_session
    (OidcLoginCompletionRecord.session completion));;
  on_memberships (InMemoryPlatformMembershipStore.record_organization_member
    (PlatformOrganizationMembershipRecord.mk
       (OidcLoginCompletionRecord.organization_member_id completion) tenant_id organization_id
       user_id "user" PlatformMembershipStatus.Active 1));;
  on_memberships (InMemoryPlatformMembershipStore.record_project_member
    (PlatformProjectMembershipRecord.mk (OidcLoginCompletionRecord.project_member_id completion)
       tenant_id organization_id project_id user_id
       (Some (OidcLoginCompletionRecord.organization_member_id completion)) "user"
       PlatformMembershipStatus.Active 1));;
  on_role_bindings (InMemoryPlatformRoleBindingStore.record_role_binding
    (PlatformRoleBindingRecord.mk
       (OidcLoginCompletionRecord.organization_role_binding_id completion) tenant_id
       (Some organization_id) None user_id (BuiltInRole.as_str BuiltInRole.OrganizationAdmin)
       PlatformRoleBindingStatus.Active 1)).

(** ** Handlers *)

Section login.
Context {V : Type} `{JsonLibrary V} `{Sha256Library} `{OidcLibrary} (env : string → option string).

Definition list_auth_providers (tenant_id : option string) : Svc V :=
  let tenant_id := normalized_optional_string tenant_id in
  match tenant_id with Some value => lift (validate_tenant_id value) | None => mret tt end;;
  single_user ← gets PlatformServiceState.single_user_auth;
  let first :=
    if (match single_user with Some _ => true | None => false end)
       && match tenant_id with Some value => value ==? SINGLE_USER_TENANT_ID | None => true end
    then [single_user_provider_public_json] else [] in
  rest ← match tenant_id with
         | Some tenant_id =>
             providers ← oidc_login_providers_for_tenant tenant_id;
             mret (oidc_provider_public_json <$>
               List.filter (λ provider, OidcLoginProviderRecord.status provider
                                        ==? OidcLoginProviderStatus.Active) providers)
         | None => mret []
         end;
  mret (json_obj [("schema", json_str "platform.auth.providers.v1");
                  ("tenant_id", json_opt_str tenant_id);
                  ("providers", json_arr (first ++ rest))]).

Definition oidc_resolved_provider_metadata (provider : OidcLoginProviderRecord.t)
    : Svc OidcResolvedProviderMetadata.t :=
  discovery ←
    (if oidc_metadata_needs_discovery provider then
       document ← lift (http_discovery
                          (oidc_discovery_url (OidcLoginProviderRecord.issuer_url provider)));
       mret (Some document)
     else mret None);
  lift (match resolve_oidc_provider_metadata provider discovery with
        | Ok metadata => Ok metadata
        | Err error => Err (ServiceError.AuthenticationFailed (OidcValidationError.as_str error))
        end).

Definition pkce_s256_challenge (raw_pkce_verifier : string) : string :=
  base64url (sha256 raw_pkce_verifier).

Definition oidc_authorization_url (metadata : OidcResolvedProviderMetadata.t)
    (requested_scopes : list string) (raw_state raw_nonce raw_pkce_verifier : string)
    : result ServiceError.t string :=
  ok_or (url_with_pairs (OidcResolvedProviderMetadata.authorization_endpoint metadata)
    [("response_type", "code");
     ("client_id", OidcResolvedProviderMetadata.client_id metadata);
     ("redirect_uri", OidcResolvedProviderMetadata.redirect_uri metadata);
     ("scope", join " " requested_scopes);
     ("state", raw_state); ("nonce", raw_nonce);
     ("code_challenge", pkce_s256_challenge raw_pkce_verifier);
     ("code_challenge_method", "S256")])
    (ServiceError.AuthenticationFailed "oidc_authorization_endpoint_invalid").

(** The random bytes are those of the attempt id, state, nonce and verifier. *)
Definition start_oidc_login_for_provider (id_bytes state_bytes nonce_bytes pkce_bytes : list Z)
    (now_unix : Z) (identity_provider_id : string) (tenant_id : option string) : Svc V :=
  let tenant_id := normalized_optional_string tenant_id in
  match tenant_id with Some value => lift (validate_tenant_id value) | None => mret tt end;;
  provider ← oidc_login_provider identity_provider_id;
  lift (ensure match tenant_id with
               | Some value => value ==? OidcLoginProviderRecord.tenant_id provider
               | None => true
               end ServiceError.ResourceNotFound);;
  lift (ensure (OidcLoginProviderRecord.status provider ==? OidcLoginProviderStatus.Active)
          (ServiceError.AuthenticationFailed "oidc_provider_inactive"));;
  metadata ← oidc_resolved_provider_metadata provider;
  let raw_state := base64url state_bytes in
  let raw_nonce := base64url nonce_bytes in
  let raw_pkce_verifier := base64url pkce_bytes in
  attempt ← lift
    (match active_attempt (OidcLoginAttemptStart.mk (new_prefixed_id "ola" id_bytes)
             (OidcLoginProviderRecord.tenant_id provider)
             (OidcLoginProviderRecord.identity_provider_id provider)
             raw_state raw_nonce raw_pkce_verifier
             (OidcResolvedProviderMetadata.redirect_uri metadata)
             (wrap_i64 (now_unix + OIDC_LOGIN_ATTEMPT_TTL_SECONDS))) with
     | Ok attempt => Ok attempt
     | Err error => Err (ServiceError.AuthenticationFailed (OidcValidationError.as_str error))
     end);
  record_oidc_login_attempt attempt;;
  authorization_url ← lift (oidc_authorization_url metadata
    (OidcLoginProviderRecord.requested_scopes provider) raw_state raw_nonce raw_pkce_verifier);
  mret (json_obj [("schema", json_str "platform.auth.oidc_login_start.v1");
    ("provider", oidc_provider_public_json provider);
    ("authorization_url", json_str authorization_url);
    ("attempt", json_obj
       [("login_attempt_id", json_str (OidcLoginAttemptRecord.login_attempt_id attempt));
        ("expires_at_unix", json_int (OidcLoginAttemptRecord.expires_at_unix attempt))]);
    ("client_state", json_obj [("state", json_str raw_state); ("nonce", json_str raw_nonce);
                               ("code_verifier", json_str raw_pkce_verifier)]);
    ("provider_secret_material_included", json_bool false);
    ("authorization_code_included", json_bool false);
    ("raw_tokens_included", json_bool false)]).

Definition oidc_client_secret_for_metadata (metadata : OidcResolvedProviderMetadata.t)
    : Svc (option PlatformSecretValue.t) :=
  match OidcResolvedProviderMetadata.client_secret_ref metadata with
  | None => mret None
  | Some secret_ref_id =>
      secret_ref ← secret_ref_by_id secret_ref_id;
      lift (ensure (PlatformSecretRefRecord.tenant_id secret_ref
                    ==? OidcResolvedProviderMetadata.tenant_id metadata)
              (ServiceError.Forbidden "tenant_mismatch"));;
      secret ← resolve_platform_secret env secret_ref_id;
      mret (Some secret)
  end.

Definition exchange_oidc_authorization_code (metadata : OidcResolvedProviderMetadata.t)
    (attempt : OidcLoginAttemptRecord.t) (request : OidcLoginCallbackRequest.t)
    (client_secret : option PlatformSecretValue.t) : result ServiceError.t string :=
  let form :=
    [("grant_type", "authorization_code"); ("code", trim (OidcLoginCallbackRequest.code request));
     ("redirect_uri", OidcLoginAttemptRecord.redirect_uri attempt);
     ("code_verifier", trim (OidcLoginCallbackRequest.code_verifier request))] in
  let client_id := OidcResolvedProviderMetadata.client_id metadata in
  let missing := ServiceError.AuthenticationFailed "oidc_client_secret_missing" in
  form_auth ←
    match OidcResolvedProviderMetadata.token_endpoint_auth_method metadata with
    | OidcTokenEndpointAuthMethod.NoSecret => Ok (form ++ [("client_id", client_id)], None)
    | OidcTokenEndpointAuthMethod.ClientSecretBasic =>
        secret ← ok_or client_secret missing;
        Ok (form, Some (client_id, PlatformSecretValue.expose secret))
    | OidcTokenEndpointAuthMethod.ClientSecretPost =>
        secret ← ok_or client_secret missing;
        Ok (form ++ [("client_id", client_id); ("client_secret", PlatformSecretValue.expose secret)],
            None)
    end;
  id_token ← http_token (OidcResolvedProviderMetadata.token_endpoint metadata) form_auth.1
               form_auth.2;
  ensure (trim id_token !=? "") (ServiceError.AuthenticationFailed "oidc_id_token_missing");;
  Ok id_token.

Definition oidc_login_callback_response (provider : OidcLoginProviderRecord.t)
    (claims : OidcVerifiedClaims.t) (completion : OidcLoginCompletionRecord.t)
    (session_token : string) : V :=
  let session := OidcLoginCompletionRecord.session completion in
  json_obj [("schema", json_str "platform.auth.oidc_callback.v1");
    ("provider", json_obj
       [("identity_provider_id", json_str (OidcLoginProviderRecord.identity_provider_id provider));
        ("tenant_id", json_str (OidcLoginProviderRecord.tenant_id provider));
        ("display_name", json_str (OidcLoginProviderRecord.display_name provider))]);
    ("session", json_obj
       [("session_id", json_str (PlatformAuthSessionRecord.session_id session));
        ("token_type", json_str "bearer"); ("access_token", json_str session_token)]);
    ("csrf", csrf_response_json session);
    ("actor", actor_json (PlatformAuthSessionRecord.actor session));
    ("user", json_obj
       [("user_id", json_str (OidcLoginCompletionRecord.user_id completion));
        ("display_name", json_str (OidcLoginCompletionRecord.user_display_name completion));
        ("primary_email", json_opt_str (OidcLoginCompletionRecord.email completion));
        ("email_verified", json_bool (OidcLoginCompletionRecord.email_verified completion));
        ("default_organization_id",
         json_str (OidcLoginCompletionRecord.organization_id completion));
        ("default_project_id", json_str (OidcLoginCompletionRecord.project_id completion))]);
    ("organization", json_obj
       [("organization_id", json_str (OidcLoginCompletionRecord.organization_id completion));
        ("display_name",
         json_str (OidcLoginCompletionRecord.organization_display_name completion))]);
    ("project", json_obj
       [("project_id", json_str (OidcLoginCompletionRecord.project_id completion));
        ("display_name", json_str (OidcLoginCompletionRecord.project_display_name completion))]);
    ("external_identity", json_obj
       [("external_identity_id",
         json_str (OidcLoginCompletionRecord.external_identity_id completion));
        ("provider_subject", json_str (OidcVerifiedClaims.subject claims));
        ("issuer", json_str (OidcVerifiedClaims.issuer claims));
        ("audiences", json_strs (OidcVerifiedClaims.audiences claims))]);
    ("raw_tokens_included", json_bool false);
    ("authorization_code_included", json_bool false)].

Definition oidc_login_callback (token_bytes : list Z) (now_unix : Z)
    (identity_provider_id : string) (request : OidcLoginCallbackRequest.t) : Svc V :=
  lift (validate_oidc_callback_request request);;
  provider ← oidc_login_provider identity_provider_id;
  attempt ← oidc_login_attempt_for_state (OidcLoginCallbackRequest.state request);
  lift (validate_oidc_callback_attempt provider attempt request now_unix);;
  metadata ← oidc_resolved_provider_metadata provider;
  client_secret ← oidc_client_secret_for_metadata metadata;
  id_token ← lift (exchange_oidc_authorization_code metadata attempt request client_secret);
  jwks ← lift (http_jwks (OidcResolvedProviderMetadata.jwks_uri metadata));
  claims ← lift
    (match validate_oidc_id_token metadata jwks id_token
             (OidcLoginCallbackRequest.nonce request) now_unix with
     | Ok claims => Ok claims
     | Err error => Err (ServiceError.AuthenticationFailed (OidcValidationError.as_str error))
     end);
  let session_token :=
    generate_session_token_with_prefix OIDC_CALLBACK_SESSION_TOKEN_PREFIX token_bytes in
  let completion :=
    oidc_login_completion_record provider attempt claims session_token now_unix in
  ensure_user_can_login (OidcLoginCompletionRecord.user_id completion);;
  complete_oidc_login completion;;
  mret (oidc_login_callback_response provider claims completion session_token).

(** ** Invitations and the current session *)

Definition preview_auth_invitation (now_unix : Z) (invitation_token : string) : Svc V :=
  invitation ← organization_invitation_by_raw_token invitation_token;
  mret (resource_body "platform.auth.invitation_preview.v1"
          (organization_invitation_preview_json invitation now_unix) []).

Definition accept_organization_invitation_for_actor (om_bytes pm_bytes : list Z)
    (invitation : PlatformOrganizationInvitationRecord.t) (actor : AuthenticatedActor.t)
    (now_unix : Z)
    : Svc (PlatformOrganizationInvitationRecord.t * PlatformOrganizationMembershipRecord.t
           * option PlatformProjectMembershipRecord.t) :=
  let request := AcceptPlatformOrganizationInvitationRequest.mk
    (PlatformOrganizationInvitationRecord.invitation_id invitation)
    (AuthenticatedActor.principal_id actor) (new_prefixed_id "om" om_bytes)
    ((λ _, new_prefixed_id "pm" pm_bytes)
       <$> PlatformOrganizationInvitationRecord.project_id invitation) now_unix in
  accepted ← on_invitations
    (InMemoryPlatformInvitationStore.accept_organization_invitation request);
  organization_member ← on_memberships
    (InMemoryPlatformMembershipStore.upsert_invited_organization_member
       (AcceptPlatformOrganizationInvitationRequest.organization_member_id request)
       (PlatformOrganizationInvitationRecord.tenant_id accepted)
       (PlatformOrganizationInvitationRecord.organization_id accepted)
       (AcceptPlatformOrganizationInvitationRequest.principal_id request) "user");
  project_member ←
    match PlatformOrganizationInvitationRecord.project_id accepted with
    | Some project_id =>
        project_member_id ← lift (ok_or
          (AcceptPlatformOrganizationInvitationRequest.project_member_id request)
          (ServiceError.Internal "project_member_id_missing"));
        member ← on_memberships
          (InMemoryPlatformMembershipStore.upsert_invited_project_member
             (PlatformInvitedProjectMembershipUpsert.mk project_member_id
                (PlatformOrganizationInvitationRecord.tenant_id accepted)
                (PlatformOrganizationInvitationRecord.organization_id accepted) project_id
                (AcceptPlatformOrganizationInvitationRequest.principal_id request)
                (PlatformOrganizationMembershipRecord.organization_member_id organization_member)
                "user"));
        mret (Some member)
    | None => mret None
    end;
  mret (accepted, organization_member, project_member).

Definition accept_auth_invitation (headers : HeaderMap) (om_bytes pm_bytes : list Z)
    (now_unix : Z) (invitation_token : string) : Svc V :=
  bs ← mutating_auth_session_from_headers headers;
  lift (ensure_user_auth_session bs.2);;
  let actor := PlatformAuthSessionRecord.actor bs.2 in
  invitation ← organization_invitation_by_raw_token invitation_token;
  lift (ensure_actor_matches_invitation actor invitation);;
  iop ← accept_organization_invitation_for_actor om_bytes pm_bytes invitation actor now_unix;
  let '(accepted, organization_member, project_member) := iop in
  mret (resource_body "platform.auth.invitation_accept.v1"
    (organization_invitation_safe_json now_unix accepted)
    [("organization_member", organization_member_safe_json organization_member);
     ("project_member", match project_member with
                        | Some member => project_member_safe_json member
                        | None => json_null
                        end);
     ("invitation_token_included", json_bool false);
     ("invitation_token_hash_included", json_bool false)]).

Definition get_current_auth_session (headers : HeaderMap) : Svc V :=
  bs ← auth_session_from_headers headers;
  lift (ensure_user_auth_session bs.2);;
  mret (auth_session_response_json bs.2).

Definition update_current_auth_session_active_organization (headers : HeaderMap)
    (organization_id : string) : Svc V :=
  let organization_id := trim organization_id in
  lift (validate_organization_id organization_id);;
  bs ← mutating_auth_session_from_headers headers;
  lift (ensure_user_auth_session bs.2);;
  membership ← active_organization_member_for_actor (PlatformAuthSessionRecord.actor bs.2)
    organization_id;
  updated ← update_auth_session_context bs.1
    (Some (PlatformOrganizationMembershipRecord.organization_id membership)) None;
  mret (auth_session_response_json updated).

Definition update_current_auth_session_active_project (headers : HeaderMap)
    (project_id : string) : Svc V :=
  let project_id := trim project_id in
  lift (validate_project_id project_id);;
  bs ← mutating_auth_session_from_headers headers;
  lift (ensure_user_auth_session bs.2);;
  membership ← active_project_member_for_actor (PlatformAuthSessionRecord.actor bs.2) project_id;
  updated ← update_auth_session_context bs.1
    (Some (PlatformProjectMembershipRecord.organization_id membership))
    (Some (PlatformProjectMembershipRecord.project_id membership));
  mret (auth_session_response_json updated).

Definition logout_current_auth_session (headers : HeaderMap) : Svc V :=
  bs ← mutating_auth_session_from_headers headers;
  lift (ensure_user_auth_session bs.2);;
  revoked ← revoke_auth_session bs.1;
  mret (json_obj [("schema", json_str "platform.auth.logout.v1");
    ("session", auth_session_safe_json revoked);
    ("previous_status",
     json_str (PlatformAuthSessionStatus.as_str (PlatformAuthSessionRecord.status bs.2)));
    ("revoked", json_bool (PlatformAuthSessionStatus.as_str
       (PlatformAuthSessionRecord.status revoked) ==? "revoked"));
    ("session_token_hash_included", json_bool false);
    ("raw_session_token_included", json_bool false)]).

(** ** The single user *)

Definition json_string_field (value : V) (field : string) : result ServiceError.t string :=
  ok_or (get_str value field) (ServiceError.BadRequest "invalid_single_user_login_request").

Definition single_user_actor : AuthenticatedActor.t :=
  AuthenticatedActor.project_user SINGLE_USER_TENANT_ID SINGLE_USER_ORGANIZATION_ID
    SINGLE_USER_PROJECT_ID SINGLE_USER_ID.

Definition record_single_user_memberships : Svc unit :=
  config ← gets PlatformServiceState.single_user_auth;
  let email := config ≫= PlatformSingleUserConfig.user_primary_email in
  on_users (InMemoryPlatformUserStore.record_user (PlatformUserRecord.mk SINGLE_USER_ID
    SINGLE_USER_TENANT_ID (Some SINGLE_USER_ORGANIZATION_ID) (Some SINGLE_USER_PROJECT_ID) email
    (match config with
     | Some config => PlatformSingleUserConfig.user_display_name config
     | None => "single-user"
     end) PlatformUserStatus.Active 1));;
  on_external_identities (InMemoryPlatformExternalIdentityStore.record_external_identity
    (PlatformExternalIdentityRecord.mk SINGLE_USER_EXTERNAL_IDENTITY_ID SINGLE_USER_TENANT_ID
       SINGLE_USER_ID SINGLE_USER_IDENTITY_PROVIDER_ID "single_user"
       (match config with
        | Some config => PlatformSingleUserConfig.username config
        | None => "single_user"
        end) email false PlatformExternalIdentityStatus.Active));;
  on_memberships (InMemoryPlatformMembershipStore.record_organization_member
    (PlatformOrganizationMembershipRecord.mk SINGLE_USER_ORGANIZATION_MEMBER_ID
       SINGLE_USER_TENANT_ID SINGLE_USER_ORGANIZATION_ID SINGLE_USER_ID "user"
       PlatformMembershipStatus.Active 1));;
  on_memberships (InMemoryPlatformMembershipStore.record_project_member
    (PlatformProjectMembershipRecord.mk SINGLE_USER_PROJECT_MEMBER_ID SINGLE_USER_TENANT_ID
       SINGLE_USER_ORGANIZATION_ID SINGLE_USER_PROJECT_ID SINGLE_USER_ID
       (Some SINGLE_USER_ORGANIZATION_MEMBER_ID) "user" PlatformMembershipStatus.Active 1));;
  on_role_bindings (InMemoryPlatformRoleBindingStore.record_role_binding
    (PlatformRoleBindingRecord.mk SINGLE_USER_ROLE_BINDING_ID SINGLE_USER_TENANT_ID None None
       SINGLE_USER_ID (BuiltInRole.as_str BuiltInRole.TenantOwner)
       PlatformRoleBindingStatus.Active 1)).

Definition single_user_login (token_bytes : list Z) (request : V) : Svc V :=
  single_user ← gets PlatformServiceState.single_user_auth;
  match single_user with
  | None => throw ServiceError.RouteNotFound
  | Some config =>
      username ← lift (json_string_field request "username");
      password ← lift (json_string_field request "password");
      lift (ensure (PlatformSingleUserConfig.credentials_match config username password)
              (ServiceError.AuthenticationFailed "single_user_credentials_invalid"));;
      ensure_user_can_login SINGLE_USER_ID;;
      let session_token := generate_session_token token_bytes in
      let session_id :=
        "sess_single_user_" +:+ session_token_id SINGLE_USER_SESSION_TOKEN_PREFIX session_token in
      let actor := single_user_actor in
      let session_record := PlatformAuthSessionRecord.active session_id session_token actor in
      record_single_user_session session_record;;
      record_single_user_memberships;;
      mret (json_obj [("schema", json_str "platform.auth.single_user_login.v1");
        ("session", json_obj [("session_id", json_str session_id);
                              ("token_type", json_str "bearer");
                              ("access_token", json_str session_token)]);
        ("csrf", csrf_response_json session_record);
        ("actor", actor_json actor);
        ("user", json_obj
           [("user_id", json_str SINGLE_USER_ID);
            ("username", json_str (PlatformSingleUserConfig.username config));
            ("display_name", json_str (PlatformSingleUserConfig.user_display_name config));
            ("primary_email", json_opt_str (PlatformSingleUserConfig.user_primary_email config));
            ("default_organization_id", json_str SINGLE_USER_ORGANIZATION_ID);
            ("default_project_id", json_str SINGLE_USER_PROJECT_ID)]);
        ("organization", json_obj
           [("organization_id", json_str SINGLE_USER_ORGANIZATION_ID);
            ("display_name", json_str "Single User Organization")]);
        ("project", json_obj
           [("project_id", json_str SINGLE_USER_PROJECT_ID);
            ("display_name", json_str "Single User Project")])])
  end.

(** ** Foundation routes *)

Definition authorization_resource (actor : AuthenticatedActor.t) (matched : MatchedRoute.t)
    : Svc ResourceRef.t :=
  let route := MatchedRoute.route matched in
  match RouteMetadata.resource_id_path_param route with
  | Some param =>
      resource_id ← lift (ok_or (MatchedRoute.params matched !! param)
                            (ServiceError.BadRequest "resource_id_param_missing"));
      owner ← found (λ s, InMemoryResourceOwnerStore.resource_owner
                            (RouteMetadata.resource_kind route) resource_id
                            (PlatformServiceState.owners s));
      mret (ResourceOwnerRecord.to_resource_ref owner)
  | None => mret (scope_resource actor (RouteMetadata.resource_kind route))
  end.

Definition business_resource (matched : MatchedRoute.t)
    : Svc (option PlatformResourceRecord.t) :=
  let route := MatchedRoute.route matched in
  match RouteMetadata.resource_id_path_param route with
  | None => mret None
  | Some param =>
      resource_id ← lift (ok_or (MatchedRoute.params matched !! param)
                            (ServiceError.BadRequest "resource_id_param_missing"));
      record ← found (λ s, InMemoryPlatformResourceStore.platform_resource
                             (RouteMetadata.resource_kind route) resource_id
                             (PlatformServiceState.resources s));
      mret (Some record)
  end.

Definition authorized_response (actor : AuthenticatedActor.t) (resource : ResourceRef.t)
    (matched : MatchedRoute.t) (business : option PlatformResourceRecord.t) : V :=
  let route := MatchedRoute.route matched in
  json_obj [("schema", json_str "platform.http.authorization.v1");
    ("authorized", json_bool true);
    ("route", json_obj
       [("method", json_str (HttpMethod.as_str (RouteMetadata.method route)));
        ("path_pattern", json_str (RouteMetadata.path_pattern route));
        ("action", json_str (PlatformAction.as_str (RouteMetadata.action route)));
        ("resource_kind", json_str (RouteMetadata.resource_kind route));
        ("resource_id_path_param", json_opt_str (RouteMetadata.resource_id_path_param route));
        ("access", json_str (RouteAccess.as_str (RouteMetadata.access route)));
        ("user_actor_required", json_bool (RouteMetadata.user_actor_required route))]);
    ("actor", actor_json actor);
    ("resource", json_obj
       [("kind", json_str (ResourceRef.kind resource));
        ("tenant_id", json_str (ResourceRef.tenant_id resource));
        ("organization_id", json_opt_str (ResourceRef.organization_id resource));
        ("project_id", json_opt_str (ResourceRef.project_id resource));
        ("resource_id", json_str (ResourceRef.resource_id resource))]);
    ("business_resource", match business with
                          | Some record => PlatformResourceRecord.to_safe_json record
                          | None => json_null
                          end)].

Definition handle_foundation_request (headers : HeaderMap) (method path : string) : Svc V :=
  matched ← lift (ok_or (match_route method path) ServiceError.RouteNotFound);
  actor ← authenticated_actor_from_headers headers;
  resource ← authorization_resource actor matched;
  authorize_service_action actor (RouteMetadata.action (MatchedRoute.route matched)) resource;;
  business ← business_resource matched;
  mret (authorized_response actor resource matched business).

(** [dispatch_foundation_request]: the status and the body of the response. *)
Definition dispatch_foundation_request (headers : HeaderMap) (method path : string)
    (s : PlatformServiceState.t) : Z * V :=
  match (handle_foundation_request headers method path s).1 with
  | Ok body => (200%Z, body)
  | Err error => ServiceError.into_response error
  end.
End login.

(** ** Startup on the in-memory backend *)

Definition platform_authorization_for_config (config : PlatformConfig.t)
    : FoundationAuthorizationEngine.t :=
  FoundationAuthorizationEngine.new
    match PlatformConfig.single_user_auth config with
    | Some _ => ActionGrant.for_builtin_role SINGLE_USER_TENANT_ID SINGLE_USER_TENANT_ID
                  SINGLE_USER_ID BuiltInRole.TenantOwner
    | None => []
    end.

(** The in-memory arm of [build_platform_service_state]. *)
Definition build_in_memory_service_state (config : PlatformConfig.t)
    : result (list PlatformStartupDiagnostic.t) PlatformServiceState.t :=
  validate_platform_config config;;
  let s := PlatformServiceState.new InMemoryResourceOwnerStore.new
    (platform_authorization_for_config config) in
  Ok (PlatformServiceState.mk (PlatformServiceState.owners s)
    (PlatformServiceState.auth_sessions s) (PlatformServiceState.bearer_credentials s)
    (PlatformServiceState.mtls_identities s) (PlatformServiceState.resources s)
    (PlatformServiceState.secrets s) (PlatformServiceState.memberships s)
    (PlatformServiceState.invitations s) (PlatformServiceState.external_identities s)
    (PlatformServiceState.role_bindings s) (PlatformServiceState.users s)
    (PlatformServiceState.audits s) (PlatformServiceState.oidc_logins s)
    (PlatformConfig.single_user_auth config) (PlatformConfig.max_body_bytes config)
    (PlatformConfig.request_timeout_ms config) (PlatformServiceState.authorization s)).
