(* ===== verification/PlatLaws.v ===== *)
(** * The platform service: reasoning about computations, and authorization

    Inversion lemmas for service computations, and what
    [authorize_service_action] decides: a static grant, or an active role
    binding of the principal that a membership backs. *)

From S2P Require Import Prelude Order Text Json PlatAction PlatUser PlatRole PlatMembership.
From S2P Require Import PlatInvitation PlatAudit PlatSession PlatResource PlatRoute PlatIdentity.
From S2P Require Import PlatSecret PlatConfig PlatService PlatRequests PlatHandlers PlatLogin.

(** ** Computations *)

Lemma svc_bind_ok {S E A B} (m : M S E A) (f : A → M S E B) s b s' :
  (m ≫= f) s = (Ok b, s') → ∃ a s1, m s = (Ok a, s1) ∧ f a s1 = (Ok b, s').
Proof. unfold mbind, M_bind. destruct (m s) as [[a|e] s1]; [|done]. eauto. Qed.

Lemma svc_bind_run {S E A B} (m : M S E A) (f : A → M S E B) s a s1 :
  m s = (Ok a, s1) → (m ≫= f) s = f a s1.
Proof. unfold mbind, M_bind. by intros ->. Qed.

Lemma svc_bind_err {S E A B} (m : M S E A) (f : A → M S E B) s e s1 :
  m s = (Err e, s1) → (m ≫= f) s = (Err e, s1).
Proof. unfold mbind, M_bind. by intros ->. Qed.

Lemma gets_ok {S E A} (f : S → A) s a s' :
  gets (E := E) f s = (Ok a, s') → a = f s ∧ s' = s.
Proof. unfold gets. by intros [= <- <-]. Qed.

Lemma lift_ok {S E A} (r : result E A) (s : S) a s' : lift r s = (Ok a, s') → r = Ok a ∧ s' = s.
Proof. unfold lift. by intros [= -> <-]. Qed.

Lemma reads_ok {A} (f : PlatformServiceState.t → result ServiceError.t A) s a s' :
  reads f s = (Ok a, s') → f s = Ok a ∧ s' = s.
Proof. unfold reads. by intros [= -> <-]. Qed.

Lemma found_ok {A} (f : PlatformServiceState.t → option A) s a s' :
  found f s = (Ok a, s') → f s = Some a ∧ s' = s.
Proof. intros [H ->]%reads_ok. by destruct (f s) eqn:E; simplify_eq/=. Qed.

Lemma mret_ok {S E A} (a : A) (s : S) b s' :
  (mret a : M S E A) s = (Ok b, s') → b = a ∧ s' = s.
Proof. unfold mret, M_ret. by intros [= <- <-]. Qed.

Lemma zoom_ok {S E A} get put (err : E → ServiceError.t) (op : M S E A) s a s' :
  zoom get put err op s = (Ok a, s') → ∃ x, op (get s) = (Ok a, x) ∧ s' = put x s.
Proof. unfold zoom. destruct (op (get s)) as [[b|e] x]; [|done]. intros [= <- <-]. eauto. Qed.

Lemma zoom_act_ok {S A} get put (op : S → A * S) s a s' :
  zoom_act get put op s = (Ok a, s') → op (get s) = (a, (op (get s)).2) ∧ s' = put (op (get s)).2 s.
Proof. unfold zoom_act. destruct (op (get s)). by intros [= <- <-]. Qed.

Lemma ensure_ok b e : ensure b e = Ok tt ↔ b = true.
Proof. by destruct b. Qed.

(** Take the steps of a successful computation apart; stops where it branches. *)
Ltac svc_inv H :=
  cbv zeta beta in H;
  lazymatch type of H with
  | (_ ≫= _) _ = (Ok _, _) =>
      let a := fresh "a" in let s1 := fresh "s" in let H1 := fresh "E" in
      apply svc_bind_ok in H as (a & s1 & H1 & H); svc_inv H1; svc_inv H
  | gets _ _ = (Ok _, _) => apply gets_ok in H as [-> ->]
  | lift _ _ = (Ok _, _) => apply lift_ok in H as [H ->]
  | reads _ _ = (Ok _, _) => apply reads_ok in H as [H ->]
  | found _ _ = (Ok _, _) => apply found_ok in H as [H ->]
  | mret _ _ = (Ok _, _) => apply mret_ok in H as [-> ->]
  | throw _ _ = (Ok _, _) => discriminate H
  | _ => idtac
  end.

(** ** Authorization *)

(** A membership backs a binding: an active one at the project it names, else
    at the organization; a tenant binding needs none. *)
Definition backed (s : PlatformServiceState.t) (b : PlatformRoleBindingRecord.t) : Prop :=
  let members := PlatformServiceState.memberships s in
  match PlatformRoleBindingRecord.project_id b, PlatformRoleBindingRecord.organization_id b with
  | Some project, _ => ∃ k m,
      InMemoryPlatformMembershipStore.project_members members !! k = Some m ∧
      PlatformProjectMembershipRecord.project_id m = project ∧
      PlatformProjectMembershipRecord.tenant_id m = PlatformRoleBindingRecord.tenant_id b ∧
      PlatformProjectMembershipRecord.principal_id m = PlatformRoleBindingRecord.principal_id b ∧
      PlatformProjectMembershipRecord.status m = PlatformMembershipStatus.Active
  | None, Some organization => ∃ k m,
      InMemoryPlatformMembershipStore.organization_members members !! k = Some m ∧
      PlatformOrganizationMembershipRecord.organization_id m = organization ∧
      PlatformOrganizationMembershipRecord.tenant_id m = PlatformRoleBindingRecord.tenant_id b ∧
      PlatformOrganizationMembershipRecord.principal_id m
        = PlatformRoleBindingRecord.principal_id b ∧
      PlatformOrganizationMembershipRecord.status m = PlatformMembershipStatus.Active
  | None, None => True
  end.

(** A binding gives the principal of a request its role over the resource. *)
Record binding_grants (s : PlatformServiceState.t) (b : PlatformRoleBindingRecord.t)
    (request : AuthorizationRequest.t) : Prop := {
  bg_stored : ∃ k, InMemoryPlatformRoleBindingStore.role_bindings
    (PlatformServiceState.role_bindings s) !! k = Some b;
  bg_active : PlatformRoleBindingRecord.status b = PlatformRoleBindingStatus.Active;
  bg_tenant : PlatformRoleBindingRecord.tenant_id b
    = AuthenticatedActor.tenant_id (AuthorizationRequest.actor request);
  bg_principal : PlatformRoleBindingRecord.principal_id b
    = AuthenticatedActor.principal_id (AuthorizationRequest.actor request);
  bg_backed : backed s b;
  bg_role : ∃ role, PlatformRoleBindingRecord.built_in_role b = Some role ∧
    AuthorizationRequest.action request ∈ BuiltInRole.actions role ∧
    scope_covers (BuiltInRole.scope_kind role) (role_binding_scope_id b)
      (AuthorizationRequest.resource request);
}.

Definition statically_granted (s : PlatformServiceState.t) (request : AuthorizationRequest.t)
    : Prop :=
  ∃ g, g ∈ FoundationAuthorizationEngine.grants (PlatformServiceState.authorization s) ∧
       grant_allows g request = true.

(** The specification of authorization. *)
Definition permitted (s : PlatformServiceState.t) (request : AuthorizationRequest.t) : Prop :=
  admissible request ∧
  (statically_granted s request ∨ ∃ b, binding_grants s b request).

Lemma membership_allows_run s b : ∃ allowed,
  role_binding_membership_allows b s = (Ok allowed, s) ∧ (allowed = true ↔ backed s b).
Proof.
  unfold role_binding_membership_allows, backed.
  destruct (PlatformRoleBindingRecord.project_id b) as [project|];
    [|destruct (PlatformRoleBindingRecord.organization_id b) as [organization|]].
  - eexists. split; [done|]. rewrite existsb_iff. split.
    + intros (m & Hm & H). apply sort_by_elem in Hm. apply filter_values in Hm as (Hp & k & Hk).
      btrue. destruct (PlatformProjectMembershipRecord.status m) eqn:E; [|done..]. eauto 10.
    + intros (k & m & Hk & Hp & Ht & Hq & Hs). exists m. split.
      * apply sort_by_elem. apply filter_values. rewrite bool_decide_eq_true. eauto.
      * rewrite Hs. by rewrite !bool_decide_eq_true_2.
  - eexists. split; [done|]. rewrite existsb_iff. split.
    + intros (m & Hm & H). apply sort_by_elem in Hm. apply filter_values in Hm as (Hp & k & Hk).
      btrue. destruct (PlatformOrganizationMembershipRecord.status m) eqn:E; [|done..]. eauto 10.
    + intros (k & m & Hk & Hp & Ht & Hq & Hs). exists m. split.
      * apply sort_by_elem. apply filter_values. rewrite bool_decide_eq_true. eauto.
      * rewrite Hs. by rewrite !bool_decide_eq_true_2.
  - by exists true.
Qed.

Lemma collect_grants_run s bs acc : ∃ gs,
  collect_grants bs acc s = (Ok gs, s) ∧
  ∀ g, g ∈ gs ↔ g ∈ acc ∨ ∃ b, b ∈ bs ∧ backed s b ∧ g ∈ role_binding_action_grants b.
Proof.
  revert acc. induction bs as [|b bs IH]; intros acc; simpl.
  { exists acc. split; [done|]. set_solver. }
  destruct (membership_allows_run s b) as (allowed & E & Hallowed). rewrite (svc_bind_run _ _ _ _ _ E).
  destruct (IH (if allowed then acc ++ role_binding_action_grants b else acc)) as (gs & Egs & Hgs).
  exists gs. split; [done|]. intros g. rewrite Hgs.
  destruct allowed; [|assert (¬ backed s b) by (rewrite <- Hallowed; done)]; set_solver.
Qed.

Lemma elem_active_bindings tenant principal store b :
  b ∈ InMemoryPlatformRoleBindingStore.active_role_bindings_for_principal tenant principal store ↔
  (∃ k, InMemoryPlatformRoleBindingStore.role_bindings store !! k = Some b) ∧
  PlatformRoleBindingRecord.tenant_id b = tenant ∧
  PlatformRoleBindingRecord.principal_id b = principal ∧
  PlatformRoleBindingRecord.status b = PlatformRoleBindingStatus.Active.
Proof.
  unfold InMemoryPlatformRoleBindingStore.active_role_bindings_for_principal.
  rewrite sort_by_elem, filter_values, !andb_true_iff, !bool_decide_eq_true. tauto.
Qed.

(** The grants of a binding, seen from an admissible request. *)
Lemma binding_grants_allow b request :
  admissible request →
  (∃ g, g ∈ role_binding_action_grants b ∧ grant_allows g request = true) ↔
  PlatformRoleBindingRecord.tenant_id b
    = AuthenticatedActor.tenant_id (AuthorizationRequest.actor request) ∧
  PlatformRoleBindingRecord.principal_id b
    = AuthenticatedActor.principal_id (AuthorizationRequest.actor request) ∧
  ∃ role, PlatformRoleBindingRecord.built_in_role b = Some role ∧
    AuthorizationRequest.action request ∈ BuiltInRole.actions role ∧
    scope_covers (BuiltInRole.scope_kind role) (role_binding_scope_id b)
      (AuthorizationRequest.resource request).
Proof.
  intros Hadm. unfold role_binding_action_grants.
  destruct (PlatformRoleBindingRecord.built_in_role b) as [role|]; last first.
  { split; [set_solver|]. intros (_ & _ & role & ? & _). done. }
  pose proof (role_grants_allow (PlatformRoleBindingRecord.tenant_id b) (role_binding_scope_id b)
    (PlatformRoleBindingRecord.principal_id b) role request) as Hr. naive_solver.
Qed.

Lemma role_binding_authorization_run s actor action resource : ∃ allowed,
  role_binding_authorization_allows actor action resource s = (Ok allowed, s) ∧
  (allowed = true ↔ admissible (AuthorizationRequest.mk actor action resource) ∧
     ∃ b, binding_grants s b (AuthorizationRequest.mk actor action resource)).
Proof.
  set (request := AuthorizationRequest.mk actor action resource).
  unfold role_binding_authorization_allows. erewrite svc_bind_run by done.
  destruct (collect_grants_run s (InMemoryPlatformRoleBindingStore.active_role_bindings_for_principal
    (AuthenticatedActor.tenant_id actor) (AuthenticatedActor.principal_id actor)
    (PlatformServiceState.role_bindings s)) []) as (gs & E & Hgs).
  rewrite (svc_bind_run _ _ _ _ _ E). eexists. split; [done|]. rewrite platform_authorize_iff.
  fold request. split; intros [Hadm H]; (split; [done|]).
  - destruct H as (g & Hg & Hga). apply Hgs in Hg as [Hg|(b & Hb & Hback & Hgb)]; [set_solver|].
    apply elem_active_bindings in Hb as (Hk & Ht & Hp & Hs).
    destruct (proj1 (binding_grants_allow b request Hadm)) as (_ & _ & Hrole); [eauto|].
    exists b. by split.
  - destruct H as (b & [Hk Hs Ht Hp Hback Hrole]).
    destruct (proj2 (binding_grants_allow b request Hadm)) as (g & Hg & Hga); [eauto|].
    exists g. split; [|done]. apply Hgs. right. exists b.
    rewrite elem_active_bindings. eauto 10.
Qed.

(** Authorization never changes the state, answers [Ok] exactly for what is
    permitted, and otherwise is forbidden with the reason of the static engine. *)
Lemma authorize_run s actor action resource :
  let request := AuthorizationRequest.mk actor action resource in
  (permitted s request ∧ authorize_service_action actor action resource s = (Ok tt, s)) ∨
  (¬ permitted s request ∧
   authorize_service_action actor action resource s
   = (Err (ServiceError.Forbidden (AuthorizationDecision.reason
        (authorize (PlatformServiceState.authorization s) request))), s)).
Proof.
  intros request. unfold authorize_service_action. erewrite svc_bind_run by done. cbv zeta.
  fold request. pose proof (platform_authorize_iff
    (FoundationAuthorizationEngine.grants (PlatformServiceState.authorization s)) request) as Hst.
  assert (FoundationAuthorizationEngine.new
    (FoundationAuthorizationEngine.grants (PlatformServiceState.authorization s))
    = PlatformServiceState.authorization s) as Heta by by destruct (PlatformServiceState.authorization s).
  rewrite Heta in Hst. unfold permitted, statically_granted.
  destruct (AuthorizationDecision.allowed _) eqn:Ed.
  { left. split; [|done]. destruct (proj1 Hst eq_refl). auto. }
  destruct (role_binding_authorization_run s actor action resource) as (allowed & E & Ha).
  rewrite (svc_bind_run _ _ _ _ _ E). fold request in Ha. destruct allowed.
  - left. split; [|done]. destruct (proj1 Ha eq_refl). auto.
  - right. split; [|done]. intros [Hadm [Hg|Hb]].
    + by discriminate (proj2 Hst (conj Hadm Hg)).
    + by discriminate (proj2 Ha (conj Hadm Hb)).
Qed.

Lemma authorize_ok s actor action resource u s' :
  authorize_service_action actor action resource s = (Ok u, s') →
  permitted s (AuthorizationRequest.mk actor action resource) ∧ s' = s.
Proof.
  intros H. destruct (authorize_run s actor action resource) as [[? E]|[_ E]]; rewrite E in H;
    by simplify_eq.
Qed.

(** ** What a tenant's authorization depends on *)

(** The records of one tenant are the same in two states. *)
Record same_tenant_view (tenant : string) (s s' : PlatformServiceState.t) : Prop := {
  sv_grants g : ActionGrant.tenant_id g = tenant →
    g ∈ FoundationAuthorizationEngine.grants (PlatformServiceState.authorization s) ↔
    g ∈ FoundationAuthorizationEngine.grants (PlatformServiceState.authorization s');
  sv_bindings b : PlatformRoleBindingRecord.tenant_id b = tenant →
    (∃ k, InMemoryPlatformRoleBindingStore.role_bindings
       (PlatformServiceState.role_bindings s) !! k = Some b) ↔
    (∃ k, InMemoryPlatformRoleBindingStore.role_bindings
       (PlatformServiceState.role_bindings s') !! k = Some b);
  sv_organization_members m : PlatformOrganizationMembershipRecord.tenant_id m = tenant →
    (∃ k, InMemoryPlatformMembershipStore.organization_members
       (PlatformServiceState.memberships s) !! k = Some m) ↔
    (∃ k, InMemoryPlatformMembershipStore.organization_members
       (PlatformServiceState.memberships s') !! k = Some m);
  sv_project_members m : PlatformProjectMembershipRecord.tenant_id m = tenant →
    (∃ k, InMemoryPlatformMembershipStore.project_members
       (PlatformServiceState.memberships s) !! k = Some m) ↔
    (∃ k, InMemoryPlatformMembershipStore.project_members
       (PlatformServiceState.memberships s') !! k = Some m);
}.

#[global] Instance same_tenant_view_equiv tenant : Equivalence (same_tenant_view tenant).
Proof.
  split.
  - intros s. by split.
  - intros s s' [H1 H2 H3 H4]. split; intros x Hx; symmetry; auto.
  - intros s1 s2 s3 [H1 H2 H3 H4] [K1 K2 K3 K4].
    split; intros x Hx; etrans; [by apply H1|by apply K1|by apply H2|by apply K2|by apply H3
      |by apply K3|by apply H4|by apply K4].
Qed.

Lemma backed_view b s s' :
  same_tenant_view (PlatformRoleBindingRecord.tenant_id b) s s' → backed s b → backed s' b.
Proof.
  intros [_ _ Ho Hp]. unfold backed. destruct (PlatformRoleBindingRecord.project_id b).
  - intros (k & m & Hk & H1 & Ht & H2 & H3). destruct (proj1 (Hp m Ht)) as [k' ?]; eauto 10.
  - destruct (PlatformRoleBindingRecord.organization_id b); [|done].
    intros (k & m & Hk & H1 & Ht & H2 & H3). destruct (proj1 (Ho m Ht)) as [k' ?]; eauto 10.
Qed.

Lemma permitted_view s s' request :
  same_tenant_view (AuthenticatedActor.tenant_id (AuthorizationRequest.actor request)) s s' →
  permitted s request → permitted s' request.
Proof.
  intros Hv [Hadm H]. split; [done|]. destruct H as [(g & Hg & Ha)|(b & [Hk Hs Ht Hp Hb Hr])].
  - left. exists g. split; [|done]. apply (sv_grants _ _ _ Hv); [|done].
    unfold grant_allows in Ha. by btrue.
  - right. exists b. split; try done.
    + by apply (sv_bindings _ _ _ Hv).
    + rewrite <- Ht in Hv. by eapply backed_view.
Qed.

#[global] Instance permitted_proper request :
  Proper (same_tenant_view (AuthenticatedActor.tenant_id (AuthorizationRequest.actor request))
          ==> iff) (λ s, permitted s request).
Proof. intros s s' Hv. split; apply permitted_view; [done|by symmetry]. Qed.

(** ** Theorems *)

(** C2. Authorizing a service action is exactly the declarative specification:
    the request is admissible (tenant of the resource, kind, human actor) and
    either a static grant allows it or an active role binding of that tenant
    and principal does, whose role has the action and whose scope covers the
    resource, while an active membership at the binding's project or
    organization backs it.  Otherwise the answer is 403 with the reason of the
    static engine.  The state is never changed. *)
Theorem authorization_decides_spec (s : PlatformServiceState.t) (actor : AuthenticatedActor.t)
    (action : PlatformAction.t) (resource : ResourceRef.t) :
  let request := AuthorizationRequest.mk actor action resource in
  let run := authorize_service_action actor action resource s in
  run.2 = s ∧
  (run.1 = Ok tt ↔ permitted s request) ∧
  (¬ permitted s request →
   run.1 = Err (ServiceError.Forbidden (AuthorizationDecision.reason
     (authorize (PlatformServiceState.authorization s) request)))).
Proof.
  intros request run. unfold run.
  destruct (authorize_run s actor action resource) as [[Hp E]|[Hp E]]; rewrite E; simpl.
  - split_and!; [done|done|]. intros Hn. by destruct Hn.
  - split_and!; [done|split; [done|by intros]|done].
Qed.

(** Tenants are isolated: the answer to an authorization request depends
    only on the grants, role bindings and memberships of the actor's own
    tenant, so no change to the records of another tenant can give or take
    access; and whatever is authorized is a resource of the actor's tenant. *)
Theorem authorization_tenant_isolated (s s' : PlatformServiceState.t)
    (actor : AuthenticatedActor.t) (action : PlatformAction.t) (resource : ResourceRef.t)
    (Hview : same_tenant_view (AuthenticatedActor.tenant_id actor) s s') :
  ((authorize_service_action actor action resource s).1 = Ok tt ↔
   (authorize_service_action actor action resource s').1 = Ok tt) ∧
  ((authorize_service_action actor action resource s).1 = Ok tt →
   ResourceRef.tenant_id resource = AuthenticatedActor.tenant_id actor).
Proof.
  pose proof (permitted_proper (AuthorizationRequest.mk actor action resource) s s' Hview) as Hp.
  simpl in Hp.
  destruct (authorize_run s actor action resource) as [[H E]|[H E]],
    (authorize_run s' actor action resource) as [[H' E']|[H' E']]; rewrite E, E'; simpl;
    (split; [split; intros; (done || tauto)|]); try done; intros _; apply H.
Qed.
