(* ===== verification/PlatAccess.v ===== *)
(** * The platform service: who keeps access, and who loses it

    What the membership, user, session and invitation handlers do to access:
    removing or suspending an organization member, disabling a user, accepting
    an invitation, and the version check of every administrative update. *)

From S2P Require Import Prelude Order Text Json PlatAction PlatUser PlatRole PlatMembership.
From S2P Require Import PlatInvitation PlatAudit PlatSession PlatResource PlatRoute PlatIdentity.
From S2P Require Import PlatSecret PlatConfig PlatService PlatRequests PlatHandlers PlatLogin.
From S2P Require Import PlatLaws.

Import InMemoryPlatformMembershipStore.

Section access.
Context {V : Type} `{JsonLibrary V} `{Sha256Library}.

(** ** Steps of the handlers *)

Lemma authenticated_state headers s a s' :
  authenticated_actor_from_headers headers s = (Ok a, s') → s' = s.
Proof.
  unfold authenticated_actor_from_headers. intros E.
  destruct (headers AUTHORIZATION); [destruct (bearer_token _); [|done]|
    destruct (headers VERIFIED_MTLS_SUBJECT_HEADER); [|done]]; by apply reads_ok in E as [_ ->].
Qed.

Lemma organization_member_for_actor_ok actor org om s m s' :
  organization_member_for_actor actor org om s = (Ok m, s') →
  s' = s ∧ organization_members (PlatformServiceState.memberships s) !! om = Some m ∧
  PlatformOrganizationMembershipRecord.tenant_id m = AuthenticatedActor.tenant_id actor ∧
  PlatformOrganizationMembershipRecord.organization_id m = org.
Proof.
  unfold organization_member_for_actor, organization_member_by_id. intros E. svc_inv E.
  destruct (_ && _) eqn:Et; svc_inv E. by btrue.
Qed.

(** ** Organization members *)

Definition member_of (r : PlatformOrganizationMembershipRecord.t)
    (tenant principal : string) : Prop :=
  PlatformOrganizationMembershipRecord.tenant_id r = tenant ∧
  PlatformOrganizationMembershipRecord.principal_id r = principal.

(** The state after a status change of an organization member: its record, its
    project memberships, and on removal its bindings at the organization. *)
Record status_applied (om : string) (status : PlatformMembershipStatus.t)
    (m : PlatformOrganizationMembershipRecord.t) (s s' : PlatformServiceState.t) : Prop := {
  sa_before : organization_members (PlatformServiceState.memberships s) !! om = Some m;
  sa_after : organization_members (PlatformServiceState.memberships s') !! om
    = Some (PlatformOrganizationMembershipRecord.changed m status
              (PlatformOrganizationMembershipRecord.membership_kind m));
  sa_members k r :
    organization_members (PlatformServiceState.memberships s') !! k = Some r →
    (k = om ∧ r = PlatformOrganizationMembershipRecord.changed m status
                    (PlatformOrganizationMembershipRecord.membership_kind m)) ∨
    (k ≠ om ∧ organization_members (PlatformServiceState.memberships s) !! k = Some r);
  sa_projects k r :
    project_members (PlatformServiceState.memberships s') !! k = Some r →
    ∃ r0, project_members (PlatformServiceState.memberships s) !! k = Some r0 ∧
      (r = r0 ∧ (follows m r0 = false ∨ should_update status r0 = false) ∨
       r = PlatformProjectMembershipRecord.with_status r0 status ∧ follows m r0 = true);
  sa_bindings k b :
    InMemoryPlatformRoleBindingStore.role_bindings (PlatformServiceState.role_bindings s') !! k
      = Some b →
    PlatformRoleBindingRecord.status b = PlatformRoleBindingStatus.Active →
    InMemoryPlatformRoleBindingStore.role_bindings (PlatformServiceState.role_bindings s) !! k
      = Some b ∧
    (status = PlatformMembershipStatus.Removed →
     PlatformRoleBindingRecord.tenant_id b = PlatformOrganizationMembershipRecord.tenant_id m →
     PlatformRoleBindingRecord.principal_id b
       = PlatformOrganizationMembershipRecord.principal_id m →
     PlatformRoleBindingRecord.organization_id b
       ≠ Some (PlatformOrganizationMembershipRecord.organization_id m));
  sa_grants : PlatformServiceState.authorization s' = PlatformServiceState.authorization s;
}.

Lemma apply_status_ok om version status s r s' :
  apply_organization_member_status om version status s = (Ok r, s') →
  status ≠ PlatformMembershipStatus.Active →
  ∃ m, status_applied om status m s s' ∧
    PlatformOrganizationMembershipRecord.resource_version m = version.
Proof.
  unfold apply_organization_member_status, set_organization_member_status, on_memberships,
    cascade_project_memberships_for_organization_member. intros E Hne. svc_inv E.
  apply zoom_ok in E0 as (x & Eu & ->). apply zoom_act_ok in E1 as [_ ->].
  unfold InMemoryPlatformMembershipStore.update_organization_member_status in Eu.
  destruct (organization_members _ !! om) as [m|] eqn:Em; [|done].
  destruct (_ !=? _) eqn:Ev in Eu; [done|]. btrue. simplify_eq/=. exists m. split; [|done].
  unfold InMemoryPlatformMembershipStore.cascade_project_memberships_for_organization_member in *.
  rewrite (bool_decide_eq_false_2 (status = PlatformMembershipStatus.Active)) in E2 by done.
  simpl in E2.
  match type of E2 with context [PlatformServiceState.set_memberships (with_project_members ?ms ?pm) ?st] =>
    set (sm := PlatformServiceState.set_memberships (with_project_members ms pm) st) in E2 end.
  assert (PlatformServiceState.memberships s2 = PlatformServiceState.memberships sm ∧
    PlatformServiceState.authorization s2 = PlatformServiceState.authorization s ∧
    (status = PlatformMembershipStatus.Removed ∧
     PlatformServiceState.role_bindings s2 =
       (InMemoryPlatformRoleBindingStore.delete_role_bindings_for_organization_principal
         (PlatformOrganizationMembershipRecord.tenant_id m)
         (PlatformOrganizationMembershipRecord.organization_id m)
         (PlatformOrganizationMembershipRecord.principal_id m)
         (PlatformServiceState.role_bindings s)).2 ∨
     status ≠ PlatformMembershipStatus.Removed ∧
     PlatformServiceState.role_bindings s2 = PlatformServiceState.role_bindings s)) as (Hm & Ha & Hb).
  { case_bool_decide as Er.
    - apply zoom_act_ok in E2 as [_ ->]. simpl. auto.
    - apply mret_ok in E2 as [_ ->]. simpl. auto. }
  split.
  - done.
  - rewrite Hm. apply lookup_insert_eq.
  - intros k r. rewrite Hm. simpl. rewrite lookup_insert_Some. naive_solver.
  - intros k r. rewrite Hm. simpl. rewrite update_where_lookup. intros (r0 & Hr0 & ->).
    exists r0. split; [done|]. unfold follows. simpl. fold (follows m r0).
    destruct (follows m r0) eqn:Ef; simpl; [|auto]. destruct (should_update status r0); auto.
  - intros k b Hk Hs. destruct Hb as [[Hr Hb]|[Hr Hb]]; rewrite Hb in Hk; [|done].
    apply update_where_lookup in Hk as (b0 & Hk & ->). destruct (_ && _) eqn:Ed.
    + done.
    + split; [done|]. intros _ Ht Hp Ho. revert Ed. by rewrite !bool_decide_eq_true_2.
  - done.
Qed.

(** What still backs a binding at the organization after its member lost it:
    another membership record of the principal there, or a project membership
    recorded under another organization. *)
Definition backed_elsewhere (om organization : string) (s : PlatformServiceState.t)
    (b : PlatformRoleBindingRecord.t) : Prop :=
  (∃ k m, k ≠ om ∧ organization_members (PlatformServiceState.memberships s) !! k = Some m ∧
     PlatformOrganizationMembershipRecord.organization_id m = organization ∧
     PlatformOrganizationMembershipRecord.tenant_id m = PlatformRoleBindingRecord.tenant_id b ∧
     PlatformOrganizationMembershipRecord.principal_id m
       = PlatformRoleBindingRecord.principal_id b ∧
     PlatformOrganizationMembershipRecord.status m = PlatformMembershipStatus.Active) ∨
  (∃ k m, project_members (PlatformServiceState.memberships s) !! k = Some m ∧
     PlatformRoleBindingRecord.project_id b
       = Some (PlatformProjectMembershipRecord.project_id m) ∧
     PlatformProjectMembershipRecord.organization_id m ≠ organization ∧
     PlatformProjectMembershipRecord.tenant_id m = PlatformRoleBindingRecord.tenant_id b ∧
     PlatformProjectMembershipRecord.principal_id m = PlatformRoleBindingRecord.principal_id b ∧
     PlatformProjectMembershipRecord.status m = PlatformMembershipStatus.Active).

Lemma follows_iff m r :
  follows m r = true ↔
  PlatformProjectMembershipRecord.tenant_id r = PlatformOrganizationMembershipRecord.tenant_id m ∧
  PlatformProjectMembershipRecord.organization_id r
    = PlatformOrganizationMembershipRecord.organization_id m ∧
  PlatformProjectMembershipRecord.principal_id r
    = PlatformOrganizationMembershipRecord.principal_id m.
Proof. unfold follows. rewrite !andb_true_iff, !bool_decide_eq_true. tauto. Qed.

(** A project membership that is active after the change was there before and
    does not follow the member. *)
Lemma status_applied_project om status m s s' k r :
  status_applied om status m s s' → status ≠ PlatformMembershipStatus.Active →
  project_members (PlatformServiceState.memberships s') !! k = Some r →
  PlatformProjectMembershipRecord.status r = PlatformMembershipStatus.Active →
  project_members (PlatformServiceState.memberships s) !! k = Some r ∧ follows m r = false.
Proof.
  intros Ha Hne Hk Hs. destruct (sa_projects _ _ _ _ _ Ha _ _ Hk) as (r0 & Hr0 & [[-> H1]|[-> _]]).
  - split; [done|]. destruct H1 as [?|H1]; [done|].
    destruct status; simpl in H1; [done|..]; rewrite Hs in H1; done.
  - by simpl in Hs.
Qed.

(** An organization membership that is active after the change was there
    before under another id. *)
Lemma status_applied_member om status m s s' k r :
  status_applied om status m s s' → status ≠ PlatformMembershipStatus.Active →
  organization_members (PlatformServiceState.memberships s') !! k = Some r →
  PlatformOrganizationMembershipRecord.status r = PlatformMembershipStatus.Active →
  k ≠ om ∧ organization_members (PlatformServiceState.memberships s) !! k = Some r.
Proof. intros Ha Hne Hk Hs. by destruct (sa_members _ _ _ _ _ Ha _ _ Hk) as [[-> ->]|?]. Qed.

Lemma status_applied_backed om status m s s' b :
  status_applied om status m s s' → status ≠ PlatformMembershipStatus.Active →
  backed s' b → backed s b.
Proof.
  intros Ha Hne. unfold backed. destruct (PlatformRoleBindingRecord.project_id b).
  - intros (k & r & Hk & H1 & H2 & H3 & H4).
    destruct (status_applied_project _ _ _ _ _ _ _ Ha Hne Hk H4). eauto 10.
  - destruct (PlatformRoleBindingRecord.organization_id b); [|done].
    intros (k & r & Hk & H1 & H2 & H3 & H4).
    destruct (status_applied_member _ _ _ _ _ _ _ Ha Hne Hk H4). eauto 10.
Qed.

(** Taking a member's status away never gives anybody access. *)
Lemma status_applied_restricts om status m s s' request :
  status_applied om status m s s' → status ≠ PlatformMembershipStatus.Active →
  permitted s' request → permitted s request.
Proof.
  intros Ha Hne [Hadm H1]. split; [done|]. destruct H1 as [(g & Hg & H1)|(b & [Hk Hs Ht Hp Hb Hr])].
  - left. exists g. by rewrite <- (sa_grants _ _ _ _ _ Ha).
  - right. exists b. destruct Hk as [k Hk]. destruct (sa_bindings _ _ _ _ _ Ha _ _ Hk Hs).
    split; eauto using status_applied_backed.
Qed.

(** What is left at the organization is backed elsewhere. *)
Lemma status_applied_elsewhere om status m s s' b :
  status_applied om status m s s' → status ≠ PlatformMembershipStatus.Active →
  PlatformRoleBindingRecord.tenant_id b = PlatformOrganizationMembershipRecord.tenant_id m →
  PlatformRoleBindingRecord.principal_id b = PlatformOrganizationMembershipRecord.principal_id m →
  PlatformRoleBindingRecord.organization_id b
    = Some (PlatformOrganizationMembershipRecord.organization_id m) →
  backed s' b →
  backed_elsewhere om (PlatformOrganizationMembershipRecord.organization_id m) s' b.
Proof.
  intros Ha Hne Ht Hp Ho. unfold backed. rewrite Ho.
  destruct (PlatformRoleBindingRecord.project_id b) as [project|] eqn:Epr.
  - intros (k & r & Hk & H1 & H2 & H3 & H4).
    destruct (status_applied_project _ _ _ _ _ _ _ Ha Hne Hk H4) as [_ Hf].
    right. exists k, r. split_and!; try done; [by subst|]. intros Hor.
    revert Hf. by rewrite (proj2 (follows_iff m r)) by (split_and!; congruence).
  - intros (k & r & Hk & H1 & H2 & H3 & H4).
    destruct (status_applied_member _ _ _ _ _ _ _ Ha Hne Hk H4). left. eauto 10.
Qed.

(** C34. Removing an organization member takes the whole organization away from
    the principal and gives nobody anything: after a successful removal the
    member's record is removed with its version advanced, every project
    membership of that tenant, organization and principal is removed, nothing
    is permitted to anybody that was not permitted before, and whatever is
    still permitted to the principal comes from a static grant or from a role
    binding outside the organization. *)
Theorem removed_member_loses_organization (headers : HeaderMap) (organization_id om : string)
    (request : VersionedRequest.t) (s s' : PlatformServiceState.t) (body : V)
    (Hrun : remove_organization_member headers organization_id om request s = (Ok body, s')) :
  ∃ m, organization_members (PlatformServiceState.memberships s) !! om = Some m ∧
    PlatformOrganizationMembershipRecord.organization_id m = organization_id ∧
    organization_members (PlatformServiceState.memberships s') !! om
      = Some (PlatformOrganizationMembershipRecord.changed m PlatformMembershipStatus.Removed
                (PlatformOrganizationMembershipRecord.membership_kind m)) ∧
    (∀ k r, project_members (PlatformServiceState.memberships s') !! k = Some r →
       follows m r = true →
       PlatformProjectMembershipRecord.status r = PlatformMembershipStatus.Removed) ∧
    (∀ req, permitted s' req → permitted s req) ∧
    (∀ req, permitted s' req →
       AuthenticatedActor.tenant_id (AuthorizationRequest.actor req)
         = PlatformOrganizationMembershipRecord.tenant_id m →
       AuthenticatedActor.principal_id (AuthorizationRequest.actor req)
         = PlatformOrganizationMembershipRecord.principal_id m →
       statically_granted s' req ∨
       ∃ b, binding_grants s' b req ∧
            PlatformRoleBindingRecord.organization_id b ≠ Some organization_id).
Proof.
  unfold remove_organization_member in Hrun. svc_inv Hrun.
  apply authenticated_state in E as ->.
  apply organization_member_for_actor_ok in E0 as (-> & Hm & _ & Ho).
  apply authorize_ok in E1 as [_ ->].
  destruct a2 as [[u np] nb]. svc_inv Hrun.
  apply apply_status_ok in E2 as (m & Ha & _); [|done].
  rewrite (sa_before _ _ _ _ _ Ha) in Hm. simplify_eq. exists a0.
  split_and!; [by apply (sa_before _ _ _ _ _ Ha)|done|by apply (sa_after _ _ _ _ _ Ha)| | |].
  - intros k r Hk Hf. destruct (sa_projects _ _ _ _ _ Ha _ _ Hk) as (r0 & _ & [[-> H1]|[-> _]]).
    + destruct H1 as [H1|H1]; [congruence|]. simpl in H1. by btrue.
    + done.
  - intros req. by apply (status_applied_restricts _ _ _ _ _ req Ha).
  - intros req [Hadm [Hg|(b & Hb)]] Ht Hp; [by left|right]. exists b. split; [done|].
    destruct Hb as [[k Hk] Hs Hbt Hbp _ _].
    apply (sa_bindings _ _ _ _ _ Ha _ _ Hk Hs); congruence.
Qed.

(** Suspending (or removing) an organization member by a status update
    gives nobody anything, ends every active project membership that follows
    it, and leaves a role binding of the principal at that organization in
    force only while something else backs it: another active membership record
    of the principal there, or an active project membership recorded under
    another organization. *)
Theorem suspended_member_loses_organization (headers : HeaderMap) (organization_id om : string)
    (request : UpdateMembershipStatusRequest.t) (status : PlatformMembershipStatus.t)
    (s s' : PlatformServiceState.t) (body : V)
    (Hstatus : membership_status_from_request (UpdateMembershipStatusRequest.status request)
               = Ok status)
    (Hlost : status ≠ PlatformMembershipStatus.Active)
    (Hrun : PlatHandlers.update_organization_member_status headers organization_id om request s
            = (Ok body, s')) :
  ∃ m, organization_members (PlatformServiceState.memberships s) !! om = Some m ∧
    PlatformOrganizationMembershipRecord.organization_id m = organization_id ∧
    (∀ k r, project_members (PlatformServiceState.memberships s') !! k = Some r →
       follows m r = true →
       PlatformProjectMembershipRecord.status r ≠ PlatformMembershipStatus.Active) ∧
    (∀ req, permitted s' req → permitted s req) ∧
    (∀ req b, binding_grants s' b req →
       AuthenticatedActor.tenant_id (AuthorizationRequest.actor req)
         = PlatformOrganizationMembershipRecord.tenant_id m →
       AuthenticatedActor.principal_id (AuthorizationRequest.actor req)
         = PlatformOrganizationMembershipRecord.principal_id m →
       PlatformRoleBindingRecord.organization_id b = Some organization_id →
       backed_elsewhere om organization_id s' b).
Proof.
  unfold PlatHandlers.update_organization_member_status in Hrun. svc_inv Hrun.
  apply authenticated_state in E as ->.
  apply organization_member_for_actor_ok in E0 as (-> & Hm & _ & Ho).
  apply authorize_ok in E1 as [_ ->]. rewrite Hstatus in E2. simplify_eq.
  destruct a3 as [[u np] nb]. svc_inv Hrun.
  apply apply_status_ok in E3 as (m & Ha & _); [|done].
  rewrite (sa_before _ _ _ _ _ Ha) in Hm. simplify_eq. exists a0.
  split_and!; [by apply (sa_before _ _ _ _ _ Ha)|done| | |].
  - intros k r Hk Hf Hs. destruct (status_applied_project _ _ _ _ _ _ _ Ha Hlost Hk Hs). congruence.
  - intros req. by apply (status_applied_restricts _ _ _ _ _ req Ha).
  - intros req b [_ _ Hbt Hbp Hb _] Ht Hp Hbo. eapply status_applied_elsewhere; eauto; congruence.
Qed.

(** ** Users and their sessions *)

Definition is_principal (tenant principal : string) (a : AuthenticatedActor.t) : Prop :=
  AuthenticatedActor.tenant_id a = tenant ∧ AuthenticatedActor.principal_id a = principal.

Lemma bearer_session raw store a :
  InMemoryPlatformAuthSessionStore.authenticated_actor_for_bearer raw store = Ok a ↔
  trim raw ≠ "" ∧ ∃ r,
    InMemoryPlatformAuthSessionStore.sessions store !! hash_session_token (trim raw) = Some r ∧
    PlatformAuthSessionRecord.status r = PlatformAuthSessionStatus.Active ∧
    PlatformAuthSessionRecord.actor r = a.
Proof.
  unfold InMemoryPlatformAuthSessionStore.authenticated_actor_for_bearer,
    InMemoryPlatformAuthSessionStore.auth_session_for_bearer, active_session_record.
  case_bool_decide as Et; [split; [done|by intros [? _]]|].
  destruct (InMemoryPlatformAuthSessionStore.sessions store !! _) as [r|]; last first.
  { split; [done|]. by intros (_ & r & ? & _). }
  destruct (PlatformAuthSessionRecord.status r) eqn:Es; simpl; split.
  all: try (intros (_ & r' & [= <-] & ? & ?)); try congruence.
  intros [= <-]. eauto.
Qed.

(** Where an authenticated actor comes from. *)
Lemma authenticated_inv headers s a s' :
  authenticated_actor_from_headers headers s = (Ok a, s') →
  (∃ raw, InMemoryPlatformAuthSessionStore.authenticated_actor_for_bearer raw
            (PlatformServiceState.auth_sessions s) = Ok a) ∨
  (∃ raw, InMemoryPlatformBearerCredentialStore.authenticated_actor_for_bearer_credential raw
            (PlatformServiceState.bearer_credentials s) = Ok a) ∨
  (∃ subject, InMemoryPlatformMtlsIdentityStore.authenticated_actor_for_mtls_subject subject
            (PlatformServiceState.mtls_identities s) = Ok a).
Proof.
  unfold authenticated_actor_from_headers. intros E.
  destruct (headers AUTHORIZATION) as [auth|].
  - destruct (bearer_token auth) as [raw|]; [|done]. apply reads_ok in E as [E _].
    destruct (InMemoryPlatformAuthSessionStore.authenticated_actor_for_bearer raw _) as [b|e] eqn:Eb.
    { simplify_eq. eauto. }
    destruct e; try done.
    destruct (InMemoryPlatformBearerCredentialStore.authenticated_actor_for_bearer_credential raw _)
      eqn:Ec; simplify_eq. eauto.
  - destruct (headers VERIFIED_MTLS_SUBJECT_HEADER) as [subject|]; [|done].
    apply reads_ok in E as [E _].
    destruct (InMemoryPlatformMtlsIdentityStore.authenticated_actor_for_mtls_subject subject _)
      eqn:Ec; simplify_eq. eauto.
Qed.

(** After the sessions of a principal are disabled, a bearer authenticates
    exactly the others it authenticated before. *)
Lemma disabled_sessions tenant principal store raw a :
  InMemoryPlatformAuthSessionStore.authenticated_actor_for_bearer raw
    (InMemoryPlatformAuthSessionStore.disable_auth_sessions_for_principal tenant principal store).2
    = Ok a ↔
  InMemoryPlatformAuthSessionStore.authenticated_actor_for_bearer raw store = Ok a ∧
  ¬ is_principal tenant principal a.
Proof.
  rewrite !bearer_session. simpl. setoid_rewrite update_where_lookup.
  unfold is_principal. split.
  - intros (Ht & r & (r0 & Hr0 & ->) & Hs & Ha).
    destruct (_ && _) eqn:Ed; [done|]. split; [eauto|]. intros [H1 H2]. subst a.
    revert Ed. rewrite Hs. unfold InMemoryPlatformAuthSessionStore.of_principal.
    by rewrite !bool_decide_eq_true_2.
  - intros [(Ht & r & Hr & Hs & Ha) Hn]. split; [done|]. exists r. split; [|done].
    exists r. split; [done|]. unfold InMemoryPlatformAuthSessionStore.of_principal.
    subst a. destruct (_ && _) eqn:Ed; [|done]. btrue. by destruct Hn.
Qed.

Lemma platform_user_by_id_ok user_id s u s' :
  platform_user_by_id user_id s = (Ok u, s') →
  s' = s ∧ InMemoryPlatformUserStore.users (PlatformServiceState.users s) !! user_id = Some u.
Proof.
  unfold platform_user_by_id, InMemoryPlatformUserStore.user. intros E. svc_inv E.
  destruct (_ !! user_id) as [v|]; [|done]. destruct (InMemoryPlatformUserStore.not_deleted v);
    by simplify_eq.
Qed.

Lemma set_platform_user_status_ok user_id version status s u s' :
  set_platform_user_status user_id version status s = (Ok u, s') →
  ∃ u0, InMemoryPlatformUserStore.users (PlatformServiceState.users s) !! user_id = Some u0 ∧
    PlatformUserRecord.resource_version u0 = version ∧
    u = PlatformUserRecord.with_status u0 status ∧
    s' = PlatformServiceState.set_users (InMemoryPlatformUserStore.mk
           (<[user_id := u]> (InMemoryPlatformUserStore.users (PlatformServiceState.users s)))) s.
Proof.
  unfold set_platform_user_status. intros (x & E & ->)%zoom_ok.
  unfold InMemoryPlatformUserStore.update_user_status in E.
  destruct (_ <? _)%Z; [done|]. destruct (_ !! user_id) as [u0|]; [|done].
  destruct (_ ==? _); [done|]. destruct (_ !=? _) eqn:Ev; [done|]. btrue.
  destruct (validate_platform_user_record _); simplify_eq. eauto 10.
Qed.

Lemma record_platform_audit_event_ok bytes now actor action resource kind reason s e s' :
  record_platform_audit_event bytes now actor action resource kind reason s = (Ok e, s') →
  PlatformAuditEventRecord.event_type e = kind ∧
  PlatformAuditEventRecord.action_id e = PlatformAction.as_str action ∧
  PlatformAuditEventRecord.actor_principal_id e = AuthenticatedActor.principal_id actor ∧
  PlatformAuditEventRecord.resource_id e = ResourceRef.resource_id resource ∧
  s' = PlatformServiceState.set_audits (InMemoryPlatformAuditStore.mk
         (<[PlatformAuditEventRecord.audit_event_id e := e]>
            (InMemoryPlatformAuditStore.events (PlatformServiceState.audits s)))) s.
Proof.
  unfold record_platform_audit_event. intros E. svc_inv E.
  apply zoom_ok in E0 as (x & E & ->). unfold InMemoryPlatformAuditStore.record_audit_event in E.
  destruct (validate_platform_audit_event_record _); by simplify_eq/=.
Qed.

(** Disabling or deleting a user locks the user out of sessions: after a
    successful status change to one that does not accept access the record
    holds it with its version advanced; no request is authenticated as the user
    through a session, so only a bearer credential or an mTLS identity is left;
    a bearer of anybody else authenticates exactly as before; a new login is
    refused with [principal_disabled]; and the change is in the audit trail
    under the actor who made it. *)
Theorem disabled_user_is_locked_out (headers : HeaderMap) (audit_bytes : list Z) (now_unix : Z)
    (user_id : string) (request : UpdatePlatformUserStatusRequest.t)
    (status : PlatformUserStatus.t) (s s' : PlatformServiceState.t) (body : V)
    (Hstatus : platform_user_status_from_request (UpdatePlatformUserStatusRequest.status request)
               = Ok status)
    (Hlost : PlatformUserStatus.accepts_access status = false)
    (Hrun : update_platform_user_status headers audit_bytes now_unix user_id request s
            = (Ok body, s')) :
  ∃ u actor event,
    InMemoryPlatformUserStore.users (PlatformServiceState.users s) !! user_id = Some u ∧
    PlatformUserRecord.resource_version u
      = UpdatePlatformUserStatusRequest.expected_version request ∧
    InMemoryPlatformUserStore.users (PlatformServiceState.users s') !! user_id
      = Some (PlatformUserRecord.with_status u status) ∧
    (∀ raw a,
       InMemoryPlatformAuthSessionStore.authenticated_actor_for_bearer raw
         (PlatformServiceState.auth_sessions s') = Ok a ↔
       InMemoryPlatformAuthSessionStore.authenticated_actor_for_bearer raw
         (PlatformServiceState.auth_sessions s) = Ok a ∧
       ¬ is_principal (PlatformUserRecord.tenant_id u) (PlatformUserRecord.user_id u) a) ∧
    (∀ headers' a s'', authenticated_actor_from_headers headers' s' = (Ok a, s'') →
       is_principal (PlatformUserRecord.tenant_id u) (PlatformUserRecord.user_id u) a →
       (∃ raw, InMemoryPlatformBearerCredentialStore.authenticated_actor_for_bearer_credential raw
          (PlatformServiceState.bearer_credentials s) = Ok a) ∨
       (∃ subject, InMemoryPlatformMtlsIdentityStore.authenticated_actor_for_mtls_subject subject
          (PlatformServiceState.mtls_identities s) = Ok a)) ∧
    ensure_user_can_login user_id s'
      = (Err (ServiceError.AuthenticationFailed "principal_disabled"), s') ∧
    authenticated_actor_from_headers headers s = (Ok actor, s) ∧
    InMemoryPlatformAuditStore.events (PlatformServiceState.audits s')
      = <[PlatformAuditEventRecord.audit_event_id event := event]>
          (InMemoryPlatformAuditStore.events (PlatformServiceState.audits s)) ∧
    PlatformAuditEventRecord.event_type event = "platform.user.status.update" ∧
    PlatformAuditEventRecord.actor_principal_id event = AuthenticatedActor.principal_id actor ∧
    PlatformAuditEventRecord.resource_id event = PlatformUserRecord.user_id u.
Proof.
  unfold update_platform_user_status in Hrun. svc_inv Hrun.
  pose proof (authenticated_state _ _ _ _ E0) as ->.
  apply platform_user_by_id_ok in E1 as [-> Hu]. apply authorize_ok in E3 as [_ ->].
  rewrite Hstatus in E5. simplify_eq.
  apply set_platform_user_status_ok in E6 as (u & Hu' & Hv & -> & ->).
  rewrite Hu in Hu'. simplify_eq. simpl in E7. rewrite Hlost in E7.
  apply zoom_act_ok in E7 as [_ ->].
  apply record_platform_audit_event_ok in E8 as (Hk & _ & Hp & Hr & ->).
  exists u, a0, a8. split_and!; try done.
  - apply lookup_insert_eq.
  - intros raw b. apply disabled_sessions.
  - intros headers' b s'' Ha Hb. apply authenticated_inv in Ha as [[raw Ha]|[?|?]]; [|by auto..].
    apply disabled_sessions in Ha as [_ Hn]. done.
  - unfold ensure_user_can_login. erewrite svc_bind_run by done. simpl.
    unfold InMemoryPlatformUserStore.user_including_deleted. simpl.
    rewrite lookup_insert_eq. simpl. by rewrite Hlost.
Qed.
End access.
