(* ===== verification/PlatInvariant.v ===== *)
(** * The platform service: the invariant of its state

    Every store is keyed by the id of its records and holds records that pass
    their validation (up to the version, which may wrap, and the update time of
    an invitation).  Each handler keeps this, whatever it answers, and so every
    state reached from startup by requests has it. *)

From S2P Require Import Prelude Order Text Json PlatAction PlatUser PlatRole PlatMembership.
From S2P Require Import PlatInvitation PlatAudit PlatSession PlatResource PlatRoute PlatIdentity.
From S2P Require Import PlatSecret PlatConfig PlatService PlatRequests PlatHandlers PlatLogin.
From S2P Require Import PlatLaws.

(** ** Stores keyed by the id of their records *)

Definition stored `{Countable K} {A} (id : A → K) (P : A → Prop) (m : gmap K A) : Prop :=
  ∀ k x, m !! k = Some x → id x = k ∧ P x.

Section stored.
Context `{Countable K} {A : Type} (id : A → K) (P : A → Prop).
Implicit Types m : gmap K A.

Lemma stored_empty : stored id P ∅.
Proof. intros k x. by rewrite lookup_empty. Qed.

Lemma stored_insert m k x : stored id P m → id x = k → P x → stored id P (<[k := x]> m).
Proof. intros Hm Hid HP j y [[<- <-]|[_ Hj]]%lookup_insert_Some; [done|by apply Hm]. Qed.

(** A record taken from the store is found under its own id. *)
Lemma stored_lookup m k x y : stored id P m → m !! k = Some x → m !! id x = Some y → y = x.
Proof. intros Hm Hx Hy. destruct (Hm _ _ Hx) as [<- _]. congruence. Qed.
End stored.

Lemma stored_update_where {A} (id : A → string) (P : A → Prop) p f (m : gmap string A) :
  stored id P m → (∀ x, P x → id (f x) = id x ∧ P (f x)) → stored id P (update_where p f m).
Proof.
  intros Hm Hf k x (y & Hy & ->)%update_where_lookup. destruct (Hm _ _ Hy) as [<- HP].
  destruct (p y); [|done]. by apply Hf.
Qed.

(** ** Valid records *)

(** The parts of a record its validation reads besides its version. *)
Definition valid_user (u : PlatformUserRecord.t) : Prop :=
  validate_platform_user_record (PlatformUserRecord.mk (PlatformUserRecord.user_id u)
    (PlatformUserRecord.tenant_id u) (PlatformUserRecord.default_organization_id u)
    (PlatformUserRecord.default_project_id u) (PlatformUserRecord.primary_email u)
    (PlatformUserRecord.display_name u) (PlatformUserRecord.status u) 1) = Ok tt.
Definition valid_binding (b : PlatformRoleBindingRecord.t) : Prop :=
  validate_role_binding (PlatformRoleBindingRecord.mk (PlatformRoleBindingRecord.role_binding_id b)
    (PlatformRoleBindingRecord.tenant_id b) (PlatformRoleBindingRecord.organization_id b)
    (PlatformRoleBindingRecord.project_id b) (PlatformRoleBindingRecord.principal_id b)
    (PlatformRoleBindingRecord.role_id b) (PlatformRoleBindingRecord.status b) 1) = Ok tt.
Definition valid_member (m : PlatformOrganizationMembershipRecord.t) : Prop :=
  validate_organization_member (PlatformOrganizationMembershipRecord.mk
    (PlatformOrganizationMembershipRecord.organization_member_id m)
    (PlatformOrganizationMembershipRecord.tenant_id m)
    (PlatformOrganizationMembershipRecord.organization_id m)
    (PlatformOrganizationMembershipRecord.principal_id m)
    (PlatformOrganizationMembershipRecord.membership_kind m)
    (PlatformOrganizationMembershipRecord.status m) 1) = Ok tt.
Definition valid_project_member (m : PlatformProjectMembershipRecord.t) : Prop :=
  validate_project_member (PlatformProjectMembershipRecord.mk
    (PlatformProjectMembershipRecord.project_member_id m)
    (PlatformProjectMembershipRecord.tenant_id m)
    (PlatformProjectMembershipRecord.organization_id m)
    (PlatformProjectMembershipRecord.project_id m)
    (PlatformProjectMembershipRecord.principal_id m)
    (PlatformProjectMembershipRecord.organization_member_id m)
    (PlatformProjectMembershipRecord.membership_kind m)
    (PlatformProjectMembershipRecord.status m) 1) = Ok tt.
Definition valid_invitation (i : PlatformOrganizationInvitationRecord.t) : Prop :=
  validate_organization_invitation (PlatformOrganizationInvitationRecord.mk
    (PlatformOrganizationInvitationRecord.invitation_id i)
    (PlatformOrganizationInvitationRecord.tenant_id i)
    (PlatformOrganizationInvitationRecord.organization_id i)
    (PlatformOrganizationInvitationRecord.project_id i)
    (PlatformOrganizationInvitationRecord.invited_email i)
    (PlatformOrganizationInvitationRecord.invited_principal_id i)
    (PlatformOrganizationInvitationRecord.invitation_token_hash i)
    (PlatformOrganizationInvitationRecord.role_id i)
    (PlatformOrganizationInvitationRecord.status i)
    (PlatformOrganizationInvitationRecord.expires_at_unix i)
    (PlatformOrganizationInvitationRecord.accepted_at_unix i)
    (PlatformOrganizationInvitationRecord.created_by i) 1
    (PlatformOrganizationInvitationRecord.created_at_unix i) 1) = Ok tt.

(** A secret kept in memory has the fingerprint of its value. *)
Definition valid_secret `{Sha256Library} (e : InMemorySecretEntry.t) : Prop :=
  PlatformSecretRefRecord.backend_kind (InMemorySecretEntry.record e) = IN_MEMORY_SECRET_BACKEND →
  PlatformSecretRefRecord.fingerprint (InMemorySecretEntry.record e)
    = secret_fingerprint (PlatformSecretValue.expose (InMemorySecretEntry.value e)).

(** The invariant. *)
Record well_formed `{Sha256Library} (s : PlatformServiceState.t) : Prop := {
  wf_owners : stored (λ o, (ResourceOwnerRecord.resource_kind o, ResourceOwnerRecord.resource_id o))
    (λ o, validate_owner_record o = Ok tt)
    (InMemoryResourceOwnerStore.owners (PlatformServiceState.owners s));
  wf_sessions : stored PlatformAuthSessionRecord.token_hash
    (λ r, validate_session_record r = Ok tt)
    (InMemoryPlatformAuthSessionStore.sessions (PlatformServiceState.auth_sessions s));
  wf_secrets : stored (λ e, PlatformSecretRefRecord.secret_ref_id (InMemorySecretEntry.record e))
    valid_secret (InMemoryPlatformSecretStore.records (PlatformServiceState.secrets s));
  wf_organization_members : stored PlatformOrganizationMembershipRecord.organization_member_id
    valid_member
    (InMemoryPlatformMembershipStore.organization_members (PlatformServiceState.memberships s));
  wf_project_members : stored PlatformProjectMembershipRecord.project_member_id
    valid_project_member
    (InMemoryPlatformMembershipStore.project_members (PlatformServiceState.memberships s));
  wf_invitations : stored PlatformOrganizationInvitationRecord.invitation_id valid_invitation
    (InMemoryPlatformInvitationStore.invitations (PlatformServiceState.invitations s));
  wf_external_identities : stored PlatformExternalIdentityRecord.external_identity_id
    (λ r, validate_external_identity r = Ok tt)
    (InMemoryPlatformExternalIdentityStore.external_identities
       (PlatformServiceState.external_identities s));
  wf_role_bindings : stored PlatformRoleBindingRecord.role_binding_id valid_binding
    (InMemoryPlatformRoleBindingStore.role_bindings (PlatformServiceState.role_bindings s));
  wf_users : stored PlatformUserRecord.user_id valid_user
    (InMemoryPlatformUserStore.users (PlatformServiceState.users s));
  wf_audits : stored PlatformAuditEventRecord.audit_event_id
    (λ e, validate_platform_audit_event_record e = Ok tt)
    (InMemoryPlatformAuditStore.events (PlatformServiceState.audits s));
  wf_providers : stored OidcLoginProviderRecord.identity_provider_id
    (λ p, validate_oidc_login_provider_base p = Ok tt)
    (InMemoryOidcLoginStore.providers (PlatformServiceState.oidc_logins s));
  wf_attempts : stored OidcLoginAttemptRecord.state_hash
    (λ a, validate_oidc_login_attempt_record a = Ok tt)
    (InMemoryOidcLoginStore.attempts (PlatformServiceState.oidc_logins s));
}.

(** ** Validation and the version *)

Lemma result_bind_ok {E A B} (r : result E A) (f : A → result E B) b :
  (r ≫= f) = Ok b ↔ ∃ a, r = Ok a ∧ f a = Ok b.
Proof. destruct r; simpl; naive_solver. Qed.

(** Split an accepting validation into its checks. *)
Ltac checks H :=
  repeat match type of H with
  | (_ ≫= _) = Ok _ => let a := fresh "u" in let H1 := fresh "C" in
      apply result_bind_ok in H as (a & H1 & H);
      try match type of a with unit => destruct a end
  end.
(** Rebuild one from the checks in the context. *)
Ltac rechecks := repeat (apply result_bind_ok; eexists tt; split; [eassumption|]).

Lemma validate_user_valid u : validate_platform_user_record u = Ok tt → valid_user u.
Proof.
  unfold valid_user, validate_platform_user_record. simpl. intros H. checks H. rechecks.
  repeat case_match; done.
Qed.
Lemma validate_binding_valid b : validate_role_binding b = Ok tt → valid_binding b.
Proof.
  unfold valid_binding, validate_role_binding. simpl. intros H. checks H. rechecks.
  unfold PlatformRoleBindingRecord.built_in_role in *. simpl.
  destruct (BuiltInRole.from_id _); [|done]. checks H. by rechecks.
Qed.
Lemma validate_member_valid m : validate_organization_member m = Ok tt → valid_member m.
Proof. unfold valid_member, validate_organization_member. simpl. intros H. checks H. by rechecks. Qed.
Lemma validate_project_member_valid m :
  validate_project_member m = Ok tt → valid_project_member m.
Proof. unfold valid_project_member, validate_project_member. simpl. intros H. checks H. by rechecks. Qed.

Lemma invitation_rebase i status accepted version updated :
  valid_invitation i ∨ validate_organization_invitation i = Ok tt →
  (status = PlatformInvitationStatus.Accepted → accepted ≠ None) →
  (0 < version)%Z → (0 < updated)%Z →
  validate_organization_invitation (PlatformOrganizationInvitationRecord.mk
    (PlatformOrganizationInvitationRecord.invitation_id i)
    (PlatformOrganizationInvitationRecord.tenant_id i)
    (PlatformOrganizationInvitationRecord.organization_id i)
    (PlatformOrganizationInvitationRecord.project_id i)
    (PlatformOrganizationInvitationRecord.invited_email i)
    (PlatformOrganizationInvitationRecord.invited_principal_id i)
    (PlatformOrganizationInvitationRecord.invitation_token_hash i)
    (PlatformOrganizationInvitationRecord.role_id i) status
    (PlatformOrganizationInvitationRecord.expires_at_unix i) accepted
    (PlatformOrganizationInvitationRecord.created_by i) version
    (PlatformOrganizationInvitationRecord.created_at_unix i) updated) = Ok tt.
Proof.
  intros Hi Hs Hv Hu. unfold valid_invitation, validate_organization_invitation in *.
  simpl in *. destruct Hi as [H|H]; checks H; rechecks.
  all: cbv zeta in *; checks H; rechecks; repeat case_match; try done; checks H; rechecks.
  all: repeat case_match; try done; try lia; btrue; naive_solver.
Qed.

(** An accepted invitation says when. *)
Lemma validated_accepted i : validate_organization_invitation i = Ok tt →
  PlatformOrganizationInvitationRecord.status i = PlatformInvitationStatus.Accepted →
  PlatformOrganizationInvitationRecord.accepted_at_unix i ≠ None.
Proof.
  unfold validate_organization_invitation. intros H Hs Ha. checks H. cbv zeta in H. checks H.
  rewrite Hs, Ha in H. repeat case_match; try done; checks H; done.
Qed.

(** ** Computations that keep the invariant *)

Section keeps.
Context `{Sha256Library}.

(** Whatever it answers, the state stays well-formed; an answer satisfies [Q]. *)
Definition keeps {A} (m : Svc A) (Q : A → Prop) : Prop :=
  ∀ s, well_formed s → well_formed (m s).2 ∧ ∀ a, (m s).1 = Ok a → Q a.

Lemma keeps_bind {A B} (m : Svc A) (f : A → Svc B) Q R :
  keeps m Q → (∀ a, Q a → keeps (f a) R) → keeps (m ≫= f) R.
Proof.
  intros Hm Hf s Hs. destruct (Hm s Hs) as [Hs1 HQ]. unfold mbind, M_bind.
  destruct (m s) as [[a|e] s1]; simpl in *; [|done]. apply Hf; auto.
Qed.
Lemma keeps_imp {A} (m : Svc A) (Q R : A → Prop) : keeps m Q → (∀ a, Q a → R a) → keeps m R.
Proof. intros Hm HQR s Hs. destruct (Hm s Hs). auto. Qed.
Lemma keeps_ret {A} (a : A) : keeps (mret a) (λ b, b = a).
Proof. intros s Hs. split; [done|]. by intros b [= <-]. Qed.
Lemma keeps_throw {A} e (Q : A → Prop) : keeps (throw e) Q.
Proof. by intros s Hs. Qed.
Lemma keeps_lift {A} (r : result ServiceError.t A) : keeps (lift r) (λ a, r = Ok a).
Proof. by intros s Hs. Qed.
Lemma keeps_reads {A} (f : PlatformServiceState.t → result ServiceError.t A) :
  keeps (reads f) (λ a, ∃ s, well_formed s ∧ f s = Ok a).
Proof. intros s Hs. split; [done|]. eauto. Qed.
Lemma keeps_found {A} (f : PlatformServiceState.t → option A) :
  keeps (found f) (λ a, ∃ s, well_formed s ∧ f s = Some a).
Proof.
  eapply keeps_imp; [apply keeps_reads|]. intros a (s & Hs & E). exists s. split; [done|].
  by destruct (f s); simplify_eq/=.
Qed.
Lemma keeps_gets {A} (f : PlatformServiceState.t → A) :
  keeps (gets f) (λ a, ∃ s, well_formed s ∧ f s = a).
Proof. intros s Hs. split; [done|]. intros a [= <-]. eauto. Qed.

(** A computation that leaves the state alone. *)
Definition reads_only {A} (m : Svc A) : Prop := ∀ s, (m s).2 = s.
Lemma keeps_reads_only {A} (m : Svc A) : reads_only m → keeps m (λ _, True).
Proof. intros Hm s Hs. by rewrite Hm. Qed.

(** An operation of one store. *)
Lemma keeps_zoom {S E A} get put (err : E → ServiceError.t) (op : M S E A) (I : S → Prop) Q :
  (∀ s, well_formed s → I (get s)) →
  (∀ s x, well_formed s → I x → well_formed (put x s)) →
  (∀ x, I x → I (op x).2 ∧ ∀ a, (op x).1 = Ok a → Q a) →
  keeps (zoom get put err op) Q.
Proof.
  intros Hget Hput Hop s Hs. unfold zoom. destruct (Hop (get s) (Hget s Hs)) as [H1 H2].
  destruct (op (get s)) as [[a|e] x]; simpl in *; split; auto; try done.
  intros b [= <-]. auto.
Qed.
Lemma keeps_zoom_act {S A} get put (op : S → A * S) (I : S → Prop) :
  (∀ s, well_formed s → I (get s)) →
  (∀ s x, well_formed s → I x → well_formed (put x s)) →
  (∀ x, I x → I (op x).2) →
  keeps (zoom_act get put op) (λ _, True).
Proof.
  intros Hget Hput Hop s Hs. unfold zoom_act. pose proof (Hop (get s) (Hget s Hs)).
  destruct (op (get s)). simpl in *. auto.
Qed.

(** *** The stores *)

Definition owners_ok (x : InMemoryResourceOwnerStore.t) : Prop :=
  stored (λ o, (ResourceOwnerRecord.resource_kind o, ResourceOwnerRecord.resource_id o))
    (λ o, validate_owner_record o = Ok tt) (InMemoryResourceOwnerStore.owners x).
Definition sessions_ok (x : InMemoryPlatformAuthSessionStore.t) : Prop :=
  stored PlatformAuthSessionRecord.token_hash (λ r, validate_session_record r = Ok tt)
    (InMemoryPlatformAuthSessionStore.sessions x).
Definition secrets_ok (x : InMemoryPlatformSecretStore.t) : Prop :=
  stored (λ e, PlatformSecretRefRecord.secret_ref_id (InMemorySecretEntry.record e)) valid_secret
    (InMemoryPlatformSecretStore.records x).
Definition memberships_ok (x : InMemoryPlatformMembershipStore.t) : Prop :=
  stored PlatformOrganizationMembershipRecord.organization_member_id valid_member
    (InMemoryPlatformMembershipStore.organization_members x) ∧
  stored PlatformProjectMembershipRecord.project_member_id valid_project_member
    (InMemoryPlatformMembershipStore.project_members x).
Definition invitations_ok (x : InMemoryPlatformInvitationStore.t) : Prop :=
  stored PlatformOrganizationInvitationRecord.invitation_id valid_invitation
    (InMemoryPlatformInvitationStore.invitations x).
Definition external_identities_ok (x : InMemoryPlatformExternalIdentityStore.t) : Prop :=
  stored PlatformExternalIdentityRecord.external_identity_id
    (λ r, validate_external_identity r = Ok tt)
    (InMemoryPlatformExternalIdentityStore.external_identities x).
Definition role_bindings_ok (x : InMemoryPlatformRoleBindingStore.t) : Prop :=
  stored PlatformRoleBindingRecord.role_binding_id valid_binding
    (InMemoryPlatformRoleBindingStore.role_bindings x).
Definition users_ok (x : InMemoryPlatformUserStore.t) : Prop :=
  stored PlatformUserRecord.user_id valid_user (InMemoryPlatformUserStore.users x).
Definition audits_ok (x : InMemoryPlatformAuditStore.t) : Prop :=
  stored PlatformAuditEventRecord.audit_event_id
    (λ e, validate_platform_audit_event_record e = Ok tt) (InMemoryPlatformAuditStore.events x).
Definition oidc_logins_ok (x : InMemoryOidcLoginStore.t) : Prop :=
  stored OidcLoginProviderRecord.identity_provider_id
    (λ p, validate_oidc_login_provider_base p = Ok tt) (InMemoryOidcLoginStore.providers x) ∧
  stored OidcLoginAttemptRecord.state_hash
    (λ a, validate_oidc_login_attempt_record a = Ok tt) (InMemoryOidcLoginStore.attempts x).

(** An operation of a store keeps the store's part of the invariant. *)
Definition store_keeps {S E A} (I : S → Prop) (op : M S E A) (Q : A → Prop) : Prop :=
  ∀ x, I x → I (op x).2 ∧ ∀ a, (op x).1 = Ok a → Q a.

Lemma keeps_unit {E} (r : result E unit) u : r = Ok u → r = Ok tt.
Proof. by destruct u. Qed.
#[local] Hint Resolve keeps_unit : core.

(** Split on the branches of a store operation; those that do not write are
    closed. *)
Ltac store_op :=
  intros x Hx; repeat case_match; simplify_eq/=; try (split; [assumption|done]).

(** The record a lookup found is well-formed. *)
Ltac taken Hx :=
  match goal with
  | E : @lookup _ _ _ _ _ _ = Some _ |- _ => destruct (Hx _ _ E) as [Hk Hv]
  end.

Lemma record_resource_owner_store record :
  store_keeps owners_ok (InMemoryResourceOwnerStore.record_resource_owner record) (λ _, True).
Proof.
  unfold InMemoryResourceOwnerStore.record_resource_owner. store_op.
  split; [|done]. apply stored_insert; eauto.
Qed.

Lemma record_auth_session_store record :
  store_keeps sessions_ok (InMemoryPlatformAuthSessionStore.record_auth_session record) (λ _, True).
Proof.
  unfold InMemoryPlatformAuthSessionStore.record_auth_session. store_op.
  split; [|done]. apply stored_insert; eauto.
Qed.

Lemma active_session_record_ok r r' : active_session_record r = Ok r' → r' = r.
Proof. unfold active_session_record. by destruct (PlatformAuthSessionRecord.status r); intros; simplify_eq. Qed.

Lemma change_by_bearer_store f raw :
  (∀ r, PlatformAuthSessionRecord.session_id (f r) = PlatformAuthSessionRecord.session_id r ∧
        PlatformAuthSessionRecord.token_hash (f r) = PlatformAuthSessionRecord.token_hash r) →
  store_keeps sessions_ok (InMemoryPlatformAuthSessionStore.change_by_bearer f raw) (λ _, True).
Proof.
  intros Hf. unfold InMemoryPlatformAuthSessionStore.change_by_bearer. store_op.
  match goal with
  | E : active_session_record _ = Ok _ |- _ => apply active_session_record_ok in E as ->
  end.
  taken Hx. destruct (Hf t) as [H3 H4].
  split; [|done]. apply stored_insert; [done|congruence|].
  revert Hv. unfold validate_session_record. by rewrite H3, H4.
Qed.

Lemma revoke_by_id_store id :
  store_keeps sessions_ok (InMemoryPlatformAuthSessionStore.revoke_auth_session_by_id id)
    (λ _, True).
Proof.
  unfold InMemoryPlatformAuthSessionStore.revoke_auth_session_by_id. store_op.
  match goal with
  | E : active_session_record _ = Ok _ |- _ => apply active_session_record_ok in E as ->
  end.
  match goal with E : List.find _ _ = Some _ |- _ => apply find_Some_in in E as [E%elem_of_entries _] end.
  taken Hx.
  split; [|done]. by apply stored_insert.
Qed.

Lemma disable_sessions_store tenant principal x : sessions_ok x →
  sessions_ok (InMemoryPlatformAuthSessionStore.disable_auth_sessions_for_principal tenant
    principal x).2.
Proof. intros Hx. by apply stored_update_where. Qed.

Lemma record_audit_store record :
  store_keeps audits_ok (InMemoryPlatformAuditStore.record_audit_event record) (λ _, True).
Proof.
  unfold InMemoryPlatformAuditStore.record_audit_event. store_op.
  split; [|done]. apply stored_insert; eauto.
Qed.

Lemma record_user_store record :
  store_keeps users_ok (InMemoryPlatformUserStore.record_user record) (λ _, True).
Proof.
  unfold InMemoryPlatformUserStore.record_user. store_op.
  split; [|done]. apply stored_insert; [done..|]. by eapply validate_user_valid, keeps_unit.
Qed.

Lemma update_user_status_store id version status :
  store_keeps users_ok (InMemoryPlatformUserStore.update_user_status id version status)
    (λ _, True).
Proof.
  unfold InMemoryPlatformUserStore.update_user_status. store_op.
  all: taken Hx; split; [|done]; by apply stored_insert.
Qed.

Lemma record_binding_store record :
  store_keeps role_bindings_ok (InMemoryPlatformRoleBindingStore.record_role_binding record)
    (λ _, True).
Proof.
  unfold InMemoryPlatformRoleBindingStore.record_role_binding. store_op.
  split; [|done]. apply stored_insert; [done..|]. by eapply validate_binding_valid, keeps_unit.
Qed.

Lemma update_binding_store id version status :
  store_keeps role_bindings_ok
    (InMemoryPlatformRoleBindingStore.update_role_binding_status id version status) (λ _, True).
Proof.
  unfold InMemoryPlatformRoleBindingStore.update_role_binding_status. store_op.
  all: taken Hx; split; [|done]; by apply stored_insert.
Qed.

Lemma upsert_binding_store request :
  store_keeps role_bindings_ok (InMemoryPlatformRoleBindingStore.upsert_role_binding request)
    (λ _, True).
Proof.
  unfold InMemoryPlatformRoleBindingStore.upsert_role_binding. store_op.
  all: split; [|done].
  all: match goal with
       | E : @lookup _ _ _ _ _ _ = Some _ |- _ => taken Hx; by apply stored_insert
       | E : validate_role_binding _ = Ok _ |- _ =>
           apply stored_insert; [done..|]; by eapply validate_binding_valid, keeps_unit
       end.
Qed.

Lemma delete_bindings_store p x : role_bindings_ok x →
  role_bindings_ok (InMemoryPlatformRoleBindingStore.delete_where p x).2.
Proof. intros Hx. by apply stored_update_where. Qed.

Lemma valid_member_changed m status kind :
  valid_member m → validate_membership_kind kind = Ok tt →
  valid_member (PlatformOrganizationMembershipRecord.changed m status kind).
Proof.
  unfold valid_member, validate_organization_member. simpl. intros H1 H2. checks H1. by rechecks.
Qed.

Lemma valid_project_member_changed m status parent kind :
  valid_project_member m → PlatMembership.validate_prefixed parent "om_"
    PlatformMembershipError.InvalidMembershipId = Ok tt →
  validate_membership_kind kind = Ok tt →
  valid_project_member (PlatformProjectMembershipRecord.changed m status (Some parent) kind).
Proof.
  unfold valid_project_member, validate_project_member. simpl. intros H1 H2 H3.
  checks H1. by rechecks.
Qed.

(** What another record takes from a valid member. *)
Lemma valid_member_parts m : valid_member m →
  PlatMembership.validate_prefixed (PlatformOrganizationMembershipRecord.organization_member_id m)
    "om_" PlatformMembershipError.InvalidMembershipId = Ok tt ∧
  validate_membership_kind (PlatformOrganizationMembershipRecord.membership_kind m) = Ok tt.
Proof. unfold valid_member, validate_organization_member. simpl. intros H1. by checks H1. Qed.

Lemma record_organization_member_store record :
  store_keeps memberships_ok
    (InMemoryPlatformMembershipStore.record_organization_member record) (λ _, True).
Proof.
  unfold InMemoryPlatformMembershipStore.record_organization_member. store_op.
  split; [|done]. split; [|apply Hx]. apply stored_insert; [apply Hx|done|].
  by eapply validate_member_valid, keeps_unit.
Qed.

Lemma record_project_member_store record :
  store_keeps memberships_ok
    (InMemoryPlatformMembershipStore.record_project_member record) (λ _, True).
Proof.
  unfold InMemoryPlatformMembershipStore.record_project_member. store_op.
  split; [|done]. split; [apply Hx|]. apply stored_insert; [apply Hx|done|].
  by eapply validate_project_member_valid, keeps_unit.
Qed.

Lemma update_organization_member_store id version status :
  store_keeps memberships_ok
    (InMemoryPlatformMembershipStore.update_organization_member_status id version status)
    (λ _, True).
Proof.
  unfold InMemoryPlatformMembershipStore.update_organization_member_status. store_op.
  destruct Hx as [Ho Hp]. taken Ho. split; [|done]. split; [|done]. by apply stored_insert.
Qed.

Lemma update_project_member_store id version status :
  store_keeps memberships_ok
    (InMemoryPlatformMembershipStore.update_project_member_status id version status) (λ _, True).
Proof.
  unfold InMemoryPlatformMembershipStore.update_project_member_status. store_op.
  destruct Hx as [Ho Hp]. taken Hp. split; [|done]. split; [done|]. by apply stored_insert.
Qed.

Lemma cascade_store m status x : memberships_ok x →
  memberships_ok (InMemoryPlatformMembershipStore.cascade_project_memberships_for_organization_member
    m status x).2.
Proof.
  unfold InMemoryPlatformMembershipStore.cascade_project_memberships_for_organization_member.
  intros [Ho Hp]. case_match; [done|]. split; [done|]. by apply stored_update_where.
Qed.

Lemma upsert_organization_member_store request :
  validate_membership_kind (PlatformOrganizationMembershipUpsert.membership_kind request) = Ok tt →
  store_keeps memberships_ok
    (InMemoryPlatformMembershipStore.upsert_organization_member request) valid_member.
Proof.
  intros Hk. unfold InMemoryPlatformMembershipStore.upsert_organization_member. store_op.
  all: destruct Hx as [Ho Hp].
  all: (split; [split; [|done]|];
        [|try done; intros; simplify_eq; eapply validate_member_valid, keeps_unit; eassumption]).
  all: match goal with
       | E : @lookup _ _ _ _ _ _ = Some _ |- _ =>
           destruct (Ho _ _ E); first [assumption|apply stored_insert; auto using valid_member_changed]
       | E : validate_organization_member _ = Ok _ |- _ =>
           apply stored_insert; [done..|]; by eapply validate_member_valid, keeps_unit
       end.
Qed.

Lemma upsert_project_member_store request :
  PlatMembership.validate_prefixed (PlatformProjectMembershipUpsert.organization_member_id request)
    "om_" PlatformMembershipError.InvalidMembershipId = Ok tt →
  validate_membership_kind (PlatformProjectMembershipUpsert.membership_kind request) = Ok tt →
  store_keeps memberships_ok
    (InMemoryPlatformMembershipStore.upsert_project_member request) (λ _, True).
Proof.
  intros Hom Hk. unfold InMemoryPlatformMembershipStore.upsert_project_member. store_op.
  all: destruct Hx as [Ho Hp]; split; [|done]; split; [done|].
  all: match goal with
       | E : @lookup _ _ _ _ _ _ = Some _ |- _ =>
           destruct (Hp _ _ E);
           first [assumption|apply stored_insert; auto using valid_project_member_changed]
       | E : validate_project_member _ = Ok _ |- _ =>
           apply stored_insert; [done..|]; by eapply validate_project_member_valid, keeps_unit
       end.
Qed.

Lemma create_invitation_store record :
  store_keeps invitations_ok
    (InMemoryPlatformInvitationStore.create_organization_invitation record) (λ _, True).
Proof.
  unfold InMemoryPlatformInvitationStore.create_organization_invitation. store_op.
  split; [|done]. apply stored_insert; [done..|].
  apply invitation_rebase; [by eauto| |done|done]. apply validated_accepted. eauto.
Qed.

Lemma revoke_invitation_store id version now :
  store_keeps invitations_ok
    (InMemoryPlatformInvitationStore.revoke_organization_invitation id version now) (λ _, True).
Proof.
  unfold InMemoryPlatformInvitationStore.revoke_organization_invitation. store_op.
  taken Hx. split; [|done]. apply stored_insert; [done..|]. by apply (invitation_rebase t); [left|..].
Qed.

Lemma accept_invitation_store request :
  store_keeps invitations_ok
    (InMemoryPlatformInvitationStore.accept_organization_invitation request) (λ _, True).
Proof.
  unfold InMemoryPlatformInvitationStore.accept_organization_invitation. store_op.
  taken Hx. split; [|done]. apply stored_insert; [done..|]. by apply (invitation_rebase t); [left|..].
Qed.

Lemma record_external_identity_store record :
  store_keeps external_identities_ok
    (InMemoryPlatformExternalIdentityStore.record_external_identity record) (λ _, True).
Proof.
  unfold InMemoryPlatformExternalIdentityStore.record_external_identity. store_op.
  split; [|done]. apply stored_insert; eauto.
Qed.

(** An identity refreshed by a valid record with its provider kind stays valid. *)
Lemma refreshed_valid existing record :
  validate_external_identity existing = Ok tt → validate_external_identity record = Ok tt →
  validate_external_identity (PlatformExternalIdentityRecord.refreshed existing record) = Ok tt.
Proof.
  unfold validate_external_identity. simpl. intros H1 H2. checks H1. checks H2. by rechecks.
Qed.

Lemma upsert_external_identity_store record :
  store_keeps external_identities_ok
    (InMemoryPlatformExternalIdentityStore.upsert_external_identity record) (λ _, True).
Proof.
  unfold InMemoryPlatformExternalIdentityStore.upsert_external_identity. store_op.
  all: split; [|done].
  all: match goal with
       | E : @lookup _ _ _ _ _ _ = Some _ |- _ =>
           taken Hx; apply stored_insert; eauto using refreshed_valid
       | _ => apply stored_insert; eauto
       end.
Qed.

Lemma unlink_external_identity_store id :
  store_keeps external_identities_ok
    (InMemoryPlatformExternalIdentityStore.unlink_external_identity id) (λ _, True).
Proof.
  unfold InMemoryPlatformExternalIdentityStore.unlink_external_identity. store_op.
  all: taken Hx; split; [|done]; by apply stored_insert.
Qed.

Lemma create_secret_ref_store request :
  store_keeps secrets_ok (InMemoryPlatformSecretStore.create_secret_ref request) (λ _, True).
Proof.
  unfold InMemoryPlatformSecretStore.create_secret_ref. store_op.
  split; [|done]. apply stored_insert; [done..|].
  match goal with E : in_memory_secret_ref_record _ = _ |- _ => rename E into C end.
  unfold in_memory_secret_ref_record in C. checks C.
  by simplify_eq.
Qed.

Lemma create_environment_secret_ref_store env request :
  store_keeps secrets_ok (InMemoryPlatformSecretStore.create_environment_secret_ref env request)
    (λ _, True).
Proof.
  unfold InMemoryPlatformSecretStore.create_environment_secret_ref. store_op.
  split; [|done]. apply stored_insert; [done..|].
  match goal with E : environment_secret_ref_record _ _ = _ |- _ => rename E into C end.
  unfold environment_secret_ref_record, validate_create_secret_ref_request in C. checks C.
  simplify_eq. intros Hb. simpl in Hb. checks C0.
  destruct (CreatePlatformSecretRefRequest.backend_kind request !=? ENVIRONMENT_SECRET_BACKEND)
    eqn:Eb; [done|]. btrue. by rewrite Eb in Hb.
Qed.

Lemma upsert_provider_store provider x :
  validate_oidc_login_provider_base provider = Ok tt →
  oidc_logins_ok x → oidc_logins_ok (InMemoryOidcLoginStore.upsert_provider provider x).
Proof. intros Hp [H1 H2]. split; [|done]. by apply stored_insert. Qed.

Lemma record_attempt_store attempt x :
  validate_oidc_login_attempt_record attempt = Ok tt →
  oidc_logins_ok x → oidc_logins_ok (InMemoryOidcLoginStore.record_attempt attempt x).
Proof. intros Ha [H1 H2]. split; [done|]. by apply stored_insert. Qed.

Lemma consumed_valid attempt now :
  validate_oidc_login_attempt_record attempt = Ok tt →
  validate_oidc_login_attempt_record (OidcLoginAttemptRecord.consumed attempt now) = Ok tt.
Proof. unfold validate_oidc_login_attempt_record. simpl. intros H1. checks H1. by rechecks. Qed.

Lemma consume_attempt_store completion :
  store_keeps oidc_logins_ok (InMemoryOidcLoginStore.consume_attempt completion) (λ _, True).
Proof.
  unfold InMemoryOidcLoginStore.consume_attempt. store_op. destruct Hx as [Hp Ha]. taken Ha.
  split; [|done]. split; [done|]. apply stored_insert; auto using consumed_valid.
Qed.

(** *** Operations of the service *)

Ltac puts := intros ? ? [] HI; split; first [done|apply HI].
Ltac zoomed I := apply (keeps_zoom _ _ _ _ I); [by intros ? []|puts|].
Ltac zoomed_act I := apply (keeps_zoom_act _ _ _ I); [by intros ? []|puts|].

Lemma authorize_keeps actor action resource :
  keeps (authorize_service_action actor action resource) (λ _, True).
Proof.
  apply keeps_reads_only. intros s.
  by destruct (authorize_run s actor action resource) as [[_ ->]|[_ ->]].
Qed.
Lemma authenticated_keeps headers : keeps (authenticated_actor_from_headers headers) (λ _, True).
Proof.
  apply keeps_reads_only. intros s. unfold authenticated_actor_from_headers. by repeat case_match.
Qed.
Lemma record_resource_owner_keeps record : keeps (record_resource_owner record) (λ _, True).
Proof. zoomed owners_ok. apply record_resource_owner_store. Qed.
Lemma upsert_provider_keeps provider : validate_oidc_login_provider_base provider = Ok tt →
  keeps (upsert_oidc_login_provider provider) (λ _, True).
Proof.
  intros Hp. eapply keeps_bind; [|intros; apply record_resource_owner_keeps].
  zoomed_act oidc_logins_ok. intros x. by apply upsert_provider_store.
Qed.
Lemma record_attempt_keeps attempt : validate_oidc_login_attempt_record attempt = Ok tt →
  keeps (record_oidc_login_attempt attempt) (λ _, True).
Proof. intros Ha. zoomed_act oidc_logins_ok. intros x. by apply record_attempt_store. Qed.
Lemma upsert_role_binding_keeps record : keeps (upsert_role_binding record) (λ _, True).
Proof. zoomed role_bindings_ok. apply upsert_binding_store. Qed.
Lemma set_role_binding_status_keeps id version status :
  keeps (set_role_binding_status id version status) (λ _, True).
Proof. zoomed role_bindings_ok. apply update_binding_store. Qed.
Lemma on_memberships_keeps {A} (op : M InMemoryPlatformMembershipStore.t PlatformMembershipError.t A)
    Q : store_keeps memberships_ok op Q → keeps (on_memberships op) Q.
Proof. intros Hop. by zoomed memberships_ok. Qed.
Lemma cascade_keeps m status :
  keeps (cascade_project_memberships_for_organization_member m status) (λ _, True).
Proof. zoomed_act memberships_ok. intros x. apply cascade_store. Qed.
Lemma delete_for_organization_keeps m :
  keeps (delete_role_bindings_for_organization_principal m) (λ _, True).
Proof. zoomed_act role_bindings_ok. intros x. apply delete_bindings_store. Qed.
Lemma delete_for_project_keeps m :
  keeps (delete_role_bindings_for_project_principal m) (λ _, True).
Proof. zoomed_act role_bindings_ok. intros x. apply delete_bindings_store. Qed.
Lemma on_invitations_keeps {A} (op : M InMemoryPlatformInvitationStore.t PlatformInvitationError.t A)
    Q : store_keeps invitations_ok op Q → keeps (on_invitations op) Q.
Proof. intros Hop. by zoomed invitations_ok. Qed.
Lemma on_external_identities_keeps {A}
    (op : M InMemoryPlatformExternalIdentityStore.t PlatformExternalIdentityError.t A) Q :
  store_keeps external_identities_ok op Q → keeps (on_external_identities op) Q.
Proof. intros Hop. by zoomed external_identities_ok. Qed.
Lemma on_users_keeps {A} (op : M InMemoryPlatformUserStore.t PlatformUserError.t A) Q :
  store_keeps users_ok op Q → keeps (on_users op) Q.
Proof. intros Hop. by zoomed users_ok. Qed.
Lemma on_role_bindings_keeps {A}
    (op : M InMemoryPlatformRoleBindingStore.t PlatformRoleBindingError.t A) Q :
  store_keeps role_bindings_ok op Q → keeps (on_role_bindings op) Q.
Proof. intros Hop. by zoomed role_bindings_ok. Qed.
Lemma on_sessions_keeps {A} err (op : M InMemoryPlatformAuthSessionStore.t AuthError.t A) Q :
  store_keeps sessions_ok op Q → keeps (on_sessions err op) Q.
Proof. intros Hop. by zoomed sessions_ok. Qed.
Lemma disable_sessions_keeps tenant principal :
  keeps (disable_auth_sessions_for_principal tenant principal) (λ _, True).
Proof. zoomed_act sessions_ok. intros x. apply disable_sessions_store. Qed.
Lemma set_user_status_keeps id version status :
  keeps (set_platform_user_status id version status) (λ _, True).
Proof. zoomed users_ok. apply update_user_status_store. Qed.
Lemma record_audit_keeps bytes now actor action resource kind reason :
  keeps (record_platform_audit_event bytes now actor action resource kind reason) (λ _, True).
Proof.
  eapply keeps_bind; [zoomed audits_ok; apply record_audit_store|].
  intros. eapply keeps_imp; [apply keeps_ret|done].
Qed.
Lemma unlink_keeps id : keeps (unlink_external_identity id) (λ _, True).
Proof. apply on_external_identities_keeps, unlink_external_identity_store. Qed.
Lemma revoke_auth_session_by_id_keeps id : keeps (revoke_auth_session_by_id id) (λ _, True).
Proof. apply on_sessions_keeps, revoke_by_id_store. Qed.
Lemma record_single_user_session_keeps record :
  keeps (record_single_user_session record) (λ _, True).
Proof. apply on_sessions_keeps, record_auth_session_store. Qed.
Lemma revoke_auth_session_keeps raw : keeps (revoke_auth_session raw) (λ _, True).
Proof. by apply on_sessions_keeps, change_by_bearer_store. Qed.
Lemma update_context_keeps raw organization project :
  keeps (update_auth_session_context raw organization project) (λ _, True).
Proof. by apply on_sessions_keeps, change_by_bearer_store. Qed.
Lemma set_organization_member_status_keeps id version status :
  keeps (set_organization_member_status id version status) (λ _, True).
Proof. apply on_memberships_keeps, update_organization_member_store. Qed.
Lemma set_project_member_status_keeps id version status :
  keeps (set_project_member_status id version status) (λ _, True).
Proof. apply on_memberships_keeps, update_project_member_store. Qed.
Lemma insert_invitation_keeps record : keeps (insert_organization_invitation record) (λ _, True).
Proof. apply on_invitations_keeps, create_invitation_store. Qed.
Lemma revoke_invitation_keeps id version now :
  keeps (revoke_organization_invitation_by_id id version now) (λ _, True).
Proof. apply on_invitations_keeps, revoke_invitation_store. Qed.
Lemma upsert_secret_ref_keeps record : keeps (upsert_secret_ref record) (λ _, True).
Proof. apply record_resource_owner_keeps. Qed.
End keeps.
