(* ===== verification/PlatReach.v ===== *)
(** * The platform service: requests and reachable states

    Every handler keeps the invariant; the router as a step on the state; the
    states reached from startup. *)

From S2P Require Import Prelude Order Text Json PlatAction PlatUser PlatRole PlatMembership.
From S2P Require Import PlatInvitation PlatAudit PlatSession PlatResource PlatRoute PlatIdentity.
From S2P Require Import PlatSecret PlatConfig PlatService PlatRequests PlatHandlers PlatLogin.
From S2P Require Import PlatLaws PlatInvariant.

Create HintDb keeps discriminated.
#[export] Hint Resolve authorize_keeps authenticated_keeps record_resource_owner_keeps
  upsert_role_binding_keeps set_role_binding_status_keeps cascade_keeps
  delete_for_organization_keeps delete_for_project_keeps disable_sessions_keeps
  set_user_status_keeps record_audit_keeps unlink_keeps revoke_auth_session_by_id_keeps
  record_single_user_session_keeps revoke_auth_session_keeps update_context_keeps
  set_organization_member_status_keeps set_project_member_status_keeps insert_invitation_keeps
  revoke_invitation_keeps upsert_secret_ref_keeps : keeps.

Lemma keeps_any `{Sha256Library} {A} (m : Svc A) : keeps m (λ _, True) → keeps m (λ _, True).
Proof. done. Qed.

Ltac unfold_head t := lazymatch t with ?f _ => unfold_head f | _ => unfold t end.

(** Follow a computation step by step. *)
Ltac keeps_basic :=
  first [ solve [eauto 1 with keeps nocore] | apply keeps_lift | apply keeps_ret | apply keeps_found
        | apply keeps_gets | apply keeps_reads ].
Ltac keeps_leaf := first [ keeps_basic | apply keeps_any; keeps_walk ]
with keeps_walk :=
  cbv zeta;
  lazymatch goal with
  | |- keeps (mbind _ _) _ => eapply keeps_bind; [keeps_leaf|cbv beta; intros ? ?; keeps_walk]
  | |- keeps (mret _) _ => eapply keeps_imp; [apply keeps_ret|done]
  | |- keeps (throw _) _ => apply keeps_throw
  | |- keeps (match ?x with _ => _ end) _ => destruct x eqn:?; keeps_walk
  | |- keeps ?m _ =>
      first [ eapply keeps_imp; [keeps_basic|done] | unfold_head m; keeps_walk ]
  end.

Section handlers.
Context {V : Type} `{JsonLibrary V} `{Sha256Library} `{OidcLibrary} (env : string → option string).

(** ** Lookups *)

Lemma organization_member_for_actor_keeps actor org om :
  keeps (organization_member_for_actor actor org om) (λ _, True).
Proof. unfold organization_member_for_actor. keeps_walk. Qed.
Lemma project_member_for_actor_keeps actor prj pm :
  keeps (project_member_for_actor actor prj pm) (λ _, True).
Proof. unfold project_member_for_actor. keeps_walk. Qed.
Lemma external_identity_for_actor_keeps actor user id :
  keeps (external_identity_for_actor actor user id) (λ _, True).
Proof. unfold external_identity_for_actor. keeps_walk. Qed.
Lemma organization_invitation_for_actor_keeps actor org id :
  keeps (organization_invitation_for_actor actor org id) (λ _, True).
Proof. unfold organization_invitation_for_actor. keeps_walk. Qed.
Lemma active_member_by_id_keeps actor om :
  keeps (active_organization_member_by_id_for_actor actor om) valid_member.
Proof.
  unfold active_organization_member_by_id_for_actor. case_match; [apply keeps_throw|].
  eapply keeps_bind; [apply keeps_found|]. intros m (s & Hs & Hm).
  repeat case_match; try apply keeps_throw. eapply keeps_imp; [apply keeps_ret|].
  intros ? ->. by apply (wf_organization_members _ Hs) in Hm as [_ ?].
Qed.
Lemma active_member_for_actor_keeps actor org :
  keeps (active_organization_member_for_actor actor org) (λ _, True).
Proof. unfold active_organization_member_for_actor. keeps_walk. Qed.
#[local] Hint Resolve active_member_for_actor_keeps organization_member_for_actor_keeps
  project_member_for_actor_keeps external_identity_for_actor_keeps
  organization_invitation_for_actor_keeps : keeps.
Lemma active_project_member_for_actor_keeps actor prj :
  keeps (active_project_member_for_actor actor prj) (λ _, True).
Proof. unfold active_project_member_for_actor. keeps_walk. Qed.
Lemma auth_session_keeps headers : keeps (auth_session_from_headers headers) (λ _, True).
Proof. unfold auth_session_from_headers. keeps_walk. Qed.
#[local] Hint Resolve active_project_member_for_actor_keeps auth_session_keeps : keeps.
Lemma mutating_session_keeps headers :
  keeps (mutating_auth_session_from_headers headers) (λ _, True).
Proof. unfold mutating_auth_session_from_headers. keeps_walk. Qed.
Lemma invitation_by_token_keeps raw :
  keeps (organization_invitation_by_raw_token raw) (λ _, True).
Proof. unfold organization_invitation_by_raw_token. keeps_walk. Qed.
Lemma can_login_keeps user : keeps (ensure_user_can_login user) (λ _, True).
Proof. unfold ensure_user_can_login. keeps_walk. Qed.
Lemma equivalent_keeps candidate : keeps (equivalent_role_binding candidate) (λ _, True).
Proof. unfold equivalent_role_binding. keeps_walk. Qed.
#[local] Hint Resolve mutating_session_keeps invitation_by_token_keeps can_login_keeps
  equivalent_keeps : keeps.

(** ** Operations that rely on what a request or a record already is *)

Lemma provider_record_valid bytes request tenant provider :
  oidc_provider_record_from_create_request bytes request tenant = Ok provider →
  validate_oidc_login_provider_base provider = Ok tt.
Proof.
  unfold oidc_provider_record_from_create_request. intros C. checks C.
  destruct (validate_oidc_login_provider_base _) as [[]|] eqn:E; by simplify_eq.
Qed.

Lemma create_oidc_identity_provider_keeps headers bytes request :
  keeps (A := V) (create_oidc_identity_provider headers bytes request) (λ _, True).
Proof.
  unfold create_oidc_identity_provider. do 4 (eapply keeps_bind; [keeps_leaf|intros ? ?]).
  eapply keeps_bind; [apply keeps_lift|]. intros provider Hp%provider_record_valid. simpl in Hp.
  eapply keeps_bind; [keeps_leaf|]. intros _ _.
  eapply keeps_bind; [by apply upsert_provider_keeps|intros; keeps_walk].
Qed.

Lemma kind_valid value kind :
  normalized_membership_kind value = Ok kind → validate_membership_kind kind = Ok tt.
Proof.
  unfold normalized_membership_kind, validate_membership_kind. intros Hk.
  destruct (_ || _) eqn:E in Hk; simplify_eq. by rewrite E.
Qed.

Lemma create_organization_member_keeps headers bytes org request :
  keeps (A := V) (create_organization_member headers bytes org request) (λ _, True).
Proof.
  unfold create_organization_member. do 4 (eapply keeps_bind; [keeps_leaf|intros ? ?]).
  eapply keeps_bind; [apply keeps_lift|]. intros kind Hk%kind_valid. simpl in Hk.
  eapply keeps_bind; [keeps_leaf|]. intros existing _.
  eapply keeps_bind; [by apply on_memberships_keeps, upsert_organization_member_store|intros; keeps_walk].
Qed.

Lemma create_project_member_keeps headers bytes prj request :
  keeps (A := V) (create_project_member headers bytes prj request) (λ _, True).
Proof.
  unfold create_project_member. do 2 (eapply keeps_bind; [keeps_leaf|intros ? ?]).
  eapply keeps_bind; [apply active_member_by_id_keeps|]. intros m [Hom Hk]%valid_member_parts.
  do 3 (eapply keeps_bind; [keeps_leaf|intros ? ?]). cbv zeta.
  eapply keeps_bind; [by apply on_memberships_keeps, upsert_project_member_store|intros; keeps_walk].
Qed.

Lemma secret_ref_from_request_keeps bytes request tenant actor :
  keeps (secret_ref_record_from_create_request env bytes request tenant actor) (λ _, True).
Proof.
  unfold secret_ref_record_from_create_request. eapply keeps_bind; [apply keeps_lift|].
  intros locator _. cbv zeta. repeat case_match; [..|apply keeps_throw].
  all: apply (keeps_zoom _ _ _ _ secrets_ok); [by intros ? []|by intros ? ? []; split|].
  - apply create_secret_ref_store.
  - apply create_environment_secret_ref_store.
Qed.

(** ** Logins *)

Lemma active_attempt_valid start attempt :
  active_attempt start = Ok attempt → validate_oidc_login_attempt_record attempt = Ok tt.
Proof. unfold active_attempt. intros C. checks C. by simplify_eq. Qed.

Lemma resolved_metadata_keeps provider :
  keeps (oidc_resolved_provider_metadata provider) (λ _, True).
Proof. unfold oidc_resolved_provider_metadata. keeps_walk. Qed.
Lemma client_secret_keeps metadata :
  keeps (oidc_client_secret_for_metadata env metadata) (λ _, True).
Proof. unfold oidc_client_secret_for_metadata. keeps_walk. Qed.
#[local] Hint Resolve resolved_metadata_keeps client_secret_keeps secret_ref_from_request_keeps
  : keeps.

Lemma start_oidc_login_keeps b1 b2 b3 b4 now id tenant :
  keeps (A := V) (start_oidc_login_for_provider b1 b2 b3 b4 now id tenant) (λ _, True).
Proof.
  unfold start_oidc_login_for_provider. cbv zeta.
  do 5 (eapply keeps_bind; [keeps_leaf|intros ? ?]).
  eapply keeps_bind; [apply keeps_lift|]. intros attempt Ha.
  destruct (active_attempt _) as [attempt'|] eqn:E; [|done]. injection Ha as ->.
  apply active_attempt_valid in E.
  eapply keeps_bind; [by apply record_attempt_keeps|intros; keeps_walk].
Qed.

Lemma complete_oidc_login_keeps completion : keeps (complete_oidc_login completion) (λ _, True).
Proof.
  unfold complete_oidc_login. cbv zeta. eapply keeps_bind; [keeps_leaf|intros ? _].
  eapply keeps_bind; [apply on_users_keeps, record_user_store|intros _ _].
  eapply keeps_bind; [apply on_external_identities_keeps, upsert_external_identity_store|intros _ _].
  eapply keeps_bind; [apply (keeps_zoom _ _ _ _ oidc_logins_ok);
    [by intros ? []|by intros ? ? [] []|apply consume_attempt_store]|intros _ _].
  eapply keeps_bind; [apply on_sessions_keeps, record_auth_session_store|intros _ _].
  eapply keeps_bind; [apply on_memberships_keeps, record_organization_member_store|intros _ _].
  eapply keeps_bind; [apply on_memberships_keeps, record_project_member_store|intros _ _].
  apply on_role_bindings_keeps, record_binding_store.
Qed.

Lemma record_single_user_memberships_keeps : keeps record_single_user_memberships (λ _, True).
Proof.
  unfold record_single_user_memberships. cbv zeta. eapply keeps_bind; [keeps_leaf|intros ? _].
  eapply keeps_bind; [apply on_users_keeps, record_user_store|intros _ _].
  eapply keeps_bind; [apply on_external_identities_keeps, record_external_identity_store|intros _ _].
  eapply keeps_bind; [apply on_memberships_keeps, record_organization_member_store|intros _ _].
  eapply keeps_bind; [apply on_memberships_keeps, record_project_member_store|intros _ _].
  apply on_role_bindings_keeps, record_binding_store.
Qed.

Lemma accept_for_actor_keeps b1 b2 invitation actor now :
  keeps (accept_organization_invitation_for_actor b1 b2 invitation actor now) (λ _, True).
Proof.
  unfold accept_organization_invitation_for_actor. cbv zeta.
  eapply keeps_bind; [apply on_invitations_keeps, accept_invitation_store|intros accepted _].
  eapply keeps_bind; [by apply on_memberships_keeps, upsert_organization_member_store|].
  intros member [Hom _]%valid_member_parts. eapply keeps_bind; [|intros; keeps_walk].
  apply keeps_any. case_match; [|keeps_walk]. eapply keeps_bind; [apply keeps_lift|intros pm _].
  eapply keeps_bind; [by apply on_memberships_keeps, upsert_project_member_store|intros; keeps_walk].
Qed.
#[local] Hint Resolve complete_oidc_login_keeps record_single_user_memberships_keeps
  accept_for_actor_keeps : keeps.

(** ** The router *)

(** A request as its handler receives it, one constructor per route; with the
    random bytes and the clock the handler draws. *)
Inductive PlatformRequest : Type :=
  | ListAuthProviders (tenant_id : option string)
  | StartOidcLogin (id_bytes state_bytes nonce_bytes pkce_bytes : list Z) (now_unix : Z)
      (identity_provider_id : string) (tenant_id : option string)
  | OidcLoginCallback (token_bytes : list Z) (now_unix : Z) (identity_provider_id : string)
      (request : OidcLoginCallbackRequest.t)
  | PreviewAuthInvitation (now_unix : Z) (invitation_token : string)
  | AcceptAuthInvitation (headers : HeaderMap) (om_bytes pm_bytes : list Z) (now_unix : Z)
      (invitation_token : string)
  | GetCurrentAuthSession (headers : HeaderMap)
  | UpdateActiveOrganization (headers : HeaderMap) (organization_id : string)
  | UpdateActiveProject (headers : HeaderMap) (project_id : string)
  | Logout (headers : HeaderMap)
  | SingleUserLogin (token_bytes : list Z) (request : V)
  | ListIdentityProviders (headers : HeaderMap)
  | CreateIdentityProvider (headers : HeaderMap) (id_bytes : list Z)
      (request : CreateOidcIdentityProviderRequest.t)
  | GetIdentityProvider (headers : HeaderMap) (identity_provider_id : string)
  | ListUsers (headers : HeaderMap)
  | GetUser (headers : HeaderMap) (user_id : string)
  | UpdateUserStatus (headers : HeaderMap) (audit_bytes : list Z) (now_unix : Z)
      (user_id : string) (request : UpdatePlatformUserStatusRequest.t)
  | ListUserSessions (headers : HeaderMap) (user_id : string)
  | RevokeUserSession (headers : HeaderMap) (audit_bytes : list Z) (now_unix : Z)
      (user_id auth_session_id : string) (request : ConfirmedRequest.t)
  | ListUserExternalIdentities (headers : HeaderMap) (user_id : string)
  | GetUserExternalIdentity (headers : HeaderMap) (user_id external_identity_id : string)
  | UnlinkUserExternalIdentity (headers : HeaderMap) (audit_bytes : list Z) (now_unix : Z)
      (user_id external_identity_id : string) (request : ConfirmedRequest.t)
  | ListRoleBindings (headers : HeaderMap)
  | CreateRoleBinding (headers : HeaderMap) (id_bytes : list Z)
      (request : CreateRoleBindingRequest.t)
  | GetRoleBinding (headers : HeaderMap) (role_binding_id : string)
  | UpdateRoleBindingStatus (headers : HeaderMap) (role_binding_id : string)
      (request : UpdateRoleBindingStatusRequest.t)
  | ListAuditEvents (headers : HeaderMap) (query : ListPlatformAuditEventsQuery.t)
  | ListOrganizationMembers (headers : HeaderMap) (organization_id : string)
  | CreateOrganizationMember (headers : HeaderMap) (id_bytes : list Z) (organization_id : string)
      (request : CreateOrganizationMemberRequest.t)
  | GetOrganizationMember (headers : HeaderMap) (organization_id organization_member_id : string)
  | UpdateOrganizationMemberStatus (headers : HeaderMap)
      (organization_id organization_member_id : string) (request : UpdateMembershipStatusRequest.t)
  | RemoveOrganizationMember (headers : HeaderMap)
      (organization_id organization_member_id : string) (request : VersionedRequest.t)
  | ListOrganizationInvitations (headers : HeaderMap) (now_unix : Z) (organization_id : string)
  | CreateOrganizationInvitation (headers : HeaderMap) (id_bytes : list Z) (raw_token : string)
      (now_unix : Z) (organization_id : string) (request : CreateOrganizationInvitationRequest.t)
  | GetOrganizationInvitation (headers : HeaderMap) (now_unix : Z)
      (organization_id invitation_id : string)
  | RevokeOrganizationInvitation (headers : HeaderMap) (now_unix : Z)
      (organization_id invitation_id : string) (request : VersionedRequest.t)
  | ListProjectMembers (headers : HeaderMap) (project_id : string)
  | CreateProjectMember (headers : HeaderMap) (id_bytes : list Z) (project_id : string)
      (request : CreateProjectMemberRequest.t)
  | GetProjectMember (headers : HeaderMap) (project_id project_member_id : string)
  | UpdateProjectMemberStatus (headers : HeaderMap) (project_id project_member_id : string)
      (request : UpdateMembershipStatusRequest.t)
  | ListSecretRefs (headers : HeaderMap)
  | CreateSecretRef (headers : HeaderMap) (id_bytes : list Z)
      (request : CreateSecretRefHttpRequest.t)
  | GetSecretRef (headers : HeaderMap) (secret_ref_id : string)
  | FoundationRequest (headers : HeaderMap) (method path : string).

Definition serve (request : PlatformRequest) : Svc V :=
  match request with
  | ListAuthProviders tenant => list_auth_providers tenant
  | StartOidcLogin b1 b2 b3 b4 now id tenant =>
      start_oidc_login_for_provider b1 b2 b3 b4 now id tenant
  | OidcLoginCallback b now id r => oidc_login_callback env b now id r
  | PreviewAuthInvitation now token => preview_auth_invitation now token
  | AcceptAuthInvitation h b1 b2 now token => accept_auth_invitation h b1 b2 now token
  | GetCurrentAuthSession h => get_current_auth_session h
  | UpdateActiveOrganization h org => update_current_auth_session_active_organization h org
  | UpdateActiveProject h prj => update_current_auth_session_active_project h prj
  | Logout h => logout_current_auth_session h
  | SingleUserLogin b r => single_user_login b r
  | ListIdentityProviders h => list_oidc_identity_providers h
  | CreateIdentityProvider h b r => create_oidc_identity_provider h b r
  | GetIdentityProvider h id => get_oidc_identity_provider h id
  | ListUsers h => list_platform_users h
  | GetUser h id => get_platform_user h id
  | UpdateUserStatus h b now id r => update_platform_user_status h b now id r
  | ListUserSessions h id => list_user_auth_sessions h id
  | RevokeUserSession h b now id session r => revoke_user_auth_session h b now id session r
  | ListUserExternalIdentities h id => list_user_external_identities h id
  | GetUserExternalIdentity h id xid => get_user_external_identity h id xid
  | UnlinkUserExternalIdentity h b now id xid r => unlink_user_external_identity h b now id xid r
  | ListRoleBindings h => list_role_bindings h
  | CreateRoleBinding h b r => create_role_binding h b r
  | GetRoleBinding h id => get_role_binding h id
  | UpdateRoleBindingStatus h id r => update_role_binding_status h id r
  | ListAuditEvents h q => list_platform_audit_events h q
  | ListOrganizationMembers h org => list_organization_members h org
  | CreateOrganizationMember h b org r => create_organization_member h b org r
  | GetOrganizationMember h org om => get_organization_member h org om
  | UpdateOrganizationMemberStatus h org om r => update_organization_member_status h org om r
  | RemoveOrganizationMember h org om r => remove_organization_member h org om r
  | ListOrganizationInvitations h now org => list_organization_invitations h now org
  | CreateOrganizationInvitation h b token now org r =>
      create_organization_invitation h b token now org r
  | GetOrganizationInvitation h now org id => get_organization_invitation h now org id
  | RevokeOrganizationInvitation h now org id r => revoke_organization_invitation h now org id r
  | ListProjectMembers h prj => list_project_members h prj
  | CreateProjectMember h b prj r => create_project_member h b prj r
  | GetProjectMember h prj pm => get_project_member h prj pm
  | UpdateProjectMemberStatus h prj pm r => update_project_member_status h prj pm r
  | ListSecretRefs h => list_platform_secret_refs h
  | CreateSecretRef h b r => create_platform_secret_ref env h b r
  | GetSecretRef h id => get_platform_secret_ref h id
  | FoundationRequest h m p => handle_foundation_request h m p
  end.

(** A request takes the state to the one its handler leaves. *)
Inductive reaches (s : PlatformServiceState.t) : PlatformServiceState.t → Prop :=
  | reaches_start : reaches s s
  | reaches_request s1 request : reaches s s1 → reaches s (serve request s1).2.

Lemma serve_keeps request : keeps (serve request) (λ _, True).
Proof.
  destruct request; simpl;
    first [ apply create_oidc_identity_provider_keeps | apply create_organization_member_keeps
          | apply create_project_member_keeps | apply start_oidc_login_keeps | keeps_walk ].
Qed.

Lemma reaches_well_formed s s' : well_formed s → reaches s s' → well_formed s'.
Proof. intros Hs. induction 1 as [|s1 request _ IH]; [done|]. by apply serve_keeps. Qed.

(** The state startup builds on the in-memory backend is well-formed. *)
Lemma startup_well_formed config s :
  build_in_memory_service_state config = Ok s → well_formed s.
Proof.
  unfold build_in_memory_service_state. intros C. checks C. injection C as <-.
  split; apply stored_empty.
Qed.

(** C3. Whatever requests the service gets, in whatever order and with whatever
    outcome, its state stays well-formed: started from a valid configuration,
    every store is keyed by the id (or hash) of its own records, and every
    user, role binding, membership, invitation, external identity, identity
    provider, login attempt, session, resource owner and audit event it holds
    passes its validation, and every secret in memory has the fingerprint of
    its value. *)
Theorem reachable_states_well_formed (config : PlatformConfig.t) (s0 s : PlatformServiceState.t)
    (Hstart : build_in_memory_service_state config = Ok s0)
    (Hreach : reaches s0 s) :
  well_formed s.
Proof. eauto using reaches_well_formed, startup_well_formed. Qed.
End handlers.
