(* ===== verification/PlatHistory.v ===== *)
(** * The platform service: its history

    Requests never remove a record from a store, since deletion is a status, and never
    touch the static grants, the credentials and mTLS identities, the business records
    and the configuration.  A client that follows [next_cursor] through the audit trail
    from the first page sees every matching event once, newest first, and reaches the
    last page. *)

From stdpp Require Import pretty.
From Stdlib Require Import Ascii Sorted.
From S2P Require Import Prelude Order Text Json PlatAction PlatUser PlatRole PlatMembership.
From S2P Require Import PlatInvitation PlatAudit PlatSession PlatResource PlatRoute PlatIdentity.
From S2P Require Import PlatSecret PlatConfig PlatService PlatRequests PlatHandlers PlatLogin.
From S2P Require Import PlatLaws PlatInvariant PlatReach.

(** ** Maps that keep their keys *)

Definition grows `{Countable K} {A} (m m' : gmap K A) : Prop :=
  ∀ k, is_Some (m !! k) → is_Some (m' !! k).

#[global] Instance grows_preorder `{Countable K} {A} : PreOrder (grows (K := K) (A := A)).
Proof. split; [by intros m k|]. intros m1 m2 m3 H1 H2 k Hk. by apply H2, H1. Qed.

Lemma grows_insert `{Countable K} {A} (m : gmap K A) k x : grows m (<[k := x]> m).
Proof. intros j Hj. rewrite lookup_insert_is_Some'. auto. Qed.
Lemma grows_update_where {A} p f (m : gmap string A) : grows m (update_where p f m).
Proof. intros k. unfold update_where. by rewrite lookup_fmap, fmap_is_Some. Qed.

(** ** One state evolves into another *)

Record evolves (s s' : PlatformServiceState.t) : Prop := {
  ev_authorization : PlatformServiceState.authorization s' = PlatformServiceState.authorization s;
  ev_credentials :
    PlatformServiceState.bearer_credentials s' = PlatformServiceState.bearer_credentials s;
  ev_mtls : PlatformServiceState.mtls_identities s' = PlatformServiceState.mtls_identities s;
  ev_resources : PlatformServiceState.resources s' = PlatformServiceState.resources s;
  ev_single_user : PlatformServiceState.single_user_auth s' = PlatformServiceState.single_user_auth s;
  ev_owners : grows (InMemoryResourceOwnerStore.owners (PlatformServiceState.owners s))
    (InMemoryResourceOwnerStore.owners (PlatformServiceState.owners s'));
  ev_sessions :
    grows (InMemoryPlatformAuthSessionStore.sessions (PlatformServiceState.auth_sessions s))
      (InMemoryPlatformAuthSessionStore.sessions (PlatformServiceState.auth_sessions s'));
  ev_secrets : grows (InMemoryPlatformSecretStore.records (PlatformServiceState.secrets s))
    (InMemoryPlatformSecretStore.records (PlatformServiceState.secrets s'));
  ev_organization_members :
    grows (InMemoryPlatformMembershipStore.organization_members (PlatformServiceState.memberships s))
      (InMemoryPlatformMembershipStore.organization_members
         (PlatformServiceState.memberships s'));
  ev_project_members :
    grows (InMemoryPlatformMembershipStore.project_members (PlatformServiceState.memberships s))
      (InMemoryPlatformMembershipStore.project_members (PlatformServiceState.memberships s'));
  ev_invitations :
    grows (InMemoryPlatformInvitationStore.invitations (PlatformServiceState.invitations s))
      (InMemoryPlatformInvitationStore.invitations (PlatformServiceState.invitations s'));
  ev_external_identities :
    grows (InMemoryPlatformExternalIdentityStore.external_identities
             (PlatformServiceState.external_identities s))
      (InMemoryPlatformExternalIdentityStore.external_identities
         (PlatformServiceState.external_identities s'));
  ev_role_bindings :
    grows (InMemoryPlatformRoleBindingStore.role_bindings (PlatformServiceState.role_bindings s))
      (InMemoryPlatformRoleBindingStore.role_bindings (PlatformServiceState.role_bindings s'));
  ev_users : grows (InMemoryPlatformUserStore.users (PlatformServiceState.users s))
    (InMemoryPlatformUserStore.users (PlatformServiceState.users s'));
  ev_audits : grows (InMemoryPlatformAuditStore.events (PlatformServiceState.audits s))
    (InMemoryPlatformAuditStore.events (PlatformServiceState.audits s'));
  ev_providers : grows (InMemoryOidcLoginStore.providers (PlatformServiceState.oidc_logins s))
    (InMemoryOidcLoginStore.providers (PlatformServiceState.oidc_logins s'));
  ev_attempts : grows (InMemoryOidcLoginStore.attempts (PlatformServiceState.oidc_logins s))
    (InMemoryOidcLoginStore.attempts (PlatformServiceState.oidc_logins s'));
}.

#[global] Instance evolves_preorder : PreOrder evolves.
Proof.
  split.
  - intros s. by split.
  - intros s1 s2 s3 [] []. split; first [congruence|etrans; eassumption].
Qed.

(** A computation that takes a state to one in this relation. *)
Definition moves_by (R : relation PlatformServiceState.t) {A} (m : Svc A) : Prop :=
  ∀ s, R s (m s).2.

Section moves_by.
Context (R : relation PlatformServiceState.t) `{!PreOrder R}.

Lemma moves_bind {A B} (m : Svc A) (f : A → Svc B) :
  moves_by R m → (∀ a, moves_by R (f a)) → moves_by R (m ≫= f).
Proof.
  intros Hm Hf s. pose proof (Hm s) as H. unfold mbind, M_bind.
  destruct (m s) as [[a|e] s1]; simpl in *; [|done]. etrans; [exact H|apply Hf].
Qed.
Lemma moves_bind_lift {A B} (r : result ServiceError.t A) (f : A → Svc B) :
  (∀ a, r = Ok a → moves_by R (f a)) → moves_by R (lift r ≫= f).
Proof.
  intros Hf s. unfold mbind, M_bind, lift. destruct r as [a|e]; [by apply Hf|]. simpl. reflexivity.
Qed.
Lemma moves_reads_only {A} (m : Svc A) : reads_only m → moves_by R m.
Proof. intros Hm s. by rewrite Hm. Qed.
Lemma moves_zoom {S E A} get put (err : E → ServiceError.t) (op : M S E A) :
  (∀ s, R s (put (op (get s)).2 s)) → moves_by R (zoom get put err op).
Proof. intros Hop s. specialize (Hop s). unfold zoom. by destruct (op (get s)) as [[a|e] x]. Qed.
Lemma moves_zoom_act {S A} get put (op : S → A * S) :
  (∀ s, R s (put (op (get s)).2 s)) → moves_by R (zoom_act get put op).
Proof. intros Hop s. specialize (Hop s). unfold zoom_act. by destruct (op (get s)). Qed.
Lemma authorize_moves actor action resource :
  moves_by R (authorize_service_action actor action resource).
Proof.
  apply moves_reads_only. intros s.
  by destruct (authorize_run s actor action resource) as [[_ ->]|[_ ->]].
Qed.
End moves_by.
Abbreviation moves := (moves_by evolves).

(** An operation of a store inserts or updates in place on every branch. *)
Ltac store_grows := intros s; repeat case_match;
  split; simpl; lazymatch goal with
  | |- grows _ _ => first [reflexivity|apply grows_insert|apply grows_update_where]
  | |- _ => reflexivity
  end.

(** Follow a computation down to the operations of the stores, which [leaf] is for. *)
Ltac moves_walk leaf :=
  cbv zeta;
  lazymatch goal with
  | |- moves_by _ (mbind _ _) =>
      apply moves_bind; [apply _|moves_walk leaf|cbv beta; intros ?; moves_walk leaf]
  | |- moves_by _ (mret _) => by apply moves_reads_only; [apply _|]
  | |- moves_by _ (throw _) => by apply moves_reads_only; [apply _|]
  | |- moves_by _ (lift _) => by apply moves_reads_only; [apply _|]
  | |- moves_by _ (gets _) => by apply moves_reads_only; [apply _|]
  | |- moves_by _ (reads _) => by apply moves_reads_only; [apply _|]
  | |- moves_by _ (found _) => by apply moves_reads_only; [apply _|]
  | |- moves_by _ (authorize_service_action _ _ _) => apply authorize_moves; apply _
  | |- moves_by _ (zoom _ _ _ ?op) => leaf op
  | |- moves_by _ (zoom_act _ _ ?op) => leaf op
  | |- moves_by _ (match ?x with _ => _ end) => destruct x; moves_walk leaf
  | |- moves_by _ ?m => first [ solve [eauto 1 with moves nocore] | unfold_head m; moves_walk leaf ]
  end.
Ltac evolves_leaf op :=
  first [apply moves_zoom|apply moves_zoom_act]; try unfold_head op; store_grows.

Create HintDb moves discriminated.

Section moves.
Context {V : Type} `{JsonLibrary V} `{Sha256Library} `{OidcLibrary} (env : string → option string).

Lemma change_by_bearer_moves err f raw :
  moves (on_sessions err (InMemoryPlatformAuthSessionStore.change_by_bearer f raw)).
Proof.
  apply moves_zoom. unfold InMemoryPlatformAuthSessionStore.change_by_bearer. store_grows.
Qed.
Lemma revoke_auth_session_moves raw : moves (revoke_auth_session raw).
Proof. apply change_by_bearer_moves. Qed.
Lemma update_context_moves raw org prj : moves (update_auth_session_context raw org prj).
Proof. apply change_by_bearer_moves. Qed.
Lemma upsert_invited_organization_member_moves om ten org principal kind :
  moves (on_memberships (InMemoryPlatformMembershipStore.upsert_invited_organization_member
    om ten org principal kind)).
Proof.
  apply moves_zoom. unfold InMemoryPlatformMembershipStore.upsert_invited_organization_member,
    InMemoryPlatformMembershipStore.upsert_organization_member. store_grows.
Qed.
Lemma upsert_invited_project_member_moves request :
  moves (on_memberships (InMemoryPlatformMembershipStore.upsert_invited_project_member request)).
Proof.
  apply moves_zoom. unfold InMemoryPlatformMembershipStore.upsert_invited_project_member,
    InMemoryPlatformMembershipStore.upsert_project_member. store_grows.
Qed.
#[local] Hint Resolve revoke_auth_session_moves update_context_moves
  upsert_invited_organization_member_moves upsert_invited_project_member_moves : moves.

Lemma serve_moves request : moves (serve (V := V) env request).
Proof. destruct request; unfold serve; moves_walk evolves_leaf. Qed.

(** No request forgets anything: from any state, whatever requests are
    served, every record of every store (users, sessions, role bindings,
    memberships, invitations, identities, secrets, owners, identity providers,
    login attempts and audit events) is still there under its key, since
    deletion only changes a status; and the static grants, the bearer
    credentials, the mTLS identities, the business records and the single-user
    configuration never change. *)
Theorem requests_never_forget (s s' : PlatformServiceState.t)
    (Hreach : reaches (V := V) env s s') :
  evolves s s'.
Proof.
  induction Hreach as [|s1 request _ IH]; [reflexivity|]. etrans; [exact IH|apply serve_moves].
Qed.
End moves.

(** ** Cursors are digits *)

Lemma all_chars_rev_app p s acc :
  all_chars p (rev_string_app s acc) = all_chars p s && all_chars p acc.
Proof.
  revert acc. induction s as [|c s IH]; intros acc; [done|]. simpl. rewrite IH. simpl.
  by destruct (p c), (all_chars p s).
Qed.

Lemma rev_rev_app s acc : rev_string_app (rev_string_app s acc) "" = rev_string_app acc s.
Proof. revert acc. induction s as [|c s IH]; intros acc; [done|]. simpl. by rewrite IH. Qed.

(** No whitespace starts with a digit. *)
Lemma strip_words_digits fuel words s :
  forallb (λ w, match w with String d _ => negb (is_ascii_digit d) | EmptyString => false end)
    words = true →
  all_chars is_ascii_digit s = true → strip_words fuel words s = s.
Proof.
  intros Hw Hs. destruct fuel; [done|]. simpl.
  replace (List.find _ words) with (@None string); [done|]. symmetry. apply find_None_iff.
  intros w Hin. apply (proj1 (forallb_iff _ _)) with (x := w) in Hw; [|done]. destruct w as [|d w]; [done|]. destruct s as [|c s]; [done|].
  simpl. destruct (ascii_dec d c) as [->|]; [|done]. simpl in Hs. by destruct (is_ascii_digit c).
Qed.

Lemma trim_digits s : all_chars is_ascii_digit s = true → trim s = s.
Proof.
  intros Hs. unfold trim. rewrite (strip_words_digits _ _ s); [|by vm_compute|done].
  rewrite strip_words_digits; [apply rev_rev_app|by vm_compute|].
  unfold rev_string. by rewrite all_chars_rev_app, Hs.
Qed.

Lemma pretty_go_digits x s :
  all_chars is_ascii_digit s = true → all_chars is_ascii_digit (pretty_N_go x s) = true.
Proof.
  revert s. induction (N.lt_wf_0 x) as [x _ IH]; intros s Hs.
  destruct (decide (x = 0)%N) as [->|Hx]; [by rewrite pretty_N_go_0|].
  rewrite pretty_N_go_step by lia. apply IH; [apply N.div_lt; lia|]. simpl.
  destruct (digit_char (x `mod` 10)%N) as [-> _]; [apply N.mod_lt; lia|done].
Qed.

Lemma pretty_digits (n : N) : all_chars is_ascii_digit (pretty n) = true ∧ pretty n ≠ "".
Proof.
  destruct (decide (n = 0)%N) as [->|Hn]; [done|].
  assert (pretty n = pretty_N_go n "") as -> by (unfold pretty, pretty_N; by rewrite decide_False).
  split; [by apply pretty_go_digits|]. pose proof (parse_digits_pretty_go n "") as Hp.
  intros E. rewrite E in Hp. simpl in Hp. congruence.
Qed.

(** A cursor the service returned is one it accepts. *)
Lemma offset_of_cursor n : (n ≤ usize_max)%N → audit_event_list_offset (Some (pretty n)) = Ok n.
Proof.
  intros Hn. destruct (pretty_digits n) as [Hd Hne]. unfold audit_event_list_offset.
  rewrite trim_digits, bool_decide_eq_false_2 by done. by rewrite parse_usize_pretty.
Qed.

(** ** Following the cursor *)

(** The events of all pages from a cursor on; [None] when a cursor is refused
    or the pages do not end within the fuel. *)
Fixpoint follow_pages (fuel : nat) (events : list PlatformAuditEventRecord.t) (limit : N)
    (cursor : option string) : option (list PlatformAuditEventRecord.t) :=
  match fuel with
  | O => None
  | S fuel' =>
      match audit_event_list_offset cursor with
      | Err _ => None
      | Ok offset =>
          match audit_page events limit offset with
          | (page, None) => Some page
          | (page, next) => app page <$> follow_pages fuel' events limit next
          end
      end
  end.

Lemma take_drop_taken {A} n (l : list A) : take n l ++ drop (length (take n l)) l = l.
Proof.
  rewrite length_take. destruct (le_lt_dec n (length l)).
  - rewrite Nat.min_l by done. apply take_drop.
  - rewrite Nat.min_r, take_ge, drop_all by lia. apply app_nil_r.
Qed.

Lemma follow_pages_from fuel events limit offset cursor :
  (0 < limit)%N → (N.of_nat (length events) ≤ usize_max)%N →
  audit_event_list_offset cursor = Ok offset → (N.to_nat offset ≤ length events) →
  length events - N.to_nat offset < fuel →
  follow_pages fuel events limit cursor = Some (drop (N.to_nat offset) events).
Proof.
  intros Hl Hmax. revert offset cursor. induction fuel as [|fuel IH]; intros offset cursor Hc Ho Hf;
    [lia|]. simpl. rewrite Hc. unfold audit_page.
  set (page := take (N.to_nat limit) (drop (N.to_nat offset) events)).
  assert (length page = N.to_nat limit `min` (length events - N.to_nat offset)) as Hp.
  { unfold page. by rewrite length_take, length_drop. }
  assert (saturating_add_usize offset (N.of_nat (length page)) = offset + N.of_nat (length page))%N
    as Hs by (unfold saturating_add_usize; lia).
  rewrite Hs. assert (page ++ drop (N.to_nat (offset + N.of_nat (length page))) events
    = drop (N.to_nat offset) events) as Happ.
  { replace (N.to_nat (offset + N.of_nat (length page))) with (N.to_nat offset + length page) by lia.
    rewrite <- drop_drop. unfold page. apply take_drop_taken. }
  destruct (_ <? _)%N eqn:Et.
  - apply N.ltb_lt in Et.
    rewrite (IH (offset + N.of_nat (length page))%N); [by rewrite <- Happ| |lia|].
    + apply offset_of_cursor. lia.
    + rewrite Hp in *. lia.
  - apply N.ltb_ge in Et. rewrite <- Happ, (drop_ge events) by lia. by rewrite app_nil_r.
Qed.

#[global] Instance audit_order_total : TotalCmp audit_order.
Proof. apply cmp_then_total; apply cmp_rev_total, cmp_on_total; apply _. Qed.

Lemma pages_of_sorted requested limit events :
  audit_event_list_limit requested = Ok limit → (N.of_nat (length events) ≤ usize_max)%N →
  follow_pages (S (length events)) events limit None = Some events.
Proof.
  intros Hlimit Hsize. assert (0 < limit)%N as Hpos.
  { unfold audit_event_list_limit in Hlimit. destruct (_ =? 0)%N eqn:E0; [done|].
    destruct (200 <? _)%N; simplify_eq. apply N.eqb_neq in E0. lia. }
  rewrite (follow_pages_from _ _ _ 0%N); [done|done|done|done|lia|lia].
Qed.

(** ** A client of the listing route *)

Definition with_cursor (query : ListPlatformAuditEventsQuery.t) (cursor : option string)
    : ListPlatformAuditEventsQuery.t :=
  {| ListPlatformAuditEventsQuery.organization_id := ListPlatformAuditEventsQuery.organization_id query;
     ListPlatformAuditEventsQuery.project_id := ListPlatformAuditEventsQuery.project_id query;
     ListPlatformAuditEventsQuery.event_type := ListPlatformAuditEventsQuery.event_type query;
     ListPlatformAuditEventsQuery.action_id := ListPlatformAuditEventsQuery.action_id query;
     ListPlatformAuditEventsQuery.resource_kind := ListPlatformAuditEventsQuery.resource_kind query;
     ListPlatformAuditEventsQuery.resource_id := ListPlatformAuditEventsQuery.resource_id query;
     ListPlatformAuditEventsQuery.actor_principal_id :=
       ListPlatformAuditEventsQuery.actor_principal_id query;
     ListPlatformAuditEventsQuery.limit := ListPlatformAuditEventsQuery.limit query;
     ListPlatformAuditEventsQuery.cursor := cursor;
     ListPlatformAuditEventsQuery.strong_auth_confirmation :=
       ListPlatformAuditEventsQuery.strong_auth_confirmation query |}.

Section listing.
Context {V : Type} `{JsonLaws V} `{Sha256Library}.
Context (as_array_arr : ∀ l : list V, as_array (json_arr l) = Some l)
  (as_str_null : as_str (V := V) json_null = None).
Implicit Types (s : PlatformServiceState.t) (query : ListPlatformAuditEventsQuery.t).

(** Ask for a page, in the state the service is in, and go on at the cursor of
    the answer; [None] when a request is refused or the pages do not end within
    the fuel. *)
Fixpoint follow_listing (fuel : nat) (headers : HeaderMap) query (cursor : option string) s
    : option (list V) :=
  match fuel with
  | O => None
  | S fuel' =>
      match list_platform_audit_events headers (with_cursor query cursor) s with
      | (Err _, _) => None
      | (Ok body, s') =>
          page ← json_get body "resources" ≫= as_array;
          match json_get body "next_cursor" ≫= as_str with
          | None => Some page
          | Some next => app page <$> follow_listing fuel' headers query (Some next) s'
          end
      end
  end.

(** A query that is answered at one cursor is answered at every well-formed one,
    with the same events. *)
Lemma query_at_cursor headers query s events limit offset s' :
  audit_events_of_query headers (with_cursor query None) s = (Ok (events, limit, offset), s') →
  (∃ actor,
     authenticated_actor_from_headers headers s = (Ok actor, s)
     ∧ audit_event_list_limit (ListPlatformAuditEventsQuery.limit query) = Ok limit
     ∧ events = sort_by audit_order (List.filter (audit_event_matches_query query)
         (InMemoryPlatformAuditStore.audit_events_for_tenant (AuthenticatedActor.tenant_id actor)
            (PlatformServiceState.audits s))))
  ∧ ∀ cursor offset', audit_event_list_offset cursor = Ok offset' →
      audit_events_of_query headers (with_cursor query cursor) s = (Ok (events, limit, offset'), s).
Proof.
  intros (actor & s0 & Ha & E)%bind_run.
  assert (s0 = s) as ->.
  { revert Ha. unfold authenticated_actor_from_headers. repeat case_match; by intros [= _ <-]. }
  apply bind_run in E as (u1 & s1 & [E1 ->]%lift_run & E).
  apply bind_run in E as (u2 & s1 & [E2 ->]%lift_run & E).
  apply bind_run in E as (resource & s1 & [E3 ->]%lift_run & E).
  apply bind_run in E as (u4 & s1 & E4 & E).
  destruct (authorize_run s actor PlatformAction.AuditEventRead resource) as [[_ Hz]|[_ Hz]];
    rewrite Hz in E4; [|done]. injection E4 as <- <-.
  apply bind_run in E as (l & s1 & [E5 ->]%lift_run & E).
  apply bind_run in E as (o & s1 & [_ ->]%lift_run & E).
  apply bind_run in E as (all & s1 & [= <- <-] & [= <- <- _ _]).
  split; [by exists actor|]. intros cursor offset' Ho.
  unfold audit_events_of_query. unfold mbind, M_bind, lift. rewrite Ha.
  simpl ListPlatformAuditEventsQuery.strong_auth_confirmation in *. rewrite E1.
  change (validate_audit_event_list_query (with_cursor query cursor)) with
    (validate_audit_event_list_query (with_cursor query None)). rewrite E2.
  change (audit_event_list_resource actor (with_cursor query cursor)) with
    (audit_event_list_resource actor (with_cursor query None)). rewrite E3, Hz.
  simpl ListPlatformAuditEventsQuery.limit in *. rewrite E5.
  simpl ListPlatformAuditEventsQuery.cursor. by rewrite Ho.
Qed.

(** Following the answers is following the pages of the events. *)
Lemma follow_listing_pages fuel headers query cursor s events limit :
  (∀ cursor offset, audit_event_list_offset cursor = Ok offset →
     audit_events_of_query headers (with_cursor query cursor) s = (Ok (events, limit, offset), s)) →
  ∀ pages, follow_pages fuel events limit cursor = Some pages →
  follow_listing fuel headers query cursor s = Some (audit_event_safe_json (V := V) <$> pages).
Proof.
  intros Hq. revert cursor. induction fuel as [|fuel IH]; intros cursor pages Hp; [done|].
  cbn [follow_pages follow_listing] in *.
  destruct (audit_event_list_offset cursor) as [offset|] eqn:Eo; [|done].
  unfold list_platform_audit_events, mbind at 1, M_bind at 1. rewrite (Hq _ _ Eo).
  destruct (audit_page events limit offset) as [page next] eqn:Epage. rewrite ?Epage in Hp. cbn [mret M_ret].
  rewrite !get_obj by (by apply (bool_decide_unpack _)). simpl. rewrite as_array_arr. simpl.
  destruct next as [next|]; simpl; [|rewrite as_str_null; by simplify_eq].
  rewrite as_str_str. simpl. destruct (follow_pages fuel events limit (Some next)) as [rest|] eqn:Er;
    [|done].
  rewrite (IH _ _ Er). simpl. simplify_eq/=. by rewrite fmap_app.
Qed.

(** C39. Paging through the audit trail ends and misses nothing while the trail is
    as it is: when the listing route answers a query without a cursor, a client
    that asks again at each [next_cursor] of the answers, the service reading and
    sorting its store for every page, is never refused, reaches the last page
    within as many requests as there are matching events plus one, and has then
    received exactly the events of the caller's tenant that match the query,
    sorted newest first, each once. *)
Theorem audit_pages_visit_every_event (headers : HeaderMap) query s (body : V) s' :
  list_platform_audit_events headers (with_cursor query None) s = (Ok body, s') →
  ∃ actor events,
    authenticated_actor_from_headers headers s = (Ok actor, s)
    ∧ events ≡ₚ List.filter (audit_event_matches_query query)
        (InMemoryPlatformAuditStore.audit_events_for_tenant (AuthenticatedActor.tenant_id actor)
           (PlatformServiceState.audits s))
    ∧ StronglySorted (cmp_le audit_order) events
    ∧ ((N.of_nat (length events) ≤ usize_max)%N →
       follow_listing (S (length events)) headers query None s
       = Some (audit_event_safe_json (V := V) <$> events)).
Proof.
  intros ([[events limit] offset] & s1 & Hq & _)%bind_run.
  apply query_at_cursor in Hq as [(actor & Ha & Hl & ->) Hq].
  eexists actor, _. split; [done|]. split; [apply sort_by_perm|].
  split; [apply sort_by_sorted; apply _|]. intros Hsize.
  eapply follow_listing_pages; [exact Hq|]. by eapply pages_of_sorted.
Qed.
End listing.
