(* ===== verification/PlatJoin.v ===== *)
(** * The platform service: joining by invitation, and versions

    What accepting an invitation requires and does; and that two updates of
    one record based on the same version cannot both succeed. *)

From S2P Require Import Prelude Order Text Json PlatAction PlatUser PlatRole PlatMembership.
From S2P Require Import PlatInvitation PlatAudit PlatSession PlatResource PlatRoute PlatIdentity.
From S2P Require Import PlatSecret PlatConfig PlatService PlatRequests PlatHandlers PlatLogin.
From S2P Require Import PlatLaws PlatInvariant PlatAccess.

Section join.
Context {V : Type} `{JsonLibrary V} `{Sha256Library}.

(** ** The session of a mutating request *)

Lemma constant_time_bytes_eq_strings s r :
  constant_time_bytes_eq (bytes_of s) (bytes_of r) = true ↔ s = r.
Proof. exact (constant_time_eq_strings s r). Qed.

Lemma auth_session_from_headers_ok headers s bs s' :
  auth_session_from_headers headers s = (Ok bs, s') → s' = s.
Proof. unfold auth_session_from_headers. intros E. by svc_inv E. Qed.

(** A mutating request needs the CSRF token of its session. *)
Lemma mutating_session_ok headers s bs s' :
  mutating_auth_session_from_headers headers s = (Ok bs, s') →
  s' = s ∧ auth_session_from_headers headers s = (Ok bs, s) ∧
  trimmed (headers PLATFORM_CSRF_TOKEN_HEADER) = Some (platform_csrf_token bs.2).
Proof.
  unfold mutating_auth_session_from_headers. intros E. svc_inv E.
  pose proof (auth_session_from_headers_ok _ _ _ _ E0) as ->.
  destruct (constant_time_bytes_eq _ _) eqn:Ec; simpl in E; [|done]. svc_inv E.
  apply constant_time_bytes_eq_strings in Ec as <-.
  by destruct (trimmed (headers PLATFORM_CSRF_TOKEN_HEADER)); simplify_eq/=.
Qed.

(** ** Members made by an upsert *)

Lemma upsert_organization_member_ok request x m x' :
  memberships_ok x →
  InMemoryPlatformMembershipStore.upsert_organization_member request x = (Ok m, x') →
  InMemoryPlatformMembershipStore.organization_members x'
    !! PlatformOrganizationMembershipRecord.organization_member_id m = Some m ∧
  PlatformOrganizationMembershipRecord.status m = PlatformMembershipStatus.Active ∧
  PlatformOrganizationMembershipRecord.tenant_id m
    = PlatformOrganizationMembershipUpsert.tenant_id request ∧
  PlatformOrganizationMembershipRecord.organization_id m
    = PlatformOrganizationMembershipUpsert.organization_id request ∧
  PlatformOrganizationMembershipRecord.principal_id m
    = PlatformOrganizationMembershipUpsert.principal_id request ∧
  InMemoryPlatformMembershipStore.project_members x'
    = InMemoryPlatformMembershipStore.project_members x.
Proof.
  intros [Ho _] E. unfold InMemoryPlatformMembershipStore.upsert_organization_member in E.
  destruct (List.find _ _) as [existing|] eqn:Ef.
  - apply find_values in Ef as [Hsame [k Hk]].
    destruct (Ho _ _ Hk) as [Hid _]. rewrite <- Hid in Hk. rewrite Hk in E.
    unfold InMemoryPlatformMembershipStore.same_organization_member in Hsame.
    destruct (_ || _) eqn:Ec; destruct (validate_organization_member _); simplify_eq/=.
    + btrue. split_and!; try done. apply lookup_insert_eq.
    + btrue. by split_and!.
  - destruct (validate_organization_member _); simplify_eq/=. split_and!; try done.
    apply lookup_insert_eq.
Qed.

Lemma upsert_project_member_ok request x m x' :
  memberships_ok x →
  InMemoryPlatformMembershipStore.upsert_project_member request x = (Ok m, x') →
  InMemoryPlatformMembershipStore.project_members x'
    !! PlatformProjectMembershipRecord.project_member_id m = Some m ∧
  PlatformProjectMembershipRecord.status m = PlatformMembershipStatus.Active ∧
  PlatformProjectMembershipRecord.project_id m
    = PlatformProjectMembershipUpsert.project_id request ∧
  PlatformProjectMembershipRecord.principal_id m
    = PlatformProjectMembershipUpsert.principal_id request ∧
  PlatformProjectMembershipRecord.organization_member_id m
    = Some (PlatformProjectMembershipUpsert.organization_member_id request) ∧
  InMemoryPlatformMembershipStore.organization_members x'
    = InMemoryPlatformMembershipStore.organization_members x.
Proof.
  intros [_ Hp] E. unfold InMemoryPlatformMembershipStore.upsert_project_member in E.
  destruct (List.find _ _) as [existing|] eqn:Ef.
  - apply find_values in Ef as [Hsame [k Hk]].
    destruct (Hp _ _ Hk) as [Hid _]. rewrite <- Hid in Hk. rewrite Hk in E.
    unfold InMemoryPlatformMembershipStore.same_project_member in Hsame.
    destruct (_ || _) eqn:Ec; destruct (validate_project_member _); simplify_eq/=.
    + btrue. split_and!; try done. apply lookup_insert_eq.
    + btrue. by split_and!.
  - destruct (validate_project_member _); simplify_eq/=. split_and!; try done.
    apply lookup_insert_eq.
Qed.

(** ** Accepting *)

Lemma accept_store_ok request x i' x' :
  InMemoryPlatformInvitationStore.accept_organization_invitation request x = (Ok i', x') →
  let id := AcceptPlatformOrganizationInvitationRequest.invitation_id request in
  let now := AcceptPlatformOrganizationInvitationRequest.accepted_at_unix request in
  ∃ i, InMemoryPlatformInvitationStore.invitations x !! id = Some i ∧
    PlatformOrganizationInvitationRecord.status i = PlatformInvitationStatus.Pending ∧
    (now < PlatformOrganizationInvitationRecord.expires_at_unix i)%Z ∧
    PlatformOrganizationInvitationRecord.invited_principal_id i
      = Some (AcceptPlatformOrganizationInvitationRequest.principal_id request) ∧
    i' = PlatformOrganizationInvitationRecord.closed i PlatformInvitationStatus.Accepted
           (Some now) now ∧
    x' = InMemoryPlatformInvitationStore.mk
           (<[id := i']> (InMemoryPlatformInvitationStore.invitations x)).
Proof.
  intros E id now. unfold InMemoryPlatformInvitationStore.accept_organization_invitation in E.
  destruct (InMemoryPlatformInvitationStore.validate_accept request); [|done].
  fold id now in E. destruct (_ !! id) as [i|]; [|done]. exists i.
  destruct (PlatformInvitationStatus.accepts_at _ _ _) eqn:Ea; simpl in E; [|done].
  destruct (_ !=? _) eqn:Ep in E; [done|]. btrue. simplify_eq.
  unfold PlatformInvitationStatus.accepts_at in Ea. apply andb_true_iff in Ea as [Es Et%Z.ltb_lt].
  by destruct (PlatformOrganizationInvitationRecord.status i).
Qed.

Lemma invitation_by_raw_token_ok token s i s' :
  well_formed s → organization_invitation_by_raw_token token s = (Ok i, s') →
  s' = s ∧
  InMemoryPlatformInvitationStore.invitations (PlatformServiceState.invitations s)
    !! PlatformOrganizationInvitationRecord.invitation_id i = Some i ∧
  PlatformOrganizationInvitationRecord.invitation_token_hash i
    = hash_platform_invitation_token (trim token).
Proof.
  intros Hwf. unfold organization_invitation_by_raw_token. destruct (negb _); [done|].
  intros [E ->]%found_ok. apply find_values in E as [Hh [k Hk]]. btrue.
  destruct (wf_invitations _ Hwf _ _ Hk) as [<- _]. done.
Qed.

(** The acceptance, for the invitation as it is stored. *)
Record acceptance (s s' : PlatformServiceState.t) (i : PlatformOrganizationInvitationRecord.t)
    (m : PlatformOrganizationMembershipRecord.t) (principal : string) (now : Z) : Prop := {
  ac_pending : PlatformOrganizationInvitationRecord.status i = PlatformInvitationStatus.Pending;
  ac_live : (now < PlatformOrganizationInvitationRecord.expires_at_unix i)%Z;
  ac_accepted :
    InMemoryPlatformInvitationStore.invitations (PlatformServiceState.invitations s')
    = <[PlatformOrganizationInvitationRecord.invitation_id i :=
          PlatformOrganizationInvitationRecord.closed i PlatformInvitationStatus.Accepted
            (Some now) now]>
        (InMemoryPlatformInvitationStore.invitations (PlatformServiceState.invitations s));
  ac_member :
    InMemoryPlatformMembershipStore.organization_members (PlatformServiceState.memberships s')
      !! PlatformOrganizationMembershipRecord.organization_member_id m = Some m ∧
    PlatformOrganizationMembershipRecord.status m = PlatformMembershipStatus.Active ∧
    PlatformOrganizationMembershipRecord.tenant_id m
      = PlatformOrganizationInvitationRecord.tenant_id i ∧
    PlatformOrganizationMembershipRecord.organization_id m
      = PlatformOrganizationInvitationRecord.organization_id i ∧
    PlatformOrganizationMembershipRecord.principal_id m = principal;
  ac_project project : PlatformOrganizationInvitationRecord.project_id i = Some project →
    ∃ k r, InMemoryPlatformMembershipStore.project_members
             (PlatformServiceState.memberships s') !! k = Some r ∧
      PlatformProjectMembershipRecord.status r = PlatformMembershipStatus.Active ∧
      PlatformProjectMembershipRecord.project_id r = project ∧
      PlatformProjectMembershipRecord.principal_id r = principal ∧
      PlatformProjectMembershipRecord.organization_member_id r
        = Some (PlatformOrganizationMembershipRecord.organization_member_id m);
  ac_bindings : PlatformServiceState.role_bindings s' = PlatformServiceState.role_bindings s;
  ac_grants : PlatformServiceState.authorization s' = PlatformServiceState.authorization s;
}.

Lemma accept_for_actor_ok om_bytes pm_bytes i actor now s r s' :
  memberships_ok (PlatformServiceState.memberships s) →
  InMemoryPlatformInvitationStore.invitations (PlatformServiceState.invitations s)
    !! PlatformOrganizationInvitationRecord.invitation_id i = Some i →
  accept_organization_invitation_for_actor om_bytes pm_bytes i actor now s
    = (Ok r, s') →
  acceptance s s' i r.1.2 (AuthenticatedActor.principal_id actor) now.
Proof.
  intros Hm Hi Hrun. unfold accept_organization_invitation_for_actor in Hrun. svc_inv Hrun.
  apply zoom_ok in E as (x & E & ->). apply accept_store_ok in E as (j & Hj & Hs & Ht & _ & -> & ->).
  simpl in *. rewrite Hi in Hj. injection Hj as <-. simplify_eq.
  apply zoom_ok in E0 as (y & E & ->). simpl in E.
  pose proof (upsert_organization_member_store (PlatformOrganizationMembershipUpsert.mk
    (new_prefixed_id "om" om_bytes) (PlatformOrganizationInvitationRecord.tenant_id i)
    (PlatformOrganizationInvitationRecord.organization_id i)
    (AuthenticatedActor.principal_id actor) "user" (AuthenticatedActor.principal_id actor))
    eq_refl _ Hm) as [Hy _].
  unfold InMemoryPlatformMembershipStore.upsert_invited_organization_member in E.
  rewrite E in Hy. apply upsert_organization_member_ok in E as (E & H1 & H2 & H3 & H4 & H5); [|done].
  simpl in *. destruct (PlatformOrganizationInvitationRecord.project_id i) as [project|] eqn:Eproj;
    svc_inv E1.
  - apply zoom_ok in E2 as (z & E2 & ->). simpl in E2.
    apply upsert_project_member_ok in E2 as (E2 & K1 & K2 & K3 & K4 & K5); [|done].
    split; simpl; try done; [by rewrite K5|].
    intros project' Ep. rewrite Eproj in Ep. injection Ep as <-. eauto 10.
  - split; simpl; try done. by rewrite Eproj.
Qed.

(** Accepting an invitation is safe and happens once: a successful request
    comes from the live session of a user with that session's CSRF token; the
    invitation was stored under the hash of the token, pending, not expired,
    of the actor's tenant and for the actor's principal.  Afterwards it is
    accepted, so no request can accept it again; the principal is an active
    member of its organization and, when it names a project, an active member
    of that project through that membership; and no role binding or grant has
    changed. *)
Theorem accepted_invitation_joins_once (headers : HeaderMap) (om_bytes pm_bytes : list Z)
    (now_unix : Z) (token : string) (s s' : PlatformServiceState.t) (body : V)
    (Hwf : well_formed s)
    (Hrun : accept_auth_invitation headers om_bytes pm_bytes now_unix token s = (Ok body, s')) :
  ∃ raw session i m,
    let actor := PlatformAuthSessionRecord.actor session in
    let id := PlatformOrganizationInvitationRecord.invitation_id i in
    auth_session_from_headers headers s = (Ok (raw, session), s) ∧
    trimmed (headers PLATFORM_CSRF_TOKEN_HEADER) = Some (platform_csrf_token session) ∧
    AuthenticatedActor.actor_kind actor = ActorKind.User ∧
    InMemoryPlatformInvitationStore.invitations (PlatformServiceState.invitations s) !! id = Some i ∧
    PlatformOrganizationInvitationRecord.invitation_token_hash i
      = hash_platform_invitation_token (trim token) ∧
    PlatformOrganizationInvitationRecord.tenant_id i = AuthenticatedActor.tenant_id actor ∧
    PlatformOrganizationInvitationRecord.invited_principal_id i
      = Some (AuthenticatedActor.principal_id actor) ∧
    acceptance s s' i m (AuthenticatedActor.principal_id actor) now_unix ∧
    (∀ request r x, AcceptPlatformOrganizationInvitationRequest.invitation_id request = id →
       InMemoryPlatformInvitationStore.accept_organization_invitation request
         (PlatformServiceState.invitations s') ≠ (Ok r, x)).
Proof.
  unfold accept_auth_invitation in Hrun. svc_inv Hrun.
  apply mutating_session_ok in E as (-> & Hsess & Hcsrf). destruct a as [raw session]. simpl in *.
  apply invitation_by_raw_token_ok in E1 as (-> & Hi & Hhash); [|done].
  destruct a0, a2. apply ensure_ok in E0. unfold ensure_actor_matches_invitation in E2.
  destruct (_ !=? _) eqn:Eten in E2; [done|]. apply ensure_ok in E2. btrue.
  destruct a3 as [[accepted m] pm]. svc_inv Hrun.
  apply accept_for_actor_ok in E3 as Hacc; [|split; apply Hwf|done].
  exists raw, session, a1, m. cbv zeta. split_and!; try done.
  intros request r x Hid E. apply accept_store_ok in E as (j & Hj & Hjs & _).
  rewrite (ac_accepted _ _ _ _ _ _ Hacc), Hid, lookup_insert_eq in Hj. by simplify_eq.
Qed.

(** ** Versions *)

(** A record's version goes from the expected one to the next. *)
Definition advances (version : PlatformServiceState.t → option Z) (expected : Z)
    (s s' : PlatformServiceState.t) : Prop :=
  version s = Some expected ∧ version s' = Some (wrap_i64 (expected + 1)).

Lemma wrap_next v : wrap_i64 (v + 1) ≠ v.
Proof.
  unfold wrap_i64. set (w := (v + 1 - i64_min)%Z). intros E.
  pose proof (Z.div_mod w 18446744073709551616 ltac:(done)). unfold w, i64_min in *. lia.
Qed.

Lemma advances_twice version e1 e2 s s1 s2 :
  advances version e1 s s1 → advances version e2 s1 s2 → e2 = wrap_i64 (e1 + 1) ∧ e2 ≠ e1.
Proof.
  intros [_ H1] [H2 _]. rewrite H1 in H2. injection H2 as <-. split; [done|apply wrap_next].
Qed.

Definition user_version (id : string) (s : PlatformServiceState.t) : option Z :=
  PlatformUserRecord.resource_version
    <$> InMemoryPlatformUserStore.users (PlatformServiceState.users s) !! id.
Definition binding_version (id : string) (s : PlatformServiceState.t) : option Z :=
  PlatformRoleBindingRecord.resource_version
    <$> InMemoryPlatformRoleBindingStore.role_bindings (PlatformServiceState.role_bindings s) !! id.
Definition member_version (id : string) (s : PlatformServiceState.t) : option Z :=
  PlatformOrganizationMembershipRecord.resource_version
    <$> InMemoryPlatformMembershipStore.organization_members
          (PlatformServiceState.memberships s) !! id.
Definition project_member_version (id : string) (s : PlatformServiceState.t) : option Z :=
  PlatformProjectMembershipRecord.resource_version
    <$> InMemoryPlatformMembershipStore.project_members (PlatformServiceState.memberships s) !! id.
Lemma user_update_advances headers bytes now id request s b s' :
  update_platform_user_status (V := V) headers bytes now id request s = (Ok b, s') →
  advances (user_version id) (UpdatePlatformUserStatusRequest.expected_version request) s s'.
Proof.
  unfold update_platform_user_status. intros E. svc_inv E.
  apply authenticated_state in E1 as ->. apply platform_user_by_id_ok in E2 as [-> _].
  apply authorize_ok in E4 as [_ ->].
  apply set_platform_user_status_ok in E7 as (u & Hu & Hv & -> & ->).
  apply record_platform_audit_event_ok in E9 as (_ & _ & _ & _ & ->).
  assert (PlatformServiceState.users s4
    = InMemoryPlatformUserStore.mk (<[id := PlatformUserRecord.with_status u a5]>
        (InMemoryPlatformUserStore.users (PlatformServiceState.users s)))) as Hs.
  { destruct (PlatformUserStatus.accepts_access _); svc_inv E8; [done|].
    by apply zoom_act_ok in E8 as [_ ->]. }
  unfold advances, user_version. simpl. rewrite Hu, Hs. simpl. by rewrite lookup_insert_eq, <- Hv.
Qed.

Lemma binding_update_advances headers id request s b s' :
  update_role_binding_status (V := V) headers id request s = (Ok b, s') →
  advances (binding_version id) (UpdateRoleBindingStatusRequest.expected_version request) s s'.
Proof.
  unfold update_role_binding_status, role_binding_by_id. intros E. svc_inv E.
  apply authenticated_state in E0 as ->. apply authorize_ok in E2 as [_ ->].
  apply zoom_ok in E4 as (x & E4 & ->).
  unfold InMemoryPlatformRoleBindingStore.update_role_binding_status in E4.
  destruct (_ !! id) as [r|] eqn:Er in E4; [|done]. destruct (_ !=? _) eqn:Ev in E4; [done|]. btrue.
  destruct (validate_role_binding _); simplify_eq.
  unfold advances, binding_version. simpl. by rewrite Er, lookup_insert_eq, <- Ev.
Qed.

Lemma cascade_keeps_members m status x :
  InMemoryPlatformMembershipStore.organization_members
    (InMemoryPlatformMembershipStore.cascade_project_memberships_for_organization_member
       m status x).2
  = InMemoryPlatformMembershipStore.organization_members x.
Proof.
  unfold InMemoryPlatformMembershipStore.cascade_project_memberships_for_organization_member.
  by case_match.
Qed.

Lemma member_status_advances id version status s r s' :
  apply_organization_member_status id version status s = (Ok r, s') →
  advances (member_version id) version s s'.
Proof.
  unfold apply_organization_member_status, set_organization_member_status, on_memberships,
    cascade_project_memberships_for_organization_member. intros E. svc_inv E.
  apply zoom_ok in E0 as (x & Eu & ->). apply zoom_act_ok in E1 as [_ ->].
  unfold InMemoryPlatformMembershipStore.update_organization_member_status in Eu.
  destruct (_ !! id) as [m|] eqn:Em; [|done]. destruct (_ !=? _) eqn:Ev in Eu; [done|]. btrue.
  simplify_eq.
  match type of E2 with _ (PlatformServiceState.set_memberships ?y _) = _ =>
    assert (PlatformServiceState.memberships s2 = y) as Hs end.
  { destruct (status ==? _); [by apply zoom_act_ok in E2 as [_ ->]|by svc_inv E2]. }
  unfold advances, member_version. rewrite Hs, cascade_keeps_members, Em. simpl.
  by rewrite lookup_insert_eq.
Qed.

Lemma member_update_advances headers org id request s b s' :
  update_organization_member_status (V := V) headers org id request s = (Ok b, s') →
  advances (member_version id) (UpdateMembershipStatusRequest.expected_version request) s s'.
Proof.
  unfold update_organization_member_status. intros E. svc_inv E.
  apply authenticated_state in E0 as ->. apply organization_member_for_actor_ok in E1 as [-> _].
  apply authorize_ok in E2 as [_ ->]. destruct a3 as [[u np] nb]. svc_inv E.
  by apply member_status_advances in E4.
Qed.

Lemma member_removal_advances headers org id request s b s' :
  remove_organization_member (V := V) headers org id request s = (Ok b, s') →
  advances (member_version id) (VersionedRequest.expected_version request) s s'.
Proof.
  unfold remove_organization_member. intros E. svc_inv E.
  apply authenticated_state in E0 as ->. apply organization_member_for_actor_ok in E1 as [-> _].
  apply authorize_ok in E2 as [_ ->]. destruct a2 as [[u np] nb]. svc_inv E.
  by apply member_status_advances in E3.
Qed.

Lemma project_member_for_actor_state actor prj id s m s' :
  project_member_for_actor actor prj id s = (Ok m, s') → s' = s.
Proof.
  unfold project_member_for_actor, project_member_by_id. intros E. svc_inv E.
  destruct (_ && _); by svc_inv E.
Qed.
Lemma invitation_for_actor_state actor org id s i s' :
  organization_invitation_for_actor actor org id s = (Ok i, s') → s' = s.
Proof.
  unfold organization_invitation_for_actor, organization_invitation_by_id. intros E. svc_inv E.
  destruct (_ && _); by svc_inv E.
Qed.

Lemma project_member_update_advances headers prj id request s b s' :
  update_project_member_status (V := V) headers prj id request s = (Ok b, s') →
  advances (project_member_version id) (UpdateMembershipStatusRequest.expected_version request)
    s s'.
Proof.
  unfold update_project_member_status. intros E. svc_inv E.
  apply authenticated_state in E0 as ->. apply project_member_for_actor_state in E1 as ->.
  apply authorize_ok in E2 as [_ ->]. apply zoom_ok in E4 as (x & Eu & ->).
  unfold InMemoryPlatformMembershipStore.update_project_member_status in Eu.
  destruct (_ !! id) as [m|] eqn:Em in Eu; [|done]. destruct (_ !=? _) eqn:Ev in Eu; [done|]. btrue.
  simplify_eq. match type of E5 with _ ?st = (_, ?s') =>
    assert (PlatformServiceState.memberships s' = PlatformServiceState.memberships st) as Hs end.
  { destruct (_ ==? _) in E5; [by apply zoom_act_ok in E5 as [_ ->]|by svc_inv E5]. }
  unfold advances, project_member_version. rewrite Hs, Em. simpl. by rewrite lookup_insert_eq, <- Ev.
Qed.

Lemma revoke_ok headers now org id request s (b : V) s' :
  revoke_organization_invitation headers now org id request s = (Ok b, s') →
  ∃ i, InMemoryPlatformInvitationStore.invitations (PlatformServiceState.invitations s) !! id = Some i ∧
    PlatformOrganizationInvitationRecord.resource_version i
      = VersionedRequest.expected_version request ∧
    PlatformOrganizationInvitationRecord.status i = PlatformInvitationStatus.Pending ∧
    InMemoryPlatformInvitationStore.invitations (PlatformServiceState.invitations s') !! id
      = Some (PlatformOrganizationInvitationRecord.closed i PlatformInvitationStatus.Revoked
                (PlatformOrganizationInvitationRecord.accepted_at_unix i) now).
Proof.
  unfold revoke_organization_invitation. intros E. svc_inv E.
  apply authenticated_state in E0 as ->. apply invitation_for_actor_state in E1 as ->.
  apply authorize_ok in E2 as [_ ->]. apply zoom_ok in E3 as (x & Eu & ->).
  unfold InMemoryPlatformInvitationStore.revoke_organization_invitation in Eu.
  destruct (_ !! id) as [i|] eqn:Ei in Eu; [|done]. destruct (_ !=? _) eqn:Ev in Eu; [done|].
  destruct (_ !=? _) eqn:Es in Eu; [done|]. btrue. simplify_eq. exists i. split_and!; try done.
  apply lookup_insert_eq.
Qed.

(** A revoked invitation is no longer pending. *)
Lemma revoked_once headers1 headers2 now1 now2 org1 org2 id r1 r2 s s1 s2 (x y : V) :
  revoke_organization_invitation headers1 now1 org1 id r1 s = (Ok x, s1) →
  revoke_organization_invitation headers2 now2 org2 id r2 s1 ≠ (Ok y, s2).
Proof.
  intros E1 E2. apply revoke_ok in E1 as (i & _ & _ & _ & Hi).
  apply revoke_ok in E2 as (j & Hj & _ & Hs & _). rewrite Hi in Hj. by simplify_eq.
Qed.

(** Optimistic concurrency: of the requests that change one user, role
    binding, organization member (by status, then removal) or project member,
    two that succeed one after the other never carry the same expected version:
    the second must carry the version the first produced, also when the version
    wraps.  So of two requests based on the same read at most one takes effect;
    and an invitation is revoked at most once, whatever the versions. *)
Theorem stale_update_never_succeeds (s s1 s2 : PlatformServiceState.t) (id : string) :
  (∀ h1 h2 b1 b2 n1 n2 r1 r2 (x y : V),
     update_platform_user_status h1 b1 n1 id r1 s = (Ok x, s1) →
     update_platform_user_status h2 b2 n2 id r2 s1 = (Ok y, s2) →
     let e1 := UpdatePlatformUserStatusRequest.expected_version r1 in
     let e2 := UpdatePlatformUserStatusRequest.expected_version r2 in
     e2 = wrap_i64 (e1 + 1) ∧ e2 ≠ e1) ∧
  (∀ h1 h2 r1 r2 (x y : V),
     update_role_binding_status h1 id r1 s = (Ok x, s1) →
     update_role_binding_status h2 id r2 s1 = (Ok y, s2) →
     let e1 := UpdateRoleBindingStatusRequest.expected_version r1 in
     let e2 := UpdateRoleBindingStatusRequest.expected_version r2 in
     e2 = wrap_i64 (e1 + 1) ∧ e2 ≠ e1) ∧
  (∀ h1 h2 o1 o2 r1 r2 (x y : V),
     update_organization_member_status h1 o1 id r1 s = (Ok x, s1) →
     remove_organization_member h2 o2 id r2 s1 = (Ok y, s2) →
     let e1 := UpdateMembershipStatusRequest.expected_version r1 in
     let e2 := VersionedRequest.expected_version r2 in
     e2 = wrap_i64 (e1 + 1) ∧ e2 ≠ e1) ∧
  (∀ h1 h2 p1 p2 r1 r2 (x y : V),
     update_project_member_status h1 p1 id r1 s = (Ok x, s1) →
     update_project_member_status h2 p2 id r2 s1 = (Ok y, s2) →
     let e1 := UpdateMembershipStatusRequest.expected_version r1 in
     let e2 := UpdateMembershipStatusRequest.expected_version r2 in
     e2 = wrap_i64 (e1 + 1) ∧ e2 ≠ e1) ∧
  (∀ h1 h2 n1 n2 o1 o2 r1 r2 (x y : V),
     revoke_organization_invitation h1 n1 o1 id r1 s = (Ok x, s1) →
     revoke_organization_invitation h2 n2 o2 id r2 s1 ≠ (Ok y, s2)).
Proof.
  split_and!.
  - intros * A%user_update_advances B%user_update_advances. exact (advances_twice _ _ _ _ _ _ A B).
  - intros * A%binding_update_advances B%binding_update_advances.
    exact (advances_twice _ _ _ _ _ _ A B).
  - intros * A%member_update_advances B%member_removal_advances.
    exact (advances_twice _ _ _ _ _ _ A B).
  - intros * A%project_member_update_advances B%project_member_update_advances.
    exact (advances_twice _ _ _ _ _ _ A B).
  - intros * A. exact (revoked_once _ _ _ _ _ _ _ _ _ _ _ _ _ _ A).
Qed.
End join.
