(* ===== verification/PlatAnswers.v ===== *)
(** * The platform service: what it answers

    The foundation routes answer exactly what is permitted; a mutating request
    of a browser session needs that session's CSRF token; the errors of the
    durable repository map to answers without their payload; startup accepts
    exactly the safe configurations. *)

From S2P Require Import Prelude Order Text Json PlatAction PlatUser PlatRole PlatMembership.
From S2P Require Import PlatInvitation PlatAudit PlatSession PlatResource PlatRoute PlatIdentity.
From S2P Require Import PlatSecret PlatConfig PlatService PlatRequests PlatHandlers PlatLogin.
From S2P Require Import PlatLaws PlatInvariant PlatAccess PlatJoin.

(** ** Every parameter of a route is bound *)

Lemma match_segments_binds ps xs params params' n :
  length ps = length xs → match_segments ps xs params = Some params' →
  is_Some (params !! n) ∨
  n ∈ omap (λ s, match read_segment s with Param _ name _ => Some name | _ => None end) ps →
  is_Some (params' !! n).
Proof.
  revert xs params. induction ps as [|p ps IH]; intros [|x xs] params Hl E Hn; try done.
  { simpl in *. simplify_eq. destruct Hn as [?|Hn]; [done|]. by apply not_elem_of_nil in Hn. }
  simpl in E. destruct (match_segment p x params) as [params1|] eqn:Em; [|done].
  apply match_segment_iff in Em as (b & Hb & ->). apply (IH xs (bind_param b params)); [by injection Hl|done|].
  destruct Hn as [Hn|Hn].
  - left. destruct b as [[m v]|]; [|done]. simpl. apply lookup_insert_is_Some'. by right.
  - simpl in Hn. destruct (read_segment p) as [text|pre name suf|]; simpl in *; [by right| |done].
    apply elem_of_cons in Hn as [->|Hn]; [left|by right].
    destruct Hb as (v & _ & _ & ->). simpl. rewrite lookup_insert_eq. eauto.
Qed.

Lemma matched_param_bound method path m p :
  match_route method path = Some m →
  RouteMetadata.resource_id_path_param (MatchedRoute.route m) = Some p →
  is_Some (MatchedRoute.params m !! p).
Proof.
  intros (Hr & _ & Hm)%match_route_iff Hp. apply route_resource_param in Hp; [|done].
  unfold match_path_pattern in Hm. case_bool_decide as El; [|done]. simpl in Hm.
  eapply match_segments_binds; eauto.
Qed.

(** ** Foundation routes *)

Section answers.
Context {V : Type} `{JsonLibrary V} `{Sha256Library}.

(** The resource a matched request is authorized on: the actor's scope, or the
    recorded owner of the resource it names. *)
Definition names_resource (s : PlatformServiceState.t) (actor : AuthenticatedActor.t)
    (matched : MatchedRoute.t) (resource : ResourceRef.t) : Prop :=
  let route := MatchedRoute.route matched in
  match RouteMetadata.resource_id_path_param route with
  | None => resource = scope_resource actor (RouteMetadata.resource_kind route)
  | Some p => ∃ id owner, MatchedRoute.params matched !! p = Some id ∧
      InMemoryResourceOwnerStore.owners (PlatformServiceState.owners s)
        !! (RouteMetadata.resource_kind route, id) = Some owner ∧
      resource = ResourceOwnerRecord.to_resource_ref owner
  end.

(** The business record it returns, if it names one. *)
Definition returns_record (s : PlatformServiceState.t) (matched : MatchedRoute.t)
    (business : option PlatformResourceRecord.t) : Prop :=
  let route := MatchedRoute.route matched in
  match RouteMetadata.resource_id_path_param route with
  | None => business = None
  | Some p => ∃ id record, MatchedRoute.params matched !! p = Some id ∧
      InMemoryPlatformResourceStore.resources (PlatformServiceState.resources s)
        !! (RouteMetadata.resource_kind route, id) = Some record ∧ business = Some record
  end.

Lemma authorization_resource_run method path s actor matched :
  match_route method path = Some matched →
  (∃ resource, names_resource s actor matched resource ∧
     authorization_resource actor matched s = (Ok resource, s)) ∨
  ((∀ resource, ¬ names_resource s actor matched resource) ∧
   authorization_resource actor matched s = (Err ServiceError.ResourceNotFound, s)).
Proof.
  intros Hm. unfold authorization_resource, names_resource.
  destruct (RouteMetadata.resource_id_path_param _) as [p|] eqn:Ep; [|left; eauto].
  destruct (matched_param_bound _ _ _ _ Hm Ep) as [id Hid]. rewrite Hid.
  erewrite svc_bind_run by done. simpl.
  unfold found, reads, InMemoryResourceOwnerStore.resource_owner.
  destruct (InMemoryResourceOwnerStore.owners (PlatformServiceState.owners s)
    !! (RouteMetadata.resource_kind (MatchedRoute.route matched), id)) as [owner|] eqn:Eo;
    [left|right].
  - eexists. split; [eauto|]. unfold mbind, M_bind. by rewrite Eo.
  - split; [|unfold mbind, M_bind; by rewrite Eo]. intros resource (id' & owner & ? & ? & _).
    simplify_eq.
Qed.

Lemma business_resource_run method path s matched :
  match_route method path = Some matched →
  (∃ business, returns_record s matched business ∧
     business_resource matched s = (Ok business, s)) ∨
  ((∀ business, ¬ returns_record s matched business) ∧
   business_resource matched s = (Err ServiceError.ResourceNotFound, s)).
Proof.
  intros Hm. unfold business_resource, returns_record.
  destruct (RouteMetadata.resource_id_path_param _) as [p|] eqn:Ep; [|left; eauto].
  destruct (matched_param_bound _ _ _ _ Hm Ep) as [id Hid]. rewrite Hid.
  erewrite svc_bind_run by done. simpl.
  unfold found, reads, InMemoryPlatformResourceStore.platform_resource.
  destruct (InMemoryPlatformResourceStore.resources (PlatformServiceState.resources s)
    !! (RouteMetadata.resource_kind (MatchedRoute.route matched), id)) as [record|] eqn:Eo;
    [left|right].
  - eexists. split; [eauto|]. unfold mbind, M_bind. by rewrite Eo.
  - split; [|unfold mbind, M_bind; by rewrite Eo]. intros business (id' & record & ? & ? & _).
    simplify_eq.
Qed.

Lemma authenticated_run headers s :
  (∃ actor, authenticated_actor_from_headers headers s = (Ok actor, s)) ∨
  (∃ e, authenticated_actor_from_headers headers s = (Err e, s) ∧
     (ServiceError.status_and_code e).1 = 401%Z).
Proof.
  unfold authenticated_actor_from_headers, reads. repeat case_match; simplify_eq; eauto.
Qed.

(** What a foundation request needs to be answered with its resource. *)
Record answerable (headers : HeaderMap) (method path : string) (s : PlatformServiceState.t)
    (matched : MatchedRoute.t) (actor : AuthenticatedActor.t) (resource : ResourceRef.t)
    (business : option PlatformResourceRecord.t) : Prop := {
  an_route : match_route method path = Some matched;
  an_actor : authenticated_actor_from_headers headers s = (Ok actor, s);
  an_resource : names_resource s actor matched resource;
  an_permitted : permitted s (AuthorizationRequest.mk actor
    (RouteMetadata.action (MatchedRoute.route matched)) resource);
  an_record : returns_record s matched business;
}.

Lemma names_resource_unique s actor matched r r' :
  names_resource s actor matched r → names_resource s actor matched r' → r' = r.
Proof.
  unfold names_resource. destruct (RouteMetadata.resource_id_path_param _); [|by intros -> ->].
  intros (id & o & H1 & H2 & ->) (id' & o' & H1' & H2' & ->). by simplify_eq.
Qed.
Lemma returns_record_unique s matched b b' :
  returns_record s matched b → returns_record s matched b' → b' = b.
Proof.
  unfold returns_record. destruct (RouteMetadata.resource_id_path_param _); [|by intros -> ->].
  intros (id & o & H1 & H2 & ->) (id' & o' & H1' & H2' & ->). by simplify_eq.
Qed.

(** The run of a foundation request, case by case. *)
Lemma foundation_run headers method path s :
  (∃ matched actor resource business,
     answerable headers method path s matched actor resource business ∧
     handle_foundation_request headers method path s
     = (Ok (authorized_response (V := V) actor resource matched business), s)) ∨
  (∃ e, handle_foundation_request (V := V) headers method path s = (Err e, s) ∧
     (∀ matched actor resource business,
        ¬ answerable headers method path s matched actor resource business) ∧
     (match_route method path = None ∧ e = ServiceError.RouteNotFound ∨
      (∃ matched, match_route method path = Some matched ∧
         authenticated_actor_from_headers headers s = (Err e, s) ∧
         (ServiceError.status_and_code e).1 = 401%Z) ∨
      (∃ matched actor, match_route method path = Some matched ∧
         authenticated_actor_from_headers headers s = (Ok actor, s) ∧
         (e = ServiceError.ResourceNotFound ∧
            ((∀ resource, ¬ names_resource s actor matched resource) ∨
             ∃ resource, names_resource s actor matched resource ∧
               permitted s (AuthorizationRequest.mk actor
                 (RouteMetadata.action (MatchedRoute.route matched)) resource)) ∨
          (∃ resource code, names_resource s actor matched resource ∧
             ¬ permitted s (AuthorizationRequest.mk actor
                 (RouteMetadata.action (MatchedRoute.route matched)) resource) ∧
             e = ServiceError.Forbidden code))))).
Proof.
  unfold handle_foundation_request.
  destruct (match_route method path) as [matched|] eqn:Em; last first.
  { right. eexists. split; [done|]. split; [|by left]. intros m a r b [Hr]. congruence. }
  erewrite svc_bind_run by done.
  destruct (authenticated_run headers s) as [[actor Ea]|(e & Ee & Hs)]; last first.
  { right. exists e. rewrite (svc_bind_err _ _ _ _ _ Ee). split; [done|].
    split; [|by right; left; eauto]. intros m a r b [_ Ha]. congruence. }
  rewrite (svc_bind_run _ _ _ _ _ Ea).
  destruct (authorization_resource_run _ _ s actor _ Em) as [(resource & Hr & Er)|[Hr Er]]; last first.
  { right. eexists. rewrite (svc_bind_err _ _ _ _ _ Er). split; [done|].
    split; [|right; right; eauto 10]. intros m a r b [H1 H2 H3 _ _].
    rewrite Em in H1. rewrite Ea in H2. simplify_eq. by apply Hr in H3. }
  rewrite (svc_bind_run _ _ _ _ _ Er).
  destruct (authorize_run s actor (RouteMetadata.action (MatchedRoute.route matched)) resource)
    as [[Hp Ez]|[Hp Ez]]; last first.
  { right. eexists. rewrite (svc_bind_err _ _ _ _ _ Ez). split; [done|].
    split; [|right; right; eauto 15]. intros m a r b [H1 H2 H3 H4 _].
    rewrite Em in H1. rewrite Ea in H2. simplify_eq. pose proof (names_resource_unique _ _ _ _ _ Hr H3) as ->. done. }
  rewrite (svc_bind_run _ _ _ _ _ Ez).
  destruct (business_resource_run _ _ s _ Em) as [(business & Hb & Eb)|[Hb Eb]].
  - left. exists matched, actor, resource, business. rewrite (svc_bind_run _ _ _ _ _ Eb).
    split; [by split|done].
  - right. eexists. rewrite (svc_bind_err _ _ _ _ _ Eb). split; [done|].
    split; [|right; right; eauto 10]. intros m a r b [H1 _ _ _ H5].
    rewrite Em in H1. simplify_eq. by apply Hb in H5.
Qed.

(** C37. A foundation route answers exactly what is permitted: the response is
    200 precisely when the route exists, the caller is authenticated, the
    resource it names has a recorded owner, the specification of authorization
    permits the action there and the business record exists, and then the body
    is that of this actor, owner and record; an unknown route is 404 before any
    credential is read, a failed authentication 401 before any resource is
    looked up, a missing permission 403, a missing resource 404.  No other
    status occurs, and no answer changes the state. *)
Theorem foundation_answers_what_is_permitted (headers : HeaderMap) (method path : string)
    (s : PlatformServiceState.t) :
  let status := (dispatch_foundation_request (V := V) headers method path s).1 in
  (handle_foundation_request (V := V) headers method path s).2 = s ∧
  (status = 200%Z ↔ ∃ matched actor resource business,
     answerable headers method path s matched actor resource business) ∧
  (∀ matched actor resource business,
     answerable headers method path s matched actor resource business →
     dispatch_foundation_request headers method path s
     = (200%Z, authorized_response (V := V) actor resource matched business)) ∧
  (match_route method path = None → status = 404%Z) ∧
  (∀ matched e, match_route method path = Some matched →
     authenticated_actor_from_headers headers s = (Err e, s) → status = 401%Z) ∧
  (∀ matched actor resource, match_route method path = Some matched →
     authenticated_actor_from_headers headers s = (Ok actor, s) →
     names_resource s actor matched resource →
     ¬ permitted s (AuthorizationRequest.mk actor
         (RouteMetadata.action (MatchedRoute.route matched)) resource) → status = 403%Z) ∧
  status ∈ [200; 401; 403; 404]%Z.
Proof.
  intros status. unfold status, dispatch_foundation_request.
  destruct (foundation_run headers method path s)
    as [(m & a & r & b & [A1 A2 A3 A4 A5] & E)|(e & E & Hno & Hcase)]; rewrite E; simpl.
  - split_and!; [done|split; [|done]| | | | |set_solver].
    + intros _. exists m, a, r, b. by split.
    + intros m' a' r' b' [H1 H2 H3 _ H5]. rewrite A1 in H1. rewrite A2 in H2. simplify_eq.
      by rewrite (names_resource_unique _ _ _ _ _ H3 A3), (returns_record_unique _ _ _ _ H5 A5).
    + congruence.
    + congruence.
    + intros m' a' r' H1 H2 H3 H4. rewrite A1 in H1. rewrite A2 in H2. simplify_eq.
      by rewrite (names_resource_unique _ _ _ _ _ H3 A3) in A4.
  - assert ((ServiceError.into_response (V := V) e).1 = (ServiceError.status_and_code e).1) as ->.
    { unfold ServiceError.into_response. by destruct (ServiceError.status_and_code e). }
    assert ((ServiceError.status_and_code e).1 ∈ [401; 403; 404]%Z) as Hst.
    { destruct Hcase as [[_ ->]|[(m & _ & _ & ->)|(m & a & _ & _ & [[-> _]|(r & c & _ & _ & ->)])]];
        set_solver. }
    split_and!; [done| | | | | |set_solver].
    + split; [intros Hs; rewrite Hs in Hst; set_solver|]. intros (m & a & r & b & Ha).
      by apply Hno in Ha.
    + intros m a r b Ha. by apply Hno in Ha.
    + intros Hn. destruct Hcase as [[_ ->]|[(m & Hm & _)|(m & a & Hm & _)]]; [done|congruence..].
    + intros m e' Hm He. destruct Hcase as [[Hn _]|[(_ & _ & _ & ?)|(m' & a & _ & Ha & _)]];
        congruence.
    + intros m a r Hm Ha Hr Hp.
      destruct Hcase as [[Hn _]|[(_ & _ & He & _)|(m' & a' & Hm' & Ha' & Hc)]]; [congruence..|].
      rewrite Hm in Hm'. rewrite Ha in Ha'. simplify_eq.
      destruct Hc as [[_ [Hn|(r' & Hr' & Hp')]]|(r' & c & _ & _ & ->)]; [by apply Hn in Hr| |done].
      by rewrite (names_resource_unique _ _ _ _ _ Hr Hr') in Hp'.
Qed.

(** A store of valid business records holds only records of their kinds. *)
Definition resources_valid (s : PlatformServiceState.t) : Prop :=
  stored (λ r, (ResourceOwnerRecord.resource_kind (PlatformResourceRecord.owner r),
                ResourceOwnerRecord.resource_id (PlatformResourceRecord.owner r)))
    (λ r, validate_resource_record r = Ok tt)
    (InMemoryPlatformResourceStore.resources (PlatformServiceState.resources s)).

(** The routes for the sessions of a conversation and the events of a run look
    their business record up under kinds no record has, so they never answer. *)
Lemma session_and_event_routes_never_answer headers method path s matched actor resource business :
  resources_valid s →
  RouteMetadata.resource_kind (MatchedRoute.route matched) ∈ ["AgentSession"; "RunEvent"] →
  RouteMetadata.resource_id_path_param (MatchedRoute.route matched) ≠ None →
  ¬ answerable headers method path s matched actor resource business.
Proof.
  intros Hv Hk Hp [_ _ _ _ Hb]. unfold returns_record in Hb.
  destruct (RouteMetadata.resource_id_path_param _); [|done].
  destruct Hb as (id & record & _ & Hr & _). destruct (Hv _ _ Hr) as [[= Hkind _] Hok].
  unfold validate_resource_record in Hok. repeat case_match; try done. btrue.
  assert (RouteMetadata.resource_kind (MatchedRoute.route matched)
    = PlatformResourceData.resource_kind (PlatformResourceRecord.data record)) as Hd by congruence.
  rewrite Hd in Hk. destruct (PlatformResourceRecord.data record); set_solver.
Qed.

(** ** CSRF *)

(** The CSRF gate is exact: a mutating request of a session is admitted if
    and only if its bearer is that of a live session and its CSRF header,
    trimmed, is the token derived from that session's id and token hash; so a
    bearer alone, or the token of another session, never suffices, and nothing
    else is asked for.  The byte-wise comparison in constant time decides
    equality. *)
Theorem csrf_gate_exact (headers : HeaderMap) (s : PlatformServiceState.t)
    (bs : string * PlatformAuthSessionRecord.t) :
  mutating_auth_session_from_headers headers s = (Ok bs, s) ↔
  auth_session_from_headers headers s = (Ok bs, s) ∧
  trimmed (headers PLATFORM_CSRF_TOKEN_HEADER) = Some (platform_csrf_token bs.2).
Proof.
  split.
  - intros (_ & ? & ?)%mutating_session_ok. done.
  - intros [Hs Ht]. unfold mutating_auth_session_from_headers.
    rewrite (svc_bind_run _ _ _ _ _ Hs), Ht. erewrite svc_bind_run by done. cbv zeta.
    by rewrite (proj2 (constant_time_bytes_eq_strings _ _)).
Qed.

(** ** Errors of the durable repository *)

(** Repository errors that differ only in a message or an identifier. *)
Definition same_shape (e e' : PlatformRepositoryError.t) : Prop :=
  match e, e' with
  | PlatformRepositoryError.Database _, PlatformRepositoryError.Database _
  | PlatformRepositoryError.UnknownActorKind _, PlatformRepositoryError.UnknownActorKind _
  | PlatformRepositoryError.UnknownSessionStatus _, PlatformRepositoryError.UnknownSessionStatus _
  | PlatformRepositoryError.UnknownCredentialStatus _,
    PlatformRepositoryError.UnknownCredentialStatus _
  | PlatformRepositoryError.UnknownMtlsIdentityStatus _,
    PlatformRepositoryError.UnknownMtlsIdentityStatus _
  | PlatformRepositoryError.UnknownOidcLoginProviderStatus _,
    PlatformRepositoryError.UnknownOidcLoginProviderStatus _
  | PlatformRepositoryError.UnknownOidcLoginAttemptStatus _,
    PlatformRepositoryError.UnknownOidcLoginAttemptStatus _
  | PlatformRepositoryError.UnknownSecretRefStatus _,
    PlatformRepositoryError.UnknownSecretRefStatus _
  | PlatformRepositoryError.UnknownMembershipStatus _,
    PlatformRepositoryError.UnknownMembershipStatus _
  | PlatformRepositoryError.UnknownInvitationStatus _,
    PlatformRepositoryError.UnknownInvitationStatus _
  | PlatformRepositoryError.UnknownExternalIdentityStatus _,
    PlatformRepositoryError.UnknownExternalIdentityStatus _
  | PlatformRepositoryError.UnknownRoleBindingStatus _,
    PlatformRepositoryError.UnknownRoleBindingStatus _
  | PlatformRepositoryError.UnknownUserStatus _, PlatformRepositoryError.UnknownUserStatus _
  | PlatformRepositoryError.OidcLoginAttemptUnavailable _,
    PlatformRepositoryError.OidcLoginAttemptUnavailable _
  | PlatformRepositoryError.OidcExternalIdentityPrincipalMismatch _,
    PlatformRepositoryError.OidcExternalIdentityPrincipalMismatch _
  | PlatformRepositoryError.OidcSessionActorMismatch _,
    PlatformRepositoryError.OidcSessionActorMismatch _
  | PlatformRepositoryError.ProjectScopeRequired _, PlatformRepositoryError.ProjectScopeRequired _
    => True
  | _, _ => e = e'
  end.

(** How an error of the durable repository is answered: the three mappings
    (for authentication, for data and for the administration of sessions) agree
    on every error except that of authentication itself, answer only 400, 401,
    403, 404 or 500, and give errors that differ only in a database message, an
    unknown value read from a row or an identifier the same response, so that
    none of these strings reaches the caller. *)
Theorem repository_errors_answered_safely (e e' : PlatformRepositoryError.t) :
  ((∀ a, e ≠ PlatformRepositoryError.Auth a) →
   data_repository_error e = auth_repository_error e ∧
   admin_auth_repository_error e = auth_repository_error e) ∧
  (∀ f, f ∈ [auth_repository_error; data_repository_error; admin_auth_repository_error] →
   (ServiceError.status_and_code (f e)).1 ∈ [400; 401; 403; 404; 500]%Z ∧
   (same_shape e e' → f e' = f e)).
Proof.
  split.
  - intros Ha. destruct e; try done. by destruct (Ha error).
  - intros f Hf. split.
    + rewrite !elem_of_cons in Hf. destruct Hf as [->|[->|[->|Hf]]]; [..|by apply not_elem_of_nil in Hf].
      all: destruct e; try destruct error; apply (bool_decide_unpack _); vm_compute; done.
    + intros Hs. rewrite !elem_of_cons in Hf.
      destruct Hf as [->|[->|[->|Hf]]]; [..|by apply not_elem_of_nil in Hf].
      all: destruct e, e'; simpl in Hs; try done; by simplify_eq.
Qed.

(** ** Startup *)

(** Startup accepts a configuration exactly when it is safe: in production
    ([prod] or [production] in any case) it needs the durable repository, a
    database URL, a body limit of 1 byte to 16 MiB and a timeout of 100 ms to
    300 s; elsewhere only a PostgreSQL repository without a database URL is
    refused.  In particular the in-memory state this development is about is
    never served in production. *)
Theorem startup_accepts_safe_configs (config : PlatformConfig.t) :
  (validate_platform_config config = Ok tt ↔
   if is_platform_production_environment (PlatformConfig.environment config)
   then PlatformConfig.repository_backend config = PlatformRepositoryBackendKind.Postgres ∧
        PlatformConfig.database_url config ≠ None ∧
        (0 < PlatformConfig.max_body_bytes config ≤ 16777216)%N ∧
        (100 ≤ PlatformConfig.request_timeout_ms config ≤ 300000)%N
   else PlatformConfig.repository_backend config = PlatformRepositoryBackendKind.Postgres →
        PlatformConfig.database_url config ≠ None) ∧
  (∀ s, build_in_memory_service_state config = Ok s →
   PlatformConfig.repository_backend config = PlatformRepositoryBackendKind.InMemory →
   is_platform_production_environment (PlatformConfig.environment config) = false).
Proof.
  assert (validate_platform_config config = Ok tt ↔ platform_startup_diagnostics config = []) as Hd.
  { unfold validate_platform_config. by destruct (platform_startup_diagnostics config). }
  rewrite Hd. unfold platform_startup_diagnostics, push_repository_backend_diagnostics.
  split.
  - destruct (is_platform_production_environment _) eqn:Ep; simpl.
    + rewrite andb_false_r. simpl.
      unfold push_production_diagnostics, timeout_in_range, MAX_PLATFORM_MAX_BODY_BYTES,
        MIN_PLATFORM_REQUEST_TIMEOUT_MS, MAX_PLATFORM_REQUEST_TIMEOUT_MS.
      destruct (PlatformConfig.repository_backend config); simpl; [naive_solver|].
      case_bool_decide as Eu; [naive_solver|].
      destruct (_ || _) eqn:Eb.
      { split; [done|]. intros (_ & _ & Hb & _).
        apply orb_true_iff in Eb as [Eb%N.eqb_eq|Eb%N.ltb_lt]; lia. }
      apply orb_false_iff in Eb as [Eb1%N.eqb_neq Eb2%N.ltb_ge]. simpl.
      rewrite <- !N.leb_le, <- andb_true_iff.
      destruct ((100 <=? _)%N && _) eqn:Et; simpl; [|naive_solver].
      split; [|done]. intros _. split_and!; try done; first [lia|apply N.leb_le; lia].
    + rewrite app_nil_r. destruct (PlatformConfig.repository_backend config); simpl.
      * naive_solver.
      * case_bool_decide; naive_solver.
  - intros s Hb Hm. unfold build_in_memory_service_state in Hb. checks Hb. apply Hd in C.
    destruct (is_platform_production_environment _) eqn:Ep; [|done].
    unfold platform_startup_diagnostics, push_repository_backend_diagnostics,
      push_production_diagnostics in C. by rewrite Ep, Hm in C.
Qed.
End answers.
