(* ===== verification/PlatOidc.v ===== *)
(** * The platform service: OIDC login

    A login that succeeds was verified in full against what the provider answered
    at its own endpoints, and its attempt cannot be used again. *)

From S2P Require Import Prelude Order Text Json PlatAction PlatUser PlatRole PlatMembership.
From S2P Require Import PlatInvitation PlatAudit PlatSession PlatResource PlatRoute PlatIdentity.
From S2P Require Import PlatSecret PlatConfig PlatService PlatRequests PlatHandlers PlatLogin.
From S2P Require Import PlatLaws PlatInvariant PlatReach PlatHistory.

(** ** ID tokens *)

Lemma reject_if_ok {E} b (e : E) u : reject_if b e = Ok u → b = false.
Proof. by destruct b. Qed.
Lemma ok_or_ok {E A} (o : option A) (e : E) a : ok_or o e = Ok a → o = Some a.
Proof. by destruct o; intros; simplify_eq/=. Qed.

(** The claims fit an issuer, the accepted audiences, a nonce and the time. *)
Record claims_fit (issuer : string) (audiences : list string) (nonce : string) (now : Z)
    (claims : OidcVerifiedClaims.t) : Prop := {
  cf_issuer : OidcVerifiedClaims.issuer claims = issuer;
  cf_subject : trim (OidcVerifiedClaims.subject claims) ≠ "";
  cf_audience : ∃ a, a ∈ OidcVerifiedClaims.audiences claims ∧ a ∈ audiences;
  cf_nonce : OidcVerifiedClaims.nonce claims = nonce;
  cf_live : (now < OidcVerifiedClaims.expires_at_unix claims)%Z;
}.

Lemma check_claims_iff issuer audiences claims nonce now :
  check_claims issuer audiences claims nonce now = Ok tt ↔
  claims_fit issuer audiences nonce now claims.
Proof.
  unfold check_claims, reject_if. split.
  - intros C. repeat (destruct (_ : bool) eqn:?; [done|]). repeat case_match; simplify_eq/=; try done.
    btrue. split; try done.
    match goal with E : existsb _ (OidcVerifiedClaims.audiences claims) = true |- _ =>
      apply existsb_iff in E as (a & Ha & (b & Hb & Hab)%existsb_iff) end.
    btrue. subst b. eauto.
  - intros [H1 H2 (a & Ha & Hb) H4 H5]. assert (existsb (λ audience, existsb (λ accepted,
      accepted ==? audience) audiences) (OidcVerifiedClaims.audiences claims) = true) as Haud.
    { apply existsb_iff. exists a. split; [done|]. apply existsb_iff. exists a.
      by rewrite bool_decide_eq_true_2. }
    rewrite Haud. repeat case_match; simplify_eq/=; try done; exfalso; btrue; try done; lia.
Qed.

Section oidc.
Context {V : Type} `{JsonLibrary V} `{Sha256Library} `{OidcLibrary} (env : string → option string).

(** A token is verified: an asymmetric algorithm the provider supports, a key
    of the set that may sign with it, and fitting claims. *)
Record token_verified (metadata : OidcResolvedProviderMetadata.t) (jwks : list Jwk)
    (id_token nonce : string) (now : Z) (claims : OidcVerifiedClaims.t) : Prop := {
  tv_signed : ∃ algorithm kid jwk token,
    decode_header id_token = Some (algorithm, kid) ∧
    oidc_algorithm_is_asymmetric algorithm = true ∧
    (∃ name, name ∈ OidcResolvedProviderMetadata.supported_id_token_algorithms metadata ∧
             oidc_algorithm_from_str name = Some algorithm) ∧
    jwk ∈ jwks ∧ oidc_jwk_is_usable kid algorithm jwk = true ∧
    decode_token jwk algorithm (OidcResolvedProviderMetadata.issuer_url metadata)
      (OidcResolvedProviderMetadata.accepted_audiences metadata) id_token = Some token ∧
    OidcVerifiedClaims.subject claims = OidcIdTokenClaims.sub token;
  tv_claims : claims_fit (OidcResolvedProviderMetadata.issuer_url metadata)
    (OidcResolvedProviderMetadata.accepted_audiences metadata) nonce now claims;
}.

(** ** What the provider was asked *)

(** An endpoint is the configured one, or else the one that was discovered. *)
Definition endpoint_from (configured : string) (discovered : option string) (value : string) : Prop :=
  value ≠ "" ∧
  (value = trim configured ∨ trim configured = "" ∧ ∃ d, discovered = Some d ∧ value = trim d).

(** The metadata, the key set and the token come from the provider: its endpoints
    are configured or discovered at its issuer, which the discovered document names;
    the keys were fetched from its key set endpoint; and the token answers the
    exchange, at its token endpoint and for its client, of the code and the verifier
    of the request under the redirect of the attempt. *)
Record provider_asked (provider : OidcLoginProviderRecord.t) (attempt : OidcLoginAttemptRecord.t)
    (request : OidcLoginCallbackRequest.t) (metadata : OidcResolvedProviderMetadata.t)
    (jwks : list Jwk) (id_token : string) : Prop := {
  pa_issuer : OidcResolvedProviderMetadata.issuer_url metadata
    = OidcLoginProviderRecord.issuer_url provider;
  pa_audiences : OidcResolvedProviderMetadata.accepted_audiences metadata
    = OidcLoginProviderRecord.accepted_audiences provider;
  pa_endpoints : ∃ discovery,
    resolve_oidc_provider_metadata provider discovery = Ok metadata ∧
    (∀ document, discovery = Some document →
       http_discovery (oidc_discovery_url (OidcLoginProviderRecord.issuer_url provider)) = Ok document ∧
       OidcDiscoveryDocument.issuer document = OidcLoginProviderRecord.issuer_url provider) ∧
    endpoint_from (OidcLoginProviderRecord.token_endpoint provider)
      (OidcDiscoveryDocument.token_endpoint <$> discovery)
      (OidcResolvedProviderMetadata.token_endpoint metadata) ∧
    endpoint_from (OidcLoginProviderRecord.jwks_uri provider)
      (OidcDiscoveryDocument.jwks_uri <$> discovery)
      (OidcResolvedProviderMetadata.jwks_uri metadata);
  pa_keys : http_jwks (OidcResolvedProviderMetadata.jwks_uri metadata) = Ok jwks;
  pa_token : ∃ form auth,
    http_token (OidcResolvedProviderMetadata.token_endpoint metadata) form auth = Ok id_token ∧
    ("grant_type", "authorization_code") ∈ form ∧
    ("code", trim (OidcLoginCallbackRequest.code request)) ∈ form ∧
    ("code_verifier", trim (OidcLoginCallbackRequest.code_verifier request)) ∈ form ∧
    ("redirect_uri", OidcLoginAttemptRecord.redirect_uri attempt) ∈ form ∧
    (("client_id", OidcLoginProviderRecord.client_id provider) ∈ form ∨
     ∃ secret, auth = Some (OidcLoginProviderRecord.client_id provider, secret));
}.

Lemma resolved_field configured discovered e value :
  resolved_metadata_field configured discovered e = Ok value → endpoint_from configured discovered value.
Proof.
  unfold resolved_metadata_field, trimmed, endpoint_from. cbv zeta. destruct (_ !=? _) eqn:Ec; btrue.
  - intros [= <-]. auto.
  - intros Hv%ok_or_ok. destruct discovered as [d|]; [|done]. destruct (_ ==? _) eqn:Ed; [done|].
    btrue. injection Hv as <-. eauto 10.
Qed.

Lemma metadata_endpoints provider discovery m :
  resolve_oidc_provider_metadata provider discovery = Ok m →
  (∀ document, discovery = Some document →
     OidcDiscoveryDocument.issuer document = OidcLoginProviderRecord.issuer_url provider) ∧
  endpoint_from (OidcLoginProviderRecord.token_endpoint provider)
    (OidcDiscoveryDocument.token_endpoint <$> discovery)
    (OidcResolvedProviderMetadata.token_endpoint m) ∧
  endpoint_from (OidcLoginProviderRecord.jwks_uri provider)
    (OidcDiscoveryDocument.jwks_uri <$> discovery) (OidcResolvedProviderMetadata.jwks_uri m) ∧
  OidcResolvedProviderMetadata.issuer_url m = OidcLoginProviderRecord.issuer_url provider ∧
  OidcResolvedProviderMetadata.accepted_audiences m = OidcLoginProviderRecord.accepted_audiences provider ∧
  OidcResolvedProviderMetadata.client_id m = OidcLoginProviderRecord.client_id provider.
Proof.
  unfold resolve_oidc_provider_metadata. intros C. checks C. apply reject_if_ok in C1.
  apply resolved_field in C3, C4. simplify_eq/=. split_and!; try done.
  intros document ->. by btrue.
Qed.

Lemma exchanged metadata attempt request secret id_token :
  exchange_oidc_authorization_code metadata attempt request secret = Ok id_token →
  ∃ form auth,
    http_token (OidcResolvedProviderMetadata.token_endpoint metadata) form auth = Ok id_token ∧
    ("grant_type", "authorization_code") ∈ form ∧
    ("code", trim (OidcLoginCallbackRequest.code request)) ∈ form ∧
    ("code_verifier", trim (OidcLoginCallbackRequest.code_verifier request)) ∈ form ∧
    ("redirect_uri", OidcLoginAttemptRecord.redirect_uri attempt) ∈ form ∧
    (("client_id", OidcResolvedProviderMetadata.client_id metadata) ∈ form ∨
     ∃ secret, auth = Some (OidcResolvedProviderMetadata.client_id metadata, secret)).
Proof.
  unfold exchange_oidc_authorization_code. cbv zeta. intros C. checks C. destruct u as [form auth].
  simpl in *. simplify_eq. exists form, auth. split; [done|].
  destruct (OidcResolvedProviderMetadata.token_endpoint_auth_method metadata);
    [|destruct secret; simpl in C0|destruct secret; simpl in C0]; simplify_eq/=; set_solver.
Qed.

Lemma select_jwk_ok jwks kid algorithm jwk :
  select_oidc_jwk jwks kid algorithm = Ok jwk →
  jwk ∈ jwks ∧ oidc_jwk_is_usable kid algorithm jwk = true.
Proof.
  unfold select_oidc_jwk. intros E. apply filter_iff. destruct kid as [kid|].
  - by apply ok_or_ok, find_Some_in in E as [E _].
  - destruct (List.filter _ _) as [|j [|]]; simplify_eq/=. apply list_elem_of_here.
Qed.

Lemma validate_id_token_ok metadata jwks id_token nonce now claims :
  validate_oidc_id_token metadata jwks id_token nonce now = Ok claims →
  token_verified metadata jwks id_token nonce now claims.
Proof.
  unfold validate_oidc_id_token. intros C. checks C. destruct u as [algorithm kid]. simpl in *.
  apply ok_or_ok in C0. apply reject_if_ok, orb_false_iff in C1 as [C1 Ca].
  apply select_jwk_ok in C2 as [Hj Hu]. apply ok_or_ok in C3. simplify_eq. split.
  - apply negb_false_iff in C1, Ca. apply existsb_iff in C1 as (name & Hn & He). btrue. eauto 15.
  - by apply check_claims_iff in C4.
Qed.

(** ** The attempt of a callback *)

Record attempt_fits (provider : OidcLoginProviderRecord.t) (attempt : OidcLoginAttemptRecord.t)
    (request : OidcLoginCallbackRequest.t) (now : Z) : Prop := {
  af_provider : OidcLoginProviderRecord.status provider = OidcLoginProviderStatus.Active;
  af_tenant : OidcLoginAttemptRecord.tenant_id attempt = OidcLoginProviderRecord.tenant_id provider;
  af_idp : OidcLoginAttemptRecord.identity_provider_id attempt
    = OidcLoginProviderRecord.identity_provider_id provider;
  af_active : OidcLoginAttemptRecord.status attempt = OidcLoginAttemptStatus.Active;
  af_live : (now < OidcLoginAttemptRecord.expires_at_unix attempt)%Z;
  af_state : OidcLoginAttemptRecord.state_hash attempt
    = hash_oidc_login_state (trim (OidcLoginCallbackRequest.state request));
  af_nonce : OidcLoginAttemptRecord.nonce_hash attempt
    = hash_oidc_login_nonce (trim (OidcLoginCallbackRequest.nonce request));
  af_pkce : OidcLoginAttemptRecord.pkce_verifier_hash attempt
    = hash_oidc_pkce_verifier (trim (OidcLoginCallbackRequest.code_verifier request));
}.

Lemma validate_attempt_ok provider attempt request now :
  validate_oidc_callback_attempt provider attempt request now = Ok tt →
  attempt_fits provider attempt request now.
Proof.
  unfold validate_oidc_callback_attempt. intros C. checks C.
  apply ensure_ok in C, C0, C1, C2, C3. btrue. by split.
Qed.

(** ** Completing a login *)

Lemma complete_oidc_login_ok c s u s' :
  complete_oidc_login c s = (Ok u, s') →
  InMemoryOidcLoginStore.consume_attempt c (PlatformServiceState.oidc_logins s)
    = (Ok tt, PlatformServiceState.oidc_logins s') ∧
  InMemoryPlatformAuthSessionStore.sessions (PlatformServiceState.auth_sessions s')
    = <[PlatformAuthSessionRecord.token_hash (OidcLoginCompletionRecord.session c) :=
          OidcLoginCompletionRecord.session c]>
        (InMemoryPlatformAuthSessionStore.sessions (PlatformServiceState.auth_sessions s)) ∧
  PlatformServiceState.authorization s' = PlatformServiceState.authorization s.
Proof.
  unfold complete_oidc_login. intros E. svc_inv E. apply gets_ok in E0 as [_ ->].
  apply zoom_ok in E1 as (x1 & _ & ->), E2 as (x2 & _ & ->), E3 as (x3 & E3 & ->),
    E4 as (x4 & E4 & ->), E5 as (x5 & _ & ->), E6 as (x6 & _ & ->), E as (x7 & _ & ->).
  simpl in *. destruct a2. split; [done|]. split; [|done].
  unfold InMemoryPlatformAuthSessionStore.record_auth_session in E4.
  destruct (validate_session_record _); by simplify_eq/=.
Qed.

(** No two login attempts share an id, which is random. *)
Definition attempt_ids_unique (s : PlatformServiceState.t) : Prop :=
  ∀ k1 k2 a1 a2,
    InMemoryOidcLoginStore.attempts (PlatformServiceState.oidc_logins s) !! k1 = Some a1 →
    InMemoryOidcLoginStore.attempts (PlatformServiceState.oidc_logins s) !! k2 = Some a2 →
    OidcLoginAttemptRecord.login_attempt_id a1 = OidcLoginAttemptRecord.login_attempt_id a2 →
    k1 = k2.

Lemma consume_attempt_ok c s k attempt x :
  attempt_ids_unique s →
  InMemoryOidcLoginStore.attempts (PlatformServiceState.oidc_logins s) !! k = Some attempt →
  OidcLoginAttemptRecord.login_attempt_id attempt = OidcLoginCompletionRecord.login_attempt_id c →
  InMemoryOidcLoginStore.consume_attempt c (PlatformServiceState.oidc_logins s) = (Ok tt, x) →
  InMemoryOidcLoginStore.attempts x
    = <[k := OidcLoginAttemptRecord.consumed attempt
               (OidcLoginCompletionRecord.consumed_at_unix c)]>
        (InMemoryOidcLoginStore.attempts (PlatformServiceState.oidc_logins s)).
Proof.
  intros Hu Hk Hid E. unfold InMemoryOidcLoginStore.consume_attempt in E.
  destruct (List.find _ _) as [[k' a']|] eqn:Ef; [|done].
  apply find_Some_in in Ef as [Ef%elem_of_entries Hof]. simpl in Hof.
  assert (k' = k) as ->.
  { eapply Hu; [done..|]. unfold InMemoryOidcLoginStore.is_attempt_of in Hof. btrue. congruence. }
  rewrite Hk in E. destruct (_ || _); by simplify_eq/=.
Qed.

Lemma resolved_metadata_ok provider s m s' :
  oidc_resolved_provider_metadata provider s = (Ok m, s') →
  s' = s ∧ ∃ discovery, resolve_oidc_provider_metadata provider discovery = Ok m ∧
    ∀ document, discovery = Some document →
      http_discovery (oidc_discovery_url (OidcLoginProviderRecord.issuer_url provider)) = Ok document.
Proof.
  unfold oidc_resolved_provider_metadata. intros E. svc_inv E.
  assert (s0 = s ∧ ∀ document, a = Some document →
    http_discovery (oidc_discovery_url (OidcLoginProviderRecord.issuer_url provider)) = Ok document)
    as [-> Hd].
  { destruct (oidc_metadata_needs_discovery provider); [|by svc_inv E0]. svc_inv E0.
    split; [done|]. by intros ? [= <-]. }
  split; [done|]. destruct (resolve_oidc_provider_metadata _ _) eqn:Er; simplify_eq. eauto.
Qed.

Lemma asked provider attempt request m secret jwks id_token :
  (∃ discovery, resolve_oidc_provider_metadata provider discovery = Ok m ∧
    ∀ document, discovery = Some document →
      http_discovery (oidc_discovery_url (OidcLoginProviderRecord.issuer_url provider)) = Ok document) →
  exchange_oidc_authorization_code m attempt request secret = Ok id_token →
  http_jwks (OidcResolvedProviderMetadata.jwks_uri m) = Ok jwks →
  provider_asked provider attempt request m jwks id_token.
Proof.
  intros (discovery & Hm & Hd) Ht Hj. apply exchanged in Ht.
  destruct (metadata_endpoints _ _ _ Hm) as (Hi & Htok & Hjwks & E1 & E2 & E3). split; try done.
  - exists discovery. split_and!; try done. auto.
  - by rewrite <- E3.
Qed.

Lemma client_secret_state metadata s r s' :
  oidc_client_secret_for_metadata env metadata s = (Ok r, s') → s' = s.
Proof.
  unfold oidc_client_secret_for_metadata, secret_ref_by_id, resolve_platform_secret. intros E.
  destruct (OidcResolvedProviderMetadata.client_secret_ref metadata); by svc_inv E.
Qed.

Lemma can_login_ok user s u s' :
  ensure_user_can_login user s = (Ok u, s') → s' = s ∧
  ∀ r, InMemoryPlatformUserStore.users (PlatformServiceState.users s) !! user = Some r →
    PlatformUserStatus.accepts_access (PlatformUserRecord.status r) = true.
Proof.
  unfold ensure_user_can_login, platform_user_by_id_including_deleted,
    InMemoryPlatformUserStore.user_including_deleted. intros E. svc_inv E.
  destruct (_ !! user) as [r|]; [|by svc_inv E].
  destruct (PlatformUserStatus.accepts_access _) eqn:Ea; [|done]. svc_inv E. split; [done|].
  by intros ? [= <-].
Qed.

Lemma attempt_for_state_ok raw s attempt s' :
  oidc_login_attempt_for_state raw s = (Ok attempt, s') → s' = s ∧
  InMemoryOidcLoginStore.attempts (PlatformServiceState.oidc_logins s)
    !! hash_oidc_login_state (trim raw) = Some attempt.
Proof. unfold oidc_login_attempt_for_state. intros E. svc_inv E. by apply ok_or_ok in E. Qed.

(** A callback that succeeds found an active attempt. *)
Lemma callback_attempt_active bytes now idp request s (body : V) s' :
  oidc_login_callback env bytes now idp request s = (Ok body, s') →
  ∃ attempt, InMemoryOidcLoginStore.attempts (PlatformServiceState.oidc_logins s)
      !! hash_oidc_login_state (trim (OidcLoginCallbackRequest.state request)) = Some attempt ∧
    OidcLoginAttemptRecord.status attempt = OidcLoginAttemptStatus.Active.
Proof.
  unfold oidc_login_callback. intros E. svc_inv E. apply found_ok in E1 as [_ ->].
  apply attempt_for_state_ok in E2 as [-> Ha]. destruct a2.
  apply validate_attempt_ok in E3. eauto using af_active.
Qed.

(** *** A used attempt stays used *)

Definition attempt_used (key : string) (s : PlatformServiceState.t) : Prop :=
  ∃ attempt, InMemoryOidcLoginStore.attempts (PlatformServiceState.oidc_logins s) !! key = Some attempt ∧
    OidcLoginAttemptRecord.status attempt ≠ OidcLoginAttemptStatus.Active.
Definition keeps_used (key : string) (s s' : PlatformServiceState.t) : Prop :=
  attempt_used key s → attempt_used key s'.
#[local] Instance keeps_used_preorder key : PreOrder (keeps_used key).
Proof. split; unfold keeps_used; [by intros s|auto]. Qed.

(** The request starts a login under this state. *)
Definition draws_state (key : string) (request : PlatformRequest (V := V)) : Prop :=
  match request with
  | StartOidcLogin _ state_bytes _ _ _ _ _ => hash_oidc_login_state (base64url state_bytes) = key
  | _ => False
  end.

Lemma used_by_consume key completion s :
  keeps_used key s (PlatformServiceState.set_oidc_logins
    (InMemoryOidcLoginStore.consume_attempt completion (PlatformServiceState.oidc_logins s)).2 s).
Proof.
  intros (a & Ha & Hs). unfold InMemoryOidcLoginStore.consume_attempt.
  destruct (List.find _ _) as [[k x]|]; [|by exists a]. destruct (_ !! k) as [b|] eqn:Eb; [|by exists a].
  destruct (_ || _); [by exists a|]. unfold attempt_used. simpl.
  destruct (decide (k = key)) as [->|Hne]; [rewrite lookup_insert_eq|rewrite lookup_insert_ne by done];
    by eexists.
Qed.

(** The other stores do not hold attempts. *)
Ltac used_leaf op :=
  first [apply moves_zoom; intros ?; apply used_by_consume
        | first [apply moves_zoom|apply moves_zoom_act];
          let s := fresh in let Hs := fresh in intros s Hs; exact Hs].

Lemma used_serve key request :
  ¬ draws_state key request → moves_by (keeps_used key) (serve (V := V) env request).
Proof.
  destruct request; intros Hne; unfold serve.
  2: {
    unfold start_oidc_login_for_provider. cbv zeta.
    do 5 (apply moves_bind; [apply _|moves_walk used_leaf|intros ?]).
    apply moves_bind_lift; [apply _|]. intros attempt Ha.
    assert (OidcLoginAttemptRecord.state_hash attempt = hash_oidc_login_state (base64url state_bytes))
      as Hh.
    { destruct (active_attempt _) as [x|] eqn:Ex; simplify_eq. unfold active_attempt in Ex. checks Ex.
      by simplify_eq. }
    apply moves_bind; [apply _| |intros ?; moves_walk used_leaf].
    apply moves_zoom_act. intros s (a' & Hs & Hu). exists a'. split; [|done]. simpl.
    rewrite lookup_insert_ne; [done|]. by rewrite Hh. }
  all: moves_walk used_leaf.
Qed.

Definition serve_all (requests : list PlatformRequest) (s : PlatformServiceState.t)
    : PlatformServiceState.t :=
  fold_left (λ s request, (serve (V := V) env request s).2) requests s.

Lemma used_serve_all key requests s :
  Forall (λ request, ¬ draws_state key request) requests →
  attempt_used key s → attempt_used key (serve_all requests s).
Proof.
  intros Hr. revert s. induction Hr as [|request requests Hne _ IH]; intros s Hs; [done|].
  apply IH. by apply (used_serve key request Hne s).
Qed.

(** No callback with the state of a used attempt succeeds. *)
Lemma used_refused requests bytes now idp request s (body : V) s' :
  let key := hash_oidc_login_state (trim (OidcLoginCallbackRequest.state request)) in
  Forall (λ request, ¬ draws_state key request) requests → attempt_used key s →
  oidc_login_callback env bytes now idp request (serve_all requests s) ≠ (Ok body, s').
Proof.
  intros key Hr Hu E. apply callback_attempt_active in E as (attempt & Ha & Hs).
  destruct (used_serve_all _ _ _ Hr Hu) as (used & Hused & Hnot). fold key in Ha. congruence.
Qed.

(** C35. An OIDC login that succeeds was verified in full and cannot be
    repeated.  The provider of the path was active; the attempt was stored
    under the hash of the state, active, not expired, of that provider and
    tenant, with the hashes of the nonce and of the PKCE verifier; the ID token is
    what the provider's token endpoint answered to the exchange of the code and
    the verifier, it was signed with an asymmetric algorithm by a usable key of the
    set fetched from the provider's key set endpoint, and its claims name the
    provider's issuer, an accepted audience, the nonce and an expiry in the future;
    and the user, if known, may log in.  Afterwards the session of the returned
    token is stored for that user, the attempt is consumed, no static grant has
    changed, and whatever requests are served, none of which starts a login under
    the same state, no callback with that state succeeds again. *)
Theorem oidc_login_verified_once (token_bytes : list Z) (now_unix : Z) (idp : string)
    (request : OidcLoginCallbackRequest.t) (s s' : PlatformServiceState.t) (body : V)
    (Hunique : attempt_ids_unique s)
    (Hrun : oidc_login_callback env token_bytes now_unix idp request s = (Ok body, s')) :
  ∃ provider attempt metadata jwks id_token claims,
    let key := hash_oidc_login_state (trim (OidcLoginCallbackRequest.state request)) in
    let session_token :=
      generate_session_token_with_prefix OIDC_CALLBACK_SESSION_TOKEN_PREFIX token_bytes in
    let completion :=
      oidc_login_completion_record provider attempt claims session_token now_unix in
    let session := OidcLoginCompletionRecord.session completion in
    InMemoryOidcLoginStore.providers (PlatformServiceState.oidc_logins s) !! idp = Some provider ∧
    InMemoryOidcLoginStore.attempts (PlatformServiceState.oidc_logins s) !! key = Some attempt ∧
    attempt_fits provider attempt request now_unix ∧
    provider_asked provider attempt request metadata jwks id_token ∧
    token_verified metadata jwks id_token (OidcLoginCallbackRequest.nonce request) now_unix claims ∧
    (∀ user, InMemoryPlatformUserStore.users (PlatformServiceState.users s)
               !! OidcLoginCompletionRecord.user_id completion = Some user →
       PlatformUserStatus.accepts_access (PlatformUserRecord.status user) = true) ∧
    InMemoryPlatformAuthSessionStore.sessions (PlatformServiceState.auth_sessions s')
      !! hash_session_token session_token = Some session ∧
    AuthenticatedActor.principal_id (PlatformAuthSessionRecord.actor session)
      = OidcLoginCompletionRecord.user_id completion ∧
    InMemoryOidcLoginStore.attempts (PlatformServiceState.oidc_logins s')
      = <[key := OidcLoginAttemptRecord.consumed attempt now_unix]>
          (InMemoryOidcLoginStore.attempts (PlatformServiceState.oidc_logins s)) ∧
    PlatformServiceState.authorization s' = PlatformServiceState.authorization s ∧
    (∀ requests bytes' now' idp' request' (body' : V) s'',
       Forall (λ request, ¬ draws_state key request) requests →
       trim (OidcLoginCallbackRequest.state request')
         = trim (OidcLoginCallbackRequest.state request) →
       oidc_login_callback env bytes' now' idp' request' (serve_all requests s') ≠ (Ok body', s'')).
Proof.
  unfold oidc_login_callback in Hrun. svc_inv Hrun. apply found_ok in E0 as [Hp ->].
  apply attempt_for_state_ok in E1 as [-> Ha]. destruct a2. apply validate_attempt_ok in E2.
  apply resolved_metadata_ok in E3 as [-> Hmeta]. apply client_secret_state in E4 as ->.
  destruct (validate_oidc_id_token _ _ _ _ _) eqn:Et in E7; simplify_eq.
  apply validate_id_token_ok in Et. apply can_login_ok in E8 as [-> Hlogin].
  apply complete_oidc_login_ok in E9 as (Hc & Hsess & Hauth).
  apply (consume_attempt_ok _ _ _ _ _ Hunique Ha) in Hc; [|done]. simpl in Hc.
  exists a0, a1, a3, a6, a5, a7. cbv zeta. split_and!; try done.
  - by eapply asked.
  - rewrite Hsess. apply lookup_insert_eq.
  - intros requests bytes' now' idp' request' body' s'' Hr Hst. apply used_refused; rewrite Hst; [done|].
    eexists. rewrite Hc, lookup_insert_eq. split; [reflexivity|done].
Qed.
End oidc.
