(* ===== verification/PlatScenarios.v ===== *)
(** * The platform service: concrete runs

    Small states on which requests are run: witnesses of the theorems, and the
    behaviours recorded as findings.  The hash keeps the last 32 bytes of its
    input, the identity provider answers every request with one token. *)

From S2P Require Import Prelude Order Text Json PlatAction PlatUser PlatRole PlatMembership.
From S2P Require Import PlatInvitation PlatAudit PlatSession PlatResource PlatRoute PlatIdentity.
From S2P Require Import PlatSecret PlatConfig PlatService PlatRequests PlatHandlers PlatLogin.
From S2P Require Import PlatLaws PlatAccess PlatInvariant PlatReach PlatHistory PlatJoin PlatAnswers.
From S2P Require Import PlatOidc.

(** ** Libraries *)

#[local] Instance sample_sha256 : Sha256Library :=
  λ s, take 32 (rev (bytes_of s) ++ repeat 0%Z 32).

#[local] Instance sample_jwt : JwtLibrary := {
  Jwk := unit;
  key_id := λ _, None;
  for_signatures := λ _, Some true;
  key_algorithm := λ _, Some "RS256";
  decode_header := λ token, if token ==? "token" then Some (Algorithm.RS256, None) else None;
  decode_token := λ _ _ issuer audiences token,
    Some (OidcIdTokenClaims.mk issuer "sub_1" (OidcAudience.Multiple audiences) 5000 "nonce" None
            false (Some "Ada") None);
}.

#[local] Instance sample_oidc : OidcLibrary := {
  http_discovery := λ _, Err (ServiceError.AuthenticationFailed "oidc_discovery_unavailable");
  http_jwks := λ _, Ok [tt];
  http_token := λ _ _ _, Ok "token";
  url_with_pairs := λ url _, Some url;
  base64url := lower_hex;
}.

Definition no_env : string → option string := λ _, None.

(** ** Fixtures *)

(** The headers of a session: its bearer token and its CSRF token. *)
Definition session_headers (token : string) (session : PlatformAuthSessionRecord.t) : HeaderMap :=
  λ name, if name ==? AUTHORIZATION then Some ("Bearer " +:+ token)
          else if name ==? PLATFORM_CSRF_TOKEN_HEADER then Some (platform_csrf_token session)
          else None.

Definition user_session (token organization principal : string) : PlatformAuthSessionRecord.t :=
  PlatformAuthSessionRecord.active ("sess_" +:+ principal) token
    (AuthenticatedActor.mk "ten_t" (Some organization) None principal ActorKind.User).
Definition admin_session : PlatformAuthSessionRecord.t := user_session "secret_a" "org_a" "usr_a".
Definition admin_headers : HeaderMap := session_headers "secret_a" admin_session.

(** [usr_a] administers [org_a]; a conversation belongs to [prj_b] of [org_b],
    another organization of the tenant. *)
Definition member (id organization principal : string) (status : PlatformMembershipStatus.t)
    : PlatformOrganizationMembershipRecord.t :=
  PlatformOrganizationMembershipRecord.mk id "ten_t" organization principal "user" status 1.
Definition project_member (id organization project principal : string) (parent : option string)
    (status : PlatformMembershipStatus.t) : PlatformProjectMembershipRecord.t :=
  PlatformProjectMembershipRecord.mk id "ten_t" organization project principal parent "user"
    status 1.
Definition binding (id : string) (organization project : option string) (principal role : string)
    : PlatformRoleBindingRecord.t :=
  PlatformRoleBindingRecord.mk id "ten_t" organization project principal role
    PlatformRoleBindingStatus.Active 1.
Definition user (id : string) : PlatformUserRecord.t :=
  PlatformUserRecord.mk id "ten_t" None None None id PlatformUserStatus.Active 1.
Definition foreign_conversation : ResourceOwnerRecord.t :=
  ResourceOwnerRecord.project "Conversation" "conv_b" "ten_t" "org_b" "prj_b".

Definition state (sessions : list PlatformAuthSessionRecord.t)
    (members : list PlatformOrganizationMembershipRecord.t)
    (project_members : list PlatformProjectMembershipRecord.t)
    (bindings : list PlatformRoleBindingRecord.t) (users : list PlatformUserRecord.t)
    : PlatformServiceState.t :=
  PlatformServiceState.mk
    (InMemoryResourceOwnerStore.mk {[("Conversation", "conv_b") := foreign_conversation]})
    (InMemoryPlatformAuthSessionStore.mk (list_to_map
       ((λ r, (PlatformAuthSessionRecord.token_hash r, r)) <$> sessions)))
    InMemoryPlatformBearerCredentialStore.new InMemoryPlatformMtlsIdentityStore.new
    (InMemoryPlatformResourceStore.mk {[("Conversation", "conv_b") :=
       PlatformResourceRecord.mk foreign_conversation
         (PlatformResourceData.Conversation (ConversationRecord.mk "plans" "active"))]})
    InMemoryPlatformSecretStore.new
    (InMemoryPlatformMembershipStore.mk
       (list_to_map ((λ m, (PlatformOrganizationMembershipRecord.organization_member_id m, m))
          <$> members))
       (list_to_map ((λ m, (PlatformProjectMembershipRecord.project_member_id m, m))
          <$> project_members)))
    InMemoryPlatformInvitationStore.new InMemoryPlatformExternalIdentityStore.new
    (InMemoryPlatformRoleBindingStore.mk (list_to_map
       ((λ b, (PlatformRoleBindingRecord.role_binding_id b, b)) <$> bindings)))
    (InMemoryPlatformUserStore.mk (list_to_map ((λ u, (PlatformUserRecord.user_id u, u)) <$> users)))
    InMemoryPlatformAuditStore.new InMemoryOidcLoginStore.new None 1048576 30000
    (FoundationAuthorizationEngine.new []).

Definition answer (request : PlatformRequest (V := Tree.t)) (s : PlatformServiceState.t) : Z :=
  match (serve (V := Tree.t) no_env request s).1 with
  | Ok _ => 200%Z
  | Err e => (ServiceError.status_and_code e).1
  end.
(** The answers to a sequence of requests. *)
Fixpoint answers (requests : list (PlatformRequest (V := Tree.t))) (s : PlatformServiceState.t) : list Z :=
  match requests with
  | [] => []
  | request :: requests => answer request s :: answers requests (serve no_env request s).2
  end.

(** ** An administrator of one organization reads a project of another *)

Definition two_organizations : PlatformServiceState.t :=
  state [admin_session] [member "om_a" "org_a" "usr_a" PlatformMembershipStatus.Active] []
    [binding "rb_a" (Some "org_a") None "usr_a" "organization_admin"] [].

Definition read_foreign : PlatformRequest (V := Tree.t) :=
  FoundationRequest admin_headers "GET" "/v1/conversations/conv_b".
Definition self_invitation : CreateOrganizationInvitationRequest.t :=
  CreateOrganizationInvitationRequest.mk (Some "inv_1") (Some "prj_b") None (Some "usr_a") None None.
Definition escalation : list (PlatformRequest (V := Tree.t)) :=
  [read_foreign;
   CreateOrganizationInvitation admin_headers [] "swp_inv_t" 1000 "org_a" self_invitation;
   AcceptAuthInvitation admin_headers [1%Z] [2%Z] 2000 "swp_inv_t";
   CreateRoleBinding admin_headers [3%Z] (CreateRoleBindingRequest.mk None None (Some "org_a")
     (Some "prj_b") "usr_a" "project_admin");
   read_foreign].

(** A project of another organization can be reached by inviting oneself:
    [create_organization_invitation] never checks that the project it names
    belongs to the organization, and acceptance and [create_role_binding] trust
    it.  An administrator of [org_a] with no membership or role anywhere else,
    who is refused a conversation of [prj_b] in [org_b], invites himself to
    [org_a] with project [prj_b], accepts, binds himself [project_admin] at
    ([org_a], [prj_b]), and reads the conversation; every step is answered 200. *)
Theorem self_invitation_crosses_organizations :
  answers escalation two_organizations = [403; 200; 200; 200; 200]%Z.
Proof. by vm_compute. Qed.

(** ** A project administrator undoes a suspension *)

(** [usr_a] administers [org_a], [usr_p] administers [prj_a] and [usr_c] may
    read there. *)
Definition one_project : PlatformServiceState.t :=
  state [admin_session; user_session "secret_p" "org_a" "usr_p";
         user_session "secret_c" "org_a" "usr_c"]
    [member "om_a" "org_a" "usr_a" PlatformMembershipStatus.Active;
     member "om_p" "org_a" "usr_p" PlatformMembershipStatus.Active;
     member "om_c" "org_a" "usr_c" PlatformMembershipStatus.Active]
    [project_member "pm_p" "org_a" "prj_a" "usr_p" (Some "om_p") PlatformMembershipStatus.Active;
     project_member "pm_c" "org_a" "prj_a" "usr_c" (Some "om_c") PlatformMembershipStatus.Active]
    [binding "rb_a" (Some "org_a") None "usr_a" "organization_admin";
     binding "rb_p" (Some "org_a") (Some "prj_a") "usr_p" "project_admin";
     binding "rb_c" (Some "org_a") (Some "prj_a") "usr_c" "project_admin"]
    [user "usr_a"; user "usr_c"].
Definition headers_of (token principal : string) : HeaderMap :=
  session_headers token (user_session token "org_a" principal).
Definition list_as_c : PlatformRequest (V := Tree.t) :=
  ListProjectMembers (headers_of "secret_c" "usr_c") "prj_a".
Definition undo_suspension : list (PlatformRequest (V := Tree.t)) :=
  [list_as_c;
   UpdateOrganizationMemberStatus admin_headers "org_a" "om_c"
     (UpdateMembershipStatusRequest.mk 1 "suspended" None);
   list_as_c;
   UpdateProjectMemberStatus (headers_of "secret_p" "usr_p") "prj_a" "pm_c"
     (UpdateMembershipStatusRequest.mk 2 "active" None);
   list_as_c].

(** A project administrator can undo an organization's suspension for his
    project: [update_project_member_status] does not look at the organization
    membership, which [create_project_member] and the active project of a
    session do require. *)
Lemma project_admin_undoes_suspension :
  answers undo_suspension one_project = [200; 200; 403; 200; 200]%Z.
Proof. by vm_compute. Qed.

(** ** A record of another tenant is overwritten *)

(** [usr_x] administers [org_x] of the tenant [ten_x]. *)
Definition other_session : PlatformAuthSessionRecord.t :=
  PlatformAuthSessionRecord.active "sess_usr_x" "secret_x"
    (AuthenticatedActor.mk "ten_x" (Some "org_x") None "usr_x" ActorKind.User).
Definition two_tenants : PlatformServiceState.t :=
  state [other_session]
    [member "om_a" "org_a" "usr_a" PlatformMembershipStatus.Active;
     PlatformOrganizationMembershipRecord.mk "om_x" "ten_x" "org_x" "usr_x" "user"
       PlatformMembershipStatus.Active 1] []
    [PlatformRoleBindingRecord.mk "rb_x" "ten_x" (Some "org_x") None "usr_x" "organization_admin"
       PlatformRoleBindingStatus.Active 1] [].
Definition take_member_id : PlatformRequest (V := Tree.t) :=
  CreateOrganizationMember (session_headers "secret_x" other_session) [] "org_x"
    (CreateOrganizationMemberRequest.mk (Some "om_a") "usr_y" None).

(** A client may choose the id of the member it creates, and the in-memory
    store inserts under it without looking: an administrator of one tenant
    replaces a membership of another. *)
Lemma chosen_member_id_overwrites_other_tenant :
  answer take_member_id two_tenants = 200%Z ∧
  PlatformOrganizationMembershipRecord.tenant_id
    <$> InMemoryPlatformMembershipStore.organization_members
          (PlatformServiceState.memberships (serve no_env take_member_id two_tenants).2) !! "om_a"
  = Some "ten_x".
Proof. by vm_compute. Qed.

(** ** Witnesses *)

Definition is_ok {A} (r : result ServiceError.t A) : bool :=
  match r with Ok _ => true | Err _ => false end.
Definition ok_body (r : result ServiceError.t Tree.t) : Tree.t :=
  match r with Ok b => b | Err _ => Tree.Null end.
Lemma ran (m : Svc Tree.t) s :
  is_ok (m s).1 = true → m s = (Ok (ok_body (m s).1), (m s).2).
Proof. by destruct (m s) as [[b|e] s']. Qed.

(** One static grant; and the same with a role binding of another tenant. *)
Definition with_bindings (bindings : gmap string PlatformRoleBindingRecord.t)
    : PlatformServiceState.t :=
  PlatformServiceState.set_role_bindings (InMemoryPlatformRoleBindingStore.mk bindings)
    (PlatformServiceState.new InMemoryResourceOwnerStore.new
       (FoundationAuthorizationEngine.new (ActionGrant.for_builtin_role "ten_t" "ten_t" "usr_a"
          BuiltInRole.TenantOwner))).
Definition foreign_binding : PlatformRoleBindingRecord.t :=
  PlatformRoleBindingRecord.mk "rb_x" "ten_x" None None "usr_a" "tenant_owner"
    PlatformRoleBindingStatus.Active 1.
Definition owner_actor : AuthenticatedActor.t :=
  AuthenticatedActor.mk "ten_t" None None "usr_a" ActorKind.User.

Lemma authorization_tenant_isolated_witness :
  ((authorize_service_action owner_actor PlatformAction.UserRead
      (ResourceRef.tenant "User" "ten_t" "ten_t") (with_bindings ∅)).1 = Ok tt ↔
   (authorize_service_action owner_actor PlatformAction.UserRead
      (ResourceRef.tenant "User" "ten_t" "ten_t")
      (with_bindings {["rb_x" := foreign_binding]})).1 = Ok tt) ∧
  (authorize_service_action owner_actor PlatformAction.UserRead
     (ResourceRef.tenant "User" "ten_t" "ten_t") (with_bindings ∅)).1 = Ok tt.
Proof.
  split; [|by vm_compute]. apply authorization_tenant_isolated. split; try done.
  intros b Hb. simpl. split; [by intros [k Hk]|].
  intros [k [_ <-]%lookup_singleton_Some]. discriminate Hb.
Defined.

Definition removal : Svc Tree.t :=
  remove_organization_member admin_headers "org_a" "om_c" (VersionedRequest.mk 1 None).
Lemma removed_member_loses_organization_witness :
  ∃ m, InMemoryPlatformMembershipStore.organization_members
         (PlatformServiceState.memberships (removal one_project).2) !! "om_c"
       = Some (PlatformOrganizationMembershipRecord.changed m PlatformMembershipStatus.Removed
                 (PlatformOrganizationMembershipRecord.membership_kind m)) ∧
    ∀ req, permitted (removal one_project).2 req → permitted one_project req.
Proof.
  pose proof (ran removal one_project ltac:(by vm_compute)) as Hrun. unfold removal at 1 in Hrun.
  destruct (removed_member_loses_organization _ _ _ _ _ _ _ Hrun)
    as (m & _ & _ & H1 & _ & H2 & _). eauto.
Defined.

Definition suspension_request : UpdateMembershipStatusRequest.t :=
  UpdateMembershipStatusRequest.mk 1 "suspended" None.
Definition suspension : Svc Tree.t :=
  update_organization_member_status admin_headers "org_a" "om_c" suspension_request.
Lemma suspended_member_loses_organization_witness :
  is_ok (suspension one_project).1 = true ∧
  (∀ req, permitted (suspension one_project).2 req → permitted one_project req).
Proof.
  split; [by vm_compute|].
  pose proof (ran suspension one_project ltac:(by vm_compute)) as Hrun.
  unfold suspension at 1 in Hrun.
  assert (membership_status_from_request (UpdateMembershipStatusRequest.status suspension_request)
    = Ok PlatformMembershipStatus.Suspended) as Hs by by vm_compute.
  destruct (suspended_member_loses_organization _ _ _ _ _ _ _ _ Hs ltac:(done) Hrun)
    as (m & _ & _ & _ & H1 & _). exact H1.
Defined.

(** [usr_o] owns the tenant and disables [usr_c]. *)
Definition owner_session : PlatformAuthSessionRecord.t := user_session "secret_o" "org_a" "usr_o".
Definition with_owner : PlatformServiceState.t :=
  state [owner_session; user_session "secret_c" "org_a" "usr_c"] [] []
    [binding "rb_o" None None "usr_o" "tenant_owner"] [user "usr_c"].
Definition disabling_request : UpdatePlatformUserStatusRequest.t :=
  UpdatePlatformUserStatusRequest.mk 1 "disabled" None (Some "confirm").
Definition disabling : Svc Tree.t :=
  update_platform_user_status (session_headers "secret_o" owner_session) [7%Z] 1000 "usr_c"
    disabling_request.
Lemma disabled_user_is_locked_out_witness :
  ensure_user_can_login "usr_c" (disabling with_owner).2
  = (Err (ServiceError.AuthenticationFailed "principal_disabled"), (disabling with_owner).2).
Proof.
  pose proof (ran disabling with_owner ltac:(by vm_compute)) as Hrun. unfold disabling at 1 in Hrun.
  assert (platform_user_status_from_request
    (UpdatePlatformUserStatusRequest.status disabling_request) = Ok PlatformUserStatus.Disabled)
    as Hs by by vm_compute.
  destruct (disabled_user_is_locked_out _ _ _ _ _ _ _ _ _ Hs ltac:(done) Hrun)
    as (u & actor & event & _ & _ & _ & _ & _ & H1 & _). exact H1.
Defined.

(** The single user logs in. *)
Definition single_config : PlatformConfig.t :=
  PlatformConfig.mk "127.0.0.1:8090" "local" None PlatformRepositoryBackendKind.InMemory 1048576
    30000 (Some (PlatformSingleUserConfig.new "root" "hunter2")).
Definition single_login : PlatformRequest (V := Tree.t) :=
  SingleUserLogin (repeat 171%Z 32)
    (Tree.Obj [("username", Tree.Str "root"); ("password", Tree.Str "hunter2")]).
Definition started : PlatformServiceState.t :=
  match build_in_memory_service_state single_config with
  | Ok s => s
  | Err _ => PlatformServiceState.new InMemoryResourceOwnerStore.new
               (FoundationAuthorizationEngine.new [])
  end.
Lemma reachable_states_well_formed_witness :
  answer single_login started = 200%Z ∧ well_formed (serve no_env single_login started).2.
Proof.
  split; [by vm_compute|].
  apply (reachable_states_well_formed (V := Tree.t) no_env single_config started);
    [by vm_compute|]. apply reaches_request, reaches_start.
Defined.

Lemma requests_never_forget_witness :
  evolves started (serve no_env single_login started).2.
Proof.
  apply (requests_never_forget (V := Tree.t) no_env). apply reaches_request, reaches_start.
Defined.

(** *** Joining by invitation *)

Lemma stored_of_list {A} (id : A → string) (P : A → Prop) (l : list A) :
  Forall P l → stored id P (list_to_map ((λ x, (id x, x)) <$> l)).
Proof.
  intros Hl k x Hx. apply elem_of_list_to_map_2, list_elem_of_fmap in Hx as (y & [= -> ->] & Hy).
  rewrite Forall_forall in Hl. auto.
Qed.

Lemma state_well_formed sessions members project_members bindings users :
  Forall (λ r, validate_session_record r = Ok tt) sessions →
  Forall valid_member members → Forall valid_project_member project_members →
  Forall valid_binding bindings → Forall valid_user users →
  well_formed (state sessions members project_members bindings users).
Proof.
  intros. split; simpl; try (by apply stored_of_list); try apply stored_empty.
  intros k x [<- <-]%lookup_singleton_Some. by vm_compute.
Qed.

(** [usr_a] has invited [usr_c], who accepts. *)
Definition invitation_of_c : CreateOrganizationInvitationRequest.t :=
  CreateOrganizationInvitationRequest.mk (Some "inv_1") (Some "prj_a") None (Some "usr_c") None None.
Definition guest_session : PlatformAuthSessionRecord.t := user_session "secret_c" "org_c" "usr_c".
Definition before_invitation : PlatformServiceState.t :=
  state [admin_session; guest_session]
    [member "om_a" "org_a" "usr_a" PlatformMembershipStatus.Active] []
    [binding "rb_a" (Some "org_a") None "usr_a" "organization_admin"] [].
Definition invited : PlatformServiceState.t :=
  (serve (V := Tree.t) no_env (CreateOrganizationInvitation admin_headers [] "swp_inv_t" 1000
     "org_a" invitation_of_c) before_invitation).2.
Definition acceptance_of_c : Svc Tree.t :=
  accept_auth_invitation (session_headers "secret_c" guest_session) [1%Z] [2%Z] 2000 "swp_inv_t".

Lemma accepted_invitation_joins_once_witness :
  ∃ i m principal, acceptance invited (acceptance_of_c invited).2 i m principal 2000.
Proof.
  assert (well_formed invited) as Hwf.
  { apply serve_keeps, state_well_formed; repeat constructor; by vm_compute. }
  pose proof (ran acceptance_of_c invited ltac:(by vm_compute)) as Hrun.
  unfold acceptance_of_c at 1 in Hrun.
  destruct (accepted_invitation_joins_once _ _ _ _ _ _ _ _ Hwf Hrun)
    as (raw & session & i & m & _ & _ & _ & _ & _ & _ & _ & Ha & _). eauto.
Defined.

(** *** Paging through the audit trail *)

(** Five events of [org_a] and one of another organization, two to a page. *)
Definition recorded (n : Z) (organization : string) : PlatformAuditEventRecord.t :=
  PlatformAuditEventRecord.mk ("aud_" +:+ lower_hex [n]) "ten_t" (Some organization) None "usr_a"
    ActorKind.User "platform.user.write" "User" "usr_b" "platform.user.status.update" None
    PLATFORM_AUDIT_REDACTION_PROFILE n.
Definition trail : list PlatformAuditEventRecord.t :=
  [recorded 3 "org_a"; recorded 1 "org_a"; recorded 6 "org_b"; recorded 5 "org_a"; recorded 2 "org_a";
   recorded 4 "org_a"].
Definition audited : PlatformServiceState.t :=
  PlatformServiceState.set_audits (InMemoryPlatformAuditStore.mk (list_to_map
    ((λ e, (PlatformAuditEventRecord.audit_event_id e, e)) <$> trail))) two_organizations.
Definition by_two : ListPlatformAuditEventsQuery.t :=
  ListPlatformAuditEventsQuery.mk (Some "org_a") None None None None None None (Some 2%N) None
    (Some "confirm").
Definition first_page : Svc Tree.t :=
  list_platform_audit_events admin_headers (with_cursor by_two None).

Lemma audit_pages_visit_every_event_witness :
  follow_listing (V := Tree.t) 6 admin_headers by_two None audited
  = Some (map audit_event_safe_json (map (λ n, recorded n "org_a") [5; 4; 3; 2; 1]%Z))
  ∧ ∃ events, follow_listing (V := Tree.t) (S (length events)) admin_headers by_two None audited
              = Some (map audit_event_safe_json events).
Proof.
  split; [vm_compute; reflexivity|].
  pose proof (ran first_page audited ltac:(by vm_compute)) as Hrun. unfold first_page at 1 in Hrun.
  destruct (@audit_pages_visit_every_event Tree.t Tree.library Tree.laws _ (λ _, eq_refl) eq_refl
    _ _ _ _ _ Hrun)
    as (actor & events & Ha & Hperm & _ & Hfollow).
  exists events. apply Hfollow. rewrite Hperm.
  assert (AuthenticatedActor.tenant_id actor = "ten_t") as ->
    by (vm_compute in Ha; by injection Ha as <-).
  apply N.leb_le. vm_compute. reflexivity.
Defined.

(** *** An OIDC login *)

Definition sample_provider : OidcLoginProviderRecord.t :=
  OidcLoginProviderRecord.mk "idp_1" "ten_t" "Acme" "https://idp.example" "https://idp.example/auth"
    "https://idp.example/token" "https://idp.example/jwks" "client" None
    OidcTokenEndpointAuthMethod.NoSecret "https://app.example/callback" ["openid"] ["client"]
    OidcLoginProviderStatus.Active.
Definition sample_attempt : OidcLoginAttemptRecord.t :=
  OidcLoginAttemptRecord.mk "ola_1" "ten_t" "idp_1" (hash_oidc_login_state "state")
    (hash_oidc_login_nonce "nonce") (hash_oidc_pkce_verifier "verifier")
    "https://app.example/callback" OidcLoginAttemptStatus.Active 1600 None.
Definition awaiting_callback : PlatformServiceState.t :=
  PlatformServiceState.set_oidc_logins
    (InMemoryOidcLoginStore.mk {["idp_1" := sample_provider]}
       {[hash_oidc_login_state "state" := sample_attempt]}) (state [] [] [] [] []).
Definition callback_request : OidcLoginCallbackRequest.t :=
  OidcLoginCallbackRequest.mk "state" "code" "nonce" "verifier".
Definition callback : Svc Tree.t :=
  oidc_login_callback no_env (repeat 171%Z 32) 1000 "idp_1" callback_request.

Lemma oidc_login_verified_once_witness :
  is_ok (callback awaiting_callback).1 = true ∧
  (∀ bytes now idp (body : Tree.t) s'',
     oidc_login_callback no_env bytes now idp callback_request
       (serve_all no_env [ListAuthProviders None; StartOidcLogin [1%Z] [2%Z] [3%Z] [4%Z] 1100 "idp_1" None]
          (callback awaiting_callback).2)
     ≠ (Ok body, s'')).
Proof.
  assert (attempt_ids_unique awaiting_callback) as Hu.
  { unfold attempt_ids_unique, awaiting_callback. simpl.
    intros k1 k2 a1 a2 [<- _]%lookup_singleton_Some [<- _]%lookup_singleton_Some. done. }
  pose proof (ran callback awaiting_callback ltac:(by vm_compute)) as Hrun.
  unfold callback at 1 in Hrun.
  destruct (oidc_login_verified_once _ _ _ _ _ _ _ _ Hu Hrun)
    as (p & a & md & jwks & tok & cl & _ & _ & _ & _ & _ & _ & _ & _ & _ & _ & Hno).
  split; [by vm_compute|].
  intros bytes now idp body s''. apply Hno; [|reflexivity].
  repeat constructor; simpl; [by intros []|by vm_compute].
Defined.

(** *** A suspended OIDC user logs in again *)

(** The membership an OIDC login records is active with version 1, whatever
    became of the one it replaces: an administrator's suspension of the user's
    organization membership ends at the user's next login. *)
Definition oidc_member_id : string :=
  "om_oidc_" +:+ stable_oidc_subject_suffix "ten_t" "idp_1" "sub_1".
Definition suspended_oidc_user : PlatformServiceState.t :=
  PlatformServiceState.set_memberships
    (InMemoryPlatformMembershipStore.mk
       {[oidc_member_id := PlatformOrganizationMembershipRecord.mk oidc_member_id "ten_t"
           ("org_oidc_" +:+ stable_oidc_subject_suffix "ten_t" "idp_1" "sub_1")
           ("usr_oidc_" +:+ stable_oidc_subject_suffix "ten_t" "idp_1" "sub_1") "user"
           PlatformMembershipStatus.Suspended 4]} ∅) awaiting_callback.
Lemma oidc_login_ends_suspension :
  let m := InMemoryPlatformMembershipStore.organization_members
    (PlatformServiceState.memberships (callback suspended_oidc_user).2) !! oidc_member_id in
  PlatformOrganizationMembershipRecord.status <$> m = Some PlatformMembershipStatus.Active ∧
  PlatformOrganizationMembershipRecord.resource_version <$> m = Some 1%Z.
Proof. by vm_compute. Qed.

(** ** A short secret is shown *)

(** The display mask of a secret of four characters or fewer is the secret. *)
Lemma short_secret_in_mask : secret_display_mask "1234" = "***1234".
Proof. by vm_compute. Qed.
